(* ===== verification/_CoqProject ===== *)
-Q . S2P
Prelude.v
Timestamp.v
TcpFlags.v
FlowState.v
FlowFsm.v
SeqList.v
Bytes.v
Consts.v
TapTypes.v
TunnelType.v
TapPort.v
Decapsulate.v
Endpoint.v
MetaPacket.v
Flow.v
FlowNode.v
FlowMap.v
FlowMapSpec.v
ServiceTable.v
ServiceSpec.v
PacketParse.v
FlowUpdate.v
FlowUpdateSpec.v
FlowCount.v
FlowDirection.v
TcpPerf.v
TcpPerfSpec.v
TcpPerfTraces.v
PacketSafety.v
OverwriteQueue.v
QueueConc.v
QueueSpec.v
DecapSafety.v
DecapTunnel.v
DecapSpec.v
PacketSpec.v
Capture.v
ChronoMap.v
ChronoHeap.v
ChronoOps.v
ChronoSpec.v
ChronoForward.v
ChronoTraces.v
FlowMerge.v
FlowLogSender.v
FlowSampling.v
FlowAggr.v
FlowAggrSpec.v
FlowAggrTraces.v
FlowAggrLogs.v
FlowAggrExamples.v
Meters.v
QuadConn.v
QuadTypes.v
QuadConnSpec.v
QuadGen.v
QuadGenSpec.v
QuadWindow.v
QuadTraces.v
QuadTraffic.v
QuadTimely.v
QuadConcurrent.v
QuadKey.v
QuadExamples.v
Documents.v
DocumentKey.v
Collector.v
CollectorSpec.v
CollectorRuns.v
CollectorL7.v
CollectorExamples.v
ProbeData.v
ProbeStream.v
ProbePgsql.v
ProbePgsqlSpec.v
ProbeCrpc.v
ProbeAmqp.v
ProbeAmqpSpec.v
ProbeRedis.v
ProbeDecode.v
