(* ===== verification/Prelude.v ===== *)
(** * Verification of the DeepFlow agent and the L7 probe

    Two programs observe the network traffic of a host.

    - [src/agent] (Rust): the DeepFlow agent.  A dispatcher takes frames from
      an interface, strips tunnels, parses the headers into a [MetaPacket] and
      hands it to a flow map, which finds or creates the flow of the packet,
      runs the TCP state machine and the TCP measurements on it, learns which
      end serves, and reports each flow to a queue in regular intervals and when
      it ends.  The quadruple generator merges the reports of a second and of a
      minute by addresses, port and place of the capture into metered flows for
      the collectors, and passes the reports on to the aggregation, which merges
      those of one flow and minute into a flow log and throttles the logs.  The
      collectors count metered flows and application meters in documents, one
      per window and key.
      Threads are connected by overwriting queues.
    - [src/l7probe] (C): the L7 probe.  Kernel programs capture the bytes of
      socket calls in chunks; each direction of a connection is a data stream
      whose chunks are joined and parsed into frames of its protocol, and a
      matcher pairs the frames of requests and responses.

    ** How the code is modelled

    Machine integers are [Z], with their width in the operations: [wadd w],
    [wsub w] and [wshl w] wrap at [w] bits, and [fits w z] says that [z] has [w]
    bits.  Bytes are [Z] below 256, slices and buffers are lists.  Records keep
    the names of the fields and are updated by [x <| f := v |>].  A computation
    that can abort is a [run]: [Ret] a value, or [Panic], which is a Rust panic
    (the agent is built with panic = abort) and in C an access outside of an
    object or another undefined behaviour.  Errors of the code are [result]s or
    states.  [&mut self] methods and functions on pointers take the record and
    return it.  [wp m Q] says that [m] returns a value with [Q].

    Loops that are not structural take fuel.  Fuel is a length of the input
    where each round consumes some of it, and lemmas next to the loops show
    that it is enough.  Where a loop of the code may not end, running out of
    fuel is a value of its own: [parse_loop] of ProbeStream returns [None], and
    the theorems give the fuel that is enough or show that none is.

    Code outside of the sources is a class with the laws that are used: the
    hash tables ([stdpp] maps, and where it shows the order in which they give
    their values), the LRU caches (ServiceTable, [LruMap] of QuadConn), the
    protobuf enum of tunnel types (TunnelType), the policy lookup and the L7
    parsers as seen by the flow map (FlowEnv of FlowUpdate), the clock and the
    random generator (AggrEnv of FlowAggr, QuadEnv of QuadGen, CollEnv of
    Collector), the plugin for the actions of policies (NpbPlugin of FlowMerge),
    and [malloc] (ProbeData).

    ** The agent: files and sources (under src/agent)

    - Timestamp, TcpFlags, Bytes, Consts: src/common/timestamp.rs and the flags,
      readers and constants of crates/public.
    - FlowState, FlowFsm: src/flow_generator/flow_state.rs and flow_config.rs.
      The two transition tables implement one readable transition function on
      every packet sequence; a session ends in [Closed] after both FINs and
      only then.
    - SeqList, TcpPerf, TcpPerfSpec, TcpPerfTraces: src/flow_generator/perf/tcp.rs.
      The list of segments stays sorted and its verdicts are sound; [parse]
      never panics; handshakes, response times and retransmissions are
      measured as intended; reports are exact and merge in any order.
    - TapTypes, TunnelType, TapPort, Decapsulate, DecapSafety, DecapTunnel,
      DecapSpec: src/common/tap_types.rs, tap_port.rs, decapsulate.rs and the
      tunnel stripping of src/dispatcher/base_dispatcher.rs.  What is stripped
      lies in the packet, and encapsulated frames come back.
    - Endpoint, MetaPacket, PacketParse, PacketSafety, PacketSpec:
      src/common/endpoint.rs, meta_packet.rs, lookup_key.rs.  On any bytes the
      parser stays in the packet, except for two unguarded reads; TCP segments
      are parsed back to their fields.
    - Capture: src/dispatcher/local_mode_dispatcher.rs.  From captured bytes to
      the TCP measurements, and the order of the packets.
    - Flow, FlowNode, FlowMap, FlowMapSpec: src/common/flow.rs and
      src/flow_generator/flow_node.rs, flow_map.rs.  A conversation is one
      flow; the time wheel loses no flow and keeps none past its timeout.  The
      operations on a flow are the interface [FlowOps] with the laws [FlowOpsOk].
    - ServiceTable, ServiceSpec: src/flow_generator/service_table.rs.  Scores are
      bytes; the highest needs evidence; a server that was seen stays known.
    - FlowUpdate, FlowUpdateSpec, FlowCount, FlowDirection: the operations on a
      flow in src/flow_generator/flow_map.rs.  They discharge [FlowOpsOk]; over
      any run every accepted packet is counted once, in a report or in a flow;
      a SYN/ACK names the server.
    - OverwriteQueue, QueueConc, QueueSpec: crates/public/src/queue.  Every
      interleaving of a sender, the receiver and closers is safe except for
      the cases shown; a bounded list is refined.
    - ChronoMap, ChronoHeap, ChronoOps, ChronoSpec, ChronoForward, ChronoTraces:
      crates/public/src/chrono_map.rs on a heap of nodes.  Every sequence of
      operations behaves like a sorted list of time chains, and nothing leaks.
    - FlowMerge, FlowLogSender, FlowSampling, FlowAggr, FlowAggrSpec,
      FlowAggrTraces, FlowAggrLogs, FlowAggrExamples: src/common/flow.rs,
      tagged_flow.rs and src/collector/flow_aggr.rs.  No report is lost between
      the flow map and the throttling queue, the reports of a flow and minute
      become one log, every log is accounted for, and the sampling is fair.
    - Meters, QuadConn, QuadTypes, QuadGen: src/metric/meter.rs,
      src/utils/lru.rs, possible_host.rs and src/collector/types.rs, mod.rs and
      quadruple_generator.rs.
    - QuadConnSpec, QuadGenSpec, QuadWindow, QuadTraces, QuadTraffic, QuadTimely,
      QuadConcurrent, QuadKey, QuadExamples: what they do.  The caches are maps
      while their keys fit; every slot and key gives one flow, the merge of its
      reports; traffic is conserved; reports in time are kept and sent in time;
      the load is the number of connections; the key identifies a quadruple.
    - Documents, Collector: src/metric/document.rs and src/collector/collector.rs.
    - DocumentKey, CollectorSpec, CollectorRuns, CollectorL7, CollectorExamples:
      which tags make two documents different, and that on
      any input each window and key gives one document, the merge of what the
      flows or meters of the window count under it.

    ** The probe: files and sources (under src/l7probe)

    - ProbeData, ProbeDecode: protocol/utils and protocol/common.  The decoders
      keep to their buffers; the string search finds the first occurrence or
      reads outside; varints round trip.
    - ProbeStream: data_stream.c over the interface [Protocol].
    - ProbePgsql, ProbePgsqlSpec: protocol/pgsql.  Messages come out of the
      stream as sent for every cut into chunks within stated conditions, and
      what happens without them.
    - ProbeCrpc: protocol/crpc.  What becomes of a chunk, and that the matcher
      never matches.
    - ProbeAmqp, ProbeAmqpSpec: protocol/amqp.  Whole frames are delivered, and
      the matcher records exactly the calls.
    - ProbeRedis: the matcher of protocol/redis.

    Theorems that are numbered [C1], [C2], ... are the properties the
    development is kept for.  Each with hypotheses is followed by a witness, a
    concrete input on which they hold.

    ** What is not modelled

    Of the agent: start-up, configuration, the controller session, senders,
    platform queries, plugins and the debug shell, which are I/O and glue over
    libraries; the other dispatchers and receive engines, which share the
    modelled parts; the eBPF bindings; the policy tables; the L7 parsers and
    their session logs, and the generator of application metrics.  Of a flow in the flow map: the
    tags of the policy lookup, the tap side, L7 logs, packet sequences and the
    statistics counters of the map; the aggregation has them beside the flow.
    Of the probe: MySQL, HTTP/1.x and the Redis parser, Kafka, whose calls are commented out, the payloads and the matcher of
    PostgreSQL, the tables of connections and metrics, freeing of memory, and
    the kernel programs, whose chunks are an input here.  Rust formatting,
    serialisation and unit tests are left out throughout.

    This file: machine integers, the monad of computations that can abort,
    record updates, sums, and the shared tactics and lemmas. *)

From stdpp Require Export base list numbers option.
From stdpp Require Export relations sorting.
From Stdlib Require Export ZArith Lia ZifyBool.

#[global] Set Default Goal Selector "!".
Open Scope Z_scope.

(** ** Running Rust code: a value, or a panic *)

(** The agent is built with [panic = 'abort'] (src/agent/Cargo.toml): a panic
    ends the process, so a computation either returns a value or is [Panic]. *)
Inductive run (A : Type) : Type :=
| Ret (a : A)
| Panic.
Arguments Ret {A} a.
Arguments Panic {A}.

#[export] Instance run_ret : MRet run := fun A a => Ret a.
#[export] Instance run_bind : MBind run := fun A B f m =>
  match m with Ret a => f a | Panic => Panic end.
#[export] Instance run_fmap : FMap run := fun A B f m =>
  match m with Ret a => Ret (f a) | Panic => Panic end.

Definition returns {A} (m : run A) : Prop := exists a, m = Ret a.

(** [m] returns, with a value that satisfies [Q] (total correctness). *)
Definition wp {A} (m : run A) (Q : A -> Prop) : Prop :=
  match m with Ret a => Q a | Panic => False end.

(** If [m] returns, its value satisfies [Q]. *)
Definition wlp {A} (m : run A) (Q : A -> Prop) : Prop :=
  match m with Ret a => Q a | Panic => True end.

(** [m] panics only in the situation [B]; otherwise its value satisfies [Q]. *)
Definition wpe {A} (B : Prop) (m : run A) (Q : A -> Prop) : Prop :=
  match m with Ret a => Q a | Panic => B end.

(** [assert!(b)] *)
Definition rassert (b : bool) : run unit := if b then Ret tt else Panic.

(** [Option::unwrap], and indexing of a [Vec] or an array. *)
Definition unwrap {A} (o : option A) : run A :=
  match o with Some a => Ret a | None => Panic end.

(** A [for] loop whose body can panic. *)
Fixpoint rfold {A B} (f : B -> A -> run B) (l : list A) (b : B) : run B :=
  match l with
  | [] => Ret b
  | a :: l => match f b a with Ret b => rfold f l b | Panic => Panic end
  end.

(** [Result<A, E>] *)
Inductive result (A E : Type) : Type :=
| Ok (a : A)
| Err (e : E).
Arguments Ok {A E} a.
Arguments Err {A E} e.

Declare Scope rust_scope.
Delimit Scope rust_scope with rust.

(** ** Record update *)

(** [Fields R] rebuilds a record from its fields; the update of one field is
    derived from it by abstracting that field's projection, so that
    [x <| f := v |>] computes to a constructor; a projection that is not a
    field of the record has no update. *)
Class Fields (R : Type) := rebuild : R -> R.
Class Update {R T : Type} (f : R -> T) := update : (T -> T) -> R -> R.
Arguments update {R T} f {_} _ _.

Ltac derive_update f :=
  lazymatch type of f with
  | ?R -> _ =>
      let c := constr:(_ : Fields R) in
      let body := eval red in c in
      lazymatch eval pattern f in body with
      | (fun _ => ?b) _ => fail "no field" f
      | ?abs _ =>
          let u := eval cbv beta in (fun g => abs (fun x => g (f x))) in exact u
      end
  end.

#[export] Hint Extern 0 (Update ?f) => derive_update f : typeclass_instances.

Notation "x <| f := v |>" := (update f (fun _ => v) x)
  (at level 1, left associativity, format "x  <|  f  :=  v  |>") : rust_scope.

(** ** Machine integers *)

(** An unsigned integer of width [w] is a [Z] in [0, 2^w).  Release builds
    wrap on overflow (no [overflow-checks] in src/agent/Cargo.toml). *)
Definition umod (w : Z) : Z := 2 ^ w.
Definition fits (w z : Z) : Prop := 0 <= z < 2 ^ w.
Definition wrap (w z : Z) : Z := z mod 2 ^ w.

Definition wadd (w a b : Z) : Z := wrap w (a + b).
Definition wsub (w a b : Z) : Z := wrap w (a - b).
Definition wshl (w a n : Z) : Z := wrap w (Z.shiftl a n).

Notation "a +₈ b" := (wadd 8 a b) (at level 50, left associativity) : rust_scope.
Notation "a -₈ b" := (wsub 8 a b) (at level 50, left associativity) : rust_scope.
Notation "a +₁₆ b" := (wadd 16 a b) (at level 50, left associativity) : rust_scope.
Notation "a +₃₂ b" := (wadd 32 a b) (at level 50, left associativity) : rust_scope.
Notation "a -₃₂ b" := (wsub 32 a b) (at level 50, left associativity) : rust_scope.
Notation "a +₆₄ b" := (wadd 64 a b) (at level 50, left associativity) : rust_scope.
Notation "a -₆₄ b" := (wsub 64 a b) (at level 50, left associativity) : rust_scope.
Open Scope rust_scope.

#[export] Instance fits_dec w z : Decision (fits w z).
Proof. unfold fits. apply _. Defined.

(** ** Shared automation *)

Create HintDb rust discriminated.

(** Case analysis on the first [match] or [if] of the goal, keeping the
    equation; [case_all] repeats it and discharges impossible branches. *)
Ltac case_goal :=
  match goal with
  | |- context [match ?x with _ => _ end] => destruct x eqn:?
  end.

Ltac case_hyp H :=
  match type of H with
  | context [match ?x with _ => _ end] => destruct x eqn:?
  end.

Ltac case_all := repeat (case_goal; simplify_eq/=; try done).

(** Turn the outcome of a finished computation into equations. *)
Ltac run_inv :=
  repeat match goal with
  | H : Ret _ = Ret _ |- _ => injection H as H
  | H : Panic = Ret _ |- _ => discriminate H
  | H : Ret _ = Panic |- _ => discriminate H
  | H : Ok _ = Ok _ |- _ => injection H as H
  | H : Err _ = Err _ |- _ => injection H as H
  | H : Ok _ = Err _ |- _ => discriminate H
  | H : Err _ = Ok _ |- _ => discriminate H
  end; subst.

(** A projection of a conditional. *)
Lemma proj_if {A B} (f : A -> B) (b : bool) x y : f (if b then x else y) = if b then f x else f y.
Proof. by destruct b. Qed.

Lemma if_same {A} (b : bool) (x : A) : (if b then x else x) = x.
Proof. by destruct b. Qed.

(** ** Lemmas on machine integers *)

Lemma wrap_small w z : fits w z -> wrap w z = z.
Proof. unfold wrap, fits. apply Z.mod_small. Qed.

Lemma wrap_fits w z : 0 <= w -> fits w (wrap w z).
Proof. intros Hw. apply Z.mod_pos_bound. lia. Qed.

Lemma wadd_small w a b : fits w (a + b) -> wadd w a b = a + b.
Proof. apply wrap_small. Qed.

Lemma wsub_small w a b : fits w (a - b) -> wsub w a b = a - b.
Proof. apply wrap_small. Qed.

Lemma wadd_fits w a b : 0 <= w -> fits w (wadd w a b).
Proof. apply wrap_fits. Qed.

(** Disjoint bits add up. *)
Lemma lor_shiftl_add b v k : 0 <= k -> fits k b -> Z.lor b (Z.shiftl v k) = v * 2 ^ k + b.
Proof.
  intros Hk Hb. assert (Z.land b (Z.shiftl v k) = 0) as Hz.
  { apply Z.bits_inj_0. intros n. rewrite Z.land_spec. destruct (decide (n < 0)) as [Hn|Hn].
    - by rewrite Z.testbit_neg_r.
    - destruct (decide (n < k)) as [Hlt|Hge].
      + by rewrite Z.shiftl_spec_low, andb_false_r.
      + destruct (decide (b = 0)) as [->|Hb0]; [by rewrite Z.testbit_0_l|].
        rewrite (Z.bits_above_log2 b n); [done|by destruct Hb|].
        apply Z.log2_lt_pow2; [unfold fits in Hb; lia|].
        eapply Z.lt_le_trans; [apply Hb|apply Z.pow_le_mono_r; lia]. }
  pose proof (Z.add_lor_land b (Z.shiftl v k)) as Ha. rewrite Hz, Z.shiftl_mul_pow2 in * by done. lia.
Qed.

Lemma wadd_assoc w a b c : wadd w a (wadd w b c) = wadd w (wadd w a b) c.
Proof.
  unfold wadd, wrap. rewrite Zplus_mod_idemp_r, Zplus_mod_idemp_l. by rewrite Z.add_assoc.
Qed.

Lemma wadd_comm w a b : wadd w a b = wadd w b a.
Proof. unfold wadd. by rewrite Z.add_comm. Qed.

(** An increment of either summand is an increment of the sum. *)
Lemma wadd_incr_l w a b : wadd w (wadd w a 1) b = wadd w (wadd w a b) 1.
Proof. by rewrite <- wadd_assoc, (wadd_comm w 1 b), wadd_assoc. Qed.

Lemma wadd_incr_r w a b : wadd w a (wadd w b 1) = wadd w (wadd w a b) 1.
Proof. apply wadd_assoc. Qed.

(** The wrap-around test of [u32] code: [a.wrapping_add(b) < a] holds exactly
    when the mathematical sum leaves the machine range. *)
Lemma wadd_lt_overflow w a b :
  0 <= w -> fits w a -> fits w b -> (wadd w a b < a <-> 2 ^ w <= a + b).
Proof.
  unfold fits, wadd, wrap. intros Hw Ha Hb.
  destruct (decide (a + b < 2 ^ w)) as [Hlt|Hge].
  - rewrite Z.mod_small by lia. lia.
  - assert ((a + b) mod 2 ^ w = a + b - 2 ^ w) as ->; [|lia].
    symmetry. apply Z.mod_unique with 1; lia.
Qed.

#[export] Hint Resolve wrap_fits wadd_fits : rust.
#[export] Hint Extern 1 (0 <= _) => lia : rust.

(** ** Lemmas on the panic monad *)

Lemma returns_ret {A} (a : A) : returns (Ret a).
Proof. by exists a. Qed.

Lemma run_bind_returns {A B} (m : run A) (f : A -> run B) a :
  m = Ret a -> returns (f a) -> returns (m ≫= f).
Proof. by intros ->. Qed.

Lemma run_bind_Ret {A B} (m : run A) (f : A -> run B) b :
  m ≫= f = Ret b <-> exists a, m = Ret a /\ f a = Ret b.
Proof. destruct m as [a|]; cbn; naive_solver. Qed.

Lemma wp_bind {A B} (m : run A) (f : A -> run B) Q :
  wp m (fun a => wp (f a) Q) -> wp (m ≫= f) Q.
Proof. by destruct m. Qed.

Lemma wp_mono {A} (m : run A) (P Q : A -> Prop) : wp m P -> (forall a, P a -> Q a) -> wp m Q.
Proof. destruct m; cbn; auto. Qed.

Lemma wlp_bind {A B} (m : run A) (f : A -> run B) Q :
  wlp m (fun a => wlp (f a) Q) -> wlp (m ≫= f) Q.
Proof. by destruct m. Qed.

Lemma wlp_mono {A} (m : run A) (P Q : A -> Prop) :
  wlp m P -> (forall a, P a -> Q a) -> wlp m Q.
Proof. destruct m; cbn; auto. Qed.

(** A loop with an invariant on what is left to do. *)
Lemma wp_rfold {A B} (f : B -> A -> run B) (I : list A -> B -> Prop) l b :
  I l b -> (forall a l b, I (a :: l) b -> wp (f b a) (I l)) -> wp (rfold f l b) (I []).
Proof.
  intros Hb Hf. revert b Hb. induction l as [|a l IH]; intros b Hb; [done|]. cbn [rfold].
  specialize (Hf a l b Hb). destruct (f b a) as [b'|]; [by apply IH|done].
Qed.

Lemma wpe_bind {A C} (B : Prop) (m : run A) (f : A -> run C) Q :
  wpe B m (fun a => wpe B (f a) Q) -> wpe B (m ≫= f) Q.
Proof. by destruct m. Qed.

Lemma wpe_mono {A} (B B' : Prop) (m : run A) (P Q : A -> Prop) :
  wpe B m P -> (B -> B') -> (forall a, P a -> Q a) -> wpe B' m Q.
Proof. destruct m; cbn; auto. Qed.

Lemma wp_and {A} (m : run A) (P Q : A -> Prop) : wp m P -> wp m Q -> wp m (fun a => P a /\ Q a).
Proof. destruct m; cbn; auto. Qed.

Lemma wp_exists {A} (m : run A) Q : wp m Q <-> exists a, m = Ret a /\ Q a.
Proof. destruct m; cbn; naive_solver. Qed.

#[export] Hint Resolve returns_ret : rust.

(** ** Lemmas on lists *)

Lemma list_insert_middle {A} (l1 l2 : list A) x y i :
  i = length l1 -> <[i := y]> (l1 ++ x :: l2) = l1 ++ y :: l2.
Proof. intros ->. rewrite insert_app_r_alt, Nat.sub_diag; done. Qed.

(** Insert an element into a sorted list between its neighbours. *)
Lemma StronglySorted_insert {A} (R : relation A) `{!Transitive R} (l1 l2 : list A) x :
  StronglySorted R (l1 ++ l2) ->
  (forall y, last l1 = Some y -> R y x) ->
  (forall y, head l2 = Some y -> R x y) ->
  StronglySorted R (l1 ++ x :: l2).
Proof.
  rewrite StronglySorted_app. intros (H12 & H1 & H2) Hl Hr.
  assert (Forall (R x) l2) as Hx2.
  { destruct l2 as [|y l2]; [done|]. inversion_clear H2 as [|? ? ? Hy].
    specialize (Hr y eq_refl). constructor; [done|].
    eapply Forall_impl; [done|]. intros z. by apply transitivity. }
  rewrite StronglySorted_app. split_and!; [|done|by constructor].
  intros y z Hy Hz. apply elem_of_cons in Hz as [->|Hz]; [|by auto].
  clear H12 Hr Hx2 H2. destruct l1 as [|a l1 _] using rev_ind; [by apply elem_of_nil in Hy|].
  rewrite last_snoc in Hl. specialize (Hl a eq_refl).
  apply elem_of_app in Hy as [Hy|Hy%list_elem_of_singleton]; [|by subst].
  transitivity a; [|done]. eapply StronglySorted_app_1_elem_of; [done..|]. by left.
Qed.

Lemma StronglySorted_delete {A} (R : relation A) (l1 l2 : list A) x :
  StronglySorted R (l1 ++ x :: l2) -> StronglySorted R (l1 ++ l2).
Proof.
  rewrite !StronglySorted_app. intros (H12 & H1 & H2). inversion_clear H2.
  split_and!; [|done..]. intros. apply H12; [done|]. by right.
Qed.

(** The elements around a position of a sorted list are related to it. *)
Lemma StronglySorted_middle {A} (R : relation A) (l1 l2 : list A) x :
  StronglySorted R (l1 ++ x :: l2) ->
  (forall y, last l1 = Some y -> R y x) /\ (forall y, head l2 = Some y -> R x y).
Proof.
  intros H. split.
  - intros y Hy. eapply StronglySorted_app_1_elem_of; [done| |by left].
    by apply last_Some_elem_of in Hy.
  - apply StronglySorted_app_1_r in H. inversion_clear H as [|? ? _ HF].
    intros y Hy. destruct l2; simplify_eq/=. by inversion_clear HF.
Qed.

Lemma list_last_two {A} (l : list A) :
  (2 <= length l)%nat -> exists pre a b, l = pre ++ [a; b].
Proof.
  intros Hl. destruct l as [|b l _] using rev_ind; [cbn in *; lia|].
  destruct l as [|a l _] using rev_ind; [cbn in *; lia|].
  exists l, a, b. by rewrite <- app_assoc.
Qed.

Lemma sublist_take_take {A} (l : list A) n m : (n <= m)%nat -> sublist (take n l) (take m l).
Proof.
  intros Hnm. replace (take n l) with (take n (take m l)) by (rewrite take_take; f_equal; lia).
  apply sublist_take.
Qed.

Lemma take_min_length {A} (l : list A) n : take (Nat.min (length l) n) l = take n l.
Proof.
  destruct (decide (n <= length l)%nat); [by rewrite Nat.min_r|].
  rewrite Nat.min_l by lia. by rewrite !take_ge by lia.
Qed.

(** ** Filtering *)

Lemma join_cons {A} (l : list A) ls : mjoin (l :: ls) = l ++ mjoin ls.
Proof. done. Qed.

Lemma filter_all {A} (P : A -> Prop) `{forall x, Decision (P x)} l : Forall P l -> filter P l = l.
Proof. induction 1 as [|x l Hx _ IH]; [done|]. rewrite filter_cons_True by done. by f_equal. Qed.

Lemma filter_none {A} (P : A -> Prop) `{forall x, Decision (P x)} l : Forall (fun x => ~ P x) l -> filter P l = [].
Proof. induction 1 as [|x l Hx _ IH]; [done|]. by rewrite filter_cons_False. Qed.

(** ** Sums *)

Definition sumZ {A} (f : A -> Z) (l : list A) : Z := foldr (fun x z => f x + z) 0 l.

Lemma sumZ_cons {A} (f : A -> Z) x l : sumZ f (x :: l) = f x + sumZ f l.
Proof. done. Qed.

Lemma sumZ_app {A} (f : A -> Z) l1 l2 : sumZ f (l1 ++ l2) = sumZ f l1 + sumZ f l2.
Proof. induction l1 as [|x l1 IH]; [done|]. rewrite <- app_comm_cons, !sumZ_cons. lia. Qed.

#[export] Instance sumZ_perm {A} (f : A -> Z) : Proper (Permutation ==> eq) (sumZ f).
Proof. intros l1 l2 H. induction H; rewrite ?sumZ_cons; [done|lia..]. Qed.

Lemma sumZ_nonneg {A} (f : A -> Z) l : Forall (fun x => 0 <= f x) l -> 0 <= sumZ f l.
Proof. induction 1; rewrite ?sumZ_cons; [done|lia]. Qed.

Lemma sumZ_insert {A} (f : A -> Z) l i x y : l !! i = Some x -> sumZ f (<[i := y]> l) = sumZ f l - f x + f y.
Proof.
  intros Hi. rewrite <- (take_drop_middle l i x Hi) at 2. rewrite insert_take_drop by (by eapply lookup_lt_Some).
  rewrite !sumZ_app, !sumZ_cons. lia.
Qed.

Arguments sumZ : simpl never.

(** ** Runs that may panic *)

Lemma wp_wlp {A} (m : run A) Q : wp m Q -> wlp m Q.
Proof. by destruct m. Qed.

Lemma wp_wlp_and {A} (m : run A) P Q : wp m P -> wlp m Q -> wp m (fun a => P a /\ Q a).
Proof. by destruct m. Qed.

Lemma wlp_any {A} (m : run A) Q : (forall a, Q a) -> wlp m Q.
Proof. destruct m; cbn; auto. Qed.

Lemma wlp_rfold {A B} (f : B -> A -> run B) (I : list A -> B -> Prop) l b :
  I l b -> (forall a l b, I (a :: l) b -> wlp (f b a) (I l)) -> wlp (rfold f l b) (I []).
Proof.
  intros Hb Hf. revert b Hb. induction l as [|a l IH]; intros b Hb; [done|]. cbn [rfold].
  apply wlp_bind. eapply wlp_mono; [by apply Hf|]. apply IH.
Qed.
