(* ===== verification/Timestamp.v ===== *)
(** * Timestamps (src/agent/src/common/timestamp.rs)

    A [Timestamp] is a [u64] count of nanoseconds.  [Add] is [u64] addition,
    [Sub] panics explicitly when the result would be negative. *)

From S2P Require Import Prelude.

Module Timestamp.

Definition t := Z.

Definition NANOS_IN_SECOND : Z := 1000000000.
Definition NANOS_IN_MILLIS : Z := 1000000.
Definition NANOS_IN_MICROS : Z := 1000.
Definition ZERO : t := 0.

(** [From<Duration>], with a [Duration] as its nanoseconds *)
Definition from_duration (d : Z) : t := wrap 64 d.
Definition from_nanos (nanos : Z) : t := nanos.
Definition as_nanos (s : t) : Z := s.
Definition from_micros (micros : Z) : t := wrap 64 (micros * NANOS_IN_MICROS).
Definition as_micros (s : t) : Z := s / NANOS_IN_MICROS.
Definition from_millis (millis : Z) : t := wrap 64 (millis * NANOS_IN_MILLIS).
Definition as_millis (s : t) : Z := s / NANOS_IN_MILLIS.
Definition from_secs (secs : Z) : t := wrap 64 (secs * NANOS_IN_SECOND).
Definition as_secs (s : t) : Z := s / NANOS_IN_SECOND.
Definition is_zero (s : t) : bool := s =? 0.

Definition round_to (s rhs : t) : run t :=
  if rhs =? 0 then Panic else Ret (wrap 64 (s / rhs * rhs)).

Definition round_to_minute (s : t) : run t := round_to s (from_secs 60).

Definition add (s rhs : t) : t := s +₆₄ rhs.
Definition sub (s rhs : t) : run t := if s <? rhs then Panic else Ret (s - rhs).

(** ** Properties *)

Lemma sub_ret s rhs : rhs <= s -> sub s rhs = Ret (s - rhs).
Proof. unfold sub. intros. case_goal; [lia|done]. Qed.

End Timestamp.
