(* ===== verification/TcpFlags.v ===== *)
(** * TCP flags and packet directions

    [TcpFlags] of src/agent/crates/public/src/enums.rs (a [bitflags!] struct
    over [u8]) and [PacketDirection] of src/agent/src/common/flow.rs. *)

From S2P Require Import Prelude.

Module TcpFlags.

Definition FIN : Z := 1.
Definition SYN : Z := 2.
Definition RST : Z := 4.
Definition PSH : Z := 8.
Definition ACK : Z := 16.
Definition URG : Z := 32.
Definition MASK : Z := 63.

Definition SYN_ACK : Z := Z.lor SYN ACK.
Definition FIN_ACK : Z := Z.lor FIN ACK.
Definition FIN_PSH_ACK : Z := Z.lor (Z.lor FIN PSH) ACK.
Definition RST_ACK : Z := Z.lor RST ACK.
Definition RST_PSH_ACK : Z := Z.lor (Z.lor RST PSH) ACK.
Definition PSH_ACK : Z := Z.lor PSH ACK.
Definition PSH_ACK_URG : Z := Z.lor (Z.lor PSH ACK) URG.

(** [bitflags]: [contains] and [intersects]. *)
Definition contains (f g : Z) : bool := Z.land f g =? g.
Definition intersects (f g : Z) : bool := negb (Z.land f g =? 0).

Definition is_invalid (f : Z) : bool :=
  let m := Z.land f MASK in
  negb ((m =? SYN) || (m =? SYN_ACK) || (m =? FIN) || (m =? FIN_ACK) || (m =? FIN_PSH_ACK)
        || (m =? RST) || (m =? RST_ACK) || (m =? RST_PSH_ACK)
        || (m =? ACK) || (m =? PSH_ACK) || (m =? PSH_ACK_URG)).

(** The masked value of a flags byte is one of the 64 table indices. *)
Lemma land_mask_bound f : 0 <= Z.land f MASK < 64.
Proof.
  change MASK with (Z.ones 6). rewrite Z.land_ones by lia.
  apply Z.mod_pos_bound. lia.
Qed.

Lemma land_mask_idem f : Z.land (Z.land f MASK) MASK = Z.land f MASK.
Proof. by rewrite <- Z.land_assoc. Qed.

(** Reduce a statement about masked flags to its 64 instances. *)
Lemma forall_masked (P : Z -> Prop) f :
  Forall P (seqZ 0 64) -> P (Z.land f MASK).
Proof.
  rewrite Forall_forall. intros H. apply H, elem_of_seqZ.
  pose proof (land_mask_bound f). lia.
Qed.

(** The six kinds of segment the flow state machine distinguishes. *)
Inductive class := CSyn | CSynAck | CFin | CRst | CAck | CData | CInvalid.

#[export] Instance class_eq_dec : EqDecision class.
Proof. solve_decision. Defined.

Definition classify (f : Z) : class :=
  let m := Z.land f MASK in
  if m =? SYN then CSyn
  else if m =? SYN_ACK then CSynAck
  else if (m =? FIN) || (m =? FIN_ACK) || (m =? FIN_PSH_ACK) then CFin
  else if (m =? RST) || (m =? RST_ACK) || (m =? RST_PSH_ACK) then CRst
  else if m =? ACK then CAck
  else if (m =? PSH_ACK) || (m =? PSH_ACK_URG) then CData
  else CInvalid.

Lemma classify_mask f : classify (Z.land f MASK) = classify f.
Proof. unfold classify. by rewrite land_mask_idem. Qed.

Lemma classify_invalid f : is_invalid f = true <-> classify f = CInvalid.
Proof. unfold is_invalid, classify. case_all. Qed.

End TcpFlags.

(** [PacketDirection] *)
Inductive PacketDirection := ClientToServer | ServerToClient.

#[export] Instance PacketDirection_eq_dec : EqDecision PacketDirection.
Proof. solve_decision. Defined.
