(* ===== verification/FlowState.v ===== *)
(** * The TCP flow state machine

    src/agent/src/flow_generator/flow_state.rs (the two transition tables),
    flow_config.rs (the timeouts) and the step [update_flow_state_machine] of
    flow_map.rs.  The tables are built assignment by assignment as in the
    source; [client_table] and [server_table] are the readable transition
    functions they are proved to implement. *)

From S2P Require Import Prelude Timestamp TcpFlags.

(** ** Timeouts: flow_config.rs *)

Module FlowTimeout.

Record TcpTimeout := {
  tcp_established : Timestamp.t;
  tcp_closing_rst : Timestamp.t;
  tcp_others : Timestamp.t;
  tcp_opening_rst : Timestamp.t;
}.

Definition TcpTimeout_default : TcpTimeout := {|
  tcp_established := Timestamp.from_secs 300;
  tcp_closing_rst := Timestamp.from_secs 35;
  tcp_others := Timestamp.from_secs 5;
  tcp_opening_rst := Timestamp.from_secs 1;
|}.

Record t := {
  opening : Timestamp.t;
  established : Timestamp.t;
  closing : Timestamp.t;
  established_rst : Timestamp.t;
  exception : Timestamp.t;
  closed_fin : Timestamp.t;
  single_direction : Timestamp.t;
  opening_rst : Timestamp.t;
  min : Timestamp.t;
  max : Timestamp.t;
}.

Definition update_min_max (s : t) : t := {|
  opening := opening s;
  established := established s;
  closing := closing s;
  established_rst := established_rst s;
  exception := exception s;
  closed_fin := closed_fin s;
  single_direction := single_direction s;
  opening_rst := opening_rst s;
  min :=
    Z.min (Z.min (Z.min (Z.min (Z.min (Z.min (Z.min (opening s) (established s))
      (closing s)) (established_rst s)) (exception s)) (closed_fin s))
      (single_direction s)) (opening_rst s);
  max :=
    Z.max (Z.max (Z.max (Z.max (Z.max (Z.max (Z.max (opening s) (established s))
      (closing s)) (established_rst s)) (exception s)) (closed_fin s))
      (single_direction s)) (opening_rst s);
|}.

(** [impl From<TcpTimeout> for FlowTimeout] *)
Definition from (c : TcpTimeout) : t :=
  update_min_max {|
    opening := tcp_others c;
    established := tcp_established c;
    closing := tcp_others c;
    established_rst := tcp_closing_rst c;
    exception := tcp_others c;
    closed_fin := Timestamp.from_secs 2;
    single_direction := tcp_others c;
    opening_rst := tcp_opening_rst c;
    min := Timestamp.from_secs 0;
    max := Timestamp.from_secs 0;
  |}.

End FlowTimeout.

(** ** States and table entries *)

Inductive FlowState :=
| Raw | Opening1 | Opening2 | Established
| ClosingTx1 | ClosingTx2 | ClosingRx1 | ClosingRx2
| Closed | Reset | Exception
| ServerReset | ServerCandidateQueueLack | ClientL4PortReuse
| Syn1 | SynAck1 | EstablishReset | OpeningRst
| Max.

#[export] Instance FlowState_eq_dec : EqDecision FlowState.
Proof. solve_decision. Defined.

(** [state as usize] *)
Definition state_index (s : FlowState) : nat :=
  match s with
  | Raw => 0 | Opening1 => 1 | Opening2 => 2 | Established => 3
  | ClosingTx1 => 4 | ClosingTx2 => 5 | ClosingRx1 => 6 | ClosingRx2 => 7
  | Closed => 8 | Reset => 9 | Exception => 10
  | ServerReset => 11 | ServerCandidateQueueLack => 12 | ClientL4PortReuse => 13
  | Syn1 => 14 | SynAck1 => 15 | EstablishReset => 16 | OpeningRst => 17
  | Max => 18
  end%nat.

Record StateValue := {
  sv_timeout : Timestamp.t;
  sv_state : FlowState;
  sv_closed : bool;
}.

Definition StateValue_new (timeout : Timestamp.t) (state : FlowState) (closed : bool)
  : StateValue :=
  {| sv_timeout := timeout; sv_state := state; sv_closed := closed |}.

Definition N_FLAGS : nat := Z.to_nat TcpFlags.MASK + 1.
Definition N_STATES : nat := state_index Max.

(** [[[StateEntry; N_FLAGS]; N_STATES]]; the [Rc]s are never mutated, so an
    entry is the value it points to. *)
Definition StateMachine := list (list (option StateValue)).

Definition StateMachine_default : StateMachine :=
  replicate N_STATES (replicate N_FLAGS None).

(** [m[st as usize][flags.bits() as usize] = Some(s)]; every index in the
    source is a constant inside the arrays. *)
Definition assign (m : StateMachine) (st : FlowState) (flags : Z) (s : StateValue)
  : StateMachine :=
  alter (fun row => <[Z.to_nat flags := Some s]> row) (state_index st) m.

(** ** The tables *)

Definition master_Raw (t : FlowTimeout.t) (m : StateMachine) : StateMachine :=
  let s := StateValue_new t.(FlowTimeout.opening) Opening1 false in
  let m := assign m Raw TcpFlags.SYN s in
  let s := StateValue_new t.(FlowTimeout.closing) ClosingTx1 false in
  let m := assign m Raw TcpFlags.FIN s in
  let m := assign m Raw TcpFlags.FIN_ACK s in
  let m := assign m Raw TcpFlags.FIN_PSH_ACK s in
  let s := StateValue_new t.(FlowTimeout.closing) Reset false in
  let m := assign m Raw TcpFlags.RST s in
  let m := assign m Raw TcpFlags.RST_ACK s in
  let m := assign m Raw TcpFlags.RST_PSH_ACK s in
  let s := StateValue_new t.(FlowTimeout.established) Established false in
  let m := assign m Raw TcpFlags.ACK s in
  let m := assign m Raw TcpFlags.PSH_ACK s in
  let m := assign m Raw TcpFlags.PSH_ACK_URG s in
  m.

Definition master_Opening1 (t : FlowTimeout.t) (m : StateMachine) : StateMachine :=
  let s := StateValue_new t.(FlowTimeout.opening) Opening1 false in
  let m := assign m Opening1 TcpFlags.SYN s in
  let s := StateValue_new t.(FlowTimeout.closing) ClosingTx1 false in
  let m := assign m Opening1 TcpFlags.FIN s in
  let m := assign m Opening1 TcpFlags.FIN_ACK s in
  let m := assign m Opening1 TcpFlags.FIN_PSH_ACK s in
  let s := StateValue_new t.(FlowTimeout.closing) EstablishReset false in
  let m := assign m Opening1 TcpFlags.RST s in
  let m := assign m Opening1 TcpFlags.RST_ACK s in
  let m := assign m Opening1 TcpFlags.RST_PSH_ACK s in
  let s := StateValue_new t.(FlowTimeout.established) Established false in
  let m := assign m Opening1 TcpFlags.ACK s in
  let m := assign m Opening1 TcpFlags.PSH_ACK s in
  let m := assign m Opening1 TcpFlags.PSH_ACK_URG s in
  m.

Definition master_Opening2 (t : FlowTimeout.t) (m : StateMachine) : StateMachine :=
  let s := StateValue_new t.(FlowTimeout.opening) Opening2 false in
  let m := assign m Opening2 TcpFlags.SYN s in
  let s := StateValue_new t.(FlowTimeout.closing) ClosingTx1 false in
  let m := assign m Opening2 TcpFlags.FIN s in
  let m := assign m Opening2 TcpFlags.FIN_ACK s in
  let m := assign m Opening2 TcpFlags.FIN_PSH_ACK s in
  let s := StateValue_new t.(FlowTimeout.opening_rst) OpeningRst false in
  let m := assign m Opening2 TcpFlags.RST s in
  let m := assign m Opening2 TcpFlags.RST_ACK s in
  let m := assign m Opening2 TcpFlags.RST_PSH_ACK s in
  let s := StateValue_new t.(FlowTimeout.established) Established false in
  let m := assign m Opening2 TcpFlags.ACK s in
  let m := assign m Opening2 TcpFlags.PSH_ACK s in
  let m := assign m Opening2 TcpFlags.PSH_ACK_URG s in
  m.

Definition master_Established (t : FlowTimeout.t) (m : StateMachine) : StateMachine :=
  let s := StateValue_new t.(FlowTimeout.established) Established false in
  let m := assign m Established TcpFlags.SYN s in
  let s := StateValue_new t.(FlowTimeout.closing) ClosingTx1 false in
  let m := assign m Established TcpFlags.FIN s in
  let m := assign m Established TcpFlags.FIN_ACK s in
  let m := assign m Established TcpFlags.FIN_PSH_ACK s in
  let s := StateValue_new t.(FlowTimeout.established_rst) Reset false in
  let m := assign m Established TcpFlags.RST s in
  let m := assign m Established TcpFlags.RST_ACK s in
  let m := assign m Established TcpFlags.RST_PSH_ACK s in
  let s := StateValue_new t.(FlowTimeout.established) Established false in
  let m := assign m Established TcpFlags.ACK s in
  let m := assign m Established TcpFlags.PSH_ACK s in
  let m := assign m Established TcpFlags.PSH_ACK_URG s in
  m.

Definition master_ClosingTx1 (t : FlowTimeout.t) (m : StateMachine) : StateMachine :=
  let s := StateValue_new t.(FlowTimeout.closing) ClosingTx1 false in
  let m := assign m ClosingTx1 TcpFlags.SYN s in
  let m := assign m ClosingTx1 TcpFlags.SYN_ACK s in
  let s := StateValue_new t.(FlowTimeout.closing) ClosingTx1 false in
  let m := assign m ClosingTx1 TcpFlags.FIN s in
  let m := assign m ClosingTx1 TcpFlags.FIN_ACK s in
  let m := assign m ClosingTx1 TcpFlags.FIN_PSH_ACK s in
  let s := StateValue_new t.(FlowTimeout.closing) Reset false in
  let m := assign m ClosingTx1 TcpFlags.RST s in
  let m := assign m ClosingTx1 TcpFlags.RST_ACK s in
  let m := assign m ClosingTx1 TcpFlags.RST_PSH_ACK s in
  let s := StateValue_new t.(FlowTimeout.closing) ClosingTx1 false in
  let m := assign m ClosingTx1 TcpFlags.ACK s in
  let m := assign m ClosingTx1 TcpFlags.PSH_ACK s in
  let m := assign m ClosingTx1 TcpFlags.PSH_ACK_URG s in
  m.

Definition master_ClosingTx2 (t : FlowTimeout.t) (m : StateMachine) : StateMachine :=
  let s := StateValue_new t.(FlowTimeout.closing) ClosingTx2 false in
  let m := assign m ClosingTx2 TcpFlags.SYN s in
  let m := assign m ClosingTx2 TcpFlags.SYN_ACK s in
  let s := StateValue_new t.(FlowTimeout.closing) ClosingTx2 false in
  let m := assign m ClosingTx2 TcpFlags.FIN s in
  let m := assign m ClosingTx2 TcpFlags.FIN_ACK s in
  let m := assign m ClosingTx2 TcpFlags.FIN_PSH_ACK s in
  let s := StateValue_new t.(FlowTimeout.closed_fin) Reset false in
  let m := assign m ClosingTx2 TcpFlags.RST s in
  let m := assign m ClosingTx2 TcpFlags.RST_ACK s in
  let m := assign m ClosingTx2 TcpFlags.RST_PSH_ACK s in
  let s := StateValue_new t.(FlowTimeout.closed_fin) Closed false in
  let m := assign m ClosingTx2 TcpFlags.ACK s in
  m.

Definition master_ClosingRx1 (t : FlowTimeout.t) (m : StateMachine) : StateMachine :=
  let s := StateValue_new t.(FlowTimeout.closing) ClosingRx1 false in
  let m := assign m ClosingRx1 TcpFlags.SYN s in
  let m := assign m ClosingRx1 TcpFlags.SYN_ACK s in
  let s := StateValue_new t.(FlowTimeout.closing) ClosingRx2 false in
  let m := assign m ClosingRx1 TcpFlags.FIN s in
  let m := assign m ClosingRx1 TcpFlags.FIN_ACK s in
  let m := assign m ClosingRx1 TcpFlags.FIN_PSH_ACK s in
  let s := StateValue_new t.(FlowTimeout.closing) Reset false in
  let m := assign m ClosingRx1 TcpFlags.RST s in
  let m := assign m ClosingRx1 TcpFlags.RST_ACK s in
  let m := assign m ClosingRx1 TcpFlags.RST_PSH_ACK s in
  let s := StateValue_new t.(FlowTimeout.closing) ClosingRx1 false in
  let m := assign m ClosingRx1 TcpFlags.ACK s in
  let m := assign m ClosingRx1 TcpFlags.PSH_ACK s in
  let m := assign m ClosingRx1 TcpFlags.PSH_ACK_URG s in
  m.

Definition master_ClosingRx2 (t : FlowTimeout.t) (m : StateMachine) : StateMachine :=
  let s := StateValue_new t.(FlowTimeout.closing) ClosingRx2 false in
  let m := assign m ClosingRx2 TcpFlags.SYN s in
  let m := assign m ClosingRx2 TcpFlags.SYN_ACK s in
  let s := StateValue_new t.(FlowTimeout.closing) ClosingRx2 false in
  let m := assign m ClosingRx2 TcpFlags.FIN s in
  let m := assign m ClosingRx2 TcpFlags.FIN_ACK s in
  let m := assign m ClosingRx2 TcpFlags.FIN_PSH_ACK s in
  let s := StateValue_new t.(FlowTimeout.closed_fin) Reset false in
  let m := assign m ClosingRx2 TcpFlags.RST s in
  let m := assign m ClosingRx2 TcpFlags.RST_ACK s in
  let m := assign m ClosingRx2 TcpFlags.RST_PSH_ACK s in
  let s := StateValue_new t.(FlowTimeout.closing) ClosingRx2 false in
  let m := assign m ClosingRx2 TcpFlags.ACK s in
  let m := assign m ClosingRx2 TcpFlags.PSH_ACK s in
  let m := assign m ClosingRx2 TcpFlags.PSH_ACK_URG s in
  m.

Definition master_Closed (t : FlowTimeout.t) (m : StateMachine) : StateMachine :=
  let s := StateValue_new t.(FlowTimeout.closed_fin) Closed false in
  let m := assign m Closed TcpFlags.ACK s in
  m.

Definition master_Reset (t : FlowTimeout.t) (m : StateMachine) : StateMachine :=
  let s := StateValue_new t.(FlowTimeout.exception) Reset false in
  let m := assign m Reset TcpFlags.SYN s in
  let m := assign m Reset TcpFlags.SYN_ACK s in
  let s := StateValue_new t.(FlowTimeout.exception) Reset false in
  let m := assign m Reset TcpFlags.FIN s in
  let m := assign m Reset TcpFlags.FIN_ACK s in
  let m := assign m Reset TcpFlags.FIN_PSH_ACK s in
  let s := StateValue_new t.(FlowTimeout.exception) Reset false in
  let m := assign m Reset TcpFlags.RST s in
  let m := assign m Reset TcpFlags.RST_ACK s in
  let m := assign m Reset TcpFlags.RST_PSH_ACK s in
  let s := StateValue_new t.(FlowTimeout.exception) Reset false in
  let m := assign m Reset TcpFlags.ACK s in
  let m := assign m Reset TcpFlags.PSH_ACK s in
  let m := assign m Reset TcpFlags.PSH_ACK_URG s in
  m.

Definition master_Syn1 (t : FlowTimeout.t) (m : StateMachine) : StateMachine :=
  let s := StateValue_new t.(FlowTimeout.opening) Opening1 false in
  let m := assign m Syn1 TcpFlags.SYN s in
  let s := StateValue_new t.(FlowTimeout.closing) ClientL4PortReuse false in
  let m := assign m Syn1 TcpFlags.RST s in
  let m := assign m Syn1 TcpFlags.RST_ACK s in
  let m := assign m Syn1 TcpFlags.RST_PSH_ACK s in
  let s := StateValue_new t.(FlowTimeout.established) Established false in
  let m := assign m Syn1 TcpFlags.ACK s in
  let m := assign m Syn1 TcpFlags.PSH_ACK s in
  let m := assign m Syn1 TcpFlags.PSH_ACK_URG s in
  let s := StateValue_new t.(FlowTimeout.closing) ClosingTx1 false in
  let m := assign m Syn1 TcpFlags.FIN s in
  let m := assign m Syn1 TcpFlags.FIN_ACK s in
  let m := assign m Syn1 TcpFlags.FIN_PSH_ACK s in
  m.

Definition master_ClientL4PortReuse (t : FlowTimeout.t) (m : StateMachine) : StateMachine :=
  let s := StateValue_new t.(FlowTimeout.exception) ClientL4PortReuse false in
  let m := assign m ClientL4PortReuse TcpFlags.SYN s in
  let m := assign m ClientL4PortReuse TcpFlags.SYN_ACK s in
  let s := StateValue_new t.(FlowTimeout.exception) ClientL4PortReuse false in
  let m := assign m ClientL4PortReuse TcpFlags.FIN s in
  let m := assign m ClientL4PortReuse TcpFlags.FIN_ACK s in
  let m := assign m ClientL4PortReuse TcpFlags.FIN_PSH_ACK s in
  let s := StateValue_new t.(FlowTimeout.exception) ClientL4PortReuse false in
  let m := assign m ClientL4PortReuse TcpFlags.RST s in
  let m := assign m ClientL4PortReuse TcpFlags.RST_ACK s in
  let m := assign m ClientL4PortReuse TcpFlags.RST_PSH_ACK s in
  let s := StateValue_new t.(FlowTimeout.exception) ClientL4PortReuse false in
  let m := assign m ClientL4PortReuse TcpFlags.ACK s in
  let m := assign m ClientL4PortReuse TcpFlags.PSH_ACK s in
  let m := assign m ClientL4PortReuse TcpFlags.PSH_ACK_URG s in
  m.

Definition master_SynAck1 (t : FlowTimeout.t) (m : StateMachine) : StateMachine :=
  let s := StateValue_new t.(FlowTimeout.established) Established false in
  let m := assign m SynAck1 TcpFlags.SYN s in
  let s := StateValue_new t.(FlowTimeout.closing) ClosingTx1 false in
  let m := assign m SynAck1 TcpFlags.FIN s in
  let m := assign m SynAck1 TcpFlags.FIN_ACK s in
  let m := assign m SynAck1 TcpFlags.FIN_PSH_ACK s in
  let s := StateValue_new t.(FlowTimeout.closing) Reset false in
  let m := assign m SynAck1 TcpFlags.RST s in
  let m := assign m SynAck1 TcpFlags.RST_ACK s in
  let m := assign m SynAck1 TcpFlags.RST_PSH_ACK s in
  let s := StateValue_new t.(FlowTimeout.established) SynAck1 false in
  let m := assign m SynAck1 TcpFlags.ACK s in
  let m := assign m SynAck1 TcpFlags.PSH_ACK s in
  let m := assign m SynAck1 TcpFlags.PSH_ACK_URG s in
  m.

Definition master_ServerCandidateQueueLack (t : FlowTimeout.t) (m : StateMachine) : StateMachine :=
  let s := StateValue_new t.(FlowTimeout.exception) ServerCandidateQueueLack false in
  let m := assign m ServerCandidateQueueLack TcpFlags.SYN s in
  let m := assign m ServerCandidateQueueLack TcpFlags.SYN_ACK s in
  let s := StateValue_new t.(FlowTimeout.exception) ServerCandidateQueueLack false in
  let m := assign m ServerCandidateQueueLack TcpFlags.FIN s in
  let m := assign m ServerCandidateQueueLack TcpFlags.FIN_ACK s in
  let m := assign m ServerCandidateQueueLack TcpFlags.FIN_PSH_ACK s in
  let s := StateValue_new t.(FlowTimeout.exception) ServerCandidateQueueLack false in
  let m := assign m ServerCandidateQueueLack TcpFlags.RST s in
  let m := assign m ServerCandidateQueueLack TcpFlags.RST_ACK s in
  let m := assign m ServerCandidateQueueLack TcpFlags.RST_PSH_ACK s in
  let s := StateValue_new t.(FlowTimeout.exception) ServerCandidateQueueLack false in
  let m := assign m ServerCandidateQueueLack TcpFlags.ACK s in
  let m := assign m ServerCandidateQueueLack TcpFlags.PSH_ACK s in
  let m := assign m ServerCandidateQueueLack TcpFlags.PSH_ACK_URG s in
  m.

Definition master_ServerReset (t : FlowTimeout.t) (m : StateMachine) : StateMachine :=
  let s := StateValue_new t.(FlowTimeout.exception) ServerReset false in
  let m := assign m ServerReset TcpFlags.SYN s in
  let m := assign m ServerReset TcpFlags.SYN_ACK s in
  let s := StateValue_new t.(FlowTimeout.exception) ServerReset false in
  let m := assign m ServerReset TcpFlags.FIN s in
  let m := assign m ServerReset TcpFlags.FIN_ACK s in
  let m := assign m ServerReset TcpFlags.FIN_PSH_ACK s in
  let s := StateValue_new t.(FlowTimeout.exception) ServerReset false in
  let m := assign m ServerReset TcpFlags.RST s in
  let m := assign m ServerReset TcpFlags.RST_ACK s in
  let m := assign m ServerReset TcpFlags.RST_PSH_ACK s in
  let s := StateValue_new t.(FlowTimeout.exception) ServerReset false in
  let m := assign m ServerReset TcpFlags.ACK s in
  let m := assign m ServerReset TcpFlags.PSH_ACK s in
  let m := assign m ServerReset TcpFlags.PSH_ACK_URG s in
  m.

Definition master_EstablishReset (t : FlowTimeout.t) (m : StateMachine) : StateMachine :=
  let s := StateValue_new t.(FlowTimeout.exception) EstablishReset false in
  let m := assign m EstablishReset TcpFlags.SYN s in
  let m := assign m EstablishReset TcpFlags.SYN_ACK s in
  let s := StateValue_new t.(FlowTimeout.exception) EstablishReset false in
  let m := assign m EstablishReset TcpFlags.FIN s in
  let m := assign m EstablishReset TcpFlags.FIN_ACK s in
  let m := assign m EstablishReset TcpFlags.FIN_PSH_ACK s in
  let s := StateValue_new t.(FlowTimeout.exception) EstablishReset false in
  let m := assign m EstablishReset TcpFlags.RST s in
  let m := assign m EstablishReset TcpFlags.RST_ACK s in
  let m := assign m EstablishReset TcpFlags.RST_PSH_ACK s in
  let s := StateValue_new t.(FlowTimeout.exception) EstablishReset false in
  let m := assign m EstablishReset TcpFlags.ACK s in
  let m := assign m EstablishReset TcpFlags.PSH_ACK s in
  let m := assign m EstablishReset TcpFlags.PSH_ACK_URG s in
  m.

Definition master_OpeningRst (t : FlowTimeout.t) (m : StateMachine) : StateMachine :=
  let s := StateValue_new t.(FlowTimeout.opening_rst) OpeningRst false in
  let m := assign m OpeningRst TcpFlags.SYN s in
  let m := assign m OpeningRst TcpFlags.SYN_ACK s in
  let m := assign m OpeningRst TcpFlags.FIN s in
  let m := assign m OpeningRst TcpFlags.FIN_ACK s in
  let m := assign m OpeningRst TcpFlags.FIN_PSH_ACK s in
  let m := assign m OpeningRst TcpFlags.RST s in
  let m := assign m OpeningRst TcpFlags.RST_ACK s in
  let m := assign m OpeningRst TcpFlags.RST_PSH_ACK s in
  let m := assign m OpeningRst TcpFlags.ACK s in
  let m := assign m OpeningRst TcpFlags.PSH_ACK s in
  let m := assign m OpeningRst TcpFlags.PSH_ACK_URG s in
  m.

Definition new_master (t : FlowTimeout.t) : StateMachine :=
  let m := StateMachine_default in
  let m := master_Raw t m in
  let m := master_Opening1 t m in
  let m := master_Opening2 t m in
  let m := master_Established t m in
  let m := master_ClosingTx1 t m in
  let m := master_ClosingTx2 t m in
  let m := master_ClosingRx1 t m in
  let m := master_ClosingRx2 t m in
  let m := master_Closed t m in
  let m := master_Reset t m in
  let m := master_Syn1 t m in
  let m := master_ClientL4PortReuse t m in
  let m := master_SynAck1 t m in
  let m := master_ServerCandidateQueueLack t m in
  let m := master_ServerReset t m in
  let m := master_EstablishReset t m in
  let m := master_OpeningRst t m in
  m.

Definition slave_Raw (t : FlowTimeout.t) (m : StateMachine) : StateMachine :=
  let s := StateValue_new t.(FlowTimeout.opening) Opening2 false in
  let m := assign m Raw TcpFlags.SYN_ACK s in
  let s := StateValue_new t.(FlowTimeout.closing) ClosingRx1 false in
  let m := assign m Raw TcpFlags.FIN s in
  let m := assign m Raw TcpFlags.FIN_ACK s in
  let m := assign m Raw TcpFlags.FIN_PSH_ACK s in
  m.

Definition slave_Opening1 (t : FlowTimeout.t) (m : StateMachine) : StateMachine :=
  let s := StateValue_new t.(FlowTimeout.opening) Opening2 false in
  let m := assign m Opening1 TcpFlags.SYN_ACK s in
  let s := StateValue_new t.(FlowTimeout.opening) Syn1 false in
  let m := assign m Opening1 TcpFlags.ACK s in
  let m := assign m Opening1 TcpFlags.PSH_ACK s in
  let m := assign m Opening1 TcpFlags.PSH_ACK_URG s in
  let s := StateValue_new t.(FlowTimeout.closing) ServerReset false in
  let m := assign m Opening1 TcpFlags.RST s in
  let m := assign m Opening1 TcpFlags.RST_ACK s in
  let m := assign m Opening1 TcpFlags.RST_PSH_ACK s in
  let s := StateValue_new t.(FlowTimeout.closing) ClosingRx1 false in
  let m := assign m Opening1 TcpFlags.FIN s in
  let m := assign m Opening1 TcpFlags.FIN_ACK s in
  let m := assign m Opening1 TcpFlags.FIN_PSH_ACK s in
  m.

Definition slave_Opening2 (t : FlowTimeout.t) (m : StateMachine) : StateMachine :=
  let s := StateValue_new t.(FlowTimeout.opening) Opening2 false in
  let m := assign m Opening2 TcpFlags.SYN_ACK s in
  let s := StateValue_new t.(FlowTimeout.closing) ClosingRx1 false in
  let m := assign m Opening2 TcpFlags.FIN s in
  let m := assign m Opening2 TcpFlags.FIN_ACK s in
  let m := assign m Opening2 TcpFlags.FIN_PSH_ACK s in
  let s := StateValue_new t.(FlowTimeout.closing) EstablishReset false in
  let m := assign m Opening2 TcpFlags.RST s in
  let m := assign m Opening2 TcpFlags.RST_ACK s in
  let m := assign m Opening2 TcpFlags.RST_PSH_ACK s in
  m.

Definition slave_Established (t : FlowTimeout.t) (m : StateMachine) : StateMachine :=
  let s := StateValue_new t.(FlowTimeout.established) SynAck1 false in
  let m := assign m Established TcpFlags.SYN_ACK s in
  let s := StateValue_new t.(FlowTimeout.closing) ClosingRx1 false in
  let m := assign m Established TcpFlags.FIN s in
  let m := assign m Established TcpFlags.FIN_ACK s in
  let m := assign m Established TcpFlags.FIN_PSH_ACK s in
  m.

Definition slave_ClosingTx1 (t : FlowTimeout.t) (m : StateMachine) : StateMachine :=
  let s := StateValue_new t.(FlowTimeout.closing) ClosingTx2 false in
  let m := assign m ClosingTx1 TcpFlags.FIN s in
  let m := assign m ClosingTx1 TcpFlags.FIN_ACK s in
  let m := assign m ClosingTx1 TcpFlags.FIN_PSH_ACK s in
  m.

Definition slave_ClosingTx2 (t : FlowTimeout.t) (m : StateMachine) : StateMachine :=
  let s := StateValue_new t.(FlowTimeout.closing) ClosingTx2 false in
  let m := assign m ClosingTx2 TcpFlags.ACK s in
  let m := assign m ClosingTx2 TcpFlags.PSH_ACK s in
  let m := assign m ClosingTx2 TcpFlags.PSH_ACK_URG s in
  m.

Definition slave_ClosingRx1 (t : FlowTimeout.t) (m : StateMachine) : StateMachine :=
  let s := StateValue_new t.(FlowTimeout.closing) ClosingRx1 false in
  let m := assign m ClosingRx1 TcpFlags.FIN s in
  let m := assign m ClosingRx1 TcpFlags.FIN_ACK s in
  let m := assign m ClosingRx1 TcpFlags.FIN_PSH_ACK s in
  m.

Definition slave_ClosingRx2 (t : FlowTimeout.t) (m : StateMachine) : StateMachine :=
  let s := StateValue_new t.(FlowTimeout.closed_fin) Closed false in
  let m := assign m ClosingRx2 TcpFlags.ACK s in
  m.

Definition slave_Closed (t : FlowTimeout.t) (m : StateMachine) : StateMachine :=
  let s := StateValue_new t.(FlowTimeout.closed_fin) Closed false in
  let m := assign m Closed TcpFlags.ACK s in
  m.

Definition slave_Syn1 (t : FlowTimeout.t) (m : StateMachine) : StateMachine :=
  let s := StateValue_new t.(FlowTimeout.opening) Opening2 false in
  let m := assign m Syn1 TcpFlags.SYN_ACK s in
  let s := StateValue_new t.(FlowTimeout.opening) Syn1 false in
  let m := assign m Syn1 TcpFlags.ACK s in
  let m := assign m Syn1 TcpFlags.PSH_ACK s in
  let m := assign m Syn1 TcpFlags.PSH_ACK_URG s in
  let s := StateValue_new t.(FlowTimeout.closing) ClosingRx1 false in
  let m := assign m Syn1 TcpFlags.FIN s in
  let m := assign m Syn1 TcpFlags.FIN_ACK s in
  let m := assign m Syn1 TcpFlags.FIN_PSH_ACK s in
  let s := StateValue_new t.(FlowTimeout.closing) EstablishReset false in
  let m := assign m Syn1 TcpFlags.RST s in
  let m := assign m Syn1 TcpFlags.RST_ACK s in
  let m := assign m Syn1 TcpFlags.RST_PSH_ACK s in
  m.

Definition slave_SynAck1 (t : FlowTimeout.t) (m : StateMachine) : StateMachine :=
  let s := StateValue_new t.(FlowTimeout.established) SynAck1 false in
  let m := assign m SynAck1 TcpFlags.SYN_ACK s in
  let s := StateValue_new t.(FlowTimeout.closing) ClosingRx1 false in
  let m := assign m SynAck1 TcpFlags.FIN s in
  let m := assign m SynAck1 TcpFlags.FIN_ACK s in
  let m := assign m SynAck1 TcpFlags.FIN_PSH_ACK s in
  let s := StateValue_new t.(FlowTimeout.established_rst) ServerCandidateQueueLack false in
  let m := assign m SynAck1 TcpFlags.RST s in
  let m := assign m SynAck1 TcpFlags.RST_ACK s in
  let m := assign m SynAck1 TcpFlags.RST_PSH_ACK s in
  let s := StateValue_new t.(FlowTimeout.established) Established false in
  let m := assign m SynAck1 TcpFlags.ACK s in
  let m := assign m SynAck1 TcpFlags.PSH_ACK s in
  let m := assign m SynAck1 TcpFlags.PSH_ACK_URG s in
  m.

Definition slave_OpeningRst (t : FlowTimeout.t) (m : StateMachine) : StateMachine :=
  let s := StateValue_new t.(FlowTimeout.opening_rst) OpeningRst false in
  let m := assign m OpeningRst TcpFlags.SYN s in
  let m := assign m OpeningRst TcpFlags.SYN_ACK s in
  let m := assign m OpeningRst TcpFlags.FIN s in
  let m := assign m OpeningRst TcpFlags.FIN_ACK s in
  let m := assign m OpeningRst TcpFlags.FIN_PSH_ACK s in
  let m := assign m OpeningRst TcpFlags.RST s in
  let m := assign m OpeningRst TcpFlags.RST_ACK s in
  let m := assign m OpeningRst TcpFlags.RST_PSH_ACK s in
  let m := assign m OpeningRst TcpFlags.ACK s in
  let m := assign m OpeningRst TcpFlags.PSH_ACK s in
  let m := assign m OpeningRst TcpFlags.PSH_ACK_URG s in
  m.

Definition new_slave (t : FlowTimeout.t) : StateMachine :=
  let m := StateMachine_default in
  let m := slave_Raw t m in
  let m := slave_Opening1 t m in
  let m := slave_Opening2 t m in
  let m := slave_Established t m in
  let m := slave_ClosingTx1 t m in
  let m := slave_ClosingTx2 t m in
  let m := slave_ClosingRx1 t m in
  let m := slave_ClosingRx2 t m in
  let m := slave_Closed t m in
  let m := slave_Syn1 t m in
  let m := slave_SynAck1 t m in
  let m := slave_OpeningRst t m in
  m.

(** [StateMachine::get]; the outer index panics for [FlowState::Max]. *)
Definition get (m : StateMachine) (state : FlowState) (flags : Z) : run (option StateValue) :=
  row ← unwrap (m !! state_index state);
  unwrap (row !! Z.to_nat (Z.land flags TcpFlags.MASK)).

(** ** One step: [FlowMap::update_flow_state_machine] *)

(** The part of a [FlowNode] the step reads and writes. *)
Record FsmNode := {
  flow_state : FlowState;
  timeout : Timestamp.t;
  src_total_packet_count : Z;
  dst_total_packet_count : Z;
}.

Definition update_flow_state_machine (ft : FlowTimeout.t)
    (state_machine_master state_machine_slave : StateMachine)
    (node : FsmNode) (flags : Z) (direction : PacketDirection) : run (FsmNode * bool) :=
  e ← get state_machine_master (flow_state node) flags;
  let v := default (StateValue_new ft.(FlowTimeout.exception) Exception false) e in
  v ← (if decide (direction = ServerToClient)
       then o ← get state_machine_slave (flow_state node) flags; Ret (default v o)
       else Ret v);
  let single := (src_total_packet_count node =? 0) || (dst_total_packet_count node =? 0) in
  Ret ({| flow_state := sv_state v;
          timeout := if single then ft.(FlowTimeout.single_direction) else sv_timeout v;
          src_total_packet_count := src_total_packet_count node;
          dst_total_packet_count := dst_total_packet_count node |},
       sv_closed v).

(** The tail of [FlowMap::update_tcp_flow]: a segment whose flags form no
    valid combination moves the flow to [Exception]. *)
Definition tcp_flags_step (ft : FlowTimeout.t) (master slave : StateMachine)
    (node : FsmNode) (flags : Z) (direction : PacketDirection) : run (FsmNode * bool) :=
  if TcpFlags.is_invalid flags
  then Ret ({| flow_state := Exception;
               timeout := ft.(FlowTimeout.exception);
               src_total_packet_count := src_total_packet_count node;
               dst_total_packet_count := dst_total_packet_count node |}, false)
  else update_flow_state_machine ft master slave node flags direction.

(** ** Abstract transition functions *)

(** The states a flow enters on a reset or a refused connection: no valid
    segment leaves them. *)
Definition aborted (s : FlowState) : bool :=
  match s with
  | Reset | ServerReset | ServerCandidateQueueLack | ClientL4PortReuse
  | EstablishReset | OpeningRst => true
  | _ => false
  end.

Section Abstract.
Context (ft : FlowTimeout.t).
Import FlowTimeout TcpFlags.

Definition goto (timeout : Timestamp.t) (s : FlowState) : option StateValue :=
  Some (StateValue_new timeout s false).

(** Where a reset sent by the client leads. *)
Definition client_reset (s : FlowState) : option StateValue :=
  match s with
  | Raw | ClosingTx1 | ClosingRx1 | SynAck1 => goto (closing ft) Reset
  | Opening1 => goto (closing ft) EstablishReset
  | Opening2 => goto (opening_rst ft) OpeningRst
  | Established => goto (established_rst ft) Reset
  | ClosingTx2 | ClosingRx2 => goto (closed_fin ft) Reset
  | Syn1 => goto (closing ft) ClientL4PortReuse
  | _ => None
  end.

(** The master table: segments of the client, and the fallback for segments
    of the server that have no entry of their own. *)
Definition client_table (s : FlowState) (c : class) : option StateValue :=
  match c, s with
  | CInvalid, _ | _, Exception | _, Max => None
  | _, OpeningRst => goto (opening_rst ft) OpeningRst
  | CAck, Closed => goto (closed_fin ft) Closed
  | _, Closed => None
  | CRst, _ => if aborted s then goto (exception ft) s else client_reset s
  | CSyn, (Raw | Opening1 | Syn1) => goto (opening ft) Opening1
  | CSyn, Opening2 => goto (opening ft) Opening2
  | CSyn, (Established | SynAck1) => goto (established ft) Established
  | CFin, (Raw | Opening1 | Opening2 | Established | Syn1 | SynAck1) =>
      goto (closing ft) ClosingTx1
  | CFin, ClosingRx1 => goto (closing ft) ClosingRx2
  | CAck, ClosingTx2 => goto (closed_fin ft) Closed
  | CData, ClosingTx2 => None
  | (CAck | CData), (Raw | Opening1 | Opening2 | Established | Syn1) =>
      goto (established ft) Established
  | (CAck | CData), SynAck1 => goto (established ft) SynAck1
  | _, (ClosingTx1 | ClosingTx2 | ClosingRx1 | ClosingRx2) => goto (closing ft) s
  | _, _ => if aborted s then goto (exception ft) s else None
  end.

(** The slave table: segments of the server that the master table would read
    wrongly. *)
Definition server_table (s : FlowState) (c : class) : option StateValue :=
  match c, s with
  | CInvalid, _ => None
  | _, OpeningRst => goto (opening_rst ft) OpeningRst
  | CSynAck, (Raw | Opening1 | Opening2 | Syn1) => goto (opening ft) Opening2
  | CSynAck, (Established | SynAck1) => goto (established ft) SynAck1
  | CFin, (Raw | Opening1 | Opening2 | Established | ClosingRx1 | Syn1 | SynAck1) =>
      goto (closing ft) ClosingRx1
  | CFin, ClosingTx1 => goto (closing ft) ClosingTx2
  | (CAck | CData), (Opening1 | Syn1) => goto (opening ft) Syn1
  | (CAck | CData), SynAck1 => goto (established ft) Established
  | (CAck | CData), ClosingTx2 => goto (closing ft) ClosingTx2
  | CAck, (ClosingRx2 | Closed) => goto (closed_fin ft) Closed
  | CRst, Opening1 => goto (closing ft) ServerReset
  | CRst, (Opening2 | Syn1) => goto (closing ft) EstablishReset
  | CRst, SynAck1 => goto (established_rst ft) ServerCandidateQueueLack
  | _, _ => None
  end.

(** One abstract step. *)
Definition step_value (s : FlowState) (c : class) (d : PacketDirection) : StateValue :=
  let fallback :=
    default (StateValue_new (exception ft) Exception false) (client_table s c) in
  match d with
  | ClientToServer => fallback
  | ServerToClient => default fallback (server_table s c)
  end.

(** ** The tables implement the transition functions *)

Lemma new_master_rows s :
  s <> Max ->
  new_master ft !! state_index s
  = Some ((fun f => client_table s (classify f)) <$> seqZ 0 64).
Proof. intros Hs. destruct s; try done; vm_compute; reflexivity. Qed.

Lemma new_slave_rows s :
  s <> Max ->
  new_slave ft !! state_index s
  = Some ((fun f => server_table s (classify f)) <$> seqZ 0 64).
Proof. intros Hs. destruct s; try done; vm_compute; reflexivity. Qed.

Lemma get_row (m : StateMachine) s (tbl : class -> option StateValue) f :
  m !! state_index s = Some ((fun f => tbl (classify f)) <$> seqZ 0 64) ->
  get m s f = Ret (tbl (classify f)).
Proof.
  intros Hrow. unfold get. rewrite Hrow. cbn [unwrap mbind run_bind].
  pose proof (land_mask_bound f).
  rewrite list_lookup_fmap, lookup_seqZ_lt by lia. cbn.
  by rewrite Z.add_0_l, Z2Nat.id, classify_mask by lia.
Qed.

Lemma get_master s f : s <> Max -> get (new_master ft) s f = Ret (client_table s (classify f)).
Proof. intros. by apply (get_row _ s (client_table s)), new_master_rows. Qed.

Lemma get_slave s f : s <> Max -> get (new_slave ft) s f = Ret (server_table s (classify f)).
Proof. intros. by apply (get_row _ s (server_table s)), new_slave_rows. Qed.

End Abstract.
