(* ===== verification/FlowFsm.v ===== *)
(** * Behaviour of the TCP flow state machine

    Theorems about runs of [tcp_flags_step] (FlowState.v) over sequences of
    packets: the implementation refines the abstract step, never panics,
    keeps its timeouts inside the configured window, and reaches [Closed]
    exactly as a TCP teardown prescribes. *)

From S2P Require Import Prelude Timestamp TcpFlags FlowState.
Import TcpFlags.

(** A packet as the state machine sees it; [update_flow] updates the packet
    counters of the node before the step, so each packet carries them. *)
Record packet := {
  p_flags : Z;
  p_dir : PacketDirection;
  p_src_total : Z;
  p_dst_total : Z;
}.

Definition count_packet (node : FsmNode) (p : packet) : FsmNode := {|
  flow_state := flow_state node;
  timeout := timeout node;
  src_total_packet_count := p_src_total p;
  dst_total_packet_count := p_dst_total p;
|}.

Definition fsm_step (ft : FlowTimeout.t) (node : FsmNode) (p : packet) : run FsmNode :=
  fst <$> tcp_flags_step ft (new_master ft) (new_slave ft)
    (count_packet node p) (p_flags p) (p_dir p).

Fixpoint fsm_run (ft : FlowTimeout.t) (node : FsmNode) (ps : list packet) : run FsmNode :=
  match ps with
  | [] => Ret node
  | p :: ps => node' ← fsm_step ft node p; fsm_run ft node' ps
  end.

(** ** Abstract run *)

(** The abstract step sees only the class of the segment: an invalid class has
    no table entry, so it too leads to [Exception]. *)
Definition abs_step (ft : FlowTimeout.t) (s : FlowState) (p : packet) : FlowState :=
  sv_state (step_value ft s (classify (p_flags p)) (p_dir p)).

Definition abs_timeout (ft : FlowTimeout.t) (s : FlowState) (p : packet) : Timestamp.t :=
  if is_invalid (p_flags p) then FlowTimeout.exception ft
  else if (p_src_total p =? 0) || (p_dst_total p =? 0)
  then FlowTimeout.single_direction ft
  else sv_timeout (step_value ft s (classify (p_flags p)) (p_dir p)).

Section Fsm.
Context (ft : FlowTimeout.t).

Lemma client_table_invalid s : client_table ft s CInvalid = None.
Proof. by destruct s. Qed.

Lemma step_value_invalid s d : sv_state (step_value ft s CInvalid d) = Exception.
Proof. by destruct s, d. Qed.

(** Every reachable entry leads to a proper state and never asks the caller to
    close the flow. *)
Lemma step_value_proper s c d :
  sv_state (step_value ft s c d) <> Max /\ sv_closed (step_value ft s c d) = false.
Proof. by destruct s, c, d. Qed.

Lemma update_flow_state_machine_abs node flags d :
  flow_state node <> Max ->
  update_flow_state_machine ft (new_master ft) (new_slave ft) node flags d
  = Ret ({| flow_state := sv_state (step_value ft (flow_state node) (classify flags) d);
            timeout :=
              if (src_total_packet_count node =? 0) || (dst_total_packet_count node =? 0)
              then FlowTimeout.single_direction ft
              else sv_timeout (step_value ft (flow_state node) (classify flags) d);
            src_total_packet_count := src_total_packet_count node;
            dst_total_packet_count := dst_total_packet_count node |}, false).
Proof.
  intros Hmax. unfold update_flow_state_machine.
  rewrite get_master, get_slave by done. cbn [mbind run_bind].
  destruct (step_value_proper (flow_state node) (classify flags) d) as [_ Hc].
  unfold step_value in *.
  destruct d; [rewrite decide_False by done|rewrite decide_True by done]; cbn in *.
  all: by rewrite Hc.
Qed.

Lemma fsm_step_abs node p :
  flow_state node <> Max ->
  fsm_step ft node p
  = Ret {| flow_state := abs_step ft (flow_state node) p;
           timeout := abs_timeout ft (flow_state node) p;
           src_total_packet_count := p_src_total p;
           dst_total_packet_count := p_dst_total p |}.
Proof.
  intros Hmax. unfold fsm_step, tcp_flags_step, abs_step, abs_timeout.
  destruct (is_invalid (p_flags p)) eqn:Hinv.
  - apply classify_invalid in Hinv. by rewrite Hinv, step_value_invalid.
  - by rewrite update_flow_state_machine_abs.
Qed.

Lemma abs_step_proper s p : abs_step ft s p <> Max.
Proof. apply step_value_proper. Qed.

Lemma fsm_run_abs ps : forall node,
  flow_state node <> Max ->
  exists node', fsm_run ft node ps = Ret node'
    /\ flow_state node' = foldl (abs_step ft) (flow_state node) ps
    /\ flow_state node' <> Max.
Proof.
  induction ps as [|p ps IH]; intros node Hmax; cbn [fsm_run foldl]; [by eauto|].
  rewrite fsm_step_abs by done. cbn [mbind run_bind].
  apply (IH (Build_FsmNode _ _ _ _)). apply abs_step_proper.
Qed.

(** Segments that keep their state do so over a whole run. *)
Lemma foldl_fixpoint s (ps : list packet) :
  Forall (fun p => abs_step ft s p = s) ps -> foldl (abs_step ft) s ps = s.
Proof. induction 1 as [|p ps Hp _ IH]; cbn; [done|]. by rewrite Hp. Qed.

End Fsm.

(** ** Theorems *)

Section Theorems.
Context (ft : FlowTimeout.t).

Lemma fsm_run_snoc ps p : forall node,
  fsm_run ft node (ps ++ [p]) = (node' ← fsm_run ft node ps; fsm_step ft node' p).
Proof.
  induction ps as [|q ps IH]; intros node; cbn.
  - by destruct (fsm_step ft node p).
  - destruct (fsm_step ft node q); cbn; auto.
Qed.

(** C17: the two 18x64 tables and [update_flow_state_machine] implement the abstract
    transition functions: on every sequence of packets, whatever their flags,
    the run never indexes outside the tables, ends in the state the abstract
    machine computes and leaves the timeout the last packet asked for. *)
Theorem fsm_run_refines node ps p :
  flow_state node <> Max ->
  fsm_run ft node (ps ++ [p])
  = let s := foldl (abs_step ft) (flow_state node) ps in
    Ret {| flow_state := abs_step ft s p;
           timeout := abs_timeout ft s p;
           src_total_packet_count := p_src_total p;
           dst_total_packet_count := p_dst_total p |}.
Proof.
  intros Hmax. rewrite fsm_run_snoc.
  destruct (fsm_run_abs ft ps node Hmax) as (node' & -> & <- & Hmax').
  cbn [mbind run_bind]. by apply fsm_step_abs.
Qed.

(** The timeout of a step is one of the configured ones. *)
Lemma abs_timeout_cases s p :
  abs_timeout ft s p ∈
    [FlowTimeout.opening ft; FlowTimeout.established ft; FlowTimeout.closing ft;
     FlowTimeout.established_rst ft; FlowTimeout.exception ft; FlowTimeout.closed_fin ft;
     FlowTimeout.single_direction ft; FlowTimeout.opening_rst ft].
Proof.
  unfold abs_timeout. rewrite !elem_of_cons. case_all; [tauto..|].
  destruct s, (classify (p_flags p)), (p_dir p); cbn; tauto.
Qed.

End Theorems.

(** [update_min_max] bounds every timeout it was computed from. *)
Lemma update_min_max_window s x :
  x ∈ [FlowTimeout.opening s; FlowTimeout.established s; FlowTimeout.closing s;
       FlowTimeout.established_rst s; FlowTimeout.exception s; FlowTimeout.closed_fin s;
       FlowTimeout.single_direction s; FlowTimeout.opening_rst s] ->
  FlowTimeout.min (FlowTimeout.update_min_max s) <= x
    <= FlowTimeout.max (FlowTimeout.update_min_max s).
Proof.
  destruct s. rewrite !elem_of_cons, elem_of_nil. unfold FlowTimeout.update_min_max.
  cbn [FlowTimeout.min FlowTimeout.max FlowTimeout.opening FlowTimeout.established
    FlowTimeout.closing FlowTimeout.established_rst FlowTimeout.exception
    FlowTimeout.closed_fin FlowTimeout.single_direction FlowTimeout.opening_rst].
  rewrite !Z.min_le_iff, !Z.max_le_iff. pose proof (Z.le_refl x). naive_solver.
Qed.

(** with timeouts built by [FlowTimeout::from], the timeout of a flow node always
    lies between [FlowTimeout.min] and [FlowTimeout.max] after a packet, so the
    time window the flow map allocates from [max] covers every node. *)
Theorem fsm_timeout_in_window c node ps p node' :
  flow_state node <> Max ->
  fsm_run (FlowTimeout.from c) node (ps ++ [p]) = Ret node' ->
  FlowTimeout.min (FlowTimeout.from c) <= timeout node' <= FlowTimeout.max (FlowTimeout.from c).
Proof.
  intros Hmax. rewrite fsm_run_snoc.
  destruct (fsm_run_abs (FlowTimeout.from c) ps node Hmax) as (n' & -> & _ & Hmax').
  cbn [mbind run_bind]. rewrite fsm_step_abs by done. intros [= <-]. cbn [timeout].
  apply update_min_max_window, (abs_timeout_cases (FlowTimeout.from c)).
Qed.

(** a flow that was reset, refused or hit an opening reset stays in that state
    whatever valid segments follow, in either direction. *)
Theorem aborted_absorbing ft node ps :
  aborted (flow_state node) = true ->
  Forall (fun p => is_invalid (p_flags p) = false) ps ->
  exists node', fsm_run ft node ps = Ret node' /\ flow_state node' = flow_state node.
Proof.
  intros Hab Hval.
  destruct (fsm_run_abs ft ps node) as (n' & Hrun & Hst & _); [by intros E; rewrite E in Hab|].
  exists n'. split; [done|]. rewrite Hst. apply foldl_fixpoint.
  eapply Forall_impl; [done|]. intros p Hp. unfold abs_step. cbn beta in Hp.
  destruct (classify (p_flags p)) eqn:Hc; [..|by apply classify_invalid in Hc; congruence].
  all: by destruct (flow_state node), (p_dir p).
Qed.

(** What the closing states say about the FIN segments seen so far. *)
Definition fin_seen (d : PacketDirection) (ps : list packet) : Prop :=
  Exists (fun p => classify (p_flags p) = CFin /\ p_dir p = d) ps.

Definition fins_justified (s : FlowState) (ps : list packet) : Prop :=
  match s with
  | ClosingTx1 => fin_seen ClientToServer ps
  | ClosingRx1 => fin_seen ServerToClient ps
  | ClosingTx2 | ClosingRx2 | Closed => fin_seen ClientToServer ps /\ fin_seen ServerToClient ps
  | _ => True
  end.

Lemma fin_seen_snoc d ps p :
  fin_seen d (ps ++ [p]) <-> fin_seen d ps \/ (classify (p_flags p) = CFin /\ p_dir p = d).
Proof. unfold fin_seen. rewrite Exists_app, Exists_cons, Exists_nil. naive_solver. Qed.

Lemma fins_justified_step ft s ps p :
  fins_justified s ps -> fins_justified (abs_step ft s p) (ps ++ [p]).
Proof.
  unfold abs_step.
  destruct s, (classify (p_flags p)) eqn:Hc, (p_dir p) eqn:Hd; cbn; rewrite ?fin_seen_snoc; tauto.
Qed.

(** starting from a fresh flow, [Closed] is reached only after a FIN of the client
    and a FIN of the server have both been seen. *)
Theorem closed_only_after_both_fins ft node ps node' :
  flow_state node = Raw ->
  fsm_run ft node ps = Ret node' ->
  flow_state node' = Closed ->
  fin_seen ClientToServer ps /\ fin_seen ServerToClient ps.
Proof.
  intros Hraw Hrun Hcl.
  destruct (fsm_run_abs ft ps node) as (n' & Hrun' & Hst & _); [by rewrite Hraw|].
  rewrite Hrun in Hrun'. injection Hrun' as <-. rewrite Hraw in Hst.
  assert (fins_justified (flow_state node') ps) as Hj.
  { rewrite Hst. clear. induction ps as [|p ps IH] using rev_ind; [done|].
    rewrite foldl_snoc. by apply fins_justified_step. }
  by rewrite Hcl in Hj.
Qed.

(** A segment of an established conversation: an acknowledgement or data. *)
Definition is_traffic (p : packet) : Prop :=
  classify (p_flags p) = CAck \/ classify (p_flags p) = CData.

Definition is_segment (c : class) (d : PacketDirection) (p : packet) : Prop :=
  classify (p_flags p) = c /\ p_dir p = d.

Lemma traffic_keeps ft s ps :
  s ∈ [Established; ClosingTx1; ClosingRx1] ->
  Forall is_traffic ps -> foldl (abs_step ft) s ps = s.
Proof.
  intros Hs Hps. apply foldl_fixpoint. eapply Forall_impl; [done|].
  intros p Hp. unfold abs_step. rewrite !elem_of_cons, elem_of_nil in Hs.
  destruct Hp as [-> | ->], (p_dir p); naive_solver.
Qed.

Lemma abs_segment ft s c d p :
  is_segment c d p -> abs_step ft s p = sv_state (step_value ft s c d).
Proof. by intros [<- <-]. Qed.

(** a complete TCP session, with any amount of traffic in both directions between
    the handshake, the two FINs and the last ACK, ends in [Closed], whichever
    side closes first. *)
Theorem session_closes ft node syn synack ack data fin1 data' fin2 last d :
  flow_state node = Raw ->
  is_segment CSyn ClientToServer syn ->
  is_segment CSynAck ServerToClient synack ->
  is_segment CAck ClientToServer ack ->
  Forall is_traffic data ->
  is_segment CFin d fin1 ->
  Forall is_traffic data' ->
  is_segment CFin (match d with ClientToServer => ServerToClient | _ => ClientToServer end) fin2 ->
  is_segment CAck d last ->
  exists node',
    fsm_run ft node ([syn; synack; ack] ++ data ++ [fin1] ++ data' ++ [fin2; last]) = Ret node'
    /\ flow_state node' = Closed.
Proof.
  intros Hraw Hsyn Hsa Hack Hdata Hf1 Hdata' Hf2 Hlast.
  edestruct (fsm_run_abs ft) as (n' & Hrun & Hst & _);
    [|exists n'; split; [exact Hrun|rewrite Hst; clear Hrun Hst]]; [by rewrite Hraw|].
  rewrite !foldl_app. cbn [foldl]. rewrite Hraw.
  rewrite (abs_segment _ _ _ _ _ Hsyn), (abs_segment _ _ _ _ _ Hsa), (abs_segment _ _ _ _ _ Hack).
  cbn. rewrite (traffic_keeps ft Established) by (set_solver || done).
  rewrite (abs_segment _ _ _ _ _ Hf1).
  rewrite (traffic_keeps ft _ data') by (by destruct d; cbn; set_solver).
  rewrite (abs_segment _ _ _ _ _ Hf2), (abs_segment _ _ _ _ _ Hlast). by destruct d.
Qed.

(** [update_flow_state_machine] never reports a flow as closed: no table entry
    carries [closed = true], so a flow always leaves the map by timeout. *)
Theorem state_machine_never_closes ft node flags d node' closed :
  flow_state node <> Max ->
  update_flow_state_machine ft (new_master ft) (new_slave ft) node flags d = Ret (node', closed) ->
  closed = false.
Proof. intros Hmax. rewrite update_flow_state_machine_abs by done. congruence. Qed.

(** ** Witnesses *)

Definition ft_default : FlowTimeout.t := FlowTimeout.from FlowTimeout.TcpTimeout_default.

Definition mk_packet (flags : Z) (d : PacketDirection) : packet :=
  {| p_flags := flags; p_dir := d; p_src_total := 1; p_dst_total := 1 |}.

Definition mk_node (s : FlowState) : FsmNode :=
  {| flow_state := s; timeout := 0; src_total_packet_count := 0; dst_total_packet_count := 0 |}.

Lemma fsm_run_refines_witness :
  fsm_run ft_default (mk_node Raw)
    ([mk_packet SYN ClientToServer; mk_packet SYN_ACK ServerToClient]
       ++ [mk_packet ACK ClientToServer])
  = Ret {| flow_state := Established; timeout := 300000000000;
           src_total_packet_count := 1; dst_total_packet_count := 1 |}.
Proof. by rewrite (fsm_run_refines ft_default (mk_node Raw)). Defined.

Lemma fsm_timeout_in_window_witness :
  1000000000 <= 300000000000 <= FlowTimeout.max ft_default.
Proof.
  exact (fsm_timeout_in_window FlowTimeout.TcpTimeout_default (mk_node Raw)
    [mk_packet SYN ClientToServer; mk_packet SYN_ACK ServerToClient]
    (mk_packet ACK ClientToServer)
    {| flow_state := Established; timeout := 300000000000;
       src_total_packet_count := 1; dst_total_packet_count := 1 |}
    ltac:(discriminate) eq_refl).
Defined.

Lemma aborted_absorbing_witness :
  exists node',
    fsm_run ft_default (mk_node ServerReset) [mk_packet SYN ClientToServer] = Ret node'
    /\ flow_state node' = ServerReset.
Proof.
  apply (aborted_absorbing ft_default (mk_node ServerReset)); [reflexivity|].
  repeat constructor.
Defined.

Lemma closed_only_after_both_fins_witness :
  let ps := [mk_packet SYN ClientToServer; mk_packet FIN_ACK ServerToClient;
             mk_packet FIN_ACK ClientToServer; mk_packet ACK ServerToClient] in
  fin_seen ClientToServer ps /\ fin_seen ServerToClient ps.
Proof.
  apply (closed_only_after_both_fins ft_default (mk_node Raw)
    [mk_packet SYN ClientToServer; mk_packet FIN_ACK ServerToClient;
     mk_packet FIN_ACK ClientToServer; mk_packet ACK ServerToClient]
    {| flow_state := Closed; timeout := 2000000000;
       src_total_packet_count := 1; dst_total_packet_count := 1 |}); reflexivity.
Defined.

Lemma session_closes_witness :
  exists node',
    fsm_run ft_default (mk_node Raw)
      ([mk_packet SYN ClientToServer; mk_packet SYN_ACK ServerToClient; mk_packet ACK ClientToServer]
         ++ [mk_packet PSH_ACK ClientToServer] ++ [mk_packet FIN_ACK ServerToClient]
         ++ [mk_packet ACK ClientToServer]
         ++ [mk_packet FIN_ACK ClientToServer; mk_packet ACK ServerToClient]) = Ret node'
    /\ flow_state node' = Closed.
Proof.
  apply (session_closes ft_default (mk_node Raw)) with (d := ServerToClient).
  all: first [reflexivity | split; reflexivity
             | apply Forall_singleton; first [left; reflexivity | right; reflexivity]].
Defined.

Lemma state_machine_never_closes_witness :
  exists node' closed,
    update_flow_state_machine ft_default (new_master ft_default) (new_slave ft_default)
      (mk_node Opening2) ACK ClientToServer = Ret (node', closed) /\ closed = false.
Proof.
  eexists _, _. split; [reflexivity|].
  exact (state_machine_never_closes ft_default (mk_node Opening2) ACK ClientToServer
    {| flow_state := Established; timeout := 5000000000;
       src_total_packet_count := 0; dst_total_packet_count := 0 |} false
    ltac:(discriminate) eq_refl).
Defined.
