(* ===== verification/SeqList.v ===== *)
(** * The sequence-number list of a TCP session peer

    [SeqSegment], [PacketSeqType] and the list operations of [SessionPeer]
    (src/agent/src/flow_generator/perf/tcp.rs): a fixed array of 16 segments,
    sorted by descending sequence number, against which the retransmission,
    overlap and continuity of each payload is decided.

    The array operations are modelled at their indices ([search] returns
    positions in place of mutable references); [rep] relates the array to the
    list of its live segments. *)

From S2P Require Import Prelude.

(** ** Data *)

Inductive PacketSeqType :=
| Error | Retrans | NotCare | Merge | Discontinuous | Continuous | BothContinuous.

#[export] Instance PacketSeqType_eq_dec : EqDecision PacketSeqType.
Proof. solve_decision. Defined.

Record SeqSegment := { seq : Z; len : Z }.

Definition SeqSegment_default : SeqSegment := {| seq := 0; len := 0 |}.

Definition SEQ_LIST_MAX_LEN : nat := 16.

(** The fields [seq_list] and [seq_list_len] of [SessionPeer]. *)
Record SeqList := { seq_list : list SeqSegment; seq_list_len : Z }.

Definition SeqList_default : SeqList :=
  {| seq_list := replicate SEQ_LIST_MAX_LEN SeqSegment_default; seq_list_len := 0 |}.

Definition SEQ_NUMBER_LOW_THRESHOLD : Z := 1073741824.
Definition SEQ_NUMBER_HIGH_THRESHOLD : Z := 3221225472.

(** [ContinuousFlags] *)
Definition DISCONTINUOUS : Z := 0.
Definition LT_CONTINUOUS : Z := 1.
Definition GTE_CONTINUOUS : Z := 16.
Definition BOTH_CONTINUOUS : Z := Z.lor LT_CONTINUOUS GTE_CONTINUOUS.

(** [<[T]>::rotate_left(1)] and [<[T]>::rotate_right(1)] *)
Definition rotate_left1 {A} (l : list A) : list A := drop 1 l ++ take 1 l.
Definition rotate_right1 {A} (l : list A) : list A :=
  drop (length l - 1) l ++ take (length l - 1) l.

(** ** Operations *)

Definition merge_seq_list (p : SeqList) (index : nat) : run SeqList :=
  _ ← rassert (Z.of_nat index + 1 <? seq_list_len p);
  gte ← unwrap (seq_list p !! index);
  lt ← unwrap (seq_list p !! S index);
  let l := <[index := {| seq := seq lt; len := (seq gte -₃₂ seq lt) +₃₂ len gte |}]> (seq_list p) in
  let l := <[S index := SeqSegment_default]> l in
  let n := Z.to_nat (seq_list_len p) in
  let l :=
    if Z.of_nat index <? seq_list_len p - 2
    then take (S index) l ++ rotate_left1 (drop (S index) (take n l)) ++ drop n l
    else l in
  Ret {| seq_list := l; seq_list_len := seq_list_len p - 1 |}.

Definition insert_seq_segment (p : SeqList) (index : nat) (seg : SeqSegment) : run SeqList :=
  let l :=
    if Z.of_nat index <? seq_list_len p
    then take index (seq_list p) ++ rotate_right1 (drop index (seq_list p))
    else seq_list p in
  _ ← unwrap (l !! index);
  Ret {| seq_list := <[index := seg]> l; seq_list_len := seq_list_len p + 1 |}.

Definition check_seq_segment (p : SeqList) (seg : SeqSegment) : run (SeqList * bool) :=
  if seq seg +₃₂ len seg <? seq seg then Ret (p, false)
  else if seq_list_len p <=? 0 then
    p ← insert_seq_segment p 0 seg; Ret (p, false)
  else
    last ← unwrap (seq_list p !! 0%nat);
    if (seq seg <? SEQ_NUMBER_LOW_THRESHOLD)
       && (SEQ_NUMBER_HIGH_THRESHOLD <? seq last +₃₂ len last)
    then p ← insert_seq_segment SeqList_default 0 seg; Ret (p, false)
    else if (SEQ_NUMBER_HIGH_THRESHOLD <? seq seg)
            && (seq last +₃₂ len last <? SEQ_NUMBER_LOW_THRESHOLD)
    then Ret (p, false)
    else Ret (p, true).

(** The loop of [search]: the position of the first segment below [seg]. *)
Fixpoint search_index (seg : SeqSegment) (l : list SeqSegment) : nat :=
  match l with
  | [] => 0
  | s :: l => if seq s <? seq seg then 0 else S (search_index seg l)
  end.

(** Positions of [lt] and [gte], and the insertion index. *)
Definition search (p : SeqList) (seg : SeqSegment)
  : run (option nat * option nat * nat) :=
  if seq_list_len p =? 0 then Ret (None, None, 0%nat)
  else
    _ ← rassert ((0 <=? seq_list_len p) && (seq_list_len p <=? Z.of_nat SEQ_LIST_MAX_LEN));
    let n := Z.to_nat (seq_list_len p) in
    let index := search_index seg (take n (seq_list p)) in
    if decide (index = 0%nat) then Ret (Some index, None, index)
    else if decide (index = n) then Ret (None, Some (index - 1)%nat, index)
    else Ret (Some index, Some (index - 1)%nat, index).

(** Read through an optional reference into the array. *)
Definition deref (l : list SeqSegment) (o : option nat) : run (option SeqSegment) :=
  match o with
  | None => Ret None
  | Some i => s ← unwrap (l !! i); Ret (Some s)
  end.

Definition check_and_update_continuous_segment (l : list SeqSegment)
    (lt gte : option nat) (seg : SeqSegment) : run (list SeqSegment * Z) :=
  '(l, flag) ←
    match lt with
    | None => Ret (l, DISCONTINUOUS)
    | Some i =>
        s ← unwrap (l !! i);
        Ret (if seq s +₃₂ len s =? seq seg
             then (<[i := {| seq := seq s; len := len s +₃₂ len seg |}]> l,
                   Z.lor DISCONTINUOUS LT_CONTINUOUS)
             else (l, DISCONTINUOUS))
    end;
  match gte with
  | None => Ret (l, flag)
  | Some i =>
      s ← unwrap (l !! i);
      Ret (if seq seg +₃₂ len seg =? seq s
           then (<[i := {| seq := seq seg; len := len s +₃₂ len seg |}]> l,
                 Z.lor flag GTE_CONTINUOUS)
           else (l, flag))
  end.

Definition check_retrans (base seg : SeqSegment) : bool :=
  (seq base <=? seq seg) && (seq seg <? seq base +₃₂ len base).

Definition is_retrans_segment (lt gte : option SeqSegment) (seg : SeqSegment) : run bool :=
  match lt, gte with
  | Some lt, _ => Ret (check_retrans lt seg)
  | None, Some gte => Ret (check_retrans gte seg)
  | None, None => Panic
  end.

Definition is_error_segment (lt gte : option SeqSegment) (seg : SeqSegment) : bool :=
  match gte with
  | Some gte =>
      (seq seg <? seq gte) && (seq gte <? seq seg +₃₂ len seg)
      || (seq gte +₃₂ len gte <? seq seg +₃₂ len seg)
  | None => false
  end
  || match lt with
     | Some lt => seq seg <? seq lt +₃₂ len lt
     | None => false
     end.

(** The account of a segment that passed [check_seq_segment]. *)
Definition account_segment (p : SeqList) (seg : SeqSegment) : run (SeqList * PacketSeqType) :=
  '(lt_i, gte_i, index) ← search p seg;
  lt ← deref (seq_list p) lt_i;
  gte ← deref (seq_list p) gte_i;
  retrans ← is_retrans_segment lt gte seg;
  if (retrans : bool) then Ret (p, Retrans)
  else if is_error_segment lt gte seg then Ret (p, Error)
  else
    '(l, flag) ← check_and_update_continuous_segment (seq_list p) lt_i gte_i seg;
    let p := {| seq_list := l; seq_list_len := seq_list_len p |} in
    if flag =? DISCONTINUOUS then
      p ← insert_seq_segment p index seg;
      if Z.of_nat SEQ_LIST_MAX_LEN <=? seq_list_len p
      then p ← merge_seq_list p (SEQ_LIST_MAX_LEN - 2); Ret (p, Merge)
      else Ret (p, Discontinuous)
    else if flag =? BOTH_CONTINUOUS then
      p ← merge_seq_list p (index - 1); Ret (p, BothContinuous)
    else Ret (p, Continuous).

Definition assert_seq_number (p : SeqList) (header_seq payload_len : Z)
  : run (SeqList * PacketSeqType) :=
  if (payload_len =? 0) || (header_seq =? 0) then Ret (p, NotCare)
  else
    let seg := {| seq := header_seq; len := payload_len |} in
    '(p, ok) ← check_seq_segment p seg;
    if negb ok then Ret (p, NotCare) else account_segment p seg.

(** ** Representation: the live prefix of the array *)

Definition rep (p : SeqList) (L : list SeqSegment) : Prop :=
  seq_list_len p = Z.of_nat (length L)
  /\ exists rest, seq_list p = L ++ rest /\ length (L ++ rest) = SEQ_LIST_MAX_LEN.

Lemma rep_default : rep SeqList_default [].
Proof. split; [done|]. eexists. by split. Qed.

Lemma rep_lookup p L i s : rep p L -> L !! i = Some s -> seq_list p !! i = Some s.
Proof. intros (_ & rest & -> & _) Hi. by apply lookup_app_l_Some. Qed.

Lemma rep_take p L : rep p L -> take (Z.to_nat (seq_list_len p)) (seq_list p) = L.
Proof. intros (-> & rest & -> & _). by rewrite Nat2Z.id, take_app_length. Qed.

(** Overwriting a live segment. *)
Lemma rep_update p l1 x l2 y :
  rep p (l1 ++ x :: l2) ->
  rep {| seq_list := <[length l1 := y]> (seq_list p); seq_list_len := seq_list_len p |}
      (l1 ++ y :: l2).
Proof.
  intros (Hlen & rest & Hl & H16). split; cbn.
  - rewrite Hlen, !length_app. done.
  - exists rest. rewrite Hl, <- !app_assoc in *. cbn in *.
    rewrite list_insert_middle by done. split; [done|].
    rewrite length_app in *. done.
Qed.

Lemma rotate_right1_snoc {A} (l1 l2 : list A) y :
  rotate_right1 (l1 ++ l2 ++ [y]) = y :: l1 ++ l2.
Proof.
  rewrite app_assoc. unfold rotate_right1.
  replace (length ((l1 ++ l2) ++ [y]) - 1)%nat with (length (l1 ++ l2))
    by (rewrite (length_app (l1 ++ l2)); cbn; lia).
  by rewrite drop_app_length, take_app_length.
Qed.

Lemma insert_seq_segment_rep p l1 l2 seg :
  rep p (l1 ++ l2) -> (length (l1 ++ l2) < SEQ_LIST_MAX_LEN)%nat ->
  exists p', insert_seq_segment p (length l1) seg = Ret p' /\ rep p' (l1 ++ seg :: l2).
Proof.
  intros (Hlen & rest & Hl & H16) Hlt. unfold insert_seq_segment.
  assert (exists y rest',
    (if Z.of_nat (length l1) <? seq_list_len p
     then take (length l1) (seq_list p) ++ rotate_right1 (drop (length l1) (seq_list p))
     else seq_list p) = l1 ++ y :: l2 ++ rest'
    /\ length (l1 ++ y :: l2 ++ rest') = SEQ_LIST_MAX_LEN) as (y & rest' & -> & H16').
  { rewrite Hlen, Hl. destruct rest as [|y rest _] using rev_ind.
    { rewrite app_nil_r in *. lia. }
    case_goal.
    - exists y, rest. rewrite <- !app_assoc, take_app_length, drop_app_length.
      rewrite rotate_right1_snoc. split; [done|].
      rewrite !length_app in *. cbn [length] in *. rewrite length_app. lia.
    - assert (l2 = []) as -> by (destruct l2; [done|]; rewrite length_app in *; cbn in *; lia).
      rewrite app_nil_r in *. destruct (rest ++ [y]) as [|z rest'] eqn:E; [by destruct rest|].
      by exists z, rest'. }
  rewrite list_lookup_middle by done. cbn. eexists. split; [reflexivity|].
  split; cbn.
  - rewrite Hlen, !length_app. cbn. lia.
  - exists rest'. rewrite list_insert_middle by done. rewrite <- app_assoc. split; [done|].
    rewrite !length_app in *. cbn in *. rewrite !length_app in *. lia.
Qed.

Lemma list_insert_two {A} (l1 l2 : list A) a b x y :
  <[S (length l1) := y]> (<[length l1 := x]> (l1 ++ a :: b :: l2)) = l1 ++ x :: y :: l2.
Proof. induction l1; cbn; [done|]. by f_equal. Qed.

(** The segment [merge_seq_list] puts in place of [gte] and [lt]. *)
Definition join (gte lt : SeqSegment) : SeqSegment :=
  {| seq := seq lt; len := (seq gte -₃₂ seq lt) +₃₂ len gte |}.

Lemma merge_seq_list_rep p l1 gte lt l2 :
  rep p (l1 ++ gte :: lt :: l2) ->
  exists p', merge_seq_list p (length l1) = Ret p' /\ rep p' (l1 ++ join gte lt :: l2).
Proof.
  intros (Hlen & rest & Hl & H16). unfold merge_seq_list.
  assert (seq_list_len p = Z.of_nat (length l1) + Z.of_nat (length l2) + 2) as Hlen'.
  { rewrite Hlen, length_app. cbn. lia. }
  rewrite <- app_assoc in Hl. cbn in Hl.
  destruct (Z.ltb_spec (Z.of_nat (length l1) + 1) (seq_list_len p)); [cbn|lia].
  rewrite Hl. rewrite (list_lookup_middle l1 (lt :: l2 ++ rest) gte (length l1) eq_refl). cbn.
  assert ((l1 ++ gte :: lt :: l2 ++ rest) !! S (length l1) = Some lt) as ->.
  { rewrite cons_middle, app_assoc. apply list_lookup_middle. rewrite length_app. cbn. lia. }
  cbn. rewrite list_insert_two.
  eexists. split; [reflexivity|]. split; cbn.
  { rewrite Hlen', length_app. cbn. lia. }
  exists (SeqSegment_default :: rest).
  assert (length ((l1 ++ join gte lt :: l2) ++ SeqSegment_default :: rest) = SEQ_LIST_MAX_LEN) as H16'.
  { revert H16. rewrite !length_app. cbn. rewrite ?length_app. cbn. lia. }
  split; [|done]. clear H16 H16' Hlen Hl.
  change {| seq := seq lt; len := _ |} with (join gte lt).
  set (pre := l1 ++ [join gte lt]).
  replace (l1 ++ join gte lt :: SeqSegment_default :: l2 ++ rest)
    with (pre ++ SeqSegment_default :: l2 ++ rest) by by (unfold pre; rewrite <- app_assoc).
  assert (length pre = S (length l1)) as Hpre by (unfold pre; rewrite length_app; cbn; lia).
  case_goal.
  - rewrite <- Hpre, take_app_length.
    replace (Z.to_nat (seq_list_len p)) with (length (pre ++ SeqSegment_default :: l2))
      by (rewrite length_app; cbn; lia).
    replace (pre ++ SeqSegment_default :: l2 ++ rest)
      with ((pre ++ SeqSegment_default :: l2) ++ rest) by by rewrite <- app_assoc.
    rewrite take_app_length, !drop_app_length. unfold rotate_left1, pre. cbn.
    rewrite <- !app_assoc. done.
  - assert (l2 = []) as -> by (destruct l2; cbn in *; [done|lia]).
    unfold pre. cbn. rewrite <- !app_assoc. done.
Qed.

(** ** Well-formed lists and the abstract account *)

(** One past the last sequence number of a segment. *)
Definition fin (s : SeqSegment) : Z := seq s + len s.

Definition seg_ok (s : SeqSegment) : Prop := 0 <= seq s /\ 0 < len s /\ fin s < 2 ^ 32.

(** [above a b]: [a] comes before [b] in the descending list. *)
Definition above (a b : SeqSegment) : Prop := seq b <= seq a /\ fin b <= fin a.

#[export] Instance above_trans : Transitive above.
Proof. unfold above. intros a b c. lia. Qed.

Definition wf (L : list SeqSegment) : Prop :=
  Forall seg_ok L /\ StronglySorted above L /\ (length L < SEQ_LIST_MAX_LEN)%nat.

(** The sequence numbers a list accounts for. *)
Definition in_seg (s : SeqSegment) (x : Z) : Prop := seq s <= x < fin s.
Definition covered (L : list SeqSegment) (x : Z) : Prop := Exists (fun s => in_seg s x) L.

(** What an account of [seg] does to the live segments. *)
Inductive places (L : list SeqSegment) (seg : SeqSegment)
  : list SeqSegment -> PacketSeqType -> Prop :=
| places_retrans b :
    b ∈ L -> in_seg b (seq seg) -> places L seg L Retrans
| places_error b :
    b ∈ L -> seq seg < fin b -> seq b < fin seg -> places L seg L Error
| places_insert hi lo :
    L = hi ++ lo ->
    (forall g, last hi = Some g -> above g seg) ->
    (forall l, head lo = Some l -> seq l < seq seg /\ fin l <= seq seg) ->
    (length L + 1 < SEQ_LIST_MAX_LEN)%nat ->
    places L seg (hi ++ seg :: lo) Discontinuous
| places_merge hi lo pre gte lt :
    L = hi ++ lo ->
    (forall g, last hi = Some g -> above g seg) ->
    (forall l, head lo = Some l -> seq l < seq seg /\ fin l <= seq seg) ->
    hi ++ seg :: lo = pre ++ [gte; lt] ->
    places L seg (pre ++ [join gte lt]) Merge
| places_lt hi l lo :
    L = hi ++ l :: lo ->
    (forall g, last hi = Some g -> above g seg) ->
    fin l = seq seg ->
    places L seg (hi ++ {| seq := seq l; len := len l + len seg |} :: lo) Continuous
| places_gte hi g lo :
    L = hi ++ g :: lo ->
    fin seg = seq g ->
    (forall l, head lo = Some l -> seq l < seq seg /\ fin l <= seq seg) ->
    places L seg (hi ++ {| seq := seq seg; len := len g + len seg |} :: lo) Continuous
| places_both hi g l lo :
    L = hi ++ g :: l :: lo ->
    fin l = seq seg -> fin seg = seq g ->
    places L seg (hi ++ {| seq := seq l; len := fin g - seq l |} :: lo) BothContinuous.

Lemma search_index_split seg L :
  exists hi lo, L = hi ++ lo /\ search_index seg L = length hi
    /\ Forall (fun s => seq seg <= seq s) hi
    /\ (forall l, head lo = Some l -> seq l < seq seg).
Proof.
  induction L as [|s L (hi & lo & -> & IH & Hhi & Hlo)]; cbn.
  { exists [], []. split_and!; naive_solver. }
  case_goal.
  - exists [], (s :: hi ++ lo). split_and!; try done. intros ? [= <-]. lia.
  - exists (s :: hi), lo. cbn. rewrite IH. split_and!; try done. constructor; [lia|done].
Qed.

Lemma seg_ok_fin s : seg_ok s -> seq s +₃₂ len s = fin s.
Proof. intros (? & ? & ?). apply wadd_small. unfold fits, fin in *. lia. Qed.

Lemma join_ok gte lt :
  seg_ok gte -> seg_ok lt -> above gte lt ->
  join gte lt = {| seq := seq lt; len := fin gte - seq lt |} /\ seg_ok (join gte lt).
Proof.
  unfold seg_ok, above, join, fin. intros (? & ? & ?) (? & ? & ?) [? ?].
  rewrite wsub_small by (unfold fits; lia). rewrite wadd_small by (unfold fits; lia).
  cbn. split; [f_equal; lia|lia].
Qed.

(** ** Accounts preserve well-formedness *)

Lemma insert_sorted hi lo seg :
  StronglySorted above (hi ++ lo) ->
  (forall g, last hi = Some g -> above g seg) ->
  (forall l, head lo = Some l -> seq l < seq seg /\ fin l <= seq seg) ->
  seg_ok seg -> StronglySorted above (hi ++ seg :: lo).
Proof.
  intros Hs Hhi Hlo (? & ? & ?). apply StronglySorted_insert; [apply _|done..|].
  intros l Hl. specialize (Hlo l Hl). unfold above, fin in *. lia.
Qed.

(** Replace a segment by one between the same neighbours. *)
Lemma replace_sorted hi lo s s' :
  StronglySorted above (hi ++ s :: lo) ->
  (forall g, last hi = Some g -> above g s -> above g s') ->
  (forall l, head lo = Some l -> above s l -> above s' l) ->
  StronglySorted above (hi ++ s' :: lo).
Proof.
  intros Hs Hhi Hlo. pose proof (StronglySorted_middle _ _ _ _ Hs) as [? ?].
  apply StronglySorted_delete in Hs.
  apply StronglySorted_insert; [apply _|by eauto..].
Qed.

Lemma wf_intro L :
  Forall seg_ok L -> StronglySorted above L -> (length L < SEQ_LIST_MAX_LEN)%nat -> wf L.
Proof. by repeat split. Qed.

Ltac decompose_ok :=
  repeat match goal with
  | H : Forall seg_ok (_ ++ _) |- _ => apply Forall_app in H as [? ?]
  | H : Forall seg_ok (_ :: _) |- _ => apply Forall_cons in H as [? ?]
  | H : context [length (_ ++ _)] |- _ => rewrite length_app in H
  end.

Ltac solve_wf_parts :=
  first [ by rewrite ?length_app in *; cbn [length] in *; lia
        | apply Forall_app; split; [done|constructor; [|done]] ].

Lemma wf_places L seg L' t : seg_ok seg -> wf L -> places L seg L' t -> wf L'.
Proof.
  intros Hseg (Hok & Hs & Hlen) Hp.
  destruct Hp as [b|b|hi lo -> Hhi Hlo Hl|hi lo pre gte lt -> Hhi Hlo Hsplit
    |hi l lo -> Hhi Hl|hi g lo -> Hg Hlo|hi g l lo -> Hl Hg]; [done|done|..].
  - decompose_ok. apply wf_intro; [solve_wf_parts; done|by apply insert_sorted|solve_wf_parts].
  - assert (Forall seg_ok (pre ++ [gte; lt])) as Hok'.
    { rewrite <- Hsplit. decompose_ok. by solve_wf_parts. }
    pose proof (insert_sorted _ _ _ Hs Hhi Hlo Hseg) as Hs'. rewrite Hsplit in Hs'.
    apply (f_equal length) in Hsplit. rewrite !length_app in Hsplit, Hlen. cbn in Hsplit.
    clear Hok. decompose_ok.
    assert (above gte lt) as Hab
      by (apply StronglySorted_middle in Hs' as [_ H']; by apply H').
    destruct (join_ok gte lt) as [Hj Hjok]; [done..|].
    apply wf_intro; [by solve_wf_parts| |rewrite length_app; cbn in *; lia].
    rewrite (cons_middle gte), app_assoc in Hs'. apply StronglySorted_delete in Hs'.
    rewrite app_nil_r in Hs'. eapply replace_sorted; [exact Hs'| |done].
    intros g _. rewrite Hj. unfold above, fin. cbn. unfold above, fin in *. lia.
  - decompose_ok. apply wf_intro; [solve_wf_parts| |solve_wf_parts].
    + unfold seg_ok, fin in *. cbn. lia.
    + eapply replace_sorted; [exact Hs| |].
      * intros g ?. specialize (Hhi g). unfold above, fin in *. cbn. naive_solver lia.
      * unfold above, fin, seg_ok in *. cbn. intros. lia.
  - decompose_ok. apply wf_intro; [solve_wf_parts| |solve_wf_parts].
    + unfold seg_ok, fin in *. cbn. lia.
    + eapply replace_sorted; [exact Hs| |].
      * unfold above, fin, seg_ok in *. cbn. intros. lia.
      * intros l Hl. specialize (Hlo l Hl). unfold above, fin, seg_ok in *. cbn. lia.
  - decompose_ok. apply wf_intro; [solve_wf_parts| |solve_wf_parts].
    + unfold seg_ok, fin in *. cbn. lia.
    + rewrite (cons_middle g), app_assoc in Hs.
      pose proof (StronglySorted_middle _ _ _ _ Hs) as [_ Hl'].
      apply StronglySorted_delete in Hs. rewrite <- app_assoc in Hs.
      eapply replace_sorted; [exact Hs| |].
      * unfold above, fin, seg_ok in *. cbn. intros. lia.
      * intros y Hy _. specialize (Hl' y Hy). unfold above, fin, seg_ok in *. cbn. lia.
Qed.

(** ** Accounts and coverage *)

Lemma covered_app L1 L2 x : covered (L1 ++ L2) x <-> covered L1 x \/ covered L2 x.
Proof. apply Exists_app. Qed.

Lemma covered_cons s L x : covered (s :: L) x <-> in_seg s x \/ covered L x.
Proof. apply Exists_cons. Qed.

Lemma covered_mid hi s lo x : covered (hi ++ s :: lo) x <-> in_seg s x \/ covered (hi ++ lo) x.
Proof. rewrite !covered_app, covered_cons. tauto. Qed.

(** A segment extended by the one that follows it. *)
Lemma in_seg_extend a b x :
  seg_ok a -> seg_ok b -> fin a = seq b ->
  in_seg {| seq := seq a; len := len a + len b |} x <-> in_seg a x \/ in_seg b x.
Proof. unfold in_seg, seg_ok, fin. cbn. lia. Qed.

Lemma covered_nil x : covered [] x <-> False.
Proof. apply Exists_nil. Qed.

Lemma covered_elem b L x : b ∈ L -> in_seg b x -> covered L x.
Proof. intros. apply Exists_exists. eauto. Qed.

(** What each classification says about the sequence numbers. *)
Definition account_spec (L : list SeqSegment) (seg : SeqSegment)
    (L' : list SeqSegment) (t : PacketSeqType) : Prop :=
  match t with
  | Retrans => L' = L /\ covered L (seq seg)
  | Error => L' = L /\ exists x, in_seg seg x /\ covered L x
  | NotCare => L' = L \/ L' = [seg]
  | Discontinuous | Continuous | BothContinuous =>
      forall x, covered L' x <-> covered L x \/ in_seg seg x
  | Merge =>
      exists a b, forall x, covered L' x <-> covered L x \/ in_seg seg x \/ a <= x < b
  end.

Lemma places_account L seg L' t :
  seg_ok seg -> wf L -> places L seg L' t -> account_spec L seg L' t.
Proof.
  intros Hseg (Hok & Hs & Hlen) Hp.
  destruct Hp as [b Hb ?|b Hb ? ?|hi lo -> Hhi Hlo Hl|hi lo pre gte lt -> Hhi Hlo Hsplit
    |hi l lo -> Hhi Hl|hi g lo -> Hg Hlo|hi g l lo -> Hl Hg]; cbn.
  - split; [done|]. by eapply covered_elem.
  - split; [done|]. exists (Z.max (seq seg) (seq b)).
    pose proof (proj1 (Forall_forall _ _) Hok b Hb) as Hbok.
    split; [|eapply covered_elem; [done|]]; unfold in_seg, seg_ok, fin in *; lia.
  - intros x. rewrite covered_mid. tauto.
  - exists (fin lt), (seq gte). intros x.
    pose proof (covered_mid hi seg lo x) as Hc. rewrite Hsplit in Hc.
    pose proof (insert_sorted _ _ _ Hs Hhi Hlo Hseg) as Hs'. rewrite Hsplit in Hs'.
    apply StronglySorted_middle in Hs' as [_ Hab]. specialize (Hab lt eq_refl).
    assert (Forall seg_ok (pre ++ [gte; lt])) as Hok'.
    { rewrite <- Hsplit. decompose_ok. by solve_wf_parts. }
    clear Hok Hsplit. decompose_ok. destruct (join_ok gte lt) as [-> _]; [done..|].
    assert (in_seg {| seq := seq lt; len := fin gte - seq lt |} x
            <-> in_seg gte x \/ in_seg lt x \/ fin lt <= x < seq gte) as Hj.
    { unfold in_seg, above, seg_ok, fin in *. cbn. lia. }
    rewrite !covered_mid in *. clear - Hc Hj. tauto.
  - intros x. rewrite !covered_mid. decompose_ok.
    rewrite (in_seg_extend l seg) by done. tauto.
  - intros x. rewrite !covered_mid. decompose_ok.
    rewrite (Z.add_comm (len g)), (in_seg_extend seg g) by done. tauto.
  - intros x. rewrite !covered_mid. decompose_ok.
    replace (fin g - seq l) with ((len l + len seg) + len g) by (unfold fin in *; lia).
    change (seq l) with (seq {| seq := seq l; len := len l + len seg |}) at 1.
    rewrite (in_seg_extend {| seq := seq l; len := len l + len seg |} g).
    { rewrite (in_seg_extend l seg) by done. tauto. }
    all: unfold seg_ok, fin in *; cbn; lia.
Qed.

(** ** The array implements the account *)

(** The branch that found [seg] adjacent to no recorded segment. *)
Lemma account_insert p hi lo seg :
  rep p (hi ++ lo) -> wf (hi ++ lo) ->
  (forall g, last hi = Some g -> above g seg) ->
  (forall l, head lo = Some l -> seq l < seq seg /\ fin l <= seq seg) ->
  exists p' L' t,
    (p ← insert_seq_segment p (length hi) seg;
     if Z.of_nat SEQ_LIST_MAX_LEN <=? seq_list_len p
     then p ← merge_seq_list p (SEQ_LIST_MAX_LEN - 2); Ret (p, Merge)
     else Ret (p, Discontinuous)) = Ret (p', t)
    /\ rep p' L' /\ places (hi ++ lo) seg L' t /\ (t = Discontinuous \/ t = Merge).
Proof.
  intros Hrep (Hok & Hs & Hlen) Hhi Hlo.
  destruct (insert_seq_segment_rep p hi lo seg) as (p1 & -> & Hrep1); [done..|].
  cbn [mbind run_bind]. pose proof Hrep1 as [Hlen1 _]. rewrite Hlen1.
  case_goal.
  - destruct (list_last_two (hi ++ seg :: lo)) as (pre & gte & lt & Hsplit); [unfold SEQ_LIST_MAX_LEN in *; lia|].
    rewrite Hsplit in *.
    destruct (merge_seq_list_rep p1 pre gte lt []) as (p2 & Hm & Hrep2); [done|].
    assert (length pre = SEQ_LIST_MAX_LEN - 2)%nat as Hpre.
    { apply (f_equal length) in Hsplit. rewrite !length_app in *. unfold SEQ_LIST_MAX_LEN in *. cbn [length] in *. lia. }
    rewrite <- Hpre, Hm. cbn. eexists _, _, _. split_and!; [done|done| |by right].
    by eapply places_merge.
  - eexists _, _, _. split_and!; [done|done| |by left]. econstructor; try done.
    rewrite length_app in *. cbn in *. lia.
Qed.

(** The references [search] hands out. *)
Definition lt_ref (hi lo : list SeqSegment) : option nat :=
  match lo with [] => None | _ => Some (length hi) end.
Definition gte_ref (hi : list SeqSegment) : option nat :=
  match hi with [] => None | _ => Some (length hi - 1)%nat end.

Lemma search_rep p hi lo seg :
  rep p (hi ++ lo) -> wf (hi ++ lo) -> hi ++ lo <> [] ->
  search_index seg (hi ++ lo) = length hi ->
  search p seg = Ret (lt_ref hi lo, gte_ref hi, length hi).
Proof.
  intros Hrep (_ & _ & H15) Hne Hidx. unfold search.
  rewrite (rep_take p _ Hrep), Hidx. destruct Hrep as [-> _].
  rewrite Nat2Z.id.
  assert (length (hi ++ lo) <> 0%nat) by (by rewrite length_zero_iff_nil).
  destruct (Z.eqb_spec (Z.of_nat (length (hi ++ lo))) 0); [lia|].
  destruct (Z.leb_spec 0 (Z.of_nat (length (hi ++ lo)))); [|lia].
  destruct (Z.leb_spec (Z.of_nat (length (hi ++ lo))) (Z.of_nat SEQ_LIST_MAX_LEN)); [|lia].
  cbn. rewrite length_app in *. unfold lt_ref, gte_ref.
  destruct hi as [|a hi], lo as [|b lo]; cbn in *; repeat case_decide; try done; lia.
Qed.

Lemma deref_lt p hi lo : rep p (hi ++ lo) -> deref (seq_list p) (lt_ref hi lo) = Ret (head lo).
Proof.
  intros Hrep. destruct lo as [|l lo]; [done|]. cbn.
  by rewrite (rep_lookup p _ (length hi) l Hrep) by by rewrite list_lookup_middle.
Qed.

Lemma gte_ref_snoc hi g : gte_ref (hi ++ [g]) = Some (length hi).
Proof. destruct hi; cbn; [done|]. f_equal. rewrite length_app. cbn. lia. Qed.

Lemma deref_gte p hi lo : rep p (hi ++ lo) -> deref (seq_list p) (gte_ref hi) = Ret (last hi).
Proof.
  intros Hrep. destruct hi as [|g hi _] using rev_ind; [done|].
  rewrite gte_ref_snoc, last_snoc. cbn. rewrite <- app_assoc in Hrep. cbn [app] in Hrep.
  by rewrite (rep_lookup p _ (length hi) g Hrep) by by rewrite list_lookup_middle.
Qed.

(** A segment merged with the ones it touches. *)
Definition extend_lt (l seg : SeqSegment) : SeqSegment :=
  {| seq := seq l; len := len l + len seg |}.
Definition extend_gte (g seg : SeqSegment) : SeqSegment :=
  {| seq := seq seg; len := len g + len seg |}.

Lemma update_lt_rep p hi lo seg :
  rep p (hi ++ lo) -> Forall seg_ok lo -> seg_ok seg ->
  exists l flag,
    match lt_ref hi lo with
    | None => Ret (seq_list p, DISCONTINUOUS)
    | Some i =>
        s ← unwrap (seq_list p !! i);
        Ret (if seq s +₃₂ len s =? seq seg
             then (<[i := {| seq := seq s; len := len s +₃₂ len seg |}]> (seq_list p),
                   Z.lor DISCONTINUOUS LT_CONTINUOUS)
             else (seq_list p, DISCONTINUOUS))
    end = Ret (l, flag)
    /\ ((flag = DISCONTINUOUS /\ l = seq_list p)
        \/ exists x lo', lo = x :: lo' /\ fin x = seq seg /\ flag = LT_CONTINUOUS
           /\ rep {| seq_list := l; seq_list_len := seq_list_len p |}
                (hi ++ extend_lt x seg :: lo')).
Proof.
  intros Hrep Hok Hseg. destruct lo as [|x lo]; cbn [lt_ref].
  { eexists _, _. split; [done|]. by left. }
  rewrite (rep_lookup p _ (length hi) x Hrep) by by rewrite list_lookup_middle.
  cbn. apply Forall_cons in Hok as [Hx _]. rewrite seg_ok_fin by done.
  destruct (Z.eqb_spec (fin x) (seq seg)) as [E|E].
  - eexists _, _. split; [done|]. right. exists x, lo. split_and!; [done..|].
    rewrite wadd_small by (unfold fits, seg_ok, fin in *; lia).
    by apply (rep_update p hi x lo).
  - eexists _, _. split; [done|]. by left.
Qed.

Lemma update_gte_rep q hi lo seg flag :
  rep q (hi ++ lo) -> Forall seg_ok hi -> seg_ok seg ->
  exists l flag',
    match gte_ref hi with
    | None => Ret (seq_list q, flag)
    | Some i =>
        s ← unwrap (seq_list q !! i);
        Ret (if seq seg +₃₂ len seg =? seq s
             then (<[i := {| seq := seq seg; len := len s +₃₂ len seg |}]> (seq_list q),
                   Z.lor flag GTE_CONTINUOUS)
             else (seq_list q, flag))
    end = Ret (l, flag')
    /\ ((flag' = flag /\ l = seq_list q)
        \/ exists hi' g, hi = hi' ++ [g] /\ fin seg = seq g /\ flag' = Z.lor flag GTE_CONTINUOUS
           /\ rep {| seq_list := l; seq_list_len := seq_list_len q |}
                (hi' ++ extend_gte g seg :: lo)).
Proof.
  intros Hrep Hok Hseg. destruct hi as [|g hi _] using rev_ind.
  { eexists _, _. split; [done|]. by left. }
  rewrite gte_ref_snoc. rewrite <- app_assoc in Hrep. cbn [app] in Hrep.
  rewrite (rep_lookup q _ (length hi) g Hrep) by by rewrite list_lookup_middle.
  cbn. apply Forall_app in Hok as [_ [Hg _]%Forall_cons]. rewrite seg_ok_fin by done.
  destruct (Z.eqb_spec (fin seg) (seq g)) as [E|E].
  - eexists _, _. split; [done|]. right. exists hi, g. split_and!; [done..|].
    rewrite wadd_small by (unfold fits, seg_ok, fin in *; lia).
    by apply (rep_update q hi g lo).
  - eexists _, _. split; [done|]. by left.
Qed.

(** A segment that is neither a retransmission nor an error fits between its
    neighbours. *)
Lemma not_retrans_error_fits hi lo seg retrans :
  wf (hi ++ lo) -> seg_ok seg ->
  Forall (fun s => seq seg <= seq s) hi ->
  (forall l, head lo = Some l -> seq l < seq seg) ->
  is_retrans_segment (head lo) (last hi) seg = Ret retrans ->
  retrans = false -> is_error_segment (head lo) (last hi) seg = false ->
  (forall g, last hi = Some g -> above g seg)
  /\ (forall l, head lo = Some l -> seq l < seq seg /\ fin l <= seq seg).
Proof.
  intros (Hok & _ & _) Hseg Hhi Hlo Hr -> He. apply Forall_app in Hok as [Hokh Hokl].
  unfold is_error_segment in He. apply orb_false_iff in He as [Heg Hel]. split.
  - intros g Hg. rewrite Hg in Heg. apply last_Some_elem_of in Hg.
    pose proof (proj1 (Forall_forall _ _) Hokh g Hg).
    pose proof (proj1 (Forall_forall _ _) Hhi g Hg) as Hge. cbn beta in Hge.
    rewrite !seg_ok_fin in Heg by done. unfold above. lia.
  - intros l Hl. rewrite Hl in Hel. specialize (Hlo l Hl). split; [done|].
    destruct lo; [done|]. injection Hl as ->. apply Forall_cons in Hokl as [? _].
    rewrite seg_ok_fin in Hel by done. lia.
Qed.

Lemma retrans_places hi lo seg :
  wf (hi ++ lo) -> is_retrans_segment (head lo) (last hi) seg = Ret true ->
  places (hi ++ lo) seg (hi ++ lo) Retrans.
Proof.
  intros (Hok & _ & _) Hr.
  assert (exists b, b ∈ hi ++ lo /\ check_retrans b seg = true) as (b & Hb & Hc).
  { destruct lo as [|l lo]; cbn in Hr.
    - destruct (last hi) as [g|] eqn:Hg; [|done]. injection Hr as Hr.
      exists g. split; [|done]. apply elem_of_app. left. by apply last_Some_elem_of.
    - injection Hr as Hr. exists l. split; [set_solver|done]. }
  apply (places_retrans _ _ b); [done|]. unfold check_retrans in Hc.
  rewrite seg_ok_fin in Hc by by eapply Forall_forall in Hok.
  unfold in_seg. lia.
Qed.

Lemma error_places hi lo seg :
  wf (hi ++ lo) -> seg_ok seg ->
  Forall (fun s => seq seg <= seq s) hi ->
  (forall l, head lo = Some l -> seq l < seq seg) ->
  is_error_segment (head lo) (last hi) seg = true ->
  places (hi ++ lo) seg (hi ++ lo) Error.
Proof.
  intros (Hok & _ & _) Hseg Hhi Hlo He. unfold is_error_segment in He.
  apply orb_true_iff in He as [He|He].
  - destruct (last hi) as [g|] eqn:Hg; [|done]. apply last_Some_elem_of in Hg.
    assert (g ∈ hi ++ lo) as Hg' by set_solver.
    pose proof (proj1 (Forall_forall _ _) Hok g Hg') as Hgok.
    pose proof (proj1 (Forall_forall _ _) Hhi g Hg) as Hge. cbn beta in Hge.
    rewrite !seg_ok_fin in He by done.
    apply (places_error _ _ g); [done|..]; unfold seg_ok, fin in *; lia.
  - destruct lo as [|l lo]; cbn in He; [done|].
    assert (l ∈ hi ++ l :: lo) as Hl by set_solver.
    pose proof (proj1 (Forall_forall _ _) Hok l Hl) as Hlok.
    specialize (Hlo l eq_refl). rewrite seg_ok_fin in He by done.
    apply (places_error _ _ l); [done|..]; unfold seg_ok, fin in *; lia.
Qed.

Lemma join_extended g x seg :
  seg_ok g -> seg_ok x -> seg_ok seg -> fin x = seq seg -> fin seg = seq g ->
  join (extend_gte g seg) (extend_lt x seg) = {| seq := seq x; len := fin g - seq x |}.
Proof.
  intros Hg Hx Hs Hxs Hsg. destruct (join_ok (extend_gte g seg) (extend_lt x seg)) as [-> _].
  - unfold seg_ok, fin in *. cbn. lia.
  - unfold seg_ok, fin in *. cbn. lia.
  - unfold above, seg_ok, fin in *. cbn. lia.
  - unfold fin in *. cbn. f_equal. lia.
Qed.

Lemma account_segment_rep p L seg :
  rep p L -> wf L -> L <> [] -> seg_ok seg ->
  exists p' L' t, account_segment p seg = Ret (p', t) /\ rep p' L' /\ places L seg L' t.
Proof.
  intros Hrep Hwf Hne Hseg.
  destruct (search_index_split seg L) as (hi & lo & -> & Hidx & Hhi & Hlo).
  unfold account_segment. rewrite (search_rep p hi lo) by done. cbn [mbind run_bind].
  rewrite (deref_lt p hi lo), (deref_gte p hi lo) by done. cbn [mbind run_bind].
  pose proof Hwf as (Hok & Hs & Hlen). apply Forall_app in Hok as [Hokh Hokl].
  destruct (is_retrans_segment (head lo) (last hi) seg) as [r|] eqn:Hr.
  2: { exfalso. destruct lo; [|done]. destruct hi as [|g hi _] using rev_ind; [done|].
       by rewrite last_snoc in Hr. }
  cbn. destruct r.
  { exists p, (hi ++ lo), Retrans. split_and!; [done..|]. by apply retrans_places. }
  destruct (is_error_segment (head lo) (last hi) seg) eqn:He.
  { exists p, (hi ++ lo), Error. split_and!; [done..|]. by apply error_places. }
  destruct (not_retrans_error_fits hi lo seg false) as [Habove Hbelow]; [done..|].
  unfold check_and_update_continuous_segment.
  destruct (update_lt_rep p hi lo seg) as (l1 & f1 & -> & H1); [done..|]. cbn [mbind run_bind].
  destruct H1 as [[-> ->]|(x & lo' & -> & Hx & -> & Hrep1)].
  - destruct (update_gte_rep p hi lo seg DISCONTINUOUS) as (l2 & f2 & -> & H2); [done..|].
    cbn [mbind run_bind]. destruct H2 as [[-> ->]|(hi' & g & -> & Hg & -> & Hrep2)]; cbn.
    + replace {| seq_list := seq_list p; seq_list_len := seq_list_len p |} with p by by destruct p.
      destruct (account_insert p hi lo seg) as (p' & L' & t & ? & ? & ? & _); [done..|]. by exists p', L', t.
    + eexists _, _, _. split_and!; [done|exact Hrep2|]. rewrite <- app_assoc. by apply places_gte.
  - destruct (update_gte_rep _ hi _ seg LT_CONTINUOUS Hrep1) as (l2 & f2 & Heq & H2); [done..|].
    cbn in Heq. rewrite Heq. clear Heq. cbn [mbind run_bind].
    destruct H2 as [[-> ->]|(hi' & g & -> & Hg & -> & Hrep2)]; cbn.
    + eexists _, _, _. split_and!; [done|exact Hrep1|]. by apply places_lt.
    + destruct (merge_seq_list_rep _ hi' _ _ lo' Hrep2) as (p3 & Hm & Hrep3).
      rewrite length_app. replace (length hi' + length [g] - 1)%nat with (length hi') by (cbn; lia).
      cbn in Hm |- *. rewrite Hm. cbn. eexists _, _, _. split_and!; [done|exact Hrep3|].
      rewrite join_extended by (try done; decompose_ok; done).
      rewrite <- app_assoc. by apply places_both.
Qed.

Lemma check_seq_segment_rep p L seg :
  rep p L -> wf L -> fits 32 (seq seg) -> fits 32 (len seg) -> 0 < len seg ->
  exists p' L' ok, check_seq_segment p seg = Ret (p', ok) /\ rep p' L'
    /\ (if (ok : bool) then p' = p /\ L' = L /\ L <> [] /\ seg_ok seg
        else L' = L \/ (L' = [seg] /\ seg_ok seg)).
Proof.
  intros Hrep (Hok & Hs & Hlen) Hf1 Hf2 Hpos. unfold check_seq_segment.
  destruct (Z.ltb_spec (seq seg +₃₂ len seg) (seq seg)) as [Hov|Hov].
  { exists p, L, false. naive_solver. }
  assert (seg_ok seg) as Hseg.
  { unfold seg_ok, fin. pose proof (wadd_lt_overflow 32 (seq seg) (len seg)).
    unfold fits in *. lia. }
  pose proof Hrep as [Hl _]. destruct (Z.leb_spec (seq_list_len p) 0) as [H0|H0].
  { assert (L = []) as -> by (destruct L; cbn in *; [done|lia]).
    destruct (insert_seq_segment_rep p [] [] seg) as (p' & Hi & Hrep');
      [done|unfold SEQ_LIST_MAX_LEN; cbn; lia|].
    cbn [length] in Hi. rewrite Hi. exists p', [seg], false. naive_solver. }
  destruct L as [|top L]; [cbn in *; lia|].
  rewrite (rep_lookup p _ 0%nat top Hrep) by done. cbn [unwrap mbind run_bind].
  case_goal.
  { destruct (insert_seq_segment_rep SeqList_default [] [] seg rep_default) as (p' & Hi & Hrep');
      [unfold SEQ_LIST_MAX_LEN; cbn; lia|].
    cbn [length] in Hi. rewrite Hi. exists p', [seg], false. naive_solver. }
  case_goal.
  - exists p, (top :: L), false. naive_solver.
  - exists p, (top :: L), true. naive_solver.
Qed.

Lemma wf_singleton seg : seg_ok seg -> wf [seg].
Proof.
  intros. apply wf_intro; [by constructor|by repeat constructor|].
  unfold SEQ_LIST_MAX_LEN. cbn. lia.
Qed.

Lemma wf_nil : wf [].
Proof. apply wf_intro; [constructor|constructor|unfold SEQ_LIST_MAX_LEN; cbn; lia]. Qed.

Lemma assert_seq_number_rep p L s n :
  rep p L -> wf L -> fits 32 s -> fits 16 n ->
  exists p' L' t, assert_seq_number p s n = Ret (p', t) /\ rep p' L' /\ wf L'
    /\ account_spec L {| seq := s; len := n |} L' t.
Proof.
  intros Hrep Hwf Hs Hn. unfold assert_seq_number. case_goal.
  { exists p, L, NotCare. split_and!; [done..|]. by left. }
  destruct (check_seq_segment_rep p L {| seq := s; len := n |}) as (p1 & L1 & ok & -> & Hrep1 & Hc).
  1-5: cbn; unfold fits in *; (done || lia).
  cbn [mbind run_bind]. destruct ok; cbn.
  - destruct Hc as (-> & -> & Hne & Hseg).
    destruct (account_segment_rep p L {| seq := s; len := n |})
      as (p2 & L2 & t & -> & Hrep2 & Hpl); [done..|].
    exists p2, L2, t. split_and!; [done|done|by eapply wf_places|by eapply places_account].
  - exists p1, L1, NotCare. split_and!; [done|done| |cbn; tauto].
    destruct Hc as [-> | [-> ?]]; [done|by apply wf_singleton].
Qed.

(** A recorded segment that starts below [seg] and reaches past its first
    byte is found by [search]: the segments are ordered by their ends too. *)
Lemma account_segment_inside p L b seg :
  rep p L -> wf L -> seg_ok seg -> b ∈ L -> seq b < seq seg < fin b ->
  account_segment p seg = Ret (p, Retrans).
Proof.
  intros Hrep Hwf Hseg Hb Hin.
  destruct (search_index_split seg L) as (hi & lo & -> & Hidx & Hhi & Hlo).
  assert (hi ++ lo <> []) as Hne by (intros E; rewrite E in Hb; by apply elem_of_nil in Hb).
  unfold account_segment. rewrite (search_rep p hi lo) by done. cbn [mbind run_bind].
  rewrite (deref_lt p hi lo), (deref_gte p hi lo) by done. cbn [mbind run_bind].
  pose proof Hwf as (Hok & Hs & _).
  apply elem_of_app in Hb as [Hb|Hb].
  { pose proof (proj1 (Forall_forall _ _) Hhi b Hb). cbn in *. lia. }
  destruct lo as [|l lo]; [by apply elem_of_nil in Hb|]. cbn.
  specialize (Hlo l eq_refl).
  assert (seg_ok l) as Hl by (apply Forall_app in Hok as [_ [? _]%Forall_cons]; done).
  assert (fin b <= fin l) as Hbl.
  { apply elem_of_cons in Hb as [->|Hb]; [lia|].
    apply StronglySorted_app_1_r in Hs. inversion_clear Hs as [|? ? _ HF].
    by apply (proj1 (Forall_forall _ _) HF b Hb). }
  unfold check_retrans. rewrite seg_ok_fin by done.
  destruct (Z.leb_spec (seq l) (seq seg)); [|lia].
  destruct (Z.ltb_spec (seq seg) (fin l)); [done|lia].
Qed.

(** ** Theorems *)

(** The packets of one direction of a flow, as (sequence number, payload length). *)
(** The same through the entry point, when the segment is away from the wrap-around. *)
Lemma assert_seq_number_inside p L b s n :
  rep p L -> wf L -> b ∈ L -> 0 < n < 2 ^ 16 ->
  SEQ_NUMBER_LOW_THRESHOLD <= s <= SEQ_NUMBER_HIGH_THRESHOLD -> seq b < s < fin b ->
  assert_seq_number p s n = Ret (p, Retrans).
Proof.
  intros Hrep Hwf Hb Hn Hs Hin. unfold SEQ_NUMBER_LOW_THRESHOLD, SEQ_NUMBER_HIGH_THRESHOLD in Hs.
  assert (seg_ok {| seq := s; len := n |}) as Hseg by (unfold seg_ok, fin; cbn; lia).
  unfold assert_seq_number. rewrite (proj2 (orb_false_iff _ _)) by lia.
  assert (check_seq_segment p {| seq := s; len := n |} = Ret (p, true)) as ->.
  { unfold check_seq_segment, SEQ_NUMBER_LOW_THRESHOLD, SEQ_NUMBER_HIGH_THRESHOLD.
    rewrite seg_ok_fin by done. cbn [seq]. rewrite (proj2 (Z.ltb_ge _ _)) by (unfold fin; cbn; lia).
    destruct L as [|l L]; [by apply elem_of_nil in Hb|]. pose proof Hrep as (-> & rest & -> & _).
    rewrite (proj2 (Z.leb_gt _ _)) by (cbn [length]; lia). cbn [app lookup list_lookup unwrap mbind run_bind].
    rewrite (proj2 (Z.ltb_ge s _)) by lia. rewrite (proj2 (Z.ltb_ge _ s)) by lia. done. }
  cbn [mbind run_bind negb]. by apply (account_segment_inside p L b).
Qed.

Fixpoint assert_all (p : SeqList) (ps : list (Z * Z)) : run SeqList :=
  match ps with
  | [] => Ret p
  | (s, n) :: ps => '(p, _) ← assert_seq_number p s n; assert_all p ps
  end.

Definition header_ok (h : Z * Z) : Prop := fits 32 h.1 /\ fits 16 h.2.

Lemma assert_all_rep ps : forall p L,
  rep p L -> wf L -> Forall header_ok ps ->
  exists p' L', assert_all p ps = Ret p' /\ rep p' L' /\ wf L'.
Proof.
  induction ps as [|[s n] ps IH]; intros p L Hrep Hwf Hps; cbn; [by eauto|].
  apply Forall_cons in Hps as [[? ?] ?].
  destruct (assert_seq_number_rep p L s n) as (p1 & L1 & t & -> & ? & ? & _); [done..|].
  cbn. by eapply IH.
Qed.

(** C19: after any history of segments, [assert_seq_number] neither trips its asserts nor
    leaves the array, the live segments stay sorted and below the capacity, and the
    classification is sound: [Retrans] means the first byte was already recorded,
    [Error] that the segment overlaps recorded bytes, the continuous and
    discontinuous results record exactly the new bytes, and [Merge] records them
    plus one gap. *)
Theorem assert_seq_number_sound ps s n :
  Forall header_ok ps -> header_ok (s, n) ->
  exists p L p' L' t,
    assert_all SeqList_default ps = Ret p /\ rep p L /\ wf L
    /\ assert_seq_number p s n = Ret (p', t) /\ rep p' L' /\ wf L'
    /\ account_spec L {| seq := s; len := n |} L' t.
Proof.
  intros Hps [? ?].
  destruct (assert_all_rep ps _ _ rep_default wf_nil Hps) as (p & L & ? & ? & ?).
  destruct (assert_seq_number_rep p L s n) as (p' & L' & t & ? & ? & ? & ?); [done..|].
  by eexists p, L, p', L', t.
Qed.

(** a segment whose first byte lies strictly inside a recorded segment is always
    reported as a retransmission and leaves the list unchanged. *)
Theorem retransmission_detected p L b s n :
  rep p L -> wf L -> seg_ok {| seq := s; len := n |} ->
  b ∈ L -> seq b < s < fin b ->
  account_segment p {| seq := s; len := n |} = Ret (p, Retrans).
Proof. intros. by apply (account_segment_inside p L b). Qed.

(** A segment that repeats a recorded segment exactly is not recognised when a lower
    segment is recorded: [is_retrans_segment] only consults [lt], so the copy is
    stored again as a discontinuous segment. *)
Theorem exact_retransmission_missed p hi g l lo :
  rep p (hi ++ g :: l :: lo) -> wf (hi ++ g :: l :: lo) ->
  seq l < seq g -> fin l < seq g ->
  exists p' t, account_segment p g = Ret (p', t) /\ (t = Discontinuous \/ t = Merge).
Proof.
  intros Hrep Hwf Hlt Hgap. pose proof Hwf as (Hok & Hs & _).
  assert (seg_ok g /\ seg_ok l) as [Hg Hl].
  { apply Forall_app in Hok as [_ [? [? _]%Forall_cons]%Forall_cons]. done. }
  rewrite (cons_middle g), app_assoc in Hrep, Hwf.
  assert (Forall (fun s => seq g <= seq s) (hi ++ [g])) as Hhi.
  { apply Forall_app. split; [|by constructor]. apply Forall_forall. intros x Hx.
    by apply (StronglySorted_app_1_elem_of _ _ _ x g Hs Hx); left. }
  assert (search_index g ((hi ++ [g]) ++ l :: lo) = length (hi ++ [g])) as Hidx.
  { clear Hrep Hwf Hs Hok. induction Hhi as [|x hi' Hx _ IH]; cbn.
    - by destruct (Z.ltb_spec (seq l) (seq g)); [|lia].
    - rewrite IH. by destruct (Z.ltb_spec (seq x) (seq g)); [lia|]. }
  unfold account_segment. rewrite (search_rep p (hi ++ [g]) (l :: lo)) by (done || by destruct hi).
  cbn [mbind run_bind]. rewrite (deref_lt p (hi ++ [g]) (l :: lo)), (deref_gte p (hi ++ [g]) (l :: lo)) by done.
  rewrite last_snoc. cbn [head is_retrans_segment mbind run_bind].
  assert (check_retrans l g = false) as -> by (unfold check_retrans; rewrite seg_ok_fin by done; lia).
  assert (is_error_segment (Some l) (Some g) g = false) as ->
    by (unfold is_error_segment; rewrite !seg_ok_fin by done; lia).
  apply Forall_app in Hok as [? [? ?]%Forall_cons].
  unfold check_and_update_continuous_segment.
  destruct (update_lt_rep p (hi ++ [g]) (l :: lo) g) as (l1 & f1 & -> & Hu); [done..|].
  destruct Hu as [[-> ->]|(? & ? & [= <- <-] & ? & _)]; [|lia]. cbn [mbind run_bind].
  destruct (update_gte_rep p (hi ++ [g]) (l :: lo) g DISCONTINUOUS) as (l2 & f2 & -> & Hu);
    [done|by apply Forall_app; split; [|constructor]|done|].
  destruct Hu as [[-> ->]|(? & ? & [_ <-]%app_inj_tail & Hbad & _)];
    [|unfold seg_ok, fin in *; lia].
  cbn. replace {| seq_list := seq_list p; seq_list_len := seq_list_len p |} with p by by destruct p.
  destruct (account_insert p (hi ++ [g]) (l :: lo) g) as (p' & L' & t & Hrun & _ & _ & Ht).
  - done.
  - done.
  - intros ? Hx. rewrite last_snoc in Hx. injection Hx as <-. unfold above. lia.
  - intros ? [= <-]. lia.
  - by exists p', t.
Qed.

(** ** Witnesses *)

Definition seq_trace : list (Z * Z) := [(100, 10); (200, 10); (110, 5)].

Lemma assert_seq_number_sound_witness :
  exists p L p' L' t,
    assert_all SeqList_default seq_trace = Ret p /\ rep p L /\ wf L
    /\ assert_seq_number p 115 85 = Ret (p', t) /\ rep p' L' /\ wf L'
    /\ account_spec L {| seq := 115; len := 85 |} L' t.
Proof.
  apply assert_seq_number_sound; [|by vm_compute].
  unfold seq_trace. rewrite !Forall_cons. split_and!; done || by vm_compute.
Defined.

Definition two_segments : list SeqSegment := [{| seq := 100; len := 10 |}; {| seq := 1; len := 10 |}].
Definition two_segments_list : SeqList :=
  {| seq_list := two_segments ++ replicate 14 SeqSegment_default; seq_list_len := 2 |}.

Lemma two_segments_rep : rep two_segments_list two_segments.
Proof. split; [done|]. by eexists. Qed.

Lemma two_segments_wf : wf two_segments.
Proof.
  split_and!.
  - by apply Forall_cons; split; [|apply Forall_singleton]; vm_compute.
  - apply SSorted_cons; [by apply SSorted_cons; [apply SSorted_nil|]|].
    by apply Forall_singleton; vm_compute.
  - cbn. unfold SEQ_LIST_MAX_LEN. lia.
Qed.

Lemma retransmission_detected_witness :
  account_segment two_segments_list {| seq := 105; len := 3 |} = Ret (two_segments_list, Retrans).
Proof.
  apply (retransmission_detected two_segments_list two_segments {| seq := 100; len := 10 |}).
  - apply two_segments_rep.
  - apply two_segments_wf.
  - by vm_compute.
  - by left.
  - by vm_compute.
Defined.

Lemma exact_retransmission_missed_witness :
  exists p' t, account_segment two_segments_list {| seq := 100; len := 10 |} = Ret (p', t)
    /\ (t = Discontinuous \/ t = Merge).
Proof.
  apply (exact_retransmission_missed two_segments_list [] _ {| seq := 1; len := 10 |} []);
    [apply two_segments_rep|apply two_segments_wf|by vm_compute..].
Defined.
