(* ===== verification/Bytes.v ===== *)
(** * Byte slices (crates/public/src/bytes.rs)

    A slice is the list of its bytes, each a [Z] below 256; sizes and offsets
    are [Z].  Slicing, indexing and the readers panic out of range. *)

From S2P Require Import Prelude.

Abbreviation bytes := (list Z).

(** [std::net::IpAddr]; an IPv4 address is its big-endian value. *)
Inductive IpAddr :=
| V4 (addr : Z)
| V6 (octets : bytes).

#[export] Instance IpAddr_eq_dec : EqDecision IpAddr.
Proof. solve_decision. Defined.

Definition is_unspecified (a : IpAddr) : bool :=
  match a with V4 a => a =? 0 | V6 bs => forallb (fun b => b =? 0) bs end.

Definition len (bs : bytes) : Z := Z.of_nat (length bs).

(** [&bs[i..]] *)
Definition slice_from (bs : bytes) (i : Z) : run bytes :=
  if (0 <=? i) && (i <=? len bs) then Ret (drop (Z.to_nat i) bs) else Panic.

(** [bs[i]] *)
Definition index (bs : bytes) (i : Z) : run Z :=
  if 0 <=? i then unwrap (bs !! Z.to_nat i) else Panic.

Definition read_u16_be (bs : bytes) : run Z :=
  match bs with a :: b :: _ => Ret (a * 2 ^ 8 + b) | _ => Panic end.

Definition read_u16_le (bs : bytes) : run Z :=
  match bs with a :: b :: _ => Ret (b * 2 ^ 8 + a) | _ => Panic end.

Definition read_u32_be (bs : bytes) : run Z :=
  match bs with
  | a :: b :: c :: d :: _ => Ret (a * 2 ^ 24 + b * 2 ^ 16 + c * 2 ^ 8 + d)
  | _ => Panic
  end.

(** [write_u16_be(&mut bs[i..], v)] *)
Definition write_u16_be (bs : bytes) (i v : Z) : run bytes :=
  s ← slice_from bs i;
  match s with
  | _ :: _ :: rest => Ret (take (Z.to_nat i) bs ++ (v / 2 ^ 8) :: (v mod 2 ^ 8) :: rest)
  | _ => Panic
  end.

(** [bs.copy_within(0..n, dest)] *)
Definition copy_within (bs : bytes) (n dest : Z) : run bytes :=
  if (n <=? len bs) && (dest <=? len bs - n)
  then Ret (take (Z.to_nat dest) bs ++ take (Z.to_nat n) bs ++ drop (Z.to_nat (dest + n)) bs)
  else Panic.

Definition byte_ok (b : Z) : Prop := fits 8 b.
Definition bytes_ok (bs : bytes) : Prop := Forall byte_ok bs.

Lemma bytes_ok_forallb bs : forallb (fun b => (0 <=? b) && (b <? 256)) bs = true -> bytes_ok bs.
Proof.
  intros Hf. apply Forall_forall. intros b Hb. unfold byte_ok, fits. change (2 ^ 8) with 256.
  pose proof (proj1 (forallb_forall _ _) Hf b (proj1 (list_elem_of_In _ _) Hb)). lia.
Qed.

(** ** Reads in range *)

Lemma len_drop bs n : 0 <= n <= len bs -> len (drop (Z.to_nat n) bs) = len bs - n.
Proof. unfold len. rewrite length_drop. lia. Qed.

Lemma len_app xs ys : len (xs ++ ys) = len xs + len ys.
Proof. unfold len. rewrite length_app. lia. Qed.

Lemma len_cons x xs : len (x :: xs) = 1 + len xs.
Proof. unfold len. cbn [length]. lia. Qed.

Lemma len_nonneg xs : 0 <= len xs.
Proof. unfold len. lia. Qed.

Lemma slice_from_ret bs i : 0 <= i <= len bs -> slice_from bs i = Ret (drop (Z.to_nat i) bs).
Proof. intros. unfold slice_from. by rewrite (proj2 (andb_true_iff _ _)) by lia. Qed.

Lemma slice_from_app xs ys i : i = len xs -> slice_from (xs ++ ys) i = Ret ys.
Proof.
  intros ->. pose proof (len_nonneg ys). rewrite slice_from_ret by (rewrite len_app; unfold len; lia).
  unfold len. by rewrite Nat2Z.id, drop_app_length.
Qed.

Lemma index_ret bs i : 0 <= i < len bs -> exists b, index bs i = Ret b /\ bs !! Z.to_nat i = Some b.
Proof.
  unfold len, index. intros Hi. rewrite (proj2 (Z.leb_le _ _)) by lia.
  destruct (lookup_lt_is_Some_2 bs (Z.to_nat i)) as [b Hb]; [lia|]. exists b. by rewrite Hb.
Qed.

Lemma index_ok bs i b : bytes_ok bs -> index bs i = Ret b -> byte_ok b.
Proof.
  unfold index. intros Hok H. case_match; [|done].
  destruct (bs !! Z.to_nat i) as [c|] eqn:E; cbn in H; simplify_eq.
  by eapply Forall_lookup_1.
Qed.

Lemma read_u16_be_ret bs : 2 <= len bs -> exists v, read_u16_be bs = Ret v.
Proof. unfold len. destruct bs as [|a [|b bs]]; cbn; [lia|lia|]. by eexists. Qed.

Lemma read_u16_le_ret bs : 2 <= len bs -> exists v, read_u16_le bs = Ret v.
Proof. unfold len. destruct bs as [|a [|b bs]]; cbn; [lia|lia|]. by eexists. Qed.

Lemma read_u32_be_ret bs : 4 <= len bs -> exists v, read_u32_be bs = Ret v.
Proof. unfold len. destruct bs as [|a [|b [|c [|d bs]]]]; cbn; try lia. by eexists. Qed.

Lemma copy_within_ret bs n dest : 0 <= n -> 0 <= dest -> dest + n <= len bs ->
  exists bs', copy_within bs n dest = Ret bs' /\ len bs' = len bs
    /\ drop (Z.to_nat (dest + n)) bs' = drop (Z.to_nat (dest + n)) bs.
Proof.
  unfold copy_within, len. intros. rewrite (proj2 (andb_true_iff _ _)) by lia. eexists. split; [done|].
  assert (length (take (Z.to_nat dest) bs ++ take (Z.to_nat n) bs) = Z.to_nat (dest + n)) as Hl.
  { rewrite length_app, !length_take. lia. }
  split.
  - rewrite app_assoc, length_app, Hl, length_drop. lia.
  - by rewrite app_assoc, drop_app_length'.
Qed.

Lemma write_u16_be_ret bs i v : 0 <= i -> i + 2 <= len bs ->
  exists bs', write_u16_be bs i v = Ret bs' /\ len bs' = len bs
    /\ drop (Z.to_nat (i + 2)) bs' = drop (Z.to_nat (i + 2)) bs.
Proof.
  intros Hi Hl. unfold write_u16_be. rewrite slice_from_ret by lia. cbn [mbind run_bind].
  pose proof (len_drop bs i ltac:(lia)) as Hd.
  destruct (drop (Z.to_nat i) bs) as [|a [|b rest]] eqn:E; [unfold len in *; cbn in *; lia..|].
  eexists. split; [done|]. assert (length (take (Z.to_nat i) bs) = Z.to_nat i) as Ht.
  { rewrite length_take. unfold len in Hl. lia. }
  split.
  - rewrite len_app, !len_cons in *. unfold len at 1. rewrite Ht. lia.
  - replace (Z.to_nat (i + 2)) with (Z.to_nat i + 2)%nat by lia. rewrite <- !(drop_drop _ 2 (Z.to_nat i)).
    rewrite E, drop_app_length'; [done|by rewrite Ht].
Qed.

(** ** Big-endian encodings *)

Definition be16 (v : Z) : bytes := [Z.shiftr v 8 mod 256; v mod 256].
Definition be32 (v : Z) : bytes :=
  [Z.shiftr v 24 mod 256; Z.shiftr v 16 mod 256; Z.shiftr v 8 mod 256; v mod 256].

Lemma byte_split v a b : 0 <= a -> 0 <= b -> v mod 2 ^ (a + b) = (Z.shiftr v a mod 2 ^ b) * 2 ^ a + v mod 2 ^ a.
Proof.
  intros. rewrite Z.shiftr_div_pow2 by done. rewrite Z.pow_add_r by done.
  rewrite Z.rem_mul_r by (try apply Z.pow_nonzero; try apply Z.pow_pos_nonneg; lia). lia.
Qed.

Lemma read_be32 v r : fits 32 v -> read_u32_be (be32 v ++ r) = Ret v.
Proof.
  intros [H0 H1]. cbn -[Z.modulo Z.shiftr Z.pow Z.mul Z.add]. f_equal.
  change 256 with (2 ^ 8).
  pose proof (byte_split v 8 8 ltac:(lia) ltac:(lia)) as E1.
  pose proof (byte_split v 16 8 ltac:(lia) ltac:(lia)) as E2.
  pose proof (byte_split v 24 8 ltac:(lia) ltac:(lia)) as E3.
  change (8 + 8) with 16 in E1. change (16 + 8) with 24 in E2. change (24 + 8) with 32 in E3.
  rewrite (Z.mod_small v (2 ^ 32)) in E3 by lia. lia.
Qed.

Lemma be16_val v : fits 16 v -> Z.shiftr v 8 mod 256 * 2 ^ 8 + v mod 256 = v.
Proof.
  intros [H0 H1]. change 256 with (2 ^ 8). pose proof (byte_split v 8 8 ltac:(lia) ltac:(lia)) as E.
  change (8 + 8) with 16 in E. rewrite Z.mod_small in E by lia. lia.
Qed.
