(* ===== verification/Consts.v ===== *)
(** * Constants of the packet formats

    Sizes, offsets and option codes of crates/public/src/consts.rs, protocol
    numbers of enums.rs and the tap port of src/agent/src/common/tap_port.rs. *)

From S2P Require Import Prelude.

(** ** Sizes and offsets (consts.rs) *)

Definition ETH_HEADER_SIZE : Z := 14.
Definition VLAN_HEADER_SIZE : Z := 4.
Definition IPV4_HEADER_SIZE : Z := 20.
Definition IPV6_HEADER_SIZE : Z := 40.
Definition UDP_HEADER_SIZE : Z := 8.
Definition VXLAN_HEADER_SIZE : Z := 8.
Definition GENEVE_HEADER_SIZE : Z := 8.
Definition GRE_HEADER_SIZE_DECAP : Z := 4.
Definition ERSPAN_III_HEADER_SIZE : Z := 12.
Definition ERSPAN_III_SUBHEADER_SIZE : Z := 8.
Definition UDP_PACKET_SIZE : Z := 42.
Definition UDP6_PACKET_SIZE : Z := 62.
Definition FIELD_OFFSET_DA : Z := 0.
Definition FIELD_OFFSET_SA : Z := 6.
Definition FIELD_OFFSET_ETH_TYPE : Z := 12.
Definition FIELD_OFFSET_PROTO : Z := 23.
Definition FIELD_OFFSET_SIP : Z := 26.
Definition FIELD_OFFSET_DIP : Z := 30.
Definition FIELD_OFFSET_SPORT : Z := 34.
Definition FIELD_OFFSET_DPORT : Z := 36.
Definition FIELD_OFFSET_VXLAN_FLAGS : Z := 42.
Definition FIELD_OFFSET_VXLAN_VNI : Z := 46.
Definition IP_IHL_OFFSET : Z := 0.
Definition IP6_PROTO_OFFSET : Z := 6.
Definition IP6_SIP_OFFSET : Z := 20.
Definition IP6_DIP_OFFSET : Z := 36.
Definition UDP_DPORT_OFFSET : Z := 2.
Definition PORT_LEN : Z := 2.
Definition VXLAN_FLAGS : Z := 8.
Definition VXLAN_FLAGS_OFFSET_DECAP : Z := 0.
Definition VXLAN_VNI_OFFSET_DECAP : Z := 4.
Definition GENEVE_VERSION_OFFSET : Z := 0.
Definition GENEVE_VERSION_SHIFT : Z := 6.
Definition GENEVE_OPTION_LENGTH_MASK : Z := 0x3f.
Definition GENEVE_PROTOCOL_OFFSET : Z := 2.
Definition GENEVE_VNI_OFFSET : Z := 4.
Definition GENEVE_VNI_SHIFT : Z := 8.
Definition GRE_FLAGS_OFFSET : Z := 0.
Definition GRE_PROTOCOL_OFFSET : Z := 2.
Definition TUNNEL_TIER_LIMIT : Z := 2.

Definition LE_IPV4_PROTO_TYPE_I : Z := 0x0008.
Definition LE_IPV6_PROTO_TYPE_I : Z := 0xDD86.
Definition LE_ERSPAN_PROTO_TYPE_II : Z := 0xBE88.
Definition LE_ERSPAN_PROTO_TYPE_III : Z := 0xEB22.
Definition LE_VXLAN_PROTO_UDP_DPORT : Z := 0xB512.
Definition LE_VXLAN_PROTO_UDP_DPORT2 : Z := 0x1821.
Definition LE_VXLAN_PROTO_UDP_DPORT3 : Z := 0x801A.
Definition LE_GPE_VXLAN_PROTO_UDP_DPORT : Z := 0xB612.
Definition LE_GENEVE_PROTO_UDP_DPORT : Z := 0xc117.
Definition LE_TRANSPARENT_ETHERNET_BRIDGEING : Z := 0x5865.

(** *** Field offsets for a packet without VLAN tags and options *)

Definition FIELD_OFFSET_PAYLOAD_LEN : Z := 18.
Definition FIELD_OFFSET_IPV6_SRC : Z := 22.
Definition FIELD_OFFSET_IPV6_DST : Z := 38.
Definition FIELD_OFFSET_IHL : Z := 14.
Definition FIELD_OFFSET_TOTAL_LEN : Z := 16.
Definition FIELD_OFFSET_FRAG : Z := 20.
Definition FIELD_OFFSET_ICMP_TYPE_CODE : Z := 34.
Definition FIELD_OFFSET_IPV6_SPORT : Z := 54.
Definition FIELD_OFFSET_IPV6_DPORT : Z := 56.
Definition FIELD_OFFSET_TCP_SEQ : Z := 38.
Definition FIELD_OFFSET_TCPV6_SEQ : Z := 58.
Definition FIELD_OFFSET_TCP_ACK : Z := 42.
Definition FIELD_OFFSET_TCPV6_ACK : Z := 62.
Definition FIELD_OFFSET_TCP_DATAOFF : Z := 46.
Definition FIELD_OFFSET_TCPV6_DATAOFF : Z := 66.
Definition FIELD_OFFSET_TCP_FLAG : Z := 47.
Definition FIELD_OFFSET_TCPV6_FLAG : Z := 67.
Definition FIELD_OFFSET_TCP_WIN : Z := 48.
Definition FIELD_OFFSET_TCPV6_WIN : Z := 68.
Definition FIELD_LEN_ICMP_REST : Z := 28.
Definition MAC_ADDR_LEN : Z := 6.
Definition IPV4_ADDR_LEN : Z := 4.
Definition IPV6_ADDR_LEN : Z := 16.
Definition ETH_TYPE_LEN : Z := 2.
Definition IPV6_HEADER_ADJUST : Z := IPV6_HEADER_SIZE - IPV4_HEADER_SIZE.
Definition ARP_OP_OFFSET : Z := ETH_HEADER_SIZE + 6.
Definition ARP_SPA_OFFSET : Z := ETH_HEADER_SIZE + 14.
Definition ARP_TPA_OFFSET : Z := ETH_HEADER_SIZE + 24.
Definition OP_REQUEST : Z := 1.
Definition IPV4_TTL_OFFSET : Z := ETH_HEADER_SIZE + 8.
Definition IPV4_PROTO_OFFSET : Z := ETH_HEADER_SIZE + 9.
Definition IPV6_PROTO_OFFSET : Z := ETH_HEADER_SIZE + 6.
Definition IPV6_HOP_LIMIT_OFFSET : Z := ETH_HEADER_SIZE + 7.
Definition ICMPV6_TYPE_OFFSET : Z := ETH_HEADER_SIZE + IPV6_HEADER_SIZE + 0.
Definition VLAN_ID_MASK : Z := 0xfff.

(** *** TCP options *)

Definition TCP_OPT_FLAG_WIN_SCALE : Z := 1.
Definition TCP_OPT_FLAG_MSS : Z := 2.
Definition TCP_OPT_FLAG_SACK_PERMIT : Z := 4.
Definition TCP_OPT_FLAG_SACK : Z := 0x38.
Definition TCP_OPT_WIN_SCALE_LEN : Z := 3.
Definition TCP_OPT_MSS_LEN : Z := 4.
Definition TCP_OPT_ADDRESS_IPVS : Z := 200.
Definition TCP_OPT_ADDRESS_HUAWEI : Z := 254.
Definition TCP_TOA_LEN : Z := 8.
Definition TCP_TOA_PORT_OFFSET : Z := 2.
Definition TCP_TOA_IP_OFFSET : Z := 4.

(** ** Protocol numbers (enums.rs) *)

Module EthernetType.
Definition LINK_LAYER_DISCOVERY : Z := 0x88cc.
Definition IPV4 : Z := 0x0800.
Definition ARP : Z := 0x0806.
Definition IPV6 : Z := 0x86DD.
Definition DOT1Q : Z := 0x8100.
End EthernetType.

Module IpProtocol.
Definition IPV6_HOP_BY_HOP : Z := 0.
Definition ICMPV4 : Z := 1.
Definition IPV4 : Z := 4.
Definition TCP : Z := 6.
Definition UDP : Z := 17.
Definition IPV6 : Z := 41.
Definition IPV6_ROUTING : Z := 43.
Definition IPV6_FRAGMENT : Z := 44.
Definition GRE : Z := 47.
Definition ESP : Z := 50.
Definition AH : Z := 51.
Definition ICMPV6 : Z := 58.
Definition IPV6_DESTINATION : Z := 60.
End IpProtocol.
