(* ===== verification/TapTypes.v ===== *)
(** * Capture network types (common/tap_types.rs, crates/public/src/enums.rs)

    The typer maps a VLAN to a capture network type through an array of 4097
    atomic [u16] cells, and an xflow key to one through a map.  A cell holds a
    wire value; reading it back unwraps [CaptureNetworkType::try_from], so the
    typer owes its readers that only convertible values are ever stored. *)

From stdpp Require Import gmap.
From S2P Require Import Prelude.

Module CaptureNetworkType.

Inductive t := Any | Idc (v : Z) | Cloud | Max | Unknown.

#[global] Instance t_eq_dec : EqDecision t.
Proof. solve_decision. Defined.

Definition try_from (v : Z) : option t :=
  if v =? 0 then Some Any
  else if v =? 3 then Some Cloud
  else if v =? 0xffff then Some Unknown
  else if v <? 256 then Some (Idc v)
  else None.

Definition to_u16 (x : t) : Z :=
  match x with
  | Any => 0 | Idc v => v | Cloud => 3 | Max => 256 | Unknown => 0xffff
  end.

Lemma try_from_to_u16 v x : try_from v = Some x -> to_u16 x = v.
Proof. unfold try_from. intros H. repeat case_match; simplify_eq; cbn; lia. Qed.

End CaptureNetworkType.

Definition VLAN_MAX : Z := 4096.

Definition XflowKey : Type := Z * Z.

Record CaptureNetworkTyper := {
  packet : list Z;
  xflow : gmap XflowKey CaptureNetworkType.t;
  xflow_missed : gset XflowKey;
}.

#[export] Instance CaptureNetworkTyper_fields : Fields CaptureNetworkTyper := fun x =>
  Build_CaptureNetworkTyper (packet x) (xflow x) (xflow_missed x).

Definition new : CaptureNetworkTyper :=
  {| packet := replicate (Z.to_nat (VLAN_MAX + 1)) 0; xflow := ∅; xflow_missed := ∅ |}.

(** The cell of a VLAN is loaded and unwrapped; a cell that was never
    configured is marked [Unknown] so that the warning is printed once. *)
Definition get_tap_type_by_vlan (self : CaptureNetworkTyper) (vlan : Z)
    : run (CaptureNetworkTyper * option CaptureNetworkType.t) :=
  if VLAN_MAX <? vlan then Ret (self, None)
  else
    p ← unwrap (packet self !! Z.to_nat vlan);
    tt ← unwrap (CaptureNetworkType.try_from p);
    if decide (tt = CaptureNetworkType.Any)
    then Ret (self <| packet :=
                <[Z.to_nat vlan := CaptureNetworkType.to_u16 CaptureNetworkType.Unknown]> (packet self) |>, None)
    else Ret (self, Some tt).

Definition get_tap_type_by_xflow_key (self : CaptureNetworkTyper) (xflow_key : XflowKey)
    : CaptureNetworkTyper * option CaptureNetworkType.t :=
  match xflow self !! xflow_key with
  | Some t => (self, Some t)
  | None =>
      ((if decide (xflow_key ∈ xflow_missed self) then self
        else self <| xflow_missed := {[xflow_key]} ∪ xflow_missed self |>), None)
  end.

(** What the accessors of the generated message [agent::CaptureNetworkType]
    return; [ct_source_ip] is the parsed address, [None] when the text is not
    one. *)
Record AgentTapType := {
  ct_is_packet : bool;
  ct_vlan : Z;
  ct_network_type : Z;
  ct_network_port : Z;
  ct_source_ip : option Z;
}.

Definition on_tap_type (st : list Z * gmap XflowKey CaptureNetworkType.t) (tap_type : AgentTapType)
    : list Z * gmap XflowKey CaptureNetworkType.t :=
  let '(packet, xflow) := st in
  let tap := wrap 16 (ct_network_type tap_type) in
  if ct_is_packet tap_type then
    let vlan := wrap 16 (ct_vlan tap_type) in
    if (VLAN_MAX <? vlan) || (tap =? 0) then (packet, xflow)
    else match CaptureNetworkType.try_from tap with
         | None => (packet, xflow)
         | Some _ => (<[Z.to_nat vlan := tap]> packet, xflow)
         end
  else
    let tap_idx := ct_network_port tap_type in
    match ct_source_ip tap_type with
    | None => (packet, xflow)
    | Some ip =>
        if (tap =? 0) || (tap_idx =? 0) then (packet, xflow)
        else match CaptureNetworkType.try_from tap with
             | Some t => (packet, <[(ip, tap_idx) := t]> xflow)
             | None => (packet, xflow)
             end
    end.

Definition on_tap_types_change (self : CaptureNetworkTyper) (tap_types : list AgentTapType)
    : CaptureNetworkTyper :=
  let cleared := (fun _ => CaptureNetworkType.to_u16 CaptureNetworkType.Any) <$> packet self in
  let '(p, x) := foldl on_tap_type (cleared, ∅) tap_types in
  self <| packet := p |> <| xflow := x |>.

(** ** The typer's invariant *)

Definition cell_ok (v : Z) : Prop := is_Some (CaptureNetworkType.try_from v).

Definition typer_ok (self : CaptureNetworkTyper) : Prop :=
  length (packet self) = Z.to_nat (VLAN_MAX + 1) /\ Forall cell_ok (packet self).

Lemma cell_ok_any : cell_ok 0.
Proof. by eexists. Qed.

Lemma new_ok : typer_ok new.
Proof.
  split; cbn [packet new]; [by rewrite length_replicate|]. apply Forall_replicate, cell_ok_any.
Qed.

Lemma get_tap_type_by_vlan_ok self vlan : 0 <= vlan -> typer_ok self ->
  exists self' t, get_tap_type_by_vlan self vlan = Ret (self', t) /\ typer_ok self'.
Proof.
  intros Hv [Hl Hf]. unfold get_tap_type_by_vlan. destruct (VLAN_MAX <? vlan) eqn:E; [by eexists _, _|].
  destruct (lookup_lt_is_Some_2 (packet self) (Z.to_nat vlan)) as [p Hp]; [unfold VLAN_MAX in *; lia|].
  rewrite Hp. cbn [unwrap mbind run_bind]. destruct (Forall_lookup_1 _ _ _ _ Hf Hp) as [t Ht].
  rewrite Ht. cbn [unwrap mbind run_bind]. case_decide; eexists _, _; (split; [done|]); [|done].
  split; cbn; [by rewrite length_insert|]. apply Forall_insert; [done|]. by eexists.
Qed.

Lemma on_tap_type_ok st ct : Forall cell_ok st.1 ->
  Forall cell_ok (on_tap_type st ct).1 /\ length (on_tap_type st ct).1 = length st.1.
Proof.
  destruct st as [p x]. cbn. intros Hf. unfold on_tap_type.
  repeat case_match; cbn; try done. rewrite length_insert. split; [|done].
  apply Forall_insert; [done|]. by eexists.
Qed.

Lemma on_tap_types_change_ok self cts : typer_ok self -> typer_ok (on_tap_types_change self cts).
Proof.
  intros [Hl _]. unfold on_tap_types_change.
  assert (forall cts st, Forall cell_ok st.1 ->
    Forall cell_ok (foldl on_tap_type st cts).1
    /\ length (foldl on_tap_type st cts).1 = length st.1) as Hfold.
  { clear. induction cts as [|ct cts IH]; intros st Hf; [done|]. cbn.
    destruct (on_tap_type_ok st ct Hf) as [H1 H2]. destruct (IH _ H1) as [H3 H4]. by rewrite H4, H2. }
  specialize (Hfold cts ((fun _ => 0) <$> packet self, ∅)). cbn in *.
  destruct (foldl _ _ _) as [p x]. cbn in *. rewrite length_fmap in Hfold.
  destruct Hfold as [H1 H2]; [apply Forall_fmap, Forall_true; intros; apply cell_ok_any|].
  split; cbn; congruence.
Qed.
