(* ===== verification/TunnelType.v ===== *)
(** * Tunnel types and their bitmaps (common/decapsulate.rs)

    The discriminants of [TunnelType] are those of the generated protobuf enum
    [DecapType], which is not part of the sources: they are the class
    [DecapEnum], and what the bitmap relies on is the class [DecapEnumOk]. *)

From Stdlib Require Import Ascii String.
From S2P Require Import Prelude.

Inductive DecapType := DecapNone | DecapVxlan | DecapIpip | DecapTencent | DecapGeneve | DecapVxlanNsh.

Inductive TunnelType := TNone | Vxlan | Ipip | TencentGre | Geneve | VxlanNsh | Erspan | Teb.

#[export] Instance TunnelType_eq_dec : EqDecision TunnelType.
Proof. solve_decision. Defined.

Class DecapEnum := decap_as_u8 : DecapType -> Z.

(** Distinct discriminants, [VxlanNsh] the largest, and room for the two the
    agent adds after it: "the maximum value here is 15". *)
Class DecapEnumOk (E : DecapEnum) : Prop := {
  decap_inj : forall x y, decap_as_u8 x = decap_as_u8 y -> x = y;
  decap_nonneg : forall x, 0 <= decap_as_u8 x;
  decap_below_nsh : forall x, decap_as_u8 x <= decap_as_u8 DecapVxlanNsh;
  decap_nsh_room : decap_as_u8 DecapVxlanNsh + 2 <= 15;
}.

(** [str::to_ascii_uppercase] *)
Definition ascii_upper (c : ascii) : ascii :=
  let n := nat_of_ascii c in
  if (97 <=? n)%nat && (n <=? 122)%nat then ascii_of_nat (n - 32) else c.

Fixpoint to_ascii_uppercase (s : string) : string :=
  match s with
  | EmptyString => EmptyString
  | String c s => String (ascii_upper c) (to_ascii_uppercase s)
  end.

Definition TunnelType_from_str (value : string) : TunnelType :=
  let value := to_ascii_uppercase value in
  if String.eqb value "VXLAN" then Vxlan
  else if String.eqb value "ERSPAN" then Erspan
  else if String.eqb value "TEB" then Teb
  else if String.eqb value "VXLAN-NSH" then VxlanNsh
  else TNone.

Definition TunnelType_from_decap (t : DecapType) : TunnelType :=
  match t with
  | DecapNone => TNone
  | DecapVxlan => Vxlan
  | DecapIpip => Ipip
  | DecapTencent => TencentGre
  | DecapGeneve => Geneve
  | DecapVxlanNsh => VxlanNsh
  end.

Definition TunnelType_from_i32 (t : Z) : TunnelType :=
  if t =? 0 then TNone
  else if t =? 1 then Vxlan
  else if t =? 2 then Ipip
  else if t =? 3 then TencentGre
  else if t =? 4 then Geneve
  else TNone.

Section bitmap.
Context {E : DecapEnum}.

(** [self as u16] *)
Definition as_u16 (t : TunnelType) : Z :=
  match t with
  | TNone => decap_as_u8 DecapNone
  | Vxlan => decap_as_u8 DecapVxlan
  | Ipip => decap_as_u8 DecapIpip
  | TencentGre => decap_as_u8 DecapTencent
  | Geneve => decap_as_u8 DecapGeneve
  | VxlanNsh => decap_as_u8 DecapVxlanNsh
  | Erspan => decap_as_u8 DecapVxlanNsh + 1
  | Teb => decap_as_u8 DecapVxlanNsh + 2
  end.

(** [1u16 << n]: the shift amount is taken modulo the width. *)
Definition shl1 (n : Z) : Z := wrap 16 (Z.shiftl 1 (n mod 16)).

Definition bitmap_add (b : Z) (t : TunnelType) : Z := Z.lor b (shl1 (as_u16 t)).

Definition bitmap_has (b : Z) (t : TunnelType) : bool := negb (Z.land b (shl1 (as_u16 t)) =? 0).

Definition bitmap_is_empty (b : Z) : bool := b =? 0.

Definition bitmap_new (tunnel_types : list TunnelType) : Z :=
  foldl bitmap_add 0 tunnel_types.

Definition init_from_strings (b : Z) (tunnel_types : list string) : Z :=
  foldl (fun b s =>
    let tunnel_type := TunnelType_from_str s in
    if decide (tunnel_type = TNone) then b else bitmap_add b tunnel_type) b tunnel_types.

Definition bitmap_from_strings (tunnel_types : list string) : Z :=
  init_from_strings 0 tunnel_types.

Definition bitmap_from_slices (tunnel_types : list Z) (trim_tunnel_types : list string) : Z :=
  let b := foldl (fun b t => Z.lor b (shl1 t)) 0 tunnel_types in
  init_from_strings b trim_tunnel_types.

(** ** A bitmap is a set of tunnel types *)

Lemma shl1_pow n : shl1 n = 2 ^ (n mod 16).
Proof.
  unfold shl1, wrap. rewrite Z.shiftl_1_l, Z.mod_small; [done|].
  pose proof (Z.mod_pos_bound n 16). split; [lia|]. apply Z.pow_lt_mono_r; lia.
Qed.

Lemma land_pow_testbit b n : 0 <= n -> negb (Z.land b (2 ^ n) =? 0) = Z.testbit b n.
Proof.
  intros Hn. destruct (Z.testbit b n) eqn:Eb.
  - apply negb_true_iff, Z.eqb_neq. intros H.
    assert (Z.testbit (Z.land b (2 ^ n)) n = true) as Ht by (rewrite Z.land_spec, Eb, Z.pow2_bits_true; lia).
    by rewrite H, Z.bits_0 in Ht.
  - apply negb_false_iff, Z.eqb_eq, Z.bits_inj'. intros k Hk. rewrite Z.land_spec, Z.bits_0, Z.pow2_bits_eqb by lia.
    destruct (Z.eqb_spec n k) as [->|]; [by rewrite Eb|apply andb_false_r].
Qed.

Lemma bitmap_has_testbit b t : bitmap_has b t = Z.testbit b (as_u16 t mod 16).
Proof. unfold bitmap_has. rewrite shl1_pow. apply land_pow_testbit, Z.mod_pos_bound. lia. Qed.

Lemma lor_shl1_testbit b n k : 0 <= k -> Z.testbit (Z.lor b (shl1 n)) k = Z.testbit b k || (n mod 16 =? k).
Proof.
  intros. rewrite Z.lor_spec, shl1_pow, Z.pow2_bits_eqb; [done|]. apply Z.mod_pos_bound. lia.
Qed.

Context {Eok : DecapEnumOk E}.

Lemma as_u16_bound t : 0 <= as_u16 t <= 15.
Proof.
  pose proof decap_nsh_room.
  destruct t; cbn; match goal with |- context [decap_as_u8 ?d] =>
    pose proof (decap_nonneg d); pose proof (decap_below_nsh d) end; lia.
Qed.

Lemma as_u16_inj t u : as_u16 t = as_u16 u -> t = u.
Proof.
  intros H. pose proof (decap_below_nsh DecapNone). pose proof (decap_below_nsh DecapVxlan).
  pose proof (decap_below_nsh DecapIpip). pose proof (decap_below_nsh DecapTencent).
  pose proof (decap_below_nsh DecapGeneve).
  destruct t, u; cbn in H; try done; try lia; by apply decap_inj in H.
Qed.

Lemma has_add b t u : bitmap_has (bitmap_add b t) u = bitmap_has b u || bool_decide (t = u).
Proof.
  rewrite !bitmap_has_testbit. unfold bitmap_add. pose proof (as_u16_bound t). pose proof (as_u16_bound u).
  rewrite lor_shl1_testbit, !Z.mod_small by (rewrite ?Z.mod_small; lia). f_equal.
  case_bool_decide as Htu; [subst; by apply Z.eqb_eq|]. apply Z.eqb_neq. intros H'. by apply Htu, as_u16_inj.
Qed.

Lemma has_init_from_strings b ss t :
  bitmap_has (init_from_strings b ss) t
  = bitmap_has b t || existsb (fun s => bool_decide (TunnelType_from_str s = t)) ss && bool_decide (t <> TNone).
Proof.
  revert b. induction ss as [|s ss IH]; intros b; cbn; [by rewrite orb_false_r|].
  unfold init_from_strings in *. cbn. rewrite IH. destruct (decide (TunnelType_from_str s = TNone)) as [Hn|Hn].
  - rewrite Hn. apply (f_equal (orb _)). destruct (decide (t = TNone)) as [->|Ht]; [by rewrite !andb_false_r|].
    by rewrite (bool_decide_eq_false_2 (TNone = t)).
  - rewrite has_add, <- orb_assoc. apply (f_equal (orb _)). destruct (decide (t = TNone)) as [->|Ht].
    + by rewrite bool_decide_eq_false_2, !andb_false_r.
    + by rewrite (bool_decide_eq_true_2 (t <> TNone)), !andb_true_r.
Qed.

Lemma has_new ts t : bitmap_has (bitmap_new ts) t = bool_decide (t ∈ ts).
Proof.
  unfold bitmap_new. assert (bitmap_has 0 t = false) as H0 by (unfold bitmap_has; by rewrite Z.land_0_l).
  transitivity (bitmap_has 0 t || bool_decide (t ∈ ts)); [|by rewrite H0].
  clear H0. generalize 0. induction ts as [|u ts IH]; intros b; cbn.
  - by rewrite bool_decide_eq_false_2, orb_false_r by apply not_elem_of_nil.
  - rewrite IH, has_add, <- orb_assoc. apply (f_equal (orb _)).
    rewrite (bool_decide_ext (t ∈ u :: ts) (u = t \/ t ∈ ts)) by (rewrite elem_of_cons; intuition congruence).
    by rewrite bool_decide_or.
Qed.

End bitmap.

(** An enum that meets the laws. *)
Definition sample_enum : DecapEnum := fun t =>
  match t with
  | DecapNone => 0 | DecapVxlan => 1 | DecapIpip => 2 | DecapTencent => 3 | DecapGeneve => 4
  | DecapVxlanNsh => 5
  end.

#[export] Instance sample_enum_ok : DecapEnumOk sample_enum.
Proof.
  split.
  - by intros [] [].
  - by intros [].
  - by intros [].
  - done.
Qed.
