(* ===== verification/TapPort.v ===== *)
(** * The capture port of a packet (common/tap_port.rs)

    A [u64] with the fields, from bit 0: 32 bits of address or id, 4 bits of
    tunnel type, 4 bits of NAT source, 20 reserved bits, 4 bits of origin. *)

From S2P Require Import Prelude TunnelType.

Module TapPort.

Definition t := Z.

Definition FROM_LOCAL_MAC : Z := 0.
Definition FROM_GATEWAY_MAC : Z := 1.
Definition FROM_TUNNEL_IPV4 : Z := 2.
Definition FROM_TUNNEL_IPV6 : Z := 3.
Definition FROM_ID : Z := 4.
Definition FROM_NETFLOW : Z := 5.
Definition FROM_SFLOW : Z := 6.
Definition FROM_EBPF : Z := 7.

Definition NAT_SOURCE_NONE : Z := 0.
Definition NAT_SOURCE_VIP : Z := 2.
Definition NAT_SOURCE_RTOA : Z := 4.
Definition NAT_SOURCE_TOA : Z := 6.

Definition TUNNEL_TYPE_OFFSET : Z := 32.
Definition TUNNEL_TYPE_MASK : Z := 0xf.
Definition FROM_OFFSET : Z := 60.
Definition NAT_SOURCE_OFFSET : Z := 36.
Definition NAT_SOURCE_MASK : Z := 0xf.
Definition RESERVED_OFFSET : Z := 40.
Definition RESERVED_MASK : Z := 0xfffff.
Definition DATA_SOURCE_OFFSET : Z := 24.
Definition TAP_MAC_MASK : Z := 0xf0000000ffffffff.

(** [(self.0 >> Self::FROM_OFFSET) as u8 == w] *)
Definition is_from (self : t) (w : Z) : bool := wrap 8 (Z.shiftr self FROM_OFFSET) =? w.

Definition get_tap_mac (self : t) : Z := Z.land self TAP_MAC_MASK.

(** [self.0 & !(mask << offset)] *)
Definition ignore_nat_source (self : t) : Z := Z.ldiff self (wshl 64 NAT_SOURCE_MASK NAT_SOURCE_OFFSET).

Definition get_nat_source (self : t) : Z := wrap 8 (Z.land (Z.shiftr self NAT_SOURCE_OFFSET) NAT_SOURCE_MASK).

Definition set_nat_source (self : t) (w : Z) : t :=
  Z.lor (Z.ldiff self (wshl 64 NAT_SOURCE_MASK NAT_SOURCE_OFFSET)) (wshl 64 w NAT_SOURCE_OFFSET).

Definition set_reserved_bytes (self : t) (tap_type : Z) : t :=
  Z.lor self (wshl 64 (Z.land tap_type RESERVED_MASK) RESERVED_OFFSET).

Section tunnel.
Context {E : DecapEnum}.

(** [(tunnel_type as u64 & Self::TUNNEL_TYPE_MASK) << Self::TUNNEL_TYPE_OFFSET] *)
Definition tunnel_bits (tunnel_type : TunnelType) : Z :=
  wshl 64 (Z.land (as_u16 tunnel_type) TUNNEL_TYPE_MASK) TUNNEL_TYPE_OFFSET.

Definition from_local_mac (nat_source : Z) (tunnel_type : TunnelType) (mac : Z) : t :=
  Z.lor (Z.lor (Z.lor mac (tunnel_bits tunnel_type)) (wshl 64 nat_source NAT_SOURCE_OFFSET))
    (wshl 64 FROM_LOCAL_MAC FROM_OFFSET).

Definition from_gateway_mac (tunnel_type : TunnelType) (mac : Z) : t :=
  Z.lor (Z.lor mac (tunnel_bits tunnel_type)) (wshl 64 FROM_GATEWAY_MAC FROM_OFFSET).

(** [tunnel_from << 8] is a [u32] shift. *)
Definition from_id (tunnel_type : TunnelType) (id tunnel_from : Z) : t :=
  Z.lor (Z.lor (Z.lor (Z.land id 0xff) (wshl 32 tunnel_from 8)) (tunnel_bits tunnel_type)) (wshl 64 FROM_ID FROM_OFFSET).

(** [TryFromPrimitive] of the enum: the variant with this discriminant. *)
Definition tunnel_type_try_from (v : Z) : option TunnelType :=
  list_find (fun t => as_u16 t = v) [TNone; Vxlan; Ipip; TencentGre; Geneve; VxlanNsh; Erspan; Teb] ≫= fun x => Some x.2.

Definition split_fields (self : t) : Z * Z * TunnelType :=
  (wrap 32 self, wrap 8 (Z.shiftr self FROM_OFFSET),
   default TNone (tunnel_type_try_from (wrap 8 (Z.land (Z.shiftr self TUNNEL_TYPE_OFFSET) TUNNEL_TYPE_MASK)))).

End tunnel.

Definition from_netflow (mac : Z) : t := Z.lor mac (wshl 64 FROM_NETFLOW FROM_OFFSET).
Definition from_sflow (mac : Z) : t := Z.lor mac (wshl 64 FROM_SFLOW FROM_OFFSET).

Definition from_tunnel_ip (ip : Z) (is_ip_v6 : bool) : t :=
  Z.lor ip (wshl 64 (if is_ip_v6 then FROM_TUNNEL_IPV6 else FROM_TUNNEL_IPV4) FROM_OFFSET).

Definition from_ebpf (process_id data_source : Z) : t :=
  Z.lor (Z.lor (wshl 64 FROM_EBPF FROM_OFFSET) (wshl 64 data_source DATA_SOURCE_OFFSET)) process_id.

End TapPort.
