(* ===== verification/Decapsulate.v ===== *)
(** * Tunnel decapsulation (common/decapsulate.rs)

    [TunnelInfo::decapsulate] and [decapsulate_v6] recognise one tunnel layer
    behind the L2 header and return the length of the outer headers behind it
    (0 when there is no tunnel).  IPIP has no inner L2 header: the outer one is
    moved in front of the inner IP header, so the packet is threaded through.
    The functions of plugins/tunnel are the open source stubs. *)

From S2P Require Import Prelude Bytes Consts TunnelType.

(** ** The tunnel information of a packet *)

Record TunnelInfo := {
  src : Z;
  dst : Z;
  mac_src : Z;
  mac_dst : Z;
  id : Z;
  tunnel_type : TunnelType;
  tier : Z;
  is_ipv6 : bool;
  from : Z;
}.

#[export] Instance TunnelInfo_fields : Fields TunnelInfo := fun x =>
  Build_TunnelInfo (src x) (dst x) (mac_src x) (mac_dst x) (id x) (tunnel_type x) (tier x)
    (is_ipv6 x) (from x).

Definition TunnelInfo_default : TunnelInfo :=
  {| src := 0; dst := 0; mac_src := 0; mac_dst := 0; id := 0; tunnel_type := TNone; tier := 0;
     is_ipv6 := false; from := 0 |}.

Definition reset_and_retain_erspan_from (self : TunnelInfo) : TunnelInfo :=
  let from' := if decide (tunnel_type self = Erspan) then src self else 0 in
  TunnelInfo_default <| from := from' |>.

Definition decapsulate_addr (self : TunnelInfo) (l3_packet : bytes) : run TunnelInfo :=
  s ← (slice_from l3_packet (FIELD_OFFSET_SIP - ETH_HEADER_SIZE) ≫= read_u32_be);
  d ← (slice_from l3_packet (FIELD_OFFSET_DIP - ETH_HEADER_SIZE) ≫= read_u32_be);
  Ret (self <| src := s |> <| dst := d |>).

Definition decapsulate_mac (self : TunnelInfo) (packet : bytes) : run TunnelInfo :=
  s ← (slice_from packet (FIELD_OFFSET_SA + 2) ≫= read_u32_be);
  d ← (slice_from packet (FIELD_OFFSET_DA + 2) ≫= read_u32_be);
  Ret (self <| mac_src := s |> <| mac_dst := d |>).

Definition decapsulate_v6_addr (self : TunnelInfo) (l3_packet : bytes) : run TunnelInfo :=
  s ← (slice_from l3_packet IP6_SIP_OFFSET ≫= read_u32_be);
  d ← (slice_from l3_packet IP6_DIP_OFFSET ≫= read_u32_be);
  Ret (self <| src := s |> <| dst := d |>).

(** [self.tier += 1] on a [u8] *)
Definition next_tier (self : TunnelInfo) : TunnelInfo := self <| tier := wadd 8 (tier self) 1 |>.

(** ** plugins/tunnel/src/lib.rs *)

Definition plugin_gpe_vxlan (packet : bytes) (l2_len : Z) : option (Z * Z) := None.
Definition plugin_erspan (packet : bytes) (l2_len flags gre_protocol_type ip_header_size : Z) : option (Z * Z) := None.
Definition plugin_teb (packet : bytes) (l2_len flags ip_header_size : Z) : option (Z * Z) := None.
Definition plugin_tencent_gre (packet : bytes) (l2_len flags gre_protocol_type ip_header_size : Z) : option (Z * Z) := None.

(** What the four operations that call a plugin do with its answer: the
    outermost tunnel is recorded under type [t]. *)
Definition record_plugin (self : TunnelInfo) (packet : bytes) (l2_len : Z) (t : TunnelType)
    (answer : option (Z * Z)) : run (TunnelInfo * Z) :=
  match answer with
  | None => Ret (self, 0)
  | Some (offset, id') =>
      self ← (if tier self =? 0 then
                l3_packet ← slice_from packet l2_len;
                self ← decapsulate_addr self l3_packet;
                self ← decapsulate_mac self packet;
                Ret (self <| tunnel_type := t |> <| id := id' |>)
              else Ret self);
      Ret (next_tier self, offset)
  end.

Definition decapsulate_gpe_vxlan (self : TunnelInfo) (packet : bytes) (l2_len : Z) :=
  record_plugin self packet l2_len VxlanNsh (plugin_gpe_vxlan packet l2_len).

Definition decapsulate_erspan (self : TunnelInfo) (packet : bytes) (l2_len flags gre_protocol_type ip_header_size : Z) :=
  record_plugin self packet l2_len Erspan
    (plugin_erspan packet l2_len flags gre_protocol_type ip_header_size).

Definition decapsulate_tencent_gre (self : TunnelInfo) (packet : bytes) (l2_len flags gre_protocol_type ip_header_size : Z) :=
  record_plugin self packet l2_len TencentGre
    (plugin_tencent_gre packet l2_len flags gre_protocol_type ip_header_size).

Definition decapsulate_teb (self : TunnelInfo) (packet : bytes) (l2_len flags ip_header_size : Z) :=
  record_plugin self packet l2_len Teb (plugin_teb packet l2_len flags ip_header_size).

(** The size of the optional GRE fields, by the flags. *)
Definition GRE_KEY_LEN : Z := 4.
Definition GRE_SEQ_LEN : Z := 4.
Definition GRE_CSUM_LEN : Z := 4.
Definition GRE_FLAGS_SEQ_MASK : Z := Z.shiftl 1 12.
Definition GRE_FLAGS_KEY_MASK : Z := Z.shiftl 1 13.
Definition GRE_FLAGS_CSUM_MASK : Z := Z.shiftl 1 15.

Definition calc_gre_option_size (flags : Z) : Z :=
  let size := 0 in
  let size := if negb (Z.land flags GRE_FLAGS_KEY_MASK =? 0) then size + GRE_KEY_LEN else size in
  let size := if negb (Z.land flags GRE_FLAGS_SEQ_MASK =? 0) then size + GRE_SEQ_LEN else size in
  if negb (Z.land flags GRE_FLAGS_CSUM_MASK =? 0) then size + GRE_CSUM_LEN else size.

Definition is_gre_pseudo_inner_mac (mac : Z) : bool := Z.shiftr mac 16 =? 0.

Definition is_valid (self : TunnelInfo) : bool := negb (bool_decide (tunnel_type self = TNone)).

(** ** VXLAN and Geneve over IPv4 *)

Definition decapsulate_vxlan (self : TunnelInfo) (packet : bytes) (l2_len : Z) : run (TunnelInfo * Z) :=
  l3_packet ← slice_from packet l2_len;
  if len l3_packet <? FIELD_OFFSET_VXLAN_FLAGS + VXLAN_HEADER_SIZE then Ret (self, 0)
  else
    flags ← index l3_packet (FIELD_OFFSET_VXLAN_FLAGS - ETH_HEADER_SIZE);
    if negb (flags =? VXLAN_FLAGS) then Ret (self, 0)
    else
      self ← (if tier self =? 0 then
                self ← decapsulate_addr self l3_packet;
                self ← decapsulate_mac self packet;
                vni ← (slice_from l3_packet (FIELD_OFFSET_VXLAN_VNI - ETH_HEADER_SIZE) ≫= read_u32_be);
                Ret (self <| tunnel_type := Vxlan |> <| id := Z.shiftr vni 8 |>)
              else Ret self);
      Ret (next_tier self, FIELD_OFFSET_VXLAN_FLAGS - ETH_HEADER_SIZE + VXLAN_HEADER_SIZE).

(** The tunnel id and the size of a Geneve header, size 0 when it is not one. *)
Definition decapsulate_geneve_header (l4_payload : bytes) : run (Z * Z) :=
  if len l4_payload <? GENEVE_HEADER_SIZE then Ret (0, 0)
  else
    version_and_option_length ← index l4_payload GENEVE_VERSION_OFFSET;
    if negb (Z.shiftr version_and_option_length GENEVE_VERSION_SHIFT =? 0) then Ret (0, 0)
    else
      let option_length :=
        wshl 8 (Z.land version_and_option_length GENEVE_OPTION_LENGTH_MASK) 2 in
      let geneve_header_size := option_length + GENEVE_HEADER_SIZE in
      if len l4_payload <? geneve_header_size then Ret (0, 0)
      else
        protocol_type ← (slice_from l4_payload GENEVE_PROTOCOL_OFFSET ≫= read_u16_le);
        if negb (protocol_type =? LE_TRANSPARENT_ETHERNET_BRIDGEING) then Ret (0, 0)
        else
          vni ← (slice_from l4_payload GENEVE_VNI_OFFSET ≫= read_u32_be);
          Ret (Z.shiftr vni GENEVE_VNI_SHIFT, geneve_header_size).

Definition decapsulate_geneve (self : TunnelInfo) (packet : bytes) (l2_len : Z) : run (TunnelInfo * Z) :=
  l3_packet ← slice_from packet l2_len;
  if len l3_packet <? UDP_PACKET_SIZE + GENEVE_HEADER_SIZE then Ret (self, 0)
  else
    l4_payload ← slice_from l3_packet (IPV4_HEADER_SIZE + UDP_HEADER_SIZE);
    '(tunnel_id, geneve_header_size) ← decapsulate_geneve_header l4_payload;
    if geneve_header_size =? 0 then Ret (self, 0)
    else
      self ← (if tier self =? 0 then
                self ← decapsulate_addr self l3_packet;
                self ← decapsulate_mac self packet;
                Ret (self <| tunnel_type := Geneve |> <| id := tunnel_id |>)
              else Ret self);
      Ret (next_tier self, UDP_PACKET_SIZE - ETH_HEADER_SIZE + geneve_header_size).

(** ** VXLAN and Geneve over IPv6 *)

Definition decapsulate_v6_geneve (self : TunnelInfo) (packet : bytes) (l2_len : Z) : run (TunnelInfo * Z) :=
  l3_packet ← slice_from packet l2_len;
  if len l3_packet <? UDP6_PACKET_SIZE + GENEVE_HEADER_SIZE then Ret (self, 0)
  else
    l4_payload ← slice_from l3_packet (IPV6_HEADER_SIZE + UDP_HEADER_SIZE);
    '(tunnel_id, geneve_header_size) ← decapsulate_geneve_header l4_payload;
    if geneve_header_size =? 0 then Ret (self, 0)
    else
      self ← (if tier self =? 0 then
                self ← decapsulate_v6_addr self l3_packet;
                self ← decapsulate_mac self packet;
                Ret (self <| tunnel_type := Geneve |> <| id := tunnel_id |> <| is_ipv6 := true |>)
              else Ret self);
      Ret (next_tier self, UDP_PACKET_SIZE - ETH_HEADER_SIZE + geneve_header_size).

Definition decapsulate_v6_vxlan (self : TunnelInfo) (packet : bytes) (l2_len : Z) : run (TunnelInfo * Z) :=
  l3_packet ← slice_from packet l2_len;
  if len l3_packet <? FIELD_OFFSET_VXLAN_FLAGS + VXLAN_HEADER_SIZE then Ret (self, 0)
  else
    flags ← index l3_packet (IPV6_HEADER_SIZE + UDP_HEADER_SIZE + VXLAN_FLAGS_OFFSET_DECAP);
    if negb (flags =? VXLAN_FLAGS) then Ret (self, 0)
    else
      self ← (if tier self =? 0 then
                self ← decapsulate_v6_addr self l3_packet;
                self ← decapsulate_mac self packet;
                vni ← (slice_from l3_packet
                         (IPV6_HEADER_SIZE + UDP_HEADER_SIZE + VXLAN_VNI_OFFSET_DECAP) ≫= read_u32_be);
                Ret (self <| tunnel_type := Vxlan |> <| id := Z.shiftr vni 8 |> <| is_ipv6 := true |>)
              else Ret self);
      Ret (next_tier self, IPV6_HEADER_SIZE + UDP_HEADER_SIZE + VXLAN_HEADER_SIZE).

(** ** IP in IP *)

Definition decapsulate_ipip (self : TunnelInfo) (packet : bytes) (l2_len : Z)
    (underlay_ipv6 overlay_ipv6 : bool) : run (TunnelInfo * bytes * Z) :=
  self ← (if tier self =? 0 then decapsulate_mac self packet else Ret self);
  l3_packet ← slice_from packet l2_len;
  underlay_ip_header_size ←
    (if underlay_ipv6 then Ret IPV6_HEADER_SIZE
     else b ← index l3_packet IP_IHL_OFFSET; Ret (wshl 8 (Z.land b 0xf) 2));
  self ← (if tier self =? 0 then
            self ← (if underlay_ipv6 then
                      self ← decapsulate_v6_addr self l3_packet; Ret (self <| is_ipv6 := true |>)
                    else decapsulate_addr self l3_packet);
            Ret (self <| tunnel_type := Ipip |> <| id := 0 |>)
          else Ret self);
  let self := next_tier self in
  let start := l2_len + underlay_ip_header_size - l2_len in
  packet ← copy_within packet l2_len start;
  packet ← write_u16_be packet (start + l2_len - 2)
             (if negb overlay_ipv6 then EthernetType.IPV4 else EthernetType.IPV6);
  Ret (self, packet, wsub 64 start l2_len).

(** ** Dispatch on the outer protocol *)

Section dispatch.
Context {E : DecapEnum}.

Definition is_vxlan_port (dst_port : Z) : bool :=
  (dst_port =? LE_VXLAN_PROTO_UDP_DPORT) || (dst_port =? LE_VXLAN_PROTO_UDP_DPORT2)
  || (dst_port =? LE_VXLAN_PROTO_UDP_DPORT3).

Definition decapsulate_udp (self : TunnelInfo) (packet : bytes) (l2_len tunnel_types : Z)
    : run (TunnelInfo * Z) :=
  mac_prefix_0 ← index packet 0;
  mac_prefix_1 ← index packet 1;
  l3_packet ← slice_from packet l2_len;
  let dst_port_offset := FIELD_OFFSET_DPORT - ETH_HEADER_SIZE in
  if len l3_packet <? dst_port_offset + PORT_LEN then Ret (self, 0)
  else
    dst_port ← (slice_from l3_packet (FIELD_OFFSET_DPORT - ETH_HEADER_SIZE) ≫= read_u16_le);
    if is_vxlan_port dst_port && bitmap_has tunnel_types Vxlan then
      decapsulate_vxlan self packet l2_len
    else if (dst_port =? LE_GPE_VXLAN_PROTO_UDP_DPORT) && bitmap_has tunnel_types VxlanNsh then
      decapsulate_gpe_vxlan self packet l2_len
    else if (dst_port =? LE_GENEVE_PROTO_UDP_DPORT) && bitmap_has tunnel_types Geneve then
      decapsulate_geneve self packet l2_len
    else if (mac_prefix_0 =? 0xff) && (mac_prefix_1 =? 0xff) && bitmap_has tunnel_types Vxlan then
      src_port ← (slice_from l3_packet (FIELD_OFFSET_SPORT - ETH_HEADER_SIZE) ≫= read_u16_le);
      if src_port =? dst_port then decapsulate_vxlan self packet l2_len else Ret (self, 0)
    else Ret (self, 0).

Definition decapsulate_gre (self : TunnelInfo) (packet : bytes) (l2_len tunnel_types : Z)
    : run (TunnelInfo * Z) :=
  l3_packet ← slice_from packet l2_len;
  b ← index l3_packet IP_IHL_OFFSET;
  let ip_header_size := Z.shiftl (Z.land b 0xf) 2 in
  flags ← (slice_from l3_packet (ip_header_size + GRE_FLAGS_OFFSET) ≫= read_u16_be);
  gre_protocol_type ← (slice_from l3_packet (ip_header_size + GRE_PROTOCOL_OFFSET) ≫= read_u16_le);
  if ((gre_protocol_type =? LE_ERSPAN_PROTO_TYPE_II) || (gre_protocol_type =? LE_ERSPAN_PROTO_TYPE_III))
     && bitmap_has tunnel_types Erspan then
    decapsulate_erspan self packet l2_len flags gre_protocol_type ip_header_size
  else if ((gre_protocol_type =? LE_IPV4_PROTO_TYPE_I) || (gre_protocol_type =? LE_IPV6_PROTO_TYPE_I))
          && bitmap_has tunnel_types TencentGre then
    decapsulate_tencent_gre self packet l2_len flags gre_protocol_type ip_header_size
  else if (gre_protocol_type =? LE_TRANSPARENT_ETHERNET_BRIDGEING) && bitmap_has tunnel_types Teb then
    decapsulate_teb self packet l2_len flags ip_header_size
  else Ret (self, 0).

(** A layer that leaves the packet as it is. *)
Definition keep (packet : bytes) (m : run (TunnelInfo * Z)) : run (TunnelInfo * bytes * Z) :=
  '(self, offset) ← m; Ret (self, packet, offset).

Definition decapsulate (self : TunnelInfo) (packet : bytes) (l2_len tunnel_types : Z)
    : run (TunnelInfo * bytes * Z) :=
  if bitmap_is_empty tunnel_types || (tier self =? TUNNEL_TIER_LIMIT) then Ret (self, packet, 0)
  else
    l3_packet ← slice_from packet l2_len;
    if len l3_packet <? IPV4_HEADER_SIZE + GRE_HEADER_SIZE_DECAP + ERSPAN_III_HEADER_SIZE
                        + ERSPAN_III_SUBHEADER_SIZE
    then Ret (self, packet, 0)
    else
      protocol ← index l3_packet (FIELD_OFFSET_PROTO - ETH_HEADER_SIZE);
      if protocol =? IpProtocol.UDP then keep packet (decapsulate_udp self packet l2_len tunnel_types)
      else if protocol =? IpProtocol.GRE then
        keep packet (decapsulate_gre self packet l2_len tunnel_types)
      else if (protocol =? IpProtocol.IPV4) && bitmap_has tunnel_types Ipip then
        decapsulate_ipip self packet l2_len false false
      else if (protocol =? IpProtocol.IPV6) && bitmap_has tunnel_types Ipip then
        decapsulate_ipip self packet l2_len false true
      else Ret (self, packet, 0).

Definition decapsulate_v6_udp (self : TunnelInfo) (packet : bytes) (l2_len tunnel_types : Z)
    : run (TunnelInfo * Z) :=
  mac_prefix_0 ← index packet 0;
  mac_prefix_1 ← index packet 1;
  l3_packet ← slice_from packet l2_len;
  let dst_port_offset := IPV6_HEADER_SIZE + UDP_DPORT_OFFSET in
  if len l3_packet <? dst_port_offset + PORT_LEN then Ret (self, 0)
  else
    dst_port ← (slice_from l3_packet dst_port_offset ≫= read_u16_le);
    if is_vxlan_port dst_port && bitmap_has tunnel_types Vxlan then
      decapsulate_v6_vxlan self packet l2_len
    else if (dst_port =? LE_GENEVE_PROTO_UDP_DPORT) && bitmap_has tunnel_types Geneve then
      decapsulate_v6_geneve self packet l2_len
    else if (mac_prefix_0 =? 0xff) && (mac_prefix_1 =? 0xff) && bitmap_has tunnel_types Vxlan then
      src_port ← (slice_from l3_packet (dst_port_offset - 2) ≫= read_u16_le);
      if src_port =? dst_port then decapsulate_v6_vxlan self packet l2_len else Ret (self, 0)
    else Ret (self, 0).

Definition decapsulate_v6 (self : TunnelInfo) (packet : bytes) (l2_len tunnel_types : Z)
    : run (TunnelInfo * bytes * Z) :=
  if bitmap_is_empty tunnel_types || (tier self =? TUNNEL_TIER_LIMIT) then Ret (self, packet, 0)
  else
    l3_packet ← slice_from packet l2_len;
    if len l3_packet <? IPV6_HEADER_SIZE + GRE_HEADER_SIZE_DECAP + ERSPAN_III_HEADER_SIZE
                        + ERSPAN_III_SUBHEADER_SIZE
    then Ret (self, packet, 0)
    else
      protocol ← index l3_packet IP6_PROTO_OFFSET;
      if protocol =? IpProtocol.UDP then keep packet (decapsulate_v6_udp self packet l2_len tunnel_types)
      else if (protocol =? IpProtocol.IPV4) && bitmap_has tunnel_types Ipip then
        decapsulate_ipip self packet l2_len true false
      else if (protocol =? IpProtocol.IPV6) && bitmap_has tunnel_types Ipip then
        decapsulate_ipip self packet l2_len true true
      else Ret (self, packet, 0).

End dispatch.
