(* ===== verification/Endpoint.v ===== *)
(** * Endpoints (common/endpoint.rs)

    What the policy lookup knows about the two ends of a packet, and the store
    that holds it for each combination of the L2 and L3 end flags. *)

From S2P Require Import Prelude Bytes.

Definition EPC_INTERNET : Z := -2.

Record EndpointInfo := {
  ei_real_ip : IpAddr;
  ei_l2_epc_id : Z;
  ei_l3_epc_id : Z;
  ei_l2_end : bool;
  ei_l3_end : bool;
  ei_is_device : bool;
  ei_is_vip_interface : bool;
  ei_is_vip : bool;
  ei_is_local_mac : bool;
  ei_is_local_ip : bool;
}.

#[export] Instance EndpointInfo_fields : Fields EndpointInfo := fun x =>
  Build_EndpointInfo (ei_real_ip x) (ei_l2_epc_id x) (ei_l3_epc_id x) (ei_l2_end x) (ei_l3_end x) (ei_is_device x)
    (ei_is_vip_interface x) (ei_is_vip x) (ei_is_local_mac x) (ei_is_local_ip x).

Definition EndpointInfo_default : EndpointInfo := Build_EndpointInfo (V4 0) 0 0 false false false false false false false.

Inductive L3L2End := FalseFalse | FalseTrue | TrueFalse | TrueTrue | EndMax.

(** [L3L2End as usize] and [From<usize>] *)
Definition L3L2End_index (e : L3L2End) : Z :=
  match e with FalseFalse => 0 | FalseTrue => 1 | TrueFalse => 2 | TrueTrue => 3 | EndMax => 4 end.

Definition L3L2End_of_index (v : Z) : run L3L2End :=
  if v =? 0 then Ret FalseFalse else if v =? 1 then Ret FalseTrue else if v =? 2 then Ret TrueFalse
  else if v =? 3 then Ret TrueTrue else if v =? 4 then Ret EndMax else Panic.

(** The pair is (L2, L3). *)
Definition L3L2End_of_ends (ends : bool * bool) : L3L2End :=
  match ends with
  | (false, false) => FalseFalse
  | (true, false) => FalseTrue
  | (false, true) => TrueFalse
  | (true, true) => TrueTrue
  end.

Definition ends_of (e : L3L2End) : run (bool * bool) :=
  match e with
  | FalseFalse => Ret (false, false)
  | FalseTrue => Ret (true, false)
  | TrueFalse => Ret (false, true)
  | TrueTrue => Ret (true, true)
  | EndMax => Panic
  end.

Definition set_l3_l2_end (x : EndpointInfo) (ends : L3L2End) : run EndpointInfo :=
  '(l2, l3) ← ends_of ends;
  let x := x <| ei_l2_end := l2 |> <| ei_l3_end := l3 |> in
  let x := if l2 && l3 && negb (ei_l2_epc_id x =? 0) && (ei_l3_epc_id x =? EPC_INTERNET)
           then x <| ei_l3_epc_id := ei_l2_epc_id x |> else x in
  Ret (if negb l2 then x <| ei_is_vip_interface := false |> else x).

Definition get_l3_l2_end (x : EndpointInfo) : L3L2End := L3L2End_of_ends (ei_l2_end x, ei_l3_end x).

(** The fields of [PlatformData] the endpoints use *)
Record PlatformData := { pf_epc_id : Z; pf_is_local : bool }.

Definition set_l2_data (x : EndpointInfo) (data : PlatformData) : EndpointInfo :=
  let x := if 0 <? pf_epc_id data then x <| ei_l2_epc_id := pf_epc_id data |> else x in
  x <| ei_is_device := true |> <| ei_is_local_mac := pf_is_local data |>.

Definition set_l3_data (x : EndpointInfo) (data : PlatformData) : EndpointInfo :=
  x <| ei_l3_epc_id := pf_epc_id data |> <| ei_is_device := true |> <| ei_is_local_ip := pf_is_local data |>.

Definition set_loopback (x : EndpointInfo) (local_epc : Z) : EndpointInfo :=
  x <| ei_l2_epc_id := local_epc |> <| ei_l3_epc_id := local_epc |> <| ei_is_device := true |> <| ei_is_local_mac := true |>
    <| ei_is_local_ip := true |>.

Record EndpointData := { ed_src_info : EndpointInfo; ed_dst_info : EndpointInfo }.

Definition EndpointData_reversed (d : EndpointData) : EndpointData := Build_EndpointData (ed_dst_info d) (ed_src_info d).

(** The endpoints seen from one side; [pov] is 0 or 1, here whether it is 1. *)
Record EndpointDataPov := { pov_data : EndpointData; pov : bool }.

Definition EndpointDataPov_new (d : EndpointData) : EndpointDataPov := Build_EndpointDataPov d false.

Definition EndpointDataPov_reversed (p : EndpointDataPov) : EndpointDataPov := Build_EndpointDataPov (pov_data p) (negb (pov p)).

Definition src_info (p : EndpointDataPov) : EndpointInfo := if pov p then ed_dst_info (pov_data p) else ed_src_info (pov_data p).
Definition dst_info (p : EndpointDataPov) : EndpointInfo := if pov p then ed_src_info (pov_data p) else ed_dst_info (pov_data p).

(** ** The store *)

Definition EndpointStore := list (list EndpointData).

(** [L3L2End::Max as usize] squared entries, by the ends of source and destination *)
Definition EndpointStore_from (e : EndpointData) : run EndpointStore :=
  rfold (fun rows i =>
    row ← rfold (fun row j =>
      ends_i ← L3L2End_of_index i;
      ends_j ← L3L2End_of_index j;
      src ← set_l3_l2_end (ed_src_info e) ends_i;
      dst ← set_l3_l2_end (ed_dst_info e) ends_j;
      Ret (row ++ [Build_EndpointData src dst])) (seqZ 0 (L3L2End_index EndMax)) [];
    Ret (rows ++ [row])) (seqZ 0 (L3L2End_index EndMax)) [].

Definition EndpointStore_get (s : EndpointStore) (l2_end_0 l2_end_1 l3_end_0 l3_end_1 : bool) : run EndpointData :=
  row ← unwrap (s !! Z.to_nat (L3L2End_index (L3L2End_of_ends (l2_end_0, l3_end_0))));
  unwrap (row !! Z.to_nat (L3L2End_index (L3L2End_of_ends (l2_end_1, l3_end_1)))).

(** The store returns the endpoints with exactly the ends that are asked for;
    nothing else changes but the EPC of an internet address on its own host and
    the VIP flag of a remote one. *)
Lemma store_get e l2_0 l2_1 l3_0 l3_1 :
  (s ← EndpointStore_from e; EndpointStore_get s l2_0 l2_1 l3_0 l3_1)
  = (src ← set_l3_l2_end (ed_src_info e) (L3L2End_of_ends (l2_0, l3_0));
     dst ← set_l3_l2_end (ed_dst_info e) (L3L2End_of_ends (l2_1, l3_1));
     Ret (Build_EndpointData src dst)).
Proof. by destruct l2_0, l2_1, l3_0, l3_1. Qed.

Lemma set_l3_l2_end_ends x l2 l3 : wp (set_l3_l2_end x (L3L2End_of_ends (l2, l3))) (fun x' => get_l3_l2_end x' = L3L2End_of_ends (l2, l3)).
Proof. unfold set_l3_l2_end. destruct l2, l3; cbn; by repeat case_match. Qed.
