(* ===== verification/MetaPacket.v ===== *)
(** * Packet metadata (src/agent/src/common/meta_packet.rs)

    The fields of [MetaPacket], [LookupKey], [MetaPacketTcpHeader] and
    [HeaderType] that parsing a captured packet writes and the flow code reads,
    with the predicates and the payload accessors of [MetaPacket].  The fields
    that only the eBPF and L7 paths use are not in the records. *)

From S2P Require Import TapTypes Decapsulate.
From S2P Require Import Prelude Timestamp TcpFlags Bytes Consts TapPort Endpoint.

Record MetaPacketTcpHeader := {
  th_seq : Z;
  th_ack : Z;
  th_win_size : Z;
  th_mss : Z;
  th_flags : Z;
  th_data_offset : Z;
  th_win_scale : Z;
  th_sack_permitted : bool;
  th_sack : option bytes;
}.

#[export] Instance MetaPacketTcpHeader_fields : Fields MetaPacketTcpHeader := fun x =>
  Build_MetaPacketTcpHeader (th_seq x) (th_ack x) (th_win_size x) (th_mss x) (th_flags x)
    (th_data_offset x) (th_win_scale x) (th_sack_permitted x) (th_sack x).

Definition MetaPacketTcpHeader_default : MetaPacketTcpHeader :=
  Build_MetaPacketTcpHeader 0 0 0 0 0 0 0 false None.

Inductive ProtocolData :=
| TcpHeader (h : MetaPacketTcpHeader)
| IcmpData (icmp_type echo_id_seq : Z).

(** [repr(u8)] with the derived order of its discriminants *)
Inductive HeaderType :=
| Invalid | Eth | Arp | Ipv4 | Ipv4Icmp | Ipv6 | Ipv4Tcp | Ipv4Udp | Ipv6Tcp | Ipv6Udp.

#[export] Instance HeaderType_eq_dec : EqDecision HeaderType.
Proof. solve_decision. Defined.

Module HeaderType.

Definition as_u8 (t : HeaderType) : Z :=
  match t with
  | Invalid => 0 | Eth => 0x1 | Arp => 0x2 | Ipv4 => 0x20 | Ipv4Icmp => 0x21 | Ipv6 => 0x40
  | Ipv4Tcp => 0x80 | Ipv4Udp => 0x81 | Ipv6Tcp => 0xb0 | Ipv6Udp => 0xb1
  end.

Definition min_packet_size (t : HeaderType) : run Z :=
  match t with
  | Eth => Ret 14
  | Arp => Ret (14 + 28)
  | Ipv4 => Ret (14 + 20)
  | Ipv4Icmp => Ret (14 + 20 + 8)
  | Ipv6 => Ret (14 + 20)
  | Ipv4Tcp => Ret (14 + 20 + 20)
  | Ipv4Udp => Ret (14 + 20 + 8)
  | Ipv6Tcp => Ret (14 + 40 + 20)
  | Ipv6Udp => Ret (14 + 40 + 8)
  | Invalid => Panic
  end.

Definition min_header_size (t : HeaderType) : run Z :=
  match t with
  | Eth => Ret 14
  | Arp => Ret 28
  | Ipv4 => Ret 20
  | Ipv4Icmp => Ret 8
  | Ipv6 => Ret 20
  | Ipv4Tcp => Ret 20
  | Ipv4Udp => Ret 8
  | Ipv6Tcp => Ret 20
  | Ipv6Udp => Ret 8
  | Invalid => Panic
  end.

End HeaderType.

(** The part of the lookup key that comes from the packet. *)
Record LookupKey := {
  lk_timestamp : Timestamp.t;
  src_mac : bytes;
  dst_mac : bytes;
  src_ip : IpAddr;
  dst_ip : IpAddr;
  src_port : Z;
  dst_port : Z;
  lk_eth_type : Z;
  l2_end_0 : bool;
  l2_end_1 : bool;
  l3_end_0 : bool;
  l3_end_1 : bool;
  proto : Z;
  tap_type : CaptureNetworkType.t;
  feature_flag : Z;
  tunnel_id : Z;
  dst_nat_port : Z;
  src_nat_port : Z;
  src_nat_ip : IpAddr;
  dst_nat_ip : IpAddr;
  src_nat_source : Z;
  dst_nat_source : Z;
  direction : PacketDirection;
}.

#[export] Instance LookupKey_fields : Fields LookupKey := fun x =>
  Build_LookupKey (lk_timestamp x) (src_mac x) (dst_mac x) (src_ip x) (dst_ip x) (src_port x)
    (dst_port x) (lk_eth_type x) (l2_end_0 x) (l2_end_1 x) (l3_end_0 x) (l3_end_1 x) (proto x) (tap_type x)
    (feature_flag x) (tunnel_id x) (dst_nat_port x) (src_nat_port x) (src_nat_ip x) (dst_nat_ip x) (src_nat_source x)
    (dst_nat_source x) (direction x).

Definition LookupKey_default : LookupKey :=
  Build_LookupKey 0 (repeat 0 6) (repeat 0 6) (V4 0) (V4 0) 0 0 0 false false false false 0
    CaptureNetworkType.Any 0 0 0 0 (V4 0) (V4 0) TapPort.NAT_SOURCE_NONE TapPort.NAT_SOURCE_NONE ClientToServer.

Inductive EbpfType :=
| TracePoint | TlsUprobe | GoHttp2Uprobe | GoHttp2UprobeData | IOEvent | SocketCloseEvent | EbpfNone.

#[export] Instance EbpfType_eq_dec : EqDecision EbpfType.
Proof. solve_decision. Defined.

(** [EbpfType as u8] *)
Definition ebpf_as_u8 (t : EbpfType) : Z :=
  match t with
  | TracePoint => 0
  | TlsUprobe => 1
  | GoHttp2Uprobe => 2
  | IOEvent => 4
  | GoHttp2UprobeData => 5
  | SocketCloseEvent => 6
  | EbpfNone => 255
  end.

Inductive SignalSource := Packet | XFlow | EBPF | OTel.

#[export] Instance SignalSource_eq_dec : EqDecision SignalSource.
Proof. solve_decision. Defined.

Record SubPacket := {
  sub_timestamp : Timestamp.t;
  cap_seq : Z;
  syscall_trace_id : Z;
  sub_raw_from_ebpf_offset : Z;
  sub_tcp_seq : Z;
}.

Definition SubPacket_default : SubPacket := Build_SubPacket 0 0 0 0 0.

Record MetaPacket := {
  lookup_key : LookupKey;
  need_reverse_flow : bool;
  raw : option bytes;
  packet_len : Z;
  vlan_tag_size : Z;
  ttl : Z;
  reset_ttl : bool;
  endpoint_data : option EndpointDataPov;
  offset_ipv6_last_option : Z;
  offset_ipv6_fragment_option : Z;
  header_type : HeaderType;
  l2_l3_opt_size : Z;
  l4_opt_size : Z;
  l3_payload_len : Z;
  l4_payload_len : Z;
  npb_ignore_l4 : bool;
  nd_reply_or_arp_request : bool;
  tunnel : option TunnelInfo;
  next_header : Z;
  tcp_options_flag : Z;
  protocol_data : ProtocolData;
  tap_port : TapPort.t;
  signal_source : SignalSource;
  payload_len : Z;
  vlan : Z;
  pk_is_active_service : bool;
  queue_hash : Z;
  ebpf_type : EbpfType;
  raw_from_ebpf : bytes;
  raw_from_ebpf_offset : Z;
  sub_packets : list SubPacket;
  socket_id : Z;
  socket_role : Z;
  gpid_0 : Z;
  gpid_1 : Z;
  pk_flow_id : Z;
  second_in_minute : Z;
}.

#[export] Instance MetaPacket_fields : Fields MetaPacket := fun x =>
  Build_MetaPacket (lookup_key x) (need_reverse_flow x) (raw x) (packet_len x) (vlan_tag_size x) (ttl x)
    (reset_ttl x) (endpoint_data x) (offset_ipv6_last_option x) (offset_ipv6_fragment_option x) (header_type x) (l2_l3_opt_size x)
    (l4_opt_size x) (l3_payload_len x) (l4_payload_len x) (npb_ignore_l4 x)
    (nd_reply_or_arp_request x) (tunnel x) (next_header x) (tcp_options_flag x) (protocol_data x) (tap_port x)
    (signal_source x) (payload_len x) (vlan x) (pk_is_active_service x) (queue_hash x) (ebpf_type x) (raw_from_ebpf x) (raw_from_ebpf_offset x) (sub_packets x)
    (socket_id x) (socket_role x) (gpid_0 x) (gpid_1 x) (pk_flow_id x) (second_in_minute x).

Definition timestamp (p : MetaPacket) : Timestamp.t := lk_timestamp (lookup_key p).

(** [MetaPacket::empty] *)
Definition MetaPacket_empty : MetaPacket :=
  Build_MetaPacket LookupKey_default false None 0 0 0 false None 0 0 Invalid 0 0 0 0 false false None 0 0
    (TcpHeader MetaPacketTcpHeader_default) 0 Packet 0 0 false 0 EbpfNone [] 0 [] 0 0 0 0 0 0.

Definition generate_ebpf_flow_id (p : MetaPacket) : Z :=
  Z.lor (wshl 64 (ebpf_as_u8 (ebpf_type p)) 48) (Z.ldiff (socket_id p) (wshl 64 0xff 48)).

(** [LookupKey::get_nat_source] *)
Definition get_nat_source (k : LookupKey) : Z := Z.max (src_nat_source k) (dst_nat_source k).

(** [MetaPacket::set_vip_info]: the real addresses behind a virtual one, unless
    a better source is known. *)
Definition set_vip_info (p : MetaPacket) (client_real_ip server_real_ip : IpAddr) : MetaPacket :=
  let set_src ip k := if src_nat_source k <? TapPort.NAT_SOURCE_VIP
                      then k <| src_nat_ip := ip |> <| src_nat_source := TapPort.NAT_SOURCE_VIP |> else k in
  let set_dst ip k := if dst_nat_source k <? TapPort.NAT_SOURCE_VIP
                      then k <| dst_nat_ip := ip |> <| dst_nat_source := TapPort.NAT_SOURCE_VIP |> else k in
  let k := lookup_key p in
  let d := direction k in
  let k := if is_unspecified client_real_ip then k
           else match d with ClientToServer => set_src client_real_ip k | ServerToClient => set_dst client_real_ip k end in
  let k := if is_unspecified server_real_ip then k
           else match d with ClientToServer => set_dst server_real_ip k | ServerToClient => set_src server_real_ip k end in
  p <| lookup_key := k |>.

Definition is_ndp_response (p : MetaPacket) : bool := nd_reply_or_arp_request p && (proto (lookup_key p) =? IpProtocol.ICMPV6).

(** One step of [MetaPacket::next]: a packet of eBPF takes the fields of its sub packet. *)
Definition next_sub_packet (p : MetaPacket) (s : SubPacket) : MetaPacket :=
  if decide (ebpf_type p = EbpfNone) then p
  else
    let p := p <| lookup_key := ((lookup_key p) <| lk_timestamp := sub_timestamp s |>) |>
               <| raw_from_ebpf_offset := sub_raw_from_ebpf_offset s |> in
    match protocol_data p with
    | TcpHeader h => p <| protocol_data := TcpHeader (h <| th_seq := sub_tcp_seq s |>) |>
    | IcmpData _ _ => p
    end.

(** [if let ProtocolData::TcpHeader(h) = &self.protocol_data { return test(h) } false] *)
Definition tcp_test (p : MetaPacket) (test : MetaPacketTcpHeader -> bool) : bool :=
  match protocol_data p with
  | TcpHeader h => test h
  | IcmpData _ _ => false
  end.

(** The same with [unreachable!()] for other protocols. *)
Definition tcp_data (p : MetaPacket) : run MetaPacketTcpHeader :=
  match protocol_data p with
  | TcpHeader h => Ret h
  | IcmpData _ _ => Panic
  end.

Definition is_syn (p : MetaPacket) : bool :=
  tcp_test p (fun h => Z.land (th_flags h) TcpFlags.MASK =? TcpFlags.SYN).

Definition is_syn_ack (p : MetaPacket) : bool :=
  tcp_test p (fun h => (Z.land (th_flags h) TcpFlags.MASK =? TcpFlags.SYN_ACK)
                       && (payload_len p =? 0)).

Definition is_ack (p : MetaPacket) : bool :=
  tcp_test p (fun h => (Z.land (th_flags h) TcpFlags.MASK =? TcpFlags.ACK)
                       && (payload_len p =? 0)).

Definition is_psh_ack (p : MetaPacket) : bool :=
  tcp_test p (fun h => (Z.land (th_flags h) TcpFlags.MASK =? TcpFlags.PSH_ACK)
                       && (1 <? payload_len p)).

Definition has_valid_payload (p : MetaPacket) : bool := 1 <? payload_len p.

(** Field widths of a TCP packet. *)
Definition packet_ok (p : MetaPacket) : Prop :=
  exists h, protocol_data p = TcpHeader h
    /\ fits 64 (timestamp p) /\ fits 16 (payload_len p)
    /\ fits 32 (th_seq h) /\ fits 32 (th_ack h) /\ fits 16 (th_win_size h)
    /\ fits 8 (th_flags h) /\ fits 8 (th_data_offset h) /\ fits 8 (th_win_scale h).

Lemma syn_excludes p : is_syn p = true -> is_syn_ack p = false /\ is_ack p = false.
Proof.
  unfold is_syn, is_syn_ack, is_ack, tcp_test. destruct (protocol_data p); [|done].
  intros ->%Z.eqb_eq. done.
Qed.

Lemma ack_excludes p : is_ack p = true -> is_syn p = false /\ is_syn_ack p = false.
Proof.
  unfold is_syn, is_syn_ack, is_ack, tcp_test. destruct (protocol_data p); [|done].
  intros [->%Z.eqb_eq _]%andb_true_iff. done.
Qed.

(** A TCP packet with a 20 byte header. *)
Definition tcp_packet (ts seq ack win flags scale n : Z) : MetaPacket :=
  MetaPacket_empty <| lookup_key := (LookupKey_default <| lk_timestamp := ts |>) |>
    <| payload_len := n |>
    <| protocol_data := TcpHeader (Build_MetaPacketTcpHeader seq ack win 0 flags 5 scale false None) |>.
