(* ===== verification/Flow.v ===== *)
(** * Flows (common/flow.rs)

    A [Flow] has the key of its first packet, the counters of both directions
    and the times and sequence numbers the flow code maintains.  Not modelled:
    the fields that only the policy tags, the L7 parsers and the collector
    write, and [tap_side]. *)

From S2P Require Import TapTypes.
From S2P Require Import Prelude Timestamp TcpFlags FlowState Bytes Consts TunnelType TapPort MetaPacket.

Inductive CloseType :=
| CloseUnknown | CloseFinish | TcpServerRst | CloseTimeout | ForcedReport | ClientSynRepeat | ServerHalfClose
| TcpClientRst | ServerSynAckRepeat | ClientHalfClose | ClientSourcePortReuse | CloseServerReset | ServerQueueLack
| ClientEstablishReset | ServerEstablishReset | TcpFinClientRst | CloseMax.

#[export] Instance CloseType_eq_dec : EqDecision CloseType.
Proof. solve_decision. Defined.

Record FlowKey := {
  fk_tap_type : CaptureNetworkType.t;
  fk_tap_port : TapPort.t;
  fk_mac_src : bytes;
  fk_mac_dst : bytes;
  fk_ip_src : IpAddr;
  fk_ip_dst : IpAddr;
  fk_port_src : Z;
  fk_port_dst : Z;
  fk_proto : Z;
}.

#[export] Instance FlowKey_fields : Fields FlowKey := fun x =>
  Build_FlowKey (fk_tap_type x) (fk_tap_port x) (fk_mac_src x) (fk_mac_dst x) (fk_ip_src x) (fk_ip_dst x) (fk_port_src x)
    (fk_port_dst x) (fk_proto x).

Definition FlowKey_reverse (k : FlowKey) : FlowKey :=
  k <| fk_mac_src := fk_mac_dst k |> <| fk_mac_dst := fk_mac_src k |> <| fk_ip_src := fk_ip_dst k |>
    <| fk_ip_dst := fk_ip_src k |> <| fk_port_src := fk_port_dst k |> <| fk_port_dst := fk_port_src k |>.

Record TunnelField := {
  tx_ip0 : Z;
  tx_ip1 : Z;
  rx_ip0 : Z;
  rx_ip1 : Z;
  tx_mac0 : Z;
  tx_mac1 : Z;
  rx_mac0 : Z;
  rx_mac1 : Z;
  tx_id : Z;
  rx_id : Z;
  tf_tunnel_type : TunnelType;
  tf_tier : Z;
  tf_is_ipv6 : bool;
}.

#[export] Instance TunnelField_fields : Fields TunnelField := fun x =>
  Build_TunnelField (tx_ip0 x) (tx_ip1 x) (rx_ip0 x) (rx_ip1 x) (tx_mac0 x) (tx_mac1 x) (rx_mac0 x) (rx_mac1 x) (tx_id x)
    (rx_id x) (tf_tunnel_type x) (tf_tier x) (tf_is_ipv6 x).

Definition TunnelField_default : TunnelField := Build_TunnelField 0 0 0 0 0 0 0 0 0 0 TNone 0 false.

Definition TunnelField_reverse (t : TunnelField) : TunnelField :=
  Build_TunnelField (rx_ip0 t) (rx_ip1 t) (tx_ip0 t) (tx_ip1 t) (rx_mac0 t) (rx_mac1 t) (tx_mac0 t) (tx_mac1 t) (rx_id t)
    (tx_id t) (tf_tunnel_type t) (tf_tier t) (tf_is_ipv6 t).

Record FlowMetricsPeer := {
  byte_count : Z;
  l3_byte_count : Z;
  l4_byte_count : Z;
  packet_count : Z;
  total_byte_count : Z;
  total_packet_count : Z;
  first : Timestamp.t;
  last : Timestamp.t;
  l3_epc_id : Z;
  is_l2_end : bool;
  is_l3_end : bool;
  is_active_host : bool;
  is_device : bool;
  tcp_flags : Z;
  total_tcp_flags : Z;
  is_vip_interface : bool;
  is_vip : bool;
  is_local_mac : bool;
  is_local_ip : bool;
  nat_source : Z;
  nat_real_port : Z;
  gpid : Z;
  nat_real_ip : IpAddr;
}.

#[export] Instance FlowMetricsPeer_fields : Fields FlowMetricsPeer := fun x =>
  Build_FlowMetricsPeer (byte_count x) (l3_byte_count x) (l4_byte_count x) (packet_count x) (total_byte_count x)
    (total_packet_count x) (first x) (last x) (l3_epc_id x) (is_l2_end x) (is_l3_end x) (is_active_host x) (is_device x) (tcp_flags x) (total_tcp_flags x)
    (is_vip_interface x) (is_vip x) (is_local_mac x) (is_local_ip x) (nat_source x) (nat_real_port x) (gpid x) (nat_real_ip x).

Definition FlowMetricsPeer_default : FlowMetricsPeer :=
  Build_FlowMetricsPeer 0 0 0 0 0 0 0 0 0 false false false false 0 0 false false false false TapPort.NAT_SOURCE_NONE 0 0 (V4 0).

Record Flow := {
  flow_key : FlowKey;
  flow_metrics_src : FlowMetricsPeer;
  flow_metrics_dst : FlowMetricsPeer;
  fl_tunnel : TunnelField;
  flow_id : Z;
  syn_seq : Z;
  synack_seq : Z;
  last_keepalive_seq : Z;
  last_keepalive_ack : Z;
  start_time : Timestamp.t;
  end_time : Timestamp.t;
  duration : Timestamp.t;
  flow_stat_time : Timestamp.t;
  fl_vlan : Z;
  fl_eth_type : Z;
  close_type : CloseType;
  fl_signal_source : SignalSource;
  is_active_service : bool;
  fl_queue_hash : Z;
  is_new_flow : bool;
  reversed : bool;
  direction_score : Z;
}.

#[export] Instance Flow_fields : Fields Flow := fun x =>
  Build_Flow (flow_key x) (flow_metrics_src x) (flow_metrics_dst x) (fl_tunnel x) (flow_id x) (syn_seq x) (synack_seq x)
    (last_keepalive_seq x) (last_keepalive_ack x) (start_time x) (end_time x) (duration x) (flow_stat_time x) (fl_vlan x)
    (fl_eth_type x) (close_type x) (fl_signal_source x) (is_active_service x) (fl_queue_hash x) (is_new_flow x) (reversed x)
    (direction_score x).

(** [flow_metrics_peers[direction as usize]] *)
Definition peer (f : Flow) (d : PacketDirection) : FlowMetricsPeer :=
  match d with ClientToServer => flow_metrics_src f | ServerToClient => flow_metrics_dst f end.

Definition on_peer (f : Flow) (d : PacketDirection) (g : FlowMetricsPeer -> FlowMetricsPeer) : Flow :=
  match d with
  | ClientToServer => f <| flow_metrics_src := g (flow_metrics_src f) |>
  | ServerToClient => f <| flow_metrics_dst := g (flow_metrics_dst f) |>
  end.

(** [PacketDirection::reversed] *)
Definition direction_reversed (d : PacketDirection) : PacketDirection :=
  match d with ClientToServer => ServerToClient | ServerToClient => ClientToServer end.

Definition Flow_reverse (f : Flow) (is_first_packet : bool) : Flow :=
  f <| reversed := negb (reversed f) && negb is_first_packet |> <| fl_tunnel := TunnelField_reverse (fl_tunnel f) |>
    <| flow_key := FlowKey_reverse (flow_key f) |> <| flow_metrics_src := flow_metrics_dst f |>
    <| flow_metrics_dst := flow_metrics_src f |> <| direction_score := 0 |>.

Definition is_heartbeat (f : Flow) : bool :=
  let src_tcp_flags := total_tcp_flags (flow_metrics_src f) in
  let dst_tcp_flags := total_tcp_flags (flow_metrics_dst f) in
  if TcpFlags.contains src_tcp_flags TcpFlags.PSH || TcpFlags.contains dst_tcp_flags TcpFlags.PSH then false
  else TcpFlags.contains src_tcp_flags (Z.lor TcpFlags.SYN TcpFlags.RST) && TcpFlags.contains dst_tcp_flags TcpFlags.SYN_ACK.

Definition TCP_SYN_RETRANSE_MIN_TIMES : Z := 3.

(** The close type of a flow that ends in a state. *)
Definition close_type_of (f : Flow) (s : FlowState) : CloseType :=
  match s with
  | Exception => CloseUnknown
  | Opening1 => ClientSynRepeat
  | Opening2 => ServerSynAckRepeat
  | Established => if fk_proto (flow_key f) =? IpProtocol.TCP then CloseTimeout else CloseFinish
  | ClosingTx1 => ServerHalfClose
  | ClosingRx1 => ClientHalfClose
  | ClosingTx2 | ClosingRx2 | Closed => CloseFinish
  | Reset =>
      if is_heartbeat f then TcpFinClientRst
      else if TcpFlags.contains (total_tcp_flags (flow_metrics_dst f)) TcpFlags.RST then TcpServerRst else TcpClientRst
  | Syn1 | ClientL4PortReuse => if is_heartbeat f then TcpFinClientRst else ClientSourcePortReuse
  | ServerReset => CloseServerReset
  | SynAck1 => ServerQueueLack
  | ServerCandidateQueueLack =>
      if TCP_SYN_RETRANSE_MIN_TIMES <? total_packet_count (flow_metrics_dst f) then ServerQueueLack else TcpClientRst
  | EstablishReset | OpeningRst =>
      if is_heartbeat f then TcpFinClientRst
      else if TcpFlags.contains (total_tcp_flags (flow_metrics_dst f)) TcpFlags.RST then ServerEstablishReset
      else ClientEstablishReset
  | _ => CloseUnknown
  end.

Definition update_close_type (f : Flow) (s : FlowState) : Flow := f <| close_type := close_type_of f s |>.
