(* ===== verification/FlowNode.v ===== *)
(** * Finding the flow of a packet (flow_generator/flow_node.rs)

    [FlowMapKey] is the key under which the flow map files a flow, the same for
    both directions; the flows of one key are told apart by [match_node], which
    also finds the direction of the packet. *)

From stdpp Require Import gmap.
From S2P Require Import TapTypes Decapsulate.
From S2P Require Import Prelude Timestamp TcpFlags FlowState Bytes Consts TunnelType TapPort Endpoint MetaPacket Flow.

Record FlowMapKey := { lhs : Z; rhs : Z }.

#[export] Instance FlowMapKey_eq_dec : EqDecision FlowMapKey.
Proof. solve_decision. Defined.

#[export] Instance FlowMapKey_countable : Countable FlowMapKey :=
  inj_countable' (fun k => (lhs k, rhs k)) (fun p => Build_FlowMapKey p.1 p.2) (fun k => match k with Build_FlowMapKey _ _ => eq_refl end).

(** [u32::from_le_bytes] of four octets *)
Definition le32 (bs : bytes) : run Z :=
  match bs with
  | [a; b; c; d] => Ret (a + b * 2 ^ 8 + c * 2 ^ 16 + d * 2 ^ 24)
  | _ => Panic
  end.

(** [addr.octets()] of an IPv4 address *)
Definition octets_v4 (a : Z) : bytes := be32 a.

(** [octets.chunks(4)], each converted and folded with xor *)
Fixpoint xor_chunks (bs : bytes) (acc : Z) : run Z :=
  match bs with
  | a :: b :: c :: d :: bs => v ← le32 [a; b; c; d]; xor_chunks bs (Z.lxor acc v)
  | [] => Ret acc
  | _ => Panic
  end.

Definition l3_hash (k : LookupKey) : run Z :=
  '(src, dst) ← match src_ip k, dst_ip k with
                | V4 s, V4 d => src ← le32 (octets_v4 s); dst ← le32 (octets_v4 d); Ret (src, dst)
                | V6 s, V6 d => src ← xor_chunks s 0; dst ← xor_chunks d 0; Ret (src, dst)
                | _, _ => Panic
                end;
  if dst <=? src then Ret (Z.lor (wshl 64 src 32) dst) else Ret (Z.lor (wshl 64 dst 32) src).

Definition l4_hash (k : LookupKey) : Z :=
  if dst_port k <=? src_port k then Z.lor (wshl 64 (src_port k) 16) (dst_port k) else Z.lor (wshl 64 (dst_port k) 16) (src_port k).

(** [u64::from(mac)] of a [MacAddr], an array of six bytes. *)
Definition mac_u64 (mac : bytes) : Z :=
  match mac with
  | [a; b; c; d; e; f] => Z.lor (wshl 64 (a * 2 ^ 8 + b) 32) (c * 2 ^ 24 + d * 2 ^ 16 + e * 2 ^ 8 + f)
  | _ => 0
  end.

(** [(u16::from(tap_type) as u64) << 24 | tap_port.ignore_nat_source()] *)
Definition port_bits (k : LookupKey) (port : TapPort.t) : Z :=
  Z.lor (wshl 64 (CaptureNetworkType.to_u16 (tap_type k)) 24) (TapPort.ignore_nat_source port).

(** [FlowMapKey::new] *)
Definition FlowMapKey_new (k : LookupKey) (port : TapPort.t) : run FlowMapKey :=
  if (lk_eth_type k =? EthernetType.IPV4) || (lk_eth_type k =? EthernetType.IPV6) then
    h ← l3_hash k;
    Ret {| lhs := h; rhs := Z.lor (wshl 64 (port_bits k port) 32) (l4_hash k) |}
  else if lk_eth_type k =? EthernetType.ARP then
    h ← l3_hash k;
    Ret {| lhs := h; rhs := Z.lor (wshl 64 (port_bits k port) 32) (Z.lxor (mac_u64 (src_mac k)) (mac_u64 (dst_mac k))) |}
  else Ret {| lhs := port_bits k port; rhs := Z.lxor (mac_u64 (src_mac k)) (mac_u64 (dst_mac k)) |}.

(** The agent types the flow code distinguishes; the enum is generated. *)
Inductive AgentType := TtProcess | TtHostPod | TtVmPod | TtK8sSidecar | TtHyperVCompute | TtHyperVNetwork | TtOther.

#[export] Instance AgentType_eq_dec : EqDecision AgentType.
Proof. solve_decision. Defined.

Definition is_tt_hyper_v (t : AgentType) : bool := bool_decide (t = TtHyperVCompute) || bool_decide (t = TtHyperVNetwork).
Definition is_tt_pod (t : AgentType) : bool :=
  bool_decide (t = TtHostPod) || bool_decide (t = TtVmPod) || bool_decide (t = TtK8sSidecar).

Record MatchConfig := {
  ignore_l2_end : bool;
  ignore_tor_mac : bool;
  ignore_idc_vlan : bool;
  agent_type : AgentType;
}.

Inductive MatchMac := MatchNone | MatchDst | MatchSrc | MatchAll.

Section matching.
Context {E : DecapEnum}.

Definition mac_match (p : MetaPacket) (c : MatchConfig) : MatchMac :=
  let ignore_mac :=
    match tunnel p with
    | Some t => (is_tt_hyper_v (agent_type c) && (tier t <? 2)) || bool_decide (tunnel_type t = TencentGre)
                || bool_decide (tunnel_type t = Ipip)
    | None => false
    end in
  let is_from_gateway := TapPort.is_from (tap_port p) TapPort.FROM_GATEWAY_MAC in
  let is_from_isp := bool_decide (tap_type (lookup_key p) <> CaptureNetworkType.Cloud) in
  if is_from_isp || ignore_mac || ignore_tor_mac c || is_from_gateway then MatchNone
  else
    let is_from_trident := bool_decide (tap_type (lookup_key p) = CaptureNetworkType.Cloud)
                           && (0 <? (TapPort.split_fields (tap_port p)).1.1) in
    if negb (ignore_l2_end c) && is_from_trident then
      if negb (l2_end_0 (lookup_key p)) && negb (l2_end_1 (lookup_key p)) then MatchNone
      else if negb (l2_end_0 (lookup_key p)) then MatchDst
      else MatchSrc
    else MatchAll.

Definition mac_match_with_direction (p : MetaPacket) (flow_mac_src flow_mac_dst : bytes) (m : MatchMac) : bool :=
  let k := lookup_key p in
  let '(src, dst) := match direction k with
                     | ClientToServer => (flow_mac_src, flow_mac_dst)
                     | ServerToClient => (flow_mac_dst, flow_mac_src)
                     end in
  match m with
  | MatchDst => bool_decide (dst = dst_mac k)
  | MatchSrc => bool_decide (src = src_mac k)
  | MatchAll => bool_decide (dst = dst_mac k) && bool_decide (src = src_mac k)
  | MatchNone => true
  end.

Definition endpoint_match_with_direction (f : Flow) (p : MetaPacket) : bool :=
  match tunnel p with
  | None => true
  | Some _ =>
      let k := lookup_key p in
      match direction k with
      | ClientToServer =>
          Bool.eqb (l2_end_0 k) (is_l2_end (flow_metrics_src f)) && Bool.eqb (l2_end_1 k) (is_l2_end (flow_metrics_dst f))
      | ServerToClient =>
          Bool.eqb (l2_end_0 k) (is_l2_end (flow_metrics_dst f)) && Bool.eqb (l2_end_1 k) (is_l2_end (flow_metrics_src f))
      end
  end.

(** The packet with its direction set *)
Definition with_direction (p : MetaPacket) (d : PacketDirection) : MetaPacket :=
  p <| lookup_key := ((lookup_key p) <| direction := d |>) |>.

(** The four equations of a packet in the direction of the flow, and against it. *)
Definition same_ends (f : FlowKey) (k : LookupKey) : bool :=
  bool_decide (fk_ip_src f = src_ip k) && bool_decide (fk_ip_dst f = dst_ip k)
  && (fk_port_src f =? src_port k) && (fk_port_dst f =? dst_port k).
Definition swapped_ends (f : FlowKey) (k : LookupKey) : bool :=
  bool_decide (fk_ip_src f = dst_ip k) && bool_decide (fk_ip_dst f = src_ip k)
  && (fk_port_src f =? dst_port k) && (fk_port_dst f =? src_port k).
Definition same_l2 (f : FlowKey) (k : LookupKey) : bool :=
  bool_decide (fk_mac_src f = src_mac k) && bool_decide (fk_mac_dst f = dst_mac k)
  && bool_decide (fk_ip_src f = src_ip k) && bool_decide (fk_ip_dst f = dst_ip k).
Definition swapped_l2 (f : FlowKey) (k : LookupKey) : bool :=
  bool_decide (fk_mac_src f = dst_mac k) && bool_decide (fk_mac_dst f = src_mac k)
  && bool_decide (fk_ip_src f = dst_ip k) && bool_decide (fk_ip_dst f = src_ip k).

(** [match_node] on the flow of a node: the packet, whose direction it may
    set, and the answer. *)
Definition match_node (flow : Flow) (p : MetaPacket) (c : MatchConfig) : MetaPacket * bool :=
  let k := lookup_key p in
  let fk := flow_key flow in
  if decide (signal_source p = EBPF) then
    if negb (flow_id flow =? generate_ebpf_flow_id p) then (p, false)
    else if bool_decide (fk_ip_src fk = src_ip k) && (fk_port_src fk =? src_port k)
    then (with_direction p ClientToServer, true)
    else (with_direction p ServerToClient, true)
  else if negb (TapPort.get_tap_mac (fk_tap_port fk) =? TapPort.get_tap_mac (tap_port p))
          || bool_decide (fk_tap_type fk <> tap_type k) then (p, false)
  else if negb (fl_eth_type flow =? lk_eth_type k) then (p, false)
  else if negb (fl_vlan flow =? vlan p) && bool_decide (tap_type k <> CaptureNetworkType.Cloud) && negb (ignore_idc_vlan c)
  then (p, false)
  else if negb (fl_eth_type flow =? EthernetType.IPV4) && negb (lk_eth_type k =? EthernetType.IPV6) then
    if same_l2 fk k then (with_direction p ClientToServer, true)
    else if swapped_l2 fk k then (with_direction p ServerToClient, true)
    else (p, false)
  else if negb (fk_proto fk =? proto k) then (p, false)
  else if (match tunnel p with
           | Some t => bool_decide (tf_tunnel_type (fl_tunnel flow) <> tunnel_type t)
           | None => bool_decide (tf_tunnel_type (fl_tunnel flow) <> TNone)
           end) && negb (is_tt_hyper_v (agent_type c)) && negb (is_tt_pod (agent_type c))
  then (p, false)
  else
    let m := mac_match p c in
    let finish p :=
      (p, endpoint_match_with_direction flow p && mac_match_with_direction p (fk_mac_src fk) (fk_mac_dst fk) m) in
    if same_ends fk k then finish (with_direction p ClientToServer)
    else if swapped_ends fk k then finish (with_direction p ServerToClient)
    else (p, false).

End matching.

(** ** Flow nodes *)

Record FlowNode := {
  nd_flow : Flow;
  min_arrived_time : Timestamp.t;
  recent_time : Timestamp.t;
  nd_timeout : Timestamp.t;
  timestamp_key : Z;
  endpoint_data_cache : option EndpointDataPov;
  residual_request : Z;
  next_tcp_seq0 : Z;
  next_tcp_seq1 : Z;
  policy_in_tick_0 : bool;
  policy_in_tick_1 : bool;
  packet_in_tick : bool;
  nd_flow_state : FlowState;
}.

#[export] Instance FlowNode_fields : Fields FlowNode := fun x =>
  Build_FlowNode (nd_flow x) (min_arrived_time x) (recent_time x) (nd_timeout x) (timestamp_key x) (endpoint_data_cache x) (residual_request x)
    (next_tcp_seq0 x) (next_tcp_seq1 x) (policy_in_tick_0 x) (policy_in_tick_1 x) (packet_in_tick x) (nd_flow_state x).

(** The statistics of a peer start over. *)
Definition reset_peer (x : FlowMetricsPeer) : FlowMetricsPeer :=
  x <| packet_count := 0 |> <| byte_count := 0 |> <| l3_byte_count := 0 |> <| l4_byte_count := 0 |> <| tcp_flags := 0 |>.

Definition reset_flow_stat_info (n : FlowNode) : FlowNode :=
  let flow := nd_flow n in
  n <| policy_in_tick_0 := false |> <| policy_in_tick_1 := false |> <| packet_in_tick := false |>
    <| nd_flow := (flow <| flow_stat_time := 0 |> <| is_new_flow := false |>
                    <| flow_metrics_src := reset_peer (flow_metrics_src flow) |>
                    <| flow_metrics_dst := reset_peer (flow_metrics_dst flow) |>) |>.

(** ** The key is the same in both directions *)

(** The packet of the other direction. *)
Definition reverse_lookup (k : LookupKey) : LookupKey :=
  k <| src_mac := dst_mac k |> <| dst_mac := src_mac k |> <| src_ip := dst_ip k |> <| dst_ip := src_ip k |>
    <| src_port := dst_port k |> <| dst_port := src_port k |> <| l2_end_0 := l2_end_1 k |> <| l2_end_1 := l2_end_0 k |>.

Definition reverse_packet (p : MetaPacket) : MetaPacket := p <| lookup_key := reverse_lookup (lookup_key p) |>.

Lemma l4_hash_reverse k : l4_hash (reverse_lookup k) = l4_hash k.
Proof.
  unfold l4_hash. cbn. destruct (Z.leb_spec (src_port k) (dst_port k)), (Z.leb_spec (dst_port k) (src_port k)); try done; [|lia].
  by replace (dst_port k) with (src_port k) by lia.
Qed.

Lemma l3_hash_reverse k : l3_hash (reverse_lookup k) = l3_hash k.
Proof.
  unfold l3_hash. cbn [src_ip dst_ip reverse_lookup].
  assert (forall a b : Z, (if b <=? a then Ret (Z.lor (wshl 64 a 32) b) else Ret (Z.lor (wshl 64 b 32) a))
    = (if a <=? b then Ret (Z.lor (wshl 64 b 32) a) else Ret (Z.lor (wshl 64 a 32) b))) as Hcomm.
  { intros a b. destruct (Z.leb_spec a b), (Z.leb_spec b a); try done; [|lia]. by replace b with a by lia. }
  change (src_ip (reverse_lookup k)) with (dst_ip k). change (dst_ip (reverse_lookup k)) with (src_ip k).
  destruct (src_ip k) as [s|s], (dst_ip k) as [d|d]; [|done..|].
  - destruct (le32 (octets_v4 s)), (le32 (octets_v4 d)); [|done..]. apply Hcomm.
  - destruct (xor_chunks s 0), (xor_chunks d 0); [|done..]. apply Hcomm.
Qed.

Lemma FlowMapKey_reverse k port : FlowMapKey_new (reverse_lookup k) port = FlowMapKey_new k port.
Proof.
  unfold FlowMapKey_new. rewrite l3_hash_reverse, l4_hash_reverse.
  change (port_bits (reverse_lookup k) port) with (port_bits k port). change (lk_eth_type (reverse_lookup k)) with (lk_eth_type k).
  change (src_mac (reverse_lookup k)) with (dst_mac k). change (dst_mac (reverse_lookup k)) with (src_mac k).
  by rewrite (Z.lxor_comm (mac_u64 (dst_mac k))).
Qed.

(** ** What the key keeps of the capture port *)

Lemma wshl_64_32 x : wshl 64 x 32 = Z.land x (Z.ones 32) * 2 ^ 32.
Proof.
  unfold wshl, wrap. rewrite Z.shiftl_mul_pow2, Z.land_ones by lia. change (2 ^ 64) with (2 ^ 32 * 2 ^ 32).
  by rewrite Zmult_mod_distr_r.
Qed.

Lemma port_bits_low k port : Z.land (port_bits k port) (Z.ones 32)
  = Z.lor (Z.land (wshl 64 (CaptureNetworkType.to_u16 (tap_type k)) 24) (Z.ones 32)) (Z.land (TapPort.get_tap_mac port) (Z.ones 32)).
Proof.
  unfold port_bits, TapPort.ignore_nat_source, TapPort.get_tap_mac. rewrite Z.land_lor_distr_l. f_equal.
  rewrite Z.ldiff_land, <- !Z.land_assoc. f_equal.
Qed.

(** The capture ports that [match_node] takes as equal give equal keys. *)
Lemma port_bits_shifted k k' port port' : tap_type k = tap_type k' -> TapPort.get_tap_mac port = TapPort.get_tap_mac port' ->
  wshl 64 (port_bits k port) 32 = wshl 64 (port_bits k' port') 32.
Proof. intros Ht Hp. by rewrite !wshl_64_32, !port_bits_low, Ht, Hp. Qed.

(** The lookup key of a flow, as of a packet in its direction *)
Definition flow_lookup (f : Flow) : LookupKey :=
  LookupKey_default <| src_mac := fk_mac_src (flow_key f) |> <| dst_mac := fk_mac_dst (flow_key f) |>
    <| src_ip := fk_ip_src (flow_key f) |> <| dst_ip := fk_ip_dst (flow_key f) |> <| src_port := fk_port_src (flow_key f) |>
    <| dst_port := fk_port_dst (flow_key f) |> <| lk_eth_type := fl_eth_type f |> <| tap_type := fk_tap_type (flow_key f) |>.

Definition flow_map_key (f : Flow) : run FlowMapKey := FlowMapKey_new (flow_lookup f) (fk_tap_port (flow_key f)).

Definition is_ip (e : Z) : bool := (e =? EthernetType.IPV4) || (e =? EthernetType.IPV6).

(** What the key depends on. *)
Lemma FlowMapKey_ext k k' port port' : lk_eth_type k = lk_eth_type k' -> tap_type k = tap_type k' ->
  TapPort.get_tap_mac port = TapPort.get_tap_mac port' -> src_ip k = src_ip k' -> dst_ip k = dst_ip k' ->
  (if is_ip (lk_eth_type k) then src_port k = src_port k' /\ dst_port k = dst_port k'
   else src_mac k = src_mac k' /\ dst_mac k = dst_mac k') ->
  (is_ip (lk_eth_type k) || (lk_eth_type k =? EthernetType.ARP) = false ->
     TapPort.ignore_nat_source port = TapPort.ignore_nat_source port') ->
  FlowMapKey_new k port = FlowMapKey_new k' port'.
Proof.
  intros He Ht Hp Hs Hd Hl Ho. unfold FlowMapKey_new. fold (is_ip (lk_eth_type k)) (is_ip (lk_eth_type k')). rewrite <- He.
  replace (l3_hash k') with (l3_hash k) by (unfold l3_hash; by rewrite Hs, Hd).
  rewrite <- (port_bits_shifted k k' port port' Ht Hp). destruct (is_ip (lk_eth_type k)).
  - destruct Hl as [H1 H2]. unfold l4_hash. by rewrite H1, H2.
  - destruct Hl as [H1 H2]. rewrite H1, H2. destruct (lk_eth_type k =? EthernetType.ARP); [done|].
    unfold port_bits. by rewrite Ht, Ho.
Qed.

Section key_of_match.
Context {E : DecapEnum}.

(** The packets a flow matches are those of its two directions. *)
Lemma match_node_ends flow p c p' : match_node flow p c = (p', true) -> signal_source p <> EBPF ->
  fl_eth_type flow = lk_eth_type (lookup_key p) /\ fk_tap_type (flow_key flow) = tap_type (lookup_key p)
  /\ TapPort.get_tap_mac (fk_tap_port (flow_key flow)) = TapPort.get_tap_mac (tap_port p)
  /\ exists d, p' = with_direction p d
  /\ let k := match d with ClientToServer => lookup_key p | ServerToClient => reverse_lookup (lookup_key p) end in
     if is_ip (lk_eth_type (lookup_key p)) then same_ends (flow_key flow) k = true /\ fk_proto (flow_key flow) = proto (lookup_key p)
     else same_l2 (flow_key flow) k = true.
Proof.
  unfold match_node. intros H Hs. rewrite decide_False in H by done.
  destruct (negb (_ =? _) || _) eqn:E1 in H; [done|]. apply orb_false_iff in E1 as [Hp%negb_false_iff%Z.eqb_eq Ht%bool_decide_eq_false].
  destruct (negb (_ =? _)) eqn:E2 in H; [done|]. apply negb_false_iff, Z.eqb_eq in E2. apply dec_stable in Ht.
  split; [done|]. split; [done|]. split; [done|]. destruct (_ && _) eqn:E3 in H; [done|]. clear E3.
  rewrite E2 in H. unfold is_ip. rewrite <- negb_orb in H. destruct (_ || _) eqn:E4 in H; rewrite E4; cbn [negb] in H.
  - destruct (negb (_ =? _)) eqn:E5 in H; [done|]. apply negb_false_iff, Z.eqb_eq in E5.
    destruct (_ && _ && _) eqn:E6 in H; [done|]. clear E6.
    destruct (same_ends _ _) eqn:E7; [injection H as <- _; exists ClientToServer; done|].
    destruct (swapped_ends _ _) eqn:E8; [|done]. injection H as <- _. exists ServerToClient. done.
  - destruct (same_l2 _ _) eqn:E7; [injection H as <-; exists ClientToServer; done|].
    destruct (swapped_l2 _ _) eqn:E8; [|done]. injection H as <-. exists ServerToClient. done.
Qed.

(** Matching changes at most the direction of the packet. *)
Lemma match_node_packet flow p c : (match_node flow p c).1 = p \/ exists d, (match_node flow p c).1 = with_direction p d.
Proof. unfold match_node. repeat (case_match; cbn [fst]; eauto). Qed.

(** A packet is looked up under the key its flow is filed under: whenever a
    flow matches a packet, in either direction and whatever the NAT source, both
    have the same [FlowMapKey].  For frames that are neither IP nor ARP this
    needs the capture ports to agree up to the NAT source. *)
Theorem matched_packet_has_flow_key flow p c p' :
  match_node flow p c = (p', true) -> signal_source p <> EBPF ->
  (is_ip (lk_eth_type (lookup_key p)) || (lk_eth_type (lookup_key p) =? EthernetType.ARP) = false ->
     TapPort.ignore_nat_source (tap_port p) = TapPort.ignore_nat_source (fk_tap_port (flow_key flow))) ->
  FlowMapKey_new (lookup_key p) (tap_port p) = flow_map_key flow.
Proof.
  intros H Hs Ho. destruct (match_node_ends _ _ _ _ H Hs) as (He & Ht & Hp & d & _ & Hk). unfold flow_map_key.
  transitivity (FlowMapKey_new (match d with ClientToServer => lookup_key p | ServerToClient => reverse_lookup (lookup_key p) end) (tap_port p)).
  { destruct d; [done|]. by rewrite FlowMapKey_reverse. }
  assert (forall k, lk_eth_type k = lk_eth_type (lookup_key p) -> tap_type k = tap_type (lookup_key p) ->
    (if is_ip (lk_eth_type (lookup_key p)) then same_ends (flow_key flow) k = true else same_l2 (flow_key flow) k = true) ->
    FlowMapKey_new k (tap_port p) = FlowMapKey_new (flow_lookup flow) (fk_tap_port (flow_key flow))) as Hgen.
  { intros k Hke Hkt Hke2. apply FlowMapKey_ext; rewrite ?Hke, ?Hkt; try done; destruct (is_ip _); unfold same_ends, same_l2 in Hke2;
      repeat (apply andb_true_iff in Hke2 as [Hke2 ?]); rewrite ?bool_decide_eq_true, ?Z.eqb_eq in *; cbn; try split; congruence. }
  apply Hgen; [by destruct d|by destruct d|]. destruct (is_ip _); [|done]. apply Hk.
Qed.

(** A flow as the first packet of it opened it. *)
Record opened_by (f : Flow) (p : MetaPacket) : Prop := {
  ob_key : flow_key f = Build_FlowKey (tap_type (lookup_key p)) (fk_tap_port (flow_key f)) (src_mac (lookup_key p)) (dst_mac (lookup_key p))
    (src_ip (lookup_key p)) (dst_ip (lookup_key p)) (src_port (lookup_key p)) (dst_port (lookup_key p)) (proto (lookup_key p));
  ob_port : TapPort.get_tap_mac (fk_tap_port (flow_key f)) = TapPort.get_tap_mac (tap_port p);
  ob_eth : fl_eth_type f = lk_eth_type (lookup_key p);
  ob_vlan : fl_vlan f = vlan p;
  ob_tunnel : match tunnel p with
              | Some t => tf_tunnel_type (fl_tunnel f) = tunnel_type t
                          /\ is_l2_end (flow_metrics_src f) = l2_end_0 (lookup_key p) /\ is_l2_end (flow_metrics_dst f) = l2_end_1 (lookup_key p)
              | None => tf_tunnel_type (fl_tunnel f) = TNone
              end;
}.

(** The two ends of a packet can be told apart. *)
Definition distinct_ends (k : LookupKey) : Prop :=
  if is_ip (lk_eth_type k) then ~ (src_ip k = dst_ip k /\ src_port k = dst_port k)
  else ~ (src_mac k = dst_mac k /\ src_ip k = dst_ip k).

Lemma opened_ends f p : opened_by f p ->
  same_ends (flow_key f) (lookup_key p) = true /\ same_l2 (flow_key f) (lookup_key p) = true
  /\ swapped_ends (flow_key f) (reverse_lookup (lookup_key p)) = true /\ swapped_l2 (flow_key f) (reverse_lookup (lookup_key p)) = true
  /\ (distinct_ends (lookup_key p) ->
        (if is_ip (lk_eth_type (lookup_key p)) then same_ends else same_l2) (flow_key f) (reverse_lookup (lookup_key p)) = false).
Proof.
  intros [Hk _ _ _ _]. unfold same_ends, same_l2, swapped_ends, swapped_l2, distinct_ends. rewrite Hk. cbn.
  rewrite !bool_decide_eq_true_2, !Z.eqb_refl by done. split_and!; [done..|]. intros Hd. apply not_true_is_false. intros H.
  destruct (is_ip _); apply Hd; cbn in H; repeat (apply andb_true_iff in H as [H ?]); rewrite ?bool_decide_eq_true, ?Z.eqb_eq in *; done.
Qed.

Lemma opened_finish f p d c : opened_by f p ->
  let p1 := match d with ClientToServer => p | ServerToClient => reverse_packet p end in
  endpoint_match_with_direction f (with_direction p1 d)
  && mac_match_with_direction (with_direction p1 d) (fk_mac_src (flow_key f)) (fk_mac_dst (flow_key f)) (mac_match p1 c) = true.
Proof.
  intros [Hk _ _ _ Ht] p1. apply andb_true_iff. split.
  - unfold endpoint_match_with_direction. destruct d; subst p1; cbn; destruct (tunnel p) as [t|]; try done; destruct Ht as (_ & -> & ->);
      by rewrite !Bool.eqb_reflx.
  - unfold mac_match_with_direction. rewrite Hk. destruct (mac_match p1 c), d; cbn; by rewrite ?bool_decide_eq_true_2.
Qed.

Lemma match_opened f p p1 c d : opened_by f p -> signal_source p <> EBPF -> distinct_ends (lookup_key p) ->
  p1 = match d with ClientToServer => p | ServerToClient => reverse_packet p end ->
  match_node f p1 c = (with_direction p1 d, true).
Proof.
  intros Ho Hs Hd Hp1. destruct (opened_ends f p Ho) as (Hse & Hsl & Hsr & Hslr & Hrev). pose proof Ho as [Hk Hport He Hv Ht].
  unfold match_node, distinct_ends in *.
  assert (signal_source p1 = signal_source p /\ tap_port p1 = tap_port p /\ vlan p1 = vlan p /\ tunnel p1 = tunnel p
    /\ lk_eth_type (lookup_key p1) = lk_eth_type (lookup_key p) /\ tap_type (lookup_key p1) = tap_type (lookup_key p)
    /\ proto (lookup_key p1) = proto (lookup_key p)) as (E1 & E2 & E3 & E4 & E5 & E6 & E7) by (subst p1; by destruct d).
  rewrite E1, E2, E3, E4, E5, E6, E7. destruct (decide (signal_source p = EBPF)); [done|].
  rewrite Hport, He, Hv, !Z.eqb_refl. cbn [negb orb andb]. rewrite (bool_decide_eq_false_2 (fk_tap_type _ <> _)) by (rewrite Hk; by intros []).
  assert (match tunnel p with
          | Some t => bool_decide (tf_tunnel_type (fl_tunnel f) <> tunnel_type t)
          | None => bool_decide (tf_tunnel_type (fl_tunnel f) <> TNone)
          end = false) as Htt by (destruct (tunnel p) as [t|]; apply bool_decide_eq_false_2; destruct Ht; congruence).
  rewrite Htt. cbn [andb].
  assert (proto (lookup_key p) = fk_proto (flow_key f)) as Hpr by (by rewrite Hk). rewrite <- Hpr, Z.eqb_refl. cbn [negb].
  rewrite <- negb_orb. fold (is_ip (lk_eth_type (lookup_key p))).
  destruct (is_ip (lk_eth_type (lookup_key p))) eqn:Hip; cbn [negb].
  - destruct d; subst p1.
    + rewrite Hse. f_equal. by apply (opened_finish f p ClientToServer).
    + change (lookup_key (reverse_packet p)) with (reverse_lookup (lookup_key p)). rewrite (Hrev Hd), Hsr. f_equal.
      by apply (opened_finish f p ServerToClient).
  - destruct d; subst p1; [by rewrite Hsl|]. change (lookup_key (reverse_packet p)) with (reverse_lookup (lookup_key p)).
    by rewrite (Hrev Hd), Hslr.
Qed.


End key_of_match.

(** ** Examples *)

(** A TCP packet from 10.0.0.1:40000 to 10.0.0.2:80 on a capture port. *)
Definition ex_packet (port : TapPort.t) : MetaPacket :=
  MetaPacket_empty <| lookup_key := (LookupKey_default <| src_mac := [2; 0; 0; 0; 0; 1] |> <| dst_mac := [2; 0; 0; 0; 0; 2] |>
      <| src_ip := V4 0x0a000001 |> <| dst_ip := V4 0x0a000002 |> <| src_port := 40000 |> <| dst_port := 80 |>
      <| lk_eth_type := EthernetType.IPV4 |> <| proto := IpProtocol.TCP |> <| tap_type := CaptureNetworkType.Cloud |>
      <| l2_end_0 := true |>) |>
    <| tap_port := port |>.

Definition Flow_default : Flow :=
  Build_Flow (Build_FlowKey CaptureNetworkType.Any 0 [] [] (V4 0) (V4 0) 0 0 0) FlowMetricsPeer_default FlowMetricsPeer_default
    TunnelField_default 0 0 0 0 0 0 0 0 0 0 0 CloseUnknown Packet false 0 false false 0.

Definition flow_opened (p : MetaPacket) : Flow :=
  let k := lookup_key p in
  Flow_default <| flow_key := Build_FlowKey (tap_type k) (tap_port p) (src_mac k) (dst_mac k) (src_ip k) (dst_ip k) (src_port k) (dst_port k) (proto k) |>
    <| fl_eth_type := lk_eth_type k |> <| fl_vlan := vlan p |>.

Lemma flow_opened_by p : tunnel p = None -> opened_by (flow_opened p) p.
Proof. intros Ht. split; [done..|]. by rewrite Ht. Qed.

Definition ex_config : MatchConfig := Build_MatchConfig false false false TtOther.

Lemma matched_packet_has_flow_key_witness :
  exists p', @match_node sample_enum (flow_opened (ex_packet 7)) (reverse_packet (ex_packet (TapPort.set_nat_source 7 6))) ex_config = (p', true)
    /\ FlowMapKey_new (lookup_key (reverse_packet (ex_packet (TapPort.set_nat_source 7 6)))) (TapPort.set_nat_source 7 6)
       = flow_map_key (flow_opened (ex_packet 7)).
Proof.
  eexists. split; [vm_compute; reflexivity|].
  eapply (@matched_packet_has_flow_key sample_enum (flow_opened (ex_packet 7)) (reverse_packet (ex_packet (TapPort.set_nat_source 7 6))) ex_config);
    [vm_compute; reflexivity|done|done].
Defined.


(** For other frames the key keeps the tunnel type, which [match_node]
    ignores: the flow of an untunnelled frame matches the same frame from a
    tunnel but is not found under its key. *)
Lemma tunnelled_frame_misses_flow :
  exists p flow,
    opened_by flow (p <| tap_port := @TapPort.from_local_mac sample_enum 0 TNone 7 |>)
    /\ (@match_node sample_enum flow (p <| tap_port := @TapPort.from_local_mac sample_enum 0 Vxlan 7 |>) ex_config).2 = true
    /\ FlowMapKey_new (lookup_key p) (@TapPort.from_local_mac sample_enum 0 Vxlan 7) <> flow_map_key flow.
Proof.
  exists ((ex_packet 7) <| lookup_key := ((lookup_key (ex_packet 7)) <| lk_eth_type := EthernetType.LINK_LAYER_DISCOVERY |>) |>).
  eexists. split; [apply flow_opened_by; done|]. split; [vm_compute; reflexivity|]. vm_compute. done.
Qed.
