(* ===== verification/FlowMap.v ===== *)
(** * The flow map and its time wheel (flow_generator/flow_map.rs)

    [FlowMap] files its flows under [FlowMapKey]s and keeps, for each second of
    a sliding window, the set of keys that have a flow to look at in that second:
    [inject_meta_packet] finds or creates the flow of a packet,
    [inject_flush_ticker] moves the window forward, removes the flows that timed
    out and reports the others.  What is done to one flow is the interface
    [FlowOps]. *)

From stdpp Require Import gmap.
From S2P Require Import Prelude Timestamp TcpFlags Bytes Consts TunnelType TapPort MetaPacket Flow FlowNode.

Definition Duration := Z.
Definition NANOS : Z := 1000000000.
Definition TIME_UNIT : Duration := NANOS.

(** [Duration - Duration] panics below zero. *)
Definition dsub (a b : Duration) : run Duration := if a <? b then Panic else Ret (a - b).

(** ** The interface to one flow *)

(** The operations on a node and the rest of the flow map's state, [S]:
    [fo_init] creates a node ([new_tcp_node], [new_udp_node], [new_other_node]),
    [fo_update] stores the flow's id in the packet and updates the flow with it
    ([update_tcp_node], [update_udp_node], [update_other_node]), [fo_report] and [fo_remove] are
    [node_updated_aftercare] and [node_removed_aftercare], [fo_close_event]
    [send_socket_close_event], [fo_lookup] [lookup_without_flow] and [fo_flush]
    [flush_queue] and [flush_app_protolog]. *)
Class FlowOps (S : Type) := {
  fo_init : S -> MetaPacket -> run (S * MetaPacket * option FlowNode);
  fo_update : S -> FlowNode -> MetaPacket -> run (S * FlowNode * MetaPacket * bool);
  fo_report : S -> FlowNode -> Duration -> option MetaPacket -> run (S * FlowNode * option MetaPacket);
  fo_remove : S -> FlowNode -> Duration -> option MetaPacket -> run S;
  fo_close_event : S -> FlowNode -> S;
  fo_lookup : S -> MetaPacket -> S * MetaPacket;
  fo_flush : S -> Duration -> S;
}.

(** The keys of a [HashSet] in the order [drain] yields them. *)
Class DrainOrder := drain : gset FlowMapKey -> list FlowMapKey.

Class DrainOrderOk (D : DrainOrder) : Prop := drain_elements : forall X, drain X ≡ₚ elements X.

Record FlowMap (S : Type) := {
  node_map : gmap FlowMapKey (list FlowNode);
  time_set : list (gset FlowMapKey);
  fm_start_time : Duration;
  start_time_in_unit : Z;
  time_window_size : Z;
  capacity : Z;
  size : Z;
  rest : S;
}.
Arguments node_map {S} _.
Arguments time_set {S} _.
Arguments fm_start_time {S} _.
Arguments start_time_in_unit {S} _.
Arguments time_window_size {S} _.
Arguments capacity {S} _.
Arguments size {S} _.
Arguments rest {S} _.
Arguments Build_FlowMap {S} _ _ _ _ _ _ _ _.

#[export] Instance FlowMap_fields {S} : Fields (FlowMap S) := fun x =>
  Build_FlowMap (node_map x) (time_set x) (fm_start_time x) (start_time_in_unit x) (time_window_size x) (capacity x) (size x) (rest x).

(** [usize::next_power_of_two] *)
Definition next_power_of_two (n : Z) : Z := if n <=? 1 then 1 else 2 ^ Z.log2_up n.

(** [FlowMap::new] at a system time *)
Definition FlowMap_new {S} (system_time packet_delay : Duration) (max_timeout : Timestamp.t) (flow_capacity : Z) (s : S) : run (FlowMap S) :=
  let time_window_size := next_power_of_two (packet_delay / NANOS + Timestamp.as_secs max_timeout + 1) in
  t ← dsub system_time packet_delay;
  start_time ← dsub t NANOS;
  Ret (Build_FlowMap ∅ (replicate (Z.to_nat time_window_size) ∅) start_time (start_time / NANOS) time_window_size flow_capacity 0 s).

(** ** Partitioning the nodes of a key *)

Definition timeout_of (n : FlowNode) : Timestamp.t := Timestamp.add (recent_time n) (nd_timeout n).

(** The test of [sort_nodes_by_timeout], [Duration < Timestamp] compares nanoseconds. *)
Definition expired (timestamp : Duration) (time_in_unit : Z) (n : FlowNode) : bool :=
  negb ((time_in_unit <? timestamp_key n) || (wrap 64 timestamp <? timeout_of n)).

(** The inner [while]: the last node that is not expired *)
Fixpoint skip_expired (fuel : nat) (nodes : list FlowNode) (timestamp : Duration) (time_in_unit left right : Z) : run Z :=
  match fuel with
  | O => Panic
  | S fuel =>
      if left <=? right then
        node ← unwrap (nodes !! Z.to_nat right);
        if expired timestamp time_in_unit node then skip_expired fuel nodes timestamp time_in_unit left (right - 1) else Ret right
      else Ret right
  end.

(** [nodes.swap(i, j)] *)
Definition swap_nodes (nodes : list FlowNode) (i j : Z) : run (list FlowNode) :=
  a ← unwrap (nodes !! Z.to_nat i);
  b ← unwrap (nodes !! Z.to_nat j);
  Ret (<[Z.to_nat i := b]> (<[Z.to_nat j := a]> nodes)).

(** The outer [while] *)
Fixpoint sort_loop (fuel : nat) (nodes : list FlowNode) (timestamp : Duration) (time_in_unit left right : Z) : run (list FlowNode * Z) :=
  match fuel with
  | O => Panic
  | S fuel =>
      if left <=? right then
        node ← unwrap (nodes !! Z.to_nat left);
        if negb (expired timestamp time_in_unit node) then sort_loop fuel nodes timestamp time_in_unit (left + 1) right
        else
          right ← skip_expired (S (length nodes)) nodes timestamp time_in_unit left right;
          if left <? right then
            nodes ← swap_nodes nodes left right;
            sort_loop fuel nodes timestamp time_in_unit (left + 1) (right - 1)
          else sort_loop fuel nodes timestamp time_in_unit left right
      else Ret (nodes, left)
  end.

(** Every round moves [left] or [right]: [length nodes + 2] rounds are enough. *)
Definition sort_nodes_by_timeout (nodes : list FlowNode) (timestamp : Duration) (time_in_unit : Z) : run (list FlowNode * Z) :=
  sort_loop (length nodes + 2) nodes timestamp time_in_unit 0 (Z.of_nat (length nodes) - 1).

(** ** Moving the window *)

Section flow_map.
Context {S : Type} {F : FlowOps S} {D : DrainOrder}.

(** What a flush works on: the rest of the state, the number of nodes, the
    nodes, the keys to file again, and the nodes that were removed so far. *)
Record flushing := {
  fl_rest : S;
  fl_size : Z;
  fl_map : gmap FlowMapKey (list FlowNode);
  fl_moved : list (Z * FlowMapKey);
  fl_removed : list FlowNode;
}.

(** A node that timed out: the close event of an eBPF flow, the last report. *)
Definition remove_expired (s : S) (n : FlowNode) : run S :=
  let s := if decide (fl_signal_source (nd_flow n) = EBPF) then fo_close_event s n else s in
  fo_remove s n (timeout_of n) None.

(** A node that stays: report it and file it under the second of its timeout. *)
Definition refile_node (timestamp : Duration) (time_in_unit : Z) (key : FlowMapKey) (st : S * list FlowNode * list (Z * FlowMapKey))
    (n : FlowNode) : run (S * list FlowNode * list (Z * FlowMapKey)) :=
  let '(s, done, moved) := st in
  if time_in_unit <? timestamp_key n then Ret (s, done ++ [n], moved)
  else
    '(s, n, _) ← fo_report s n timestamp None;
    let timeout := Timestamp.as_secs (timeout_of n) in
    if negb (timestamp_key n =? timeout)
    then Ret (s, done ++ [n <| timestamp_key := timeout |>], moved ++ [(timeout, key)])
    else Ret (s, done ++ [n], moved).

(** One key of the slot *)
Definition flush_key (timestamp : Duration) (time_in_unit : Z) (st : flushing) (key : FlowMapKey) : run flushing :=
  match fl_map st !! key with
  | None => Ret st
  | Some nodes =>
      '(nodes, index) ← sort_nodes_by_timeout nodes timestamp time_in_unit;
      let index := Z.to_nat index in
      let gone := drop index nodes in
      s ← rfold remove_expired gone (fl_rest st);
      let size := fl_size st - Z.of_nat (length gone) in
      match take index nodes with
      | [] => Ret (Build_flushing s size (delete key (fl_map st)) (fl_moved st) (fl_removed st ++ gone))
      | nodes =>
          '(s, nodes, moved) ← rfold (refile_node timestamp time_in_unit key) nodes (s, [], fl_moved st);
          Ret (Build_flushing s size (<[key := nodes]> (fl_map st)) moved (fl_removed st ++ gone))
      end
  end.

(** [time_set[key.0 as usize & (self.time_window_size - 1)].insert(key.1)] *)
Definition slot (window t : Z) : nat := Z.to_nat (Z.land t (window - 1)).

Definition file_key (window : Z) (ts : list (gset FlowMapKey)) (k : Z * FlowMapKey) : run (list (gset FlowMapKey)) :=
  keys ← unwrap (ts !! slot window k.1);
  Ret (<[slot window k.1 := {[k.2]} ∪ keys]> ts).

(** One second of the window; also returns the removed nodes. *)
Definition flush_unit (timestamp : Duration) (st : FlowMap S * list FlowNode) (time_in_unit : Z) : run (FlowMap S * list FlowNode) :=
  let '(m, removed) := st in
  let i := slot (time_window_size m) time_in_unit in
  keys ← unwrap (time_set m !! i);
  f ← rfold (flush_key timestamp time_in_unit) (drain keys) (Build_flushing (rest m) (size m) (node_map m) [] removed);
  ts ← rfold (file_key (time_window_size m)) (fl_moved f) (<[i := ∅]> (time_set m));
  Ret (m <| node_map := fl_map f |> <| time_set := ts |> <| size := fl_size f |> <| rest := fl_rest f |>, fl_removed f).

(** A zero time stands for the system time. *)
Definition ticker_time (timestamp now : Duration) : Duration := if timestamp =? 0 then now else timestamp.

(** [inject_flush_ticker]; the system time [now] is what [get_timestamp]
    returns.  Also returns the nodes it removed. *)
Definition inject_flush_ticker (packet_delay : Duration) (m : FlowMap S) (timestamp now : Duration)
    : run (FlowMap S * bool * list FlowNode) :=
  let is_tick := timestamp =? 0 in
  let timestamp := ticker_time timestamp now in
  if negb is_tick && (timestamp <? fm_start_time m) then Ret (m, false, [])
  else
    t ← dsub timestamp packet_delay;
    t1 ← dsub t TIME_UNIT;
    if t1 <? fm_start_time m then Ret (m, true, [])
    else
      let next := t / TIME_UNIT in
      let start_time := wrap 64 (next * TIME_UNIT) in
      timestamp ← dsub start_time 1;
      let units := seqZ (start_time_in_unit m) (Z.min next (start_time_in_unit m + time_window_size m) - start_time_in_unit m) in
      '(m, removed) ← rfold (flush_unit timestamp) units (m, []);
      Ret (m <| fm_start_time := start_time |> <| start_time_in_unit := next |> <| rest := fo_flush (rest m) timestamp |>, true, removed).

(** ** Packets *)

(** [new_flow_node] *)
Definition new_flow_node (m : FlowMap S) (p : MetaPacket) : run (FlowMap S * MetaPacket * option FlowNode) :=
  if capacity m <=? size m then
    let '(s, p) := fo_lookup (rest m) p in
    Ret (m <| rest := s |>, p, None)
  else
    '(s, p, node) ← fo_init (rest m) p;
    match node with
    | Some n => Ret (m <| rest := s |> <| size := size m + 1 |>, p, Some n)
    | None => Ret (m <| rest := s |>, p, None)
    end.

(** [nodes.iter().position(..)]: the closure may set the direction of the packet. *)
Fixpoint find_node (matches : FlowNode -> MetaPacket -> MetaPacket * bool) (nodes : list FlowNode) (p : MetaPacket) (i : nat)
    : MetaPacket * option nat :=
  match nodes with
  | [] => (p, None)
  | n :: nodes =>
      let '(p, b) := matches n p in
      if b then (p, Some i) else find_node matches nodes p (Datatypes.S i)
  end.

(** [Vec::swap_remove] *)
Definition swap_remove {A} (l : list A) (i : nat) : list A :=
  match l !! (length l - 1)%nat with
  | Some x => take (length l - 1) (<[i := x]> l)
  | None => l
  end.

(** A new node and the second it is filed under *)
Definition add_node (m : FlowMap S) (key : FlowMapKey) (nodes : list FlowNode) (p : MetaPacket) : run (FlowMap S * MetaPacket) :=
  if decide (ebpf_type p = SocketCloseEvent) then Ret (m, p)
  else
    '(m, p, node) ← new_flow_node m p;
    match node with
    | None => Ret (m, p)
    | Some n =>
        ts ← file_key (time_window_size m) (time_set m) (timestamp_key n, key);
        Ret (m <| time_set := ts |> <| node_map := <[key := nodes ++ [n]]> (node_map m) |>, p)
    end.

(** The node of the packet is there. *)
Definition update_node (m : FlowMap S) (key : FlowMapKey) (nodes : list FlowNode) (i : nat) (p : MetaPacket) : run (FlowMap S * MetaPacket) :=
  node ← unwrap (nodes !! i);
  let pkt_timestamp := timestamp p in
  '(s, node, p') ← fo_report (rest m) node pkt_timestamp (Some p);
  let p := default p p' in
  '(s, node, p, flow_closed) ← fo_update s node p;
  if (flow_closed : bool) then
    s ← fo_remove (fo_close_event s node) node (timestamp p) (Some p);
    let nodes := swap_remove (<[i := node]> nodes) i in
    Ret (m <| rest := s |> <| size := size m - 1 |>
           <| node_map := match nodes with [] => delete key (node_map m) | _ => <[key := nodes]> (node_map m) end |>, p)
  else if negb (timestamp_key node =? Timestamp.as_secs pkt_timestamp) then
    let node := node <| timestamp_key := Timestamp.as_secs pkt_timestamp |> in
    ts ← file_key (time_window_size m) (time_set m) (timestamp_key node, key);
    Ret (m <| rest := s |> <| time_set := ts |> <| node_map := <[key := <[i := node]> nodes]> (node_map m) |>, p)
  else Ret (m <| rest := s |> <| node_map := <[key := <[i := node]> nodes]> (node_map m) |>, p).

Definition inject_meta_packet {E : DecapEnum} (packet_delay : Duration) (c : MatchConfig) (m : FlowMap S) (p : MetaPacket) (now : Duration)
    : run (FlowMap S * MetaPacket * list FlowNode) :=
  '(m, admitted, removed) ← inject_flush_ticker packet_delay m (timestamp p) now;
  if negb admitted then
    let '(s, p) := fo_lookup (rest m) p in
    Ret (m <| rest := s |>, p, removed)
  else
    key ← FlowMapKey_new (lookup_key p) (tap_port p);
    match node_map m !! key with
    | Some nodes =>
        let '(p, index) := find_node (fun n p => match_node (nd_flow n) p c) nodes p 0 in
        match index with
        | None => '(m, p) ← add_node m key nodes p; Ret (m, p, removed)
        | Some i => '(m, p) ← update_node m key nodes i p; Ret (m, p, removed)
        end
    | None => '(m, p) ← add_node m key [] p; Ret (m, p, removed)
    end.

End flow_map.
