(* ===== verification/FlowMapSpec.v ===== *)
(** * Properties of the flow map's time wheel

    The partition of the nodes of a key, the invariant of the wheel, and what
    follows from it: no flow is lost, and none outlives its timeout. *)

From stdpp Require Import gmap.
From S2P Require Import Prelude Timestamp FlowState TcpFlags Bytes Consts TunnelType TapPort MetaPacket Flow FlowNode FlowMap.

(** ** Partitioning *)

Lemma insert_middle {A} (l1 l2 : list A) x y i : i = length l1 -> <[i := y]> (l1 ++ x :: l2) = l1 ++ y :: l2.
Proof. intros ->. by rewrite insert_app_r_alt, Nat.sub_diag by lia. Qed.

Lemma swap_perm {A} (l : list A) i j a b : (i < j)%nat -> l !! i = Some a -> l !! j = Some b -> <[i := b]> (<[j := a]> l) ≡ₚ l.
Proof.
  intros Hij Ha Hb. apply list_elem_of_split_length in Ha as (l1 & l2 & -> & ->).
  rewrite lookup_app_r in Hb by lia. replace (j - length l1)%nat with (Datatypes.S (j - length l1 - 1)) in Hb by lia.
  cbn in Hb. apply list_elem_of_split_length in Hb as (m1 & m2 & -> & Hj).
  replace (l1 ++ a :: m1 ++ b :: m2) with ((l1 ++ a :: m1) ++ b :: m2) by by rewrite <- app_assoc.
  rewrite insert_middle by (rewrite length_app; cbn; lia). rewrite <- !app_assoc. cbn [app]. rewrite insert_middle by done.
  apply Permutation_app_head. rewrite <- !Permutation_middle. apply Permutation_swap.
Qed.

Lemma swap_remove_perm {A} (l : list A) i x : l !! i = Some x -> x :: swap_remove l i ≡ₚ l.
Proof.
  intros Hi. unfold swap_remove. destruct l as [|y l _] using rev_ind; [done|].
  rewrite length_app, Nat.add_sub, list_lookup_middle by done. apply lookup_lt_Some in Hi as Hlt. rewrite length_app in Hlt. cbn in Hlt.
  destruct (decide (i = length l)) as [->|Hne].
  - rewrite list_lookup_middle in Hi by done. injection Hi as ->. rewrite insert_middle, take_app_length by done. by rewrite Permutation_cons_append.
  - rewrite lookup_app_l in Hi by lia. rewrite insert_app_l by lia. rewrite take_app_length' by (rewrite length_insert; done).
    apply list_elem_of_split_length in Hi as (l1 & l2 & -> & ->). rewrite insert_middle by done. solve_Permutation.
Qed.

Section partition.
Context (timestamp : Duration) (time_in_unit : Z).

Abbreviation expired := (expired timestamp time_in_unit).

Lemma skip_expired_ok nodes left fuel : forall right, 0 <= left -> left - 1 <= right < Z.of_nat (length nodes) -> right - left + 2 <= Z.of_nat fuel ->
  exists r, skip_expired fuel nodes timestamp time_in_unit left right = Ret r /\ left - 1 <= r <= right
    /\ (forall i n, nodes !! i = Some n -> r < Z.of_nat i <= right -> expired n = true)
    /\ (left <= r -> exists n, nodes !! Z.to_nat r = Some n /\ expired n = false).
Proof.
  induction fuel as [|fuel IH]; intros right Hl Hr Hf; [lia|]. cbn [skip_expired].
  destruct (Z.leb_spec left right) as [Hle|Hgt].
  2: { exists right. split; [done|]. split; [lia|]. split; [lia|lia]. }
  destruct (lookup_lt_is_Some_2 nodes (Z.to_nat right)) as [n Hn]; [lia|]. rewrite Hn. cbn [unwrap mbind run_bind].
  destruct (expired n) eqn:En.
  - destruct (IH (right - 1) ltac:(lia) ltac:(lia) ltac:(lia)) as (r & Hr1 & Hr2 & Hr3 & Hr4).
    exists r. split; [done|]. split; [lia|]. split; [|done].
    intros i n' Hi Hri. destruct (decide (i = Z.to_nat right)) as [->|]; [congruence|]. apply (Hr3 i); [done|lia].
  - exists right. split; [done|]. split; [lia|]. split; [lia|]. intros _. by exists n.
Qed.

Lemma sort_loop_ok fuel : forall nodes left right, 0 <= left <= right + 1 -> right < Z.of_nat (length nodes) -> right - left + 2 <= Z.of_nat fuel ->
  (forall i n, nodes !! i = Some n -> Z.of_nat i < left -> expired n = false) ->
  (forall i n, nodes !! i = Some n -> right < Z.of_nat i -> expired n = true) ->
  exists nodes' k, sort_loop fuel nodes timestamp time_in_unit left right = Ret (nodes', k) /\ nodes' ≡ₚ nodes
    /\ 0 <= k <= Z.of_nat (length nodes)
    /\ (forall i n, nodes' !! i = Some n -> expired n = negb (Z.of_nat i <? k)).
Proof.
  induction fuel as [|fuel IH]; intros nodes left right Hlr Hr Hf HL HR; [lia|]. cbn [sort_loop].
  destruct (Z.leb_spec left right) as [Hle|Hgt].
  2: { exists nodes, left. split; [done|]. split; [done|]. split; [lia|]. intros i n Hi.
       destruct (Z.ltb_spec (Z.of_nat i) left); [by apply (HL i)|apply (HR i); [done|lia]]. }
  destruct (lookup_lt_is_Some_2 nodes (Z.to_nat left)) as [n Hn]; [lia|]. rewrite Hn. cbn [unwrap mbind run_bind].
  destruct (expired n) eqn:En; cbn [negb].
  2: { apply IH; [lia..| |done]. intros i n' Hi Hil. destruct (decide (i = Z.to_nat left)) as [->|]; [congruence|]. apply (HL i); [done|lia]. }
  destruct (skip_expired_ok nodes left (Datatypes.S (length nodes)) right) as (r & -> & Hr1 & Hr2 & Hr3); [lia..|]. cbn [mbind run_bind].
  assert (forall i m, nodes !! i = Some m -> r < Z.of_nat i -> expired m = true) as HR'.
  { intros i m Hi Hri. destruct (Z.le_gt_cases (Z.of_nat i) right); [by apply (Hr2 i)|apply (HR i); [done|lia]]. }
  destruct (Z.ltb_spec left r) as [Hlt|Hge].
  2: { assert (r <> left) by (intros ->; destruct Hr3 as (m & Hm & Em); [lia|congruence]). apply IH; [lia..|done|done]. }
  destruct Hr3 as (m & Hm & Em); [lia|]. unfold swap_nodes. rewrite Hn, Hm. cbn [unwrap mbind run_bind].
  set (nodes1 := <[Z.to_nat left := m]> (<[Z.to_nat r := n]> nodes)).
  assert (nodes1 ≡ₚ nodes) as Hperm by (apply (swap_perm nodes (Z.to_nat left) (Z.to_nat r)); [lia|done|done]).
  assert (length nodes1 = length nodes) as Hlen by by apply Permutation_length.
  assert (forall i x, nodes1 !! i = Some x -> (i = Z.to_nat left /\ x = m) \/ (i = Z.to_nat r /\ x = n)
            \/ (i <> Z.to_nat left /\ i <> Z.to_nat r /\ nodes !! i = Some x)) as Hlook.
  { intros i x. unfold nodes1. destruct (decide (i = Z.to_nat left)) as [->|H1].
    - rewrite list_lookup_insert_eq by (rewrite length_insert; lia). intros [= <-]. by left.
    - rewrite list_lookup_insert_ne by done. destruct (decide (i = Z.to_nat r)) as [->|H2].
      + rewrite list_lookup_insert_eq by lia. intros [= <-]. by right; left.
      + rewrite list_lookup_insert_ne by done. by right; right. }
  destruct (IH nodes1 (left + 1) (r - 1)) as (nodes' & k & H1 & H2 & H3 & H4); [lia|lia|lia| | |].
  - intros i x Hi Hil. destruct (Hlook i x Hi) as [[_ ->]|[[-> ->]|(Hil' & _ & Hix)]]; [done|lia|]. apply (HL i); [done|lia].
  - intros i x Hi Hil. destruct (Hlook i x Hi) as [[-> ->]|[[_ ->]|(_ & Hir & Hix)]]; [lia|done|]. apply (HR' i); [done|lia].
  - exists nodes', k. split; [done|]. split; [by etrans|]. split; [lia|done].
Qed.

End partition.

Lemma sort_nodes_ok nodes timestamp u : exists nodes' k,
  sort_nodes_by_timeout nodes timestamp u = Ret (nodes', Z.of_nat k) /\ nodes' ≡ₚ nodes
  /\ Forall (fun n => expired timestamp u n = false) (take k nodes') /\ Forall (fun n => expired timestamp u n = true) (drop k nodes').
Proof.
  destruct (sort_loop_ok timestamp u (length nodes + 2) nodes 0 (Z.of_nat (length nodes) - 1)) as (nodes' & k & H1 & H2 & H3 & H4);
    [lia|lia|lia|lia|intros i n Hi; apply lookup_lt_Some in Hi; lia|].
  exists nodes', (Z.to_nat k). unfold sort_nodes_by_timeout. rewrite Z2Nat.id by lia. split; [done|]. split; [done|].
  split; apply Forall_lookup; intros i n Hi.
  - apply lookup_take_Some in Hi as [Hi Hk]. rewrite (H4 i n Hi). apply negb_false_iff. lia.
  - rewrite lookup_drop in Hi. rewrite (H4 _ n Hi). apply negb_true_iff. lia.
Qed.

(** Partitioning the flows of a key terminates on every list, and gives the
    flows that stay in front and the flows that timed out behind the returned
    index, each of them once. *)
Theorem nodes_partitioned nodes timestamp u : exists nodes' k,
  sort_nodes_by_timeout nodes timestamp u = Ret (nodes', Z.of_nat k)
  /\ take k nodes' ≡ₚ filter (fun n => expired timestamp u n = false) nodes
  /\ drop k nodes' ≡ₚ filter (fun n => expired timestamp u n = true) nodes.
Proof.
  destruct (sort_nodes_ok nodes timestamp u) as (nodes' & k & H1 & H2 & H3 & H4). exists nodes', k. split; [done|].
  rewrite <- H2. rewrite <- (take_drop k nodes') at 2 4. rewrite !filter_app. split.
  - rewrite (filter_all _ (take k nodes')) by done. rewrite (filter_none _ (drop k nodes')); [by rewrite app_nil_r|].
    eapply Forall_impl; [exact H4|]. cbn. congruence.
  - rewrite (filter_all _ (drop k nodes')) by done. rewrite (filter_none _ (take k nodes')); [done|].
    eapply Forall_impl; [exact H3|]. cbn. congruence.
Qed.

(** ** All nodes of a map *)

Definition all_nodes (m : gmap FlowMapKey (list FlowNode)) : list FlowNode := mjoin (map_to_list m).*2.

Lemma all_nodes_delete m k nodes : m !! k = Some nodes -> all_nodes m ≡ₚ nodes ++ all_nodes (delete k m).
Proof.
  intros Hk. unfold all_nodes. rewrite <- (insert_delete_id m k nodes Hk) at 1. rewrite map_to_list_insert by apply lookup_delete_eq.
  by rewrite fmap_cons, join_cons.
Qed.

Lemma all_nodes_insert m k nodes : all_nodes (<[k := nodes]> m) ≡ₚ nodes ++ all_nodes (delete k m).
Proof. rewrite (all_nodes_delete (<[k := nodes]> m) k nodes) by apply lookup_insert_eq. by rewrite delete_insert_eq. Qed.

Lemma all_nodes_fresh m k nodes : m !! k = None -> all_nodes (<[k := nodes]> m) ≡ₚ nodes ++ all_nodes m.
Proof. intros Hk. rewrite all_nodes_insert. by rewrite delete_id. Qed.

(** ** What the wheel relies on *)

Definition node_id (n : FlowNode) : Z := flow_id (nd_flow n).

Definition same_clock (n n' : FlowNode) : Prop :=
  recent_time n' = recent_time n /\ nd_timeout n' = nd_timeout n /\ timestamp_key n' = timestamp_key n /\ node_id n' = node_id n.

(** The operations on the nodes [good] holds of, for the packets [admits]
    allows: a new node carries the time of its packet, an update moves
    [recent_time] forward only and chooses a timeout of at most [max], a report
    touches no time, and none of them panics. *)
Class FlowOpsOk {S} (F : FlowOps S) (max : Z) (good : FlowNode -> Prop) (admits : MetaPacket -> Prop) : Prop := {
  init_law : forall s p, admits p -> wp (fo_init s p) (fun '(_, _, o) => forall n, o = Some n ->
    recent_time n = timestamp p /\ timestamp_key n = Timestamp.as_secs (timestamp p) /\ 0 <= nd_timeout n <= max /\ good n);
  update_law : forall s n p, admits p -> good n -> wp (fo_update s n p) (fun '(_, n', p', _) =>
    recent_time n' = Z.max (recent_time n) (timestamp p) /\ timestamp_key n' = timestamp_key n /\ 0 <= nd_timeout n' <= max
    /\ node_id n' = node_id n /\ good n' /\ admits p');
  report_law : forall s n ts o, good n -> (forall p, o = Some p -> admits p) -> wp (fo_report s n ts o) (fun '(_, n', o') => same_clock n n' /\ good n'
    /\ forall p, o = Some p -> exists p', o' = Some p' /\ timestamp p' = timestamp p /\ admits p');
  remove_law : forall s n ts o, good n -> (forall p, o = Some p -> admits p) -> wp (fo_remove s n ts o) (fun _ => True);
  admits_direction : forall p d, admits p -> admits (with_direction p d);
  good_key : forall n k, good n -> good (n <| timestamp_key := k |>);
}.

Section wheel.
Context {S : Type} {F : FlowOps S} {D : DrainOrder} {Dok : DrainOrderOk D}.
Context (delay max : Z) (good : FlowNode -> Prop) (admits : MetaPacket -> Prop) {Fok : FlowOpsOk F max good admits}.

(** The window covers the packet delay and the longest timeout. *)
Record window_ok (window : Z) : Prop := {
  wo_pow : exists k, 0 <= k /\ window = 2 ^ k;
  wo_delay : 0 <= delay;
  wo_max : NANOS <= max;
  wo_span : delay + max + NANOS <= window * NANOS;
}.

(** The times of a node, with the window at [start_time]. *)
Record times_ok (start_time : Z) (n : FlowNode) : Prop := {
  to_recent : 0 <= recent_time n < start_time + delay + NANOS;
  to_timeout : 0 <= nd_timeout n <= max;
  to_fits : recent_time n + max < 2 ^ 64;
  to_due : timestamp_key n <= Timestamp.as_secs (timeout_of n);
  to_good : good n;
}.

(** The key is in the slot of second [t]. *)
Definition filed (window : Z) (ts : list (gset FlowMapKey)) (key : FlowMapKey) (t : Z) : Prop :=
  exists keys, ts !! slot window t = Some keys /\ key ∈ keys.

(** Every node of the map is in the wheel, within the window from [v] on. *)
Definition wheel_at (window start_time v : Z) (m : gmap FlowMapKey (list FlowNode)) (ts : list (gset FlowMapKey)) : Prop :=
  Z.of_nat (length ts) = window
  /\ forall key nodes, m !! key = Some nodes -> nodes <> []
       /\ Forall (fun n => times_ok start_time n /\ v <= timestamp_key n < v + window /\ filed window ts key (timestamp_key n)) nodes.

Record flow_map_ok (m : FlowMap S) : Prop := {
  mo_window : window_ok (time_window_size m);
  mo_start : 0 <= fm_start_time m;
  mo_unit : start_time_in_unit m = fm_start_time m / NANOS;
  mo_wheel : wheel_at (time_window_size m) (fm_start_time m) (start_time_in_unit m) (node_map m) (time_set m);
  mo_size : size m = Z.of_nat (length (all_nodes (node_map m)));
}.

(** *** Slots *)

Lemma slot_mod window t : window_ok window -> slot window t = Z.to_nat (t mod window).
Proof.
  intros [(k & Hk & ->) _ _ _]. unfold slot.
  replace (2 ^ k - 1) with (Z.ones k) by (rewrite Z.ones_equiv; lia). by rewrite Z.land_ones.
Qed.

Lemma window_pos window : window_ok window -> 0 < window.
Proof. intros [(k & Hk & ->) _ _ _]. lia. Qed.

Lemma slot_lt window t ts : window_ok window -> Z.of_nat (length ts) = window -> (slot window t < length (A := gset FlowMapKey) ts)%nat.
Proof. intros Hw Hl. rewrite slot_mod by done. pose proof (window_pos _ Hw). pose proof (Z.mod_pos_bound t window). lia. Qed.

Lemma slot_ne window v t : window_ok window -> v < t < v + window -> slot window t <> slot window v.
Proof.
  intros Hw Ht He. pose proof (window_pos _ Hw). rewrite !slot_mod in He by done.
  pose proof (Z.mod_pos_bound t window ltac:(lia)) as H1. pose proof (Z.mod_pos_bound v window ltac:(lia)) as H2.
  apply Z2Nat.inj in He; [|lia..]. assert ((t - v) mod window = 0) as H0 by (by rewrite Zminus_mod, He, Z.sub_diag).
  rewrite Z.mod_small in H0; lia.
Qed.

Lemma file_key_ok window ts k : window_ok window -> Z.of_nat (length ts) = window ->
  wp (file_key window ts k) (fun ts' => length ts' = length ts /\ filed window ts' k.2 k.1
    /\ forall key t, filed window ts key t -> filed window ts' key t).
Proof.
  intros Hw Hl. unfold file_key. pose proof (slot_lt window k.1 ts Hw Hl) as Hs.
  destruct (lookup_lt_is_Some_2 ts (slot window k.1) Hs) as [keys Hk]. rewrite Hk. cbn [unwrap mbind run_bind].
  split; [by rewrite length_insert|]. split.
  - eexists. rewrite list_lookup_insert_eq by done. split; [done|]. set_solver.
  - intros key t (keys' & Ht & Hin). destruct (decide (slot window t = slot window k.1)) as [He|Hne].
    + eexists. rewrite He, list_lookup_insert_eq by done. split; [done|]. rewrite He, Hk in Ht. injection Ht as <-. set_solver.
    + exists keys'. by rewrite list_lookup_insert_ne.
Qed.

Lemma file_keys_ok window ks : forall ts, window_ok window -> Z.of_nat (length ts) = window ->
  wp (rfold (file_key window) ks ts) (fun ts' => length ts' = length ts /\ Forall (fun k => filed window ts' k.2 k.1) ks
    /\ forall key t, filed window ts key t -> filed window ts' key t).
Proof.
  induction ks as [|k ks IH]; intros ts Hw Hl; [by repeat split|]. cbn [rfold].
  pose proof (file_key_ok window ts k Hw Hl) as H1. destruct (file_key window ts k) as [ts1|]; [|done].
  destruct H1 as (Hl1 & Hf & Hk). eapply wp_mono; [apply IH; [done|by rewrite Hl1]|]. intros ts2 (Hl2 & Hf2 & Hk2).
  split; [congruence|]. split; [constructor; [by apply Hk2|done]|]. intros key t Ht. by apply Hk2, Hk.
Qed.


(** *** One second of a flush *)

(** What becomes of a node that stays. *)
Definition refiled (u : Z) (key : FlowMapKey) (moved : list (Z * FlowMapKey)) (n n' : FlowNode) : Prop :=
  node_id n' = node_id n /\ good n' /\
  ((u < timestamp_key n /\ n' = n)
   \/ (timestamp_key n <= u /\ recent_time n' = recent_time n /\ nd_timeout n' = nd_timeout n
       /\ timestamp_key n' = Timestamp.as_secs (timeout_of n)
       /\ (timestamp_key n = timestamp_key n' \/ (timestamp_key n', key) ∈ moved))).

Lemma refiled_mono u key mv mv' n n' : mv ⊆ mv' -> refiled u key mv n n' -> refiled u key mv' n n'.
Proof. intros Hs (Hi & Hg & H). split_and!; [done..|]. naive_solver. Qed.

Lemma refile_node_ok timestamp u key n s acc moved : good n ->
  wp (refile_node timestamp u key (s, acc, moved) n) (fun '(_, acc', moved') => exists n' mv, acc' = acc ++ [n'] /\ moved' = moved ++ mv
    /\ refiled u key mv n n').
Proof.
  intros Hg. unfold refile_node. destruct (Z.ltb_spec u (timestamp_key n)) as [Hlt|Hle].
  { exists n, []. rewrite app_nil_r. split_and!; [done..|]. split; [done|]. split; [done|by left]. }
  apply wp_bind. eapply wp_mono; [by apply (report_law (max := max) (admits := admits))|]. intros [[s1 n1] o] ((Hr1 & Hr2 & Hr3 & Hr4) & Hg1 & _).
  assert (timeout_of n1 = timeout_of n) as Ht by (unfold timeout_of; by rewrite Hr1, Hr2). rewrite Ht, Hr3.
  destruct (Z.eqb_spec (timestamp_key n) (Timestamp.as_secs (timeout_of n))) as [He|Hne]; cbn [negb wp].
  - exists n1, []. rewrite app_nil_r. split_and!; [done..|]. split; [done|]. split; [done|]. right. split_and!; [done..|congruence|by left].
  - eexists _, [_]. split_and!; [done..|]. split; [done|]. split; [by apply (good_key (F := F) (max := max) (admits := admits))|].
    right. split_and!; [done..|]. right. by left.
Qed.

Lemma refile_nodes_ok timestamp u key nodes : forall s acc moved, Forall good nodes ->
  wp (rfold (refile_node timestamp u key) nodes (s, acc, moved)) (fun '(_, nodes', moved') => exists new mv, nodes' = acc ++ new /\ moved' = moved ++ mv
    /\ Forall2 (refiled u key mv) nodes new).
Proof.
  induction nodes as [|n nodes IH]; intros s acc moved Hg; cbn [rfold]; [exists [], []; by rewrite !app_nil_r|].
  apply Forall_cons in Hg as [Hn Hg]. apply wp_bind. eapply wp_mono; [by apply refile_node_ok|].
  intros [[s1 acc1] moved1] (n' & mv & -> & -> & Hr). eapply wp_mono; [by apply IH|].
  intros [[s2 acc2] moved2] (new & mv2 & -> & -> & HF). exists (n' :: new), (mv ++ mv2). rewrite <- !app_assoc. split_and!; [done..|].
  constructor; [eapply refiled_mono; [|done]; set_solver|]. eapply Forall2_impl; [exact HF|]. intros x y. apply refiled_mono. set_solver.
Qed.

Lemma remove_nodes_ok nodes : forall s, Forall good nodes -> wp (rfold remove_expired nodes s) (fun _ => True).
Proof.
  induction nodes as [|n nodes IH]; intros s Hg; cbn [rfold]; [done|]. apply Forall_cons in Hg as [Hn Hg]. apply wp_bind. unfold remove_expired.
  eapply wp_mono; [by apply (remove_law (max := max) (admits := admits))|]. intros s' _. by apply IH.
Qed.

Section flush.
Context (window start_time next : Z) (Hw : window_ok window).
Context (Hstart : 0 <= start_time) (Hnext : 0 < next * NANOS < 2 ^ 64).

Definition flush_time : Z := next * NANOS - 1.

(** A node that timed out before the new start of the window *)
Definition due (n : FlowNode) : Prop := timeout_of n < next * NANOS.

(** Where a node is while second [v] is flushed and the keys [l] are left:
    still to come, later in the wheel, or waiting to be filed again. *)
Definition status (ts : list (gset FlowMapKey)) (v : Z) (l : list FlowMapKey) (moved : list (Z * FlowMapKey)) (key : FlowMapKey) (n : FlowNode) : Prop :=
  (timestamp_key n = v /\ key ∈ l)
  \/ (v < timestamp_key n < v + window /\ (timestamp_key n < next -> timestamp_key n < start_time / NANOS + window)
      /\ filed window ts key (timestamp_key n))
  \/ (v < timestamp_key n <= v + window /\ next <= timestamp_key n /\ (timestamp_key n, key) ∈ moved).

Record flush_inv (ts : list (gset FlowMapKey)) (v : Z) (ids : list Z) (l : list FlowMapKey) (st : flushing) : Prop := {
  fi_nodes : forall key nodes, fl_map st !! key = Some nodes ->
    nodes <> [] /\ Forall (fun n => times_ok start_time n /\ status ts v l (fl_moved st) key n) nodes;
  fi_size : fl_size st = Z.of_nat (length (all_nodes (fl_map st)));
  fi_ids : node_id <$> (all_nodes (fl_map st) ++ fl_removed (S := S) st) ≡ₚ ids;
  fi_removed : Forall due (fl_removed st);
}.

Lemma times_ok_timeout n : times_ok start_time n -> timeout_of n = recent_time n + nd_timeout n.
Proof. intros [H1 H2 H3 _ _]. unfold timeout_of, Timestamp.add. apply wadd_small. unfold fits. lia. Qed.

Lemma timeout_in_window n v : times_ok start_time n -> start_time / NANOS <= v -> Timestamp.as_secs (timeout_of n) <= v + window.
Proof.
  intros Hn Hv. rewrite (times_ok_timeout n Hn). destruct Hn as [H1 H2 H3 _ _], Hw as [_ Hd Hm Hs].
  change (Timestamp.as_secs ?t) with (t / NANOS).
  assert (start_time < (start_time / NANOS + 1) * NANOS) by (unfold NANOS in *; pose proof (Z.mul_succ_div_gt start_time 1000000000); lia).
  assert ((recent_time n + nd_timeout n) / NANOS < start_time / NANOS + window + 1); [|lia].
  apply Z.div_lt_upper_bound; [done|]. unfold NANOS in *. lia.
Qed.

(** A node that stays after its second. *)
Lemma refiled_status ts v l mv key n n' moved : times_ok start_time n -> start_time / NANOS <= v < next ->
  expired flush_time v n = false -> status ts v (key :: l) moved key n -> refiled v key mv n n' ->
  times_ok start_time n' /\ status ts v l (moved ++ mv) key n'.
Proof.
  intros Hn Hv Hex Hst (_ & Hg & [[Hlt ->]|(Hle & Hr & Ht & Hk & Hm)]).
  { split; [done|]. destruct Hst as [[He _]|[Hst|(H1 & H2 & H3)]]; [lia|by right; left|]. right; right. split_and!; [lia..|].
    apply elem_of_app. by left. }
  assert (timeout_of n' = timeout_of n) as Hto by (unfold timeout_of; by rewrite Hr, Ht).
  unfold expired, flush_time in Hex. apply negb_false_iff, orb_true_iff in Hex as [Hex|Hex]; [lia|].
  rewrite wrap_small in Hex by (unfold fits, NANOS in *; lia). apply Z.ltb_lt in Hex.
  assert (next <= timestamp_key n') as Hge.
  { rewrite Hk. change (Timestamp.as_secs ?t) with (t / NANOS). apply Z.div_le_lower_bound; [done|]. lia. }
  split.
  - destruct Hn as [H1 H2 H3 H4 _]. split; [by rewrite Hr|by rewrite Ht|by rewrite Hr|by rewrite Hto, Hk|done].
  - right; right. split; [|split; [done|]].
    + split; [lia|]. rewrite Hk. apply timeout_in_window; [done|lia].
    + destruct Hm as [He|Hm]; [lia|]. apply elem_of_app. by right.
Qed.


Lemma expired_due v n : times_ok start_time n -> expired flush_time v n = true -> due n.
Proof.
  intros Hn He. unfold expired, flush_time in He. apply negb_true_iff, orb_false_iff in He as [_ He].
  rewrite wrap_small in He by (unfold fits, NANOS in *; lia). apply Z.ltb_ge in He. unfold due. lia.
Qed.

(** Nodes of other keys do not notice. *)
Lemma status_other ts v a l moved mv key n : key <> a -> status ts v (a :: l) moved key n -> status ts v l (moved ++ mv) key n.
Proof.
  intros Hne [[He Hin]|[H|(H1 & H2 & H3)]].
  - left. split; [done|]. apply elem_of_cons in Hin as [|]; done.
  - by right; left.
  - right; right. split_and!; [lia..|]. apply elem_of_app. by left.
Qed.

Lemma flush_inv_other ts v ids a l (st : flushing (S := S)) mv : flush_inv ts v ids (a :: l) st -> forall key nodes,
  delete a (fl_map st) !! key = Some nodes ->
  nodes <> [] /\ Forall (fun n => times_ok start_time n /\ status ts v l (fl_moved st ++ mv) key n) nodes.
Proof.
  intros [Hn _ _ _] key nodes [Hne Hk]%lookup_delete_Some. destruct (Hn key nodes Hk) as [H1 H2]. split; [done|].
  eapply Forall_impl; [exact H2|]. intros n [Ht Hs]. split; [done|]. by eapply status_other.
Qed.

Lemma flush_key_ok ts v ids a l st : start_time / NANOS <= v < next -> flush_inv ts v ids (a :: l) st ->
  wp (flush_key flush_time v st a) (flush_inv ts v ids l).
Proof.
  intros Hv Hinv. pose proof Hinv as [Hn Hsz Hid Hre]. unfold flush_key. destruct (fl_map st !! a) as [nodes|] eqn:Ea.
  2: { split; [|done..]. intros key nodes Hk. rewrite <- (app_nil_r (fl_moved st)). apply (flush_inv_other ts v ids a l st []); [done|].
       by rewrite delete_id. }
  destruct (Hn a nodes Ea) as [_ Hnodes].
  destruct (sort_nodes_ok nodes flush_time v) as (nodes' & k & -> & Hp & Hkeep & Hgone). cbn [mbind run_bind]. rewrite Nat2Z.id.
  rewrite <- Hp in Hnodes. rewrite <- (take_drop k nodes') in Hnodes, Hp. apply Forall_app in Hnodes as [Hn1 Hn2].
  set (kept := take k nodes') in *. set (gone := drop k nodes') in *.
  assert (Forall due (fl_removed st ++ gone)) as Hre'.
  { apply Forall_app. split; [done|]. apply Forall_forall. intros n Hin. rewrite Forall_forall in Hgone, Hn2.
    apply (expired_due v); [by apply Hn2|by apply Hgone]. }
  pose proof (all_nodes_delete _ _ _ Ea) as Hall. rewrite <- Hp in Hall.
  assert (forall nodes2, node_id <$> nodes2 = node_id <$> kept ->
    node_id <$> (nodes2 ++ all_nodes (delete a (fl_map st))) ++ fl_removed st ++ gone ≡ₚ ids) as Hid'.
  { intros nodes2 He. rewrite <- Hid, Hall, !fmap_app, He. solve_Permutation. }
  assert (forall nodes2, length nodes2 = length kept -> fl_size st - Z.of_nat (length gone)
    = Z.of_nat (length (nodes2 ++ all_nodes (delete a (fl_map st))))) as Hsz'.
  { intros nodes2 He. rewrite Hsz, (Permutation_length Hall), !length_app. lia. }
  destruct kept as [|n0 kept0] eqn:Ek.
  - apply wp_bind. eapply wp_mono; [apply (remove_nodes_ok gone); by eapply Forall_impl; [exact Hn2|intros n [Hn' _]; apply Hn']|]. intros s1 _.
    split; cbn [fl_map fl_moved fl_size fl_removed].
    + intros key nodes2 Hk. rewrite <- (app_nil_r (fl_moved st)). by apply (flush_inv_other ts v ids a l st []).
    + by apply (Hsz' []).
    + by apply (Hid' []).
    + done.
  - apply wp_bind. eapply wp_mono; [apply (remove_nodes_ok gone); by eapply Forall_impl; [exact Hn2|intros n [Hn' _]; apply Hn']|]. intros s1 _.
    apply wp_bind. eapply wp_mono; [apply (refile_nodes_ok flush_time v a (n0 :: kept0) s1 [] (fl_moved st)); by eapply Forall_impl; [exact Hn1|intros n [Hn' _]; apply Hn']|].
    intros [[s' nodes2'] moved'] (nodes2 & mv & -> & -> & HF). cbn [app].
    split; cbn [fl_map fl_moved fl_size fl_removed].
    + intros key nodes3 [[<- <-]|[Hne Hk]]%lookup_insert_Some.
      2: { apply (flush_inv_other ts v ids a l st mv Hinv). by apply lookup_delete_Some. }
      split; [by inversion HF|]. apply Forall_forall. intros n' Hin. apply list_elem_of_lookup in Hin as [i Hi].
      destruct (Forall2_lookup_r _ _ _ _ _ HF Hi) as (n & Hni & Hr). apply list_elem_of_lookup_2 in Hni.
      rewrite Forall_forall in Hn1, Hkeep. destruct (Hn1 n Hni) as [Ht Hs]. eapply refiled_status; [done|done|by apply Hkeep|done|done].
    + rewrite all_nodes_insert. apply Hsz'. symmetry. by eapply Forall2_length.
    + rewrite all_nodes_insert. apply Hid'. clear -HF. induction HF as [|n n' l l' [Hi _] _ IH]; [done|]. cbn. by rewrite Hi, IH.
    + done.
Qed.


(** The state before second [v] is flushed. *)
Record loop_inv (cap : Z) (ids : list Z) (v : Z) (st : FlowMap S * list FlowNode) : Prop := {
  li_window : time_window_size st.1 = window;
  li_capacity : capacity st.1 = cap;
  li_slots : Z.of_nat (length (time_set st.1)) = window;
  li_nodes : forall key nodes, node_map st.1 !! key = Some nodes -> nodes <> []
    /\ Forall (fun n => times_ok start_time n /\ v <= timestamp_key n < v + window
         /\ (timestamp_key n < next -> timestamp_key n < start_time / NANOS + window)
         /\ filed window (time_set st.1) key (timestamp_key n)) nodes;
  li_size : size st.1 = Z.of_nat (length (all_nodes (node_map st.1)));
  li_ids : node_id <$> (all_nodes (node_map st.1) ++ st.2) ≡ₚ ids;
  li_removed : Forall due st.2;
}.

Lemma flush_unit_ok cap ids v st : start_time / NANOS <= v < next -> loop_inv cap ids v st ->
  wp (flush_unit flush_time st v) (loop_inv cap ids (v + 1)).
Proof.
  intros Hv Hinv. destruct st as [m removed]. destruct Hinv as [HW Hcap Hlen Hn Hsz Hid Hre]. cbn [fst snd] in *. unfold flush_unit.
  rewrite HW. pose proof (slot_lt window v (time_set m) Hw Hlen) as Hs.
  destruct (lookup_lt_is_Some_2 (time_set m) (slot window v) Hs) as [keys Hk]. rewrite Hk. cbn [unwrap mbind run_bind].
  set (ts1 := <[slot window v := ∅]> (time_set m)).
  assert (wp (rfold (flush_key flush_time v) (drain keys) (Build_flushing (rest m) (size m) (node_map m) [] removed))
    (flush_inv (time_set m) v ids [])) as Hf.
  { apply (wp_rfold _ (flush_inv (time_set m) v ids)); [|intros a l st; by apply flush_key_ok]. split; [|done..]. cbn [fl_map fl_moved].
    intros key nodes Hkn. destruct (Hn key nodes Hkn) as [H1 H2]. split; [done|]. eapply Forall_impl; [exact H2|].
    intros n (Ht & Hkv & Hl & Hf). split; [done|]. destruct (decide (timestamp_key n = v)) as [He|].
    - left. split; [done|]. destruct Hf as (keys' & Hk' & Hin). rewrite He, Hk in Hk'. injection Hk' as <-.
      rewrite drain_elements. by apply elem_of_elements.
    - right; left. split; [lia|done]. }
  destruct (rfold _ (drain keys) _) as [f|]; [|done]. destruct Hf as [Hfn Hfs Hfi Hfr]. cbn [mbind run_bind].
  pose proof (file_keys_ok window (fl_moved f) ts1 Hw) as Hfile. destruct (rfold (file_key window) (fl_moved f) ts1) as [ts2|].
  2: { apply Hfile. unfold ts1. by rewrite length_insert. }
  destruct Hfile as (Hl2 & Hmoved & Hkeep); [unfold ts1; by rewrite length_insert|]. cbn [mbind run_bind].
  split; cbn; [done|done|rewrite Hl2; unfold ts1; by rewrite length_insert| |done..].
  intros key nodes Hkn. destruct (Hfn key nodes Hkn) as [H1 H2]. split; [done|]. eapply Forall_impl; [exact H2|].
  intros n [Ht [[_ Hin]|[(Hkv & Hl & keys' & Hk' & Hin)|(Hkv & Hnx & Hin)]]].
  - by apply elem_of_nil in Hin.
  - split; [done|]. split; [lia|]. split; [done|]. apply Hkeep. exists keys'. split; [|done]. unfold ts1.
    rewrite list_lookup_insert_ne; [done|]. intros He. symmetry in He. revert He. by apply slot_ne.
  - split; [done|]. split; [lia|]. split; [lia|]. rewrite Forall_forall in Hmoved. by apply (Hmoved (timestamp_key n, key)).
Qed.

Lemma flush_units_ok cap ids n : forall v st, start_time / NANOS <= v -> v + Z.of_nat n <= next -> loop_inv cap ids v st ->
  wp (rfold (flush_unit flush_time) (seqZ v (Z.of_nat n)) st) (loop_inv cap ids (v + Z.of_nat n)).
Proof.
  induction n as [|n IH]; intros v st Hv Hn Hst; [by rewrite Z.add_0_r|]. rewrite seqZ_cons by lia. cbn [rfold].
  pose proof (flush_unit_ok cap ids v st ltac:(lia) Hst) as H1. destruct (flush_unit flush_time st v) as [st1|]; [|done].
  replace (Z.of_nat (Datatypes.S n) - 1) with (Z.of_nat n) by lia.
  replace (v + Z.of_nat (Datatypes.S n)) with (v + 1 + Z.of_nat n) by lia. replace (Z.pred (Z.of_nat (Datatypes.S n))) with (Z.of_nat n) by lia.
  apply IH; [lia|lia|done].
Qed.

End flush.

(** *** The flush *)

Lemma times_ok_later a b n : a <= b -> times_ok a n -> times_ok b n.
Proof. intros Hab [H1 H2 H3 H4 H5]. split; [lia|done..]. Qed.

(** What a flush that moves the window to [start_time] leaves. *)
Record flushed (m m' : FlowMap S) (removed : list FlowNode) : Prop := {
  fd_ok : flow_map_ok m';
  fd_capacity : capacity m' = capacity m;
  fd_ids : node_id <$> (all_nodes (node_map m') ++ removed) ≡ₚ node_id <$> all_nodes (node_map m);
  fd_removed : Forall (fun n => timeout_of n < fm_start_time m') removed;
  fd_later : fm_start_time m <= fm_start_time m';
}.

Lemma flushed_refl m : flow_map_ok m -> flushed m m [].
Proof. intros Hm. split; [done|done|by rewrite app_nil_r|constructor|lia]. Qed.

Lemma flush_window_ok m next s' : flow_map_ok m -> start_time_in_unit m < next -> next * NANOS < 2 ^ 64 ->
  wp ('(m1, removed) ← rfold (flush_unit (flush_time next))
        (seqZ (start_time_in_unit m) (Z.min next (start_time_in_unit m + time_window_size m) - start_time_in_unit m)) (m, []);
      Ret (m1 <| fm_start_time := next * NANOS |> <| start_time_in_unit := next |> <| rest := s' (rest m1) |>, true, removed))
    (fun '(m', admitted, removed) => admitted = true /\ flushed m m' removed /\ fm_start_time m' = next * NANOS).
Proof.
  intros [Hw Hst Hu [Hlen Hn] Hsz] Hlt Hfit. set (window := time_window_size m) in *. set (u := start_time_in_unit m) in *.
  pose proof (window_pos window Hw) as Hwp. assert (0 <= u) as Hu0 by (rewrite Hu; apply Z.div_pos; unfold NANOS; lia).
  assert (0 < next * NANOS < 2 ^ 64) as Hnx by (unfold NANOS in *; lia).
  set (k := Z.to_nat (Z.min next (u + window) - u)).
  replace (Z.min next (u + window) - u) with (Z.of_nat k) by lia.
  assert (loop_inv window (fm_start_time m) next (capacity m) (node_id <$> all_nodes (node_map m)) u (m, [])) as Hinv.
  { split; cbn [fst snd]; [done..| |done|by rewrite app_nil_r|constructor]. intros key nodes Hk. destruct (Hn key nodes Hk) as [H1 H2].
    split; [done|]. eapply Forall_impl; [exact H2|]. intros n (Ht & Hkv & Hf). split_and!; [done|lia|lia|lia|done]. }
  pose proof (flush_units_ok window (fm_start_time m) next Hw Hnx (capacity m) (node_id <$> all_nodes (node_map m)) k u (m, [])
    ltac:(lia) ltac:(lia) Hinv) as Hloop.
  destruct (rfold _ _ _) as [[m1 removed]|]; [|done]. destruct Hloop as [L1 L2 L3 L4 L5 L6 L7]. cbn [fst snd] in *. cbn [mbind run_bind wp].
  assert (fm_start_time m <= next * NANOS) as Hlater.
  { assert (fm_start_time m < (u + 1) * NANOS); [|unfold NANOS in *; lia]. rewrite Hu. unfold NANOS.
    pose proof (Z.mul_succ_div_gt (fm_start_time m) 1000000000). lia. }
  split; [done|]. split; [|done]. split; cbn; [|done|done|done|done].
  split; cbn; [by rewrite L1|unfold NANOS in *; lia|by rewrite Z.div_mul| |done]. rewrite L1. split; [done|].
  intros key nodes Hk. destruct (L4 key nodes Hk) as [H1 H2]. split; [done|]. eapply Forall_impl; [exact H2|].
  intros n (Ht & Hkv & Hl & Hf). split; [by eapply times_ok_later|]. split; [lia|done].
Qed.


Lemma dsub_ret a b : b <= a -> dsub a b = Ret (a - b).
Proof. intros Hab. unfold dsub. by rewrite (proj2 (Z.ltb_ge _ _)). Qed.

(** A time that can be handled: late enough to subtract the packet delay. *)
Definition time_ok (t : Z) : Prop := delay + NANOS <= t /\ t + max < 2 ^ 64.

Lemma inject_flush_ticker_ok m timestamp now : flow_map_ok m -> time_ok (ticker_time timestamp now) ->
  wp (inject_flush_ticker delay m timestamp now) (fun '(m', admitted, removed) => flushed m m' removed
    /\ (timestamp <> 0 -> admitted = true -> fm_start_time m' <= timestamp < fm_start_time m' + delay + NANOS)).
Proof.
  intros Hm Ht. unfold inject_flush_ticker. set (t := ticker_time timestamp now) in *.
  pose proof (mo_window m Hm) as [_ Hd Hmx _]. pose proof (mo_start m Hm) as Hs0.
  assert (timestamp <> 0 -> t = timestamp) as Htt by (unfold t, ticker_time; by destruct (Z.eqb_spec timestamp 0)).
  destruct (negb (timestamp =? 0) && (t <? fm_start_time m)) eqn:E1; [split; [by apply flushed_refl|done]|].
  destruct Ht as [Ht1 Ht2]. rewrite (dsub_ret t delay) by (unfold NANOS in *; lia). cbn [mbind run_bind].
  rewrite (dsub_ret (t - delay) TIME_UNIT) by (unfold TIME_UNIT in *; lia). cbn [mbind run_bind].
  destruct (Z.ltb_spec (t - delay - TIME_UNIT) (fm_start_time m)) as [Hlt|Hge].
  { split; [by apply flushed_refl|]. intros Hne _. rewrite <- (Htt Hne). apply andb_false_iff in E1 as [E1|E1]; unfold TIME_UNIT in *; lia. }
  set (next := (t - delay) / TIME_UNIT).
  assert (next * NANOS <= t - delay < (next + 1) * NANOS) as Hnx.
  { unfold next, TIME_UNIT, NANOS. pose proof (Z.mul_div_le (t - delay) 1000000000). pose proof (Z.mul_succ_div_gt (t - delay) 1000000000). lia. }
  assert (start_time_in_unit m < next) as Hun.
  { rewrite (mo_unit m Hm). unfold next, TIME_UNIT in *. apply Z.div_lt_upper_bound; [done|]. unfold NANOS in *.
    pose proof (Z.mul_succ_div_gt (t - delay) 1000000000). lia. }
  assert (0 <= start_time_in_unit m) as Hu0 by (rewrite (mo_unit m Hm); apply Z.div_pos; unfold NANOS; lia).
  replace (wrap 64 (next * TIME_UNIT)) with (next * NANOS) by (symmetry; apply wrap_small; unfold fits, TIME_UNIT, NANOS in *; lia).
  rewrite dsub_ret by (unfold NANOS in *; lia). cbn [mbind run_bind].
  eapply wp_mono; [apply (flush_window_ok m next (fun s => fo_flush s (next * NANOS - 1)) Hm Hun); unfold NANOS in *; lia|].
  intros [[m' b] removed] (-> & Hf & Hst). split; [done|]. intros Hne _. rewrite Hst, <- (Htt Hne). lia.
Qed.


(** *** Packets *)

Abbreviation in_wheel window start_time v ts key n :=
  (times_ok start_time n /\ v <= timestamp_key n < v + window /\ filed window ts key (timestamp_key n)).

Lemma wheel_insert window start_time v m ts ts' key nodes : wheel_at window start_time v m ts -> length ts' = length ts ->
  (forall key t, filed window ts key t -> filed window ts' key t) -> nodes <> [] ->
  Forall (fun n => in_wheel window start_time v ts' key n) nodes -> wheel_at window start_time v (<[key := nodes]> m) ts'.
Proof.
  intros [Hl Hn] Hlen Hmono Hne Hnodes. split; [congruence|]. intros key' nodes' [[<- <-]|[Hk Hm]]%lookup_insert_Some; [done|].
  destruct (Hn key' nodes' Hm) as [H1 H2]. split; [done|]. eapply Forall_impl; [exact H2|]. intros n (Ht & Hv & Hf). split_and!; [done|lia|lia|by apply Hmono].
Qed.

Lemma wheel_delete window start_time v m ts key : wheel_at window start_time v m ts -> wheel_at window start_time v (delete key m) ts.
Proof. intros [Hl Hn]. split; [done|]. intros key' nodes' [_ Hm]%lookup_delete_Some. by apply Hn. Qed.

(** A packet the window admits *)
Definition in_time (m : FlowMap S) (t : Z) : Prop := fm_start_time m <= t < fm_start_time m + delay + NANOS /\ t + max < 2 ^ 64.

Lemma in_time_unit m t : flow_map_ok m -> in_time m t ->
  start_time_in_unit m <= Timestamp.as_secs t < start_time_in_unit m + time_window_size m.
Proof.
  intros [[_ Hd Hm Hs] Hst Hu _ _] [H1 H2]. rewrite Hu. change (Timestamp.as_secs t) with (t / NANOS).
  split; [apply Z.div_le_mono; unfold NANOS; lia|]. apply Z.div_lt_upper_bound; [done|]. unfold NANOS in *.
  pose proof (Z.mul_succ_div_gt (fm_start_time m) 1000000000). lia.
Qed.

Lemma touched_times start_time n t : 0 <= start_time -> start_time <= t < start_time + delay + NANOS -> t + max < 2 ^ 64 ->
  recent_time n = t \/ (exists r, 0 <= r < start_time + delay + NANOS /\ r + max < 2 ^ 64 /\ recent_time n = Z.max r t) ->
  0 <= nd_timeout n <= max -> timestamp_key n = Timestamp.as_secs t -> good n -> times_ok start_time n.
Proof.
  intros H0 Ht Hf Hr Hto Hk Hg. assert (t <= recent_time n < start_time + delay + NANOS /\ recent_time n + max < 2 ^ 64) as [H1 H2]
    by (destruct Hr as [|(r & ? & ? & ?)]; lia).
  split; [lia|done|done| |done]. rewrite Hk. change (Timestamp.as_secs ?x) with (x / NANOS). apply Z.div_le_mono; [done|].
  unfold timeout_of, Timestamp.add. rewrite wadd_small by (unfold fits; lia). lia.
Qed.


(** A step that keeps the window: the nodes before and after, [gone] removed and
    [fresh] added. *)
Record stepped (m m' : FlowMap S) (fresh gone : list FlowNode) : Prop := {
  sd_ok : flow_map_ok m';
  sd_capacity : capacity m' = capacity m;
  sd_start : fm_start_time m' = fm_start_time m;
  sd_ids : node_id <$> (all_nodes (node_map m') ++ gone) ≡ₚ node_id <$> (fresh ++ all_nodes (node_map m));
}.

Lemma stepped_refl m m' : flow_map_ok m -> node_map m' = node_map m -> time_set m' = time_set m -> fm_start_time m' = fm_start_time m ->
  start_time_in_unit m' = start_time_in_unit m -> time_window_size m' = time_window_size m -> capacity m' = capacity m -> size m' = size m ->
  stepped m m' [] [].
Proof.
  intros [H1 H2 H3 H4 H5] E1 E2 E3 E4 E5 E6 E7.
  split; [split; by rewrite ?E1, ?E2, ?E3, ?E4, ?E5, ?E7|done|done|]. by rewrite E1, app_nil_r.
Qed.

Lemma add_node_ok m key nodes p : flow_map_ok m -> default [] (node_map m !! key) = nodes -> admits p -> in_time m (timestamp p) ->
  wp (add_node m key nodes p) (fun '(m', _) => exists fresh, stepped m m' fresh []
    /\ (fresh = [] \/ length fresh = 1%nat /\ size m < capacity m)).
Proof.
  intros Hm Hnodes Hp Ht. unfold add_node. case_decide; [exists []; split; [by apply stepped_refl|by left]|]. unfold new_flow_node.
  destruct (capacity m <=? size m) eqn:Ec.
  { destruct (fo_lookup (rest m) p) as [s p']. cbn [mbind run_bind]. exists []. split; [by apply stepped_refl|by left]. }
  pose proof (init_law (max := max) (admits := admits) (rest m) p Hp) as Hi. destruct (fo_init (rest m) p) as [[[s p'] o]|]; [|done].
  cbn [mbind run_bind]. destruct o as [n|]; cbn [mbind run_bind]; [|exists []; split; [by apply stepped_refl|by left]].
  destruct (Hi n eq_refl) as (Hr & Hk & Hto & Hg). cbn [time_window_size time_set node_map].
  pose proof Hm as [Hw Hst Hu Hwh Hsz].
  pose proof (file_key_ok (time_window_size m) (time_set m) (timestamp_key n, key) Hw (proj1 Hwh)) as Hfile.
  change (time_set (m <| rest := s |> <| size := size m + 1 |>)) with (time_set m).
  change (time_window_size (m <| rest := s |> <| size := size m + 1 |>)) with (time_window_size m).
  destruct (file_key _ _ _) as [ts|]; [|done]. destruct Hfile as (Hl & Hf & Hmono). cbn [mbind run_bind wp fst snd] in *.
  assert (all_nodes (<[key := nodes ++ [n]]> (node_map m)) ≡ₚ n :: all_nodes (node_map m)) as Hall.
  { rewrite all_nodes_insert. destruct (node_map m !! key) as [ns|] eqn:Ek; cbn in Hnodes; subst nodes.
    - rewrite (all_nodes_delete _ _ _ Ek). solve_Permutation.
    - by rewrite delete_id. }
  exists [n]. split; [|right; split; [done|lia]]. split; [|done|done|cbn; by rewrite app_nil_r, Hall].
  split; cbn; [done|done|done| |by rewrite Hsz, Hall; cbn; lia].
  apply (wheel_insert _ _ _ _ (time_set m)); [done|done|done|by destruct nodes|]. apply Forall_app. split.
  - destruct (node_map m !! key) as [ns|] eqn:Ek; cbn in Hnodes; subst nodes; [|done]. destruct (proj2 Hwh key ns Ek) as [_ Hns].
    eapply Forall_impl; [exact Hns|]. intros x (H1 & H2 & H3). split_and!; [done|lia|lia|by apply Hmono].
  - constructor; [|done]. split_and!; [|rewrite Hk; apply in_time_unit; done..|done].
    apply (touched_times _ _ (timestamp p)); [done|apply Ht|apply Ht|by left|done|done|done].
Qed.


(** The nodes of the key after one of them, at [i], was updated to [n']. *)
Lemma replaced_nodes m ts key nodes i n n' : flow_map_ok m -> node_map m !! key = Some nodes -> nodes !! i = Some n -> node_id n' = node_id n ->
  length ts = length (time_set m) -> (forall key t, filed (time_window_size m) (time_set m) key t -> filed (time_window_size m) ts key t) ->
  in_wheel (time_window_size m) (fm_start_time m) (start_time_in_unit m) ts key n' ->
  wheel_at (time_window_size m) (fm_start_time m) (start_time_in_unit m) (<[key := <[i := n']> nodes]> (node_map m)) ts
  /\ node_id <$> all_nodes (<[key := <[i := n']> nodes]> (node_map m)) ≡ₚ node_id <$> all_nodes (node_map m)
  /\ length (all_nodes (<[key := <[i := n']> nodes]> (node_map m))) = length (all_nodes (node_map m)).
Proof.
  intros [Hw Hst Hu Hwh Hsz] Hk Hi Hid Hl Hmono Hn'. destruct (proj2 Hwh key nodes Hk) as [Hne Hns].
  assert (node_id <$> <[i := n']> nodes = node_id <$> nodes) as He.
  { rewrite list_fmap_insert, Hid. apply list_insert_id. by rewrite list_lookup_fmap, Hi. }
  split; [|split].
  - apply (wheel_insert _ _ _ _ (time_set m)); [done..|intros H0; apply Hne; apply nil_length_inv; by rewrite <- (length_insert nodes i n'), H0|].
    apply Forall_insert; [|done]. eapply Forall_impl; [exact Hns|]. intros x (H1 & H2 & H3). split_and!; [done|lia|lia|by apply Hmono].
  - rewrite all_nodes_insert, (all_nodes_delete _ _ _ Hk), !fmap_app, He. done.
  - rewrite all_nodes_insert, (all_nodes_delete _ _ _ Hk), !length_app, length_insert. done.
Qed.

Lemma removed_node m key nodes i n n' : flow_map_ok m -> node_map m !! key = Some nodes -> nodes !! i = Some n -> node_id n' = node_id n ->
  let nodes' := swap_remove (<[i := n']> nodes) i in
  let map' := match nodes' with [] => delete key (node_map m) | _ => <[key := nodes']> (node_map m) end in
  wheel_at (time_window_size m) (fm_start_time m) (start_time_in_unit m) map' (time_set m)
  /\ node_id <$> (all_nodes map' ++ [n']) ≡ₚ node_id <$> all_nodes (node_map m).
Proof.
  intros [Hw Hst Hu Hwh Hsz] Hk Hi Hid nodes' map'. destruct (proj2 Hwh key nodes Hk) as [Hne Hns].
  assert (n' :: nodes' ≡ₚ <[i := n']> nodes) as Hp by (apply swap_remove_perm, list_lookup_insert_eq; by eapply lookup_lt_Some).
  assert (n :: nodes' ≡ₚ nodes) as Hp2.
  { apply list_elem_of_split_length in Hi as (l1 & l2 & -> & ->). rewrite insert_middle, <- Permutation_middle in Hp by done.
    apply Permutation_cons_inv in Hp. by rewrite Hp, Permutation_middle. }
  assert (Forall (fun n => in_wheel (time_window_size m) (fm_start_time m) (start_time_in_unit m) (time_set m) key n) nodes') as Hns'.
  { rewrite <- Hp2 in Hns. by apply Forall_cons in Hns as [_ Hns]. }
  assert (all_nodes map' ≡ₚ nodes' ++ all_nodes (delete key (node_map m))) as Hall.
  { unfold map'. destruct nodes' as [|x l]; [done|]. apply all_nodes_insert. }
  split.
  - unfold map'. destruct nodes' as [|x l]; [by apply wheel_delete|]. by apply (wheel_insert _ _ _ _ (time_set m)).
  - rewrite fmap_app, Hall. cbn [fmap list_fmap]. rewrite Hid, (all_nodes_delete _ _ _ Hk), <- Hp2. cbn. rewrite !fmap_app. solve_Permutation.
Qed.


(** The node of a packet after the report and the update *)
Lemma touched_node m n n1 n2 t : flow_map_ok m -> times_ok (fm_start_time m) n -> in_time m t -> same_clock n n1 ->
  recent_time n2 = Z.max (recent_time n1) t -> 0 <= nd_timeout n2 <= max -> timestamp_key n2 = Timestamp.as_secs t -> good n2 ->
  times_ok (fm_start_time m) n2.
Proof.
  intros Hm [H1 H2 H3 _ _] Ht (Hc & _) Hr Hto Hk Hg. apply (touched_times _ _ t); [apply (mo_start m Hm)|apply Ht|apply Ht| |done|done|done].
  right. exists (recent_time n). rewrite Hr, Hc. done.
Qed.

Lemma update_node_ok m key nodes i p : flow_map_ok m -> node_map m !! key = Some nodes -> (i < length nodes)%nat -> admits p ->
  in_time m (timestamp p) -> wp (update_node m key nodes i p) (fun '(m', _) => exists gone, stepped m m' [] gone /\ (length gone <= 1)%nat).
Proof.
  intros Hm Hk Hi Hp Ht. destruct (lookup_lt_is_Some_2 nodes i Hi) as [n Hn]. unfold update_node. rewrite Hn. cbn [unwrap mbind run_bind].
  pose proof Hm as [Hw Hst Hun Hwh Hsz]. destruct (proj2 Hwh key nodes Hk) as [_ Hns].
  destruct (proj1 (Forall_lookup _ _) Hns i n Hn) as (Hnt & Hnk & Hnf).
  apply wp_bind. eapply wp_mono; [apply (report_law (max := max) (good := good) (admits := admits)); [apply Hnt|by intros ? [= <-]]|].
  intros [[s1 n1] o] (Hc & Hg1 & Hr). destruct (Hr p eq_refl) as (p1 & -> & Hpt & Hp1). cbn [from_option id].
  apply wp_bind. eapply wp_mono; [by apply (update_law (max := max) (good := good) (admits := admits))|].
  intros [[[s2 n2] p2] closed] (Hrt & Hkey & Hto & Hid & Hg2 & Hp2). rewrite Hpt in Hrt. set (t := timestamp p) in *.
  assert (node_id n2 = node_id n) as Hid2 by (rewrite Hid; apply Hc). destruct closed; cbn [wp].
  - apply wp_bind. eapply wp_mono; [apply (remove_law (max := max) (good := good) (admits := admits)); [done|by intros ? [= <-]]|]. intros s3 _.
    destruct (removed_node m key nodes i n n2 Hm Hk Hn Hid2) as [Hw' Hids]. exists [n2]. split; [|done]. split; cbn; [|done..].
    split; cbn; [done..|]. apply Permutation_length in Hids. rewrite !length_fmap, length_app in Hids. cbn in Hids. rewrite Hsz. lia.
  - destruct (Z.eqb_spec (timestamp_key n2) (Timestamp.as_secs t)) as [He|Hne]; cbn [negb].
    + destruct (replaced_nodes m (time_set m) key nodes i n n2 Hm Hk Hn Hid2 eq_refl ltac:(done)) as (H1 & H2 & H3).
      { split_and!; [by apply (touched_node m n n1 n2 t)|rewrite He; by apply in_time_unit..|].
        rewrite Hkey, (proj1 (proj2 (proj2 Hc))). done. }
      exists []. split; [|cbn; lia]. split; cbn; [|done|done|by rewrite app_nil_r, H2]. split; cbn; [done..|by rewrite H3].
    + set (n3 := n2 <| timestamp_key := Timestamp.as_secs t |>).
      pose proof (file_key_ok (time_window_size m) (time_set m) (timestamp_key n3, key) Hw (proj1 Hwh)) as Hfile.
      destruct (file_key _ _ _) as [ts|]; [|done]. destruct Hfile as (Hl & Hf & Hmono). cbn [mbind run_bind wp fst snd] in *.
      destruct (replaced_nodes m ts key nodes i n n3 Hm Hk Hn Hid2 Hl Hmono) as (H1 & H2 & H3).
      { split_and!; [|by apply in_time_unit..|done]. apply (touched_node m n n1 n3 t); try done.
        by apply (good_key (F := F) (max := max) (admits := admits)). }
      exists []. split; [|cbn; lia]. split; cbn; [|done|done|by rewrite app_nil_r, H2]. split; cbn; [done..|by rewrite H3].
Qed.


Lemma find_node_ok `{!DecapEnum} c nodes p : forall i, let '(p', o) := find_node (fun n p => match_node (nd_flow n) p c) nodes p i in
  timestamp p' = timestamp p /\ (admits p -> admits p') /\ forall j, o = Some j -> (j < i + length nodes)%nat.
Proof.
  revert p. induction nodes as [|n nodes IH]; intros p i; [done|]. cbn [find_node length].
  destruct (match_node_packet (nd_flow n) p c) as [He|[d He]]; destruct (match_node _ p c) as [p' b]; cbn in He; subst p'.
  - destruct b; [split_and!; [done..|intros j [= <-]; lia]|]. specialize (IH p (Datatypes.S i)). destruct (find_node _ _ _ _) as [p' o].
    destruct IH as (H1 & H2 & H3). split_and!; [done..|]. intros j Hj. specialize (H3 j Hj). lia.
  - destruct b; [split_and!; [done|apply admits_direction|intros j [= <-]; lia]|].
    specialize (IH (with_direction p d) (Datatypes.S i)). destruct (find_node _ _ _ _) as [p' o].
    destruct IH as (H1 & H2 & H3). split_and!; [done|intros Hp; by apply H2, admits_direction|]. intros j Hj. specialize (H3 j Hj). lia.
Qed.

(** A packet the flow map can take: its addresses have a key, its time can be
    handled, the operations on flows take it. *)
Record packet_ok (p : MetaPacket) : Prop := {
  po_admits : admits p;
  po_time : time_ok (timestamp p);
  po_key : exists key, FlowMapKey_new (lookup_key p) (tap_port p) = Ret key;
}.

(** The invariant, with the number of flows within the capacity. *)
Definition sound (cap : Z) (m : FlowMap S) : Prop := flow_map_ok m /\ capacity m = cap /\ size m <= Z.max 0 cap.

Lemma stepped_sound cap m m' fresh gone : sound cap m -> stepped m m' fresh gone -> fresh = [] \/ length fresh = 1%nat /\ size m < capacity m ->
  sound cap m'.
Proof.
  intros (Hm & Hcap & Hs) [H1 H2 H3 H4] Hf. split; [done|]. split; [congruence|]. apply Permutation_length in H4. rewrite !length_fmap, !length_app in H4.
  pose proof (mo_size m Hm). pose proof (mo_size m' H1). destruct Hf as [->|[Hf Hc]]; cbn [length] in *; lia.
Qed.

Lemma flushed_sound cap m m' removed : sound cap m -> flushed m m' removed -> sound cap m'.
Proof.
  intros (Hm & Hcap & Hs) [H1 H2 H4 _ _]. split; [done|]. split; [congruence|]. apply Permutation_length in H4. rewrite !length_fmap, !length_app in H4.
  pose proof (mo_size m Hm). pose proof (mo_size m' H1). lia.
Qed.

Lemma inject_meta_packet_ok `{!DecapEnum} cap c m p now : sound cap m -> packet_ok p ->
  wp (inject_meta_packet delay c m p now) (fun '(m', _, _) => sound cap m').
Proof.
  intros Hm [Ha Ht [key Hkey]]. pose proof (proj1 Hm) as Hok. unfold inject_meta_packet.
  assert (timestamp p <> 0) as Hne by (destruct Ht as [Ht _]; pose proof (wo_delay _ (mo_window m Hok)); unfold NANOS in *; lia).
  assert (ticker_time (timestamp p) now = timestamp p) as Htt by (unfold ticker_time; by rewrite (proj2 (Z.eqb_neq _ _))).
  pose proof (inject_flush_ticker_ok m (timestamp p) now Hok ltac:(by rewrite Htt)) as Hf.
  destruct (inject_flush_ticker delay m (timestamp p) now) as [[[m1 admitted] removed]|]; [|done]. destruct Hf as [Hf Hwin].
  pose proof (flushed_sound cap m m1 removed Hm Hf) as Hm1. cbn [mbind run_bind]. destruct admitted; cbn [negb].
  2: { destruct (fo_lookup (rest m1) p) as [s p']. cbn. destruct Hm1 as ([G1 G2 G3 G4 G5] & G6 & G7). done. }
  assert (in_time m1 (timestamp p)) as Hin by (split; [by apply Hwin|apply Ht]).
  rewrite Hkey. cbn [mbind run_bind]. clear Hf Hwin Hm Hok. destruct (node_map m1 !! key) as [nodes|] eqn:Ek.
  - pose proof (find_node_ok c nodes p 0) as Hfind. destruct (find_node _ nodes p 0) as [p1 o]. destruct Hfind as (H1 & H2 & H3).
    rewrite <- H1 in Hin. destruct o as [i|].
    + apply wp_bind; eapply wp_mono; [apply (update_node_ok m1 key nodes i p1); [apply Hm1|done|by apply H3|by apply H2|done]|].
      intros [m2 p2] (gone & Hs & _). cbn. apply (stepped_sound cap m1 m2 [] gone); [done|done|by left].
    + apply wp_bind; eapply wp_mono; [apply (add_node_ok m1 key nodes p1); [apply Hm1|by rewrite Ek|by apply H2|done]|].
      intros [m2 p2] (fresh & Hs & Hc). cbn. by apply (stepped_sound cap m1 m2 fresh []).
  - apply wp_bind; eapply wp_mono; [apply (add_node_ok m1 key [] p); [apply Hm1|by rewrite Ek|done|done]|].
    intros [m2 p2] (fresh & Hs & Hc). cbn. by apply (stepped_sound cap m1 m2 fresh []).
Qed.


(** *** Runs *)

Lemma next_power_of_two_ok n : exists k, 0 <= k /\ next_power_of_two n = 2 ^ k /\ n <= next_power_of_two n.
Proof.
  unfold next_power_of_two. destruct (Z.leb_spec n 1) as [H|H]; [by exists 0|]. exists (Z.log2_up n).
  split_and!; [apply Z.log2_up_nonneg|done|by apply Z.log2_up_spec].
Qed.

(** The packet delay and the longest timeout, in whole seconds. *)
Record config_ok : Prop := {
  co_delay : 0 <= delay /\ delay mod NANOS = 0;
  co_max : NANOS <= max /\ max mod NANOS = 0;
}.

Lemma FlowMap_new_ok system_time flow_capacity s : config_ok -> delay + NANOS <= system_time ->
  wp (FlowMap_new system_time delay max flow_capacity s) (sound flow_capacity).
Proof.
  intros [[Hd Hd0] [Hx Hx0]] Ht. unfold FlowMap_new. rewrite dsub_ret by (unfold NANOS in *; lia). cbn [mbind run_bind].
  rewrite dsub_ret by lia. cbn [mbind run_bind wp]. set (size := delay / NANOS + Timestamp.as_secs max + 1).
  destruct (next_power_of_two_ok size) as (k & Hk & Hp & Hge). set (window := next_power_of_two size) in *.
  assert (delay + max + NANOS = size * NANOS) as Hsum.
  { unfold size. change (Timestamp.as_secs max) with (max / NANOS). unfold NANOS in *.
    pose proof (Z.div_mod delay 1000000000). pose proof (Z.div_mod max 1000000000). lia. }
  assert (window_ok window) as Hw by (split; [by exists k|done|done|unfold NANOS in *; lia]).
  split; [|cbn; split; [done|lia]]. split; cbn; [done|lia|done| |done]. split; [|by intros key nodes []%lookup_empty_Some].
  rewrite length_replicate. pose proof (window_pos window Hw). lia.
Qed.

(** What the dispatcher does to the flow map: packets and, when there are none,
    ticks at the system time. *)
Inductive event :=
  | Inject (p : MetaPacket) (now : Duration)
  | Tick (now : Duration).

Definition event_ok (e : event) : Prop :=
  match e with
  | Inject p _ => packet_ok p
  | Tick now => time_ok now
  end.

Definition step `{!DecapEnum} (c : MatchConfig) (m : FlowMap S) (e : event) : run (FlowMap S) :=
  match e with
  | Inject p now => '(m, _, _) ← inject_meta_packet delay c m p now; Ret m
  | Tick now => '(m, _, _) ← inject_flush_ticker delay m 0 now; Ret m
  end.

Lemma step_ok `{!DecapEnum} cap c m e : sound cap m -> event_ok e -> wp (step c m e) (sound cap).
Proof.
  intros Hm He. destruct e as [p now|now]; cbn [step]; apply wp_bind.
  - eapply wp_mono; [by apply (inject_meta_packet_ok cap c m p now)|]. intros [[m' p'] r] Hs. exact Hs.
  - eapply wp_mono; [by apply (inject_flush_ticker_ok m 0 now (proj1 Hm))|]. intros [[m' b] r] [Hs _]. by apply (flushed_sound cap m m' r).
Qed.

Lemma steps_ok `{!DecapEnum} cap c es m : sound cap m -> Forall event_ok es -> wp (rfold (step c) es m) (sound cap).
Proof.
  intros Hm Hes. apply (wp_mono _ (fun m => sound cap m /\ Forall event_ok [])); [|by intros m' []].
  apply (wp_rfold (step c) (fun es m => sound cap m /\ Forall event_ok es)); [done|]. intros e l m' [H1 H2].
  inversion H2; subst. eapply wp_mono; [by apply step_ok|]. done.
Qed.

(** Any flush of a sound map *)
Record flush_exact (cap : Z) (m m' : FlowMap S) (removed : list FlowNode) : Prop := {
  fx_ids : node_id <$> (all_nodes (node_map m') ++ removed) ≡ₚ node_id <$> all_nodes (node_map m);
  fx_removed : Forall (fun n => timeout_of n < fm_start_time m') removed;
  fx_kept : Forall (fun n => fm_start_time m' / NANOS <= Timestamp.as_secs (timeout_of n)) (all_nodes (node_map m'));
  fx_size : size m' = Z.of_nat (length (all_nodes (node_map m')));
  fx_capacity : size m <= Z.max 0 cap;
}.

Lemma kept_not_due m : flow_map_ok m ->
  Forall (fun n => fm_start_time m / NANOS <= Timestamp.as_secs (timeout_of n)) (all_nodes (node_map m)).
Proof.
  intros [_ _ Hu [_ Hw] _]. apply Forall_forall. intros n (nodes & Hin & Hn)%list_elem_of_join.
  apply list_elem_of_fmap in Hn as ([key nodes'] & -> & Hk%elem_of_map_to_list). destruct (Hw key nodes' Hk) as [_ Hns].
  rewrite Forall_forall in Hns. destruct (Hns n Hin) as ([_ _ _ Hd _] & Hv & _). rewrite <- Hu. lia.
Qed.

Lemma flush_exact_ok cap m m' removed : sound cap m -> flushed m m' removed -> flush_exact cap m m' removed.
Proof.
  intros (Hm & _ & Hc) [H1 H2 H3 H4 _]. split; [done|done|by apply kept_not_due|by apply mo_size|done].
Qed.

(** A new flow map after the events [es], and then a flush *)
Definition flush_after `{!DecapEnum} (system_time flow_capacity : Z) (s : S) (c : MatchConfig) (es : list event) (timestamp now : Duration)
    : run (FlowMap S * FlowMap S * list FlowNode) :=
  m ← FlowMap_new system_time delay max flow_capacity s;
  m ← rfold (step c) es m;
  '(m', _, removed) ← inject_flush_ticker delay m timestamp now;
  Ret (m, m', removed).


(** C1: No flow is lost and none stays too long, however packets and ticks are
    mixed.  After any sequence of packets and ticks from a new flow map, a flush
    returns; it keeps or removes each flow exactly once, removes only flows
    that timed out before the new start of the window, keeps no flow whose
    timeout lies in a second before it, and the size that is compared with the
    capacity is the number of flows and never above the capacity. *)
Theorem flush_removes_timed_out `{!DecapEnum} system_time flow_capacity s c es timestamp now : config_ok -> delay + NANOS <= system_time ->
  Forall event_ok es -> time_ok (ticker_time timestamp now) ->
  wp (flush_after system_time flow_capacity s c es timestamp now) (fun '(m, m', removed) => flush_exact flow_capacity m m' removed).
Proof.
  intros Hc Hsys Hes Ht. unfold flush_after. apply wp_bind. eapply wp_mono; [by apply FlowMap_new_ok|]. intros m0 Hm0.
  apply wp_bind. eapply wp_mono; [by apply steps_ok|]. intros m Hm. apply wp_bind.
  eapply wp_mono; [by apply (inject_flush_ticker_ok m timestamp now (proj1 Hm))|]. intros [[m' b] removed] [Hf _].
  by apply flush_exact_ok.
Qed.

End wheel.

(** ** A concrete flow map *)

(** Flows that time out five seconds after their last packet. *)
Definition ex_node (p : MetaPacket) : FlowNode :=
  Build_FlowNode (flow_opened p) (timestamp p) (timestamp p) (5 * NANOS) (Timestamp.as_secs (timestamp p)) None 0 0 0 true false true Raw.

#[export] Instance ex_ops : FlowOps unit := {|
  fo_init s p := Ret (s, p, Some (ex_node p));
  fo_update s n p := Ret (s, n <| recent_time := Z.max (recent_time n) (timestamp p) |> <| nd_timeout := 5 * NANOS |>, p, false);
  fo_report s n ts o := Ret (s, n, o);
  fo_remove s n ts o := Ret s;
  fo_close_event s n := s;
  fo_lookup s p := (s, p);
  fo_flush s ts := s;
|}.

Lemma ex_ops_ok : FlowOpsOk ex_ops (5 * NANOS) (fun _ => True) (fun _ => True).
Proof. split; cbn; [by intros ?? _ n [= <-]|done|intros _ n _ o _ _; split_and!; eauto; done|done..]. Qed.

#[export] Instance ex_drain : DrainOrder := elements.

#[export] Instance ex_drain_ok : DrainOrderOk ex_drain.
Proof. by intros X. Qed.

Definition at_second (t : Z) (p : MetaPacket) : MetaPacket := p <| lookup_key := ((lookup_key p) <| lk_timestamp := t * NANOS |>) |>.

Definition ex_events : list event :=
  [Inject (at_second 100 (ex_packet 7)) 0; Inject (at_second 101 (reverse_packet (ex_packet 7))) 0; Tick (103 * NANOS)].

Lemma ex_events_ok : Forall (event_ok (2 * NANOS) (5 * NANOS) (fun _ => True)) ex_events.
Proof.
  repeat apply Forall_cons_2; [| | |done].
  - split; [done|by vm_compute|eexists; vm_compute; reflexivity].
  - split; [done|by vm_compute|eexists; vm_compute; reflexivity].
  - by vm_compute.
Qed.

Lemma flush_removes_timed_out_witness :
  match @flush_after unit ex_ops ex_drain (2 * NANOS) (5 * NANOS) sample_enum (100 * NANOS) 10 tt ex_config ex_events 0 (200 * NANOS) with
  | Ret (m, m', removed) => size m = 1 /\ length removed = 1%nat /\ flush_exact 10 m m' removed
  | Panic => False
  end.
Proof.
  pose proof (@flush_removes_timed_out unit ex_ops ex_drain _ (2 * NANOS) (5 * NANOS) (fun _ => True) (fun _ => True) ex_ops_ok sample_enum
    (100 * NANOS) 10 tt ex_config ex_events 0 (200 * NANOS)) as Hw.
  assert (match @flush_after unit ex_ops ex_drain (2 * NANOS) (5 * NANOS) sample_enum (100 * NANOS) 10 tt ex_config ex_events 0 (200 * NANOS) with
          | Ret (m, _, removed) => (size m =? 1) && (length removed =? 1)%nat | Panic => false end = true) as Hr by (vm_compute; reflexivity).
  revert Hw Hr. generalize (@flush_after unit ex_ops ex_drain (2 * NANOS) (5 * NANOS) sample_enum (100 * NANOS) 10 tt ex_config ex_events 0 (200 * NANOS)).
  intros [[[m m'] removed]|] Hw Hr; [|done]. apply andb_true_iff in Hr as [H1%Z.eqb_eq H2%Nat.eqb_eq]. split_and!; [done|done|].
  apply Hw; [by split|by vm_compute| |by vm_compute].
  exact ex_events_ok.
Defined.
