(* ===== verification/ServiceTable.v ===== *)
(** * The service table (flow_generator/service_table.rs)

    [ServiceTable] keeps a score for each endpoint (address, EPC, port), the
    higher the more likely the endpoint is a server; the flow map compares the
    scores of both ends of a flow to find its direction.  The IPv4 and IPv6
    branches of an operation run the same code on their own cache, except that
    only the IPv4 scores are adjusted by port: the code of a branch is written
    once, in a section over the type of the keys.  The cache of the [lru] crate
    is the interface [LruCache]. *)

From stdpp Require Import gmap.
From S2P Require Import Prelude TcpFlags Bytes MetaPacket.

(** ** The cache *)

(** [LruCache] of the [lru] crate with scores as values. *)
Class LruCache (K : Type) := {
  lru : Type;
  lru_new : Z -> lru;
  lru_put : K -> Z -> lru -> lru;
  lru_pop : K -> lru -> lru;
  lru_get : K -> lru -> option Z * lru;
  lru_peek : K -> lru -> option Z;
}.
Arguments lru K {_}.

(** What the crate documents: [put] stores the entry and may evict another,
    [pop] removes the entry, [get] returns it and changes at most the order of
    eviction, [peek] is [get] without that. *)
Class LruCacheOk {K} (L : LruCache K) : Prop := {
  peek_new : forall n k, lru_peek k (lru_new n) = None;
  get_peek : forall k c, (lru_get k c).1 = lru_peek k c;
  peek_get : forall k k' c, lru_peek k' (lru_get k c).2 = lru_peek k' c;
  peek_put_eq : forall k v c, lru_peek k (lru_put k v c) = Some v;
  peek_put_ne : forall k k' v c, k' <> k -> lru_peek k' (lru_put k v c) = lru_peek k' c \/ lru_peek k' (lru_put k v c) = None;
  peek_pop_eq : forall k c, lru_peek k (lru_pop k c) = None;
  peek_pop_ne : forall k k' c, k' <> k -> lru_peek k' (lru_pop k c) = lru_peek k' c;
}.

(** ** Keys *)

Record Ipv4Key := { v4_addr : Z; v4_epc_id : Z; v4_port : Z }.
Record Ipv6Key := { v6_addr : bytes; v6_epc_id : Z; v6_port : Z }.

#[export] Instance Ipv4Key_eq_dec : EqDecision Ipv4Key.
Proof. solve_decision. Defined.

#[export] Instance Ipv6Key_eq_dec : EqDecision Ipv6Key.
Proof. solve_decision. Defined.

Inductive ServiceKey := KeyV4 (k : Ipv4Key) | KeyV6 (k : Ipv6Key).

(** [ServiceKey::new] *)
Definition ServiceKey_new (addr : IpAddr) (epc_id port : Z) : ServiceKey :=
  match addr with
  | V4 a => KeyV4 (Build_Ipv4Key a epc_id port)
  | V6 a => KeyV6 (Build_Ipv6Key a epc_id port)
  end.

(** ** Scores *)

Definition MIN_SCORE : Z := 0.
Definition MAX_SCORE : Z := 0xff.
Definition MAX_SCORE_FROM_CONFIG : Z := MAX_SCORE - 1.
Definition SCORE_DIFF_THRESHOLD : Z := 8.
Definition PORT_MSB : Z := Z.shiftl 1 15.

(** With close scores, the end with the port below 32768 is the server. *)
Definition adjust_score (flow_src_port flow_dst_port flow_src_score flow_dst_score : Z) : Z * Z :=
  let diff_value := if flow_dst_score <? flow_src_score then wsub 8 flow_src_score flow_dst_score
                    else wsub 8 flow_dst_score flow_src_score in
  if (diff_value <? SCORE_DIFF_THRESHOLD) && negb (Z.land (Z.lxor flow_src_port flow_dst_port) PORT_MSB =? 0) then
    if 0 <? Z.land flow_src_port PORT_MSB then (0, 1) else (1, 0)
  else (flow_src_score, flow_dst_score).

Definition is_client_to_server (flow_src_score flow_dst_score : Z) : bool := flow_src_score <=? flow_dst_score.

Definition is_active_service (flow_dst_score : Z) : bool := flow_dst_score =? MAX_SCORE.

(** ** The code of a branch *)

Section branch.
Context {K : Type} {L : LruCache K} (port : K -> Z) (port_map : gset Z) (adjusts : bool).

Definition score_of (k : K) (c : lru K) : Z * lru K :=
  let '(o, c) := lru_get k c in (default MIN_SCORE o, c).

(** The score of a port from the configuration has priority. *)
Definition configured_score (k : K) (c : lru K) : Z * lru K :=
  if bool_decide (port k ∈ port_map) then (MAX_SCORE_FROM_CONFIG, c) else score_of k c.

Definition adjust (src dst : K) (scores : Z * Z) : Z * Z :=
  if adjusts then adjust_score (port src) (port dst) scores.1 scores.2 else scores.

(** [src] is the server. *)
Definition src_serves (src dst : K) (c : lru K) : lru K := lru_pop dst (lru_put src MAX_SCORE c).

Definition first_packet_score (src dst : K) (c : lru K) : lru K * (Z * Z) :=
  let '(flow_src_score, c) := configured_score src c in
  let '(flow_dst_score, c) := configured_score dst c in
  if (flow_src_score =? MAX_SCORE) || (flow_dst_score =? MAX_SCORE) then (c, (flow_src_score, flow_dst_score))
  else
    let '(flow_src_score, c) :=
      if MIN_SCORE <? flow_src_score then
        let flow_src_score := wsub 8 flow_src_score 1 in
        (flow_src_score, if MIN_SCORE <? flow_src_score then lru_put src flow_src_score c else lru_pop src c)
      else (flow_src_score, c) in
    let '(flow_dst_score, c) :=
      if flow_dst_score <? MAX_SCORE - 1 then
        let flow_dst_score := wadd 8 flow_dst_score 1 in (flow_dst_score, lru_put dst flow_dst_score c)
      else (flow_dst_score, c) in
    (c, adjust src dst (flow_src_score, flow_dst_score)).

(** Both scores as they are stored *)
Definition stored_scores (src dst : K) (c : lru K) : lru K * (Z * Z) :=
  let '(flow_src_score, c) := score_of src c in
  let '(flow_dst_score, c) := score_of dst c in
  (c, adjust src dst (flow_src_score, flow_dst_score)).

Definition tcp_score (is_first_packet need_reverse_flow : bool) (direction : PacketDirection) (tcp_flags : Z)
    (toa_sent_by_flow_src toa_sent_by_flow_dst : bool) (src dst : K) (c : lru K) : lru K * (Z * Z) :=
  if TcpFlags.contains tcp_flags TcpFlags.SYN_ACK || toa_sent_by_flow_dst then (src_serves src dst c, (MAX_SCORE, MIN_SCORE))
  else if TcpFlags.contains tcp_flags TcpFlags.SYN || toa_sent_by_flow_src then
    let c := lru_pop src c in
    let '(flow_dst_score, c) := score_of dst c in
    if is_first_packet && (flow_dst_score <? MAX_SCORE - 1) then
      let flow_dst_score := wadd 8 flow_dst_score 1 in (lru_put dst flow_dst_score c, (MIN_SCORE, flow_dst_score))
    else (c, (MIN_SCORE, flow_dst_score))
  else if is_first_packet then first_packet_score src dst c
  else if need_reverse_flow then
    match direction with
    | ClientToServer => (src_serves src dst c, (MAX_SCORE, MIN_SCORE))
    | ServerToClient => (lru_pop dst (lru_put src MIN_SCORE c), (MIN_SCORE, MAX_SCORE))
    end
  else stored_scores src dst c.

Definition udp_score (need_reverse_flow : bool) (direction : PacketDirection) (src dst : K) (c : lru K) : lru K * (Z * Z) :=
  if need_reverse_flow then
    match direction with
    | ClientToServer => (lru_put src MAX_SCORE c, (MAX_SCORE, MIN_SCORE))
    | ServerToClient => (lru_put dst MAX_SCORE c, (MIN_SCORE, MAX_SCORE))
    end
  else stored_scores src dst c.

(** The role of a socket is 1 for [connect] and 2 for [accept]. *)
Definition ebpf_tcp_score (socket_role : Z) (l2_end_0 l2_end_1 : bool) (src dst : K) (c : lru K) : lru K * (Z * bool) :=
  let dst_serves := (lru_pop src (lru_put dst MAX_SCORE c), (MAX_SCORE, false)) in
  let src_serves := (lru_pop dst (lru_put src MAX_SCORE c), (MAX_SCORE, true)) in
  if (socket_role =? 1) && l2_end_0 then dst_serves
  else if (socket_role =? 1) && l2_end_1 then src_serves
  else if (socket_role =? 2) && l2_end_1 then dst_serves
  else if (socket_role =? 2) && l2_end_0 then src_serves
  else
    let '(source_score, c) := configured_score src c in
    let '(dest_score, c) := configured_score dst c in
    (c, (Z.max source_score dest_score, dest_score <? source_score)).

Definition reset_scores (src dst : K) (c : lru K) : lru K * unit :=
  (lru_put dst (MIN_SCORE + SCORE_DIFF_THRESHOLD + 1) (lru_put src MIN_SCORE c), tt).

End branch.

(** ** The table *)

Section table.
Context {L4 : LruCache Ipv4Key} {L6 : LruCache Ipv6Key}.

Record ServiceTable := {
  ipv4 : lru Ipv4Key;
  ipv6 : lru Ipv6Key;
  port_map : gset Z;
}.

#[export] Instance ServiceTable_fields : Fields ServiceTable := fun x => Build_ServiceTable (ipv4 x) (ipv6 x) (port_map x).

(** [ServiceTable::new]: a capacity of zero panics. *)
Definition ServiceTable_new (ipv4_capacity ipv6_capacity : Z) (server_ports : list Z) : run ServiceTable :=
  rassert (0 <? ipv4_capacity);;
  rassert (0 <? ipv6_capacity);;
  Ret (Build_ServiceTable (lru_new ipv4_capacity) (lru_new ipv6_capacity) (list_to_set (filter (fun p => p <> 0) server_ports))).

(** [match (flow_src_key, flow_dst_key)]: keys of different versions panic. *)
Definition on_keys {A} (t : ServiceTable) (src dst : ServiceKey) (f4 : Ipv4Key -> Ipv4Key -> lru Ipv4Key -> lru Ipv4Key * A)
    (f6 : Ipv6Key -> Ipv6Key -> lru Ipv6Key -> lru Ipv6Key * A) : run (ServiceTable * A) :=
  match src, dst with
  | KeyV4 src, KeyV4 dst => let '(c, a) := f4 src dst (ipv4 t) in Ret (t <| ipv4 := c |>, a)
  | KeyV6 src, KeyV6 dst => let '(c, a) := f6 src dst (ipv6 t) in Ret (t <| ipv6 := c |>, a)
  | _, _ => Panic
  end.

Definition get_first_packet_score (t : ServiceTable) (src dst : ServiceKey) : run (ServiceTable * (Z * Z)) :=
  on_keys t src dst (first_packet_score v4_port (port_map t) true) (first_packet_score v6_port (port_map t) false).

Definition get_tcp_score (t : ServiceTable) (is_first_packet need_reverse_flow : bool) (direction : PacketDirection) (tcp_flags : Z)
    (toa_sent_by_flow_src toa_sent_by_flow_dst : bool) (src dst : ServiceKey) : run (ServiceTable * (Z * Z)) :=
  on_keys t src dst
    (tcp_score v4_port (port_map t) true is_first_packet need_reverse_flow direction tcp_flags toa_sent_by_flow_src toa_sent_by_flow_dst)
    (tcp_score v6_port (port_map t) false is_first_packet need_reverse_flow direction tcp_flags toa_sent_by_flow_src toa_sent_by_flow_dst).

Definition get_udp_score (t : ServiceTable) (is_first_packet need_reverse_flow : bool) (direction : PacketDirection)
    (src dst : ServiceKey) : run (ServiceTable * (Z * Z)) :=
  if is_first_packet then get_first_packet_score t src dst
  else on_keys t src dst (udp_score v4_port true need_reverse_flow direction) (udp_score v6_port false need_reverse_flow direction).

Definition get_ebpf_tcp_score (t : ServiceTable) (socket_role : Z) (l2_end_0 l2_end_1 : bool) (src dst : ServiceKey)
    : run (ServiceTable * (Z * bool)) :=
  on_keys t src dst (ebpf_tcp_score v4_port (port_map t) socket_role l2_end_0 l2_end_1)
    (ebpf_tcp_score v6_port (port_map t) socket_role l2_end_0 l2_end_1).

Definition reset_score (t : ServiceTable) (src dst : ServiceKey) : run (ServiceTable * unit) :=
  on_keys t src dst reset_scores reset_scores.

(** An answer makes its sender an active service; a request asks for its receiver. *)
Definition is_ebpf_active_udp_service (t : ServiceTable) (src dst : ServiceKey) (direction : PacketDirection) : ServiceTable * bool :=
  match direction with
  | ClientToServer =>
      match dst with
      | KeyV4 k => let '(s, c) := score_of k (ipv4 t) in (t <| ipv4 := c |>, 0 <? s)
      | KeyV6 k => let '(s, c) := score_of k (ipv6 t) in (t <| ipv6 := c |>, 0 <? s)
      end
  | ServerToClient =>
      match src with
      | KeyV4 k => (t <| ipv4 := lru_put k 1 (ipv4 t) |>, true)
      | KeyV6 k => (t <| ipv6 := lru_put k 1 (ipv6 t) |>, true)
      end
  end.

End table.

Arguments ServiceTable {L4 L6}.
