(* ===== verification/ServiceSpec.v ===== *)
(** * What the service table learns

    Scores are bytes that saturate, and the highest one, which makes a service
    active, is only given for evidence; an endpoint that answered with SYN and
    ACK is taken as the server by every later packet of the conversation. *)

From stdpp Require Import gmap.
From S2P Require Import Prelude TcpFlags Bytes MetaPacket ServiceTable.

(** ** Evidence *)

Section evidence.
Context {K : Type} `{!EqDecision K} {L : LruCache K} {Lok : LruCacheOk L} (port : K -> Z) (port_map : gset Z) (adjusts : bool).

(** The scores of the cache are bytes, and [E] holds of the active services. *)
Definition sane (E : K -> Prop) (c : lru K) : Prop := forall k s, lru_peek k c = Some s -> 0 <= s <= MAX_SCORE /\ (s = MAX_SCORE -> E k).

Lemma sane_put (E : K -> Prop) k v c : sane E c -> 0 <= v <= MAX_SCORE -> (v = MAX_SCORE -> E k) -> sane E (lru_put k v c).
Proof.
  intros Hc Hv HE k' s Hs. destruct (decide (k' = k)) as [->|Hne].
  - rewrite peek_put_eq in Hs. injection Hs as <-. done.
  - destruct (peek_put_ne k k' v c Hne) as [He|He]; rewrite He in Hs; [by apply Hc|done].
Qed.

Lemma sane_pop (E : K -> Prop) k c : sane E c -> sane E (lru_pop k c).
Proof.
  intros Hc k' s Hs. destruct (decide (k' = k)) as [->|Hne]; [by rewrite peek_pop_eq in Hs|]. rewrite peek_pop_ne in Hs by done. by apply Hc.
Qed.

Lemma sane_weaken (E E' : K -> Prop) c : (forall k, E k -> E' k) -> sane E c -> sane E' c.
Proof. intros HE Hc k s Hs. destruct (Hc k s Hs). split; [done|auto]. Qed.

(** The stored score of a key, and what is left after a lookup. *)
Lemma score_of_eq k c : exists c', score_of k c = (default MIN_SCORE (lru_peek k c), c') /\ forall k', lru_peek k' c' = lru_peek k' c.
Proof.
  unfold score_of. pose proof (get_peek k c) as H1. pose proof (fun k' => peek_get k k' c) as H2.
  destruct (lru_get k c) as [o c']. cbn in *. exists c'. by rewrite H1.
Qed.

Lemma sane_same (E : K -> Prop) c c' : (forall k, lru_peek k c' = lru_peek k c) -> sane E c -> sane E c'.
Proof. intros He Hc k s. rewrite He. apply Hc. Qed.

Lemma score_of_sane E k c : sane E c -> let '(s, c') := score_of k c in sane E c' /\ 0 <= s <= MAX_SCORE /\ (s = MAX_SCORE -> E k).
Proof.
  intros Hc. destruct (score_of_eq k c) as (c' & -> & He). split; [by apply (sane_same E c)|].
  destruct (lru_peek k c) as [s|] eqn:Es; [by apply Hc|]. done.
Qed.

Lemma configured_score_sane E k c : sane E c ->
  let '(s, c') := configured_score port port_map k c in sane E c' /\ 0 <= s <= MAX_SCORE /\ (s = MAX_SCORE -> E k).
Proof. intros Hc. unfold configured_score. case_bool_decide; [done|]. by apply score_of_sane. Qed.

Lemma src_serves_sane (E : K -> Prop) src dst c : sane E c -> E src -> sane E (src_serves src dst c).
Proof. intros Hc HE. by apply sane_pop, sane_put. Qed.

Lemma first_packet_sane (E : K -> Prop) src dst c : sane E c -> sane E (first_packet_score port port_map adjusts src dst c).1.
Proof.
  intros Hc. unfold first_packet_score.
  pose proof (configured_score_sane E src c Hc) as H1. destruct (configured_score port port_map src c) as [s c1]. destruct H1 as (Hc1 & Hs & HsE).
  pose proof (configured_score_sane E dst c1 Hc1) as H2. destruct (configured_score port port_map dst c1) as [d c2]. destruct H2 as (Hc2 & Hd & HdE).
  destruct ((s =? MAX_SCORE) || (d =? MAX_SCORE)) eqn:Em; [done|]. apply orb_false_iff in Em as [Em1%Z.eqb_neq Em2%Z.eqb_neq].
  unfold MAX_SCORE, MIN_SCORE in *.
  set (c3 := if 0 <? s then _ else _). assert (sane E c3.2) as Hc3.
  { unfold c3. destruct (Z.ltb_spec 0 s) as [Hp|]; [|done]. cbn [snd]. rewrite wsub_small by (unfold fits; lia).
    destruct (0 <? s - 1); [apply sane_put; unfold MAX_SCORE; [done|lia|intros ?; lia]|by apply sane_pop]. }
  destruct c3 as [s' c3]. cbn [snd] in Hc3. destruct (Z.ltb_spec d (255 - 1)) as [Hlt|]; [|done]. cbn [fst].
  rewrite wadd_small by (unfold fits; lia). apply sane_put; unfold MAX_SCORE; [done|lia|intros ?; lia].
Qed.

Lemma stored_scores_sane (E : K -> Prop) src dst c : sane E c -> sane E (stored_scores port adjusts src dst c).1.
Proof.
  intros Hc. unfold stored_scores. destruct (score_of_eq src c) as (c1 & -> & H1). destruct (score_of_eq dst c1) as (c2 & -> & H2).
  by apply (sane_same E c1), (sane_same E c).
Qed.

(** The segments and reversals that prove [src] to be the server. *)
Definition tcp_evidence (is_first_packet need_reverse_flow : bool) (direction : PacketDirection) (tcp_flags : Z) (toa_src toa_dst : bool) : bool :=
  TcpFlags.contains tcp_flags TcpFlags.SYN_ACK || toa_dst
  || (negb (TcpFlags.contains tcp_flags TcpFlags.SYN || toa_src) && negb is_first_packet && need_reverse_flow
      && bool_decide (direction = ClientToServer)).

Lemma tcp_score_sane (E : K -> Prop) first rev d flags ts td src dst c : sane E c ->
  (tcp_evidence first rev d flags ts td = true -> E src) -> sane E (tcp_score port port_map adjusts first rev d flags ts td src dst c).1.
Proof.
  intros Hc HE. unfold tcp_score, tcp_evidence in *. destruct (TcpFlags.contains flags TcpFlags.SYN_ACK || td); [by apply src_serves_sane, HE|].
  destruct (TcpFlags.contains flags TcpFlags.SYN || ts).
  { pose proof (score_of_sane E dst (lru_pop src c) (sane_pop E src c Hc)) as H1. destruct (score_of dst (lru_pop src c)) as [s c1].
    destruct H1 as (Hc1 & Hs & _). destruct first; [|done]. cbn [andb]. unfold MAX_SCORE in *. destruct (Z.ltb_spec s (255 - 1)); [|done].
    cbn [fst]. rewrite wadd_small by (unfold fits; lia). apply sane_put; unfold MAX_SCORE; [done|lia|intros ?; lia]. }
  destruct first; [by apply first_packet_sane|]. destruct rev; [|by apply stored_scores_sane].
  destruct d; [by apply src_serves_sane, HE|]. by apply sane_pop, sane_put.
Qed.

Lemma udp_score_sane (E : K -> Prop) rev d src dst c : sane E c ->
  (rev = true -> E match d with ClientToServer => src | ServerToClient => dst end) -> sane E (udp_score port adjusts rev d src dst c).1.
Proof.
  intros Hc HE. unfold udp_score. destruct rev; [|by apply stored_scores_sane]. destruct d; by apply sane_put; [|done|intros _; apply HE].
Qed.

(** The server by the role of a socket *)
Definition role_evidence (socket_role : Z) (l2_end_0 l2_end_1 : bool) (src dst : K) : option K :=
  if (socket_role =? 1) && l2_end_0 then Some dst
  else if (socket_role =? 1) && l2_end_1 then Some src
  else if (socket_role =? 2) && l2_end_1 then Some dst
  else if (socket_role =? 2) && l2_end_0 then Some src
  else None.

Lemma ebpf_score_sane (E : K -> Prop) role e0 e1 src dst c : sane E c ->
  (forall k, role_evidence role e0 e1 src dst = Some k -> E k) -> sane E (ebpf_tcp_score port port_map role e0 e1 src dst c).1.
Proof.
  intros Hc HE. unfold ebpf_tcp_score, role_evidence in *.
  repeat (case_match; [by apply sane_pop, sane_put; [|done|intros _; apply HE]|]).
  pose proof (configured_score_sane E src c Hc) as Hs. destruct (configured_score port port_map src c) as [s c1]. destruct Hs as (Hc1 & _).
  pose proof (configured_score_sane E dst c1 Hc1) as Hd. destruct (configured_score port port_map dst c1) as [d c2]. by destruct Hd.
Qed.

Lemma reset_scores_sane (E : K -> Prop) src dst c : sane E c -> sane E (reset_scores src dst c).1.
Proof. intros Hc. by apply sane_put; [apply sane_put|..]. Qed.

End evidence.

(** ** A known server *)

Section conversation.
Context {K : Type} `{!EqDecision K} {L : LruCache K} {Lok : LruCacheOk L} (port : K -> Z) (port_map : gset Z) (adjusts : bool).
Context (client server : K) (Hne : client <> server) (Hc : port client ∉ port_map) (Hs : port server ∉ port_map).

(** The server has the highest score, the client is well below. *)
Definition knows (c : lru K) : Prop :=
  lru_peek server c = Some MAX_SCORE /\ 0 <= default MIN_SCORE (lru_peek client c) <= MAX_SCORE - SCORE_DIFF_THRESHOLD.

Lemma knows_same c c' : (forall k, lru_peek k c' = lru_peek k c) -> knows c -> knows c'.
Proof. intros He. unfold knows. by rewrite !He. Qed.

Lemma knows_learned c : knows (src_serves server client c).
Proof. unfold knows, src_serves. rewrite peek_pop_ne, peek_put_eq, peek_pop_eq by done. done. Qed.

Lemma knows_scores c : knows c -> exists c', score_of server c = (MAX_SCORE, c') /\ knows c'.
Proof. intros Hk. destruct (score_of_eq server c) as (c' & -> & He). exists c'. rewrite (proj1 Hk). split; [done|by apply (knows_same c)]. Qed.

Lemma knows_client c : knows c -> exists c' s, score_of client c = (s, c') /\ 0 <= s <= MAX_SCORE - SCORE_DIFF_THRESHOLD /\ knows c'.
Proof.
  intros Hk. destruct (score_of_eq client c) as (c' & -> & He). exists c', (default MIN_SCORE (lru_peek client c)).
  split; [done|]. split; [apply Hk|by apply (knows_same c)].
Qed.

(** Scores that far apart are not adjusted. *)
Lemma adjust_far src dst s d : 0 <= s <= MAX_SCORE -> 0 <= d <= MAX_SCORE -> SCORE_DIFF_THRESHOLD <= Z.abs (s - d) -> adjust port adjusts src dst (s, d) = (s, d).
Proof.
  unfold SCORE_DIFF_THRESHOLD, MAX_SCORE. intros H1 H2 Hd. unfold adjust, adjust_score. destruct adjusts; [|done]. cbn [fst snd].
  destruct (Z.ltb_spec d s); rewrite wsub_small by (unfold fits; lia); unfold SCORE_DIFF_THRESHOLD;
    rewrite (proj2 (Z.ltb_ge _ 8)) by lia; done.
Qed.

(** The scores of a packet from the client, or of one from the server. *)
Definition right_scores (from_server : bool) (scores : Z * Z) : Prop :=
  is_client_to_server scores.1 scores.2 = negb from_server /\ (if from_server then scores.1 else scores.2) = MAX_SCORE.

Lemma right_scores_client s : 0 <= s <= MAX_SCORE - SCORE_DIFF_THRESHOLD -> right_scores false (s, MAX_SCORE).
Proof. intros Hb. split; [|done]. apply Z.leb_le. unfold MAX_SCORE, SCORE_DIFF_THRESHOLD in *. cbn. lia. Qed.

Lemma right_scores_server s : 0 <= s <= MAX_SCORE - SCORE_DIFF_THRESHOLD -> right_scores true (MAX_SCORE, s).
Proof. intros Hb. split; [|done]. apply Z.leb_gt. unfold MAX_SCORE, SCORE_DIFF_THRESHOLD in *. cbn. lia. Qed.

Lemma stored_scores_known (from_server : bool) c : knows c ->
  let '(c', scores) := stored_scores port adjusts (if from_server then server else client) (if from_server then client else server) c in
  knows c' /\ right_scores from_server scores.
Proof.
  intros Hk. unfold stored_scores. destruct from_server.
  - destruct (knows_scores c Hk) as (c1 & -> & Hk1). destruct (knows_client c1 Hk1) as (c2 & s & -> & Hb & Hk2). split; [done|].
    rewrite adjust_far by (unfold MAX_SCORE, SCORE_DIFF_THRESHOLD in *; lia). by apply right_scores_server.
  - destruct (knows_client c Hk) as (c1 & s & -> & Hb & Hk1). destruct (knows_scores c1 Hk1) as (c2 & -> & Hk2). split; [done|].
    rewrite adjust_far by (unfold MAX_SCORE, SCORE_DIFF_THRESHOLD in *; lia). by apply right_scores_client.
Qed.

Lemma first_packet_known (from_server : bool) c : knows c ->
  let '(c', scores) := first_packet_score port port_map adjusts (if from_server then server else client) (if from_server then client else server) c in
  knows c' /\ right_scores from_server scores.
Proof.
  intros Hk. unfold first_packet_score, configured_score. destruct from_server; rewrite !bool_decide_false by done.
  - destruct (knows_scores c Hk) as (c1 & -> & Hk1). destruct (knows_client c1 Hk1) as (c2 & s & -> & Hb & Hk2).
    rewrite Z.eqb_refl. cbn [orb]. split; [done|by apply right_scores_server].
  - destruct (knows_client c Hk) as (c1 & s & -> & Hb & Hk1). destruct (knows_scores c1 Hk1) as (c2 & -> & Hk2).
    rewrite Z.eqb_refl, orb_true_r. split; [done|by apply right_scores_client].
Qed.

(** A packet that does not contradict: the client does not send SYN and ACK, the
    server no SYN alone. *)
Definition consistent (from_server : bool) (flags : Z) : bool :=
  if from_server then TcpFlags.contains flags TcpFlags.SYN_ACK || negb (TcpFlags.contains flags TcpFlags.SYN)
  else negb (TcpFlags.contains flags TcpFlags.SYN_ACK).

Lemma tcp_score_known (from_server first : bool) d flags c : knows c -> consistent from_server flags = true ->
  let '(c', scores) := tcp_score port port_map adjusts first false d flags false false
    (if from_server then server else client) (if from_server then client else server) c in
  knows c' /\ right_scores from_server scores.
Proof.
  intros Hk Hf. unfold tcp_score. rewrite !orb_false_r. destruct (TcpFlags.contains flags TcpFlags.SYN_ACK) eqn:Esa.
  { destruct from_server; [|unfold consistent in Hf; by rewrite Esa in Hf]. split; [apply knows_learned|by apply right_scores_server]. }
  destruct (TcpFlags.contains flags TcpFlags.SYN) eqn:Es.
  { destruct from_server; [unfold consistent in Hf; by rewrite Esa, Es in Hf|].
    assert (knows (lru_pop client c)) as Hk0.
    { split; [rewrite peek_pop_ne by done; apply Hk|by rewrite peek_pop_eq]. }
    destruct (knows_scores _ Hk0) as (c1 & -> & Hk1). destruct first; (split; [done|by apply right_scores_client]). }
  destruct first; [by apply first_packet_known|by apply stored_scores_known].
Qed.

End conversation.

(** ** Runs of the table *)

Section runs.
Context {L4 : LruCache Ipv4Key} {L6 : LruCache Ipv6Key} {L4ok : LruCacheOk L4} {L6ok : LruCacheOk L6}.

(** The operations of the flow map on the table *)
Inductive op :=
  | GetTcp (is_first_packet need_reverse_flow : bool) (direction : PacketDirection) (tcp_flags : Z) (toa_src toa_dst : bool) (src dst : ServiceKey)
  | GetUdp (is_first_packet need_reverse_flow : bool) (direction : PacketDirection) (src dst : ServiceKey)
  | GetEbpf (socket_role : Z) (l2_end_0 l2_end_1 : bool) (src dst : ServiceKey)
  | EbpfUdp (src dst : ServiceKey) (direction : PacketDirection)
  | ResetScore (src dst : ServiceKey).

Definition table_step (t : ServiceTable) (o : op) : run ServiceTable :=
  match o with
  | GetTcp first rev d flags ts td src dst => fst <$> get_tcp_score t first rev d flags ts td src dst
  | GetUdp first rev d src dst => fst <$> get_udp_score t first rev d src dst
  | GetEbpf role e0 e1 src dst => fst <$> get_ebpf_tcp_score t role e0 e1 src dst
  | EbpfUdp src dst d => Ret (is_ebpf_active_udp_service t src dst d).1
  | ResetScore src dst => fst <$> reset_score t src dst
  end.

(** The endpoint an operation proves to be a server *)
Definition evidence (o : op) (k : ServiceKey) : Prop :=
  match o with
  | GetTcp first rev d flags ts td src dst => k = src /\ tcp_evidence first rev d flags ts td = true
  | GetUdp first rev d src dst => first = false /\ rev = true /\ k = match d with ClientToServer => src | ServerToClient => dst end
  | GetEbpf role e0 e1 src dst => role_evidence role e0 e1 src dst = Some k
  | EbpfUdp _ _ _ | ResetScore _ _ => False
  end.

Definition same_version (src dst : ServiceKey) : bool :=
  match src, dst with KeyV4 _, KeyV4 _ | KeyV6 _, KeyV6 _ => true | _, _ => false end.

Definition op_ok (o : op) : Prop :=
  match o with
  | GetTcp _ _ _ _ _ _ src dst | GetUdp _ _ _ src dst | GetEbpf _ _ _ src dst | ResetScore src dst => same_version src dst = true
  | EbpfUdp _ _ _ => True
  end.

(** The stored score of an endpoint *)
Definition known (t : ServiceTable) (k : ServiceKey) : option Z :=
  match k with KeyV4 k => lru_peek k (ipv4 t) | KeyV6 k => lru_peek k (ipv6 t) end.

Definition table_sane (E : ServiceKey -> Prop) (t : ServiceTable) : Prop :=
  sane (fun k => E (KeyV4 k)) (ipv4 t) /\ sane (fun k => E (KeyV6 k)) (ipv6 t).

Lemma on_keys_sane {A} E (t : ServiceTable) src dst f4 f6 : table_sane E t -> same_version src dst = true ->
  (forall s d, src = KeyV4 s -> dst = KeyV4 d -> sane (fun k => E (KeyV4 k)) (f4 s d (ipv4 t)).1) ->
  (forall s d, src = KeyV6 s -> dst = KeyV6 d -> sane (fun k => E (KeyV6 k)) (f6 s d (ipv6 t)).1) ->
  wp (fst <$> on_keys (A := A) t src dst f4 f6) (table_sane E).
Proof.
  intros [H4 H6] Hv F4 F6. unfold on_keys. destruct src as [s|s], dst as [d|d]; [|done..|].
  - specialize (F4 s d eq_refl eq_refl). destruct (f4 s d (ipv4 t)) as [c a]. by split.
  - specialize (F6 s d eq_refl eq_refl). destruct (f6 s d (ipv6 t)) as [c a]. by split.
Qed.

Lemma score_of_any_sane {K} `{!EqDecision K} {L : LruCache K} {Lok : LruCacheOk L} (E : K -> Prop) k (c : lru K) :
  sane E c -> sane E (score_of k c).2.
Proof. intros Hc. pose proof (score_of_sane E k c Hc) as H. destruct (score_of k c). apply H. Qed.

Lemma ebpf_udp_sane E t src dst d : table_sane E t -> table_sane E (is_ebpf_active_udp_service t src dst d).1.
Proof.
  intros [H4 H6]. unfold is_ebpf_active_udp_service. destruct d.
  - destruct dst as [k|k]; [pose proof (score_of_any_sane _ k _ H4) as H|pose proof (score_of_any_sane _ k _ H6) as H];
      destruct (score_of k _) as [s c]; by split.
  - destruct src as [k|k]; split; try done; by apply sane_put.
Qed.

Lemma table_step_sane (E : ServiceKey -> Prop) t o : table_sane E t -> op_ok o -> (forall k, evidence o k -> E k) -> wp (table_step t o) (table_sane E).
Proof.
  intros Ht Ho HE. destruct o as [first rev d flags ts td src dst|first rev d src dst|role e0 e1 src dst|src dst d|src dst]; cbn [table_step].
  - destruct Ht as [H4 H6]. apply on_keys_sane; [done|done|..]; intros s e -> ->; apply tcp_score_sane; try done; intros Hev; by apply HE.
  - unfold get_udp_score, get_first_packet_score. destruct Ht as [H4 H6].
    destruct first; (apply on_keys_sane; [done|done|..]); intros s e -> ->; try by apply first_packet_sane.
    all: apply udp_score_sane; [done|intros ->; apply HE; by destruct d].
  - destruct Ht as [H4 H6]. apply on_keys_sane; [done|done|..]; intros s e -> ->; apply ebpf_score_sane; try done; intros k Hk; apply HE; cbn;
      unfold role_evidence in *; repeat case_match; congruence.
  - by apply ebpf_udp_sane.
  - destruct Ht as [H4 H6]. apply on_keys_sane; [done|done|..]; intros s e -> ->; by apply reset_scores_sane.
Qed.

Lemma table_sane_weaken (E E' : ServiceKey -> Prop) t : (forall k, E k -> E' k) -> table_sane E t -> table_sane E' t.
Proof. intros HE [H4 H6]. split; eapply sane_weaken; [|done| |done]; intros k; apply HE. Qed.

Lemma table_run_sane os : forall (E : ServiceKey -> Prop) t, table_sane E t -> Forall op_ok os ->
  wp (rfold table_step os t) (table_sane (fun k => E k \/ Exists (fun o => evidence o k) os)).
Proof.
  induction os as [|o os IH]; intros E t Ht Hos; cbn [rfold]; [by apply (table_sane_weaken E); [auto|]|].
  apply Forall_cons in Hos as [Ho Hos]. apply wp_bind. eapply wp_mono.
  { apply (table_step_sane (fun k => E k \/ evidence o k)); [by apply (table_sane_weaken E); [auto|]|done|by right]. }
  intros t' Ht'. eapply wp_mono; [apply (IH _ t' Ht' Hos)|]. intros t''. apply table_sane_weaken. intros k [[?|?]|?]; [by left|right..].
  - by apply Exists_cons_hd.
  - by apply Exists_cons_tl.
Qed.

Lemma table_new_sane E c4 c6 ports : 0 < c4 -> 0 < c6 -> wp (ServiceTable_new c4 c6 ports) (table_sane E).
Proof.
  intros H4 H6. unfold ServiceTable_new. rewrite (proj2 (Z.ltb_lt 0 c4) H4), (proj2 (Z.ltb_lt 0 c6) H6). cbn.
  split; intros k s; cbn; by rewrite peek_new.
Qed.

(** C30: A service is active only for a reason.  After any sequence of queries
    by packets, eBPF sockets and resets, every stored score is a byte, and the
    score of an active service is stored only for an endpoint that sent a SYN
    and ACK, whose peer sent a TOA option, towards which a flow was reversed,
    or whose socket was accepting: counting alone saturates below it, and never
    wraps around. *)
Theorem active_service_needs_evidence c4 c6 ports os k : 0 < c4 -> 0 < c6 -> Forall op_ok os ->
  wp (t ← ServiceTable_new c4 c6 ports; rfold table_step os t) (fun t => forall s, known t k = Some s ->
    0 <= s <= MAX_SCORE /\ (s = MAX_SCORE -> Exists (fun o => evidence o k) os)).
Proof.
  intros H4 H6 Hos. apply wp_bind. eapply wp_mono; [by apply (table_new_sane (fun _ => False))|]. intros t Ht.
  eapply wp_mono; [by apply table_run_sane|]. intros t' [S4 S6] s Hs.
  destruct k as [k|k]; [destruct (S4 k s Hs) as [Hb He]|destruct (S6 k s Hs) as [Hb He]]; (split; [done|]); intros Hm; by destruct (He Hm).
Qed.


(** *** A conversation *)

Record segment := { sg_from_server : bool; sg_first : bool; sg_direction : PacketDirection; sg_flags : Z }.

Definition query (client server : ServiceKey) (t : ServiceTable) (x : segment) : run (ServiceTable * (Z * Z)) :=
  get_tcp_score t (sg_first x) false (sg_direction x) (sg_flags x) false false
    (if sg_from_server x then server else client) (if sg_from_server x then client else server).

(** The directions the table gives to the packets: true from client to server. *)
Definition query_next (client server : ServiceKey) (st : ServiceTable * list bool) (x : segment) : run (ServiceTable * list bool) :=
  '(t, scores) ← query client server st.1 x;
  Ret (t, st.2 ++ [is_client_to_server scores.1 scores.2]).

Definition port_of (k : ServiceKey) : Z := match k with KeyV4 k => v4_port k | KeyV6 k => v6_port k end.

Definition table_knows (client server : ServiceKey) (t : ServiceTable) : Prop :=
  match client, server with
  | KeyV4 c, KeyV4 s => knows c s (ipv4 t)
  | KeyV6 c, KeyV6 s => knows c s (ipv6 t)
  | _, _ => False
  end.

Record parties (client server : ServiceKey) (ports : gset Z) : Prop := {
  pa_version : same_version client server = true;
  pa_differ : client <> server;
  pa_client : port_of client ∉ ports;
  pa_server : port_of server ∉ ports;
}.

Lemma query_known client server t x : parties client server (port_map t) -> table_knows client server t ->
  consistent (sg_from_server x) (sg_flags x) = true ->
  wp (query client server t x) (fun '(t', scores) => table_knows client server t' /\ port_map t' = port_map t /\ right_scores (sg_from_server x) scores).
Proof.
  intros [Hv Hd Hc Hs] Hk Hx. unfold query, get_tcp_score.
  destruct client as [c|c], server as [s|s]; [|done..|]; unfold on_keys.
  - pose proof (tcp_score_known v4_port (port_map t) true c s ltac:(congruence) Hc Hs (sg_from_server x) (sg_first x) (sg_direction x) _ _ Hk Hx) as H.
    destruct (sg_from_server x); destruct (tcp_score _ _ _ _ _ _ _ _ _ _ _ _) as [c' scores]; by destruct H.
  - pose proof (tcp_score_known v6_port (port_map t) false c s ltac:(congruence) Hc Hs (sg_from_server x) (sg_first x) (sg_direction x) _ _ Hk Hx) as H.
    destruct (sg_from_server x); destruct (tcp_score _ _ _ _ _ _ _ _ _ _ _ _) as [c' scores]; by destruct H.
Qed.

Lemma queries_known client server xs : forall t dirs, parties client server (port_map t) -> table_knows client server t ->
  Forall (fun x => consistent (sg_from_server x) (sg_flags x) = true) xs ->
  wp (rfold (query_next client server) xs (t, dirs)) (fun '(_, dirs') => dirs' = dirs ++ ((fun x => negb (sg_from_server x)) <$> xs)).
Proof.
  induction xs as [|x xs IH]; intros t dirs Hp Hk Hxs; cbn [rfold]; [cbn; by rewrite app_nil_r|].
  apply Forall_cons in Hxs as [Hx Hxs]. unfold query_next at 1. cbn [fst snd]. apply wp_bind, wp_bind.
  eapply wp_mono; [by apply query_known|]. intros [t' scores] (Hk' & Hpm & Hr & _). cbn [wp].
  eapply wp_mono; [apply IH; [by rewrite Hpm|done|done]|]. intros [t'' dirs''] ->. rewrite Hr, <- app_assoc. done.
Qed.

Lemma learned client server t first d flags : same_version client server = true -> client <> server ->
  TcpFlags.contains flags TcpFlags.SYN_ACK = true ->
  wp (get_tcp_score t first false d flags false false server client) (fun '(t', _) => table_knows client server t' /\ port_map t' = port_map t).
Proof.
  intros Hv Hd Hf. unfold get_tcp_score, on_keys, tcp_score. rewrite Hf.
  destruct client as [c|c], server as [s|s]; [|done..|]; cbn; (split; [|done]); apply knows_learned; congruence.
Qed.


(** A reversal reported by a packet of the server is returned but not stored:
    the score of the server is dropped. *)
Lemma reversal_not_stored t src dst : same_version src dst = true -> src <> dst ->
  wp (get_tcp_score t false true ServerToClient 0 false false src dst) (fun '(t', scores) => scores = (MIN_SCORE, MAX_SCORE) /\ known t' dst = None).
Proof.
  intros Hv Hd. destruct src as [s|s], dst as [d|d]; [|done..|]; cbn; (split; [done|]); apply peek_pop_eq.
Qed.

End runs.

(** ** A concrete cache *)

Section list_lru.
Context {K : Type} `{!EqDecision K}.

(** The entries, the most recently used first, and one less than the capacity. *)
Record list_lru := { ll_spare : nat; ll_entries : list (K * Z) }.

Definition find_key (k : K) (l : list (K * Z)) : option Z := snd <$> head (filter (fun e => e.1 = k) l).
Definition drop_key (k : K) (l : list (K * Z)) : list (K * Z) := filter (fun e => e.1 <> k) l.

#[export] Instance list_cache : LruCache K := {|
  lru := list_lru;
  lru_new n := Build_list_lru (Z.to_nat n - 1) [];
  lru_put k v c := Build_list_lru (ll_spare c) ((k, v) :: take (ll_spare c) (drop_key k (ll_entries c)));
  lru_pop k c := Build_list_lru (ll_spare c) (drop_key k (ll_entries c));
  lru_get k c := match find_key k (ll_entries c) with
                 | Some v => (Some v, Build_list_lru (ll_spare c) ((k, v) :: drop_key k (ll_entries c)))
                 | None => (None, c)
                 end;
  lru_peek k c := find_key k (ll_entries c);
|}.

Lemma find_key_cons k k' v l : find_key k' ((k, v) :: l) = if decide (k = k') then Some v else find_key k' l.
Proof. unfold find_key. rewrite filter_cons. cbn. by case_decide. Qed.

Lemma find_key_drop k k' l : find_key k' (drop_key k l) = if decide (k = k') then None else find_key k' l.
Proof.
  unfold drop_key. induction l as [|[x v] l IH]; [by case_decide|]. rewrite filter_cons, find_key_cons. cbn.
  destruct (decide (x = k)) as [->|Hx]; cbn; [rewrite decide_False by tauto|rewrite decide_True, find_key_cons by done].
  - rewrite IH. by case_decide.
  - destruct (decide (x = k')) as [->|]; [by rewrite decide_False|done].
Qed.

Lemma find_key_take k n l : find_key k (take n l) = find_key k l \/ find_key k (take n l) = None.
Proof.
  revert n. induction l as [|[x v] l IH]; intros [|n]; [by left|by left|by right|]. cbn [take]. rewrite !find_key_cons. case_decide; [by left|apply IH].
Qed.

#[export] Instance list_cache_ok : LruCacheOk list_cache.
Proof.
  split.
  - done.
  - intros k c. cbn. by destruct (find_key k (ll_entries c)).
  - intros k k' c. cbn. destruct (find_key k (ll_entries c)) as [v|] eqn:E; cbn; [|done].
    rewrite find_key_cons, find_key_drop. by case_decide; subst.
  - intros k v c. cbn. rewrite find_key_cons. by rewrite decide_True.
  - intros k k' v c Hne. cbn. rewrite find_key_cons, decide_False by done.
    destruct (find_key_take k' (ll_spare c) (drop_key k (ll_entries c))) as [->| ->]; [left|by right].
    by rewrite find_key_drop, decide_False.
  - intros k c. cbn. by rewrite find_key_drop, decide_True.
  - intros k k' c Hne. cbn. by rewrite find_key_drop, decide_False.
Qed.

End list_lru.

Definition ex_client : ServiceKey := ServiceKey_new (V4 0x0a000001) 0 40000.
Definition ex_server : ServiceKey := ServiceKey_new (V4 0x0a000002) 0 80.

Definition ex_ops : list op :=
  [GetTcp true false ClientToServer TcpFlags.ACK false false ex_server ex_client;
   GetTcp false false ServerToClient TcpFlags.SYN_ACK false false ex_server ex_client;
   GetUdp true false ClientToServer ex_client ex_server].

Lemma active_service_needs_evidence_witness :
  wp (t ← ServiceTable_new (L4 := list_cache) (L6 := list_cache) 2 2 [443]; rfold table_step ex_ops t) (fun t =>
    known t ex_server = Some MAX_SCORE
    /\ forall s, known t ex_server = Some s -> 0 <= s <= MAX_SCORE /\ (s = MAX_SCORE -> Exists (fun o => evidence o ex_server) ex_ops)).
Proof.
  pose proof (active_service_needs_evidence (L4 := list_cache) (L6 := list_cache) 2 2 [443] ex_ops ex_server ltac:(lia) ltac:(lia)
    ltac:(by repeat constructor)) as Hw.
  assert (match (t ← ServiceTable_new (L4 := list_cache) (L6 := list_cache) 2 2 [443]; rfold table_step ex_ops t) with
          | Ret t => bool_decide (known t ex_server = Some MAX_SCORE) | Panic => false end = true) as Hr by (vm_compute; reflexivity).
  revert Hw Hr. generalize (t ← ServiceTable_new (L4 := list_cache) (L6 := list_cache) 2 2 [443]; rfold table_step ex_ops t).
  intros [t|] Hw Hr; [|done]. apply bool_decide_eq_true in Hr. split; [exact Hr|exact Hw].
Defined.

(** The first packet of the flow is the answer; then data, an acknowledgement
    and a new connection. *)
Definition ex_segments : list segment :=
  [Build_segment false false ClientToServer TcpFlags.ACK; Build_segment true false ServerToClient TcpFlags.PSH_ACK;
   Build_segment false true ClientToServer TcpFlags.SYN; Build_segment true true ServerToClient TcpFlags.ACK].

Definition ex_table : ServiceTable := Build_ServiceTable (L4 := list_cache) (L6 := list_cache) (lru_new 4) (lru_new 4) {[443]}.

