(* ===== verification/PacketParse.v ===== *)
(** * Parsing a captured packet (src/agent/src/common/meta_packet.rs)

    [MetaPacket::update] reads an ethernet frame up to its transport header.
    The function is split at its layers: each stage either returns from
    [update_fields] or hands the remaining size to the next one.  The numbers of
    TCP options and ICMP types are those of the pnet package. *)

From S2P Require Import Prelude Timestamp TcpFlags Bytes Consts TapPort MetaPacket.

Class PnetNumbers := {
  opt_EOL : Z;
  opt_NOP : Z;
  opt_MSS : Z;
  opt_WSCALE : Z;
  opt_SACK_PERMITTED : Z;
  opt_SACK : Z;
  icmp_destination_unreachable : Z;
  icmp_source_quench : Z;
  icmp_redirect : Z;
  icmp_parameter_problem : Z;
  icmp_echo_request : Z;
  icmp_echo_reply : Z;
  icmpv6_neighbor_advert : Z;
  icmpv6_echo_request : Z;
  icmpv6_echo_reply : Z;
}.

(** The numbers that IANA assigns, which pnet documents. *)
Class PnetDocumented (N : PnetNumbers) : Prop := {
  pnet_tcp : opt_EOL = 0 /\ opt_NOP = 1 /\ opt_MSS = 2 /\ opt_WSCALE = 3 /\ opt_SACK_PERMITTED = 4 /\ opt_SACK = 5;
  pnet_icmp : icmp_echo_reply = 0 /\ icmp_destination_unreachable = 3 /\ icmp_source_quench = 4 /\ icmp_redirect = 5
    /\ icmp_echo_request = 8 /\ icmp_parameter_problem = 12;
  pnet_icmpv6 : icmpv6_echo_request = 128 /\ icmpv6_echo_reply = 129 /\ icmpv6_neighbor_advert = 136;
}.

Definition iana : PnetNumbers := Build_PnetNumbers 0 1 2 3 4 5 3 4 5 12 8 0 136 128 129.

Lemma iana_documented : PnetDocumented iana.
Proof. by split. Qed.

Inductive Error := ParsePacketFailed.

(** A stage ends the function or goes on. *)
Inductive ctl (A : Type) :=
| Return (r : result unit Error)
| Next (a : A).
Arguments Return {A} _.
Arguments Next {A} _.

(** [&bs[i..j]] *)
Definition slice (bs : bytes) (i j : Z) : run bytes :=
  if (0 <=? i) && (i <=? j) && (j <=? len bs)
  then Ret (take (Z.to_nat (j - i)) (drop (Z.to_nat i) bs)) else Panic.

Definition u16_at (packet : bytes) (i : Z) : run Z := slice_from packet i ≫= read_u16_be.
Definition u32_at (packet : bytes) (i : Z) : run Z := slice_from packet i ≫= read_u32_be.

Definition ipv4_at (packet : bytes) (i : Z) : run IpAddr :=
  s ← slice packet i (i + IPV4_ADDR_LEN); v ← read_u32_be s; Ret (V4 v).

Definition ipv6_at (packet : bytes) (i : Z) : run IpAddr :=
  s ← slice packet i (i + IPV6_ADDR_LEN); Ret (V6 s).

(** [is_unicast_link_local] of public/src/utils/net/mod.rs *)
Definition is_unicast_link_local (octets : bytes) : run bool :=
  s ← read_u16_be octets; Ret (Z.land s 0xffc0 =? 0xfe80).

Section parse.
Context {N : PnetNumbers}.

(** ** TCP options *)

(** A write through [tcp_data], the borrow of [self.protocol_data]. *)
Definition with_tcp (m : MetaPacket) (f : MetaPacketTcpHeader -> MetaPacketTcpHeader) : MetaPacket :=
  match protocol_data m with
  | TcpHeader h => m <| protocol_data := TcpHeader (f h) |>
  | IcmpData _ _ => m
  end.

Definition or_flag (m : MetaPacket) (f : Z) : MetaPacket := m <| tcp_options_flag := Z.lor (tcp_options_flag m) f |>.

Definition toa_option (m : MetaPacket) (packet : bytes) (offset assume_length : Z) : run MetaPacket :=
  if assume_length =? TCP_TOA_LEN then
    port ← u16_at packet (offset + TCP_TOA_PORT_OFFSET);
    ip ← u32_at packet (offset + TCP_TOA_IP_OFFSET);
    Ret (m <| lookup_key := ((lookup_key m) <| src_nat_source := TapPort.NAT_SOURCE_TOA |>
                               <| src_nat_port := port |> <| src_nat_ip := V4 ip |>) |>
           <| tap_port := TapPort.set_nat_source (tap_port m) TapPort.NAT_SOURCE_TOA |>)
  else Ret m.

(** The [while] loop from [offset]. *)
Fixpoint tcp_opt_loop (n : nat) (packet : bytes) (payload_offset offset : Z) (m : MetaPacket) : run MetaPacket :=
  if offset + 1 <? payload_offset then
    match n with
    | O => Panic
    | S n =>
        b ← index packet (offset + 1);
        let assume_length := Z.max b 2 in
        k ← index packet offset;
        if k =? opt_EOL then Ret m
        else if k =? opt_NOP then tcp_opt_loop n packet payload_offset (offset + 1) m
        else if k =? opt_MSS then
          if payload_offset <? offset + TCP_OPT_MSS_LEN then Ret m
          else
            s ← slice packet (offset + 2) (offset + 2 + 2);
            mss ← read_u16_be s;
            tcp_opt_loop n packet payload_offset (offset + TCP_OPT_MSS_LEN)
              (with_tcp (or_flag m TCP_OPT_FLAG_MSS) (fun h => h <| th_mss := mss |>))
        else if k =? opt_WSCALE then
          if payload_offset <? offset + TCP_OPT_WIN_SCALE_LEN then Ret m
          else
            w ← index packet (offset + 2);
            tcp_opt_loop n packet payload_offset (offset + TCP_OPT_WIN_SCALE_LEN)
              (with_tcp (or_flag m TCP_OPT_FLAG_WIN_SCALE) (fun h => h <| th_win_scale := w |>))
        else if k =? opt_SACK_PERMITTED then
          tcp_opt_loop n packet payload_offset (offset + 2)
            (with_tcp (or_flag m TCP_OPT_FLAG_SACK_PERMIT) (fun h => h <| th_sack_permitted := true |>))
        else if k =? opt_SACK then
          if payload_offset <? offset + assume_length then Ret m
          else
            let sack_size := assume_length - 2 in
            if 32 <? sack_size then Ret m
            else
              sack ← slice packet (offset + 2) (offset + 2 + sack_size);
              tcp_opt_loop n packet payload_offset (offset + assume_length)
                (with_tcp (or_flag m (wrap 8 sack_size)) (fun h => h <| th_sack := Some sack |>))
        else if (k =? TCP_OPT_ADDRESS_HUAWEI) || (k =? TCP_OPT_ADDRESS_IPVS) then
          m ← toa_option m packet offset assume_length;
          tcp_opt_loop n packet payload_offset (offset + assume_length) m
        else tcp_opt_loop n packet payload_offset (offset + assume_length) m
    end
  else Ret m.

Definition update_tcp_opt (m : MetaPacket) (packet : bytes) : run MetaPacket :=
  size ← HeaderType.min_packet_size (header_type m);
  let offset := size + l2_l3_opt_size m in
  let payload_offset := Z.min (offset + l4_opt_size m) (len packet) in
  match protocol_data m with
  | TcpHeader _ => tcp_opt_loop (length packet) packet payload_offset offset m
  | IcmpData _ _ => Panic
  end.

(** ** IPv6 extension headers *)

(** The [loop]; [None] is its [break]. *)
Fixpoint ip6_opt_loop (n : nat) (packet : bytes) (m : MetaPacket) (next_header option_offset size_checker : Z)
    : run (MetaPacket * option (Z * Z)) :=
  match n with
  | O => Panic
  | S n =>
      let set_last m := m <| offset_ipv6_last_option := wrap 16 option_offset |> in
      if next_header =? IpProtocol.AH then
        if size_checker <? 2 then Ret (m, None)
        else
          let m := set_last m in
          next_header ← index packet option_offset;
          l ← index packet (option_offset + 1);
          let length := (l + 2) * 4 in
          let option_offset := option_offset + length in
          let size_checker := size_checker - length in
          if size_checker <? 0 then Ret (m, None)
          else ip6_opt_loop n packet m next_header option_offset size_checker
      else if (next_header =? IpProtocol.IPV6_DESTINATION) || (next_header =? IpProtocol.IPV6_HOP_BY_HOP)
              || (next_header =? IpProtocol.IPV6_ROUTING) then
        let size_checker := size_checker - 8 in
        if size_checker <? 0 then Ret (m, None)
        else
          let m := set_last m in
          next_header ← index packet option_offset;
          length ← index packet (option_offset + 1);
          let option_offset := option_offset + (length * 8 + 8) in
          let size_checker := size_checker - length * 8 in
          if size_checker <? 0 then Ret (m, None)
          else ip6_opt_loop n packet m next_header option_offset size_checker
      else if next_header =? IpProtocol.IPV6_FRAGMENT then
        let size_checker := size_checker - 8 in
        if size_checker <? 0 then Ret (m, None)
        else
          let m := (set_last m) <| offset_ipv6_fragment_option := wrap 16 option_offset |> in
          next_header ← index packet option_offset;
          ip6_opt_loop n packet m next_header (option_offset + 8) size_checker
      else if next_header =? IpProtocol.ICMPV6 then Ret (m, Some (next_header, option_offset))
      else if next_header =? IpProtocol.ESP then
        Ret (set_last m, Some (next_header, wadd 64 option_offset (wrap 64 size_checker)))
      else Ret (m, Some (next_header, option_offset))
  end.

Definition update_ip6_opt (m : MetaPacket) (packet : bytes) (l2_opt_size : Z) : run (MetaPacket * (Z * Z)) :=
  next ← index packet (IPV6_PROTO_OFFSET + l2_opt_size);
  let original_offset := ETH_HEADER_SIZE + IPV6_HEADER_SIZE + l2_opt_size in
  let m := m <| next_header := next |> in
  '(m, r) ← ip6_opt_loop (S (length packet)) packet m next original_offset (len packet - original_offset);
  match r with
  | Some (next, option_offset) => Ret (m, (next, wsub 64 option_offset original_offset))
  | None =>
      let m := m <| offset_ipv6_last_option := 0 |> <| offset_ipv6_fragment_option := 0 |> in
      p ← index packet (IPV6_PROTO_OFFSET + l2_opt_size);
      Ret (m, (p, 0))
  end.

(** ** Ethernet *)

(** The ethernet type and the size of the VLAN tags. *)
Definition parse_eth (m : MetaPacket) (packet : bytes) (size_checker : Z) : run (MetaPacket * ctl (Z * Z * Z)) :=
  h ← HeaderType.min_header_size Eth;
  let size_checker := size_checker - h in
  if size_checker <? 0 then Ret (m, Return (Err ParsePacketFailed))
  else
    eth_type ← u16_at packet FIELD_OFFSET_ETH_TYPE;
    if eth_type =? EthernetType.DOT1Q then
      let vlan_tag_size := VLAN_HEADER_SIZE in
      let size_checker := size_checker - VLAN_HEADER_SIZE in
      if size_checker <? 0 then Ret (m, Return (Err ParsePacketFailed))
      else
        vlan_tag ← u16_at packet (FIELD_OFFSET_ETH_TYPE + ETH_TYPE_LEN);
        let m := m <| vlan := Z.land vlan_tag VLAN_ID_MASK |> in
        eth_type ← u16_at packet (FIELD_OFFSET_ETH_TYPE + vlan_tag_size);
        if eth_type =? EthernetType.DOT1Q then
          let vlan_tag_size := vlan_tag_size + VLAN_HEADER_SIZE in
          let size_checker := size_checker - VLAN_HEADER_SIZE in
          if size_checker <? 0 then Ret (m, Return (Err ParsePacketFailed))
          else
            vlan_tag ← u16_at packet (FIELD_OFFSET_ETH_TYPE + VLAN_HEADER_SIZE + ETH_TYPE_LEN);
            let m := m <| vlan := Z.land vlan_tag VLAN_ID_MASK |> in
            eth_type ← u16_at packet (FIELD_OFFSET_ETH_TYPE + vlan_tag_size);
            Ret (m, Next (eth_type, vlan_tag_size, size_checker))
        else Ret (m, Next (eth_type, vlan_tag_size, size_checker))
    else Ret (m, Next (eth_type, 0, size_checker)).

Definition parse_macs (m : MetaPacket) (packet : bytes) (eth_type tag_size : Z) : run MetaPacket :=
  let m := m <| lookup_key := ((lookup_key m) <| lk_eth_type := eth_type |>) |> in
  src ← slice packet FIELD_OFFSET_SA (FIELD_OFFSET_SA + MAC_ADDR_LEN);
  dst ← slice packet FIELD_OFFSET_DA (FIELD_OFFSET_DA + MAC_ADDR_LEN);
  Ret (m <| lookup_key := ((lookup_key m) <| src_mac := src |> <| dst_mac := dst |>) |>
         <| header_type := Eth |>
         <| vlan_tag_size := wrap 8 tag_size |>
         <| l2_l3_opt_size := wrap 16 tag_size |>).

(** ** Network layer *)

Definition set_ips (m : MetaPacket) (s d : IpAddr) : MetaPacket :=
  m <| lookup_key := ((lookup_key m) <| src_ip := s |> <| dst_ip := d |>) |>.

Definition set_proto (m : MetaPacket) (p : Z) : MetaPacket :=
  m <| lookup_key := ((lookup_key m) <| proto := p |>) |>.

Definition parse_arp (m : MetaPacket) (packet : bytes) (tag_size size_checker : Z) : run MetaPacket :=
  h ← HeaderType.min_header_size Arp;
  if size_checker - h <? 0 then Ret m
  else
    let m := m <| header_type := Arp |> in
    s ← ipv4_at packet (ARP_SPA_OFFSET + tag_size);
    d ← ipv4_at packet (ARP_TPA_OFFSET + tag_size);
    op ← u16_at packet (tag_size + ARP_OP_OFFSET);
    Ret ((set_ips m s d) <| nd_reply_or_arp_request := op =? OP_REQUEST |>).

(** [(self.packet_len - (packet.len() - size_checker as usize) as u32) as u16] *)
Definition rest_len (m : MetaPacket) (packet : bytes) (size_checker : Z) : Z :=
  wrap 16 (wsub 32 (packet_len m) (wrap 32 (len packet - size_checker))).

(** [(self.packet_len as usize - (packet.len() - size_checker as usize)) as u16] *)
Definition rest_len_usize (m : MetaPacket) (packet : bytes) (size_checker : Z) : Z :=
  wrap 16 (wsub 64 (packet_len m) (len packet - size_checker)).

(** The protocol and the size left, or the end of the function. *)
Definition parse_ipv6 (m : MetaPacket) (packet : bytes) (tag_size size_checker : Z)
    : run (MetaPacket * ctl (Z * Z)) :=
  h ← HeaderType.min_header_size Ipv6;
  let size_checker := size_checker - (h + IPV6_HEADER_ADJUST) in
  if size_checker <? 0 then Ret (m, Return (Ok tt))
  else
    let m := m <| header_type := Ipv6 |> in
    s ← ipv6_at packet (FIELD_OFFSET_IPV6_SRC + tag_size);
    d ← ipv6_at packet (FIELD_OFFSET_IPV6_DST + tag_size);
    hop ← index packet (IPV6_HOP_LIMIT_OFFSET + tag_size);
    let m := (set_ips m s d) <| ttl := hop |> in
    payload ← u16_at packet (FIELD_OFFSET_PAYLOAD_LEN + tag_size);
    let payload := if payload =? 0 then wrap 16 size_checker else payload in
    '(m, (ip_protocol, options_length)) ← update_ip6_opt m packet tag_size;
    min ← HeaderType.min_packet_size Ipv6;
    let m := m <| l2_l3_opt_size := wadd 16 (l2_l3_opt_size m) (wrap 16 options_length) |>
               <| packet_len := payload + min + tag_size + IPV6_HEADER_ADJUST |> in
    let m := set_proto m ip_protocol in
    let size_checker := size_checker - options_length in
    if size_checker <? 0 then Ret (m <| npb_ignore_l4 := true |>, Return (Ok tt))
    else Ret (m <| l3_payload_len := wrap 16 size_checker |>, Next (ip_protocol, size_checker)).

Definition parse_ipv4 (m : MetaPacket) (packet : bytes) (tag_size size_checker : Z)
    : run (MetaPacket * ctl (Z * Z)) :=
  h ← HeaderType.min_header_size Ipv4;
  let size_checker := size_checker - h in
  if size_checker <? 0 then Ret (m, Return (Ok tt))
  else
    let m := m <| header_type := Ipv4 |> in
    b ← index packet (FIELD_OFFSET_IHL + tag_size);
    let ihl := Z.land b 0xF in
    s ← ipv4_at packet (FIELD_OFFSET_SIP + tag_size);
    d ← ipv4_at packet (FIELD_OFFSET_DIP + tag_size);
    hop ← index packet (IPV4_TTL_OFFSET + tag_size);
    let m := (set_ips m s d) <| ttl := hop |> in
    total ← u16_at packet (FIELD_OFFSET_TOTAL_LEN + tag_size);
    let total_length := if total =? 0 then size_checker + h else total in
    eth ← HeaderType.min_packet_size Eth;
    min ← HeaderType.min_packet_size Ipv4;
    let m := m <| packet_len := wrap 32 (total_length + eth + tag_size) |> in
    let m := m <| packet_len := Z.max (packet_len m) (min + tag_size) |> in
    let l3_opt_size := Z.max (ihl * 4 - 20) 0 in
    let size_checker := size_checker - l3_opt_size in
    if size_checker <? 0 then Ret (m <| npb_ignore_l4 := true |>, Return (Ok tt))
    else
      let m := m <| l2_l3_opt_size := wadd 16 (l2_l3_opt_size m) (wrap 16 l3_opt_size) |> in
      let m := m <| l3_payload_len := rest_len m packet size_checker |> in
      ip_protocol ← index packet (IPV4_PROTO_OFFSET + tag_size);
      let m := set_proto m ip_protocol in
      frag ← u16_at packet (FIELD_OFFSET_FRAG + tag_size);
      if Z.land frag 0xFFF =? 0 then Ret (m, Next (ip_protocol, size_checker))
      else
        Ret (m <| header_type := Ipv4 |> <| npb_ignore_l4 := true |> <| l4_payload_len := l3_payload_len m |>,
             Return (Ok tt)).

(** ** Transport layer *)

Definition set_direction (m : MetaPacket) (d : PacketDirection) : MetaPacket :=
  m <| lookup_key := ((lookup_key m) <| direction := d |>) |>.

Definition at_least (m : MetaPacket) (n : Z) : MetaPacket := m <| packet_len := Z.max (packet_len m) n |>.

Definition parse_icmpv4 (m : MetaPacket) (packet : bytes) (size_checker : Z) : run MetaPacket :=
  min ← HeaderType.min_packet_size Ipv4Icmp;
  h ← HeaderType.min_header_size Ipv4Icmp;
  let m := at_least m (min + l2_l3_opt_size m) in
  let size_checker := size_checker - h in
  if size_checker <? 0 then Ret m
  else
    let icmp_type_index := FIELD_OFFSET_ICMP_TYPE_CODE + l2_l3_opt_size m in
    icmp_type ← index packet icmp_type_index;
    let finish m echo_id_seq size_checker :=
      Ret (m <| protocol_data := IcmpData icmp_type echo_id_seq |>
             <| payload_len := rest_len_usize m packet size_checker |> <| header_type := Ipv4Icmp |>) in
    if (icmp_type =? icmp_destination_unreachable) || (icmp_type =? icmp_source_quench)
       || (icmp_type =? icmp_redirect) || (icmp_type =? icmp_parameter_problem) then
      let m := m <| l4_opt_size := FIELD_LEN_ICMP_REST |> in
      let size_checker := size_checker - l4_opt_size m in
      if size_checker <? 0 then Ret (m <| l4_opt_size := 0 |>) else finish m 0 size_checker
    else if icmp_type =? icmp_echo_request then
      e ← u32_at packet (icmp_type_index + 4); finish m e size_checker
    else if icmp_type =? icmp_echo_reply then
      e ← u32_at packet (icmp_type_index + 4); finish (set_direction m ServerToClient) e size_checker
    else finish m 0 size_checker.

(** [IPV4] and [IPV6] give the smaller bound of the packet length; another
    type is [unreachable!]. *)
Definition at_least_l4 (m : MetaPacket) (eth_type : Z) (v4 v6 : HeaderType) : run MetaPacket :=
  if eth_type =? EthernetType.IPV4 then
    min ← HeaderType.min_packet_size v4; Ret (at_least m (min + l2_l3_opt_size m))
  else if eth_type =? EthernetType.IPV6 then
    min ← HeaderType.min_packet_size v6; Ret (at_least m (min + l2_l3_opt_size m))
  else Panic.

Definition parse_udp (m : MetaPacket) (packet : bytes) (eth_type size_checker : Z) : run (MetaPacket * ctl unit) :=
  m ← at_least_l4 m eth_type Ipv4Udp Ipv6Udp;
  let ht := if decide (header_type m = Ipv6) then Ipv6Udp else Ipv4Udp in
  h ← HeaderType.min_header_size ht;
  let size_checker := size_checker - h in
  if size_checker <? 0 then Ret (m, Return (Ok tt))
  else
    let m := m <| l4_payload_len := rest_len_usize m packet size_checker |> in
    Ret (m <| payload_len := l4_payload_len m |> <| header_type := ht |>, Next tt).

(** The TCP header fields, written through [if let ProtocolData::TcpHeader]. *)
Definition tcp_fields (m : MetaPacket) (packet : bytes) (data_offset seq_off ack_off win_off flag_off : Z) : run MetaPacket :=
  match protocol_data m with
  | TcpHeader h =>
      win ← u16_at packet (win_off + l2_l3_opt_size m);
      flags ← index packet (flag_off + l2_l3_opt_size m);
      seq ← u32_at packet (seq_off + l2_l3_opt_size m);
      ack ← u32_at packet (ack_off + l2_l3_opt_size m);
      Ret (m <| protocol_data := TcpHeader (h <| th_data_offset := data_offset |> <| th_win_size := win |>
                <| th_flags := Z.land flags TcpFlags.MASK |> <| th_seq := seq |> <| th_ack := ack |>) |>)
  | IcmpData _ _ => Ret m
  end.

Definition parse_tcp (m : MetaPacket) (packet : bytes) (eth_type : Z) (is_ipv6 : bool) (size_checker : Z)
    : run (MetaPacket * ctl unit) :=
  let '(data_off, seq_off, ack_off, win_off, flag_off) :=
    if is_ipv6
    then (FIELD_OFFSET_TCPV6_DATAOFF, FIELD_OFFSET_TCPV6_SEQ, FIELD_OFFSET_TCPV6_ACK,
          FIELD_OFFSET_TCPV6_WIN, FIELD_OFFSET_TCPV6_FLAG)
    else (FIELD_OFFSET_TCP_DATAOFF, FIELD_OFFSET_TCP_SEQ, FIELD_OFFSET_TCP_ACK,
          FIELD_OFFSET_TCP_WIN, FIELD_OFFSET_TCP_FLAG) in
  m ← at_least_l4 m eth_type Ipv4Tcp Ipv6Tcp;
  let ht := if decide (header_type m = Ipv6) then Ipv6Tcp else Ipv4Tcp in
  h ← HeaderType.min_header_size ht;
  let size_checker := size_checker - h in
  if size_checker <? 0 then Ret (m <| npb_ignore_l4 := true |>, Return (Ok tt))
  else
    b ← index packet (data_off + l2_l3_opt_size m);
    let data_offset := Z.shiftr b 4 in
    let opt_size := Z.max (data_offset * 4 - 20) 0 in
    let m := m <| l4_opt_size := opt_size |> in
    let size_checker := size_checker - opt_size in
    if size_checker <? 0 then Ret (m <| npb_ignore_l4 := true |>, Return (Ok tt))
    else
      let m := m <| l4_payload_len := rest_len m packet size_checker |> in
      let m := m <| payload_len := l4_payload_len m |> <| header_type := ht |> in
      m ← tcp_fields m packet data_offset seq_off ack_off win_off flag_off;
      m ← (if 5 <? data_offset then update_tcp_opt m packet else Ret m);
      Ret (m, Next tt).

Definition parse_icmpv6 (m : MetaPacket) (packet : bytes) (size_checker : Z) : run MetaPacket :=
  '(m, icmp_type, echo_id_seq) ←
    (if 0 <? size_checker then
       let icmpv6_type_index := ICMPV6_TYPE_OFFSET + l2_l3_opt_size m in
       icmp_type ← index packet icmpv6_type_index;
       '(m, echo_id_seq) ←
         (if icmp_type =? icmpv6_neighbor_advert then Ret (m <| nd_reply_or_arp_request := true |>, 0)
          else if icmp_type =? icmpv6_echo_request then
            e ← u32_at packet (icmpv6_type_index + 4); Ret (m, e)
          else if icmp_type =? icmpv6_echo_reply then
            e ← u32_at packet (icmpv6_type_index + 4); Ret (set_direction m ServerToClient, e)
          else Ret (m, 0));
       match src_ip (lookup_key m) with
       | V6 ip =>
           l ← is_unicast_link_local ip;
           Ret (m <| nd_reply_or_arp_request := nd_reply_or_arp_request m && negb l |>, icmp_type, echo_id_seq)
       | V4 _ => Ret (m, icmp_type, echo_id_seq)
       end
     else Ret (m, 0, 0));
  Ret (m <| protocol_data := IcmpData icmp_type echo_id_seq |> <| payload_len := rest_len m packet size_checker |>).

(** The ports, and the length of a merged or truncated packet. *)
Definition PACKET_MAX_PADDING : Z := 16.

Definition parse_ports (m : MetaPacket) (packet : bytes) (offset_port_0 offset_port_1 original_length : Z) : run MetaPacket :=
  m ← (if HeaderType.as_u8 Ipv4 <=? HeaderType.as_u8 (header_type m) then
         s ← u16_at packet (offset_port_0 + l2_l3_opt_size m);
         d ← u16_at packet (offset_port_1 + l2_l3_opt_size m);
         Ret (m <| lookup_key := ((lookup_key m) <| src_port := s |> <| dst_port := d |>) |>)
       else Ret m);
  if packet_len m + PACKET_MAX_PADDING <? original_length
  then Ret (m <| packet_len := wrap 32 original_length |>) else Ret m.

(** ** The whole parser *)

Definition parse_l4 (m : MetaPacket) (packet : bytes) (eth_type : Z) (is_ipv6 : bool)
    (ip_protocol size_checker original_length : Z) : run (MetaPacket * result unit Error) :=
  let '(offset_port_0, offset_port_1) :=
    if is_ipv6 then (FIELD_OFFSET_IPV6_SPORT, FIELD_OFFSET_IPV6_DPORT)
    else (FIELD_OFFSET_SPORT, FIELD_OFFSET_DPORT) in
  let ports x := '(m, c) ← x;
    match c with
    | Return r => Ret (m, r)
    | Next _ => m ← parse_ports m packet offset_port_0 offset_port_1 original_length; Ret (m, Ok tt)
    end in
  if ip_protocol =? IpProtocol.ICMPV4 then m ← parse_icmpv4 m packet size_checker; Ret (m, Ok tt)
  else if ip_protocol =? IpProtocol.UDP then ports (parse_udp m packet eth_type size_checker)
  else if ip_protocol =? IpProtocol.TCP then ports (parse_tcp m packet eth_type is_ipv6 size_checker)
  else if ip_protocol =? IpProtocol.ICMPV6 then m ← parse_icmpv6 m packet size_checker; Ret (m, Ok tt)
  else Ret (m <| payload_len := rest_len m packet size_checker |>, Ok tt).

Definition update_fields (m : MetaPacket) (packet : bytes) (src_endpoint dst_endpoint : bool)
    (timestamp : Timestamp.t) (original_length : Z) : run (MetaPacket * result unit Error) :=
  let m := m <| lookup_key := ((lookup_key m) <| lk_timestamp := timestamp |> <| l2_end_0 := src_endpoint |>
                                 <| l2_end_1 := dst_endpoint |>) |>
             <| packet_len := wrap 32 (len packet) |> <| ebpf_type := EbpfNone |>
             <| sub_packets := sub_packets m ++ [SubPacket_default] |> in
  '(m, c) ← parse_eth m packet (len packet);
  match c with
  | Return r => Ret (m, r)
  | Next (eth_type, tag_size, size_checker) =>
      m ← parse_macs m packet eth_type tag_size;
      if eth_type =? EthernetType.ARP then m ← parse_arp m packet tag_size size_checker; Ret (m, Ok tt)
      else if eth_type =? EthernetType.IPV6 then
        '(m, c) ← parse_ipv6 m packet tag_size size_checker;
        match c with
        | Return r => Ret (m, r)
        | Next (p, size_checker) => parse_l4 m packet eth_type true p size_checker original_length
        end
      else if eth_type =? EthernetType.IPV4 then
        '(m, c) ← parse_ipv4 m packet tag_size size_checker;
        match c with
        | Return r => Ret (m, r)
        | Next (p, size_checker) => parse_l4 m packet eth_type false p size_checker original_length
        end
      else Ret (m, Ok tt)
  end.

Definition update (m : MetaPacket) (raw_packet : bytes) (src_endpoint dst_endpoint : bool)
    (timestamp : Timestamp.t) (original_length : Z) : run (MetaPacket * result unit Error) :=
  '(m, r) ← update_fields m raw_packet src_endpoint dst_endpoint timestamp original_length;
  match r with
  | Err e => Ret (m, Err e)
  | Ok tt => Ret (m <| raw := Some raw_packet |>, Ok tt)
  end.

End parse.

(** ** Reading a parsed packet *)

Definition is_ndp_response (m : MetaPacket) : bool :=
  nd_reply_or_arp_request m && (proto (lookup_key m) =? IpProtocol.ICMPV6).

Definition tcp_options_size (m : MetaPacket) : Z :=
  if bool_decide (header_type m <> Ipv4Tcp) && bool_decide (header_type m <> Ipv6Tcp) && (l4_opt_size m =? 0) then 0
  else
    let size := 1 in
    let size := if Z.land (tcp_options_flag m) TCP_OPT_FLAG_MSS =? 0 then size else size + (TCP_OPT_MSS_LEN - 2) in
    let size := if Z.land (tcp_options_flag m) TCP_OPT_FLAG_WIN_SCALE =? 0 then size
                else size + (TCP_OPT_WIN_SCALE_LEN - 2) in
    size + Z.land (tcp_options_flag m) TCP_OPT_FLAG_SACK.

Definition get_pkt_size (m : MetaPacket) : Z :=
  if packet_len m <? 65535 then wrap 16 (packet_len m) else 65535.

Definition get_restored_packet_size (m : MetaPacket) : Z :=
  let skip_vlan_header_size :=
    if VLAN_HEADER_SIZE <? vlan_tag_size m then wrap 16 (vlan_tag_size m - VLAN_HEADER_SIZE) else 0 in
  let packet_size := get_pkt_size m in
  if packet_size =? 0 then packet_size else wsub 16 packet_size skip_vlan_header_size.

(** What both payload readers do behind a header of [size] bytes. *)
Definition raw_behind (m : MetaPacket) (size : Z) : run (option bytes) :=
  match raw m with
  | Some raw => if size <? len raw then s ← slice_from raw size; Ret (Some s) else Ret None
  | None => Ret None
  end.

Definition get_l3_payload (m : MetaPacket) : run (option bytes) :=
  if TapPort.is_from (tap_port m) TapPort.FROM_EBPF then Ret None
  else size ← HeaderType.min_packet_size (header_type m); raw_behind m (size + l2_l3_opt_size m).

Definition get_l4_payload (m : MetaPacket) : run (option bytes) :=
  if TapPort.is_from (tap_port m) TapPort.FROM_EBPF then
    s ← slice_from (raw_from_ebpf m) (raw_from_ebpf_offset m); Ret (Some s)
  else
    size ← HeaderType.min_packet_size (header_type m);
    raw_behind m (size + l2_l3_opt_size m + l4_opt_size m).

Definition get_l7 (m : MetaPacket) : run (option bytes) :=
  if (proto (lookup_key m) =? IpProtocol.TCP) || (proto (lookup_key m) =? IpProtocol.UDP) then get_l4_payload m
  else if (lk_eth_type (lookup_key m) =? EthernetType.IPV4) || (lk_eth_type (lookup_key m) =? EthernetType.IPV6)
  then get_l3_payload m
  else Ret None.
