(* ===== verification/FlowUpdate.v ===== *)
(** * What a packet does to its flow (flow_generator/flow_map.rs)

    The operations behind the interface of the flow map: creating a flow from
    its first packet, updating it with the next ones - counters, times, NAT and
    endpoints, the TCP state machine, the direction by the service table - and
    reporting it.  The policy lookup and the L7 log parser of a flow are the
    interface [FlowEnv]; segment reassembly is absent, as in the source tree
    ([PacketSegmentationReassembly::does_support] is false).  Not modelled: the
    tap side, policy tags and pod ids, the application table and the L7 logs of
    a flow, its packet sequence block, and the statistics counters of the map. *)

From stdpp Require Import gmap.
From S2P Require Import TapTypes Decapsulate ServiceTable PacketParse.
From S2P Require Import Prelude Timestamp TcpFlags FlowState Bytes Consts TunnelType TapPort Endpoint MetaPacket Flow FlowNode FlowMap.

Definition STATISTICAL_INTERVAL : Duration := NANOS.
Definition DEFAULT_SOCKET_CLOSE_TIMEOUT : Timestamp.t := Timestamp.from_secs 1.
Definition THREAD_FLOW_ID_MASK : Z := 0xFF.
Definition TIMER_FLOW_ID_MASK : Z := 0xFFFFFFFF.
Definition COUNTER_FLOW_ID_MASK : Z := 0xFFFFFF.
Definition SECONDS_IN_MINUTE : Z := 60.

(** The configuration the flow operations read; [fc_id] is the id of the flow map. *)
Record FlowConfig := {
  flow_timeout : FlowTimeout.t;
  collector_enabled : bool;
  packet_sequence_enabled : bool;
  l7_log_session_aggr_max_timeout : Timestamp.t;
  fc_id : Z;
}.

(** The policy getter and the L7 side of a flow, with state [X]: [policy_lookup]
    fills in the endpoints of a packet, [log_parse] is [FlowLog::parse] (it may
    set the direction of the packet and tells whether it succeeded), [log_record]
    takes the parsed log, [perf_report] and [sequence_append] are the report of
    the performance statistics and the packet sequence block of a flow. *)
Class FlowEnv (X : Type) := {
  policy_lookup : X -> MetaPacket -> X * MetaPacket;
  log_parse : X -> FlowNode -> MetaPacket -> bool -> X * MetaPacket * bool;
  log_record : X -> FlowNode -> MetaPacket -> X;
  log_server_port : X -> FlowNode -> option Z;
  perf_report : X -> FlowNode -> X;
  sequence_append : X -> FlowNode -> MetaPacket -> X;
  close_event : X -> FlowNode -> X;
  flush_queues : X -> Duration -> X;
}.

(** ** Endpoints and NAT *)

Definition set_peer_endpoint (x : FlowMetricsPeer) (i : EndpointInfo) : FlowMetricsPeer :=
  x <| is_device := ei_is_device i |> <| is_vip_interface := ei_is_vip_interface i |> <| is_l2_end := ei_l2_end i |>
    <| is_l3_end := ei_l3_end i |> <| l3_epc_id := ei_l3_epc_id i |> <| is_vip := ei_is_vip i |>
    <| is_local_mac := ei_is_local_mac i |> <| is_local_ip := ei_is_local_ip i |>.

Definition update_flow_metrics_peers (n : FlowNode) (p : MetaPacket) : FlowNode * MetaPacket :=
  match endpoint_data_cache n with
  | None => (n, p)
  | Some ep =>
      let f := nd_flow n in
      let f := f <| flow_metrics_src := set_peer_endpoint (flow_metrics_src f) (src_info ep) |>
                 <| flow_metrics_dst := set_peer_endpoint (flow_metrics_dst f) (dst_info ep) |> in
      (n <| nd_flow := f |>, set_vip_info p (ei_real_ip (src_info ep)) (ei_real_ip (dst_info ep)))
  end.

Definition init_endpoint_and_policy_data (n : FlowNode) (p : MetaPacket) : FlowNode * MetaPacket :=
  match endpoint_data p with
  | Some data => update_flow_metrics_peers (n <| endpoint_data_cache := Some data |>) p
  | None => (n, p)
  end.

Definition update_endpoint_and_policy_data (n : FlowNode) (p : MetaPacket) : FlowNode * MetaPacket :=
  let n := match endpoint_data p with
           | Some data =>
               n <| endpoint_data_cache := Some match direction (lookup_key p) with
                                                | ClientToServer => data
                                                | ServerToClient => EndpointDataPov_reversed data
                                                end |>
           | None => n
           end in
  update_flow_metrics_peers n p.

Definition set_nat (source : Z) (ip : IpAddr) (port : Z) (x : FlowMetricsPeer) : FlowMetricsPeer :=
  x <| nat_source := source |> <| nat_real_ip := ip |> <| nat_real_port := port |>.

Definition update_nat_info (f : Flow) (p : MetaPacket) : Flow * MetaPacket :=
  let k := lookup_key p in
  let d := direction k in
  let f := if negb (src_nat_source k =? TapPort.NAT_SOURCE_NONE) && (nat_source (peer f d) <=? src_nat_source k)
           then on_peer f d (set_nat (src_nat_source k) (src_nat_ip k) (src_nat_port k)) else f in
  let r := direction_reversed d in
  let f := if negb (dst_nat_source k =? TapPort.NAT_SOURCE_NONE) && (nat_source (peer f r) <=? dst_nat_source k)
           then on_peer f r (set_nat (dst_nat_source k) (dst_nat_ip k) (dst_nat_port k)) else f in
  let source := get_nat_source k in
  let p := p <| tap_port := TapPort.set_nat_source (tap_port p) source |> in
  let port := fk_tap_port (flow_key f) in
  (if TapPort.get_nat_source port <? source
   then f <| flow_key := ((flow_key f) <| fk_tap_port := TapPort.set_nat_source port source |>) |> else f, p).

Definition init_nat_info (f : Flow) (p : MetaPacket) : Flow :=
  let k := lookup_key p in
  let src := if negb (src_nat_source k =? TapPort.NAT_SOURCE_NONE)
             then set_nat (src_nat_source k) (src_nat_ip k) (src_nat_port k)
             else set_nat TapPort.NAT_SOURCE_NONE (fk_ip_src (flow_key f)) (fk_port_src (flow_key f)) in
  let dst := if negb (dst_nat_source k =? TapPort.NAT_SOURCE_NONE)
             then set_nat (dst_nat_source k) (dst_nat_ip k) (dst_nat_port k)
             else set_nat TapPort.NAT_SOURCE_NONE (fk_ip_dst (flow_key f)) (fk_port_dst (flow_key f)) in
  f <| flow_metrics_src := src (flow_metrics_src f) |> <| flow_metrics_dst := dst (flow_metrics_dst f) |>.

(** ** Direction *)

(** [FlowMap::reverse_flow] *)
Definition reverse_flow (n : FlowNode) (is_first_packet : bool) : FlowNode :=
  n <| policy_in_tick_0 := policy_in_tick_1 n |> <| policy_in_tick_1 := policy_in_tick_0 n |>
    <| endpoint_data_cache := EndpointDataPov_reversed <$> endpoint_data_cache n |>
    <| nd_flow := Flow_reverse (nd_flow n) is_first_packet |>.

Definition reverse_packet_direction (p : MetaPacket) : MetaPacket :=
  with_direction p (direction_reversed (direction (lookup_key p))).

(** [x as i16] *)
Definition as_i16 (x : Z) : Z := (x + 2 ^ 15) mod 2 ^ 16 - 2 ^ 15.

(** The EPCs of the cached endpoints *)
Definition cached_epcs (n : FlowNode) : Z * Z :=
  match endpoint_data_cache n with
  | Some ep => (as_i16 (ei_l3_epc_id (src_info ep)), as_i16 (ei_l3_epc_id (dst_info ep)))
  | None => (0, 0)
  end.

Definition set_service (f : Flow) (flow_dst_score : Z) : Flow :=
  f <| direction_score := flow_dst_score |> <| is_active_service := ServiceTable.is_active_service flow_dst_score |>.

(** ** Sequence numbers *)

Definition update_tcp_keepalive_seq (n : FlowNode) (p : MetaPacket) : run FlowNode :=
  let '(seq0, seq1) := (next_tcp_seq0 n, next_tcp_seq1 n) in
  h ← tcp_data p;
  let n := match direction (lookup_key p) with
           | ClientToServer => n <| next_tcp_seq1 := th_ack h |>
           | ServerToClient => n <| next_tcp_seq0 := th_ack h |>
           end in
  if 1 <? payload_len p then Ret n
  else if negb (Z.land (th_flags h) (Z.lor (Z.lor TcpFlags.SYN TcpFlags.FIN) TcpFlags.RST) =? 0) then Ret n
  else
    let expected := match direction (lookup_key p) with ClientToServer => seq0 | ServerToClient => seq1 end in
    if wadd 32 (th_seq h) 1 =? expected
    then Ret (n <| nd_flow := ((nd_flow n) <| last_keepalive_seq := th_seq h |> <| last_keepalive_ack := th_ack h |>) |>)
    else Ret n.

Definition update_syn_or_syn_ack_seq (n : FlowNode) (p : MetaPacket) : run FlowNode :=
  h ← tcp_data p;
  if th_flags h =? TcpFlags.SYN then Ret (n <| nd_flow := ((nd_flow n) <| syn_seq := th_seq h |>) |>)
  else if (th_flags h =? TcpFlags.SYN_ACK) && (payload_len p =? 0)
  then Ret (n <| nd_flow := ((nd_flow n) <| synack_seq := th_seq h |>) |>)
  else Ret n.

Section flow_update.
Context {X : Type} {V : FlowEnv X} {L4 : LruCache Ipv4Key} {L6 : LruCache Ipv6Key} {N : PnetNumbers} (cfg : FlowConfig).

(** The rest of the flow map: the number of flows so far, the service table,
    the flows handed to the output, the environment. *)
Record Gen := {
  total_flow : Z;
  service_table : ServiceTable;
  output : list Flow;
  env : X;
}.

#[export] Instance Gen_fields : Fields Gen := fun x => Build_Gen (total_flow x) (service_table x) (output x) (env x).

(** [FlowMap::generate_flow_id] *)
Definition generate_flow_id (g : Gen) (timestamp : Timestamp.t) : Gen * Z :=
  let total := wadd 64 (total_flow g) 1 in
  (g <| total_flow := total |>,
   Z.lor (Z.lor (wshl 64 (Z.land (Z.shiftr (Timestamp.as_nanos timestamp) 30) TIMER_FLOW_ID_MASK) 32)
                (wshl 64 (Z.land (fc_id cfg) THREAD_FLOW_ID_MASK) 24))
         (Z.land total COUNTER_FLOW_ID_MASK)).

Definition lookup_policy (g : Gen) (p : MetaPacket) : Gen * MetaPacket :=
  let '(x, p) := policy_lookup (env g) p in (g <| env := x |>, p).

(** *** Direction *)

(** [FlowMap::update_l4_direction] *)
Definition update_l4_direction (g : Gen) (p : MetaPacket) (n : FlowNode) (is_first_packet : bool) : run (Gen * MetaPacket * FlowNode * bool) :=
  let k := lookup_key p in
  let '(src_epc, dst_epc) := cached_epcs n in
  let flow_src_key := ServiceKey_new (src_ip k) src_epc (src_port k) in
  let flow_dst_key := ServiceKey_new (dst_ip k) dst_epc (dst_port k) in
  '(t, scores) ←
    (if proto k =? IpProtocol.TCP then
       h ← tcp_data p;
       get_tcp_score (service_table g) is_first_packet (need_reverse_flow p) (direction k) (th_flags h) false false flow_src_key flow_dst_key
     else if proto k =? IpProtocol.UDP then
       get_udp_score (service_table g) is_first_packet (need_reverse_flow p) (direction k) flow_src_key flow_dst_key
     else Panic);
  let '(flow_src_score, flow_dst_score) := match direction k with ClientToServer => scores | ServerToClient => (scores.2, scores.1) end in
  let g := g <| service_table := t |> in
  if negb (is_client_to_server flow_src_score flow_dst_score) then
    let n := reverse_flow n is_first_packet in
    Ret (g, reverse_packet_direction p, n <| nd_flow := set_service (nd_flow n) flow_src_score |>, true)
  else Ret (g, p, n <| nd_flow := set_service (nd_flow n) flow_dst_score |>, false).

(** The endpoints of a flow by its own key *)
Definition flow_service_keys (f : Flow) : ServiceKey * ServiceKey :=
  (ServiceKey_new (fk_ip_src (flow_key f)) (as_i16 (l3_epc_id (flow_metrics_src f))) (fk_port_src (flow_key f)),
   ServiceKey_new (fk_ip_dst (flow_key f)) (as_i16 (l3_epc_id (flow_metrics_dst f))) (fk_port_dst (flow_key f))).

(** [FlowMap::update_flow_direction] *)
Definition update_flow_direction (g : Gen) (n : FlowNode) (o : option MetaPacket) : run (Gen * FlowNode * option MetaPacket) :=
  let f := nd_flow n in
  if decide (fl_signal_source f = EBPF) then Ret (g, n, o)
  else
    let '(flow_src_key, flow_dst_key) := flow_service_keys f in
    let query :=
      if fk_proto (flow_key f) =? IpProtocol.TCP then
        Some (get_tcp_score (service_table g) false false ClientToServer 0
                (nat_source (flow_metrics_src f) =? TapPort.NAT_SOURCE_TOA) (nat_source (flow_metrics_dst f) =? TapPort.NAT_SOURCE_TOA)
                flow_src_key flow_dst_key)
      else if fk_proto (flow_key f) =? IpProtocol.UDP then
        Some (get_udp_score (service_table g) false false ClientToServer flow_src_key flow_dst_key)
      else None in
    match query with
    | None => Ret (g, n, o)
    | Some r =>
        '(t, (flow_src_score, flow_dst_score)) ← r;
        let g := g <| service_table := t |> in
        if negb (is_client_to_server flow_src_score flow_dst_score) then
          let n := reverse_flow n false in
          Ret (g, n <| nd_flow := set_service (nd_flow n) flow_src_score |>, reverse_packet_direction <$> o)
        else Ret (g, n <| nd_flow := set_service f flow_dst_score |>, o)
    end.

(** [FlowMap::rectify_flow_direction]: the log parser knows the direction of the packet. *)
Definition rectify_flow_direction (g : Gen) (n : FlowNode) (p : MetaPacket) (is_first_packet : bool) : run (Gen * FlowNode) :=
  let f := nd_flow n in
  let k := lookup_key p in
  let need_reverse :=
    if bool_decide (fk_ip_src (flow_key f) = src_ip k) && (fk_port_src (flow_key f) =? src_port k)
    then bool_decide (direction k = ServerToClient) else bool_decide (direction k = ClientToServer) in
  if need_reverse then
    let n := reverse_flow n is_first_packet in
    if decide (fl_signal_source (nd_flow n) = EBPF) then Ret (g, n)
    else
      let '(src, dst) := flow_service_keys (nd_flow n) in
      '(t, _) ← reset_score (service_table g) src dst;
      Ret (g <| service_table := t |>, n)
  else Ret (g, n).

(** [FlowMap::update_udp_is_active] *)
Definition update_udp_is_active (g : Gen) (n : FlowNode) (d : PacketDirection) : Gen * FlowNode :=
  let f := nd_flow n in
  if is_active_service f then (g, n)
  else
    let '(src_epc, dst_epc) := cached_epcs n in
    let src := ServiceKey_new (fk_ip_src (flow_key f)) src_epc (fk_port_src (flow_key f)) in
    let dst := ServiceKey_new (fk_ip_dst (flow_key f)) dst_epc (fk_port_dst (flow_key f)) in
    let '(t, b) := is_ebpf_active_udp_service (service_table g) src dst d in
    (g <| service_table := t |>, n <| nd_flow := (f <| is_active_service := b |>) |>).

(** *** The log parser *)

(** The body of the loop of [FlowMap::collect_metric] *)
Definition parse_packet (is_first_packet_direction is_first_packet : bool) (st : Gen * FlowNode * MetaPacket) (sp : SubPacket)
    : run (Gen * FlowNode * MetaPacket) :=
  let '(g, n, p) := st in
  let '(x, p, ok) := log_parse (env g) n (next_sub_packet p sp) is_first_packet_direction in
  let g := g <| env := x |> in
  if (ok : bool) then
    '(g, n) ← (if negb (direction_score (nd_flow n) =? MAX_SCORE) then rectify_flow_direction g n p is_first_packet else Ret (g, n));
    Ret (g <| env := log_record (env g) n p |>, n, p)
  else Ret (g, n, p).

Definition collect_metric (g : Gen) (n : FlowNode) (p : MetaPacket) (is_first_packet_direction is_first_packet : bool)
    : run (Gen * FlowNode * MetaPacket) :=
  rfold (parse_packet is_first_packet_direction is_first_packet) (sub_packets p) (g, n, p).

(** *** A packet of an existing flow *)

(** The counters of the peer that sent the packet *)
Definition count_packet (p : MetaPacket) (x : FlowMetricsPeer) : FlowMetricsPeer :=
  let x := x <| packet_count := wadd 64 (packet_count x) 1 |> <| total_packet_count := wadd 64 (total_packet_count x) 1 |>
             <| byte_count := wadd 64 (byte_count x) (packet_len p) |> <| l3_byte_count := wadd 64 (l3_byte_count x) (l3_payload_len p) |>
             <| l4_byte_count := wadd 64 (l4_byte_count x) (l4_payload_len p) |>
             <| total_byte_count := wadd 64 (total_byte_count x) (packet_len p) |> <| last := timestamp p |> in
  if Timestamp.is_zero (first x) then x <| first := timestamp p |> else x.

Definition update_tunnel (f : Flow) (p : MetaPacket) : Flow :=
  match tunnel p with
  | None => f
  | Some t =>
      let x := fl_tunnel f in
      let x := match direction (lookup_key p) with
               | ClientToServer => x <| tx_ip0 := src t |> <| tx_ip1 := dst t |> <| tx_mac0 := mac_src t |> <| tx_mac1 := mac_dst t |> <| tx_id := id t |>
               | ServerToClient => x <| rx_ip0 := src t |> <| rx_ip1 := dst t |> <| rx_mac0 := mac_src t |> <| rx_mac1 := mac_dst t |> <| rx_id := id t |>
               end in
      f <| fl_tunnel := (x <| tf_tier := tier t |> <| tf_tunnel_type := tunnel_type t |> <| tf_is_ipv6 := is_ipv6 t |>) |>
  end.

(** The endpoints of a flow that already has them in this second *)
Definition copy_endpoint (n : FlowNode) (p : MetaPacket) : MetaPacket :=
  let ep := match direction (lookup_key p) with
            | ClientToServer => endpoint_data_cache n
            | ServerToClient => EndpointDataPov_reversed <$> endpoint_data_cache n
            end in
  let p := p <| endpoint_data := ep |> in
  match ep with
  | Some e => p <| lookup_key := ((lookup_key p) <| l3_end_0 := ei_l3_end (src_info e) |> <| l3_end_1 := ei_l3_end (dst_info e) |>) |>
  | None => p
  end.

Definition policy_in_tick (n : FlowNode) (d : PacketDirection) : bool :=
  match d with ClientToServer => policy_in_tick_0 n | ServerToClient => policy_in_tick_1 n end.

Definition set_policy_in_tick (n : FlowNode) (d : PacketDirection) : FlowNode :=
  match d with ClientToServer => n <| policy_in_tick_0 := true |> | ServerToClient => n <| policy_in_tick_1 := true |> end.

(** The client behind a TOA option of an earlier packet *)
Definition recall_toa (n : FlowNode) (p : MetaPacket) : MetaPacket :=
  if (TapPort.get_nat_source (fk_tap_port (flow_key (nd_flow n))) =? TapPort.NAT_SOURCE_TOA)
     && bool_decide (direction (lookup_key p) = ClientToServer) && (src_nat_port (lookup_key p) =? 0)
  then let x := flow_metrics_src (nd_flow n) in
       p <| lookup_key := ((lookup_key p) <| src_nat_ip := nat_real_ip x |> <| src_nat_port := nat_real_port x |>
                             <| src_nat_source := TapPort.NAT_SOURCE_TOA |>) |>
  else p.

(** The time of the packet *)
Definition touch_node (n : FlowNode) (p : MetaPacket) : run FlowNode :=
  n ← (if recent_time n <? timestamp p then
         d ← Timestamp.sub (timestamp p) (min_arrived_time n);
         Ret (n <| recent_time := timestamp p |> <| nd_flow := ((nd_flow n) <| duration := d |>) |>)
       else Ret n);
  if negb (packet_in_tick n) then
    stat ← Timestamp.round_to (timestamp p) STATISTICAL_INTERVAL;
    Ret (n <| packet_in_tick := true |> <| nd_flow := ((nd_flow n) <| flow_stat_time := stat |>) |>)
  else Ret n.

(** The policy of the packet, once per direction and second *)
Definition update_policy (g : Gen) (n : FlowNode) (p : MetaPacket) : Gen * FlowNode * MetaPacket :=
  let d := direction (lookup_key p) in
  if negb (policy_in_tick n d) then
    let n := set_policy_in_tick n d in
    let '(g, p) := lookup_policy g (recall_toa n p) in
    let '(n, p) := update_endpoint_and_policy_data n p in
    (g, n, p)
  else (g, n, copy_endpoint n p).

Definition update_gpid (f : Flow) (p : MetaPacket) : Flow :=
  let d := direction (lookup_key p) in
  let f := if 0 <? gpid_0 p then on_peer f d (fun x => x <| gpid := gpid_0 p |>) else f in
  if 0 <? gpid_1 p then on_peer f (direction_reversed d) (fun x => x <| gpid := gpid_1 p |>) else f.

(** [FlowMap::update_flow] *)
Definition update_flow (g : Gen) (n : FlowNode) (p : MetaPacket) : run (Gen * FlowNode * MetaPacket) :=
  n ← touch_node n p;
  let '(g, n, p) := update_policy g n p in
  let '(f, p) := update_nat_info (update_gpid (nd_flow n) p) p in
  if decide (fl_signal_source f = EBPF) then Ret (g, n <| nd_flow := f |>, p)
  else
    let f := on_peer f (direction (lookup_key p)) (count_packet p) in
    let f := if 0 <? vlan p then f <| fl_vlan := vlan p |> else f in
    let n := n <| nd_flow := update_tunnel f p |> in
    if is_ndp_response p then let '(g, p) := lookup_policy g p in Ret (g, n, p) else Ret (g, n, p).

(** *** TCP *)

(** The part of the node the state machine reads and writes *)
Definition fsm_node (n : FlowNode) : FsmNode :=
  Build_FsmNode (nd_flow_state n) (nd_timeout n) (total_packet_count (flow_metrics_src (nd_flow n))) (total_packet_count (flow_metrics_dst (nd_flow n))).

Definition step_state (n : FlowNode) (flags : Z) (d : PacketDirection) : run (FlowNode * bool) :=
  '(f, closed) ← update_flow_state_machine (flow_timeout cfg) (new_master (flow_timeout cfg)) (new_slave (flow_timeout cfg)) (fsm_node n) flags d;
  Ret (n <| nd_flow_state := flow_state f |> <| nd_timeout := timeout f |>, closed).

Definition add_flags (flags : Z) (x : FlowMetricsPeer) : FlowMetricsPeer :=
  x <| tcp_flags := Z.lor (tcp_flags x) flags |> <| total_tcp_flags := Z.lor (total_tcp_flags x) flags |>.

(** [FlowMap::update_tcp_flow] *)
Definition update_tcp_flow (g : Gen) (p : MetaPacket) (n : FlowNode) : run (Gen * MetaPacket * FlowNode * bool) :=
  let direction := direction (lookup_key p) in
  h ← tcp_data p;
  let flags := th_flags h in
  let n := n <| nd_flow := on_peer (nd_flow n) direction (add_flags flags) |> in
  '(g, n, p) ← update_flow g n p;
  if decide (fl_signal_source (nd_flow n) = EBPF) then Ret (g, p, n, false)
  else
    '(g, p, n) ←
      (if negb (Z.land flags TcpFlags.SYN =? 0) || need_reverse_flow p then
         '(g, p, n, _) ← update_l4_direction g p n false;
         n ← update_syn_or_syn_ack_seq n p;
         Ret (g, p, n)
       else Ret (g, p, n));
    n ← update_tcp_keepalive_seq n p;
    let p := p <| pk_is_active_service := is_active_service (nd_flow n) |> in
    if TcpFlags.is_invalid flags
    then Ret (g, p, n <| nd_timeout := FlowTimeout.exception (flow_timeout cfg) |> <| nd_flow_state := Exception |>, false)
    else
      '(n, closed) ← step_state n flags direction;
      Ret (g, p, n, closed).

Definition append_sequence (g : Gen) (n : FlowNode) (p : MetaPacket) : Gen :=
  if packet_sequence_enabled cfg then g <| env := sequence_append (env g) n p |> else g.

Definition is_c2s (p : MetaPacket) : bool := bool_decide (direction (lookup_key p) = ClientToServer).

(** A request is open until its answer; an [i32] by its bits. *)
Definition count_request (n : FlowNode) (p : MetaPacket) : FlowNode :=
  n <| residual_request := if is_c2s p then wadd 32 (residual_request n) 1 else wsub 32 (residual_request n) 1 |>.

(** [FlowMap::update_tcp_node] *)
Definition update_tcp_node (g : Gen) (n : FlowNode) (p : MetaPacket) : run (Gen * FlowNode * MetaPacket * bool) :=
  if decide (ebpf_type p = SocketCloseEvent) then Ret (g, n <| nd_timeout := DEFAULT_SOCKET_CLOSE_TIMEOUT |>, p, false)
  else
    '(g, p, n, closed) ← update_tcp_flow g p n;
    '(g, n, p) ← (if collector_enabled cfg then collect_metric g n p (is_c2s p) false else Ret (g, n, p));
    let n := if decide (fl_signal_source (nd_flow n) = EBPF) then
               let n := count_request n p in
               n <| nd_timeout := if residual_request n =? 0 then FlowTimeout.opening (flow_timeout cfg) else l7_log_session_aggr_max_timeout cfg |>
             else n in
    Ret (append_sequence g n p, n, p, closed).

(** Packets were seen in both directions since the last report. *)
Definition both_directions (n : FlowNode) : bool :=
  (0 <? packet_count (flow_metrics_src (nd_flow n))) && (0 <? packet_count (flow_metrics_dst (nd_flow n))).

(** [FlowMap::update_udp_node] *)
Definition update_udp_node (g : Gen) (n : FlowNode) (p : MetaPacket) : run (Gen * FlowNode * MetaPacket * bool) :=
  '(g, n, p) ← update_flow g n p;
  let n := if both_directions n then n <| nd_timeout := FlowTimeout.closing (flow_timeout cfg) |> else n in
  let p := p <| pk_is_active_service := is_active_service (nd_flow n) |> in
  '(g, n, p) ← (if collector_enabled cfg then collect_metric g n p (is_c2s p) false else Ret (g, n, p));
  let '(g, n) := if decide (fl_signal_source (nd_flow n) = EBPF) then update_udp_is_active g n (direction (lookup_key p)) else (g, n) in
  if need_reverse_flow p then
    '(g, p, n, _) ← update_l4_direction g p n false;
    Ret (g, n, p, false)
  else Ret (g, n, p, false).

(** [FlowMap::update_other_node] *)
Definition update_other_node (g : Gen) (n : FlowNode) (p : MetaPacket) : run (Gen * FlowNode * MetaPacket * bool) :=
  '(g, n, p) ← update_flow g n p;
  let n := if both_directions n then n <| nd_timeout := FlowTimeout.established_rst (flow_timeout cfg) |> else n in
  '(g, n, p) ← (if collector_enabled cfg then collect_metric g n p true true else Ret (g, n, p));
  Ret (g, n, p, false).

(** The id of the flow and its second, for the packet *)
Definition mark_packet (n : FlowNode) (p : MetaPacket) : MetaPacket :=
  p <| pk_flow_id := flow_id (nd_flow n) |> <| second_in_minute := Timestamp.as_secs (start_time (nd_flow n)) mod SECONDS_IN_MINUTE |>.

Definition update_any_node (g : Gen) (n : FlowNode) (p : MetaPacket) : run (Gen * FlowNode * MetaPacket * bool) :=
  let p := mark_packet n p in
  if proto (lookup_key p) =? IpProtocol.TCP then update_tcp_node g n p
  else if proto (lookup_key p) =? IpProtocol.UDP then update_udp_node g n p
  else update_other_node g n p.

(** *** The first packet *)

Definition first_peer (p : MetaPacket) (flags : Z) : FlowMetricsPeer :=
  FlowMetricsPeer_default <| total_packet_count := 1 |> <| packet_count := 1 |> <| total_byte_count := packet_len p |>
    <| byte_count := packet_len p |> <| l3_byte_count := l3_payload_len p |> <| l4_byte_count := l4_payload_len p |>
    <| first := timestamp p |> <| last := timestamp p |> <| tcp_flags := flags |> <| total_tcp_flags := flags |>.

Definition first_tunnel (p : MetaPacket) : TunnelField :=
  match tunnel p with
  | Some t => TunnelField_default <| tx_ip0 := src t |> <| tx_ip1 := dst t |> <| tx_mac0 := mac_src t |> <| tx_mac1 := mac_dst t |>
                <| tx_id := id t |> <| tf_tier := tier t |> <| tf_tunnel_type := tunnel_type t |> <| tf_is_ipv6 := is_ipv6 t |>
  | None => TunnelField_default
  end.

(** The flow and the node of a packet *)
Definition first_flow (p : MetaPacket) (id stat : Z) : Flow :=
  let k := lookup_key p in
  let flags := match protocol_data p with TcpHeader h => th_flags h | IcmpData _ _ => 0 end in
  {| flow_key := Build_FlowKey (tap_type k) (tap_port p) (src_mac k) (dst_mac k) (src_ip k) (dst_ip k) (src_port k) (dst_port k) (proto k);
     flow_metrics_src := first_peer p flags;
     flow_metrics_dst := FlowMetricsPeer_default;
     fl_tunnel := first_tunnel p;
     flow_id := id;
     syn_seq := 0; synack_seq := 0; last_keepalive_seq := 0; last_keepalive_ack := 0;
     start_time := timestamp p; end_time := 0; duration := 0; flow_stat_time := stat;
     fl_vlan := vlan p; fl_eth_type := lk_eth_type k;
     close_type := CloseUnknown;
     fl_signal_source := signal_source p;
     is_active_service := bool_decide (signal_source p = EBPF) && (proto k =? IpProtocol.TCP);
     fl_queue_hash := queue_hash p; is_new_flow := true; reversed := false; direction_score := 0 |}.

Definition first_node (p : MetaPacket) (f : Flow) : FlowNode :=
  Build_FlowNode f (timestamp p) (timestamp p) Timestamp.ZERO (Timestamp.as_secs (timestamp p)) None 0 0 0 true false true Raw.

(** The direction of the first packet, where it tells *)
Definition rectify_first (g : Gen) (n : FlowNode) (p : MetaPacket) : run (Gen * FlowNode) :=
  if decide (signal_source p = EBPF) then
    let k := lookup_key p in
    let '(src_epc, dst_epc) := cached_epcs n in
    '(t, (score, need_reverse)) ← get_ebpf_tcp_score (service_table g) (socket_role p) (l2_end_0 k) (l2_end_1 k)
      (ServiceKey_new (src_ip k) src_epc (src_port k)) (ServiceKey_new (dst_ip k) dst_epc (dst_port k));
    let f := if (need_reverse : bool) then Flow_reverse (nd_flow n) true else nd_flow n in
    Ret (g <| service_table := t |>, n <| nd_flow := (f <| direction_score := score |>) |>)
  else
    match protocol_data p with
    | IcmpData icmp_type _ => Ret (g, if icmp_type =? icmp_echo_reply then n <| nd_flow := Flow_reverse (nd_flow n) true |> else n)
    | TcpHeader _ => Ret (g, n)
    end.

(** [FlowMap::init_flow] *)
Definition init_flow (g : Gen) (p : MetaPacket) : run (Gen * MetaPacket * FlowNode) :=
  let '(g, id) := if decide (signal_source p = EBPF) then (g, generate_ebpf_flow_id p) else generate_flow_id g (timestamp p) in
  stat ← Timestamp.round_to (timestamp p) TIME_UNIT;
  let n := first_node p (first_flow p id stat) in
  let '(g, p) := lookup_policy g p in
  let '(n, p) := init_endpoint_and_policy_data n p in
  let f := init_nat_info (nd_flow n) p in
  let f := f <| flow_metrics_src := ((flow_metrics_src f) <| gpid := gpid_0 p |>) |>
             <| flow_metrics_dst := ((flow_metrics_dst f) <| gpid := gpid_1 p |>) |> in
  let source := get_nat_source (lookup_key p) in
  let p := p <| tap_port := TapPort.set_nat_source (tap_port p) source |> in
  let f := f <| flow_key := ((flow_key f) <| fk_tap_port := TapPort.set_nat_source (fk_tap_port (flow_key f)) source |>) |> in
  '(g, n) ← rectify_first g (n <| nd_flow := f |>) p;
  Ret (g, p, n).

(** [FlowMap::new_tcp_node] *)
Definition new_tcp_node (g : Gen) (p : MetaPacket) : run (Gen * MetaPacket * FlowNode) :=
  '(g, p, n) ← init_flow g p;
  let p := mark_packet n p in
  let p := p <| pk_is_active_service := is_active_service (nd_flow n) |> in
  '(g, p, n, reverse) ←
    (if decide (fl_signal_source (nd_flow n) = EBPF) then
       let t := if decide (ebpf_type p = SocketCloseEvent) then DEFAULT_SOCKET_CLOSE_TIMEOUT else l7_log_session_aggr_max_timeout cfg in
       Ret (g, p, n <| nd_timeout := t |>, false)
     else
       '(g, p, n, reverse) ← update_l4_direction g p n true;
       h ← tcp_data p;
       let n := if TcpFlags.is_invalid (th_flags h)
                then n <| nd_timeout := FlowTimeout.exception (flow_timeout cfg) |> <| nd_flow_state := Exception |> else n in
       '(n, _) ← step_state n (th_flags h) (direction (lookup_key p));
       n ← update_syn_or_syn_ack_seq n p;
       Ret (g, p, n, reverse));
  '(g, n, p) ← (if collector_enabled cfg then collect_metric g n p (negb reverse) true else Ret (g, n, p));
  let n := if decide (fl_signal_source (nd_flow n) = EBPF /\ ebpf_type p <> SocketCloseEvent) then count_request n p else n in
  Ret (append_sequence g n p, p, n).

(** [FlowMap::new_udp_node] *)
Definition new_udp_node (g : Gen) (p : MetaPacket) : run (Gen * MetaPacket * FlowNode) :=
  '(g, p, n) ← init_flow g p;
  let p := mark_packet n p in
  let p := p <| pk_is_active_service := is_active_service (nd_flow n) |> in
  let n := n <| nd_flow_state := Established |> <| nd_timeout := FlowTimeout.opening (flow_timeout cfg) |> in
  '(g, p, n, reverse) ← (if decide (fl_signal_source (nd_flow n) = EBPF) then Ret (g, p, n, false) else update_l4_direction g p n true);
  '(g, n, p) ← (if collector_enabled cfg then collect_metric g n p (negb reverse) true else Ret (g, n, p));
  Ret (g, p, n).

(** [FlowMap::new_other_node] *)
Definition new_other_node (g : Gen) (p : MetaPacket) : run (Gen * MetaPacket * FlowNode) :=
  '(g, p, n) ← init_flow g p;
  let p := mark_packet n p in
  let n := n <| nd_flow_state := Established |> <| nd_timeout := FlowTimeout.opening (flow_timeout cfg) |> in
  '(g, n, p) ← (if collector_enabled cfg then collect_metric g n p (is_c2s p) true else Ret (g, n, p));
  Ret (g, p, n).

(** The node of [FlowMap::new_flow_node]; an eBPF flow without a server port is
    not created. *)
Definition new_any_node (g : Gen) (p : MetaPacket) : run (Gen * MetaPacket * option FlowNode) :=
  '(g, p, n) ←
    (if proto (lookup_key p) =? IpProtocol.TCP then new_tcp_node g p
     else if proto (lookup_key p) =? IpProtocol.UDP then new_udp_node g p
     else new_other_node g p);
  if decide (signal_source p = EBPF /\ log_server_port (env g) n = Some 0) then Ret (g, p, None) else Ret (g, p, Some n).

(** *** Reports *)

Definition reports_perf (f : Flow) : bool :=
  (fk_proto (flow_key f) =? IpProtocol.TCP) || (fk_proto (flow_key f) =? IpProtocol.UDP)
  || (fk_proto (flow_key f) =? IpProtocol.ICMPV4) || (fk_proto (flow_key f) =? IpProtocol.ICMPV6).

(** [push_to_flow_stats_queue] of the flow, after its performance statistics *)
Definition push_flow (g : Gen) (n : FlowNode) : Gen :=
  let g := if collector_enabled cfg && reports_perf (nd_flow n) then g <| env := perf_report (env g) n |> else g in
  g <| output := output g ++ [nd_flow n] |>.

(** The flow has a report due: its first one of a second, or at a flush. *)
Definition report_due (n : FlowNode) (timestamp : Duration) (o : option MetaPacket) : bool :=
  packet_in_tick n
  && (bool_decide (o = None) || (Timestamp.add (flow_stat_time (nd_flow n)) STATISTICAL_INTERVAL <=? wrap 64 timestamp)
      || (wrap 64 timestamp <? flow_stat_time (nd_flow n))).

(** [FlowMap::node_updated_aftercare] *)
Definition node_updated_aftercare (g : Gen) (n : FlowNode) (timestamp : Duration) (o : option MetaPacket) : run (Gen * FlowNode * option MetaPacket) :=
  if report_due n timestamp o then
    '(g, n, o) ← update_flow_direction g n o;
    let n := n <| nd_flow := ((nd_flow n) <| close_type := ForcedReport |>) |> in
    if negb (collector_enabled cfg) then Ret (g, n, o)
    else Ret (push_flow g n, reset_flow_stat_info n, o)
  else Ret (g, n, o).

(** [FlowMap::node_removed_aftercare] *)
Definition node_removed_aftercare (g : Gen) (n : FlowNode) (timeout : Duration) (o : option MetaPacket) : run Gen :=
  '(g, n, _) ← update_flow_direction g n o;
  let f := nd_flow n in
  let f := if decide (fl_signal_source f = EBPF) then f <| close_type := CloseTimeout |> else update_close_type f (nd_flow_state n) in
  let f := f <| end_time := Timestamp.from_duration timeout |>
             <| flow_stat_time := wrap 64 (timeout / STATISTICAL_INTERVAL * STATISTICAL_INTERVAL) |> in
  Ret (push_flow g (n <| nd_flow := f |>)).

#[export] Instance flow_ops : FlowOps Gen := {|
  fo_init := new_any_node;
  fo_update := update_any_node;
  fo_report := node_updated_aftercare;
  fo_remove := node_removed_aftercare;
  fo_close_event g n := g <| env := close_event (env g) n |>;
  fo_lookup := lookup_policy;
  fo_flush g t := g <| env := flush_queues (env g) t |>;
|}.

End flow_update.
