(* ===== verification/FlowUpdateSpec.v ===== *)
(** * The flow operations keep the promises of the flow map

    [flow_ops] implements the interface the flow map relies on: none of its
    operations panics on the packets the capture side delivers, each keeps the
    times and the identity of a flow, and every packet is counted once. *)

From stdpp Require Import gmap.
From S2P Require Import TapTypes Decapsulate ServiceTable ServiceSpec PacketParse FlowFsm.
From S2P Require Import Prelude Timestamp TcpFlags FlowState Bytes Consts TunnelType TapPort Endpoint MetaPacket Flow FlowNode FlowMap FlowMapSpec FlowUpdate.

(** ** What stays *)

(** The addresses are of the same version. *)
Definition same_ips (a b : IpAddr) : bool := match a, b with V4 _, V4 _ | V6 _, V6 _ => true | _, _ => false end.

(** The packets of a flow that are not in a report yet *)
Definition flow_packets (f : Flow) : Z := packet_count (flow_metrics_src f) + packet_count (flow_metrics_dst f).

Definition pending (n : FlowNode) : Z := flow_packets (nd_flow n).

Definition counts_ok (n : FlowNode) : Prop :=
  0 <= packet_count (flow_metrics_src (nd_flow n)) /\ 0 <= packet_count (flow_metrics_dst (nd_flow n)).

(** A step on a node that keeps its times, state and identity, and its counters
    up to the order of the peers. *)
Record kept (n n' : FlowNode) : Prop := {
  kp_clock : same_clock n n';
  kp_min : min_arrived_time n' = min_arrived_time n;
  kp_state : nd_flow_state n' = nd_flow_state n;
  kp_source : fl_signal_source (nd_flow n') = fl_signal_source (nd_flow n);
  kp_ips : same_ips (fk_ip_src (flow_key (nd_flow n))) (fk_ip_dst (flow_key (nd_flow n))) = true ->
    same_ips (fk_ip_src (flow_key (nd_flow n'))) (fk_ip_dst (flow_key (nd_flow n'))) = true;
  kp_counts : counts_ok n -> counts_ok n';
  kp_pending : pending n' = pending n;
}.

#[export] Instance kept_refl : Reflexive kept.
Proof. by intros n; split. Qed.

#[export] Instance kept_trans : Transitive kept.
Proof.
  intros a b c [(A1 & A2 & A3 & A4) A5 A6 A7 A8 A9 A10] [(B1 & B2 & B3 & B4) B5 B6 B7 B8 B9 B10].
  split; [split_and!; congruence|congruence..|auto|auto|congruence].
Qed.

(** What the operations keep of a packet: all but its direction and what the
    policy lookup fills in. *)
Record pkept (p p' : MetaPacket) : Prop := {
  pk_time : timestamp p' = timestamp p;
  pk_proto : proto (lookup_key p') = proto (lookup_key p);
  pk_src_ip : src_ip (lookup_key p') = src_ip (lookup_key p);
  pk_dst_ip : dst_ip (lookup_key p') = dst_ip (lookup_key p);
  pk_src_port : src_port (lookup_key p') = src_port (lookup_key p);
  pk_dst_port : dst_port (lookup_key p') = dst_port (lookup_key p);
  pk_data : protocol_data p' = protocol_data p;
  pk_source : signal_source p' = signal_source p;
  pk_ebpf : ebpf_type p' = ebpf_type p;
}.

#[export] Instance pkept_refl : Reflexive pkept.
Proof. by intros p; split. Qed.

#[export] Instance pkept_trans : Transitive pkept.
Proof. intros a b c [] []. split; congruence. Qed.

Lemma pkept_direction p d : pkept p (with_direction p d).
Proof. by split. Qed.

Lemma turned_kept n b : kept n (n <| nd_flow := Flow_reverse (nd_flow n) b |>).
Proof.
  split; cbn; try done.
  - by destruct (fk_ip_src (flow_key (nd_flow n))), (fk_ip_dst (flow_key (nd_flow n))).
  - by intros [H1 H2].
  - unfold pending, flow_packets. cbn. apply Z.add_comm.
Qed.

Lemma reverse_flow_kept n b : kept n (reverse_flow n b).
Proof. transitivity (n <| nd_flow := Flow_reverse (nd_flow n) b |>); [apply turned_kept|by split]. Qed.

(** A new flow that keeps what matters of the old one *)
Record flow_kept (f f' : Flow) : Prop := {
  fp_id : flow_id f' = flow_id f;
  fp_source : fl_signal_source f' = fl_signal_source f;
  fp_src : fk_ip_src (flow_key f') = fk_ip_src (flow_key f);
  fp_dst : fk_ip_dst (flow_key f') = fk_ip_dst (flow_key f);
  fp_count_src : packet_count (flow_metrics_src f') = packet_count (flow_metrics_src f);
  fp_count_dst : packet_count (flow_metrics_dst f') = packet_count (flow_metrics_dst f);
}.

Lemma flow_kept_trans a b c : flow_kept a b -> flow_kept b c -> flow_kept a c.
Proof. intros [] []. split; congruence. Qed.

Lemma set_flow_kept n f : flow_kept (nd_flow n) f -> kept n (n <| nd_flow := f |>).
Proof.
  intros [H1 H2 H3 H4 H5 H6]. split; cbn; try done.
  - rewrite H3, H4. done.
  - unfold counts_ok. cbn. by rewrite H5, H6.
  - unfold pending, flow_packets. cbn. by rewrite H5, H6.
Qed.

Lemma on_peer_kept f d g : (forall x, packet_count (g x) = packet_count x) -> flow_kept f (on_peer f d g).
Proof. intros Hg. destruct d; split; cbn; try done; apply Hg. Qed.

Lemma metrics_kept n p : let '(n', p') := update_flow_metrics_peers n p in kept n n' /\ pkept p p'.
Proof.
  unfold update_flow_metrics_peers. destruct (endpoint_data_cache n) as [ep|]; [|done]. split; [by apply set_flow_kept|].
  unfold set_vip_info. by repeat case_match; split.
Qed.

Lemma metrics_kept_from n n0 p : kept n n0 -> let '(n', p') := update_flow_metrics_peers n0 p in kept n n' /\ pkept p p'.
Proof. intros Hn. pose proof (metrics_kept n0 p) as H. destruct (update_flow_metrics_peers n0 p). split; [transitivity n0; [done|apply H]|apply H]. Qed.

Lemma init_endpoint_kept n p : let '(n', p') := init_endpoint_and_policy_data n p in kept n n' /\ pkept p p'.
Proof. unfold init_endpoint_and_policy_data. destruct (endpoint_data p) as [e|]; [|done]. by apply metrics_kept_from. Qed.

Lemma update_endpoint_kept n p : let '(n', p') := update_endpoint_and_policy_data n p in kept n n' /\ pkept p p'.
Proof. unfold update_endpoint_and_policy_data. by destruct (endpoint_data p) as [e|]; apply metrics_kept_from. Qed.

Lemma nat_kept f p : let '(f', p') := update_nat_info f p in flow_kept f f' /\ pkept p p'.
Proof.
  unfold update_nat_info. split; [|by split].
  set (f1 := if negb (src_nat_source _ =? _) && _ then _ else _). assert (flow_kept f f1) as H1 by (unfold f1; case_match; [by apply on_peer_kept|done]).
  set (f2 := if negb (dst_nat_source _ =? _) && _ then _ else _). assert (flow_kept f1 f2) as H2 by (unfold f2; case_match; [by apply on_peer_kept|done]).
  apply (flow_kept_trans f f1); [done|]. apply (flow_kept_trans f1 f2); [done|]. by case_match.
Qed.

Lemma init_nat_kept f p : flow_kept f (init_nat_info f p).
Proof. unfold init_nat_info. split; cbn; try done; by case_match. Qed.

Lemma gpid_kept f p : flow_kept f (update_gpid f p).
Proof.
  unfold update_gpid. set (f1 := if 0 <? gpid_0 p then _ else _). assert (flow_kept f f1) as H1 by (unfold f1; case_match; [by apply on_peer_kept|done]).
  apply (flow_kept_trans f f1); [done|]. case_match; [by apply on_peer_kept|done].
Qed.

(** A node after [k] packets more, the last one not before [r]. *)
Record evolved (r k : Z) (n n' : FlowNode) : Prop := {
  ev_recent : recent_time n' = r;
  ev_timeout : nd_timeout n' = nd_timeout n;
  ev_key : timestamp_key n' = timestamp_key n;
  ev_id : node_id n' = node_id n;
  ev_min : min_arrived_time n' = min_arrived_time n;
  ev_state : nd_flow_state n' = nd_flow_state n;
  ev_source : fl_signal_source (nd_flow n') = fl_signal_source (nd_flow n);
  ev_ips : same_ips (fk_ip_src (flow_key (nd_flow n))) (fk_ip_dst (flow_key (nd_flow n))) = true ->
    same_ips (fk_ip_src (flow_key (nd_flow n'))) (fk_ip_dst (flow_key (nd_flow n'))) = true;
  ev_counts : counts_ok n -> counts_ok n';
  ev_pending : counts_ok n -> pending n + k < 2 ^ 64 -> pending n' = pending n + k;
}.

Lemma kept_evolved n n' : kept n n' -> evolved (recent_time n) 0 n n'.
Proof. intros [(? & ? & ? & ?) ? ? ? ? ? ?]. split; auto. lia. Qed.

Lemma evolved_kept r k n n' n'' : evolved r k n n' -> kept n' n'' -> evolved r k n n''.
Proof.
  intros [E1 E2 E3 E4 E5 E6 E7 E8 E9 E10] [(K1 & K2 & K3 & K4) K5 K6 K7 K8 K9 K10].
  split; [congruence..|auto|auto|]. intros Hc Hp. rewrite K10. auto.
Qed.

Lemma kept_then_evolved r k n n' n'' : kept n n' -> evolved r k n' n'' -> evolved r k n n''.
Proof.
  intros [(K1 & K2 & K3 & K4) K5 K6 K7 K8 K9 K10] [E1 E2 E3 E4 E5 E6 E7 E8 E9 E10].
  split; [congruence..|auto|auto|]. intros Hc Hp. rewrite K10 in E10. auto.
Qed.

Lemma evolved_trans r j r' k n n' n'' : 0 <= k -> evolved r j n n' -> evolved r' k n' n'' -> evolved r' (j + k) n n''.
Proof.
  intros Hk [E1 E2 E3 E4 E5 E6 E7 E8 E9 E10] [C1 C2 C3 C4 C5 C6 C7 C8 C9 C10].
  split; [congruence..|auto|auto|]. intros Hc Hb. rewrite E10 in C10 by (done || lia). rewrite C10 by (auto || lia). lia.
Qed.

(** ** What the policy lookup and the log parser keep *)

Class FlowEnvOk {X} (V : FlowEnv X) : Prop := {
  lookup_keeps : forall x p, pkept p (policy_lookup x p).2 /\ direction (lookup_key (policy_lookup x p).2) = direction (lookup_key p);
  parse_keeps : forall x n p b, pkept p (log_parse x n p b).1.2;
}.

Section ops.
Context {X : Type} {V : FlowEnv X} {Vok : FlowEnvOk V} {L4 : LruCache Ipv4Key} {L6 : LruCache Ipv6Key} {N : PnetNumbers} (cfg : FlowConfig).

Abbreviation state := (Gen (X := X) (L4 := L4) (L6 := L6)).

(** *** Directions *)

Lemma on_keys_ret {A} (t : ServiceTable) src dst f4 f6 : same_version src dst = true -> exists t' (a : A), on_keys t src dst f4 f6 = Ret (t', a).
Proof.
  intros Hv. unfold on_keys. destruct src as [s|s], dst as [d|d]; [|done..|].
  - destruct (f4 s d (ipv4 t)). eauto.
  - destruct (f6 s d (ipv6 t)). eauto.
Qed.

Lemma same_version_keys a b e1 e2 p1 p2 : same_version (ServiceKey_new a e1 p1) (ServiceKey_new b e2 p2) = same_ips a b.
Proof. by destruct a, b. Qed.

Lemma set_service_kept f s : flow_kept f (set_service f s).
Proof. by split. Qed.

(** A packet that takes part in finding directions. *)
Definition l4_packet (p : MetaPacket) : Prop :=
  same_ips (src_ip (lookup_key p)) (dst_ip (lookup_key p)) = true
  /\ ((proto (lookup_key p) = IpProtocol.TCP /\ exists h, protocol_data p = TcpHeader h) \/ proto (lookup_key p) = IpProtocol.UDP).

Lemma update_l4_direction_ok (g : state) p n first : l4_packet p ->
  wp (update_l4_direction g p n first) (fun '(g', p', n', _) => output g' = output g /\ kept n n' /\ pkept p p').
Proof.
  intros [Hv Hp]. unfold update_l4_direction. destruct (cached_epcs n) as [e1 e2].
  set (query := if proto (lookup_key p) =? IpProtocol.TCP then _ else _).
  assert (exists t scores, query = Ret (t, scores)) as (t & [s1 s2] & ->).
  { unfold query. destruct Hp as [[-> [h Hh]]| ->]; cbn [Z.eqb].
    - rewrite Z.eqb_refl. unfold tcp_data. rewrite Hh. cbn [mbind run_bind]. apply on_keys_ret. by rewrite same_version_keys.
    - change (IpProtocol.UDP =? IpProtocol.TCP) with false. cbn iota. rewrite Z.eqb_refl. unfold get_udp_score, get_first_packet_score.
      destruct first; apply on_keys_ret; by rewrite same_version_keys. }
  cbn [mbind run_bind fst snd]. set (sc := match direction (lookup_key p) with ClientToServer => (s1, s2) | ServerToClient => (s2, s1) end).
  destruct sc as [s d]. destruct (negb (is_client_to_server s d)); cbn [wp].
  - split_and!; [done| |apply pkept_direction]. transitivity (reverse_flow n first); [apply reverse_flow_kept|]. by apply set_flow_kept.
  - split_and!; [done| |done]. by apply set_flow_kept.
Qed.

Lemma update_flow_direction_ok (g : state) n o : same_ips (fk_ip_src (flow_key (nd_flow n))) (fk_ip_dst (flow_key (nd_flow n))) = true ->
  wp (update_flow_direction g n o) (fun '(g', n', o') => output g' = output g /\ kept n n'
    /\ (o' = o \/ o' = reverse_packet_direction <$> o)).
Proof.
  intros Hv. unfold update_flow_direction. case_decide; [split_and!; auto; done|]. unfold flow_service_keys.
  set (query := if fk_proto _ =? _ then _ else _).
  assert (query = None \/ exists t scores, query = Some (Ret (t, scores))) as [->|(t & [s1 s2] & ->)]; [|split_and!; auto; done|].
  { unfold query. case_match; [|case_match; [|by left]]; right.
    - edestruct (on_keys_ret (A := Z * Z)) as (t & a & Ht); [by rewrite same_version_keys|]. exists t, a. f_equal. exact Ht.
    - unfold get_udp_score. edestruct (on_keys_ret (A := Z * Z)) as (t & a & Ht); [by rewrite same_version_keys|]. exists t, a. f_equal. exact Ht. }
  cbn [mbind run_bind]. destruct (negb (is_client_to_server s1 s2)); cbn [wp].
  - split_and!; [done| |by right]. transitivity (reverse_flow n false); [apply reverse_flow_kept|]. by apply set_flow_kept.
  - split_and!; [done| |by left]. by apply set_flow_kept.
Qed.

Lemma rectify_ok (g : state) n p first : same_ips (fk_ip_src (flow_key (nd_flow n))) (fk_ip_dst (flow_key (nd_flow n))) = true ->
  wp (rectify_flow_direction g n p first) (fun '(g', n') => output g' = output g /\ kept n n').
Proof.
  intros Hv. unfold rectify_flow_direction. set (need := if bool_decide _ && _ then _ else _). destruct need; [|done]. pose proof (reverse_flow_kept n first) as Hk.
  case_decide; [by split|]. unfold flow_service_keys. unfold reset_score.
  edestruct (on_keys_ret (A := unit)) as (t & a & Ht); [rewrite same_version_keys; by apply (kp_ips _ _ Hk)|]. rewrite Ht. by split.
Qed.

(** *** The log parser *)

Lemma next_sub_packet_none p sp : ebpf_type p = EbpfNone -> next_sub_packet p sp = p.
Proof. intros He. unfold next_sub_packet. by rewrite decide_True. Qed.

Definition ips_ok (n : FlowNode) : Prop := same_ips (fk_ip_src (flow_key (nd_flow n))) (fk_ip_dst (flow_key (nd_flow n))) = true.

Lemma parse_packet_ok b1 b2 (g : state) n p sp : ips_ok n -> ebpf_type p = EbpfNone ->
  wp (parse_packet b1 b2 (g, n, p) sp) (fun '(g', n', p') => output g' = output g /\ kept n n' /\ pkept p p').
Proof.
  intros Hi He. unfold parse_packet. rewrite next_sub_packet_none by done. pose proof (parse_keeps (env g) n p b1) as Hp.
  destruct (log_parse (env g) n p b1) as [[x p'] ok]. cbn in Hp. destruct ok; [|done]. apply wp_bind.
  apply (wp_mono _ (fun '(g', n') => output g' = output g /\ kept n n')).
  - case_match; [exact (rectify_ok (g <| env := x |>) n p' b2 Hi)|done].
  - intros [g' n'] [Ho Hk]. done.
Qed.

Lemma collect_metric_ok (g : state) n p b1 b2 : ips_ok n -> ebpf_type p = EbpfNone ->
  wp (collect_metric g n p b1 b2) (fun '(g', n', p') => output g' = output g /\ kept n n' /\ pkept p p').
Proof.
  intros Hi He. unfold collect_metric. generalize (sub_packets p) as sps.
  intros sps. apply (wp_rfold _ (fun _ '(g', n', p') => output g' = output g /\ kept n n' /\ pkept p p')); [done|].
  intros sp l [[g1 n1] p1] (Ho & Hk & Hp). eapply wp_mono; [apply parse_packet_ok; [by apply (kp_ips _ _ Hk)|by rewrite (pk_ebpf _ _ Hp)]|].
  intros [[g2 n2] p2] (Ho2 & Hk2 & Hp2). split_and!; [congruence|by transitivity n1|by transitivity p1].
Qed.

Lemma maybe_collect_ok (c : bool) (g : state) n p b1 b2 : ips_ok n -> ebpf_type p = EbpfNone ->
  wp (if c then collect_metric g n p b1 b2 else Ret (g, n, p)) (fun '(g', n', p') => output g' = output g /\ kept n n' /\ pkept p p').
Proof. intros Hi He. destruct c; [by apply collect_metric_ok|done]. Qed.

(** *** Updates *)

Lemma lookup_policy_ok (g : state) p : let '(g', p') := lookup_policy g p in output g' = output g /\ pkept p p'.
Proof. unfold lookup_policy. pose proof (proj1 (lookup_keeps (env g) p)) as H. by destruct (policy_lookup (env g) p). Qed.

Lemma recall_toa_kept n p : pkept p (recall_toa n p).
Proof. unfold recall_toa. by case_match. Qed.

Lemma copy_endpoint_kept n p : pkept p (copy_endpoint n p).
Proof. unfold copy_endpoint. by case_match; case_match. Qed.

Lemma set_policy_kept n d : kept n (set_policy_in_tick n d).
Proof. by destruct d; split. Qed.

Lemma update_policy_ok (g : state) n p : let '(g', n', p') := update_policy g n p in output g' = output g /\ kept n n' /\ pkept p p'.
Proof.
  unfold update_policy. destruct (negb _); [|split_and!; [done|done|apply copy_endpoint_kept]].
  set (n1 := set_policy_in_tick n _). pose proof (set_policy_kept n (direction (lookup_key p))) as Hn1. fold n1 in Hn1.
  pose proof (recall_toa_kept n1 p) as Hp1. pose proof (lookup_policy_ok g (recall_toa n1 p)) as Hl.
  destruct (lookup_policy g (recall_toa n1 p)) as [g1 p1]. destruct Hl as [Ho Hp2].
  pose proof (update_endpoint_kept n1 p1) as He. destruct (update_endpoint_and_policy_data n1 p1) as [n2 p2]. destruct He as [Hn2 Hp3].
  split_and!; [done|by transitivity n1|]. transitivity (recall_toa n1 p); [done|by transitivity p1].
Qed.

Lemma touch_node_ok n p : min_arrived_time n <= recent_time n ->
  wp (touch_node n p) (fun n' => evolved (Z.max (recent_time n) (timestamp p)) 0 n n').
Proof.
  intros Hm. unfold touch_node. apply wp_bind. apply (wp_mono _ (evolved (Z.max (recent_time n) (timestamp p)) 0 n)).
  - destruct (Z.ltb_spec (recent_time n) (timestamp p)) as [Hlt|Hge].
    + rewrite Timestamp.sub_ret by lia. cbn [mbind run_bind wp]. split; try done; [cbn; lia|intros _ _; change (pending n = pending n + 0); lia].
    + split; try done; [lia|intros _ _; lia].
  - intros n1 Hn1. destruct (negb (packet_in_tick n1)); [|done]. cbn. by eapply evolved_kept.
Qed.

Lemma count_packet_count p x : packet_count (count_packet p x) = wadd 64 (packet_count x) 1.
Proof. unfold count_packet. by case_match. Qed.

Lemma count_evolved n d p : evolved (recent_time n) 1 n (n <| nd_flow := on_peer (nd_flow n) d (count_packet p) |>).
Proof.
  assert (forall z, 0 <= wadd 64 z 1) as Hw by (intros z; apply (wadd_fits 64 z 1); lia).
  split; try (by destruct d); unfold counts_ok, pending, flow_packets; destruct d.
  1, 2: cbn; rewrite count_packet_count; intros [? ?]; auto.
  all: cbn; rewrite count_packet_count; intros [? ?] ?; rewrite wadd_small by (unfold fits; lia); lia.
Qed.

Lemma tunnel_kept f p : flow_kept f (update_tunnel f p).
Proof. unfold update_tunnel. destruct (tunnel p); by destruct (direction (lookup_key p)). Qed.

Lemma vlan_kept f p : flow_kept f (if 0 <? vlan p then f <| fl_vlan := vlan p |> else f).
Proof. by case_match. Qed.

Lemma update_flow_ok (g : state) n p : min_arrived_time n <= recent_time n -> fl_signal_source (nd_flow n) <> EBPF ->
  wp (update_flow g n p) (fun '(g', n', p') => output g' = output g /\ evolved (Z.max (recent_time n) (timestamp p)) 1 n n' /\ pkept p p').
Proof.
  intros Hm Hs. unfold update_flow. apply wp_bind. eapply wp_mono; [by apply touch_node_ok|]. intros n1 Hn1.
  pose proof (update_policy_ok g n1 p) as Hu. destruct (update_policy g n1 p) as [[g1 n2] p1]. destruct Hu as (Ho1 & Hn2 & Hp1).
  pose proof (gpid_kept (nd_flow n2) p1) as Hf1. pose proof (nat_kept (update_gpid (nd_flow n2) p1) p1) as Hf2.
  destruct (update_nat_info (update_gpid (nd_flow n2) p1) p1) as [f p2]. destruct Hf2 as [Hf2 Hp2].
  assert (flow_kept (nd_flow n2) f) as Hf by (by eapply flow_kept_trans).
  assert (evolved (Z.max (recent_time n) (timestamp p)) 0 n (n2 <| nd_flow := f |>)) as Hn3.
  { eapply evolved_kept; [exact Hn1|]. transitivity n2; [done|by apply set_flow_kept]. }
  assert (fl_signal_source f <> EBPF) as Hs' by (pose proof (ev_source _ _ _ _ Hn3) as Hx; cbn in Hx; congruence).
  rewrite decide_False by done.
  assert (evolved (Z.max (recent_time n) (timestamp p)) 1 n (n2 <| nd_flow := on_peer f (direction (lookup_key p2)) (count_packet p2) |>)) as Hn4.
  { pose proof (count_evolved (n2 <| nd_flow := f |>) (direction (lookup_key p2)) p2) as Hc. rewrite (ev_recent _ _ _ _ Hn3) in Hc.
    by apply (evolved_trans _ 0 _ 1 _ _ _ ltac:(lia) Hn3). }
  assert (forall p', pkept p2 p' -> pkept p p') as Hp by (intros p' Hp'; transitivity p1; [done|by transitivity p2]).
  assert (forall f', flow_kept (on_peer f (direction (lookup_key p2)) (count_packet p2)) f' ->
    evolved (Z.max (recent_time n) (timestamp p)) 1 n (n2 <| nd_flow := f' |>)) as Hn5.
  { intros f' Hf'. eapply evolved_kept; [exact Hn4|]. exact (set_flow_kept (n2 <| nd_flow := on_peer f (direction (lookup_key p2)) (count_packet p2) |>) f' Hf'). }
  specialize (Hn5 _ (flow_kept_trans _ _ _ (vlan_kept _ p2) (tunnel_kept _ p2))).
  destruct (is_ndp_response p2).
  - pose proof (lookup_policy_ok g1 p2) as Hl. destruct (lookup_policy g1 p2) as [g2 p3]. destruct Hl as [Ho2 Hp3].
    split_and!; [congruence|exact Hn5|by apply Hp].
  - split_and!; [congruence|exact Hn5|by apply Hp].
Qed.

(** *** The invariant of a node *)

Context (tcp_timeout : FlowTimeout.TcpTimeout) (Hft : flow_timeout cfg = FlowTimeout.from tcp_timeout).
Context (Hmin : 0 <= FlowTimeout.min (flow_timeout cfg)).

(** A node of the flow map: of a captured packet, with a timeout of the
    configuration. *)
Record good (n : FlowNode) : Prop := {
  gd_source : fl_signal_source (nd_flow n) <> EBPF;
  gd_min : min_arrived_time n <= recent_time n;
  gd_state : nd_flow_state n <> Max;
  gd_timeout : 0 <= nd_timeout n <= FlowTimeout.max (flow_timeout cfg);
  gd_ips : ips_ok n;
  gd_counts : counts_ok n;
}.

(** A captured packet: its addresses are of one version, and TCP packets carry
    their header. *)
Record admits (p : MetaPacket) : Prop := {
  ad_source : signal_source p <> EBPF;
  ad_ebpf : ebpf_type p = EbpfNone;
  ad_ips : same_ips (src_ip (lookup_key p)) (dst_ip (lookup_key p)) = true;
  ad_tcp : proto (lookup_key p) = IpProtocol.TCP -> exists h, protocol_data p = TcpHeader h;
}.

Lemma admits_kept p p' : pkept p p' -> admits p -> admits p'.
Proof. intros [] []. split; [congruence..|]. intros Hp. destruct ad_tcp0 as [h Hh]; [congruence|]. exists h. congruence. Qed.

Lemma admits_l4 p : admits p -> (proto (lookup_key p) =? IpProtocol.TCP) = true \/ (proto (lookup_key p) =? IpProtocol.UDP) = true -> l4_packet p.
Proof. intros [] [H%Z.eqb_eq|H%Z.eqb_eq]; split; auto. Qed.

Lemma timeout_in x :
  x ∈ [FlowTimeout.opening (flow_timeout cfg); FlowTimeout.established (flow_timeout cfg); FlowTimeout.closing (flow_timeout cfg);
       FlowTimeout.established_rst (flow_timeout cfg); FlowTimeout.exception (flow_timeout cfg); FlowTimeout.closed_fin (flow_timeout cfg);
       FlowTimeout.single_direction (flow_timeout cfg); FlowTimeout.opening_rst (flow_timeout cfg)] ->
  0 <= x <= FlowTimeout.max (flow_timeout cfg).
Proof.
  intros Hx. revert Hmin Hx. rewrite Hft. intros Hm Hx.
  assert (FlowTimeout.min (FlowTimeout.from tcp_timeout) <= x <= FlowTimeout.max (FlowTimeout.from tcp_timeout)) by (by apply update_min_max_window). lia.
Qed.

(** A good node after [k] packets more. *)
Record moved (r k : Z) (n n' : FlowNode) : Prop := {
  mv_recent : recent_time n' = r;
  mv_key : timestamp_key n' = timestamp_key n;
  mv_id : node_id n' = node_id n;
  mv_pending : pending n + k < 2 ^ 64 -> pending n' = pending n + k;
  mv_good : good n';
}.

Lemma evolved_moved r k n n' : good n -> recent_time n <= r -> evolved r k n n' -> moved r k n n'.
Proof. intros [G1 G2 G3 G4 G5 G6] Hr [E1 E2 E3 E4 E5 E6 E7 E8 E9 E10]. split; auto. split; [congruence|lia|congruence..|by apply E8|auto]. Qed.

Lemma moved_kept r k n n' n'' : moved r k n n' -> kept n' n'' -> moved r k n n''.
Proof.
  intros [M1 M2 M3 M4 [G1 G2 G3 G4 G5 G6]] [(K1 & K2 & K3 & K4) K5 K6 K7 K8 K9 K10].
  split; [congruence..| |split; [congruence|lia|congruence..|by apply K8|auto]]. intros Hp. rewrite K10. auto.
Qed.

Lemma moved_timeout r k n n' t : 0 <= t <= FlowTimeout.max (flow_timeout cfg) -> moved r k n n' -> moved r k n (n' <| nd_timeout := t |>).
Proof. intros Ht [M1 M2 M3 M4 []]. by split. Qed.

Lemma moved_state r k n n' s : s <> Max -> moved r k n n' -> moved r k n (n' <| nd_flow_state := s |>).
Proof. intros Ht [M1 M2 M3 M4 []]. by split. Qed.

Lemma step_state_ok r k n n' flags d : moved r k n n' -> wp (step_state cfg n' flags d) (fun '(n'', _) => moved r k n n'').
Proof.
  intros Hm. pose proof (gd_state _ (mv_good _ _ _ _ Hm)) as Hs. unfold step_state. rewrite update_flow_state_machine_abs by done.
  cbn [mbind run_bind wp flow_state timeout fsm_node src_total_packet_count dst_total_packet_count].
  set (s := sv_state _). set (t := if _ || _ then _ else _).
  assert (0 <= t <= FlowTimeout.max (flow_timeout cfg)).
  { apply timeout_in. unfold t. rewrite !elem_of_cons. destruct (_ || _); [tauto|]. destruct (nd_flow_state n'), (TcpFlags.classify flags), d; cbn; tauto. }
  apply (moved_timeout r k n (n' <| nd_flow_state := s |>)); [done|]. apply moved_state; [apply step_value_proper|done].
Qed.

(** *** Packets of a flow *)

Lemma syn_seq_kept n p : (exists h, protocol_data p = TcpHeader h) -> wp (update_syn_or_syn_ack_seq n p) (kept n).
Proof. intros [h Hh]. unfold update_syn_or_syn_ack_seq, tcp_data. rewrite Hh. cbn [mbind run_bind]. case_match; [|case_match]; cbn; try done; by apply set_flow_kept. Qed.

Lemma keepalive_kept n p : (exists h, protocol_data p = TcpHeader h) -> wp (update_tcp_keepalive_seq n p) (kept n).
Proof.
  intros [h Hh]. unfold update_tcp_keepalive_seq, tcp_data. rewrite Hh. cbn [mbind run_bind].
  set (n1 := match direction (lookup_key p) with ClientToServer => _ | ServerToClient => _ end).
  assert (kept n n1) as Hn1 by (unfold n1; by case_match). case_match; [done|]. case_match; [done|]. case_match; [|done].
  cbn. transitivity n1; [done|]. by apply set_flow_kept.
Qed.

(** What an operation on a node does to the state, the node and the packet. *)
Definition op_ok (g : state) (r k : Z) (n : FlowNode) (p : MetaPacket) (g' : state) (n' : FlowNode) (p' : MetaPacket) : Prop :=
  output g' = output g /\ moved r k n n' /\ pkept p p'.

Lemma collect_step (c : bool) g r k n p (g1 : state) n1 p1 b1 b2 : admits p -> op_ok g r k n p g1 n1 p1 ->
  wp (if c then collect_metric g1 n1 p1 b1 b2 else Ret (g1, n1, p1)) (fun '(g', n', p') => op_ok g r k n p g' n' p').
Proof.
  intros Ha (Ho & Hm & Hp). eapply wp_mono.
  - apply maybe_collect_ok; [apply (gd_ips _ (mv_good _ _ _ _ Hm))|apply (ad_ebpf _ (admits_kept _ _ Hp Ha))].
  - intros [[g2 n2] p2] (Ho2 & Hk2 & Hp2). split_and!; [congruence|by eapply moved_kept|by transitivity p1].
Qed.

Lemma l4_step g r k n p (g1 : state) n1 p1 b : admits p ->
  (proto (lookup_key p) =? IpProtocol.TCP) = true \/ (proto (lookup_key p) =? IpProtocol.UDP) = true -> op_ok g r k n p g1 n1 p1 ->
  wp (update_l4_direction g1 p1 n1 b) (fun '(g', p', n', _) => op_ok g r k n p g' n' p').
Proof.
  intros Ha Hl (Ho & Hm & Hp). eapply wp_mono.
  - apply update_l4_direction_ok, admits_l4; [by eapply admits_kept|]. by rewrite (pk_proto _ _ Hp).
  - intros [[[g2 p2] n2] ?] (Ho2 & Hk2 & Hp2). split_and!; [congruence|by eapply moved_kept|by transitivity p1].
Qed.

Lemma update_flow_step (g : state) n p : good n -> wp (update_flow g n p) (fun '(g', n', p') => op_ok g (Z.max (recent_time n) (timestamp p)) 1 n p g' n' p').
Proof.
  intros Hg. eapply wp_mono; [apply update_flow_ok; apply Hg|]. intros [[g' n'] p'] (Ho & He & Hp).
  split_and!; [done| |done]. apply evolved_moved; [done|lia|done].
Qed.

Lemma tcp_seq_step g r k n p (g1 : state) n1 p1 : admits p -> (proto (lookup_key p) =? IpProtocol.TCP) = true -> op_ok g r k n p g1 n1 p1 ->
  wp ('(g, p, n, _) ← update_l4_direction g1 p1 n1 false; n ← update_syn_or_syn_ack_seq n p; Ret (g, p, n)) (fun '(g', p', n') => op_ok g r k n p g' n' p').
Proof.
  intros Ha Ht Hs. apply wp_bind. eapply wp_mono; [by eapply l4_step; [|left|]|]. intros [[[g2 p2] n2] ?] (Ho & Hm & Hp).
  apply wp_bind. eapply wp_mono; [apply syn_seq_kept, (ad_tcp _ (admits_kept _ _ Hp Ha)); rewrite (pk_proto _ _ Hp); by apply Z.eqb_eq|].
  intros n3 Hk. split_and!; [done|by eapply moved_kept|done].
Qed.

Lemma update_tcp_flow_ok (g : state) n p : good n -> admits p -> (proto (lookup_key p) =? IpProtocol.TCP) = true ->
  wp (update_tcp_flow cfg g p n) (fun '(g', p', n', _) => op_ok g (Z.max (recent_time n) (timestamp p)) 1 n p g' n' p').
Proof.
  intros Hg Ha Ht. pose proof (ad_tcp _ Ha (proj1 (Z.eqb_eq _ _) Ht)) as [h Hh]. unfold update_tcp_flow, tcp_data at 1. rewrite Hh.
  cbn [mbind run_bind]. set (n0 := n <| nd_flow := on_peer (nd_flow n) _ _ |>).
  assert (kept n n0) as Hk0 by (apply set_flow_kept, on_peer_kept; done).
  apply wp_bind. eapply wp_mono; [apply update_flow_ok; [rewrite (kp_min _ _ Hk0); apply Hg|rewrite (kp_source _ _ Hk0); apply Hg]|].
  intros [[g1 n1] p1] (Ho1 & He1 & Hp1). change (recent_time n0) with (recent_time n) in He1.
  pose proof (evolved_moved (Z.max (recent_time n) (timestamp p)) 1 n n1 Hg ltac:(lia) (kept_then_evolved _ _ _ _ _ Hk0 He1)) as Hm1.
  rewrite decide_False by apply (mv_good _ _ _ _ Hm1). apply wp_bind.
  eapply wp_mono; [|]. { case_match; [eapply tcp_seq_step; [exact Ha|done|by split_and!]|]. by apply (conj Ho1 (conj Hm1 Hp1)). }
  intros [[g2 p2] n2] (Ho2 & Hm2 & Hp2). cbn beta iota. apply wp_bind.
  eapply wp_mono; [apply keepalive_kept; exists h; by rewrite (pk_data _ _ Hp2)|]. intros n3 Hk3.
  pose proof (moved_kept _ _ _ _ _ Hm2 Hk3) as Hm3.
  assert (pkept p (p2 <| pk_is_active_service := is_active_service (nd_flow n3) |>)) as Hp3 by (transitivity p2; [done|by split]).
  case_match.
  - split_and!; [done| |done]. apply moved_state; [done|]. apply moved_timeout; [|done]. apply timeout_in. rewrite !elem_of_cons. tauto.
  - apply wp_bind. eapply wp_mono; [by apply step_state_ok|]. intros [n4 ?] Hm4. by split_and!.
Qed.

Lemma append_output (g : state) n p : output (append_sequence cfg g n p) = output g.
Proof. unfold append_sequence. by case_match. Qed.

Lemma update_tcp_node_ok (g : state) n p : good n -> admits p -> (proto (lookup_key p) =? IpProtocol.TCP) = true ->
  wp (update_tcp_node cfg g n p) (fun '(g', n', p', _) => op_ok g (Z.max (recent_time n) (timestamp p)) 1 n p g' n' p').
Proof.
  intros Hg Ha Ht. unfold update_tcp_node. rewrite decide_False by (rewrite (ad_ebpf _ Ha); done). apply wp_bind.
  eapply wp_mono; [by apply update_tcp_flow_ok|]. intros [[[g1 p1] n1] closed] Hs1. apply wp_bind.
  eapply wp_mono; [by eapply collect_step|]. intros [[g2 n2] p2] (Ho2 & Hm2 & Hp2).
  rewrite decide_False by apply (mv_good _ _ _ _ Hm2). split_and!; [by rewrite append_output|done|done].
Qed.

Lemma update_udp_node_ok (g : state) n p : good n -> admits p -> (proto (lookup_key p) =? IpProtocol.UDP) = true ->
  wp (update_udp_node cfg g n p) (fun '(g', n', p', _) => op_ok g (Z.max (recent_time n) (timestamp p)) 1 n p g' n' p').
Proof.
  intros Hg Ha Ht. unfold update_udp_node. apply wp_bind. eapply wp_mono; [by apply update_flow_step|].
  intros [[g1 n1] p1] (Ho1 & Hm1 & Hp1). set (n2 := if both_directions n1 then _ else _).
  assert (moved (Z.max (recent_time n) (timestamp p)) 1 n n2) as Hm2.
  { unfold n2. case_match; [|done]. apply moved_timeout; [|done]. apply timeout_in. rewrite !elem_of_cons. tauto. }
  apply wp_bind. eapply wp_mono.
  { apply (collect_step _ g (Z.max (recent_time n) (timestamp p)) 1 n p); [exact Ha|split_and!; [exact Ho1|exact Hm2|]]. transitivity p1; [done|by split]. }
  intros [[g3 n3] p3] (Ho3 & Hm3 & Hp3). rewrite decide_False by apply (mv_good _ _ _ _ Hm3). case_match; [|by split_and!].
  apply wp_bind. eapply wp_mono; [eapply l4_step; [exact Ha|by right|by split_and!]|]. by intros [[[g4 p4] n4] ?] Hs4.
Qed.

Lemma update_other_node_ok (g : state) n p : good n -> admits p ->
  wp (update_other_node cfg g n p) (fun '(g', n', p', _) => op_ok g (Z.max (recent_time n) (timestamp p)) 1 n p g' n' p').
Proof.
  intros Hg Ha. unfold update_other_node. apply wp_bind. eapply wp_mono; [by apply update_flow_step|].
  intros [[g1 n1] p1] (Ho1 & Hm1 & Hp1). set (n2 := if both_directions n1 then _ else _).
  assert (moved (Z.max (recent_time n) (timestamp p)) 1 n n2) as Hm2.
  { unfold n2. case_match; [|done]. apply moved_timeout; [|done]. apply timeout_in. rewrite !elem_of_cons. tauto. }
  apply wp_bind. eapply wp_mono; [by apply (collect_step _ g (Z.max (recent_time n) (timestamp p)) 1 n p); [|split_and!]|]. by intros [[g3 n3] p3] Hs3.
Qed.

Lemma update_any_node_ok (g : state) n p : good n -> admits p ->
  wp (update_any_node cfg g n p) (fun '(g', n', p', _) => op_ok g (Z.max (recent_time n) (timestamp p)) 1 n p g' n' p').
Proof.
  intros Hg Ha. unfold update_any_node. set (p1 := mark_packet n p). assert (pkept p p1) as Hp by (by split).
  pose proof (admits_kept _ _ Hp Ha) as Ha1.
  apply (wp_mono _ (fun '(g', n', p', _) => op_ok g (Z.max (recent_time n) (timestamp p)) 1 n p1 g' n' p')).
  - change (timestamp p) with (timestamp p1). case_match; [by apply update_tcp_node_ok|].
    case_match; [by apply update_udp_node_ok|by apply update_other_node_ok].
  - intros [[[g' n'] p'] c] (Ho & Hm & Hp'). split_and!; [done|done|]. by transitivity p1.
Qed.

(** *** The first packet of a flow *)

(** A node with one packet at [t], in the second of [t]. *)
Definition created (t : Z) (n : FlowNode) : Prop :=
  recent_time n = t /\ timestamp_key n = Timestamp.as_secs t /\ pending n = 1 /\ good n.

(** A new node has no timeout yet. *)
Definition fresh (t : Z) (n : FlowNode) : Prop :=
  recent_time n = t /\ timestamp_key n = Timestamp.as_secs t /\ pending n = 1
  /\ fl_signal_source (nd_flow n) <> EBPF /\ min_arrived_time n <= recent_time n /\ nd_flow_state n <> Max /\ nd_timeout n = 0
  /\ ips_ok n /\ counts_ok n.

Lemma max_pos : 0 <= FlowTimeout.max (flow_timeout cfg).
Proof. pose proof (timeout_in (FlowTimeout.opening (flow_timeout cfg))). rewrite !elem_of_cons in H. destruct H; [tauto|lia]. Qed.

Lemma fresh_created t n : fresh t n -> created t n.
Proof. intros (H1 & H2 & H3 & H4 & H5 & H6 & H7 & H8 & H9). pose proof max_pos. split_and!; auto. split; auto. lia. Qed.

Lemma created_moved t n n' : created t n -> moved t 0 n n' -> created t n'.
Proof. intros (H1 & H2 & H3 & H4) [M1 M2 M3 M4 M5]. split_and!; [done|congruence|rewrite M4; lia|done]. Qed.

Lemma moved_refl t n : created t n -> moved t 0 n n.
Proof. intros (H1 & H2 & H3 & H4). split; auto. lia. Qed.

Lemma rectify_first_ok (g : state) n p : signal_source p <> EBPF -> wp (rectify_first g n p) (fun '(g', n') => output g' = output g /\ kept n n').
Proof.
  intros Hs. unfold rectify_first. rewrite decide_False by done. destruct (protocol_data p); [by split|]. case_match; [|by split].
  split; [done|]. exact (turned_kept n true).
Qed.

Lemma first_node_fresh p id stat : admits p -> fresh (timestamp p) (first_node p (first_flow p id stat)).
Proof. intros []. split_and!; try done; cbn; lia. Qed.

Lemma fresh_kept t n n' : fresh t n -> kept n n' -> fresh t n'.
Proof.
  intros (H1 & H2 & H3 & H4 & H5 & H6 & H7 & H8 & H9) [(K1 & K2 & K3 & K4) K5 K6 K7 K8 K9 K10].
  split_and!; [congruence..|by apply K8|by apply K9].
Qed.

Lemma init_flow_ok (g : state) p : admits p ->
  wp (init_flow cfg g p) (fun '(g', p', n) => output g' = output g /\ created (timestamp p) n /\ pkept p p').
Proof.
  intros Ha. unfold init_flow. rewrite decide_False by apply Ha. unfold generate_flow_id, Timestamp.round_to. change (TIME_UNIT =? 0) with false.
  cbn [mbind run_bind]. set (g0 := g <| total_flow := _ |>). set (id := Z.lor _ _). set (n0 := first_node p _). pose proof (first_node_fresh p _ _ Ha : fresh (timestamp p) n0) as Hf0.
  pose proof (lookup_policy_ok g0 p) as Hl. destruct (lookup_policy g0 p) as [g1 p1]. destruct Hl as [Ho1 Hp1].
  pose proof (init_endpoint_kept n0 p1) as He. destruct (init_endpoint_and_policy_data n0 p1) as [n1 p2]. destruct He as [Hk1 Hp2].
  apply wp_bind. set (n2 := n1 <| nd_flow := _ |>). set (p3 := p2 <| tap_port := _ |>).
  assert (kept n1 n2) as Hk2.
  { apply set_flow_kept. eapply flow_kept_trans; [apply (init_nat_kept _ p2)|]. by split. }
  assert (pkept p p3) as Hp3 by (transitivity p1; [done|by transitivity p2]).
  eapply wp_mono; [apply rectify_first_ok; rewrite (pk_source _ _ Hp3); apply Ha|]. intros [g2 n3] [Ho2 Hk3].
  split_and!; [by rewrite Ho2, Ho1| |done]. apply fresh_created. eapply fresh_kept; [exact Hf0|]. transitivity n1; [done|by transitivity n2].
Qed.

(** The result of a first packet. *)
Definition first_ok (g : state) (p : MetaPacket) (g' : state) (p' : MetaPacket) (n : FlowNode) : Prop :=
  output g' = output g /\ created (timestamp p) n /\ pkept p p'.

Lemma first_collect (c : bool) g p (g1 : state) n1 p1 b1 b2 : admits p -> first_ok g p g1 p1 n1 ->
  wp (if c then collect_metric g1 n1 p1 b1 b2 else Ret (g1, n1, p1)) (fun '(g', n', p') => first_ok g p g' p' n').
Proof.
  intros Ha (Ho & Hc & Hp). eapply wp_mono; [apply (collect_step c g (timestamp p) 0 n1 p); [done|split_and!; [done|by apply moved_refl|done]]|].
  intros [[g2 n2] p2] (Ho2 & Hm2 & Hp2). split_and!; [done|by eapply created_moved|done].
Qed.

Lemma first_l4 g p (g1 : state) n1 p1 b : admits p ->
  (proto (lookup_key p) =? IpProtocol.TCP) = true \/ (proto (lookup_key p) =? IpProtocol.UDP) = true -> first_ok g p g1 p1 n1 ->
  wp (update_l4_direction g1 p1 n1 b) (fun '(g', p', n', _) => first_ok g p g' p' n').
Proof.
  intros Ha Hl (Ho & Hc & Hp). eapply wp_mono; [apply (l4_step g (timestamp p) 0 n1 p); [done|done|split_and!; [done|by apply moved_refl|done]]|].
  intros [[[g2 p2] n2] ?] (Ho2 & Hm2 & Hp2). split_and!; [done|by eapply created_moved|done].
Qed.

Lemma new_tcp_node_ok (g : state) p : admits p -> (proto (lookup_key p) =? IpProtocol.TCP) = true ->
  wp (new_tcp_node cfg g p) (fun '(g', p', n) => first_ok g p g' p' n).
Proof.
  intros Ha Ht. unfold new_tcp_node. apply wp_bind. eapply wp_mono; [by apply init_flow_ok|]. intros [[g1 p1] n1] (Ho1 & Hc1 & Hp1).
  set (p2 := (mark_packet n1 p1) <| pk_is_active_service := _ |>). assert (pkept p p2) as Hp2 by (transitivity p1; [done|by split]).
  rewrite decide_False by apply Hc1. apply wp_bind. apply (wp_mono _ (fun '(g', p', n', _) => first_ok g p g' p' n')).
  - apply wp_bind. eapply wp_mono; [by apply (first_l4 g p); [|left|split_and!]|]. intros [[[g3 p3] n3] reverse] (Ho3 & Hc3 & Hp3).
    pose proof (ad_tcp _ Ha (proj1 (Z.eqb_eq _ _) Ht)) as [h Hh]. unfold tcp_data. rewrite (pk_data _ _ Hp3), Hh. cbn [mbind run_bind].
    set (n4 := if TcpFlags.is_invalid _ then _ else _).
    assert (moved (timestamp p) 0 n3 n4) as Hm4.
    { unfold n4. case_match; [|by apply moved_refl]. apply moved_state; [done|]. apply moved_timeout; [|by apply moved_refl].
      apply timeout_in. rewrite !elem_of_cons. tauto. }
    apply wp_bind. eapply wp_mono; [by apply step_state_ok|]. intros [n5 ?] Hm5. apply wp_bind.
    eapply wp_mono; [apply syn_seq_kept; exists h; by rewrite (pk_data _ _ Hp3)|]. intros n6 Hk6.
    split_and!; [done| |done]. eapply created_moved; [exact Hc3|]. by eapply moved_kept.
  - intros [[[g3 p3] n3] reverse] H3. apply wp_bind. eapply wp_mono; [by apply (first_collect _ g p)|].
    intros [[g4 n4] p4] (Ho4 & Hc4 & Hp4). rewrite decide_False by (intros [He _]; by destruct (gd_source _ (proj2 (proj2 (proj2 Hc4))))).
    split_and!; [by rewrite append_output|done|done].
Qed.

Lemma created_opening t n : created t n -> created t (n <| nd_flow_state := Established |> <| nd_timeout := FlowTimeout.opening (flow_timeout cfg) |>).
Proof.
  intros Hc. eapply created_moved; [exact Hc|]. apply (moved_timeout t 0 n (n <| nd_flow_state := Established |>)).
  - apply timeout_in. rewrite !elem_of_cons. tauto.
  - apply moved_state; [done|by apply moved_refl].
Qed.

Lemma new_udp_node_ok (g : state) p : admits p -> (proto (lookup_key p) =? IpProtocol.UDP) = true ->
  wp (new_udp_node cfg g p) (fun '(g', p', n) => first_ok g p g' p' n).
Proof.
  intros Ha Ht. unfold new_udp_node. apply wp_bind. eapply wp_mono; [by apply init_flow_ok|]. intros [[g1 p1] n1] (Ho1 & Hc1 & Hp1).
  set (p2 := (mark_packet n1 p1) <| pk_is_active_service := _ |>). assert (pkept p p2) as Hp2 by (transitivity p1; [done|by split]).
  rewrite decide_False by apply Hc1. apply wp_bind.
  eapply wp_mono; [apply (first_l4 g p); [done|by right|split_and!; [done|by apply created_opening|done]]|]. intros [[[g3 p3] n3] reverse] H3.
  apply wp_bind. eapply wp_mono; [by apply (first_collect _ g p)|]. by intros [[g4 n4] p4] H4.
Qed.

Lemma new_other_node_ok (g : state) p : admits p -> wp (new_other_node cfg g p) (fun '(g', p', n) => first_ok g p g' p' n).
Proof.
  intros Ha. unfold new_other_node. apply wp_bind. eapply wp_mono; [by apply init_flow_ok|]. intros [[g1 p1] n1] (Ho1 & Hc1 & Hp1).
  assert (pkept p (mark_packet n1 p1)) as Hp2 by (transitivity p1; [done|by split]).
  apply wp_bind. eapply wp_mono; [apply (first_collect _ g p); [done|split_and!; [done|by apply created_opening|done]]|]. by intros [[g4 n4] p4] H4.
Qed.

Lemma new_any_node_ok (g : state) p : admits p ->
  wp (new_any_node cfg g p) (fun '(g', p', o) => exists n, o = Some n /\ first_ok g p g' p' n).
Proof.
  intros Ha. unfold new_any_node. apply wp_bind. apply (wp_mono _ (fun '(g', p', n) => first_ok g p g' p' n)).
  - case_match; [by apply new_tcp_node_ok|]. case_match; [by apply new_udp_node_ok|by apply new_other_node_ok].
  - intros [[g1 p1] n1] H1. rewrite decide_False; [cbn; eauto|]. intros [He _]. destruct H1 as (_ & _ & Hp). rewrite (pk_source _ _ Hp) in He. by destruct Ha.
Qed.

(** *** Reports *)

(** The packets in the reports so far *)
Definition reported (g : state) : Z := sumZ flow_packets (output g).

Lemma pending_nonneg n : counts_ok n -> 0 <= pending n.
Proof. unfold counts_ok, pending, flow_packets. lia. Qed.

Lemma push_flow_reported (g : state) n : reported (push_flow cfg g n) = reported g + pending n.
Proof. unfold reported, push_flow. destruct (_ && _); cbn; rewrite sumZ_app, sumZ_cons; change (sumZ flow_packets []) with 0; unfold pending; lia. Qed.

Lemma update_direction_good (g : state) n o : good n -> (forall p, o = Some p -> admits p) ->
  wp (update_flow_direction g n o) (fun '(g', n', o') => output g' = output g /\ kept n n' /\ good n' 
    /\ forall p, o = Some p -> exists p', o' = Some p' /\ timestamp p' = timestamp p /\ admits p').
Proof.
  intros Hg Ha. eapply wp_mono; [apply update_flow_direction_ok, Hg|]. intros [[g' n'] o'] (Ho & Hk & Hp).
  split_and!; [done|done| |].
  - pose proof (evolved_moved _ 0 n n' Hg ltac:(reflexivity) (kept_evolved _ _ Hk)) as Hm. apply Hm.
  - intros p ->. destruct Hp as [->| ->]; eexists; (split; [done|]); (split; [done|]); [by apply Ha|].
    eapply admits_kept; [apply pkept_direction|by apply Ha].
Qed.

Lemma reset_good n : good n -> good (reset_flow_stat_info n) /\ pending (reset_flow_stat_info n) = 0 /\ same_clock n (reset_flow_stat_info n).
Proof. intros []. by split_and!. Qed.

(** A report or a removal moves packets from the node to the output. *)
Definition balanced (g : state) (c : Z) (g' : state) (c' : Z) : Prop := reported g' + c' = reported g + c /\ c' <= c.

Lemma same_output_balanced (g g' : state) c : output g' = output g -> balanced g c g' c.
Proof. intros Ho. unfold balanced, reported. by rewrite Ho. Qed.

Lemma report_ok (g : state) n ts o : good n -> (forall p, o = Some p -> admits p) ->
  wp (node_updated_aftercare cfg g n ts o) (fun '(g', n', o') => balanced g (pending n) g' (pending n') /\ same_clock n n' /\ good n'
    /\ forall p, o = Some p -> exists p', o' = Some p' /\ timestamp p' = timestamp p /\ admits p').
Proof.
  intros Hg Ha. unfold node_updated_aftercare. destruct (report_due n ts o).
  2: { split_and!; [by apply same_output_balanced|done|done|]. intros p ->. eauto. }
  apply wp_bind. eapply wp_mono; [by apply update_direction_good|]. intros [[g1 n1] o1] (Ho & Hk & Hg1 & Hp).
  set (n2 := n1 <| nd_flow := _ |>). assert (kept n1 n2) as Hk2 by (by apply set_flow_kept).
  assert (good n2) as Hg2 by (destruct Hg1; by split).
  assert (pending n2 = pending n) as Hpend by (rewrite (kp_pending _ _ Hk2); apply Hk).
  destruct (negb (collector_enabled cfg)).
  - split_and!; [rewrite Hpend; by apply same_output_balanced|apply (kp_clock n n2); by transitivity n1|done|done].
  - destruct (reset_good n2 Hg2) as (Hg3 & Hz & Hc3). split_and!; [|apply (kp_clock n n2); by transitivity n1|done|done].
    rewrite Hz. split; [|apply pending_nonneg, Hg]. rewrite push_flow_reported, Hpend. unfold reported. rewrite Ho. lia.
Qed.

Lemma remove_ok (g : state) n ts o : good n -> (forall p, o = Some p -> admits p) ->
  wp (node_removed_aftercare cfg g n ts o) (fun g' => balanced g (pending n) g' 0).
Proof.
  intros Hg Ha. unfold node_removed_aftercare. apply wp_bind. eapply wp_mono; [by apply update_direction_good|].
  intros [[g1 n1] o1] (Ho & Hk & Hg1 & _). rewrite decide_False by apply Hg1. cbn [wp]. set (n2 := n1 <| nd_flow := _ |>).
  assert (kept n1 n2) as Hk2 by (by apply set_flow_kept).
  assert (pending n2 = pending n) as Hpend by (rewrite (kp_pending _ _ Hk2); apply Hk).
  split; [|apply pending_nonneg, Hg]. rewrite push_flow_reported, Hpend. unfold reported. rewrite Ho. lia.
Qed.

(** ** The interface of the flow map *)

#[export] Instance flow_ops_ok : FlowOpsOk (flow_ops cfg) (FlowTimeout.max (flow_timeout cfg)) good admits.
Proof.
  split.
  - intros g p Ha. eapply wp_mono; [by apply new_any_node_ok|]. intros [[g' p'] o] (n & -> & _ & (H1 & H2 & H3 & H4) & _) n' [= <-].
    split_and!; [done|done|apply H4|apply H4|done].
  - intros g n p Ha Hg. eapply wp_mono; [by apply update_any_node_ok|]. intros [[[g' n'] p'] b] (_ & [] & Hp).
    split_and!; try done; [apply mv_good0|apply mv_good0|by eapply admits_kept].
  - intros g n ts o Hg Ha. eapply wp_mono; [by apply report_ok|]. intros [[g' n'] o'] (_ & H1 & H2 & H3). done.
  - intros g n ts o Hg Ha. eapply wp_mono; [by apply remove_ok|]. done.
  - intros p d Ha. eapply admits_kept; [apply pkept_direction|done].
  - intros n k []. by split.
Qed.

End ops.
