(* ===== verification/FlowCount.v ===== *)
(** * Every packet is counted once

    The packets of a flow are counted in its node, moved to the output with each
    report and with the removal of the flow: over any run of the flow map, the
    packets in the reports and those in the nodes are the packets the map
    accepted. *)

From stdpp Require Import gmap.
From S2P Require Import TapTypes Decapsulate ServiceTable ServiceSpec PacketParse FlowFsm.
From S2P Require Import Prelude Timestamp TcpFlags FlowState Bytes Consts TunnelType TapPort Endpoint MetaPacket Flow FlowNode FlowMap FlowMapSpec FlowUpdate FlowUpdateSpec.

(** ** What the operations on a flow promise about its packets *)

Class FlowCountOk {S} (F : FlowOps S) (good : FlowNode -> Prop) (admits : MetaPacket -> Prop) (weight : FlowNode -> Z) (emitted : S -> Z) : Prop := {
  init_count : forall s p, admits p -> wp (fo_init s p) (fun '(s', _, o) => exists n, o = Some n /\ good n /\ emitted s' = emitted s /\ weight n = 1);
  update_count : forall s n p, admits p -> good n -> wp (fo_update s n p) (fun '(s', n', p', _) => good n' /\ admits p'
    /\ emitted s' = emitted s /\ (weight n + 1 < 2 ^ 64 -> weight n' = weight n + 1));
  report_count : forall s n ts o, good n -> (forall p, o = Some p -> admits p) -> wp (fo_report s n ts o) (fun '(s', n', o') => good n'
    /\ emitted s' + weight n' = emitted s + weight n /\ weight n' <= weight n /\ forall p, o = Some p -> exists p', o' = Some p' /\ admits p');
  remove_count : forall s n ts o, good n -> (forall p, o = Some p -> admits p) -> wp (fo_remove s n ts o) (fun s' => emitted s' = emitted s + weight n);
  close_count : forall s n, emitted (fo_close_event s n) = emitted s;
  lookup_count : forall s p, emitted (fo_lookup s p).1 = emitted s;
  flush_count : forall s ts, emitted (fo_flush s ts) = emitted s;
  weight_key : forall n k, good n -> good (n <| timestamp_key := k |>) /\ weight (n <| timestamp_key := k |>) = weight n;
  weight_nonneg : forall n, good n -> 0 <= weight n;
  admits_packet : forall p, admits p -> ebpf_type p <> SocketCloseEvent;
}.

Section count.
Context {S : Type} {F : FlowOps S} {D : DrainOrder} (good : FlowNode -> Prop) (admits : MetaPacket -> Prop).
Context (weight : FlowNode -> Z) (emitted : S -> Z) {Fc : FlowCountOk F good admits weight emitted}.

(** [K] packets are in the reports and the nodes, at most [B] of them in the nodes. *)
Definition account (K B : Z) (s : S) (nodes : list FlowNode) : Prop :=
  emitted s + sumZ weight nodes = K /\ sumZ weight nodes <= B /\ Forall good nodes.

#[local] Instance account_perm K B s : Proper ((≡ₚ) ==> iff) (account K B s).
Proof. intros nodes nodes' Hp. unfold account. by rewrite Hp. Qed.

Lemma account_emitted K B s s' nodes : emitted s' = emitted s -> account K B s nodes -> account K B s' nodes.
Proof. unfold account. by intros ->. Qed.

(** ** The flush *)

Lemma remove_expired_count s n : good n -> wlp (remove_expired s n) (fun s' => emitted s' = emitted s + weight n).
Proof.
  intros Hn. unfold remove_expired. set (s1 := if decide _ then _ else _).
  assert (emitted s1 = emitted s) as Hs1 by (unfold s1; case_decide; [apply close_count|done]).
  apply wp_wlp. rewrite <- Hs1. by apply remove_count.
Qed.

Lemma remove_nodes_count K B l rest s : account K B s (l ++ rest) -> wlp (rfold remove_expired l s) (fun s' => account K B s' rest).
Proof.
  intros Ha. apply (wlp_rfold remove_expired (fun l s => account K B s (l ++ rest))); [done|].
  intros n l' s' (H1 & H2 & H3). cbn in H3. apply Forall_cons in H3 as [Hn Hl]. cbn [app] in *. rewrite sumZ_cons in *. pose proof (weight_nonneg n Hn).
  eapply wlp_mono; [by apply remove_expired_count|]. intros s2 Hs2. cbn beta in Hs2. split_and!; [lia|lia|done].
Qed.

Lemma refile_node_count K B ts u key s acc mv n l : account K B s (acc ++ n :: l) ->
  wlp (refile_node ts u key (s, acc, mv) n) (fun '(s', acc', _) => account K B s' (acc' ++ l)).
Proof.
  intros Ha. unfold refile_node. case_match; [cbn; by rewrite <- app_assoc|].
  destruct Ha as (H1 & H2 & H3). rewrite sumZ_app, sumZ_cons in *. apply Forall_app in H3 as [Hacc [Hn Hl]%Forall_cons].
  apply wlp_bind. eapply wlp_mono; [apply wp_wlp, (report_count s n ts None); [done|congruence]|]. intros [[s' n'] o] (Hg & He & Hw & _).
  assert (forall n2, good n2 -> weight n2 = weight n' -> account K B s' ((acc ++ [n2]) ++ l)) as Hacct.
  { intros n2 Hg2 Hw2. unfold account. rewrite <- app_assoc. cbn [app]. rewrite sumZ_app, sumZ_cons, Hw2.
    split_and!; [lia|lia|]. apply Forall_app. by split; [|apply Forall_cons]. }
  destruct (weight_key n' (Timestamp.as_secs (timeout_of n')) Hg). case_match; cbn; by apply Hacct.
Qed.

Lemma refile_nodes_count K B ts u key nodes rest s mv : account K B s (nodes ++ rest) ->
  wlp (rfold (refile_node ts u key) nodes (s, [], mv)) (fun '(s', nodes', _) => account K B s' (nodes' ++ rest)).
Proof.
  intros Ha. eapply wlp_mono.
  - apply (wlp_rfold (refile_node ts u key) (fun l '(s, acc, _) => account K B s (acc ++ l ++ rest))); [done|].
    intros n l [[s1 acc] mv1] H1. by apply refile_node_count.
  - by intros [[s' nodes'] mv'].
Qed.

Lemma flush_key_count K B ts u st key : account K B (fl_rest st) (all_nodes (fl_map st)) ->
  wlp (flush_key ts u st key) (fun st' => account K B (fl_rest st') (all_nodes (fl_map st'))).
Proof.
  intros Ha. unfold flush_key. destruct (fl_map st !! key) as [nodes|] eqn:Hk; [|done].
  destruct (sort_nodes_ok nodes ts u) as (nodes' & k & -> & Hp & _). cbn [mbind run_bind]. rewrite Nat2Z.id.
  rewrite (all_nodes_delete _ _ _ Hk), <- Hp, <- (take_drop k nodes') in Ha. set (kept := take k nodes') in *. set (gone := drop k nodes') in *.
  apply wlp_bind. eapply wlp_mono.
  { apply (remove_nodes_count K B gone (kept ++ all_nodes (delete key (fl_map st)))). revert Ha. apply account_perm. solve_Permutation. }
  intros s Hs. destruct kept as [|n kept]; [done|]. apply wlp_bind. eapply wlp_mono; [by apply refile_nodes_count|].
  intros [[s' nodes2] mv] H2. cbn. by rewrite all_nodes_insert.
Qed.

(** The account of a flow map *)
Definition map_account (K B : Z) (m : FlowMap S) : Prop := account K B (rest m) (all_nodes (node_map m)).

Lemma flush_unit_count K B ts u m removed : map_account K B m -> wlp (flush_unit ts (m, removed) u) (fun '(m', _) => map_account K B m').
Proof.
  intros Hm. unfold flush_unit. apply wlp_bind, wlp_any. intros keys. apply wlp_bind. eapply wlp_mono.
  - apply (wlp_rfold (flush_key ts u) (fun _ st => account K B (fl_rest st) (all_nodes (fl_map st)))); [done|].
    intros key l st Hst. by apply flush_key_count.
  - intros f Hf. apply wlp_bind, wlp_any. done.
Qed.

Lemma inject_flush_ticker_count K B delay m ts now : map_account K B m ->
  wlp (inject_flush_ticker delay m ts now) (fun '(m', _, _) => map_account K B m').
Proof.
  intros Hm. unfold inject_flush_ticker. case_match; [done|]. apply wlp_bind, wlp_any. intros t. apply wlp_bind, wlp_any. intros t1.
  case_match; [done|]. apply wlp_bind, wlp_any. intros ts'. apply wlp_bind. eapply wlp_mono.
  - apply (wlp_rfold (flush_unit ts') (fun _ '(m, _) => map_account K B m)); [done|]. intros u l [m1 r1] H1. by apply flush_unit_count.
  - intros [m1 r1] H1. cbn. eapply account_emitted; [apply flush_count|done].
Qed.

(** ** Packets *)

Context (delay max : Z) {Dok : DrainOrderOk D} {Fok : FlowOpsOk F max good admits}.

Lemma add_node_count K B m key nodes p : map_account K B m -> default [] (node_map m !! key) = nodes -> admits p ->
  wlp (add_node m key nodes p) (fun '(m', _) => let k := if size m <? capacity m then 1 else 0 in map_account (K + k) (B + k) m').
Proof.
  intros Ha Hk Hp. unfold add_node. rewrite decide_False by (by apply admits_packet). unfold new_flow_node.
  destruct (Z.ltb_spec (size m) (capacity m)) as [Hlt|Hge].
  - rewrite (proj2 (Z.leb_gt _ _)) by lia. do 2 apply wlp_bind. eapply wlp_mono; [apply wp_wlp, (init_count (rest m) p Hp)|].
    intros [[s p'] o] (n & -> & Hg & He & Hw). cbn [wlp]. apply wlp_bind, wlp_any. intros ts. cbn.
    destruct Ha as (H1 & H2 & H3). unfold map_account. cbn.
    assert (all_nodes (<[key := nodes ++ [n]]> (node_map m)) ≡ₚ n :: all_nodes (node_map m)) as ->.
    { rewrite all_nodes_insert. destruct (node_map m !! key) as [l|] eqn:El; cbn in Hk; subst nodes.
      - rewrite (all_nodes_delete _ _ _ El). solve_Permutation.
      - by rewrite delete_id. }
    split_and!; [rewrite sumZ_cons; lia|rewrite sumZ_cons; lia|by apply Forall_cons].
  - rewrite (proj2 (Z.leb_le _ _)) by lia. pose proof (lookup_count (rest m) p) as Hl. destruct (fo_lookup (rest m) p) as [s p'].
    cbn [mbind run_bind wlp]. rewrite !Z.add_0_r. by eapply account_emitted.
Qed.

Lemma update_node_count K B m key nodes i p : map_account K B m -> node_map m !! key = Some nodes -> (i < length nodes)%nat -> B + 1 < 2 ^ 64 ->
  admits p -> wlp (update_node m key nodes i p) (fun '(m', _) => map_account (K + 1) (B + 1) m').
Proof.
  intros (H1 & H2 & H3) Hk Hi HB Hp. unfold update_node. destruct (lookup_lt_is_Some_2 nodes i Hi) as [n Hn]. rewrite Hn. cbn [unwrap mbind run_bind].
  rewrite (all_nodes_delete _ _ _ Hk) in H1, H2, H3. apply Forall_app in H3 as [Hns Hrest]. rewrite sumZ_app in H1, H2.
  assert (good n) as Hg by exact (Forall_lookup_1 _ _ _ _ Hns Hn). assert (forall p', Some p = Some p' -> admits p') as Hps by congruence.
  pose proof (sumZ_nonneg weight _ (Forall_impl _ _ _ Hrest weight_nonneg)) as Hpos. 
  assert (weight n <= sumZ weight nodes) as Hle.
  { rewrite <- (take_drop_middle nodes i n Hn), sumZ_app, sumZ_cons. rewrite <- (take_drop_middle nodes i n Hn) in Hns.
    apply Forall_app in Hns as [Ht [_ Hd]%Forall_cons]. pose proof (sumZ_nonneg weight _ (Forall_impl _ _ _ Ht weight_nonneg)).
    pose proof (sumZ_nonneg weight _ (Forall_impl _ _ _ Hd weight_nonneg)). lia. }
  apply wlp_bind. eapply wlp_mono; [apply wp_wlp, (report_count (rest m) n (timestamp p) (Some p)); done|].
  intros [[s1 n1] o] (Hg1 & He1 & Hw1 & Hp1). destruct (Hp1 p eq_refl) as (p1 & -> & Ha1). cbn [default from_option Datatypes.id].
  apply wlp_bind. eapply wlp_mono; [by apply wp_wlp, (update_count s1 n1 p1)|].
  intros [[[s2 n2] p2] closed] (Hg2 & Ha2 & He2 & Hw2). specialize (Hw2 ltac:(lia)).
  assert (forall s' nodes', emitted s' + sumZ weight nodes' = emitted s2 + sumZ weight nodes - weight n + weight n2 -> sumZ weight nodes' <= sumZ weight nodes - weight n + weight n2 -> Forall good nodes' ->
    account (K + 1) (B + 1) s' (nodes' ++ all_nodes (delete key (node_map m)))) as Hacct.
  { intros s' nodes' E1 E2 E3. unfold account. rewrite sumZ_app. split_and!; [lia|lia|by apply Forall_app]. }
  assert (forall n3, good n3 -> weight n3 = weight n2 -> map_account (K + 1) (B + 1) (m <| rest := s2 |> <| node_map := <[key := <[i := n3]> nodes]> (node_map m) |>)) as Hstay.
  { intros n3 Hg3 Hw3. unfold map_account. cbn. rewrite all_nodes_insert. pose proof (sumZ_insert weight nodes i n n3 Hn).
    apply Hacct; [lia|lia|by apply Forall_insert]. }
  destruct closed.
  - apply wlp_bind. eapply wlp_mono; [apply wp_wlp, (remove_count (fo_close_event s2 n2) n2 (timestamp p2) (Some p2)); [done|congruence]|].
    intros s3 He3. cbn beta in He3. rewrite close_count in He3. cbn [wlp].
    pose proof (swap_remove_perm (<[i := n2]> nodes) i n2 ltac:(by rewrite list_lookup_insert_eq)) as Hsw.
    set (left := swap_remove (<[i := n2]> nodes) i) in *. pose proof (sumZ_insert weight nodes i n n2 Hn) as Hins.
    rewrite <- Hsw, sumZ_cons in Hins. pose proof (Forall_insert _ _ i n2 Hns Hg2) as Hgs. rewrite <- Hsw in Hgs. apply Forall_cons in Hgs as [_ Hgs].
    pose proof (weight_nonneg n2 Hg2). specialize (Hacct s3 left ltac:(lia) ltac:(lia) Hgs). unfold map_account. cbn.
    destruct left; [done|by rewrite all_nodes_insert].
  - case_match; [|by apply Hstay]. apply wlp_bind, wlp_any. intros ts. cbn.
    destruct (weight_key n2 (Timestamp.as_secs (timestamp p)) Hg2) as [Hg3 Hw3]. exact (Hstay _ Hg3 Hw3).
Qed.

(** The packet is neither too old nor the first of a flow the map has no room for. *)
Definition accepted {E : DecapEnum} (c : MatchConfig) (m : FlowMap S) (p : MetaPacket) (now : Duration) : bool :=
  match inject_flush_ticker delay m (timestamp p) now, FlowMapKey_new (lookup_key p) (tap_port p) with
  | Ret (m, true, _), Ret key =>
      bool_decide (is_Some (find_node (fun n p => match_node (nd_flow n) p c) (default [] (node_map m !! key)) p 0).2) || (size m <? capacity m)
  | _, _ => false
  end.

Lemma inject_meta_packet_count {E : DecapEnum} K B c m p now : map_account K B m -> B + 1 < 2 ^ 64 -> admits p ->
  wlp (inject_meta_packet delay c m p now) (fun '(m', _, _) => let k := Z.b2z (accepted c m p now) in map_account (K + k) (B + k) m').
Proof.
  intros Ha HB Hp. unfold inject_meta_packet, accepted. pose proof (inject_flush_ticker_count K B delay m (timestamp p) now Ha) as Hf.
  destruct (inject_flush_ticker delay m (timestamp p) now) as [[[m1 admitted] removed]|]; [|done]. cbn [mbind run_bind wlp] in *.
  destruct admitted; cbn [negb].
  2: { pose proof (lookup_count (rest m1) p) as Hl. destruct (fo_lookup (rest m1) p) as [s p']. cbn. rewrite !Z.add_0_r. by eapply account_emitted. }
  destruct (FlowMapKey_new (lookup_key p) (tap_port p)) as [key|]; [|done]. cbn [mbind run_bind].
  destruct (node_map m1 !! key) as [nodes|] eqn:Ek; cbn [default from_option Datatypes.id].
  - pose proof (find_node_ok max good admits c nodes p 0) as Hfind. destruct (find_node _ nodes p 0) as [p1 o]. destruct Hfind as (_ & H2 & H3).
    destruct o as [i|]; cbn [snd].
    + rewrite bool_decide_true by (by eexists). apply wlp_bind. eapply wlp_mono; [apply (update_node_count K B m1 key nodes i p1); [done|done|by apply (H3 i)|done|by apply H2]|].
      by intros [m2 p2] H.
    + rewrite bool_decide_false by (by intros []). apply wlp_bind. eapply wlp_mono; [apply (add_node_count K B m1 key nodes p1); [done|by rewrite Ek|by apply H2]|].
      by intros [m2 p2] H.
  - cbn [find_node snd]. rewrite bool_decide_false by (by intros []). apply wlp_bind.
    eapply wlp_mono; [apply (add_node_count K B m1 key [] p); [done|by rewrite Ek|done]|]. by intros [m2 p2] H.
Qed.

(** The packets an event adds *)
Definition event_count {E : DecapEnum} (c : MatchConfig) (m : FlowMap S) (e : event) : Z :=
  match e with Inject p now => Z.b2z (accepted c m p now) | Tick _ => 0 end.

Lemma event_count_bound {E : DecapEnum} c m e : 0 <= event_count c m e <= 1.
Proof. destruct e as [p now|]; cbn; [destruct (accepted c m p now); cbn; lia|lia]. Qed.

Lemma step_count {E : DecapEnum} K B c m e : map_account K B m -> B + 1 < 2 ^ 64 -> event_ok delay max admits e ->
  wlp (step delay c m e) (map_account (K + event_count c m e) (B + event_count c m e)).
Proof.
  intros Ha HB He. destruct e as [p now|now]; cbn [step event_count]; apply wlp_bind.
  - eapply wlp_mono; [by apply (inject_meta_packet_count K B c m p now Ha HB), He|]. by intros [[m' p'] r] H.
  - rewrite !Z.add_0_r. eapply wlp_mono; [by apply (inject_flush_ticker_count K B delay m 0 now Ha)|]. by intros [[m' b] r] H.
Qed.

(** A run of the flow map that also counts the packets it accepts *)
Definition count_step {E : DecapEnum} (c : MatchConfig) (st : FlowMap S * Z) (e : event) : run (FlowMap S * Z) :=
  let '(m, k) := st in
  m' ← step delay c m e;
  Ret (m', k + event_count c m e).

Definition count_steps {E : DecapEnum} (system_time flow_capacity : Z) (s : S) (c : MatchConfig) (es : list event) : run (FlowMap S * Z) :=
  m ← FlowMap_new system_time delay max flow_capacity s;
  rfold (count_step c) es (m, 0).

Lemma count_steps_ok {E : DecapEnum} system_time flow_capacity s c es : config_ok delay max -> delay + NANOS <= system_time ->
  Forall (event_ok delay max admits) es -> Z.of_nat (length es) < 2 ^ 64 ->
  wp (count_steps system_time flow_capacity s c es) (fun '(m, k) => emitted (rest m) + sumZ weight (all_nodes (node_map m)) = emitted s + k).
Proof.
  intros Hc Hsys Hes Hlen. unfold count_steps. apply wp_bind. eapply wp_mono.
  { apply wp_wlp_and; [by apply (FlowMap_new_ok delay max good system_time flow_capacity s)|].
    apply (wlp_mono _ (map_account (emitted s) 0)); [|exact (fun _ H => H)]. unfold FlowMap_new.
    apply wlp_bind, wlp_any. intros t. apply wlp_bind, wlp_any. intros t1. cbn. unfold map_account. cbn. by split_and!; [rewrite Z.add_0_r|..]. }
  intros m [Hm Ha]. eapply wp_mono.
  - apply (wp_rfold (count_step c) (fun l '(m, k) => sound delay max good flow_capacity m /\ map_account (emitted s + k) k m
      /\ Forall (event_ok delay max admits) l /\ k + Z.of_nat (length l) < 2 ^ 64)).
    + split_and!; [done|by rewrite Z.add_0_r|done|done].
    + intros e l [m1 k1] (H1 & H2 & [He Hl]%Forall_cons & H4). cbn [length] in H4. unfold count_step. apply wp_bind.
      eapply wp_mono; [apply wp_wlp_and; [by apply (step_ok delay max good admits flow_capacity)|by apply (step_count _ _ c m1 e H2); [lia|]]|].
      intros m2 [Hs2 Ha2]. pose proof (event_count_bound c m1 e). cbn. split_and!; [done|by rewrite Z.add_assoc|done|lia].
  - intros [m' k'] (_ & (H & _) & _). done.
Qed.

End count.

(** ** The flows of the agent *)

Section flows.
Context {X : Type} {V : FlowEnv X} {Vok : FlowEnvOk V} {L4 : LruCache Ipv4Key} {L6 : LruCache Ipv6Key} {N : PnetNumbers} (cfg : FlowConfig).
Context (tcp_timeout : FlowTimeout.TcpTimeout).

Abbreviation state := (Gen (X := X) (L4 := L4) (L6 := L6)).

Lemma flow_count_ok : flow_timeout cfg = FlowTimeout.from tcp_timeout -> 0 <= FlowTimeout.min (flow_timeout cfg) ->
  FlowCountOk (flow_ops cfg) (good cfg) admits pending (reported (X := X) (L4 := L4) (L6 := L6)).
Proof.
  intros Hft Hmin. split.
  - intros g p Ha. eapply wp_mono; [by apply (new_any_node_ok cfg tcp_timeout)|]. intros [[g' p'] o] (n & -> & Ho & (H1 & H2 & H3 & H4) & _).
    exists n. split_and!; [done|done|unfold reported; by rewrite Ho|done].
  - intros g n p Ha Hg. eapply wp_mono; [by apply (update_any_node_ok cfg tcp_timeout)|]. intros [[[g' n'] p'] b] (Ho & [] & Hp).
    split_and!; [done|by eapply admits_kept|unfold reported; by rewrite Ho|done].
  - intros g n ts o Hg Ha. eapply wp_mono; [by apply (report_ok cfg)|]. intros [[g' n'] o'] ([Hb Hok] & _ & H2 & H3).
    split_and!; [done|done|done|]. intros p Hp. destruct (H3 p Hp) as (p' & ? & ? & ?). by exists p'.
  - intros g n ts o Hg Ha. eapply wp_mono; [by apply (remove_ok cfg)|]. intros g' [Hb _]. lia.
  - done.
  - intros g p. change (fo_lookup g p) with (lookup_policy g p). pose proof (lookup_policy_ok g p) as Hl.
    destruct (lookup_policy g p) as [g' p']. cbn. unfold reported. by rewrite (proj1 Hl).
  - done.
  - intros n k []. by split; [split|].
  - intros n []. by apply pending_nonneg.
  - intros p []. congruence.
Qed.


End flows.

(** *** A conversation *)

Definition quiet_env : FlowEnv unit := {|
  policy_lookup x p := (x, p);
  log_parse x n p b := (x, p, false);
  log_record x n p := x;
  log_server_port x n := None;
  perf_report x n := x;
  sequence_append x n p := x;
  close_event x n := x;
  flush_queues x t := x;
|}.

#[export] Instance quiet_env_ok : FlowEnvOk quiet_env.
Proof. by split. Qed.

Definition ex_cfg : FlowConfig := Build_FlowConfig ft_default true false (10 * NANOS) 1.

Definition ex_gen : Gen (X := unit) (L4 := list_cache) (L6 := list_cache) := Build_Gen 0 ex_table [] tt.

(** A packet of the conversation, with its flags and second *)
Definition ex_segment (flags t : Z) : MetaPacket := 
  at_second t (ex_packet 7) <| protocol_data := TcpHeader (MetaPacketTcpHeader_default <| th_flags := flags |>) |>.

Definition ex_conversation : list event :=
  [Inject (ex_segment TcpFlags.SYN 1000) 0; Inject (reverse_packet (ex_segment TcpFlags.SYN_ACK 1000)) 0; Inject (ex_segment TcpFlags.ACK 1001) 0;
   Tick (1004 * NANOS); Inject (reverse_packet (ex_segment TcpFlags.ACK 1006)) 0; Inject (ex_segment TcpFlags.ACK 900) 0].

