(* ===== verification/FlowDirection.v ===== *)
(** * Who is the server of a TCP flow

    A flow can be opened by a packet of its server, when the capture starts in
    the middle of a connection or misses its first packet.  A SYN/ACK settles
    the direction: whoever sends it serves.  The state machine is still told
    the direction of the packet before that. *)

From stdpp Require Import gmap.
From S2P Require Import TapTypes Decapsulate ServiceTable ServiceSpec PacketParse FlowFsm.
From S2P Require Import Prelude Timestamp TcpFlags FlowState Bytes Consts TunnelType TapPort Endpoint MetaPacket Flow FlowNode FlowMap FlowMapSpec FlowUpdate FlowUpdateSpec FlowCount.

Abbreviation dir p := (direction (lookup_key p)).

(** The two ends of a flow, and the end a packet comes from *)
Definition client_end (f : Flow) : IpAddr * Z := (fk_ip_src (flow_key f), fk_port_src (flow_key f)).
Definition server_end (f : Flow) : IpAddr * Z := (fk_ip_dst (flow_key f), fk_port_dst (flow_key f)).

Definition sender_end (f : Flow) (d : PacketDirection) : IpAddr * Z :=
  match d with ClientToServer => client_end f | ServerToClient => server_end f end.

(** What the updates before the correction keep: the ends of the flow and the
    direction of the packet. *)
Definition same_side (n n' : FlowNode) (p p' : MetaPacket) : Prop :=
  client_end (nd_flow n') = client_end (nd_flow n) /\ server_end (nd_flow n') = server_end (nd_flow n) /\ dir p' = dir p.

Lemma same_side_trans a b c p q r : same_side a b p q -> same_side b c q r -> same_side a c p r.
Proof. unfold same_side. intros (? & ? & ?) (? & ? & ?). split_and!; congruence. Qed.

Section sides.
Context {X : Type} {V : FlowEnv X} {Vok : FlowEnvOk V} {L4 : LruCache Ipv4Key} {L6 : LruCache Ipv6Key} {N : PnetNumbers} (cfg : FlowConfig).

Abbreviation state := (Gen (X := X) (L4 := L4) (L6 := L6)).

Lemma vip_dir p a b : dir (set_vip_info p a b) = dir p.
Proof. unfold set_vip_info. by repeat case_match. Qed.

Lemma metrics_side n p : let '(n', p') := update_flow_metrics_peers n p in same_side n n' p p'.
Proof. unfold update_flow_metrics_peers. destruct (endpoint_data_cache n) as [e|]; [|done]. split_and!; [done|done|apply vip_dir]. Qed.

Lemma endpoint_side n p : let '(n', p') := update_endpoint_and_policy_data n p in same_side n n' p p'.
Proof.
  unfold update_endpoint_and_policy_data. set (n1 := match endpoint_data p with Some _ => _ | None => _ end).
  pose proof (metrics_side n1 p) as H. destruct (update_flow_metrics_peers n1 p). eapply same_side_trans; [|exact H].
  unfold n1. by case_match.
Qed.

Lemma lookup_policy_dir (g : state) p : dir (lookup_policy g p).2 = dir p.
Proof. unfold lookup_policy. pose proof (proj2 (lookup_keeps (env g) p)) as H. by destruct (policy_lookup (env g) p). Qed.

Lemma update_policy_side (g : state) n p : let '(_, n', p') := update_policy g n p in same_side n n' p p'.
Proof.
  unfold update_policy. destruct (negb _); [|unfold copy_endpoint; by case_match; case_match].
  set (n1 := set_policy_in_tick n _). assert (same_side n n1 p (recall_toa n1 p)) as H1.
  { unfold n1, recall_toa, set_policy_in_tick. by case_match; case_match. }
  pose proof (lookup_policy_dir g (recall_toa n1 p)) as Hl. destruct (lookup_policy g (recall_toa n1 p)) as [g1 p1]. cbn in Hl.
  pose proof (endpoint_side n1 p1) as He. destruct (update_endpoint_and_policy_data n1 p1) as [n2 p2].
  eapply same_side_trans; [exact H1|]. eapply same_side_trans; [|exact He]. by split_and!.
Qed.

Lemma on_peer_key f d h : flow_key (on_peer f d h) = flow_key f.
Proof. by destruct d. Qed.

(** The key of a flow up to its capture port *)
Definition kept_ends (f f' : Flow) : Prop := client_end f' = client_end f /\ server_end f' = server_end f.

Lemma nat_ends f p : let '(f', p') := update_nat_info f p in kept_ends f f' /\ dir p' = dir p.
Proof.
  unfold update_nat_info. split; [|done].
  set (f1 := if negb (src_nat_source _ =? _) && _ then _ else _). assert (flow_key f1 = flow_key f) as H1 by (unfold f1; case_match; [apply on_peer_key|done]).
  set (f2 := if negb (dst_nat_source _ =? _) && _ then _ else _). assert (flow_key f2 = flow_key f1) as H2 by (unfold f2; case_match; [apply on_peer_key|done]).
  unfold kept_ends, client_end, server_end. case_match; cbn; by rewrite H2, H1.
Qed.

Lemma gpid_key f p : flow_key (update_gpid f p) = flow_key f.
Proof.
  unfold update_gpid. set (f1 := if 0 <? gpid_0 p then _ else _). assert (flow_key f1 = flow_key f) as H1 by (unfold f1; case_match; [apply on_peer_key|done]).
  case_match; [by rewrite on_peer_key|done].
Qed.

Lemma touch_key n p : wlp (touch_node n p) (fun n' => flow_key (nd_flow n') = flow_key (nd_flow n)).
Proof.
  unfold touch_node. apply wlp_bind. apply (wlp_mono _ (fun n' => flow_key (nd_flow n') = flow_key (nd_flow n))).
  - case_match; [|done]. by apply wlp_bind, wlp_any.
  - intros n1 H1. case_match; [|done]. by apply wlp_bind, wlp_any.
Qed.

Lemma update_flow_side (g : state) n p : wlp (update_flow g n p) (fun '(_, n', p') => same_side n n' p p').
Proof.
  unfold update_flow. apply wlp_bind. eapply wlp_mono; [apply touch_key|]. intros n1 H1. cbn beta in H1.
  assert (same_side n n1 p p) as Hs1 by (unfold same_side, client_end, server_end; by rewrite H1).
  pose proof (update_policy_side g n1 p) as Hs2. destruct (update_policy g n1 p) as [[g2 n2] p2].
  pose proof (nat_ends (update_gpid (nd_flow n2) p2) p2) as H3. destruct (update_nat_info _ p2) as [f p3]. destruct H3 as [[Hc He] Hd].
  unfold client_end, server_end in Hc, He. rewrite gpid_key in Hc, He.
  pose proof (same_side_trans _ _ _ _ _ _ Hs1 Hs2) as Hs.
  assert (forall f' p', flow_key f' = flow_key f -> dir p' = dir p3 -> same_side n (n2 <| nd_flow := f' |>) p p') as Hfin.
  { intros f' p' Hf Hp. eapply same_side_trans; [exact Hs|]. unfold same_side, client_end, server_end. cbn. rewrite Hf. split_and!; congruence. }
  case_decide; [by apply Hfin|]. set (f1 := update_tunnel _ p3).
  assert (flow_key f1 = flow_key f) as Hf1.
  { unfold f1, update_tunnel. set (f0 := if 0 <? vlan p3 then _ else _). assert (flow_key f0 = flow_key f) by (unfold f0; case_match; cbn; apply on_peer_key). by case_match. }
  case_match; [|by apply Hfin]. pose proof (lookup_policy_dir g2 p3) as Hl. destruct (lookup_policy g2 p3) as [g3 p4]. by apply Hfin.
Qed.

(** ** SYN/ACK *)

Definition is_syn_ack (p : MetaPacket) : Prop :=
  proto (lookup_key p) = IpProtocol.TCP /\ exists h, protocol_data p = TcpHeader h /\ TcpFlags.contains (th_flags h) TcpFlags.SYN_ACK = true.

(** The flow is directed at [e], which is known to serve. *)
Definition served_by (e : IpAddr * Z) (f : Flow) : Prop :=
  server_end f = e /\ direction_score f = MAX_SCORE /\ is_active_service f = true.

Lemma syn_ack_scores (t : ServiceTable) b r d flags (s k : ServiceKey) : same_version s k = true -> TcpFlags.contains flags TcpFlags.SYN_ACK = true ->
  exists t', get_tcp_score t b r d flags false false s k = Ret (t', (MAX_SCORE, MIN_SCORE)).
Proof. intros Hv Hf. unfold get_tcp_score, on_keys, tcp_score. rewrite Hf. destruct s, k; [|done..|]; cbn; eauto. Qed.

Lemma l4_syn_ack (g : state) p n first : same_ips (src_ip (lookup_key p)) (dst_ip (lookup_key p)) = true -> is_syn_ack p ->
  wp (update_l4_direction g p n first) (fun '(_, p', n', _) =>
    served_by (sender_end (nd_flow n) (dir p)) (nd_flow n') /\ dir p' = ServerToClient /\ nd_flow_state n' = nd_flow_state n).
Proof.
  intros Hv (Hp & h & Hh & Hf). unfold update_l4_direction. destruct (cached_epcs n) as [e1 e2]. rewrite Hp, Z.eqb_refl. unfold tcp_data. rewrite Hh.
  cbn [mbind run_bind]. destruct (syn_ack_scores (service_table g) first (need_reverse_flow p) (dir p) (th_flags h)
    (ServiceKey_new (src_ip (lookup_key p)) e1 (src_port (lookup_key p))) (ServiceKey_new (dst_ip (lookup_key p)) e2 (dst_port (lookup_key p)))) as [t ->];
    [by rewrite same_version_keys|done|]. cbn [mbind run_bind fst snd]. destruct (dir p) eqn:Hd; cbn [wp].
  - change (is_client_to_server MAX_SCORE MIN_SCORE) with false. cbn. unfold reverse_packet_direction. rewrite Hd. by split_and!.
  - change (is_client_to_server MIN_SCORE MAX_SCORE) with true. cbn. by split_and!.
Qed.

(** The updates after the correction *)
Lemma syn_seq_served e n p : served_by e (nd_flow n) -> wlp (update_syn_or_syn_ack_seq n p) (fun n' => served_by e (nd_flow n') /\ nd_flow_state n' = nd_flow_state n).
Proof. intros Hs. unfold update_syn_or_syn_ack_seq. apply wlp_bind, wlp_any. intros h. case_match; [done|]. by case_match. Qed.

Lemma keepalive_served e n p : served_by e (nd_flow n) -> wlp (update_tcp_keepalive_seq n p) (fun n' => served_by e (nd_flow n') /\ nd_flow_state n' = nd_flow_state n).
Proof.
  intros Hs. unfold update_tcp_keepalive_seq. apply wlp_bind, wlp_any. intros h. set (n1 := match dir p with ClientToServer => _ | ServerToClient => _ end).
  assert (served_by e (nd_flow n1) /\ nd_flow_state n1 = nd_flow_state n) as [H1 H2] by (unfold n1; by case_match).
  case_match; [done|]. case_match; [done|]. by case_match.
Qed.

Lemma syn_seq_step e n p (g : state) : served_by e (nd_flow n) -> is_syn_ack p -> 
  wp (n ← update_syn_or_syn_ack_seq n p; Ret (g, p, n)) (fun '(_, p', n') => p' = p /\ served_by e (nd_flow n') /\ nd_flow_state n' = nd_flow_state n).
Proof.
  intros Hs (_ & h & Hh & _). apply wp_bind. eapply wp_mono.
  - apply wp_wlp_and; [by apply syn_seq_kept; exists h|by apply (syn_seq_served e)].
  - by intros n' [_ H].
Qed.

Lemma contains_syn flags : TcpFlags.contains flags TcpFlags.SYN_ACK = true -> negb (Z.land flags TcpFlags.SYN =? 0) = true.
Proof.
  unfold TcpFlags.contains. intros H%Z.eqb_eq. apply negb_true_iff, Z.eqb_neq. intros H0.
  assert (Z.testbit (Z.land flags TcpFlags.SYN_ACK) 1 = true) as Hb by (by rewrite H). rewrite Z.land_spec, andb_true_iff in Hb.
  assert (Z.testbit (Z.land flags TcpFlags.SYN) 1 = true) as Hc by (rewrite Z.land_spec, (proj1 Hb); done). by rewrite H0 in Hc.
Qed.

(** The state after a packet, by the direction the state machine is told *)
Definition told_state (s : FlowState) (flags : Z) (d : PacketDirection) : FlowState :=
  if TcpFlags.is_invalid flags then Exception else sv_state (step_value (flow_timeout cfg) s (TcpFlags.classify flags) d).

Lemma step_state_told n flags d : nd_flow_state n <> Max ->
  wp (step_state cfg n flags d) (fun '(n', _) => nd_flow n' = nd_flow n
    /\ nd_flow_state n' = sv_state (step_value (flow_timeout cfg) (nd_flow_state n) (TcpFlags.classify flags) d)).
Proof. intros Hs. unfold step_state. by rewrite update_flow_state_machine_abs. Qed.

Lemma tcp_flow_syn_ack (g : state) n p h : good cfg n -> admits p -> is_syn_ack p -> protocol_data p = TcpHeader h ->
  wp (update_tcp_flow cfg g p n) (fun '(_, p', n', _) => served_by (sender_end (nd_flow n) (dir p)) (nd_flow n') /\ dir p' = ServerToClient
    /\ nd_flow_state n' = told_state (nd_flow_state n) (th_flags h) (dir p)).
Proof.
  intros Hg Ha Hsyn Hh. destruct Hsyn as (Ht & h' & Hh' & Hf). assert (h' = h) as -> by congruence. unfold update_tcp_flow, tcp_data at 1. rewrite Hh.
  cbn [mbind run_bind]. set (n0 := n <| nd_flow := on_peer (nd_flow n) _ _ |>).
  assert (kept n n0) as Hk0 by (apply set_flow_kept, on_peer_kept; done).
  assert (same_side n n0 p p) as Hs0 by (unfold same_side, client_end, server_end, n0; cbn; by rewrite on_peer_key).
  apply wp_bind. eapply wp_mono.
  { apply wp_wlp_and; [apply update_flow_ok; [rewrite (kp_min _ _ Hk0); apply Hg|rewrite (kp_source _ _ Hk0); apply Hg]|apply update_flow_side]. }
  intros [[g1 n1] p1] [(_ & He & Hp) Hs1]. pose proof (same_side_trans _ _ _ _ _ _ Hs0 Hs1) as (Hce & Hse & Hd).
  assert (fl_signal_source (nd_flow n1) <> EBPF) as Hsrc by (rewrite (ev_source _ _ _ _ He), (kp_source _ _ Hk0); apply Hg).
  assert (nd_flow_state n1 = nd_flow_state n) as Hst by (rewrite (ev_state _ _ _ _ He); apply Hk0).
  rewrite decide_False by done. rewrite contains_syn by done. cbn [orb].
  assert (is_syn_ack p1) as Hsyn1 by (split; [by rewrite (pk_proto _ _ Hp)|exists h; by rewrite (pk_data _ _ Hp)]).
  apply wp_bind. apply (wp_mono _ (fun '(_, p2, n2) => served_by (sender_end (nd_flow n) (dir p)) (nd_flow n2) /\ dir p2 = ServerToClient
    /\ nd_flow_state n2 = nd_flow_state n /\ protocol_data p2 = TcpHeader h)).
  { apply wp_bind. eapply wp_mono.
    - apply wp_and; [apply (l4_syn_ack g1 p1 n1 false); [rewrite (pk_src_ip _ _ Hp), (pk_dst_ip _ _ Hp); apply Ha|done]|apply update_l4_direction_ok].
      apply admits_l4; [by eapply admits_kept|left; rewrite (pk_proto _ _ Hp), Ht; done].
    - intros [[[g2 p2] n2] b] [(H1 & H2 & H3) (_ & _ & Hp2)].
      assert (sender_end (nd_flow n1) (dir p1) = sender_end (nd_flow n) (dir p)) as Hsend by (rewrite Hd; by destruct (dir p)).
      rewrite Hsend in H1. eapply wp_mono; [apply (syn_seq_step _ n2 p2 g2 H1)|].
      + split; [rewrite (pk_proto _ _ Hp2), (pk_proto _ _ Hp); done|exists h; by rewrite (pk_data _ _ Hp2), (pk_data _ _ Hp)].
      + intros [[g3 p3] n3] (-> & Hs3 & Hst3). split_and!; [done|done|congruence|]. by rewrite (pk_data _ _ Hp2), (pk_data _ _ Hp). }
  intros [[g2 p2] n2] (Hs2 & Hd2 & Hst2 & Hh2). apply wp_bind.
  eapply wp_mono; [apply wp_wlp_and; [by apply keepalive_kept; exists h|by apply (keepalive_served _ n2 p2 Hs2)]|].
  intros n3 [_ [Hs3 Hst3]]. unfold told_state. destruct (TcpFlags.is_invalid (th_flags h)); [done|].
  apply wp_bind. eapply wp_mono; [apply step_state_told; rewrite Hst3, Hst2; apply Hg|]. intros [n4 b] [Hf4 Hst4]. cbn.
  rewrite Hf4, Hst4, Hst3, Hst2. done.
Qed.

(** C20: A SYN/ACK names the server of a flow.  Whichever end the flow was opened
    from, after a TCP packet with SYN and ACK the flow is directed at the end
    that sent the packet, as an active service with the highest score, and the
    packet is one from the server. *)
Theorem syn_ack_names_server (g : state) n p : good cfg n -> admits p -> is_syn_ack p ->
  sender_end (nd_flow n) (dir p) = (src_ip (lookup_key p), src_port (lookup_key p)) ->
  wp (update_tcp_flow cfg g p n) (fun '(_, p', n', _) =>
    server_end (nd_flow n') = (src_ip (lookup_key p), src_port (lookup_key p))
    /\ direction_score (nd_flow n') = MAX_SCORE /\ is_active_service (nd_flow n') = true /\ dir p' = ServerToClient).
Proof.
  intros Hg Ha Hs He. pose proof Hs as (_ & h & Hh & _). eapply wp_mono; [by apply (tcp_flow_syn_ack g n p h)|].
  intros [[[g' p'] n'] b] ((H1 & H2 & H3) & H4 & _). rewrite He in H1. done.
Qed.

(** The state machine is told the direction from before the correction.  A
    SYN/ACK takes a flow that is opening or established to the state of a
    server's SYN/ACK only if the packet was already read as one from the
    server; the SYN/ACK that turns the flow around takes it to the exception
    state, although the packet is one from the server afterwards. *)
Theorem syn_ack_stale_direction (g : state) n p h : good cfg n -> admits p -> is_syn_ack p -> protocol_data p = TcpHeader h -> th_flags h = TcpFlags.SYN_ACK ->
  nd_flow_state n ∈ [Raw; Opening1; Opening2; Syn1; Established; SynAck1] ->
  wp (update_tcp_flow cfg g p n) (fun '(_, p', n', _) => dir p' = ServerToClient
    /\ match dir p with ServerToClient => nd_flow_state n' ∈ [Opening2; SynAck1] | ClientToServer => nd_flow_state n' = Exception end).
Proof.
  intros Hg Ha Hs Hh Hf Hst. eapply wp_mono; [by apply (tcp_flow_syn_ack g n p h)|]. intros [[[g' p'] n'] b] (_ & H4 & ->).
  split; [done|]. unfold told_state. rewrite Hf. rewrite !elem_of_cons, elem_of_nil in Hst.
  destruct (dir p), Hst as [->|[->|[->|[->|[->|[->|[]]]]]]]; try reflexivity; by vm_compute; repeat (left || right).
Qed.

End sides.

(** ** Endpoints of two EPCs *)

Section epcs.
Context {X : Type} {L4 : LruCache Ipv4Key} {L6 : LruCache Ipv6Key} {L4ok : LruCacheOk L4}.

Abbreviation state := (Gen (X := X) (L4 := L4) (L6 := L6)).

(** A flow over IPv4 from a client with a port below 32768 to a server with one
    above, and an answer of the server. *)
Record two_epcs (n : FlowNode) (p : MetaPacket) (client server : Ipv4Key) : Prop := {
  te_client : client_end (nd_flow n) = (V4 (v4_addr client), v4_port client);
  te_server : server_end (nd_flow n) = (V4 (v4_addr server), v4_port server);
  te_cached : cached_epcs n = (v4_epc_id client, v4_epc_id server);
  te_keys : flow_service_keys (nd_flow n) = (KeyV4 client, KeyV4 server);
  te_src : src_ip (lookup_key p) = V4 (v4_addr server) /\ src_port (lookup_key p) = v4_port server;
  te_dst : dst_ip (lookup_key p) = V4 (v4_addr client) /\ dst_port (lookup_key p) = v4_port client;
  te_dir : dir p = ServerToClient;
  te_ports : 0 <= v4_port client < 2 ^ 15 /\ 2 ^ 15 <= v4_port server < 2 ^ 16;
  te_tcp : fk_proto (flow_key (nd_flow n)) = IpProtocol.TCP;
  te_source : fl_signal_source (nd_flow n) <> EBPF;
  te_toa : nat_source (flow_metrics_src (nd_flow n)) <> TapPort.NAT_SOURCE_TOA /\ nat_source (flow_metrics_dst (nd_flow n)) <> TapPort.NAT_SOURCE_TOA;
}.

Lemma port_bit x : 0 <= x < 2 ^ 16 -> Z.testbit x 15 = (2 ^ 15 <=? x).
Proof.
  intros Hx. rewrite Z.testbit_odd, Z.shiftr_div_pow2 by lia. destruct (Z.leb_spec (2 ^ 15) x) as [H|H].
  - assert (x / 2 ^ 15 = 1) as -> by (symmetry; apply (Z.div_unique x (2 ^ 15) 1 (x - 2 ^ 15)); lia). done.
  - by rewrite Z.div_small by lia.
Qed.

Lemma land_msb x : Z.land x PORT_MSB = if Z.testbit x 15 then PORT_MSB else 0.
Proof.
  apply Z.bits_inj'. intros i Hi. rewrite Z.land_spec. change PORT_MSB with (2 ^ 15). rewrite Z.pow2_bits_eqb by lia.
  destruct (Z.eqb_spec 15 i) as [<-|Hne]; [rewrite andb_true_r; by destruct (Z.testbit x 15)|].
  rewrite andb_false_r. destruct (Z.testbit x 15); [rewrite Z.pow2_bits_eqb by lia; by destruct (Z.eqb_spec 15 i)|by rewrite Z.bits_0].
Qed.

Lemma adjust_unknown a b : 0 <= a < 2 ^ 15 -> 2 ^ 15 <= b < 2 ^ 16 -> adjust_score a b 0 0 = (1, 0).
Proof.
  intros Ha Hb. unfold adjust_score. rewrite !land_msb, Z.lxor_spec, !port_bit by lia.
  rewrite (proj2 (Z.leb_gt (2 ^ 15) a)) by lia. rewrite (proj2 (Z.leb_le (2 ^ 15) b)) by lia. done.
Qed.

Definition at_epc (k : Ipv4Key) (epc_id : Z) : Ipv4Key := Build_Ipv4Key (v4_addr k) epc_id (v4_port k).

Lemma peek_after c client server : lru_peek client c = None -> lru_peek server c = None -> v4_port client <> v4_port server ->
  let c' := src_serves (at_epc server (v4_epc_id client)) (at_epc client (v4_epc_id server)) c in
  lru_peek client c' = None /\ lru_peek server c' = if decide (v4_epc_id client = v4_epc_id server) then Some MAX_SCORE else None.
Proof.
  intros Hc Hs Hp. unfold src_serves. assert (forall k k' e, v4_port k <> v4_port k' -> k <> at_epc k' e) as Hne by (intros k k' e H ->; by apply H).
  set (c1 := lru_put _ _ c). assert (forall k, v4_port k <> v4_port server \/ v4_epc_id k <> v4_epc_id client -> lru_peek k c = None -> lru_peek k c1 = None) as Hput.
  { intros k Hk Hn. destruct (peek_put_ne (at_epc server (v4_epc_id client)) k MAX_SCORE c) as [H|H]; [|by rewrite <- Hn|done].
    intros ->. by destruct Hk as [Hk|Hk]; apply Hk. }
  split.
  - destruct (decide (client = at_epc client (v4_epc_id server))) as [<-|Hd]; [apply peek_pop_eq|]. rewrite peek_pop_ne by done. apply Hput; [by left|done].
  - rewrite peek_pop_ne by (by apply Hne). destruct (decide _) as [He|He].
    + assert (at_epc server (v4_epc_id client) = server) as Hsame by (rewrite He; by destruct server). unfold c1. rewrite Hsame. apply peek_put_eq.
    + apply Hput; [right; congruence|done].
Qed.

Lemma scores_after (t : ServiceTable) c client server : 
  lru_peek client c = None -> lru_peek server c = (if decide (v4_epc_id client = v4_epc_id server) then Some MAX_SCORE else None) ->
  0 <= v4_port client < 2 ^ 15 -> 2 ^ 15 <= v4_port server < 2 ^ 16 ->
  exists t', get_tcp_score (t <| ipv4 := c |>) false false ClientToServer 0 false false (KeyV4 client) (KeyV4 server)
    = Ret (t', if decide (v4_epc_id client = v4_epc_id server) then (MIN_SCORE, MAX_SCORE) else (1, 0)).
Proof.
  intros Hc Hs Hp1 Hp2. unfold get_tcp_score, on_keys, tcp_score.
  change (TcpFlags.contains 0 TcpFlags.SYN_ACK || false) with false. change (TcpFlags.contains 0 TcpFlags.SYN || false) with false. cbn [ipv4].
  unfold stored_scores. change (ipv4 (t <| ipv4 := c |>)) with c. destruct (score_of_eq client c) as (c1 & -> & H1).
  destruct (score_of_eq server c1) as (c2 & -> & _). rewrite H1, Hc, Hs. unfold adjust. cbn [fst snd default from_option].
  eexists. f_equal. f_equal. destruct (decide _) as [He|He]; [|by apply adjust_unknown]. done.
Qed.

Lemma direction_by_scores (g : state) n o t s d src dst : fl_signal_source (nd_flow n) <> EBPF -> fk_proto (flow_key (nd_flow n)) = IpProtocol.TCP ->
  flow_service_keys (nd_flow n) = (src, dst) -> nat_source (flow_metrics_src (nd_flow n)) <> TapPort.NAT_SOURCE_TOA ->
  nat_source (flow_metrics_dst (nd_flow n)) <> TapPort.NAT_SOURCE_TOA ->
  get_tcp_score (service_table g) false false ClientToServer 0 false false src dst = Ret (t, (s, d)) ->
  update_flow_direction g n o = Ret (if negb (is_client_to_server s d)
    then (g <| service_table := t |>, (reverse_flow n false) <| nd_flow := set_service (Flow_reverse (nd_flow n) false) s |>, reverse_packet_direction <$> o)
    else (g <| service_table := t |>, n <| nd_flow := set_service (nd_flow n) d |>, o)).
Proof.
  intros H1 H2 H3 H4 H5 H6. unfold update_flow_direction. rewrite decide_False, H3, H2, Z.eqb_refl by done.
  rewrite (proj2 (Z.eqb_neq _ _) H4), (proj2 (Z.eqb_neq _ _) H5), H6. cbn [mbind run_bind]. by destruct (negb _).
Qed.

(** A SYN/ACK between two EPCs does not make its sender known.  The score is
    stored under the address of the server with the EPC of the client, as the
    keys take their addresses from the packet and their EPCs from the flow.
    The next report of the flow looks both ends up by their own EPC: with one
    EPC the flow stays as it is, with two it is turned around by its ports and
    directed at the client. *)
Theorem syn_ack_lost_between_epcs (g : state) n p client server : two_epcs n p client server -> is_syn_ack p ->
  known (service_table g) (KeyV4 client) = None -> known (service_table g) (KeyV4 server) = None ->
  wp ('(g, _, n, _) ← update_l4_direction g p n false; update_flow_direction g n None) (fun '(_, n', _) =>
    server_end (nd_flow n') = if decide (v4_epc_id client = v4_epc_id server) then server_end (nd_flow n) else client_end (nd_flow n)).
Proof.
  intros [Hc Hs He Hk [Hs1 Hs2] [Hd1 Hd2] Hd [Hp1 Hp2] Ht Hsrc [Ht1 Ht2]] (Hp & h & Hh & Hf) Kc Ks.
  destruct (peek_after (ipv4 (service_table g)) client server Kc Ks ltac:(lia)) as [Pc Ps].
  unfold update_l4_direction. rewrite He, Hp, Hs1, Hs2, Hd1, Hd2, Hd, Z.eqb_refl. unfold tcp_data. rewrite Hh. cbn [mbind run_bind ServiceKey_new].
  unfold get_tcp_score at 1. cbn [on_keys]. unfold tcp_score at 1. rewrite Hf. cbn [orb mbind run_bind fst snd].
  change (is_client_to_server MIN_SCORE MAX_SCORE) with true. cbn [negb mbind run_bind].
  destruct (scores_after (service_table g) _ client server Pc Ps Hp1 Hp2) as [t Ht'].
  destruct (decide (v4_epc_id client = v4_epc_id server));
    (erewrite direction_by_scores; [|exact Hsrc|exact Ht|exact Hk|exact Ht1|exact Ht2|exact Ht']); done.
Qed.

End epcs.

(** *** A connection seen from the middle *)

(** The agent first sees an acknowledgement of the server at 10.0.0.1:8080, then
    its SYN/ACK of a new connection between the same ports. *)
Definition from_server (flags t : Z) : MetaPacket :=
  let p := ex_segment flags t in p <| lookup_key := ((lookup_key p) <| src_port := 8080 |> <| dst_port := 9090 |>) |>.

Definition mid_first : run (Gen (X := unit) (L4 := list_cache) (L6 := list_cache) * MetaPacket * FlowNode) :=
  new_tcp_node (V := quiet_env) (N := iana) ex_cfg ex_gen (from_server TcpFlags.ACK 1000).

Definition mid_node : FlowNode := match mid_first with Ret (_, _, n) => n | Panic => ex_node (ex_packet 7) end.

Lemma mid_node_good : good ex_cfg mid_node.
Proof. split; by vm_compute. Qed.

Lemma mid_syn_ack_admitted : admits (from_server TcpFlags.SYN_ACK 1001) /\ is_syn_ack (from_server TcpFlags.SYN_ACK 1001).
Proof. split; [split; [done|done|done|by eexists]|split; [done|by eexists]]. Qed.

Lemma syn_ack_names_server_witness :
  wp (update_tcp_flow (V := quiet_env) ex_cfg ex_gen (from_server TcpFlags.SYN_ACK 1001) mid_node) (fun '(_, p', n', _) =>
    client_end (nd_flow mid_node) = (V4 0x0a000001, 8080) /\ server_end (nd_flow n') = (V4 0x0a000001, 8080)
    /\ direction_score (nd_flow n') = MAX_SCORE /\ is_active_service (nd_flow n') = true /\ dir p' = ServerToClient).
Proof.
  pose proof (syn_ack_names_server (V := quiet_env) ex_cfg ex_gen mid_node (from_server TcpFlags.SYN_ACK 1001) mid_node_good
    (proj1 mid_syn_ack_admitted) (proj2 mid_syn_ack_admitted) ltac:(by vm_compute)) as H.
  assert (client_end (nd_flow mid_node) = (V4 0x0a000001, 8080)) as Hc by (by vm_compute).
  eapply wp_mono; [exact H|]. intros [[[g' p'] n'] b] (H1 & H2 & H3 & H4). by split_and!.
Defined.

Lemma syn_ack_stale_direction_witness :
  wp (update_tcp_flow (V := quiet_env) ex_cfg ex_gen (from_server TcpFlags.SYN_ACK 1001) mid_node) (fun '(_, p', n', _) =>
    nd_flow_state mid_node = Established /\ dir p' = ServerToClient /\ nd_flow_state n' = Exception).
Proof.
  pose proof (syn_ack_stale_direction (V := quiet_env) ex_cfg ex_gen mid_node (from_server TcpFlags.SYN_ACK 1001) _ mid_node_good
    (proj1 mid_syn_ack_admitted) (proj2 mid_syn_ack_admitted) eq_refl eq_refl) as H.
  assert (nd_flow_state mid_node = Established) as Hc by (by vm_compute).
  eapply wp_mono; [apply H; rewrite Hc; by repeat (left || right)|]. intros [[[g' p'] n'] b] (H1 & H2). by split_and!.
Defined.

(** *** A connection between two EPCs *)

(** The policy lookup knows 10.0.0.1 in EPC 1 and all other addresses in EPC 2. *)
Definition ex_info (ip : IpAddr) : EndpointInfo :=
  EndpointInfo_default <| ei_l3_epc_id := if decide (ip = V4 0x0a000001) then 1 else 2 |>.

Definition epc_env : FlowEnv unit := {|
  policy_lookup x p := (x, p <| endpoint_data := Some (EndpointDataPov_new (Build_EndpointData (ex_info (src_ip (lookup_key p))) (ex_info (dst_ip (lookup_key p))))) |>);
  log_parse x n p b := (x, p, false);
  log_record x n p := x;
  log_server_port x n := None;
  perf_report x n := x;
  sequence_append x n p := x;
  close_event x n := x;
  flush_queues x t := x;
|}.

(** From 10.0.0.1:8080 to 10.0.0.2:40080 *)
Definition epc_packet (flags t : Z) : MetaPacket :=
  let p := ex_segment flags t in p <| lookup_key := ((lookup_key p) <| src_port := 8080 |> <| dst_port := 40080 |>) |>.

Definition epc_first : run (Gen (X := unit) (L4 := list_cache) (L6 := list_cache) * MetaPacket * FlowNode) :=
  new_tcp_node (V := epc_env) (N := iana) ex_cfg ex_gen (epc_packet TcpFlags.SYN 1000).

Definition epc_node : FlowNode := match epc_first with Ret (_, _, n) => n | Panic => ex_node (ex_packet 7) end.

Definition epc_answer : MetaPacket := with_direction (reverse_packet (epc_packet TcpFlags.SYN_ACK 1000)) ServerToClient.

Lemma syn_ack_lost_between_epcs_witness :
  wp ('(g, _, n, _) ← update_l4_direction ex_gen epc_answer epc_node false; update_flow_direction g n None) (fun '(_, n', _) =>
    server_end (nd_flow epc_node) = (V4 0x0a000002, 40080) /\ server_end (nd_flow n') = (V4 0x0a000001, 8080)).
Proof.
  pose proof (syn_ack_lost_between_epcs ex_gen epc_node epc_answer (Build_Ipv4Key 0x0a000001 1 8080) (Build_Ipv4Key 0x0a000002 2 40080)) as H.
  eapply wp_mono; [apply H; [split; by vm_compute|split; [done|by eexists]|done|done]|].
  intros [[g' n'] o] Hn. split; [by vm_compute|]. rewrite Hn. by vm_compute.
Defined.
