(* ===== verification/TcpPerf.v ===== *)
(** * TCP performance metrics

    [SessionPeer], [PerfData] and [TcpPerf] of
    src/agent/src/flow_generator/perf/tcp.rs, and the [TcpPerfStats] they
    export (src/agent/src/common/flow.rs).  [&mut self] methods take and return
    the record; panics ([unreachable!], [Timestamp] subtraction) are [Panic]. *)

From S2P Require Import Prelude Timestamp TcpFlags MetaPacket SeqList.

(** ** Constants *)

Definition SRT_MAX : Timestamp.t := Timestamp.from_secs 10.
Definition RTT_FULL_MAX : Timestamp.t := Timestamp.from_secs 30.
Definition RTT_MAX : Timestamp.t := Timestamp.from_secs 30.
Definition ART_MAX : Timestamp.t := Timestamp.from_secs 30.

Definition adjust_rtt (d max : Timestamp.t) : Timestamp.t :=
  if max <? d then Timestamp.ZERO else d.

Definition WIN_SCALE_MAX : Z := 14.
Definition WIN_SCALE_MASK : Z := 15.
Definition WIN_SCALE_FLAG : Z := 128.

(** ** One direction of a session *)

(** [sp_seq_list] holds the fields [seq_list] and [seq_list_len]. *)
Record SessionPeer := {
  sp_seq_list : SeqList;
  sp_timestamp : Timestamp.t;
  sp_first_handshake_timestamp : Timestamp.t;
  sp_seq_threshold : Z;
  sp_seq : Z;
  sp_payload_len : Z;
  sp_win_size : Z;
  sp_win_scale : Z;
  sp_syn_transmitted : bool;
  sp_is_handshake_ack_packet : bool;
  sp_srt_calculable : bool;
  sp_rtt_calculable : bool;
  sp_art_calculable : bool;
  sp_rtt_full_precondition : bool;
  sp_rtt_full_calculable : bool;
}.

#[export] Instance SessionPeer_fields : Fields SessionPeer := fun x =>
  Build_SessionPeer (sp_seq_list x) (sp_timestamp x) (sp_first_handshake_timestamp x)
    (sp_seq_threshold x) (sp_seq x) (sp_payload_len x) (sp_win_size x) (sp_win_scale x)
    (sp_syn_transmitted x) (sp_is_handshake_ack_packet x) (sp_srt_calculable x)
    (sp_rtt_calculable x) (sp_art_calculable x) (sp_rtt_full_precondition x)
    (sp_rtt_full_calculable x).

Definition SessionPeer_default : SessionPeer :=
  Build_SessionPeer SeqList_default 0 0 0 0 0 0 0 false false false false false false false.

Definition is_sync_ack_ack_packet (s : SessionPeer) (p : MetaPacket) : bool :=
  tcp_test p (fun h => is_ack p && (th_ack h =? sp_seq_threshold s)).

Definition is_reply_packet (s : SessionPeer) (p : MetaPacket) : bool :=
  tcp_test p (fun h => th_ack h =? sp_seq s +₃₂ sp_payload_len s).

Definition is_next_packet (s : SessionPeer) (p : MetaPacket) : bool :=
  tcp_test p (fun h => th_seq h =? sp_seq s +₃₂ sp_payload_len s).

Definition update_data (s : SessionPeer) (p : MetaPacket) : run SessionPeer :=
  h ← tcp_data p;
  let s := s <| sp_timestamp := timestamp p |> in
  let s := s <| sp_payload_len := payload_len p |> in
  let s := if TcpFlags.contains (th_flags h) TcpFlags.SYN
           then s <| sp_payload_len := 1 |> else s in
  Ret (s <| sp_seq := th_seq h |> <| sp_win_size := th_win_size h |>).

(** ** Accumulated metrics *)

Record TimeStats := {
  ts_count : Z;
  ts_sum : Timestamp.t;
  ts_max : Timestamp.t;
  ts_updated : bool;
}.

Definition TimeStats_default : TimeStats := Build_TimeStats 0 0 0 false.

(** [TimeStats::update] *)
Definition ts_update (s : TimeStats) (d : Timestamp.t) : TimeStats := {|
  ts_count := ts_count s +₃₂ 1;
  ts_sum := Timestamp.add (ts_sum s) d;
  ts_max := if ts_max s <? d then d else ts_max s;
  ts_updated := true;
|}.

Record PerfData := {
  pd_rtt_0 : TimeStats;
  pd_rtt_1 : TimeStats;
  pd_art_0 : TimeStats;
  pd_art_1 : TimeStats;
  pd_srt_0 : TimeStats;
  pd_srt_1 : TimeStats;
  pd_cit : TimeStats;
  pd_retrans_sum : Z;
  pd_rtt_full : Timestamp.t;
  pd_retrans_0 : Z;
  pd_retrans_1 : Z;
  pd_retrans_syn_0 : Z;
  pd_retrans_syn_1 : Z;
  pd_psh_urg_count_0 : Z;
  pd_psh_urg_count_1 : Z;
  pd_zero_win_count_0 : Z;
  pd_zero_win_count_1 : Z;
  pd_syn : Z;
  pd_synack : Z;
  pd_retrans_syn : Z;
  pd_retrans_synack : Z;
  pd_updated : bool;
}.

#[export] Instance PerfData_fields : Fields PerfData := fun x =>
  Build_PerfData (pd_rtt_0 x) (pd_rtt_1 x) (pd_art_0 x) (pd_art_1 x) (pd_srt_0 x) (pd_srt_1 x)
    (pd_cit x) (pd_retrans_sum x) (pd_rtt_full x) (pd_retrans_0 x) (pd_retrans_1 x)
    (pd_retrans_syn_0 x) (pd_retrans_syn_1 x) (pd_psh_urg_count_0 x) (pd_psh_urg_count_1 x)
    (pd_zero_win_count_0 x) (pd_zero_win_count_1 x) (pd_syn x) (pd_synack x)
    (pd_retrans_syn x) (pd_retrans_synack x) (pd_updated x).

Definition PerfData_default : PerfData :=
  let z := TimeStats_default in
  Build_PerfData z z z z z z z 0 0 0 0 0 0 0 0 0 0 0 0 0 0 false.

Definition calc_art (s : PerfData) (d : Timestamp.t) (fpd : bool) : PerfData :=
  let s := if fpd then s <| pd_art_0 := ts_update (pd_art_0 s) d |>
           else s <| pd_art_1 := ts_update (pd_art_1 s) d |> in
  s <| pd_updated := true |>.

Definition calc_srt (s : PerfData) (d : Timestamp.t) (fpd : bool) : PerfData :=
  let s := if fpd then s <| pd_srt_0 := ts_update (pd_srt_0 s) d |>
           else s <| pd_srt_1 := ts_update (pd_srt_1 s) d |> in
  s <| pd_updated := true |>.

Definition calc_rtt_full (s : PerfData) (d : Timestamp.t) : PerfData :=
  s <| pd_rtt_full := d |> <| pd_updated := true |>.

Definition calc_rtt (s : PerfData) (d : Timestamp.t) (fpd : bool) : PerfData :=
  let s := if fpd then s <| pd_rtt_0 := ts_update (pd_rtt_0 s) d |>
           else s <| pd_rtt_1 := ts_update (pd_rtt_1 s) d |> in
  s <| pd_updated := true |>.

Definition calc_retrans (s : PerfData) (fpd : bool) : PerfData :=
  let s := if fpd then s <| pd_retrans_0 := pd_retrans_0 s +₃₂ 1 |>
           else s <| pd_retrans_1 := pd_retrans_1 s +₃₂ 1 |> in
  s <| pd_retrans_sum := pd_retrans_sum s +₃₂ 1 |> <| pd_updated := true |>.

Definition calc_retrans_syn (s : PerfData) (fpd : bool) : PerfData :=
  let s := if fpd then s <| pd_retrans_syn_0 := pd_retrans_syn_0 s +₃₂ 1 |>
           else s <| pd_retrans_syn_1 := pd_retrans_syn_1 s +₃₂ 1 |> in
  (calc_retrans s fpd) <| pd_updated := true |>.

Definition calc_zero_win (s : PerfData) (fpd : bool) : PerfData :=
  let s := if fpd then s <| pd_zero_win_count_0 := pd_zero_win_count_0 s +₃₂ 1 |>
           else s <| pd_zero_win_count_1 := pd_zero_win_count_1 s +₃₂ 1 |> in
  s <| pd_updated := true |>.

Definition calc_psh_urg (s : PerfData) (fpd : bool) : PerfData :=
  let s := if fpd then s <| pd_psh_urg_count_0 := pd_psh_urg_count_0 s +₃₂ 1 |>
           else s <| pd_psh_urg_count_1 := pd_psh_urg_count_1 s +₃₂ 1 |> in
  s <| pd_updated := true |>.

Definition calc_syn (s : PerfData) : PerfData :=
  s <| pd_syn := pd_syn s +₃₂ 1 |> <| pd_updated := true |>.

Definition calc_synack (s : PerfData) : PerfData :=
  s <| pd_synack := pd_synack s +₃₂ 1 |> <| pd_updated := true |>.

Definition calc_retran_syn (s : PerfData) : PerfData :=
  s <| pd_retrans_syn := pd_retrans_syn s +₃₂ 1 |> <| pd_updated := true |>.

Definition calc_retrans_synack (s : PerfData) : PerfData :=
  s <| pd_retrans_synack := pd_retrans_synack s +₃₂ 1 |> <| pd_updated := true |>.

Definition calc_cit (s : PerfData) (d : Timestamp.t) : PerfData :=
  s <| pd_cit := ts_update (pd_cit s) d |> <| pd_updated := true |>.

(** ** Exported statistics *)

Record TcpPerfCountsPeer := { retrans_count : Z; zero_win_count : Z }.

#[export] Instance TcpPerfCountsPeer_fields : Fields TcpPerfCountsPeer := fun x =>
  Build_TcpPerfCountsPeer (retrans_count x) (zero_win_count x).

Definition peer_sequential_merge (s o : TcpPerfCountsPeer) : TcpPerfCountsPeer := {|
  retrans_count := retrans_count s +₃₂ retrans_count o;
  zero_win_count := zero_win_count s +₃₂ zero_win_count o;
|}.

(** The array [counts_peers] is the pair of fields [st_peer_0], [st_peer_1]. *)
Record TcpPerfStats := {
  st_rtt_client_max : Z;
  st_rtt_server_max : Z;
  st_srt_max : Z;
  st_art_max : Z;
  st_cit_max : Z;
  st_rtt : Z;
  st_rtt_client_sum : Z;
  st_rtt_server_sum : Z;
  st_srt_sum : Z;
  st_art_sum : Z;
  st_cit_sum : Z;
  st_rtt_client_count : Z;
  st_rtt_server_count : Z;
  st_srt_count : Z;
  st_art_count : Z;
  st_cit_count : Z;
  st_syn_count : Z;
  st_synack_count : Z;
  st_retrans_syn_count : Z;
  st_retrans_synack_count : Z;
  st_peer_0 : TcpPerfCountsPeer;
  st_peer_1 : TcpPerfCountsPeer;
  st_total_retrans_count : Z;
}.

#[export] Instance TcpPerfStats_fields : Fields TcpPerfStats := fun x =>
  Build_TcpPerfStats (st_rtt_client_max x) (st_rtt_server_max x) (st_srt_max x) (st_art_max x)
    (st_cit_max x) (st_rtt x) (st_rtt_client_sum x) (st_rtt_server_sum x) (st_srt_sum x)
    (st_art_sum x) (st_cit_sum x) (st_rtt_client_count x) (st_rtt_server_count x)
    (st_srt_count x) (st_art_count x) (st_cit_count x) (st_syn_count x) (st_synack_count x)
    (st_retrans_syn_count x) (st_retrans_synack_count x) (st_peer_0 x) (st_peer_1 x)
    (st_total_retrans_count x).

Definition TcpPerfStats_default : TcpPerfStats :=
  let z := Build_TcpPerfCountsPeer 0 0 in
  Build_TcpPerfStats 0 0 0 0 0 0 0 0 0 0 0 0 0 0 0 0 0 0 0 0 z z 0.

(** [if self.x < other.x { self.x = other.x }] *)
Definition keep_max (x y : Z) : Z := if x <? y then y else x.

Definition sequential_merge (s o : TcpPerfStats) : TcpPerfStats := {|
  st_rtt_client_max := keep_max (st_rtt_client_max s) (st_rtt_client_max o);
  st_rtt_server_max := keep_max (st_rtt_server_max s) (st_rtt_server_max o);
  st_srt_max := keep_max (st_srt_max s) (st_srt_max o);
  st_art_max := keep_max (st_art_max s) (st_art_max o);
  st_rtt := keep_max (st_rtt s) (st_rtt o);
  st_cit_max := keep_max (st_cit_max s) (st_cit_max o);
  st_rtt_client_sum := st_rtt_client_sum s +₃₂ st_rtt_client_sum o;
  st_rtt_server_sum := st_rtt_server_sum s +₃₂ st_rtt_server_sum o;
  st_srt_sum := st_srt_sum s +₃₂ st_srt_sum o;
  st_art_sum := st_art_sum s +₃₂ st_art_sum o;
  st_cit_sum := st_cit_sum s +₃₂ st_cit_sum o;
  st_rtt_client_count := st_rtt_client_count s +₃₂ st_rtt_client_count o;
  st_rtt_server_count := st_rtt_server_count s +₃₂ st_rtt_server_count o;
  st_srt_count := st_srt_count s +₃₂ st_srt_count o;
  st_art_count := st_art_count s +₃₂ st_art_count o;
  st_syn_count := st_syn_count s +₃₂ st_syn_count o;
  st_cit_count := st_cit_count s +₃₂ st_cit_count o;
  st_synack_count := st_synack_count s +₃₂ st_synack_count o;
  st_retrans_syn_count := st_retrans_syn_count s +₃₂ st_retrans_syn_count o;
  st_retrans_synack_count := st_retrans_synack_count s +₃₂ st_retrans_synack_count o;
  st_peer_0 := peer_sequential_merge (st_peer_0 s) (st_peer_0 o);
  st_peer_1 := peer_sequential_merge (st_peer_1 s) (st_peer_1 o);
  st_total_retrans_count := st_total_retrans_count s +₃₂ st_total_retrans_count o;
|}.

Definition reverse (s : TcpPerfStats) : TcpPerfStats :=
  let s := s <| st_rtt_client_sum := st_rtt_server_sum s |>
             <| st_rtt_server_sum := st_rtt_client_sum s |> in
  let s := s <| st_rtt_client_count := st_rtt_server_count s |>
             <| st_rtt_server_count := st_rtt_client_count s |> in
  s <| st_peer_0 := st_peer_1 s |> <| st_peer_1 := st_peer_0 s |>.

(** [x.as_micros() as u32] *)
Definition micros32 (x : Timestamp.t) : Z := wrap 32 (Timestamp.as_micros x).

Definition export_art (st : TcpPerfStats) (a : TimeStats) : TcpPerfStats :=
  if ts_updated a
  then st <| st_art_max := micros32 (ts_max a) |> <| st_art_sum := micros32 (ts_sum a) |>
          <| st_art_count := ts_count a |>
  else st.

Definition export_srt (st : TcpPerfStats) (a : TimeStats) : TcpPerfStats :=
  if ts_updated a
  then st <| st_srt_max := micros32 (ts_max a) |> <| st_srt_sum := micros32 (ts_sum a) |>
          <| st_srt_count := ts_count a |>
  else st.

Definition export_rtt_client (st : TcpPerfStats) (a : TimeStats) : TcpPerfStats :=
  if ts_updated a
  then st <| st_rtt_client_max := micros32 (ts_max a) |>
          <| st_rtt_client_sum := micros32 (ts_sum a) |> <| st_rtt_client_count := ts_count a |>
  else st.

Definition export_rtt_server (st : TcpPerfStats) (a : TimeStats) : TcpPerfStats :=
  if ts_updated a
  then st <| st_rtt_server_max := micros32 (ts_max a) |>
          <| st_rtt_server_sum := micros32 (ts_sum a) |> <| st_rtt_server_count := ts_count a |>
  else st.

Definition export_cit (st : TcpPerfStats) (a : TimeStats) : TcpPerfStats :=
  if ts_updated a
  then st <| st_cit_max := micros32 (ts_max a) |> <| st_cit_sum := micros32 (ts_sum a) |>
          <| st_cit_count := ts_count a |>
  else st.

Definition export_counts (st : TcpPerfStats) (s : PerfData) : TcpPerfStats :=
  let st := st <| st_peer_0 := (st_peer_0 st) <| retrans_count := pd_retrans_0 s |> |> in
  let st := st <| st_peer_1 := (st_peer_1 st) <| retrans_count := pd_retrans_1 s |> |> in
  let st := st <| st_total_retrans_count := pd_retrans_sum s |> in
  let st := st <| st_peer_0 := (st_peer_0 st) <| zero_win_count := pd_zero_win_count_0 s |> |> in
  let st := st <| st_peer_1 := (st_peer_1 st) <| zero_win_count := pd_zero_win_count_1 s |> |> in
  st <| st_syn_count := pd_syn s |> <| st_synack_count := pd_synack s |>
     <| st_retrans_syn_count := pd_retrans_syn s |>
     <| st_retrans_synack_count := pd_retrans_synack s |>
     <| st_rtt := micros32 (pd_rtt_full s) |>.

Definition update_perf_stats (s : PerfData) (st : TcpPerfStats) (flow_reversed : bool)
  : PerfData * TcpPerfStats :=
  if negb (pd_updated s) then (s, st) else
  let s := s <| pd_updated := false |> in
  let st := export_counts st s in
  let st := if negb flow_reversed
            then export_srt (export_art st (pd_art_1 s)) (pd_srt_1 s)
            else reverse (export_srt (export_art st (pd_art_0 s)) (pd_srt_0 s)) in
  (s, export_cit (export_rtt_server (export_rtt_client st (pd_rtt_0 s)) (pd_rtt_1 s)) (pd_cit s)).

(** ** The per-flow state *)

(** [ctrl_info] is the pair of peers; [counter] holds the two atomic counters
    of [FlowPerfCounter] that the TCP code increments. *)
Record TcpPerf := {
  ctrl_0 : SessionPeer;
  ctrl_1 : SessionPeer;
  perf_data : PerfData;
  ignored_packet_count : Z;
  invalid_packet_count : Z;
  handshaking : bool;
}.

#[export] Instance TcpPerf_fields : Fields TcpPerf := fun x =>
  Build_TcpPerf (ctrl_0 x) (ctrl_1 x) (perf_data x) (ignored_packet_count x)
    (invalid_packet_count x) (handshaking x).

Definition new (ignored invalid : Z) : TcpPerf :=
  Build_TcpPerf SessionPeer_default SessionPeer_default PerfData_default ignored invalid false.

Definition reset (t : TcpPerf) : TcpPerf :=
  t <| ctrl_0 := SessionPeer_default |> <| ctrl_1 := SessionPeer_default |>
    <| perf_data := PerfData_default |> <| handshaking := false |>.

(** [let (same_dir, oppo_dir) = if fpd { (&mut 0, &mut 1) } else { (&mut 1, &mut 0) }] *)
Definition same_dir (t : TcpPerf) (fpd : bool) : SessionPeer := if fpd then ctrl_0 t else ctrl_1 t.
Definition oppo_dir (t : TcpPerf) (fpd : bool) : SessionPeer := if fpd then ctrl_1 t else ctrl_0 t.
Definition set_same (t : TcpPerf) (fpd : bool) (s : SessionPeer) : TcpPerf :=
  if fpd then t <| ctrl_0 := s |> else t <| ctrl_1 := s |>.
Definition set_oppo (t : TcpPerf) (fpd : bool) (s : SessionPeer) : TcpPerf :=
  if fpd then t <| ctrl_1 := s |> else t <| ctrl_0 := s |>.

Definition is_invalid_retrans_packet (t : TcpPerf) (p : MetaPacket) (fpd : bool)
  : run (TcpPerf * (bool * bool)) :=
  h ← tcp_data p;
  let same := same_dir t fpd in
  let oppo := oppo_dir t fpd in
  if is_syn p then
    let '(t, same) :=
      if sp_seq_threshold same =? 0 then
        (t <| handshaking := true |>,
         same <| sp_seq_threshold := th_seq h +₃₂ 1 |>
              <| sp_first_handshake_timestamp := timestamp p |>)
      else if sp_syn_transmitted same then
        (t <| perf_data := calc_retran_syn (calc_retrans_syn (perf_data t) fpd) |>, same)
      else (t, same) in
    Ret (set_same t fpd (same <| sp_syn_transmitted := true |>), (false, false))
  else if is_syn_ack p then
    let t :=
      if sp_seq_threshold same =? 0 then
        let t := set_same t fpd (same <| sp_first_handshake_timestamp := timestamp p |>
                                      <| sp_seq_threshold := th_seq h +₃₂ 1 |>) in
        if sp_seq_threshold oppo =? 0
        then set_oppo t fpd (oppo <| sp_seq_threshold := th_ack h |>)
        else set_oppo t fpd (oppo <| sp_rtt_full_precondition := true |>)
      else
        t <| perf_data := calc_retrans_synack (calc_retrans_syn (perf_data t) fpd) |> in
    Ret (t, (false, false))
  else if is_ack p then
    Ret (t <| handshaking := fpd |>, (false, false))
  else if negb (has_valid_payload p) then
    Ret (t, (false, false))
  else
    '(l, ty) ← assert_seq_number (sp_seq_list same) (th_seq h) (payload_len p);
    let t := set_same t fpd (same <| sp_seq_list := l |>) in
    match ty with
    | Retrans => Ret (t <| perf_data := calc_retrans (perf_data t) fpd |>, (false, true))
    | Error =>
        Ret (t <| invalid_packet_count := invalid_packet_count t +₆₄ 1 |>, (true, false))
    | _ => Ret (t, (false, false))
    end.

Definition is_abnormal_tcp_flags (flags : Z) : bool :=
  if (if TcpFlags.contains flags TcpFlags.SYN
      then TcpFlags.intersects flags (Z.lor TcpFlags.FIN TcpFlags.RST)
      else negb (TcpFlags.intersects flags (Z.lor TcpFlags.ACK TcpFlags.RST)))
  then true
  else if negb (TcpFlags.contains flags TcpFlags.ACK)
       then TcpFlags.intersects flags (Z.lor (Z.lor TcpFlags.PSH TcpFlags.FIN) TcpFlags.URG)
       else false.

Definition is_unconcerned_tcp_flags (flags : Z) : bool :=
  TcpFlags.intersects flags (Z.lor TcpFlags.FIN TcpFlags.RST).

Definition is_handshake_ack_packet (oppo : SessionPeer) (p : MetaPacket) : bool :=
  tcp_test p (fun h => is_ack p && (sp_seq_threshold oppo =? th_ack h)).

(** The two measurements of [flow_opening]: handshake RTT, then full RTT. *)
Definition opening_rtt (t : TcpPerf) (p : MetaPacket) (fpd : bool) : run TcpPerf :=
  let oppo := oppo_dir t fpd in
  if sp_rtt_calculable (same_dir t fpd) && is_reply_packet oppo p
     && (is_handshake_ack_packet oppo p || is_syn_ack p)
     && negb (Timestamp.is_zero (sp_first_handshake_timestamp oppo)) then
    d ← Timestamp.sub (timestamp p) (sp_first_handshake_timestamp oppo);
    let rtt := adjust_rtt d RTT_MAX in
    if negb (Timestamp.is_zero rtt)
    then Ret (t <| perf_data := calc_rtt (perf_data t) rtt fpd |>) else Ret t
  else Ret t.

Definition opening_rtt_full (t : TcpPerf) (p : MetaPacket) (fpd : bool) : run TcpPerf :=
  let same := same_dir t fpd in
  if sp_rtt_full_calculable same && is_sync_ack_ack_packet (oppo_dir t fpd) p then
    d ← Timestamp.sub (timestamp p) (sp_first_handshake_timestamp same);
    let rtt_full := adjust_rtt d RTT_FULL_MAX in
    if negb (Timestamp.is_zero rtt_full)
    then Ret (t <| perf_data := calc_rtt_full (perf_data t) rtt_full |>) else Ret t
  else Ret t.

Definition flow_opening (t : TcpPerf) (p : MetaPacket) (fpd : bool) : run (TcpPerf * bool) :=
  t ← opening_rtt t p fpd;
  t ← opening_rtt_full t p fpd;
  h ← tcp_data p;
  let same := same_dir t fpd in
  let oppo := oppo_dir t fpd in
  let '(same, oppo, is_opening) :=
    if is_syn p || is_syn_ack p then
      let same := if 0 <? th_win_scale h
                  then same <| sp_win_scale := Z.lor WIN_SCALE_FLAG (Z.min (th_win_scale h) WIN_SCALE_MAX) |>
                  else same in
      let same := same <| sp_rtt_calculable := true |> <| sp_srt_calculable := false |>
                       <| sp_art_calculable := false |> in
      let oppo := oppo <| sp_rtt_calculable := true |> <| sp_srt_calculable := false |>
                       <| sp_art_calculable := false |> in
      let oppo := if is_syn_ack p && sp_rtt_full_precondition oppo
                  then oppo <| sp_rtt_full_calculable := true |> else oppo in
      (same, oppo, true)
    else if negb (is_ack p) then
      (same <| sp_rtt_calculable := false |> <| sp_rtt_full_calculable := false |>,
       oppo <| sp_rtt_calculable := false |>, is_ack p)
    else (same, oppo, is_ack p) in
  let same := if is_handshake_ack_packet oppo p
              then same <| sp_is_handshake_ack_packet := true |> else same in
  Ret (set_oppo (set_same t fpd same) fpd oppo, is_opening).

(** The parts of [flow_established], in order. *)
Definition established_srt (t : TcpPerf) (p : MetaPacket) (fpd : bool) : run TcpPerf :=
  let oppo := oppo_dir t fpd in
  if sp_srt_calculable (same_dir t fpd) && (is_ack p && is_reply_packet oppo p) then
    d ← Timestamp.sub (timestamp p) (sp_timestamp oppo);
    let srt := adjust_rtt d SRT_MAX in
    if negb (Timestamp.is_zero srt)
    then Ret (t <| perf_data := calc_srt (perf_data t) srt fpd |>) else Ret t
  else Ret t.

Definition established_art (t : TcpPerf) (p : MetaPacket) (fpd : bool) : run TcpPerf :=
  let same := same_dir t fpd in
  if sp_art_calculable same && (has_valid_payload p && is_next_packet same p) then
    d ← Timestamp.sub (timestamp p) (sp_timestamp (oppo_dir t fpd));
    let art := adjust_rtt d ART_MAX in
    if negb (Timestamp.is_zero art)
    then Ret (t <| perf_data := calc_art (perf_data t) art fpd |>) else Ret t
  else Ret t.

Definition set_calculable (srt art : bool) (s : SessionPeer) : SessionPeer :=
  s <| sp_srt_calculable := srt |> <| sp_art_calculable := art |>.

Definition established_flags (t : TcpPerf) (p : MetaPacket) (fpd : bool) : TcpPerf :=
  let same := same_dir t fpd in
  let oppo := oppo_dir t fpd in
  let '(same, oppo) :=
    if is_ack p then (same <| sp_srt_calculable := false |>, set_calculable false false oppo)
    else if is_psh_ack p then (set_calculable false false same, set_calculable true true oppo)
    else (set_calculable false false same, set_calculable false false oppo) in
  set_oppo (set_same t fpd same) fpd oppo.

(** The advertised window, scaled when both sides announced a scale. *)
Definition scaled_window (same oppo : SessionPeer) (win_size : Z) : Z :=
  if 0 <? Z.land (Z.land (sp_win_scale same) (sp_win_scale oppo)) WIN_SCALE_FLAG
  then wshl 32 win_size (Z.land (sp_win_scale same) WIN_SCALE_MASK)
  else win_size.

Definition established_counts (t : TcpPerf) (p : MetaPacket) (fpd : bool) : run TcpPerf :=
  h ← tcp_data p;
  let win_size := scaled_window (same_dir t fpd) (oppo_dir t fpd) (th_win_size h) in
  let t := if win_size =? 0
           then t <| perf_data := calc_zero_win (perf_data t) fpd |> else t in
  Ret (if Z.land (th_flags h) TcpFlags.MASK =? TcpFlags.PSH_ACK_URG
       then t <| perf_data := calc_psh_urg (perf_data t) fpd |> else t).

Definition established_cit (t : TcpPerf) (p : MetaPacket) (fpd : bool) : run TcpPerf :=
  let same := same_dir t fpd in
  let oppo := oppo_dir t fpd in
  if fpd && is_psh_ack p && (1 <? payload_len p) then
    if sp_is_handshake_ack_packet same then
      let t := set_same t fpd (same <| sp_is_handshake_ack_packet := false |>) in
      d ← Timestamp.sub (timestamp p) (Z.max (sp_timestamp same) (sp_timestamp oppo));
      Ret (t <| perf_data := calc_cit (perf_data t) d |>)
    else if (1 <? sp_payload_len oppo)
            && ((sp_payload_len same <=? 1) || (sp_timestamp same <? sp_timestamp oppo)) then
      d ← Timestamp.sub (timestamp p) (sp_timestamp oppo);
      Ret (t <| perf_data := calc_cit (perf_data t) d |>)
    else Ret t
  else Ret t.

Definition flow_established (t : TcpPerf) (p : MetaPacket) (fpd : bool) : run TcpPerf :=
  t ← established_srt t p fpd;
  t ← established_art t p fpd;
  t ← established_counts (established_flags t p fpd) p fpd;
  established_cit t p fpd.

Definition calculate (t : TcpPerf) (p : MetaPacket) (fpd : bool) : run (TcpPerf * bool) :=
  '(t, (is_invalid, is_retrans)) ← is_invalid_retrans_packet t p fpd;
  if (is_invalid : bool) then
    Ret (t <| ctrl_0 := set_calculable false false (ctrl_0 t) |>
           <| ctrl_1 := set_calculable false false (ctrl_1 t) |>, is_retrans : bool)
  else
    t ← (if handshaking t
         then '(t, is_opening) ← flow_opening t p fpd; Ret (t <| handshaking := is_opening |>)
         else Ret t);
    t ← (if negb (handshaking t) then flow_established t p fpd else Ret t);
    let t := if is_syn p
             then t <| perf_data := calc_syn (if is_retrans then calc_retran_syn (perf_data t)
                                              else perf_data t) |> else t in
    let t := if is_syn_ack p
             then t <| perf_data := calc_synack (if is_retrans then calc_retrans_synack (perf_data t)
                                                 else perf_data t) |> else t in
    Ret (t, is_retrans).

Definition is_interested_packet (t : TcpPerf) (p : MetaPacket) : run (TcpPerf * bool) :=
  h ← tcp_data p;
  if th_data_offset h =? 0 then Ret (t, false)
  else if is_abnormal_tcp_flags (th_flags h) then
    Ret (t <| ignored_packet_count := ignored_packet_count t +₆₄ 1 |>, false)
  else if is_unconcerned_tcp_flags (th_flags h) then Ret (t, false)
  else Ret (t, true).

Inductive Error := InvalidPacketTimestamp | RetransPacket.

(** The flags [parse] clears on an uninteresting packet. *)
Definition forget_timing (s : SessionPeer) : SessionPeer :=
  s <| sp_srt_calculable := false |> <| sp_art_calculable := false |>
    <| sp_rtt_full_precondition := false |> <| sp_rtt_full_calculable := false |>.

Definition parse (t : TcpPerf) (p : MetaPacket) (fpd : bool) : run (TcpPerf * result unit Error) :=
  '(t, interested) ← is_interested_packet t p;
  if negb interested then
    Ret (t <| ctrl_0 := forget_timing (ctrl_0 t) |> <| ctrl_1 := forget_timing (ctrl_1 t) |>, Ok tt)
  else if (timestamp p <? sp_timestamp (ctrl_0 t)) || (timestamp p <? sp_timestamp (ctrl_1 t)) then
    Ret (t <| invalid_packet_count := invalid_packet_count t +₆₄ 1 |>, Err InvalidPacketTimestamp)
  else
    '(t, is_retrans) ← calculate t p fpd;
    t ← (if fpd then s ← update_data (ctrl_0 t) p; Ret (t <| ctrl_0 := s |>)
         else s ← update_data (ctrl_1 t) p; Ret (t <| ctrl_1 := s |>));
    Ret (t, if (is_retrans : bool) then Err RetransPacket else Ok tt).

Definition data_updated (t : TcpPerf) : bool := pd_updated (perf_data t).

(** The [tcp] field of the returned [FlowPerfStats]. *)
Definition copy_and_reset_data (t : TcpPerf) (flow_reversed : bool) : TcpPerf * TcpPerfStats :=
  let '(d, stats) := update_perf_stats (perf_data t) TcpPerfStats_default flow_reversed in
  (t <| perf_data := d |> <| perf_data := PerfData_default |>, stats).

(** ** Invariants *)

(** A packet trace: each packet with the flag telling whether it travels in
    the direction of the first packet. *)
Fixpoint parse_all (t : TcpPerf) (ps : list (MetaPacket * bool)) : run TcpPerf :=
  match ps with
  | [] => Ret t
  | (p, fpd) :: ps => '(t, _) ← parse t p fpd; parse_all t ps
  end.

Definition scale_ok (w : Z) : Prop := w = 0 \/ exists k, 1 <= k <= WIN_SCALE_MAX /\ w = Z.lor WIN_SCALE_FLAG k.

(** What holds of a peer at any time: its sequence list is a representation of
    a sorted list, its window scale is absent or a valid announced scale, and
    no recorded time lies after [now]. *)
Definition peer_ok (now : Timestamp.t) (s : SessionPeer) : Prop :=
  (exists L, rep (sp_seq_list s) L /\ wf L)
  /\ scale_ok (sp_win_scale s)
  /\ 0 <= sp_timestamp s <= now
  /\ 0 <= sp_first_handshake_timestamp s <= now
  /\ 0 <= sp_payload_len s.

(** A [TimeStats] holding at most [n] samples, none above [bound]. *)
Definition stats_ok (n bound : Z) (s : TimeStats) : Prop :=
  0 <= ts_count s <= n /\ 0 <= ts_max s <= bound /\ ts_max s <= ts_sum s <= ts_count s * ts_max s
  /\ (ts_updated s = false -> ts_count s = 0).

Definition counters_ok (d : PerfData) : Prop :=
  pd_retrans_sum d = pd_retrans_0 d +₃₂ pd_retrans_1 d
  /\ pd_retrans_syn_0 d +₃₂ pd_retrans_syn_1 d = pd_retrans_syn d +₃₂ pd_retrans_synack d.

(** Bounds on the response time metrics after [nr], [na] and [ns] measurements
    of the round trip, application and system response time. *)
Definition data_ok (nr na ns : Z) (d : PerfData) : Prop :=
  stats_ok nr RTT_MAX (pd_rtt_0 d) /\ stats_ok nr RTT_MAX (pd_rtt_1 d)
  /\ stats_ok na ART_MAX (pd_art_0 d) /\ stats_ok na ART_MAX (pd_art_1 d)
  /\ stats_ok ns SRT_MAX (pd_srt_0 d) /\ stats_ok ns SRT_MAX (pd_srt_1 d)
  /\ 0 <= pd_rtt_full d <= RTT_FULL_MAX.

(** Number of measurements for which 30 seconds each fit a [u64] of nanoseconds. *)
Definition LIMIT : Z := 2 ^ 29.

(** Nothing was measured as long as [updated] is unset. *)
Definition fresh (d : PerfData) : Prop := pd_updated d = false -> d = PerfData_default.

(** [d'] has at most [dr], [da], [ds] more samples than [d]. *)
Definition grows (dr da ds : Z) (d d' : PerfData) : Prop :=
  (forall nr na ns, nr + dr <= LIMIT -> na + da <= LIMIT -> ns + ds <= LIMIT ->
     data_ok nr na ns d -> data_ok (nr + dr) (na + da) (ns + ds) d')
  /\ (counters_ok d -> counters_ok d')
  /\ (fresh d -> fresh d').

(** State while a packet of time [now] is being processed. *)
Definition mid (now : Timestamp.t) (fpd : bool) (t : TcpPerf) : Prop :=
  peer_ok now (same_dir t fpd)
  /\ peer_ok (sp_timestamp (oppo_dir t fpd)) (oppo_dir t fpd)
  /\ sp_timestamp (oppo_dir t fpd) <= now.

(** State between packets. *)
Definition idle (t : TcpPerf) : Prop :=
  peer_ok (sp_timestamp (ctrl_0 t)) (ctrl_0 t) /\ peer_ok (sp_timestamp (ctrl_1 t)) (ctrl_1 t).

(** ** Measurements *)

Lemma max_values : RTT_MAX = 30000000000 /\ ART_MAX = 30000000000
  /\ RTT_FULL_MAX = 30000000000 /\ SRT_MAX = 10000000000.
Proof. done. Qed.

Lemma adjust_rtt_bounds d max :
  0 <= d -> 0 <= max -> 0 <= adjust_rtt d max <= max.
Proof. unfold adjust_rtt, Timestamp.ZERO. intros. case_goal; lia. Qed.

Lemma stats_ok_mono n n' b s : n <= n' -> stats_ok n b s -> stats_ok n' b s.
Proof. unfold stats_ok. naive_solver lia. Qed.

Lemma stats_ok_update n b s d :
  n + 1 <= LIMIT -> b <= RTT_MAX -> 0 <= d <= b -> stats_ok n b s -> stats_ok (n + 1) b (ts_update s d).
Proof.
  destruct max_values as (-> & _). unfold LIMIT. intros Hn Hb Hd ((? & ?) & (? & ?) & (? & ?) & _).
  assert (ts_count s * ts_max s <= LIMIT * 30000000000) by (unfold LIMIT; nia).
  unfold stats_ok, ts_update, Timestamp.add; cbn [ts_count ts_sum ts_max ts_updated].
  unfold LIMIT in *.
  rewrite !wadd_small by (unfold fits; lia). split_and!; case_all; nia.
Qed.

Lemma grows_refl d : grows 0 0 0 d d.
Proof. split; [|done]. intros nr na ns ? ? ?. by rewrite !Z.add_0_r. Qed.

Lemma grows_trans a1 b1 c1 a2 b2 c2 d1 d2 d3 :
  0 <= a2 -> 0 <= b2 -> 0 <= c2 ->
  grows a1 b1 c1 d1 d2 -> grows a2 b2 c2 d2 d3 -> grows (a1 + a2) (b1 + b2) (c1 + c2) d1 d3.
Proof.
  intros ? ? ? (Hd1 & ? & ?) (Hd2 & ? & ?). split_and!; [|by auto..]. intros nr na ns ? ? ? ?.
  rewrite !Z.add_assoc. apply Hd2; [lia..|]. apply Hd1; [lia..|done].
Qed.

Lemma data_ok_mono nr na ns nr' na' ns' d :
  nr <= nr' -> na <= na' -> ns <= ns' -> data_ok nr na ns d -> data_ok nr' na' ns' d.
Proof.
  intros ? ? ? (? & ? & ? & ? & ? & ? & ?). unfold data_ok.
  split_and!; try (by eapply stats_ok_mono; [|done]); lia.
Qed.

Lemma grows_weaken a b c a' b' c' d d' :
  a <= a' -> b <= b' -> c <= c' -> grows a b c d d' -> grows a' b' c' d d'.
Proof.
  intros ? ? ? [H1 H2]. split; [|done]. intros.
  eapply (data_ok_mono (nr + a) (na + b) (ns + c)); [lia..|]. apply H1; [lia..|done].
Qed.

(** Open a [grows] goal about a [calc_*] function. *)
Ltac grows_start :=
  split_and!;
  [intros nr na ns ? ? ? (? & ? & ? & ? & ? & ? & ?); unfold data_ok
  |intros [Hsum Hsyn]; unfold counters_ok|done].

Ltac grows_done :=
  cbn; rewrite ?Z.add_0_r; split_and!;
  first [ done | lia
        | apply stats_ok_update; [lia|by vm_compute|lia|done]
        | eapply stats_ok_mono; [|done]; lia
        | rewrite ?wadd_incr_l, ?wadd_incr_r; congruence ].

Lemma grows_calc_rtt d x fpd : 0 <= x <= RTT_MAX -> grows 1 0 0 d (calc_rtt d x fpd).
Proof. intros. destruct fpd; grows_start; grows_done. Qed.

Lemma grows_calc_art d x fpd : 0 <= x <= ART_MAX -> grows 0 1 0 d (calc_art d x fpd).
Proof. intros. destruct fpd; grows_start; grows_done. Qed.

Lemma grows_calc_srt d x fpd : 0 <= x <= SRT_MAX -> grows 0 0 1 d (calc_srt d x fpd).
Proof. intros. destruct fpd; grows_start; grows_done. Qed.

Lemma grows_calc_rtt_full d x : 0 <= x <= RTT_FULL_MAX -> grows 0 0 0 d (calc_rtt_full d x).
Proof. intros. grows_start; grows_done. Qed.

Lemma grows_calc_cit d x : grows 0 0 0 d (calc_cit d x).
Proof. grows_start; grows_done. Qed.

Lemma grows_calc_zero_win d fpd : grows 0 0 0 d (calc_zero_win d fpd).
Proof. destruct fpd; grows_start; grows_done. Qed.

Lemma grows_calc_psh_urg d fpd : grows 0 0 0 d (calc_psh_urg d fpd).
Proof. destruct fpd; grows_start; grows_done. Qed.

Lemma grows_calc_syn d : grows 0 0 0 d (calc_syn d).
Proof. grows_start; grows_done. Qed.

Lemma grows_calc_synack d : grows 0 0 0 d (calc_synack d).
Proof. grows_start; grows_done. Qed.

Lemma grows_calc_retrans d fpd : grows 0 0 0 d (calc_retrans d fpd).
Proof. destruct fpd; grows_start; grows_done. Qed.

(** A retransmitted SYN is counted both per direction and per kind. *)
Lemma grows_retrans_syn d fpd : grows 0 0 0 d (calc_retran_syn (calc_retrans_syn d fpd)).
Proof. destruct fpd; grows_start; grows_done. Qed.

Lemma grows_retrans_synack d fpd : grows 0 0 0 d (calc_retrans_synack (calc_retrans_syn d fpd)).
Proof. destruct fpd; grows_start; grows_done. Qed.

#[export] Hint Resolve grows_refl grows_calc_cit grows_calc_zero_win grows_calc_psh_urg
  grows_calc_syn grows_calc_synack grows_calc_retrans grows_retrans_syn grows_retrans_synack : rust.

(** ** Every stage returns, keeps the peers well-formed and bounds the metrics *)

Definition stage_ok (now : Timestamp.t) (fpd : bool) (dr da ds : Z) (t : TcpPerf) (t' : TcpPerf)
  : Prop :=
  mid now fpd t' /\ grows dr da ds (perf_data t) (perf_data t').

Lemma stage_trans now fpd a1 b1 c1 a2 b2 c2 t1 t2 t3 :
  0 <= a2 -> 0 <= b2 -> 0 <= c2 ->
  stage_ok now fpd a1 b1 c1 t1 t2 -> stage_ok now fpd a2 b2 c2 t2 t3 ->
  stage_ok now fpd (a1 + a2) (b1 + b2) (c1 + c2) t1 t3.
Proof. intros ? ? ? [_ ?] [? ?]. split; [done|]. by eapply grows_trans. Qed.

Lemma stage_weaken now fpd a b c a' b' c' t t' :
  a <= a' -> b <= b' -> c <= c' -> stage_ok now fpd a b c t t' -> stage_ok now fpd a' b' c' t t'.
Proof. intros ? ? ? [? ?]. split; [done|]. by eapply grows_weaken; [..|done]. Qed.

Lemma peer_ok_mono now now' s : now <= now' -> peer_ok now s -> peer_ok now' s.
Proof. unfold peer_ok. intros ? (? & ? & ? & ? & ?). split_and!; (done || lia). Qed.

Lemma scale_ok_announced w :
  0 < w -> scale_ok (Z.lor WIN_SCALE_FLAG (Z.min w WIN_SCALE_MAX)).
Proof. intros. right. exists (Z.min w WIN_SCALE_MAX). unfold WIN_SCALE_MAX. split; [lia|done]. Qed.

Lemma mid_set_same now fpd t s : peer_ok now s -> mid now fpd t -> mid now fpd (set_same t fpd s).
Proof. by destruct fpd; intros ? (? & ? & ?). Qed.

Lemma mid_set_oppo now fpd t s :
  peer_ok (sp_timestamp s) s -> sp_timestamp s <= now -> mid now fpd t -> mid now fpd (set_oppo t fpd s).
Proof. by destruct fpd; intros ? ? (? & ? & ?). Qed.

Lemma perf_data_set_same t fpd s : perf_data (set_same t fpd s) = perf_data t.
Proof. by destruct fpd. Qed.

Lemma perf_data_set_oppo t fpd s : perf_data (set_oppo t fpd s) = perf_data t.
Proof. by destruct fpd. Qed.

(** Writes of the metrics and of flags leave the peers alone. *)
Lemma stage_set_data now fpd a b c t t' d :
  mid now fpd t' -> grows a b c (perf_data t) d -> stage_ok now fpd a b c t (t' <| perf_data := d |>).
Proof. done. Qed.

Lemma stage_set_same now fpd a b c t t' s :
  peer_ok now s -> stage_ok now fpd a b c t t' -> stage_ok now fpd a b c t (set_same t' fpd s).
Proof. intros ? [? ?]. split; [by apply mid_set_same|by rewrite perf_data_set_same]. Qed.

Lemma stage_set_oppo now fpd a b c t t' s :
  peer_ok (sp_timestamp s) s -> sp_timestamp s <= now ->
  stage_ok now fpd a b c t t' -> stage_ok now fpd a b c t (set_oppo t' fpd s).
Proof. intros ? ? [? ?]. split; [by apply mid_set_oppo|by rewrite perf_data_set_oppo]. Qed.

Lemma stage_set_handshaking now fpd a b c t t' x :
  stage_ok now fpd a b c t t' -> stage_ok now fpd a b c t (t' <| handshaking := x |>).
Proof. done. Qed.

Lemma stage_set_invalid now fpd a b c t t' x :
  stage_ok now fpd a b c t t' -> stage_ok now fpd a b c t (t' <| invalid_packet_count := x |>).
Proof. done. Qed.

Lemma stage_refl now fpd t : mid now fpd t -> stage_ok now fpd 0 0 0 t t.
Proof. split; [done|apply grows_refl]. Qed.

Ltac stage_done :=
  repeat match goal with
  | H : ?G |- ?G => exact H
  | |- stage_ok _ _ _ _ _ _ (set_same _ _ _) => apply stage_set_same
  | |- stage_ok _ _ _ _ _ _ (set_oppo _ _ _) => apply stage_set_oppo
  | |- stage_ok _ _ _ _ _ _ (update handshaking _ _) => apply stage_set_handshaking
  | |- stage_ok _ _ _ _ _ _ (update invalid_packet_count _ _) => apply stage_set_invalid
  | |- stage_ok _ _ _ _ _ _ (update perf_data _ _) => apply stage_set_data
  | |- stage_ok _ _ _ _ _ ?t ?t => apply stage_refl
  | |- mid _ _ (set_same _ _ _) => apply mid_set_same
  | |- grows _ _ _ _ (calc_retrans (perf_data (set_same _ _ _)) _) => rewrite perf_data_set_same
  | |- grows _ _ _ _ _ => by auto with rust
  end.

Lemma retrans_syn_ok t p h fpd :
  0 <= timestamp p -> mid (timestamp p) fpd t ->
  let '(t', same) :=
    if sp_seq_threshold (same_dir t fpd) =? 0 then
      (t <| handshaking := true |>,
       (same_dir t fpd) <| sp_seq_threshold := th_seq h +₃₂ 1 |>
            <| sp_first_handshake_timestamp := timestamp p |>)
    else if sp_syn_transmitted (same_dir t fpd) then
      (t <| perf_data := calc_retran_syn (calc_retrans_syn (perf_data t) fpd) |>, same_dir t fpd)
    else (t, same_dir t fpd) in
  stage_ok (timestamp p) fpd 0 0 0 t (set_same t' fpd (same <| sp_syn_transmitted := true |>)).
Proof.
  intros Hp Hmid. pose proof Hmid as (Hs & Ho & Hle).
  destruct (sp_seq_threshold (same_dir t fpd) =? 0);
    [stage_done|destruct (sp_syn_transmitted (same_dir t fpd)); stage_done].
  destruct Hs as (? & ? & ? & ? & ?). split_and!; done || (cbn; lia).
Qed.

Lemma is_invalid_retrans_packet_ok t p fpd :
  packet_ok p -> mid (timestamp p) fpd t ->
  wp (is_invalid_retrans_packet t p fpd) (fun '(t', (invalid, retrans)) =>
    stage_ok (timestamp p) fpd 0 0 0 t t'
    /\ (retrans = true -> is_syn p = false /\ is_syn_ack p = false)).
Proof.
  intros (h & Hh & Hts & Hpl & Hseq & Hack & _) Hmid. pose proof Hmid as (Hs & Ho & Hle).
  unfold is_invalid_retrans_packet, tcp_data. rewrite Hh. cbn [mbind run_bind].
  destruct (is_syn p) eqn:Hsyn.
  { pose proof (retrans_syn_ok t p h fpd (proj1 Hts) Hmid). by repeat case_match. }
  destruct (is_syn_ack p) eqn:Hsynack.
  { split; [|done].
    destruct (_ =? 0); [destruct (_ =? 0)|]; stage_done; destruct Hs as (? & ? & ? & ? & ?); split_and!; done || (cbn; lia). }
  destruct (is_ack p); [split; [stage_done|done]|].
  destruct (has_valid_payload p); cbn [negb]; [|split; [stage_done|done]].
  pose proof Hs as ((L & Hrep & Hwf) & ? & ? & ? & ?).
  destruct (assert_seq_number_rep _ L (th_seq h) (payload_len p) Hrep Hwf Hseq Hpl)
    as (l & L' & ty & -> & Hrep' & Hwf' & _).
  assert (peer_ok (timestamp p) ((same_dir t fpd) <| sp_seq_list := l |>)).
  { split_and!; [by exists L'|..]; done || (cbn; lia). }
  cbn [mbind run_bind]. destruct ty; (split; [stage_done|done]).
Qed.

(** A measurement [now - since], kept when it is positive and at most [max]. *)
Lemma opening_rtt_ok t p fpd :
  mid (timestamp p) fpd t ->
  wp (opening_rtt t p fpd) (stage_ok (timestamp p) fpd 1 0 0 t).
Proof.
  intros Hmid. unfold opening_rtt.
  assert (stage_ok (timestamp p) fpd 1 0 0 t t) as Hrefl.
  { split; [done|]. eapply grows_weaken; [..|apply grows_refl]; lia. }
  case_goal; [|done].
  pose proof Hmid as (_ & (_ & _ & _ & ? & _) & ?).
  rewrite Timestamp.sub_ret by lia. cbn [mbind run_bind]. case_goal; [|done].
  split; [by destruct fpd|]. apply grows_calc_rtt, adjust_rtt_bounds; [lia|by vm_compute].
Qed.

Lemma opening_rtt_full_ok t p fpd :
  mid (timestamp p) fpd t ->
  wp (opening_rtt_full t p fpd) (stage_ok (timestamp p) fpd 0 0 0 t).
Proof.
  intros Hmid. unfold opening_rtt_full. case_goal; [|by apply stage_refl].
  pose proof Hmid as ((_ & _ & _ & ? & _) & _).
  rewrite Timestamp.sub_ret by lia. cbn [mbind run_bind].
  case_goal; [|by apply stage_refl].
  split; [done|]. apply grows_calc_rtt_full, adjust_rtt_bounds; [lia|by vm_compute].
Qed.

Lemma flow_opening_ok t p fpd :
  packet_ok p -> mid (timestamp p) fpd t ->
  wp (flow_opening t p fpd) (fun '(t', _) => stage_ok (timestamp p) fpd 1 0 0 t t').
Proof.
  intros (h & Hh & _) Hmid. unfold flow_opening.
  apply wp_bind. eapply wp_mono; [by apply opening_rtt_ok|]. intros t1 Ht1.
  apply wp_bind. eapply wp_mono; [apply opening_rtt_full_ok, Ht1|]. intros t2 Ht2.
  pose proof (stage_trans _ _ _ _ _ _ _ _ _ _ _ ltac:(done) ltac:(done) ltac:(done) Ht1 Ht2) as Ht.
  pose proof Ht2 as [(Hs & Ho & Hle) _].
  unfold tcp_data. rewrite Hh. cbn [mbind run_bind].
  repeat case_match; simplify_eq; cbn [wp]; stage_done; try done.
  all: destruct Hs as (? & ? & ? & ? & ?); split_and!; try done; try (cbn; lia).
  all: apply scale_ok_announced; lia.
Qed.

Lemma established_srt_ok t p fpd :
  mid (timestamp p) fpd t ->
  wp (established_srt t p fpd) (stage_ok (timestamp p) fpd 0 0 1 t).
Proof.
  intros Hmid. unfold established_srt.
  assert (stage_ok (timestamp p) fpd 0 0 1 t t) as Hrefl.
  { eapply stage_weaken; [..|by apply stage_refl]; lia. }
  case_goal; [|done]. pose proof Hmid as (_ & _ & ?).
  rewrite Timestamp.sub_ret by lia. cbn [mbind run_bind]. case_goal; [|done].
  apply stage_set_data; [done|]. apply grows_calc_srt, adjust_rtt_bounds; [lia|by vm_compute].
Qed.

Lemma established_art_ok t p fpd :
  mid (timestamp p) fpd t ->
  wp (established_art t p fpd) (stage_ok (timestamp p) fpd 0 1 0 t).
Proof.
  intros Hmid. unfold established_art.
  assert (stage_ok (timestamp p) fpd 0 1 0 t t) as Hrefl.
  { eapply stage_weaken; [..|by apply stage_refl]; lia. }
  case_goal; [|done]. pose proof Hmid as (_ & _ & ?).
  rewrite Timestamp.sub_ret by lia. cbn [mbind run_bind]. case_goal; [|done].
  apply stage_set_data; [done|]. apply grows_calc_art, adjust_rtt_bounds; [lia|by vm_compute].
Qed.

Lemma established_flags_ok t p fpd :
  mid (timestamp p) fpd t -> stage_ok (timestamp p) fpd 0 0 0 t (established_flags t p fpd).
Proof.
  intros Hmid. pose proof Hmid as (Hs & Ho & Hle). unfold established_flags.
  destruct (is_ack p); [|destruct (is_psh_ack p)]; stage_done.
Qed.

Lemma established_counts_ok t p fpd :
  packet_ok p -> mid (timestamp p) fpd t ->
  wp (established_counts t p fpd) (stage_ok (timestamp p) fpd 0 0 0 t).
Proof.
  intros (h & Hh & _) Hmid. unfold established_counts, tcp_data. rewrite Hh. cbn [mbind run_bind wp].
  destruct (_ =? 0), (_ =? TcpFlags.PSH_ACK_URG); stage_done.
  eapply (grows_trans 0 0 0 0 0 0); [lia..| |apply grows_calc_psh_urg]. apply grows_calc_zero_win.
Qed.

Lemma established_cit_ok t p fpd :
  mid (timestamp p) fpd t ->
  wp (established_cit t p fpd) (stage_ok (timestamp p) fpd 0 0 0 t).
Proof.
  intros Hmid. pose proof Hmid as (Hs & Ho & Hle). unfold established_cit.
  destruct (_ && _); [|by apply stage_refl].
  destruct (sp_is_handshake_ack_packet _).
  - pose proof Hs as (_ & _ & ? & _). rewrite Timestamp.sub_ret by lia. cbn [mbind run_bind wp].
    apply stage_set_data; [by apply mid_set_same|].
    rewrite perf_data_set_same. apply grows_calc_cit.
  - case_goal; [|by apply stage_refl].
    rewrite Timestamp.sub_ret by lia. cbn [mbind run_bind wp]. stage_done.
Qed.

(** Compose stages: run [m] after a stage that reached [t1]. *)
Lemma stage_bind {B} now fpd a1 b1 c1 a2 b2 c2 t t1 (m : run TcpPerf) (k : TcpPerf -> run B) Q :
  0 <= a2 -> 0 <= b2 -> 0 <= c2 ->
  stage_ok now fpd a1 b1 c1 t t1 ->
  wp m (stage_ok now fpd a2 b2 c2 t1) ->
  (forall t2, stage_ok now fpd (a1 + a2) (b1 + b2) (c1 + c2) t t2 -> wp (k t2) Q) ->
  wp (m ≫= k) Q.
Proof.
  intros ? ? ? H1 H2 Hk. apply wp_bind. eapply wp_mono; [done|].
  intros t2 Ht2. apply Hk. by eapply stage_trans.
Qed.

Lemma flow_established_ok t p fpd :
  packet_ok p -> mid (timestamp p) fpd t ->
  wp (flow_established t p fpd) (stage_ok (timestamp p) fpd 0 1 1 t).
Proof.
  intros Hp Hmid. unfold flow_established.
  eapply stage_bind; [..|by apply stage_refl|by apply established_srt_ok|]; [lia..|]. intros t1 H1.
  eapply stage_bind; [..|exact H1|apply established_art_ok, H1|]; [lia..|]. intros t2 H2.
  pose proof (stage_trans _ _ _ _ _ 0 0 0 _ _ _ ltac:(lia) ltac:(lia) ltac:(lia) H2
                (established_flags_ok t2 p fpd (proj1 H2))) as H3.
  eapply stage_bind; [..|exact H3|apply established_counts_ok, H3; done|]; [lia..|]. intros t4 H4.
  eapply wp_mono; [apply established_cit_ok, H4|]. intros t5 H5.
  eapply stage_weaken; [..|eapply stage_trans; [..|exact H4|exact H5]]; lia.
Qed.

Lemma calculate_ok t p fpd :
  packet_ok p -> mid (timestamp p) fpd t ->
  wp (calculate t p fpd) (fun '(t', _) => stage_ok (timestamp p) fpd 1 1 1 t t').
Proof.
  intros Hp Hmid. unfold calculate. apply wp_bind.
  eapply wp_mono; [by apply is_invalid_retrans_packet_ok|].
  intros [t1 [invalid retrans]] [H1 Hretrans]. destruct invalid.
  { destruct H1 as [(Hs & Ho & Hle) H1]. cbn [wp]. eapply stage_weaken; [..|split; [|exact H1]]; [lia..|].
    by destruct fpd. }
  eapply (stage_bind _ _ _ _ _ 1 0 0); [..|exact H1| |]; [lia..| |intros t2 H2].
  { destruct (handshaking t1).
    - apply wp_bind. eapply wp_mono; [apply flow_opening_ok, H1; done|]. by intros [].
    - eapply stage_weaken; [..|apply stage_refl, H1]; lia. }
  eapply (stage_bind _ _ _ _ _ 0 1 1); [..|exact H2| |]; [lia..| |intros t3 H3].
  { destruct (handshaking t2); [|by apply flow_established_ok, H2].
    eapply stage_weaken; [..|apply stage_refl, H2]; lia. }
  destruct H3 as [Hm H3]. cbn [wp].
  assert (forall d, grows 0 0 0 (perf_data t3) d -> grows 1 1 1 (perf_data t) d) as Hd.
  { intros d Hd. eapply grows_weaken; [..|eapply grows_trans; [..|exact H3|exact Hd]]; lia. }
  destruct retrans; [destruct Hretrans as [-> ->]; [done|]|].
  - split; [done|]. apply Hd, grows_refl.
  - destruct (is_syn p) eqn:Hsyn.
    + destruct (syn_excludes p Hsyn) as [-> _]. split; [done|]. apply Hd, grows_calc_syn.
    + destruct (is_syn_ack p); (split; [done|]); apply Hd; [apply grows_calc_synack|apply grows_refl].
Qed.

Lemma update_data_ok now s p :
  packet_ok p -> now = timestamp p -> peer_ok now s ->
  wp (update_data s p) (fun s' => peer_ok (sp_timestamp s') s' /\ sp_timestamp s' = now).
Proof.
  intros (h & Hh & Hts & Hpl & _) -> (? & ? & ? & ? & ?). unfold update_data, tcp_data. rewrite Hh.
  cbn [mbind run_bind wp]. unfold fits in *.
  destruct (TcpFlags.contains _ _); (split; [split_and!|]; done || (cbn; lia)).
Qed.

Lemma is_interested_packet_ok t p :
  packet_ok p ->
  wp (is_interested_packet t p) (fun '(t', _) => exists n, t' = t <| ignored_packet_count := n |>).
Proof.
  intros (h & Hh & _). unfold is_interested_packet, tcp_data. rewrite Hh. cbn [mbind run_bind].
  assert (t = t <| ignored_packet_count := ignored_packet_count t |>) by by destruct t.
  repeat case_goal; cbn [wp]; eauto.
Qed.

(** One packet: [parse] returns, the peers stay well-formed, and at most one
    sample of each kind is added. *)
Lemma parse_ok t p fpd :
  packet_ok p -> idle t ->
  wp (parse t p fpd) (fun '(t', _) => idle t' /\ grows 1 1 1 (perf_data t) (perf_data t')).
Proof.
  intros Hp [H0 H1]. unfold parse. apply wp_bind.
  eapply wp_mono; [by apply is_interested_packet_ok|]. intros [? interested] [n ->].
  assert (grows 1 1 1 (perf_data t) (perf_data t)).
  { eapply grows_weaken; [..|apply grows_refl]; lia. }
  destruct interested; cbn [negb]; [|done].
  case_goal; [done|]. apply orb_false_iff in Heqb as [? ?]. cbn in *.
  apply wp_bind. eapply wp_mono.
  { apply calculate_ok; [done|]. destruct fpd; split_and!; try done; try lia;
      (eapply peer_ok_mono; [|done]; lia). }
  intros [t1 r] [(Hs & Ho & Hle) Hg]. apply wp_bind.
  destruct fpd; apply wp_bind; (eapply wp_mono; [by eapply update_data_ok|]); intros s' [Hs' _]; done.
Qed.
