(* ===== verification/TcpPerfSpec.v ===== *)
(** * Properties of the TCP performance metrics (flow_generator/perf/tcp.rs)

    What [TcpPerf] measures on packet traces: it never panics, the metrics stay
    within their documented bounds, and the handshake, response-time and
    retransmission measurements are the intended ones. *)

From S2P Require Import Prelude Timestamp TcpFlags MetaPacket SeqList TcpPerf.

(** ** Traces *)

Lemma idle_new a b : idle (new a b).
Proof.
  split; (split_and!; [exists []; split; [apply rep_default|apply wf_nil]|by left|done..]).
Qed.

Lemma parse_all_ok ps : forall t,
  idle t -> Forall (fun x => packet_ok x.1) ps ->
  wp (parse_all t ps) (fun t' => idle t' /\
    let n := Z.of_nat (length ps) in grows n n n (perf_data t) (perf_data t')).
Proof.
  induction ps as [|[p fpd] ps IH]; intros t Ht Hps; [by split; [|apply grows_refl]|].
  apply Forall_cons in Hps as [Hp Hps]. cbn [parse_all]. apply wp_bind.
  eapply wp_mono; [by apply parse_ok|]. intros [t1 r] [Ht1 Hg1].
  eapply wp_mono; [by apply IH|]. intros t2 [Ht2 Hg2]. split; [done|].
  replace (Z.of_nat _) with (1 + Z.of_nat (length ps)) by (cbn; lia).
  by eapply grows_trans; [lia..|done|].
Qed.

Lemma data_ok_default : data_ok 0 0 0 PerfData_default.
Proof. by vm_compute. Qed.

(** What a trace leaves in the metrics of a new flow. *)
Lemma parse_all_new ps a b :
  Forall (fun x => packet_ok x.1) ps ->
  exists t, parse_all (new a b) ps = Ret t /\ idle t
    /\ (let n := Z.of_nat (length ps) in n <= LIMIT -> data_ok n n n (perf_data t))
    /\ counters_ok (perf_data t) /\ fresh (perf_data t).
Proof.
  intros Hps. destruct (proj1 (wp_exists _ _) (parse_all_ok ps (new a b) (idle_new a b) Hps))
    as (t & Ht & Hi & Hd & Hc & Hf).
  exists t. split_and!; [done..| |by apply Hc|by apply Hf].
  intros n Hn. apply (Hd 0 0 0); [lia..|]. apply data_ok_default.
Qed.

(** C18: on every trace of TCP packets, in any order and with any header fields, [parse]
    returns: no [Timestamp] subtraction underflows, no assertion of the sequence list
    fails, and the sequence lists stay sorted and within their array. *)
Theorem parse_never_panics ps ignored invalid :
  Forall (fun x => packet_ok x.1) ps ->
  exists t, parse_all (new ignored invalid) ps = Ret t /\ idle t.
Proof. intros Hps. destruct (parse_all_new ps ignored invalid Hps) as (t & ? & ? & _). by exists t. Qed.

(** ** Export *)

(** Exported values [mx], [sm] (microseconds) and [ct] are those of [s]. *)
Definition exact (bound : Timestamp.t) (s : TimeStats) (mx sm ct : Z) : Prop :=
  mx = Timestamp.as_micros (ts_max s) /\ sm = Timestamp.as_micros (ts_sum s) /\ ct = ts_count s
  /\ mx <= Timestamp.as_micros bound.

(** [n] samples of at most 30 seconds fit a [u32] of microseconds up to 143. *)
Lemma micros32_exact x : 0 <= x <= 143 * RTT_MAX -> micros32 x = Timestamp.as_micros x.
Proof.
  destruct max_values as (-> & _). intros Hx. unfold micros32, Timestamp.as_micros.
  apply wrap_small. unfold fits, Timestamp.NANOS_IN_MICROS. split; [apply Z.div_pos; lia|].
  apply Z.div_lt_upper_bound; lia.
Qed.

Lemma stats_exact n bound s :
  n <= 143 -> bound <= RTT_MAX -> stats_ok n bound s ->
  exact bound s (micros32 (ts_max s)) (micros32 (ts_sum s)) (ts_count s)
  /\ (ts_updated s = false -> exact bound s 0 0 0).
Proof.
  intros Hn Hb (Hc & Hm & Hs & Hu). pose proof max_values as (Hr & _). rewrite Hr in Hb.
  assert (Timestamp.as_micros (ts_max s) <= Timestamp.as_micros bound) by (apply Z.div_le_mono; [done|lia]).
  split.
  - unfold exact. rewrite !micros32_exact by (rewrite Hr; nia). done.
  - intros H0%Hu. rewrite H0 in Hs. assert (ts_max s = 0 /\ ts_sum s = 0) as [Hm0 Hs0] by lia.
    unfold exact in *. rewrite Hm0, Hs0, H0 in *. by split_and!.
Qed.

(** The groups of fields each export writes. *)
Definition rtt_client_of (st : TcpPerfStats) :=
  (st_rtt_client_max st, st_rtt_client_sum st, st_rtt_client_count st).
Definition rtt_server_of (st : TcpPerfStats) :=
  (st_rtt_server_max st, st_rtt_server_sum st, st_rtt_server_count st).
Definition art_of (st : TcpPerfStats) := (st_art_max st, st_art_sum st, st_art_count st).
Definition srt_of (st : TcpPerfStats) := (st_srt_max st, st_srt_sum st, st_srt_count st).
Definition peers_of (st : TcpPerfStats) := (st_peer_0 st, st_peer_1 st).
Definition scalars_of (st : TcpPerfStats) :=
  (st_rtt st, st_syn_count st, st_synack_count st, st_retrans_syn_count st,
   st_retrans_synack_count st, st_total_retrans_count st).

(** The values exported for a [TimeStats] on a record that held zeros. *)
Definition export_of (s : TimeStats) : Z * Z * Z :=
  if ts_updated s then (micros32 (ts_max s), micros32 (ts_sum s), ts_count s) else (0, 0, 0).

Definition views (st : TcpPerfStats) :=
  (rtt_client_of st, rtt_server_of st, art_of st, srt_of st, peers_of st, scalars_of st).

Definition swap {A} (x : A * A) : A * A := (x.2, x.1).

(** What each export does to the groups, given that its own is still zero. *)
Section views.
  Context (st : TcpPerfStats) (s : TimeStats) (rc rs a sr : Z * Z * Z).
  Context (p : TcpPerfCountsPeer * TcpPerfCountsPeer) (c : Z * Z * Z * Z * Z * Z).

Ltac view_tac st s :=
  unfold export_of, export_cit, export_rtt_server, export_rtt_client, export_srt, export_art,
    views, rtt_client_of, rtt_server_of, art_of, srt_of, peers_of, scalars_of;
  destruct st, (ts_updated s); cbn; intros; simplify_eq; reflexivity.

Lemma export_cit_views : views st = (rc, rs, a, sr, p, c) ->
  views (export_cit st s) = (rc, rs, a, sr, p, c).
Proof. view_tac st s. Qed.

Lemma export_rtt_server_views : views st = (rc, (0, 0, 0), a, sr, p, c) ->
  views (export_rtt_server st s) = (rc, export_of s, a, sr, p, c).
Proof. view_tac st s. Qed.

Lemma export_rtt_client_views : views st = ((0, 0, 0), rs, a, sr, p, c) ->
  views (export_rtt_client st s) = (export_of s, rs, a, sr, p, c).
Proof. view_tac st s. Qed.

Lemma export_srt_views : views st = (rc, rs, a, (0, 0, 0), p, c) ->
  views (export_srt st s) = (rc, rs, a, export_of s, p, c).
Proof. view_tac st s. Qed.

Lemma export_art_views : views st = (rc, rs, (0, 0, 0), sr, p, c) ->
  views (export_art st s) = (rc, rs, export_of s, sr, p, c).
Proof. view_tac st s. Qed.

Lemma reverse_views : views st = ((0, 0, 0), (0, 0, 0), a, sr, p, c) ->
  views (reverse st) = ((0, 0, 0), (0, 0, 0), a, sr, swap p, c).
Proof. clear s. destruct st. cbv -[swap]. intros. by simplify_eq. Qed.

End views.

Definition peers_in (d : PerfData) : TcpPerfCountsPeer * TcpPerfCountsPeer :=
  (Build_TcpPerfCountsPeer (pd_retrans_0 d) (pd_zero_win_count_0 d),
   Build_TcpPerfCountsPeer (pd_retrans_1 d) (pd_zero_win_count_1 d)).

Lemma export_counts_views d :
  views (export_counts TcpPerfStats_default d)
  = ((0, 0, 0), (0, 0, 0), (0, 0, 0), (0, 0, 0), peers_in d,
     (micros32 (pd_rtt_full d), pd_syn d, pd_synack d, pd_retrans_syn d, pd_retrans_synack d,
      pd_retrans_sum d)).
Proof. reflexivity. Qed.

(** The record exported for data [d]. *)
Lemma update_perf_stats_views d rev :
  fresh d ->
  views (update_perf_stats d TcpPerfStats_default rev).2
  = (export_of (pd_rtt_0 d), export_of (pd_rtt_1 d),
     export_of (if rev then pd_art_0 d else pd_art_1 d),
     export_of (if rev then pd_srt_0 d else pd_srt_1 d),
     (if rev then swap (peers_in d) else peers_in d),
     (micros32 (pd_rtt_full d), pd_syn d, pd_synack d, pd_retrans_syn d, pd_retrans_synack d,
      pd_retrans_sum d)).
Proof.
  intros Hf. unfold update_perf_stats. destruct (pd_updated d) eqn:Hu; cbn [negb].
  2:{ rewrite (Hf Hu). by destruct rev. }
  destruct rev; cbn [negb snd]; apply export_cit_views, export_rtt_server_views, export_rtt_client_views;
    [apply reverse_views|]; apply export_srt_views, export_art_views;
    exact (export_counts_views (d <| pd_updated := false |>)).
Qed.

Lemma views_inv st rc rs a sr p c : views st = (rc, rs, a, sr, p, c) ->
  rtt_client_of st = rc /\ rtt_server_of st = rs /\ art_of st = a /\ srt_of st = sr
  /\ peers_of st = p /\ scalars_of st = c.
Proof. unfold views. intros. split_and!; congruence. Qed.

Lemma export_exact n bound s x :
  n <= 143 -> bound <= RTT_MAX -> stats_ok n bound s ->
  x = export_of s -> exact bound s x.1.1 x.1.2 x.2.
Proof.
  intros ? ? Hs ->. destruct (stats_exact n bound s) as [? ?]; [done..|].
  unfold export_of. destruct (ts_updated s); by auto.
Qed.


(** whatever was measured and in either direction, the exported total of
    retransmissions is the sum of those of the two sides, modulo 2^32. *)
Theorem exported_retrans_consistent ps rev ignored invalid :
  Forall (fun x => packet_ok x.1) ps ->
  exists t, parse_all (new ignored invalid) ps = Ret t /\
    let st := (copy_and_reset_data t rev).2 in
    st_total_retrans_count st = retrans_count (st_peer_0 st) +₃₂ retrans_count (st_peer_1 st)
    /\ (let '(c, s) := if rev then (st_peer_1 st, st_peer_0 st) else (st_peer_0 st, st_peer_1 st) in
        retrans_count c = pd_retrans_0 (perf_data t) /\ retrans_count s = pd_retrans_1 (perf_data t))
    /\ st_retrans_syn_count st +₃₂ st_retrans_synack_count st
       = pd_retrans_syn_0 (perf_data t) +₃₂ pd_retrans_syn_1 (perf_data t).
Proof.
  intros Hps. destruct (parse_all_new ps ignored invalid Hps) as (t & Ht & _ & _ & [Hc Hcs] & Hf).
  exists t. split; [done|]. pose proof (update_perf_stats_views (perf_data t) rev Hf) as V.
  unfold copy_and_reset_data. destruct (update_perf_stats _ _ _) as [d' st]. cbn [snd] in *.
  apply views_inv in V as (_ & _ & _ & _ & V1 & V2).
  injection V2 as _ _ _ -> -> ->. unfold peers_of in V1.
  destruct rev; injection V1 as -> ->; cbn; rewrite Hc; split_and!; try done. apply wadd_comm.
Qed.

(** ** System response time of the first packet's direction *)

Definition same_srt_0 (t t' : TcpPerf) : Prop :=
  pd_srt_0 (perf_data t') = pd_srt_0 (perf_data t).

Lemma sub_wlp {B} a b (k : Timestamp.t -> run B) Q :
  (forall d, wlp (k d) Q) -> wlp (Timestamp.sub a b ≫= k) Q.
Proof. intros Hk. unfold Timestamp.sub. case_goal; [done|apply Hk]. Qed.

Lemma invalid_retrans_srt_0 t p fpd :
  wlp (is_invalid_retrans_packet t p fpd) (fun r => same_srt_0 t r.1).
Proof.
  unfold is_invalid_retrans_packet, tcp_data. destruct (protocol_data p); [|done].
  cbn [mbind run_bind]. destruct (is_syn p).
  { by destruct (_ =? 0); [|destruct (sp_syn_transmitted _)]; destruct fpd. }
  destruct (is_syn_ack p); [by destruct (_ =? 0); [destruct (_ =? 0)|]; destruct fpd|].
  destruct (is_ack p); [done|]. destruct (negb _); [done|].
  destruct (assert_seq_number _ _ _) as [[l ty]|]; [|done]. by destruct ty, fpd.
Qed.

Lemma opening_rtt_srt_0 t p fpd : wlp (opening_rtt t p fpd) (same_srt_0 t).
Proof.
  unfold opening_rtt. case_goal; [|done]. apply sub_wlp. intros d.
  case_goal; [by destruct fpd|done].
Qed.

Lemma opening_rtt_full_srt_0 t p fpd : wlp (opening_rtt_full t p fpd) (same_srt_0 t).
Proof.
  unfold opening_rtt_full. case_goal; [|done]. apply sub_wlp. intros d. by case_goal.
Qed.

Lemma flow_opening_srt_0 t p fpd :
  wlp (flow_opening t p fpd) (fun r => same_srt_0 t r.1 /\ (is_ack p = true -> r.2 = true)).
Proof.
  unfold flow_opening. apply wlp_bind. eapply wlp_mono; [apply opening_rtt_srt_0|]. intros t1 H1.
  apply wlp_bind. eapply wlp_mono; [apply opening_rtt_full_srt_0|]. intros t2 H2.
  unfold tcp_data. destruct (protocol_data p); [|done]. cbn [mbind run_bind].
  assert (same_srt_0 t t2) as Ht2 by (unfold same_srt_0 in *; congruence).
  assert (forall s o, same_srt_0 t (set_oppo (set_same t2 fpd s) fpd o)) as Hset.
  { intros s o. unfold same_srt_0. by rewrite perf_data_set_oppo, perf_data_set_same. }
  destruct (is_syn p || is_syn_ack p); [split; [apply Hset|done]|].
  destruct (is_ack p); (split; [apply Hset|done]).
Qed.

(** A client packet reaches the SRT measurement only when it is no pure ACK. *)
Lemma flow_established_srt_0 t p fpd :
  fpd && is_ack p = false -> wlp (flow_established t p fpd) (same_srt_0 t).
Proof.
  intros Hack. unfold flow_established. apply wlp_bind.
  apply (wlp_mono _ (same_srt_0 t)).
  { unfold established_srt. case_goal; [|done]. apply sub_wlp. intros d. case_goal; [|done].
    destruct fpd; [|done]. destruct (is_ack p); [done|]. by rewrite andb_false_r in *. }
  intros t1 H1. apply wlp_bind. apply (wlp_mono _ (same_srt_0 t)).
  { unfold established_art. case_goal; [|done]. apply sub_wlp. intros d. by case_goal; [destruct fpd|]. }
  intros t2 H2. apply wlp_bind. apply (wlp_mono _ (same_srt_0 t)).
  { unfold established_counts, tcp_data. destruct (protocol_data p); [|done]. cbn [mbind run_bind].
    assert (same_srt_0 t (established_flags t2 p fpd)) as Ht2.
    { unfold established_flags, same_srt_0. repeat case_goal.
      all: by rewrite perf_data_set_oppo, perf_data_set_same. }
    destruct (_ =? 0), (_ =? TcpFlags.PSH_ACK_URG), fpd; exact Ht2. }
  intros t3 H3. unfold established_cit.
  destruct (fpd && is_psh_ack p && (1 <? payload_len p)) eqn:Hf; [|done].
  assert (fpd = true) as -> by by destruct fpd.
  destruct (sp_is_handshake_ack_packet _); [by apply sub_wlp|].
  case_goal; [by apply sub_wlp|done].
Qed.

Lemma calculate_srt_0 t p fpd : wlp (calculate t p fpd) (fun r => same_srt_0 t r.1).
Proof.
  unfold calculate. apply wlp_bind.
  assert (wlp (is_invalid_retrans_packet t p fpd) (fun r => same_srt_0 t r.1
            /\ (fpd && is_ack p = true -> handshaking r.1 = true))) as Hinv.
  { pose proof (invalid_retrans_srt_0 t p fpd) as H. destruct fpd; cbn [andb].
    2:{ eapply wlp_mono; [exact H|]. naive_solver. }
    destruct (is_ack p) eqn:Hack; [|eapply wlp_mono; [exact H|]; naive_solver].
    unfold is_invalid_retrans_packet, tcp_data. destruct (protocol_data p) eqn:Hp; [|done].
    cbn [mbind run_bind]. destruct (ack_excludes p Hack) as [-> ->]. by rewrite Hack. }
  eapply wlp_mono; [exact Hinv|]. intros [t1 [invalid retrans]] [H1 Hhs]; cbn [fst] in *.
  destruct invalid; [done|]. apply wlp_bind.
  apply (wlp_mono _ (fun t' => same_srt_0 t t' /\ (fpd && is_ack p = true -> handshaking t' = true))).
  { destruct (handshaking t1) eqn:Hh; [|by split; [|rewrite Hh]]. apply wlp_bind.
    eapply wlp_mono; [apply flow_opening_srt_0|]. intros [t2 o] [H2 Ho]; cbn in *.
    split; [unfold same_srt_0 in *; cbn; congruence|]. intros [_ ?]%andb_true_iff. by apply Ho. }
  intros t2 [H2 Hhs2]. apply wlp_bind. apply (wlp_mono _ (same_srt_0 t)).
  { destruct (handshaking t2); [done|]. cbn [negb].
    eapply wlp_mono; [apply flow_established_srt_0|].
    - by destruct (fpd && is_ack p); [discriminate Hhs2|].
    - intros t3 H3. unfold same_srt_0 in *. congruence. }
  intros t3 H3. by destruct (is_syn p), (is_syn_ack p), retrans.
Qed.

Lemma parse_srt_0 t p fpd : wlp (parse t p fpd) (fun r => same_srt_0 t r.1).
Proof.
  unfold parse. apply wlp_bind. apply (wlp_mono _ (fun r => same_srt_0 t r.1)).
  { unfold is_interested_packet, tcp_data. destruct (protocol_data p); [|done].
    cbn [mbind run_bind]. by repeat case_goal. }
  intros [t1 i] H1. destruct i; cbn [negb]; [|done]. case_goal; [done|].
  apply wlp_bind. eapply wlp_mono; [apply calculate_srt_0|]. intros [t2 r] H2. apply wlp_bind.
  assert (same_srt_0 t t2) by (unfold same_srt_0 in *; cbn in *; congruence).
  unfold update_data, tcp_data. by destruct fpd, (protocol_data p).
Qed.

Lemma parse_all_srt_0 ps : forall t, wlp (parse_all t ps) (same_srt_0 t).
Proof.
  induction ps as [|[p fpd] ps IH]; intros t; [done|]. cbn [parse_all]. apply wlp_bind.
  eapply wlp_mono; [apply parse_srt_0|]. intros [t1 r] H1.
  eapply wlp_mono; [apply IH|]. unfold same_srt_0 in *. cbn in *. congruence.
Qed.

(** A reversed flow never reports a system response time: a pure ACK in the direction of
    the first packet sets [handshaking] and is consumed by [flow_opening], so it never
    reaches the measurement of [flow_established] and [srt_0] stays empty. *)
Theorem reversed_flow_has_no_srt ps ignored invalid :
  Forall (fun x => packet_ok x.1) ps ->
  exists t, parse_all (new ignored invalid) ps = Ret t /\
    let st := (copy_and_reset_data t true).2 in
    st_srt_count st = 0 /\ st_srt_sum st = 0 /\ st_srt_max st = 0.
Proof.
  intros Hps. destruct (parse_all_new ps ignored invalid Hps) as (t & Ht & _ & _ & _ & Hf).
  exists t. split; [done|].
  pose proof (parse_all_srt_0 ps (new ignored invalid)) as H0. rewrite Ht in H0. cbn [wlp] in H0.
  pose proof (update_perf_stats_views (perf_data t) true Hf) as V.
  unfold copy_and_reset_data. destruct (update_perf_stats _ _ _) as [d' st]. cbn [snd] in *.
  apply views_inv in V as (_ & _ & _ & V & _). rewrite H0 in V.
  injection V as -> -> ->. done.
Qed.

(** ** Merging the statistics of successive reports *)

Lemma keep_max_max x y : keep_max x y = Z.max x y.
Proof. unfold keep_max. case_goal; lia. Qed.

Lemma keep_max_comm x y : keep_max x y = keep_max y x.
Proof. rewrite !keep_max_max. apply Z.max_comm. Qed.

Lemma keep_max_assoc x y z : keep_max x (keep_max y z) = keep_max (keep_max x y) z.
Proof. rewrite !keep_max_max. apply Z.max_assoc. Qed.

(** merging reports is commutative and associative (counters wrap, maxima do not), and
    turning a flow around commutes with merging, so the order in which partial reports of
    a flow are combined does not matter. *)
Theorem sequential_merge_order_irrelevant x y z :
  sequential_merge x y = sequential_merge y x
  /\ sequential_merge x (sequential_merge y z) = sequential_merge (sequential_merge x y) z
  /\ reverse (sequential_merge x y) = sequential_merge (reverse x) (reverse y)
  /\ reverse (reverse x) = x.
Proof.
  unfold sequential_merge, peer_sequential_merge. split_and!.
  - f_equal; try apply wadd_comm; try apply keep_max_comm; f_equal; apply wadd_comm.
  - cbn. f_equal; try apply wadd_assoc; try apply keep_max_assoc; f_equal; apply wadd_assoc.
  - by destruct x, y.
  - by destruct x.
Qed.

(** Every sample counts in both the maximum and the sum. *)
Definition rtt_consistent (st : TcpPerfStats) : Prop :=
  st_rtt_client_max st <= st_rtt_client_sum st /\ st_rtt_server_max st <= st_rtt_server_sum st.

(** [reverse] swaps the round-trip sums and counts of the two sides but not their maxima:
    reversing consistent statistics whose client maximum exceeds the server sum yields a
    client maximum larger than the client sum. *)
Theorem reverse_breaks_rtt_maxima st :
  rtt_consistent st -> st_rtt_server_sum st < st_rtt_client_max st ->
  ~ rtt_consistent (reverse st)
  /\ st_rtt_client_max (reverse st) = st_rtt_client_max st
  /\ st_rtt_client_sum (reverse st) = st_rtt_server_sum st.
Proof. unfold rtt_consistent. destruct st; cbn. lia. Qed.

(** ** Witnesses *)

Lemma tcp_packet_ok ts seq ack win flags scale n :
  fits 64 ts -> fits 16 n -> fits 32 seq -> fits 32 ack -> fits 16 win -> fits 8 flags -> fits 8 scale ->
  packet_ok (tcp_packet ts seq ack win flags scale n).
Proof. intros. eexists. by split_and!. Qed.

(** Handshake, request, acknowledgement, response. *)
Definition session : list (MetaPacket * bool) := [
  (tcp_packet 1000000 100 0 8192 TcpFlags.SYN 7 0, true);
  (tcp_packet 3000000 500 101 8192 TcpFlags.SYN_ACK 7 0, false);
  (tcp_packet 4000000 101 501 8192 TcpFlags.ACK 0 0, true);
  (tcp_packet 5000000 101 501 8192 TcpFlags.PSH_ACK 0 50, true);
  (tcp_packet 6000000 501 151 8192 TcpFlags.ACK 0 0, false);
  (tcp_packet 8000000 501 151 8192 TcpFlags.PSH_ACK 0 80, false)].

Lemma session_ok : Forall (fun x => packet_ok x.1) session.
Proof. repeat constructor; by apply tcp_packet_ok; vm_compute. Qed.

Lemma parse_never_panics_witness : exists t, parse_all (new 0 0) session = Ret t /\ idle t.
Proof. apply (parse_never_panics session 0 0), session_ok. Defined.


Lemma exported_retrans_consistent_witness :
  exists t, parse_all (new 0 0) (session ++ [(tcp_packet 9000000 550 151 8192 TcpFlags.PSH_ACK 0 10, false)])
      = Ret t /\ st_total_retrans_count (copy_and_reset_data t true).2 = 0 +₃₂ 1.
Proof.
  destruct (exported_retrans_consistent
    (session ++ [(tcp_packet 9000000 550 151 8192 TcpFlags.PSH_ACK 0 10, false)]) true 0 0)
    as (t & Ht & Hsum & _).
  - apply Forall_app. split; [apply session_ok|]. repeat constructor. by apply tcp_packet_ok; vm_compute.
  - exists t. split; [exact Ht|]. vm_compute in Ht. injection Ht as <-. by vm_compute.
Defined.

Lemma reversed_flow_has_no_srt_witness :
  exists t, parse_all (new 0 0) session = Ret t /\ st_srt_count (copy_and_reset_data t true).2 = 0.
Proof.
  destruct (reversed_flow_has_no_srt session 0 0 session_ok) as (t & Ht & Hs & _).
  exists t. split; [exact Ht|exact Hs].
Defined.

Lemma reverse_breaks_rtt_maxima_witness :
  let st := TcpPerfStats_default <| st_rtt_client_max := 50 |> <| st_rtt_client_sum := 50 |>
              <| st_rtt_server_max := 10 |> <| st_rtt_server_sum := 10 |> in
  rtt_consistent st /\ ~ rtt_consistent (reverse st).
Proof.
  cbn zeta. split; [by vm_compute|]. by apply reverse_breaks_rtt_maxima; vm_compute.
Defined.
