(* ===== verification/TcpPerfTraces.v ===== *)
(** * What TcpPerf measures on the traces it is built for

    The three-way handshake, a request with its acknowledgement and response,
    and a retransmitted data segment, executed symbolically through [parse]
    (flow_generator/perf/tcp.rs). *)

From S2P Require Import Prelude Timestamp TcpFlags MetaPacket SeqList TcpPerf TcpPerfSpec.

(** Packets of the kinds the measurements distinguish. *)
Inductive kind := KSyn | KSynAck | KAck | KPsh.

Definition kind_flags (k : kind) : Z :=
  match k with
  | KSyn => TcpFlags.SYN | KSynAck => TcpFlags.SYN_ACK
  | KAck => TcpFlags.ACK | KPsh => TcpFlags.PSH_ACK
  end.

Record is_packet (k : kind) (p : MetaPacket) (h : MetaPacketTcpHeader) : Prop := {
  ip_header : protocol_data p = TcpHeader h;
  ip_offset : th_data_offset h <> 0;
  ip_flags : th_flags h = kind_flags k;
  ip_len : match k with KPsh => 1 < payload_len p | _ => payload_len p = 0 end;
}.

Lemma kind_tests k p h : is_packet k p h ->
  is_syn p = (if k is KSyn then true else false)
  /\ is_syn_ack p = (if k is KSynAck then true else false)
  /\ is_ack p = (if k is KAck then true else false)
  /\ is_psh_ack p = (if k is KPsh then true else false)
  /\ (forall t, is_interested_packet t p = Ret (t, true)).
Proof.
  intros [Hh Ho Hf Hl]. unfold is_syn, is_syn_ack, is_ack, is_psh_ack, is_interested_packet, tcp_data, tcp_test.
  rewrite Hh, Hf. cbn [mbind run_bind]. apply Z.eqb_neq in Ho. rewrite Ho.
  destruct k; [rewrite Hl..|rewrite (proj2 (Z.ltb_lt _ _) Hl)];
    split_and!; try intros t; by rewrite ?Hf.
Qed.

(** ** Three-way handshake *)

Lemma adjust_rtt_keeps d max : 0 < d <= max -> adjust_rtt d max = d /\ Timestamp.is_zero d = false.
Proof. unfold adjust_rtt, Timestamp.is_zero. intros. case_goal; lia. Qed.

Lemma opening_rtt_fires t p fpd :
  let oppo := oppo_dir t fpd in
  sp_rtt_calculable (same_dir t fpd) = true -> is_reply_packet oppo p = true ->
  is_handshake_ack_packet oppo p || is_syn_ack p = true ->
  0 < sp_first_handshake_timestamp oppo < timestamp p ->
  timestamp p - sp_first_handshake_timestamp oppo <= RTT_MAX ->
  opening_rtt t p fpd
  = Ret (t <| perf_data := calc_rtt (perf_data t) (timestamp p - sp_first_handshake_timestamp oppo) fpd |>).
Proof.
  cbn zeta. intros H1 H2 H3 H4 H5. unfold opening_rtt. rewrite H1, H2, H3. cbn [andb].
  unfold Timestamp.is_zero at 1. rewrite (proj2 (Z.eqb_neq _ 0)) by lia. cbn [negb].
  rewrite Timestamp.sub_ret by lia. cbn [mbind run_bind].
  by destruct (adjust_rtt_keeps (timestamp p - sp_first_handshake_timestamp (oppo_dir t fpd)) RTT_MAX)
    as [-> ->]; [lia|].
Qed.

Lemma opening_rtt_full_fires t p fpd :
  sp_rtt_full_calculable (same_dir t fpd) = true ->
  is_sync_ack_ack_packet (oppo_dir t fpd) p = true ->
  sp_first_handshake_timestamp (same_dir t fpd) < timestamp p ->
  timestamp p - sp_first_handshake_timestamp (same_dir t fpd) <= RTT_FULL_MAX ->
  opening_rtt_full t p fpd
  = Ret (t <| perf_data := calc_rtt_full (perf_data t)
                (timestamp p - sp_first_handshake_timestamp (same_dir t fpd)) |>).
Proof.
  intros H1 H2 H3 H4. unfold opening_rtt_full. rewrite H1, H2. cbn [andb].
  rewrite Timestamp.sub_ret by lia. cbn [mbind run_bind].
  by destruct (adjust_rtt_keeps (timestamp p - sp_first_handshake_timestamp (same_dir t fpd)) RTT_FULL_MAX)
    as [-> ->]; [lia|].
Qed.

Lemma not_early p t :
  sp_timestamp (ctrl_0 t) <= timestamp p -> sp_timestamp (ctrl_1 t) <= timestamp p ->
  (timestamp p <? sp_timestamp (ctrl_0 t)) || (timestamp p <? sp_timestamp (ctrl_1 t)) = false.
Proof. lia. Qed.

Definition scale_of (k : Z) : Z :=
  if 0 <? k then Z.lor WIN_SCALE_FLAG (Z.min k WIN_SCALE_MAX) else 0.

Section handshake.
  Context (a b : Z) (p0 p1 p2 : MetaPacket) (h0 h1 h2 : MetaPacketTcpHeader).
  Context (K0 : is_packet KSyn p0 h0) (K1 : is_packet KSynAck p1 h1) (K2 : is_packet KAck p2 h2).
  Context (T0 : 0 < timestamp p0) (T1 : timestamp p0 < timestamp p1) (T2 : timestamp p1 < timestamp p2).
  Context (Tmax : timestamp p2 - timestamp p0 <= RTT_MAX).
  Context (S0 : th_seq h0 +₃₂ 1 <> 0) (S1 : th_seq h1 +₃₂ 1 <> 0).
  Context (A1 : th_ack h1 = th_seq h0 +₃₂ 1) (A2 : th_ack h2 = th_seq h1 +₃₂ 1).

Definition after_syn : TcpPerf := Build_TcpPerf
  (Build_SessionPeer SeqList_default (timestamp p0) (timestamp p0) (th_seq h0 +₃₂ 1) (th_seq h0) 1
     (th_win_size h0) (scale_of (th_win_scale h0)) true false false true false false false)
  (SessionPeer_default <| sp_rtt_calculable := true |>)
  (calc_syn PerfData_default) a b true.

Lemma syn_step : parse (new a b) p0 true = Ret (after_syn, Ok tt).
Proof.
  destruct (kind_tests _ _ _ K0) as (E1 & E2 & E3 & E4 & E5). destruct K0 as [Hh _ Hf _].
  unfold parse. rewrite E5. cbn [mbind run_bind negb]. rewrite not_early by (cbn; lia).
  unfold calculate, is_invalid_retrans_packet, tcp_data. rewrite Hh, E1.
  cbn -[flow_opening calc_syn wadd update_data].
  unfold flow_opening, opening_rtt, opening_rtt_full, tcp_data, is_handshake_ack_packet, tcp_test.
  rewrite Hh, E1, E2, E3. cbn [andb orb mbind run_bind same_dir oppo_dir]. rewrite andb_false_r.
  cbn -[calc_syn wadd update_data].
  unfold update_data, tcp_data. rewrite Hh. cbn [mbind run_bind]. rewrite Hf. unfold after_syn, scale_of.
  by destruct (0 <? th_win_scale h0).
Qed.

Definition data_synack : PerfData :=
  calc_synack (calc_rtt (calc_syn PerfData_default) (timestamp p1 - timestamp p0) false).

Definition after_synack : TcpPerf := Build_TcpPerf
  (Build_SessionPeer SeqList_default (timestamp p0) (timestamp p0) (th_seq h0 +₃₂ 1) (th_seq h0) 1
     (th_win_size h0) (scale_of (th_win_scale h0)) true false false true false true true)
  (Build_SessionPeer SeqList_default (timestamp p1) (timestamp p1) (th_seq h1 +₃₂ 1) (th_seq h1) 1
     (th_win_size h1) (scale_of (th_win_scale h1)) false false false true false false false)
  data_synack a b true.

Lemma synack_step : parse after_syn p1 false = Ret (after_synack, Ok tt).
Proof.
  destruct (kind_tests _ _ _ K1) as (E1 & E2 & E3 & E4 & E5). destruct K1 as [Hh _ Hf _].
  unfold parse. rewrite E5. cbn [mbind run_bind negb]. rewrite not_early by (cbn; lia).
  unfold calculate, is_invalid_retrans_packet, tcp_data. rewrite Hh, E1, E2.
  apply Z.eqb_neq in S0.
  cbn -[flow_opening calc_syn wadd update_data]. rewrite S0.
  cbn -[flow_opening calc_syn wadd update_data].
  unfold flow_opening. rewrite opening_rtt_fires; cbn -[wadd]; [|done| |by rewrite E2, orb_true_r|lia..].
  2:{ unfold is_reply_packet, tcp_test. rewrite Hh, A1. apply Z.eqb_refl. }
  unfold opening_rtt_full, tcp_data, is_handshake_ack_packet, tcp_test, update_data, tcp_data.
  cbn [same_dir update sp_rtt_full_calculable ctrl_1 SessionPeer_default andb mbind run_bind].
  rewrite Hh, E1, E2, E3. cbn -[wadd calc_rtt calc_syn calc_synack].
  cbn -[wadd calc_rtt calc_syn calc_synack]. rewrite Hf.
  unfold after_synack, scale_of. by destruct (0 <? th_win_scale h1).
Qed.

Definition data_ack : PerfData :=
  calc_rtt_full (calc_rtt data_synack (timestamp p2 - timestamp p1) true) (timestamp p2 - timestamp p0).

Lemma ack_step : exists t, parse after_synack p2 true = Ret (t, Ok tt) /\ perf_data t = data_ack.
Proof.
  destruct (kind_tests _ _ _ K2) as (E1 & E2 & E3 & E4 & E5). destruct K2 as [Hh _ Hf _].
  unfold parse. rewrite E5. cbn [mbind run_bind negb]. rewrite not_early by (cbn; lia).
  unfold calculate, is_invalid_retrans_packet, tcp_data. rewrite Hh, E1, E2, E3.
  cbn -[flow_opening wadd update_data data_synack]. unfold flow_opening.
  rewrite opening_rtt_fires; cbn -[wadd]; [|done| | |lia..].
  2:{ unfold is_reply_packet, tcp_test. rewrite Hh, A2. apply Z.eqb_refl. }
  2:{ unfold is_handshake_ack_packet, tcp_test. rewrite Hh, E3, A2. cbn. by rewrite Z.eqb_refl. }
  rewrite opening_rtt_full_fires; cbn -[wadd data_synack]; [|done| |lia|exact Tmax].
  2:{ unfold is_sync_ack_ack_packet, tcp_test. rewrite Hh, E3, A2. apply Z.eqb_refl. }
  unfold tcp_data, update_data, tcp_data. rewrite Hh, E1, E2, E3.
  cbn -[wadd data_synack calc_rtt calc_rtt_full is_handshake_ack_packet]. by eexists.
Qed.

End handshake.

(** A three-way handshake that completes within 30 seconds, neither side's initial
    sequence number being [2^32 - 1] (its successor is the code's "not seen" mark). *)
Definition handshake (p0 p1 p2 : MetaPacket) (h0 h1 h2 : MetaPacketTcpHeader) : Prop :=
  is_packet KSyn p0 h0 /\ is_packet KSynAck p1 h1 /\ is_packet KAck p2 h2
  /\ 0 < timestamp p0 /\ timestamp p0 < timestamp p1 /\ timestamp p1 < timestamp p2
  /\ timestamp p2 - timestamp p0 <= RTT_MAX
  /\ th_seq h0 +₃₂ 1 <> 0 /\ th_seq h1 +₃₂ 1 <> 0
  /\ th_ack h1 = th_seq h0 +₃₂ 1 /\ th_ack h2 = th_seq h1 +₃₂ 1.

Lemma rtt_micros d : 0 <= d <= RTT_MAX -> micros32 d = d / 1000.
Proof. intros. apply micros32_exact. destruct max_values as (Hr & _). rewrite Hr in *. lia. Qed.

(** C36: a three-way handshake on a new flow is measured exactly: the server side delay is
    SYN to SYN_ACK, the client side delay SYN_ACK to ACK, the full round trip SYN to
    ACK, all in microseconds, with one SYN and one SYN_ACK counted and no retransmission. *)
Theorem handshake_rtt_measured p0 p1 p2 h0 h1 h2 ignored invalid :
  handshake p0 p1 p2 h0 h1 h2 ->
  exists t, parse_all (new ignored invalid) [(p0, true); (p1, false); (p2, true)] = Ret t /\
    let st := (copy_and_reset_data t false).2 in
    rtt_server_of st = ((timestamp p1 - timestamp p0) / 1000, (timestamp p1 - timestamp p0) / 1000, 1)
    /\ rtt_client_of st = ((timestamp p2 - timestamp p1) / 1000, (timestamp p2 - timestamp p1) / 1000, 1)
    /\ st_rtt st = (timestamp p2 - timestamp p0) / 1000
    /\ st_syn_count st = 1 /\ st_synack_count st = 1 /\ st_total_retrans_count st = 0.
Proof.
  intros (K0 & K1 & K2 & T0 & T1 & T2 & Tm & S0 & S1 & A1 & A2).
  destruct (ack_step ignored invalid p0 p1 p2 h0 h1 h2) as (t & Ht & Hd); try done.
  exists t. split.
  { cbn [parse_all]. rewrite (syn_step _ _ _ h0) by done. cbn [mbind run_bind].
    rewrite (synack_step _ _ p0 p1 p2 h0 h1) by done. cbn [mbind run_bind]. by rewrite Ht. }
  unfold copy_and_reset_data. rewrite Hd.
  pose proof max_values as (Hr & _).
  pose proof (update_perf_stats_views (data_ack p0 p1 p2) false ltac:(done)) as V.
  destruct (update_perf_stats _ _ _) as [d' st]. cbn [snd] in *.
  apply views_inv in V as (V1 & V2 & _ & _ & _ & V3). rewrite V1, V2.
  injection V3 as -> -> -> _ _ ->.
  assert (forall d, 0 < d <= RTT_MAX ->
    export_of (ts_update TimeStats_default d) = (d / 1000, d / 1000, 1)) as E.
  { intros d Hdd. unfold export_of, ts_update. cbn -[micros32]. rewrite (proj2 (Z.ltb_lt 0 d)) by lia.
    unfold Timestamp.add. rewrite wadd_small by (rewrite Hr in Hdd; unfold fits; cbn; lia).
    by rewrite Z.add_0_l, rtt_micros by lia. }
  split_and!; try done; [apply E; lia..|apply rtt_micros; lia].
Qed.

(** ** Request, acknowledgement, response *)

(** A client packet leaves the server's sequence state and measurements alone. *)
Definition srv (t t' : TcpPerf) : Prop :=
  sp_seq_list (ctrl_1 t') = sp_seq_list (ctrl_1 t) /\ sp_timestamp (ctrl_1 t') = sp_timestamp (ctrl_1 t)
  /\ pd_srt_1 (perf_data t') = pd_srt_1 (perf_data t)
  /\ pd_art_1 (perf_data t') = pd_art_1 (perf_data t).

Lemma srv_trans t1 t2 t3 : srv t1 t2 -> srv t2 t3 -> srv t1 t3.
Proof. unfold srv. naive_solver congruence. Qed.

Lemma request_established t p h :
  is_packet KPsh p h ->
  wlp (flow_established t p true) (fun t' => srv t t' /\ handshaking t' = handshaking t
    /\ sp_srt_calculable (ctrl_1 t') = true /\ sp_art_calculable (ctrl_1 t') = true).
Proof.
  intros K. destruct (kind_tests _ _ _ K) as (E1 & E2 & E3 & E4 & E5). destruct K as [Hh _ Hf _].
  unfold flow_established, established_srt. rewrite E3, andb_false_r. cbn [mbind run_bind].
  apply wlp_bind. apply (wlp_mono _ (fun t' => srv t t' /\ handshaking t' = handshaking t)).
  { unfold established_art. case_goal; [|done]. apply sub_wlp. intros d. by case_goal. }
  intros t1 [H1 Hh1]. unfold established_counts, established_flags, tcp_data. rewrite Hh, E3, E4.
  cbn [mbind run_bind same_dir oppo_dir set_same set_oppo].
  assert (forall t2, srv t t2 -> handshaking t2 = handshaking t ->
    sp_srt_calculable (ctrl_1 t2) = true -> sp_art_calculable (ctrl_1 t2) = true ->
    wlp (established_cit t2 p true) (fun t' => srv t t' /\ handshaking t' = handshaking t
      /\ sp_srt_calculable (ctrl_1 t') = true /\ sp_art_calculable (ctrl_1 t') = true)) as Hcit.
  { intros t2 ? ? ? ?. unfold established_cit. cbn [same_dir oppo_dir set_same]. rewrite E4. cbn [andb].
    destruct (1 <? payload_len p); [|done].
    destruct (sp_is_handshake_ack_packet _); [by apply sub_wlp|]. case_goal; [by apply sub_wlp|done]. }
  destruct (_ =? 0), (_ =? TcpFlags.PSH_ACK_URG); by apply Hcit.
Qed.

(** The sequence check accepts the segment of [p] (it may be a retransmission). *)
Definition accepted (l : SeqList) (p : MetaPacket) (h : MetaPacketTcpHeader) : Prop :=
  exists l' ty, assert_seq_number l (th_seq h) (payload_len p) = Ret (l', ty) /\ ty <> SeqList.Error.

(** The outcome of the sequence check of a data packet. *)
Lemma data_packet_check t p h fpd :
  is_packet KPsh p h -> accepted (sp_seq_list (same_dir t fpd)) p h ->
  exists l d r, is_invalid_retrans_packet t p fpd
      = Ret ((set_same t fpd ((same_dir t fpd) <| sp_seq_list := l |>)) <| perf_data := d |>, (false, r))
    /\ (d = perf_data t \/ d = calc_retrans (perf_data t) fpd).
Proof.
  intros K (l & ty & Hty & Hne).
  destruct (kind_tests _ _ _ K) as (E1 & E2 & E3 & E4 & E5). destruct K as [Hh _ Hf Hl].
  unfold is_invalid_retrans_packet, tcp_data, has_valid_payload.
  rewrite Hh, E1, E2, E3, (proj2 (Z.ltb_lt _ _) Hl). cbn [mbind run_bind negb]. rewrite Hty.
  cbn [mbind run_bind].
  assert (forall s, set_same t fpd s = (set_same t fpd s) <| perf_data := perf_data t |>) as Hset.
  { intros s. by destruct t, fpd. }
  destruct ty; try done; eexists l, _, _.
  1: rewrite perf_data_set_same; by auto.
  all: split; [by rewrite Hset|by left].
Qed.

Lemma data_packet_opening t p h fpd :
  is_packet KPsh p h ->
  exists s o, flow_opening t p fpd = Ret (set_oppo (set_same t fpd s) fpd o, false)
    /\ s = (same_dir t fpd) <| sp_rtt_calculable := false |> <| sp_rtt_full_calculable := false |>
    /\ o = (oppo_dir t fpd) <| sp_rtt_calculable := false |>.
Proof.
  intros K. destruct (kind_tests _ _ _ K) as (E1 & E2 & E3 & E4 & E5). destruct K as [Hh _ Hf _].
  unfold flow_opening, opening_rtt, opening_rtt_full, is_sync_ack_ack_packet, is_handshake_ack_packet,
    tcp_data, tcp_test. rewrite Hh, E1, E2, E3. cbn [andb orb].
  rewrite !andb_false_r. cbn. rewrite andb_false_r. by eauto.
Qed.

Lemma request_step t p h :
  is_packet KPsh p h -> accepted (sp_seq_list (ctrl_0 t)) p h ->
  sp_timestamp (ctrl_0 t) <= timestamp p -> sp_timestamp (ctrl_1 t) <= timestamp p ->
  wlp (parse t p true) (fun r => srv t r.1 /\ handshaking r.1 = false
    /\ sp_srt_calculable (ctrl_1 r.1) = true /\ sp_art_calculable (ctrl_1 r.1) = true
    /\ sp_timestamp (ctrl_0 r.1) = timestamp p /\ sp_seq (ctrl_0 r.1) = th_seq h
    /\ sp_payload_len (ctrl_0 r.1) = payload_len p).
Proof.
  intros K Hacc Ht0 Ht1. destruct (kind_tests _ _ _ K) as (E1 & E2 & E3 & E4 & E5).
  unfold parse. rewrite E5. cbn [mbind run_bind negb]. rewrite not_early by done.
  apply wlp_bind. apply (wlp_mono _ (fun r => srv t r.1 /\ handshaking r.1 = false
    /\ sp_srt_calculable (ctrl_1 r.1) = true /\ sp_art_calculable (ctrl_1 r.1) = true)).
  - unfold calculate. destruct (data_packet_check t p h true K Hacc) as (l & d & r & -> & Hd).
    cbn [mbind run_bind]. set (t1 := update perf_data _ _).
    assert (srv t t1) as H1 by by destruct Hd as [->| ->]. clearbody t1. apply wlp_bind.
    apply (wlp_mono _ (fun t2 => srv t t2 /\ handshaking t2 = false)).
    { destruct (handshaking t1) eqn:Hhs; [|done].
      by destruct (data_packet_opening t1 p h true K) as (s & o & -> & -> & ->). }
    intros t2 [H2 Hh2]. rewrite Hh2. cbn [negb]. apply wlp_bind.
    eapply wlp_mono; [by eapply request_established|]. intros t3 (H3 & Hh3 & ? & ?).
    rewrite E1, E2. split_and!; try done; [by eapply srv_trans|by rewrite <- Hh2].
  - intros [t2 r] (? & ? & ? & ?). destruct K as [Hh _ Hf _].
    unfold update_data, tcp_data. rewrite Hh. cbn [mbind run_bind]. by rewrite Hf.
Qed.

Lemma ack_reply_step t p h :
  is_packet KAck p h ->
  sp_timestamp (ctrl_0 t) <= timestamp p -> sp_timestamp (ctrl_1 t) <= timestamp p ->
  sp_srt_calculable (ctrl_1 t) = true -> is_reply_packet (ctrl_0 t) p = true ->
  0 < timestamp p - sp_timestamp (ctrl_0 t) <= SRT_MAX ->
  wlp (parse t p false) (fun r =>
    let d := perf_data t in let d' := perf_data r.1 in
    pd_srt_1 d' = ts_update (pd_srt_1 d) (timestamp p - sp_timestamp (ctrl_0 t))
    /\ pd_art_1 d' = pd_art_1 d
    /\ handshaking r.1 = false /\ sp_timestamp (ctrl_0 r.1) = sp_timestamp (ctrl_0 t)
    /\ sp_seq_list (ctrl_1 r.1) = sp_seq_list (ctrl_1 t)
    /\ sp_art_calculable (ctrl_1 r.1) = sp_art_calculable (ctrl_1 t)
    /\ sp_timestamp (ctrl_1 r.1) = timestamp p /\ sp_seq (ctrl_1 r.1) = th_seq h
    /\ sp_payload_len (ctrl_1 r.1) = 0).
Proof.
  intros K Ht0 Ht1 Hsrt Hreply Hd. destruct (kind_tests _ _ _ K) as (E1 & E2 & E3 & E4 & E5).
  destruct K as [Hh _ Hf Hl]. unfold parse. rewrite E5. cbn [mbind run_bind negb].
  rewrite not_early by done. unfold calculate, is_invalid_retrans_packet, tcp_data.
  rewrite Hh, E1, E2, E3. cbn -[flow_established update_data].
  unfold flow_established, established_srt. cbn [same_dir oppo_dir].
  cbn [update ctrl_0 ctrl_1]. rewrite Hsrt, E3, Hreply. cbn [andb].
  rewrite Timestamp.sub_ret by lia. cbn [mbind run_bind].
  destruct (adjust_rtt_keeps _ _ Hd) as [-> ->]. cbn [negb].
  unfold established_art, has_valid_payload. rewrite Hl. change (1 <? 0) with false.
  cbn [mbind run_bind andb]. rewrite andb_false_r.
  cbn -[established_counts established_cit established_flags update_data].
  unfold established_counts, established_cit, established_flags, tcp_data. rewrite Hh, E3.
  cbn -[update_data].
  unfold update_data, tcp_data. rewrite Hh. destruct (_ =? 0), (_ =? TcpFlags.PSH_ACK_URG); cbn.
  all: rewrite Hf; cbn; by split_and!.
Qed.

Lemma response_step t p h :
  is_packet KPsh p h -> accepted (sp_seq_list (ctrl_1 t)) p h ->
  sp_timestamp (ctrl_0 t) <= timestamp p -> sp_timestamp (ctrl_1 t) <= timestamp p ->
  handshaking t = false -> sp_art_calculable (ctrl_1 t) = true ->
  th_seq h = sp_seq (ctrl_1 t) +₃₂ sp_payload_len (ctrl_1 t) ->
  0 < timestamp p - sp_timestamp (ctrl_0 t) <= ART_MAX ->
  wlp (parse t p false) (fun r =>
    let d := perf_data t in let d' := perf_data r.1 in
    pd_art_1 d' = ts_update (pd_art_1 d) (timestamp p - sp_timestamp (ctrl_0 t))
    /\ pd_srt_1 d' = pd_srt_1 d).
Proof.
  intros K Hacc Ht0 Ht1 Hhs Hart Hseq Hd. destruct (kind_tests _ _ _ K) as (E1 & E2 & E3 & E4 & E5).
  unfold parse. rewrite E5. cbn [mbind run_bind negb].
  rewrite not_early by done. unfold calculate.
  destruct (data_packet_check t p h false K Hacc) as (l & d & r & -> & Hdat).
  destruct K as [Hh _ Hf Hl]. cbn [mbind run_bind]. 
  assert (pd_art_1 d = pd_art_1 (perf_data t) /\ pd_srt_1 d = pd_srt_1 (perf_data t)) as [Ha Hs].
  { by destruct Hdat as [->| ->]. }
  clear Hdat. cbn -[flow_established update_data]. rewrite Hhs. cbn -[flow_established update_data].
  unfold flow_established, established_srt. rewrite E3, andb_false_r. cbn [mbind run_bind].
  unfold established_art, has_valid_payload, is_next_packet, tcp_test.
  cbn [same_dir oppo_dir set_same update ctrl_0 ctrl_1 sp_art_calculable sp_seq sp_payload_len perf_data].
  rewrite Hart, Hh, Hseq, Z.eqb_refl, (proj2 (Z.ltb_lt _ _) Hl). cbn [andb].
  rewrite Timestamp.sub_ret by lia. cbn [mbind run_bind].
  destruct (adjust_rtt_keeps _ _ Hd) as [-> ->]. cbn [negb].
  unfold established_counts, established_cit, established_flags, tcp_data, update_data, tcp_data.
  rewrite Hh, E1, E2, E3, E4. cbn -[calc_zero_win calc_psh_urg].
  destruct (_ =? 0), (_ =? TcpFlags.PSH_ACK_URG); cbn; rewrite Hhs; cbn;
    by rewrite ?Ha, ?Hs.
Qed.


(** ** Retransmission and rejection *)

(** The retransmission counters of a flow. *)
Definition retrans_of (t : TcpPerf) : Z * Z * Z :=
  let d := perf_data t in (pd_retrans_0 d, pd_retrans_1 d, pd_retrans_sum d).

Lemma established_retrans t p h fpd :
  is_packet KPsh p h -> wlp (flow_established t p fpd) (fun t' => retrans_of t' = retrans_of t).
Proof.
  intros K. destruct (kind_tests _ _ _ K) as (E1 & E2 & E3 & E4 & E5). destruct K as [Hh _ Hf _].
  unfold flow_established, established_srt. rewrite E3, andb_false_r. cbn [mbind run_bind].
  apply wlp_bind. apply (wlp_mono _ (fun t' => retrans_of t' = retrans_of t)).
  { unfold established_art. case_goal; [|done]. apply sub_wlp. intros d. by case_goal; destruct fpd. }
  intros t1 H1. unfold established_counts, established_flags, tcp_data. rewrite Hh, E3, E4.
  cbn [mbind run_bind].
  assert (forall t2, retrans_of t2 = retrans_of t ->
    wlp (established_cit t2 p fpd) (fun t' => retrans_of t' = retrans_of t)) as Hcit.
  { intros t2 ?. unfold established_cit. destruct fpd; [|done]. rewrite E4. cbn [andb].
    destruct (1 <? payload_len p); [|done].
    destruct (sp_is_handshake_ack_packet _); [by apply sub_wlp|]. case_goal; [by apply sub_wlp|done]. }
  destruct (_ =? 0), (_ =? TcpFlags.PSH_ACK_URG); apply Hcit; by destruct fpd.
Qed.

(** a data packet whose first byte lies strictly inside a segment recorded for its
    direction, away from the sequence number wrap-around, is reported to the caller as a
    retransmission and counted once for its direction and once in the total. *)
Theorem retransmission_reported t p h fpd L b :
  idle t -> packet_ok p -> is_packet KPsh p h ->
  sp_timestamp (ctrl_0 t) <= timestamp p -> sp_timestamp (ctrl_1 t) <= timestamp p ->
  rep (sp_seq_list (same_dir t fpd)) L -> wf L -> b ∈ L ->
  SEQ_NUMBER_LOW_THRESHOLD <= th_seq h <= SEQ_NUMBER_HIGH_THRESHOLD ->
  seq b < th_seq h < fin b ->
  exists t', parse t p fpd = Ret (t', Err RetransPacket) /\
    let '(r0, r1, sum) := retrans_of t in
    retrans_of t' = (if fpd then r0 +₃₂ 1 else r0, if fpd then r1 else r1 +₃₂ 1, sum +₃₂ 1).
Proof.
  intros Hi Hp K T0 T1 Hrep Hwf Hb Hmid Hin.
  destruct (kind_tests _ _ _ K) as (E1 & E2 & E3 & E4 & E5).
  assert (assert_seq_number (sp_seq_list (same_dir t fpd)) (th_seq h) (payload_len p)
          = Ret (sp_seq_list (same_dir t fpd), Retrans)) as Hseq.
  { destruct Hp as (h' & Hh' & _ & Hlen & _). pose proof (ip_len _ _ _ K) as Hl. cbn in Hl.
    apply (assert_seq_number_inside _ L b); try done. unfold fits in Hlen. lia. }
  set (t0 := t <| perf_data := calc_retrans (perf_data t) fpd |>).
  assert (is_invalid_retrans_packet t p fpd = Ret (t0, (false, true))) as Hinv.
  { unfold is_invalid_retrans_packet, tcp_data, has_valid_payload. destruct K as [Hh _ _ Hl].
    rewrite Hh, E1, E2, E3, (proj2 (Z.ltb_lt _ _) Hl). cbn [mbind run_bind negb]. rewrite Hseq.
    by destruct t as [[] [] ? ? ? ?], fpd. }
  assert (wlp (parse t p fpd) (fun r => r.2 = Err RetransPacket /\ retrans_of r.1 = retrans_of t0)) as Hw.
  { unfold parse. rewrite E5. cbn [mbind run_bind negb]. rewrite not_early by done.
    apply wlp_bind. apply (wlp_mono _ (fun r => r.2 = true /\ retrans_of r.1 = retrans_of t0)).
    - unfold calculate. rewrite Hinv. cbn [mbind run_bind]. apply wlp_bind.
      apply (wlp_mono _ (fun t1 => retrans_of t1 = retrans_of t0)).
      { destruct (handshaking t0); [|done].
        destruct (data_packet_opening t0 p h fpd K) as (s & o & -> & _). by destruct fpd. }
      intros t1 H1. apply wlp_bind. apply (wlp_mono _ (fun t2 => retrans_of t2 = retrans_of t1)).
      { destruct (handshaking t1); [done|]. by eapply established_retrans. }
      intros t2 H2. rewrite E1, E2. cbn. split; [done|]. by rewrite H2.
    - intros [t1 r] [Hr H1]. cbn in Hr. subst r. unfold update_data, tcp_data. rewrite (ip_header _ _ _ K).
      by destruct fpd. }
  pose proof (parse_ok t p fpd Hp Hi) as Hok. destruct (parse t p fpd) as [[t' r]|]; [|done].
  destruct Hw as [Hr Ht']. cbn in Hr. subst r. exists t'. split; [done|].
  cbn in Ht'. rewrite Ht'. by destruct fpd.
Qed.

(** a packet older than the last packet of either direction is rejected as such: the
    flow's measurements and both peers are untouched and one invalid packet is counted. *)
Theorem early_packet_rejected t p h k fpd :
  is_packet k p h ->
  timestamp p < sp_timestamp (ctrl_0 t) \/ timestamp p < sp_timestamp (ctrl_1 t) ->
  parse t p fpd = Ret (t <| invalid_packet_count := invalid_packet_count t +₆₄ 1 |>,
                       Err InvalidPacketTimestamp).
Proof.
  intros K Hearly. destruct (kind_tests _ _ _ K) as (_ & _ & _ & _ & E5).
  unfold parse. rewrite E5. cbn [mbind run_bind negb].
  by rewrite (proj2 (orb_true_iff _ _)) by lia.
Qed.

(** ** Window scaling *)

(** with the window scales [TcpPerf] can hold, the scaled window is the advertised one
    times a power of two below 2^15, it always fits the [u32] it is shifted in, and a
    zero window is reported exactly for an advertised window of zero. *)
Theorem scaled_window_exact now same oppo win :
  peer_ok now same -> fits 16 win ->
  exists k, 0 <= k <= WIN_SCALE_MAX /\ scaled_window same oppo win = win * 2 ^ k
    /\ fits 32 (scaled_window same oppo win)
    /\ (scaled_window same oppo win = 0 <-> win = 0).
Proof.
  intros (_ & Hscale & _) Hw. unfold WIN_SCALE_MAX, fits in *.
  assert (0 <= Z.land (sp_win_scale same) WIN_SCALE_MASK <= 14) as Hk.
  { unfold WIN_SCALE_MASK. destruct Hscale as [->|(k & Hk & ->)]; [done|].
    unfold WIN_SCALE_MAX in Hk.
    assert (k ∈ [1;2;3;4;5;6;7;8;9;10;11;12;13;14]) as Hin by (rewrite !elem_of_cons; lia).
    repeat (apply elem_of_cons in Hin as [->|Hin]; [by vm_compute|]). by apply elem_of_nil in Hin. }
  set (k := Z.land _ _) in *. unfold scaled_window.
  case_goal; [exists k|exists 0; cbn; lia].
  fold k. assert (1 <= 2 ^ k <= 2 ^ 14) as Hp.
  { split; [pose proof (Z.pow_pos_nonneg 2 k); lia|apply Z.pow_le_mono_r; lia]. }
  unfold wshl. rewrite Z.shiftl_mul_pow2 by lia. rewrite wrap_small by (unfold fits; nia).
  split_and!; nia.
Qed.

(** ** Witnesses *)

Ltac packet_tac := split; [done|done|done|by vm_compute].

Lemma handshake_rtt_measured_witness :
  exists t, parse_all (new 0 0)
    [(tcp_packet 1000000 100 0 8192 TcpFlags.SYN 7 0, true);
     (tcp_packet 3000000 500 101 8192 TcpFlags.SYN_ACK 7 0, false);
     (tcp_packet 4000000 101 501 8192 TcpFlags.ACK 0 0, true)] = Ret t
    /\ rtt_client_of (copy_and_reset_data t false).2 = (1000, 1000, 1).
Proof.
  eassert (handshake (tcp_packet 1000000 100 0 8192 TcpFlags.SYN 7 0)
    (tcp_packet 3000000 500 101 8192 TcpFlags.SYN_ACK 7 0)
    (tcp_packet 4000000 101 501 8192 TcpFlags.ACK 0 0) _ _ _) as H.
  { split_and!; [packet_tac..| | | | | | | |]; by vm_compute. }
  destruct (handshake_rtt_measured _ _ _ _ _ _ 0 0 H) as (t & Ht & _ & Hc & _).
  exists t. split; [exact Ht|exact Hc].
Defined.

Definition request : MetaPacket := tcp_packet 5000000 101 501 8192 TcpFlags.PSH_ACK 0 50.
Definition reply_ack : MetaPacket := tcp_packet 6000000 501 151 8192 TcpFlags.ACK 0 0.
Definition response : MetaPacket := tcp_packet 8000000 501 151 8192 TcpFlags.PSH_ACK 0 80.


(** A flow that recorded the client segment [2^30, 2^30 + 100). *)
Definition recorded : SeqSegment := {| seq := 2 ^ 30; len := 100 |}.
Definition recorded_flow : TcpPerf := (new 0 0) <| ctrl_0 :=
  SessionPeer_default <| sp_seq_list :=
    {| seq_list := recorded :: replicate 15 SeqSegment_default; seq_list_len := 1 |} |> |>.

Lemma recorded_rep : rep (sp_seq_list (ctrl_0 recorded_flow)) [recorded].
Proof. split; [done|]. by exists (replicate 15 SeqSegment_default). Qed.

Lemma recorded_wf : wf [recorded].
Proof. by apply wf_singleton. Qed.

Lemma recorded_idle : idle recorded_flow.
Proof.
  split; [|apply (idle_new 0 0)].
  split_and!; [exists [recorded]; split; [apply recorded_rep|apply recorded_wf]|by left|done..].
Qed.

Lemma retransmission_reported_witness :
  exists t', parse recorded_flow (tcp_packet 5 (2 ^ 30 + 10) 0 0 TcpFlags.PSH_ACK 0 20) true
    = Ret (t', Err RetransPacket) /\ retrans_of t' = (1, 0, 1).
Proof.
  destruct (retransmission_reported recorded_flow (tcp_packet 5 (2 ^ 30 + 10) 0 0 TcpFlags.PSH_ACK 0 20)
    (Build_MetaPacketTcpHeader (2 ^ 30 + 10) 0 0 0 TcpFlags.PSH_ACK 5 0 false None) true [recorded] recorded)
    as (t' & Ht & Hr).
  - apply recorded_idle.
  - by apply tcp_packet_ok; vm_compute.
  - packet_tac.
  - by vm_compute.
  - by vm_compute.
  - apply recorded_rep.
  - apply recorded_wf.
  - by left.
  - by vm_compute.
  - by vm_compute.
  - exists t'. split; [exact Ht|exact Hr].
Defined.

Lemma early_packet_rejected_witness :
  let t := (new 0 0) <| ctrl_1 := SessionPeer_default <| sp_timestamp := 10 |> |> in
  exists t', parse t (tcp_packet 5 1 0 0 TcpFlags.ACK 0 0) true = Ret (t', Err InvalidPacketTimestamp)
    /\ invalid_packet_count t' = 1.
Proof.
  cbn zeta. eexists. split; [|shelve].
  eapply (early_packet_rejected _ _ _ KAck); [packet_tac|right; by vm_compute].
  Unshelve. by vm_compute.
Defined.

Lemma scaled_window_exact_witness :
  exists k, 0 <= k <= WIN_SCALE_MAX
    /\ scaled_window (SessionPeer_default <| sp_win_scale := 135 |>)
         (SessionPeer_default <| sp_win_scale := 129 |>) 512 = 512 * 2 ^ k.
Proof.
  destruct (scaled_window_exact 0 (SessionPeer_default <| sp_win_scale := 135 |>)
    (SessionPeer_default <| sp_win_scale := 129 |>) 512) as (k & Hk & He & _).
  - split_and!; try done; [exists []; split; [apply rep_default|apply wf_nil]|].
    right. exists 7. by vm_compute.
  - by vm_compute.
  - exists k. split; [exact Hk|exact He].
Defined.
