(* ===== verification/PacketSafety.v ===== *)
(** * The packet parser stays inside the packet

    Every stage of [update_fields] on any bytes: the reads are in range except
    for the two that the code does not guard, and the header sizes recorded in
    the [MetaPacket] fit the packet. *)

From S2P Require Import Prelude Timestamp TcpFlags Bytes Consts TapPort MetaPacket PacketParse.

(** ** Reads in range *)

Section reads.
Context (packet : bytes) (Hb : bytes_ok packet).
Context {A : Type} (B : Prop) (Q : A -> Prop).

Lemma wpe_index i f : 0 <= i < len packet ->
  (forall b, byte_ok b -> packet !! Z.to_nat i = Some b -> wpe B (f b) Q) -> wpe B (index packet i ≫= f) Q.
Proof.
  intros Hi Hf. destruct (index_ret packet i Hi) as (b & E & Hl). rewrite E. apply Hf; [by eapply index_ok|done].
Qed.

Lemma u16_at_ret i : 0 <= i -> i + 2 <= len packet -> exists v, u16_at packet i = Ret v /\ fits 16 v.
Proof.
  intros Hi Hl. unfold u16_at. rewrite slice_from_ret by lia. cbn [mbind run_bind].
  pose proof (len_drop packet i ltac:(lia)) as Hd. assert (bytes_ok (drop (Z.to_nat i) packet)) as Hok by by apply Forall_drop.
  destruct (drop _ _) as [|a [|b r]]; [unfold len in *; cbn in Hd; lia..|]. eexists. split; [done|].
  apply Forall_cons in Hok as [Ha [Hbb _]%Forall_cons]. unfold byte_ok, fits in *. lia.
Qed.

Lemma u32_at_ret i : 0 <= i -> i + 4 <= len packet -> exists v, u32_at packet i = Ret v /\ fits 32 v.
Proof.
  intros Hi Hl. unfold u32_at. rewrite slice_from_ret by lia. cbn [mbind run_bind].
  pose proof (len_drop packet i ltac:(lia)) as Hd. assert (bytes_ok (drop (Z.to_nat i) packet)) as Hok by by apply Forall_drop.
  destruct (drop _ _) as [|a [|b [|c [|d r]]]]; [unfold len in *; cbn in Hd; lia..|]. eexists. split; [done|].
  apply Forall_cons in Hok as [Ha [Hbb [Hc [Hdd _]%Forall_cons]%Forall_cons]%Forall_cons]. unfold byte_ok, fits in *. lia.
Qed.

Lemma wpe_u16 i f : 0 <= i -> i + 2 <= len packet -> (forall v, fits 16 v -> wpe B (f v) Q) -> wpe B (u16_at packet i ≫= f) Q.
Proof. intros Hi Hl Hf. destruct (u16_at_ret i Hi Hl) as (v & -> & Hv). by apply Hf. Qed.

Lemma wpe_u32 i f : 0 <= i -> i + 4 <= len packet -> (forall v, fits 32 v -> wpe B (f v) Q) -> wpe B (u32_at packet i ≫= f) Q.
Proof. intros Hi Hl Hf. destruct (u32_at_ret i Hi Hl) as (v & -> & Hv). by apply Hf. Qed.

Lemma slice_ret i j : 0 <= i -> i <= j -> j <= len packet ->
  exists s, slice packet i j = Ret s /\ len s = j - i /\ bytes_ok s.
Proof.
  intros. unfold slice. rewrite (proj2 (andb_true_iff _ _)) by lia. eexists. split; [done|]. split.
  - pose proof (len_drop packet i ltac:(lia)) as Hd. unfold len in *. rewrite length_take. lia.
  - by apply Forall_take, Forall_drop.
Qed.

Lemma wpe_slice i j f : 0 <= i -> i <= j -> j <= len packet ->
  (forall s, len s = j - i -> bytes_ok s -> wpe B (f s) Q) -> wpe B (slice packet i j ≫= f) Q.
Proof. intros H1 H2 H3 Hf. destruct (slice_ret i j H1 H2 H3) as (s & -> & Hl & Hs). by apply Hf. Qed.

Lemma wpe_ipv4 i f : 0 <= i -> i + 4 <= len packet -> (forall v, wpe B (f (V4 v)) Q) -> wpe B (ipv4_at packet i ≫= f) Q.
Proof.
  intros Hi Hl Hf. unfold ipv4_at. destruct (slice_ret i (i + IPV4_ADDR_LEN)) as (s & -> & Hs & _);
    [lia|unfold IPV4_ADDR_LEN; lia..|]. cbn [mbind run_bind].
  destruct (read_u32_be_ret s) as [v Hv]; [rewrite Hs; unfold IPV4_ADDR_LEN; lia|]. setoid_rewrite Hv. apply Hf.
Qed.

Lemma wpe_ipv6 i f : 0 <= i -> i + 16 <= len packet ->
  (forall s, len s = 16 -> wpe B (f (V6 s)) Q) -> wpe B (ipv6_at packet i ≫= f) Q.
Proof.
  intros Hi Hl Hf. unfold ipv6_at. destruct (slice_ret i (i + IPV6_ADDR_LEN)) as (s & -> & Hs & _);
    [lia|unfold IPV6_ADDR_LEN; lia..|]. cbn [mbind run_bind]. apply Hf. rewrite Hs. unfold IPV6_ADDR_LEN. lia.
Qed.

End reads.

Section stages.
Context {N : PnetNumbers} (packet : bytes) (Hb : bytes_ok packet) (Hlen : len packet < 2 ^ 16).

Definition header_ok (h : MetaPacketTcpHeader) : Prop :=
  fits 32 (th_seq h) /\ fits 32 (th_ack h) /\ fits 16 (th_win_size h) /\ fits 8 (th_flags h)
  /\ fits 8 (th_data_offset h) /\ fits 8 (th_win_scale h).

(** No ICMP data was written yet. *)
Definition tcp_state (m : MetaPacket) : Prop := exists h, protocol_data m = TcpHeader h /\ header_ok h.

(** What the option loops leave alone. *)
Definition layout_of (m : MetaPacket) : HeaderType * Z * Z * Z * Z * Z * IpAddr :=
  (header_type m, l2_l3_opt_size m, l4_opt_size m, packet_len m, payload_len m, timestamp m, src_ip (lookup_key m)).

Definition keeps (m m' : MetaPacket) : Prop := tcp_state m' /\ layout_of m' = layout_of m.

Lemma keeps_refl m : tcp_state m -> keeps m m.
Proof. done. Qed.

Lemma keeps_trans m m' m'' : keeps m m' -> keeps m' m'' -> keeps m m''.
Proof. intros [_ H1] [? H2]. split; [done|]. by rewrite H2. Qed.

(** A TCP address option that reaches behind the packet. *)
Definition toa_truncated : Prop :=
  exists i, 54 <= i /\ (packet !! Z.to_nat i = Some TCP_OPT_ADDRESS_HUAWEI \/ packet !! Z.to_nat i = Some TCP_OPT_ADDRESS_IPVS)
    /\ packet !! Z.to_nat (i + 1) = Some TCP_TOA_LEN /\ len packet < i + TCP_TOA_LEN.

(** ** TCP options *)

Lemma option_keeps m fl f : tcp_state m -> (forall h, header_ok h -> header_ok (f h)) -> keeps m (with_tcp (or_flag m fl) f).
Proof.
  intros (h & Hp & Hh) Hf. unfold with_tcp, or_flag. cbn. rewrite Hp. split; [|done]. exists (f h). split; [done|by apply Hf].
Qed.

Lemma toa_option_ok m offset b : 54 <= offset -> byte_ok b -> tcp_state m ->
  packet !! Z.to_nat (offset + 1) = Some b ->
  (packet !! Z.to_nat offset = Some TCP_OPT_ADDRESS_HUAWEI \/ packet !! Z.to_nat offset = Some TCP_OPT_ADDRESS_IPVS) ->
  wpe toa_truncated (toa_option m packet offset (Z.max b 2)) (keeps m).
Proof.
  intros Ho Hbb Hm H1 H0. unfold toa_option. destruct (Z.max b 2 =? TCP_TOA_LEN) eqn:E; [|done].
  assert (b = TCP_TOA_LEN) as -> by (unfold TCP_TOA_LEN in *; lia).
  destruct (Z.le_gt_cases (offset + TCP_TOA_LEN) (len packet)) as [Hle|Hgt].
  - unfold TCP_TOA_LEN, TCP_TOA_PORT_OFFSET, TCP_TOA_IP_OFFSET in *.
    apply wpe_u16; [done|lia..|]. intros port _. by apply wpe_u32; [done|lia..|].
  - assert toa_truncated as Ht by (by exists offset).
    destruct (u16_at _ _); [|done]. cbn [mbind run_bind]. by destruct (u32_at _ _).
Qed.

Lemma tcp_opt_loop_ok n payload_offset : payload_offset <= len packet ->
  forall offset m, 54 <= offset -> payload_offset - offset <= Z.of_nat n -> tcp_state m ->
  wpe toa_truncated (tcp_opt_loop n packet payload_offset offset m) (keeps m).
Proof.
  intros Hp. induction n as [|n IH]; intros offset m Ho Hn Hm; cbn [tcp_opt_loop];
    (destruct (Z.ltb_spec (offset + 1) payload_offset) as [Hlt|]; [|done]); [lia|].
  assert (forall offset' m', offset + 1 <= offset' -> keeps m m' ->
    wpe toa_truncated (tcp_opt_loop n packet payload_offset offset' m') (keeps m)) as Hrec.
  { intros offset' m' Ho' [Hm' Hl']. eapply wpe_mono; [apply IH; [lia|lia|done]|done|]. intros m'' Hk.
    eapply keeps_trans; [|exact Hk]. done. }
  clear IH. apply wpe_index; [done|lia|]. intros b Hbb Hb1. apply wpe_index; [done|lia|]. intros k _ Hk.
  unfold TCP_OPT_MSS_LEN, TCP_OPT_WIN_SCALE_LEN. unfold byte_ok, fits in Hbb.
  destruct (k =? opt_EOL); [done|]. destruct (k =? opt_NOP); [by apply Hrec; [lia|]|].
  destruct (k =? opt_MSS).
  { destruct (Z.ltb_spec payload_offset (offset + 4)); [done|]. apply wpe_slice; [done|lia..|]. intros s Hs _.
    destruct (read_u16_be_ret s) as [v ->]; [lia|]. apply Hrec; [lia|]. by apply option_keeps. }
  destruct (k =? opt_WSCALE).
  { destruct (Z.ltb_spec payload_offset (offset + 3)); [done|]. apply wpe_index; [done|lia|]. intros w Hw _.
    apply Hrec; [lia|]. apply option_keeps; [done|]. intros h Hh. destruct Hh as (?&?&?&?&?&?). by split_and!. }
  destruct (k =? opt_SACK_PERMITTED); [by apply Hrec; [lia|]; apply option_keeps|].
  destruct (k =? opt_SACK).
  { destruct (Z.ltb_spec payload_offset (offset + Z.max b 2)); [done|]. destruct (32 <? _); [done|].
    apply wpe_slice; [done|lia..|]. intros s _ _. apply Hrec; [lia|]. by apply option_keeps. }
  destruct ((k =? TCP_OPT_ADDRESS_HUAWEI) || (k =? TCP_OPT_ADDRESS_IPVS)) eqn:E; [|by apply Hrec; [lia|]].
  apply wpe_bind. eapply wpe_mono; [apply toa_option_ok; [done|done|done|done|]|done|].
  - apply orb_true_iff in E as [->%Z.eqb_eq| ->%Z.eqb_eq]; [by left|by right].
  - intros m' Hm'. by apply Hrec; [lia|].
Qed.

Lemma update_tcp_opt_ok m size : HeaderType.min_packet_size (header_type m) = Ret size ->
  54 <= size + l2_l3_opt_size m -> tcp_state m -> wpe toa_truncated (update_tcp_opt m packet) (keeps m).
Proof.
  intros Hs Ho Hm. unfold update_tcp_opt. rewrite Hs. cbn [mbind run_bind]. pose proof Hm as (h & -> & _).
  apply tcp_opt_loop_ok; [lia|done| |done]. unfold len. lia.
Qed.

(** ** IPv6 extension headers *)

Definition ip6_end (orig : Z) (m : MetaPacket) (r : MetaPacket * option (Z * Z)) : Prop :=
  keeps m r.1 /\ match r.2 with Some (p, o) => p ∈ packet /\ orig <= o <= len packet | None => True end.

Lemma ip6_opt_loop_ok n orig : 0 <= orig -> forall m p o s, tcp_state m -> p ∈ packet -> orig <= o -> 0 <= s -> o + s = len packet ->
  s < Z.of_nat n -> wp (ip6_opt_loop n packet m p o s) (ip6_end orig m).
Proof.
  intros Ho. induction n as [|n IH]; intros m p o s Hm Hp Hoo Hs Hos Hn; [lia|]. cbn [ip6_opt_loop].
  set (m1 := m <| offset_ipv6_last_option := wrap 16 o |>).
  assert (forall m' p' o' s', keeps m m' -> p' ∈ packet -> o + 8 <= o' -> 0 <= s' -> o' + s' = len packet ->
    wp (ip6_opt_loop n packet m' p' o' s') (ip6_end orig m)) as Hrec.
  { intros m' p' o' s' [Hm' Hl'] Hp' Ho' Hs' Hos'. eapply wp_mono; [apply IH; [done|done|lia|lia|done|lia]|].
    intros [m'' r] [Hk Hr]. split; [|done]. by eapply keeps_trans. }
  assert (forall i, 0 <= i < len packet -> exists b, index packet i = Ret b /\ byte_ok b /\ b ∈ packet) as Hi.
  { intros i Hi. destruct (index_ret packet i Hi) as (b & E & Hl). exists b. split; [done|].
    split; [by eapply index_ok|by eapply list_elem_of_lookup_2]. }
  clear IH. destruct (p =? IpProtocol.AH).
  { destruct (Z.ltb_spec s 2); [done|]. destruct (Hi o) as (b & -> & _ & Hbp); [lia|]. cbn [mbind run_bind].
    destruct (Hi (o + 1)) as (l & -> & Hl & _); [lia|]. cbn [mbind run_bind]. unfold byte_ok, fits in Hl.
    destruct (Z.ltb_spec (s - (l + 2) * 4) 0); [done|]. by apply Hrec; [done|done|lia..]. }
  destruct ((p =? IpProtocol.IPV6_DESTINATION) || (p =? IpProtocol.IPV6_HOP_BY_HOP) || (p =? IpProtocol.IPV6_ROUTING)).
  { destruct (Z.ltb_spec (s - 8) 0); [done|]. destruct (Hi o) as (b & -> & _ & Hbp); [lia|]. cbn [mbind run_bind].
    destruct (Hi (o + 1)) as (l & -> & Hl & _); [lia|]. cbn [mbind run_bind]. unfold byte_ok, fits in Hl.
    destruct (Z.ltb_spec (s - 8 - l * 8) 0); [done|]. by apply Hrec; [done|done|lia..]. }
  destruct (p =? IpProtocol.IPV6_FRAGMENT).
  { destruct (Z.ltb_spec (s - 8) 0); [done|]. destruct (Hi o) as (b & -> & _ & Hbp); [lia|]. cbn [mbind run_bind].
    by apply Hrec; [done|done|lia..]. }
  destruct (p =? IpProtocol.ICMPV6); [split; [done|split; [done|lia]]|].
  destruct (p =? IpProtocol.ESP); [|split; [done|split; [done|lia]]].
  split; [done|]. split; [done|]. rewrite wrap_small by (unfold fits; lia). rewrite wadd_small by (unfold fits; lia). lia.
Qed.

Lemma update_ip6_opt_ok m l2 : 0 <= l2 -> ETH_HEADER_SIZE + IPV6_HEADER_SIZE + l2 <= len packet -> tcp_state m ->
  wp (update_ip6_opt m packet l2) (fun '(m', (p, o)) => keeps m m' /\ p ∈ packet
    /\ 0 <= o <= len packet - (ETH_HEADER_SIZE + IPV6_HEADER_SIZE + l2)).
Proof.
  unfold update_ip6_opt, IPV6_PROTO_OFFSET, ETH_HEADER_SIZE, IPV6_HEADER_SIZE. intros Hl2 Hl Hm.
  destruct (index_ret packet (14 + 6 + l2)) as (b & Eb & Hlk); [lia|]. apply list_elem_of_lookup_2 in Hlk.
  rewrite Eb. cbn [mbind run_bind].
  assert (tcp_state (m <| next_header := b |>)) as Hm1 by done.
  pose proof (ip6_opt_loop_ok (S (length packet)) (14 + 40 + l2) ltac:(lia) (m <| next_header := b |>) b (14 + 40 + l2)
    (len packet - (14 + 40 + l2)) Hm1 Hlk ltac:(lia) ltac:(lia) ltac:(lia) ltac:(unfold len; lia)) as Hw.
  destruct (ip6_opt_loop _ _ _ _ _ _) as [[m' [[p o]|]]|]; [..|done]; destruct Hw as [[Hk1 Hk2] Hr]; cbn [fst snd] in *.
  - cbn [mbind run_bind]. destruct Hr as [Hp Ho]. split; [by split|]. split; [done|].
    rewrite wsub_small by (unfold fits; lia). lia.
  - cbn [mbind run_bind]. split; [by split|]. split; [done|lia].
Qed.

(** ** Ethernet *)

(** What the stages carry along: the time stamp, no transport header yet. *)
Definition carried (ts : Z) (m : MetaPacket) : Prop := tcp_state m /\ timestamp m = ts /\ l4_opt_size m = 0.

(** Behind an ethernet header with [tag] bytes of VLAN tags. *)
Definition l2_ok (ts tag s : Z) (m : MetaPacket) : Prop :=
  carried ts m /\ 0 <= tag <= 8 /\ 0 <= s /\ 14 + tag + s = len packet.

Lemma parse_eth_ok ts m : carried ts m ->
  wp (parse_eth m packet (len packet)) (fun '(m', c) => match c with
    | Return r => r = Err ParsePacketFailed /\ len packet < 22 /\ timestamp m' = ts
    | Next (_, tag, s) => l2_ok ts tag s m'
    end).
Proof.
  intros Hm. unfold parse_eth, VLAN_HEADER_SIZE, FIELD_OFFSET_ETH_TYPE, ETH_TYPE_LEN. cbn [HeaderType.min_header_size mbind run_bind].
  pose proof (len_nonneg packet). destruct (Z.ltb_spec (len packet - 14) 0); [split_and!; [done|lia|apply Hm]|].
  destruct (u16_at_ret packet Hb 12) as (e & Hu & _); [lia..|]. setoid_rewrite Hu. cbn [mbind run_bind].
  destruct (e =? EthernetType.DOT1Q); [|split_and!; done || lia].
  destruct (Z.ltb_spec (len packet - 14 - 4) 0); [split_and!; [done|lia|apply Hm]|].
  destruct (u16_at_ret packet Hb (12 + 2)) as (v & Hv & _); [lia..|]. setoid_rewrite Hv. cbn [mbind run_bind].
  destruct (u16_at_ret packet Hb (12 + 4)) as (e' & He' & _); [lia..|]. setoid_rewrite He'. cbn [mbind run_bind].
  destruct (e' =? EthernetType.DOT1Q); [|split_and!; done || lia].
  destruct (Z.ltb_spec (len packet - 14 - 4 - 4) 0); [split_and!; [done|lia|apply Hm]|].
  destruct (u16_at_ret packet Hb (12 + 4 + 2)) as (v' & Hv' & _); [lia..|]. setoid_rewrite Hv'. cbn [mbind run_bind].
  destruct (u16_at_ret packet Hb (12 + (4 + 4))) as (e'' & He'' & _); [lia..|]. setoid_rewrite He''. cbn [mbind run_bind].
  split_and!; done || lia.
Qed.

Lemma parse_macs_ok ts tag s m e : l2_ok ts tag s m ->
  wp (parse_macs m packet e tag) (fun m' => l2_ok ts tag s m' /\ l2_l3_opt_size m' = tag /\ header_type m' = Eth).
Proof.
  intros (Hm & Ht & Hs & Hl). unfold parse_macs.
  destruct (slice_ret packet Hb FIELD_OFFSET_SA (FIELD_OFFSET_SA + MAC_ADDR_LEN)) as (src & -> & _);
    [unfold FIELD_OFFSET_SA, MAC_ADDR_LEN; lia..|]. cbn [mbind run_bind].
  destruct (slice_ret packet Hb FIELD_OFFSET_DA (FIELD_OFFSET_DA + MAC_ADDR_LEN)) as (dst & -> & _);
    [unfold FIELD_OFFSET_DA, MAC_ADDR_LEN; lia..|]. cbn [mbind run_bind].
  split; [done|]. split; [|done]. cbn. apply wrap_small. unfold fits. lia.
Qed.

(** ** The result of the parser *)

(** Headers whose fixed size includes the transport header. *)
Definition transport (t : HeaderType) : bool :=
  match t with Ipv4Icmp | Ipv4Tcp | Ipv4Udp | Ipv6Tcp | Ipv6Udp => true | _ => false end.

Definition is_tcp (t : HeaderType) : bool := match t with Ipv4Tcp | Ipv6Tcp => true | _ => false end.

(** The headers that [m] records lie inside the packet, and a TCP header has
    been read as one. *)
Definition parsed (ts : Z) (m : MetaPacket) : Prop :=
  timestamp m = ts
  /\ (exists size, HeaderType.min_packet_size (header_type m) = Ret size
       /\ 0 <= l2_l3_opt_size m /\ 0 <= l4_opt_size m
       /\ size + l2_l3_opt_size m + (if transport (header_type m) then l4_opt_size m else 0) <= len packet)
  /\ (is_tcp (header_type m) = true -> tcp_state m /\ fits 16 (payload_len m)).

Lemma parsed_eth ts tag s m : l2_ok ts tag s m -> l2_l3_opt_size m = tag -> header_type m = Eth -> parsed ts m.
Proof.
  intros ((_ & Hts & H4) & Ht & Hs & Hl) Ho Hh. split; [done|]. rewrite Hh. split; [|done]. exists 14. cbn. rewrite H4. split; [done|lia].
Qed.

Lemma parse_arp_ok ts tag s m : l2_ok ts tag s m -> l2_l3_opt_size m = tag -> header_type m = Eth ->
  wp (parse_arp m packet tag s) (parsed ts).
Proof.
  intros Hm Ho Hh. pose proof Hm as ((_ & Hts & H4) & Ht & Hs & Hl). unfold parse_arp. cbn [HeaderType.min_header_size mbind run_bind].
  destruct (Z.ltb_spec (s - 28) 0); [by eapply parsed_eth|].
  apply (wpe_ipv4 packet Hb False); [unfold ARP_SPA_OFFSET, ETH_HEADER_SIZE; lia..|]. intros a.
  apply (wpe_ipv4 packet Hb False); [unfold ARP_TPA_OFFSET, ETH_HEADER_SIZE; lia..|]. intros b.
  apply (wpe_u16 packet Hb False); [unfold ARP_OP_OFFSET, ETH_HEADER_SIZE; lia..|]. intros op _.
  split; [done|]. split; [|done]. exists 42. cbn. rewrite Ho, H4. split; [done|lia].
Qed.

(** ** Network layer *)

(** Behind the IP header with its options: protocol [p], [s] bytes left. *)
Definition l3_ok (ts : Z) (v6 : bool) (p s : Z) (m : MetaPacket) : Prop :=
  carried ts m /\ header_type m = (if v6 then Ipv6 else Ipv4) /\ 0 <= l2_l3_opt_size m /\ 0 <= s
  /\ (if v6 then 54 else 34) + l2_l3_opt_size m + s = len packet /\ p ∈ packet
  /\ match src_ip (lookup_key m) with V6 o => len o = 16 | V4 _ => v6 = false end.

Definition l3_end (ts : Z) (v6 : bool) (r : MetaPacket * ctl (Z * Z)) : Prop :=
  match r.2 with
  | Return r' => r' = Ok tt /\ parsed ts r.1
  | Next (p, s) => l3_ok ts v6 p s r.1
  end.

Lemma parsed_l3 ts m : timestamp m = ts -> (header_type m = Ipv4 \/ header_type m = Ipv6) ->
  0 <= l2_l3_opt_size m -> 0 <= l4_opt_size m -> 34 + l2_l3_opt_size m <= len packet -> parsed ts m.
Proof.
  intros Hts Hh Ho H4 Hl. split; [done|]. destruct Hh as [-> | ->]; (split; [|done]); exists 34; cbn; split; done || lia.
Qed.

Lemma parse_ipv6_ok ts tag s m : l2_ok ts tag s m -> l2_l3_opt_size m = tag -> header_type m = Eth ->
  wp (parse_ipv6 m packet tag s) (l3_end ts true).
Proof.
  intros Hm Ho Hh. pose proof Hm as ((Htc & Hts & H4) & Ht & Hs & Hl). unfold parse_ipv6.
  cbn [HeaderType.min_header_size HeaderType.min_packet_size mbind run_bind]. change (20 + IPV6_HEADER_ADJUST) with 40.
  destruct (Z.ltb_spec (s - 40) 0); [split; [done|by eapply parsed_eth]|].
  apply (wpe_ipv6 packet Hb False); [unfold FIELD_OFFSET_IPV6_SRC; lia..|]. intros a Ha.
  apply (wpe_ipv6 packet Hb False); [unfold FIELD_OFFSET_IPV6_DST; lia..|]. intros b _.
  apply (wpe_index packet Hb False); [unfold IPV6_HOP_LIMIT_OFFSET, ETH_HEADER_SIZE; lia|]. intros hop _ _.
  apply (wpe_u16 packet Hb False); [unfold FIELD_OFFSET_PAYLOAD_LEN; lia..|]. intros payload _.
  set (m1 := (set_ips _ _ _) <| ttl := hop |>). assert (tcp_state m1) as Hm1 by done.
  apply (wp_bind (update_ip6_opt m1 packet tag)).
  eapply wp_mono; [apply update_ip6_opt_ok; [lia|unfold ETH_HEADER_SIZE, IPV6_HEADER_SIZE; lia|done]|].
  intros [m' [p o]] ((Htc' & Hly) & Hp & Hoo). unfold ETH_HEADER_SIZE, IPV6_HEADER_SIZE in Hoo.
  unfold layout_of in Hly. injection Hly as Hh' Ho' H4' _ _ Hts' Hip. cbn in Ho', Hh', H4', Hip.
  assert (wadd 16 (l2_l3_opt_size m') (wrap 16 o) = tag + o) as Hw.
  { rewrite Ho', wrap_small by (unfold fits; lia). rewrite wadd_small by (unfold fits; lia). lia. }
  destruct (Z.ltb_spec (s - 40 - o) 0); [lia|]. cbn [mbind run_bind]. cbn. unfold l3_ok. cbn. rewrite Hw, Hip.
  split_and!; [|done|lia|lia|lia|done|done]. split; [done|]. split; [|by cbn; rewrite H4'].
  unfold timestamp in *. cbn. by rewrite Hts'.
Qed.

Lemma parse_ipv4_ok ts tag s m : l2_ok ts tag s m -> l2_l3_opt_size m = tag -> header_type m = Eth ->
  wp (parse_ipv4 m packet tag s) (l3_end ts false).
Proof.
  intros Hm Ho Hh. pose proof Hm as ((Htc & Hts & H4) & Ht & Hs & Hl). unfold parse_ipv4.
  cbn [HeaderType.min_header_size HeaderType.min_packet_size mbind run_bind].
  destruct (Z.ltb_spec (s - 20) 0); [split; [done|by eapply parsed_eth]|].
  apply (wpe_index packet Hb False); [unfold FIELD_OFFSET_IHL; lia|]. intros b _ _.
  apply (wpe_ipv4 packet Hb False); [unfold FIELD_OFFSET_SIP; lia..|]. intros sip.
  apply (wpe_ipv4 packet Hb False); [unfold FIELD_OFFSET_DIP; lia..|]. intros dip.
  apply (wpe_index packet Hb False); [unfold IPV4_TTL_OFFSET, ETH_HEADER_SIZE; lia|]. intros hop _ _.
  apply (wpe_u16 packet Hb False); [unfold FIELD_OFFSET_TOTAL_LEN; lia..|]. intros total _. cbn [mbind run_bind].
  assert (0 <= Z.max (Z.land b 0xF * 4 - 20) 0 <= 40) as Hopt.
  { change 0xF with (Z.ones 4). rewrite Z.land_ones by lia. pose proof (Z.mod_pos_bound b (2 ^ 4)). lia. }
  set (opt := Z.max (Z.land b 0xF * 4 - 20) 0) in *. destruct (Z.ltb_spec (s - 20 - opt) 0).
  { split; [done|]. apply parsed_l3; cbn; [done|by left|lia..]. }
  assert (wadd 16 (l2_l3_opt_size m) (wrap 16 opt) = tag + opt) as Hw.
  { rewrite Ho, wrap_small by (unfold fits; lia). rewrite wadd_small by (unfold fits; lia). lia. }
  apply (wpe_index packet Hb False); [unfold IPV4_PROTO_OFFSET, ETH_HEADER_SIZE; lia|]. intros p _ Hp%list_elem_of_lookup_2.
  apply (wpe_u16 packet Hb False); [unfold FIELD_OFFSET_FRAG; lia..|]. intros frag _.
  destruct (Z.land frag 0xFFF =? 0).
  - unfold wpe, l3_end, l3_ok, carried. cbn. rewrite Hw. split_and!; done || lia.
  - split; [done|]. apply parsed_l3; cbn; [done|by left|rewrite Hw; lia|lia|rewrite Hw; lia].
Qed.

(** ** Transport layer *)

(** An ICMPv6 message that is cut before its identifier, or that an IPv4 packet
    carries and that would start behind the packet. *)
Definition icmpv6_truncated : Prop :=
  IpProtocol.ICMPV6 ∈ packet /\ exists i, 54 <= i /\ len packet < i + 8
    /\ (len packet <= i \/ packet !! Z.to_nat i = Some icmpv6_echo_request \/ packet !! Z.to_nat i = Some icmpv6_echo_reply).

Definition truncated : Prop := toa_truncated \/ icmpv6_truncated.

Lemma parsed_keep ts v6 p s m : l3_ok ts v6 p s m -> parsed ts m.
Proof.
  intros ((_ & Hts & H4) & Hh & Ho & Hs & Hl & _). apply parsed_l3; [done|rewrite Hh; destruct v6; auto|done|lia|].
  destruct v6; lia.
Qed.

Lemma parse_icmpv4_ok ts v6 p s m : l3_ok ts v6 p s m -> wp (parse_icmpv4 m packet s) (parsed ts).
Proof.
  intros Hm. pose proof Hm as ((_ & Hts & H4) & Hh & Ho & Hs & Hl & _). unfold parse_icmpv4.
  cbn [HeaderType.min_header_size HeaderType.min_packet_size mbind run_bind].
  destruct (Z.ltb_spec (s - 8) 0); [apply (parsed_keep ts v6 p s m Hm)|].
  assert (34 + l2_l3_opt_size m + s <= len packet) as Hle by (destruct v6; lia).
  unfold FIELD_OFFSET_ICMP_TYPE_CODE, FIELD_LEN_ICMP_REST. set (m1 := at_least m _).
  change (l2_l3_opt_size m1) with (l2_l3_opt_size m). apply (wpe_index packet Hb False); [lia|]. intros t _ _.
  destruct (_ || _ || _ || _).
  { change (l4_opt_size (m1 <| l4_opt_size := 28 |>)) with 28. destruct (Z.ltb_spec (s - 8 - 28) 0).
    - apply (parsed_keep ts v6 p s). destruct Hm as ((? & ? & _) & ?). by split.
    - split; [done|]. split; [|done]. exists 42. cbn. split; [done|lia]. }
  assert (forall m', timestamp m' = ts -> header_type m' = Ipv4Icmp -> l2_l3_opt_size m' = l2_l3_opt_size m ->
    l4_opt_size m' = 0 -> parsed ts m') as Hfin.
  { intros m' Ht' Hh' Ho' H4'. split; [done|]. rewrite Hh', Ho', H4'. split; [|done]. exists 42. cbn. split; [done|lia]. }
  destruct (t =? icmp_echo_request); [apply (wpe_u32 packet Hb False); [lia..|]; intros e _; by apply Hfin|].
  destruct (t =? icmp_echo_reply); [apply (wpe_u32 packet Hb False); [lia..|]; intros e _; by apply Hfin|].
  by apply Hfin.
Qed.

(** Behind a TCP or UDP header. *)
Definition l4_ok (ts : Z) (v6 : bool) (m : MetaPacket) : Prop :=
  parsed ts m /\ 0 <= l2_l3_opt_size m /\ (if v6 then 62 else 42) + l2_l3_opt_size m <= len packet.

Definition l4_end (ts : Z) (v6 : bool) (r : MetaPacket * ctl unit) : Prop :=
  match r.2 with Return r' => r' = Ok tt /\ parsed ts r.1 | Next _ => l4_ok ts v6 r.1 end.

Lemma at_least_l4_ok m (v6 : bool) a b :
  (exists n, HeaderType.min_packet_size a = Ret n) -> (exists n, HeaderType.min_packet_size b = Ret n) ->
  exists n, at_least_l4 m (if v6 then EthernetType.IPV6 else EthernetType.IPV4) a b = Ret (at_least m n).
Proof.
  intros [x Hx] [y Hy]. unfold at_least_l4. destruct v6; cbn [EthernetType.IPV6 EthernetType.IPV4 Z.eqb];
    [change (EthernetType.IPV6 =? EthernetType.IPV4) with false; change (EthernetType.IPV6 =? EthernetType.IPV6) with true; rewrite Hy
    |change (EthernetType.IPV4 =? EthernetType.IPV4) with true; rewrite Hx]; by eexists.
Qed.

Lemma parse_udp_ok ts (v6 : bool) p s m : l3_ok ts v6 p s m ->
  wp (parse_udp m packet (if v6 then EthernetType.IPV6 else EthernetType.IPV4) s) (l4_end ts v6).
Proof.
  intros Hm. pose proof Hm as ((_ & Hts & H4) & Hh & Ho & Hs & Hl & _). unfold parse_udp.
  destruct (at_least_l4_ok m v6 Ipv4Udp Ipv6Udp) as [n ->]; [by eexists..|]. cbn [mbind run_bind].
  change (header_type (at_least m n)) with (header_type m). rewrite Hh. destruct v6; cbn [HeaderType.min_header_size mbind run_bind decide].
  - change (if decide (Ipv6 = Ipv6) then Ipv6Udp else Ipv4Udp) with Ipv6Udp. cbn [HeaderType.min_header_size mbind run_bind].
    destruct (Z.ltb_spec (s - 8) 0); [split; [done|apply (parsed_keep ts true p s m Hm)]|].
    split; [|cbn; lia]. split; [done|]. split; [|done]. exists 62. cbn. split; [done|lia].
  - change (if decide (Ipv4 = Ipv6) then Ipv6Udp else Ipv4Udp) with Ipv4Udp. cbn [HeaderType.min_header_size mbind run_bind].
    destruct (Z.ltb_spec (s - 8) 0); [split; [done|apply (parsed_keep ts false p s m Hm)]|].
    split; [|cbn; lia]. split; [done|]. split; [|done]. exists 42. cbn. split; [done|lia].
Qed.

Lemma tcp_fields_ok m d so ao wo fo : tcp_state m -> 0 <= l2_l3_opt_size m -> fits 8 d ->
  Forall (fun o => 0 <= o) [so; ao; wo; fo] -> Forall (fun o => o + l2_l3_opt_size m + 4 <= len packet) [so; ao; wo; fo] ->
  wp (tcp_fields m packet d so ao wo fo) (keeps m).
Proof.
  intros (h & Hp & Hh) Ho Hd H0 H1. repeat apply Forall_cons in H0 as [? H0]. repeat apply Forall_cons in H1 as [? H1].
  unfold tcp_fields. rewrite Hp. apply (wpe_u16 packet Hb False); [lia..|]. intros w Hw.
  apply (wpe_index packet Hb False); [lia|]. intros f _ _. apply (wpe_u32 packet Hb False); [lia..|]. intros sq Hsq.
  apply (wpe_u32 packet Hb False); [lia..|]. intros ak Hak. split; [|done]. eexists. split; [done|].
  destruct Hh as (?&?&?&?&?&?). split_and!; cbn; try done. pose proof (TcpFlags.land_mask_bound f). unfold fits. lia.
Qed.

(** The stage behind the checks of [parse_tcp]: the header is complete. *)
Lemma parse_tcp_ok ts (v6 : bool) p s m : l3_ok ts v6 p s m ->
  wpe toa_truncated (parse_tcp m packet (if v6 then EthernetType.IPV6 else EthernetType.IPV4) v6 s) (l4_end ts v6).
Proof.
  intros Hm. pose proof Hm as ((Htc & Hts & H4) & Hh & Ho & Hs & Hl & _). unfold parse_tcp.
  set (ht := if v6 then Ipv6Tcp else Ipv4Tcp). set (base := if v6 then 54 else 34) in *.
  replace (if v6 then (FIELD_OFFSET_TCPV6_DATAOFF, _, _, _, _) else _)
    with (base + 12, base + 4, base + 8, base + 14, base + 13) by (by destruct v6).
  destruct (at_least_l4_ok m v6 Ipv4Tcp Ipv6Tcp) as [n ->]; [by eexists..|]. cbn [mbind run_bind].
  set (m1 := at_least m n). change (header_type m1) with (header_type m). change (l2_l3_opt_size m1) with (l2_l3_opt_size m).
  rewrite Hh. replace (if decide _ then Ipv6Tcp else Ipv4Tcp) with ht by (by destruct v6).
  replace (HeaderType.min_header_size ht) with (Ret 20) by (by destruct v6). cbn [mbind run_bind].
  destruct (Z.ltb_spec (s - 20) 0); [split; [done|apply (parsed_keep ts v6 p s m Hm)]|].
  assert (34 <= base) as Hbase by (destruct v6; cbn; lia).
  apply wpe_index; [done|lia|]. intros b Hbb _.
  assert (0 <= Z.shiftr b 4 < 16) as Hdo.
  { unfold byte_ok, fits in Hbb. rewrite Z.shiftr_div_pow2 by lia. split; [apply Z.div_pos; lia|apply Z.div_lt_upper_bound; lia]. }
  set (d := Z.shiftr b 4) in *. set (opt := Z.max (d * 4 - 20) 0).
  destruct (Z.ltb_spec (s - 20 - opt) 0).
  { split; [done|]. apply parsed_l3; cbn; [done|rewrite Hh; destruct v6; auto|done|lia|lia]. }
  cbn [mbind run_bind]. set (m2 := m1 <| l4_opt_size := opt |>). set (m3 := m2 <| l4_payload_len := _ |>).
  set (m4 := m3 <| payload_len := l4_payload_len m3 |> <| header_type := ht |>).
  assert (exists size, HeaderType.min_packet_size ht = Ret size /\ size = base + 20) as (size & Hsz & Hsz')
    by (destruct v6; by eexists).
  assert (keeps m4 m4) as Hk0 by (by apply keeps_refl).
  apply wpe_bind. eapply wpe_mono; [| |intros m5 Hm5; apply wpe_bind; eapply (wpe_mono toa_truncated _ _ (keeps m4));
    [|done|intros m6 [Htc6 Hl6]]].
  - apply tcp_fields_ok; [done|done|unfold fits; lia|repeat constructor; lia|].
    repeat constructor; cbn; lia.
  - done.
  - destruct (5 <? d); [|done]. eapply wpe_mono; [apply (update_tcp_opt_ok m5 size)|done|intros; by eapply keeps_trans].
    + destruct Hm5 as [_ Hl5]. unfold layout_of in Hl5. injection Hl5 as -> _. done.
    + destruct Hm5 as [_ Hl5]. unfold layout_of in Hl5. injection Hl5 as _ -> _. cbn. lia.
    + apply Hm5.
  - unfold layout_of in Hl6. injection Hl6 as Hh6 Ho6 H46 _ Hp6 Ht6 _.
    change (header_type m4) with ht in Hh6. change (l2_l3_opt_size m4) with (l2_l3_opt_size m) in Ho6.
    change (l4_opt_size m4) with opt in H46. split; cbn [fst]; [|rewrite Ho6; fold base; destruct v6; cbn in base; subst base; lia].
    split; [by rewrite Ht6|]. rewrite Hh6, Ho6, H46, Hp6. split.
    + exists size. split; [done|]. destruct v6; cbn; lia.
    + intros _. split; [done|]. apply wrap_fits. lia.
Qed.

Lemma icmpv6_echo_read i t : IpProtocol.ICMPV6 ∈ packet -> 54 <= i -> packet !! Z.to_nat i = Some t ->
  (t = icmpv6_echo_request \/ t = icmpv6_echo_reply) -> wpe icmpv6_truncated (u32_at packet (i + 4)) (fun _ => True).
Proof.
  intros Hp Hi Ht Hecho. destruct (Z.le_gt_cases (i + 8) (len packet)) as [Hle|Hgt].
  - by destruct (u32_at_ret packet Hb (i + 4)) as (e & -> & _); [lia..|].
  - destruct (u32_at packet (i + 4)); [done|]. split; [done|]. exists i. split; [done|].
    split; [lia|]. right. rewrite Ht. destruct Hecho as [-> | ->]; auto.
Qed.

(** ICMPv6 only changes fields of its own. *)
Definition same_headers (m m' : MetaPacket) : Prop :=
  timestamp m' = timestamp m /\ header_type m' = header_type m /\ l2_l3_opt_size m' = l2_l3_opt_size m
  /\ l4_opt_size m' = l4_opt_size m /\ src_ip (lookup_key m') = src_ip (lookup_key m).

Lemma parse_icmpv6_ok ts (v6 : bool) s m : l3_ok ts v6 IpProtocol.ICMPV6 s m ->
  wpe icmpv6_truncated (parse_icmpv6 m packet s) (parsed ts).
Proof.
  intros Hm. pose proof Hm as ((_ & Hts & H4) & Hh & Ho & Hs & Hl & Hp & Hip). unfold parse_icmpv6.
  apply wpe_bind. eapply (wpe_mono icmpv6_truncated _ _ (fun '(m', _, _) => same_headers m m')); [|done|].
  2:{ intros [[m' t] e] (Ht' & Hh' & Ho' & H4' & _). apply parsed_l3; cbn;
      [by rewrite <- Hts, <- Ht'|rewrite Hh', Hh; destruct v6; auto|lia|lia|rewrite Ho'; destruct v6; lia]. }
  destruct (0 <? s); [|done]. set (i := ICMPV6_TYPE_OFFSET + l2_l3_opt_size m).
  assert (54 <= i) as Hi by (unfold i, ICMPV6_TYPE_OFFSET, ETH_HEADER_SIZE, IPV6_HEADER_SIZE; lia).
  destruct (Z.le_gt_cases (len packet) i) as [Hge|Hlt].
  { assert (icmpv6_truncated) as Hbad by (split; [done|]; exists i; split; [done|]; split; [lia|by left]).
    unfold index. rewrite (proj2 (Z.leb_le _ _)) by lia. rewrite (lookup_ge_None_2 packet) by (unfold len in Hge; lia). exact Hbad. }
  destruct (index_ret packet i) as (t & Et & Htl); [lia|]. rewrite Et. cbn [mbind run_bind].
  apply wpe_bind. eapply (wpe_mono icmpv6_truncated _ _ (fun '(m', _) => same_headers m m')); [|done|].
  - destruct (t =? icmpv6_neighbor_advert); [done|].
    destruct (Z.eqb_spec t icmpv6_echo_request) as [->|];
      [|destruct (Z.eqb_spec t icmpv6_echo_reply) as [->|]; [|done]];
      (apply wpe_bind; eapply wpe_mono; [eapply icmpv6_echo_read; [done|done|done|by auto]|done|done]).
  - intros [m' e] Hk. pose proof Hk as (_ & _ & _ & _ & Hip'). rewrite Hip'.
    destruct (src_ip (lookup_key m)) as [a|o]; [done|]. unfold is_unicast_link_local.
    destruct (read_u16_be_ret o) as [v ->]; [lia|]. exact Hk.
Qed.

Lemma parse_ports_ok ts (v6 : bool) m ol : l4_ok ts v6 m ->
  wp (parse_ports m packet (if v6 then FIELD_OFFSET_IPV6_SPORT else FIELD_OFFSET_SPORT)
        (if v6 then FIELD_OFFSET_IPV6_DPORT else FIELD_OFFSET_DPORT) ol) (parsed ts).
Proof.
  intros ([Hts Hp] & Ho & Hl). unfold parse_ports.
  set (a := if v6 then FIELD_OFFSET_IPV6_SPORT else _). set (b := if v6 then FIELD_OFFSET_IPV6_DPORT else _).
  assert (0 <= a /\ 0 <= b /\ a + l2_l3_opt_size m + 4 <= len packet /\ b + l2_l3_opt_size m + 2 <= len packet) as (?&?&?&?).
  { unfold a, b, FIELD_OFFSET_IPV6_SPORT, FIELD_OFFSET_IPV6_DPORT, FIELD_OFFSET_SPORT, FIELD_OFFSET_DPORT. destruct v6; lia. }
  apply wp_bind, (wp_mono _ (parsed ts)).
  - destruct (_ <=? _); [|done]. apply (wpe_u16 packet Hb False); [lia..|]. intros x _.
    apply (wpe_u16 packet Hb False); [lia..|]. intros y _. done.
  - intros m' Hm'. by destruct (_ <? ol).
Qed.

Lemma parse_l4_ok ts (v6 : bool) p s m ol : l3_ok ts v6 p s m ->
  wpe truncated (parse_l4 m packet (if v6 then EthernetType.IPV6 else EthernetType.IPV4) v6 p s ol)
    (fun '(m', r) => r = Ok tt /\ parsed ts m').
Proof.
  intros Hm. unfold parse_l4.
  replace (if v6 then (FIELD_OFFSET_IPV6_SPORT, FIELD_OFFSET_IPV6_DPORT) else _)
    with (if v6 then FIELD_OFFSET_IPV6_SPORT else FIELD_OFFSET_SPORT, if v6 then FIELD_OFFSET_IPV6_DPORT else FIELD_OFFSET_DPORT)
    by (by destruct v6).
  assert (forall x, wpe toa_truncated x (l4_end ts v6) -> wpe truncated ('(m, c) ← x;
    match c with
    | Return r => Ret (m, r)
    | Next _ => m ← parse_ports m packet (if v6 then FIELD_OFFSET_IPV6_SPORT else FIELD_OFFSET_SPORT)
                  (if v6 then FIELD_OFFSET_IPV6_DPORT else FIELD_OFFSET_DPORT) ol; Ret (m, Ok tt)
    end) (fun '(m', r) => r = Ok tt /\ parsed ts m')) as Hports.
  { intros x Hx. apply wpe_bind. eapply wpe_mono; [exact Hx|by left|]. intros [m' [r|[]]] He; [exact He|].
    pose proof (parse_ports_ok ts v6 m' ol He) as Hw. by destruct (parse_ports _ _ _ _ _). }
  destruct (p =? IpProtocol.ICMPV4).
  { pose proof (parse_icmpv4_ok ts v6 p s m Hm) as Hw. by destruct (parse_icmpv4 _ _ _). }
  destruct (p =? IpProtocol.UDP); [apply Hports|].
  { pose proof (parse_udp_ok ts v6 p s m Hm) as Hw. by destruct (parse_udp _ _ _ _). }
  destruct (p =? IpProtocol.TCP); [by eapply Hports, parse_tcp_ok|].
  destruct (Z.eqb_spec p IpProtocol.ICMPV6) as [->|]; [|split; [done|by eapply (parsed_keep ts v6 p s)]].
  apply wpe_bind. eapply wpe_mono; [by eapply parse_icmpv6_ok|by right|done].
Qed.

Lemma update_fields_ok m se de ts ol : tcp_state m -> l4_opt_size m = 0 ->
  wpe truncated (update_fields m packet se de ts ol) (fun '(m', r) => timestamp m' = ts
    /\ match r with Ok _ => parsed ts m' | Err _ => len packet < 22 end).
Proof.
  intros Hm H4. unfold update_fields. set (m0 := m <| lookup_key := _ |> <| packet_len := _ |> <| ebpf_type := _ |> <| sub_packets := _ |>).
  assert (carried ts m0) as Hm0 by done. pose proof (parse_eth_ok ts m0 Hm0) as He.
  destruct (parse_eth m0 packet (len packet)) as [[m1 [r|[[e tag] s]]]|]; [|cbn [mbind run_bind]|done].
  { destruct He as (-> & Hl & Ht). done. }
  pose proof (parse_macs_ok ts tag s m1 e He) as Hmac. destruct (parse_macs m1 packet e tag) as [m2|]; [|done].
  destruct Hmac as (H2 & Ho & Hh). cbn [mbind run_bind].
  destruct (e =? EthernetType.ARP).
  { pose proof (parse_arp_ok ts tag s m2 H2 Ho Hh) as Hw. destruct (parse_arp _ _ _ _); [|done]. split; [apply Hw|done]. }
  destruct (Z.eqb_spec e EthernetType.IPV6) as [->|].
  { pose proof (parse_ipv6_ok ts tag s m2 H2 Ho Hh) as Hw. destruct (parse_ipv6 _ _ _ _) as [[m3 [r|[p s']]]|]; [..|done].
    - destruct Hw as [-> Hp]. split; [apply Hp|done].
    - eapply wpe_mono; [exact (parse_l4_ok ts true p s' m3 ol Hw)|done|]. intros [m4 r] [-> Hp]. split; [apply Hp|done]. }
  destruct (Z.eqb_spec e EthernetType.IPV4) as [->|].
  { pose proof (parse_ipv4_ok ts tag s m2 H2 Ho Hh) as Hw. destruct (parse_ipv4 _ _ _ _) as [[m3 [r|[p s']]]|]; [..|done].
    - destruct Hw as [-> Hp]. split; [apply Hp|done].
    - eapply wpe_mono; [exact (parse_l4_ok ts false p s' m3 ol Hw)|done|]. intros [m4 r] [-> Hp]. split; [apply Hp|done]. }
  pose proof (parsed_eth ts tag s m2 H2 Ho Hh) as Hp. split; [apply Hp|done].
Qed.

End stages.
