(* ===== verification/OverwriteQueue.v ===== *)
(** * The overwriting ring buffer (crates/public/src/queue/overwrite_queue.rs)

    The bounded multi-producer single-consumer queue between the agent's
    threads.  [raw_send] and [raw_recv_timeout] are split at the points where
    another thread can interleave: senders exclude each other by [writer_lock],
    the receiver holds [reader_lock] while it copies out, and a sender that must
    overwrite takes [reader_lock] too.  A buffer cell is [None] when it holds no
    initialised value; reading or dropping such a cell is undefined behaviour
    and modelled as [Panic]. *)

From S2P Require Import Prelude.

Section queue.
Context {T : Type}.

Inductive Error :=
| Timeout
| Terminated (msg : option T) (msgs : option (list T))
| BatchTooLarge (msgs : option (list T)).

Record OverwriteQueue := {
  size : nat;
  buffer : list (option T);
  start : nat;
  end_ : nat;
  terminated : bool;
  input : Z;
  output : Z;
  overwritten : Z;
}.

#[global] Instance OverwriteQueue_fields : Fields OverwriteQueue := fun x =>
  Build_OverwriteQueue (size x) (buffer x) (start x) (end_ x) (terminated x)
    (input x) (output x) (overwritten x).

(** [usize::next_power_of_two] *)
Definition next_power_of_two (n : nat) : nat := 2 ^ Nat.log2_up n.

Definition with_capacity (n : nat) : OverwriteQueue :=
  let size := next_power_of_two n in
  Build_OverwriteQueue size (replicate size None) 0 0 false 0 0 0.

(** ** Raw memory *)

(** [self.buffer.add(i).drop_in_place()] *)
Definition drop_cell (b : list (option T)) (i : nat) : run (list (option T)) :=
  match b !! i with
  | Some (Some _) => Ret (<[i := None]> b)
  | _ => Panic
  end.

(** [for i in 0..n { self.buffer.add((start + i) & (self.size - 1)).drop_in_place() }] *)
Fixpoint drop_cells (b : list (option T)) (mask start n : nat) : run (list (option T)) :=
  match n with
  | O => Ret b
  | S n => b ← drop_cells b mask start n; drop_cell b (Nat.land (start + n) mask)
  end.

(** [self.buffer.add(i).copy_from_nonoverlapping(msgs, msgs.len())] *)
Definition copy_in (b : list (option T)) (i : nat) (msgs : list T) : run (list (option T)) :=
  if (i + length msgs <=? length b)%nat
  then Ret (take i b ++ (Some <$> msgs) ++ drop (i + length msgs) b)
  else Panic.

(** [self.buffer.add(i).copy_to_nonoverlapping(dst, n)], which moves the values
    out of the buffer. *)
Definition copy_out (b : list (option T)) (i n : nat) : run (list (option T) * list T) :=
  if (i + n <=? length b)%nat then
    match mapM id (take n (drop i b)) with
    | Some xs => Ret (take i b ++ replicate n None ++ drop (i + n) b, xs)
    | None => Panic
    end
  else Panic.

(** ** Sending *)

Definition unwrap_end (size start raw_end : nat) : nat :=
  if (raw_end <? start)%nat then raw_end + 2 * size else raw_end.

(** The part of [raw_send] under [reader_lock], when the queue looked full. *)
Definition send_overwrite (q : OverwriteQueue) (raw_end count : nat) : run OverwriteQueue :=
  let start_ := start q in
  let end__ := unwrap_end (size q) start_ raw_end in
  _ ← rassert (end__ - start_ <=? size q)%nat;
  let free_space := (size q - (end__ - start_))%nat in
  if (free_space <? count)%nat then
    let to_overwrite := (count - free_space)%nat in
    b ← drop_cells (buffer q) (size q - 1) start_ to_overwrite;
    Ret (q <| buffer := b |>
           <| start := Nat.land (start_ + to_overwrite) (2 * size q - 1) |>
           <| overwritten := overwritten q +₆₄ Z.of_nat to_overwrite |>)
  else Ret q.

(** The copy into the buffer, in one or two parts. *)
Definition send_copy (q : OverwriteQueue) (raw_end : nat) (msgs : list T) : run OverwriteQueue :=
  let count := length msgs in
  let at_ := Nat.land raw_end (size q - 1) in
  let free_after_end := (size q - at_)%nat in
  b ← (if (count <=? free_after_end)%nat then copy_in (buffer q) at_ msgs
       else b ← copy_in (buffer q) at_ (take free_after_end msgs);
            copy_in b 0 (drop free_after_end msgs));
  Ret (q <| buffer := b |>).

Definition send_commit (q : OverwriteQueue) (raw_end count : nat) : OverwriteQueue :=
  q <| end_ := Nat.land (raw_end + count) (2 * size q - 1) |>
    <| input := input q +₆₄ Z.of_nat count |>.

(** [raw_send] without interference: the steps in program order. *)
Definition raw_send (q : OverwriteQueue) (msgs : list T) : run (OverwriteQueue * result unit Error) :=
  if terminated q then Ret (q, Err (Terminated None None))
  else if (size q <? length msgs)%nat then Ret (q, Err (BatchTooLarge None))
  else
    let count := length msgs in
    let start_ := start q in
    let raw_end := end_ q in
    let end__ := unwrap_end (size q) start_ raw_end in
    _ ← rassert (end__ - start_ <=? size q)%nat;
    q ← (if (size q <? end__ - start_ + count)%nat then send_overwrite q raw_end count else Ret q);
    q ← send_copy q raw_end msgs;
    Ret (send_commit q raw_end count, Ok tt).

(** ** Receiving *)

(** From the loaded [start] and [end] to the copied messages. *)
Definition recv_copy (q : OverwriteQueue) (start_ raw_end buf_size : nat)
  : run (OverwriteQueue * list T) :=
  let end__ := unwrap_end (size q) start_ raw_end in
  _ ← rassert (end__ - start_ <=? size q)%nat;
  let recv_count := Nat.min (end__ - start_) buf_size in
  let at_ := Nat.land start_ (size q - 1) in
  let count_to_end := (size q - at_)%nat in
  '(b, xs) ← (if (recv_count <=? count_to_end)%nat then copy_out (buffer q) at_ recv_count
              else '(b, xs) ← copy_out (buffer q) at_ count_to_end;
                   '(b, ys) ← copy_out b 0 (recv_count - count_to_end);
                   Ret (b, xs ++ ys));
  Ret (q <| buffer := b |>, xs).

Definition recv_commit (q : OverwriteQueue) (start_ recv_count : nat) : OverwriteQueue :=
  q <| start := Nat.land (start_ + recv_count) (2 * size q - 1) |>
    <| output := output q +₆₄ Z.of_nat recv_count |>.

(** [raw_recv_timeout] without interference: an empty queue that is not closed
    makes the wait run into its timeout. *)
Definition raw_recv (q : OverwriteQueue) (buf_size : nat)
  : run (OverwriteQueue * result (list T) Error) :=
  if (start q =? end_ q)%nat then
    Ret (q, Err (if terminated q then Terminated None None else Timeout))
  else
    '(q', xs) ← recv_copy q (start q) (end_ q) buf_size;
    Ret (recv_commit q' (start q) (length xs), Ok xs).

Definition close (q : OverwriteQueue) : OverwriteQueue := q <| terminated := true |>.

(** [Drop for OverwriteQueue]: the pending messages are dropped in place. *)
Definition drop_queue (q : OverwriteQueue) : run (list (option T)) :=
  let end__ := unwrap_end (size q) (start q) (end_ q) in
  _ ← rassert (end__ - start q <=? size q)%nat;
  drop_cells (buffer q) (size q - 1) (start q) (end__ - start q).

(** ** The public methods *)

Definition send (q : OverwriteQueue) (msg : T) : run (OverwriteQueue * result unit Error) :=
  '(q, r) ← raw_send q [msg];
  match r with
  | Ok _ => Ret (q, Ok tt)
  | Err (Terminated _ _) => Ret (q, Err (Terminated (Some msg) None))
  | Err _ => Panic
  end.

(** [msgs] is returned as [send_all] leaves it. *)
Definition send_all (q : OverwriteQueue) (msgs : list T)
  : run (OverwriteQueue * list T * result unit Error) :=
  '(q, r) ← raw_send q msgs;
  match r with
  | Ok _ => Ret (q, [], Ok tt)
  | Err (Terminated _ _) => Ret (q, msgs, Err (Terminated None None))
  | Err (BatchTooLarge _) => Ret (q, msgs, Err (BatchTooLarge None))
  | Err Timeout => Panic
  end.

(** How a [recv] method turns the received messages into its result. *)
Inductive recv_mode := RecvOne | RecvN (n : nat) | RecvAll (capacity : nat).

Definition buf_size_of (m : recv_mode) : nat :=
  match m with RecvOne => 1 | RecvN n => n | RecvAll n => n end.

Definition recv_result (m : recv_mode) (xs : list T) : run (list T) :=
  match m with
  | RecvOne => if (length xs =? 1)%nat then Ret xs else Panic
  | RecvN _ | RecvAll _ => Ret xs
  end.

Definition recv (q : OverwriteQueue) (m : recv_mode) : run (OverwriteQueue * result (list T) Error) :=
  _ ← rassert (match m with RecvN n => 0 <? n | _ => true end)%nat;
  '(q, r) ← raw_recv q (buf_size_of m);
  match r with
  | Ok xs => xs ← recv_result m xs; Ret (q, Ok xs)
  | Err e => Ret (q, Err e)
  end.

(** The pending gauge of [get_counters]. *)
Definition pending (q : OverwriteQueue) : nat := (unwrap_end (size q) (start q) (end_ q) - start q)%nat.

(** ** What the raw steps leave alone *)

Lemma send_overwrite_terminated qu re n qu' :
  send_overwrite qu re n = Ret qu' -> terminated qu' = terminated qu.
Proof.
  unfold send_overwrite. intros (_ & _ & H)%run_bind_Ret. case_match; [|by run_inv].
  apply run_bind_Ret in H as (b & _ & H). by run_inv.
Qed.

Lemma send_copy_frame qu re msgs qu' :
  send_copy qu re msgs = Ret qu' -> size qu' = size qu /\ terminated qu' = terminated qu.
Proof. unfold send_copy. intros (b & _ & H)%run_bind_Ret. by run_inv. Qed.

Lemma recv_copy_frame qu st re n qu' xs :
  recv_copy qu st re n = Ret (qu', xs) -> size qu' = size qu /\ terminated qu' = terminated qu.
Proof.
  unfold recv_copy. intros (_ & _ & H)%run_bind_Ret. apply run_bind_Ret in H as ([b ys] & _ & H).
  by injection H as <- _.
Qed.

(** ** Ring arithmetic *)

Definition splice {A} (b : list A) (i : nat) (ys : list A) : list A :=
  take i b ++ ys ++ drop (i + length ys) b.

Lemma splice_length {A} (b : list A) i ys :
  (i + length ys <= length b)%nat -> length (splice b i ys) = length b.
Proof. intros. unfold splice. rewrite !length_app, length_take, length_drop. lia. Qed.

Lemma splice_lookup {A} (b : list A) i ys j :
  (i + length ys <= length b)%nat ->
  splice b i ys !! j
  = if decide (i <= j < i + length ys)%nat then ys !! (j - i)%nat else b !! j.
Proof.
  intros Hlen. unfold splice. assert (length (take i b) = i) as Hi by (rewrite length_take; lia).
  destruct (decide (j < i)%nat) as [Hj|Hj].
  { rewrite lookup_app_l, lookup_take_lt by lia. case_decide; [lia|done]. }
  rewrite lookup_app_r, Hi by lia. case_decide as Hd.
  - by rewrite lookup_app_l by lia.
  - rewrite lookup_app_r, lookup_drop by lia. f_equal. lia.
Qed.

Section ring.
Context (k N : nat) (HN : N = (2 ^ k)%nat).

Lemma ring_pos : (0 < N)%nat.
Proof. rewrite HN. apply Nat.neq_0_lt_0, Nat.pow_nonzero. lia. Qed.

Lemma land_mask x : Nat.land x (N - 1) = (x mod N)%nat.
Proof. rewrite HN, <- Nat.land_ones, Nat.ones_equiv. f_equal. lia. Qed.

Lemma land_mask2 x : Nat.land x (2 * N - 1) = (x mod (2 * N))%nat.
Proof.
  assert (2 * N = 2 ^ S k)%nat as -> by (by rewrite HN, Nat.pow_succ_r').
  rewrite <- Nat.land_ones, Nat.ones_equiv. f_equal. lia.
Qed.

Lemma mod_mod2 x : ((x mod (2 * N)) mod N = x mod N)%nat.
Proof.
  pose proof ring_pos. rewrite (Nat.div_mod x (2 * N)) at 2 by lia.
  replace (2 * N * (x / (2 * N)) + x mod (2 * N))%nat
    with (x mod (2 * N) + (2 * (x / (2 * N))) * N)%nat by lia.
  by rewrite Nat.Div0.mod_add.
Qed.

(** The index of a cell [d] places after position [e]. *)
Lemma mod_offset M e d : (d < M)%nat ->
  ((e + d) mod M = if decide (e mod M + d < M)%nat then e mod M + d else e mod M + d - M)%nat.
Proof.
  intros Hd. rewrite <- Nat.Div0.add_mod_idemp_l. pose proof (Nat.mod_upper_bound e M).
  case_decide; [by apply Nat.mod_small|].
  symmetry. apply (Nat.mod_unique _ _ 1); lia.
Qed.

(** The distance of two positions, recovered from their residues. *)
Lemma unwrap_sub s e : (s <= e <= s + N)%nat ->
  (unwrap_end N (s mod (2 * N)) (e mod (2 * N)) - s mod (2 * N) = e - s)%nat.
Proof.
  intros He. pose proof ring_pos. replace e with (s + (e - s))%nat at 1 by lia.
  unfold unwrap_end. rewrite mod_offset by lia. pose proof (Nat.mod_upper_bound s (2 * N)).
  case_decide; case_match; lia.
Qed.

(** A write of [ys] from position [a] on, wrapping around the end of the array. *)
Definition ring_write {A} (b : list A) (a : nat) (ys : list A) : list A :=
  if (length ys <=? N - a)%nat then splice b a ys
  else splice (splice b a (take (N - a) ys)) 0 (drop (N - a) ys).

Lemma ring_write_length {A} (b : list A) a ys :
  length b = N -> (a < N)%nat -> (length ys <= N)%nat -> length (ring_write b a ys) = N.
Proof.
  intros Hb Ha Hys. unfold ring_write. case_match.
  - rewrite splice_length; lia.
  - assert (length (splice b a (take (N - a) ys)) = N) as Hl
      by (rewrite splice_length; [done|rewrite length_take; lia]).
    rewrite splice_length; rewrite ?Hl, ?length_drop; lia.
Qed.

Lemma ring_write_lookup {A} (b : list A) e ys d :
  length b = N -> (length ys <= N)%nat -> (d < N)%nat ->
  ring_write b (e mod N) ys !! ((e + d) mod N)%nat
  = if decide (d < length ys)%nat then ys !! d else b !! ((e + d) mod N)%nat.
Proof.
  intros Hb Hys Hd. pose proof ring_pos. rewrite mod_offset by done.
  pose proof (Nat.mod_upper_bound e N). set (a := (e mod N)%nat) in *. unfold ring_write.
  destruct (Nat.leb_spec (length ys) (N - a)).
  - rewrite splice_lookup by lia. repeat case_decide; try lia; try done. f_equal. lia.
  - assert (length (splice b a (take (N - a) ys)) = N) as Hl
      by (rewrite splice_length; [done|rewrite length_take; lia]).
    rewrite splice_lookup by (rewrite Hl, length_drop; lia).
    rewrite splice_lookup by (rewrite length_take; lia).
    rewrite length_take, length_drop. repeat case_decide; try lia; try done.
    + rewrite lookup_drop. f_equal. lia.
    + rewrite lookup_take_lt by lia. f_equal. lia.
Qed.

(** The array as a window of positions: the cell of position [p] in
    [st, st + N) holds [f p]. *)
Definition cells (b : list (option T)) (st : nat) (f : nat -> option T) : Prop :=
  length b = N /\ forall d, (d < N)%nat -> b !! ((st + d) mod N)%nat = Some (f (st + d)%nat).

Lemma cells_ext b st f g :
  (forall p, (st <= p < st + N)%nat -> f p = g p) -> cells b st f -> cells b st g.
Proof. intros Hfg [Hl Hc]. split; [done|]. intros d Hd. rewrite <- Hfg by lia. by apply Hc. Qed.

Lemma cells_write b st f e ys :
  cells b st f -> (st <= e)%nat -> (e + length ys <= st + N)%nat ->
  cells (ring_write b (e mod N) ys) st
    (fun p => if decide (e <= p < e + length ys)%nat then default None (ys !! (p - e)%nat) else f p).
Proof.
  intros [Hl Hc] Hst Hlen. pose proof ring_pos. pose proof (Nat.mod_upper_bound e N).
  split; [apply ring_write_length; lia|]. intros d Hd.
  destruct (decide (e <= st + d)%nat) as [He|He].
  - assert (st + d = e + (st + d - e))%nat as Hp by lia. rewrite Hp at 1.
    rewrite ring_write_lookup by lia. rewrite <- Hp. repeat case_decide; try lia.
    + by destruct (lookup_lt_is_Some_2 ys (st + d - e)) as [y ->]; [lia|].
    + by apply Hc.
  - assert ((st + d) mod N = (e + (st + d + N - e)) mod N)%nat as Hp.
    { replace (e + (st + d + N - e))%nat with (st + d + 1 * N)%nat by lia. by rewrite Nat.Div0.mod_add. }
    rewrite Hp, ring_write_lookup, <- Hp by lia. repeat case_decide; try lia. by apply Hc.
Qed.

Lemma cells_shift b st f n : (n <= N)%nat -> cells b st f ->
  cells b (st + n) (fun p => if decide (p < st + N)%nat then f p else f (p - N)%nat).
Proof.
  intros Hn [Hl Hc]. split; [done|]. intros d Hd. case_decide.
  - replace (st + n + d)%nat with (st + (n + d))%nat by lia. apply Hc. lia.
  - assert (st + n + d = st + (n + d - N) + 1 * N)%nat as Hp by lia.
    rewrite Hp, Nat.Div0.mod_add. rewrite Hc by lia. do 2 f_equal. lia.
Qed.

Lemma cells_lookup b st f d : cells b st f -> (d < N)%nat -> b !! ((st + d) mod N)%nat = Some (f (st + d)%nat).
Proof. intros [_ Hc]. apply Hc. Qed.

Lemma cells_all b st f (P : option T -> Prop) :
  cells b st f -> (forall p, (st <= p < st + N)%nat -> P (f p)) -> Forall P b.
Proof.
  intros Hc HP. pose proof ring_pos. apply Forall_lookup. intros i c Hi.
  pose proof (lookup_lt_Some _ _ _ Hi) as Hlt. rewrite (proj1 Hc) in Hlt.
  pose proof (Nat.mod_upper_bound st N).
  set (d := if decide (st mod N <= i)%nat then (i - st mod N)%nat else (i + N - st mod N)%nat).
  assert (d < N /\ (st + d) mod N = i)%nat as [Hd Hmod].
  { unfold d. case_decide; (split; [lia|]); rewrite mod_offset by lia; case_decide; lia. }
  pose proof (cells_lookup _ _ _ d Hc Hd) as Hl. rewrite Hmod, Hi in Hl. injection Hl as ->.
  apply HP. lia.
Qed.

Lemma copy_in_splice b i msgs :
  (i + length msgs <= length b)%nat -> copy_in b i msgs = Ret (splice b i (Some <$> msgs)).
Proof.
  intros. unfold copy_in, splice. rewrite length_fmap.
  by rewrite (proj2 (Nat.leb_le _ _)) by lia.
Qed.

Lemma copy_out_splice b i n xs :
  (i + n <= length b)%nat -> take n (drop i b) = Some <$> xs ->
  copy_out b i n = Ret (splice b i (replicate n None), xs).
Proof.
  intros Hlen Hxs. unfold copy_out, splice. rewrite (proj2 (Nat.leb_le _ _)) by lia.
  rewrite Hxs, length_replicate.
  assert (mapM id (Some <$> xs) = Some xs) as ->; [|done].
  apply mapM_fmap_Some. done.
Qed.

Lemma send_copy_ok q st f e msgs :
  size q = N -> cells (buffer q) st f -> (length msgs <= N)%nat ->
  send_copy q (e mod (2 * N)) msgs
  = Ret (q <| buffer := ring_write (buffer q) (e mod N) (Some <$> msgs) |>).
Proof.
  intros Hs [Hl _] Hm. pose proof ring_pos. pose proof (Nat.mod_upper_bound e N).
  unfold send_copy, ring_write. rewrite Hs, land_mask, mod_mod2, length_fmap.
  destruct (Nat.leb_spec (length msgs) (N - e mod N)).
  - by rewrite copy_in_splice by lia.
  - assert (length (take (N - e mod N) msgs) = N - e mod N)%nat by (rewrite length_take; lia).
    rewrite copy_in_splice by lia. cbn [mbind run_bind].
    rewrite copy_in_splice.
    + by rewrite fmap_take, fmap_drop.
    + rewrite splice_length; rewrite ?length_fmap; rewrite ?length_drop; lia.
Qed.

Lemma take_drop_cells (b : list (option T)) (hist : list T) n i o :
  (forall j, (j < n)%nat -> b !! (i + j)%nat = Some (hist !! (o + j)%nat)) ->
  (o + n <= length hist)%nat -> take n (drop i b) = Some <$> take n (drop o hist).
Proof.
  intros Hb Hlen. apply list_eq. intros j. rewrite list_lookup_fmap.
  destruct (decide (j < n)%nat).
  - rewrite !lookup_take_lt, !lookup_drop by lia. rewrite Hb by done.
    by destruct (lookup_lt_is_Some_2 hist (o + j)) as [x ->]; [lia|].
  - by rewrite !lookup_take_ge by lia.
Qed.

(** Receiving copies the oldest messages and leaves their cells moved out. *)
Lemma recv_copy_ok q st f hist e n :
  let c := Nat.min (e - st) n in
  size q = N -> cells (buffer q) st f -> (st <= e <= st + N)%nat -> (e <= length hist)%nat ->
  (forall p, (st <= p < e)%nat -> f p = hist !! p) ->
  recv_copy q (st mod (2 * N)) (e mod (2 * N)) n
  = Ret (q <| buffer := ring_write (buffer q) (st mod N) (replicate c None) |>,
         take c (drop st hist)).
Proof.
  intros c Hs Hcells He Hhist Hf. pose proof ring_pos. pose proof (Nat.mod_upper_bound st N) as Ha.
  unfold recv_copy, ring_write. rewrite Hs, unwrap_sub, land_mask, mod_mod2, length_replicate by lia.
  rewrite (proj2 (Nat.leb_le (e - st) N)) by lia. cbn [rassert mbind run_bind]. fold c.
  set (a := (st mod N)%nat) in *. pose proof (proj1 Hcells) as Hl.
  assert (c <= e - st)%nat as Hce by lia. clearbody c.
  assert (forall d, (d < c)%nat -> buffer q !! (if decide (a + d < N) then a + d else a + d - N)%nat
            = Some (hist !! (st + d)%nat)) as Hd.
  { intros d Hd. unfold a. rewrite <- mod_offset, (cells_lookup _ _ _ _ Hcells), Hf by lia. done. }
  destruct (Nat.leb_spec c (N - a)).
  - rewrite (copy_out_splice _ _ _ (take c (drop st hist))); [done|lia|].
    apply take_drop_cells; [|lia]. intros j Hj. rewrite <- Hd by done. case_decide; [done|lia].
  - assert (length (splice (buffer q) a (replicate (N - a) None)) = N) as Hl'
      by (rewrite splice_length; [done|rewrite length_replicate; lia]).
    rewrite (copy_out_splice _ _ _ (take (N - a) (drop st hist))); [|lia|].
    2:{ apply take_drop_cells; [|lia]. intros j Hj. rewrite <- Hd by lia. case_decide; [done|lia]. }
    cbn [mbind run_bind].
    rewrite (copy_out_splice _ _ _ (take (c - (N - a)) (drop (st + (N - a)) hist))); [|lia|].
    2:{ apply take_drop_cells; [|lia]. intros j Hj. cbn [Nat.add].
        rewrite splice_lookup by (rewrite length_replicate; lia). rewrite length_replicate.
        case_decide; [lia|]. replace (st + (N - a) + j)%nat with (st + (N - a + j))%nat by lia.
        rewrite <- Hd by lia. case_decide; [lia|]. f_equal. lia. }
    cbn [mbind run_bind]. rewrite take_replicate, drop_replicate, Nat.min_l by lia.
    do 2 f_equal. rewrite <- drop_drop, take_take_drop. f_equal. lia.
Qed.

Lemma drop_cells_ok b st f n :
  cells b st f -> (n <= N)%nat -> (forall p, (st <= p < st + n)%nat -> is_Some (f p)) ->
  exists b', drop_cells b (N - 1) (st mod (2 * N)) n = Ret b'
    /\ cells b' st (fun p => if decide (p < st + n)%nat then None else f p).
Proof.
  intros Hc. pose proof ring_pos. induction n as [|n IH]; intros Hn Hf.
  { exists b. split; [done|]. eapply cells_ext; [|done]. intros p Hp. cbn. case_decide; [lia|done]. }
  destruct IH as (b1 & Hb1 & Hc1); [lia|intros; apply Hf; lia|].
  cbn [drop_cells]. rewrite Hb1. cbn [mbind run_bind].
  rewrite land_mask, <- Nat.Div0.add_mod_idemp_l, mod_mod2, Nat.Div0.add_mod_idemp_l.
  unfold drop_cell. rewrite (cells_lookup _ _ _ n Hc1) by lia. case_decide; [lia|].
  destruct (Hf (st + n)%nat) as [x Hx]; [lia|]. rewrite Hx. eexists. split; [done|].
  destruct Hc1 as [Hl1 Hc1]. split; [by rewrite length_insert|].
  intros d Hd. destruct (decide (d = n)) as [->|Hne].
  - rewrite list_lookup_insert_eq by (rewrite Hl1; apply Nat.mod_upper_bound; lia).
    case_decide; [done|lia].
  - rewrite list_lookup_insert_ne, Hc1 by
      (done || (rewrite !mod_offset by lia; pose proof (Nat.mod_upper_bound st N); repeat case_decide; lia)).
    repeat case_decide; (done || lia).
Qed.

End ring.

End queue.
Arguments OverwriteQueue : clear implicits.
Arguments Error : clear implicits.
