(* ===== verification/QueueConc.v ===== *)
(** * The queue under concurrent senders and a receiver

    A small-step model of [raw_send], [raw_recv_timeout] and [close]
    (crates/public/src/queue/overwrite_queue.rs) with every interleaving of a
    sender, the receiver and closers.  [hist] records the messages committed by
    senders and [received] those handed to the receiver. *)

From S2P Require Import Prelude OverwriteQueue.

Section conc.
Context {T : Type}.
Abbreviation queue := (OverwriteQueue T).

(** A sender between the statements of [raw_send]; senders are serialised by
    [writer_lock], so one of them is under way at a time. *)
Inductive writer_state :=
| WIdle
| WLoaded (msgs : list T) (start raw_end : nat)    (* loaded [start] and [end] *)
| WReady (msgs : list T) (raw_end : nat)           (* space is reserved *)
| WCopied (msgs : list T) (raw_end : nat).         (* copied, [end] not stored *)

(** The receiver; it holds [reader_lock] in [RLoaded] and [RCopied]. *)
Inductive reader_state :=
| RIdle
| RWait (m : recv_mode) (old_end : nat)            (* in [notify.wait] *)
| RLoaded (m : recv_mode) (start raw_end : nat)
| RCopied (m : recv_mode) (xs : list T) (start : nat).

Record sys := {
  q : queue;
  writer : writer_state;
  reader : reader_state;
  hist : list T;
  received : list T;
}.

#[global] Instance sys_fields : Fields sys := fun x =>
  Build_sys (q x) (writer x) (reader x) (hist x) (received x).

Definition reader_lock_free (s : sys) : bool :=
  match reader s with RIdle | RWait _ _ => true | _ => false end.

Definition init (n : nat) : sys := Build_sys (with_capacity n) WIdle RIdle [] [].

(** [assert!(end - start <= self.size)] and the test for a full queue, on the
    loaded values. *)
Definition looks_full (qu : queue) (st raw_end count : nat) : run bool :=
  let en := unwrap_end (size qu) st raw_end in
  _ ← rassert (en - st <=? size qu)%nat;
  Ret (size qu <? en - st + count)%nat.

(** One step of one thread; [limit] bounds the batches that are sent.  The code
    accepts every batch of at most [size] messages.  The test of [terminated]
    precedes the locks of [raw_send], so a sender may still load after a close. *)
Inductive step (limit : nat) (s : sys) : run sys -> Prop :=
| step_send_load msgs :
    writer s = WIdle -> (length msgs <= limit)%nat -> (length msgs <= size (q s))%nat ->
    step limit s (Ret (s <| writer := WLoaded msgs (start (q s)) (end_ (q s)) |>))
| step_send_fits msgs st re :
    writer s = WLoaded msgs st re ->
    looks_full (q s) st re (length msgs) <> Ret true ->
    step limit s (_ ← looks_full (q s) st re (length msgs); Ret (s <| writer := WReady msgs re |>))
| step_send_overwrite msgs st re :
    writer s = WLoaded msgs st re ->
    looks_full (q s) st re (length msgs) = Ret true -> reader_lock_free s = true ->
    step limit s (qu ← send_overwrite (q s) re (length msgs);
                  Ret (s <| q := qu |> <| writer := WReady msgs re |>))
| step_send_copy msgs re :
    writer s = WReady msgs re ->
    step limit s (qu ← send_copy (q s) re msgs; Ret (s <| q := qu |> <| writer := WCopied msgs re |>))
| step_send_commit msgs re :
    writer s = WCopied msgs re ->
    step limit s (Ret (s <| q := send_commit (q s) re (length msgs) |> <| writer := WIdle |>
                         <| hist := hist s ++ msgs |>))
| step_recv_load m :
    reader s = RIdle -> start (q s) <> end_ (q s) ->
    step limit s (Ret (s <| reader := RLoaded m (start (q s)) (end_ (q s)) |>))
| step_recv_wait m :
    reader s = RIdle -> start (q s) = end_ (q s) -> terminated (q s) = false ->
    step limit s (Ret (s <| reader := RWait m (end_ (q s)) |>))
| step_recv_wake m old :
    reader s = RWait m old -> end_ (q s) <> old ->
    step limit s (Ret (s <| reader := RLoaded m (start (q s)) (end_ (q s)) |>))
| step_recv_stop m old :                 (* [Terminated] or [Timeout] *)
    reader s = RWait m old -> step limit s (Ret (s <| reader := RIdle |>))
| step_recv_copy m st re :
    reader s = RLoaded m st re ->
    step limit s ('(qu, xs) ← recv_copy (q s) st re (buf_size_of m);
                  Ret (s <| q := qu |> <| reader := RCopied m xs st |>))
| step_recv_commit m xs st :
    reader s = RCopied m xs st ->
    step limit s (ys ← recv_result m xs;
                  Ret (s <| q := recv_commit (q s) st (length xs) |> <| reader := RIdle |>
                         <| received := received s ++ ys |>))
| step_close :
    reader_lock_free s = true -> step limit s (Ret (s <| q := close (q s) |>)).

Inductive reachable (limit n : nat) : sys -> Prop :=
| reach_init : reachable limit n (init n)
| reach_step s s' : reachable limit n s -> step limit s (Ret s') -> reachable limit n s'.

(** ** The invariant *)

Definition inflight (s : sys) : list T := match writer s with WCopied m _ => m | _ => [] end.
Definition moved (s : sys) : nat := match reader s with RCopied _ xs _ => length xs | _ => 0 end.

(** The content of position [p] when the oldest pending message is at [st]. *)
Definition content (s : sys) (st p : nat) : option T :=
  if decide (p < st + moved s)%nat then None else (hist s ++ inflight s) !! p.

Definition writer_ok (N st : nat) (s : sys) : Prop :=
  let e := length (hist s) in
  match writer s with
  | WIdle => True
  | WLoaded m ws re => re = end_ (q s) /\ (length m <= N)%nat
      /\ exists s0, (s0 <= st /\ s0 <= e <= s0 + N)%nat /\ ws = (s0 mod (2 * N))%nat
  | WReady m re | WCopied m re => re = end_ (q s) /\ (e + length m <= st + N)%nat
  end.

Definition reader_ok (N st : nat) (s : sys) : Prop :=
  let e := length (hist s) in
  match reader s with
  | RIdle => True
  | RWait m old => exists e0, (e0 <= st)%nat /\ old = (e0 mod (2 * N))%nat
  | RLoaded m rs re => rs = start (q s) /\ exists e0, (st <= e0 <= e)%nat /\ re = (e0 mod (2 * N))%nat
  | RCopied m xs rs => rs = start (q s) /\ (st + length xs <= e)%nat
      /\ xs = take (length xs) (drop st (hist s)) /\ (length xs <= buf_size_of m)%nat
  end.

Record inv (s : sys) (N st : nat) : Prop := {
  inv_size : size (q s) = N;
  inv_pow : exists k, N = (2 ^ k)%nat;
  inv_range : (st <= length (hist s) <= st + N)%nat;
  inv_start : start (q s) = (st mod (2 * N))%nat;
  inv_end : end_ (q s) = (length (hist s) mod (2 * N))%nat;
  inv_cells : cells N (buffer (q s)) st (content s st);
  inv_writer : writer_ok N st s;
  inv_reader : reader_ok N st s;
  inv_received : sublist (received s) (take st (hist s));
  inv_counts : output (q s) = wrap 64 (Z.of_nat (length (received s)))
    /\ input (q s) = wrap 64 (Z.of_nat (length (hist s)))
    /\ overwritten (q s) = wrap 64 (Z.of_nat (st - length (received s)));
}.

Lemma content_hist s st p :
  inflight s = [] -> moved s = 0%nat -> (st <= p)%nat -> content s st p = hist s !! p.
Proof. intros Hi Hm Hp. unfold content. rewrite Hi, Hm, app_nil_r. case_decide; [lia|done]. Qed.

Lemma inv_init n : inv (init n) (next_power_of_two n) 0.
Proof.
  set (N := next_power_of_two n).
  assert (0 < N)%nat by (apply Nat.neq_0_lt_0, Nat.pow_nonzero; lia).
  split; try done; cbn.
  - by eexists.
  - lia.
  - by rewrite Nat.Div0.mod_0_l.
  - by rewrite Nat.Div0.mod_0_l.
  - split; [apply length_replicate|]. intros d Hd. cbn. rewrite Nat.mod_small by done.
    rewrite lookup_replicate_2 by done. unfold content. case_decide; by rewrite ?lookup_nil.
Qed.

Lemma inv_send_load s N st msgs :
  inv s N st -> writer s = WIdle -> (length msgs <= size (q s))%nat ->
  inv (s <| writer := WLoaded msgs (start (q s)) (end_ (q s)) |>) N st.
Proof.
  intros [] Hw Hm. split; try done.
  - unfold content, inflight in *. by rewrite Hw in *.
  - cbn. split_and!; [done|by subst|]. exists st. split; [lia|done].
Qed.

(** The loaded [start] may be stale: the queue is at most as full as it looks. *)
Lemma looks_full_ok s N st msgs ws re :
  inv s N st -> writer s = WLoaded msgs ws re ->
  exists s0, (s0 <= st)%nat /\ (s0 <= length (hist s) <= s0 + N)%nat /\
    looks_full (q s) ws re (length msgs) = Ret (N <? length (hist s) - s0 + length msgs)%nat.
Proof.
  intros [Hs [k Hk] Hr Hst He _ Hw _ _ _] Hws. unfold writer_ok in Hw. rewrite Hws in Hw.
  destruct Hw as (-> & Hm & s0 & Hs0 & ->). exists s0. split; [lia|]. split; [lia|].
  unfold looks_full. rewrite Hs, He, (unwrap_sub k N) by (done || lia).
  by rewrite (proj2 (Nat.leb_le _ _)) by lia.
Qed.

Lemma inv_send_fits s N st msgs ws re :
  inv s N st -> writer s = WLoaded msgs ws re -> looks_full (q s) ws re (length msgs) = Ret false ->
  inv (s <| writer := WReady msgs re |>) N st.
Proof.
  intros Hi Hws Hf. destruct (looks_full_ok _ _ _ _ _ _ Hi Hws) as (s0 & ? & ? & Hl).
  rewrite Hl in Hf. run_inv. apply Nat.ltb_ge in Hf.
  destruct Hi as [Hs Hk Hr Hst He Hc Hw Hrd Hrec Hcnt]. split; try done.
  - unfold content, inflight in *. by rewrite Hws in *.
  - unfold writer_ok in Hw. rewrite Hws in Hw. destruct Hw as (-> & _). cbn. split; [done|lia].
Qed.

(** Overwriting drops exactly the oldest messages that are in the way. *)
Lemma inv_send_overwrite s N st msgs ws re :
  inv s N st -> writer s = WLoaded msgs ws re -> reader_lock_free s = true ->
  exists qu n, send_overwrite (q s) re (length msgs) = Ret qu
    /\ n = (length msgs - (N - (length (hist s) - st)))%nat
    /\ inv (s <| q := qu |> <| writer := WReady msgs re |>) N (st + n).
Proof.
  intros [Hs [k Hk] Hr Hst He Hc Hw Hrd Hrec (Ho & Hin & Hov)] Hws Hfree.
  unfold writer_ok in Hw. rewrite Hws in Hw. destruct Hw as (-> & Hm & _).
  set (n := (length msgs - (N - (length (hist s) - st)))%nat).
  assert (inflight s = []) as Hfl by (unfold inflight; by rewrite Hws).
  assert (moved s = 0%nat) as Hmv.
  { unfold moved, reader_lock_free in *. by destruct (reader s). }
  assert (length (received s) <= st)%nat as Hlen.
  { apply sublist_length in Hrec. rewrite length_take in Hrec. lia. }
  assert (forall s', reader s' = reader s -> reader_ok N (st + n) s') as Hrd'.
  { intros s' Hs'. unfold reader_ok, reader_lock_free in *. rewrite Hs'.
    destruct (reader s) as [|m old| |]; try done.
    destruct Hrd as (e0 & ? & ->). exists e0. split; [lia|done]. }
  unfold send_overwrite. rewrite Hst, He, Hs, (unwrap_sub k N) by (done || lia).
  rewrite (proj2 (Nat.leb_le _ N)) by lia. cbn [rassert mbind run_bind].
  destruct (Nat.ltb_spec (N - (length (hist s) - st)) (length msgs)) as [Hlt|Hge].
  - fold n. destruct (drop_cells_ok k N Hk (buffer (q s)) st (content s st) n) as (b & -> & Hb);
      [done|lia| |].
    { intros p Hp. rewrite content_hist by (done || lia). apply lookup_lt_is_Some_2. lia. }
    cbn [mbind run_bind]. eexists _, n. split_and!; [done..|]. split; cbn; try done.
    + by exists k.
    + lia.
    + by rewrite (land_mask2 k N Hk), Nat.Div0.add_mod_idemp_l.
    + eapply (cells_ext k N Hk); [|eapply (cells_shift k N Hk b st _ n); [lia|exact Hb]]. intros p Hp. cbn beta.
      symmetry. rewrite content_hist by (done || lia). cbn.
      repeat case_decide; rewrite ?content_hist by (done || lia); (done || lia || apply lookup_ge_None_2; lia).
    + split; [done|cbn; lia].
    + by apply Hrd'.
    + etransitivity; [exact Hrec|]. apply sublist_take_take. lia.
    + split_and!; [done..|]. rewrite Hov. unfold wadd, wrap. rewrite Zplus_mod_idemp_l. f_equal. lia.
  - assert (n = 0%nat) as Hn by lia. exists (q s), n. split_and!; [done..|]. rewrite Hn, Nat.add_0_r in *.
    split; try done; [by exists k| |].
    + eapply (cells_ext k N Hk); [|exact Hc]. intros p Hp. unfold content, inflight. cbn. by rewrite Hws.
    + cbn. split; [done|lia].
Qed.

Lemma inv_send_copy s N st msgs re :
  inv s N st -> writer s = WReady msgs re ->
  exists qu, send_copy (q s) re msgs = Ret qu
    /\ inv (s <| q := qu |> <| writer := WCopied msgs re |>) N st.
Proof.
  intros [Hs [k Hk] Hr Hst He Hc Hw Hrd Hrec Hcnt] Hws. unfold writer_ok in Hw. rewrite Hws in Hw.
  destruct Hw as [-> Hlen]. rewrite He.
  rewrite (send_copy_ok k N Hk (q s) st (content s st)) by (done || lia).
  eexists. split; [done|]. split; try done; [by exists k|].
  eapply (cells_ext k N Hk);
    [|eapply (cells_write k N Hk _ _ _ (length (hist s)) (Some <$> msgs) Hc);
      rewrite ?length_fmap; lia].
  intros p Hp. cbn beta. rewrite length_fmap. unfold content, inflight. cbn. rewrite Hws, app_nil_r.
  change (moved _) with (moved s).
  assert (st + moved s <= length (hist s))%nat.
  { unfold moved, reader_ok in *. destruct (reader s); lia. }
  case_decide as Hin.
  - rewrite list_lookup_fmap, decide_False by lia. rewrite lookup_app_r by lia.
    by destruct (msgs !! _).
  - case_decide; [done|]. destruct (decide (p < length (hist s))%nat).
    + by rewrite lookup_app_l by done.
    + rewrite !lookup_ge_None_2; rewrite ?length_app; lia || done.
Qed.

Lemma inv_send_commit s N st msgs re :
  inv s N st -> writer s = WCopied msgs re ->
  inv (s <| q := send_commit (q s) re (length msgs) |> <| writer := WIdle |>
         <| hist := hist s ++ msgs |>) N st.
Proof.
  intros [Hs [k Hk] Hr Hst He Hc Hw Hrd Hrec (Ho & Hin & Hov)] Hws. unfold writer_ok in Hw.
  rewrite Hws in Hw. destruct Hw as [-> Hlen]. split; try done; [by exists k|..]; cbn -[Nat.mul].
  - rewrite length_app. lia.
  - rewrite Hs, (land_mask2 k N Hk), He, Nat.Div0.add_mod_idemp_l, length_app. done.
  - eapply (cells_ext k N Hk); [|exact Hc]. intros p Hp. unfold content, inflight. cbn.
    by rewrite Hws, app_nil_r.
  - unfold reader_ok in *. cbn. rewrite length_app. destruct (reader s) as [| |m rs re|m xs rs]; try done.
    + destruct Hrd as (-> & e0 & ? & ->). split; [done|]. exists e0. split; [lia|done].
    + destruct Hrd as (-> & ? & Hxs & ?). split_and!; [done|lia| |done].
      rewrite drop_app_le, take_app_le by (rewrite ?length_drop; lia). done.
  - etransitivity; [exact Hrec|]. rewrite take_app_le by lia. done.
  - split_and!; [done| |done]. rewrite Hin, length_app. unfold wadd, wrap. rewrite Zplus_mod_idemp_l.
    f_equal. lia.
Qed.

Lemma inv_reader_flags s N st r :
  inv s N st -> moved s = 0%nat -> (forall m xs rs, r <> RCopied m xs rs) ->
  reader_ok N st (s <| reader := r |>) -> inv (s <| reader := r |>) N st.
Proof.
  intros [Hs [k Hk] Hr Hst He Hc Hw Hrd Hrec Hcnt] Hm Hnc Hok. split; try done; [by exists k|].
  eapply (cells_ext k N Hk); [|exact Hc]. intros p Hp. unfold content. rewrite Hm.
  replace (moved _) with 0%nat; [done|]. unfold moved. cbn. destruct r; try done. by destruct (Hnc m xs start).
Qed.

Lemma inv_recv_copy s N st m rs re :
  inv s N st -> reader s = RLoaded m rs re ->
  exists qu xs, recv_copy (q s) rs re (buf_size_of m) = Ret (qu, xs)
    /\ inv (s <| q := qu |> <| reader := RCopied m xs rs |>) N st.
Proof.
  intros [Hs [k Hk] Hr Hst He Hc Hw Hrd Hrec Hcnt] Hrs. unfold reader_ok in Hrd. rewrite Hrs in Hrd.
  destruct Hrd as (-> & e0 & He0 & ->). rewrite Hst.
  assert (moved s = 0%nat) as Hmv by (unfold moved; by rewrite Hrs).
  set (c := Nat.min (e0 - st) (buf_size_of m)).
  assert (length (take c (drop st (hist s))) = c) as Hlen.
  { rewrite length_take, length_drop. lia. }
  rewrite (recv_copy_ok k N Hk (q s) st (content s st) (hist s)); [|done|done|lia|lia|].
  2:{ intros p Hp. unfold content. rewrite Hmv. rewrite decide_False, lookup_app_l by lia. done. }
  fold c. eexists _, _. split; [done|]. split; try done; [by exists k|..].
  - eapply (cells_ext k N Hk);
      [|eapply (cells_write k N Hk _ _ _ st (replicate c None) Hc); rewrite ?length_replicate; lia].
    intros p Hp. cbn beta. rewrite length_replicate. unfold content. rewrite Hmv.
    change (inflight (_ <| reader := _ |>)) with (inflight s). unfold moved. cbn. rewrite Hlen.
    repeat case_decide; try lia; try done. by rewrite lookup_replicate_2 by lia.
  - cbn. rewrite Hlen. split_and!; [done|lia|done|lia].
Qed.

Lemma inv_recv_commit s N st m xs rs :
  inv s N st -> reader s = RCopied m xs rs ->
  inv (s <| q := recv_commit (q s) rs (length xs) |> <| reader := RIdle |>
         <| received := received s ++ xs |>) N (st + length xs).
Proof.
  intros [Hs [k Hk] Hr Hst He Hc Hw Hrd Hrec (Ho & Hin & Hov)] Hrs. unfold reader_ok in Hrd.
  rewrite Hrs in Hrd. destruct Hrd as (-> & Hlen & Hxs & _).
  assert (length (received s) <= st)%nat as Hlr.
  { apply sublist_length in Hrec. rewrite length_take in Hrec. lia. }
  split; try done; [by exists k|..]; cbn -[Nat.mul].
  - lia.
  - by rewrite Hs, (land_mask2 k N Hk), Hst, Nat.Div0.add_mod_idemp_l.
  - eapply (cells_ext k N Hk); [|eapply (cells_shift k N Hk _ st _ (length xs)); [lia|exact Hc]].
    intros p Hp. cbn beta. unfold content, moved. cbn. rewrite Hrs.
    change (inflight (_ <| received := _ |>)) with (inflight s).
    repeat case_decide; try lia; try done.
    rewrite lookup_ge_None_2; [done|]. rewrite length_app. unfold inflight, writer_ok in *.
    destruct (writer s); cbn; lia.
  - unfold writer_ok in *. cbn -[Nat.mul]. destruct (writer s) as [|w ws re|w re|w re]; try done.
    + destruct Hw as (-> & ? & s0 & ? & ->). split_and!; [done..|]. exists s0. split; [lia|done].
    + destruct Hw as (-> & ?). split; [done|lia].
    + destruct Hw as (-> & ?). split; [done|lia].
  - assert (take (st + length xs) (hist s) = take st (hist s) ++ xs) as ->
      by (rewrite <- take_take_drop; by rewrite <- Hxs).
    by apply sublist_app.
  - rewrite length_app. unfold wadd, wrap in *. rewrite Ho, Hov, Zplus_mod_idemp_l.
    split_and!; [f_equal; lia|done|f_equal; lia].
Qed.

(** With batches smaller than the queue, a receiver that stopped waiting always
    finds a message. *)
Definition nonempty_ok (s : sys) (N st : nat) : Prop :=
  let e := length (hist s) in
  match writer s with WLoaded m _ _ => (length m < N)%nat | _ => True end /\
  match reader s with
  | RIdle => True
  | RWait m old => exists e0, (e0 <= st)%nat /\ old = (e0 mod (2 * N))%nat /\ (e0 < e -> st < e)%nat
  | RLoaded m rs re => exists e0, (st < e0 <= e)%nat /\ re = (e0 mod (2 * N))%nat
  | RCopied m xs rs => (Nat.min 1 (buf_size_of m) <= length xs)%nat
  end.

Lemma recv_copy_count s N st m rs re e0 qu xs :
  inv s N st -> reader s = RLoaded m rs re -> (st < e0 <= length (hist s))%nat ->
  re = (e0 mod (2 * N))%nat -> recv_copy (q s) rs re (buf_size_of m) = Ret (qu, xs) ->
  (Nat.min 1 (buf_size_of m) <= length xs)%nat.
Proof.
  intros [Hs [k Hk] Hr Hst He Hc Hw Hrd Hrec Hcnt] Hrs He0 -> Hcopy. unfold reader_ok in Hrd.
  rewrite Hrs in Hrd. destruct Hrd as (-> & _). rewrite Hst in Hcopy.
  assert (moved s = 0%nat) as Hmv by (unfold moved; by rewrite Hrs).
  rewrite (recv_copy_ok k N Hk (q s) st (content s st) (hist s)) in Hcopy; [|done|done|lia|lia|].
  2:{ intros p Hp. unfold content. rewrite Hmv. rewrite decide_False, lookup_app_l by lia. done. }
  run_inv. rewrite length_take, length_drop. lia.
Qed.

(** The positions of the loaded or remembered indices, from the invariant. *)
Lemma inv_nonempty s N st : inv s N st -> start (q s) <> end_ (q s) -> (st < length (hist s))%nat.
Proof.
  intros [Hs [k Hk] Hr Hst He _ _ _ _ _] Hne. rewrite Hst, He in Hne.
  destruct (decide (st = length (hist s))) as [Heq|]; [by rewrite <- Heq in Hne|lia].
Qed.

Lemma inv_empty s N st : inv s N st -> start (q s) = end_ (q s) -> length (hist s) = st.
Proof.
  intros [Hs [k Hk] Hr Hst He _ _ _ _ _] Heq. rewrite Hst, He in Heq.
  pose proof (unwrap_sub k N Hk st (length (hist s)) ltac:(lia)) as Hu.
  rewrite Heq in Hu. unfold unwrap_end in Hu. rewrite Nat.ltb_irrefl in Hu. lia.
Qed.

Lemma inv_recv_load s N st m :
  inv s N st -> moved s = 0%nat ->
  inv (s <| reader := RLoaded m (start (q s)) (end_ (q s)) |>) N st.
Proof.
  intros Hi Hm. apply inv_reader_flags; [done..|]. destruct Hi as [_ _ ? _ He _ _ _ _ _]. cbn.
  split; [done|]. exists (length (hist s)). split; [lia|done].
Qed.

Lemma recv_result_cases m (xs : list T) :
  (length xs <= buf_size_of m)%nat ->
  recv_result m xs = Ret xs \/ (m = RecvOne /\ xs = [] /\ recv_result m xs = Panic).
Proof.
  intros Hx. destruct m; try by left. destruct xs as [|x [|]]; cbn in *; [by right|by left|lia].
Qed.

(** Every step returns and keeps the invariant, except that [recv] aborts when
    it copied nothing, which small batches rule out. *)
Lemma inv_step limit s r N st :
  inv s N st -> ((limit < N)%nat -> nonempty_ok s N st) -> step limit s r ->
  (exists s' st', r = Ret s' /\ inv s' N st' /\ ((limit < N)%nat -> nonempty_ok s' N st'))
  \/ r = Panic /\ (exists rs, reader s = RCopied RecvOne [] rs) /\ (N <= limit)%nat.
Proof.
  intros Hi Hne Hstep. pose proof Hi as [Hs [k Hk] Hr Hst He Hc Hw Hrd Hrec Hcnt].
  destruct Hstep as [msgs H1 H2 H3|msgs ws re H1 H2|msgs ws re H1 H2 H3|msgs re H1|msgs re H1
    |m H1 H2|m H1 H2 H3|m old H1 H2|m old H1|m rs re H1|m xs rs H1|H1].
  - left. eexists _, st. split_and!; [done|by apply inv_send_load|].
    intros Hlim. destruct (Hne Hlim) as [_ ?]. split; [cbn; lia|done].
  - left. destruct (looks_full_ok _ _ _ _ _ _ Hi H1) as (s0 & _ & _ & Hl).
    rewrite Hl in *. destruct (Nat.ltb_spec N (length (hist s) - s0 + length msgs)); [done|].
    eexists _, st. split_and!; [done|by eapply inv_send_fits|].
    intros Hlim. by destruct (Hne Hlim) as [_ ?].
  - left. destruct (inv_send_overwrite _ _ _ _ _ _ Hi H1 H3) as (qu & n & -> & Hn & Hi').
    eexists _, _. split_and!; [done|exact Hi'|]. intros Hlim. destruct (Hne Hlim) as [Hm Hne'].
    rewrite H1 in Hm. split; [done|]. unfold reader_lock_free in H3. cbn.
    destruct (reader s); try done. destruct Hne' as (e0 & ? & -> & ?). exists e0. split_and!; [lia|done|lia].
  - left. destruct (inv_send_copy _ _ _ _ _ Hi H1) as (qu & -> & Hi').
    eexists _, _. split_and!; [done|exact Hi'|]. intros Hlim. by destruct (Hne Hlim) as [_ ?].
  - left. eexists _, _. split_and!; [done|by apply inv_send_commit|]. intros Hlim.
    destruct (Hne Hlim) as [_ Hne']. split; [done|]. cbn. rewrite length_app.
    destruct (reader s) as [|m old|m rs re'|m xs rs]; try done.
    + destruct Hne' as (e0 & ? & -> & ?). exists e0. split_and!; [done..|lia].
    + destruct Hne' as (e0 & ? & ->). exists e0. split; [lia|done].
  - left. eexists _, st. split_and!; [done|apply inv_recv_load; [done|unfold moved; by rewrite H1]|].
    intros Hlim. destruct (Hne Hlim) as [? _]. split; [done|]. cbn.
    exists (length (hist s)). split; [|done]. pose proof (inv_nonempty _ _ _ Hi H2). lia.
  - left. eexists _, st. split_and!; [done|..].
    + apply inv_reader_flags; [done|unfold moved; by rewrite H1|done|]. cbn. exists st.
      by rewrite H2 in Hst.
    + intros Hlim. destruct (Hne Hlim) as [? _]. split; [done|]. exists st. pose proof (inv_empty _ _ _ Hi H2).
      split_and!; [lia|by rewrite <- H2|cbn; lia].
  - left. eexists _, st. split_and!; [done|apply inv_recv_load; [done|unfold moved; by rewrite H1]|].
    intros Hlim. destruct (Hne Hlim) as [? Hne']. split; [done|]. rewrite H1 in Hne'.
    destruct Hne' as (e0 & ? & -> & Hlt). exists (length (hist s)). split; [|done]. cbn.
    destruct (decide (e0 = length (hist s))) as [->|]; [done|lia].
  - left. eexists _, st. split_and!; [done|..].
    + apply inv_reader_flags; [done|unfold moved; by rewrite H1|done|done].
    + intros Hlim. by destruct (Hne Hlim) as [? _].
  - left. destruct (inv_recv_copy _ _ _ _ _ _ Hi H1) as (qu & xs & Hcopy & Hi'). rewrite Hcopy.
    eexists _, _. split_and!; [done|exact Hi'|]. intros Hlim. destruct (Hne Hlim) as [? Hne'].
    split; [done|]. rewrite H1 in Hne'. destruct Hne' as (e0 & He0 & Hre).
    exact (recv_copy_count s N st m rs re e0 qu xs Hi H1 He0 Hre Hcopy).
  - pose proof (inv_recv_commit _ _ _ _ _ _ Hi H1) as Hi'. unfold reader_ok in Hrd. rewrite H1 in Hrd.
    destruct Hrd as (_ & _ & _ & Hbuf). destruct (recv_result_cases m xs Hbuf) as [->|(-> & -> & ->)].
    + left. eexists _, _. split_and!; [done|exact Hi'|]. intros Hlim. by destruct (Hne Hlim) as [? _].
    + right. split; [done|]. split; [by exists rs|]. destruct (decide (limit < N)%nat) as [Hlim|]; [|lia].
      destruct (Hne Hlim) as [_ Hne']. rewrite H1 in Hne'. cbn in Hne'. lia.
  - left. eexists _, st. split_and!; [done| |done]. split; try done. by exists k.
Qed.

Lemma inv_reachable limit n s :
  reachable limit n s ->
  exists st, inv s (next_power_of_two n) st
    /\ ((limit < next_power_of_two n)%nat -> nonempty_ok s (next_power_of_two n) st).
Proof.
  induction 1 as [|s s' _ (st & Hi & Hne) Hstep]; [exists 0%nat; split; [apply inv_init|done]|].
  destruct (inv_step _ _ _ _ _ Hi Hne Hstep) as [(s1 & st1 & Heq & Hi1 & Hne1)|[? _]]; [|done].
  run_inv. by exists st1.
Qed.

(** C6: for every capacity and every interleaving of senders, receiver and closers, no step
    fails: the position assertions hold, every message is read or dropped exactly while
    its cell holds it, and copies stay inside the buffer.  The one exception is the
    [unreachable!] of [recv] when it copied no message. *)
Theorem queue_interleavings_safe limit n s r :
  reachable limit n s -> step limit s r ->
  (exists s', r = Ret s') \/ (exists rs, reader s = RCopied RecvOne [] rs).
Proof.
  intros Hreach Hstep. destruct (inv_reachable _ _ _ Hreach) as (st & Hi & Hne).
  destruct (inv_step _ _ _ _ _ Hi Hne Hstep) as [(s1 & st1 & Heq & _)|(_ & Hrs & _)];
    [left; by exists s1|by right].
Qed.

(** when every batch is smaller than the queue, no step fails at all: a receiver that
    stopped waiting always finds a message. *)
Theorem small_batches_never_panic limit n s r :
  (limit < next_power_of_two n)%nat -> reachable limit n s -> step limit s r -> r <> Panic.
Proof.
  intros Hlim Hreach Hstep. destruct (inv_reachable _ _ _ Hreach) as (st & Hi & Hne).
  destruct (inv_step _ _ _ _ _ Hi Hne Hstep) as [(s1 & st1 & -> & _)|(_ & _ & ?)]; [done|lia].
Qed.


End conc.
