(* ===== verification/QueueSpec.v ===== *)
(** * What the queue promises its callers, and where it does not

    Sequential refinement of [send_all]/[recv_n] to a bounded list that drops
    its oldest elements, two races of the receiver's wait loop, and the release
    of the shared allocation by the three handles
    (crates/public/src/queue/overwrite_queue.rs). *)

From S2P Require Import Prelude OverwriteQueue QueueConc.

(** ** Refinement to a bounded list *)

Section refinement.
Context {T : Type}.

(** A quiescent queue holding the messages [l], oldest first. *)
Definition models (qu : OverwriteQueue T) (l : list T) : Prop :=
  exists N st h rc, inv (Build_sys qu WIdle RIdle h rc) N st /\ l = drop st h.

Lemma models_length qu l : models qu l -> (length l <= size qu)%nat.
Proof. intros (N & st & h & rc & [] & ->). cbn in *. rewrite length_drop. lia. Qed.

Lemma raw_send_models qu l msgs :
  models qu l -> terminated qu = false -> (length msgs <= size qu)%nat ->
  exists qu', raw_send qu msgs = Ret (qu', Ok tt) /\ size qu' = size qu /\ terminated qu' = false
    /\ models qu' (drop (length (l ++ msgs) - size qu) (l ++ msgs)).
Proof.
  intros (N & st & h & rc & Hi & ->) Ht Hm. pose proof (inv_size _ _ _ Hi) as HN. cbn in HN.
  pose proof (inv_range _ _ _ Hi) as Hr. cbn in Hr.
  pose proof (inv_send_load _ _ _ msgs Hi eq_refl Hm) as H1.
  set (s1 := Build_sys qu (WLoaded msgs (start qu) (end_ qu)) RIdle h rc).
  change (inv s1 N st) in H1. destruct (inv_pow _ _ _ Hi) as [k Hk].
  unfold raw_send. rewrite Ht, (proj2 (Nat.ltb_ge _ _)) by lia.
  pose proof (inv_start _ _ _ Hi) as Hst. pose proof (inv_end _ _ _ Hi) as He. cbn in Hst, He.
  assert (unwrap_end N (start qu) (end_ qu) - start qu = length h - st)%nat as Hu
    by (rewrite Hst, He; by apply (unwrap_sub k)).
  rewrite HN, Hu, (proj2 (Nat.leb_le (length h - st) N)) by lia. cbn [rassert mbind run_bind].
  assert (exists q1 n, (if (N <? length h - st + length msgs)%nat
             then send_overwrite qu (end_ qu) (length msgs) else Ret qu) = Ret q1
    /\ n = (length msgs - (N - (length h - st)))%nat /\ terminated q1 = false
    /\ inv (Build_sys q1 (WReady msgs (end_ qu)) RIdle h rc) N (st + n)) as (q1 & n & -> & Hn & Ht1 & H2).
  { destruct (Nat.ltb_spec N (length h - st + length msgs)).
    - destruct (inv_send_overwrite s1 N st msgs _ _ H1 eq_refl eq_refl) as (q1 & n & Hq & Hn & H2).
      exists q1, n. split_and!; [done..| |exact H2]. by apply send_overwrite_terminated in Hq as ->.
    - exists qu, 0%nat. split_and!; [done|lia|done|]. rewrite Nat.add_0_r.
      apply (inv_send_fits s1 N st msgs (start qu) (end_ qu) H1 eq_refl).
      unfold looks_full. change (q s1) with qu. rewrite HN, Hu, (proj2 (Nat.leb_le _ _)), (proj2 (Nat.ltb_ge _ _)) by lia. done. }
  cbn [mbind run_bind].
  destruct (inv_send_copy _ _ _ msgs _ H2 eq_refl) as (q2 & Hq2 & H3). cbn in Hq2. rewrite Hq2.
  cbn [mbind run_bind]. eexists. split; [done|].
  assert (terminated q2 = false /\ size q2 = N) as [Ht2 Hs2].
  { apply send_copy_frame in Hq2 as [Hs2 ->]. pose proof (inv_size _ _ _ H2) as Hs1. cbn in Hs1. split; [done|congruence]. }
  split_and!; [exact Hs2|exact Ht2|]. exists N, (st + n)%nat, (h ++ msgs), rc.
  split; [by apply (inv_send_commit _ _ _ msgs _ H3)|].
  rewrite <- drop_app_le, drop_drop by lia. rewrite length_drop, length_app. f_equal. lia.
Qed.

Lemma raw_recv_models qu l n :
  models qu l -> l <> [] ->
  exists qu', raw_recv qu n = Ret (qu', Ok (take n l)) /\ size qu' = size qu
    /\ terminated qu' = terminated qu /\ models qu' (drop n l).
Proof.
  intros (N & st & h & rc & Hi & ->) Hl. pose proof (inv_size _ _ _ Hi) as HN. cbn in HN.
  pose proof (inv_range _ _ _ Hi) as Hr. cbn in Hr.
  assert (st < length h)%nat as Hlt.
  { destruct (decide (st < length h)%nat); [done|]. by rewrite drop_ge in Hl by lia. }
  pose proof (inv_recv_load _ _ _ (RecvN n) Hi eq_refl) as H1. destruct (inv_pow _ _ _ Hi) as [k Hk].
  pose proof (inv_start _ _ _ Hi) as Hst. pose proof (inv_end _ _ _ Hi) as He. cbn in Hst, He.
  destruct (inv_recv_copy _ _ _ (RecvN n) _ _ H1 eq_refl) as (q1 & xs & Hq1 & H2). cbn in Hq1, H2.
  assert (xs = take n (drop st h)) as Hxs.
  { rewrite Hst, He in Hq1. pose proof (inv_cells _ _ _ Hi) as Hc. cbn in Hc.
    rewrite (recv_copy_ok k N Hk qu st _ h _ _ HN Hc) in Hq1; [|lia|done|].
    - run_inv. rewrite <- length_drop. apply take_min_length.
    - intros p Hp. rewrite content_hist by (done || lia). done. }
  unfold raw_recv. destruct (Nat.eqb_spec (start qu) (end_ qu)) as [Heq|_].
  { pose proof (inv_empty _ _ _ Hi Heq). cbn in *. lia. }
  rewrite Hq1. cbn [mbind run_bind]. apply recv_copy_frame in Hq1 as [Hs1 Ht1].
  subst xs. eexists. split; [done|]. split_and!; [exact Hs1|exact Ht1|].
  pose proof (inv_recv_commit _ _ _ _ _ _ H2 eq_refl) as H3.
  eexists N, _, h, _. split; [exact H3|]. rewrite drop_drop, length_take, length_drop.
  destruct (decide (n <= length h - st)%nat); [by rewrite Nat.min_l by lia|].
  by rewrite !drop_ge by lia.
Qed.

Lemma raw_recv_empty qu n :
  models qu [] -> raw_recv qu n = Ret (qu, Err (if terminated qu then Terminated None None else Timeout)).
Proof.
  intros (N & st & h & rc & Hi & Hl). unfold raw_recv.
  destruct (Nat.eqb_spec (start qu) (end_ qu)) as [|Hne]; [done|].
  pose proof (inv_nonempty _ _ _ Hi Hne) as Hlt. cbn in Hlt.
  apply (f_equal length) in Hl. rewrite length_drop in Hl. cbn in Hl. lia.
Qed.

(** Dropping the queue drops exactly the pending messages. *)
Lemma drop_queue_models qu l :
  models qu l -> exists b, drop_queue qu = Ret b /\ Forall (fun c => c = None) b.
Proof.
  intros (N & st & h & rc & [Hs [k Hk] Hr Hst He Hc _ _ _ _] & ->). cbn in *.
  unfold drop_queue. rewrite Hs, Hst, He, (unwrap_sub k N Hk) by lia.
  rewrite (proj2 (Nat.leb_le _ N)) by lia. cbn [rassert mbind run_bind].
  destruct (drop_cells_ok k N Hk _ _ _ (length h - st) Hc) as (b & Hb & Hcb); [lia| |].
  { intros p Hp. rewrite content_hist by (done || lia). apply lookup_lt_is_Some_2. cbn. lia. }
  exists b. split; [done|]. apply (cells_all k N Hk _ _ _ _ Hcb). intros p Hp. cbn beta.
  case_decide; [done|]. rewrite content_hist by (done || lia). apply lookup_ge_None_2. cbn. lia.
Qed.

(** Operations of a single thread, and what the caller sees of them. *)
Inductive op := OSendAll (msgs : list T) | ORecvAll (capacity : nat) | OClose.

Inductive out :=
| OutSend (msgs_left : list T) (r : result unit (Error T))
| OutRecv (r : result (list T) (Error T))
| OutClose.

Definition exec_op (qu : OverwriteQueue T) (o : op) : run (OverwriteQueue T * out) :=
  match o with
  | OSendAll msgs => '(qu, rest, r) ← send_all qu msgs; Ret (qu, OutSend rest r)
  | ORecvAll n => '(qu, r) ← recv qu (RecvAll n); Ret (qu, OutRecv r)
  | OClose => Ret (close qu, OutClose)
  end.

Fixpoint exec_ops (qu : OverwriteQueue T) (os : list op) : run (OverwriteQueue T * list out) :=
  match os with
  | [] => Ret (qu, [])
  | o :: os => '(qu, x) ← exec_op qu o; '(qu, xs) ← exec_ops qu os; Ret (qu, x :: xs)
  end.

(** The promise: a list of at most [size] messages that loses its oldest ones. *)
Definition spec_op (size : nat) (st : list T * bool) (o : op) : (list T * bool) * out :=
  let '(l, closed) := st in
  match o with
  | OSendAll msgs =>
      if closed : bool then (st, OutSend msgs (Err (Terminated None None)))
      else if (size <? length msgs)%nat then (st, OutSend msgs (Err (BatchTooLarge None)))
      else ((drop (length (l ++ msgs) - size) (l ++ msgs), closed), OutSend [] (Ok tt))
  | ORecvAll n =>
      match l with
      | [] => (st, OutRecv (Err (if closed then Terminated None None else Timeout)))
      | _ => ((drop n l, closed), OutRecv (Ok (take n l)))
      end
  | OClose => ((l, true), OutClose)
  end.

Fixpoint spec_ops (size : nat) (st : list T * bool) (os : list op) : (list T * bool) * list out :=
  match os with
  | [] => (st, [])
  | o :: os =>
      let '(st, x) := spec_op size st o in
      let '(st, xs) := spec_ops size st os in (st, x :: xs)
  end.

Lemma exec_op_refines qu l o :
  models qu l ->
  let '((l', closed), x) := spec_op (size qu) (l, terminated qu) o in
  exists qu', exec_op qu o = Ret (qu', x) /\ models qu' l' /\ terminated qu' = closed /\ size qu' = size qu.
Proof.
  intros Hm. destruct o as [msgs|n|]; cbn [spec_op exec_op].
  - unfold send_all. destruct (terminated qu) eqn:Ht.
    { unfold raw_send. rewrite Ht. by exists qu. }
    destruct (Nat.ltb_spec (size qu) (length msgs)) as [Hlt|Hle].
    { unfold raw_send. rewrite Ht, (proj2 (Nat.ltb_lt _ _)) by done. by exists qu. }
    destruct (raw_send_models qu l msgs Hm Ht Hle) as (qu' & -> & ? & ? & ?). by exists qu'.
  - unfold recv. cbn [rassert mbind run_bind buf_size_of]. destruct l as [|x l].
    { rewrite raw_recv_empty by done. by exists qu. }
    destruct (raw_recv_models qu (x :: l) n Hm) as (qu' & -> & ? & ? & ?); [done|]. by exists qu'.
  - eexists. split; [done|]. destruct Hm as (N & st & h & rc & Hi & ->). split_and!; [|done..].
    exists N, st, h, rc. split; [|done]. destruct Hi as [? ? ? ? ? ? ? ? ? ?]. by split.
Qed.

Lemma spec_ops_bound os : forall N l c,
  (length l <= N)%nat -> (length (spec_ops N (l, c) os).1.1 <= N)%nat.
Proof.
  induction os as [|o os IH]; intros N l c Hl; [done|]. cbn [spec_ops].
  assert (length (spec_op N (l, c) o).1.1 <= N)%nat as Ho.
  { destruct o; cbn; [|by destruct l; cbn; rewrite ?length_drop; cbn in *; lia|done].
    destruct c; [done|]. case_goal; cbn; rewrite ?length_drop; lia. }
  destruct (spec_op N (l, c) o) as [[l1 c1] x]. specialize (IH N l1 c1 Ho).
  by destruct (spec_ops N (l1, c1) os).
Qed.

Lemma exec_ops_refines os : forall qu l,
  models qu l ->
  let '((l', closed), xs) := spec_ops (size qu) (l, terminated qu) os in
  exists qu', exec_ops qu os = Ret (qu', xs) /\ models qu' l' /\ terminated qu' = closed.
Proof.
  induction os as [|o os IH]; intros qu l Hm; cbn [spec_ops exec_ops]; [by exists qu|].
  pose proof (exec_op_refines qu l o Hm) as Ho. destruct (spec_op _ _ _) as [[l1 c1] x].
  destruct Ho as (q1 & -> & Hm1 & Ht1 & Hs1). cbn [mbind run_bind].
  specialize (IH q1 l1 Hm1). rewrite Ht1, Hs1 in IH. destruct (spec_ops _ _ _) as [[l2 c2] xs].
  destruct IH as (q2 & -> & ? & ?). by exists q2.
Qed.

(** C12: for every capacity and every sequence of [send_all], [recv_all] and [close], the queue
    answers exactly like a list of at most [size] messages that drops its oldest ones to
    make room; rejected batches are handed back, and dropping the queue afterwards drops
    every message it still holds. *)
Theorem queue_refines_bounded_list n os :
  let '((l, _), xs) := spec_ops (next_power_of_two n) ([], false) os in
  exists qu, exec_ops (with_capacity n) os = Ret (qu, xs) /\ models qu l
    /\ (length l <= next_power_of_two n)%nat
    /\ exists b, drop_queue qu = Ret b /\ Forall (fun c => c = None) b.
Proof.
  assert (models (with_capacity n) []) as H0 by (exists (next_power_of_two n), 0%nat, [], []; split; [apply inv_init|done]).
  pose proof (exec_ops_refines os _ _ H0) as H. cbn [terminated size with_capacity] in H.
  destruct (spec_ops _ _ _) as [[l c] xs] eqn:E. destruct H as (qu & Hq & Hm & _).
  exists qu. split_and!; [done..| |by eapply drop_queue_models].
  pose proof (spec_ops_bound os (next_power_of_two n) [] false) as Hb. rewrite E in Hb. apply Hb. cbn. lia.
Qed.

End refinement.

(** ** Races of the receiver's wait loop *)

Section execution.
Context {T : Type}.

(** The scheduler's choices; [exec] performs one, if it is enabled. *)
Inductive action :=
| ASendLoad (msgs : list T) | ASendReserve | ASendCopy | ASendCommit
| ARecvStart (m : recv_mode) | ARecvWake | ARecvCopy | ARecvCommit.

Definition exec (limit : nat) (a : action) (s : sys) : option (run (@sys T)) :=
  match a with
  | ASendLoad msgs =>
      match writer s with
      | WIdle => if (length msgs <=? limit)%nat && (length msgs <=? size (q s))%nat
                 then Some (Ret (s <| writer := WLoaded msgs (start (q s)) (end_ (q s)) |>)) else None
      | _ => None
      end
  | ASendReserve =>
      match writer s with
      | WLoaded msgs st re =>
          match looks_full (q s) st re (length msgs) with
          | Ret true =>
              if reader_lock_free s
              then Some (qu ← send_overwrite (q s) re (length msgs);
                         Ret (s <| q := qu |> <| writer := WReady msgs re |>)) else None
          | Ret false => Some (Ret (s <| writer := WReady msgs re |>))
          | Panic => Some Panic
          end
      | _ => None
      end
  | ASendCopy =>
      match writer s with
      | WReady msgs re =>
          Some (qu ← send_copy (q s) re msgs; Ret (s <| q := qu |> <| writer := WCopied msgs re |>))
      | _ => None
      end
  | ASendCommit =>
      match writer s with
      | WCopied msgs re =>
          Some (Ret (s <| q := send_commit (q s) re (length msgs) |> <| writer := WIdle |>
                       <| hist := hist s ++ msgs |>))
      | _ => None
      end
  | ARecvStart m =>
      match reader s with
      | RIdle =>
          if (start (q s) =? end_ (q s))%nat then
            if terminated (q s) then None else Some (Ret (s <| reader := RWait m (end_ (q s)) |>))
          else Some (Ret (s <| reader := RLoaded m (start (q s)) (end_ (q s)) |>))
      | _ => None
      end
  | ARecvWake =>
      match reader s with
      | RWait m old =>
          if (end_ (q s) =? old)%nat then None
          else Some (Ret (s <| reader := RLoaded m (start (q s)) (end_ (q s)) |>))
      | _ => None
      end
  | ARecvCopy =>
      match reader s with
      | RLoaded m st re =>
          Some ('(qu, xs) ← recv_copy (q s) st re (buf_size_of m);
                Ret (s <| q := qu |> <| reader := RCopied m xs st |>))
      | _ => None
      end
  | ARecvCommit =>
      match reader s with
      | RCopied m xs st =>
          Some (ys ← recv_result m xs;
                Ret (s <| q := recv_commit (q s) st (length xs) |> <| reader := RIdle |>
                       <| received := received s ++ ys |>))
      | _ => None
      end
  end.

Lemma exec_sound limit a s r : exec limit a s = Some r -> step limit s r.
Proof.
  destruct a; cbn [exec]; intros H.
  - destruct (writer s) eqn:Hw; try done. case_match eqn:Hb; simplify_eq.
    apply andb_true_iff in Hb as [H1%Nat.leb_le H2%Nat.leb_le]. by constructor.
  - destruct (writer s) as [|msgs st re| |] eqn:Hw; try done.
    destruct (looks_full (q s) st re (length msgs)) as [[]|] eqn:Hf.
    + case_match; simplify_eq. by eapply step_send_overwrite.
    + simplify_eq. pose proof (step_send_fits limit s msgs st re Hw) as Hs. rewrite Hf in Hs. by apply Hs.
    + simplify_eq. pose proof (step_send_fits limit s msgs st re Hw) as Hs. rewrite Hf in Hs. by apply Hs.
  - destruct (writer s) eqn:Hw; simplify_eq. by constructor.
  - destruct (writer s) eqn:Hw; simplify_eq. by econstructor.
  - destruct (reader s) eqn:Hr; try done. destruct (Nat.eqb_spec (start (q s)) (end_ (q s))).
    + destruct (terminated (q s)) eqn:Ht; simplify_eq. by apply step_recv_wait.
    + simplify_eq. by apply step_recv_load.
  - destruct (reader s) eqn:Hr; try done.
    destruct (Nat.eqb_spec (end_ (q s)) old_end); simplify_eq. by eapply step_recv_wake.
  - destruct (reader s) eqn:Hr; simplify_eq. by constructor.
  - destruct (reader s) eqn:Hr; simplify_eq. by constructor.
Qed.

Fixpoint exec_all (limit : nat) (s : sys) (acts : list action) : option (@sys T) :=
  match acts with
  | [] => Some s
  | a :: acts =>
      match exec limit a s with Some (Ret s) => exec_all limit s acts | _ => None end
  end.

Lemma exec_all_reachable limit n acts : forall s s',
  reachable limit n s -> exec_all limit s acts = Some s' -> reachable limit n s'.
Proof.
  induction acts as [|a acts IH]; intros s s' Hr H; cbn in H; [by simplify_eq|].
  destruct (exec limit a s) as [[s1|]|] eqn:E; try done.
  eapply IH; [|done]. eapply reach_step; [done|]. by apply (exec_sound limit a).
Qed.

End execution.

Definition send_acts {T} (msgs : list T) : list action :=
  [ASendLoad msgs; ASendReserve; ASendCopy; ASendCommit].

(** [recv] can reach its [unreachable!] and abort the agent: the receiver waits, one message
    arrives, and before the receiver runs again a batch as large as the queue has
    overwritten that message without having stored its own end yet.  The receiver sees
    that [end] moved, copies nothing, and aborts. *)
Theorem recv_reaches_unreachable :
  exists s : @sys nat, reachable 4 4 s /\ step 4 s Panic.
Proof.
  assert (exists s, exec_all 4 (init 4) ([ARecvStart RecvOne] ++ send_acts [1%nat]
    ++ [ASendLoad [2%nat; 3%nat; 4%nat; 5%nat]; ASendReserve; ARecvWake; ARecvCopy]) = Some s
    /\ exec 4 ARecvCommit s = Some Panic) as (s & Hs & Hp) 
    by (eexists; split; [vm_compute; reflexivity|vm_compute; reflexivity]).
  exists s. split; [|by apply exec_sound in Hp].
  eapply exec_all_reachable; [apply reach_init|exact Hs].
Qed.

(** A wakeup can be lost: when exactly twice the queue's size was sent since the receiver
    went to sleep, [end] is back at its old value, the receiver takes the notification
    for a spurious one, and goes back to sleep before a full queue. *)
Theorem recv_wakeup_lost :
  exists s : @sys nat, reachable 4 4 s
    /\ (exists m, reader s = RWait m (end_ (q s))) /\ writer s = WIdle /\ pending (q s) = size (q s).
Proof.
  assert (exists s, exec_all 4 (init 4) ([ARecvStart RecvOne]
    ++ send_acts [1%nat; 2%nat; 3%nat; 4%nat] ++ send_acts [5%nat; 6%nat; 7%nat; 8%nat]) = Some s
    /\ (exists m, reader s = RWait m (end_ (q s))) /\ writer s = WIdle /\ pending (q s) = size (q s))
    as (s & Hs & Hp).
  { eexists. split; [vm_compute; reflexivity|]. split; [|split; vm_compute; reflexivity].
    eexists. vm_compute. reflexivity. }
  exists s. split; [|exact Hp]. eapply exec_all_reachable; [apply reach_init|exact Hs].
Qed.

(** ** Release of the allocation shared by the handles *)

Inductive phase := Live | Stored | Gone.

(** [RefCounter], with the progress of the last [Sender]'s, the [Receiver]'s and
    the [StatsHandle]'s drop, and the number of times the box was freed. *)
Record RefCounter := {
  senders : nat;
  sender_dropped : bool;
  receiver_dropped : bool;
  stats_handle_dropped : bool;
  sender_phase : phase;
  receiver_phase : phase;
  stats_phase : phase;
  freed : nat;
}.

#[export] Instance RefCounter_fields : Fields RefCounter := fun x =>
  Build_RefCounter (senders x) (sender_dropped x) (receiver_dropped x) (stats_handle_dropped x)
    (sender_phase x) (receiver_phase x) (stats_phase x) (freed x).

Definition RefCounter_new : RefCounter := Build_RefCounter 1 false false false Live Live Live 0.

Definition free_if (c : RefCounter) (b : bool) : RefCounter :=
  if b then c <| freed := S (freed c) |> else c.

Inductive handle_step (c : RefCounter) : RefCounter -> Prop :=
| sender_clone :
    sender_phase c = Live -> handle_step c (c <| senders := S (senders c) |>)
| sender_drop_other n :
    senders c = S (S n) -> handle_step c (c <| senders := S n |>)
| sender_drop_last :
    sender_phase c = Live -> senders c = 1%nat ->
    handle_step c (c <| senders := 0%nat |> <| sender_dropped := true |> <| sender_phase := Stored |>)
| sender_check :
    sender_phase c = Stored ->
    handle_step c (free_if (c <| sender_phase := Gone |>) (receiver_dropped c && stats_handle_dropped c))
| receiver_drop :
    receiver_phase c = Live ->
    handle_step c (c <| receiver_dropped := true |> <| receiver_phase := Stored |>)
| receiver_check :
    receiver_phase c = Stored ->
    handle_step c (free_if (c <| receiver_phase := Gone |>) (sender_dropped c && stats_handle_dropped c))
| stats_drop :
    stats_phase c = Live ->
    handle_step c (c <| stats_handle_dropped := true |> <| stats_phase := Stored |>)
| stats_check :
    stats_phase c = Stored ->
    handle_step c (free_if (c <| stats_phase := Gone |>) (sender_dropped c && receiver_dropped c)).

Definition is_live (p : phase) : bool := match p with Live => true | _ => false end.
Definition is_gone (p : phase) : bool := match p with Gone => true | _ => false end.

(** A flag is set exactly when its handle has started to drop, and as soon as the
    three are set, the box is freed or one of the drops has its test still ahead. *)
Definition handles_ok (c : RefCounter) : Prop :=
  sender_dropped c = negb (is_live (sender_phase c))
  /\ receiver_dropped c = negb (is_live (receiver_phase c))
  /\ stats_handle_dropped c = negb (is_live (stats_phase c))
  /\ (is_gone (sender_phase c) && is_gone (receiver_phase c) && is_gone (stats_phase c) = true ->
      (1 <= freed c)%nat).

Lemma handles_ok_step c c' : handles_ok c -> handle_step c c' -> handles_ok c'.
Proof.
  destruct c as [n sd rd td sp rp tp fr]. unfold handles_ok. cbn.
  intros (-> & -> & -> & Hf) Hs.
  destruct sp, rp, tp; inversion Hs; subst; cbn in *; try done; split_and!; try done; lia.
Qed.

(** The box shared by the handles is never leaked: in every interleaving of cloning and
    dropping, once the drops of the last sender, the receiver and the statistics handle
    have finished, it has been freed. *)
Theorem handles_never_leak c :
  rtc handle_step RefCounter_new c ->
  sender_phase c = Gone -> receiver_phase c = Gone -> stats_phase c = Gone -> (1 <= freed c)%nat.
Proof.
  intros Hr H1 H2 H3. assert (handles_ok c) as (_ & _ & _ & Hf).
  { clear H1 H2 H3. remember RefCounter_new as c0 eqn:E. assert (handles_ok c0) as H0 by by subst.
    clear E. induction Hr; [done|]. apply IHHr. by eapply handles_ok_step. }
  apply Hf. by rewrite H1, H2, H3.
Qed.

(** but it can be freed twice: after the statistics handle is gone, a sender and the receiver
    that drop concurrently both store their flag before either tests the other's, and both
    tests succeed. *)
Theorem handles_double_free :
  exists c, rtc handle_step RefCounter_new c /\ freed c = 2%nat.
Proof.
  eexists. split.
  - eapply rtc_l; [by apply stats_drop|]. eapply rtc_l; [by apply stats_check|].
    eapply rtc_l; [by apply sender_drop_last|]. eapply rtc_l; [by apply receiver_drop|].
    eapply rtc_l; [by apply sender_check|]. eapply rtc_l; [by apply receiver_check|]. apply rtc_refl.
  - done.
Qed.

(** ** Witnesses *)

Lemma handles_never_leak_witness : exists c, rtc handle_step RefCounter_new c /\ (1 <= freed c)%nat.
Proof.
  exists (Build_RefCounter 0 true true true Gone Gone Gone 1).
  assert (rtc handle_step RefCounter_new (Build_RefCounter 0 true true true Gone Gone Gone 1)) as H.
  { eapply rtc_l; [by apply stats_drop|]. eapply rtc_l; [by apply stats_check|].
    eapply rtc_l; [by apply sender_drop_last|]. eapply rtc_l; [by apply sender_check|].
    eapply rtc_l; [by apply receiver_drop|]. eapply rtc_l; [by apply receiver_check|]. apply rtc_refl. }
  split; [exact H|]. apply (handles_never_leak _ H); reflexivity.
Defined.

(** A sender under way on a queue of four. *)
Definition sending : @sys nat := (init 4) <| writer := WLoaded [7%nat] 0 0 |>.

Lemma sending_reachable : reachable 3 4 sending.
Proof.
  eapply reach_step; [apply reach_init|].
  by apply (exec_sound 3 (ASendLoad [7%nat])).
Qed.

Lemma sending_step : step 3 sending (Ret (sending <| writer := WReady [7%nat] 0 |>)).
Proof. by apply (exec_sound 3 ASendReserve). Qed.

Lemma queue_interleavings_safe_witness :
  (exists s', Ret (sending <| writer := WReady [7%nat] 0 |>) = Ret s')
  \/ (exists rs, reader sending = RCopied RecvOne [] rs).
Proof. exact (queue_interleavings_safe 3 4 sending _ sending_reachable sending_step). Defined.

Lemma small_batches_never_panic_witness : Ret (sending <| writer := WReady [7%nat] 0 |>) <> Panic.
Proof. refine (small_batches_never_panic 3 4 sending _ _ sending_reachable sending_step). cbn. lia. Defined.

