(* ===== verification/DecapSafety.v ===== *)
(** * Decapsulation stays inside the packet (common/decapsulate.rs)

    What one layer promises ([layer_ok]): the offset it returns lies inside the
    packet, the packet keeps its length, and the tunnel information of the
    outermost layer is the one kept.  IPv6 layers always return; an IPv4 layer
    panics exactly when its header length field points behind the packet. *)

From S2P Require Import Prelude Bytes Consts TunnelType Decapsulate.

(** ** Reads at known offsets *)

Lemma wp_slice bs i : 0 <= i <= len bs ->
  wp (slice_from bs i) (fun r => r = drop (Z.to_nat i) bs /\ len r = len bs - i).
Proof. intros. rewrite slice_from_ret by done. split; [done|]. by apply len_drop. Qed.

Lemma wp_index bs i : 0 <= i < len bs -> wp (index bs i) (fun b => index bs i = Ret b).
Proof. intros H. destruct (index_ret bs i H) as (b & -> & _). done. Qed.

Lemma wp_read {A} (read : bytes -> run A) n bs i :
  (forall bs, n <= len bs -> exists v, read bs = Ret v) -> 0 <= i -> 0 <= n -> i + n <= len bs ->
  wp (slice_from bs i ≫= read) (fun v => (slice_from bs i ≫= read) = Ret v).
Proof.
  intros Hr Hi Hn Hl. rewrite slice_from_ret by lia. cbn [mbind run_bind].
  destruct (Hr (drop (Z.to_nat i) bs)) as [v ->]; [rewrite len_drop; lia|done].
Qed.

Lemma wp_read32 bs i : 0 <= i -> i + 4 <= len bs ->
  wp (slice_from bs i ≫= read_u32_be) (fun v => (slice_from bs i ≫= read_u32_be) = Ret v).
Proof. intros. apply (wp_read _ 4); [apply read_u32_be_ret|lia..]. Qed.

Lemma wp_read16_le bs i : 0 <= i -> i + 2 <= len bs ->
  wp (slice_from bs i ≫= read_u16_le) (fun v => (slice_from bs i ≫= read_u16_le) = Ret v).
Proof. intros. apply (wp_read _ 2); [apply read_u16_le_ret|lia..]. Qed.

Lemma wp_read16_be bs i : 0 <= i -> i + 2 <= len bs ->
  wp (slice_from bs i ≫= read_u16_be) (fun v => (slice_from bs i ≫= read_u16_be) = Ret v).
Proof. intros. apply (wp_read _ 2); [apply read_u16_be_ret|lia..]. Qed.

(** Unfold the layout constants. *)
Ltac sizes := unfold ETH_HEADER_SIZE, VLAN_HEADER_SIZE, IPV4_HEADER_SIZE, IPV6_HEADER_SIZE, UDP_HEADER_SIZE,
  VXLAN_HEADER_SIZE, GENEVE_HEADER_SIZE, GRE_HEADER_SIZE_DECAP, ERSPAN_III_HEADER_SIZE,
  ERSPAN_III_SUBHEADER_SIZE, UDP_PACKET_SIZE, UDP6_PACKET_SIZE, FIELD_OFFSET_DA, FIELD_OFFSET_SA,
  FIELD_OFFSET_ETH_TYPE, FIELD_OFFSET_PROTO, FIELD_OFFSET_SIP, FIELD_OFFSET_DIP, FIELD_OFFSET_SPORT,
  FIELD_OFFSET_DPORT, FIELD_OFFSET_VXLAN_FLAGS, FIELD_OFFSET_VXLAN_VNI, IP_IHL_OFFSET, IP6_PROTO_OFFSET,
  IP6_SIP_OFFSET, IP6_DIP_OFFSET, UDP_DPORT_OFFSET, PORT_LEN, VXLAN_FLAGS_OFFSET_DECAP,
  VXLAN_VNI_OFFSET_DECAP, GENEVE_VERSION_OFFSET, GENEVE_PROTOCOL_OFFSET, GENEVE_VNI_OFFSET,
  GRE_FLAGS_OFFSET, GRE_PROTOCOL_OFFSET, TUNNEL_TIER_LIMIT in *.

(** Run the next read of a computation whose offsets are known to fit. *)
Ltac wp_step :=
  lazymatch goal with
  | |- wp (slice_from _ _ ≫= read_u32_be) _ => eapply wp_mono; [apply wp_read32; sizes; lia|intros ? _; cbv beta]
  | |- wp (slice_from _ _ ≫= read_u16_le) _ => eapply wp_mono; [apply wp_read16_le; sizes; lia|intros ? _; cbv beta]
  | |- wp (slice_from _ _ ≫= read_u16_be) _ => eapply wp_mono; [apply wp_read16_be; sizes; lia|intros ? _; cbv beta]
  | |- wp (copy_within _ _ _ ≫= _) _ => fail
  | |- wp (_ ≫= _) _ => apply wp_bind
  | |- wp (slice_from _ _) _ => eapply wp_mono; [apply wp_slice; sizes; lia|intros ? [? ?]; cbv beta]
  | |- wp (index _ _) _ => eapply wp_mono; [apply wp_index; sizes; lia|]; let H := fresh in intros ? H; cbv beta in H |- *
  | |- wp (Ret _) _ => cbn [wp]
  end.

Ltac wp_if := match goal with |- wp (if ?b then _ else _) _ => destruct b eqn:? end.

(** ** What one layer promises *)

(** The outermost tunnel is recorded; a further one only counts. *)
Definition info_step (self self' : TunnelInfo) : Prop :=
  tier self' = tier self + 1 /\ from self' = from self
  /\ (tier self = 0 -> tunnel_type self' ∈ [Vxlan; Geneve; Ipip])
  /\ (tier self <> 0 -> self' = self <| tier := tier self + 1 |>).

(** No tunnel, or one whose headers behind the L2 header take [r.2] of [n] bytes. *)
Definition outer_ok (self : TunnelInfo) (n : Z) (r : TunnelInfo * Z) : Prop :=
  r = (self, 0) \/ 0 < r.2 <= n /\ info_step self r.1.

Definition layer_ok (self : TunnelInfo) (packet : bytes) (l2_len : Z) (r : TunnelInfo * bytes * Z) : Prop :=
  let '(self', packet', offset) := r in
  len packet' = len packet
  /\ (offset = 0 -> self' = self /\ packet' = packet)
  /\ (offset <> 0 -> 0 <= wadd 64 l2_len offset <= len packet /\ info_step self self').

Definition l2_ok (packet : bytes) (l2_len : Z) : Prop :=
  l2_len ∈ [14; 18; 22] /\ l2_len <= len packet /\ fits 63 (len packet).

Definition tier_ok (self : TunnelInfo) : Prop := 0 <= tier self <= TUNNEL_TIER_LIMIT.

Lemma l2_ok_bounds packet l2_len : l2_ok packet l2_len ->
  14 <= l2_len <= 22 /\ l2_len mod 4 = 2 /\ l2_len <= len packet < 2 ^ 63.
Proof.
  intros (Hin & ? & [? ?]). rewrite !elem_of_cons, elem_of_nil in Hin.
  destruct Hin as [->|[->|[->|[]]]]; (split; [lia|]; split; [done|lia]).
Qed.

Lemma info_step_first self self' :
  tier self = 0 -> tier self' = 0 -> from self' = from self ->
  tunnel_type self' ∈ [Vxlan; Geneve; Ipip] -> info_step self (next_tier self').
Proof. intros H0 H0' Hf Ht. split; [cbn; by rewrite H0, H0'|]. split; [done|]. split; [done|lia]. Qed.

Lemma info_step_again self : tier self <> 0 -> tier_ok self -> info_step self (next_tier self).
Proof.
  intros H0 Hok. unfold tier_ok in *. sizes.
  assert (wadd 8 (tier self) 1 = tier self + 1) as He by (unfold wadd, wrap; rewrite Z.mod_small; lia).
  unfold next_tier. rewrite He. by split.
Qed.

(** The record of the outermost layer: addresses and MACs are read in range. *)
Lemma decapsulate_addr_ok self l3 : 20 <= len l3 ->
  wp (decapsulate_addr self l3) (fun s => exists a b, s = self <| src := a |> <| dst := b |>).
Proof. intros. unfold decapsulate_addr. repeat wp_step. by eexists _, _. Qed.

Lemma decapsulate_v6_addr_ok self l3 : 40 <= len l3 ->
  wp (decapsulate_v6_addr self l3) (fun s => exists a b, s = self <| src := a |> <| dst := b |>).
Proof. intros. unfold decapsulate_v6_addr. repeat wp_step. by eexists _, _. Qed.

Lemma decapsulate_mac_ok self packet : 12 <= len packet ->
  wp (decapsulate_mac self packet) (fun s => exists a b, s = self <| mac_src := a |> <| mac_dst := b |>).
Proof. intros. unfold decapsulate_mac. repeat wp_step. by eexists _, _. Qed.

Ltac wp_record :=
  lazymatch goal with
  | |- wp (decapsulate_addr _ _) _ =>
      eapply wp_mono; [apply decapsulate_addr_ok; sizes; lia|intros ? (? & ? & ->); cbv beta]
  | |- wp (decapsulate_v6_addr _ _) _ =>
      eapply wp_mono; [apply decapsulate_v6_addr_ok; sizes; lia|intros ? (? & ? & ->); cbv beta]
  | |- wp (decapsulate_mac _ _) _ =>
      eapply wp_mono; [apply decapsulate_mac_ok; sizes; lia|intros ? (? & ? & ->); cbv beta]
  | _ => wp_step
  end.

(** Close a layer that recorded, or only counted, its tunnel. *)
Ltac outer_done :=
  repeat wp_record; first [by left|right; split; [cbn [snd]; sizes; lia|]; cbn [fst];
    first [apply info_step_first; [lia|cbn; lia|done|cbn; set_solver] | apply info_step_again; [lia|done]]].

Section layers.
Context (self : TunnelInfo) (packet : bytes) (l2_len : Z).
Context (Htier : tier_ok self) (Hl2 : l2_ok packet l2_len).

Lemma l2_bounds : 14 <= l2_len <= 22 /\ l2_len mod 4 = 2 /\ l2_len <= len packet < 2 ^ 63.
Proof. by apply l2_ok_bounds. Qed.

Lemma decapsulate_vxlan_ok :
  wp (decapsulate_vxlan self packet l2_len) (outer_ok self (len packet - l2_len)).
Proof.
  pose proof l2_bounds. unfold decapsulate_vxlan. repeat wp_step. wp_if; [outer_done|].
  repeat wp_step. wp_if; [outer_done|]. wp_step. wp_if; outer_done.
Qed.

Lemma decapsulate_v6_vxlan_ok : l2_len + 56 <= len packet ->
  wp (decapsulate_v6_vxlan self packet l2_len) (outer_ok self (len packet - l2_len)).
Proof.
  intros. pose proof l2_bounds. unfold decapsulate_v6_vxlan. repeat wp_step. wp_if; [outer_done|].
  repeat wp_step. wp_if; [outer_done|]. wp_step. wp_if; outer_done.
Qed.

(** A recognised Geneve header fits its payload. *)
Lemma decapsulate_geneve_header_ok payload :
  wp (decapsulate_geneve_header payload)
     (fun r => r.2 = 0 \/ GENEVE_HEADER_SIZE <= r.2 <= len payload).
Proof.
  unfold decapsulate_geneve_header. wp_if; [by left|]. repeat wp_step. wp_if; [by left|].
  assert (forall x, 0 <= wshl 8 x 2) as Hw by (intros; unfold wshl, wrap; apply Z.mod_pos_bound; lia).
  match goal with |- context [wshl 8 ?x 2] => pose proof (Hw x) end.
  wp_if; [by left|]. repeat wp_step. wp_if; [by left|]. repeat wp_step. right. cbn [snd]. sizes. lia.
Qed.

Lemma decapsulate_geneve_ok :
  wp (decapsulate_geneve self packet l2_len) (outer_ok self (len packet - l2_len)).
Proof.
  pose proof l2_bounds. unfold decapsulate_geneve. repeat wp_step. wp_if; [outer_done|].
  repeat wp_step. eapply wp_mono; [apply decapsulate_geneve_header_ok|]. intros [i n] Hn. cbn [fst snd] in *.
  wp_if; [outer_done|]. wp_step. wp_if; outer_done.
Qed.

Lemma decapsulate_v6_geneve_ok :
  wp (decapsulate_v6_geneve self packet l2_len) (outer_ok self (len packet - l2_len)).
Proof.
  pose proof l2_bounds. unfold decapsulate_v6_geneve. repeat wp_step. wp_if; [outer_done|].
  repeat wp_step. eapply wp_mono; [apply decapsulate_geneve_header_ok|]. intros [i n] Hn. cbn [fst snd] in *.
  wp_if; [outer_done|]. wp_step. wp_if; outer_done.
Qed.

Context {E : DecapEnum}.

Lemma decapsulate_udp_ok tunnel_types : 2 <= len packet ->
  wp (decapsulate_udp self packet l2_len tunnel_types) (outer_ok self (len packet - l2_len)).
Proof.
  intros. pose proof l2_bounds. unfold decapsulate_udp. repeat wp_step. wp_if; [outer_done|]. repeat wp_step.
  repeat (wp_if; [first [apply decapsulate_vxlan_ok | apply decapsulate_geneve_ok | by left | idtac]|]);
    [|by left].
  repeat wp_step. wp_if; [apply decapsulate_vxlan_ok|by left].
Qed.

Lemma decapsulate_v6_udp_ok tunnel_types : l2_len + 64 <= len packet ->
  wp (decapsulate_v6_udp self packet l2_len tunnel_types) (outer_ok self (len packet - l2_len)).
Proof.
  intros. pose proof l2_bounds. unfold decapsulate_v6_udp. repeat wp_step. wp_if; [outer_done|]. repeat wp_step.
  repeat (wp_if; [first [apply decapsulate_v6_vxlan_ok; lia | apply decapsulate_v6_geneve_ok | by left | idtac]|]);
    [|by left].
  repeat wp_step. wp_if; [apply decapsulate_v6_vxlan_ok; lia|by left].
Qed.

(** *** Header lengths *)

(** The IPv4 header length in bytes, from the low nibble of its first byte. *)
Definition ihl_bytes (l3_packet : bytes) : Z :=
  match l3_packet with b :: _ => 4 * (b mod 16) | [] => 0 end.

Lemma ihl_shl l3 b : index l3 IP_IHL_OFFSET = Ret b ->
  Z.shiftl (Z.land b 0xf) 2 = ihl_bytes l3 /\ wshl 8 (Z.land b 0xf) 2 = ihl_bytes l3
  /\ 0 <= ihl_bytes l3 <= 60 /\ ihl_bytes l3 mod 4 = 0.
Proof.
  destruct l3 as [|c l3]; cbn; [done|]. intros [= ->].
  change 15 with (Z.ones 4). rewrite Z.land_ones by lia.
  pose proof (Z.mod_pos_bound b 16). assert (Z.shiftl (b mod 2 ^ 4) 2 = 4 * (b mod 16)) as Hs.
  { rewrite Z.shiftl_mul_pow2 by lia. apply Z.mul_comm. }
  split; [done|]. split; [|split; [lia|]].
  - unfold wshl, wrap. rewrite Hs, Z.mod_small; [done|lia].
  - rewrite Z.mul_comm. by apply Z.mod_mul.
Qed.

Lemma wsub_wadd_l2 start : 14 <= l2_len <= 22 -> 0 <= start < 2 ^ 64 ->
  wadd 64 l2_len (wsub 64 start l2_len) = start.
Proof.
  intros. unfold wadd, wsub, wrap. rewrite Zplus_mod_idemp_r.
  rewrite Z.mod_small; lia.
Qed.

(** The end of IPIP: the L2 header is moved in front of the inner packet. *)
Lemma move_l2_ok self' start v :
  l2_ok packet l2_len -> info_step self self' ->
  0 <= start -> start mod 4 = 0 -> l2_len + start <= len packet ->
  wp (packet' ← copy_within packet l2_len start;
      packet' ← write_u16_be packet' (start + l2_len - 2) v;
      Ret (self', packet', wsub 64 start l2_len)) (layer_ok self packet l2_len).
Proof.
  intros Hok Hinfo H0 H4 Hfit. destruct (l2_ok_bounds _ _ Hok) as (Hb & Hm & Hle).
  destruct (copy_within_ret packet l2_len start) as (p1 & -> & Hl1 & _); [lia..|].
  cbn [mbind run_bind]. destruct (write_u16_be_ret p1 (start + l2_len - 2) v) as (p2 & -> & Hl2' & _); [lia..|].
  cbn [mbind run_bind wp layer_ok].
  pose proof (wsub_wadd_l2 start ltac:(lia) ltac:(lia)) as Hw.
  split; [congruence|]. split.
  - intros Hz. rewrite Hz in Hw. unfold wadd, wrap in Hw. rewrite Z.mod_small in Hw by lia.
    rewrite Z.add_0_r in Hw. subst. lia.
  - intros _. rewrite Hw. split; [lia|done].
Qed.

Ltac ihl_size Hi :=
  match goal with H : index _ _ = Ret _ |- _ =>
    let Hs := fresh in let Hw := fresh in
    destruct (ihl_shl _ _ H) as (Hs & Hw & Hi); rewrite ?Hs, ?Hw; clear Hs Hw
  end.

Ltac tier_is self := match goal with |- context [tier ?x =? 0] => change (tier x) with (tier self) end.

Lemma decapsulate_ipip_ok (underlay_ipv6 overlay_ipv6 : bool) :
  (if underlay_ipv6 then 40 else Z.max 20 (ihl_bytes (drop (Z.to_nat l2_len) packet))) + l2_len <= len packet ->
  wp (decapsulate_ipip self packet l2_len underlay_ipv6 overlay_ipv6) (layer_ok self packet l2_len).
Proof.
  intros Hfit. pose proof l2_bounds as (Hb & Hm & Hle). unfold decapsulate_ipip.
  assert (forall (self' : TunnelInfo) (size : Z), info_step self self' ->
    0 <= size -> size mod 4 = 0 -> l2_len + size <= len packet ->
    wp (A := TunnelInfo * bytes * Z) (packet' ← copy_within packet l2_len (l2_len + size - l2_len);
        packet' ← write_u16_be packet' (l2_len + size - l2_len + l2_len - 2)
          (if negb overlay_ipv6 then EthernetType.IPV4 else EthernetType.IPV6);
        Ret (self', packet', wsub 64 (l2_len + size - l2_len) l2_len)) (layer_ok self packet l2_len)) as Hend.
  { intros. replace (l2_len + size - l2_len) with size by lia. by apply move_l2_ok. }
  destruct underlay_ipv6; destruct (tier self =? 0) eqn:Et.
  - repeat wp_record. tier_is self. rewrite Et. repeat wp_record.
    apply Hend; [apply info_step_first; [lia|cbn; lia|done|cbn; set_solver]|sizes; try lia; done..].
  - repeat wp_record. rewrite Et. repeat wp_record.
    apply Hend; [apply info_step_again; [lia|done]|sizes; try lia; done..].
  - repeat wp_record. ihl_size Hi. subst. tier_is self. rewrite Et. repeat wp_record.
    apply Hend; [apply info_step_first; [lia|cbn; lia|done|cbn; set_solver]|sizes; try lia; done..].
  - repeat wp_record. ihl_size Hi. subst. tier_is self. rewrite Et. repeat wp_record.
    apply Hend; [apply info_step_again; [lia|done]|sizes; try lia; done..].
Qed.

(** *** GRE reads its header behind the length field *)

Lemma decapsulate_gre_ok tunnel_types :
  1 + l2_len <= len packet ->
  ihl_bytes (drop (Z.to_nat l2_len) packet) + 4 + l2_len <= len packet ->
  wp (decapsulate_gre self packet l2_len tunnel_types) (outer_ok self (len packet - l2_len)).
Proof.
  intros H1 Hfit. pose proof l2_bounds. unfold decapsulate_gre. wp_step. wp_step. wp_step. wp_step.
  ihl_size Hi. subst. repeat wp_step. repeat (wp_if; [by left|]). by left.
Qed.

Lemma decapsulate_gre_overrun tunnel_types :
  1 + l2_len <= len packet ->
  len packet < ihl_bytes (drop (Z.to_nat l2_len) packet) + 4 + l2_len ->
  decapsulate_gre self packet l2_len tunnel_types = Panic.
Proof.
  intros H1 Hover. pose proof l2_bounds. unfold decapsulate_gre.
  rewrite slice_from_ret by lia. cbn [mbind run_bind].
  set (l3 := drop (Z.to_nat l2_len) packet) in *. assert (len l3 = len packet - l2_len) as Hl by (apply len_drop; lia).
  destruct (index_ret l3 IP_IHL_OFFSET) as (b & Hb & _); [sizes; lia|]. rewrite Hb. cbn [mbind run_bind].
  ihl_size Hi. unfold GRE_FLAGS_OFFSET, GRE_PROTOCOL_OFFSET.
  assert (forall i, len l3 < i + 2 -> (slice_from l3 i ≫= read_u16_le) = Panic) as Hshort.
  { intros i Hi'. unfold slice_from. destruct (_ && _) eqn:Eb; [|done]. cbn [mbind run_bind].
    pose proof (len_drop l3 i ltac:(lia)) as Hd. unfold len in Hd at 1.
    destruct (drop (Z.to_nat i) l3) as [|x [|y r]]; cbn in *; [done|done|lia]. }
  rewrite (Hshort (ihl_bytes l3 + 2)) by lia. by destruct (slice_from _ _ ≫= read_u16_be).
Qed.

Lemma decapsulate_ipip_overrun overlay_ipv6 :
  20 + l2_len <= len packet ->
  len packet < ihl_bytes (drop (Z.to_nat l2_len) packet) + l2_len ->
  decapsulate_ipip self packet l2_len false overlay_ipv6 = Panic.
Proof.
  intros H20 Hover. pose proof l2_bounds. destruct (decapsulate_ipip _ _ _ _ _) as [r|] eqn:Er; [|done].
  exfalso. unfold decapsulate_ipip in Er.
  apply run_bind_Ret in Er as (s1 & _ & Er). rewrite slice_from_ret in Er by lia. cbn [mbind run_bind] in Er.
  set (l3 := drop (Z.to_nat l2_len) packet) in *.
  destruct (index l3 IP_IHL_OFFSET) as [b|] eqn:Hb; [|done]. cbn [mbind run_bind] in Er.
  destruct (ihl_shl _ _ Hb) as (_ & Hs & Hi). rewrite Hs in Er.
  apply run_bind_Ret in Er as (s2 & _ & Er). apply run_bind_Ret in Er as (p & Hc & _).
  unfold copy_within in Hc. destruct (_ && _) eqn:Eb; [lia|done].
Qed.

(** *** One layer *)

(** The length field of an IPv4 header that is used points behind the packet. *)
Definition header_overrun (tunnel_types : Z) (l3_packet : bytes) : bool :=
  match l3_packet !! Z.to_nat (FIELD_OFFSET_PROTO - ETH_HEADER_SIZE) with
  | Some protocol =>
      if protocol =? IpProtocol.GRE then len l3_packet <? ihl_bytes l3_packet + GRE_HEADER_SIZE_DECAP
      else if ((protocol =? IpProtocol.IPV4) || (protocol =? IpProtocol.IPV6)) && bitmap_has tunnel_types Ipip
      then len l3_packet <? ihl_bytes l3_packet
      else false
  | None => false
  end.

(** The layer is looked at at all. *)
Definition layer_active (tunnel_types min_len : Z) : bool :=
  negb (bitmap_is_empty tunnel_types) && negb (tier self =? TUNNEL_TIER_LIMIT)
  && (min_len <=? len packet - l2_len).

Lemma layer_none : layer_ok self packet l2_len (self, packet, 0).
Proof. done. Qed.

Lemma keep_ok m : wp m (outer_ok self (len packet - l2_len)) ->
  wp (keep packet m) (layer_ok self packet l2_len).
Proof.
  pose proof l2_bounds as (Hb & Hm & Hle). unfold keep. intros Hm'. apply wp_bind. eapply wp_mono; [exact Hm'|].
  intros [self' off] [[= -> ->]|[Hoff Hinfo]]; cbn in *; [apply layer_none|].
  split; [done|]. split; [lia|]. intros _. unfold wadd, wrap. rewrite Z.mod_small by lia. split; [lia|done].
Qed.

Lemma decapsulate_cases tunnel_types :
  if layer_active tunnel_types 44 && header_overrun tunnel_types (drop (Z.to_nat l2_len) packet)
  then decapsulate self packet l2_len tunnel_types = Panic
  else wp (decapsulate self packet l2_len tunnel_types) (layer_ok self packet l2_len).
Proof.
  pose proof l2_bounds as (Hb & Hm & Hle). unfold layer_active, decapsulate.
  destruct (bitmap_is_empty tunnel_types); [apply layer_none|].
  destruct (tier self =? TUNNEL_TIER_LIMIT); [apply layer_none|]. cbn [negb andb orb].
  rewrite slice_from_ret by lia. cbn [mbind run_bind].
  set (l3 := drop (Z.to_nat l2_len) packet) in *. assert (len l3 = len packet - l2_len) as Hl by (apply len_drop; lia).
  destruct (len l3 <? _) eqn:Hlt; sizes; cbn in Hlt.
  { rewrite (proj2 (Z.leb_gt _ _)) by lia. apply layer_none. }
  rewrite (proj2 (Z.leb_le _ _)) by lia. cbn [andb].
  destruct (index_ret l3 9) as (proto & Hidx & Hp); [lia|]. change (23 - 14) with 9. rewrite Hidx.
  unfold header_overrun. sizes. change (23 - 14) with 9. rewrite Hp. cbn [mbind run_bind].
  destruct (proto =? IpProtocol.UDP) eqn:Eu.
  { apply Z.eqb_eq in Eu as ->. cbn. apply keep_ok, decapsulate_udp_ok. lia. }
  destruct (proto =? IpProtocol.GRE) eqn:Eg.
  { destruct (len l3 <? ihl_bytes l3 + 4) eqn:Ho.
    - rewrite decapsulate_gre_overrun by (fold l3; lia). done.
    - apply keep_ok, decapsulate_gre_ok; fold l3; lia. }
  destruct (bitmap_has tunnel_types Ipip); rewrite ?andb_true_r, ?andb_false_r; cbn [andb]; [|apply layer_none].
  destruct (proto =? IpProtocol.IPV4), (proto =? IpProtocol.IPV6); cbn [orb]; try apply layer_none;
    (destruct (len l3 <? ihl_bytes l3) eqn:Ho; [apply decapsulate_ipip_overrun|apply decapsulate_ipip_ok]; fold l3; lia).
Qed.

Lemma decapsulate_v6_ok tunnel_types :
  wp (decapsulate_v6 self packet l2_len tunnel_types) (layer_ok self packet l2_len).
Proof.
  pose proof l2_bounds as (Hb & Hm & Hle). unfold decapsulate_v6.
  wp_if; [apply layer_none|]. wp_step. wp_step. wp_if; [apply layer_none|]. sizes. repeat wp_step.
  wp_if; [apply keep_ok, decapsulate_v6_udp_ok; lia|].
  repeat (wp_if; [apply decapsulate_ipip_ok; lia|]). apply layer_none.
Qed.

End layers.
