(* ===== verification/DecapTunnel.v ===== *)
(** * The dispatcher's tunnel stripping (dispatcher/base_dispatcher.rs)

    [BaseDispatcher::decap_tunnel] resets the tunnel information and strips at
    most two layers: each one parses the L2 header (with up to two VLAN tags),
    then hands the packet to [TunnelInfo::decapsulate] or [decapsulate_v6].
    The callers slice the packet at the length it returns. *)

From S2P Require Import Prelude Bytes Consts TapTypes TunnelType Decapsulate DecapSafety.

Inductive PacketCaptureType := Local | Mirror | Analyzer | Decap.

#[export] Instance PacketCaptureType_eq_dec : EqDecision PacketCaptureType.
Proof. solve_decision. Defined.

(** [Error::PacketInvalid], the only error on this path. *)
Inductive Error := PacketInvalid.

Definition OUTER_VLAN : Z := 8.
Definition INNER_VLAN : Z := 9.

Record CaptureNetworkTypeHandler := {
  tap_typer : CaptureNetworkTyper;
  default_tap_type : CaptureNetworkType.t;
  mirror_traffic_pcp : Z;
  capture_mode : PacketCaptureType;
}.

#[export] Instance CaptureNetworkTypeHandler_fields : Fields CaptureNetworkTypeHandler := fun x =>
  Build_CaptureNetworkTypeHandler (tap_typer x) (default_tap_type x) (mirror_traffic_pcp x) (capture_mode x).

(** The two VLAN tags, the ethernet type behind them and their size. *)
Definition vlan_tags (packet : bytes) : run (Z * Z * Z * Z) :=
  eth_type ← (slice_from packet FIELD_OFFSET_ETH_TYPE ≫= read_u16_be);
  if (eth_type =? EthernetType.DOT1Q) && (ETH_HEADER_SIZE + VLAN_HEADER_SIZE <=? len packet) then
    vlan_tag ← (slice_from packet ETH_HEADER_SIZE ≫= read_u16_be);
    let l2_opt_size := VLAN_HEADER_SIZE in
    eth_type ← (slice_from packet (FIELD_OFFSET_ETH_TYPE + l2_opt_size) ≫= read_u16_be);
    if (eth_type =? EthernetType.DOT1Q) && (ETH_HEADER_SIZE + 2 * VLAN_HEADER_SIZE <=? len packet) then
      let l2_opt_size := l2_opt_size + VLAN_HEADER_SIZE in
      eth_type ← (slice_from packet (FIELD_OFFSET_ETH_TYPE + l2_opt_size) ≫= read_u16_be);
      inner ← (slice_from packet (ETH_HEADER_SIZE + VLAN_HEADER_SIZE) ≫= read_u16_be);
      Ret (vlan_tag, inner, eth_type, l2_opt_size)
    else Ret (vlan_tag, vlan_tag, eth_type, l2_opt_size)
  else Ret (0, 0, eth_type, 0).

(** [if let Some(t) = self.tap_typer.get_tap_type_by_vlan(vlan) { .. }] *)
Definition tap_type_of (self : CaptureNetworkTypeHandler) (vlan : Z) (tap_type : CaptureNetworkType.t)
    : run (CaptureNetworkTypeHandler * CaptureNetworkType.t) :=
  '(typer, t) ← get_tap_type_by_vlan (tap_typer self) vlan;
  let self := self <| tap_typer := typer |> in
  match t with
  | Some t => if decide (t = CaptureNetworkType.Unknown) then Ret (self, tap_type) else Ret (self, t)
  | None => Ret (self, tap_type)
  end.

Definition get_l2_info (self : CaptureNetworkTypeHandler) (packet : bytes)
    : run (CaptureNetworkTypeHandler * (CaptureNetworkType.t * Z * Z)) :=
  '(outer_vlan_tag, inner_vlan_tag, eth_type, l2_opt_size) ← vlan_tags packet;
  let tap_type := default_tap_type self in
  '(self, tap_type) ←
    (if decide (capture_mode self = Analyzer) then
       if l2_opt_size =? 0 then tap_type_of self 0 tap_type
       else if mirror_traffic_pcp self =? OUTER_VLAN then
         tap_type_of self (Z.land outer_vlan_tag VLAN_ID_MASK) tap_type
       else if mirror_traffic_pcp self =? INNER_VLAN then
         tap_type_of self (Z.land inner_vlan_tag VLAN_ID_MASK) tap_type
       else if Z.land (Z.shiftr outer_vlan_tag 13) 0x7 =? mirror_traffic_pcp self then
         tap_type_of self (Z.land outer_vlan_tag VLAN_ID_MASK) tap_type
       else Ret (self, tap_type)
     else Ret (self, tap_type));
  Ret (self, (tap_type, eth_type, ETH_HEADER_SIZE + l2_opt_size)).

Section tunnel.
Context {E : DecapEnum}.

(** The state a call to the dispatcher threads: the handler whose typer it
    shares, the tunnel information and the packet buffer. *)
Definition state : Type := CaptureNetworkTypeHandler * TunnelInfo * bytes.

Definition base_decapsulate (st : state) (bitmap : Z)
    : run (state * result (Z * CaptureNetworkType.t) Error) :=
  let '(tap_type_handler, tunnel_info, packet) := st in
  if len packet <? ETH_HEADER_SIZE then Ret (st, Err PacketInvalid)
  else
    '(tap_type_handler, (tap_type, eth_type, l2_len)) ← get_l2_info tap_type_handler packet;
    '(tunnel_info, packet, offset) ←
      (if eth_type =? EthernetType.IPV4 then decapsulate tunnel_info packet l2_len bitmap
       else if eth_type =? EthernetType.IPV6 then decapsulate_v6 tunnel_info packet l2_len bitmap
       else Ret (tunnel_info, packet, 0));
    if offset =? 0 then Ret (tap_type_handler, tunnel_info, packet, Ok (0, tap_type))
    else Ret (tap_type_handler, tunnel_info, packet, Ok (wadd 64 l2_len offset, tap_type)).

(** What follows a layer inside the loop body. *)
Definition trim (trim_bitmap : Z) (tunnel_info : TunnelInfo) : TunnelInfo :=
  if bitmap_has trim_bitmap (tunnel_type tunnel_info)
  then reset_and_retain_erspan_from tunnel_info else tunnel_info.

(** The loop, [n] rounds before its end: [&mut packet[decap_len..]] is
    decapsulated in place. *)
Fixpoint tunnel_loop (n : nat) (first : bool) (bitmap trim_bitmap : Z) (st : state) (decap_len : Z)
    (tap_type : CaptureNetworkType.t) : run (state * result (Z * CaptureNetworkType.t) Error) :=
  match n with
  | O => Ret (st, Ok (decap_len, tap_type))
  | S n =>
      let '(h, tunnel_info, packet) := st in
      rest ← slice_from packet decap_len;
      '(h, tunnel_info, rest, r) ← base_decapsulate (h, tunnel_info, rest) bitmap;
      let packet := take (Z.to_nat decap_len) packet ++ rest in
      match r with
      | Err e => Ret (h, tunnel_info, packet, Err e)
      | Ok (offset, t) =>
          let tap_type := if first then t else tap_type in
          if decide (tunnel_type tunnel_info = TNone)
          then Ret (h, tunnel_info, packet, Ok (decap_len, tap_type))
          else tunnel_loop n false bitmap trim_bitmap (h, trim trim_bitmap tunnel_info, packet)
                 (decap_len + offset) tap_type
      end
  end.

Definition decap_tunnel_with_erspan (st : state) (bitmap trim_bitmap : Z)
    : run (state * result (Z * CaptureNetworkType.t) Error) :=
  tunnel_loop 2 true bitmap trim_bitmap st 0 CaptureNetworkType.Any.

Definition decap_tunnel (st : state) (bitmap trim_bitmap : Z)
    : run (state * result (Z * CaptureNetworkType.t) Error) :=
  let '(h, _, packet) := st in
  decap_tunnel_with_erspan (h, TunnelInfo_default, packet) bitmap trim_bitmap.

(** ** L2 parsing *)

Definition handler_ok (h : CaptureNetworkTypeHandler) : Prop := typer_ok (tap_typer h).

Lemma vlan_tags_ok packet : 14 <= len packet ->
  wp (vlan_tags packet) (fun r => 14 + r.2 ∈ [14; 18; 22] /\ 14 + r.2 <= len packet).
Proof.
  intros. unfold vlan_tags. repeat wp_step. wp_if; [|cbn; split; [set_solver|lia]].
  sizes. repeat wp_step. wp_if; repeat wp_step; (cbn; split; [set_solver|lia]).
Qed.

Lemma tap_type_of_ok self vlan tap_type : 0 <= vlan -> handler_ok self ->
  wp (tap_type_of self vlan tap_type) (fun r => handler_ok r.1).
Proof.
  intros Hv Hok. unfold tap_type_of. destruct (get_tap_type_by_vlan_ok _ _ Hv Hok) as (typer & t & -> & Ht).
  cbn [mbind run_bind]. destruct t; [case_decide|]; exact Ht.
Qed.

Lemma get_l2_info_ok self packet : 14 <= len packet -> handler_ok self ->
  exists o i eth_type n h tap_type,
    vlan_tags packet = Ret (o, i, eth_type, n)
    /\ get_l2_info self packet = Ret (h, (tap_type, eth_type, 14 + n))
    /\ handler_ok h /\ 14 + n ∈ [14; 18; 22] /\ 14 + n <= len packet.
Proof.
  intros Hl Hok. destruct (proj1 (wp_exists _ _) (vlan_tags_ok packet Hl)) as ([[[o i] e] n] & Ev & Hn & Hle).
  unfold get_l2_info. rewrite Ev. cbn [mbind run_bind fst snd] in *.
  assert (forall x, 0 <= Z.land x VLAN_ID_MASK) as Hm by (intros; apply Z.land_nonneg; by right).
  assert (forall m : run (CaptureNetworkTypeHandler * CaptureNetworkType.t), wp m (fun r => handler_ok r.1) ->
    exists h t, ('(self, tap_type) ← m; Ret (self, (tap_type, e, ETH_HEADER_SIZE + n)))
      = Ret (h, (t, e, 14 + n)) /\ handler_ok h) as Hend.
  { intros [[h t]|] Hm'; [|done]. by exists h, t. }
  edestruct Hend as (h & t & Eq & Hh); [|exists o, i, e, n, h, t; split; [done|]; split; [exact Eq|done]].
  repeat (case_match; [try (apply tap_type_of_ok; [done|done])|]); try done.
Qed.

(** ** One layer of the loop *)

(** The layer is an IPv4 one whose header length field points behind the packet. *)
Definition layer_overrun (bitmap : Z) (tunnel_info : TunnelInfo) (packet : bytes) : bool :=
  match vlan_tags packet with
  | Ret (_, _, eth_type, n) =>
      (14 <=? len packet) && (eth_type =? EthernetType.IPV4)
      && (layer_active tunnel_info packet (14 + n) bitmap 44
          && header_overrun bitmap (drop (Z.to_nat (14 + n)) packet))
  | Panic => false
  end.

Definition state_ok (st : state) : Prop :=
  let '(h, tunnel_info, packet) := st in
  handler_ok h /\ tier_ok tunnel_info /\ fits 63 (len packet).

Definition round_ok (st : state) (r : state * result (Z * CaptureNetworkType.t) Error) : Prop :=
  state_ok r.1 /\ len r.1.2 = len st.2
  /\ match r.2 with
     | Ok (offset, _) => 14 <= len st.2 /\ 0 <= offset <= len st.2
     | Err _ => len st.2 < 14
     end.

Lemma layer_ok_tier self packet l2_len r :
  tier_ok self -> (tier self = TUNNEL_TIER_LIMIT -> r.2 = 0) ->
  layer_ok self packet l2_len r -> tier_ok r.1.1.
Proof.
  destruct r as [[self' packet'] off]. unfold tier_ok. sizes. cbn. intros Ht Hlim (_ & H0 & Hn).
  destruct (decide (off = 0)) as [Hz|Hz]; [by destruct (H0 Hz) as [-> _]|].
  destruct (Hn Hz) as [_ [-> _]]. assert (tier self <> 2) by (intros ?; auto). lia.
Qed.

Lemma base_decapsulate_cases st bitmap : state_ok st ->
  if layer_overrun bitmap st.1.2 st.2 then base_decapsulate st bitmap = Panic
  else wp (base_decapsulate st bitmap) (round_ok st).
Proof.
  destruct st as [[h info] packet]. cbn [fst snd]. intros (Hh & Ht & Hf). unfold base_decapsulate, layer_overrun.
  destruct (len packet <? ETH_HEADER_SIZE) eqn:El; sizes.
  { rewrite (proj2 (Z.leb_gt _ _)) by lia. destruct (vlan_tags packet) as [[[[? ?] ?] ?]|]; cbn;
      (split; [done|]; split; [done|]; cbn; lia). }
  destruct (get_l2_info_ok h packet) as (o & i & e & n & h' & t & Ev & Eg & Hh' & Hn); [lia|done|].
  rewrite Ev, Eg, (proj2 (Z.leb_le _ _)) by lia. cbn [mbind run_bind andb].
  assert (l2_ok packet (14 + n)) as Hl2 by (by destruct Hn; split).
  assert (forall m : run (TunnelInfo * bytes * Z), wp m (layer_ok info packet (14 + n)) ->
    (tier info = TUNNEL_TIER_LIMIT -> m = Ret (info, packet, 0)) ->
    wp ('(tunnel_info, packet, offset) ← m;
        if offset =? 0 then Ret (h', tunnel_info, packet, Ok (0, t))
        else Ret (h', tunnel_info, packet, Ok (wadd 64 (14 + n) offset, t))) (round_ok (h, info, packet))) as Hend.
  { intros m Hm Hlim. apply wp_bind. destruct m as [[[info' packet'] off]|]; [|done].
    cbn [wp] in Hm |- *. pose proof (layer_ok_tier info packet (14 + n) (info', packet', off) Ht ltac:(intros H; specialize (Hlim H); by simplify_eq) Hm) as Ht'.
    destruct Hm as (Hlen & H0 & H1). destruct (off =? 0) eqn:E0; cbn;
      (split; [cbn; by rewrite Hlen|]; split; [done|]; cbn; split; [lia|]).
    - lia.
    - apply H1. lia. }
  assert (forall tunnel_types, tier info = TUNNEL_TIER_LIMIT ->
    decapsulate info packet (14 + n) tunnel_types = Ret (info, packet, 0)
    /\ decapsulate_v6 info packet (14 + n) tunnel_types = Ret (info, packet, 0)) as Hlim.
  { intros ? Hl. unfold decapsulate, decapsulate_v6. by rewrite Hl, orb_true_r. }
  destruct (e =? EthernetType.IPV4) eqn:E4; cbn [andb].
  - pose proof (decapsulate_cases info packet (14 + n) Ht Hl2 bitmap) as Hc.
    destruct (_ && _); [by rewrite Hc|]. apply Hend; [exact Hc|]. by intros; apply Hlim.
  - destruct (e =? EthernetType.IPV6); apply Hend; try (by intros; apply Hlim); [|apply layer_none|done].
    by apply decapsulate_v6_ok.
Qed.

(** ** The loop *)

(** The layers of a packet as the loop meets them: the packet itself, and what
    is behind the headers of a recognised tunnel. *)
Inductive layer_of (bitmap trim_bitmap : Z) (st : state) : state -> Prop :=
| outermost : layer_of bitmap trim_bitmap st st
| behind h tunnel_info packet offset t st' :
    base_decapsulate st bitmap = Ret (h, tunnel_info, packet, Ok (offset, t)) ->
    tunnel_type tunnel_info <> TNone ->
    layer_of bitmap trim_bitmap (h, trim trim_bitmap tunnel_info, drop (Z.to_nat offset) packet) st' ->
    layer_of bitmap trim_bitmap st st'.

Definition loop_ok (bitmap trim_bitmap : Z) (st : state) (decap_len : Z)
    (r : run (state * result (Z * CaptureNetworkType.t) Error)) : Prop :=
  let '(h, tunnel_info, packet) := st in
  let layer := layer_of bitmap trim_bitmap (h, tunnel_info, drop (Z.to_nat decap_len) packet) in
  match r with
  | Ret (st', Ok (n, _)) => state_ok st' /\ len st'.2 = len packet /\ decap_len <= n <= len packet
  | Ret (st', Err _) => handler_ok st'.1.1 /\ exists st1, layer st1 /\ len st1.2 < 14
  | Panic => exists st1, layer st1 /\ layer_overrun bitmap st1.1.2 st1.2 = true
  end.

Lemma trim_ok trim_bitmap info : tier_ok info -> tier_ok (trim trim_bitmap info).
Proof. unfold trim. case_match; [done|done]. Qed.

Lemma fits_len_drop (packet : bytes) k : fits 63 (len packet) -> fits 63 (len (drop k packet)).
Proof. unfold fits, len. rewrite length_drop. lia. Qed.

Lemma loop_ok_behind bitmap trim_bitmap h info packet h' info' rest k off t r :
  base_decapsulate (h, info, drop (Z.to_nat k) packet) bitmap = Ret (h', info', rest, Ok (off, t)) ->
  tunnel_type info' <> TNone -> 0 <= k <= len packet -> 0 <= off ->
  len rest = len packet - k ->
  loop_ok bitmap trim_bitmap (h', trim trim_bitmap info', take (Z.to_nat k) packet ++ rest) (k + off) r ->
  loop_ok bitmap trim_bitmap (h, info, packet) k r.
Proof.
  intros Hb Ht Hk Hoff Hrest. unfold loop_ok.
  assert (length (take (Z.to_nat k) packet) = Z.to_nat k) as Hlt by (unfold len in Hk; rewrite length_take; lia).
  assert (drop (Z.to_nat (k + off)) (take (Z.to_nat k) packet ++ rest) = drop (Z.to_nat off) rest) as ->.
  { replace (Z.to_nat (k + off)) with (Z.to_nat k + Z.to_nat off)%nat by lia.
    by rewrite <- drop_drop, drop_app_length'. }
  assert (len (take (Z.to_nat k) packet ++ rest) = len packet) as ->.
  { rewrite len_app. unfold len at 1. rewrite Hlt. lia. }
  destruct r as [[st' [[n t']|e]]|].
  - intros (Hok & Hl & Hn). split; [done|]. split; [done|lia].
  - intros (Hh & st1 & Hl & H14). split; [done|]. exists st1. split; [|done]. by eapply behind.
  - intros (st1 & Hl & Ho). exists st1. split; [|done]. by eapply behind.
Qed.

Lemma tunnel_loop_ok bitmap trim_bitmap n : forall first h info packet k tap_type,
  state_ok (h, info, packet) -> 0 <= k <= len packet ->
  loop_ok bitmap trim_bitmap (h, info, packet) k
    (tunnel_loop n first bitmap trim_bitmap (h, info, packet) k tap_type).
Proof.
  induction n as [|n IH]; intros first h info packet k tap_type Hok Hk; cbn [tunnel_loop].
  { split; [done|]. split; [done|lia]. }
  rewrite slice_from_ret by done. cbn [mbind run_bind].
  assert (state_ok (h, info, drop (Z.to_nat k) packet)) as Hok' by
    (destruct Hok as (? & ? & ?); split_and!; [done..|by apply fits_len_drop]).
  pose proof (base_decapsulate_cases _ bitmap Hok') as Hc. cbn [fst snd] in Hc.
  destruct (layer_overrun _ _ _) eqn:Eo.
  { rewrite Hc. eexists. split; [apply outermost|done]. }
  apply wp_exists in Hc as ([[[h' info'] rest] r] & Hb & (Hh & Ht & Hf) & Hlen & Hr). cbn [fst snd] in *.
  rewrite Hb. cbn [mbind run_bind]. rewrite len_drop in Hlen, Hr by done. destruct r as [[off t]|e].
  2: { split; [done|]. eexists. split; [apply outermost|]. cbn. by rewrite len_drop. }
  assert (len (take (Z.to_nat k) packet ++ rest) = len packet) as Hl'.
  { unfold len in *. rewrite length_app, length_take. lia. }
  assert (fits 63 (len (take (Z.to_nat k) packet ++ rest))) as Hf' by (rewrite Hl'; apply Hok).
  case_decide as Hn; [split; [by split|]; split; [done|lia]|].
  eapply loop_ok_behind; [done|done|done|lia|done|].
  apply IH; [split; [done|split; [by apply trim_ok|done]]|lia].
Qed.

End tunnel.
