(* ===== verification/DecapSpec.v ===== *)
(** * Tunnel stripping: what the dispatcher relies on

    The theorems on common/decapsulate.rs and dispatcher/base_dispatcher.rs:
    the length that is stripped lies inside the packet, encapsulated frames
    come back exactly, and the two places where they do not. *)

From S2P Require Import Prelude Bytes Consts TapTypes TunnelType Decapsulate DecapSafety DecapTunnel.

(** ** Encapsulation *)

(** The outer headers of an encapsulated frame.  [o_fill] gives the bytes that
    decapsulation does not look at, by position. *)
Record Outer := {
  o_smac : Z; o_dmac : Z;
  o_src : Z; o_dst : Z;
  o_sport : Z; o_vni : Z;
  o_fill : nat -> Z;
}.

(** Both MAC addresses by their low four bytes, and what follows them in L2. *)
Definition l2_header (o : Outer) (tail : bytes) : bytes :=
  [o_fill o 0; o_fill o 1] ++ be32 (o_dmac o) ++ [o_fill o 2; o_fill o 3] ++ be32 (o_smac o) ++ tail.

Definition ipv4_header (o : Outer) (proto : Z) : bytes :=
  [0x45; o_fill o 4; o_fill o 5; o_fill o 6; o_fill o 7; o_fill o 8; o_fill o 9; o_fill o 10;
   o_fill o 11; proto; o_fill o 12; o_fill o 13] ++ be32 (o_src o) ++ be32 (o_dst o).

(** The low four bytes of the two addresses are [o_src] and [o_dst]. *)
Definition ipv6_header (o : Outer) (proto : Z) : bytes :=
  [0x60; o_fill o 4; o_fill o 5; o_fill o 6; o_fill o 7; o_fill o 8; proto; o_fill o 9]
  ++ (o_fill o <$> seq 20 12) ++ be32 (o_src o) ++ (o_fill o <$> seq 40 12) ++ be32 (o_dst o).

Definition udp_header (o : Outer) (dport : Z) : bytes :=
  be16 (o_sport o) ++ be16 dport ++ [o_fill o 60; o_fill o 61; o_fill o 62; o_fill o 63].

Definition vxlan_header (o : Outer) : bytes :=
  [0x08; o_fill o 70; o_fill o 71; o_fill o 72] ++ be32 (o_vni o * 2 ^ 8).

(** Options are counted in words of four bytes. *)
Definition geneve_header (o : Outer) (options : bytes) : bytes :=
  [len options / 4; o_fill o 70; 0x65; 0x58] ++ be32 (o_vni o * 2 ^ 8) ++ options.

Inductive encap := VxlanV4 (dport : Z) | VxlanV6 (dport : Z) | GeneveV4 (options : bytes) | GeneveV6 (options : bytes).

Definition outer_headers (e : encap) (o : Outer) : bytes :=
  match e with
  | VxlanV4 dport => ipv4_header o 17 ++ udp_header o dport ++ vxlan_header o
  | VxlanV6 dport => ipv6_header o 17 ++ udp_header o dport ++ vxlan_header o
  | GeneveV4 options => ipv4_header o 17 ++ udp_header o 6081 ++ geneve_header o options
  | GeneveV6 options => ipv6_header o 17 ++ udp_header o 6081 ++ geneve_header o options
  end.

(** The port is one of VXLAN's, the options fill whole words. *)
Definition encap_ok (e : encap) : Prop :=
  match e with
  | VxlanV4 dport | VxlanV6 dport => dport ∈ [4789; 8472; 6784]
  | GeneveV4 options | GeneveV6 options => len options mod 4 = 0 /\ len options < 256
  end.

Definition encap_type (e : encap) : TunnelType :=
  match e with VxlanV4 _ | VxlanV6 _ => Vxlan | _ => Geneve end.

Definition encap_v6 (e : encap) : bool :=
  match e with VxlanV6 _ | GeneveV6 _ => true | _ => false end.

Definition outer_wf (o : Outer) : Prop :=
  fits 32 (o_smac o) /\ fits 32 (o_dmac o) /\ fits 32 (o_src o) /\ fits 32 (o_dst o)
  /\ fits 16 (o_sport o) /\ fits 24 (o_vni o).

(** The tunnel information the outermost layer leaves. *)
Definition outer_info (e : encap) (o : Outer) : TunnelInfo :=
  {| src := o_src o; dst := o_dst o; mac_src := o_smac o; mac_dst := o_dmac o; id := o_vni o;
     tunnel_type := encap_type e; tier := 1; is_ipv6 := encap_v6 e; from := 0 |}.

(** *** Reading the encodings back *)

Lemma read_be16_le v r : read_u16_le (be16 v ++ r) = Ret (v mod 256 * 2 ^ 8 + Z.shiftr v 8 mod 256).
Proof. done. Qed.

Lemma vni_shift v : fits 24 v -> fits 32 (v * 2 ^ 8) /\ Z.shiftr (v * 2 ^ 8) 8 = v.
Proof.
  intros [H0 H1]. split; [split; lia|]. rewrite Z.shiftr_div_pow2 by lia. apply Z.div_mul. lia.
Qed.

Lemma slice_at bs xs ys i : bs = xs ++ ys -> i = len xs -> slice_from bs i = Ret ys.
Proof. intros -> ?. by apply slice_from_app. Qed.

Lemma mac_encap self o tail r : outer_wf o ->
  decapsulate_mac self (l2_header o tail ++ r)
  = Ret (self <| mac_src := o_smac o |> <| mac_dst := o_dmac o |>).
Proof.
  intros (Hs & Hd & _). unfold decapsulate_mac.
  rewrite (slice_at _ ([o_fill o 0; o_fill o 1] ++ be32 (o_dmac o) ++ [o_fill o 2; o_fill o 3])
    (be32 (o_smac o) ++ tail ++ r) (FIELD_OFFSET_SA + 2)) by done.
  rewrite (slice_at _ [o_fill o 0; o_fill o 1]
    (be32 (o_dmac o) ++ ([o_fill o 2; o_fill o 3] ++ be32 (o_smac o) ++ tail) ++ r)) by done.
  cbn [mbind run_bind]. by rewrite !read_be32.
Qed.

Lemma addr_encap self o proto r : outer_wf o ->
  decapsulate_addr self (ipv4_header o proto ++ r) = Ret (self <| src := o_src o |> <| dst := o_dst o |>).
Proof.
  intros (_ & _ & Hs & Hd & _). unfold decapsulate_addr.
  rewrite (slice_at _ (take 12 (ipv4_header o proto)) (be32 (o_src o) ++ be32 (o_dst o) ++ r)
    (FIELD_OFFSET_SIP - ETH_HEADER_SIZE)) by done.
  rewrite (slice_at _ (take 16 (ipv4_header o proto)) (be32 (o_dst o) ++ r)) by done.
  cbn [mbind run_bind]. by rewrite !read_be32.
Qed.

Lemma v6_addr_encap self o proto r : outer_wf o ->
  decapsulate_v6_addr self (ipv6_header o proto ++ r) = Ret (self <| src := o_src o |> <| dst := o_dst o |>).
Proof.
  intros (_ & _ & Hs & Hd & _). unfold decapsulate_v6_addr.
  rewrite (slice_at _ (take 20 (ipv6_header o proto))
    (be32 (o_src o) ++ (o_fill o <$> seq 40 12) ++ be32 (o_dst o) ++ r) IP6_SIP_OFFSET) by done.
  rewrite (slice_at _ (take 36 (ipv6_header o proto)) (be32 (o_dst o) ++ r)) by done.
  cbn [mbind run_bind]. by rewrite !read_be32.
Qed.

(** The port as read in little endian. *)
Definition le_port (dport : Z) : Z := dport mod 256 * 2 ^ 8 + Z.shiftr dport 8 mod 256.

Lemma dport_encap o proto dport r :
  (slice_from (ipv4_header o proto ++ udp_header o dport ++ r) 22 ≫= read_u16_le) = Ret (le_port dport)
  /\ (slice_from (ipv6_header o proto ++ udp_header o dport ++ r) 42 ≫= read_u16_le) = Ret (le_port dport).
Proof.
  split.
  - by rewrite (slice_at _ (ipv4_header o proto ++ be16 (o_sport o))
      (be16 dport ++ [o_fill o 60; o_fill o 61; o_fill o 62; o_fill o 63] ++ r)) by done.
  - by rewrite (slice_at _ (ipv6_header o proto ++ be16 (o_sport o))
      (be16 dport ++ [o_fill o 60; o_fill o 61; o_fill o 62; o_fill o 63] ++ r)) by done.
Qed.

Lemma vxlan_ports dport : dport ∈ [4789; 8472; 6784] -> is_vxlan_port (le_port dport) = true.
Proof. rewrite !elem_of_cons, elem_of_nil. by intros [->|[->|[->|[]]]]. Qed.

(** The Geneve header gives its tunnel id and its size back. *)
Lemma geneve_encap o options r : fits 24 (o_vni o) -> len options mod 4 = 0 -> len options < 256 ->
  decapsulate_geneve_header (geneve_header o options ++ r) = Ret (o_vni o, 8 + len options).
Proof.
  intros Hv Hm Hl. destruct (vni_shift _ Hv) as [Hf Hs]. unfold decapsulate_geneve_header.
  pose proof (len_nonneg r). pose proof (len_nonneg options).
  assert (len (geneve_header o options ++ r) = 8 + len options + len r) as Hlen by
    (unfold geneve_header; rewrite !len_app; unfold len; cbn [length be32]; lia).
  rewrite Hlen. sizes. rewrite (proj2 (Z.ltb_ge _ _)) by lia.
  change (index (geneve_header o options ++ r) 0) with (Ret (len options / 4)). cbn [mbind run_bind].
  assert (0 <= len options / 4 < 64) as Hw by (pose proof (Z.div_mod (len options) 4); lia).
  assert (Z.shiftr (len options / 4) GENEVE_VERSION_SHIFT = 0) as -> by
    (unfold GENEVE_VERSION_SHIFT; rewrite Z.shiftr_div_pow2 by lia; apply Z.div_small; lia).
  assert (wshl 8 (Z.land (len options / 4) GENEVE_OPTION_LENGTH_MASK) 2 = len options) as ->.
  { unfold wshl, GENEVE_OPTION_LENGTH_MASK. change 0x3f with (Z.ones 6). rewrite Z.land_ones, Z.mod_small by lia.
    rewrite Z.shiftl_mul_pow2 by lia. unfold wrap. rewrite Z.mod_small; pose proof (Z.div_mod (len options) 4); lia. }
  cbn [negb Z.eqb]. rewrite (proj2 (Z.ltb_ge _ _)) by lia.
  rewrite (slice_at _ (take 2 (geneve_header o options)) ([0x65; 0x58] ++ be32 (o_vni o * 2 ^ 8) ++ options ++ r) 2) by done.
  rewrite (slice_at _ (take 4 (geneve_header o options)) (be32 (o_vni o * 2 ^ 8) ++ options ++ r)) by done.
  cbn [mbind run_bind read_u16_le app]. change (negb (_ =? _)) with false. cbn match.
  rewrite read_be32 by done. cbn [mbind run_bind]. unfold GENEVE_VNI_SHIFT. rewrite Hs. f_equal. f_equal. lia.
Qed.

(** *** One encapsulated layer *)

Lemma len_ipv4 o p : len (ipv4_header o p) = 20.
Proof. done. Qed.
Lemma len_ipv6 o p : len (ipv6_header o p) = 40.
Proof. done. Qed.
Lemma len_udp o p : len (udp_header o p) = 8.
Proof. done. Qed.
Lemma len_vxlan o : len (vxlan_header o) = 8.
Proof. done. Qed.
Lemma len_geneve o options : len (geneve_header o options) = 8 + len options.
Proof. unfold geneve_header, len. rewrite !length_app. cbn [length be32]. lia. Qed.

Create Rewrite HintDb lens.
#[local] Hint Rewrite len_app len_ipv4 len_ipv6 len_udp len_vxlan len_geneve : lens.

Ltac lens := autorewrite with lens; sizes; lia.

Section encap.
Context (o : Outer) (tail inner : bytes) (Ho : outer_wf o) (Hinner : 14 <= len inner).

Abbreviation l2 := (l2_header o tail).
Abbreviation info0 := TunnelInfo_default.

Lemma vni_fits : fits 24 (o_vni o).
Proof. by destruct Ho as (_ & _ & _ & _ & _ & ?). Qed.

Lemma vxlan_v4_encap dport :
  decapsulate_vxlan info0 (l2 ++ ipv4_header o 17 ++ udp_header o dport ++ vxlan_header o ++ inner) (len l2)
  = Ret (outer_info (VxlanV4 dport) o, 36).
Proof.
  unfold decapsulate_vxlan. rewrite slice_from_app by done. cbn [mbind run_bind].
  rewrite (proj2 (Z.ltb_ge _ _)) by lens. change (index _ (FIELD_OFFSET_VXLAN_FLAGS - ETH_HEADER_SIZE)) with (Ret 8).
  cbn [mbind run_bind]. change (negb (8 =? VXLAN_FLAGS)) with false. cbn match.
  change (tier info0 =? 0) with true. cbn match. rewrite addr_encap by done. cbn [mbind run_bind].
  rewrite mac_encap by done. cbn [mbind run_bind].
  rewrite (slice_at _ (ipv4_header o 17 ++ udp_header o dport ++ take 4 (vxlan_header o))
    (be32 (o_vni o * 2 ^ 8) ++ inner)) by done.
  destruct (vni_shift _ vni_fits) as [Hf Hs]. cbn [mbind run_bind]. rewrite read_be32 by done.
  cbn [mbind run_bind]. by rewrite Hs.
Qed.

Lemma vxlan_v6_encap dport :
  decapsulate_v6_vxlan info0 (l2 ++ ipv6_header o 17 ++ udp_header o dport ++ vxlan_header o ++ inner) (len l2)
  = Ret (outer_info (VxlanV6 dport) o, 56).
Proof.
  unfold decapsulate_v6_vxlan. rewrite slice_from_app by done. cbn [mbind run_bind].
  rewrite (proj2 (Z.ltb_ge _ _)) by lens.
  change (index _ (IPV6_HEADER_SIZE + UDP_HEADER_SIZE + VXLAN_FLAGS_OFFSET_DECAP)) with (Ret 8).
  cbn [mbind run_bind]. change (negb (8 =? VXLAN_FLAGS)) with false. cbn match.
  change (tier info0 =? 0) with true. cbn match. rewrite v6_addr_encap by done. cbn [mbind run_bind].
  rewrite mac_encap by done. cbn [mbind run_bind].
  rewrite (slice_at _ (ipv6_header o 17 ++ udp_header o dport ++ take 4 (vxlan_header o))
    (be32 (o_vni o * 2 ^ 8) ++ inner)) by done.
  destruct (vni_shift _ vni_fits) as [Hf Hs]. cbn [mbind run_bind]. rewrite read_be32 by done.
  cbn [mbind run_bind]. by rewrite Hs.
Qed.

Lemma geneve_v4_encap options : len options mod 4 = 0 -> len options < 256 ->
  decapsulate_geneve info0
    (l2 ++ ipv4_header o 17 ++ udp_header o 6081 ++ geneve_header o options ++ inner) (len l2)
  = Ret (outer_info (GeneveV4 options) o, 36 + len options).
Proof.
  intros Hm Hl. pose proof (len_nonneg options). unfold decapsulate_geneve. rewrite slice_from_app by done.
  cbn [mbind run_bind]. rewrite (proj2 (Z.ltb_ge _ _)) by lens.
  rewrite (slice_at _ (ipv4_header o 17 ++ udp_header o 6081) (geneve_header o options ++ inner)) by done.
  cbn [mbind run_bind]. rewrite geneve_encap by (done || apply vni_fits). cbn [mbind run_bind].
  rewrite (proj2 (Z.eqb_neq _ _)) by lia. change (tier info0 =? 0) with true. cbn match.
  rewrite addr_encap by done. cbn [mbind run_bind]. rewrite mac_encap by done. cbn [mbind run_bind].
  assert (UDP_PACKET_SIZE - ETH_HEADER_SIZE + (8 + len options) = 36 + len options) as -> by (sizes; lia). done.
Qed.

Lemma geneve_v6_encap options : len options mod 4 = 0 -> len options < 256 ->
  decapsulate_v6_geneve info0
    (l2 ++ ipv6_header o 17 ++ udp_header o 6081 ++ geneve_header o options ++ inner) (len l2)
  = Ret (outer_info (GeneveV6 options) o, 36 + len options).
Proof.
  intros Hm Hl. pose proof (len_nonneg options). unfold decapsulate_v6_geneve. rewrite slice_from_app by done.
  cbn [mbind run_bind]. rewrite (proj2 (Z.ltb_ge _ _)) by lens.
  rewrite (slice_at _ (ipv6_header o 17 ++ udp_header o 6081) (geneve_header o options ++ inner)) by done.
  cbn [mbind run_bind]. rewrite geneve_encap by (done || apply vni_fits). cbn [mbind run_bind].
  rewrite (proj2 (Z.eqb_neq _ _)) by lia. change (tier info0 =? 0) with true. cbn match.
  rewrite v6_addr_encap by done. cbn [mbind run_bind]. rewrite mac_encap by done. cbn [mbind run_bind].
  assert (UDP_PACKET_SIZE - ETH_HEADER_SIZE + (8 + len options) = 36 + len options) as -> by (sizes; lia). done.
Qed.

End encap.

(** *** Moving the L2 header in front of an inner IP packet *)

Lemma move_l2 (l2a header inner : bytes) x y v : fits 16 v ->
  let l2 := l2a ++ [x; y] in
  (packet ← copy_within (l2 ++ header ++ inner) (len l2) (len header);
   write_u16_be packet (len header + len l2 - 2) v)
  = Ret (take (length header) (l2 ++ header ++ inner) ++ l2a ++ be16 v ++ inner).
Proof.
  intros Hv l2. unfold copy_within. pose proof (len_nonneg inner). pose proof (len_nonneg header).
  assert (len (l2 ++ header ++ inner) = len header + len l2 + len inner) as Hl by (rewrite !len_app; lia).
  rewrite (proj2 (andb_true_iff _ _)) by (rewrite Hl; lia). cbn [mbind run_bind].
  assert (drop (Z.to_nat (len header + len l2)) (l2 ++ header ++ inner) = inner) as ->.
  { rewrite app_assoc. apply drop_app_length'. rewrite length_app. unfold len. lia. }
  unfold len at 2. rewrite Nat2Z.id, take_app_length. unfold len at 1. rewrite Nat2Z.id.
  set (front := take (length header) (l2 ++ header ++ inner)).
  assert (len front = len header) as Hf.
  { unfold front, len in *. rewrite length_take. rewrite !length_app in *. lia. }
  unfold write_u16_be. rewrite (slice_at _ (front ++ l2a) ([x; y] ++ inner)).
  2: { unfold l2. by rewrite <- !app_assoc. }
  2: { unfold l2. rewrite !len_app, Hf. change (len [x; y]) with 2. lia. }
  cbn [mbind run_bind app]. unfold l2. rewrite <- !app_assoc. rewrite (app_assoc front).
  rewrite take_app_length'.
  2: { rewrite length_app. rewrite len_app. unfold len in *. cbn [length]. lia. }
  rewrite <- !app_assoc. repeat f_equal. cbn [be16 app]. destruct Hv.
  rewrite Z.shiftr_div_pow2, (Z.mod_small (v / 2 ^ 8)) by (try split; try apply Z.div_pos; try apply Z.div_lt_upper_bound; lia).
  done.
Qed.

(** *** Through the dispatch on protocol and port *)

Section claims.
Context {E : DecapEnum}.

(** The entry point for the outer IP version. *)
Definition decap_by (e : encap) : TunnelInfo -> bytes -> Z -> Z -> run (TunnelInfo * bytes * Z) :=
  if encap_v6 e then decapsulate_v6 else decapsulate.

(** The offset behind L2 that each layer returns. *)
Definition decap_offset (e : encap) : Z :=
  match e with
  | VxlanV4 _ => 36
  | VxlanV6 _ => 56
  | GeneveV4 options | GeneveV6 options => 36 + len options
  end.

Lemma has_not_empty bitmap t : bitmap_has bitmap t = true -> bitmap_is_empty bitmap = false.
Proof.
  unfold bitmap_is_empty. intros H. apply Z.eqb_neq. intros ->. unfold bitmap_has in H. by rewrite Z.land_0_l in H.
Qed.

Lemma index_l2 o tail r i : i = 0 \/ i = 1 -> exists b, index (l2_header o tail ++ r) i = Ret b.
Proof. intros [->| ->]; by eexists. Qed.

Lemma dispatch_v4 o tail dport bitmap t rest : bitmap_has bitmap t = true -> 16 <= len rest ->
  exists b0 b1, index (l2_header o tail ++ ipv4_header o 17 ++ udp_header o dport ++ rest) 0 = Ret b0
  /\ index (l2_header o tail ++ ipv4_header o 17 ++ udp_header o dport ++ rest) 1 = Ret b1
  /\ decapsulate TunnelInfo_default (l2_header o tail ++ ipv4_header o 17 ++ udp_header o dport ++ rest)
       (len (l2_header o tail)) bitmap
     = keep (l2_header o tail ++ ipv4_header o 17 ++ udp_header o dport ++ rest)
         (decapsulate_udp TunnelInfo_default (l2_header o tail ++ ipv4_header o 17 ++ udp_header o dport ++ rest)
            (len (l2_header o tail)) bitmap).
Proof.
  intros Hb Hr. eexists _, _. split; [done|]. split; [done|]. unfold decapsulate.
  rewrite (has_not_empty _ _ Hb). change (false || (tier TunnelInfo_default =? TUNNEL_TIER_LIMIT)) with false.
  cbn match. rewrite slice_from_app by done. cbn [mbind run_bind]. rewrite (proj2 (Z.ltb_ge _ _)) by lens. done.
Qed.

Lemma dispatch_v6 o tail dport bitmap t rest : bitmap_has bitmap t = true -> 16 <= len rest ->
  exists b0 b1, index (l2_header o tail ++ ipv6_header o 17 ++ udp_header o dport ++ rest) 0 = Ret b0
  /\ index (l2_header o tail ++ ipv6_header o 17 ++ udp_header o dport ++ rest) 1 = Ret b1
  /\ decapsulate_v6 TunnelInfo_default (l2_header o tail ++ ipv6_header o 17 ++ udp_header o dport ++ rest)
       (len (l2_header o tail)) bitmap
     = keep (l2_header o tail ++ ipv6_header o 17 ++ udp_header o dport ++ rest)
         (decapsulate_v6_udp TunnelInfo_default (l2_header o tail ++ ipv6_header o 17 ++ udp_header o dport ++ rest)
            (len (l2_header o tail)) bitmap).
Proof.
  intros Hb Hr. eexists _, _. split; [done|]. split; [done|]. unfold decapsulate_v6.
  rewrite (has_not_empty _ _ Hb). change (false || (tier TunnelInfo_default =? TUNNEL_TIER_LIMIT)) with false.
  cbn match. rewrite slice_from_app by done. cbn [mbind run_bind]. rewrite (proj2 (Z.ltb_ge _ _)) by lens. done.
Qed.

Lemma decap_by_encap e o tail inner bitmap :
  encap_ok e -> outer_wf o -> 14 <= len inner -> bitmap_has bitmap (encap_type e) = true ->
  let packet := l2_header o tail ++ outer_headers e o ++ inner in
  decap_by e TunnelInfo_default packet (len (l2_header o tail)) bitmap
  = Ret (outer_info e o, packet, decap_offset e).
Proof.
  intros He Ho Hi Hb. destruct e as [dport|dport|options|options]; unfold decap_by; cbn [encap_v6 encap_type] in *;
    try pose proof (len_nonneg options); unfold outer_headers; cbv zeta; rewrite <- !app_assoc;
    match goal with
    | |- decapsulate_v6 _ (_ ++ _ ++ _ ++ ?rest) _ _ = _ =>
        edestruct (dispatch_v6 o tail) as (b0 & b1 & E0 & E1 & ->); [exact Hb|lens|]; unfold decapsulate_v6_udp
    | |- decapsulate _ (_ ++ _ ++ _ ++ ?rest) _ _ = _ =>
        edestruct (dispatch_v4 o tail) as (b0 & b1 & E0 & E1 & ->); [exact Hb|lens|]; unfold decapsulate_udp
    end; rewrite E0; cbn [mbind run_bind]; rewrite E1; cbn [mbind run_bind];
    rewrite slice_from_app by done; cbn [mbind run_bind]; rewrite (proj2 (Z.ltb_ge _ _)) by lens.
  - rewrite (proj1 (dport_encap o 17 dport _)). cbn [mbind run_bind].
    rewrite (vxlan_ports _ He), Hb. cbn [andb]. by rewrite vxlan_v4_encap.
  - rewrite (proj2 (dport_encap o 17 dport _)). cbn [mbind run_bind].
    rewrite (vxlan_ports _ He), Hb. cbn [andb]. by rewrite vxlan_v6_encap.
  - rewrite (proj1 (dport_encap o 17 6081 _)). cbn [mbind run_bind].
    change (is_vxlan_port (le_port 6081)) with false. cbn [andb].
    change (le_port 6081 =? LE_GPE_VXLAN_PROTO_UDP_DPORT) with false.
    change (le_port 6081 =? LE_GENEVE_PROTO_UDP_DPORT) with true. rewrite Hb. cbn [andb].
    destruct He. by rewrite geneve_v4_encap.
  - rewrite (proj2 (dport_encap o 17 6081 _)). cbn [mbind run_bind].
    change (is_vxlan_port (le_port 6081)) with false. cbn [andb].
    change (le_port 6081 =? LE_GENEVE_PROTO_UDP_DPORT) with true. rewrite Hb. cbn [andb].
    destruct He. by rewrite geneve_v6_encap.
Qed.

(** C16: a frame encapsulated in VXLAN over IPv4 or IPv6, or in Geneve over IPv4
    with any options, is given back exactly: the layer leaves the packet alone,
    records the outer addresses, MACs and the network identifier, and the
    packet behind the returned offset is the inner frame. *)
Theorem encapsulated_frame_recovered e o tail inner bitmap :
  encap_ok e -> outer_wf o -> 14 <= len inner -> bitmap_has bitmap (encap_type e) = true ->
  (forall options, e <> GeneveV6 options) ->
  let packet := l2_header o tail ++ outer_headers e o ++ inner in
  exists offset,
    decap_by e TunnelInfo_default packet (len (l2_header o tail)) bitmap = Ret (outer_info e o, packet, offset)
    /\ slice_from packet (len (l2_header o tail) + offset) = Ret inner.
Proof.
  intros He Ho Hi Hb Hne packet. exists (decap_offset e). split; [by apply decap_by_encap|].
  unfold packet. rewrite app_assoc. apply slice_from_app. rewrite len_app.
  destruct e as [dport|dport|options|options]; [| | |by destruct (Hne options)]; cbn [outer_headers decap_offset];
    autorewrite with lens; lia.
Qed.

(** Over IPv6, Geneve returns the offset of the IPv4 layout: the packet it
    hands on starts 20 bytes before the inner frame, inside the outer headers. *)
Theorem geneve_v6_offset_short o tail options inner bitmap :
  encap_ok (GeneveV6 options) -> outer_wf o -> 14 <= len inner -> bitmap_has bitmap Geneve = true ->
  let packet := l2_header o tail ++ outer_headers (GeneveV6 options) o ++ inner in
  exists offset,
    decapsulate_v6 TunnelInfo_default packet (len (l2_header o tail)) bitmap
      = Ret (outer_info (GeneveV6 options) o, packet, offset)
    /\ slice_from packet (len (l2_header o tail) + offset + 20) = Ret inner.
Proof.
  intros He Ho Hi Hb packet. exists (36 + len options).
  split; [by apply (decap_by_encap (GeneveV6 options))|]. unfold packet. rewrite app_assoc. apply slice_from_app.
  rewrite len_app. cbn [outer_headers]. autorewrite with lens. lia.
Qed.

(** The IP header of the underlay, naming the overlay's protocol. *)
Definition ipip_header (underlay_ipv6 overlay_ipv6 : bool) (o : Outer) : bytes :=
  let proto := if overlay_ipv6 then 41 else 4 in
  if underlay_ipv6 then ipv6_header o proto else ipv4_header o proto.

Definition ipip_info (underlay_ipv6 : bool) (o : Outer) : TunnelInfo :=
  {| src := o_src o; dst := o_dst o; mac_src := o_smac o; mac_dst := o_dmac o; id := 0;
     tunnel_type := Ipip; tier := 1; is_ipv6 := underlay_ipv6; from := 0 |}.

Lemma ipip_encap (u v : bool) o l2a x y inner : outer_wf o ->
  (exists tail, l2a ++ [x; y] = l2_header o tail) -> 14 <= len (l2a ++ [x; y]) ->
  decapsulate_ipip TunnelInfo_default ((l2a ++ [x; y]) ++ ipip_header u v o ++ inner) (len (l2a ++ [x; y])) u v
  = Ret (ipip_info u o,
         take (length (ipip_header u v o)) ((l2a ++ [x; y]) ++ ipip_header u v o ++ inner)
           ++ l2a ++ be16 (if v then EthernetType.IPV6 else EthernetType.IPV4) ++ inner,
         wsub 64 (len (ipip_header u v o)) (len (l2a ++ [x; y]))).
Proof.
  intros Ho [tail Hl2] Hlen. unfold decapsulate_ipip. change (tier TunnelInfo_default =? 0) with true. cbn match.
  rewrite Hl2 at 1. rewrite mac_encap by done. cbn [mbind run_bind]. rewrite slice_from_app by done.
  cbn [mbind run_bind].
  pose proof (move_l2 l2a (ipip_header u v o) inner x y
    (if v then EthernetType.IPV6 else EthernetType.IPV4) ltac:(by destruct v)) as Hmove. cbv zeta in Hmove.
  set (l2 := l2a ++ [x; y]) in *.
  assert ((if negb v then EthernetType.IPV4 else EthernetType.IPV6)
    = (if v then EthernetType.IPV6 else EthernetType.IPV4)) as -> by by destruct v.
  assert (len (ipip_header u v o) = if u then 40 else 20) as Hh by by destruct u, v.
  apply run_bind_Ret in Hmove as (p1 & Hc & Hw). destruct u.
  - cbn [mbind run_bind]. change (tier _ =? 0) with true. cbn match.
    pose proof (fun s => v6_addr_encap s o (if v then 41 else 4) inner Ho) as Ha.
    change (ipv6_header o _) with (ipip_header true v o) in Ha. rewrite Ha. cbn [mbind run_bind].
    replace (len l2 + IPV6_HEADER_SIZE - len l2) with (len (ipip_header true v o)) by (rewrite Hh; sizes; lia).
    rewrite Hc. cbn [mbind run_bind]. rewrite Hw. done.
  - change (index (ipip_header false v o ++ inner) IP_IHL_OFFSET) with (Ret 0x45). cbn [mbind run_bind].
    change (tier _ =? 0) with true. cbn match.
    pose proof (fun s => addr_encap s o (if v then 41 else 4) inner Ho) as Ha.
    change (ipv4_header o _) with (ipip_header false v o) in Ha. rewrite Ha. cbn [mbind run_bind]. change (wshl 8 (Z.land 69 15) 2) with 20.
    replace (len l2 + 20 - len l2) with (len (ipip_header false v o)) by (rewrite Hh; lia).
    rewrite Hc. cbn [mbind run_bind]. rewrite Hw. done.
Qed.

Lemma ipip_dispatch (u v : bool) o l2 inner bitmap : bitmap_has bitmap Ipip = true -> 24 <= len inner ->
  (if u then decapsulate_v6 else decapsulate) TunnelInfo_default (l2 ++ ipip_header u v o ++ inner) (len l2) bitmap
  = decapsulate_ipip TunnelInfo_default (l2 ++ ipip_header u v o ++ inner) (len l2) u v.
Proof.
  intros Hb Hi. assert (len (ipip_header u v o) = if u then 40 else 20) as Hh by by destruct u, v.
  destruct u; unfold decapsulate, decapsulate_v6; rewrite (has_not_empty _ _ Hb), slice_from_app by done;
    change (false || (tier TunnelInfo_default =? TUNNEL_TIER_LIMIT)) with false; cbn [mbind run_bind];
    rewrite (proj2 (Z.ltb_ge _ _)) by (rewrite len_app, Hh; sizes; lia); rewrite Hb.
  - change (index _ IP6_PROTO_OFFSET) with (Ret (if v then 41 else 4)). by destruct v.
  - change (index _ (FIELD_OFFSET_PROTO - ETH_HEADER_SIZE)) with (Ret (if v then 41 else 4)). by destruct v.
Qed.

(** an IP packet in IP, in all four combinations of versions, is given back
    behind the outer L2 header: what the packet holds at the returned offset is
    that header with the ethernet type of the inner packet, then the inner
    packet. *)
Theorem ipip_packet_recovered (u v : bool) o tail inner bitmap :
  outer_wf o -> len tail ∈ [2; 6; 10] -> 24 <= len inner -> bitmap_has bitmap Ipip = true ->
  let l2 := l2_header o tail in
  exists packet' offset,
    (if u then decapsulate_v6 else decapsulate) TunnelInfo_default (l2 ++ ipip_header u v o ++ inner) (len l2) bitmap
      = Ret (ipip_info u o, packet', offset)
    /\ slice_from packet' (wadd 64 (len l2) offset)
      = Ret (take (length l2 - 2) l2 ++ be16 (if v then EthernetType.IPV6 else EthernetType.IPV4) ++ inner).
Proof.
  intros Ho Ht Hi Hb l2. assert (2 <= len tail <= 10) as Htl by
    (rewrite !elem_of_cons, elem_of_nil in Ht; destruct Ht as [->|[->|[->|[]]]]; lia).
  destruct (exists_last (l := tail)) as (tail1 & y & Et); [intros ->; unfold len in Htl; cbn in Htl; lia|].
  destruct (exists_last (l := tail1)) as (tail2 & x & ->); [intros ->; subst tail; unfold len in Htl; cbn in Htl; lia|].
  set (l2a := l2_header o tail2). assert (l2 = l2a ++ [x; y]) as Hl2.
  { unfold l2, l2a, l2_header. subst. by rewrite <- !app_assoc. }
  assert (len l2 = 12 + len tail) as Hlen by (unfold l2, l2_header, len; rewrite !length_app; cbn [length be32]; lia).
  assert (exists t, l2a ++ [x; y] = l2_header o t) as Hex by (exists tail; by symmetry).
  pose proof (ipip_encap u v o l2a x y inner Ho Hex ltac:(rewrite <- Hl2; lia)) as Hip.
  rewrite <- Hl2 in Hip. rewrite ipip_dispatch by (done || lia). rewrite Hip. eexists _, _. split; [done|].
  replace (take (length l2 - 2) l2) with l2a by
    (rewrite Hl2, length_app, take_app_length'; [done|cbn; lia]).
  assert (0 <= len (ipip_header u v o) <= 40) as Hh by by destruct u, v.
  rewrite wsub_wadd_l2 by lia. apply slice_from_app. unfold len in *. rewrite length_take, !length_app. lia.
Qed.

(** ** The dispatcher's loop *)

(** C15: stripping tunnels from any packet returns a length inside the packet,
    so that the callers' slice at it is in range, keeps the packet's length
    and counts at most two tiers.  It fails only when a layer is shorter than
    an Ethernet header, and it panics only when a layer is an IPv4 packet that
    carries GRE (or IP, with IPIP enabled) whose header length field points
    behind the packet. *)
Theorem decap_tunnel_in_bounds h info packet bitmap trim_bitmap :
  handler_ok h -> fits 63 (len packet) ->
  let layer := layer_of bitmap trim_bitmap (h, TunnelInfo_default, packet) in
  match decap_tunnel (h, info, packet) bitmap trim_bitmap with
  | Ret (h', info', packet', Ok (n, _)) =>
      handler_ok h' /\ 0 <= tier info' <= TUNNEL_TIER_LIMIT /\ len packet' = len packet
      /\ (exists overlay, slice_from packet' n = Ret overlay /\ len overlay = len packet - n)
  | Ret (_, Err PacketInvalid) => exists st, layer st /\ len st.2 < ETH_HEADER_SIZE
  | Panic => exists st, layer st /\ layer_overrun bitmap st.1.2 st.2 = true
  end.
Proof.
  intros Hh Hf layer.
  assert (state_ok (h, TunnelInfo_default, packet)) as Hok by (split; [done|]; by split).
  pose proof (tunnel_loop_ok bitmap trim_bitmap 2 true h TunnelInfo_default packet 0 CaptureNetworkType.Any
    Hok (conj (Z.le_refl 0) (len_nonneg packet))) as Hl.
  unfold loop_ok in Hl. change (drop (Z.to_nat 0) packet) with packet in Hl.
  change (decap_tunnel (h, info, packet) bitmap trim_bitmap) with
    (tunnel_loop 2 true bitmap trim_bitmap (h, TunnelInfo_default, packet) 0 CaptureNetworkType.Any).
  destruct (tunnel_loop _ _ _ _ _ _ _) as [[[[h' info'] packet'] [[n t]|[]]]|]; [|apply Hl|done].
  destruct Hl as ((Hh' & Ht & _) & Hlen & Hn). cbn in Hlen. split_and!; [done|apply Ht..|done|].
  rewrite slice_from_ret by lia. eexists. split; [done|]. rewrite len_drop; lia.
Qed.

(** any GRE packet of 44 bytes or more whose IPv4 header length field puts
    the GRE header behind the end aborts the agent, whatever tunnel types are
    enabled: the guard on the length assumes a header without options. *)
Theorem gre_header_length_panics h info macs l3 b bitmap trim_bitmap :
  handler_ok h -> bitmap_is_empty bitmap = false -> len macs = 12 -> fits 62 (len l3) ->
  44 <= len l3 -> l3 !! 0%nat = Some b -> l3 !! 9%nat = Some IpProtocol.GRE ->
  len l3 < 4 * (b mod 16) + 4 ->
  decap_tunnel (h, info, macs ++ be16 EthernetType.IPV4 ++ l3) bitmap trim_bitmap = Panic.
Proof.
  intros Hh Hbm Hmacs Hf Hlen H0 H9 Hover. set (packet := macs ++ be16 EthernetType.IPV4 ++ l3).
  assert (len packet = 14 + len l3) as Hp by (unfold packet; rewrite !len_app, Hmacs; change (len (be16 _)) with 2; lia).
  assert (state_ok (h, TunnelInfo_default, packet)) as Hok.
  { split; [done|]. split; [done|]. rewrite Hp. destruct Hf. split; lia. }
  pose proof (base_decapsulate_cases _ bitmap Hok) as Hc. cbn [fst snd] in Hc.
  assert (layer_overrun bitmap TunnelInfo_default packet = true) as Ho.
  { unfold layer_overrun, vlan_tags.
    rewrite (slice_at packet macs (be16 EthernetType.IPV4 ++ l3) FIELD_OFFSET_ETH_TYPE) by (done || by rewrite Hmacs).
    cbn [mbind run_bind]. change (read_u16_be (be16 EthernetType.IPV4 ++ l3)) with (Ret EthernetType.IPV4).
    cbn [mbind run_bind].
    change (EthernetType.IPV4 =? EthernetType.DOT1Q) with false. cbn [andb].
    rewrite (proj2 (Z.leb_le 14 _)) by lia. change (EthernetType.IPV4 =? EthernetType.IPV4) with true. cbn [andb].
    unfold layer_active. rewrite Hbm, Hp, (proj2 (Z.leb_le 44 _)) by lia.
    change (tier TunnelInfo_default =? TUNNEL_TIER_LIMIT) with false. cbn [negb andb].
    replace (drop _ packet) with l3.
    2: { unfold packet. rewrite app_assoc, drop_app_length'; [done|]. rewrite length_app. unfold len in Hmacs. cbn. lia. }
    unfold header_overrun. change (Z.to_nat (FIELD_OFFSET_PROTO - ETH_HEADER_SIZE)) with 9%nat. rewrite H9.
    change (IpProtocol.GRE =? IpProtocol.GRE) with true. cbn match.
    destruct l3 as [|c l3]; cbn in H0; simplify_eq. cbn [ihl_bytes]. sizes. lia. }
  rewrite Ho in Hc. unfold decap_tunnel, decap_tunnel_with_erspan. cbn [tunnel_loop].
  rewrite slice_from_ret by (rewrite Hp; lia). cbn [mbind run_bind].
  change (drop (Z.to_nat 0) packet) with packet. by rewrite Hc.
Qed.

End claims.

(** ** Concrete packets *)

Definition sample_outer : Outer :=
  {| o_smac := 0x01020304; o_dmac := 0x0a0b0c0d; o_src := 0xc0a80001; o_dst := 0xc0a80002;
     o_sport := 50000; o_vni := 0x123456; o_fill := fun i => Z.of_nat i |}.

Lemma sample_outer_ok : outer_wf sample_outer.
Proof. unfold outer_wf, fits. cbn. lia. Qed.

Definition arp_frame : bytes := replicate 12 0xee ++ be16 0x0806 ++ replicate 28 0.

Definition sample_bitmap : Z := @bitmap_new sample_enum [Vxlan; Ipip; Geneve].

Definition plain_handler : CaptureNetworkTypeHandler :=
  {| tap_typer := TapTypes.new; default_tap_type := CaptureNetworkType.Cloud; mirror_traffic_pcp := 0;
     capture_mode := Local |}.

Lemma plain_handler_ok : handler_ok plain_handler.
Proof. exact new_ok. Qed.

Lemma encapsulated_frame_recovered_witness :
  exists offset,
    @decapsulate sample_enum TunnelInfo_default
      (l2_header sample_outer (be16 0x0800) ++ outer_headers (GeneveV4 (replicate 8 1)) sample_outer ++ arp_frame)
      (len (l2_header sample_outer (be16 0x0800))) sample_bitmap
    = Ret (outer_info (GeneveV4 (replicate 8 1)) sample_outer,
           l2_header sample_outer (be16 0x0800) ++ outer_headers (GeneveV4 (replicate 8 1)) sample_outer ++ arp_frame,
           offset)
    /\ slice_from
         (l2_header sample_outer (be16 0x0800) ++ outer_headers (GeneveV4 (replicate 8 1)) sample_outer ++ arp_frame)
         (len (l2_header sample_outer (be16 0x0800)) + offset) = Ret arp_frame.
Proof.
  apply (@encapsulated_frame_recovered sample_enum (GeneveV4 (replicate 8 1)));
    [by split|exact sample_outer_ok|done|reflexivity|done].
Defined.

Lemma geneve_v6_offset_short_witness :
  exists offset,
    @decapsulate_v6 sample_enum TunnelInfo_default
      (l2_header sample_outer (be16 0x86dd) ++ outer_headers (GeneveV6 []) sample_outer ++ arp_frame)
      (len (l2_header sample_outer (be16 0x86dd))) sample_bitmap
    = Ret (outer_info (GeneveV6 []) sample_outer,
           l2_header sample_outer (be16 0x86dd) ++ outer_headers (GeneveV6 []) sample_outer ++ arp_frame, offset)
    /\ slice_from (l2_header sample_outer (be16 0x86dd) ++ outer_headers (GeneveV6 []) sample_outer ++ arp_frame)
         (len (l2_header sample_outer (be16 0x86dd)) + offset + 20) = Ret arp_frame.
Proof.
  apply (@geneve_v6_offset_short sample_enum sample_outer (be16 0x86dd) []);
    [by split|exact sample_outer_ok|done|reflexivity].
Defined.

Lemma ipip_packet_recovered_witness :
  exists packet' offset,
    @decapsulate sample_enum TunnelInfo_default
      (l2_header sample_outer (be16 0x0800) ++ ipip_header false true sample_outer ++ replicate 40 7)
      (len (l2_header sample_outer (be16 0x0800))) sample_bitmap
    = Ret (ipip_info false sample_outer, packet', offset)
    /\ slice_from packet' (wadd 64 (len (l2_header sample_outer (be16 0x0800))) offset)
      = Ret (take 12 (l2_header sample_outer (be16 0x0800)) ++ be16 EthernetType.IPV6 ++ replicate 40 7).
Proof.
  apply (@ipip_packet_recovered sample_enum false true sample_outer (be16 0x0800));
    [exact sample_outer_ok|by left|done|reflexivity].
Defined.

(** VXLAN in VXLAN around an ARP frame: both layers are stripped. *)
Definition nested_packet : bytes :=
  l2_header sample_outer (be16 0x0800) ++ outer_headers (VxlanV4 4789) sample_outer
  ++ l2_header sample_outer (be16 0x0800) ++ outer_headers (VxlanV4 8472) sample_outer ++ arp_frame.

Lemma decap_tunnel_in_bounds_witness :
  match @decap_tunnel sample_enum (plain_handler, TunnelInfo_default, nested_packet) sample_bitmap 0 with
  | Ret (h', info', packet', Ok (n, _)) =>
      n = 100 /\ tier info' = 2 /\ handler_ok h' /\ len packet' = len nested_packet
  | _ => False
  end.
Proof.
  pose proof (@decap_tunnel_in_bounds sample_enum plain_handler TunnelInfo_default nested_packet sample_bitmap 0
    plain_handler_ok (conj (len_nonneg _) eq_refl)) as Hb. cbv zeta in Hb.
  assert (match @decap_tunnel sample_enum (plain_handler, TunnelInfo_default, nested_packet) sample_bitmap 0 with
          | Ret (_, info', _, Ok (n, _)) => (n =? 100) && (tier info' =? 2)
          | _ => false
          end = true) as Hc by (vm_compute; reflexivity).
  revert Hb Hc. generalize (@decap_tunnel sample_enum (plain_handler, TunnelInfo_default, nested_packet) sample_bitmap 0).
  intros [[[[h' info'] packet'] [[n t]|e]]|] Hb Hc; [|discriminate Hc|discriminate Hc].
  destruct Hb as (Hh & _ & Hl & _). split; [lia|]. split; [lia|]. split; [exact Hh|exact Hl].
Defined.

Lemma gre_header_length_panics_witness :
  @decap_tunnel sample_enum
    (plain_handler, TunnelInfo_default,
     replicate 12 0 ++ be16 EthernetType.IPV4 ++ (0x4f :: replicate 8 0 ++ 47 :: replicate 34 0))
    sample_bitmap 0 = Panic.
Proof.
  apply (@gre_header_length_panics sample_enum _ _ _ _ 0x4f);
    [exact plain_handler_ok|reflexivity|done|by split|done|done|done|done].
Defined.
