(* ===== verification/PacketSpec.v ===== *)
(** * What parsing a packet gives (src/agent/src/common/meta_packet.rs)

    The parser on frames that are built from their fields, on arbitrary bytes,
    and together with the tunnel stripping before it and the TCP performance
    code behind it. *)

From S2P Require Import Prelude Timestamp TcpFlags Bytes Consts TapPort MetaPacket PacketParse PacketSafety.

(** ** Reading built frames *)

Lemma index_skip pre q i k : 0 <= k -> i = len pre + k -> index (pre ++ q) i = index q k.
Proof.
  intros Hk ->. unfold index, len. rewrite !(proj2 (Z.leb_le _ _)) by lia. f_equal.
  rewrite lookup_app_r by lia. f_equal. lia.
Qed.

Lemma slice_from_skip pre q i k : 0 <= k -> i = len pre + k -> slice_from (pre ++ q) i = slice_from q k.
Proof.
  intros Hk ->. unfold slice_from. rewrite len_app. pose proof (len_nonneg pre) as Hp.
  replace (len pre + k <=? len pre + len q) with (k <=? len q) by lia. rewrite !(proj2 (Z.leb_le 0 _)) by lia. cbn [andb].
  destruct (k <=? len q); [|done]. f_equal. rewrite drop_app_ge by (unfold len; lia). f_equal. unfold len. lia.
Qed.

Lemma u16_skip pre q i k : 0 <= k -> i = len pre + k -> u16_at (pre ++ q) i = u16_at q k.
Proof. intros. unfold u16_at. by rewrite (slice_from_skip pre q i k). Qed.

Lemma u32_skip pre q i k : 0 <= k -> i = len pre + k -> u32_at (pre ++ q) i = u32_at q k.
Proof. intros. unfold u32_at. by rewrite (slice_from_skip pre q i k). Qed.

Lemma slice_skip pre q i j k n : 0 <= k -> i = len pre + k -> j = i + n -> slice (pre ++ q) i j = slice q k (k + n).
Proof.
  intros Hk -> ->. unfold slice. rewrite len_app. pose proof (len_nonneg pre) as Hp.
  replace (len pre + k + n <=? len pre + len q) with (k + n <=? len q) by lia.
  replace (len pre + k <=? len pre + k + n) with (k <=? k + n) by lia. rewrite !(proj2 (Z.leb_le 0 _)) by lia. cbn [andb].
  replace (len pre + k + n - (len pre + k)) with n by lia. replace (k + n - k) with n by lia.
  rewrite drop_app_ge by (unfold len; lia). replace (Z.to_nat (len pre + k) - length pre)%nat with (Z.to_nat k) by (unfold len; lia). done.
Qed.

Lemma ipv4_skip pre q i k : 0 <= k -> i = len pre + k -> ipv4_at (pre ++ q) i = ipv4_at q k.
Proof. intros. unfold ipv4_at. by rewrite (slice_skip pre q i (i + IPV4_ADDR_LEN) k IPV4_ADDR_LEN). Qed.

(** Fields at known positions. *)
Lemma u16_field q i v : 0 <= i -> fits 16 v -> q !! Z.to_nat i = Some (Z.shiftr v 8 mod 256) ->
  q !! Z.to_nat (i + 1) = Some (v mod 256) -> u16_at q i = Ret v.
Proof.
  intros Hi Hv H0 H1. unfold u16_at. pose proof (lookup_lt_Some _ _ _ H1). rewrite slice_from_ret by (unfold len; lia).
  cbn [mbind run_bind]. erewrite drop_S by exact H0. replace (S (Z.to_nat i)) with (Z.to_nat (i + 1)) by lia.
  erewrite drop_S by exact H1. cbn. by rewrite be16_val.
Qed.

Lemma read_u32_field q i v : 0 <= i -> fits 32 v -> take 4 (drop (Z.to_nat i) q) = be32 v -> u32_at q i = Ret v.
Proof.
  intros Hi Hv Ht. unfold u32_at. assert (length (take 4 (drop (Z.to_nat i) q)) = 4%nat) as Hl by (by rewrite Ht).
  rewrite length_take, length_drop in Hl. rewrite slice_from_ret by (unfold len; lia). cbn [mbind run_bind].
  rewrite <- (take_drop 4 (drop (Z.to_nat i) q)), Ht. by apply read_be32.
Qed.

Lemma ipv4_field q i v : 0 <= i -> fits 32 v -> take 4 (drop (Z.to_nat i) q) = be32 v -> ipv4_at q i = Ret (V4 v).
Proof.
  intros Hi Hv Ht. unfold ipv4_at, slice. assert (length (take 4 (drop (Z.to_nat i) q)) = 4%nat) as Hl by (by rewrite Ht).
  rewrite length_take, length_drop in Hl. rewrite !(proj2 (andb_true_iff _ _)) by (unfold IPV4_ADDR_LEN, len; lia).
  replace (i + IPV4_ADDR_LEN - i) with 4 by (unfold IPV4_ADDR_LEN; lia). cbn [mbind run_bind]. change (Z.to_nat 4) with 4%nat.
  rewrite Ht. rewrite <- (app_nil_r (be32 v)). by rewrite read_be32.
Qed.

(** ** Frames *)

(** Up to two VLAN tags before the ethernet type. *)
Definition vlan_tags_of (tags : list Z) : bytes := mjoin ((fun t => be16 EthernetType.DOT1Q ++ be16 t) <$> tags).

Definition l2_of (dst src : bytes) (tags : list Z) (eth_type : Z) : bytes :=
  dst ++ src ++ vlan_tags_of tags ++ be16 eth_type.

(** An IPv4 header; [i_fill] are the bytes that parsing does not look at. *)
Record Ipv4Header := {
  i_src : Z; i_dst : Z; i_ttl : Z; i_frag : Z; i_options : bytes; i_fill : nat -> Z;
}.

Definition ipv4_of (h : Ipv4Header) (proto size : Z) : bytes :=
  [0x45 + len (i_options h) / 4; i_fill h 0] ++ be16 (20 + len (i_options h) + size) ++ [i_fill h 1; i_fill h 2]
  ++ be16 (i_frag h) ++ [i_ttl h; proto; i_fill h 3; i_fill h 4] ++ be32 (i_src h) ++ be32 (i_dst h).

(** A TCP header, in a SYN with a segment size and a window scale. *)
Record TcpSegment := {
  t_sport : Z; t_dport : Z; t_seq : Z; t_ack : Z; t_flags : Z; t_win : Z;
  t_syn : option (Z * Z); t_fill : nat -> Z; t_payload : bytes;
}.

Definition tcp_options_of {N : PnetNumbers} (t : TcpSegment) : bytes :=
  match t_syn t with
  | None => []
  | Some (mss, scale) => [opt_MSS; 4] ++ be16 mss ++ [opt_NOP; opt_WSCALE; 3; scale]
  end.

Definition tcp_of {N : PnetNumbers} (t : TcpSegment) : bytes :=
  be16 (t_sport t) ++ be16 (t_dport t) ++ be32 (t_seq t) ++ be32 (t_ack t)
  ++ [(5 + len (tcp_options_of t) / 4) * 16; t_flags t] ++ be16 (t_win t) ++ [t_fill t 0; t_fill t 1; t_fill t 2; t_fill t 3].

Definition macs_ok (dst src : bytes) : Prop := length dst = 6%nat /\ length src = 6%nat.

Definition tags_ok (tags : list Z) : Prop := (length tags <= 2)%nat /\ Forall (fits 16) tags.

(** The VLAN of the innermost tag. *)
Definition set_vlan (tags : list Z) (m : MetaPacket) : MetaPacket :=
  match last tags with Some t => m <| vlan := Z.land t VLAN_ID_MASK |> | None => m end.

Lemma len_l2_of dst src tags e : macs_ok dst src -> len (l2_of dst src tags e) = 14 + 4 * Z.of_nat (length tags).
Proof.
  intros [Hd Hs]. unfold l2_of. rewrite !len_app. unfold len at 1 2. rewrite Hd, Hs.
  assert (len (vlan_tags_of tags) = 4 * Z.of_nat (length tags)) as ->; [|change (len (be16 e)) with 2; lia].
  unfold vlan_tags_of. induction tags as [|t tags IH]; [done|]. rewrite fmap_cons, join_cons.
  rewrite len_app, IH. cbn [length]. change (len (be16 EthernetType.DOT1Q ++ be16 t)) with 4. lia.
Qed.

Lemma parse_eth_l2 m dst src tags e rest : macs_ok dst src -> tags_ok tags -> fits 16 e -> e <> EthernetType.DOT1Q ->
  let packet := l2_of dst src tags e ++ rest in
  parse_eth m packet (len packet) = Ret (set_vlan tags m, Next (e, 4 * Z.of_nat (length tags), len rest)).
Proof.
  intros Hm [Ht Hf] He Hne packet. assert (len packet = 14 + 4 * Z.of_nat (length tags) + len rest) as Hl.
  { unfold packet. by rewrite len_app, len_l2_of. }
  assert (packet = (dst ++ src) ++ (vlan_tags_of tags ++ be16 e ++ rest)) as Hp.
  { unfold packet, l2_of. by rewrite <- !(assoc_L (++)). }
  destruct Hm as [Hd Hs]. assert (len (dst ++ src) = 12) as H12 by (rewrite len_app; unfold len; lia).
  pose proof (len_nonneg rest). unfold parse_eth, FIELD_OFFSET_ETH_TYPE, VLAN_HEADER_SIZE, ETH_TYPE_LEN.
  cbn [HeaderType.min_header_size mbind run_bind]. rewrite (proj2 (Z.ltb_ge _ _)) by lia. clearbody packet.
  destruct tags as [|t1 [|t2 [|]]]; [..|cbn in Ht; lia]; rewrite Hl; subst packet; cbn [length vlan_tags_of fmap list_fmap mjoin list_join].
  - rewrite (u16_skip _ _ 12 0) by lia. rewrite (u16_field _ 0 e) by done. cbn [mbind run_bind].
    rewrite (proj2 (Z.eqb_neq _ _)) by done. cbn. repeat f_equal. lia.
  - apply Forall_cons in Hf as [H1 _]. rewrite (u16_skip _ _ 12 0) by lia.
    rewrite (u16_field _ 0 EthernetType.DOT1Q) by done. cbn [mbind run_bind]. rewrite Z.eqb_refl.
    cbn [length Z.of_nat]. rewrite (proj2 (Z.ltb_ge _ _)) by lia. rewrite (u16_skip _ _ (12 + 2) 2) by lia.
    rewrite (u16_field _ 2 t1) by done. cbn [mbind run_bind]. rewrite (u16_skip _ _ (12 + 4) 4) by lia.
    rewrite (u16_field _ 4 e) by done. cbn [mbind run_bind]. rewrite (proj2 (Z.eqb_neq _ _)) by done.
    cbn. repeat f_equal. lia.
  - apply Forall_cons in Hf as [H1 [H2 _]%Forall_cons]. rewrite (u16_skip _ _ 12 0) by lia.
    rewrite (u16_field _ 0 EthernetType.DOT1Q) by done. cbn [mbind run_bind]. rewrite Z.eqb_refl.
    cbn [length Z.of_nat]. rewrite (proj2 (Z.ltb_ge (_ - 4) _)) by lia. rewrite (u16_skip _ _ (12 + 2) 2) by lia.
    rewrite (u16_field _ 2 t1) by done. cbn [mbind run_bind]. rewrite (u16_skip _ _ (12 + 4) 4) by lia.
    rewrite (u16_field _ 4 EthernetType.DOT1Q) by done. cbn [mbind run_bind]. rewrite Z.eqb_refl.
    rewrite (proj2 (Z.ltb_ge _ _)) by lia. rewrite (u16_skip _ _ (12 + 4 + 2) 6) by lia.
    rewrite (u16_field _ 6 t2) by done. cbn [mbind run_bind]. rewrite (u16_skip _ _ (12 + (4 + 4)) 8) by lia.
    rewrite (u16_field _ 8 e) by done. cbn. repeat f_equal. lia.
Qed.

Lemma slice_prefix s r n : n = len s -> slice (s ++ r) 0 (0 + n) = Ret s.
Proof.
  intros ->. unfold slice. rewrite len_app. pose proof (len_nonneg s). pose proof (len_nonneg r).
  rewrite (proj2 (andb_true_iff _ _)) by lia. f_equal. replace (0 + len s - 0) with (len s) by lia. unfold len. rewrite Nat2Z.id.
  apply take_app_length.
Qed.

Lemma parse_macs_l2 m dst src tags e rest tag : macs_ok dst src -> fits 8 tag ->
  exists m', parse_macs m (l2_of dst src tags e ++ rest) e tag = Ret m'
    /\ m' = m <| lookup_key := ((lookup_key m) <| lk_eth_type := e |> <| src_mac := src |> <| dst_mac := dst |>) |>
              <| header_type := Eth |> <| vlan_tag_size := tag |> <| l2_l3_opt_size := tag |>.
Proof.
  intros [Hd Hs] Ht. unfold parse_macs, l2_of. rewrite <- !(assoc_L (++)).
  rewrite (slice_skip dst _ FIELD_OFFSET_SA (FIELD_OFFSET_SA + MAC_ADDR_LEN) 0 6) by (unfold len; rewrite ?Hd; done).
  rewrite (slice_prefix src _ 6) by (unfold len; rewrite Hs; done). cbn [mbind run_bind].
  change (FIELD_OFFSET_DA + MAC_ADDR_LEN) with (0 + 6). rewrite (slice_prefix dst _ 6) by (unfold len; rewrite Hd; done).
  cbn [mbind run_bind]. eexists. split; [done|]. rewrite !wrap_small; [done|unfold fits in *; lia..].
Qed.

Definition ipv4_ok (h : Ipv4Header) (size : Z) : Prop :=
  fits 32 (i_src h) /\ fits 32 (i_dst h) /\ fits 16 (i_frag h) /\ len (i_options h) mod 4 = 0 /\ len (i_options h) <= 40
  /\ 0 <= size /\ fits 16 (20 + len (i_options h) + size).

Lemma ipv4_reads pre h p size rest tag packet : packet = pre ++ ipv4_of h p size ++ rest -> len pre = 14 + tag -> ipv4_ok h size ->
  index packet (FIELD_OFFSET_IHL + tag) = Ret (0x45 + len (i_options h) / 4)
  /\ ipv4_at packet (FIELD_OFFSET_SIP + tag) = Ret (V4 (i_src h))
  /\ ipv4_at packet (FIELD_OFFSET_DIP + tag) = Ret (V4 (i_dst h))
  /\ index packet (IPV4_TTL_OFFSET + tag) = Ret (i_ttl h)
  /\ u16_at packet (FIELD_OFFSET_TOTAL_LEN + tag) = Ret (20 + len (i_options h) + size)
  /\ index packet (IPV4_PROTO_OFFSET + tag) = Ret p
  /\ u16_at packet (FIELD_OFFSET_FRAG + tag) = Ret (i_frag h).
Proof.
  intros -> Hpre (Hs & Hd & Hf & _ & _ & _ & Htot).
  unfold FIELD_OFFSET_IHL, FIELD_OFFSET_SIP, FIELD_OFFSET_DIP, FIELD_OFFSET_TOTAL_LEN, FIELD_OFFSET_FRAG, IPV4_TTL_OFFSET,
    IPV4_PROTO_OFFSET, ETH_HEADER_SIZE.
  rewrite (index_skip pre _ _ 0), (ipv4_skip pre _ (26 + tag) 12), (ipv4_skip pre _ (30 + tag) 16), (index_skip pre _ _ 8),
    (u16_skip pre _ (16 + tag) 2), (index_skip pre _ _ 9), (u16_skip pre _ (20 + tag) 6) by lia.
  split_and!; [done| | |done| |done| ].
  - by apply (ipv4_field _ 12 (i_src h)).
  - by apply (ipv4_field _ 16 (i_dst h)).
  - by apply u16_field.
  - by apply u16_field.
Qed.

Lemma ihl_options n : 0 <= n <= 40 -> n mod 4 = 0 -> Z.max (Z.land (0x45 + n / 4) 0xF * 4 - 20) 0 = n.
Proof.
  intros Hn Hm. change 0xF with (Z.ones 4). rewrite Z.land_ones by lia.
  assert (n = 4 * (n / 4)) as E by (apply Z_div_exact_full_2; [lia|done]). set (k := n / 4) in *.
  replace ((0x45 + k) mod 2 ^ 4) with (5 + k); [lia|]. replace (0x45 + k) with (5 + k + 4 * 2 ^ 4) by lia.
  rewrite Z.mod_add, Z.mod_small by lia. done.
Qed.

(** The header of a packet that carries [size] bytes; the frame may be padded. *)
Lemma parse_ipv4_of m pre h p size rest tag : len pre = 14 + tag -> 0 <= tag <= 8 -> l2_l3_opt_size m = tag -> ipv4_ok h size ->
  size <= len rest -> len rest < 2 ^ 16 -> Z.land (i_frag h) 0xFFF = 0 ->
  parse_ipv4 m (pre ++ ipv4_of h p size ++ i_options h ++ rest) tag (20 + len (i_options h) + len rest)
  = Ret (m <| header_type := Ipv4 |>
              <| lookup_key := ((lookup_key m) <| src_ip := V4 (i_src h) |> <| dst_ip := V4 (i_dst h) |> <| proto := p |>) |>
              <| ttl := i_ttl h |> <| packet_len := 34 + tag + len (i_options h) + size |>
              <| l2_l3_opt_size := tag + len (i_options h) |> <| l3_payload_len := size |>, Next (p, len rest)).
Proof.
  intros Hpre Ht Ho Hok Hsz Hrest Hfrag. set (packet := pre ++ _).
  destruct (ipv4_reads pre h p size (i_options h ++ rest) tag packet eq_refl Hpre Hok) as (R1 & R2 & R3 & R4 & R5 & R6 & R7).
  destruct Hok as (_ & _ & _ & Hm4 & Hl40 & Hz & Htot). pose proof (len_nonneg (i_options h)) as Hopt.
  assert (len packet = 34 + tag + len (i_options h) + len rest) as Hlen.
  { unfold packet. rewrite !len_app, Hpre. change (len (ipv4_of h p size)) with 20. lia. }
  unfold parse_ipv4. cbn [HeaderType.min_header_size HeaderType.min_packet_size mbind run_bind].
  pose proof (len_nonneg rest). rewrite (proj2 (Z.ltb_ge _ _)) by lia.
  rewrite R1. cbn [mbind run_bind]. rewrite R2. cbn [mbind run_bind]. rewrite R3. cbn [mbind run_bind].
  rewrite R4. cbn [mbind run_bind]. rewrite R5. cbn [mbind run_bind].
  rewrite ihl_options by lia. rewrite (proj2 (Z.ltb_ge _ _)) by lia. rewrite R6. cbn [mbind run_bind].
  rewrite R7. cbn [mbind run_bind]. rewrite Hfrag. cbn [Z.eqb].
  rewrite (proj2 (Z.eqb_neq _ _)) by lia.
  set (n := len (i_options h)) in *.
  assert (wrap 32 (20 + n + size + 14 + tag) = 34 + tag + n + size) as W1 by (rewrite wrap_small; [lia|unfold fits in *; lia]).
  assert (wadd 16 (l2_l3_opt_size m) (wrap 16 n) = tag + n) as W2.
  { rewrite (wrap_small 16 n) by (unfold fits; lia). rewrite wadd_small; [lia|unfold fits; lia]. }
  assert (Z.max (34 + tag + n + size) (14 + 20 + tag) = 34 + tag + n + size) as W3 by lia.
  assert (wrap 16 (wsub 32 (34 + tag + n + size) (wrap 32 (len packet - (20 + n + len rest - 20 - n)))) = size) as W4.
  { rewrite (wrap_small 32) by (unfold fits in *; lia). rewrite wsub_small by (unfold fits in *; lia).
    rewrite wrap_small; [lia|unfold fits in *; lia]. }
  replace (20 + n + len rest - 20 - n) with (len rest) in * by lia.
  unfold rest_len, set_proto, set_ips. cbn -[wrap wadd wsub len Z.add Z.max]. rewrite W1, W2, W3, W4. done.
Qed.

(** An IPv6 header without extension headers. *)
Record Ipv6Header := { v_src : bytes; v_dst : bytes; v_hop : Z; v_fill : nat -> Z }.

Definition ipv6_of (h : Ipv6Header) (proto size : Z) : bytes :=
  [0x60; v_fill h 0; v_fill h 1; v_fill h 2] ++ be16 size ++ [proto; v_hop h] ++ v_src h ++ v_dst h.

Definition ipv6_ok (h : Ipv6Header) (size : Z) : Prop :=
  length (v_src h) = 16%nat /\ length (v_dst h) = 16%nat /\ 0 < size /\ fits 16 size.

(** No extension header starts with these protocols. *)
Definition upper_layer (p : Z) : Prop := p ∈ [IpProtocol.TCP; IpProtocol.UDP; IpProtocol.ICMPV6].

Lemma len_ipv6_of h p size : ipv6_ok h size -> len (ipv6_of h p size) = 40.
Proof. intros (Hs & Hd & _). unfold ipv6_of, len. by rewrite !length_app, Hs, Hd. Qed.

Lemma ipv6_skip pre q i k : 0 <= k -> i = len pre + k -> ipv6_at (pre ++ q) i = ipv6_at q k.
Proof. intros. unfold ipv6_at. by rewrite (slice_skip pre q i (i + IPV6_ADDR_LEN) k IPV6_ADDR_LEN). Qed.

Lemma ipv6_reads pre h p size rest tag packet : packet = pre ++ ipv6_of h p size ++ rest -> len pre = 14 + tag -> ipv6_ok h size ->
  ipv6_at packet (FIELD_OFFSET_IPV6_SRC + tag) = Ret (V6 (v_src h))
  /\ ipv6_at packet (FIELD_OFFSET_IPV6_DST + tag) = Ret (V6 (v_dst h))
  /\ index packet (IPV6_HOP_LIMIT_OFFSET + tag) = Ret (v_hop h)
  /\ u16_at packet (FIELD_OFFSET_PAYLOAD_LEN + tag) = Ret size
  /\ index packet (IPV6_PROTO_OFFSET + tag) = Ret p.
Proof.
  intros -> Hpre (Hs & Hd & Hz & Hf).
  unfold FIELD_OFFSET_IPV6_SRC, FIELD_OFFSET_IPV6_DST, IPV6_HOP_LIMIT_OFFSET, FIELD_OFFSET_PAYLOAD_LEN, IPV6_PROTO_OFFSET, ETH_HEADER_SIZE.
  rewrite (ipv6_skip pre _ (22 + tag) 8), (ipv6_skip pre _ (38 + tag) 24), (index_skip pre _ _ 7), (u16_skip pre _ (18 + tag) 4),
    (index_skip pre _ _ 6) by lia. unfold ipv6_of. rewrite <- !(assoc_L (++)).
  set (a := [0x60; v_fill h 0; v_fill h 1; v_fill h 2]). set (b := [p; v_hop h]).
  assert (forall x, a ++ be16 size ++ b ++ x = (a ++ be16 size ++ b) ++ x) as E by (intros; by rewrite <- !(assoc_L (++))).
  split_and!; [| |done|by apply u16_field|done]; rewrite E.
  - rewrite (ipv6_skip _ _ 8 0) by done. unfold ipv6_at. by rewrite (slice_prefix (v_src h) _ IPV6_ADDR_LEN) by (unfold len; by rewrite Hs).
  - rewrite (assoc_L (++) _ (v_src h)). rewrite (ipv6_skip _ _ 24 0) by (rewrite ?len_app; unfold len; rewrite ?Hs; done).
    unfold ipv6_at. by rewrite (slice_prefix (v_dst h) _ IPV6_ADDR_LEN) by (unfold len; by rewrite Hd).
Qed.

Lemma parse_ipv6_of m pre h p size rest tag : len pre = 14 + tag -> 0 <= tag <= 8 -> l2_l3_opt_size m = tag -> ipv6_ok h size ->
  upper_layer p -> len rest < 2 ^ 16 ->
  parse_ipv6 m (pre ++ ipv6_of h p size ++ rest) tag (40 + len rest)
  = Ret (m <| header_type := Ipv6 |>
           <| lookup_key := ((lookup_key m) <| src_ip := V6 (v_src h) |> <| dst_ip := V6 (v_dst h) |> <| proto := p |>) |>
           <| ttl := v_hop h |> <| next_header := p |> <| l2_l3_opt_size := tag |> <| packet_len := 54 + tag + size |>
           <| l3_payload_len := len rest |>, Next (p, len rest)).
Proof.
  intros Hpre Ht Ho Hok Hup Hrest. set (packet := pre ++ _).
  destruct (ipv6_reads pre h p size rest tag packet eq_refl Hpre Hok) as (R1 & R2 & R3 & R4 & R5).
  assert (len packet = 54 + tag + len rest) as Hlen by (unfold packet; rewrite !len_app, Hpre, len_ipv6_of by done; lia).
  pose proof (len_nonneg rest). destruct Hok as (_ & _ & Hz & Hf). clearbody packet. unfold parse_ipv6.
  cbn [HeaderType.min_header_size HeaderType.min_packet_size mbind run_bind]. change (20 + IPV6_HEADER_ADJUST) with 40.
  rewrite (proj2 (Z.ltb_ge _ _)) by lia. rewrite R1. cbn [mbind run_bind]. rewrite R2. cbn [mbind run_bind]. rewrite R3. cbn [mbind run_bind].
  rewrite R4. cbn [mbind run_bind]. rewrite (proj2 (Z.eqb_neq _ _)) by lia. unfold update_ip6_opt. rewrite R5. cbn [mbind run_bind].
  unfold ETH_HEADER_SIZE, IPV6_HEADER_SIZE. change (14 + 40) with 54.
  assert (forall m' s, ip6_opt_loop (S (length packet)) packet m' p (54 + tag) s = Ret (m', Some (p, 54 + tag))) as Hloop.
  { intros m' s. unfold upper_layer in Hup. cbn [ip6_opt_loop].
    repeat (apply elem_of_cons in Hup as [->|Hup]; [done|]). by apply not_elem_of_nil in Hup. }
  rewrite Hloop. cbn [mbind run_bind]. rewrite wsub_small by (unfold fits; lia). rewrite Z.sub_diag.
  replace (40 + len rest - 40 - 0) with (len rest) by lia. rewrite (proj2 (Z.ltb_ge _ _)) by lia.
  assert (wadd 16 (l2_l3_opt_size m) (wrap 16 0) = tag) as W1 by (rewrite Ho; change (wrap 16 0) with 0; rewrite wadd_small by (unfold fits; lia); lia).
  assert (wrap 16 (len rest) = len rest) as W2 by (apply wrap_small; unfold fits; lia).
  assert (size + (14 + 20) + tag + IPV6_HEADER_ADJUST = 54 + tag + size) as W3 by (unfold IPV6_HEADER_ADJUST, IPV6_HEADER_SIZE, IPV4_HEADER_SIZE; lia).
  unfold set_proto, set_ips. cbn -[wrap wadd len Z.add IPV6_HEADER_ADJUST]. rewrite W1, W2, W3. done.
Qed.

(** Either network header. *)
Inductive IpHeader := HV4 (h : Ipv4Header) | HV6 (h : Ipv6Header).

Definition is_v6 (h : IpHeader) : bool := match h with HV6 _ => true | HV4 _ => false end.
Definition eth_of (h : IpHeader) : Z := if is_v6 h then EthernetType.IPV6 else EthernetType.IPV4.
Definition ip_options (h : IpHeader) : bytes := match h with HV4 h => i_options h | HV6 _ => [] end.
Definition ip_of (h : IpHeader) (p size : Z) : bytes :=
  match h with HV4 h => ipv4_of h p size ++ i_options h | HV6 h => ipv6_of h p size end.
Definition ip_src (h : IpHeader) : IpAddr := match h with HV4 h => V4 (i_src h) | HV6 h => V6 (v_src h) end.
Definition ip_dst (h : IpHeader) : IpAddr := match h with HV4 h => V4 (i_dst h) | HV6 h => V6 (v_dst h) end.
Definition ip_ttl (h : IpHeader) : Z := match h with HV4 h => i_ttl h | HV6 h => v_hop h end.

(** Not a fragment, sizes within bounds. *)
Definition ip_ok (h : IpHeader) (size : Z) : Prop :=
  match h with HV4 h => ipv4_ok h size /\ Z.land (i_frag h) 0xFFF = 0 | HV6 h => ipv6_ok h size end.

(** Both fixed headers without VLAN tags and options. *)
Definition base_of (v6 : bool) : Z := if v6 then 54 else 34.

(** ** TCP headers *)

Section tcp.
Context {N : PnetNumbers} {HN : PnetDocumented N}.

Definition segment_ok (t : TcpSegment) : Prop :=
  fits 16 (t_sport t) /\ fits 16 (t_dport t) /\ fits 32 (t_seq t) /\ fits 32 (t_ack t) /\ fits 8 (t_flags t) /\ fits 16 (t_win t)
  /\ match t_syn t with Some (mss, scale) => fits 16 mss /\ fits 8 scale | None => True end.

(** What parsing should find. *)
Definition header_of (t : TcpSegment) : MetaPacketTcpHeader :=
  Build_MetaPacketTcpHeader (t_seq t) (t_ack t) (t_win t) (match t_syn t with Some (mss, _) => mss | None => 0 end)
    (Z.land (t_flags t) TcpFlags.MASK) (match t_syn t with Some _ => 7 | None => 5 end)
    (match t_syn t with Some (_, scale) => scale | None => 0 end) false None.

Definition options_flag_of (t : TcpSegment) : Z :=
  match t_syn t with Some _ => Z.lor TCP_OPT_FLAG_MSS TCP_OPT_FLAG_WIN_SCALE | None => 0 end.

Lemma tcp_reads pre t rest base o packet : packet = pre ++ tcp_of t ++ rest -> len pre = base + o -> segment_ok t ->
  index packet (base + 12 + o) = Ret ((5 + len (tcp_options_of t) / 4) * 16)
  /\ index packet (base + 13 + o) = Ret (t_flags t)
  /\ u16_at packet (base + 14 + o) = Ret (t_win t)
  /\ u32_at packet (base + 4 + o) = Ret (t_seq t)
  /\ u32_at packet (base + 8 + o) = Ret (t_ack t)
  /\ u16_at packet (base + o) = Ret (t_sport t)
  /\ u16_at packet (base + 2 + o) = Ret (t_dport t).
Proof.
  intros -> Hpre (H1 & H2 & H3 & H4 & H5 & H6 & _).
  rewrite (index_skip pre _ _ 12), (index_skip pre _ (base + 13 + o) 13), (u16_skip pre _ (base + 14 + o) 14), (u32_skip pre _ (base + 4 + o) 4),
    (u32_skip pre _ (base + 8 + o) 8), (u16_skip pre _ (base + o) 0), (u16_skip pre _ (base + 2 + o) 2) by lia.
  split_and!; [done|done|by apply u16_field|by apply read_u32_field|by apply read_u32_field|by apply u16_field|by apply u16_field].
Qed.

(** The options of a SYN. *)
Lemma syn_options_read n pre mss scale rest m h : (4 <= n)%nat -> protocol_data m = TcpHeader h -> fits 16 mss ->
  let packet := pre ++ ([opt_MSS; 4] ++ be16 mss ++ [opt_NOP; opt_WSCALE; 3; scale]) ++ rest in
  tcp_opt_loop n packet (len pre + 8) (len pre) m
  = Ret (m <| tcp_options_flag := Z.lor (Z.lor (tcp_options_flag m) TCP_OPT_FLAG_MSS) TCP_OPT_FLAG_WIN_SCALE |>
           <| protocol_data := TcpHeader (h <| th_mss := mss |> <| th_win_scale := scale |>) |>).
Proof.
  intros Hn Hh Hmss packet. destruct (pnet_tcp (N := N)) as (E0 & E1 & E2 & E3 & _).
  assert (forall i k b, 0 <= k -> ([opt_MSS; 4] ++ be16 mss ++ [opt_NOP; opt_WSCALE; 3; scale]) !! Z.to_nat k = Some b ->
    i = len pre + k -> index packet i = Ret b) as HI.
  { intros i k b Hk Hl ->. unfold packet. rewrite (index_skip pre _ _ k) by done. unfold index.
    rewrite (proj2 (Z.leb_le _ _)) by done. rewrite lookup_app_l by (by eapply lookup_lt_Some). by rewrite Hl. }
  assert (slice packet (len pre + 2) (len pre + 2 + 2) = Ret (be16 mss)) as HS.
  { unfold packet. rewrite (slice_skip pre _ _ _ 2 2) by lia. rewrite <- !(assoc_L (++)).
    rewrite (slice_skip [opt_MSS; 4] _ 2 (2 + 2) 0 2) by done. by rewrite slice_prefix. }
  clearbody packet. destruct n as [|n]; [lia|]. cbn [tcp_opt_loop].
  rewrite (proj2 (Z.ltb_lt _ _)) by lia. rewrite (HI (len pre + 1) 1 4) by (done || lia). cbn [mbind run_bind].
  rewrite (HI (len pre) 0 opt_MSS) by (done || lia). cbn [mbind run_bind]. rewrite E0, E1, E2, E3. cbn [Z.eqb Pos.eqb].
  unfold TCP_OPT_MSS_LEN, TCP_OPT_WIN_SCALE_LEN. rewrite (proj2 (Z.ltb_ge _ _)) by lia. rewrite HS. cbn [mbind run_bind].
  change (read_u16_be (be16 mss)) with (Ret (Z.shiftr mss 8 mod 256 * 2 ^ 8 + mss mod 256)). rewrite be16_val by done. cbn [mbind run_bind].
  destruct n as [|n]; [lia|]. cbn [tcp_opt_loop]. rewrite (proj2 (Z.ltb_lt _ _)) by lia. rewrite (HI (len pre + 4 + 1) 5 opt_WSCALE) by (done || lia). cbn [mbind run_bind].
  rewrite (HI (len pre + 4) 4 opt_NOP) by (done || lia). cbn [mbind run_bind]. rewrite ?E0, ?E1, ?E2, ?E3. cbn [Z.eqb Pos.eqb].
  destruct n as [|n]; [lia|]. cbn [tcp_opt_loop]. rewrite (proj2 (Z.ltb_lt _ _)) by lia. rewrite (HI (len pre + 4 + 1 + 1) 6 3) by (done || lia). cbn [mbind run_bind].
  rewrite (HI (len pre + 4 + 1) 5 opt_WSCALE) by (done || lia). cbn [mbind run_bind]. rewrite ?E0, ?E1, ?E2, ?E3. cbn [Z.eqb Pos.eqb].
  unfold TCP_OPT_WIN_SCALE_LEN. rewrite (proj2 (Z.ltb_ge _ _)) by lia. rewrite (HI (len pre + 4 + 1 + 2) 7 scale) by (done || lia). cbn [mbind run_bind].
  assert (forall m', tcp_opt_loop n packet (len pre + 8) (len pre + 4 + 1 + 3) m' = Ret m') as Hend.
  { intros m'. destruct n; cbn [tcp_opt_loop]; by rewrite (proj2 (Z.ltb_ge _ _)) by lia. }
  rewrite Hend. unfold with_tcp, or_flag. cbn. rewrite Hh. done.
Qed.

Lemma tcp_options_len t : len (tcp_options_of t) = match t_syn t with Some _ => 8 | None => 0 end.
Proof. unfold tcp_options_of. by destruct (t_syn t) as [[]|]. Qed.

(** The options of a segment behind the header fields already read. *)
Lemma update_tcp_opt_of (v6 : bool) m pre t rest h : header_type m = (if v6 then Ipv6Tcp else Ipv4Tcp) ->
  len pre = base_of v6 + 20 + l2_l3_opt_size m ->
  l4_opt_size m = len (tcp_options_of t) -> tcp_options_flag m = 0 -> protocol_data m = TcpHeader h -> segment_ok t ->
  (if 5 <? 5 + len (tcp_options_of t) / 4 then update_tcp_opt m (pre ++ tcp_options_of t ++ rest) else Ret m)
  = Ret (m <| tcp_options_flag := options_flag_of t |>
           <| protocol_data := TcpHeader (match t_syn t with Some (mss, scale) => h <| th_mss := mss |> <| th_win_scale := scale |> | None => h end) |>).
Proof.
  intros Hh Hpre H4 Hf Hp (_ & _ & _ & _ & _ & _ & Hsyn). pose proof (tcp_options_len t) as Hl.
  unfold options_flag_of. unfold tcp_options_of in *. destruct (t_syn t) as [[mss scale]|].
  - rewrite Hl. change (5 <? 5 + 8 / 4) with true. unfold update_tcp_opt. rewrite Hh, Hp.
    replace (HeaderType.min_packet_size (if v6 then Ipv6Tcp else Ipv4Tcp)) with (Ret (base_of v6 + 20)) by (by destruct v6).
    cbn [mbind run_bind]. rewrite H4, Hl. rewrite <- Hpre.
    set (packet := pre ++ _). rewrite Z.min_l by (unfold packet; rewrite !(len_app pre), (len_app _ rest), Hl; pose proof (len_nonneg rest); lia).
    unfold packet. rewrite (syn_options_read (length _) pre mss scale rest m h); [by rewrite Hf| |done|apply Hsyn].
    rewrite length_app. cbn. lia.
  - rewrite Hl. change (5 <? 5 + 0 / 4) with false. destruct m. cbn in *. by subst.
Qed.

(** Behind the IP header; [pad] is what the link layer appends. *)
Definition segment_bytes (t : TcpSegment) (pad : bytes) : bytes := tcp_of t ++ tcp_options_of t ++ t_payload t ++ pad.

Lemma parse_tcp_of (v6 : bool) m pre t pad o options n : len pre = base_of v6 + o -> 0 <= o -> l2_l3_opt_size m = o ->
  header_type m = (if v6 then Ipv6 else Ipv4) ->
  tcp_options_flag m = 0 -> protocol_data m = TcpHeader MetaPacketTcpHeader_default -> segment_ok t ->
  options = len (tcp_options_of t) -> n = len (t_payload t) ->
  packet_len m = base_of v6 + 20 + o + options + n -> fits 16 (base_of v6 + 20 + o + options + n + len pad) ->
  exists m', parse_tcp m (pre ++ segment_bytes t pad) (if v6 then EthernetType.IPV6 else EthernetType.IPV4) v6 (20 + options + n + len pad) = Ret (m', Next tt)
    /\ m' = m <| l4_opt_size := options |> <| l4_payload_len := n |> <| payload_len := n |>
              <| header_type := if v6 then Ipv6Tcp else Ipv4Tcp |>
              <| tcp_options_flag := options_flag_of t |> <| protocol_data := TcpHeader (header_of t) |>.
Proof.
  intros Hpre Hoo Ho Hh Hf Hp Hok Eopt En Hpl Hfit. eexists. split; [|done]. set (packet := pre ++ _).
  set (base := base_of v6) in *. assert (34 <= base) as Hbase by (by destruct v6).
  destruct (tcp_reads pre t (tcp_options_of t ++ t_payload t ++ pad) base o packet eq_refl Hpre Hok) as (R1 & R2 & R3 & R4 & R5 & _ & _).
  assert (len packet = base + 20 + o + options + n + len pad) as Hlen.
  { unfold packet, segment_bytes. rewrite !len_app, Hpre. change (len (tcp_of t)) with 20. lia. }
  pose proof (len_nonneg pad). pose proof (len_nonneg (t_payload t)).
  pose proof (len_nonneg (tcp_options_of t)). rewrite <- Eopt in R1.
  assert (Z.shiftr ((5 + options / 4) * 16) 4 = 5 + options / 4) as Hsh.
  { rewrite Z.shiftr_div_pow2 by lia. change (2 ^ 4) with 16. apply Z.div_mul. lia. }
  assert (Z.max ((5 + options / 4) * 4 - 20) 0 = options) as Hmax.
  { rewrite Eopt, tcp_options_len. by destruct (t_syn t). }
  unfold parse_tcp. set (ht := if v6 then Ipv6Tcp else Ipv4Tcp).
  replace (if v6 then (FIELD_OFFSET_TCPV6_DATAOFF, _, _, _, _) else _)
    with (base + 12, base + 4, base + 8, base + 14, base + 13) by (by destruct v6).
  assert (at_least_l4 m (if v6 then EthernetType.IPV6 else EthernetType.IPV4) Ipv4Tcp Ipv6Tcp = Ret m) as ->.
  { transitivity (Ret (at_least m (base + 20 + l2_l3_opt_size m))); [by destruct v6|].
    unfold at_least. rewrite Ho, Z.max_l by lia. by destruct m. }
  cbn [mbind run_bind]. rewrite Hh. replace (if decide _ then Ipv6Tcp else Ipv4Tcp) with ht by (by destruct v6).
  replace (HeaderType.min_header_size ht) with (Ret 20) by (by destruct v6).
  cbn [mbind run_bind]. rewrite (proj2 (Z.ltb_ge _ _)) by lia.
  rewrite Ho, R1. cbn [mbind run_bind]. rewrite Hsh, Hmax. rewrite (proj2 (Z.ltb_ge _ _)) by lia.
  set (m2 := m <| l4_opt_size := options |>).
  assert (rest_len m2 packet (20 + options + n + len pad - 20 - options) = n) as Hrl.
  { unfold rest_len, m2. cbn [packet_len update]. change (packet_len (m <| l4_opt_size := options |>)) with (packet_len m).
    rewrite Hpl, Hlen. rewrite (wrap_small 32) by (unfold fits in *; lia). rewrite wsub_small by (unfold fits in *; lia).
    rewrite wrap_small; [lia|unfold fits in *; lia]. }
  rewrite Hrl. unfold tcp_fields.
  set (m3 := m2 <| l4_payload_len := n |>). set (m4 := m3 <| payload_len := l4_payload_len m3 |> <| header_type := ht |>).
  change (protocol_data m4) with (protocol_data m). change (l2_l3_opt_size m4) with (l2_l3_opt_size m). rewrite Hp, Ho.
  rewrite R3. cbn [mbind run_bind]. rewrite R2. cbn [mbind run_bind]. rewrite R4. cbn [mbind run_bind]. rewrite R5. cbn [mbind run_bind].
  set (m5 := m4 <| protocol_data := _ |>). unfold packet, segment_bytes. rewrite (assoc_L (++) pre (tcp_of t)). rewrite Eopt at 1.
  erewrite (update_tcp_opt_of v6 m5 (pre ++ tcp_of t) t (t_payload t ++ pad)); [|done| |done|exact Hf|done|done].
  - cbn [mbind run_bind]. f_equal. f_equal. unfold header_of. subst m5. rewrite Eopt, tcp_options_len. by destruct (t_syn t) as [[]|].
  - rewrite len_app, Hpre. change (len (tcp_of t)) with 20. change (l2_l3_opt_size m5) with (l2_l3_opt_size m). lia.
Qed.

(** ** A TCP segment in its frame *)

Definition segment_size (t : TcpSegment) : Z := 20 + len (tcp_options_of t) + len (t_payload t).

Definition ip_frame (dst src : bytes) (tags : list Z) (h : IpHeader) (p size : Z) (rest : bytes) : bytes :=
  l2_of dst src tags (eth_of h) ++ ip_of h p size ++ rest.

Definition tcp_frame (dst src : bytes) (tags : list Z) (h : IpHeader) (t : TcpSegment) (pad : bytes) : bytes :=
  ip_frame dst src tags h IpProtocol.TCP (segment_size t) (segment_bytes t pad).

Lemma len_segment_bytes t pad : len (segment_bytes t pad) = segment_size t + len pad.
Proof. unfold segment_bytes, segment_size. rewrite !len_app. change (len (tcp_of t)) with 20. lia. Qed.

Lemma len_ip_of h p size : ip_ok h size -> len (ip_of h p size) = base_of (is_v6 h) - 14 + len (ip_options h).
Proof.
  destruct h as [h|h]; cbn [ip_of ip_options is_v6 base_of ip_ok]; intros Hok; [|by rewrite len_ipv6_of].
  rewrite len_app. change (len (ipv4_of h p size)) with 20. lia.
Qed.

(** Ethernet and IP give the state in which the transport header is read. *)
Definition before_l4 (dst src : bytes) (tags : list Z) (h : IpHeader) (p size : Z) (ts : Timestamp.t) (m : MetaPacket) : Prop :=
  let o := 4 * Z.of_nat (length tags) + len (ip_options h) in
  header_type m = (if is_v6 h then Ipv6 else Ipv4) /\ protocol_data m = TcpHeader MetaPacketTcpHeader_default
  /\ tcp_options_flag m = 0 /\ tap_port m = 0 /\ l2_l3_opt_size m = o /\ packet_len m = base_of (is_v6 h) + o + size
  /\ ttl m = ip_ttl h /\ vlan m = (match last tags with Some x => Z.land x VLAN_ID_MASK | None => 0 end)
  /\ let k := lookup_key m in
     lk_timestamp k = ts /\ src_mac k = src /\ dst_mac k = dst /\ src_ip k = ip_src h /\ dst_ip k = ip_dst h /\ proto k = p.

Lemma update_fields_ip dst src tags h p size rest se de ts ol : macs_ok dst src -> tags_ok tags -> ip_ok h size -> upper_layer p ->
  size <= len rest -> len rest < 2 ^ 16 ->
  exists m, update_fields MetaPacket_empty (ip_frame dst src tags h p size rest) se de ts ol
      = parse_l4 m (ip_frame dst src tags h p size rest) (eth_of h) (is_v6 h) p (len rest) ol
    /\ before_l4 dst src tags h p size ts m.
Proof.
  intros Hm Htags Hip Hup Hrest Hr16. pose proof Htags as [Ht2 _].
  pose proof (len_ip_of h p size Hip) as Hl. set (tag := 4 * Z.of_nat (length tags)).
  assert (fits 16 (eth_of h) /\ eth_of h <> EthernetType.DOT1Q) as [He1 He2] by (by destruct h).
  unfold update_fields, ip_frame. rewrite (parse_eth_l2 _ dst src tags (eth_of h)) by done. cbn [mbind run_bind].
  fold tag. set (m0 := set_vlan tags _).
  assert (protocol_data m0 = TcpHeader MetaPacketTcpHeader_default /\ tcp_options_flag m0 = 0 /\ timestamp m0 = ts /\ tap_port m0 = 0
    /\ vlan m0 = (match last tags with Some x => Z.land x VLAN_ID_MASK | None => 0 end)) as (P1 & P2 & P3 & P4 & P5).
  { unfold m0, set_vlan. by destruct (last tags). }
  clearbody m0. destruct (parse_macs_l2 m0 dst src tags (eth_of h) (ip_of h p size ++ rest) tag Hm ltac:(unfold fits; lia)) as (m1 & -> & Em1).
  cbn [mbind run_bind]. rewrite (len_app (ip_of h p size)), Hl.
  destruct h as [h|h]; cbn [eth_of is_v6 ip_of ip_options base_of ip_ok] in *; cbn [mbind run_bind].
  - change (EthernetType.IPV4 =? EthernetType.ARP) with false. change (EthernetType.IPV4 =? EthernetType.IPV6) with false.
    change (EthernetType.IPV4 =? EthernetType.IPV4) with true. cbn [mbind run_bind].
    replace (34 - 14 + len (i_options h) + len rest) with (20 + len (i_options h) + len rest) by lia.
    rewrite <- (assoc_L (++)). rewrite (parse_ipv4_of m1 _ h p size rest tag);
      [|by rewrite len_l2_of|lia|by rewrite Em1|apply Hip|lia|lia|apply Hip]. cbn [mbind run_bind].
    eexists. split; [done|]. rewrite Em1. unfold before_l4. split_and!; try done. cbn -[Z.mul Z.add len]. unfold tag. lia.
  - change (EthernetType.IPV6 =? EthernetType.ARP) with false. change (EthernetType.IPV6 =? EthernetType.IPV6) with true. cbn [mbind run_bind].
    replace (54 - 14 + len [] + len rest) with (40 + len rest) by (change (len []) with 0; lia).
    rewrite (parse_ipv6_of m1 _ h p size rest tag); [|by rewrite len_l2_of|lia|by rewrite Em1|done|done|lia]. cbn [mbind run_bind].
    eexists. split; [done|]. rewrite Em1. unfold before_l4.
    split_and!; try done; cbn -[Z.mul Z.add len]; change (len []) with 0; unfold tag; lia.
Qed.

Lemma parse_ports_of (v6 : bool) m pre t rest o ol : len pre = base_of v6 + o -> l2_l3_opt_size m = o ->
  header_type m = (if v6 then Ipv6Tcp else Ipv4Tcp) -> segment_ok t ->
  exists m', parse_ports m (pre ++ tcp_of t ++ rest) (base_of v6) (base_of v6 + 2) ol = Ret m'
    /\ m' = m <| lookup_key := ((lookup_key m) <| src_port := t_sport t |> <| dst_port := t_dport t |>) |>
              <| packet_len := if packet_len m + PACKET_MAX_PADDING <? ol then wrap 32 ol else packet_len m |>.
Proof.
  intros Hpre Ho Hh Hok. set (packet := pre ++ _).
  destruct (tcp_reads pre t rest (base_of v6) o packet eq_refl Hpre Hok) as (_ & _ & _ & _ & _ & R1 & R2).
  unfold parse_ports. rewrite Hh, Ho.
  replace (HeaderType.as_u8 Ipv4 <=? HeaderType.as_u8 (if v6 then Ipv6Tcp else Ipv4Tcp)) with true by (by destruct v6). cbn [mbind run_bind].
  rewrite R1. cbn [mbind run_bind]. rewrite R2. cbn [mbind run_bind].
  set (m1 := m <| lookup_key := _ |>). change (packet_len m1) with (packet_len m).
  destruct (_ <? ol); eexists; (split; [done|]); subst m1; by destruct m.
Qed.

(** The packet that parsing the frame should give. *)
Definition parsed_segment (dst src : bytes) (tags : list Z) (h : IpHeader) (t : TcpSegment) (ts : Timestamp.t) (m : MetaPacket) : Prop :=
  header_type m = (if is_v6 h then Ipv6Tcp else Ipv4Tcp) /\ protocol_data m = TcpHeader (header_of t)
  /\ payload_len m = len (t_payload t)
  /\ l2_l3_opt_size m = 4 * Z.of_nat (length tags) + len (ip_options h) /\ l4_opt_size m = len (tcp_options_of t)
  /\ ttl m = ip_ttl h /\ vlan m = (match last tags with Some x => Z.land x VLAN_ID_MASK | None => 0 end)
  /\ let k := lookup_key m in
     lk_timestamp k = ts /\ src_mac k = src /\ dst_mac k = dst /\ src_ip k = ip_src h /\ dst_ip k = ip_dst h
     /\ proto k = IpProtocol.TCP /\ src_port k = t_sport t /\ dst_port k = t_dport t.

Lemma update_fields_segment dst src tags h t pad se de ts ol : macs_ok dst src -> tags_ok tags -> ip_ok h (segment_size t) ->
  segment_ok t -> len (tcp_frame dst src tags h t pad) < 2 ^ 16 ->
  exists m, update_fields MetaPacket_empty (tcp_frame dst src tags h t pad) se de ts ol = Ret (m, Ok tt)
    /\ parsed_segment dst src tags h t ts m /\ tap_port m = 0.
Proof.
  intros Hm Htags Hip Hseg Hlen. pose proof (len_segment_bytes t pad) as Hsb. pose proof (len_nonneg pad).
  pose proof (len_nonneg (t_payload t)). pose proof (len_nonneg (tcp_options_of t)). pose proof (len_nonneg (ip_options h)).
  pose proof (len_ip_of h IpProtocol.TCP (segment_size t) Hip) as Hlip. assert (34 <= base_of (is_v6 h)) as Hbase by (by destruct h).
  unfold tcp_frame in *. assert (upper_layer IpProtocol.TCP) as Hup by (by left).
  unfold ip_frame in Hlen. rewrite !len_app, Hlip, len_l2_of in Hlen by done.
  destruct (update_fields_ip dst src tags h IpProtocol.TCP (segment_size t) (segment_bytes t pad) se de ts ol) as (m2 & -> & Hb);
    [done..|lia|lia|].
  destruct Hb as (Q1 & Q2 & Q3 & Q4 & Q5 & Q6 & Q7 & Q8 & Q9). set (o := 4 * Z.of_nat (length tags) + len (ip_options h)) in *.
  unfold parse_l4. change (IpProtocol.TCP =? IpProtocol.ICMPV4) with false. change (IpProtocol.TCP =? IpProtocol.UDP) with false.
  change (IpProtocol.TCP =? IpProtocol.TCP) with true. cbn [mbind run_bind].
  replace (if is_v6 h then (FIELD_OFFSET_IPV6_SPORT, FIELD_OFFSET_IPV6_DPORT) else _)
    with (base_of (is_v6 h), base_of (is_v6 h) + 2) by (by destruct h).
  unfold ip_frame. set (pre := l2_of dst src tags (eth_of h) ++ ip_of h IpProtocol.TCP (segment_size t)).
  assert (len pre = base_of (is_v6 h) + o) as Hpre by (unfold pre; rewrite len_app, Hlip, len_l2_of by done; lia).
  rewrite (assoc_L (++)). fold pre. clearbody pre. rewrite Hsb. unfold segment_size in *. unfold eth_of.
  destruct (parse_tcp_of (is_v6 h) m2 pre t pad o _ _ Hpre ltac:(unfold o; lia) Q5 Q1 Q3 Q2 Hseg eq_refl eq_refl) as (m3 & Ep & Em3);
    [lia|unfold fits, o in *; lia|]. rewrite Ep. cbn [mbind run_bind].
  destruct (parse_ports_of (is_v6 h) m3 pre t (tcp_options_of t ++ t_payload t ++ pad) o ol) as (m4 & Epp & Em4);
    [done|by rewrite Em3|by rewrite Em3|done|]. unfold segment_bytes. rewrite Epp.
  cbn [mbind run_bind]. exists m4. split; [done|]. rewrite Em4, Em3. split; [|exact Q4].
  destruct Q9 as (?&?&?&?&?&?). unfold parsed_segment. cbv zeta. split_and!; done.
Qed.

(** No payload is no slice. *)
Definition payload_of (s : bytes) : option bytes := match s with [] => None | _ :: _ => Some s end.

Lemma get_l4_payload_of m pre s n : TapPort.is_from (tap_port m) TapPort.FROM_EBPF = false -> raw m = Some (pre ++ s) ->
  HeaderType.min_packet_size (header_type m) = Ret n -> n + l2_l3_opt_size m + l4_opt_size m = len pre ->
  get_l4_payload m = Ret (payload_of s).
Proof.
  intros Ht Hr Hn Hl. unfold get_l4_payload, raw_behind. rewrite Ht, Hn. cbn [mbind run_bind]. rewrite Hr, Hl, len_app.
  destruct s as [|x s]; [by rewrite (proj2 (Z.ltb_ge _ _)) by (change (len []) with 0; lia)|].
  rewrite (proj2 (Z.ltb_lt _ _)) by (rewrite len_cons; pose proof (len_nonneg s); lia). by rewrite slice_from_app.
Qed.

(** ** The unguarded reads *)

(** The option loop on a TCP address option of which only [x] and [y] follow. *)
Lemma toa_loop_panics n pre x y m : (0 < n)%nat ->
  tcp_opt_loop n (pre ++ [TCP_OPT_ADDRESS_HUAWEI; TCP_TOA_LEN; x; y]) (len pre + 4) (len pre) m = Panic.
Proof.
  intros Hn. destruct n as [|n]; [lia|]. destruct (pnet_tcp (N := N)) as (E0 & E1 & E2 & E3 & E4 & E5). cbn [tcp_opt_loop].
  rewrite (proj2 (Z.ltb_lt _ _)) by lia. rewrite (index_skip pre _ (len pre + 1) 1) by lia. cbn [mbind run_bind].
  rewrite (index_skip pre _ (len pre) 0) by lia. cbn [mbind run_bind].
  change (index [TCP_OPT_ADDRESS_HUAWEI; TCP_TOA_LEN; x; y] 1) with (Ret TCP_TOA_LEN). cbn [mbind run_bind].
  change (index [TCP_OPT_ADDRESS_HUAWEI; TCP_TOA_LEN; x; y] 0) with (Ret TCP_OPT_ADDRESS_HUAWEI). cbn [mbind run_bind].
  rewrite E0, E1, E2, E3, E4, E5. unfold toa_option. change (Z.max TCP_TOA_LEN 2 =? TCP_TOA_LEN) with true.
  cbn [TCP_OPT_ADDRESS_HUAWEI Z.eqb Pos.eqb orb].
  rewrite (u16_skip pre _ (len pre + TCP_TOA_PORT_OFFSET) 2), (u32_skip pre _ (len pre + TCP_TOA_IP_OFFSET) 4) by done. done.
Qed.

Lemma parse_tcp_toa_panics (v6 : bool) m pre hdr x y o : len pre = base_of v6 + o -> 0 <= o -> l2_l3_opt_size m = o ->
  header_type m = (if v6 then Ipv6 else Ipv4) -> protocol_data m = TcpHeader MetaPacketTcpHeader_default ->
  length hdr = 20%nat -> hdr !! 12%nat = Some 0x60 ->
  let packet := pre ++ hdr ++ [TCP_OPT_ADDRESS_HUAWEI; TCP_TOA_LEN; x; y] in bytes_ok packet ->
  parse_tcp m packet (if v6 then EthernetType.IPV6 else EthernetType.IPV4) v6 24 = Panic.
Proof.
  intros Hpre Hoo Ho Hh Hp Hl H12 packet Hb. set (base := base_of v6) in *. assert (34 <= base) as Hbase by (by destruct v6).
  assert (len packet = base + o + 24) as Hlen by (unfold packet; rewrite !len_app, Hpre; unfold len; rewrite Hl; cbn; lia).
  assert (index packet (base + 12 + o) = Ret 0x60) as R1.
  { unfold packet. rewrite (index_skip pre _ _ 12) by lia. unfold index. cbn [Z.leb Z.compare]. rewrite lookup_app_l by (rewrite Hl; lia).
    change (Z.to_nat 12) with 12%nat. by rewrite H12. }
  unfold parse_tcp. set (ht := if v6 then Ipv6Tcp else Ipv4Tcp).
  replace (if v6 then (FIELD_OFFSET_TCPV6_DATAOFF, _, _, _, _) else _)
    with (base + 12, base + 4, base + 8, base + 14, base + 13) by (by destruct v6).
  destruct (at_least_l4_ok m v6 Ipv4Tcp Ipv6Tcp) as [n ->]; [by eexists..|]. cbn [mbind run_bind].
  set (m1 := at_least m n). assert (header_type m1 = (if v6 then Ipv6 else Ipv4) /\ l2_l3_opt_size m1 = o /\ protocol_data m1 = TcpHeader MetaPacketTcpHeader_default)
    as (G1 & G2 & G3) by (by split_and!). clearbody m1. rewrite G1. replace (if decide _ then Ipv6Tcp else Ipv4Tcp) with ht by (by destruct v6).
  replace (HeaderType.min_header_size ht) with (Ret 20) by (by destruct v6). cbn [mbind run_bind].
  replace (24 - 20 <? 0) with false by done. rewrite G2, R1. cbn [mbind run_bind]. replace (Z.shiftr 0x60 4) with 6 by done.
  replace (24 - 20 - Z.max (6 * 4 - 20) 0 <? 0) with false by done. set (m4 := _ <| header_type := ht |>).
  assert (header_type m4 = ht /\ l2_l3_opt_size m4 = o /\ l4_opt_size m4 = 4) as (F1 & F2 & F3) by (by split_and!).
  assert (tcp_state m4) as Hm4 by (exists MetaPacketTcpHeader_default; split; [done|]; by split_and!). clearbody m4.
  assert (wp (tcp_fields m4 packet 6 (base + 4) (base + 8) (base + 14) (base + 13)) (keeps m4)) as Hk.
  { apply tcp_fields_ok; [done|done|lia|by unfold fits|repeat constructor; lia|rewrite F2; repeat constructor; lia]. }
  destruct (tcp_fields _ _ _ _ _ _ _) as [m5|]; [|done]. destruct Hk as [(h5 & Hh5 & _) Hl5]. cbn [mbind run_bind].
  replace (5 <? 6) with true by done. unfold layout_of in Hl5. injection Hl5 as E1 E2 E3 _. rewrite F1 in E1. rewrite F2 in E2. rewrite F3 in E3.
  unfold update_tcp_opt. rewrite E1, E2, E3, Hh5. replace (HeaderType.min_packet_size ht) with (Ret (base + 20)) by (by destruct v6).
  cbn [mbind run_bind]. rewrite Hlen, Z.min_l by lia. unfold packet. rewrite (assoc_L (++)).
  assert (base + 20 + o = len (pre ++ hdr)) as -> by (rewrite len_app, Hpre; unfold len; rewrite Hl; lia).
  rewrite toa_loop_panics; [done|]. rewrite length_app. cbn. lia.
Qed.

Lemma parse_icmpv6_panics (v6 : bool) m pre t short o : len pre = base_of v6 + o -> 0 <= o -> l2_l3_opt_size m = o ->
  (t = icmpv6_echo_request \/ t = icmpv6_echo_reply) -> len short < 7 ->
  parse_icmpv6 m (pre ++ t :: short) (len (t :: short)) = Panic.
Proof.
  intros Hpre Hoo Ho Ht Hs. destruct (pnet_icmpv6 (N := N)) as (E1 & E2 & E3). pose proof (len_nonneg short).
  unfold parse_icmpv6. rewrite len_cons, (proj2 (Z.ltb_lt 0 _)) by lia. change ICMPV6_TYPE_OFFSET with 54. rewrite Ho.
  destruct v6; cbn [base_of] in Hpre.
  - rewrite (index_skip pre _ (54 + o) 0) by lia. change (index (t :: short) 0) with (Ret t). cbn [mbind run_bind].
    assert (u32_at (pre ++ t :: short) (54 + o + 4) = Panic) as ->.
    { rewrite (u32_skip pre _ _ 4) by lia. unfold u32_at, slice_from. destruct (_ && _); [|done]. cbn [mbind run_bind].
      change (drop (Z.to_nat 4) (t :: short)) with (drop 3 short). assert (length (drop 3 short) < 4)%nat as Hd by (rewrite length_drop; unfold len in Hs; lia).
      by destruct (drop 3 short) as [|? [|? [|? [|]]]]; [..|cbn in Hd; lia]. }
    rewrite E1, E2, E3 in *. by destruct Ht as [-> | ->].
  - assert (index (pre ++ t :: short) (54 + o) = Panic) as ->; [|done]. rewrite (index_skip pre _ (54 + o) 20) by lia.
    unfold index. cbn [Z.leb Z.compare]. rewrite lookup_ge_None_2; [done|]. cbn [length]. unfold len in Hs. lia.
Qed.

End tcp.

(** ** Claims *)

Section claims.
Context {N : PnetNumbers}.

Lemma header_fits_packet_ok m ts : tcp_state m -> timestamp m = ts -> fits 64 ts -> fits 16 (payload_len m) -> packet_ok m.
Proof. intros (h & Hp & ? & ? & ? & ? & ? & ?) <- Hts Hpl. exists h. by split_and!. Qed.

Lemma raw_behind_suffix m packet n : raw m = Some packet -> 0 <= n -> exists s, raw_behind m n = Ret s
  /\ match s with Some s => s = drop (Z.to_nat n) packet /\ s <> [] | None => len packet <= n end.
Proof.
  intros Hr Hn. unfold raw_behind. rewrite Hr. destruct (Z.ltb_spec n (len packet)); [|by eexists].
  rewrite slice_from_ret by lia. eexists. split; [done|]. split; [done|]. intros E%(f_equal length).
  rewrite length_drop in E. unfold len in *. cbn in E. lia.
Qed.


Context {HN : PnetDocumented N}.


(** The two unguarded reads abort the agent on every packet of these shapes:
    a TCP header of 24 bytes that ends in the first four bytes of a TCP address
    option, with no payload; and an ICMPv6 echo message of fewer than eight
    bytes, in an IPv6 packet or in an IPv4 packet of that protocol. *)
Theorem truncated_packets_panic dst src tags h hdr x y t short se de ts ol :
  macs_ok dst src -> tags_ok tags -> ip_ok h 24 -> ip_ok h (len (t :: short)) ->
  length hdr = 20%nat -> hdr !! 12%nat = Some 0x60 ->
  bytes_ok (ip_frame dst src tags h IpProtocol.TCP 24 (hdr ++ [TCP_OPT_ADDRESS_HUAWEI; TCP_TOA_LEN; x; y])) ->
  (t = icmpv6_echo_request \/ t = icmpv6_echo_reply) -> len short < 7 ->
  update MetaPacket_empty (ip_frame dst src tags h IpProtocol.TCP 24 (hdr ++ [TCP_OPT_ADDRESS_HUAWEI; TCP_TOA_LEN; x; y])) se de ts ol = Panic
  /\ update MetaPacket_empty (ip_frame dst src tags h IpProtocol.ICMPV6 (len (t :: short)) (t :: short)) se de ts ol = Panic.
Proof.
  intros Hm Htags Hip Hip' Hl H12 Hb Ht Hs. assert (0 <= 4 * Z.of_nat (length tags) + len (ip_options h)) as Hoo
    by (pose proof (len_nonneg (ip_options h)); lia).
  assert (forall p size, ip_ok h size -> len (l2_of dst src tags (eth_of h) ++ ip_of h p size)
    = base_of (is_v6 h) + (4 * Z.of_nat (length tags) + len (ip_options h))) as Hpre.
  { intros p size Hsz. rewrite len_app, len_ip_of, len_l2_of by done. lia. }
  unfold update. split.
  - set (rest := hdr ++ _) in *. assert (len rest = 24) as Hr by (unfold rest; rewrite len_app; unfold len; rewrite Hl; done).
    destruct (update_fields_ip dst src tags h IpProtocol.TCP 24 rest se de ts ol Hm Htags Hip ltac:(by left) ltac:(lia) ltac:(lia)) as (m & -> & Hbf).
    destruct Hbf as (Q1 & Q2 & _ & _ & Q5 & _). unfold parse_l4. cbn [IpProtocol.TCP IpProtocol.ICMPV4 IpProtocol.UDP Z.eqb Pos.eqb].
    replace (IpProtocol.TCP =? IpProtocol.ICMPV4) with false by done. replace (IpProtocol.TCP =? IpProtocol.UDP) with false by done.
    replace (IpProtocol.TCP =? IpProtocol.TCP) with true by done. unfold ip_frame in *. rewrite (assoc_L (++)) in Hb |- *. rewrite Hr. unfold rest in *.
    replace (eth_of h) with (if is_v6 h then EthernetType.IPV6 else EthernetType.IPV4) at 2 by done.
    rewrite (parse_tcp_toa_panics (is_v6 h) m _ hdr x y _ (Hpre _ _ Hip) Hoo Q5 Q1 Q2 Hl H12 Hb).
    by destruct h.
  - assert (len (t :: short) < 2 ^ 16) as Hr by (rewrite len_cons; lia).
    destruct (update_fields_ip dst src tags h IpProtocol.ICMPV6 (len (t :: short)) (t :: short) se de ts ol Hm Htags Hip'
      ltac:(unfold upper_layer; set_solver) ltac:(lia) Hr) as (m & -> & Hbf).
    destruct Hbf as (_ & _ & _ & _ & Q5 & _). unfold parse_l4.
    replace (IpProtocol.ICMPV6 =? IpProtocol.ICMPV4) with false by done. replace (IpProtocol.ICMPV6 =? IpProtocol.UDP) with false by done.
    replace (IpProtocol.ICMPV6 =? IpProtocol.TCP) with false by done. replace (IpProtocol.ICMPV6 =? IpProtocol.ICMPV6) with true by done.
    unfold ip_frame. rewrite (assoc_L (++)).
    rewrite (parse_icmpv6_panics (is_v6 h) m _ t short _ (Hpre _ _ Hip') Hoo Q5 Ht Hs).
    by destruct h.
Qed.

End claims.

(** ** Instances *)

Definition ex_ip : IpHeader := HV4 {| i_src := 0x0a000001; i_dst := 0x0a000002; i_ttl := 64; i_frag := 0x4000;
  i_options := [1; 1; 1; 0]; i_fill := fun _ => 0 |}.

Definition ex_syn : TcpSegment := {| t_sport := 40000; t_dport := 80; t_seq := 1000; t_ack := 0; t_flags := 2; t_win := 64240;
  t_syn := Some (1460, 7); t_fill := fun _ => 0; t_payload := [] |}.

Definition ex_frame : bytes := @tcp_frame iana [2; 0; 0; 0; 0; 1] [2; 0; 0; 0; 0; 2] [100] ex_ip ex_syn [0; 0].

Lemma ex_frame_bytes : bytes_ok ex_frame.
Proof. by apply bytes_ok_forallb. Qed.



Lemma truncated_packets_panic_witness :
  let hdr := [0; 80; 0; 81; 0; 0; 0; 1; 0; 0; 0; 0; 0x60; 2; 0; 0; 0; 0; 0; 0] in
  @update iana MetaPacket_empty (ip_frame [2; 0; 0; 0; 0; 1] [2; 0; 0; 0; 0; 2] [] ex_ip IpProtocol.TCP 24 (hdr ++ [254; 8; 1; 2])) true false 5 0 = Panic
  /\ @update iana MetaPacket_empty (ip_frame [2; 0; 0; 0; 0; 1] [2; 0; 0; 0; 0; 2] [] ex_ip IpProtocol.ICMPV6 (len [128; 0]) [128; 0]) true false 5 0 = Panic.
Proof.
  intros hdr. apply (@truncated_packets_panic iana iana_documented [2; 0; 0; 0; 0; 1] [2; 0; 0; 0; 0; 2] [] ex_ip hdr 1 2 128 [0] true false 5 0).
  - done.
  - split; [cbn; lia|constructor].
  - split; [|done]. by split_and!.
  - split; [|done]. by split_and!.
  - done.
  - done.
  - by apply bytes_ok_forallb.
  - by left.
  - done.
Defined.
