(* ===== verification/Capture.v ===== *)
(** * From a captured frame to the TCP measurements

    [LocalModeDispatcher::process_packet] of
    src/agent/src/dispatcher/local_mode_dispatcher.rs: the frame is assigned to
    the pipeline of its interface, its time stamp is put in order, its tunnels
    are stripped, the rest is parsed and tagged, and the packet is handed to the
    flow code, here to [TcpPerf].  The model ends at that call: the packet it
    returns is the one [flow_map.inject_meta_packet] gets. *)

From stdpp Require Import gmap.
From S2P Require Import TcpPerf TcpPerfSpec.
From S2P Require Import Prelude Timestamp Bytes Consts TapPort MetaPacket FlowNode PacketParse PacketSafety.
From S2P Require Import TapTypes TunnelType Decapsulate DecapSafety DecapTunnel DecapSpec PacketSpec.

(** Nanoseconds; a [Duration] has no wrap-around. *)
Definition Duration := Z.

Record Pipeline := {
  vm_mac : bytes;
  bond_mac : bytes;
  pl_timestamp : Duration;
}.

#[export] Instance Pipeline_fields : Fields Pipeline := fun x =>
  Build_Pipeline (vm_mac x) (bond_mac x) (pl_timestamp x).

Record PacketCounter := {
  rx : Z;
  rx_bytes : Z;
  invalid_packets : Z;
  retired : Z;
}.

#[export] Instance PacketCounter_fields : Fields PacketCounter := fun x =>
  Build_PacketCounter (rx x) (rx_bytes x) (invalid_packets x) (retired x).

Record InternalState := {
  is_id : Z;
  pipelines : gmap Z Pipeline;
  tap_type_handler : CaptureNetworkTypeHandler;
  tunnel_info : TunnelInfo;
  tunnel_type_bitmap : Z;
  npb_dedup_enabled : bool;
  counter : PacketCounter;
}.

#[export] Instance InternalState_fields : Fields InternalState := fun x =>
  Build_InternalState (is_id x) (pipelines x) (tap_type_handler x) (tunnel_info x) (tunnel_type_bitmap x)
    (npb_dedup_enabled x) (counter x).

(** The first key [HashMap::iter] visits: the order is not specified, but an
    entry of a non-empty map comes first. *)
Class HashMapOrder := first_key : gmap Z Pipeline -> Z.

Class HashMapOrderOk (O : HashMapOrder) : Prop :=
  first_key_in : forall m, m <> ∅ -> is_Some (m !! first_key m).

(** [fetch_add] on the counters *)
Definition count_retired (st : InternalState) : InternalState :=
  st <| counter := ((counter st) <| retired := wadd 64 (retired (counter st)) 1 |>) |>.
Definition count_invalid (st : InternalState) : InternalState :=
  st <| counter := ((counter st) <| invalid_packets := wadd 64 (invalid_packets (counter st)) 1 |>) |>.
Definition count_rx (st : InternalState) (capture_length : Z) : InternalState :=
  st <| counter := ((counter st) <| rx := wadd 64 (rx (counter st)) 1 |>
                      <| rx_bytes := wadd 64 (rx_bytes (counter st)) capture_length |>) |>.

Definition MAC_ZERO : bytes := [0; 0; 0; 0; 0; 0].
Definition VALID_MAC_INDEX : Z := 3.
Definition NANOS_1_MILLI : Duration := 1000000.

(** [MacAddr::is_multicast] asserts its argument is longer than an address. *)
Definition is_multicast (octets : bytes) : run bool :=
  rassert (MAC_ADDR_LEN <? len octets);;
  b ← index octets 0;
  Ret (Z.land b 1 =? 1).

(** [LookupKey::get_nat_source] *)
Definition lookup_nat_source (k : LookupKey) : Z := Z.max (src_nat_source k) (dst_nat_source k).

(** [FeatureFlags::DEDUP] *)
Definition DEDUP : Z := 1.

(** [feature_flag.set(DEDUP, enabled)] *)
Definition set_dedup (flags : Z) (enabled : bool) : Z := if enabled then Z.lor flags DEDUP else Z.ldiff flags DEDUP.

Definition prepare_flow (m : MetaPacket) (tap : CaptureNetworkType.t) (reset : bool) (hash : Z) (npb_dedup : bool) : MetaPacket :=
  m <| lookup_key := ((lookup_key m) <| feature_flag := set_dedup (feature_flag (lookup_key m)) npb_dedup |>
                        <| tap_type := tap |>) |>
    <| reset_ttl := reset |> <| queue_hash := hash |>.

Section capture.
Context {E : DecapEnum} {N : PnetNumbers} {O : HashMapOrder}.

(** The pipeline a frame goes to: that of its interface, and any for LLDP. *)
Definition find_pipeline (st : InternalState) (if_index : Z) (data : bytes) : run (option Z) :=
  match pipelines st !! if_index with
  | Some _ => Ret (Some if_index)
  | None =>
      if decide (pipelines st = ∅) then Ret None
      else
        eth_type ← u16_at data FIELD_OFFSET_ETH_TYPE;
        eth_type ← (if eth_type =? EthernetType.DOT1Q then u16_at data (FIELD_OFFSET_ETH_TYPE + VLAN_HEADER_SIZE) else Ret eth_type);
        if negb (eth_type =? EthernetType.LINK_LAYER_DISCOVERY) then Ret None
        else Ret (Some (first_key (pipelines st)))
  end.

(** Which of the two MAC addresses is the one of the pipeline's VM. *)
Definition local_ends (mac : bytes) (data : bytes) : run (bool * bool) :=
  let mac_low := drop (Z.to_nat VALID_MAC_INDEX) mac in
  src ← slice data (MAC_ADDR_LEN + VALID_MAC_INDEX) (MAC_ADDR_LEN + MAC_ADDR_LEN);
  let src_local := bool_decide (mac_low = src) in
  if src_local then Ret (true, false)
  else
    dst ← slice data VALID_MAC_INDEX MAC_ADDR_LEN;
    if bool_decide (mac_low = dst) then Ret (false, true)
    else multicast ← is_multicast data; Ret (false, multicast).

(** [decap_tunnel], [&data[decap_length..]] and [meta_packet.update]; both
    errors are counted and the packet is dropped. *)
Definition decap_and_parse (st : DecapTunnel.state) (bitmap trim_bitmap : Z) (src_local dst_local : bool) (timestamp : Timestamp.t)
    : run (DecapTunnel.state * option MetaPacket) :=
  '(st, r) ← decap_tunnel st bitmap trim_bitmap;
  match r with
  | Err _ => Ret (st, None)
  | Ok (decap_length, _) =>
      let data := st.2 in
      overlay_packet ← slice_from data decap_length;
      '(meta_packet, r) ← PacketParse.update MetaPacket_empty overlay_packet src_local dst_local timestamp (len data - decap_length);
      match r with
      | Err _ => Ret (st, None)
      | Ok _ => Ret (st, Some meta_packet)
      end
  end.

(** The tunnel, the loopback ends and the capture port of a parsed packet. *)
Definition tag_packet (info : TunnelInfo) (bond : bytes) (m : MetaPacket) : MetaPacket :=
  let m :=
    if decide (tunnel_type info <> TNone) then
      let m := m <| tunnel := Some info |> in
      if decide (tunnel_type info = TencentGre \/ tunnel_type info = Vxlan)
      then m <| lookup_key := ((lookup_key m) <| tunnel_id := id info |>) |> else m
    else if decide (src_mac (lookup_key m) = MAC_ZERO /\ dst_mac (lookup_key m) = MAC_ZERO)
    then m <| lookup_key := ((lookup_key m) <| l2_end_0 := true |> <| l2_end_1 := true |>) |> else m in
  m <| tap_port := TapPort.from_local_mac (lookup_nat_source (lookup_key m)) (tunnel_type info) (wrap 32 (mac_u64 bond)) |>.

Definition process_packet (st : InternalState) (trim_bitmap : Z) (timestamp : Duration) (if_index : Z) (data : bytes) (capture_length : Z)
    : run (InternalState * Duration * option MetaPacket) :=
  k ← find_pipeline st if_index data;
  match k with
  | None => Ret (st, timestamp, None)
  | Some k =>
      pipeline ← unwrap (pipelines st !! k);
      if timestamp + NANOS_1_MILLI <? pl_timestamp pipeline then Ret (count_retired st, timestamp, None)
      else
        let timestamp := if timestamp <? pl_timestamp pipeline then pl_timestamp pipeline else timestamp in
        let st := st <| pipelines := <[k := pipeline <| pl_timestamp := timestamp |>]> (pipelines st) |> in
        '(src_local, dst_local) ← local_ends (vm_mac pipeline) data;
        '(h, info, _, r) ← decap_and_parse (tap_type_handler st, tunnel_info st, data) (tunnel_type_bitmap st) trim_bitmap
                             src_local dst_local (Timestamp.from_duration timestamp);
        let st := st <| tap_type_handler := h |> <| tunnel_info := info |> in
        match r with
        | None => Ret (count_invalid st, timestamp, None)
        | Some m =>
            let st := count_rx st capture_length in
            let m := tag_packet (tunnel_info st) (bond_mac pipeline) m in
            Ret (st, timestamp, Some (prepare_flow m CaptureNetworkType.Cloud false (wrap 8 (is_id st)) (npb_dedup_enabled st)))
        end
  end.

(** ** Stripping tunnels keeps bytes *)

Lemma wlp_bind_any {A B} (m : run A) (f : A -> run B) Q : (forall a, wlp (f a) Q) -> wlp (m ≫= f) Q.
Proof. intros Hf. destruct m; [apply Hf|done]. Qed.

Lemma copy_within_bytes bs n d : bytes_ok bs -> wlp (copy_within bs n d) bytes_ok.
Proof.
  intros Hb. unfold copy_within. destruct (_ && _); [|done]. apply Forall_app; split; [by apply Forall_take|].
  apply Forall_app; split; [by apply Forall_take|by apply Forall_drop].
Qed.

Lemma write_u16_be_bytes bs i v : bytes_ok bs -> fits 16 v -> wlp (write_u16_be bs i v) bytes_ok.
Proof.
  intros Hb Hv. unfold write_u16_be. destruct (slice_from bs i) as [s|] eqn:Es; [|done].
  assert (bytes_ok s) as Hs by (unfold slice_from in Es; destruct (_ && _); [injection Es as <-; by apply Forall_drop|done]).
  destruct s as [|a [|b rest]]; [done..|]. cbn [mbind run_bind wlp]. apply Forall_cons in Hs as [_ [_ Hs]%Forall_cons].
  apply Forall_app; split; [by apply Forall_take|]. unfold fits in Hv. repeat apply Forall_cons_2; [| |done]; split.
  - apply Z.div_pos; lia.
  - apply Z.div_lt_upper_bound; lia.
  - by apply Z.mod_pos_bound.
  - by apply Z.mod_pos_bound.
Qed.

Definition keeps_bytes (r : TunnelInfo * bytes * Z) : Prop := bytes_ok r.1.2.

Lemma keep_bytes packet m : bytes_ok packet -> wlp (keep packet m) keeps_bytes.
Proof. intros Hb. unfold keep. apply wlp_bind_any. by intros []. Qed.

Lemma decapsulate_ipip_bytes self packet l2_len u o : bytes_ok packet -> wlp (decapsulate_ipip self packet l2_len u o) keeps_bytes.
Proof.
  intros Hb. unfold decapsulate_ipip. do 4 (apply wlp_bind_any; intros ?). apply wlp_bind.
  eapply wlp_mono; [by apply copy_within_bytes|]. intros p Hp. apply wlp_bind.
  eapply wlp_mono; [apply write_u16_be_bytes; [done|by destruct o]|]. done.
Qed.

Lemma decapsulate_bytes self packet l2_len types : bytes_ok packet -> wlp (decapsulate self packet l2_len types) keeps_bytes.
Proof.
  intros Hb. unfold decapsulate. destruct (_ || _); [done|]. apply wlp_bind_any. intros l3. destruct (_ <? _); [done|].
  apply wlp_bind_any. intros p. repeat (case_match; [by apply keep_bytes || by apply decapsulate_ipip_bytes|]). done.
Qed.

Lemma decapsulate_v6_bytes self packet l2_len types : bytes_ok packet -> wlp (decapsulate_v6 self packet l2_len types) keeps_bytes.
Proof.
  intros Hb. unfold decapsulate_v6. destruct (_ || _); [done|]. apply wlp_bind_any. intros l3. destruct (_ <? _); [done|].
  apply wlp_bind_any. intros p. repeat (case_match; [by apply keep_bytes || by apply decapsulate_ipip_bytes|]). done.
Qed.

Lemma base_decapsulate_bytes (st : DecapTunnel.state) bitmap : bytes_ok st.2 -> wlp (base_decapsulate st bitmap) (fun r => bytes_ok r.1.2).
Proof.
  destruct st as [[h info] packet]. cbn [snd]. intros Hb. unfold base_decapsulate. destruct (_ <? _); [done|].
  apply wlp_bind_any. intros [h' [[t e] l2]]. apply wlp_bind, (wlp_mono _ keeps_bytes).
  - destruct (e =? EthernetType.IPV4); [by apply decapsulate_bytes|].
    destruct (e =? EthernetType.IPV6); [by apply decapsulate_v6_bytes|done].
  - intros [[info' p] off] Hp. by case_match.
Qed.

Lemma tunnel_loop_bytes bitmap trim_bitmap n : forall first h info packet k t, bytes_ok packet ->
  wlp (tunnel_loop n first bitmap trim_bitmap (h, info, packet) k t) (fun r => bytes_ok r.1.2).
Proof.
  induction n as [|n IH]; intros first h info packet k t Hb; cbn [tunnel_loop]; [done|].
  destruct (slice_from packet k) as [rest|] eqn:Es; [|done]. cbn [mbind run_bind].
  assert (bytes_ok rest) as Hr by (unfold slice_from in Es; destruct (_ && _); [injection Es as <-; by apply Forall_drop|done]).
  apply wlp_bind. eapply wlp_mono; [by apply base_decapsulate_bytes|]. intros [[[h' info'] rest'] r] Hr'. cbn [fst snd] in Hr'.
  assert (bytes_ok (take (Z.to_nat k) packet ++ rest')) as Hp by (apply Forall_app; split; [by apply Forall_take|done]).
  destruct r as [[off t']|e]; [|done]. case_decide; [done|]. by apply IH.
Qed.

(** ** One frame *)

(** A frame that makes the agent abort: a tunnel layer whose IPv4 header points
    behind it, or an inner packet with one of the two unguarded reads. *)
Definition aborts (bitmap trim_bitmap : Z) (h : CaptureNetworkTypeHandler) (data : bytes) : Prop :=
  (exists st, layer_of bitmap trim_bitmap (h, TunnelInfo_default, data) st /\ layer_overrun bitmap st.1.2 st.2 = true)
  \/ (exists st n t overlay, decap_tunnel (h, TunnelInfo_default, data) bitmap trim_bitmap = Ret (st, Ok (n, t))
        /\ slice_from st.2 n = Ret overlay /\ truncated overlay).

Lemma decap_and_parse_ok h info data bitmap trim_bitmap se de ts : handler_ok h -> bytes_ok data -> len data < 2 ^ 16 -> fits 64 ts ->
  wpe (aborts bitmap trim_bitmap h data) (decap_and_parse (h, info, data) bitmap trim_bitmap se de ts)
    (fun '(st, r) => handler_ok st.1.1 /\ match r with
       | Some m => exists overlay, raw m = Some overlay /\ parsed overlay ts m /\ (is_tcp (header_type m) = true -> packet_ok m)
       | None => True end).
Proof.
  intros Hh Hb Hl Hts. unfold decap_and_parse.
  change (decap_tunnel (h, info, data) bitmap trim_bitmap) with (decap_tunnel (h, TunnelInfo_default, data) bitmap trim_bitmap).
  assert (state_ok (h, TunnelInfo_default, data)) as Hok by (split; [done|]; split; [done|]; pose proof (len_nonneg data); unfold fits; lia).
  pose proof (tunnel_loop_ok bitmap trim_bitmap 2 true h TunnelInfo_default data 0 CaptureNetworkType.Any Hok
    (conj (Z.le_refl 0) (len_nonneg data))) as Hloop.
  pose proof (tunnel_loop_bytes bitmap trim_bitmap 2 true h TunnelInfo_default data 0 CaptureNetworkType.Any Hb) as Hbytes.
  unfold loop_ok in Hloop. change (drop (Z.to_nat 0) data) with data in Hloop.
  destruct (decap_tunnel (h, TunnelInfo_default, data) bitmap trim_bitmap) as [[[[h' info'] data'] r]|] eqn:Ed;
    pose proof Ed as Ed0; unfold decap_tunnel, decap_tunnel_with_erspan in Ed; rewrite Ed in Hloop, Hbytes; [|by left].
  destruct r as [[n t]|e]; [|split; [apply Hloop|done]]. destruct Hloop as ((Hh' & _ & _) & Hlen & Hn). cbn [fst snd wlp] in *.
  cbn [mbind run_bind snd]. rewrite (slice_from_ret data' n) by lia. cbn [mbind run_bind]. set (overlay := drop (Z.to_nat n) data').
  assert (bytes_ok overlay) as Hbo by (by apply Forall_drop).
  assert (len overlay < 2 ^ 16) as Hlo by (unfold overlay; rewrite len_drop by lia; lia).
  unfold PacketParse.update.
  assert (tcp_state MetaPacket_empty) as H0 by (exists MetaPacketTcpHeader_default; split; [done|by split_and!]).
  pose proof (update_fields_ok overlay Hbo Hlo MetaPacket_empty se de ts (len data' - n) H0 eq_refl) as Hw.
  destruct (update_fields _ _ _ _ _ _) as [[m [[]|e]]|]; cbn [mbind run_bind].
  - split; [done|]. exists overlay. destruct Hw as [Ht Hp]. split; [done|]. split; [exact Hp|].
    intros Hi. destruct Hp as (_ & _ & Htcp). destruct (Htcp Hi) as [Hs Hpl]. by apply (header_fits_packet_ok _ ts).
  - done.
  - right. eexists _, n, t, overlay. split; [exact Ed0|]. split; [by apply slice_from_ret; cbn; lia|done].
Qed.

(** Tagging a packet leaves what was parsed alone. *)
Lemma tag_packet_keeps info bond tap reset hash dedup m :
  let m' := prepare_flow (tag_packet info bond m) tap reset hash dedup in
  timestamp m' = timestamp m /\ header_type m' = header_type m /\ protocol_data m' = protocol_data m /\ payload_len m' = payload_len m.
Proof. unfold tag_packet. repeat case_decide; done. Qed.

Lemma packet_ok_of m m' : timestamp m' = timestamp m -> protocol_data m' = protocol_data m -> payload_len m' = payload_len m ->
  packet_ok m -> packet_ok m'.
Proof. unfold packet_ok. by intros -> -> ->. Qed.

(** ** The dispatcher *)

(** A frame shorter than its Ethernet header. *)
Definition runt (data : bytes) : Prop :=
  len data < 14 \/ (u16_at data FIELD_OFFSET_ETH_TYPE = Ret EthernetType.DOT1Q /\ len data < 18).

Definition dispatcher_ok (st : InternalState) : Prop :=
  handler_ok (tap_type_handler st) /\ map_Forall (fun _ p => fits 64 (pl_timestamp p)) (pipelines st).

(** The time of a frame on a pipeline: no earlier than the one before it. *)
Definition clocked (p : Pipeline) (ts : Duration) : Pipeline := p <| pl_timestamp := Z.max ts (pl_timestamp p) |>.

(** What becomes of a frame of interface [i] captured at [ts]. *)
Inductive handled (st : InternalState) (ts : Duration) (i : Z) (st' : InternalState) : option MetaPacket -> Prop :=
| no_pipeline : pipelines st !! i = None -> st' = st -> handled st ts i st' None
| stale k p : pipelines st !! k = Some p -> (is_Some (pipelines st !! i) -> k = i) -> ts + NANOS_1_MILLI < pl_timestamp p ->
    st' = count_retired st -> handled st ts i st' None
| malformed k p : pipelines st !! k = Some p -> (is_Some (pipelines st !! i) -> k = i) -> pl_timestamp p <= ts + NANOS_1_MILLI ->
    pipelines st' = <[k := clocked p ts]> (pipelines st) -> counter st' = counter (count_invalid st) -> handled st ts i st' None
| delivered k p m n : pipelines st !! k = Some p -> (is_Some (pipelines st !! i) -> k = i) -> pl_timestamp p <= ts + NANOS_1_MILLI ->
    pipelines st' = <[k := clocked p ts]> (pipelines st) -> counter st' = counter (count_rx st n) ->
    timestamp m = pl_timestamp (clocked p ts) -> (is_tcp (header_type m) = true -> packet_ok m) -> handled st ts i st' (Some m).

Context {Ook : HashMapOrderOk O}.

Lemma find_pipeline_ok st i data : bytes_ok data ->
  wpe (runt data) (find_pipeline st i data) (fun r =>
    match r with
    | None => pipelines st !! i = None
    | Some k => is_Some (pipelines st !! k) /\ (is_Some (pipelines st !! i) -> k = i)
    end).
Proof.
  intros Hb. unfold find_pipeline. destruct (pipelines st !! i) as [p|] eqn:Ep; [split; [by eexists|done]|].
  case_decide as He; [done|].
  assert (forall j, 0 <= j -> u16_at data j = Panic -> len data < j + 2) as Hpanic.
  { intros j Hj Hp. destruct (Z.lt_ge_cases (len data) (j + 2)) as [|Hl]; [done|].
    destruct (u16_at_ret data Hb j Hj Hl) as (v & Hv & _). congruence. }
  destruct (u16_at data FIELD_OFFSET_ETH_TYPE) as [e|] eqn:E1; cbn [mbind run_bind wpe]; [|left; by apply Hpanic in E1].
  destruct (Z.eqb_spec e EthernetType.DOT1Q) as [->|]; [|cbn [mbind run_bind]; case_match; [done|split; [by apply first_key_in|by intros []]]].
  destruct (u16_at data (FIELD_OFFSET_ETH_TYPE + VLAN_HEADER_SIZE)) as [e|] eqn:E2; cbn [mbind run_bind wpe].
  - case_match; [done|]. split; [by apply first_key_in|by intros []].
  - right. split; [done|]. by apply Hpanic in E2.
Qed.

Lemma local_ends_ok mac data : bytes_ok data -> wpe (runt data) (local_ends mac data) (fun _ => True).
Proof.
  intros Hb. destruct (Z.lt_ge_cases (len data) 14) as [Hl|Hl].
  { destruct (local_ends mac data); [done|by left]. }
  unfold local_ends. apply wpe_slice; [done..|unfold MAC_ADDR_LEN; lia|]. intros src _ _. case_bool_decide; [done|].
  apply wpe_slice; [done..|unfold MAC_ADDR_LEN; lia|]. intros dst _ _. case_bool_decide; [done|]. unfold is_multicast.
  rewrite (proj2 (Z.ltb_lt _ _)) by (unfold MAC_ADDR_LEN; lia). cbn [rassert mbind run_bind]. by destruct (index_ret data 0) as (b & -> & _); [lia|].
Qed.

Lemma process_packet_ok st trim_bitmap ts i data n : dispatcher_ok st -> bytes_ok data -> len data < 2 ^ 16 -> fits 64 ts ->
  wpe (runt data \/ aborts (tunnel_type_bitmap st) trim_bitmap (tap_type_handler st) data)
    (process_packet st trim_bitmap ts i data n)
    (fun '(st', _, r) => dispatcher_ok st' /\ tunnel_type_bitmap st' = tunnel_type_bitmap st /\ handled st ts i st' r).
Proof.
  intros [Hh Hp] Hb Hl Hts. unfold process_packet. apply wpe_bind.
  eapply wpe_mono; [by apply find_pipeline_ok|by left|]. intros [k|] Hk; [|split_and!; [done..|by apply no_pipeline]].
  destruct Hk as [[p Hkp] Hki]. rewrite Hkp. cbn [unwrap mbind run_bind].
  destruct (Z.ltb_spec (ts + NANOS_1_MILLI) (pl_timestamp p)) as [Hlt|Hle]; [split_and!; [done..|by eapply stale]|].
  pose proof (Hp k p Hkp) as Hpf. cbn beta in Hpf.
  replace (if ts <? pl_timestamp p then pl_timestamp p else ts) with (Z.max ts (pl_timestamp p))
    by (destruct (Z.ltb_spec ts (pl_timestamp p)); lia).
  assert (fits 64 (Z.max ts (pl_timestamp p))) as Hmax by (unfold fits in *; lia).
  assert (map_Forall (fun _ p => fits 64 (pl_timestamp p)) (<[k := clocked p ts]> (pipelines st))) as Hp' by by apply map_Forall_insert_2.
  apply wpe_bind. eapply wpe_mono; [by apply local_ends_ok|by left|]. intros [src_local dst_local] _.
  unfold Timestamp.from_duration. rewrite wrap_small by done. apply wpe_bind.
  eapply wpe_mono; [by apply decap_and_parse_ok|by right|]. intros [[[h info] data'] [m|]] [Hh' Hm].
  - destruct Hm as (overlay & _ & Hparsed & Htcp). split_and!; [done..|].
    pose proof (tag_packet_keeps info (bond_mac p) CaptureNetworkType.Cloud false (wrap 8 (is_id st)) (npb_dedup_enabled st) m)
      as (Ht1 & Ht2 & Ht3 & Ht4).
    eapply delivered; [done..| |]; [etrans; [exact Ht1|apply Hparsed]|].
    intros Hi. eapply packet_ok_of; [exact Ht1|exact Ht3|exact Ht4|]. apply Htcp. rewrite <- Ht2. exact Hi.
  - split_and!; [done..|]. by eapply malformed.
Qed.

(** ** A stream of frames *)

Record Frame := { f_if_index : Z; f_time : Duration; f_data : bytes; f_capture_length : Z }.

Definition frame_ok (f : Frame) : Prop := bytes_ok (f_data f) /\ len (f_data f) < 2 ^ 16 /\ fits 64 (f_time f).

(** The receive loop: what each frame yields. *)
Fixpoint process_frames (st : InternalState) (trim_bitmap : Z) (fs : list Frame) : run (InternalState * list (option MetaPacket)) :=
  match fs with
  | [] => Ret (st, [])
  | f :: fs =>
      '(st, _, r) ← process_packet st trim_bitmap (f_time f) (f_if_index f) (f_data f) (f_capture_length f);
      '(st, out) ← process_frames st trim_bitmap fs;
      Ret (st, r :: out)
  end.

(** Some frame of the stream, in the state it meets, is one that aborts. *)
Definition stream_aborts (st : InternalState) (trim_bitmap : Z) (fs : list Frame) : Prop :=
  exists fs1 f fs2 st1 out1, fs = fs1 ++ f :: fs2 /\ process_frames st trim_bitmap fs1 = Ret (st1, out1)
    /\ (runt (f_data f) \/ aborts (tunnel_type_bitmap st1) trim_bitmap (tap_type_handler st1) (f_data f)).

(** What happened to each frame. *)
Inductive all_handled : InternalState -> list Frame -> InternalState -> list (option MetaPacket) -> Prop :=
| all_nil st : all_handled st [] st []
| all_cons st f fs st1 st' r out : handled st (f_time f) (f_if_index f) st1 r -> all_handled st1 fs st' out ->
    all_handled st (f :: fs) st' (r :: out).

Lemma process_frames_ok trim_bitmap fs : forall st, dispatcher_ok st -> Forall frame_ok fs ->
  wpe (stream_aborts st trim_bitmap fs) (process_frames st trim_bitmap fs) (fun '(st', out) => dispatcher_ok st' /\ all_handled st fs st' out).
Proof.
  induction fs as [|f fs IH]; intros st Hst Hfs; [split; [done|constructor]|]. apply Forall_cons in Hfs as [(Hb & Hl & Ht) Hfs].
  pose proof (process_packet_ok st trim_bitmap (f_time f) (f_if_index f) (f_data f) (f_capture_length f) Hst Hb Hl Ht) as Hw.
  cbn [process_frames]. destruct (process_packet _ _ _ _ _ _) as [[[st1 ts1] r]|] eqn:Ef; cbn [mbind run_bind].
  2: { by exists [], f, fs, st, []. }
  destruct Hw as (Hst1 & _ & Hh). apply wpe_bind. eapply wpe_mono; [by apply IH| |].
  - intros (fs1 & f' & fs2 & st2 & out & -> & Hp & Ha). exists (f :: fs1), f', fs2, st2, (r :: out). split; [done|].
    cbn [process_frames]. rewrite Ef. cbn [mbind run_bind]. by rewrite Hp.
  - intros [st' out] [Hst' Hall]. split; [done|]. by econstructor.
Qed.

Lemma all_handled_packet st fs st' out m : all_handled st fs st' out -> Some m ∈ out -> is_tcp (header_type m) = true -> packet_ok m.
Proof.
  induction 1 as [|st f fs st1 st' r out Hh Hall IH]; intros Hin Hi; [by apply elem_of_nil in Hin|].
  apply elem_of_cons in Hin as [<-|Hin]; [|by apply IH]. inversion Hh; subst. auto.
Qed.

Lemma all_handled_length st fs st' out : all_handled st fs st' out -> length out = length fs.
Proof. induction 1 as [|st f fs st1 st' r out Hh Hall IH]; [done|]. cbn. by rewrite IH. Qed.

(** The times of the packets an interface delivers. *)
Definition times_of (i : Z) (fs : list Frame) (out : list (option MetaPacket)) : list Z :=
  omap (fun x => if f_if_index x.1 =? i then timestamp <$> x.2 else None) (zip fs out).

Definition total (st : InternalState) : Z := rx (counter st) + invalid_packets (counter st) + retired (counter st).

(** The clock of a pipeline does not go back, and shows the time of the last packet. *)
Lemma handled_clock st ts j st' r i p : handled st ts j st' r -> pipelines st !! i = Some p ->
  exists p', pipelines st' !! i = Some p' /\ pl_timestamp p <= pl_timestamp p' /\ forall m, r = Some m -> j = i -> timestamp m = pl_timestamp p'.
Proof.
  intros Hh Hi. destruct Hh as [_ ->|k q _ _ _ ->|k q Hk Hki _ -> _|k q m n Hk Hki _ -> _ Hm _]; [by exists p..| |].
  - destruct (decide (k = i)) as [->|Hne]; [|exists p; by rewrite lookup_insert_ne].
    rewrite lookup_insert_eq. eexists. split; [done|]. replace q with p by congruence. split; [|done]. cbn. lia.
  - destruct (decide (k = i)) as [->|Hne].
    + rewrite lookup_insert_eq. eexists. split; [done|]. replace q with p in * by congruence. split; [cbn; lia|]. by intros ? [= <-].
    + exists p. rewrite lookup_insert_ne by done. split_and!; [done..|]. intros ? _ ->. by destruct Hne, Hki.
Qed.

Lemma wrap_add_inc a x : wrap 64 (wadd 64 a 1 + x) = wrap 64 (a + x + 1).
Proof. unfold wadd, wrap. rewrite Zplus_mod_idemp_l. f_equal. lia. Qed.

Lemma handled_total st ts j st' r : handled st ts j st' r -> is_Some (pipelines st !! j) -> wrap 64 (total st') = wrap 64 (total st + 1).
Proof.
  intros Hh Hj. unfold total. destruct Hh as [Hn _|k q _ _ _ ->|k q _ _ _ _ ->|k q m n _ _ _ _ -> _ _].
  - rewrite Hn in Hj. by destruct Hj.
  - cbn -[wrap wadd]. rewrite Z.add_comm, wrap_add_inc. f_equal. lia.
  - cbn -[wrap wadd]. rewrite (Z.add_comm (rx _)), <- Z.add_assoc, wrap_add_inc. f_equal. lia.
  - cbn -[wrap wadd]. rewrite <- Z.add_assoc, wrap_add_inc. f_equal. lia.
Qed.

Lemma all_handled_total st fs st' out : all_handled st fs st' out -> Forall (fun f => is_Some (pipelines st !! f_if_index f)) fs ->
  wrap 64 (total st') = wrap 64 (total st + Z.of_nat (length fs)).
Proof.
  induction 1 as [st|st f fs st1 st' r out Hh Hall IH]; intros Hfs; [by rewrite Z.add_0_r|]. apply Forall_cons in Hfs as [Hf Hfs].
  rewrite IH.
  - pose proof (handled_total _ _ _ _ _ Hh Hf) as Ht. unfold wrap in *. rewrite <- Zplus_mod_idemp_l, Ht, Zplus_mod_idemp_l.
    f_equal. cbn [length]. lia.
  - eapply Forall_impl; [exact Hfs|]. intros g [q Hq]. destruct (handled_clock _ _ _ _ _ _ _ Hh Hq) as (q' & Hq' & _). by eexists.
Qed.

Lemma handled_delay st ts j st' m : handled st ts j st' (Some m) -> ts <= timestamp m <= ts + NANOS_1_MILLI.
Proof. inversion 1 as [| | |? ? ? ? ? ? ? ? ? Ht _]; subst. rewrite Ht. cbn. unfold NANOS_1_MILLI in *. lia. Qed.

Lemma times_of_sorted st fs st' out i p : all_handled st fs st' out -> pipelines st !! i = Some p ->
  StronglySorted Z.le (times_of i fs out) /\ Forall (Z.le (pl_timestamp p)) (times_of i fs out).
Proof.
  intros Hall. revert p. induction Hall as [|st f fs st1 st' r out Hh Hall IH]; intros p Hp; [by repeat constructor|].
  destruct (handled_clock _ _ _ _ _ _ _ Hh Hp) as (p1 & Hp1 & Hle & Hr). destruct (IH p1 Hp1) as [Hs Hf].
  assert (Forall (Z.le (pl_timestamp p)) (times_of i fs out)) as Hf' by (eapply Forall_impl; [exact Hf|]; cbn; lia).
  unfold times_of. cbn [zip zip_with omap list_omap fst snd]. destruct (Z.eqb_spec (f_if_index f) i) as [Hi|]; [|done].
  destruct r as [m|]; [|done]. cbn [fmap option_fmap option_map]. specialize (Hr m eq_refl Hi).
  split; constructor; [done|by rewrite Hr|lia|done].
Qed.


(** C39: The dispatcher hands packets on in time order: per interface, the time
    stamps of the packets a stream yields do not decrease, although frames may
    arrive up to a millisecond late; a packet's time is moved forward by at most
    that millisecond, and every frame of a known interface is counted exactly
    once, as received, malformed or too late. *)
Theorem packets_leave_in_order st trim_bitmap fs st' out :
  dispatcher_ok st -> Forall frame_ok fs -> process_frames st trim_bitmap fs = Ret (st', out) ->
  (forall i, is_Some (pipelines st !! i) -> StronglySorted Z.le (times_of i fs out))
  /\ Forall2 (fun f r => forall m, r = Some m -> f_time f <= timestamp m <= f_time f + NANOS_1_MILLI) fs out
  /\ (Forall (fun f => is_Some (pipelines st !! f_if_index f)) fs -> wrap 64 (total st') = wrap 64 (total st + Z.of_nat (length fs))).
Proof.
  intros Hst Hfs Hrun. pose proof (process_frames_ok trim_bitmap fs st Hst Hfs) as Hw. rewrite Hrun in Hw. destruct Hw as [_ Hall].
  split_and!.
  - intros i [p Hp]. by eapply times_of_sorted.
  - clear Hrun Hst Hfs. induction Hall as [|st f fs st1 st' r out Hh Hall IH]; constructor; [|done].
    intros m ->. by eapply handled_delay.
  - by eapply all_handled_total.
Qed.

End capture.

(** ** A concrete stream *)

Definition entry_order : HashMapOrder := fun m => default 0 (fst <$> head (map_to_list m)).

#[export] Instance entry_order_ok : HashMapOrderOk entry_order.
Proof.
  intros m Hm. unfold first_key, entry_order. destruct (map_to_list m) as [|[k p] l] eqn:El; [by apply map_to_list_empty_iff in El|].
  exists p. apply elem_of_map_to_list. rewrite El. by left.
Qed.

Definition ex_state : InternalState :=
  {| is_id := 0; pipelines := {[ 3 := Build_Pipeline [2; 0; 0; 0; 0; 1] [2; 0; 0; 0; 0; 1] 0 ]}; tap_type_handler := plain_handler;
     tunnel_info := TunnelInfo_default; tunnel_type_bitmap := sample_bitmap; npb_dedup_enabled := true;
     counter := Build_PacketCounter 0 0 0 0 |}.

(** Two segments, the second one half a millisecond late, and one too late. *)
Definition ex_frames : list Frame :=
  [Build_Frame 3 9000000 ex_frame 70; Build_Frame 3 8500000 ex_frame 70; Build_Frame 3 5000000 ex_frame 70].

Lemma ex_state_ok : dispatcher_ok ex_state.
Proof. split; [exact plain_handler_ok|]. apply map_Forall_singleton. by split. Qed.

Lemma ex_frames_ok : Forall frame_ok ex_frames.
Proof. repeat constructor; try exact ex_frame_bytes; done. Qed.


Lemma packets_leave_in_order_witness :
  exists st' out, @process_frames sample_enum iana entry_order ex_state 0 ex_frames = Ret (st', out)
    /\ times_of 3 ex_frames out = [9000000; 9000000] /\ StronglySorted Z.le (times_of 3 ex_frames out) /\ retired (counter st') = 1.
Proof.
  pose proof (@packets_leave_in_order sample_enum iana entry_order _ ex_state 0 ex_frames) as Hw.
  assert (match @process_frames sample_enum iana entry_order ex_state 0 ex_frames with
          | Ret (st', out) => bool_decide (times_of 3 ex_frames out = [9000000; 9000000]) && (retired (counter st') =? 1)
          | Panic => false end = true) as Hr by (vm_compute; reflexivity).
  revert Hw Hr. generalize (@process_frames sample_enum iana entry_order ex_state 0 ex_frames). intros [[st' out]|] Hw Hr; [|done].
  apply andb_true_iff in Hr as [Ht%bool_decide_eq_true Hc%Z.eqb_eq]. exists st', out. split; [done|]. split; [done|].
  destruct (Hw st' out ex_state_ok ex_frames_ok eq_refl) as (Hs & _ & _). split; [|done]. apply Hs. by eexists.
Defined.
