(* ===== verification/ChronoMap.v ===== *)
(** * The chronological map (crates/public/src/chrono_map.rs)

    A hash map whose entries also hang in doubly linked time chains; the chains
    of all times are kept in a deque sorted by time.  The code is unsafe Rust on
    raw pointers: the model has a heap of nodes and one of time heads, a pointer
    is an address or null, and reading, writing or freeing through a pointer
    that is null or not allocated is [Panic], as a failed unwrap is. *)

From stdpp Require Import gmap.
From S2P Require Import Prelude.

Abbreviation loc := positive.

Section chrono.
Context {K : Type} `{Countable K} {V : Type}.

Record Node := {
  n_key : K;
  n_value : V;
  n_head : option loc;
  n_prev : option loc;
  n_next : option loc;
}.

#[global] Instance Node_fields : Fields Node := fun x =>
  Build_Node (n_key x) (n_value x) (n_head x) (n_prev x) (n_next x).

Record TimeHead := { h_time : Z; h_next : option loc }.

#[global] Instance TimeHead_fields : Fields TimeHead := fun x => Build_TimeHead (h_time x) (h_next x).

(** The map with the part of the heap it allocates. *)
Record ChronoMap := {
  entries : gmap K loc;
  timeline : list loc;
  nodes : gmap loc Node;
  heads : gmap loc TimeHead;
}.

#[global] Instance ChronoMap_fields : Fields ChronoMap := fun x =>
  Build_ChronoMap (entries x) (timeline x) (nodes x) (heads x).

Definition new : ChronoMap := {| entries := ∅; timeline := []; nodes := ∅; heads := ∅ |}.

Definition len (m : ChronoMap) : nat := size (entries m).

Definition is_empty (m : ChronoMap) : bool := Nat.eqb (len m) 0.

(** ** Raw pointers *)

Definition read_node (m : ChronoMap) (p : option loc) : run Node :=
  l ← unwrap p; unwrap (nodes m !! l).

Definition update_node (m : ChronoMap) (p : option loc) (f : Node -> Node) : run ChronoMap :=
  l ← unwrap p; nd ← unwrap (nodes m !! l); Ret (m <| nodes := <[l := f nd]> (nodes m) |>).

Definition read_head (m : ChronoMap) (p : option loc) : run TimeHead :=
  l ← unwrap p; unwrap (heads m !! l).

Definition update_head (m : ChronoMap) (p : option loc) (f : TimeHead -> TimeHead) : run ChronoMap :=
  l ← unwrap p; h ← unwrap (heads m !! l); Ret (m <| heads := <[l := f h]> (heads m) |>).

(** [Box::into_raw(Box::new(..))] *)
Definition new_node (m : ChronoMap) (nd : Node) : ChronoMap * loc :=
  let l := fresh (dom (nodes m)) in (m <| nodes := <[l := nd]> (nodes m) |>, l).

Definition new_head (m : ChronoMap) (h : TimeHead) : ChronoMap * loc :=
  let l := fresh (dom (heads m)) in (m <| heads := <[l := h]> (heads m) |>, l).

(** [Box::from_raw(..)], dropped or moved out of. *)
Definition free_node (m : ChronoMap) (p : option loc) : run (ChronoMap * Node) :=
  l ← unwrap p; nd ← unwrap (nodes m !! l); Ret (m <| nodes := delete l (nodes m) |>, nd).

Definition free_head (m : ChronoMap) (p : option loc) : run (ChronoMap * TimeHead) :=
  l ← unwrap p; h ← unwrap (heads m !! l); Ret (m <| heads := delete l (heads m) |>, h).

(** ** The timeline *)

(** [binary_search_by_key] of the standard library, over the times behind the
    pointers of the deque. *)
Fixpoint bs_loop (n : nat) (m : ChronoMap) (time : Z) (left right : nat) : run (result nat nat) :=
  if Nat.leb right left then Ret (Err left)
  else match n with
       | O => Panic
       | S n =>
           let mid := (left + (right - left) / 2)%nat in
           th ← unwrap (timeline m !! mid);
           h ← read_head m (Some th);
           match h_time h ?= time with
           | Lt => bs_loop n m time (mid + 1) right
           | Gt => bs_loop n m time left mid
           | Eq => Ret (Ok mid)
           end
       end.

Definition binary_search (m : ChronoMap) (time : Z) : run (result nat nat) :=
  bs_loop (length (timeline m)) m time 0 (length (timeline m)).

Definition insert_at {A} (i : nat) (x : A) (l : list A) : list A := take i l ++ x :: drop i l.
Definition remove_at {A} (i : nat) (l : list A) : list A := take i l ++ drop (S i) l.

Definition find_or_create_time_chain (m : ChronoMap) (time : Z) : run (ChronoMap * loc) :=
  r ← binary_search m time;
  match r with
  | Ok index => th ← unwrap (timeline m !! index); Ret (m, th)
  | Err index =>
      let '(m, th) := new_head m {| h_time := time; h_next := None |} in
      let m := m <| timeline := insert_at index th (timeline m) |> in
      th ← unwrap (timeline m !! index); Ret (m, th)
  end.

Definition insert_into_time_chain (m : ChronoMap) (head node : loc) : run ChronoMap :=
  ref_head ← read_head m (Some head);
  m ← match h_next ref_head with
      | Some n => update_node m (Some n) (fun nd => nd <| n_prev := Some node |>)
      | None => Ret m
      end;
  m ← update_node m (Some node) (fun nd =>
        nd <| n_head := Some head |> <| n_prev := None |> <| n_next := h_next ref_head |>);
  update_head m (Some head) (fun h => h <| h_next := Some node |>).

(** The unlinking; the head of the chain it was in. *)
Definition unlink (m : ChronoMap) (node : loc) : run (ChronoMap * option loc) :=
  nd ← read_node m (Some node);
  let head := n_head nd in
  m ← match n_prev nd with
      | None => update_head m head (fun h => h <| h_next := n_next nd |>)
      | Some p => update_node m (Some p) (fun x => x <| n_next := n_next nd |>)
      end;
  m ← match n_next nd with
      | Some n => update_node m (Some n) (fun x => x <| n_prev := n_prev nd |>)
      | None => Ret m
      end;
  m ← update_node m (Some node) (fun x =>
        x <| n_head := None |> <| n_prev := None |> <| n_next := None |>);
  Ret (m, head).

Definition remove_from_time_chain (m : ChronoMap) (with_timeline : bool) (node : loc) : run ChronoMap :=
  '(m, head) ← unlink m node;
  if with_timeline then
    ref_head ← read_head m head;
    match h_next ref_head with
    | Some _ => Ret m
    | None =>
        r ← binary_search m (h_time ref_head);
        match r with
        | Ok index =>
            th ← unwrap (timeline m !! index);
            let m := m <| timeline := remove_at index (timeline m) |> in
            '(m, _) ← free_head m (Some th);
            Ret m
        | Err _ => Panic
        end
    end
  else Ret m.

(** ** Operations *)

Definition get (m : ChronoMap) (key : K) : run (option V) :=
  match entries m !! key with
  | None => Ret None
  | Some node => nd ← read_node m (Some node); Ret (Some (n_value nd))
  end.

(** [get_mut], followed by the client's update of the value. *)
Definition get_mut (m : ChronoMap) (key : K) (f : V -> V) : run ChronoMap :=
  match entries m !! key with
  | None => Ret m
  | Some node => update_node m (Some node) (fun nd => nd <| n_value := f (n_value nd) |>)
  end.

Definition insert (m : ChronoMap) (time : Z) (key : K) (value : V) : run (ChronoMap * option V) :=
  match entries m !! key with
  | Some node =>
      nd ← read_node m (Some node);
      h ← read_head m (n_head nd);
      m ← (if negb (h_time h =? time) then
             m ← remove_from_time_chain m true node;
             '(m, head) ← find_or_create_time_chain m time;
             insert_into_time_chain m head node
           else Ret m);
      nd ← read_node m (Some node);
      m ← update_node m (Some node) (fun x => x <| n_value := value |>);
      Ret (m, Some (n_value nd))
  | None =>
      '(m, head) ← find_or_create_time_chain m time;
      let '(m, node) := new_node m {| n_key := key; n_value := value; n_head := None;
                                      n_prev := None; n_next := None |} in
      let m := m <| entries := <[key := node]> (entries m) |> in
      m ← insert_into_time_chain m head node;
      Ret (m, None)
  end.

Definition remove (m : ChronoMap) (key : K) : run (ChronoMap * option V) :=
  match entries m !! key with
  | None => Ret (m, None)
  | Some node =>
      let m := m <| entries := delete key (entries m) |> in
      m ← remove_from_time_chain m true node;
      '(m, nd) ← free_node m (Some node);
      Ret (m, Some (n_value nd))
  end.

Definition remove_oldest (m : ChronoMap) : run (ChronoMap * option V) :=
  match timeline m with
  | [] => Ret (m, None)
  | head :: _ =>
      h ← read_head m (Some head);
      nd ← read_node m (h_next h);
      node ← unwrap (h_next h);
      let m := m <| entries := delete (n_key nd) (entries m) |> in
      m ← remove_from_time_chain m true node;
      '(m, nd) ← free_node m (Some node);
      Ret (m, Some (n_value nd))
  end.

Definition move_to_time (m : ChronoMap) (key : K) (time : Z) : run ChronoMap :=
  match entries m !! key with
  | None => Ret m
  | Some node =>
      nd ← read_node m (Some node);
      h ← read_head m (n_head nd);
      if h_time h =? time then Ret m
      else
        m ← remove_from_time_chain m true node;
        '(m, head) ← find_or_create_time_chain m time;
        insert_into_time_chain m head node
  end.

(** *** Advancing time *)

(** A visited node goes to its new time, or out of the map. *)
Definition reschedule (m : ChronoMap) (time : Z) (node : loc) (key : K) (new_time : option Z) : run ChronoMap :=
  let drop_node :=
    e ← unwrap (entries m !! key);
    let m := m <| entries := delete key (entries m) |> in
    '(m, _) ← free_node m (Some e);
    Ret m in
  match new_time with
  | Some nt =>
      if time <? nt then
        '(m, new_head) ← find_or_create_time_chain m nt;
        insert_into_time_chain m new_head node
      else drop_node
  | None => drop_node
  end.

Section forward.
Context {St : Type} (callback : St -> V -> St * V * option Z).

(** The chain of one popped head; the closure's own state is threaded. *)
Fixpoint forward_chain (n : nat) (m : ChronoMap) (time : Z) (s : St) (node : option loc)
    : run (ChronoMap * St) :=
  match node with
  | None => Ret (m, s)
  | Some l =>
      match n with
      | O => Panic
      | S n =>
          ref_node ← read_node m (Some l);
          let '(s, v, new_time) := callback s (n_value ref_node) in
          m ← update_node m (Some l) (fun x => x <| n_value := v |>);
          let next := n_next ref_node in
          m ← remove_from_time_chain m false l;
          m ← reschedule m time l (n_key ref_node) new_time;
          forward_chain n m time s next
      end
  end.

Fixpoint forward_heads (count : nat) (m : ChronoMap) (time : Z) (s : St) : run (ChronoMap * St) :=
  match count with
  | O => Ret (m, s)
  | S count =>
      match timeline m with
      | [] => Panic
      | head :: rest =>
          let m := m <| timeline := rest |> in
          ref_head ← read_head m (Some head);
          '(m, s) ← forward_chain (size (nodes m)) m time s (h_next ref_head);
          '(m, _) ← free_head m (Some head);
          forward_heads count m time s
      end
  end.

Definition forward_time (m : ChronoMap) (time : Z) (s : St) : run (ChronoMap * St) :=
  match timeline m with
  | [] => Ret (m, s)
  | first :: _ =>
      h ← read_head m (Some first);
      if time <? h_time h then Ret (m, s)
      else
        r ← binary_search m time;
        let max_index := match r with Ok index => index | Err index => (index - 1)%nat end in
        forward_heads (max_index + 1) m time s
  end.

End forward.

(** *** Draining a range of times *)

(** [timeline.retain(..)]: the heads in the range, and those kept. *)
Fixpoint split_heads (m : ChronoMap) (range : Z -> bool) (tl : list loc) : run (list loc * list loc) :=
  match tl with
  | [] => Ret ([], [])
  | head :: tl =>
      h ← read_head m (Some head);
      '(drained, kept) ← split_heads m range tl;
      if range (h_time h) then Ret (head :: drained, kept) else Ret (drained, head :: kept)
  end.

(** The loop that moves [tail] to the end of its chain. *)
Fixpoint last_of (n : nat) (m : ChronoMap) (tail : option loc) : run (option loc) :=
  nd ← read_node m tail;
  match n_next nd with
  | None => Ret tail
  | Some next => match n with O => Panic | S n => last_of n m (Some next) end
  end.

Fixpoint link_chains (m : ChronoMap) (drained : list loc) (chain tail : option loc)
    : run (ChronoMap * option loc) :=
  match drained with
  | [] => Ret (m, chain)
  | head :: drained =>
      '(m, h) ← free_head m (Some head);
      '(m, chain, tail) ←
        match chain with
        | None => Ret (m, h_next h, h_next h)
        | Some _ =>
            m ← update_node m tail (fun x => x <| n_next := h_next h |>);
            Ret (m, chain, tail)
        end;
      tail ← last_of (size (nodes m)) m tail;
      link_chains m drained chain tail
  end.

(** The borrow that is left is the chain to consume. *)
Definition drain (m : ChronoMap) (range : Z -> bool) : run (ChronoMap * option loc) :=
  '(drained, kept) ← split_heads m range (timeline m);
  link_chains (m <| timeline := kept |>) drained None None.

(** [Drain::next] *)
Definition drain_next (m : ChronoMap) (chain : option loc) : run (ChronoMap * option loc * option V) :=
  match chain with
  | None => Ret (m, None, None)
  | Some _ =>
      ref_node ← read_node m chain;
      let m := m <| entries := delete (n_key ref_node) (entries m) |> in
      '(m, nd) ← free_node m chain;
      Ret (m, n_next ref_node, Some (n_value nd))
  end.

(** [Drain::drop] *)
Fixpoint drain_drop (n : nat) (m : ChronoMap) (node : option loc) : run ChronoMap :=
  match node with
  | None => Ret m
  | Some _ =>
      match n with
      | O => Panic
      | S n =>
          ref_node ← read_node m node;
          let m := m <| entries := delete (n_key ref_node) (entries m) |> in
          '(m, _) ← free_node m node;
          drain_drop n m (n_next ref_node)
      end
  end.

(** [ChronoMap::drop] *)
Fixpoint free_heads (m : ChronoMap) (ls : list loc) : run ChronoMap :=
  match ls with
  | [] => Ret m
  | l :: ls => '(m, _) ← free_head m (Some l); free_heads m ls
  end.

Fixpoint free_nodes (m : ChronoMap) (ls : list loc) : run ChronoMap :=
  match ls with
  | [] => Ret m
  | l :: ls => '(m, _) ← free_node m (Some l); free_nodes m ls
  end.

Definition drop_map (m : ChronoMap) : run ChronoMap :=
  let tl := timeline m in
  m ← free_heads (m <| timeline := [] |>) tl;
  let es := snd <$> map_to_list (entries m) in
  free_nodes (m <| entries := ∅ |>) es.

End chrono.

Arguments Node : clear implicits.
Arguments ChronoMap : clear implicits.
Arguments ChronoMap K {_ _} V.
