(* ===== verification/ChronoHeap.v ===== *)
(** * The heap of the chronological map

    [heap_ok N H cs D] says that the node heap [N] and the head heap [H] hold
    exactly the time chains [cs], doubly linked, and the loose nodes [D] that
    are in no chain.  Each primitive of crates/public/src/chrono_map.rs moves
    cells between the two. *)

From stdpp Require Import gmap.
From S2P Require Import Prelude ChronoMap.

Section heap.
Context {K : Type} `{Countable K} {V : Type}.

Abbreviation Node := (Node K V).
Abbreviation Map := (ChronoMap K V).

(** A node of a chain: its address, key and value. *)
Abbreviation cell := (loc * K * V)%type.
Definition c_loc (c : cell) : loc := c.1.1.
Definition c_key (c : cell) : K := c.1.2.
Definition c_val (c : cell) : V := c.2.

(** A chain: the address of its head, its time and its cells in order. *)
Abbreviation chain := (loc * Z * list (loc * K * V))%type.
Definition ch_loc (c : chain) : loc := c.1.1.
Definition ch_time (c : chain) : Z := c.1.2.
Definition cells (cs : list chain) : list cell := mjoin (snd <$> cs).

(** The pointer to the first, and to the last, cell of a segment. *)
Definition first_or (nx : option loc) (ns : list cell) : option loc :=
  match ns with [] => nx | c :: _ => Some (c_loc c) end.
Definition last_or (p : option loc) (ns : list cell) : option loc :=
  match last ns with Some c => Some (c_loc c) | None => p end.

(** A doubly linked segment between [p] and [nx]. *)
Fixpoint seg (N : gmap loc Node) (hl : loc) (p : option loc) (ns : list cell) (nx : option loc) : Prop :=
  match ns with
  | [] => True
  | c :: ns =>
      N !! c_loc c = Some {| n_key := c_key c; n_value := c_val c; n_head := Some hl;
                             n_prev := p; n_next := first_or nx ns |}
      /\ seg N hl (Some (c_loc c)) ns nx
  end.

Lemma first_or_app nx a b : first_or nx (a ++ b) = first_or (first_or nx b) a.
Proof. by destruct a. Qed.

Lemma last_or_cons p c ns : last_or p (c :: ns) = last_or (Some (c_loc c)) ns.
Proof. unfold last_or. rewrite last_cons. by destruct (last ns). Qed.

Lemma last_or_snoc p ns c : last_or p (ns ++ [c]) = Some (c_loc c).
Proof. unfold last_or. by rewrite last_snoc. Qed.

Lemma seg_app N hl p a b nx :
  seg N hl p (a ++ b) nx <-> seg N hl p a (first_or nx b) /\ seg N hl (last_or p a) b nx.
Proof.
  revert p. induction a as [|c a IH]; intros p; cbn [app seg]; [cbn; tauto|].
  rewrite IH, first_or_app, last_or_cons. tauto.
Qed.

(** Only the segment's own nodes matter. *)
Lemma seg_frame N N' hl p ns nx :
  (forall c, c ∈ ns -> N' !! c_loc c = N !! c_loc c) -> seg N hl p ns nx -> seg N' hl p ns nx.
Proof.
  revert p. induction ns as [|c ns IH]; intros p Hf; [done|]. intros [Hc Hs]. split.
  - rewrite Hf by left. done.
  - apply IH; [|done]. intros c' Hc'. apply Hf. by right.
Qed.

Lemma seg_insert N hl p ns nx l nd : l ∉ (c_loc <$> ns) -> seg N hl p ns nx -> seg (<[l := nd]> N) hl p ns nx.
Proof.
  intros Hl. apply seg_frame. intros c Hc. apply lookup_insert_ne. intros ->. apply Hl.
  by apply list_elem_of_fmap_2.
Qed.

Lemma seg_lookup N hl p a c b nx : seg N hl p (a ++ c :: b) nx ->
  N !! c_loc c = Some {| n_key := c_key c; n_value := c_val c; n_head := Some hl;
                         n_prev := last_or p a; n_next := first_or nx b |}.
Proof. intros [_ [Hc _]]%seg_app. done. Qed.

(** Writing the pointers at the two ends of a segment. *)
Lemma seg_set_prev N hl p p' c ns nx nd :
  c_loc c ∉ (c_loc <$> ns) -> seg N hl p (c :: ns) nx -> N !! c_loc c = Some nd ->
  seg (<[c_loc c := nd <| n_prev := p' |>]> N) hl p' (c :: ns) nx.
Proof.
  intros Hl [Hc Hs] Hnd. rewrite Hc in Hnd. injection Hnd as <-. split; [by rewrite lookup_insert_eq|].
  by apply seg_insert.
Qed.

Lemma seg_set_next N hl p ns c nx nx' nd :
  c_loc c ∉ (c_loc <$> ns) -> seg N hl p (ns ++ [c]) nx -> N !! c_loc c = Some nd ->
  seg (<[c_loc c := nd <| n_next := nx' |>]> N) hl p (ns ++ [c]) nx'.
Proof.
  intros Hl Hs Hnd. rewrite (seg_lookup _ _ _ _ _ _ _ Hs) in Hnd. injection Hnd as <-.
  apply seg_app in Hs as [Ha _]. apply seg_app. split; [by apply seg_insert|].
  split; [by rewrite lookup_insert_eq|done].
Qed.

(** ** The primitives on one chain *)

(** [m'] has the nodes [N'] and heads [H'] and is otherwise [m]. *)
Definition with_heap (m : Map) (N' : gmap loc Node) (H' : gmap loc TimeHead) : Map :=
  {| entries := entries m; timeline := timeline m; nodes := N'; heads := H' |}.

Lemma update_node_ret (m : Map) l nd f : nodes m !! l = Some nd ->
  update_node m (Some l) f = Ret (with_heap m (<[l := f nd]> (nodes m)) (heads m)).
Proof. intros E. unfold update_node. cbn. by rewrite E. Qed.

Lemma update_head_ret (m : Map) l h f : heads m !! l = Some h ->
  update_head m (Some l) f = Ret (with_heap m (nodes m) (<[l := f h]> (heads m))).
Proof. intros E. unfold update_head. cbn. by rewrite E. Qed.

(** What a primitive on the chain [ns] leaves alone. *)
Definition frame (N N' : gmap loc Node) (ls : list loc) : Prop :=
  dom N' = dom N /\ forall l, l ∉ ls -> N' !! l = N !! l.

Lemma frame_insert N N' ls l nd : frame N N' ls -> l ∈ ls -> is_Some (N' !! l) -> frame N (<[l := nd]> N') ls.
Proof.
  intros [Hd Hf] Hl Hs. split; [by rewrite dom_insert_lookup_L|].
  intros l' Hl'. rewrite lookup_insert_ne by (intros ->; done). by apply Hf.
Qed.

Lemma frame_refl N ls : frame N N ls.
Proof. done. Qed.

Definition fresh_node (k : K) (v : V) : Node :=
  {| n_key := k; n_value := v; n_head := None; n_prev := None; n_next := None |}.

Lemma insert_into_time_chain_seg (m : Map) hl t c ns nd :
  heads m !! hl = Some {| h_time := t; h_next := first_or None ns |} ->
  seg (nodes m) hl None ns None -> nodes m !! c_loc c = Some nd -> n_key nd = c_key c -> n_value nd = c_val c ->
  NoDup (c_loc <$> c :: ns) ->
  exists N', insert_into_time_chain m hl (c_loc c)
      = Ret (with_heap m N' (<[hl := {| h_time := t; h_next := Some (c_loc c) |}]> (heads m)))
    /\ seg N' hl None (c :: ns) None /\ frame (nodes m) N' (c_loc <$> c :: ns).
Proof.
  intros Hh Hs Hc Hk Hv [Hnin Hnd]%NoDup_cons. unfold insert_into_time_chain, read_head. cbn [unwrap mbind run_bind].
  rewrite Hh. cbn [unwrap mbind run_bind h_next].
  destruct ns as [|c1 ns]; cbn [first_or mbind run_bind].
  - rewrite (update_node_ret m _ nd) by done. cbn [mbind run_bind].
    rewrite (update_head_ret _ _ {| h_time := t; h_next := None |}) by done.
    eexists. split; [done|]. cbn [nodes with_heap]. split.
    + split; [|done]. rewrite lookup_insert_eq. by destruct nd, c as [[? ?] ?]; cbn in Hk, Hv; subst.
    + apply frame_insert; [apply frame_refl|by left|by eexists].
  - pose proof (seg_lookup _ _ _ [] _ _ _ Hs) as Hc1. cbn in Hc1.
    rewrite (update_node_ret m _ _ _ Hc1). cbn [mbind run_bind].
    assert (c_loc c <> c_loc c1) as Hne by (intros E; apply Hnin; rewrite E; by left).
    rewrite (update_node_ret _ (c_loc c) nd) by (cbn; by rewrite lookup_insert_ne).
    cbn [mbind run_bind]. rewrite (update_head_ret _ _ {| h_time := t; h_next := Some (c_loc c1) |}) by done.
    eexists. split; [done|]. cbn [nodes with_heap]. split.
    + split; [rewrite lookup_insert_eq; by destruct nd, c as [[? ?] ?]; cbn in Hk, Hv; subst|].
      apply seg_insert; [done|]. eapply (seg_set_prev _ _ _ _ c1); [by inversion Hnd|exact Hs|done].
    + apply frame_insert; [apply frame_insert; [apply frame_refl|by right; left|by eexists]|by left|].
      rewrite lookup_insert_ne by done. by eexists.
Qed.

Lemma nodup_mid a c b : NoDup (c_loc <$> a ++ c :: b) ->
  (c_loc c ∉ (c_loc <$> a)) /\ (c_loc c ∉ (c_loc <$> b)) /\ NoDup (c_loc <$> a) /\ NoDup (c_loc <$> b)
  /\ (forall l, l ∈ (c_loc <$> a) -> l ∉ (c_loc <$> b)).
Proof.
  rewrite fmap_app, fmap_cons, NoDup_app, NoDup_cons. intros (Ha & Hd & Hc & Hb).
  split_and!; [|done..|]; intros; set_solver.
Qed.

(** The first write of an unlinking skips the node forwards. *)
Lemma unlink_prev_seg (m : Map) hl t a c b :
  heads m !! hl = Some {| h_time := t; h_next := first_or None (a ++ c :: b) |} ->
  seg (nodes m) hl None (a ++ c :: b) None -> NoDup (c_loc <$> a ++ c :: b) ->
  exists N', match last_or None a with
      | None => update_head m (Some hl) (fun h => h <| h_next := first_or None b |>)
      | Some p => update_node m (Some p) (fun x => x <| n_next := first_or None b |>)
      end = Ret (with_heap m N' (<[hl := {| h_time := t; h_next := first_or None (a ++ b) |}]> (heads m)))
    /\ seg N' hl None a (first_or None b) /\ frame (nodes m) N' (c_loc <$> a).
Proof.
  intros Hh [Ha _]%seg_app (_ & _ & Hna & _ & _)%nodup_mid.
  destruct a as [|x a _] using rev_ind.
  - cbn [last_or last]. rewrite (update_head_ret _ _ _ _ Hh). eexists. split; [done|]. by split_and!.
  - rewrite last_or_snoc. pose proof (seg_lookup _ _ _ _ _ _ _ Ha) as Hx.
    rewrite (update_node_ret _ _ _ _ Hx). eexists. split.
    + rewrite (insert_id (heads m)); [done|]. rewrite Hh. by destruct a.
    + split; [apply (seg_set_next _ _ _ _ _ _ _ _ ltac:(by apply nodup_mid in Hna as [? _]) Ha Hx)|].
      apply frame_insert; [apply frame_refl| |by eexists]. rewrite fmap_app. set_solver.
Qed.

(** The second one backwards. *)
Lemma unlink_next_seg (m : Map) hl p p' b :
  seg (nodes m) hl p b None -> NoDup (c_loc <$> b) ->
  exists N', match first_or None b with
      | Some n => update_node m (Some n) (fun x => x <| n_prev := p' |>)
      | None => Ret m
      end = Ret (with_heap m N' (heads m))
    /\ seg N' hl p' b None /\ frame (nodes m) N' (c_loc <$> b).
Proof.
  intros Hs Hnd. destruct b as [|y b]; cbn [first_or].
  - exists (nodes m). destruct m. by split_and!.
  - pose proof (seg_lookup _ _ _ [] _ _ _ Hs) as Hy. rewrite (update_node_ret _ _ _ _ Hy). eexists.
    split; [done|]. apply NoDup_cons in Hnd as [Hy' _].
    split; [by apply (seg_set_prev _ _ _ _ _ _ _ _ Hy' Hs Hy)|].
    apply frame_insert; [apply frame_refl|by left|by eexists].
Qed.

Lemma seg_of_frame N N' ls hl p ns nx : frame N N' ls -> (forall l, l ∈ (c_loc <$> ns) -> l ∉ ls) ->
  seg N hl p ns nx -> seg N' hl p ns nx.
Proof.
  intros [_ Hf] Hd. apply seg_frame. intros c Hc. apply Hf, Hd. by apply list_elem_of_fmap_2.
Qed.

Lemma frame_trans N N' N'' ls ls' ls'' : frame N N' ls -> frame N' N'' ls' -> ls ⊆ ls'' -> ls' ⊆ ls'' -> frame N N'' ls''.
Proof.
  intros [Hd Hf] [Hd' Hf'] Hs Hs'. split; [congruence|]. intros l Hl.
  rewrite Hf', Hf; [done|set_solver|set_solver].
Qed.

Lemma unlink_seg (m : Map) hl t a c b :
  heads m !! hl = Some {| h_time := t; h_next := first_or None (a ++ c :: b) |} ->
  seg (nodes m) hl None (a ++ c :: b) None -> NoDup (c_loc <$> a ++ c :: b) ->
  exists N', unlink m (c_loc c)
      = Ret (with_heap m N' (<[hl := {| h_time := t; h_next := first_or None (a ++ b) |}]> (heads m)), Some hl)
    /\ seg N' hl None (a ++ b) None /\ N' !! c_loc c = Some (fresh_node (c_key c) (c_val c))
    /\ frame (nodes m) N' (c_loc <$> a ++ c :: b).
Proof.
  intros Hh Hs Hnd. pose proof (seg_lookup _ _ _ _ _ _ _ Hs) as Hc.
  destruct (nodup_mid _ _ _ Hnd) as (Hca & Hcb & Hna & Hnb & Hab).
  unfold unlink, read_node. cbn [unwrap mbind run_bind]. rewrite Hc. cbn [unwrap mbind run_bind n_head n_prev n_next].
  destruct (unlink_prev_seg m hl t a c b Hh Hs Hnd) as (N1 & -> & Ha1 & F1). cbn [mbind run_bind].
  set (m1 := with_heap m N1 _). apply seg_app in Hs as [_ [_ Hb]].
  assert (seg (nodes m1) hl (Some (c_loc c)) b None) as Hb1 by (eapply seg_of_frame; [exact F1| |exact Hb]; set_solver).
  destruct (unlink_next_seg m1 hl _ (last_or None a) b Hb1 Hnb) as (N2 & -> & Hb2 & F2). cbn [mbind run_bind].
  assert (N2 !! c_loc c = nodes m !! c_loc c) as Hc2 by (rewrite (proj2 F2), <- (proj2 F1); done).
  rewrite (update_node_ret (with_heap m1 N2 (heads m1)) (c_loc c) _ _ (eq_trans Hc2 Hc)).
  cbn [mbind run_bind]. eexists. split; [done|]. split_and!.
  - apply seg_insert; [rewrite fmap_app, not_elem_of_app; done|]. apply seg_app. split; [|done].
    eapply seg_of_frame; [exact F2|done|exact Ha1].
  - by rewrite lookup_insert_eq.
  - apply frame_insert; [|rewrite fmap_app, fmap_cons; set_solver|cbn [nodes with_heap]; rewrite Hc2; by eexists].
    eapply (frame_trans _ N1); [exact F1|exact F2|rewrite fmap_app; set_solver|rewrite fmap_app, fmap_cons; set_solver].
Qed.

(** ** The whole heap *)

Definition head_ok (H' : gmap loc TimeHead) (c : chain) : Prop :=
  H' !! ch_loc c = Some {| h_time := ch_time c; h_next := first_or None c.2 |}.

(** A node in no chain; its links are of no account. *)
Definition loose_ok (N : gmap loc Node) (c : cell) : Prop :=
  exists nd, N !! c_loc c = Some nd /\ n_key nd = c_key c /\ n_value nd = c_val c.

Record heap_ok (N : gmap loc Node) (H' : gmap loc TimeHead) (cs : list chain) (D : list cell) : Prop := {
  ho_heads : Forall (head_ok H') cs;
  ho_chains : Forall (fun c => seg N (ch_loc c) None c.2 None) cs;
  ho_loose : Forall (loose_ok N) D;
  ho_nodes : dom N = list_to_set (c_loc <$> cells cs ++ D);
  ho_heads_dom : dom H' = list_to_set (ch_loc <$> cs);
  ho_nodup : NoDup (c_loc <$> cells cs ++ D);
  ho_nodup_heads : NoDup (ch_loc <$> cs);
}.

Lemma cells_cons c cs : cells (c :: cs) = c.2 ++ cells cs.
Proof. done. Qed.

Lemma cells_app a b : cells (a ++ b) = cells a ++ cells b.
Proof. unfold cells. by rewrite fmap_app, join_app. Qed.

#[global] Instance cells_proper : Proper ((≡ₚ) ==> (≡ₚ)) cells.
Proof.
  intros a b Hab. induction Hab as [|x a b _ IH|x y a|a b c _ IH1 _ IH2]; rewrite ?cells_cons.
  - done.
  - by rewrite IH.
  - by rewrite !(assoc_L (++)), (comm (++) y.2).
  - by etrans.
Qed.

Lemma heap_ok_perm N H' cs cs' D D' : cs ≡ₚ cs' -> D ≡ₚ D' -> heap_ok N H' cs D -> heap_ok N H' cs' D'.
Proof.
  intros Hc HD [h1 h2 h3 h4 h5 h6 h7]. split.
  - by rewrite <- Hc.
  - by rewrite <- Hc.
  - by rewrite <- HD.
  - rewrite h4. apply list_to_set_perm_L. by rewrite Hc, HD.
  - rewrite h5. apply list_to_set_perm_L. by rewrite Hc.
  - by rewrite <- Hc, <- HD.
  - by rewrite <- Hc.
Qed.

(** Chains and loose nodes only depend on their own nodes. *)
Lemma chains_frame N N' cs D :
  (forall l, l ∈ (c_loc <$> cells cs ++ D) -> N' !! l = N !! l) ->
  Forall (fun c => seg N (ch_loc c) None c.2 None) cs -> Forall (loose_ok N) D ->
  Forall (fun c => seg N' (ch_loc c) None c.2 None) cs /\ Forall (loose_ok N') D.
Proof.
  rewrite !Forall_forall. intros Hd Hs Hl. split; intros c Hc.
  - eapply seg_frame; [|by apply Hs]. intros x Hx. apply Hd. rewrite fmap_app, elem_of_app. left.
    apply list_elem_of_fmap_2, list_elem_of_join. exists c.2. split; [done|]. by apply list_elem_of_fmap_2.
  - destruct (Hl c Hc) as (nd & Hn & Hk & Hv). exists nd. split; [|done]. rewrite Hd; [done|].
    rewrite fmap_app, elem_of_app. right. by apply list_elem_of_fmap_2.
Qed.

(** The heads of the other chains. *)
Lemma head_ok_frame H' cs hl h : hl ∉ (ch_loc <$> cs) -> Forall (head_ok H') cs -> Forall (head_ok (<[hl := h]> H')) cs.
Proof.
  intros Hn Hh. apply Forall_forall. intros c Hc. unfold head_ok. rewrite lookup_insert_ne.
  - by apply (proj1 (Forall_forall _ _) Hh).
  - intros ->. apply Hn. by apply list_elem_of_fmap_2.
Qed.

Lemma locs_middle a c b :
  list_to_set (C := gset loc) (c_loc <$> a ++ c :: b) = {[c_loc c]} ∪ list_to_set (c_loc <$> a ++ b).
Proof.
  transitivity (list_to_set (C := gset loc) (c_loc <$> c :: a ++ b)); [|done].
  apply list_to_set_perm_L. by rewrite <- Permutation_middle.
Qed.

(** ** The primitives on the whole heap *)

Lemma heap_insert (m : Map) hl t ns cs c D :
  heap_ok (nodes m) (heads m) ((hl, t, ns) :: cs) (c :: D) ->
  exists N' H', insert_into_time_chain m hl (c_loc c) = Ret (with_heap m N' H')
    /\ heap_ok N' H' ((hl, t, c :: ns) :: cs) D.
Proof.
  intros [h1 h2 h3 h4 h5 h6 h7].
  apply Forall_cons in h1 as [Hh h1]. apply Forall_cons in h2 as [Hs h2]. apply Forall_cons in h3 as [(nd & Hc & Hk & Hv) h3].
  apply NoDup_cons in h7 as [Hhl h7]. cbn [ch_loc fst] in *.
  assert (cells ((hl, t, ns) :: cs) ++ c :: D ≡ₚ c :: ns ++ cells cs ++ D) as HP.
  { rewrite cells_cons. cbn [snd]. by rewrite <- Permutation_middle, <- (assoc_L (++)). }
  rewrite HP in h6. assert (NoDup (c_loc <$> c :: ns)) as Hnd.
  { rewrite app_comm_cons, fmap_app, NoDup_app in h6. apply h6. }
  destruct (insert_into_time_chain_seg m hl t c ns nd Hh Hs Hc Hk Hv Hnd) as (N' & -> & Hs' & HF).
  eexists N', _. split; [done|].
  destruct (chains_frame (nodes m) N' cs D) as [h2' h3']; [|done|done|].
  { intros l Hl. apply HF. intros Hl'. rewrite app_comm_cons, fmap_app, NoDup_app in h6. by apply (proj1 (proj2 h6) l). }
  split.
  - apply Forall_cons. split; [by apply lookup_insert_eq|by apply head_ok_frame].
  - by apply Forall_cons.
  - done.
  - rewrite (proj1 HF), h4. apply list_to_set_perm_L. rewrite HP, cells_cons. cbn [snd app]. by rewrite (assoc_L (++)).
  - rewrite dom_insert_lookup_L; [done|by eexists].
  - rewrite cells_cons. cbn [snd app]. by rewrite <- (assoc_L (++)).
  - by apply NoDup_cons.
Qed.

Lemma heap_unlink (m : Map) hl t a c b cs D :
  heap_ok (nodes m) (heads m) ((hl, t, a ++ c :: b) :: cs) D ->
  exists N' H', unlink m (c_loc c) = Ret (with_heap m N' H', Some hl)
    /\ N' !! c_loc c = Some (fresh_node (c_key c) (c_val c))
    /\ heap_ok N' H' ((hl, t, a ++ b) :: cs) (c :: D).
Proof.
  intros [h1 h2 h3 h4 h5 h6 h7].
  apply Forall_cons in h1 as [Hh h1]. apply Forall_cons in h2 as [Hs h2].
  apply NoDup_cons in h7 as [Hhl h7]. cbn [ch_loc fst] in *.
  assert (cells ((hl, t, a ++ b) :: cs) ++ c :: D ≡ₚ cells ((hl, t, a ++ c :: b) :: cs) ++ D) as HP.
  { rewrite !cells_cons. cbn [snd]. rewrite <- !(assoc_L (++)). cbn [app]. by rewrite <- !Permutation_middle. }
  rewrite cells_cons, <- (assoc_L (++)), fmap_app, NoDup_app in h6. cbn [snd] in h6. destruct h6 as (Hnd & Hdisj & h6).
  destruct (unlink_seg m hl t a c b Hh Hs Hnd) as (N' & -> & Hs' & Hc' & HF).
  eexists N', _. split; [done|]. split; [done|].
  destruct (chains_frame (nodes m) N' cs D) as [h2' h3']; [|done|done|].
  { intros l Hl. apply HF. intros Hl'. by apply (Hdisj l). }
  split.
  - apply Forall_cons. split; [by apply lookup_insert_eq|by apply head_ok_frame].
  - by apply Forall_cons.
  - apply Forall_cons. split; [by eexists|done].
  - rewrite (proj1 HF), h4. apply list_to_set_perm_L. by rewrite HP.
  - rewrite dom_insert_lookup_L; [done|by eexists].
  - rewrite HP, cells_cons, <- (assoc_L (++)), fmap_app, NoDup_app. by split_and!.
  - by apply NoDup_cons.
Qed.

Lemma heap_free_node (m : Map) cs c D : heap_ok (nodes m) (heads m) cs (c :: D) ->
  exists N' nd, free_node m (Some (c_loc c)) = Ret (with_heap m N' (heads m), nd)
    /\ n_value nd = c_val c /\ heap_ok N' (heads m) cs D.
Proof.
  intros [h1 h2 h3 h4 h5 h6 h7]. apply Forall_cons in h3 as [(nd & Hc & _ & Hv) h3].
  unfold free_node. cbn [unwrap mbind run_bind]. rewrite Hc. cbn [unwrap mbind run_bind].
  eexists _, _. split; [done|]. split; [done|].
  assert (cells cs ++ c :: D ≡ₚ c :: cells cs ++ D) as HP by (by rewrite <- Permutation_middle).
  rewrite HP, fmap_cons, NoDup_cons in h6. destruct h6 as [Hn h6].
  destruct (chains_frame (nodes m) (delete (c_loc c) (nodes m)) cs D) as [h2' h3']; [|done|done|].
  { intros l Hl. apply lookup_delete_ne. by intros <-. }
  split; [done|done|done| |done|done|done].
  - rewrite dom_delete_L, h4, locs_middle. assert (c_loc c ∉@{gset loc} list_to_set (c_loc <$> cells cs ++ D)) by
      (by rewrite elem_of_list_to_set). set_solver.
Qed.

Lemma heap_free_head (m : Map) hl t cs D : heap_ok (nodes m) (heads m) ((hl, t, []) :: cs) D ->
  exists H', free_head m (Some hl) = Ret (with_heap m (nodes m) H', {| h_time := t; h_next := None |})
    /\ heap_ok (nodes m) H' cs D.
Proof.
  intros [h1 h2 h3 h4 h5 h6 h7]. apply Forall_cons in h1 as [Hh h1]. apply Forall_cons in h2 as [_ h2].
  apply NoDup_cons in h7 as [Hhl h7]. cbn in Hh, Hhl.
  unfold free_head. cbn [unwrap mbind run_bind]. unfold head_ok in Hh. cbn in Hh. rewrite Hh. cbn [unwrap mbind run_bind].
  eexists. split; [done|]. split; [|done|done|done| |done|done].
  - apply Forall_forall. intros c Hc. unfold head_ok. rewrite lookup_delete_ne; [by apply (proj1 (Forall_forall _ _) h1)|].
    intros ->. apply Hhl. by apply list_elem_of_fmap_2.
  - rewrite dom_delete_L, h5. cbn [fmap list_fmap list_to_set]. assert (hl ∉@{gset loc} list_to_set (ch_loc <$> cs)) by
      (by rewrite elem_of_list_to_set). set_solver.
Qed.

Lemma heap_new_head (m : Map) t cs D : heap_ok (nodes m) (heads m) cs D ->
  exists hl H', new_head m {| h_time := t; h_next := None |} = (with_heap m (nodes m) H', hl)
    /\ heap_ok (nodes m) H' ((hl, t, []) :: cs) D.
Proof.
  intros [h1 h2 h3 h4 h5 h6 h7]. unfold new_head. set (hl := fresh (dom (heads m))).
  assert (hl ∉ dom (heads m)) as Hf by apply is_fresh. rewrite h5, elem_of_list_to_set in Hf.
  eexists _, _. split; [done|]. split; [| |done| | |done|by apply NoDup_cons].
  - apply Forall_cons. split; [by apply lookup_insert_eq|by apply head_ok_frame].
  - by apply Forall_cons.
  - done.
  - rewrite dom_insert_L, h5. done.
Qed.

Lemma heap_new_node (m : Map) k v cs D : heap_ok (nodes m) (heads m) cs D ->
  exists l N', new_node m (fresh_node k v) = (with_heap m N' (heads m), l)
    /\ heap_ok N' (heads m) cs ((l, k, v) :: D).
Proof.
  intros [h1 h2 h3 h4 h5 h6 h7]. unfold new_node. set (l := fresh (dom (nodes m))).
  assert (l ∉ dom (nodes m)) as Hf by apply is_fresh. rewrite h4, elem_of_list_to_set in Hf.
  eexists _, _. split; [done|].
  assert (cells cs ++ (l, k, v) :: D ≡ₚ (l, k, v) :: cells cs ++ D) as HP by (by rewrite <- Permutation_middle).
  destruct (chains_frame (nodes m) (<[l := fresh_node k v]> (nodes m)) cs D) as [h2' h3']; [|done|done|].
  { intros l' Hl'. apply lookup_insert_ne. by intros ->. }
  split; [done|done| | |done| |done].
  - apply Forall_cons. split; [eexists; split; [apply lookup_insert_eq|done]|done].
  - by rewrite dom_insert_L, h4, locs_middle.
  - rewrite HP. by apply NoDup_cons.
Qed.

(** A value overwritten in place. *)
Lemma heap_set_value (m : Map) hl t a c b cs D (f : V -> V) :
  heap_ok (nodes m) (heads m) ((hl, t, a ++ c :: b) :: cs) D ->
  exists N' nd, read_node m (Some (c_loc c)) = Ret nd
    /\ nd = {| n_key := c_key c; n_value := c_val c; n_head := Some hl;
               n_prev := last_or None a; n_next := first_or None b |}
    /\ update_node m (Some (c_loc c)) (fun x => x <| n_value := f (n_value x) |>) = Ret (with_heap m N' (heads m))
    /\ heap_ok N' (heads m) ((hl, t, a ++ (c.1, f (c_val c)) :: b) :: cs) D.
Proof.
  intros [h1 h2 h3 h4 h5 h6 h7]. apply Forall_cons in h1 as [Hh h1]. apply Forall_cons in h2 as [Hseg h2].
  cbn [ch_loc fst snd] in *. pose proof (seg_lookup _ _ _ _ _ _ _ Hseg) as Hc.
  rewrite cells_cons, <- (assoc_L (++)), fmap_app, NoDup_app in h6. cbn [snd] in h6. destruct h6 as (Hnd & Hd & h6).
  unfold read_node. cbn [unwrap mbind run_bind]. rewrite Hc, (update_node_ret _ _ _ _ Hc). cbn [unwrap].
  eexists _, _. do 3 (split; [done|]). set (c' := (c.1, f (c_val c))).
  assert (c_loc <$> cells ((hl, t, a ++ c' :: b) :: cs) ++ D = c_loc <$> cells ((hl, t, a ++ c :: b) :: cs) ++ D) as Hlocs.
  { rewrite !cells_cons. cbn [snd]. by rewrite !fmap_app. }
  destruct (nodup_mid _ _ _ Hnd) as (Hca & Hcb & _).
  destruct (chains_frame (nodes m) (<[c_loc c := {| n_key := c_key c; n_value := f (c_val c); n_head := Some hl;
    n_prev := last_or None a; n_next := first_or None b |}]> (nodes m)) cs D) as [h2' h3']; [|done|done|].
  { intros l' Hl'. apply lookup_insert_ne. intros <-. apply (Hd (c_loc c)); [rewrite fmap_app; set_solver|done]. }
  apply seg_app in Hseg as [Hsa [_ Hsb]]. split; [| |done| |done| |done].
  - apply Forall_cons. split; [|done]. unfold head_ok in *. cbn in *. rewrite Hh. by destruct a.
  - apply Forall_cons. split; [|done]. cbn [ch_loc fst snd]. apply seg_app. split.
    + apply seg_insert; [done|]. by destruct b.
    + split; [by rewrite lookup_insert_eq|]. by apply seg_insert.
  - rewrite Hlocs, dom_insert_lookup_L; [done|by eexists].
  - rewrite Hlocs, cells_cons, <- (assoc_L (++)), fmap_app, NoDup_app. by split_and!.
Qed.

End heap.
