(* ===== verification/ChronoOps.v ===== *)
(** * The operations of the chronological map on its layout

    A layout lists the chains in the order of the timeline, with addresses.
    Each operation of crates/public/src/chrono_map.rs is shown to return, and
    to leave a map that is again laid out. *)

From stdpp Require Import gmap sorting.
From S2P Require Import Prelude ChronoMap ChronoHeap.

Section ops.
Context {K : Type} `{Countable K} {V : Type}.

Abbreviation Map := (ChronoMap K V).
Abbreviation cell := (loc * K * V)%type.
Abbreviation chain := (loc * Z * list (loc * K * V))%type.

(** Chains and the timeline; [X] are chains taken off the timeline, [D] nodes
    between two chains. *)
Record st_ok (X : list chain) (m : Map) (lay : list chain) (D : list cell) : Prop := {
  so_heap : heap_ok (nodes m) (heads m) (X ++ lay) D;
  so_timeline : timeline m = ch_loc <$> lay;
  so_sorted : StronglySorted Z.lt (ch_time <$> lay);
}.

Definition nonempty (lay : list chain) : Prop := Forall (fun c => c.2 <> []) lay.

(** The hash map holds the addresses of the cells by their keys. *)
Definition ent_ok (E : gmap K loc) (cs : list cell) : Prop :=
  NoDup (c_key <$> cs) /\ E = list_to_map ((fun c => (c_key c, c_loc c)) <$> cs).

(** ** Entries *)

Lemma keys_fmap (cs : list cell) : ((fun c => (c_key c, c_loc c)) <$> cs).*1 = c_key <$> cs.
Proof. by rewrite <- list_fmap_compose. Qed.

Lemma ent_ok_perm E cs cs' : cs ≡ₚ cs' -> ent_ok E cs -> ent_ok E cs'.
Proof.
  intros HP [Hn ->]. split; [by rewrite <- HP|]. apply list_to_map_proper; [by rewrite keys_fmap|by rewrite HP].
Qed.

Lemma ent_ok_insert E c cs : (c_key c ∉ (c_key <$> cs)) -> ent_ok E cs -> ent_ok (<[c_key c := c_loc c]> E) (c :: cs).
Proof. intros Hn [Hnd ->]. split; [by apply NoDup_cons|done]. Qed.

Lemma ent_ok_delete E c cs : ent_ok E (c :: cs) -> ent_ok (delete (c_key c) E) cs.
Proof.
  intros [[Hn Hnd]%NoDup_cons ->]. split; [done|]. cbn. rewrite delete_insert_id; [done|].
  apply not_elem_of_list_to_map. by rewrite keys_fmap.
Qed.

(** Only addresses and keys matter. *)
Lemma ent_ok_value E l k v v' cs : ent_ok E ((l, k, v) :: cs) -> ent_ok E ((l, k, v') :: cs).
Proof. done. Qed.

Lemma ent_ok_lookup E cs k l : ent_ok E cs -> E !! k = Some l ->
  exists c, c ∈ cs /\ c_key c = k /\ c_loc c = l.
Proof.
  intros [Hn ->] Hl. apply elem_of_list_to_map_2, list_elem_of_fmap in Hl as (c & [= -> ->] & Hc). by exists c.
Qed.

Lemma ent_ok_lookup_2 E cs c : ent_ok E cs -> c ∈ cs -> E !! c_key c = Some (c_loc c).
Proof.
  intros [Hn ->] Hc. apply elem_of_list_to_map; [by rewrite keys_fmap|].
  by apply (list_elem_of_fmap_2 (fun c => (c_key c, c_loc c))).
Qed.

Lemma ent_ok_lookup_None E cs k : ent_ok E cs -> E !! k = None -> k ∉ (c_key <$> cs).
Proof. intros [Hn ->] Hl%not_elem_of_list_to_map. by rewrite keys_fmap in Hl. Qed.

(** ** Binary search *)

(** Every time before index [i] is smaller, every one from [j] on is larger. *)
Definition bracket (lay : list chain) (t : Z) (i j : nat) : Prop :=
  (forall k c, (k < i)%nat -> lay !! k = Some c -> ch_time c < t)
  /\ (forall k c, (j <= k)%nat -> lay !! k = Some c -> t < ch_time c).

Lemma sorted_lookup (lay : list chain) i j c d : StronglySorted Z.lt (ch_time <$> lay) ->
  (i < j)%nat -> lay !! i = Some c -> lay !! j = Some d -> ch_time c < ch_time d.
Proof.
  revert i j. induction lay as [|x lay IH]; intros i j Hs Hij Hi Hj; [done|].
  cbn in Hs. apply StronglySorted_inv in Hs as [Hs Hx].
  destruct j as [|j]; [lia|]. destruct i as [|i]; cbn in Hi, Hj.
  - simplify_eq. apply list_elem_of_lookup_2 in Hj.
    eapply (proj1 (Forall_forall _ _) Hx). by apply list_elem_of_fmap_2.
  - eapply IH; [done| |done|done]. lia.
Qed.

Lemma bs_loop_ok (m : Map) lay t : timeline m = ch_loc <$> lay -> Forall (head_ok (heads m)) lay ->
  StronglySorted Z.lt (ch_time <$> lay) ->
  forall n left right, (right - left <= n)%nat -> (left <= right <= length lay)%nat -> bracket lay t left right ->
  wp (bs_loop n m t left right) (fun r =>
    match r with
    | Ok i => exists c, lay !! i = Some c /\ ch_time c = t
    | Err i => (i <= length lay)%nat /\ bracket lay t i i
    end).
Proof.
  intros Htl Hh Hs. induction n as [|n IH]; intros left right Hn Hlr Hb; cbn [bs_loop].
  { rewrite (proj2 (Nat.leb_le _ _)) by lia. split; [lia|]. by replace right with left in Hb by lia. }
  destruct (Nat.leb right left) eqn:E.
  { apply Nat.leb_le in E. split; [lia|]. by replace right with left in Hb by lia. }
  apply Nat.leb_gt in E. set (mid := (left + (right - left) / 2)%nat).
  assert (left <= mid < right)%nat as Hm.
  { unfold mid. pose proof (Nat.div_lt (right - left) 2). lia. }
  destruct (lookup_lt_is_Some_2 lay mid) as [c Hc]; [lia|].
  rewrite Htl, list_lookup_fmap, Hc. cbn [fmap option_fmap option_map unwrap mbind run_bind].
  unfold read_head. cbn [unwrap mbind run_bind].
  assert (heads m !! ch_loc c = _) as -> by exact (proj1 (Forall_forall _ _) Hh c (list_elem_of_lookup_2 _ _ _ Hc)).
  cbn [unwrap mbind run_bind h_time]. destruct (Z.compare_spec (ch_time c) t) as [He|Hl|Hg].
  - by exists c.
  - apply IH; [lia|lia|]. split; [|apply Hb]. intros k d Hk Hd.
    destruct (decide (k = mid)) as [->|]; [by simplify_eq|]. transitivity (ch_time c); [|done].
    eapply (sorted_lookup lay k mid); [done|lia|done|done].
  - apply IH; [lia|lia|]. split; [apply Hb|]. intros k d Hk Hd.
    destruct (decide (k = mid)) as [->|]; [by simplify_eq|]. transitivity (ch_time c); [done|].
    eapply (sorted_lookup lay mid k); [done|lia|done|done].
Qed.

(** The search splits the layout at the time. *)
Definition splits (lay : list chain) (t : Z) (r : result nat nat) : Prop :=
  exists l1 l2, Forall (fun c => ch_time c < t) l1 /\ Forall (fun c => t < ch_time c) l2
  /\ match r with
     | Ok i => exists c, ch_time c = t /\ lay = l1 ++ c :: l2 /\ i = length l1
     | Err i => lay = l1 ++ l2 /\ i = length l1
     end.

Lemma binary_search_ok X (m : Map) lay D t : st_ok X m lay D -> wp (binary_search m t) (splits lay t).
Proof.
  intros [Hh Htl Hs]. unfold binary_search. rewrite Htl, length_fmap.
  pose proof (ho_heads _ _ _ _ Hh) as Hhd. apply Forall_app in Hhd as [_ Hhd].
  eapply wp_mono; [apply (bs_loop_ok m lay t Htl Hhd Hs)|].
  - lia.
  - lia.
  - split; [lia|]. intros k c Hk Hc%lookup_lt_Some. lia.
  - intros [i|i].
    + intros (c & Hc & <-). exists (take i lay), (drop (S i) lay). split_and!.
      * apply Forall_forall. intros x Hx. apply list_elem_of_lookup in Hx as (k & Hk).
        pose proof (lookup_lt_Some _ _ _ Hk). rewrite length_take in *. rewrite lookup_take_lt in Hk by lia.
        eapply (sorted_lookup lay k i); [done|lia|done|done].
      * apply Forall_forall. intros x Hx. apply list_elem_of_lookup in Hx as (k & Hk). rewrite lookup_drop in Hk.
        eapply (sorted_lookup lay i (S i + k)); [done|lia|done|done].
      * exists c. split; [done|]. split; [by rewrite take_drop_middle|].
        rewrite length_take. apply lookup_lt_Some in Hc. lia.
    + intros (Hi & Hlo & Hhi). exists (take i lay), (drop i lay). split_and!.
      * apply Forall_forall. intros x Hx. apply list_elem_of_lookup in Hx as (k & Hk).
        pose proof (lookup_lt_Some _ _ _ Hk). rewrite length_take in *. rewrite lookup_take_lt in Hk by lia.
        eapply Hlo; [|done]. lia.
      * apply Forall_forall. intros x Hx. apply list_elem_of_lookup in Hx as (k & Hk). rewrite lookup_drop in Hk.
        eapply Hhi; [|done]. lia.
      * by rewrite take_drop.
      * rewrite length_take. lia.
Qed.

(** A chain that is there is found. *)
Lemma splits_at l1 c l2 r : splits (l1 ++ c :: l2) (ch_time c) r ->
  r = Ok (length l1) /\ Forall (fun x => ch_time x < ch_time c) l1 /\ Forall (fun x => ch_time c < ch_time x) l2.
Proof.
  intros (k1 & k2 & H1 & H2 & Hr). rewrite Forall_forall in H1. rewrite Forall_forall in H2.
  assert (c ∉ k1) as Hc1 by (intros Hc%H1; lia). assert (c ∉ k2) as Hc2 by (intros Hc%H2; lia).
  destruct r as [i|i].
  - destruct Hr as (d & Hd & Heq & ->).
    assert (length l1 = length k1) as Hlen.
    { assert ((k1 ++ d :: k2) !! length l1 = Some c) as Hl by (rewrite <- Heq; by apply list_lookup_middle).
      destruct (Nat.lt_trichotomy (length l1) (length k1)) as [Hlt|[Hlt|Hlt]]; [|done|]; exfalso.
      - apply Hc1. rewrite lookup_app_l in Hl by done. by eapply list_elem_of_lookup_2.
      - apply Hc2. rewrite lookup_app_r in Hl by lia.
        destruct (length l1 - length k1)%nat as [|n] eqn:En; [lia|]. by eapply list_elem_of_lookup_2. }
    apply app_inj_1 in Heq as [-> [= -> ->]]; [|done]. by rewrite !Forall_forall.
  - destruct Hr as [Heq _]. exfalso. assert (c ∈ k1 ++ k2) as Hc by (rewrite <- Heq; set_solver). set_solver.
Qed.

(** ** Finding and creating chains *)

Section chains.
Context (X : list chain).

Lemma perm_middle (c : chain) l1 l2 : c :: X ++ l1 ++ l2 ≡ₚ X ++ l1 ++ c :: l2.
Proof. by rewrite <- !Permutation_middle. Qed.

Lemma sorted_middle (l1 l2 : list Z) t : Forall (fun x => x < t) l1 -> Forall (fun x => t < x) l2 ->
  StronglySorted Z.lt (l1 ++ l2) -> StronglySorted Z.lt (l1 ++ t :: l2).
Proof.
  induction l1 as [|x l1 IH]; cbn; intros H1 H2 Hs.
  - by constructor.
  - apply StronglySorted_inv in Hs as [Hs Hx]. apply Forall_cons in H1 as [Hxt H1]. constructor; [by apply IH|].
    apply Forall_app in Hx as [Hx1 Hx2]. apply Forall_app. split; [done|]. by apply Forall_cons.
Qed.

Lemma sorted_drop_middle (l1 l2 : list Z) t : StronglySorted Z.lt (l1 ++ t :: l2) -> StronglySorted Z.lt (l1 ++ l2).
Proof.
  induction l1 as [|x l1 IH]; cbn; intros Hs; apply StronglySorted_inv in Hs as [Hs Hx]; [done|].
  constructor; [by apply IH|]. apply Forall_app in Hx as [Hx1 [_ Hx2]%Forall_cons]. by apply Forall_app.
Qed.

(** The chain of time [t] of a layout, found at this place or put there. *)
Definition found (lay : list chain) (l1 : list chain) (c : chain) (l2 : list chain) : Prop :=
  (lay = l1 ++ c :: l2 \/ c.2 = [] /\ lay = l1 ++ l2)
  /\ Forall (fun x => ch_time x < ch_time c) l1 /\ Forall (fun x => ch_time c < ch_time x) l2.

Lemma find_or_create_ok (m : Map) lay D t : st_ok X m lay D ->
  exists m' hl l1 ns l2, find_or_create_time_chain m t = Ret (m', hl)
    /\ st_ok X m' (l1 ++ (hl, t, ns) :: l2) D /\ found lay l1 (hl, t, ns) l2 /\ entries m' = entries m.
Proof.
  intros Hok. destruct (proj1 (wp_exists _ _) (binary_search_ok X m lay D t Hok)) as (r & Er & l1 & l2 & H1 & H2 & Hr).
  unfold find_or_create_time_chain. rewrite Er. cbn [mbind run_bind]. destruct Hok as [Hh Htl Hs]. destruct r as [i|i].
  - destruct Hr as ([[hl t'] ns] & Ht & -> & ->). cbn in Ht. subst t'.
    exists m, hl, l1, ns, l2. rewrite Htl, fmap_app, fmap_cons, list_lookup_middle by (by rewrite length_fmap).
    split; [done|]. split; [done|]. split; [|done]. split; [by left|done].
  - destruct Hr as [-> ->]. destruct (heap_new_head m t (X ++ l1 ++ l2) D Hh) as (hl & H' & -> & Hh').
    exists ((with_heap m (nodes m) H') <| timeline := insert_at (length l1) hl (timeline m) |>), hl, l1, [], l2.
    unfold insert_at. cbn [timeline with_heap]. rewrite Htl, fmap_app, take_app_length', drop_app_length' by (by rewrite length_fmap).
    cbn [timeline update]. rewrite list_lookup_middle by (by rewrite length_fmap). split; [done|]. split.
    + split; cbn [nodes heads timeline update].
      * eapply heap_ok_perm; [|done|exact Hh']. apply perm_middle.
      * by rewrite fmap_app, fmap_cons.
      * rewrite fmap_app, fmap_cons. apply sorted_middle; [by rewrite Forall_fmap|by rewrite Forall_fmap|].
        by rewrite <- fmap_app.
    + split; [split; [by right|done]|done].
Qed.

Lemma insert_into_ok (m : Map) l1 hl t ns l2 c D : st_ok X m (l1 ++ (hl, t, ns) :: l2) (c :: D) ->
  exists m', insert_into_time_chain m hl (c_loc c) = Ret m'
    /\ st_ok X m' (l1 ++ (hl, t, c :: ns) :: l2) D /\ entries m' = entries m.
Proof.
  intros [Hh Htl Hs]. apply (heap_ok_perm _ _ _ ((hl, t, ns) :: X ++ l1 ++ l2) _ (c :: D)) in Hh;
    [|by rewrite perm_middle|done].
  destruct (heap_insert m hl t ns (X ++ l1 ++ l2) c D Hh) as (N' & H' & -> & Hh'). eexists. split; [done|]. split; [|done].
  split; cbn [nodes heads timeline with_heap].
  - eapply heap_ok_perm; [|done|exact Hh']. apply perm_middle.
  - by rewrite Htl, !fmap_app.
  - by rewrite fmap_app in *.
Qed.

(** The chain without the node, dropped when that leaves it empty. *)
Definition keep_nonempty (c : chain) : list chain := match c.2 with [] => [] | _ => [c] end.

Lemma remove_from_ok (m : Map) l1 hl t a c b l2 D : st_ok X m (l1 ++ (hl, t, a ++ c :: b) :: l2) D ->
  exists m', remove_from_time_chain m true (c_loc c) = Ret m'
    /\ st_ok X m' (l1 ++ keep_nonempty (hl, t, a ++ b) ++ l2) (c :: D) /\ entries m' = entries m.
Proof.
  intros [Hh Htl Hs]. apply (heap_ok_perm _ _ _ ((hl, t, a ++ c :: b) :: X ++ l1 ++ l2) _ D) in Hh;
    [|by rewrite perm_middle|done].
  destruct (heap_unlink m hl t a c b (X ++ l1 ++ l2) D Hh) as (N' & H' & Eu & _ & Hh').
  unfold remove_from_time_chain. rewrite Eu. cbn [mbind run_bind].
  set (m1 := with_heap m N' H').
  assert (st_ok X m1 (l1 ++ (hl, t, a ++ b) :: l2) (c :: D)) as Hok1.
  { split; cbn [m1 nodes heads timeline with_heap].
    - eapply heap_ok_perm; [|done|exact Hh']. apply perm_middle.
    - by rewrite Htl, !fmap_app.
    - by rewrite fmap_app in *. }
  assert (heads m1 !! hl = Some {| h_time := t; h_next := first_or None (a ++ b) |}) as Hhd.
  { pose proof (ho_heads _ _ _ _ Hh') as Hf. apply Forall_cons in Hf as [Hf _]. exact Hf. }
  unfold read_head. cbn [unwrap mbind run_bind]. rewrite Hhd. cbn [unwrap mbind run_bind h_next h_time].
  destruct (a ++ b) as [|x r] eqn:Eab; cbn [first_or].
  2: { eexists. split; [done|]. by split. }
  destruct (proj1 (wp_exists _ _) (binary_search_ok X m1 _ _ t Hok1)) as (r & Er & Hsp).
  destruct (splits_at l1 (hl, t, []) l2 r Hsp) as [-> _]. rewrite Er. cbn [mbind run_bind].
  destruct Hok1 as [Hh1 Htl1 Hs1]. rewrite Htl1, fmap_app, fmap_cons, list_lookup_middle by (by rewrite length_fmap).
  cbn [unwrap mbind run_bind].
  apply (heap_ok_perm _ _ _ ((hl, t, []) :: X ++ l1 ++ l2) _ (c :: D)) in Hh1; [|by rewrite perm_middle|done].
  set (m2 := m1 <| timeline := _ |>). destruct (heap_free_head m2 hl t (X ++ l1 ++ l2) (c :: D) Hh1) as (H2' & E2 & Hh2).
  cbn [ch_loc fst]. rewrite E2. cbn [mbind run_bind]. eexists. split; [done|]. split; [|done].
  cbn [keep_nonempty snd app]. split.
  - exact Hh2.
  - cbn [timeline with_heap m2 m1 update]. unfold remove_at. rewrite take_app_length' by (by rewrite length_fmap).
    rewrite drop_app_ge by (rewrite length_fmap; lia). rewrite length_fmap.
    rewrite Nat.sub_succ_l, Nat.sub_diag by lia. by rewrite fmap_app.
  - rewrite fmap_app in *. by eapply sorted_drop_middle.
Qed.

(** ** Values *)

Lemma set_value_ok (m : Map) l1 hl t a c b l2 D (f : V -> V) :
  st_ok X m (l1 ++ (hl, t, a ++ c :: b) :: l2) D ->
  exists m' nd, read_node m (Some (c_loc c)) = Ret nd
    /\ nd = {| n_key := c_key c; n_value := c_val c; n_head := Some hl;
               n_prev := last_or None a; n_next := first_or None b |}
    /\ update_node m (Some (c_loc c)) (fun x => x <| n_value := f (n_value x) |>) = Ret m'
    /\ st_ok X m' (l1 ++ (hl, t, a ++ (c.1, f (c_val c)) :: b) :: l2) D /\ entries m' = entries m.
Proof.
  intros [Hh Htl Hs]. apply (heap_ok_perm _ _ _ ((hl, t, a ++ c :: b) :: X ++ l1 ++ l2) _ D) in Hh;
    [|by rewrite perm_middle|done].
  destruct (heap_set_value m hl t a c b (X ++ l1 ++ l2) D f Hh) as (N' & nd & Er & Hnd & Eu & Hh').
  eexists _, _. split; [done|]. split; [done|]. split; [done|]. split; [|done].
  split; cbn [nodes heads timeline with_heap].
  - eapply heap_ok_perm; [|done|exact Hh']. apply perm_middle.
  - by rewrite Htl, !fmap_app.
  - by rewrite fmap_app in *.
Qed.

End chains.

End ops.
