(* ===== verification/ChronoSpec.v ===== *)
(** * The chronological map refines a list of time chains

    The abstract map is the list of its times, in order, each with its entries,
    the last inserted first.  Every operation of
    crates/public/src/chrono_map.rs returns what the abstract one returns, on
    every sequence of operations: no pointer is used after it was freed, no
    [unreachable!] is reached, nothing is freed twice and dropping the map
    leaves no allocation behind. *)

From stdpp Require Import gmap sorting.
From S2P Require Import Prelude ChronoMap ChronoHeap ChronoOps.

Section spec.
Context {K : Type} `{Countable K} {V : Type}.

Abbreviation Map := (ChronoMap K V).
Abbreviation cell := (loc * K * V)%type.
Abbreviation chain := (loc * Z * list (loc * K * V))%type.
Abbreviation amap := (list (Z * list (K * V))).

(** ** The abstract operations *)

Fixpoint a_push (t : Z) (kv : K * V) (a : amap) : amap :=
  match a with
  | [] => [(t, [kv])]
  | (t', ns) :: a =>
      if t' <? t then (t', ns) :: a_push t kv a
      else if t' =? t then (t', kv :: ns) :: a
      else (t, [kv]) :: (t', ns) :: a
  end.

Fixpoint a_find (k : K) (a : amap) : option (Z * V) :=
  match a with
  | [] => None
  | (t, ns) :: a =>
      match list_find (fun kv => kv.1 = k) ns with
      | Some (_, kv) => Some (t, kv.2)
      | None => a_find k a
      end
  end.

(** Remove a key; a time without entries goes too. *)
Fixpoint a_del (k : K) (a : amap) : amap :=
  match a with
  | [] => []
  | (t, ns) :: a =>
      match filter (fun kv => kv.1 <> k) ns with
      | [] => a_del k a
      | ns => (t, ns) :: a_del k a
      end
  end.

Definition a_set (k : K) (f : V -> V) (a : amap) : amap :=
  (fun c : Z * list (K * V) =>
     (c.1, (fun kv : K * V => (kv.1, if decide (kv.1 = k) then f kv.2 else kv.2)) <$> c.2)) <$> a.

Definition a_insert (t : Z) (k : K) (v : V) (a : amap) : amap * option V :=
  match a_find k a with
  | Some (t', old) =>
      if t' =? t then (a_set k (fun _ => v) a, Some old) else (a_push t (k, v) (a_del k a), Some old)
  | None => (a_push t (k, v) a, None)
  end.

Definition a_remove (k : K) (a : amap) : amap * option V := (a_del k a, snd <$> a_find k a).

Definition a_remove_oldest (a : amap) : amap * option V :=
  match a with
  | (_, kv :: _) :: _ => (a_del kv.1 a, Some kv.2)
  | _ => (a, None)
  end.

Definition a_move (k : K) (t : Z) (a : amap) : amap :=
  match a_find k a with
  | Some (t', v) => if t' =? t then a else a_push t (k, v) (a_del k a)
  | None => a
  end.

Section forward.
Context {St : Type} (callback : St -> V -> St * V * option Z).

(** Visit entries in turn: one is pushed at its new time or dropped. *)
Fixpoint a_visit (time : Z) (s : St) (due : list (K * V)) (a : amap) : amap * St :=
  match due with
  | [] => (a, s)
  | (k, v) :: due =>
      let '(s, v, new_time) := callback s v in
      let a := match new_time with
               | Some nt => if time <? nt then a_push nt (k, v) a else a
               | None => a
               end in
      a_visit time s due a
  end.

(** Everything due is visited, the oldest first; what is later stays. *)
Definition a_forward (time : Z) (s : St) (a : amap) : amap * St :=
  a_visit time s (mjoin (snd <$> filter (fun c => c.1 <= time) a)) (filter (fun c => time < c.1) a).
End forward.

Definition a_drain (range : Z -> bool) (a : amap) : amap * list V :=
  (filter (fun c => range c.1 = false) a,
   snd <$> mjoin (snd <$> filter (fun c => range c.1 = true) a)).

(** ** The abstraction *)

Definition a_cell (c : cell) : K * V := (c_key c, c_val c).
Definition abs_chain (c : chain) : Z * list (K * V) := (ch_time c, a_cell <$> c.2).
Definition abs (lay : list chain) : amap := abs_chain <$> lay.

(** The invariant of the map between two operations. *)
Record map_ok (m : Map) (lay : list chain) : Prop := {
  mo_st : st_ok [] m lay [];
  mo_nonempty : nonempty lay;
  mo_entries : ent_ok (entries m) (cells lay);
}.

Definition refines (m : Map) (a : amap) : Prop := exists lay, map_ok m lay /\ abs lay = a.

(** ** The abstract operations on layouts *)

Lemma abs_app l1 l2 : abs (l1 ++ l2) = abs l1 ++ abs l2.
Proof. apply fmap_app. Qed.

Lemma a_push_found lay l1 (c : chain) l2 x : found lay l1 c l2 ->
  a_push (ch_time c) (a_cell x) (abs lay) = abs (l1 ++ (c.1, x :: c.2) :: l2).
Proof.
  intros [Hlay [H1 H2]]. assert (exists ns, abs lay = abs l1 ++ ns
    /\ a_push (ch_time c) (a_cell x) ns = abs ((c.1, x :: c.2) :: l2)) as (ns & -> & Hns).
  { destruct Hlay as [->|[Hc ->]]; rewrite abs_app; eexists; (split; [done|]).
    - destruct c as [[hl t] ns]. cbn. by rewrite Z.ltb_irrefl, Z.eqb_refl.
    - destruct c as [[hl t] ns]. cbn in Hc. subst. destruct l2 as [|d l2]; [done|].
      apply Forall_cons in H2 as [Hd _]. cbn in *. by rewrite (proj2 (Z.ltb_ge _ _)), (proj2 (Z.eqb_neq _ _)) by lia. }
  rewrite abs_app, <- Hns. clear -H1. induction l1 as [|d l1 IH]; [done|]. apply Forall_cons in H1 as [Hd H1].
  cbn [abs fmap list_fmap app a_push abs_chain]. rewrite (proj2 (Z.ltb_lt _ _)) by done. f_equal. by apply IH.
Qed.

(** Keys of the cells of a layout. *)
Abbreviation keys lay := (c_key <$> cells lay).

Lemma filter_absent (k : K) (ns : list cell) : k ∉ (c_key <$> ns) ->
  filter (fun kv => kv.1 <> k) (a_cell <$> ns) = a_cell <$> ns.
Proof.
  intros Hk. apply filter_all, Forall_fmap, Forall_forall. intros c Hc E. apply Hk.
  cbn in E. rewrite <- E. by apply list_elem_of_fmap_2.
Qed.

Lemma a_del_absent k lay : k ∉ keys lay -> nonempty lay -> a_del k (abs lay) = abs lay.
Proof.
  induction lay as [|c lay IH]; intros Hk Hn; [done|]. apply Forall_cons in Hn as [Hc Hn].
  rewrite cells_cons, fmap_app, not_elem_of_app in Hk. destruct Hk as [Hk1 Hk2].
  cbn [abs fmap list_fmap a_del abs_chain]. rewrite filter_absent by done.
  destruct c as [[hl t] [|x ns]]; [done|]. cbn [snd fmap list_fmap]. f_equal. by apply IH.
Qed.

Lemma a_del_app k a b : a_del k (a ++ b) = a_del k a ++ a_del k b.
Proof.
  induction a as [|[t ns] a IH]; [done|]. cbn. destruct (filter _ ns); [done|]. cbn. by f_equal.
Qed.

Lemma a_del_at l1 hl t a c b l2 : nonempty (l1 ++ (hl, t, a ++ c :: b) :: l2) ->
  NoDup (keys (l1 ++ (hl, t, a ++ c :: b) :: l2)) ->
  a_del (c_key c) (abs (l1 ++ (hl, t, a ++ c :: b) :: l2)) = abs (l1 ++ keep_nonempty (hl, t, a ++ b) ++ l2).
Proof.
  unfold nonempty. rewrite Forall_app, Forall_cons. intros (Hn1 & _ & Hn2) Hnd.
  rewrite cells_app, cells_cons in Hnd. cbn [snd] in Hnd. rewrite !fmap_app, fmap_cons, !NoDup_app, NoDup_cons in Hnd.
  destruct Hnd as (_ & Hd1 & (_ & Hd2 & Hc & _) & Hd3 & _).
  rewrite !abs_app, a_del_app, a_del_absent; [|set_solver|done]. f_equal.
  cbn [abs fmap list_fmap a_del abs_chain snd ch_time fst].
  rewrite fmap_app, fmap_cons, filter_app, filter_cons_False by (cbn; tauto).
  rewrite !filter_absent by set_solver. rewrite <- fmap_app.
  assert (a_del (c_key c) (abs l2) = abs l2) as E by (apply a_del_absent; [set_solver|done]).
  change (abs_chain <$> l2) with (abs l2). rewrite E. unfold keep_nonempty. cbn [snd].
  by destruct (a ++ b) as [|x ab].
Qed.

(** A key that is there, and the place it hangs at. *)
Lemma located (lay : list chain) (c : cell) : c ∈ cells lay -> exists l1 hl t a b l2, lay = l1 ++ (hl, t, a ++ c :: b) :: l2.
Proof.
  intros (ns & Hc & Hns)%list_elem_of_join. apply list_elem_of_fmap in Hns as ([[hl t] ns'] & -> & Hch).
  apply list_elem_of_split in Hch as (l1 & l2 & ->). apply list_elem_of_split in Hc as (a & b & Hab).
  cbn in Hab. subst. by exists l1, hl, t, a, b, l2.
Qed.

Lemma list_find_absent k (ns : list cell) : k ∉ (c_key <$> ns) -> list_find (fun kv => kv.1 = k) (a_cell <$> ns) = None.
Proof.
  intros Hk. apply list_find_None, Forall_fmap, Forall_forall. intros c Hc E. apply Hk.
  cbn in E. rewrite <- E. by apply list_elem_of_fmap_2.
Qed.

Lemma a_find_absent_app k l1 a : k ∉ keys l1 -> a_find k (abs l1 ++ a) = a_find k a.
Proof.
  induction l1 as [|c l1 IH]; intros Hk; [done|]. rewrite cells_cons, fmap_app, not_elem_of_app in Hk.
  cbn [abs fmap list_fmap app a_find abs_chain]. rewrite list_find_absent by tauto. apply IH, Hk.
Qed.

Lemma a_find_absent k lay : k ∉ keys lay -> a_find k (abs lay) = None.
Proof. intros Hk. rewrite <- (app_nil_r (abs lay)). by rewrite a_find_absent_app. Qed.

Lemma keys_at (l1 : list chain) hl t (a : list cell) c b l2 : NoDup (keys (l1 ++ (hl, t, a ++ c :: b) :: l2)) ->
  (c_key c ∉ keys l1) /\ (c_key c ∉ (c_key <$> a)) /\ (c_key c ∉ (c_key <$> b)) /\ (c_key c ∉ keys l2).
Proof.
  rewrite cells_app, cells_cons. cbn [snd]. rewrite !fmap_app, fmap_cons, !NoDup_app, NoDup_cons.
  intros (_ & Hd1 & (_ & Hd2 & Hc & _) & Hd3 & _). set_solver.
Qed.

Lemma a_find_at l1 hl t a c b l2 : NoDup (keys (l1 ++ (hl, t, a ++ c :: b) :: l2)) ->
  a_find (c_key c) (abs (l1 ++ (hl, t, a ++ c :: b) :: l2)) = Some (t, c_val c).
Proof.
  intros (H1 & Ha & _)%keys_at. rewrite abs_app, a_find_absent_app by done.
  cbn [abs fmap list_fmap a_find abs_chain snd ch_time fst]. rewrite fmap_app, fmap_cons.
  rewrite list_find_app_r by (by apply list_find_absent). cbn. by rewrite decide_True.
Qed.

Lemma a_set_absent k f lay : k ∉ keys lay -> a_set k f (abs lay) = abs lay.
Proof.
  intros Hk. unfold a_set, abs. rewrite <- list_fmap_compose. apply list_fmap_ext. intros i c Hc.
  cbn. unfold abs_chain. f_equal. cbn. rewrite <- list_fmap_compose. apply list_fmap_ext. intros j x Hx. cbn.
  rewrite decide_False; [done|]. intros E. apply Hk. rewrite <- E. apply list_elem_of_fmap_2, list_elem_of_join.
  exists c.2. split; [by eapply list_elem_of_lookup_2|]. apply list_elem_of_fmap_2. by eapply list_elem_of_lookup_2.
Qed.

Lemma a_set_at f l1 hl t a c b l2 : NoDup (keys (l1 ++ (hl, t, a ++ c :: b) :: l2)) ->
  a_set (c_key c) f (abs (l1 ++ (hl, t, a ++ c :: b) :: l2))
  = abs (l1 ++ (hl, t, a ++ (c.1, f (c_val c)) :: b) :: l2).
Proof.
  intros (H1 & Ha & Hb & H2)%keys_at.
  assert (forall x y, a_set (c_key c) f (x ++ y) = a_set (c_key c) f x ++ a_set (c_key c) f y) as Happ by
    (intros; apply fmap_app).
  set (F := fun kv : K * V => (kv.1, if decide (kv.1 = c_key c) then f kv.2 else kv.2)).
  assert (forall ns : list cell, c_key c ∉ (c_key <$> ns) -> F <$> (a_cell <$> ns) = a_cell <$> ns) as Hns.
  { intros ns Hn. rewrite <- list_fmap_compose. apply list_fmap_ext. intros j x Hx. unfold F. cbn.
    rewrite decide_False; [done|]. intros E. apply Hn. rewrite <- E. apply list_elem_of_fmap_2. by eapply list_elem_of_lookup_2. }
  rewrite !abs_app, Happ, a_set_absent by done. f_equal.
  transitivity ((t, F <$> (a_cell <$> a ++ c :: b)) :: a_set (c_key c) f (abs l2)); [done|].
  rewrite a_set_absent, !fmap_app, !fmap_cons, !Hns by done.
  assert (F (a_cell c) = a_cell (c.1, f (c_val c))) as -> by (unfold F; cbn; by rewrite decide_True).
  cbn [abs fmap list_fmap abs_chain ch_time fst snd]. by rewrite <- fmap_cons, <- fmap_app.
Qed.

(** ** The operations that read and overwrite *)

Lemma map_ok_lookup m lay k node : map_ok m lay -> entries m !! k = Some node ->
  exists l1 hl t a c b l2, lay = l1 ++ (hl, t, a ++ c :: b) :: l2 /\ c_key c = k /\ c_loc c = node.
Proof.
  intros [_ _ He] Hl. destruct (ent_ok_lookup _ _ _ _ He Hl) as (c & Hc & <- & <-).
  destruct (located _ _ Hc) as (l1 & hl & t & a & b & l2 & ->). by exists l1, hl, t, a, c, b, l2.
Qed.

Lemma map_ok_nodup m lay : map_ok m lay -> NoDup (keys lay).
Proof. intros [_ _ [? _]]. done. Qed.

Lemma get_refines m a k : refines m a -> get m k = Ret (snd <$> a_find k a).
Proof.
  intros (lay & Hok & <-). unfold get. destruct (entries m !! k) as [node|] eqn:E.
  - destruct (map_ok_lookup _ _ _ _ Hok E) as (l1 & hl & t & a & c & b & l2 & -> & <- & <-).
    destruct (set_value_ok [] m l1 hl t a c b l2 [] id (mo_st _ _ Hok)) as (m' & nd & -> & -> & _).
    cbn [mbind run_bind]. by rewrite a_find_at by (by eapply map_ok_nodup).
  - rewrite a_find_absent; [done|]. by eapply ent_ok_lookup_None; [apply Hok|].
Qed.

Lemma nonempty_set l1 hl t a (c c' : cell) b l2 :
  nonempty (l1 ++ (hl, t, a ++ c :: b) :: l2) -> nonempty (l1 ++ (hl, t, a ++ c' :: b) :: l2).
Proof.
  unfold nonempty. rewrite !Forall_app, !Forall_cons. intros (? & _ & ?). split; [done|]. split; [|done].
  cbn. by destruct a.
Qed.

Lemma set_value_refines m lay l1 hl t a c b l2 (f : V -> V) : map_ok m lay ->
  lay = l1 ++ (hl, t, a ++ c :: b) :: l2 ->
  exists m', update_node m (Some (c_loc c)) (fun x => x <| n_value := f (n_value x) |>) = Ret m'
    /\ refines m' (a_set (c_key c) f (abs lay)).
Proof.
  intros Hok ->. destruct (set_value_ok [] m l1 hl t a c b l2 [] f (mo_st _ _ Hok))
    as (m' & nd & _ & _ & -> & Hst & He).
  eexists. split; [done|]. eexists. split; [|symmetry; apply a_set_at; by eapply map_ok_nodup].
  destruct Hok as [_ Hn [Hnd Hent]]. split; [done|by eapply nonempty_set|].
  assert (forall {B} (g : cell -> B), (forall x v, g (x, v) = g (x, c_val c)) ->
    g <$> cells (l1 ++ (hl, t, a ++ (c.1, f (c_val c)) :: b) :: l2)
    = g <$> cells (l1 ++ (hl, t, a ++ c :: b) :: l2)) as Hg.
  { intros B g Hg. rewrite !cells_app, !cells_cons. cbn [snd]. rewrite !fmap_app, !fmap_cons, Hg. by destruct c. }
  rewrite He. split; [by rewrite Hg|]. by rewrite Hg.
Qed.

Lemma get_mut_refines m a k f : refines m a -> exists m', get_mut m k f = Ret m' /\ refines m' (a_set k f a).
Proof.
  intros (lay & Hok & <-). unfold get_mut. destruct (entries m !! k) as [node|] eqn:E.
  - destruct (map_ok_lookup _ _ _ _ Hok E) as (l1 & hl & t & a & c & b & l2 & -> & <- & <-).
    by eapply set_value_refines.
  - exists m. split; [done|]. exists lay. split; [done|]. rewrite a_set_absent; [done|].
    by eapply ent_ok_lookup_None; [apply Hok|].
Qed.

(** ** Inserting, moving, removing *)

Lemma nonempty_remove (l1 : list chain) (c : chain) ns l2 : nonempty (l1 ++ c :: l2) -> nonempty (l1 ++ keep_nonempty (c.1, ns) ++ l2).
Proof.
  unfold nonempty. rewrite !Forall_app, Forall_cons. intros (H1 & _ & H2). split; [done|]. split; [|done].
  unfold keep_nonempty. cbn. destruct ns; [done|]. by apply Forall_singleton.
Qed.

Lemma nonempty_found (lay : list chain) l1 c l2 x : nonempty lay -> found lay l1 c l2 -> nonempty (l1 ++ (c.1, x :: c.2) :: l2).
Proof.
  unfold nonempty. intros Hn [[->|[_ ->]] _]; rewrite Forall_app, ?Forall_cons in *; [|by destruct Hn].
  destruct Hn as (? & _ & ?). by split_and!.
Qed.

Lemma cells_keep (l1 : list chain) (c : chain) l2 : cells (l1 ++ keep_nonempty c ++ l2) = cells (l1 ++ c :: l2).
Proof.
  rewrite !cells_app, cells_cons. unfold keep_nonempty. destruct c as [[hl t] [|x ns]]; cbn [snd]; [done|].
  rewrite cells_cons. cbn [snd]. change (cells []) with (@nil cell). by rewrite app_nil_r.
Qed.

Lemma cells_found (lay : list chain) l1 c l2 x : found lay l1 c l2 -> cells (l1 ++ (c.1, x :: c.2) :: l2) ≡ₚ x :: cells lay.
Proof.
  intros [[->|[Hc ->]] _]; rewrite !cells_app, ?cells_cons; cbn [snd app].
  - by rewrite <- Permutation_middle.
  - rewrite Hc. by rewrite <- Permutation_middle.
Qed.

Lemma cells_at (l1 : list chain) hl t a (c : cell) b l2 :
  cells (l1 ++ (hl, t, a ++ c :: b) :: l2) ≡ₚ c :: cells (l1 ++ (hl, t, a ++ b) :: l2).
Proof.
  rewrite !cells_app, !cells_cons. cbn [snd]. rewrite <- !(assoc_L (++)). cbn [app].
  by rewrite <- (Permutation_middle a), <- Permutation_middle.
Qed.

Lemma read_head_at (m : Map) l1 hl t ns l2 D : st_ok [] m (l1 ++ (hl, t, ns) :: l2) D ->
  read_head m (Some hl) = Ret {| h_time := t; h_next := first_or None ns |}.
Proof.
  intros [Hh _ _]. pose proof (ho_heads _ _ _ _ Hh) as Hf. cbn [app] in Hf. rewrite Forall_app, Forall_cons in Hf.
  destruct Hf as (_ & Hf & _). unfold read_head. cbn [unwrap mbind run_bind]. unfold head_ok in Hf. cbn in Hf. by rewrite Hf.
Qed.

(** An entry taken out of its chain and put into the one of time [t]. *)
Lemma repush_ok m l1 hl t0 a c b l2 t : map_ok m (l1 ++ (hl, t0, a ++ c :: b) :: l2) ->
  exists m' lay0 k1 hl' ns k2,
    (m ← remove_from_time_chain m true (c_loc c);
     '(m, head) ← find_or_create_time_chain m t;
     insert_into_time_chain m head (c_loc c)) = Ret m'
    /\ map_ok m' (k1 ++ (hl', t, c :: ns) :: k2) /\ found lay0 k1 (hl', t, ns) k2
    /\ abs lay0 = a_del (c_key c) (abs (l1 ++ (hl, t0, a ++ c :: b) :: l2)).
Proof.
  intros Hok. pose proof (map_ok_nodup _ _ Hok) as Hnd. destruct Hok as [Hst Hn He].
  destruct (remove_from_ok [] m l1 hl t0 a c b l2 [] Hst) as (m1 & -> & Hst1 & He1). cbn [mbind run_bind].
  destruct (find_or_create_ok [] m1 _ _ t Hst1) as (m2 & hl' & k1 & ns & k2 & -> & Hst2 & Hf & He2). cbn [mbind run_bind].
  destruct (insert_into_ok [] m2 k1 hl' t ns k2 c [] Hst2) as (m3 & -> & Hst3 & He3).
  eexists m3, _, k1, hl', ns, k2. split; [done|]. split; [|split; [exact Hf|symmetry; by apply a_del_at]].
  split; [done| |].
  - eapply (nonempty_found _ _ (hl', t, ns)); [|exact Hf]. by apply (nonempty_remove l1 (hl, t0, a ++ c :: b)).
  - rewrite He3, He2, He1. eapply ent_ok_perm; [|exact He].
    rewrite (cells_found _ _ (hl', t, ns) _ _ Hf), cells_keep. apply cells_at.
Qed.

Lemma insert_refines m a t k v : refines m a ->
  exists m', insert m t k v = Ret (m', (a_insert t k v a).2) /\ refines m' (a_insert t k v a).1.
Proof.
  intros (lay & Hok & <-). unfold insert, a_insert. destruct (entries m !! k) as [node|] eqn:E.
  - destruct (map_ok_lookup _ _ _ _ Hok E) as (l1 & hl & t0 & a & c & b & l2 & -> & <- & <-).
    destruct (set_value_ok [] m l1 hl t0 a c b l2 [] id (mo_st _ _ Hok)) as (_ & nd & -> & -> & _).
    rewrite a_find_at by (by eapply map_ok_nodup). cbn [mbind run_bind n_head].
    rewrite (read_head_at _ _ _ _ _ _ _ (mo_st _ _ Hok)). cbn [mbind run_bind h_time]. destruct (t0 =? t) eqn:Et; cbn [negb].
    + cbn [mbind run_bind fst snd].
      destruct (set_value_ok [] m l1 hl t0 a c b l2 [] id (mo_st _ _ Hok)) as (_ & nd' & -> & -> & _). cbn [mbind run_bind].
      destruct (set_value_refines m _ l1 hl t0 a c b l2 (fun _ => v) Hok eq_refl) as (m' & -> & Hr).
      cbn [mbind run_bind]. by exists m'.
    + destruct (repush_ok m l1 hl t0 a c b l2 t Hok) as (m1 & lay0 & k1 & hl' & ns & k2 & -> & Hok1 & Hf & Hd).
      cbn [mbind run_bind fst snd].
      destruct (set_value_ok [] m1 k1 hl' t [] c ns k2 [] id (mo_st _ _ Hok1)) as (_ & nd' & -> & -> & _). cbn [mbind run_bind].
      destruct (set_value_refines m1 _ k1 hl' t [] c ns k2 (fun _ => v) Hok1 eq_refl) as (m' & -> & Hr).
      cbn [mbind run_bind]. exists m'. split; [done|].
      rewrite <- Hd. rewrite (a_set_at _ k1 hl' t [] c ns k2) in Hr by (by eapply (map_ok_nodup _ _ Hok1)).
      change (a_push t (c_key c, v)) with (a_push (ch_time (hl', t, ns)) (a_cell (c.1, v))).
      rewrite (a_push_found lay0 k1 (hl', t, ns) k2) by done. exact Hr.
  - pose proof (ent_ok_lookup_None _ _ _ (mo_entries _ _ Hok) E) as Hk. rewrite a_find_absent by done. cbn [fst snd].
    destruct Hok as [Hst Hn He].
    destruct (find_or_create_ok [] m lay [] t Hst) as (m1 & hl & k1 & ns & k2 & -> & Hst1 & Hf & He1). cbn [mbind run_bind].
    destruct (heap_new_node m1 k v _ _ (so_heap _ _ _ _ Hst1)) as (l & N' & Enew & Hh2). unfold fresh_node in Enew.
    rewrite Enew. set (m2 := (with_heap m1 N' (heads m1)) <| entries := _ |>).
    assert (st_ok [] m2 (k1 ++ (hl, t, ns) :: k2) [(l, k, v)]) as Hst2 by (destruct Hst1; by split).
    destruct (insert_into_ok [] m2 k1 hl t ns k2 (l, k, v) [] Hst2) as (m3 & E3 & Hst3 & He3).
    cbn [c_loc fst] in E3. rewrite E3. cbn [mbind run_bind]. exists m3. split; [done|].
    exists (k1 ++ (hl, t, (l, k, v) :: ns) :: k2). split; [|symmetry; by apply (a_push_found lay k1 (hl, t, ns) k2 (l, k, v))].
    split; [done|by eapply (nonempty_found _ _ (hl, t, ns))|]. rewrite He3. cbn. rewrite He1.
    eapply ent_ok_perm; [symmetry; by apply (cells_found lay k1 (hl, t, ns))|].
    by apply (ent_ok_insert _ (l, k, v)).
Qed.

Lemma move_to_time_refines m a k t : refines m a ->
  exists m', move_to_time m k t = Ret m' /\ refines m' (a_move k t a).
Proof.
  intros (lay & Hok & <-). unfold move_to_time, a_move. destruct (entries m !! k) as [node|] eqn:E.
  - destruct (map_ok_lookup _ _ _ _ Hok E) as (l1 & hl & t0 & a & c & b & l2 & -> & <- & <-).
    destruct (set_value_ok [] m l1 hl t0 a c b l2 [] id (mo_st _ _ Hok)) as (_ & nd & -> & -> & _).
    rewrite a_find_at by (by eapply map_ok_nodup). cbn [mbind run_bind n_head].
    rewrite (read_head_at _ _ _ _ _ _ _ (mo_st _ _ Hok)). cbn [mbind run_bind h_time].
    destruct (t0 =? t) eqn:Et; [eexists; split; [done|by eexists]|].
    destruct (repush_ok m l1 hl t0 a c b l2 t Hok) as (m1 & lay0 & k1 & hl' & ns & k2 & -> & Hok1 & Hf & Hd).
    eexists. split; [done|]. eexists. split; [exact Hok1|]. rewrite <- Hd.
    symmetry. by apply (a_push_found lay0 k1 (hl', t, ns) k2 c).
  - rewrite a_find_absent by (by eapply ent_ok_lookup_None; [apply Hok|]). eexists. split; [done|]. by eexists.
Qed.

(** An entry taken out of the map and freed. *)
Lemma take_out_ok m l1 hl t a c b l2 : map_ok m (l1 ++ (hl, t, a ++ c :: b) :: l2) ->
  exists m', (m ← remove_from_time_chain (m <| entries := delete (c_key c) (entries m) |>) true (c_loc c);
     '(m, nd) ← free_node m (Some (c_loc c));
     Ret (m, Some (n_value nd))) = Ret (m', Some (c_val c))
    /\ refines m' (a_del (c_key c) (abs (l1 ++ (hl, t, a ++ c :: b) :: l2))).
Proof.
  intros Hok. pose proof (map_ok_nodup _ _ Hok) as Hnd. destruct Hok as [Hst Hn He].
  set (m0 := m <| entries := _ |>). assert (st_ok [] m0 (l1 ++ (hl, t, a ++ c :: b) :: l2) []) as Hst0 by (destruct Hst; by split).
  destruct (remove_from_ok [] m0 l1 hl t a c b l2 [] Hst0) as (m1 & -> & Hst1 & He1). cbn [mbind run_bind].
  destruct (heap_free_node m1 _ _ _ (so_heap _ _ _ _ Hst1)) as (N' & nd & -> & Hv & Hh2). cbn [mbind run_bind].
  eexists. rewrite Hv. split; [done|]. eexists. split; [|symmetry; by apply a_del_at].
  split; [destruct Hst1; by split|by apply (nonempty_remove l1 (hl, t, a ++ c :: b))|].
  cbn [entries with_heap]. rewrite He1. cbn. rewrite cells_keep. apply ent_ok_delete.
  eapply ent_ok_perm; [|exact He]. apply cells_at.
Qed.

Lemma remove_refines m a k : refines m a ->
  exists m', remove m k = Ret (m', (a_remove k a).2) /\ refines m' (a_remove k a).1.
Proof.
  intros (lay & Hok & <-). unfold remove, a_remove. cbn [fst snd]. destruct (entries m !! k) as [node|] eqn:E.
  - destruct (map_ok_lookup _ _ _ _ Hok E) as (l1 & hl & t0 & a & c & b & l2 & -> & <- & <-).
    rewrite a_find_at by (by eapply map_ok_nodup). by apply take_out_ok.
  - pose proof (ent_ok_lookup_None _ _ _ (mo_entries _ _ Hok) E) as Hk. rewrite a_find_absent by done.
    eexists. split; [done|]. exists lay. split; [done|]. by rewrite a_del_absent by (done || apply Hok).
Qed.

Lemma remove_oldest_refines m a : refines m a ->
  exists m', remove_oldest m = Ret (m', (a_remove_oldest a).2) /\ refines m' (a_remove_oldest a).1.
Proof.
  intros (lay & Hok & <-). unfold remove_oldest. rewrite (so_timeline _ _ _ _ (mo_st _ _ Hok)).
  destruct lay as [|[[hl t] ns] lay]; [eexists; split; [done|by exists []]|].
  pose proof (mo_nonempty _ _ Hok) as Hn. apply Forall_cons in Hn as [Hns _]. destruct ns as [|c ns]; [done|].
  cbn [fmap list_fmap ch_loc fst]. rewrite (read_head_at m [] hl t (c :: ns) lay [] (mo_st _ _ Hok)).
  cbn [mbind run_bind h_next first_or].
  destruct (set_value_ok [] m [] hl t [] c ns lay [] id (mo_st _ _ Hok)) as (_ & nd & -> & -> & _).
  cbn [mbind run_bind unwrap n_key]. by apply (take_out_ok m [] hl t []).
Qed.

End spec.
