(* ===== verification/ChronoForward.v ===== *)
(** * Advancing time and draining (crates/public/src/chrono_map.rs)

    [forward_time], [drain] and [drop] of the chronological map against their
    abstract versions; the fuel of the loops, the number of nodes, is enough. *)

From stdpp Require Import gmap sorting.
From S2P Require Import Prelude ChronoMap ChronoHeap ChronoOps ChronoSpec.

Section forward.
Context {K : Type} `{Countable K} {V : Type}.

Abbreviation Map := (ChronoMap K V).
Abbreviation cell := (loc * K * V)%type.
Abbreviation chain := (loc * Z * list (loc * K * V))%type.
Abbreviation amap := (list (Z * list (K * V))).

Lemma heap_size (N : gmap loc (Node K V)) H' cs D : heap_ok N H' cs D -> size N = length (cells cs ++ D).
Proof.
  intros Hok. rewrite <- size_dom, (ho_nodes _ _ _ _ Hok), size_list_to_set by apply Hok. by rewrite length_fmap.
Qed.

Section callback.
Context {St : Type} (callback : St -> V -> St * V * option Z) (time : Z).

(** ** Abstract visits *)

Lemma a_push_app (A B : amap) t kv : Forall (fun c => c.1 < t) A -> a_push t kv (A ++ B) = A ++ a_push t kv B.
Proof.
  induction 1 as [|[t' ns] A Hc _ IH]; [done|]. cbn in *. by rewrite (proj2 (Z.ltb_lt _ _)), IH by done.
Qed.

(** Chains that are due are before every new time. *)
Lemma a_visit_frame xs : forall (A B : amap) s, Forall (fun c => c.1 <= time) A ->
  a_visit callback time s xs (A ++ B) = (A ++ (a_visit callback time s xs B).1, (a_visit callback time s xs B).2).
Proof.
  induction xs as [|[k v] xs IH]; intros A B s HA; [done|]. cbn.
  destruct (callback s v) as [[s' v'] [nt|]]; [|by apply IH]. destruct (time <? nt) eqn:E; [|by apply IH].
  rewrite a_push_app; [by apply IH|]. eapply Forall_impl; [exact HA|]. cbn. intros c Hc. lia.
Qed.

Lemma a_visit_app xs ys : forall (B : amap) s,
  a_visit callback time s (xs ++ ys) B
  = a_visit callback time (a_visit callback time s xs B).2 ys (a_visit callback time s xs B).1.
Proof.
  induction xs as [|[k v] xs IH]; intros B s; [done|]. cbn. destruct (callback s v) as [[s' v'] nt]. apply IH.
Qed.

(** ** One chain *)

Lemma reschedule_ok X m (lay : list chain) c nt ns : st_ok X m lay [c] -> nonempty lay ->
  ent_ok (entries m) (c :: ns ++ cells lay) ->
  exists m' lay', reschedule m time (c_loc c) (c_key c) nt = Ret m'
    /\ st_ok X m' lay' [] /\ nonempty lay' /\ ent_ok (entries m') (ns ++ cells lay')
    /\ abs lay' = match nt with
         | Some nt => if time <? nt then a_push nt (a_cell c) (abs lay) else abs lay
         | None => abs lay
         end.
Proof.
  intros Hst Hne He. unfold reschedule.
  assert (exists m', (e ← unwrap (entries m !! c_key c);
      '(m, _) ← free_node (m <| entries := delete (c_key c) (entries m) |>) (Some e); Ret m) = Ret m'
    /\ st_ok X m' lay [] /\ ent_ok (entries m') (ns ++ cells lay)) as (md & -> & Hstd & Hed).
  { rewrite (ent_ok_lookup_2 _ _ c He) by left. cbn [unwrap mbind run_bind]. destruct Hst as [Hh Htl Hs].
    set (m2 := m <| entries := _ |>). destruct (heap_free_node m2 _ c [] Hh) as (N3 & nd & -> & _ & Hh3).
    eexists. split; [done|]. split; [by split|]. by apply ent_ok_delete. }
  destruct nt as [nt|]; [destruct (time <? nt)|]; [|by exists md, lay..].
  destruct (find_or_create_ok _ m lay [c] nt Hst) as (m3 & hl' & k1 & ks & k2 & -> & Hst3 & Hf & He3). cbn [mbind run_bind].
  destruct (insert_into_ok _ m3 k1 hl' nt ks k2 c [] Hst3) as (m4 & -> & Hst4 & He4).
  eexists m4, _. split; [done|]. split; [exact Hst4|]. split; [by eapply (nonempty_found _ _ (hl', nt, ks))|].
  split; [|symmetry; by apply (a_push_found lay k1 (hl', nt, ks) k2 c)].
  rewrite He4, He3. eapply ent_ok_perm; [|exact He].
  rewrite (cells_found lay k1 (hl', nt, ks) k2 c Hf). by rewrite Permutation_middle.
Qed.

Lemma forward_chain_ok n : forall m hl t0 ns (lay : list chain) s, (length ns <= n)%nat ->
  st_ok [(hl, t0, ns)] m lay [] -> nonempty lay -> ent_ok (entries m) (ns ++ cells lay) ->
  exists m' lay', forward_chain callback n m time s (first_or None ns)
      = Ret (m', (a_visit callback time s (a_cell <$> ns) (abs lay)).2)
    /\ st_ok [(hl, t0, [])] m' lay' [] /\ nonempty lay' /\ ent_ok (entries m') (cells lay')
    /\ abs lay' = (a_visit callback time s (a_cell <$> ns) (abs lay)).1.
Proof.
  induction n as [|n IH]; intros m hl t0 ns lay s Hn Hst Hne He; (destruct ns as [|c ns]; [by exists m, lay|]); cbn in Hn; [lia|].
  cbn [first_or forward_chain]. destruct Hst as [Hh Htl Hs]. cbn [app] in Hh.
  destruct (heap_set_value m hl t0 [] c ns lay [] (fun _ => (callback s (c_val c)).1.2) Hh)
    as (N1 & nd & -> & -> & Eu & Hh1). cbn [mbind run_bind n_value n_next n_key fmap list_fmap a_visit a_cell].
  destruct (callback s (c_val c)) as [[s' v'] nt] eqn:Ecb. cbn [fst snd] in Eu, Hh1. rewrite Eu. cbn [mbind run_bind].
  set (c1 := (c.1, v')) in *. change (c_loc c) with (c_loc c1). change (c_key c) with (c_key c1).
  destruct (heap_unlink (with_heap m N1 (heads m)) hl t0 [] c1 ns lay [] Hh1) as (N2 & H2 & El & _ & Hh2).
  unfold remove_from_time_chain. rewrite El. cbn [mbind run_bind].
  destruct (reschedule_ok [(hl, t0, ns)] (with_heap (with_heap m N1 (heads m)) N2 H2) lay c1 nt ns)
    as (m3 & lay3 & -> & Hst3 & Hne3 & He3 & Habs3); [done|done|done|]. cbn [mbind run_bind].
  destruct (IH m3 hl t0 ns lay3 s' ltac:(lia) Hst3 Hne3 He3) as (m' & lay' & E' & ? & ? & ? & ?).
  change (c_key c1, v') with (a_cell c1). rewrite <- Habs3. exists m', lay'. by split_and!.
Qed.

(** ** All chains that are due *)

Lemma forward_heads_ok count : forall m (lay : list chain) (A B : amap) s, map_ok m lay -> abs lay = A ++ B ->
  length A = count -> Forall (fun c => c.1 <= time) A ->
  exists m' lay', forward_heads callback count m time s
      = Ret (m', (a_visit callback time s (mjoin (snd <$> A)) B).2)
    /\ map_ok m' lay' /\ abs lay' = (a_visit callback time s (mjoin (snd <$> A)) B).1.
Proof.
  induction count as [|count IH]; intros m lay A B s Hok Habs Hlen HA.
  { destruct A; [|done]. by exists m, lay. }
  destruct A as [|a A]; [done|]. destruct lay as [|[[hl t] ns] lay]; [done|]. cbn in Habs. injection Habs as <- Habs.
  apply Forall_cons in HA as [Ha HA]. injection Hlen as Hlen.
  cbn [forward_heads]. destruct Hok as [Hst Hne He]. apply Forall_cons in Hne as [_ Hne].
  rewrite (so_timeline _ _ _ _ Hst). cbn [fmap list_fmap ch_loc fst].
  set (m1 := m <| timeline := _ |>).
  assert (st_ok [(hl, t, ns)] m1 lay []) as Hst1.
  { destruct Hst as [Hh _ Hs]. split; [done|done|]. cbn in Hs. by apply StronglySorted_inv in Hs as [Hs _]. }
  assert (read_head m1 (Some hl) = Ret {| h_time := t; h_next := first_or None ns |}) as -> by
    exact (read_head_at m [] hl t ns lay [] Hst).
  cbn [mbind run_bind h_next].
  destruct (forward_chain_ok (size (nodes m1)) m1 hl t ns lay s) as (m2 & lay2 & -> & Hst2 & Hne2 & He2 & Habs2).
  { rewrite (heap_size _ _ _ _ (so_heap _ _ _ _ Hst1)). cbn [app]. rewrite cells_cons. cbn [snd]. rewrite !length_app. lia. }
  { done. } { done. } { exact He. }
  cbn [mbind run_bind].
  destruct Hst2 as [Hh2 Htl2 Hs2]. destruct (heap_free_head m2 hl t lay2 [] Hh2) as (H3 & -> & Hh3). cbn [mbind run_bind].
  set (v := a_visit callback time s (a_cell <$> ns) (abs lay)) in *.
  unfold v in Habs2. change (abs lay = A ++ B) in Habs. rewrite Habs, a_visit_frame in Habs2 by done. cbn [fst] in Habs2.
  destruct (IH (with_heap m2 (nodes m2) H3) lay2 A (a_visit callback time s (a_cell <$> ns) B).1 v.2)
    as (m' & lay' & E' & Hok' & Habs'); [by split|done|done|done|].
  exists m', lay'. unfold v in *. rewrite Habs, a_visit_frame in E', Habs' |- * by done. cbn [snd] in E', Habs'.
  cbn [fmap list_fmap mjoin list_join snd]. rewrite a_visit_app. by split_and!.
Qed.

Lemma abs_times (lay : list chain) (P : Z -> Prop) : Forall (fun c => P (ch_time c)) lay -> Forall (fun c => P c.1) (abs lay).
Proof. intros HF. by apply Forall_fmap. Qed.

Lemma a_forward_split (A B : amap) s : Forall (fun c => c.1 <= time) A -> Forall (fun c => time < c.1) B ->
  a_forward callback time s (A ++ B) = a_visit callback time s (mjoin (snd <$> A)) B.
Proof.
  intros HA HB. unfold a_forward. rewrite !filter_app.
  rewrite (filter_all _ A), (filter_none _ B), (filter_none _ A), (filter_all _ B), app_nil_r; try done.
  - eapply Forall_impl; [exact HA|]. cbn. lia.
  - eapply Forall_impl; [exact HB|]. cbn. lia.
Qed.

Lemma forward_time_refines (m : Map) a s : refines m a ->
  exists m', forward_time callback m time s = Ret (m', (a_forward callback time s a).2)
    /\ refines m' (a_forward callback time s a).1.
Proof.
  intros (lay & Hok & <-). unfold forward_time. rewrite (so_timeline _ _ _ _ (mo_st _ _ Hok)).
  destruct lay as [|[[hl t] ns] lay]; [exists m; split; [done|by exists []]|].
  cbn [fmap list_fmap ch_loc fst]. rewrite (read_head_at m [] hl t ns lay [] (mo_st _ _ Hok)). cbn [mbind run_bind h_time].
  pose proof (so_sorted _ _ _ _ (mo_st _ _ Hok)) as Hs. cbn in Hs. apply StronglySorted_inv in Hs as [_ Hx]. cbn in Hx.
  set (full := (hl, t, ns) :: lay) in *. destruct (time <? t) eqn:Et.
  { exists m. rewrite (a_forward_split [] (abs full)); [|done|]; [split; [done|by exists full]|].
    apply Forall_cons. split; [cbn; lia|]. apply (abs_times lay (fun t' => time < t')). rewrite Forall_fmap in Hx.
    eapply Forall_impl; [exact Hx|]. cbn. intros c Hc. lia. }
  destruct (proj1 (wp_exists _ _) (binary_search_ok _ m full [] time (mo_st _ _ Hok))) as (r & -> & l1 & l2 & H1 & H2 & Hr).
  cbn [mbind run_bind].
  assert (exists due, full = due ++ l2 /\ Forall (fun c => ch_time c <= time) due
    /\ (match r with Ok index => index | Err index => index - 1 end + 1)%nat = length due) as (due & Hf & Hd & ->).
  { assert (Forall (fun c => ch_time c <= time) l1) as H1' by (eapply Forall_impl; [exact H1|]; cbn; intros; lia).
    destruct r as [i|i].
    - destruct Hr as (c & Hc & -> & ->). exists (l1 ++ [c]). rewrite <- (assoc_L (++)). split; [done|].
      split; [apply Forall_app; split; [done|]; apply Forall_singleton; lia|]. by rewrite length_app.
    - destruct Hr as [Hf ->]. exists l1. split; [done|]. split; [done|]. destruct l1; [|cbn; lia].
      cbn in Hf. unfold full in Hf. rewrite <- Hf in H2. apply Forall_cons in H2 as [Hc _]. cbn in Hc. lia. }
  destruct (forward_heads_ok (length due) m full (abs due) (abs l2) s Hok) as (m' & lay' & E' & Hok' & Habs').
  { rewrite Hf. apply abs_app. } { apply length_fmap. } { by apply (abs_times due (fun t => t <= time)). }
  assert (abs full = abs due ++ abs l2) as -> by (rewrite Hf; apply abs_app).
  rewrite (a_forward_split (abs due) (abs l2)); [|by apply (abs_times due (fun t => t <= time))|by apply (abs_times l2 (fun t => time < t))].
  exists m'. split; [exact E'|]. by exists lay'.
Qed.

End callback.
(** ** Draining *)

(** The nodes of [ns] hang together by their next pointers. *)
Fixpoint linked (N : gmap loc (Node K V)) (ns : list cell) : Prop :=
  match ns with
  | [] => True
  | c :: ns => (exists nd, N !! c_loc c = Some nd /\ n_key nd = c_key c /\ n_value nd = c_val c
                /\ n_next nd = first_or None ns) /\ linked N ns
  end.

Lemma linked_app N a b : linked N (a ++ b) -> linked N b.
Proof. induction a as [|c a IH]; [done|]. intros [_ Hl]. by apply IH. Qed.

Lemma linked_frame N N' ns : (forall l, l ∈ (c_loc <$> ns) -> N' !! l = N !! l) -> linked N ns -> linked N' ns.
Proof.
  induction ns as [|c ns IH]; intros Hf; [done|]. intros [(nd & Hn & ?) Hl]. split.
  - exists nd. by rewrite Hf by left.
  - apply IH; [|done]. intros l Hl'. apply Hf. by right.
Qed.

Lemma seg_linked N hl p ns : seg N hl p ns None -> linked N ns.
Proof.
  revert p. induction ns as [|c ns IH]; intros p; [done|]. intros [Hc Hs]. split; [by eexists|by eapply IH].
Qed.

(** Two linked lists become one by writing the last next pointer. *)
Lemma linked_join N L c ns nd : NoDup (c_loc <$> (L ++ [c]) ++ ns) -> linked N (L ++ [c]) -> linked N ns ->
  N !! c_loc c = Some nd -> linked (<[c_loc c := nd <| n_next := first_or None ns |>]> N) ((L ++ [c]) ++ ns).
Proof.
  intros Hnd HL Hns Hc. rewrite <- (assoc_L (++)) in *. cbn [app] in *.
  assert (c_loc c ∉ (c_loc <$> ns)) as Hcn by (by apply nodup_mid in Hnd as (_ & ? & _)).
  assert (c_loc c ∉ (c_loc <$> L)) as HcL by (by apply nodup_mid in Hnd as (? & _)).
  clear Hnd. induction L as [|x L IH]; cbn [app] in *.
  - destruct HL as [(nd' & Hc' & Hk & Hv & _) _]. rewrite Hc in Hc'. injection Hc' as <-. split.
    + rewrite lookup_insert_eq. eexists. by split_and!.
    + eapply linked_frame; [|exact Hns]. intros l Hl. apply lookup_insert_ne. by intros <-.
  - destruct HL as [(nd' & Hx & Hk & Hv & Hn) HL]. rewrite fmap_cons, not_elem_of_cons in HcL. destruct HcL as [Hne HcL].
    split; [|by apply IH]. exists nd'. rewrite lookup_insert_ne by done. split_and!; [done..|].
    rewrite Hn. by destruct L.
Qed.

Lemma last_of_ok (m : Map) ns : forall n c, (length ns <= n)%nat -> linked (nodes m) (c :: ns) ->
  last_of n m (Some (c_loc c)) = Ret (last_or None (c :: ns)).
Proof.
  induction ns as [|d ns IH]; intros n c Hn [(nd & Hc & _ & _ & Hnx) Hl].
  - destruct n; cbn; rewrite Hc; cbn; by rewrite Hnx.
  - destruct n as [|n]; cbn in Hn; [lia|]. cbn [last_of]. unfold read_node. cbn [unwrap mbind run_bind]. rewrite Hc.
    cbn [unwrap mbind run_bind]. rewrite Hnx. cbn [first_or]. rewrite IH by (done || lia).
    by rewrite !last_or_cons.
Qed.

(** A head freed with its chain: the cells become loose. *)
Lemma heap_free_chain (m : Map) hl t ns cs D : heap_ok (nodes m) (heads m) ((hl, t, ns) :: cs) D ->
  exists H', free_head m (Some hl) = Ret (with_heap m (nodes m) H', {| h_time := t; h_next := first_or None ns |})
    /\ heap_ok (nodes m) H' cs (D ++ ns) /\ linked (nodes m) ns.
Proof.
  intros [h1 h2 h3 h4 h5 h6 h7]. apply Forall_cons in h1 as [Hh h1]. apply Forall_cons in h2 as [Hs h2].
  apply NoDup_cons in h7 as [Hhl h7]. cbn [ch_loc fst snd] in *. unfold head_ok in Hh. cbn in Hh.
  unfold free_head. cbn [unwrap mbind run_bind]. rewrite Hh. cbn [unwrap mbind run_bind].
  eexists. split; [done|]. split; [|by eapply seg_linked].
  assert (cells ((hl, t, ns) :: cs) ++ D ≡ₚ cells cs ++ D ++ ns) as HP.
  { rewrite cells_cons. cbn [snd]. by rewrite <- !(assoc_L (++)), Permutation_app_comm, <- (assoc_L (++)). }
  split; [|done| | | | |done].
  - apply Forall_forall. intros c Hc. unfold head_ok. rewrite lookup_delete_ne; [by apply (proj1 (Forall_forall _ _) h1)|].
    intros ->. apply Hhl. by apply list_elem_of_fmap_2.
  - apply Forall_app. split; [done|]. apply Forall_forall. intros c (a & b & ->)%list_elem_of_split.
    unfold loose_ok. rewrite (seg_lookup _ _ _ _ _ _ _ Hs). by eexists.
  - rewrite h4. apply list_to_set_perm_L. by rewrite HP.
  - rewrite dom_delete_L, h5. cbn [fmap list_fmap list_to_set ch_loc fst].
    assert (hl ∉@{gset loc} list_to_set (ch_loc <$> cs)) by (by rewrite elem_of_list_to_set). set_solver.
  - by rewrite <- HP.
Qed.

(** The node heap with the last next pointer of the loose list rewritten. *)
Lemma heap_set_loose (m : Map) cs L c D f : heap_ok (nodes m) (heads m) cs ((L ++ [c]) ++ D) ->
  (forall nd, n_key (f nd) = n_key nd /\ n_value (f nd) = n_value nd) ->
  exists nd, nodes m !! c_loc c = Some nd
    /\ update_node m (Some (c_loc c)) f = Ret (with_heap m (<[c_loc c := f nd]> (nodes m)) (heads m))
    /\ heap_ok (<[c_loc c := f nd]> (nodes m)) (heads m) cs ((L ++ [c]) ++ D).
Proof.
  intros Hok Hf. assert (cells cs ++ (L ++ [c]) ++ D ≡ₚ c :: cells cs ++ L ++ D) as HP.
  { rewrite <- (assoc_L (++)). cbn [app]. by rewrite <- !Permutation_middle. }
  assert (heap_ok (nodes m) (heads m) cs (c :: L ++ D)) as Hok'.
  { eapply heap_ok_perm; [done| |exact Hok]. rewrite <- (assoc_L (++)). cbn [app]. by rewrite <- Permutation_middle. }
  destruct Hok' as [h1 h2 h3 h4 h5 h6 h7]. apply Forall_cons in h3 as [(nd & Hc & Hk & Hv) h3].
  exists nd. split; [done|]. split; [by apply update_node_ret|].
  apply (heap_ok_perm _ _ cs cs (c :: L ++ D)); [done|rewrite <- (assoc_L (++)); cbn [app]; by rewrite <- Permutation_middle|].
  assert (c_loc c ∉ (c_loc <$> cells cs ++ L ++ D)) as Hn.
  { rewrite <- Permutation_middle, fmap_cons, NoDup_cons in h6. apply h6. }
  destruct (chains_frame (nodes m) (<[c_loc c := f nd]> (nodes m)) cs (L ++ D)) as [h2' h3']; [|done|done|].
  { intros l Hl. apply lookup_insert_ne. by intros <-. }
  split; [done|done| | |done|done|done].
  - apply Forall_cons. split; [|done]. exists (f nd). rewrite lookup_insert_eq. destruct (Hf nd) as [-> ->]. done.
  - by rewrite dom_insert_lookup_L by (by eexists).
Qed.

(** One drained chain appended to the list [L] of the chains before it. *)
Lemma append_chain (m : Map) cs L ns : heap_ok (nodes m) (heads m) cs (L ++ ns) ->
  linked (nodes m) L -> linked (nodes m) ns -> ns <> [] ->
  exists N' tail, (match first_or None L with
    | None => Ret (m, first_or None ns, first_or None ns)
    | Some _ => m ← update_node m (last_or None L) (fun x => x <| n_next := first_or None ns |>);
                Ret (m, first_or None L, last_or None L)
    end) = Ret (with_heap m N' (heads m), first_or None (L ++ ns), tail)
    /\ heap_ok N' (heads m) cs (L ++ ns) /\ linked N' (L ++ ns)
    /\ last_of (size N') (with_heap m N' (heads m)) tail = Ret (last_or None (L ++ ns)).
Proof.
  intros Hok HL Hns Hne. destruct ns as [|d ns]; [done|]. destruct L as [|c L _] using rev_ind.
  - exists (nodes m), (Some (c_loc d)). cbn [first_or app]. split; [by destruct m|]. split; [done|]. split; [done|].
    apply last_of_ok; [|done]. rewrite (heap_size _ _ _ _ Hok). rewrite length_app. cbn. lia.
  - destruct (heap_set_loose m cs L c (d :: ns) (fun x => x <| n_next := first_or None (d :: ns) |>) Hok)
      as (nd & Hc & Hu & Hok'); [done|]. rewrite last_or_snoc, Hu.
    assert (linked (<[c_loc c := nd <| n_next := first_or None (d :: ns) |>]> (nodes m)) ((L ++ [c]) ++ d :: ns)) as Hl.
    { apply linked_join; [|done..]. pose proof (ho_nodup _ _ _ _ Hok) as Hnd. rewrite fmap_app in Hnd. by apply NoDup_app in Hnd as (_ & _ & ?). }
    eexists _, (Some (c_loc c)). split; [by destruct L|]. split; [done|]. split; [done|].
    rewrite <- (assoc_L (++)) in Hl. apply linked_app in Hl. cbn [app] in Hl.
    rewrite (last_of_ok _ (d :: ns)); [by unfold last_or; rewrite last_app_cons| |done].
    rewrite (heap_size _ _ _ _ Hok'), !length_app. cbn. lia.
Qed.

Lemma link_chains_ok ds : forall (m : Map) lay L, heap_ok (nodes m) (heads m) (ds ++ lay) L ->
  linked (nodes m) L -> nonempty ds ->
  exists N' H', link_chains m (ch_loc <$> ds) (first_or None L) (last_or None L)
      = Ret (with_heap m N' H', first_or None (L ++ cells ds))
    /\ heap_ok N' H' lay (L ++ cells ds) /\ linked N' (L ++ cells ds).
Proof.
  induction ds as [|[[hl t] ns] ds IH]; intros m lay L Hok HL Hne.
  - exists (nodes m), (heads m). cbn. rewrite app_nil_r. split; [by destruct m|done].
  - apply Forall_cons in Hne as [Hns Hne]. cbn [snd] in Hns. cbn [fmap list_fmap ch_loc fst link_chains].
    destruct (heap_free_chain m hl t ns (ds ++ lay) L Hok) as (H1 & -> & Hok1 & Hl1).
    cbn [mbind run_bind h_next].
    destruct (append_chain (with_heap m (nodes m) H1) (ds ++ lay) L ns Hok1 HL Hl1 Hns) as (N2 & tail & -> & Hok2 & Hl2 & Ht).
    cbn [mbind run_bind]. cbn [nodes update with_heap heads] in *. rewrite Ht. cbn [mbind run_bind].
    destruct (IH (with_heap (with_heap m (nodes m) H1) N2 H1) lay (L ++ ns) Hok2 Hl2 Hne) as (N3 & H3 & -> & Hok3 & Hl3).
    exists N3, H3. rewrite cells_cons. cbn [snd]. rewrite (assoc_L (++)). by split_and!.
Qed.

Lemma split_heads_ok (m : Map) range (lay : list chain) : Forall (head_ok (heads m)) lay ->
  split_heads m range (ch_loc <$> lay)
  = Ret (ch_loc <$> filter (fun c : chain => range (ch_time c) = true) lay,
         ch_loc <$> filter (fun c : chain => range (ch_time c) = false) lay).
Proof.
  induction 1 as [|c lay Hc Hlay IH]; [done|]. cbn [fmap list_fmap split_heads].
  unfold read_head. cbn [unwrap mbind run_bind]. rewrite Hc. cbn [unwrap mbind run_bind h_time]. rewrite IH.
  cbn [mbind run_bind]. rewrite !filter_cons. destruct (range (ch_time c)); by repeat case_decide.
Qed.

(** The map while a [Drain] is alive: the nodes of [L] are still to come. *)
Record draining (m : Map) (lay : list chain) (L : list cell) : Prop := {
  dr_st : st_ok [] m lay L;
  dr_linked : linked (nodes m) L;
  dr_nonempty : nonempty lay;
  dr_entries : ent_ok (entries m) (L ++ cells lay);
}.

Lemma draining_done m lay : draining m lay [] -> refines m (abs lay).
Proof. intros [h1 _ h3 h4]. exists lay. by split. Qed.

Lemma partition_perm {A} (f : A -> bool) l : l ≡ₚ filter (fun x => f x = true) l ++ filter (fun x => f x = false) l.
Proof.
  induction l as [|x l IH]; [done|]. rewrite !filter_cons. destruct (f x); repeat case_decide; try done.
  - cbn [app]. by rewrite <- IH.
  - by rewrite <- Permutation_middle, <- IH.
Qed.

Lemma Forall_filter {A} (P Q : A -> Prop) `{!forall x, Decision (Q x)} l : Forall P l -> Forall P (filter Q l).
Proof. rewrite !Forall_forall. intros Hl x [_ Hx]%list_elem_of_filter. by apply Hl. Qed.

Lemma sorted_filter_times (f : chain -> bool) (lay : list chain) : StronglySorted Z.lt (ch_time <$> lay) ->
  StronglySorted Z.lt (ch_time <$> filter (fun c => f c = false) lay).
Proof.
  induction lay as [|c lay IH]; [done|]. intros [Hs Hf]%StronglySorted_inv. rewrite filter_cons.
  case_decide; [|by apply IH]. apply SSorted_cons; [by apply IH|]. apply Forall_fmap, Forall_filter.
  by apply (Forall_fmap ch_time (Z.lt (ch_time c)) lay).
Qed.

Lemma drain_ok (m : Map) lay range : map_ok m lay -> let drained := filter (fun c : chain => range (ch_time c) = true) lay in
  exists m', drain m range = Ret (m', first_or None (cells drained))
    /\ draining m' (filter (fun c : chain => range (ch_time c) = false) lay) (cells drained).
Proof.
  intros [[h1 h2 h3] Hne He] drained. cbn [app] in h1. pose proof (partition_perm (fun c : chain => range (ch_time c)) lay) as HP.
  unfold drain. rewrite h2, split_heads_ok by apply h1. cbn [mbind run_bind].
  set (kept := filter (fun c : chain => range (ch_time c) = false) lay) in *. fold drained in HP |- *.
  destruct (link_chains_ok drained (m <| timeline := ch_loc <$> kept |>) kept []) as (N' & H' & Hl & Hok & Hlk);
    [by apply (heap_ok_perm _ _ lay _ [])|done|by apply Forall_filter|].
  eexists. split; [exact Hl|]. split; [split|..]; cbn [nodes heads timeline entries update with_heap app]; try done.
  - by apply (sorted_filter_times (fun c => range (ch_time c))).
  - by apply Forall_filter.
  - eapply ent_ok_perm; [|exact He]. by rewrite HP, cells_app.
Qed.

Lemma drain_free m lay c L : draining m lay (c :: L) ->
  exists nd N' nd', nodes m !! c_loc c = Some nd /\ n_key nd = c_key c /\ n_next nd = first_or None L
    /\ let m1 := m <| entries := delete (c_key c) (entries m) |> in
       free_node m1 (Some (c_loc c)) = Ret (with_heap m1 N' (heads m), nd') /\ n_value nd' = c_val c
       /\ draining (with_heap m1 N' (heads m)) lay L.
Proof.
  intros [[h1 h2 h3] [(nd & Hc & Hk & _ & Hn) Hl] Hne He]. exists nd. cbn [app] in h1.
  set (m1 := m <| entries := delete (c_key c) (entries m) |>).
  destruct (heap_free_node m1 lay c L h1) as (N' & nd' & Hf & Hv & Hok).
  exists N', nd'. do 3 (split; [done|]). split; [exact Hf|]. split; [done|].
  split; [by split| |done|by apply ent_ok_delete].
  cbn [nodes update with_heap]. unfold free_node in Hf. cbn in Hf.
  rewrite Hc in Hf. injection Hf as <- <-. eapply linked_frame; [|exact Hl]. intros l Hin. apply lookup_delete_ne.
  intros <-. pose proof (ho_nodup _ _ _ _ h1) as Hnd. rewrite fmap_app in Hnd. apply NoDup_app in Hnd as (_ & _ & Hnd).
  by apply NoDup_cons in Hnd as [? _].
Qed.

Lemma drain_next_ok m lay c L : draining m lay (c :: L) ->
  exists m', drain_next m (Some (c_loc c)) = Ret (m', first_or None L, Some (c_val c)) /\ draining m' lay L.
Proof.
  intros (nd & N' & nd' & Hc & Hk & Hn & Hf & Hv & Hd)%drain_free. eexists. split; [|exact Hd].
  unfold drain_next, read_node. cbn [unwrap mbind run_bind]. rewrite Hc. cbn [unwrap mbind run_bind].
  rewrite Hk, Hf, Hn. cbn [mbind run_bind]. by rewrite Hv.
Qed.

Lemma drain_drop_ok L : forall n m lay, (length L <= n)%nat -> draining m lay L ->
  exists m', drain_drop n m (first_or None L) = Ret m' /\ draining m' lay [].
Proof.
  induction L as [|c L IH]; intros n m lay Hn Hd; [exists m; by destruct n|].
  destruct n as [|n]; cbn in Hn; [lia|]. apply drain_free in Hd as (nd & N' & nd' & Hc & Hk & Hnx & Hf & Hv & Hd).
  destruct (IH n _ lay ltac:(lia) Hd) as (m' & Hm & Hd'). exists m'. split; [|done].
  cbn [drain_drop first_or]. unfold read_node. cbn [unwrap mbind run_bind]. rewrite Hc. cbn [unwrap mbind run_bind].
  rewrite Hk, Hf, Hnx. done.
Qed.

(** ** Dropping the map *)

Lemma free_heads_ok ls : forall (m : Map), NoDup ls -> list_to_set ls ⊆ dom (heads m) ->
  exists m', free_heads m ls = Ret m' /\ dom (heads m') = dom (heads m) ∖ list_to_set ls
    /\ nodes m' = nodes m /\ entries m' = entries m /\ timeline m' = timeline m.
Proof.
  induction ls as [|l ls IH]; intros m Hnd Hs.
  - exists m. split; [done|]. split; [set_solver|done].
  - apply NoDup_cons in Hnd as [Hl Hnd]. cbn [free_heads]. unfold free_head. cbn [unwrap mbind run_bind].
    assert (l ∈ dom (heads m)) as [h Hh]%elem_of_dom by set_solver. rewrite Hh. cbn [unwrap mbind run_bind].
    destruct (IH (m <| heads := delete l (heads m) |>)) as (m' & -> & Hd & Hr); [done| |].
    { cbn. rewrite dom_delete_L. apply elem_of_subseteq. intros x Hx. apply elem_of_difference. split; [set_solver|].
      rewrite elem_of_list_to_set in Hx. intros ->%elem_of_singleton. done. }
    exists m'. split; [done|]. cbn in Hd, Hr. rewrite Hd, dom_delete_L. split; [set_solver|done].
Qed.

Lemma free_nodes_ok ls : forall (m : Map), NoDup ls -> list_to_set ls ⊆ dom (nodes m) ->
  exists m', free_nodes m ls = Ret m' /\ dom (nodes m') = dom (nodes m) ∖ list_to_set ls /\ heads m' = heads m.
Proof.
  induction ls as [|l ls IH]; intros m Hnd Hs.
  - exists m. split; [done|]. split; [set_solver|done].
  - apply NoDup_cons in Hnd as [Hl Hnd]. cbn [free_nodes]. unfold free_node. cbn [unwrap mbind run_bind].
    assert (l ∈ dom (nodes m)) as [nd Hh]%elem_of_dom by set_solver. rewrite Hh. cbn [unwrap mbind run_bind].
    destruct (IH (m <| nodes := delete l (nodes m) |>)) as (m' & -> & Hd & Hr); [done| |].
    { cbn. rewrite dom_delete_L. apply elem_of_subseteq. intros x Hx. apply elem_of_difference. split; [set_solver|].
      rewrite elem_of_list_to_set in Hx. intros ->%elem_of_singleton. done. }
    exists m'. split; [done|]. cbn in Hd, Hr. rewrite Hd, dom_delete_L. split; [set_solver|done].
Qed.

Lemma ent_ok_locs E (cs : list cell) : ent_ok E cs -> (map_to_list E).*2 ≡ₚ c_loc <$> cs.
Proof.
  intros [Hn ->]. rewrite map_to_list_to_map by (by rewrite keys_fmap). by rewrite <- list_fmap_compose.
Qed.

(** Dropping a map frees every node and every head, each once. *)
Lemma drop_map_ok (m : Map) a : refines m a -> exists m', drop_map m = Ret m' /\ nodes m' = ∅ /\ heads m' = ∅.
Proof.
  intros (lay & [[h1 h2 _] _ He] & _). cbn [app] in h1. unfold drop_map.
  destruct (free_heads_ok (timeline m) (m <| timeline := [] |>)) as (m1 & -> & Hd1 & Hn1 & He1 & _).
  { rewrite h2. apply h1. }
  { cbn. by rewrite h2, (ho_heads_dom _ _ _ _ h1). }
  cbn [mbind run_bind]. cbn in Hd1, Hn1, He1. rewrite He1. pose proof (ent_ok_locs _ _ He) as HP.
  pose proof (ho_nodes _ _ _ _ h1) as Hdn. pose proof (ho_nodup _ _ _ _ h1) as Hnd. rewrite app_nil_r in Hdn, Hnd.
  destruct (free_nodes_ok (map_to_list (entries m)).*2 (m1 <| entries := ∅ |>)) as (m2 & -> & Hd2 & Hh2).
  { by rewrite HP. }
  { cbn. rewrite Hn1, Hdn. apply reflexive_eq, list_to_set_perm_L, HP. }
  exists m2. split; [done|]. cbn in Hd2, Hh2. split; apply dom_empty_iff_L.
  - rewrite Hd2, Hn1, Hdn, (list_to_set_perm_L _ _ HP). set_solver.
  - rewrite Hh2, Hd1, h2, (ho_heads_dom _ _ _ _ h1). set_solver.
Qed.

End forward.
