(* ===== verification/ChronoTraces.v ===== *)
(** * Every use of the chronological map (crates/public/src/chrono_map.rs)

    The operations of the map as data, run from an empty map on the pointer
    structure and on the abstract list of time chains.  The two agree on every
    sequence of operations, and dropping the map at any point frees all it
    allocated. *)

From stdpp Require Import gmap sorting.
From S2P Require Import Prelude ChronoMap ChronoHeap ChronoOps ChronoSpec ChronoForward.

Section traces.
Context {K : Type} `{Countable K} {V : Type}.

Abbreviation Map := (ChronoMap K V).
Abbreviation amap := (list (Z * list (K * V))).

(** One call; [ODrain range n] drains a range, takes [n] values from the
    iterator and drops it. *)
Inductive op :=
  | OLen
  | OGet (k : K)
  | OGetMut (k : K) (f : V -> V)
  | OInsert (t : Z) (k : K) (v : V)
  | ORemove (k : K)
  | ORemoveOldest
  | OMoveToTime (k : K) (t : Z)
  | OForwardTime (t : Z) (callback : V -> V * option Z)
  | ODrain (range : Z -> bool) (n : nat).

Inductive out :=
  | RUnit
  | RLen (n : nat)
  | RValue (v : option V)
  | RValues (vs : list V).

(** The values a [forward_time] callback is called on, in order. *)
Definition record_calls (callback : V -> V * option Z) (s : list V) (v : V) : list V * V * option Z :=
  (s ++ [v], (callback v).1, (callback v).2).

Fixpoint drain_some (n : nat) (m : Map) (chain : option loc) : run (Map * option loc * list V) :=
  match n with
  | O => Ret (m, chain, [])
  | S n =>
      '(m, chain, v) ← drain_next m chain;
      match v with
      | None => Ret (m, chain, [])
      | Some v => '(m, chain, vs) ← drain_some n m chain; Ret (m, chain, v :: vs)
      end
  end.

Definition step (m : Map) (o : op) : run (Map * out) :=
  match o with
  | OLen => Ret (m, RLen (len m))
  | OGet k => v ← get m k; Ret (m, RValue v)
  | OGetMut k f => m ← get_mut m k f; Ret (m, RUnit)
  | OInsert t k v => '(m, r) ← insert m t k v; Ret (m, RValue r)
  | ORemove k => '(m, r) ← remove m k; Ret (m, RValue r)
  | ORemoveOldest => '(m, r) ← remove_oldest m; Ret (m, RValue r)
  | OMoveToTime k t => m ← move_to_time m k t; Ret (m, RUnit)
  | OForwardTime t callback => '(m, vs) ← forward_time (record_calls callback) m t []; Ret (m, RValues vs)
  | ODrain range n =>
      '(m, chain) ← drain m range;
      '(m, chain, vs) ← drain_some n m chain;
      m ← drain_drop (size (nodes m)) m chain;
      Ret (m, RValues vs)
  end.

Fixpoint run_ops (m : Map) (ops : list op) : run (Map * list out) :=
  match ops with
  | [] => Ret (m, [])
  | o :: ops => '(m, r) ← step m o; '(m, rs) ← run_ops m ops; Ret (m, r :: rs)
  end.

Definition a_step (a : amap) (o : op) : amap * out :=
  match o with
  | OLen => (a, RLen (length (mjoin (snd <$> a))))
  | OGet k => (a, RValue (snd <$> a_find k a))
  | OGetMut k f => (a_set k f a, RUnit)
  | OInsert t k v => let '(a, r) := a_insert t k v a in (a, RValue r)
  | ORemove k => let '(a, r) := a_remove k a in (a, RValue r)
  | ORemoveOldest => let '(a, r) := a_remove_oldest a in (a, RValue r)
  | OMoveToTime k t => (a_move k t a, RUnit)
  | OForwardTime t callback => let '(a, vs) := a_forward (record_calls callback) t [] a in (a, RValues vs)
  | ODrain range n => let '(a, vs) := a_drain range a in (a, RValues (take n vs))
  end.

Fixpoint a_run (a : amap) (ops : list op) : amap * list out :=
  match ops with
  | [] => (a, [])
  | o :: ops => let '(a, r) := a_step a o in let '(a, rs) := a_run a ops in (a, r :: rs)
  end.

Lemma new_refines : refines (new : Map) [].
Proof. exists []. split; [|done]. split; [split; [split|..]|..|split]; done || constructor. Qed.

Lemma len_refines (m : Map) a : refines m a -> len m = length (mjoin (snd <$> a)).
Proof.
  intros (lay & [_ _ [Hn He]] & <-). unfold len. rewrite He, map_size_list_to_map by (by rewrite keys_fmap).
  rewrite length_fmap. clear. induction lay as [|c lay IH]; [done|].
  rewrite cells_cons, length_app, IH. cbn. by rewrite length_app, length_fmap.
Qed.

Lemma drain_some_ok n : forall (m : Map) lay L, draining m lay L ->
  exists m' L', drain_some n m (first_or None L) = Ret (m', first_or None L', take n (c_val <$> L)) /\ draining m' lay L'.
Proof.
  induction n as [|n IH]; intros m lay L Hd; [by exists m, L|]. destruct L as [|c L]; [by exists m, []|].
  destruct (drain_next_ok _ _ _ _ Hd) as (m1 & Hn & Hd1). destruct (IH _ _ _ Hd1) as (m2 & L' & Hs & Hd2).
  exists m2, L'. split; [|done]. cbn [drain_some first_or]. rewrite Hn. cbn [mbind run_bind]. by rewrite Hs.
Qed.

Lemma abs_filter (f : Z -> bool) b lay :
  abs (filter (fun c : loc * Z * list (loc * K * V) => f (ch_time c) = b) lay) = filter (fun c => f c.1 = b) (abs lay).
Proof. induction lay as [|c lay IH]; [done|]. unfold abs in *. rewrite fmap_cons, !filter_cons. cbn. case_decide; cbn; by rewrite <- IH. Qed.

Lemma cells_abs (lay : list (loc * Z * list (loc * K * V))) : c_val <$> cells lay = snd <$> mjoin (snd <$> (abs lay : amap)).
Proof.
  induction lay as [|c lay IH]; [done|]. rewrite cells_cons, fmap_app, IH. cbn. rewrite fmap_app. f_equal.
  by rewrite <- list_fmap_compose.
Qed.

Lemma drain_refines (m : Map) a range n : refines m a ->
  exists m', step m (ODrain range n) = Ret (m', (a_step a (ODrain range n)).2) /\ refines m' (a_step a (ODrain range n)).1.
Proof.
  intros (lay & Hok & <-). destruct (drain_ok m lay range Hok) as (m1 & H1 & Hd1).
  destruct (drain_some_ok n _ _ _ Hd1) as (m2 & L & H2 & Hd2).
  destruct (drain_drop_ok L (size (nodes m2)) m2 _ ltac:(rewrite (heap_size _ _ _ _ (so_heap _ _ _ _ (dr_st _ _ _ Hd2))), length_app; lia) Hd2)
    as (m3 & H3 & Hd3).
  exists m3. cbn [step]. rewrite H1. cbn [mbind run_bind]. rewrite H2. cbn [mbind run_bind]. rewrite H3.
  cbn [mbind run_bind a_step a_drain fst snd]. rewrite cells_abs, (abs_filter range true). split; [done|].
  rewrite <- (abs_filter range false). by apply draining_done.
Qed.

Lemma step_refines (m : Map) a o : refines m a ->
  exists m', step m o = Ret (m', (a_step a o).2) /\ refines m' (a_step a o).1.
Proof.
  intros Hr. destruct o as [|k|k f|t k v|k| |k t|t cb|range n]; [..|by apply drain_refines]; cbn [step a_step fst snd].
  - exists m. by rewrite (len_refines _ _ Hr).
  - exists m. by rewrite (get_refines _ _ _ Hr).
  - destruct (get_mut_refines m a k f Hr) as (m' & -> & Hr'). by exists m'.
  - destruct (insert_refines m a t k v Hr) as (m' & -> & Hr'). exists m'. by destruct (a_insert t k v a).
  - destruct (remove_refines m a k Hr) as (m' & -> & Hr'). exists m'. by destruct (a_remove k a).
  - destruct (remove_oldest_refines m a Hr) as (m' & -> & Hr'). exists m'. by destruct (a_remove_oldest a).
  - destruct (move_to_time_refines m a k t Hr) as (m' & -> & Hr'). by exists m'.
  - destruct (forward_time_refines (record_calls cb) t m a [] Hr) as (m' & -> & Hr'). exists m'.
    by destruct (a_forward (record_calls cb) t [] a).
Qed.

Lemma run_ops_refines ops : forall (m : Map) a, refines m a ->
  exists m', run_ops m ops = Ret (m', (a_run a ops).2) /\ refines m' (a_run a ops).1.
Proof.
  induction ops as [|o ops IH]; intros m a Hr; [by exists m|]. cbn [run_ops a_run].
  destruct (step_refines m a o Hr) as (m1 & -> & Hr1). destruct (a_step a o) as [a1 r]. cbn [fst snd mbind run_bind] in *.
  destruct (IH _ _ Hr1) as (m2 & -> & Hr2). destruct (a_run a1 ops) as [a2 rs]. by exists m2.
Qed.

(** ** Where an entry is *)

(** The time and the value of a key, read off the pointers. *)
Definition located (m : Map) (k : K) : run (option (Z * V)) :=
  match entries m !! k with
  | None => Ret None
  | Some node =>
      nd ← read_node m (Some node); h ← read_head m (n_head nd); Ret (Some (h_time h, n_value nd))
  end.

Lemma located_refines (m : Map) a k : refines m a -> located m k = Ret (a_find k a).
Proof.
  intros (lay & Hok & <-). unfold located. destruct (entries m !! k) as [node|] eqn:E.
  - destruct (map_ok_lookup _ _ _ _ Hok E) as (l1 & hl & t0 & a & c & b & l2 & -> & <- & <-).
    rewrite a_find_at by (by eapply map_ok_nodup).
    destruct (set_value_ok [] m l1 hl t0 a c b l2 [] id (mo_st _ _ Hok)) as (_ & nd & -> & -> & _).
    cbn [mbind run_bind unwrap n_head]. by rewrite (read_head_at _ _ _ _ _ _ _ (mo_st _ _ Hok)).
  - by rewrite a_find_absent by (by eapply ent_ok_lookup_None; [apply Hok|]).
Qed.

Definition at_time (a : amap) (t : Z) (kv : K * V) : Prop := exists ns, (t, ns) ∈ a /\ kv ∈ ns.

Definition a_keys (a : amap) : list K := fst <$> mjoin (snd <$> a).

Lemma at_time_cons t0 ns a t kv : at_time ((t0, ns) :: a) t kv <-> (t = t0 /\ kv ∈ ns) \/ at_time a t kv.
Proof. unfold at_time. set_solver. Qed.

Lemma at_time_key a t kv : at_time a t kv -> kv.1 ∈ a_keys a.
Proof.
  intros (ns & Ha & Hk). apply list_elem_of_fmap_2, list_elem_of_join. exists ns. split; [done|].
  apply (list_elem_of_fmap_2' snd _ (t, ns)); done.
Qed.

Lemma nodup_fst_inj (ns : list (K * V)) k v v' : NoDup ns.*1 -> (k, v) ∈ ns -> (k, v') ∈ ns -> v = v'.
Proof.
  intros Hn Hv%(elem_of_list_to_map (M := gmap K)) Hv'%(elem_of_list_to_map (M := gmap K)); [|done..].
  rewrite Hv in Hv'. by injection Hv'.
Qed.

Lemma a_find_Some k t v a : NoDup (a_keys a) -> a_find k a = Some (t, v) <-> at_time a t (k, v).
Proof.
  induction a as [|[t0 ns] a IH]; intros Hn; [split; [done|intros (? & ?%not_elem_of_nil & _); done]|].
  unfold a_keys in Hn. cbn in Hn. rewrite fmap_app in Hn. apply NoDup_app in Hn as (Hns & Hd & Hn).
  rewrite at_time_cons, <- IH by done. cbn [a_find].
  destruct (list_find (fun kv => kv.1 = k) ns) as [[i kv]|] eqn:E.
  - apply list_find_Some in E as (Hi & Hk & _). apply list_elem_of_lookup_2 in Hi. split.
    + intros [= -> <-]. left. subst k. by destruct kv.
    + intros [[-> Hkv]|Hf%IH%at_time_key]; [|exfalso; eapply (Hd k); [subst k; by apply list_elem_of_fmap_2|done]|done].
      do 2 f_equal. apply (nodup_fst_inj ns k); [done| |done]. subst k. by destruct kv.
  - apply list_find_None in E. rewrite Forall_forall in E. split; [by right|]. intros [[_ Hkv]|]; [|done].
    by destruct (E _ Hkv).
Qed.

Lemma refines_nodup (m : Map) a : refines m a -> NoDup (a_keys a).
Proof.
  intros (lay & Hok & <-). assert (a_keys (abs lay) = c_key <$> cells lay) as ->; [|by eapply map_ok_nodup].
  unfold a_keys. clear. induction lay as [|c lay IH]; [done|]. rewrite cells_cons, fmap_app, <- IH. cbn.
  rewrite fmap_app. f_equal. by rewrite <- list_fmap_compose.
Qed.

Lemma at_time_push t kv a t' x : at_time (a_push t kv a) t' x <-> (t' = t /\ x = kv) \/ at_time a t' x.
Proof.
  induction a as [|[t0 ns] a IH]; cbn [a_push]; [rewrite at_time_cons; set_solver|].
  destruct (t0 <? t); [rewrite !at_time_cons, IH; tauto|].
  destruct (Z.eqb_spec t0 t) as [->|]; rewrite !at_time_cons, ?list_elem_of_singleton, ?elem_of_cons; tauto.
Qed.

Lemma at_time_visit callback time xs t' x : forall s a,
  at_time (a_visit (record_calls callback) time s xs a).1 t' x <->
  (exists v, (x.1, v) ∈ xs /\ callback v = (x.2, Some t') /\ time < t') \/ at_time a t' x.
Proof.
  induction xs as [|[k v] xs IH]; intros s a; cbn [a_visit].
  - cbn. split; [by right|]. by intros [(? & ?%not_elem_of_nil & _)|].
  - unfold record_calls at 1. rewrite IH. destruct (callback v) as [v' nt] eqn:E. cbn [fst snd].
    transitivity ((exists v0, (x.1, v0) ∈ xs /\ callback v0 = (x.2, Some t') /\ time < t')
      \/ (x = (k, v') /\ nt = Some t' /\ time < t') \/ at_time a t' x).
    + destruct nt as [nt|]; [destruct (Z.ltb_spec time nt)|]; rewrite ?at_time_push; naive_solver lia.
    + destruct x as [k' w]. cbn [fst snd]. split.
      * intros [(v0 & Hv & Hc)|[([= -> ->] & -> & Ht)|Ha]]; [|left; exists v; by split; [left|]|by right].
        left. exists v0. by split; [right|].
      * intros [(v0 & [[= -> ->]|Hv]%elem_of_cons & Hc & Ht)|Ha]; [|left; by exists v0|by right; right].
        rewrite E in Hc. injection Hc as -> ->. by right; left.
Qed.

Lemma visit_calls callback time (xs : list (K * V)) : forall s a,
  (a_visit (record_calls callback) time s xs a).2 = s ++ xs.*2.
Proof.
  induction xs as [|[k v] xs IH]; intros s a; [by rewrite app_nil_r|]. cbn [a_visit]. unfold record_calls at 1.
  rewrite IH. by rewrite <- (assoc_L (++)).
Qed.

(** The due entries in the order of their times. *)
Definition a_due (t : Z) (a : amap) : list (Z * (K * V)) :=
  mjoin ((fun c => pair c.1 <$> c.2) <$> filter (fun c => c.1 <= t) a).

Lemma elem_of_due t a t0 kv : (t0, kv) ∈ a_due t a <-> at_time a t0 kv /\ t0 <= t.
Proof.
  unfold a_due, at_time. rewrite list_elem_of_join. setoid_rewrite list_elem_of_fmap. setoid_rewrite list_elem_of_filter.
  split.
  - intros (l & Hl & [ct ns] & -> & Hle & Ha). apply list_elem_of_fmap in Hl as (x & [= -> ->] & Hx). cbn in *. by split; [exists ns|].
  - intros [(ns & Ha & Hk) Hle]. exists (pair t0 <$> ns). split; [by apply list_elem_of_fmap_2|]. by exists (t0, ns).
Qed.

Lemma due_calls t a : (a_due t a).*2 = mjoin (snd <$> filter (fun c => c.1 <= t) a).
Proof.
  unfold a_due. induction (filter _ a) as [|c l IH]; [done|]. rewrite !fmap_cons, !join_cons, fmap_app, IH.
  f_equal. rewrite <- list_fmap_compose. by apply list_fmap_id.
Qed.

Lemma at_time_forward callback t a t' k v' :
  at_time (a_forward (record_calls callback) t [] a).1 t' (k, v') <->
  (exists t0 v, (t0, (k, v)) ∈ a_due t a /\ callback v = (v', Some t') /\ t < t') \/ (at_time a t' (k, v') /\ t < t').
Proof.
  unfold a_forward. rewrite at_time_visit, <- due_calls. cbn [fst snd].
  setoid_rewrite list_elem_of_fmap. unfold at_time at 1. setoid_rewrite list_elem_of_filter. cbn [fst]. split.
  - intros [(v & ([t0 kv] & Hkv & Hd) & Hc)|(ns & [Ht Ha] & Hk)].
    + left. exists t0, v. cbn in Hkv. by rewrite Hkv.
    + right. split; [by exists ns|done].
  - intros [(t0 & v & Hd & Hc)|[(ns & Ha & Hk) Ht]].
    + left. exists v. split; [by exists (t0, (k, v))|done].
    + right. by exists ns.
Qed.

Lemma due_nodup t a : NoDup (a_keys a) -> NoDup ((a_due t a).*2).*1.
Proof.
  rewrite due_calls. unfold a_keys. induction a as [|c a IH]; [done|]. rewrite fmap_cons, join_cons, fmap_app.
  intros (Hc & Hd & Ha)%NoDup_app. rewrite filter_cons. case_decide; [|by apply IH].
  rewrite fmap_cons, join_cons, fmap_app. apply NoDup_app. split; [done|]. split; [|by apply IH].
  intros k Hk Hin. apply (Hd k Hk). apply list_elem_of_fmap in Hin as (kv & -> & (ns & Hns & Hl)%list_elem_of_join).
  apply list_elem_of_fmap_2, list_elem_of_join. exists ns. split; [done|].
  apply list_elem_of_fmap in Hl as (x & -> & [_ Hx]%list_elem_of_filter). by apply list_elem_of_fmap_2.
Qed.

Lemma due_sorted t a : StronglySorted Z.lt a.*1 -> StronglySorted Z.le (a_due t a).*1.
Proof.
  unfold a_due. induction a as [|c a IH]; [constructor|]. intros [Hs Hf]%StronglySorted_inv. rewrite filter_cons.
  case_decide as Hc; [|by apply IH]. rewrite fmap_cons, join_cons, fmap_app. apply StronglySorted_app_2; [..|by apply IH].
  - intros x y Hx Hy. apply list_elem_of_fmap in Hx as (p & -> & (q & -> & _)%list_elem_of_fmap).
    apply list_elem_of_fmap in Hy as ([y' z] & -> & [(ns & Ha & _) _]%(elem_of_due t a)).
    assert (c.1 < y'); [|cbn; lia]. apply (proj1 (Forall_forall _ _) Hf). by apply (list_elem_of_fmap_2' fst _ (y', ns)).
  - clear. induction c.2 as [|y l IH]; [constructor|]. cbn. constructor; [done|].
    apply Forall_forall. intros x Hx. apply list_elem_of_fmap in Hx as (p & -> & (q & -> & _)%list_elem_of_fmap). done.
Qed.

Lemma refines_sorted (m : Map) a : refines m a -> StronglySorted Z.lt a.*1.
Proof. intros (lay & [[_ _ Hs] _ _] & <-). unfold abs. by rewrite <- list_fmap_compose. Qed.

(** C5: Every sequence of calls on a new chronological map returns what the
    sorted list of time chains returns: no raw pointer is dereferenced or freed
    after its allocation is gone, no unwrap fails and every loop ends.  Dropping
    the map afterwards frees every node and time head exactly once. *)
Theorem chrono_map_refines (ops : list op) :
  exists m m', run_ops new ops = Ret (m, (a_run [] ops).2)
    /\ drop_map m = Ret m' /\ nodes m' = ∅ /\ heads m' = ∅.
Proof.
  destruct (run_ops_refines ops new [] new_refines) as (m & Hm & Hr).
  destruct (drop_map_ok m _ Hr) as (m' & Hd & ?). by exists m, m'.
Qed.

Lemma Ret_inj {A} (x y : A) : Ret x = Ret y <-> x = y.
Proof. split; [by intros [=]|by intros ->]. Qed.

(** C13: On every map that calls can build, [forward_time] calls its callback
    once for each entry whose time is not later than [t], the oldest first, and
    for no other.  Afterwards an entry is in the map exactly if it was due and
    the callback gave it a later time, at that time with the callback's value,
    or if it was not due, where it was. *)
Theorem forward_time_visits_due (ops : list op) (t : Z) (callback : V -> V * option Z) :
  exists m m' (due : list (Z * (K * V))),
    run_ops new ops = Ret (m, (a_run [] ops).2)
    /\ forward_time (record_calls callback) m t [] = Ret (m', due.*2.*2)
    /\ StronglySorted Z.le due.*1 /\ NoDup due.*2.*1
    /\ (forall t0 k v, (t0, (k, v)) ∈ due <-> located m k = Ret (Some (t0, v)) /\ t0 <= t)
    /\ (forall k t' v', located m' k = Ret (Some (t', v')) <->
          (exists t0 v, (t0, (k, v)) ∈ due /\ callback v = (v', Some t') /\ t < t')
          \/ (located m k = Ret (Some (t', v')) /\ t < t')).
Proof.
  destruct (run_ops_refines ops new [] new_refines) as (m & Hm & Hr). set (a := (a_run [] ops).1) in *.
  destruct (forward_time_refines (record_calls callback) t m a [] Hr) as (m' & Hf & Hr').
  assert (forall k t0 v, located m k = Ret (Some (t0, v)) <-> at_time a t0 (k, v)) as Hl.
  { intros k t0 v. rewrite (located_refines _ _ _ Hr), <- a_find_Some by (by eapply refines_nodup). apply Ret_inj. }
  exists m, m', (a_due t a). split; [done|]. rewrite Hf. split_and!.
  - unfold a_forward. by rewrite visit_calls, due_calls.
  - by eapply due_sorted, refines_sorted.
  - by eapply due_nodup, refines_nodup.
  - intros t0 k v. by rewrite elem_of_due, Hl.
  - intros k t' v'. rewrite (located_refines _ _ _ Hr'), Hl.
    transitivity (at_time (a_forward (record_calls callback) t [] a).1 t' (k, v')).
    + rewrite <- a_find_Some by (by eapply refines_nodup). apply Ret_inj.
    + apply at_time_forward.
Qed.

End traces.
