(* ===== verification/FlowMerge.v ===== *)
(** * Tagged flows and their merge (common/flow.rs, common/tagged_flow.rs)

    The flow map reports every flow once a second; what the collectors get is a
    [TaggedFlow].  This file has the merge of two reports, of one flow or of two
    heartbeats, with the statistics they carry.  [flow] holds the fields of the
    Rust [Flow] that the flow map works on; the fields only the aggregation
    reads or writes stand beside it.  Not modelled are the fields that are copied
    with the flow and never read here ([directions], the OpenTelemetry names,
    [last_endpoint], [pod_id]). *)

From stdpp Require Import gmap strings.
From S2P Require Import Prelude Timestamp Bytes TapTypes TapPort Flow TcpPerf.

Definition SECONDS_IN_MINUTE : Z := 60.

(** A [Duration] is its nanoseconds; an addition that leaves it panics. *)
Definition from_secs (secs : Z) : Z := secs * Timestamp.NANOS_IN_SECOND.
Definition duration_add (a b : Z) : run Z := if a + b <? from_secs (2 ^ 64) then Ret (a + b) else Panic.

(** Arithmetic on seconds and nanoseconds. *)
Ltac secs := unfold from_secs in *; change Timestamp.NANOS_IN_SECOND with 1000000000 in *; lia.

(** ** Statistics *)

Record L7PerfStatsKey := { endpoint : option string; time_span : Z; biz_type : Z }.

#[export] Instance L7PerfStatsKey_eq_dec : EqDecision L7PerfStatsKey.
Proof. solve_decision. Defined.

#[export] Instance L7PerfStatsKey_countable : Countable L7PerfStatsKey.
Proof.
  refine (inj_countable' (fun k => (endpoint k, time_span k, biz_type k)) (fun '(e, t, b) => Build_L7PerfStatsKey e t b) _).
  by intros [].
Defined.

Record L7PerfStats := {
  request_count : Z;
  response_count : Z;
  err_client_count : Z;
  err_server_count : Z;
  err_timeout : Z;
  rrt_count : Z;
  rrt_sum : Z;
  rrt_max : Z;
  tls_rtt : Z;
}.

Definition L7PerfStats_sequential_merge (s o : L7PerfStats) : L7PerfStats := {|
  request_count := request_count s +₃₂ request_count o;
  response_count := response_count s +₃₂ response_count o;
  err_client_count := err_client_count s +₃₂ err_client_count o;
  err_server_count := err_server_count s +₃₂ err_server_count o;
  err_timeout := err_timeout s +₃₂ err_timeout o;
  rrt_count := rrt_count s +₃₂ rrt_count o;
  rrt_sum := rrt_sum s +₆₄ rrt_sum o;
  rrt_max := keep_max (rrt_max s) (rrt_max o);
  tls_rtt := tls_rtt s +₃₂ tls_rtt o;
|}.

Inductive L4Protocol := L4Unknown | L4Tcp | L4Udp | L4Icmp.

#[export] Instance L4Protocol_eq_dec : EqDecision L4Protocol.
Proof. solve_decision. Defined.

(** [L7Protocol] is the [u8] of the protocol; [Unknown] is 0. *)
Definition L7_UNKNOWN : Z := 0.

Record FlowPerfStats := {
  tcp : TcpPerfStats;
  l7 : gmap L7PerfStatsKey L7PerfStats;
  l4_protocol : L4Protocol;
  l7_protocol : Z;
  l7_failed_count : Z;
}.

#[export] Instance FlowPerfStats_fields : Fields FlowPerfStats := fun x =>
  Build_FlowPerfStats (tcp x) (l7 x) (l4_protocol x) (l7_protocol x) (l7_failed_count x).

(** One step of the loop over [other.l7]. *)
Definition merge_l7_entry (m : gmap L7PerfStatsKey L7PerfStats) (kv : L7PerfStatsKey * L7PerfStats) : gmap L7PerfStatsKey L7PerfStats :=
  match m !! kv.1 with
  | Some x => <[kv.1 := L7PerfStats_sequential_merge x kv.2]> m
  | None => <[kv.1 := kv.2]> m
  end.

Definition FlowPerfStats_sequential_merge (s o : FlowPerfStats) : FlowPerfStats := {|
  l4_protocol := if decide (l4_protocol s = L4Unknown) then l4_protocol o else l4_protocol s;
  l7_protocol := if (l7_protocol s =? L7_UNKNOWN) && negb (l7_protocol o =? L7_UNKNOWN) then l7_protocol o else l7_protocol s;
  l7_failed_count := Z.max (l7_failed_count s) (l7_failed_count o);
  tcp := TcpPerf.sequential_merge (tcp s) (tcp o);
  l7 := foldl merge_l7_entry (l7 s) (map_to_list (l7 o));
|}.

Definition FlowPerfStats_reverse (s : FlowPerfStats) : FlowPerfStats := s <| tcp := TcpPerf.reverse (tcp s) |>.

(** ** The sides of a flow *)

Definition FlowMetricsPeer_sequential_merge (s o : FlowMetricsPeer) : FlowMetricsPeer :=
  let s := s <| byte_count := byte_count s +₆₄ byte_count o |>
    <| l3_byte_count := l3_byte_count s +₆₄ l3_byte_count o |>
    <| l4_byte_count := l4_byte_count s +₆₄ l4_byte_count o |>
    <| packet_count := packet_count s +₆₄ packet_count o |>
    <| total_byte_count := total_byte_count o |> <| total_packet_count := total_packet_count o |>
    <| first := first o |> <| last := last o |> in
  let s := s <| l3_epc_id := l3_epc_id o |> <| is_l2_end := is_l2_end o |> <| is_l3_end := is_l3_end o |>
    <| is_active_host := is_active_host o |> <| is_device := is_device o |>
    <| tcp_flags := Z.lor (tcp_flags s) (tcp_flags o) |>
    <| is_vip_interface := is_vip_interface o |> <| is_vip := is_vip o |>
    <| is_local_mac := is_local_mac o |> <| is_local_ip := is_local_ip o |>
    <| nat_real_ip := nat_real_ip o |> <| nat_real_port := nat_real_port o |> in
  if 0 <? gpid o then s <| gpid := gpid o |> else s.

(** The totals of two flows are added. *)
Definition heartbeat_sequential_merge (s o : FlowMetricsPeer) : FlowMetricsPeer :=
  let m := FlowMetricsPeer_sequential_merge s o in
  m <| total_byte_count := total_byte_count m +₆₄ total_byte_count s |>
    <| total_packet_count := total_packet_count m +₆₄ total_packet_count s |>.

(** [TapSide] of metric/document.rs *)
Inductive TapSide :=
| Rest | Client | Server | Local | ClientNode | ServerNode | ClientHypervisor | ServerHypervisor
| ClientGatewayHypervisor | ServerGatewayHypervisor | ClientGateway | ServerGateway | ClientProcess | ServerProcess
| ClientApp | ServerApp | App.

#[export] Instance TapSide_eq_dec : EqDecision TapSide.
Proof. solve_decision. Defined.

Definition SIDE_NODE : Z := Z.shiftl 1 3.
Definition SIDE_HYPERVISOR : Z := Z.shiftl 2 3.
Definition SIDE_GATEWAY_HYPERVISOR : Z := Z.shiftl 3 3.
Definition SIDE_GATEWAY : Z := Z.shiftl 4 3.
Definition SIDE_PROCESS : Z := Z.shiftl 5 3.
Definition SIDE_APP : Z := Z.shiftl 6 3.

(** [tap_side as u8] *)
Definition TapSide_u8 (s : TapSide) : Z :=
  match s with
  | Rest => 0
  | Client => 1
  | Server => 2
  | Local => 4
  | ClientNode => Z.lor 1 SIDE_NODE
  | ServerNode => Z.lor 2 SIDE_NODE
  | ClientHypervisor => Z.lor 1 SIDE_HYPERVISOR
  | ServerHypervisor => Z.lor 2 SIDE_HYPERVISOR
  | ClientGatewayHypervisor => Z.lor 1 SIDE_GATEWAY_HYPERVISOR
  | ServerGatewayHypervisor => Z.lor 2 SIDE_GATEWAY_HYPERVISOR
  | ClientGateway => Z.lor 1 SIDE_GATEWAY
  | ServerGateway => Z.lor 2 SIDE_GATEWAY
  | ClientProcess => Z.lor 1 SIDE_PROCESS
  | ServerProcess => Z.lor 2 SIDE_PROCESS
  | ClientApp => Z.lor 1 SIDE_APP
  | ServerApp => Z.lor 2 SIDE_APP
  | App => SIDE_APP
  end.

Definition TapSide_MAX : TapSide := ServerApp.

(** ** The policies of a flow (plugins/npb_pcap_policy, common/tag.rs) *)

Inductive NpbTunnelType := NpbVxLan | NpbGreErspan | NpbPcap | NpbDrop | TcpNpb | NpbMax.

#[export] Instance NpbTunnelType_eq_dec : EqDecision NpbTunnelType.
Proof. solve_decision. Defined.

Record NpbAction := { action_acl_gids : list Z; tunnel_ip_ids : list Z }.

Record PolicyData := { npb_actions : list NpbAction; acl_id : Z; action_flags : Z }.

Definition ACTION_PCAP : Z := 1.

Definition contain_pcap (p : PolicyData) : bool := (0 <? acl_id p) && (Z.land (action_flags p) ACTION_PCAP =? ACTION_PCAP).

(** The tunnel type of an action.  The sources have a stand-in of the plugin,
    [community]; the library is written for any. *)
Class NpbPlugin := tunnel_type : NpbAction -> NpbTunnelType.

Definition community : NpbPlugin := fun _ => NpbVxLan.

(** [U16Set::add]: the binary search gives the place of [v] in the sorted list. *)
Fixpoint U16Set_add (s : list Z) (v : Z) : list Z :=
  match s with
  | [] => [v]
  | x :: s' => if v <? x then v :: s else if v =? x then s else x :: U16Set_add s' v
  end.

(** ** Tagged flows *)

Record TaggedFlow := {
  flow : Flow;
  flow_perf_stats : option FlowPerfStats;
  tap_side : TapSide;
  aggregated_flow_ids : list Z;
  acl_gids : list Z;
  request_domain : string;
  need_to_store : bool;
  policy_src : option PolicyData;
  policy_dst : option PolicyData;
}.

#[export] Instance TaggedFlow_fields : Fields TaggedFlow := fun x =>
  Build_TaggedFlow (flow x) (flow_perf_stats x) (tap_side x) (aggregated_flow_ids x) (acl_gids x) (request_domain x)
    (need_to_store x) (policy_src x) (policy_dst x).

(** [Flow::start_time_in_minute], in seconds *)
Definition start_time_in_minute (f : TaggedFlow) : Z :=
  let second_in_minute := Timestamp.as_secs (start_time (flow f)) mod SECONDS_IN_MINUTE in
  ((Timestamp.as_secs (flow_stat_time (flow f)) -₆₄ second_in_minute) / SECONDS_IN_MINUTE * SECONDS_IN_MINUTE) +₆₄ second_in_minute.

(** The peers, the ids and the handshake numbers. *)
Definition merge_peers (s o : TaggedFlow) : TaggedFlow :=
  let '(f, g) := (flow s, flow o) in
  if negb (flow_id f =? flow_id g) then
    let f := f <| flow_metrics_src := heartbeat_sequential_merge (flow_metrics_src f) (flow_metrics_src g) |>
               <| flow_metrics_dst := heartbeat_sequential_merge (flow_metrics_dst f) (flow_metrics_dst g) |> in
    let s := s <| aggregated_flow_ids := aggregated_flow_ids s ++ [flow_id g] |> in
    let f := if negb (syn_seq g =? 0) then f <| syn_seq := syn_seq g |> else f in
    let f := if negb (synack_seq g =? 0) then f <| synack_seq := synack_seq g |> else f in
    s <| flow := f |>
  else
    s <| flow := (f <| flow_metrics_src := FlowMetricsPeer_sequential_merge (flow_metrics_src f) (flow_metrics_src g) |>
                    <| flow_metrics_dst := FlowMetricsPeer_sequential_merge (flow_metrics_dst f) (flow_metrics_dst g) |>) |>.

Definition merge_flow_perf (s o : option FlowPerfStats) : option FlowPerfStats :=
  match o with
  | Some x => match s with None => Some x | Some s => Some (FlowPerfStats_sequential_merge s x) end
  | None => s
  end.

(** The loops over the ids of the policies. *)
Definition merge_acl_gids (s o : list Z) : list Z :=
  foldl (fun s g => if existsb (Z.eqb g) s then s else s ++ [g]) s o.

(** The fields of the flow that the other report replaces. *)
Definition merge_fields (f g : Flow) : Flow :=
  let f := f <| end_time := end_time g |> <| duration := duration g |> <| close_type := close_type g |>
    <| is_active_service := is_active_service g |> <| reversed := reversed g |> in
  let f := if 0 <? fl_vlan g then f <| fl_vlan := fl_vlan g |> else f in
  let f := if negb (last_keepalive_seq g =? 0) then f <| last_keepalive_seq := last_keepalive_seq g |> else f in
  let f := if negb (last_keepalive_ack g =? 0) then f <| last_keepalive_ack := last_keepalive_ack g |> else f in
  let nat_source := TapPort.get_nat_source (fk_tap_port (flow_key g)) in
  if TapPort.get_nat_source (fk_tap_port (flow_key f)) <? nat_source
  then f <| flow_key := (flow_key f) <| fk_tap_port := TapPort.set_nat_source (fk_tap_port (flow_key f)) nat_source |> |> else f.

(** [TaggedFlow::sequential_merge], which is [Flow::sequential_merge] of the flows *)
Definition TaggedFlow_sequential_merge (s o : TaggedFlow) : TaggedFlow :=
  let s := merge_peers s o in
  s <| flow := merge_fields (flow s) (flow o) |> <| tap_side := tap_side o |>
    <| flow_perf_stats := merge_flow_perf (flow_perf_stats s) (flow_perf_stats o) |>
    <| acl_gids := merge_acl_gids (acl_gids s) (acl_gids o) |>
    <| request_domain := (if String.eqb (request_domain o) EmptyString then request_domain s else request_domain o) |>.

(** [TaggedFlow::reverse], with the [tap_side] that [Flow::reverse] resets *)
Definition TaggedFlow_reverse (f : TaggedFlow) : TaggedFlow :=
  f <| flow := Flow_reverse (flow f) false |> <| tap_side := Rest |>
    <| policy_src := policy_dst f |> <| policy_dst := policy_src f |>.

Definition hit_pcap_policy (f : TaggedFlow) : bool := (0 <? length (acl_gids f))%nat.

Record HeartbeatAggrKey := { hk_tap_side : TapSide; hk_port_dst : Z; hk_ip_src : IpAddr; hk_ip_dst : IpAddr }.

#[export] Instance HeartbeatAggrKey_eq_dec : EqDecision HeartbeatAggrKey.
Proof. solve_decision. Defined.

Definition get_heartbeat_aggr_key (f : TaggedFlow) : HeartbeatAggrKey :=
  let k := flow_key (flow f) in Build_HeartbeatAggrKey (tap_side f) (fk_port_dst k) (fk_ip_src k) (fk_ip_dst k).

Definition TapSide_all : list TapSide :=
  [Rest; Client; Server; Local; ClientNode; ServerNode; ClientHypervisor; ServerHypervisor; ClientGatewayHypervisor;
   ServerGatewayHypervisor; ClientGateway; ServerGateway; ClientProcess; ServerProcess; ClientApp; ServerApp; App].

#[export] Instance TapSide_countable : Countable TapSide.
Proof. apply (inj_countable TapSide_u8 (fun z => List.find (fun s => TapSide_u8 s =? z) TapSide_all)). by intros []. Defined.

#[export] Instance IpAddr_countable : Countable IpAddr.
Proof.
  apply (inj_countable' (fun a => match a with V4 a => inl a | V6 o => inr o end)
    (fun x : Z + bytes => match x with inl a => V4 a | inr o => V6 o end)). by intros [].
Defined.

#[export] Instance HeartbeatAggrKey_countable : Countable HeartbeatAggrKey.
Proof.
  refine (inj_countable' (fun k => (hk_tap_side k, hk_port_dst k, hk_ip_src k, hk_ip_dst k))
    (fun '(s, p, a, b) => Build_HeartbeatAggrKey s p a b) _). by intros [].
Defined.

(** ** What a merge keeps and adds *)

(** The minute of a report starts at the second of the flow's start, and
    contains the time of the report. *)
Lemma start_time_in_minute_window f :
  0 <= start_time (flow f) -> 60 <= Timestamp.as_secs (flow_stat_time (flow f)) -> fits 64 (flow_stat_time (flow f)) ->
  let s := start_time_in_minute f in
  s <= Timestamp.as_secs (flow_stat_time (flow f)) < s + 60 /\ s mod 60 = Timestamp.as_secs (start_time (flow f)) mod 60.
Proof.
  intros Hs Ht Hf. cbv zeta. unfold start_time_in_minute, SECONDS_IN_MINUTE, fits in *.
  set (t := Timestamp.as_secs (flow_stat_time (flow f))) in *.
  assert (t < 2 ^ 64) by (subst t; unfold Timestamp.as_secs, Timestamp.NANOS_IN_SECOND; apply Z.div_lt_upper_bound; lia).
  set (k := Timestamp.as_secs (start_time (flow f)) mod 60).
  assert (0 <= k < 60) as Hk by (subst k; apply Z.mod_pos_bound; lia).
  rewrite wsub_small by (unfold fits; lia).
  pose proof (Z.div_mod (t - k) 60 ltac:(lia)) as Hd. pose proof (Z.mod_pos_bound (t - k) 60 ltac:(lia)).
  pose proof (Z.div_pos (t - k) 60 ltac:(lia) ltac:(lia)).
  rewrite wadd_small by (unfold fits; lia). split; [lia|]. rewrite Z.add_comm, Z.mod_add by lia. apply Z.mod_small. lia.
Qed.

Lemma merge_l7_entries (xs : list (L7PerfStatsKey * L7PerfStats)) : forall m, NoDup xs.*1 ->
  foldl merge_l7_entry m xs = union_with (fun x y => Some (L7PerfStats_sequential_merge x y)) m (list_to_map xs).
Proof.
  induction xs as [|[k v] xs IH]; intros m Hn; cbn [foldl].
  { rewrite list_to_map_nil. apply map_eq. intros i. rewrite lookup_union_with, lookup_empty. by destruct (m !! i). }
  inversion_clear Hn as [|? ? Hk Hn']. rewrite IH by done. apply map_eq. intros i. rewrite !lookup_union_with, list_to_map_cons.
  unfold merge_l7_entry. cbn [fst snd]. destruct (decide (i = k)) as [->|Hi].
  - rewrite (not_elem_of_list_to_map_1 (M := gmap _) xs k) by done. rewrite lookup_insert_eq. by destruct (m !! k); rewrite lookup_insert_eq.
  - rewrite lookup_insert_ne by done. by destruct (m !! k); rewrite lookup_insert_ne by done.
Qed.

(** The statistics of an endpoint are merged where both reports have them. *)
Lemma l7_merged s o k : l7 (FlowPerfStats_sequential_merge s o) !! k
  = union_with (fun x y => Some (L7PerfStats_sequential_merge x y)) (l7 s !! k) (l7 o !! k).
Proof.
  cbn [l7 FlowPerfStats_sequential_merge]. rewrite merge_l7_entries by apply NoDup_fst_map_to_list.
  by rewrite list_to_map_to_list, lookup_union_with.
Qed.

Lemma merge_fields_frame f g : let h := merge_fields f g in
  flow_id h = flow_id f /\ start_time h = start_time f /\ flow_stat_time h = flow_stat_time f /\ close_type h = close_type g
  /\ reversed h = reversed g /\ flow_metrics_src h = flow_metrics_src f /\ flow_metrics_dst h = flow_metrics_dst f.
Proof. cbv zeta. unfold merge_fields. repeat case_goal; done. Qed.

Lemma merge_peers_frame s o : let h := flow (merge_peers s o) in let f := flow s in
  flow_id h = flow_id f /\ start_time h = start_time f /\ flow_stat_time h = flow_stat_time f.
Proof. cbv zeta. unfold merge_peers. repeat case_goal; done. Qed.

(** A merge keeps the id and the minute of the flow, and takes over how it ended. *)
Lemma sequential_merge_frame s o : let h := flow (TaggedFlow_sequential_merge s o) in
  flow_id h = flow_id (flow s) /\ start_time h = start_time (flow s) /\ flow_stat_time h = flow_stat_time (flow s)
  /\ close_type h = close_type (flow o) /\ reversed h = reversed (flow o).
Proof.
  cbv zeta. unfold TaggedFlow_sequential_merge. cbn [flow update TaggedFlow_fields].
  destruct (merge_fields_frame (flow (merge_peers s o)) (flow o)) as (-> & -> & -> & -> & -> & _).
  destruct (merge_peers_frame s o) as (-> & -> & ->). done.
Qed.

(** A count of one side of a flow, which merges add up. *)
Definition peer_count (c : FlowMetricsPeer -> Z) : Prop :=
  forall s o, c (FlowMetricsPeer_sequential_merge s o) = c s +₆₄ c o /\ c (heartbeat_sequential_merge s o) = c s +₆₄ c o.

Lemma packet_count_merges : peer_count packet_count.
Proof. intros s o. unfold heartbeat_sequential_merge, FlowMetricsPeer_sequential_merge. split; repeat case_goal; done. Qed.

Lemma byte_count_merges : peer_count byte_count.
Proof. intros s o. unfold heartbeat_sequential_merge, FlowMetricsPeer_sequential_merge. split; repeat case_goal; done. Qed.

Lemma merge_counts c s o : peer_count c -> let h := flow (TaggedFlow_sequential_merge s o) in
  c (flow_metrics_src h) = c (flow_metrics_src (flow s)) +₆₄ c (flow_metrics_src (flow o))
  /\ c (flow_metrics_dst h) = c (flow_metrics_dst (flow s)) +₆₄ c (flow_metrics_dst (flow o)).
Proof.
  intros Hc. cbv zeta. unfold TaggedFlow_sequential_merge. cbn [flow update TaggedFlow_fields].
  destruct (merge_fields_frame (flow (merge_peers s o)) (flow o)) as (_ & _ & _ & _ & _ & -> & ->).
  unfold merge_peers. cbn [flow_metrics_src flow_metrics_dst]. repeat case_goal; cbn; split; apply Hc.
Qed.
