(* ===== verification/FlowLogSender.v ===== *)
(** * Sending flow logs (collector/flow_aggr.rs: Sender and ThrottlingQueue)

    A flow log leaves the aggregation through a [ThrottlingQueue]: in each
    bucket of four seconds at most [throttle] flows are kept, chosen by reservoir
    sampling, and handed to the output queue when the bucket is over; flows of
    a PCAP policy are not throttled.  The clock, the configured threshold and the
    random generator are readings of the outside: they are numbered by [reads],
    and [AggrEnv] gives the value of each.  [history] is not in the code: it
    records where every flow went. *)

From stdpp Require Import gmap.
From S2P Require Import Prelude Timestamp Flow FlowMerge OverwriteQueue QueueSpec.

(** ** The outside *)

Class AggrEnv := {
  clock : nat -> Z;                                   (* get_timestamp(ntp_diff), in nanoseconds *)
  nps_threshold : nat -> Z;                           (* config.load().l4_log_collect_nps_threshold *)
  gen_range : nat -> Z -> Z;                          (* small_rng.gen_range(0..n) *)
  drain_order : gmap Z TaggedFlow -> list TaggedFlow; (* the order of HashMap::drain *)
  stashs_capacity : Z;                                (* flow_stashs.capacity() *)
}.

Class AggrEnvOk (E : AggrEnv) := {
  clock_fits n : fits 64 (clock n);
  nps_threshold_fits n : fits 64 (nps_threshold n);
  gen_range_bound n b : 0 < b -> 0 <= gen_range n b < b;
  drain_order_perm m : drain_order m ≡ₚ (map_to_list m).*2;
}.

(** ** Counters *)

Record FlowAggrCounter := {
  drop_before_window : Z;
  out : Z;
  drop_in_throttle : Z;
  stash_total_len : Z;
  stash_total_capacity : Z;
  stash_shrinks : Z;
  heartbeat_aggred : Z;
  heartbeat_cached : Z;
}.

#[export] Instance FlowAggrCounter_fields : Fields FlowAggrCounter := fun x =>
  Build_FlowAggrCounter (drop_before_window x) (out x) (drop_in_throttle x) (stash_total_len x) (stash_total_capacity x)
    (stash_shrinks x) (heartbeat_aggred x) (heartbeat_cached x).

(** ** The throttling queue *)

(** Where the flows went: handed to the queue, accepted by the output queue, left
    out by the sampling, cut off when the threshold shrank, refused by the
    output queue; [replaced] are heartbeats that a later one displaced. *)
Record History := {
  handed : list TaggedFlow;
  accepted : list TaggedFlow;
  throttled : list TaggedFlow;
  truncated : list TaggedFlow;
  rejected : list TaggedFlow;
  replaced : list TaggedFlow;
}.

#[export] Instance History_fields : Fields History := fun x =>
  Build_History (handed x) (accepted x) (throttled x) (truncated x) (rejected x) (replaced x).

Record ThrottlingQueue := {
  throttle : Z;
  reads : nat;
  last_flush_cache_with_throttling_time : Z;
  last_flush_cache_without_throttling_time : Z;
  period_count : Z;
  out_queue : OverwriteQueue TaggedFlow;
  cache_with_throttling : list TaggedFlow;
  cache_without_throttling : list TaggedFlow;
  history : History;
}.

#[export] Instance ThrottlingQueue_fields : Fields ThrottlingQueue := fun x =>
  Build_ThrottlingQueue (throttle x) (reads x) (last_flush_cache_with_throttling_time x)
    (last_flush_cache_without_throttling_time x) (period_count x) (out_queue x) (cache_with_throttling x)
    (cache_without_throttling x) (history x).

Definition THROTTLE_BUCKET_BITS : Z := 2.
Definition THROTTLE_BUCKET : Z := Z.shiftl 1 THROTTLE_BUCKET_BITS.
Definition MIN_L4_LOG_COLLECT_NPS_THRESHOLD : Z := 100.
Definition MAX_L4_LOG_COLLECT_NPS_THRESHOLD : Z := 1000000.
Definition CACHE_WITHOUT_THROTTLING_SIZE : nat := 1024.

(** [now.as_secs() >> THROTTLE_BUCKET_BITS] *)
Definition bucket (now : Z) : Z := Z.shiftr (Timestamp.as_secs now) THROTTLE_BUCKET_BITS.

Section sender.
Context {E : AggrEnv} {P : NpbPlugin}.

(** [Vec::with_capacity] of [t] boxes panics above [isize::MAX] bytes. *)
Definition ThrottlingQueue_new (output : OverwriteQueue TaggedFlow) : run ThrottlingQueue :=
  let t := wrap 64 (nps_threshold 0 * THROTTLE_BUCKET) in
  _ ← rassert (t * 8 <? 2 ^ 63);
  Ret (Build_ThrottlingQueue t 1 0 0 0 output [] [] (Build_History [] [] [] [] [] [])).

Definition update_throttle (q : ThrottlingQueue) : ThrottlingQueue :=
  let new := nps_threshold (reads q) in
  let q := q <| reads := S (reads q) |> in
  if (new <? MIN_L4_LOG_COLLECT_NPS_THRESHOLD) || (MAX_L4_LOG_COLLECT_NPS_THRESHOLD <? new) then q
  else if throttle q =? wrap 64 (new * THROTTLE_BUCKET) then q
  else
    let q := q <| throttle := wrap 64 (new * THROTTLE_BUCKET) |> in
    let n := Z.to_nat (throttle q) in
    q <| history := (history q) <| truncated := truncated (history q) ++ drop n (cache_with_throttling q) |> |>
      <| cache_with_throttling := take n (cache_with_throttling q) |>.

(** [if let Err(_) = self.output.send_all(&mut cache) { cache.clear() }], with
    the cache as it is left *)
Definition send_cache (q : ThrottlingQueue) (cache : list TaggedFlow) : run (ThrottlingQueue * list TaggedFlow) :=
  '(o, rest, r) ← send_all (out_queue q) cache;
  let q := q <| out_queue := o |> in
  let h := history q in
  match r with
  | Ok _ => Ret (q <| history := (h <| accepted := accepted h ++ cache |>) |>, rest)
  | Err _ => Ret (q <| history := (h <| rejected := rejected h ++ cache |>) |>, [])
  end.

Definition flush_cache_with_throttling (q : ThrottlingQueue) (now : Z) : run ThrottlingQueue :=
  if negb (bucket now =? bucket (last_flush_cache_with_throttling_time q)) then
    let q := update_throttle q in
    '(q, rest) ← send_cache q (cache_with_throttling q);
    Ret (q <| cache_with_throttling := rest |> <| last_flush_cache_with_throttling_time := now |> <| period_count := 0 |>)
  else Ret q.

Definition send_with_throttling (q : ThrottlingQueue) (f : TaggedFlow) : run (ThrottlingQueue * bool) :=
  let h := history q in
  let q := q <| period_count := period_count q +₆₄ 1 |> <| history := (h <| handed := handed h ++ [f] |>) |> in
  let h := history q in
  if Z.of_nat (length (cache_with_throttling q)) <? throttle q then
    Ret (q <| cache_with_throttling := cache_with_throttling q ++ [f] |>, true)
  else
    _ ← rassert (0 <? period_count q);
    let r := gen_range (reads q) (period_count q) in
    let q := q <| reads := S (reads q) |> in
    if r <? throttle q then
      old ← unwrap (cache_with_throttling q !! Z.to_nat r);
      Ret (q <| cache_with_throttling := <[Z.to_nat r := f]> (cache_with_throttling q) |>
             <| history := (h <| throttled := throttled h ++ [old] |>) |>, false)
    else Ret (q <| history := (h <| throttled := throttled h ++ [f] |>) |>, false).

Definition flush_cache_without_throttling (q : ThrottlingQueue) (now : Z) : run ThrottlingQueue :=
  if (CACHE_WITHOUT_THROTTLING_SIZE <=? length (cache_without_throttling q))%nat
     || negb (bucket now =? bucket (last_flush_cache_without_throttling_time q)) then
    '(q, rest) ← send_cache q (cache_without_throttling q);
    Ret (q <| cache_without_throttling := rest |> <| last_flush_cache_without_throttling_time := now |>)
  else Ret q.

Definition send_without_throttling (q : ThrottlingQueue) (f : TaggedFlow) : ThrottlingQueue :=
  let h := history q in
  q <| cache_without_throttling := cache_without_throttling q ++ [f] |> <| history := (h <| handed := handed h ++ [f] |>) |>.

(** ** The sender *)

(** The counters are shared with the aggregation; they are kept here. *)
Record Sender := { sd_output : ThrottlingQueue; metrics : FlowAggrCounter }.

#[export] Instance Sender_fields : Fields Sender := fun x => Build_Sender (sd_output x) (metrics x).

(** The ids of the PCAP actions of one policy. *)
Definition pcap_gids (gids : list Z) (p : option PolicyData) : list Z :=
  match p with
  | None => gids
  | Some p =>
      if negb (contain_pcap p) then gids
      else foldl (fun gids a => if decide (tunnel_type a = NpbPcap) then foldl U16Set_add gids (action_acl_gids a) else gids)
             gids (npb_actions p)
  end.

(** The flow as it is sent: its PCAP ids, and its times aligned. *)
Definition log_of (f : TaggedFlow) : TaggedFlow :=
  let f := f <| acl_gids := pcap_gids (pcap_gids [] (policy_src f)) (policy_dst f) |> in
  let f := if negb (is_new_flow (flow f))
    then f <| flow := (flow f) <| start_time := Timestamp.from_secs (start_time_in_minute f) |> |> else f in
  if decide (close_type (flow f) = ForcedReport)
  then f <| flow := (flow f) <| end_time := Timestamp.from_secs (Timestamp.as_secs (start_time (flow f)) +₆₄ SECONDS_IN_MINUTE) |> |>
  else f.

(** [get_timestamp(self.ntp_diff.load(Ordering::Relaxed))] *)
Definition get_timestamp (q : ThrottlingQueue) : ThrottlingQueue * Z := (q <| reads := S (reads q) |>, clock (reads q)).

Definition send_flow (s : Sender) (f : TaggedFlow) : run Sender :=
  let f := log_of f in
  let m := metrics s in
  let s := s <| metrics := (m <| out := out m +₆₄ 1 |>) |> in
  let m := metrics s in
  let '(q, now) := get_timestamp (sd_output s) in
  q ← flush_cache_with_throttling q now;
  q ← flush_cache_without_throttling q now;
  if hit_pcap_policy f then Ret (s <| sd_output := send_without_throttling q f |>)
  else
    '(q, kept) ← send_with_throttling q f;
    let s := s <| sd_output := q |> in
    if (kept : bool) then Ret s else Ret (s <| metrics := (m <| drop_in_throttle := drop_in_throttle m +₆₄ 1 |>) |>).

End sender.

(** ** Every flow is accounted for *)

(** The flows in the queue and those that left it are the flows handed to it,
    and the cache is a full reservoir of the period. *)
Definition ledger (q : ThrottlingQueue) : list TaggedFlow :=
  let h := history q in
  accepted h ++ cache_with_throttling q ++ cache_without_throttling q ++ throttled h ++ truncated h ++ rejected h.

Record queue_ok (q : ThrottlingQueue) : Prop := {
  qo_models : exists l, models (out_queue q) l;
  qo_throttle : fits 64 (throttle q);
  qo_cache : Z.of_nat (length (cache_with_throttling q)) = Z.min (period_count q) (throttle q);
  qo_period : 0 <= period_count q <= Z.of_nat (length (handed (history q)));
  qo_ledger : handed (history q) ≡ₚ ledger q;
}.

(** The batch is accepted as a whole, or refused and handed back. *)
Lemma send_all_outcome {T} (o : OverwriteQueue T) l msgs : models o l ->
  exists o' l', models o' l' /\ (send_all o msgs = Ret (o', [], Ok tt) \/ exists e, send_all o msgs = Ret (o', msgs, Err e)).
Proof.
  intros Hm. pose proof (exec_op_refines o l (OSendAll msgs) Hm) as H. unfold exec_op in H.
  destruct (spec_op _ _ _) as [[l' c] x] eqn:Hs. destruct H as (o' & Ho & Hm' & _).
  destruct (send_all o msgs) as [[[o1 rest] r]|]; [|done]. cbn in Ho. injection Ho as -> Hx. exists o', l'. split; [done|].
  unfold spec_op in Hs. repeat case_hyp Hs; simplify_eq; [right; by eexists..|by left].
Qed.

Ltac perm_solve := unfold ledger; cbn; rewrite ?app_nil_r; solve_Permutation.

Section accounting.
Context {E : AggrEnv} {EOk : AggrEnvOk E} {P : NpbPlugin}.

Lemma send_cache_ok q c l : models (out_queue q) l ->
  wp (send_cache q c) (fun '(q', rest) => rest = [] /\ exists o h l', models o l' /\ q' = q <| out_queue := o |> <| history := h |>
    /\ (h = (history q) <| accepted := accepted (history q) ++ c |> \/ h = (history q) <| rejected := rejected (history q) ++ c |>)).
Proof.
  intros Hm. destruct (send_all_outcome (out_queue q) l c Hm) as (o & l' & Hl & [H|[e H]]); unfold send_cache; rewrite H; cbn;
    (split; [done|]); exists o; eexists; exists l'; (split_and!; [done|reflexivity|]); [by left|by right].
Qed.

(** Neither the flows handed over so far nor the displaced heartbeats change. *)
Definition same_input (q q' : ThrottlingQueue) : Prop :=
  handed (history q') = handed (history q) /\ replaced (history q') = replaced (history q)
  /\ throttled (history q') = throttled (history q).

(** A new threshold within its range is a multiple of the bucket. *)
Lemma update_throttle_ok q : queue_ok q -> let q' := update_throttle q in
  (exists l, models (out_queue q') l) /\ fits 64 (throttle q') /\ handed (history q') ≡ₚ ledger q' /\ same_input q q'.
Proof.
  intros [[l Hl] Ht Hc Hp Hg]. cbv zeta. unfold update_throttle, same_input. repeat case_goal; (split; [by exists l|]); (split; [|split; [|done]]);
    try done.
  - apply wrap_fits. lia.
  - rewrite Hg. unfold ledger. cbn.
    rewrite <- (take_drop (Z.to_nat (wrap 64 (nps_threshold (reads q) * THROTTLE_BUCKET))) (cache_with_throttling q)) at 1. solve_Permutation.
Qed.

Lemma flush_with_ok q now : queue_ok q -> wp (flush_cache_with_throttling q now) (fun q' => queue_ok q' /\ same_input q q').
Proof.
  intros Hq. unfold flush_cache_with_throttling. case_goal; [|by split].
  destruct (update_throttle_ok q Hq) as ([l Hl] & Ht & Hg & (Hh & Hr & Hd)). set (q1 := update_throttle q) in *.
  apply wp_bind. eapply wp_mono; [by eapply send_cache_ok|]. intros [q2 rest] (-> & o & h & l' & Hl' & -> & Hx). cbn.
  pose proof (qo_period q Hq) as Hp. split.
  - assert (handed h = handed (history q1)) as Hhh by (destruct Hx as [-> | ->]; done).
    split; cbn; [by exists l'|done|unfold fits in Ht; lia|rewrite Hhh, Hh; lia|].
    rewrite Hhh, Hg. unfold ledger. destruct Hx as [-> | ->]; perm_solve.
  - unfold same_input. cbn. rewrite <- Hh, <- Hr, <- Hd. destruct Hx as [-> | ->]; done.
Qed.

Lemma flush_without_ok q now : queue_ok q -> wp (flush_cache_without_throttling q now) (fun q' => queue_ok q' /\ same_input q q').
Proof.
  intros Hq. unfold flush_cache_without_throttling. case_goal; [|by split]. destruct Hq as [[l Hl] Ht Hc Hp Hg].
  apply wp_bind. eapply wp_mono; [by eapply send_cache_ok|]. intros [q2 rest] (-> & o & h & l' & Hl' & -> & Hx). cbn. split.
  - assert (handed h = handed (history q)) as Hhh by (destruct Hx as [-> | ->]; done).
    split; cbn; [by exists l'|done|done|by rewrite Hhh|]. rewrite Hhh, Hg. unfold ledger. destruct Hx as [-> | ->]; perm_solve.
  - unfold same_input. cbn. destruct Hx as [-> | ->]; done.
Qed.

Lemma send_without_ok q f : queue_ok q -> queue_ok (send_without_throttling q f).
Proof.
  intros [Hl Ht Hc Hp Hg]. split; cbn; [done..| |].
  - rewrite length_app. cbn. lia.
  - rewrite Hg. perm_solve.
Qed.

(** A flow is kept, or one flow of the period is left out for it. *)
Lemma send_with_ok q f : queue_ok q -> Z.of_nat (length (handed (history q))) < 2 ^ 64 - 1 ->
  wp (send_with_throttling q f) (fun '(q', kept) => queue_ok q' /\ handed (history q') = handed (history q) ++ [f]
    /\ replaced (history q') = replaced (history q)
    /\ length (throttled (history q')) = (length (throttled (history q)) + if kept then 0 else 1)%nat).
Proof.
  intros [Hl Ht Hc Hp Hg] Hn. unfold send_with_throttling, fits in *.
  assert (period_count q +₆₄ 1 = period_count q + 1) as Hpc by (apply wadd_small; unfold fits; lia).
  cbn [period_count cache_with_throttling throttle history reads update ThrottlingQueue_fields]. cbn. rewrite Hpc. case_goal.
  - cbn. split_and!; [|done|done|lia]. split; cbn; [done|done|rewrite length_app; cbn; lia|rewrite length_app; cbn; lia|].
    rewrite Hg. perm_solve.
  - rewrite (proj2 (Z.ltb_lt 0 (period_count q + 1))) by lia. cbn.
    pose proof (gen_range_bound (reads q) (period_count q + 1) ltac:(lia)) as Hr. case_goal.
    + destruct (lookup_lt_is_Some_2 (cache_with_throttling q) (Z.to_nat (gen_range (reads q) (period_count q + 1)))) as [old Hold]; [lia|].
      rewrite Hold. cbn. split_and!; [|done|done|rewrite length_app; cbn; lia].
      split; cbn; [done|done|rewrite length_insert; lia|rewrite length_app; cbn; lia|].
      rewrite Hg. unfold ledger. cbn. rewrite <- (take_drop_middle _ _ _ Hold) at 1. rewrite insert_take_drop by lia. solve_Permutation.
    + cbn. split_and!; [|done|done|rewrite length_app; cbn; lia].
      split; cbn; [done|done|lia|rewrite length_app; cbn; lia|]. rewrite Hg. perm_solve.
Qed.

(** The counters agree with the history. *)
Record sender_ok (s : Sender) : Prop := {
  so_queue : queue_ok (sd_output s);
  so_out : out (metrics s) = wrap 64 (Z.of_nat (length (handed (history (sd_output s)))));
  so_drop : drop_in_throttle (metrics s) = wrap 64 (Z.of_nat (length (throttled (history (sd_output s)))));
}.

Lemma wrap_length_S w n m : 0 <= w -> m = (n + 1)%nat -> wadd w (wrap w (Z.of_nat n)) 1 = wrap w (Z.of_nat m).
Proof. intros Hw ->. unfold wadd, wrap. rewrite Zplus_mod_idemp_l. f_equal. lia. Qed.

Lemma read_ok q n : queue_ok q -> queue_ok (q <| reads := n |>).
Proof. by intros []. Qed.

Lemma send_flow_ok s f : sender_ok s -> Z.of_nat (length (handed (history (sd_output s)))) < 2 ^ 64 - 1 ->
  wp (send_flow s f) (fun s' => sender_ok s' /\ handed (history (sd_output s')) = handed (history (sd_output s)) ++ [log_of f]
    /\ replaced (history (sd_output s')) = replaced (history (sd_output s))
    /\ drop_before_window (metrics s') = drop_before_window (metrics s)).
Proof.
  intros [Hq Ho Hd] Hn. unfold send_flow. cbn.
  apply wp_bind. eapply wp_mono; [apply flush_with_ok, read_ok, Hq|]. intros q1 (Hq1 & Hh1 & Hr1 & Hd1).
  apply wp_bind. eapply wp_mono; [apply flush_without_ok, Hq1|]. intros q2 (Hq2 & Hh2 & Hr2 & Hd2). cbn in Hh1, Hr1, Hd1.
  case_goal; cbn.
  - rewrite Hh2, Hh1, Hr2, Hr1. split_and!; [|done..]. split; cbn; [by apply send_without_ok| |by rewrite Hd2, Hd1].
    rewrite Ho. apply wrap_length_S; [done|]. by rewrite Hh2, Hh1, length_app.
  - apply wp_bind. eapply wp_mono; [apply send_with_ok; [done|by rewrite Hh2, Hh1]|]. intros [q3 kept] (Hq3 & Hh3 & Hr3 & Hd3).
    assert (out (metrics s) +₆₄ 1 = wrap 64 (Z.of_nat (length (handed (history q3))))) as Hout.
    { rewrite Ho. apply wrap_length_S; [done|]. by rewrite Hh3, Hh2, Hh1, length_app. }
    destruct kept; cbn; rewrite Hh3, Hh2, Hh1, Hr3, Hr2, Hr1; (split_and!; [|done..]); split; cbn; try done.
    + rewrite Hd. do 2 f_equal. rewrite <- Hd1, <- Hd2. lia.
    + rewrite Hd. apply wrap_length_S; [done|]. by rewrite Hd3, Hd2, Hd1.
Qed.

Lemma Sender_new_ok o l : models o l -> nps_threshold 0 < 2 ^ 58 ->
  wp (ThrottlingQueue_new o) (fun q => sender_ok (Build_Sender q (Build_FlowAggrCounter 0 0 0 0 0 0 0 0))
    /\ handed (history q) = [] /\ replaced (history q) = []).
Proof.
  intros Hm Ht. pose proof (nps_threshold_fits 0) as Hf. unfold fits in Hf. unfold ThrottlingQueue_new. change THROTTLE_BUCKET with 4.
  rewrite wrap_small by (unfold fits; lia).
  rewrite (proj2 (Z.ltb_lt _ _)) by lia. cbn. split; [|done]. split; [|done..]. split; cbn; [by exists l|unfold fits; lia|lia|lia|done].
Qed.

End accounting.
