(* ===== verification/FlowSampling.v ===== *)
(** * The sampling of flow logs is fair (collector/flow_aggr.rs: send_with_throttling)

    Of the flows of one period the throttling queue keeps [throttle] by reservoir
    sampling.  [sample k m rs] are the positions of the flows it has after [k]
    flows that fill the cache and [m] more, for which the generator drew [rs].
    Counting over all draws shows that every flow has the same chance. *)

From S2P Require Import Prelude FlowMerge FlowLogSender.

(** ** Counting *)

Definition count {A} (p : A -> bool) (l : list A) : nat := length (List.filter p l).

Lemma count_app {A} (p : A -> bool) l1 l2 : count p (l1 ++ l2) = (count p l1 + count p l2)%nat.
Proof. unfold count. by rewrite List.filter_app, length_app. Qed.

Lemma count_map {A B} (p : B -> bool) (g : A -> B) l : count p (map g l) = count (fun x => p (g x)) l.
Proof. unfold count. induction l as [|x l IH]; [done|]. cbn. destruct (p (g x)); cbn; lia. Qed.

Lemma count_ext {A} (p q : A -> bool) l : Forall (fun x => p x = q x) l -> count p l = count q l.
Proof. unfold count. induction 1 as [|x l Hx _ IH]; [done|]. cbn. rewrite Hx. destruct (q x); cbn; lia. Qed.

Lemma count_flat_map {A B} (p : B -> bool) (q : A -> bool) (F : A -> list B) n l :
  Forall (fun x => count p (F x) = if q x then n else 0%nat) l -> count p (flat_map F l) = (n * count q l)%nat.
Proof.
  induction 1 as [|x l Hx _ IH]; [unfold count; cbn; lia|]. cbn [flat_map]. rewrite count_app, IH, Hx. unfold count. cbn [List.filter].
  destruct (q x); cbn [length]; lia.
Qed.

Lemma count_below k n : count (fun r => r <? k)%nat (seq 0 n) = Nat.min k n.
Proof.
  induction n as [|n IH]; [unfold count; cbn; lia|]. rewrite seq_S, count_app, IH. unfold count. cbn [List.filter Nat.add].
  destruct (Nat.ltb_spec n k); cbn [length]; lia.
Qed.

Lemma count_other i n : count (fun r => negb (r =? i)%nat) (seq 0 n) = (if (i <? n)%nat then n - 1 else n)%nat.
Proof.
  induction n as [|n IH]; [done|]. rewrite seq_S, count_app, IH. unfold count. cbn [List.filter Nat.add].
  destruct (Nat.eqb_spec n i); cbn [negb length]; repeat case_match; lia.
Qed.

Lemma count_none {A} (p : A -> bool) l : Forall (fun x => p x = false) l -> count p l = 0%nat.
Proof. unfold count. induction 1 as [|x l Hx _ IH]; [done|]. cbn. by rewrite Hx. Qed.

(** ** The sample *)

(** All draws for [m] flows after the cache is full with [k]. *)
Fixpoint draws (k m : nat) : list (list nat) :=
  match m with
  | O => [[]]
  | S m => flat_map (fun rs => map (fun r => rs ++ [r]) (seq 0 (k + m + 1))) (draws k m)
  end.

(** Draw [i] is below [k + i + 1]. *)
Definition valid_draws (k : nat) (rs : list nat) : Prop := forall i r, rs !! i = Some r -> (r < k + i + 1)%nat.

Lemma elem_of_draws k m : forall rs, rs ∈ draws k m <-> length rs = m /\ valid_draws k rs.
Proof.
  induction m as [|m IH]; intros rs; cbn [draws].
  - rewrite list_elem_of_singleton. split; [intros ->; by split|]. intros [Hl _]. by apply nil_length_inv.
  - rewrite list_elem_of_In, in_flat_map. split.
    + intros (rs' & Hin & Hr%in_map_iff). destruct Hr as (r & <- & Hr%in_seq). apply list_elem_of_In, IH in Hin as [Hl Hv].
      split; [rewrite length_app; cbn; lia|]. intros i x Hx. apply lookup_app_Some in Hx as [Hx|[Hge Hx]]; [by apply Hv|].
      apply list_lookup_singleton_Some in Hx as [Hi <-]. lia.
    + intros [Hl Hv]. destruct rs as [|r rs _] using rev_ind; [done|]. rewrite length_app in Hl. cbn in Hl. exists rs. split.
      * apply list_elem_of_In, IH. split; [lia|]. intros i x Hx. apply Hv. by apply lookup_app_l_Some.
      * apply in_map_iff. exists r. split; [done|]. apply in_seq. specialize (Hv (length rs) r). rewrite list_lookup_middle in Hv by done.
        specialize (Hv eq_refl). lia.
Qed.

Lemma draws_nodup k m : NoDup (draws k m).
Proof.
  induction m as [|m IH]; cbn [draws]; [apply NoDup_singleton|]. induction IH as [|rs l Hrs _ IH']; cbn [flat_map]; [apply NoDup_nil_2|].
  apply NoDup_app. split_and!; [|intros x Hx Hx'|exact IH'].
  - apply (NoDup_fmap_2_strong (fun r => rs ++ [r])); [|apply NoDup_seq]. intros r1 r2 _ _ He. apply app_inj_2 in He as [_ He]; [congruence|done].
  - apply list_elem_of_In, in_map_iff in Hx as (r & <- & _). apply list_elem_of_In, in_flat_map in Hx' as (rs' & Hin & Hr%in_map_iff).
    destruct Hr as (r' & He & _). apply app_inj_2 in He as [-> _]; [|done]. apply Hrs. by apply list_elem_of_In.
Qed.

Fixpoint sample (k m : nat) (rs : list nat) : list nat :=
  match m with
  | O => seq 0 k
  | S m => let c := sample k m rs in let r := rs !!! m in if (r <? k)%nat then <[r := (k + m)%nat]> c else c
  end.

Lemma draws_length k m : Forall (fun rs => length rs = m) (draws k m).
Proof.
  induction m as [|m IH]; [by apply Forall_singleton|]. cbn [draws]. apply Forall_forall. intros rs Hrs%list_elem_of_In.
  apply in_flat_map in Hrs as (rs' & Hin & Hr%in_map_iff). destruct Hr as (r & <- & _). rewrite Forall_forall in IH.
  rewrite length_app. cbn. rewrite (IH rs') by (by apply list_elem_of_In). lia.
Qed.

Lemma sample_prefix k m rs ys : (m <= length rs)%nat -> sample k m (rs ++ ys) = sample k m rs.
Proof.
  induction m as [|m IH]; intros Hm; [done|]. cbn [sample]. rewrite IH by lia.
  replace ((rs ++ ys) !!! m) with (rs !!! m); [done|]. by rewrite !list_lookup_total_alt, lookup_app_l by lia.
Qed.

Lemma sample_length k m rs : length (sample k m rs) = k.
Proof. induction m as [|m IH]; cbn [sample]; [apply length_seq|]. cbv zeta. case_match; [by rewrite length_insert|done]. Qed.

Lemma sample_bound k m rs : Forall (fun x => x < k + m)%nat (sample k m rs).
Proof.
  induction m as [|m IH]; cbn [sample].
  - apply Forall_forall. intros x Hx%elem_of_seq. lia.
  - assert (Forall (fun x => x < k + S m)%nat (sample k m rs)) as IH' by (eapply Forall_impl; [exact IH|]; cbn; lia).
    case_match; [|done]. apply Forall_insert; [done|lia].
Qed.

Lemma sample_nodup k m rs : NoDup (sample k m rs).
Proof.
  induction m as [|m IH]; cbn [sample]; [apply NoDup_seq|]. cbv zeta. case_match; [|done].
  apply NoDup_alt. intros i j x Hi Hj. rewrite NoDup_alt in IH. pose proof (sample_bound k m rs) as Hb. rewrite Forall_lookup in Hb.
  apply list_lookup_insert_Some in Hi as [(Hi & Hx & _)|[Hni Hi]], Hj as [(Hj & Hy & _)|[Hnj Hj]]; [congruence|..|by eapply IH].
  - specialize (Hb _ _ Hj). cbn in Hb. lia.
  - specialize (Hb _ _ Hi). cbn in Hb. lia.
Qed.

Definition kept_in (k m j : nat) (rs : list nat) : bool := bool_decide (j ∈ sample k m rs).

(** The draws of one step that keep [j]. *)
Lemma count_step k m j rs : length rs = m -> (j < k + S m)%nat ->
  count (fun r => kept_in k (S m) j (rs ++ [r])) (seq 0 (k + m + 1))
  = if (j =? k + m)%nat then k else if kept_in k m j rs then (k + m)%nat else 0%nat.
Proof.
  intros Hl Hj. pose proof (sample_length k m rs) as Hs. pose proof (sample_bound k m rs) as Hb. rewrite Forall_forall in Hb.
  assert (forall r, sample k (S m) (rs ++ [r]) = if (r <? k)%nat then <[r := (k + m)%nat]> (sample k m rs) else sample k m rs) as Hstep.
  { intros r. cbn [sample]. rewrite sample_prefix by lia. replace ((rs ++ [r]) !!! m) with r; [done|].
    rewrite list_lookup_total_alt, lookup_app_r, <- Hl, Nat.sub_diag by lia. done. }
  unfold kept_in. destruct (Nat.eqb_spec j (k + m)) as [->|Hne].
  - rewrite (count_ext _ (fun r => r <? k)%nat), count_below; [lia|]. apply Forall_forall. intros r _. rewrite Hstep.
    destruct (Nat.ltb_spec r k).
    + apply bool_decide_eq_true. apply list_elem_of_lookup. exists r. apply list_lookup_insert_eq. lia.
    + apply bool_decide_eq_false. intros Hin. specialize (Hb _ Hin). cbn in Hb. lia.
  - destruct (bool_decide_reflect (j ∈ sample k m rs)) as [Hin|Hin].
    + apply list_elem_of_lookup in Hin as [i Hi]. pose proof (lookup_lt_Some _ _ _ Hi).
      rewrite (count_ext _ (fun r => negb (r =? i)%nat)), count_other.
      { rewrite (proj2 (Nat.ltb_lt _ _)) by lia. lia. }
      apply Forall_forall. intros r _. rewrite Hstep. destruct (Nat.eqb_spec r i) as [->|Hri]; cbn [negb].
      * rewrite (proj2 (Nat.ltb_lt _ _)) by lia. apply bool_decide_eq_false. intros Hx. apply list_elem_of_lookup in Hx as [i' Hi'].
        apply list_lookup_insert_Some in Hi' as [(_ & ? & _)|[Hii Hi']]; [lia|]. apply Hii.
        pose proof (sample_nodup k m rs) as Hnd. rewrite NoDup_alt in Hnd. by eapply Hnd.
      * apply bool_decide_eq_true, list_elem_of_lookup. exists i. destruct (r <? k)%nat; [by rewrite list_lookup_insert_ne|done].
    + apply count_none, Forall_forall. intros r _. rewrite Hstep. apply bool_decide_eq_false. intros Hx. apply Hin.
      destruct (r <? k)%nat; [|done]. apply list_elem_of_lookup in Hx as [i' Hi'].
      apply list_lookup_insert_Some in Hi' as [(_ & ? & _)|[_ Hi']]; [lia|]. by eapply list_elem_of_lookup_2.
Qed.

(** Each of [k + m] flows is kept for a share of [k / (k + m)] of the draws. *)
Lemma sample_fair k m : forall j, (j < k + m)%nat -> (count (kept_in k m j) (draws k m) * (k + m) = k * length (draws k m))%nat.
Proof.
  induction m as [|m IH]; intros j Hj.
  - unfold count. cbn [draws List.filter]. replace (kept_in k 0 j []) with true; [cbn; lia|]. symmetry. apply bool_decide_eq_true, elem_of_seq. lia.
  - assert (length (draws k (S m)) = (k + m + 1) * length (draws k m))%nat as Htot.
    { pose proof (count_flat_map (fun _ => true) (fun _ => true) (fun rs => map (fun r => rs ++ [r]) (seq 0 (k + m + 1))) (k + m + 1) (draws k m)) as H.
      assert (forall A (l : list A), count (fun _ => true) l = length l) as Hall by (intros A l; unfold count; induction l; cbn; [done|lia]).
      rewrite !Hall in H. apply H. apply Forall_forall. intros rs _. by rewrite Hall, length_map, length_seq. }
    pose proof (draws_length k m) as Hlen. rewrite Forall_forall in Hlen. rewrite Htot. cbn [draws]. destruct (decide (j = k + m)%nat) as [->|Hne].
    + rewrite (count_flat_map _ (fun _ => true) _ k).
      { unfold count. assert (forall l : list (list nat), List.filter (fun _ => true) l = l) as -> by (intros l; induction l; cbn; congruence). lia. }
      apply Forall_forall. intros rs Hrs. rewrite count_map, (count_step k m _ rs (Hlen _ Hrs)) by lia. by rewrite Nat.eqb_refl.
    + rewrite (count_flat_map _ (kept_in k m j) _ (k + m)).
      { specialize (IH j ltac:(lia)). nia. }
      apply Forall_forall. intros rs Hrs. rewrite count_map, (count_step k m _ rs (Hlen _ Hrs)) by lia. by rewrite (proj2 (Nat.eqb_neq _ _)).
Qed.

Lemma sample_S k m rs : sample k (S m) rs = if (rs !!! m <? k)%nat then <[rs !!! m := (k + m)%nat]> (sample k m rs) else sample k m rs.
Proof. done. Qed.

Arguments sample : simpl never.

(** ** The queue follows the draws *)

Lemma rfold_snoc {A B} (f : B -> A -> run B) l x b : rfold f (l ++ [x]) b = b ← rfold f l b; f b x.
Proof. revert b. induction l as [|y l IH]; intros b; cbn [rfold app]; [by cbn; destruct (f b x)|]. destruct (f b y); [apply IH|done]. Qed.

(** The environment in which the generator draws [rs], from reading [n0] on. *)
Definition scripted (E : AggrEnv) (n0 : nat) (rs : list nat) : AggrEnv :=
  {| clock := clock; nps_threshold := nps_threshold; gen_range n _ := Z.of_nat (rs !!! (n - n0)%nat);
     drain_order := drain_order; stashs_capacity := stashs_capacity |}.

(** [send_with_throttling] on each flow of a period. *)
Definition offer {E : AggrEnv} (q : ThrottlingQueue) (fs : list TaggedFlow) : run ThrottlingQueue :=
  rfold (fun q f => fst <$> send_with_throttling q f) fs q.

Section offer.
Context (E : AggrEnv) (q : ThrottlingQueue) (k : nat).
Context (Hcache : cache_with_throttling q = []) (Hperiod : period_count q = 0) (Hthrottle : throttle q = Z.of_nat k).

(** The state of the queue after some flows of the period. *)
Record at_flow (n : nat) (q' : ThrottlingQueue) : Prop := {
  af_throttle : throttle q' = Z.of_nat k;
  af_period : period_count q' = Z.of_nat n;
  af_reads : reads q' = (reads q + (n - k))%nat;
}.

Lemma offer_fill rs fs : (length fs <= k)%nat -> Z.of_nat k < 2 ^ 64 ->
  wp (offer (E := scripted E (reads q) rs) q fs) (fun q' => at_flow (length fs) q' /\ cache_with_throttling q' = fs).
Proof using Hcache Hperiod Hthrottle.
  intros Hl Hk. unfold offer. induction fs as [|x fs IH] using rev_ind; cbn [rfold]. { split; [split; cbn; [done|done|lia]|done]. }
  rewrite rfold_snoc. rewrite length_app in *. cbn [length] in *. apply wp_bind. eapply wp_mono; [apply IH; lia|].
  intros q1 ([Ht Hp Hr] & Hc). unfold send_with_throttling. cbn. rewrite Hc, Ht, Hp, (proj2 (Z.ltb_lt _ _)) by lia. cbn. split; [|done].
  split; cbn; [done|rewrite wadd_small by (unfold fits; lia); lia|lia].
Qed.

Lemma offer_sample m : forall fs rs, length fs = (k + m)%nat -> (m <= length rs)%nat -> Z.of_nat (k + m) < 2 ^ 64 ->
  wp (offer (E := scripted E (reads q) rs) q fs) (fun q' => at_flow (k + m) q' /\ (Some <$> cache_with_throttling q') = (fun j => fs !! j) <$> sample k m rs).
Proof using Hcache Hperiod Hthrottle.
  induction m as [|m IH]; intros fs rs Hl Hr Hn.
  { eapply wp_mono; [apply offer_fill; lia|]. intros q' (Ha & ->). rewrite Hl in Ha. split; [done|]. unfold sample.
    apply list_eq. intros i. rewrite !list_lookup_fmap. destruct (decide (i < k)%nat).
    - rewrite lookup_seq_lt by lia. destruct (lookup_lt_is_Some_2 fs i) as [x Hx]; [lia|]. cbn. by rewrite Hx.
    - rewrite lookup_seq_ge by lia. by rewrite lookup_ge_None_2 by lia. }
  destruct fs as [|x fs _] using rev_ind; [cbn in Hl; lia|]. rewrite length_app in Hl. cbn in Hl.
  unfold offer. rewrite rfold_snoc. apply wp_bind. eapply wp_mono; [apply (IH fs rs); lia|].
  intros q1 ([Ht Hp Hrd] & Hc).
  assert (length (cache_with_throttling q1) = k) as Hlen by (rewrite <- (length_fmap Some), Hc, length_fmap; apply sample_length).
  assert (((fun j => (fs ++ [x]) !! j) <$> sample k m rs) = ((fun j => fs !! j) <$> sample k m rs)) as Hfs.
  { apply list_fmap_ext. intros i j Hj. pose proof (sample_bound k m rs) as Hb. rewrite Forall_lookup in Hb. specialize (Hb _ _ Hj). cbn in Hb.
    by rewrite lookup_app_l by lia. }
  unfold send_with_throttling. cbn [gen_range scripted]. cbn. rewrite Hlen, Ht, Hp, (proj2 (Z.ltb_ge _ _)) by lia.
  rewrite wadd_small by (unfold fits; lia). rewrite (proj2 (Z.ltb_lt 0 _)) by lia. cbn [rassert mbind run_bind].
  rewrite Hrd. replace (reads q + (k + m - k) - reads q)%nat with m by lia. set (r := rs !!! m) in *.
  destruct (Nat.ltb_spec r k).
  - rewrite (proj2 (Z.ltb_lt _ _)), Nat2Z.id by lia. destruct (lookup_lt_is_Some_2 (cache_with_throttling q1) r) as [old ->]; [lia|]. cbn.
    split; [split; cbn; [done|lia|lia]|]. rewrite sample_S. fold r. rewrite (proj2 (Nat.ltb_lt _ _)) by lia.
    rewrite !list_fmap_insert, Hc, Hfs. f_equal. rewrite lookup_app_r by lia. by replace (k + m - length fs)%nat with 0%nat by lia.
  - rewrite (proj2 (Z.ltb_ge _ _)) by lia. cbn. split; [split; cbn; [done|lia|lia]|]. rewrite sample_S. fold r. rewrite (proj2 (Nat.ltb_ge _ _)) by lia. by rewrite Hc, Hfs.
Qed.

End offer.

(** C29: the sampling is fair.  Let [k + m] flows be offered in one period to a queue with
    threshold [k].  For every sequence of draws the generator can make, draw
    [i] being below [k + i + 1], the cache ends with exactly the [k] flows of
    [sample]; and each flow, whenever it came, is kept for the same share
    [k / (k + m)] of all these sequences. *)
Theorem throttle_sampling_fair (E : AggrEnv) q k m fs :
  cache_with_throttling q = [] -> period_count q = 0 -> throttle q = Z.of_nat k -> length fs = (k + m)%nat -> Z.of_nat (k + m) < 2 ^ 64 ->
  NoDup (draws k m) /\ (forall rs, rs ∈ draws k m <-> length rs = m /\ valid_draws k rs)
  /\ (forall rs, rs ∈ draws k m -> exists q', offer (E := scripted E (reads q) rs) q fs = Ret q'
        /\ (Some <$> cache_with_throttling q') = (fun j => fs !! j) <$> sample k m rs)
  /\ (forall j, (j < k + m)%nat -> (count (kept_in k m j) (draws k m) * (k + m) = k * length (draws k m))%nat).
Proof.
  intros Hc Hp Ht Hl Hn. split_and!; [apply draws_nodup|apply elem_of_draws| |apply sample_fair].
  intros rs [Hr _]%elem_of_draws. destruct (proj1 (wp_exists _ _) (offer_sample E q k Hc Hp Ht m fs rs Hl ltac:(lia) Hn)) as (q' & Hq & _ & Hs).
  by exists q'.
Qed.
