(* ===== verification/FlowAggr.v ===== *)
(** * Aggregation of flow logs (collector/flow_aggr.rs: FlowAggr)

    The thread between the flow map and the flow log: the reports of a flow, one
    a second, are merged into one log per minute of the flow.  A ring of slots,
    one per second, has the open logs of the flows whose minute starts in that
    second; when a report is past the last slot the oldest slots are sent.
    Heartbeats (TCP connections that end with a reset of the client and carried no
    data) of the same client, server and port are merged in a chronological
    map.  [heartbeat_buffer] of the code is never used. *)

From stdpp Require Import gmap.
From S2P Require Import Prelude Timestamp TapTypes Flow FlowMerge OverwriteQueue ChronoMap FlowLogSender.

Record CollectorConfig := {
  l4_log_ignore_tap_sides : list bool;
  l4_log_store_tap_types : list bool;
  aggregate_health_check_l4_flow_log : bool;
}.

Record FlowAggr := {
  slot_start_time : Z;
  flow_stashs : list (gmap Z TaggedFlow);
  heartbeat_flow_stash : ChronoMap HeartbeatAggrKey TaggedFlow;
  stash_init_capacity : Z;
  slot_count : Z;
  flush_timeout : Z;
  last_flush_time : Z;
  sender : Sender;
}.

#[export] Instance FlowAggr_fields : Fields FlowAggr := fun x =>
  Build_FlowAggr (slot_start_time x) (flow_stashs x) (heartbeat_flow_stash x) (stash_init_capacity x) (slot_count x)
    (flush_timeout x) (last_flush_time x) (sender x).

Definition TIMESTAMP_SLOT_COUNT : Z := SECONDS_IN_MINUTE.
Definition MIN_STASH_CAPACITY_SECOND : Z := 1024.

(** An update of the shared counters. *)
Definition on_metrics (g : FlowAggrCounter -> FlowAggrCounter) (a : FlowAggr) : FlowAggr :=
  a <| sender := (sender a) <| metrics := g (metrics (sender a)) |> |>.

Section aggr.
Context {E : AggrEnv} {P : NpbPlugin}.

Definition FlowAggr_new (output : OverwriteQueue TaggedFlow) (delay : Z) : run FlowAggr :=
  let slot_count := TIMESTAMP_SLOT_COUNT + Timestamp.as_secs delay in
  q ← ThrottlingQueue_new output;
  Ret (Build_FlowAggr 0 (replicate (Z.to_nat slot_count) ∅) ChronoMap.new MIN_STASH_CAPACITY_SECOND slot_count
         (from_secs slot_count) 0 (Build_Sender q (Build_FlowAggrCounter 0 0 0 0 0 0 0 0))).

(** The decision to shrink the emptied map; its capacity is not modelled. *)
Definition shrink_stash (a : FlowAggr) (stash_len : Z) : FlowAggr :=
  if (stash_init_capacity a <? stashs_capacity) && (2 * stash_len <? stashs_capacity)
  then on_metrics (fun m => m <| stash_shrinks := stash_shrinks m +₆₄ 1 |>) a else a.

Definition flush_front_slot_and_rotate (a : FlowAggr) : run FlowAggr :=
  match flow_stashs a with
  | [] => Panic
  | flow_stash :: rest =>
      s ← rfold send_flow (drain_order flow_stash) (sender a);
      let a := a <| sender := s |> in
      let a := shrink_stash a (Z.of_nat (length rest)) in
      let a := a <| flow_stashs := rest ++ [∅] |> in
      let '(q, now) := get_timestamp (sd_output (sender a)) in
      let a := a <| sender := (sender a) <| sd_output := q |> |> <| last_flush_time := now |> in
      t ← duration_add (slot_start_time a) (from_secs 1);
      Ret (a <| slot_start_time := t |>)
  end.

(** [for _ in 0..n { self.flush_front_slot_and_rotate() }] *)
Fixpoint rotate (n : nat) (a : FlowAggr) : run FlowAggr :=
  match n with
  | O => Ret a
  | S n => a ← flush_front_slot_and_rotate a; rotate n a
  end.

(** The callback of [forward_time], which sends the heartbeat and lets it go. *)
Definition send_heartbeat (s : run Sender) (item : TaggedFlow) : run Sender * TaggedFlow * option Z :=
  (s ≫= (fun s => send_flow s item), item, None).

Definition flush_slots (a : FlowAggr) (config : CollectorConfig) (n : Z) : run FlowAggr :=
  a ← rotate (Z.to_nat (Z.min n (slot_count a))) a;
  t ← (if slot_count a <? n then duration_add (slot_start_time a) (from_secs (n - slot_count a)) else Ret (slot_start_time a));
  let a := a <| slot_start_time := t |> in
  if aggregate_health_check_l4_flow_log config then
    '(h, s) ← forward_time send_heartbeat (heartbeat_flow_stash a) (Timestamp.from_duration (slot_start_time a)) (Ret (sender a));
    s ← s;
    Ret (a <| heartbeat_flow_stash := h |> <| sender := s |>)
  else Ret a.

(** [self.heartbeat_flow_stash.insert], whose displaced entry is dropped *)
Definition insert_heartbeat (a : FlowAggr) (flow_time : Z) (key : HeartbeatAggrKey) (f : TaggedFlow) : run FlowAggr :=
  '(h, old) ← ChronoMap.insert (heartbeat_flow_stash a) flow_time key f;
  let a := a <| heartbeat_flow_stash := h |> in
  match old with
  | None => Ret a
  | Some old =>
      let q := sd_output (sender a) in
      let hist := history q in
      Ret (a <| sender := (sender a) <| sd_output := (q <| history := (hist <| replaced := replaced hist ++ [old] |>) |>) |> |>)
  end.

(** The merge of a heartbeat into the one of its key; the client's port is no longer one port. *)
Definition merge_heartbeat (new_hb_flow hb_flow : TaggedFlow) : TaggedFlow :=
  let f := TaggedFlow_sequential_merge hb_flow new_hb_flow in
  f <| flow := (flow f) <| flow_key := (flow_key (flow f)) <| fk_port_src := 0 |> |>
                 <| flow_metrics_src := (flow_metrics_src (flow f)) <| nat_real_port := 0 |> |> |>.

Definition add_heartbeat (a : FlowAggr) (flow_time : Z) (new_hb_flow : TaggedFlow) : run FlowAggr :=
  let key := get_heartbeat_aggr_key new_hb_flow in
  o ← ChronoMap.get (heartbeat_flow_stash a) key;
  match o with
  | Some _ =>
      h ← ChronoMap.get_mut (heartbeat_flow_stash a) key (merge_heartbeat new_hb_flow);
      Ret (on_metrics (fun m => m <| heartbeat_aggred := heartbeat_aggred m +₆₄ 1 |>) (a <| heartbeat_flow_stash := h |>))
  | None => insert_heartbeat a flow_time key new_hb_flow
  end.

Definition set_stash (a : FlowAggr) (i : nat) (m : gmap Z TaggedFlow) : FlowAggr := a <| flow_stashs := <[i := m]> (flow_stashs a) |>.

Definition send_log (a : FlowAggr) (f : TaggedFlow) : run FlowAggr := s ← send_flow (sender a) f; Ret (a <| sender := s |>).

(** The log of the flow after one more report. *)
Definition merge_report (g f : TaggedFlow) : TaggedFlow :=
  let g := if Bool.eqb (reversed (flow g)) (reversed (flow f)) then g
    else (TaggedFlow_reverse g) <| flow_perf_stats := FlowPerfStats_reverse <$> flow_perf_stats (TaggedFlow_reverse g) |> in
  TaggedFlow_sequential_merge g f.

(** What happens in the slot of the report. *)
Definition merge_in_slot (a : FlowAggr) (config : CollectorConfig) (flow_time : Z) (i : nat) (f : TaggedFlow) : run FlowAggr :=
  flow_stash ← unwrap (flow_stashs a !! i);
  let id := flow_id (flow f) in
  match flow_stash !! id with
  | Some g =>
      let g := merge_report g f in
      let close_type := close_type (flow g) in
      if aggregate_health_check_l4_flow_log config && bool_decide (close_type = TcpFinClientRst)
      then add_heartbeat (set_stash a i (delete id flow_stash)) flow_time g
      else if bool_decide (close_type <> ForcedReport) then send_log (set_stash a i (delete id flow_stash)) g
      else Ret (set_stash a i (<[id := g]> flow_stash))
  | None =>
      if aggregate_health_check_l4_flow_log config && bool_decide (close_type (flow f) = TcpFinClientRst)
      then insert_heartbeat a flow_time (get_heartbeat_aggr_key f) f
      else if bool_decide (close_type (flow f) <> ForcedReport) then send_log a f
      else Ret (set_stash a i (<[id := f]> flow_stash))
  end.

Definition minute_merge (a : FlowAggr) (config : CollectorConfig) (f : TaggedFlow) : run FlowAggr :=
  let flow_time := Timestamp.from_secs (start_time_in_minute f) in
  if flow_time <? Timestamp.from_duration (slot_start_time a)
  then Ret (on_metrics (fun m => m <| drop_before_window := drop_before_window m +₆₄ 1 |>) a)
  else
    d ← Timestamp.sub flow_time (Timestamp.from_duration (slot_start_time a));
    let time_slot := Timestamp.as_secs d in
    if slot_count a <=? time_slot then
      a ← flush_slots a config (time_slot - slot_count a + 1);
      merge_in_slot a config flow_time (Z.to_nat (slot_count a - 1)) f
    else merge_in_slot a config flow_time (Z.to_nat time_slot) f.

Definition calc_stash_counters (a : FlowAggr) : FlowAggr :=
  on_metrics (fun m => m <| stash_total_len := Z.of_nat (length (flow_stashs a)) |> <| stash_total_capacity := stashs_capacity |>
    <| heartbeat_cached := Z.of_nat (ChronoMap.len (heartbeat_flow_stash a)) |>) a.

(** ** The loop of the thread *)

(** The filters on the side of the capture and on its network type. *)
Definition is_stored (config : CollectorConfig) (f : TaggedFlow) : run bool :=
  ignored ← unwrap (l4_log_ignore_tap_sides config !! Z.to_nat (TapSide_u8 (tap_side f)));
  if (ignored : bool) && negb (need_to_store f) then Ret false
  else
    any ← unwrap (l4_log_store_tap_types config !! Z.to_nat (CaptureNetworkType.to_u16 CaptureNetworkType.Any));
    if any : bool then Ret true
    else
      stored ← unwrap (l4_log_store_tap_types config !! Z.to_nat (CaptureNetworkType.to_u16 (fk_tap_type (flow_key (flow f)))));
      Ret ((stored : bool) || need_to_store f).

Definition on_report (config : CollectorConfig) (a : FlowAggr) (f : TaggedFlow) : run FlowAggr :=
  stored ← is_stored config f;
  if stored : bool then minute_merge a config f else Ret a.

Definition on_timeout (a : FlowAggr) : run FlowAggr :=
  let '(q, now) := get_timestamp (sd_output (sender a)) in
  q ← flush_cache_with_throttling q now;
  q ← flush_cache_without_throttling q now;
  let a := a <| sender := (sender a) <| sd_output := q |> |> in
  t ← duration_add (last_flush_time a) (flush_timeout a);
  if t <? now then flush_front_slot_and_rotate a else Ret a.

(** One round of the loop with what [recv_all] gave; [None] ends it. *)
Definition round (a : FlowAggr) (config : CollectorConfig) (r : result (list TaggedFlow) (Error TaggedFlow)) : run (option FlowAggr) :=
  match r with
  | Ok batch => a ← rfold (on_report config) batch a; Ret (Some (calc_stash_counters a))
  | Err Timeout => Some <$> on_timeout a
  | Err (Terminated _ _) => Ret None
  | Err (BatchTooLarge _) => Panic
  end.

(** [FlowAggr::run] on what it receives, with the configuration of each round *)
Fixpoint FlowAggr_run (a : FlowAggr) (inputs : list (CollectorConfig * result (list TaggedFlow) (Error TaggedFlow))) : run FlowAggr :=
  match inputs with
  | [] => Ret a
  | (config, r) :: inputs =>
      o ← round a config r;
      match o with Some a => FlowAggr_run a inputs | None => Ret a end
  end.

(** [FlowAggrCounter::get_counters]: the values, and the counters after it *)
Definition get_counters (m : FlowAggrCounter) : FlowAggrCounter * list Z :=
  (m <| drop_before_window := 0 |> <| out := 0 |> <| drop_in_throttle := 0 |> <| stash_shrinks := 0 |> <| heartbeat_aggred := 0 |>,
   [drop_before_window m; out m; drop_in_throttle m; stash_total_len m; stash_total_capacity m; stash_shrinks m;
    heartbeat_aggred m; heartbeat_cached m]).

End aggr.
