(* ===== verification/FlowAggrSpec.v ===== *)
(** * What becomes of the reports of a flow (collector/flow_aggr.rs)

    Every report that the aggregation takes ends up in one log: one that was
    handed to the sender, an open log of a slot, a waiting heartbeat, or a
    heartbeat that another one displaced.  Counters of packets and bytes are
    followed through merges, reversals and flushes by measures. *)

From stdpp Require Import gmap.
From S2P Require Import Prelude Timestamp TapTypes Flow FlowMerge OverwriteQueue QueueSpec ChronoMap ChronoHeap ChronoOps ChronoSpec ChronoForward ChronoTraces.
From S2P Require Import FlowLogSender FlowAggr.

(** ** Sums over maps *)

Section sums.
Context {K V : Type} `{Countable K} (ν : V -> Z).

Definition sum_map (m : gmap K V) : Z := sumZ ν (map_to_list m).*2.

Lemma sum_map_empty : sum_map ∅ = 0.
Proof. unfold sum_map. by rewrite map_to_list_empty. Qed.

Lemma sum_map_delete m k v : m !! k = Some v -> sum_map m = ν v + sum_map (delete k m).
Proof. intros Hk. unfold sum_map. by rewrite <- (map_to_list_delete m k v Hk). Qed.

Lemma sum_map_insert_new m k v : m !! k = None -> sum_map (<[k := v]> m) = ν v + sum_map m.
Proof. intros Hk. unfold sum_map. by rewrite map_to_list_insert. Qed.

Lemma sum_map_insert m k v g : m !! k = Some g -> sum_map (<[k := v]> m) = sum_map m - ν g + ν v.
Proof.
  intros Hk. rewrite (sum_map_delete m k g Hk), (sum_map_delete _ k v) by apply lookup_insert_eq. rewrite delete_insert_eq. lia.
Qed.

(** The entries of a chronological map. *)
Abbreviation amap := (list (Z * list (K * V))).

Definition a_entries (a : amap) : list (K * V) := mjoin (snd <$> a).
Definition sum_chrono (a : amap) : Z := sumZ ν (a_entries a).*2.

Lemma a_entries_cons c a : a_entries (c :: a) = c.2 ++ a_entries a.
Proof. done. Qed.

Lemma a_entries_push t kv a : a_entries (a_push t kv a) ≡ₚ kv :: a_entries a.
Proof.
  induction a as [|[t' ns] a IH]; cbn [a_push]; [done|]. repeat case_goal; rewrite !a_entries_cons; cbn [snd]; [|done..].
  rewrite IH. solve_Permutation.
Qed.

Lemma entries_filter (ns : list (K * V)) k v : NoDup ns.*1 -> (k, v) ∈ ns -> ns ≡ₚ (k, v) :: filter (fun kv => kv.1 <> k) ns.
Proof.
  induction ns as [|[k' v'] ns IH]; intros Hn Hin; [by apply elem_of_nil in Hin|]. inversion_clear Hn as [|? ? Hk Hn'].
  destruct (decide (k' = k)) as [->|Hne].
  - rewrite filter_cons_False by (cbn; naive_solver). apply elem_of_cons in Hin as [[= ->]|Hin].
    + rewrite filter_all; [done|]. apply Forall_forall. intros [k1 v1] H1 H2. cbn in H2. subst. apply Hk. by apply (list_elem_of_fmap_2 fst _ _ H1).
    + destruct Hk. by apply (list_elem_of_fmap_2 fst _ _ Hin).
  - rewrite filter_cons_True by done. apply elem_of_cons in Hin as [?|Hin]; [naive_solver|]. rewrite (IH Hn' Hin) at 1. apply perm_swap.
Qed.

Lemma a_entries_del k a : a_entries (a_del k a) = filter (fun kv => kv.1 <> k) (a_entries a).
Proof.
  induction a as [|[t ns] a IH]; [done|]. cbn [a_del]. rewrite a_entries_cons, filter_app. cbn [snd].
  destruct (filter _ ns) eqn:Hf; [done|]. by rewrite a_entries_cons, IH.
Qed.

Lemma a_find_entry k a t v : a_find k a = Some (t, v) -> (k, v) ∈ a_entries a.
Proof.
  induction a as [|[t' ns] a IH]; cbn [a_find]; [done|]. rewrite a_entries_cons. intros Hf. apply elem_of_app.
  destruct (list_find _ ns) as [[i [k' v']]|] eqn:Hl; [|right; by apply IH]. left. apply list_find_Some in Hl as (Hl & Hk & _).
  cbn in Hk. simplify_eq/=. by apply list_elem_of_lookup_2 in Hl.
Qed.

Lemma sum_chrono_push t k v a : sum_chrono (a_push t (k, v) a) = ν v + sum_chrono a.
Proof. unfold sum_chrono. by rewrite a_entries_push. Qed.

Lemma sum_chrono_del k a t v : NoDup (a_keys a) -> a_find k a = Some (t, v) -> sum_chrono a = ν v + sum_chrono (a_del k a).
Proof.
  intros Hn Hf. unfold sum_chrono. rewrite a_entries_del. by rewrite (entries_filter (a_entries a) k v Hn (a_find_entry _ _ _ _ Hf)) at 1.
Qed.

Lemma a_entries_set k f a : a_entries (a_set k f a) = (fun kv => (kv.1, if decide (kv.1 = k) then f kv.2 else kv.2)) <$> a_entries a.
Proof. induction a as [|[t ns] a IH]; [done|]. cbn [a_set fmap list_fmap]. rewrite !a_entries_cons, fmap_app. by f_equal. Qed.

Lemma sum_chrono_set k f a t v : NoDup (a_keys a) -> a_find k a = Some (t, v) ->
  sum_chrono (a_set k f a) = sum_chrono a - ν v + ν (f v).
Proof.
  intros Hn Hf. unfold sum_chrono. rewrite a_entries_set.
  pose proof (entries_filter (a_entries a) k v Hn (a_find_entry _ _ _ _ Hf)) as Hp. rewrite Hp at 2.
  assert (forall xs ys : list (K * V), xs ≡ₚ ys -> forall g : K * V -> K * V, sumZ ν (g <$> xs).*2 = sumZ ν (g <$> ys).*2) as Hg
    by (intros xs ys Hxy g; by rewrite Hxy).
  rewrite (Hg _ _ Hp). cbn [fmap list_fmap fst snd]. rewrite decide_True by done. rewrite !sumZ_cons.
  assert (forall xs : list (K * V), Forall (fun kv => kv.1 <> k) xs ->
    ((fun kv => (kv.1, if decide (kv.1 = k) then f kv.2 else kv.2)) <$> xs) = xs) as Hid.
  { induction 1 as [|[k1 v1] xs H1 _ IH]; [done|]. cbn in *. rewrite decide_False by done. by rewrite IH. }
  rewrite Hid; [lia|]. apply Forall_forall. intros kv Hkv. by apply list_elem_of_filter in Hkv as [? _].
Qed.

(** An insertion exchanges the entry of the key for the new one. *)
Lemma sum_chrono_insert t k v a : NoDup (a_keys a) ->
  sum_chrono (a_insert t k v a).1 + from_option ν 0 (a_insert t k v a).2 = sum_chrono a + ν v.
Proof.
  intros Hn. unfold a_insert. destruct (a_find k a) as [[t' old]|] eqn:Hf.
  - case_goal; cbn [fst snd from_option].
    + rewrite (sum_chrono_set k _ a t' old Hn Hf). lia.
    + rewrite sum_chrono_push, (sum_chrono_del k a t' old Hn Hf). lia.
  - cbn [fst snd from_option]. rewrite sum_chrono_push. lia.
Qed.

(** A callback that gives up every entry it is called on. *)
Lemma a_forward_drop {St} (g : St -> V -> St) time s a :
  a_forward (fun s v => (g s v, v, None)) time s a
  = (filter (fun c => time < c.1) a, foldl g s (a_entries (filter (fun c => c.1 <= time) a)).*2).
Proof.
  unfold a_forward, a_entries. generalize (filter (fun c : Z * list (K * V) => time < c.1) a).
  generalize (mjoin (snd <$> filter (fun c : Z * list (K * V) => c.1 <= time) a)). intros due. revert s.
  induction due as [|[k v] due IH]; intros s b; cbn; [done|]. apply IH.
Qed.

Lemma sum_chrono_split time a :
  sum_chrono a = sumZ ν (a_entries (filter (fun c => c.1 <= time) a)).*2 + sum_chrono (filter (fun c => time < c.1) a).
Proof.
  unfold sum_chrono. induction a as [|c a IH]; [done|]. rewrite !filter_cons, a_entries_cons, fmap_app, sumZ_app.
  destruct (decide (c.1 <= time)), (decide (time < c.1)); try lia; rewrite a_entries_cons, fmap_app, sumZ_app; lia.
Qed.

End sums.

(** ** The invariant of the aggregation *)

Abbreviation hb_map := (list (Z * list (HeartbeatAggrKey * TaggedFlow))).

Definition hist (a : FlowAggr) : History := history (sd_output (sender a)).

(** A measure summed over all logs: handed over, open, and the heartbeats. *)
Definition total (ν : TaggedFlow -> Z) (a : FlowAggr) (hb : hb_map) : Z :=
  sumZ ν (handed (hist a)) + sumZ (sum_map ν) (flow_stashs a) + sum_chrono ν hb + sumZ ν (replaced (hist a)).

(** [s] is the second of the first slot, [n] bounds the number of logs. *)
Record aggr_ok (s n : Z) (a : FlowAggr) (hb : hb_map) : Prop := {
  ao_start : slot_start_time a = from_secs s;
  ao_window : 0 <= s /\ from_secs s < 2 ^ 64;
  ao_count : 60 <= slot_count a < 2 ^ 63;
  ao_length : Z.of_nat (length (flow_stashs a)) = slot_count a;
  ao_timeout : flush_timeout a = from_secs (slot_count a);
  ao_flushed : fits 64 (last_flush_time a);
  ao_slots : forall i m id g, flow_stashs a !! i = Some m -> m !! id = Some g ->
    flow_id (flow g) = id /\ start_time_in_minute g = s + Z.of_nat i /\ close_type (flow g) = ForcedReport;
  ao_hb : refines (heartbeat_flow_stash a) hb;
  ao_sender : sender_ok (sender a);
  ao_size : total (fun _ => 1) a hb <= n;
}.

Section aggr.
Context {E : AggrEnv} {EOk : AggrEnvOk E} {P : NpbPlugin}.

(** What [log_of] changes must not count. *)
Definition log_measure (ν : TaggedFlow -> Z) : Prop := forall f, ν (log_of f) = ν f.

Lemma log_measure_one : log_measure (fun _ => 1).
Proof. done. Qed.

Lemma sumZ_log ν xs : log_measure ν -> sumZ ν (log_of <$> xs) = sumZ ν xs.
Proof. intros Hν. induction xs as [|x xs IH]; [done|]. cbn [fmap list_fmap]. rewrite !sumZ_cons, Hν. by rewrite IH. Qed.

Lemma sumZ_one {A} (xs : list A) : sumZ (fun _ => 1) xs = Z.of_nat (length xs).
Proof. induction xs as [|x xs IH]; [done|]. rewrite sumZ_cons, IH. cbn. lia. Qed.

Lemma handed_bound s n a hb : aggr_ok s n a hb ->
  Z.of_nat (length (handed (hist a))) + sumZ (sum_map (fun _ => 1)) (flow_stashs a) + sum_chrono (fun _ => 1) hb <= n
  /\ 0 <= sumZ (sum_map (fun _ => 1)) (flow_stashs a) /\ 0 <= sum_chrono (fun _ => 1) hb.
Proof.
  intros Ha. pose proof (ao_size _ _ _ _ Ha) as Hs. unfold total in Hs. rewrite !sumZ_one in Hs.
  assert (0 <= sum_chrono (fun _ => 1) hb) by (unfold sum_chrono; rewrite sumZ_one; lia).
  assert (0 <= sumZ (sum_map (fun _ => 1)) (flow_stashs a)).
  { apply sumZ_nonneg, Forall_forall. intros m _. unfold sum_map. rewrite sumZ_one. lia. }
  lia.
Qed.

Lemma sends_ok xs : forall s, sender_ok s ->
  Z.of_nat (length (handed (history (sd_output s)))) + Z.of_nat (length xs) < 2 ^ 64 ->
  wp (rfold send_flow xs s) (fun s' => sender_ok s' /\ handed (history (sd_output s')) = handed (history (sd_output s)) ++ (log_of <$> xs)
    /\ replaced (history (sd_output s')) = replaced (history (sd_output s))
    /\ drop_before_window (metrics s') = drop_before_window (metrics s)).
Proof.
  induction xs as [|x xs IH]; intros s Hs Hn; cbn [rfold]; [by rewrite app_nil_r|]. cbn [length] in Hn.
  pose proof (send_flow_ok s x Hs ltac:(lia)) as Hx. destruct (send_flow s x) as [s1|]; [|done]. destruct Hx as (Hs1 & Hh & Hr & Hd).
  eapply wp_mono; [apply IH; [done|rewrite Hh, length_app; cbn; lia]|]. cbn. intros s2 (Hs2 & Hh2 & Hr2 & Hd2).
  split; [done|]. rewrite Hh2, Hh, Hr2, Hr, Hd2, Hd, <- (assoc_L (++)). done.
Qed.

(** Logs move to the sender, and nothing else. *)
Definition flushed (a : FlowAggr) (hb : hb_map) (a' : FlowAggr) (hb' : hb_map) : Prop :=
  (forall ν, log_measure ν -> total ν a' hb' = total ν a hb)
  /\ drop_before_window (metrics (sender a')) = drop_before_window (metrics (sender a)) /\ slot_count a' = slot_count a.

Lemma flushed_trans a hb a1 hb1 a2 hb2 : flushed a hb a1 hb1 -> flushed a1 hb1 a2 hb2 -> flushed a hb a2 hb2.
Proof.
  intros (H1 & H2 & H3) (H4 & H5 & H6). split_and!; [|congruence..]. intros ν Hν. by rewrite H4, H1.
Qed.

Lemma flushed_size s n a hb a' hb' : aggr_ok s n a hb -> flushed a hb a' hb' -> total (fun _ => 1) a' hb' <= n.
Proof. intros Ha (Ht & _). rewrite Ht by apply log_measure_one. apply (ao_size _ _ _ _ Ha). Qed.

Lemma sender_ok_counters s m : sender_ok s -> out m = out (metrics s) -> drop_in_throttle m = drop_in_throttle (metrics s) ->
  sender_ok (s <| metrics := m |>).
Proof. intros [Hq Ho Hd] H1 H2. split; cbn; [done|by rewrite H1|by rewrite H2]. Qed.

Lemma sender_ok_read s q n : sender_ok s -> q = (sd_output s) <| reads := n |> -> sender_ok (s <| sd_output := q |>).
Proof. intros [Hq Ho Hd] ->. split; [by apply read_ok|done..]. Qed.

Lemma shrink_stash_frame a k : exists m, shrink_stash a k = a <| sender := (sender a) <| metrics := m |> |> /\ out m = out (metrics (sender a))
  /\ drop_in_throttle m = drop_in_throttle (metrics (sender a)) /\ drop_before_window m = drop_before_window (metrics (sender a)).
Proof.
  unfold shrink_stash. case_goal; [by eexists|]. exists (metrics (sender a)). split; [|done]. by destruct a as [? ? ? ? ? ? ? []].
Qed.

Lemma flush_front_ok s n a hb : aggr_ok s n a hb -> n < 2 ^ 64 - 1 -> from_secs (s + 1) < 2 ^ 64 ->
  wp (flush_front_slot_and_rotate a) (fun a' => aggr_ok (s + 1) n a' hb /\ flushed a hb a' hb
    /\ flow_stashs a' = tail (flow_stashs a) ++ [∅]).
Proof.
  intros Ha Hn Hs. pose proof (handed_bound _ _ _ _ Ha) as Hb. unfold flush_front_slot_and_rotate.
  destruct (flow_stashs a) as [|stash rest] eqn:Hst.
  { pose proof (ao_length _ _ _ _ Ha) as Hl. pose proof (ao_count _ _ _ _ Ha). rewrite Hst in Hl. cbn in Hl. lia. }
  assert (sum_map (fun _ => 1) stash = Z.of_nat (length (drain_order stash))) as Hl
    by (unfold sum_map; rewrite sumZ_one; by rewrite drain_order_perm).
  rewrite sumZ_cons, Hl in Hb. assert (0 <= sumZ (sum_map (K := Z) (fun _ : TaggedFlow => 1)) rest).
  { apply sumZ_nonneg, Forall_forall. intros m _. unfold sum_map. rewrite sumZ_one. lia. }
  apply wp_bind. eapply wp_mono.
  { apply sends_ok; [apply (ao_sender _ _ _ _ Ha)|]. unfold hist in Hb. lia. }
  intros s1 (Hs1 & Hh & Hr & Hd). cbn beta.
  destruct (shrink_stash_frame (a <| sender := s1 |>) (Z.of_nat (length rest))) as (m & -> & Hm1 & Hm2 & Hm3).
  cbn in Hm1, Hm2, Hm3. cbn. pose proof (ao_window _ _ _ _ Ha). pose proof (ao_start _ _ _ _ Ha) as Hss. unfold duration_add. rewrite Hss.
  unfold from_secs, Timestamp.NANOS_IN_SECOND in *. rewrite (proj2 (Z.ltb_lt _ _)) by lia. cbn.
  match goal with |- aggr_ok _ _ ?x _ /\ _ => set (a' := x) end.
  assert (flushed a hb a' hb) as Hf.
  { split; [|by subst a'; cbn; rewrite Hm3, Hd]. intros ν Hν. subst a'. unfold total, hist. cbn.
    rewrite Hh, Hr, Hst, sumZ_app, (sumZ_log ν _ Hν), sumZ_app, !sumZ_cons. rewrite drain_order_perm.
    rewrite sum_map_empty. change (sumZ ν (map_to_list stash).*2) with (sum_map ν stash). change (sumZ (sum_map ν) []) with 0. lia. }
  split_and!; [|done..]. destruct Ha as [? Hw Hc Hlen Hto Hfl Hsl Hhb Hsd Hsz]. rewrite Hst in Hlen, Hsl.
  split; subst a'; cbn; try done.
  - secs.
  - secs.
  - rewrite length_app. cbn in *. lia.
  - apply clock_fits.
  - intros i mm id g Hi Hg. apply lookup_app_Some in Hi as [Hi|[Hge Hi]].
    + destruct (Hsl (S i) mm id g Hi Hg) as (? & ? & ?). split_and!; [done|lia|done].
    + apply list_lookup_singleton_Some in Hi as [_ <-]. by rewrite lookup_empty in Hg.
  - eapply sender_ok_read; [by apply sender_ok_counters|done].
  - destruct Hf as [Hf _]. rewrite Hf by apply log_measure_one. done.
Qed.

Lemma rotate_ok k : forall s n a hb, aggr_ok s n a hb -> n < 2 ^ 64 - 1 -> from_secs (s + Z.of_nat k) < 2 ^ 64 -> Z.of_nat k <= slot_count a ->
  wp (rotate k a) (fun a' => aggr_ok (s + Z.of_nat k) n a' hb /\ flushed a hb a' hb
    /\ flow_stashs a' = drop k (flow_stashs a) ++ replicate k ∅).
Proof.
  induction k as [|k IH]; intros s n a hb Ha Hn Hs Hk; cbn [rotate].
  { cbn. rewrite Z.add_0_r, app_nil_r. done. }
  pose proof (ao_length _ _ _ _ Ha) as Hl. unfold from_secs, Timestamp.NANOS_IN_SECOND in Hs.
  apply wp_bind. eapply wp_mono; [apply (flush_front_ok s n a hb Ha Hn); secs|].
  intros a1 (Ha1 & Hf1 & Hst1). pose proof Hf1 as (_ & _ & Hc1).
  eapply wp_mono; [apply (IH (s + 1) n a1 hb Ha1 Hn); [secs|rewrite Hc1; lia]|].
  intros a2 (Ha2 & Hf2 & Hst2). replace (s + Z.of_nat (S k)) with (s + 1 + Z.of_nat k) by lia.
  split; [done|]. split; [by eapply flushed_trans|]. rewrite Hst2, Hst1. destruct (flow_stashs a) as [|m ms]; cbn [tail length] in *; [lia|].
  rewrite drop_app_le by lia. rewrite <- (assoc_L (++)). done.
Qed.

Lemma foldl_rfold {A B} (f : B -> A -> run B) xs : forall s, foldl (fun s v => s ≫= (fun s => f s v)) (Ret s) xs = rfold f xs s.
Proof.
  assert (forall xs, foldl (fun s v => s ≫= (fun s => f s v)) Panic xs = Panic) as Hp by (intros ys; induction ys; done).
  induction xs as [|x xs IH]; intros s; [done|]. cbn. destruct (f s x); [by apply IH|apply Hp].
Qed.

(** The heartbeats that are due are sent. *)
Lemma forward_heartbeats_ok s n a hb t : aggr_ok s n a hb -> n < 2 ^ 64 - 1 ->
  wp ('(h, r) ← forward_time send_heartbeat (heartbeat_flow_stash a) t (Ret (sender a));
      r ← r;
      Ret (a <| heartbeat_flow_stash := h |> <| sender := r |>))
    (fun a' => exists hb', aggr_ok s n a' hb' /\ flushed a hb a' hb' /\ flow_stashs a' = flow_stashs a).
Proof.
  intros Ha Hn. pose proof (handed_bound _ _ _ _ Ha) as Hb.
  destruct (forward_time_refines send_heartbeat t (heartbeat_flow_stash a) hb (Ret (sender a)) (ao_hb _ _ _ _ Ha)) as (h & -> & Hh).
  unfold send_heartbeat in *. rewrite a_forward_drop in *. cbn [fst snd mbind run_bind] in *. rewrite foldl_rfold.
  set (due := (a_entries (filter (fun c => c.1 <= t) hb)).*2) in *.
  pose proof (sum_chrono_split (fun _ : TaggedFlow => 1) t hb) as Hsp. fold due in Hsp. rewrite sumZ_one in Hsp.
  assert (0 <= sum_chrono (fun _ : TaggedFlow => 1) (filter (fun c => t < c.1) hb)) by (unfold sum_chrono; rewrite sumZ_one; lia).
  apply wp_bind. eapply wp_mono; [apply sends_ok; [apply (ao_sender _ _ _ _ Ha)|unfold hist in Hb; lia]|].
  intros s1 (Hs1 & Hh1 & Hr1 & Hd1). cbn. exists (filter (fun c => t < c.1) hb).
  match goal with |- aggr_ok _ _ ?x _ /\ _ => set (a' := x) end.
  assert (flushed a hb a' (filter (fun c => t < c.1) hb)) as Hf.
  { split; [|by subst a'; cbn]. intros ν Hν. subst a'. unfold total, hist. cbn.
    rewrite Hh1, Hr1, sumZ_app, (sumZ_log ν _ Hν), (sum_chrono_split ν t hb). fold due. lia. }
  split_and!; [|done..]. destruct Ha as [? Hw Hc Hlen Hto Hfl Hsl Hhb Hsd Hsz]. split; subst a'; cbn; try done.
  destruct Hf as [Hf _]. rewrite Hf by apply log_measure_one. done.
Qed.

(** The slots after [k] rotations. *)
Definition rotated (k : nat) (ms : list (gmap Z TaggedFlow)) : list (gmap Z TaggedFlow) := drop k ms ++ replicate k ∅.

Lemma aggr_ok_jump s s' n a hb t : aggr_ok s n a hb -> Forall (fun m => m = ∅) (flow_stashs a) -> t = from_secs s' ->
  0 <= s' -> from_secs s' < 2 ^ 64 -> aggr_ok s' n (a <| slot_start_time := t |>) hb.
Proof.
  intros [? Hw Hc Hlen Hto Hfl Hsl Hhb Hsd Hsz] Hempty -> H0 Ht. split; cbn; try done.
  intros i m id g Hi Hg. rewrite Forall_lookup in Hempty. rewrite (Hempty i m Hi), lookup_empty in Hg. done.
Qed.

Lemma start_id (a : FlowAggr) : a <| slot_start_time := slot_start_time a |> = a.
Proof. by destruct a. Qed.

Lemma flush_slots_ok s n a hb config k : aggr_ok s n a hb -> n < 2 ^ 64 - 1 -> 0 < k -> from_secs (s + k) < 2 ^ 64 ->
  wp (flush_slots a config k) (fun a' => exists hb', aggr_ok (s + k) n a' hb' /\ flushed a hb a' hb'
    /\ flow_stashs a' = rotated (Z.to_nat (Z.min k (slot_count a))) (flow_stashs a)).
Proof.
  intros Ha Hn Hk Hs. pose proof (ao_length _ _ _ _ Ha) as Hl. pose proof (ao_count _ _ _ _ Ha) as Hc.
  pose proof (ao_window _ _ _ _ Ha) as Hw. unfold flush_slots, from_secs, Timestamp.NANOS_IN_SECOND in *.
  apply wp_bind. eapply wp_mono.
  { apply (rotate_ok (Z.to_nat (Z.min k (slot_count a))) s n a hb Ha Hn); [secs|lia]. }
  intros a1 (Ha1 & Hf1 & Hst1). pose proof Hf1 as (_ & _ & Hc1). pose proof (ao_start _ _ _ _ Ha1) as Ht1. rewrite Z2Nat.id in Ha1, Ht1 by lia.
  assert (exists t, (if slot_count a1 <? k then duration_add (slot_start_time a1) (from_secs (k - slot_count a1)) else Ret (slot_start_time a1)) = Ret t
    /\ aggr_ok (s + k) n (a1 <| slot_start_time := t |>) hb) as (t & Ht & Ha2).
  { rewrite Hc1. destruct (Z.ltb_spec (slot_count a) k).
    - rewrite Ht1. unfold duration_add, from_secs, Timestamp.NANOS_IN_SECOND. rewrite (proj2 (Z.ltb_lt _ _)) by lia. eexists. split; [done|]. eapply aggr_ok_jump; [done| |secs|lia|secs].
      rewrite Hst1, drop_ge by lia. apply Forall_replicate. done.
    - eexists. split; [done|]. replace (Z.min k (slot_count a)) with k in Ha1 by lia. by rewrite start_id. }
  unfold from_secs, Timestamp.NANOS_IN_SECOND in Ht. rewrite Ht. cbn [mbind run_bind].
  assert (flushed a hb (a1 <| slot_start_time := t |>) hb) as Hf2 by (exact Hf1).
  case_goal; [|by exists hb].
  eapply wp_mono; [apply (forward_heartbeats_ok _ _ _ _ (Timestamp.from_duration (slot_start_time (a1 <| slot_start_time := t |>))) Ha2 Hn)|].
  intros a3 (hb' & Ha3 & Hf3 & Hst3). exists hb'. split; [done|]. split; [by eapply flushed_trans|]. rewrite Hst3. cbn. by rewrite Hst1.
Qed.

(** *** One report *)

Lemma total_set_stash ν a hb i m m' : flow_stashs a !! i = Some m ->
  total ν (set_stash a i m') hb = total ν a hb - sum_map ν m + sum_map ν m'.
Proof. intros Hi. unfold total, hist, set_stash. cbn. rewrite (sumZ_insert _ _ _ _ _ Hi). lia. Qed.

Lemma set_stash_ok s n n' a hb i m m' : aggr_ok s n a hb -> flow_stashs a !! i = Some m ->
  (forall id g, m' !! id = Some g -> flow_id (flow g) = id /\ start_time_in_minute g = s + Z.of_nat i /\ close_type (flow g) = ForcedReport) ->
  n - sum_map (fun _ => 1) m + sum_map (fun _ => 1) m' <= n' -> aggr_ok s n' (set_stash a i m') hb.
Proof.
  intros Ha Hi Hm Hn. pose proof (total_set_stash (fun _ => 1) a hb i m m' Hi) as Ht.
  destruct Ha as [? Hw Hc Hlen Hto Hfl Hsl Hhb Hsd Hsz]. split; try done.
  - cbn. by rewrite length_insert.
  - cbn. intros j mj id g Hj Hg. apply list_lookup_insert_Some in Hj as [(<- & <- & _)|[_ Hj]]; [by apply Hm|by eapply Hsl].
  - rewrite Ht. lia.
Qed.

(** Only the sender and the heartbeats differ, and they hold one log more. *)
Definition one_more (f : TaggedFlow) (a : FlowAggr) (hb : hb_map) (a' : FlowAggr) (hb' : hb_map) : Prop :=
  (forall ν, log_measure ν -> total ν a' hb' = total ν a hb + ν f) /\ flow_stashs a' = flow_stashs a
  /\ drop_before_window (metrics (sender a')) = drop_before_window (metrics (sender a)) /\ slot_count a' = slot_count a.

Lemma send_log_ok s n a hb f : aggr_ok s n a hb -> n < 2 ^ 64 - 1 ->
  wp (send_log a f) (fun a' => aggr_ok s (n + 1) a' hb /\ one_more f a hb a' hb /\ handed (hist a') = handed (hist a) ++ [log_of f]).
Proof.
  intros Ha Hn. pose proof (handed_bound _ _ _ _ Ha) as Hb. unfold send_log. apply wp_bind.
  eapply wp_mono; [apply send_flow_ok; [apply (ao_sender _ _ _ _ Ha)|unfold hist in Hb; lia]|].
  intros s1 (Hs1 & Hh & Hr & Hd). cbn beta. cbn [wp].
  assert (forall ν, log_measure ν -> total ν (a <| sender := s1 |>) hb = total ν a hb + ν f) as Ht.
  { intros ν Hν. unfold total, hist. cbn. rewrite Hh, Hr, sumZ_app, sumZ_cons, Hν. change (sumZ ν []) with 0. lia. }
  split_and!; [|done..]. pose proof (Ht _ log_measure_one) as H1. destruct Ha as [? Hw Hc Hlen Hto Hfl Hsl Hhb Hsd Hsz].
  split; try done. rewrite H1. lia.
Qed.

Lemma insert_heartbeat_ok s n a hb t k f : aggr_ok s n a hb -> let hb' := (a_insert t k f hb).1 in
  wp (insert_heartbeat a t k f) (fun a' => aggr_ok s (n + 1) a' hb' /\ one_more f a hb a' hb'
    /\ replaced (hist a') = replaced (hist a) ++ option_list (a_insert t k f hb).2 /\ handed (hist a') = handed (hist a)
    /\ metrics (sender a') = metrics (sender a)).
Proof.
  intros Ha. cbv zeta. unfold insert_heartbeat.
  destruct (insert_refines (heartbeat_flow_stash a) hb t k f (ao_hb _ _ _ _ Ha)) as (h & Hi & Hr). rewrite Hi. cbn [mbind run_bind].
  pose proof (refines_nodup _ _ (ao_hb _ _ _ _ Ha)) as Hnd.
  assert (forall ν, sum_chrono ν (a_insert t k f hb).1 + from_option ν 0 (a_insert t k f hb).2 = sum_chrono ν hb + ν f) as Hs
    by (intros ν; by apply sum_chrono_insert).
  destruct (a_insert t k f hb) as [hb' old]. cbn [fst snd] in *.
  assert (forall a', (forall ν, log_measure ν -> total ν a' hb' = total ν a hb + ν f) -> total (fun _ => 1) a' hb' <= n + 1) as H1.
  { intros a' Ht. pose proof (ao_size _ _ _ _ Ha). rewrite Ht by apply log_measure_one. lia. }
  destruct old as [old|]; cbn [wp]; unfold one_more; match goal with |- aggr_ok _ _ ?x _ /\ _ => set (a' := x) end.
  - assert (forall ν, log_measure ν -> total ν a' hb' = total ν a hb + ν f) as Ht.
    { intros ν Hν. specialize (Hs ν). unfold total, hist, a'. cbn in *. rewrite sumZ_app, sumZ_cons. change (sumZ ν []) with 0. lia. }
    split_and!; [|done..]. specialize (H1 a' Ht). destruct Ha as [? Hw Hc Hlen Hto Hfl Hsl Hhb Hsd Hsz]. split; try done.
    destruct Hsd as [[] ? ?]. split; [|done..]. by split.
  - assert (forall ν, log_measure ν -> total ν a' hb' = total ν a hb + ν f) as Ht.
    { intros ν Hν. specialize (Hs ν). unfold total, hist, a'. cbn in *. lia. }
    split_and!; [|done..|cbn; by rewrite app_nil_r|done|done]. specialize (H1 a' Ht).
    destruct Ha as [? Hw Hc Hlen Hto Hfl Hsl Hhb Hsd Hsz]. split; try done.
Qed.

Lemma merge_report_frame g f : let h := flow (merge_report g f) in
  flow_id h = flow_id (flow g) /\ start_time_in_minute (merge_report g f) = start_time_in_minute g /\ close_type h = close_type (flow f)
  /\ reversed h = reversed (flow f).
Proof.
  cbv zeta. unfold merge_report. case_goal.
  - destruct (sequential_merge_frame g f) as (-> & H1 & H2 & -> & ->). unfold start_time_in_minute. by rewrite H1, H2.
  - match goal with |- context [TaggedFlow_sequential_merge ?x f] => destruct (sequential_merge_frame x f) as (-> & H1 & H2 & -> & ->) end.
    unfold start_time_in_minute. by rewrite H1, H2.
Qed.

Lemma add_heartbeat_ok s n a hb t f : aggr_ok s n a hb ->
  wp (add_heartbeat a t f) (fun a' => exists hb', aggr_ok s (n + 1) a' hb' /\ (one_more f a hb a' hb'
    \/ flow_stashs a' = flow_stashs a /\ drop_before_window (metrics (sender a')) = drop_before_window (metrics (sender a)) /\ slot_count a' = slot_count a
       /\ exists h, forall ν, log_measure ν -> total ν a' hb' = total ν a hb - ν h + ν (merge_heartbeat f h))).
Proof.
  intros Ha. pose proof (ao_hb _ _ _ _ Ha) as Hhb. unfold add_heartbeat. rewrite (get_refines _ hb) by done. cbn [mbind run_bind].
  destruct (a_find (get_heartbeat_aggr_key f) hb) as [[t0 h]|] eqn:Hf; cbn [fmap option_fmap option_map snd].
  - destruct (get_mut_refines _ hb (get_heartbeat_aggr_key f) (merge_heartbeat f) Hhb) as (m' & -> & Hm'). cbn [mbind run_bind wp].
    exists (a_set (get_heartbeat_aggr_key f) (merge_heartbeat f) hb).
    assert (forall ν, sum_chrono ν (a_set (get_heartbeat_aggr_key f) (merge_heartbeat f) hb) = sum_chrono ν hb - ν h + ν (merge_heartbeat f h)) as Hs
      by (intros ν; eapply sum_chrono_set; [by eapply refines_nodup|done]).
    match goal with |- aggr_ok _ _ ?x _ /\ _ => set (a' := x) end.
    assert (forall ν, log_measure ν -> total ν a' (a_set (get_heartbeat_aggr_key f) (merge_heartbeat f) hb) = total ν a hb - ν h + ν (merge_heartbeat f h)) as Ht.
    { intros ν Hν. specialize (Hs ν). unfold total, hist, a'. cbn in *. lia. }
    split; [|right; split_and!; try done; by exists h]. pose proof (Ht _ log_measure_one) as H1.
    destruct Ha as [? Hw Hc Hlen Hto Hfl Hsl Hhb' Hsd Hsz]. split; try done; [by apply sender_ok_counters|rewrite H1; lia].
  - eapply wp_mono; [by eapply insert_heartbeat_ok|]. intros a' (? & ? & _). eexists. split; [done|by left].
Qed.

(** How the logs change with a report: it is a log of its own, or it is merged
    into the open log of its flow, which may then be merged into a heartbeat. *)
Inductive change (config : CollectorConfig) (f : TaggedFlow) (a : FlowAggr) (hb : hb_map) (a' : FlowAggr) (hb' : hb_map) : Prop :=
| change_new : (forall ν, log_measure ν -> total ν a' hb' = total ν a hb + ν f) -> change config f a hb a' hb'
| change_merged g : flow_id (flow g) = flow_id (flow f) ->
    (forall ν, log_measure ν -> total ν a' hb' = total ν a hb - ν g + ν (merge_report g f)) -> change config f a hb a' hb'
| change_heartbeat g h : aggregate_health_check_l4_flow_log config = true -> flow_id (flow g) = flow_id (flow f) ->
    (forall ν, log_measure ν -> total ν a' hb' = total ν a hb - ν g - ν h + ν (merge_heartbeat (merge_report g f) h)) ->
    change config f a hb a' hb'.

(** The log of the flow of a report after it, and its slot. *)
Definition updated (m : gmap Z TaggedFlow) (f : TaggedFlow) : TaggedFlow :=
  match m !! flow_id (flow f) with Some g => merge_report g f | None => f end.

Definition slot_after (m : gmap Z TaggedFlow) (f : TaggedFlow) : gmap Z TaggedFlow :=
  if decide (close_type (flow f) = ForcedReport) then <[flow_id (flow f) := updated m f]> m else delete (flow_id (flow f)) m.

Definition is_heartbeat_report (config : CollectorConfig) (f : TaggedFlow) : bool :=
  aggregate_health_check_l4_flow_log config && bool_decide (close_type (flow f) = TcpFinClientRst).

Record reported (config : CollectorConfig) (i : nat) (f : TaggedFlow) (a : FlowAggr) (hb : hb_map) (a' : FlowAggr) (hb' : hb_map) : Prop := {
  rp_change : change config f a hb a' hb';
  rp_slot m : flow_stashs a !! i = Some m -> flow_stashs a' = <[i := slot_after m f]> (flow_stashs a);
  rp_handed m : flow_stashs a !! i = Some m -> close_type (flow f) <> ForcedReport -> is_heartbeat_report config f = false ->
    handed (hist a') = handed (hist a) ++ [log_of (updated m f)];
  rp_dropped : drop_before_window (metrics (sender a')) = drop_before_window (metrics (sender a));
  rp_count : slot_count a' = slot_count a;
}.

Section slot.
Context (s n : Z) (a : FlowAggr) (hb : hb_map) (config : CollectorConfig) (t : Z) (i : nat) (f : TaggedFlow) (m : gmap Z TaggedFlow).
Context (Ha : aggr_ok s n a hb) (Hn : n < 2 ^ 64 - 1) (Hi : flow_stashs a !! i = Some m) (Hf : start_time_in_minute f = s + Z.of_nat i).

Lemma slot_forced g : close_type (flow f) = ForcedReport -> m !! flow_id (flow f) = Some g ->
  let a' := set_stash a i (<[flow_id (flow f) := merge_report g f]> m) in aggr_ok s (n + 1) a' hb /\ reported config i f a hb a' hb.
Proof using Ha Hi Hf.
  intros Hc Hg. cbv zeta. destruct (ao_slots _ _ _ _ Ha i m _ g Hi Hg) as (Hid & Hmin & Hcl).
  destruct (merge_report_frame g f) as (Hid' & Hmin' & Hcl' & _). split.
  - eapply set_stash_ok; [done|done| |rewrite (sum_map_insert _ m _ _ g Hg); lia].
    intros id h Hh. apply lookup_insert_Some in Hh as [[<- <-]|[_ Hh]]; [|by eapply ao_slots].
    rewrite Hid', Hmin', Hcl'. done.
  - split; [|intros m' Hm'..|done|done].
    + eapply (change_merged _ _ _ _ _ _ g); [done|]. intros ν _. rewrite (total_set_stash ν a hb i m _ Hi), (sum_map_insert ν m _ _ g Hg). lia.
    + rewrite Hi in Hm'. injection Hm' as <-. unfold slot_after, updated. by rewrite decide_True, Hg.
    + by intros ?.
Qed.

Lemma slot_opened : close_type (flow f) = ForcedReport -> m !! flow_id (flow f) = None ->
  let a' := set_stash a i (<[flow_id (flow f) := f]> m) in aggr_ok s (n + 1) a' hb /\ reported config i f a hb a' hb.
Proof using Ha Hi Hf.
  intros Hc Hg. cbv zeta. split.
  - eapply set_stash_ok; [done|done| |rewrite (sum_map_insert_new _ m _ _ Hg); lia].
    intros id h Hh. apply lookup_insert_Some in Hh as [[<- <-]|[_ Hh]]; [done|by eapply ao_slots].
  - split; [|intros m' Hm'..|done|done].
    + apply change_new. intros ν _. rewrite (total_set_stash ν a hb i m _ Hi), (sum_map_insert_new ν m _ _ Hg). lia.
    + rewrite Hi in Hm'. injection Hm' as <-. unfold slot_after, updated. by rewrite decide_True, Hg.
    + by intros ?.
Qed.

(** The open log is taken out of its slot. *)
Lemma slot_removed g : m !! flow_id (flow f) = Some g ->
  let a1 := set_stash a i (delete (flow_id (flow f)) m) in aggr_ok s (n - 1) a1 hb
  /\ (forall ν, total ν a1 hb = total ν a hb - ν g) /\ flow_id (flow g) = flow_id (flow f).
Proof using Ha Hi.
  intros Hg. cbv zeta. split_and!.
  - eapply set_stash_ok; [done|done| |rewrite (sum_map_delete _ m _ g Hg); lia].
    intros id h Hh. apply lookup_delete_Some in Hh as [_ Hh]. by eapply ao_slots.
  - intros ν. rewrite (total_set_stash ν a hb i m _ Hi), (sum_map_delete ν m _ g Hg). lia.
  - by apply (ao_slots _ _ _ _ Ha i m _ g Hi Hg).
Qed.

End slot.

Lemma slot_after_closed m f : close_type (flow f) <> ForcedReport -> slot_after m f = delete (flow_id (flow f)) m.
Proof. intros Hc. unfold slot_after. by rewrite decide_False. Qed.

(** A report that ends an open log. *)
Lemma slot_closed s n a hb config t i f m g : aggr_ok s n a hb -> n < 2 ^ 64 - 1 -> flow_stashs a !! i = Some m ->
  m !! flow_id (flow f) = Some g -> close_type (flow f) <> ForcedReport ->
  let a1 := set_stash a i (delete (flow_id (flow f)) m) in
  wp (if is_heartbeat_report config f then add_heartbeat a1 t (merge_report g f) else send_log a1 (merge_report g f))
    (fun a' => exists hb', aggr_ok s (n + 1) a' hb' /\ reported config i f a hb a' hb').
Proof.
  intros Ha Hn Hi Hg Hc. cbv zeta. destruct (slot_removed s n a hb i f m Ha Hi g Hg) as (Ha1 & Ht1 & Hid).
  assert (forall m', flow_stashs a !! i = Some m' -> flow_stashs (set_stash a i (delete (flow_id (flow f)) m)) = <[i := slot_after m' f]> (flow_stashs a)) as Hslot.
  { intros m' Hm'. rewrite Hi in Hm'. injection Hm' as <-. by rewrite slot_after_closed. }
  assert (forall k a' hb', aggr_ok s k a' hb' -> k <= n + 1 -> aggr_ok s (n + 1) a' hb') as Hle.
  { intros k a' hb' [] Hk. split; try done. lia. }
  destruct (is_heartbeat_report config f) eqn:Hhb.
  - eapply wp_mono; [by apply (add_heartbeat_ok s (n - 1) _ hb t)|]. intros a' (hb' & Ha' & Hch). exists hb'. split; [apply (Hle (n - 1 + 1) _ _ Ha'); lia|].
    pose proof Hhb as [Hag _]%andb_true_iff. destruct Hch as [(Ht & Hst & Hd & Hcnt)|(Hst & Hd & Hcnt & h & Ht)].
    + split; [|intros m' Hm'; rewrite Hst; by apply Hslot|congruence|done|done].
      apply (change_merged _ _ _ _ _ _ g Hid). intros ν Hν. rewrite (Ht ν Hν), Ht1. lia.
    + split; [|intros m' Hm'; rewrite Hst; by apply Hslot|congruence|done|done].
      apply (change_heartbeat _ _ _ _ _ _ g h Hag Hid). intros ν Hν. rewrite (Ht ν Hν), Ht1. lia.
  - eapply wp_mono; [apply (send_log_ok s (n - 1) _ hb _ Ha1); lia|]. intros a' (Ha' & (Ht & Hst & Hd & Hcnt) & Hh). exists hb.
    split; [apply (Hle (n - 1 + 1) _ _ Ha'); lia|]. split; [|intros m' Hm'; rewrite Hst; by apply Hslot| |done|done].
    + apply (change_merged _ _ _ _ _ _ g Hid). intros ν Hν. rewrite (Ht ν Hν), Ht1. lia.
    + intros m' Hm' _ _. rewrite Hi in Hm'. injection Hm' as <-. rewrite Hh. unfold updated. by rewrite Hg.
Qed.

(** A report that ends a flow without an open log. *)
Lemma slot_untouched s n a hb config t i f m : aggr_ok s n a hb -> n < 2 ^ 64 - 1 -> flow_stashs a !! i = Some m ->
  m !! flow_id (flow f) = None -> close_type (flow f) <> ForcedReport ->
  wp (if is_heartbeat_report config f then insert_heartbeat a t (get_heartbeat_aggr_key f) f else send_log a f)
    (fun a' => exists hb', aggr_ok s (n + 1) a' hb' /\ reported config i f a hb a' hb').
Proof.
  intros Ha Hn Hi Hg Hc.
  assert (forall m', flow_stashs a !! i = Some m' -> flow_stashs a = <[i := slot_after m' f]> (flow_stashs a)) as Hslot.
  { intros m' Hm'. rewrite Hi in Hm'. injection Hm' as <-. rewrite slot_after_closed, delete_id by done. by rewrite list_insert_id. }
  destruct (is_heartbeat_report config f) eqn:Hhb.
  - eapply wp_mono; [by apply (insert_heartbeat_ok s n a hb t)|]. intros a' (Ha' & (Ht & Hst & Hd & Hcnt) & _). eexists. split; [done|].
    split; [by apply change_new|intros m' Hm'; rewrite Hst; by apply Hslot|congruence|done|done].
  - eapply wp_mono; [by apply (send_log_ok s n a hb)|]. intros a' (Ha' & (Ht & Hst & Hd & Hcnt) & Hh). exists hb. split; [done|].
    split; [by apply change_new|intros m' Hm'; rewrite Hst; by apply Hslot| |done|done].
    intros m' Hm' _ _. rewrite Hi in Hm'. injection Hm' as <-. rewrite Hh. unfold updated. by rewrite Hg.
Qed.

Lemma merge_in_slot_ok s n a hb config t i f : aggr_ok s n a hb -> n < 2 ^ 64 - 1 -> Z.of_nat i < slot_count a ->
  start_time_in_minute f = s + Z.of_nat i ->
  wp (merge_in_slot a config t i f) (fun a' => exists hb', aggr_ok s (n + 1) a' hb' /\ reported config i f a hb a' hb').
Proof.
  intros Ha Hn Hi Hf. pose proof (ao_length _ _ _ _ Ha) as Hl.
  destruct (lookup_lt_is_Some_2 (flow_stashs a) i) as [m Hm]; [lia|]. unfold merge_in_slot. rewrite Hm. cbn [unwrap mbind run_bind].
  destruct (m !! flow_id (flow f)) as [g|] eqn:Hg.
  - destruct (merge_report_frame g f) as (_ & _ & Hc & _). rewrite Hc. destruct (decide (close_type (flow f) = ForcedReport)) as [Hr|Hr].
    + rewrite (bool_decide_eq_false_2 (close_type (flow f) = TcpFinClientRst)) by congruence. rewrite andb_false_r.
      rewrite (bool_decide_eq_false_2 (close_type (flow f) <> ForcedReport)) by naive_solver. exists hb. by apply (slot_forced s n a hb config i f m).
    + rewrite (bool_decide_eq_true_2 (close_type (flow f) <> ForcedReport)) by done. by apply (slot_closed s n a hb config t i f m g).
  - destruct (decide (close_type (flow f) = ForcedReport)) as [Hr|Hr].
    + rewrite (bool_decide_eq_false_2 (close_type (flow f) = TcpFinClientRst)) by congruence. rewrite andb_false_r.
      rewrite (bool_decide_eq_false_2 (close_type (flow f) <> ForcedReport)) by naive_solver. exists hb. by apply (slot_opened s n a hb config i f m).
    + rewrite (bool_decide_eq_true_2 (close_type (flow f) <> ForcedReport)) by done. by apply (slot_untouched s n a hb config t i f m).
Qed.

(** A report is late when its minute starts before the first slot; otherwise
    the window moves just far enough, and the report goes to its slot. *)
Lemma minute_merge_ok s n a hb config f : aggr_ok s n a hb -> n < 2 ^ 64 - 1 ->
  let τ := start_time_in_minute f in let s' := Z.max s (τ - slot_count a + 1) in 0 <= τ -> from_secs τ < 2 ^ 64 ->
  wp (minute_merge a config f) (fun a' =>
    if τ <? s then a' = on_metrics (fun m => m <| drop_before_window := drop_before_window m +₆₄ 1 |>) a
    else exists a1 hb1 hb', flushed a hb a1 hb1 /\ flow_stashs a1 = rotated (Z.to_nat (Z.min (s' - s) (slot_count a))) (flow_stashs a)
      /\ reported config (Z.to_nat (τ - s')) f a1 hb1 a' hb' /\ aggr_ok s' (n + 1) a' hb').
Proof.
  intros Ha Hn τ s' Hτ Ht. pose proof (ao_window _ _ _ _ Ha) as Hw. pose proof (ao_count _ _ _ _ Ha) as Hc.
  unfold minute_merge, Timestamp.from_secs, Timestamp.from_duration. rewrite (ao_start _ _ _ _ Ha). fold τ.
  unfold from_secs in *. change Timestamp.NANOS_IN_SECOND with 1000000000 in *. rewrite !wrap_small by (unfold fits; lia).
  destruct (Z.ltb_spec τ s).
  { rewrite (proj2 (Z.ltb_lt _ _)) by lia. done. }
  rewrite (proj2 (Z.ltb_ge _ _)) by lia. rewrite Timestamp.sub_ret by lia. cbn [mbind run_bind].
  assert (Timestamp.as_secs (τ * 1000000000 - s * 1000000000) = τ - s) as ->.
  { unfold Timestamp.as_secs. change Timestamp.NANOS_IN_SECOND with 1000000000. rewrite <- Z.mul_sub_distr_r. apply Z.div_mul. lia. }
  destruct (Z.leb_spec (slot_count a) (τ - s)).
  - assert (s' = s + (τ - s - slot_count a + 1)) as Hs' by lia.
    apply wp_bind. eapply wp_mono; [apply (flush_slots_ok s n a hb config (τ - s - slot_count a + 1) Ha Hn); [lia|secs]|].
    intros a1 (hb1 & Ha1 & Hf1 & Hst1). rewrite <- Hs' in Ha1. pose proof Hf1 as (_ & _ & Hc1).
    eapply wp_mono; [apply (merge_in_slot_ok s' n a1 hb1); [done|done|rewrite Hc1; lia|rewrite Hc1, Z2Nat.id by lia; fold τ; lia]|].
    intros a' (hb' & Ha' & Hr). exists a1, hb1, hb'. replace (s' - s) with (τ - s - slot_count a + 1) by lia.
    replace (τ - s') with (slot_count a1 - 1) by lia. done.
  - assert (s' = s) as -> by lia.
    eapply wp_mono; [apply (merge_in_slot_ok s n a hb); [done|done|lia|rewrite Z2Nat.id by lia; fold τ; lia]|].
    intros a' (hb' & Ha' & Hr). exists a, hb, hb'. rewrite Z.sub_diag, Z.min_l by lia. unfold rotated. cbn. rewrite app_nil_r. done.
Qed.

End aggr.
