(* ===== verification/FlowAggrTraces.v ===== *)
(** * Runs of the aggregation thread (collector/flow_aggr.rs)

    Over everything the thread can receive: it never panics, every report is
    in a log or counted as late, the packets and bytes of the reports are those
    of the logs, and every log handed to the sender is accounted for. *)

From stdpp Require Import gmap.
From S2P Require Import Prelude Timestamp TcpFlags TapTypes Flow FlowMerge OverwriteQueue QueueConc QueueSpec ChronoMap ChronoSpec ChronoTraces.
From S2P Require Import FlowLogSender FlowAggr FlowAggrSpec.

(** ** Measures *)

(** Equality of [u64] counters. *)
Definition cong64 (x y : Z) : Prop := exists k, x = y + k * 2 ^ 64.

#[export] Instance cong64_equiv : Equivalence cong64.
Proof.
  split.
  - intros x. exists 0. lia.
  - intros x y [k ->]. exists (- k). lia.
  - intros x y z [k ->] [l ->]. exists (k + l). lia.
Qed.

#[export] Instance cong64_add : Proper (cong64 ==> cong64 ==> cong64) Z.add.
Proof. intros x y [k ->] u v [l ->]. exists (k + l). lia. Qed.

#[export] Instance cong64_sub : Proper (cong64 ==> cong64 ==> cong64) Z.sub.
Proof. intros x y [k ->] u v [l ->]. exists (k - l). lia. Qed.

Lemma wadd_cong x y : cong64 (x +₆₄ y) (x + y).
Proof. unfold wadd, wrap. exists (- ((x + y) / 2 ^ 64)). pose proof (Z.div_mod (x + y) (2 ^ 64)). lia. Qed.

(** The count of both sides, and of what one end of one flow sent; [reversed]
    tells on which side that end is. *)
Definition volume (c : FlowMetricsPeer -> Z) (f : TaggedFlow) : Z := c (flow_metrics_src (flow f)) + c (flow_metrics_dst (flow f)).

Definition sent_by (c : FlowMetricsPeer -> Z) (id : Z) (d : PacketDirection) (f : TaggedFlow) : Z :=
  if flow_id (flow f) =? id then c (peer (flow f) (if reversed (flow f) then direction_reversed d else d)) else 0.

Section measures.
Context {P : NpbPlugin}.

(** [hbs] says whether heartbeats may be merged. *)
Record good (hbs : bool) (μ : TaggedFlow -> Z) : Prop := {
  good_log : log_measure μ;
  good_merge g f : flow_id (flow g) = flow_id (flow f) -> cong64 (μ (merge_report g f)) (μ g + μ f);
  good_heartbeat f h : hbs = true -> cong64 (μ (merge_heartbeat f h)) (μ h + μ f);
}.

Lemma log_of_frame f : let h := flow (log_of f) in
  flow_id h = flow_id (flow f) /\ reversed h = reversed (flow f) /\ flow_metrics_src h = flow_metrics_src (flow f)
  /\ flow_metrics_dst h = flow_metrics_dst (flow f).
Proof. cbv zeta. unfold log_of. repeat case_goal; done. Qed.

(** The report is merged with the log in the report's direction. *)
Lemma merge_report_counts c g f : peer_count c -> let h := flow (merge_report g f) in
  let same := Bool.eqb (reversed (flow g)) (reversed (flow f)) in
  c (flow_metrics_src h) = c (if same then flow_metrics_src (flow g) else flow_metrics_dst (flow g)) +₆₄ c (flow_metrics_src (flow f))
  /\ c (flow_metrics_dst h) = c (if same then flow_metrics_dst (flow g) else flow_metrics_src (flow g)) +₆₄ c (flow_metrics_dst (flow f)).
Proof.
  intros Hc. cbv zeta. unfold merge_report. case_goal; [by apply merge_counts|].
  match goal with |- context [TaggedFlow_sequential_merge ?x f] => destruct (merge_counts c x f Hc) as [-> ->] end. done.
Qed.

Lemma volume_good c hbs : peer_count c -> (forall x, c (x <| nat_real_port := 0 |>) = c x) -> good hbs (volume c).
Proof.
  intros Hc Hp. split.
  - intros f. unfold volume. by destruct (log_of_frame f) as (_ & _ & -> & ->).
  - intros g f _. unfold volume. destruct (merge_report_counts c g f Hc) as [-> ->]. rewrite !wadd_cong. case_goal; [exists 0|exists 0]; lia.
  - intros f h _. unfold volume, merge_heartbeat. destruct (merge_counts c h f Hc) as [H1 H2].
    set (m := TaggedFlow_sequential_merge h f) in *. clearbody m. cbn. rewrite Hp, H1, H2. rewrite !wadd_cong. exists 0. lia.
Qed.

Lemma sent_by_good c id d : peer_count c -> good false (sent_by c id d).
Proof.
  intros Hc. split; [| |done].
  - intros f. unfold sent_by. destruct (log_of_frame f) as (-> & -> & H1 & H2). unfold peer. by rewrite H1, H2.
  - intros g f Hid. unfold sent_by. destruct (merge_report_frame g f) as (-> & _ & _ & ->). rewrite Hid. case_goal; [|by exists 0].
    destruct (merge_report_counts c g f Hc) as [H1 H2].
    destruct (reversed (flow g)), (reversed (flow f)), d; cbn in *; rewrite ?H1, ?H2; apply wadd_cong.
Qed.

End measures.

(** ** What the thread receives *)

Abbreviation input := (CollectorConfig * result (list TaggedFlow) (Error TaggedFlow))%type.

Definition stored (config : CollectorConfig) (f : TaggedFlow) : bool :=
  match is_stored config f with Ret b => b | Panic => false end.

(** The reports that pass the filters, until the queue is closed. *)
Fixpoint received (inputs : list input) : list TaggedFlow :=
  match inputs with
  | [] => []
  | (config, Ok batch) :: inputs => List.filter (stored config) batch ++ received inputs
  | (_, Err (Terminated _ _)) :: _ => []
  | (_, Err _) :: inputs => received inputs
  end.

(** The arrays have the lengths of their Rust types. *)
Definition config_ok (config : CollectorConfig) : Prop :=
  Z.of_nat (length (l4_log_ignore_tap_sides config)) = TapSide_u8 TapSide_MAX + 1 /\ length (l4_log_store_tap_types config) = 256%nat.

(** A known network type, and a minute that starts by second [T]. *)
Definition report_ok (T : Z) (f : TaggedFlow) : Prop :=
  CaptureNetworkType.to_u16 (fk_tap_type (flow_key (flow f))) < 256 /\ 0 <= start_time_in_minute f <= T.

(** [recv_all] does not return [BatchTooLarge]. *)
Definition input_ok (T : Z) (i : input) : Prop :=
  config_ok i.1 /\ match i.2 with Ok batch => Forall (report_ok T) batch | Err (BatchTooLarge _) => False | Err _ => True end.

Lemma is_stored_ok T config f : config_ok config -> report_ok T f -> is_stored config f = Ret (stored config f).
Proof.
  intros [Hi Hs] [Hf _]. unfold stored.
  assert (returns (is_stored config f)) as [b ->]; [|done]. unfold is_stored.
  destruct (lookup_lt_is_Some_2 (l4_log_ignore_tap_sides config) (Z.to_nat (TapSide_u8 (tap_side f)))) as [x ->].
  { assert (0 <= TapSide_u8 (tap_side f) < TapSide_u8 TapSide_MAX + 1) by (destruct (tap_side f); vm_compute; split; congruence). lia. }
  cbn [unwrap mbind run_bind]. case_goal; [by eexists|].
  destruct (lookup_lt_is_Some_2 (l4_log_store_tap_types config) (Z.to_nat (CaptureNetworkType.to_u16 CaptureNetworkType.Any))) as [y ->]; [cbn; lia|].
  cbn [unwrap mbind run_bind]. case_goal; [by eexists|].
  destruct (lookup_lt_is_Some_2 (l4_log_store_tap_types config) (Z.to_nat (CaptureNetworkType.to_u16 (fk_tap_type (flow_key (flow f)))))) as [z ->]; [lia|].
  by eexists.
Qed.

(** ** Accounts *)

Section traces.
Context {E : AggrEnv} {EOk : AggrEnvOk E} {P : NpbPlugin} (hbs : bool).

(** [kept] are the reports in logs, [late] those dropped before the window. *)
Record account (s : Z) (a : FlowAggr) (hb : hb_map) (kept late : list TaggedFlow) : Prop := {
  ac_ok : aggr_ok s (Z.of_nat (length kept)) a hb;
  ac_late : drop_before_window (metrics (sender a)) = wrap 64 (Z.of_nat (length late));
  ac_sum μ : good hbs μ -> cong64 (total μ a hb) (sumZ μ kept);
}.

Lemma change_cong config f a hb a' hb' μ : change config f a hb a' hb' -> good hbs μ ->
  (aggregate_health_check_l4_flow_log config = true -> hbs = true) -> cong64 (total μ a' hb') (total μ a hb + μ f).
Proof.
  intros Hch [Hl Hm Hh] Hb. destruct Hch as [Ht|g Hid Ht|g h Hag Hid Ht]; rewrite (Ht μ Hl); [done|..].
  - rewrite (Hm g f Hid). exists 0. lia.
  - rewrite (Hh _ h (Hb Hag)), (Hm g f Hid). exists 0. lia.
Qed.

Lemma on_report_account T s a hb kept late config f : account s a hb kept late -> config_ok config -> report_ok T f ->
  (aggregate_health_check_l4_flow_log config = true -> hbs = true) -> from_secs T < 2 ^ 64 -> Z.of_nat (length kept) < 2 ^ 64 - 1 ->
  wp (on_report config a f) (fun a' => exists s' hb' kept' late', account s' a' hb' kept' late' /\ s' <= Z.max s T
    /\ kept' ++ late' ≡ₚ (if stored config f then [f] else []) ++ kept ++ late).
Proof.
  intros Hac Hc Hr Hb HT Hk. unfold on_report. rewrite (is_stored_ok T config f Hc Hr). cbn [mbind run_bind].
  destruct (stored config f); [|exists s, hb, kept, late; split_and!; [done|lia|done]]. destruct Hr as [_ Hr]. destruct Hac as [Ha Hd Hs].
  unfold from_secs in HT. change Timestamp.NANOS_IN_SECOND with 1000000000 in HT. pose proof (ao_window _ _ _ _ Ha) as Hw. pose proof (ao_count _ _ _ _ Ha) as Hcn.
  eapply wp_mono; [apply (minute_merge_ok s _ a hb config f Ha Hk); [lia|secs]|].
  cbv zeta. intros a' Ha'. destruct (Z.ltb_spec (start_time_in_minute f) s).
  - subst a'. exists s, hb, kept, (late ++ [f]). split_and!; [|lia|solve_Permutation].
    split; [|cbn; rewrite Hd; apply wrap_length_S; [done|by rewrite length_app]|done].
    destruct Ha as [? ? ? ? ? ? ? ? Hsd ?]. split; try done. by apply sender_ok_counters.
  - destruct Ha' as (a1 & hb1 & hb' & (Ht1 & Hd1 & Hc1) & _ & Hrep & Ha').
    exists (Z.max s (start_time_in_minute f - slot_count a + 1)), hb', (kept ++ [f]), late. split_and!; [|lia|solve_Permutation].
    replace (Z.of_nat (length kept) + 1) with (Z.of_nat (length (kept ++ [f]))) in Ha' by (rewrite length_app; cbn; lia).
    split; [done|by rewrite (rp_dropped _ _ _ _ _ _ _ Hrep), Hd1|].
    intros μ Hμ. rewrite (change_cong config f a1 hb1 a' hb' μ (rp_change _ _ _ _ _ _ _ Hrep) Hμ Hb), (Ht1 μ (good_log _ _ Hμ)), (Hs μ Hμ).
    rewrite sumZ_app, sumZ_cons. change (sumZ μ []) with 0. exists 0. lia.
Qed.

Lemma batch_account T config batch : config_ok config -> (aggregate_health_check_l4_flow_log config = true -> hbs = true) -> from_secs T < 2 ^ 64 ->
  forall s a hb kept late, account s a hb kept late -> Forall (report_ok T) batch ->
  Z.of_nat (length (kept ++ late)) + Z.of_nat (length batch) < 2 ^ 64 ->
  wp (rfold (on_report config) batch a) (fun a' => exists s' hb' kept' late', account s' a' hb' kept' late' /\ s' <= Z.max s T
    /\ kept' ++ late' ≡ₚ kept ++ late ++ List.filter (stored config) batch).
Proof.
  intros Hc Hb HT. induction batch as [|f batch IH]; intros s a hb kept late Hac Hf Hn.
  { exists s, hb, kept, late. rewrite app_nil_r. split_and!; [done|lia|done]. }
  apply Forall_cons in Hf as [Hf1 Hf2]. cbn [rfold length] in *. rewrite length_app in Hn.
  pose proof (on_report_account T s a hb kept late config f Hac Hc Hf1 Hb HT ltac:(lia)) as H1.
  destruct (on_report config a f) as [a1|]; [|done]. destruct H1 as (s1 & hb1 & k1 & l1 & Hac1 & Hs1 & Hp1).
  eapply wp_mono; [apply (IH s1 a1 hb1 k1 l1 Hac1 Hf2)|].
  { rewrite Hp1, !length_app. destruct (stored config f); cbn; lia. }
  intros a2 (s2 & hb2 & k2 & l2 & Hac2 & Hs2 & Hp2). exists s2, hb2, k2, l2. split; [done|]. split; [lia|].
  rewrite Hp2, (assoc_L (++)), Hp1. cbn [List.filter]. destruct (stored config f); solve_Permutation.
Qed.

Lemma sender_ok_flushed s q : sender_ok s -> queue_ok q -> same_input (sd_output s) q -> sender_ok (s <| sd_output := q |>).
Proof. intros [_ Ho Hd] Hq (Hh & _ & Ht). split; cbn; [done|by rewrite Hh|by rewrite Ht]. Qed.

Lemma aggr_ok_sender s n a hb s1 : aggr_ok s n a hb -> sender_ok s1 -> handed (history (sd_output s1)) = handed (hist a) ->
  replaced (history (sd_output s1)) = replaced (hist a) -> drop_before_window (metrics s1) = drop_before_window (metrics (sender a)) ->
  aggr_ok s n (a <| sender := s1 |>) hb /\ flushed a hb (a <| sender := s1 |>) hb.
Proof.
  intros Ha Hs1 Hh Hr Hd.
  assert (flushed a hb (a <| sender := s1 |>) hb) as Hf.
  { split; [|done]. intros ν _. unfold total, hist. cbn. unfold hist in *. by rewrite Hh, Hr. }
  split; [|done]. pose proof (flushed_size _ _ _ _ _ _ Ha Hf). destruct Ha. split; done.
Qed.

Lemma account_flushed s a hb kept late s' a' hb' : account s a hb kept late -> flushed a hb a' hb' ->
  aggr_ok s' (Z.of_nat (length kept)) a' hb' -> account s' a' hb' kept late.
Proof.
  intros [Ha Hd Hs] (Ht & Hd' & _) Ha'. split; [done|by rewrite Hd'|]. intros μ Hμ. rewrite (Ht μ (good_log _ _ Hμ)). by apply Hs.
Qed.

Lemma on_timeout_account s a hb kept late : account s a hb kept late -> Z.of_nat (length kept) < 2 ^ 64 - 1 -> from_secs (s + 1) < 2 ^ 64 ->
  wp (on_timeout a) (fun a' => exists s', account s' a' hb kept late /\ s' <= s + 1).
Proof.
  intros Hac Hn Hs. pose proof (ac_ok _ _ _ _ _ Hac) as Ha. pose proof (ao_sender _ _ _ _ Ha) as Hsd.
  pose proof (ao_count _ _ _ _ Ha). pose proof (ao_flushed _ _ _ _ Ha) as Hfl. unfold on_timeout. cbn [get_timestamp]. 
  apply wp_bind. eapply wp_mono; [apply flush_with_ok, read_ok, (so_queue _ Hsd)|]. intros q1 (Hq1 & Hh1 & Hr1 & Ht1).
  apply wp_bind. eapply wp_mono; [apply flush_without_ok, Hq1|]. intros q2 (Hq2 & Hh2 & Hr2 & Ht2). cbn in Hh1, Hr1, Ht1.
  destruct (aggr_ok_sender s _ a hb ((sender a) <| sd_output := q2 |>) Ha) as [Ha1 Hf1]; cbn; [|unfold hist; congruence..|done|].
  { apply sender_ok_flushed; [done..|]. split_and!; congruence. }
  cbn. rewrite (ao_timeout _ _ _ _ Ha). unfold duration_add, from_secs, fits in *. change Timestamp.NANOS_IN_SECOND with 1000000000 in *.
  rewrite (proj2 (Z.ltb_lt _ _)) by lia. cbn [mbind run_bind]. case_goal.
  - eapply wp_mono; [apply (flush_front_ok s _ _ hb Ha1 Hn); secs|].
    intros a2 (Ha2 & Hf2 & _). exists (s + 1). split; [|lia]. eapply account_flushed; [done|by eapply flushed_trans|done].
  - exists s. split; [|lia]. by eapply account_flushed.
Qed.

Lemma calc_account s a hb kept late : account s a hb kept late -> account s (calc_stash_counters a) hb kept late.
Proof.
  intros [Ha Hd Hs]. split; [|done|done]. destruct Ha as [? ? ? ? ? ? ? ? Hsd ?]. split; try done. by apply sender_ok_counters.
Qed.

(** The number of all reports, filtered or not. *)
Definition report_count (inputs : list input) : Z := sumZ (fun i : input => match i.2 with Ok b => Z.of_nat (length b) | Err _ => 0 end) inputs.

Lemma run_account T inputs : forall s a hb kept late, account s a hb kept late -> Forall (input_ok T) inputs ->
  Forall (fun i => aggregate_health_check_l4_flow_log i.1 = true -> hbs = true) inputs ->
  from_secs (Z.max s T + Z.of_nat (length inputs)) < 2 ^ 64 -> Z.of_nat (length (kept ++ late)) + report_count inputs < 2 ^ 64 - 1 ->
  wp (FlowAggr_run a inputs) (fun a' => exists s' hb' kept' late', account s' a' hb' kept' late' /\ kept' ++ late' ≡ₚ kept ++ late ++ received inputs).
Proof.
  induction inputs as [|[config r] inputs IH]; intros s a hb kept late Hac Hin Hhb HT Hn.
  { exists s, hb, kept, late. cbn. by rewrite app_nil_r. }
  apply Forall_cons in Hin as [[Hc Hr] Hin]. apply Forall_cons in Hhb as [Hb Hhb]. unfold report_count in *. rewrite sumZ_cons in Hn.
  unfold from_secs in *. change Timestamp.NANOS_IN_SECOND with 1000000000 in *. cbn [FlowAggr_run length fst snd] in *.
  pose proof (ao_window _ _ _ _ (ac_ok _ _ _ _ _ Hac)) as Hw.
  assert (0 <= sumZ (fun i : input => match i.2 with Ok b => Z.of_nat (length b) | Err _ => 0 end) inputs) as H0.
  { apply sumZ_nonneg, Forall_forall. intros [c [b|e]] _; cbn; lia. }
  destruct r as [batch|[|m ms|ms]]; cbn [round]; [| |exists s, hb, kept, late; cbn [received]; rewrite app_nil_r; by split|done].
  - pose proof (batch_account T config batch Hc Hb ltac:(secs)
      s a hb kept late Hac Hr ltac:(lia)) as H1.
    destruct (rfold (on_report config) batch a) as [a1|]; [|done]. destruct H1 as (s1 & hb1 & k1 & l1 & Hac1 & Hs1 & Hp1). cbn [mbind run_bind].
    assert (length (List.filter (stored config) batch) <= length batch)%nat by apply List.filter_length_le.
    eapply wp_mono; [apply (IH s1 _ hb1 k1 l1 (calc_account _ _ _ _ _ Hac1) Hin Hhb); [lia|rewrite Hp1, !length_app in *; lia]|].
    intros a2 (s2 & hb2 & k2 & l2 & Hac2 & Hp2). exists s2, hb2, k2, l2. split; [done|]. cbn [received]. rewrite Hp2, (assoc_L (++)), Hp1. solve_Permutation.
  - rewrite length_app in Hn.
    pose proof (on_timeout_account s a hb kept late Hac ltac:(lia) ltac:(secs)) as H1.
    destruct (on_timeout a) as [a1|]; [|done]. destruct H1 as (s1 & Hac1 & Hs1). cbn [fmap run_fmap mbind run_bind received].
    apply (IH s1 a1 hb kept late Hac1 Hin Hhb); [lia|rewrite length_app; lia].
Qed.

Lemma new_account o l delay : models o l -> nps_threshold 0 < 2 ^ 58 -> 0 <= delay -> Timestamp.as_secs delay < 2 ^ 62 ->
  wp (FlowAggr_new o delay) (fun a => account 0 a [] [] []).
Proof.
  intros Hm Ht Hd0 Hd. assert (0 <= Timestamp.as_secs delay) by (apply Z.div_pos; done). unfold FlowAggr_new. apply wp_bind.
  eapply wp_mono; [by eapply Sender_new_ok|]. intros q (Hq & Hh & Hr). cbn [wp].
  match goal with |- account _ ?x _ _ _ => set (a := x) end.
  assert (forall ν, total ν a [] = 0) as Ht0.
  { intros ν. unfold total, hist, a. cbn [sender sd_output flow_stashs]. rewrite Hh, Hr. change (sum_chrono ν []) with 0. change (sumZ ν []) with 0.
    assert (forall k, sumZ (sum_map (K := Z) ν) (replicate k ∅) = 0) as ->; [|done].
    induction k as [|k IH]; [done|]. cbn [replicate]. by rewrite sumZ_cons, sum_map_empty, IH. }
  unfold TIMESTAMP_SLOT_COUNT, SECONDS_IN_MINUTE in *. split; [|done|intros μ _; rewrite Ht0; by exists 0]. split; cbn; try done; try lia.
  - rewrite length_replicate. lia.
  - intros i m id g Hi Hg. apply lookup_replicate in Hi as [-> _]. by rewrite lookup_empty in Hg.
  - apply new_refines.
  - rewrite Ht0. done.
Qed.

End traces.

(** ** Properties *)

Section properties.
Context {E : AggrEnv} {EOk : AggrEnvOk E} {P : NpbPlugin}.

(** A thread on a new output queue, and what it may receive: [T] is the last
    second of a report.  The bounds keep the clock of the slots and the number
    of logs in 64 bits. *)
Record scenario (o : OverwriteQueue TaggedFlow) (delay T : Z) (inputs : list input) : Prop := {
  sc_queue : exists l, models o l;
  sc_threshold : nps_threshold 0 < 2 ^ 58;
  sc_delay : 0 <= delay /\ Timestamp.as_secs delay < 2 ^ 62;
  sc_inputs : Forall (input_ok T) inputs;
  sc_time : 0 <= T /\ from_secs (T + Z.of_nat (length inputs)) < 2 ^ 64;
  sc_count : report_count inputs < 2 ^ 64 - 1;
}.

Definition aggregates (i : input) : bool := aggregate_health_check_l4_flow_log i.1.

Lemma scenario_account o delay T inputs : scenario o delay T inputs ->
  exists a0 s a hb kept late, FlowAggr_new o delay = Ret a0 /\ FlowAggr_run a0 inputs = Ret a
    /\ account (existsb aggregates inputs) s a hb kept late /\ received inputs ≡ₚ kept ++ late.
Proof.
  intros [[l Hl] Ht [Hd0 Hd] Hin [HT0 HT] Hn].
  destruct (proj1 (wp_exists _ _) (new_account (existsb aggregates inputs) o l delay Hl Ht Hd0 Hd)) as (a0 & Ha0 & Hac0).
  assert (Forall (fun i => aggregate_health_check_l4_flow_log i.1 = true -> existsb aggregates inputs = true) inputs) as Hb.
  { apply Forall_forall. intros i Hi Hag. apply existsb_exists. exists i. split; [by apply list_elem_of_In|done]. }
  destruct (proj1 (wp_exists _ _) (run_account (existsb aggregates inputs) T inputs 0 a0 [] [] [] Hac0 Hin Hb
    ltac:(rewrite Z.max_r by done; done) ltac:(cbn; lia))) as (a & Ha & s & hb & kept & late & Hac & Hp).
  exists a0, s, a, hb, kept, late. done.
Qed.


(** C27: every log handed to the sender is in exactly one place: accepted by the output
    queue, waiting in a cache, left out by the sampling, cut off when the
    threshold shrank, or refused by the output queue; the counters [out] and
    [drop_in_throttle] are exact, and the cache holds the flows of the
    four seconds up to the threshold. *)
Theorem flow_logs_accounted o delay T inputs : scenario o delay T inputs ->
  exists a0 a, FlowAggr_new o delay = Ret a0 /\ FlowAggr_run a0 inputs = Ret a /\
    let q := sd_output (sender a) in let h := history q in
    handed h ≡ₚ accepted h ++ cache_with_throttling q ++ cache_without_throttling q ++ throttled h ++ truncated h ++ rejected h
    /\ out (metrics (sender a)) = wrap 64 (Z.of_nat (length (handed h)))
    /\ drop_in_throttle (metrics (sender a)) = wrap 64 (Z.of_nat (length (throttled h)))
    /\ Z.of_nat (length (cache_with_throttling q)) = Z.min (period_count q) (throttle q)
    /\ (length (handed h) <= length (received inputs))%nat.
Proof.
  intros Hsc. destruct (scenario_account _ _ _ _ Hsc) as (a0 & s & a & hb & kept & late & Ha0 & Ha & [Hok Hl Hs] & Hp).
  exists a0, a. split; [done|]. split; [done|]. cbv zeta. pose proof (handed_bound _ _ _ _ Hok) as Hb.
  destruct (ao_sender _ _ _ _ Hok) as [[Hm Ht Hc Hpd Hg] Ho Hd]. split_and!; [done..|]. rewrite Hp, length_app. unfold hist in Hb. lia.
Qed.

End properties.
