(* ===== verification/FlowAggrLogs.v ===== *)
(** * The log of a minute (collector/flow_aggr.rs)

    One flow: its reports of a minute become one log.  Two things that do not
    go as meant: a heartbeat seen in one report displaces the waiting one
    instead of being merged with it, and a full bucket that does not fit into
    the output queue is lost as a whole. *)

From stdpp Require Import gmap.
From S2P Require Import Prelude Timestamp TcpFlags TapTypes Flow FlowMerge OverwriteQueue QueueConc QueueSpec ChronoMap ChronoSpec ChronoTraces.
From S2P Require Import FlowLogSender FlowAggr FlowAggrSpec FlowAggrTraces.

(** The open log of flow [id] whose minute starts in second [t]. *)
Definition open_log (a : FlowAggr) (t id : Z) : option TaggedFlow :=
  let s := Timestamp.as_secs (slot_start_time a) in
  if s <=? t then m ← flow_stashs a !! Z.to_nat (t - s); m !! id else None.

Definition is_of (t id : Z) (f : TaggedFlow) : bool := (start_time_in_minute f =? t) && (flow_id (flow f) =? id).

Definition log_with (o : option TaggedFlow) (f : TaggedFlow) : TaggedFlow :=
  match o with Some g => merge_report g f | None => f end.

Lemma open_log_at s n a hb t id : aggr_ok s n a hb ->
  open_log a t id = if s <=? t then m ← flow_stashs a !! Z.to_nat (t - s); m !! id else None.
Proof.
  intros Ha. unfold open_log. rewrite (ao_start _ _ _ _ Ha). unfold from_secs, Timestamp.as_secs.
  by rewrite Z.div_mul by (change Timestamp.NANOS_IN_SECOND with 1000000000; lia).
Qed.

Lemma rotated_lookup k (ms : list (gmap Z TaggedFlow)) i id : (k <= length ms)%nat ->
  (m ← rotated k ms !! i; m !! id) = (m ← ms !! (k + i)%nat; m !! id).
Proof.
  intros Hk. unfold rotated. destruct (decide (k + i < length ms)%nat).
  - rewrite lookup_app_l by (rewrite length_drop; lia). by rewrite lookup_drop.
  - rewrite lookup_app_r by (rewrite length_drop; lia). rewrite (lookup_ge_None_2 ms) by lia.
    destruct (replicate k (∅ : gmap Z TaggedFlow) !! _) as [m|] eqn:Hm; [|done].
    apply lookup_replicate in Hm as [-> _]. cbn. by rewrite lookup_empty.
Qed.

Section logs.
Context {E : AggrEnv} {EOk : AggrEnvOk E} {P : NpbPlugin}.

(** A report that does not end the minute of [t] concerns the open log only if it is one of its flow. *)
Lemma minute_merge_open_log s n a hb config f t id : aggr_ok s n a hb -> n < 2 ^ 64 - 1 ->
  0 <= start_time_in_minute f -> from_secs (start_time_in_minute f) < 2 ^ 64 ->
  s <= t -> start_time_in_minute f < t + slot_count a ->
  wp (minute_merge a config f) (fun a' => (exists s' n' hb', aggr_ok s' n' a' hb' /\ n' <= n + 1 /\ s' <= t /\ slot_count a' = slot_count a)
    /\ open_log a' t id = (if is_of t id f then
                             if decide (close_type (flow f) = ForcedReport) then Some (log_with (open_log a t id) f) else None
                           else open_log a t id)
    /\ (is_of t id f = true -> close_type (flow f) <> ForcedReport -> is_heartbeat_report config f = false ->
        exists h, handed (hist a') = h ++ [log_of (log_with (open_log a t id) f)])).
Proof.
  intros Ha Hn Hτ Hτ' Hst Hlt. eapply wp_mono; [by apply (minute_merge_ok s n a hb config f)|]. cbv zeta.
  pose proof (ao_count _ _ _ _ Ha) as Hc. set (τ := start_time_in_minute f) in *. intros a' Ha'. destruct (Z.ltb_spec τ s) as [Hl|Hl].
  - subst a'. split.
    { exists s, n, hb. split_and!; [|lia|lia|done]. destruct Ha as [? ? ? ? ? ? ? ? Hsd ?]. split; try done. by apply sender_ok_counters. }
    unfold is_of. fold τ. rewrite (proj2 (Z.eqb_neq τ t)) by lia. done.
  - destruct Ha' as (a1 & hb1 & hb' & (Ht1 & Hd1 & Hc1) & Hst1 & Hrep & Ha'). set (s' := Z.max s (τ - slot_count a + 1)) in *.
    assert (s <= s' <= t /\ s' <= τ /\ τ - slot_count a + 1 <= s') as Hs' by lia.
    split; [exists s', (n + 1), hb'; split_and!; [done|lia|lia|by rewrite (rp_count _ _ _ _ _ _ _ Hrep)]|].
    pose proof (ao_length _ _ _ _ Ha) as Hlen. pose proof (ao_length _ _ _ _ Ha') as Hlen'.
    rewrite (open_log_at s' _ a' hb' t id Ha'), (open_log_at s _ a hb t id Ha), !(proj2 (Z.leb_le _ _)) by lia.
    assert (forall x, x = (m ← flow_stashs a1 !! Z.to_nat (t - s'); m !! id) -> x = (m ← flow_stashs a !! Z.to_nat (t - s); m !! id)) as Hold.
    { intros x ->. rewrite Hst1, rotated_lookup by lia. destruct (decide (s' - s <= slot_count a)).
      - replace (Z.to_nat (Z.min (s' - s) (slot_count a)) + Z.to_nat (t - s'))%nat with (Z.to_nat (t - s)) by lia. done.
      - by rewrite !lookup_ge_None_2 by lia. }
    assert (length (flow_stashs a1) = length (flow_stashs a)) as Hlen1.
    { rewrite Hst1. unfold rotated. rewrite length_app, length_drop, length_replicate. lia. }
    destruct (lookup_lt_is_Some_2 (flow_stashs a1) (Z.to_nat (τ - s'))) as [m Hm]; [lia|].
    rewrite (rp_slot _ _ _ _ _ _ _ Hrep m Hm). unfold is_of. fold τ. destruct (Z.eqb_spec τ t) as [Hτt|Hτt].
    + rewrite Hτt in *. rewrite list_lookup_insert_eq by (apply lookup_lt_Some in Hm; done). cbn [mbind option_bind].
      assert (m !! id = (m ← flow_stashs a !! Z.to_nat (t - s); m !! id)) as Hmid by (apply Hold; by rewrite Hm).
      rewrite <- Hmid. destruct (Z.eqb_spec (flow_id (flow f)) id) as [<-|Hid]; cbn [andb].
      * split.
        -- unfold slot_after, updated, log_with. case_decide; [by rewrite lookup_insert_eq|by rewrite lookup_delete_eq].
        -- intros _ Hcl Hhb. eexists. rewrite (rp_handed _ _ _ _ _ _ _ Hrep m Hm Hcl Hhb). unfold updated, log_with. done.
      * split; [|done]. unfold slot_after. case_decide; [by rewrite lookup_insert_ne|by rewrite lookup_delete_ne].
    + cbn [andb]. split; [|done]. rewrite list_lookup_insert_ne by lia. by apply Hold.
Qed.

Lemma reports_open_log T config t id fs : config_ok config -> from_secs T < 2 ^ 64 -> forall s n a hb, aggr_ok s n a hb -> s <= t ->
  n + Z.of_nat (length fs) < 2 ^ 64 - 1 -> Forall (report_ok T) fs -> Forall (fun f => start_time_in_minute f < t + slot_count a) fs ->
  Forall (fun f => is_of t id f = true -> close_type (flow f) = ForcedReport) fs ->
  wp (rfold (on_report config) fs a) (fun a' => (exists s' n' hb', aggr_ok s' n' a' hb' /\ n' <= n + Z.of_nat (length fs) /\ s' <= t /\ slot_count a' = slot_count a)
    /\ open_log a' t id = foldl (fun o f => Some (log_with o f)) (open_log a t id) (List.filter (fun f => stored config f && is_of t id f) fs)).
Proof.
  intros Hc HT. induction fs as [|f fs IH]; intros s n a hb Ha Hs Hn Hr Hlt Hcl; cbn [rfold].
  { split; [|done]. exists s, n, hb. split_and!; [done|cbn; lia|done|done]. }
  apply Forall_cons in Hr as [Hr Hrs]. apply Forall_cons in Hlt as [Hlt Hlts]. apply Forall_cons in Hcl as [Hcl Hcls]. cbn [length] in Hn.
  assert (wp (on_report config a f) (fun a1 => (exists s' n' hb', aggr_ok s' n' a1 hb' /\ n' <= n + 1 /\ s' <= t /\ slot_count a1 = slot_count a)
    /\ open_log a1 t id = if stored config f && is_of t id f then Some (log_with (open_log a t id) f) else open_log a t id)) as H1.
  { unfold on_report. rewrite (is_stored_ok T config f Hc Hr). cbn [mbind run_bind]. destruct Hr as [_ Hr]. destruct (stored config f); cbn [andb].
    - unfold from_secs in *. change Timestamp.NANOS_IN_SECOND with 1000000000 in *.
      eapply wp_mono; [apply (minute_merge_open_log s n a hb config f t id Ha); [lia|lia|secs|done|done]|].
      intros a1 (Hx & Ho & _). split; [done|]. rewrite Ho. destruct (is_of t id f); [|done]. by rewrite decide_True by (by apply Hcl).
    - split; [|done]. exists s, n, hb. split_and!; [done|lia|done|done]. }
  destruct (on_report config a f) as [a1|]; [|done]. destruct H1 as ((s1 & n1 & hb1 & Ha1 & Hn1 & Hs1 & Hc1) & Ho1).
  eapply wp_mono; [apply (IH s1 n1 a1 hb1 Ha1 Hs1); [lia|done|by rewrite Hc1|done]|].
  intros a2 ((s2 & n2 & hb2 & Ha2 & Hn2 & Hs2 & Hc2) & Ho2). split.
  { exists s2, n2, hb2. split_and!; [done|cbn [length]; lia|done|congruence]. }
  rewrite Ho2, Ho1. cbn [List.filter]. by destruct (stored config f && is_of t id f).
Qed.

Lemma received_count inputs : Z.of_nat (length (received inputs)) <= report_count inputs.
Proof.
  unfold report_count. induction inputs as [|[config r] inputs IH]; [done|]. rewrite sumZ_cons.
  assert (0 <= sumZ (fun i : input => match i.2 with Ok b => Z.of_nat (length b) | Err _ => 0 end) inputs) by lia.
  destruct r as [b|[|m ms|ms]]; cbn [received snd length]; try lia. rewrite length_app.
  pose proof (List.filter_length_le (stored config) b). lia.
Qed.

Lemma scenario_split o delay T pre config batch : scenario o delay T (pre ++ [(config, Ok batch)]) ->
  scenario o delay T pre /\ config_ok config /\ Forall (report_ok T) batch /\ report_count pre + Z.of_nat (length batch) < 2 ^ 64 - 1.
Proof.
  intros [Hq Ht Hd Hin [HT0 HT] Hn]. apply Forall_app in Hin as [Hin H1]. apply Forall_cons in H1 as [[Hc Hb] _].
  unfold report_count in Hn. rewrite sumZ_app, sumZ_cons in Hn. cbn [snd] in Hn. change (sumZ _ []) with 0 in Hn.
  rewrite length_app in HT. unfold from_secs in HT. change Timestamp.NANOS_IN_SECOND with 1000000000 in HT. cbn [length] in HT.
  split_and!; [|done|done|unfold report_count; lia]. split; [done..| |unfold report_count; lia].
  split; [done|]. secs.
Qed.


End logs.

(** ** The end of a bucket *)

Section bucket.
Context {E : AggrEnv} {EOk : AggrEnvOk E} {P : NpbPlugin}.

Lemma update_throttle_cache q : queue_ok q -> let q' := update_throttle q in
  cache_with_throttling q' = take (Z.to_nat (throttle q')) (cache_with_throttling q) /\ out_queue q' = out_queue q
  /\ accepted (history q') = accepted (history q) /\ rejected (history q') = rejected (history q).
Proof.
  intros Hq. pose proof (qo_cache q Hq). cbv zeta. unfold update_throttle. repeat case_goal; cbn; split_and!; try done; by rewrite take_ge by lia.
Qed.

(** what becomes of the flows sampled in a bucket of four seconds when it is over, on
    every branch: if the output queue is closed, or if they are more than it can
    hold at all, every one of them is discarded, the output queue is as
    before, and no counter is touched; otherwise all of them are queued, at
    the cost of the oldest messages of a full queue.  Either way a new period
    begins. *)
Theorem bucket_flush_outcome q l now : queue_ok q -> models (out_queue q) l ->
  bucket now <> bucket (last_flush_cache_with_throttling_time q) ->
  exists q', flush_cache_with_throttling q now = Ret q' /\ cache_with_throttling q' = [] /\ period_count q' = 0 /\
    let cache := take (Z.to_nat (throttle q')) (cache_with_throttling q) in
    if terminated (out_queue q) || (size (out_queue q) <? length cache)%nat
    then out_queue q' = out_queue q /\ accepted (history q') = accepted (history q) /\ rejected (history q') = rejected (history q) ++ cache
    else models (out_queue q') (drop (length (l ++ cache) - size (out_queue q)) (l ++ cache))
         /\ accepted (history q') = accepted (history q) ++ cache /\ rejected (history q') = rejected (history q).
Proof.
  intros Hq Hm Hb. unfold flush_cache_with_throttling. rewrite (proj2 (Z.eqb_neq _ _)) by done. cbn [negb].
  destruct (update_throttle_cache q Hq) as (Hc & Ho & Hac & Hrj). set (q1 := update_throttle q) in *. clearbody q1.
  unfold send_cache. rewrite Ho, Hc. set (cache := take (Z.to_nat (throttle q1)) (cache_with_throttling q)).
  pose proof (exec_op_refines (out_queue q) l (OSendAll cache) Hm) as H. unfold exec_op, spec_op in H.
  destruct (terminated (out_queue q)) eqn:Ht; [|destruct (size (out_queue q) <? length cache)%nat eqn:Hs].
  1, 2: destruct H as (o' & He & _); destruct (send_all (out_queue q) cache) as [[[o1 rest] r]|] eqn:Hsa; [|done];
    cbn in He; injection He as -> -> ->; cbn -[Nat.ltb]; eexists; (split; [done|]); cbn -[Nat.ltb]; fold cache; rewrite ?Ht, ?Hs; cbn; rewrite Hac, Hrj; split_and!; try done.
  - unfold send_all, raw_send in Hsa. rewrite Ht in Hsa. cbn in Hsa. by injection Hsa.
  - unfold send_all, raw_send in Hsa. rewrite Ht, Hs in Hsa. cbn in Hsa. by injection Hsa.
  - destruct H as (o' & He & Hm' & _). destruct (send_all (out_queue q) cache) as [[[o1 rest] r]|] eqn:Hsa; [|done].
    cbn in He. injection He as -> -> ->. cbn -[Nat.ltb]. eexists. split; [done|]. cbn -[Nat.ltb]. fold cache. rewrite Hs. cbn. by rewrite Hac, Hrj.
Qed.

End bucket.

(** ** Heartbeats of one report *)

Lemma a_find_insert {K V} `{Countable K} t (k : K) (v : V) a : NoDup (a_keys a) -> NoDup (a_keys (a_insert t k v a).1) ->
  a_find k (a_insert t k v a).1 = Some (t, v).
Proof.
  intros Hn Hn'. apply a_find_Some; [done|]. unfold a_insert in *. destruct (a_find k a) as [[t' old]|] eqn:Hf.
  - destruct (Z.eqb_spec t' t) as [->|Hne]; cbn [fst].
    + apply a_find_Some in Hf as (ns & Hns & Hk); [|done].
      exists ((fun kv => (kv.1, if decide (kv.1 = k) then v else kv.2)) <$> ns). split; [exact (list_elem_of_fmap_2 _ _ _ Hns)|].
      apply list_elem_of_fmap. exists (k, old). cbn. by rewrite decide_True.
    + apply at_time_push. by left.
  - apply at_time_push. by left.
Qed.

Section heartbeats.
Context {E : AggrEnv} {EOk : AggrEnvOk E} {P : NpbPlugin}.

(** A heartbeat without an open log goes to the map at once. *)
Lemma on_heartbeat T s n a hb config f : aggr_ok s n a hb -> config_ok config -> report_ok T f -> stored config f = true ->
  is_heartbeat_report config f = true -> from_secs T < 2 ^ 64 -> s <= start_time_in_minute f < s + slot_count a ->
  open_log a (start_time_in_minute f) (flow_id (flow f)) = None ->
  on_report config a f = insert_heartbeat a (from_secs (start_time_in_minute f)) (get_heartbeat_aggr_key f) f.
Proof.
  intros Ha Hc Hr Hst Hhb HT Hw Ho. pose proof (ao_window _ _ _ _ Ha). pose proof (ao_length _ _ _ _ Ha).
  unfold on_report. rewrite (is_stored_ok T config f Hc Hr), Hst. cbn [mbind run_bind]. destruct Hr as [_ Hr].
  rewrite (open_log_at s n a hb _ _ Ha), (proj2 (Z.leb_le _ _)) in Ho by lia. set (τ := start_time_in_minute f) in *.
  unfold minute_merge, Timestamp.from_secs, Timestamp.from_duration. fold τ. rewrite (ao_start _ _ _ _ Ha).
  unfold from_secs in *. change Timestamp.NANOS_IN_SECOND with 1000000000 in *. rewrite !wrap_small by (unfold fits; lia).
  rewrite (proj2 (Z.ltb_ge _ _)), Timestamp.sub_ret by lia. cbn [mbind run_bind].
  assert (Timestamp.as_secs (τ * 1000000000 - s * 1000000000) = τ - s) as ->.
  { unfold Timestamp.as_secs. change Timestamp.NANOS_IN_SECOND with 1000000000. rewrite <- Z.mul_sub_distr_r. apply Z.div_mul. lia. }
  rewrite (proj2 (Z.leb_gt _ _)) by lia. unfold merge_in_slot.
  destruct (lookup_lt_is_Some_2 (flow_stashs a) (Z.to_nat (τ - s))) as [m Hm]; [lia|]. rewrite Hm in *. cbn [unwrap mbind run_bind option_bind] in *.
  rewrite Ho. unfold is_heartbeat_report in Hhb. by rewrite Hhb.
Qed.

(** heartbeats whose connection lived within one second are not aggregated: the
    second of two of the same client, server and port takes the place of the
    first, which is neither merged nor sent, and no counter changes. *)
Theorem heartbeat_displaced o delay T pre config f1 f2 a : scenario o delay T (pre ++ [(config, Ok [f1; f2])]) ->
  (FlowAggr_new o delay ≫= fun a0 => FlowAggr_run a0 pre) = Ret a -> aggregate_health_check_l4_flow_log config = true ->
  Forall (fun f => stored config f = true /\ close_type (flow f) = TcpFinClientRst
    /\ 0 <= start_time_in_minute f - Timestamp.as_secs (slot_start_time a) < slot_count a
    /\ open_log a (start_time_in_minute f) (flow_id (flow f)) = None) [f1; f2] ->
  get_heartbeat_aggr_key f1 = get_heartbeat_aggr_key f2 ->
  exists a' r, rfold (on_report config) [f1; f2] a = Ret a' /\ ChronoMap.get (heartbeat_flow_stash a') (get_heartbeat_aggr_key f1) = Ret (Some f2)
    /\ replaced (hist a') = r ++ [f1] /\ handed (hist a') = handed (hist a) /\ metrics (sender a') = metrics (sender a).
Proof.
  intros Hsc Hrun Hag Hfs Hkey. destruct (scenario_split _ _ _ _ _ _ Hsc) as (Hpre & Hc & Hb & Hn).
  destruct (scenario_account _ _ _ _ Hpre) as (a0 & s & a' & hb & kept & late & Ha0 & Ha & [Hok _ _] & _). rewrite Ha0 in Hrun. cbn in Hrun.
  rewrite Ha in Hrun. injection Hrun as ->. pose proof (sc_time _ _ _ _ Hpre) as [HT0 HT].
  assert (from_secs T < 2 ^ 64) as HT' by secs.
  assert (Timestamp.as_secs (slot_start_time a) = s) as Hs.
  { rewrite (ao_start _ _ _ _ Hok). unfold from_secs, Timestamp.as_secs. apply Z.div_mul. change Timestamp.NANOS_IN_SECOND with 1000000000. lia. }
  rewrite Hs in Hfs. apply Forall_cons in Hfs as [(Hst1 & Hcl1 & Hw1 & Ho1) Hfs]. apply Forall_cons in Hfs as [(Hst2 & Hcl2 & Hw2 & Ho2) _].
  apply Forall_cons in Hb as [Hr1 Hb]. apply Forall_cons in Hb as [Hr2 _]. cbn [rfold].
  assert (is_heartbeat_report config f1 = true /\ is_heartbeat_report config f2 = true) as [Hh1 Hh2].
  { unfold is_heartbeat_report. by rewrite Hag, Hcl1, Hcl2. }
  rewrite (on_heartbeat T s _ a hb config f1 Hok Hc Hr1 Hst1 Hh1 HT' ltac:(lia) Ho1).
  pose proof (refines_nodup _ _ (ao_hb _ _ _ _ Hok)) as Hnd.
  destruct (proj1 (wp_exists _ _) (insert_heartbeat_ok s _ a hb (from_secs (start_time_in_minute f1)) (get_heartbeat_aggr_key f1) f1 Hok))
    as (a1 & -> & Ha1 & (_ & Hst & _ & Hcnt) & _ & Hh & Hm).
  set (hb1 := (a_insert _ _ f1 hb).1) in *. pose proof (refines_nodup _ _ (ao_hb _ _ _ _ Ha1)) as Hnd1.
  rewrite (on_heartbeat T s _ a1 hb1 config f2 Ha1 Hc Hr2 Hst2 Hh2 HT' ltac:(lia)).
  2: { rewrite (open_log_at s _ a1 hb1 _ _ Ha1), Hst. by rewrite (open_log_at s _ a hb _ _ Hok) in Ho2. }
  destruct (proj1 (wp_exists _ _) (insert_heartbeat_ok s _ a1 hb1 (from_secs (start_time_in_minute f2)) (get_heartbeat_aggr_key f2) f2 Ha1))
    as (a2 & -> & Ha2 & _ & Hrep & Hh' & Hm').
  pose proof (a_find_insert (from_secs (start_time_in_minute f1)) (get_heartbeat_aggr_key f1) f1 hb Hnd Hnd1) as Hf1. fold hb1 in Hf1.
  pose proof (refines_nodup _ _ (ao_hb _ _ _ _ Ha2)) as Hnd2. rewrite Hkey in Hf1.
  pose proof (a_find_insert (from_secs (start_time_in_minute f2)) (get_heartbeat_aggr_key f2) f2 hb1 Hnd1 Hnd2) as Hf2.
  exists a2, (replaced (hist a1)). split_and!; [done|by rewrite Hkey, (get_refines _ _ _ (ao_hb _ _ _ _ Ha2)), Hf2| |congruence..].
  rewrite Hrep. unfold a_insert. rewrite Hf1. by case_goal.
Qed.

End heartbeats.
