(* ===== verification/FlowAggrExamples.v ===== *)
(** * Example runs of the aggregation

    Concrete environments, reports and queues on which the properties of the
    aggregation of flow logs apply. *)

From stdpp Require Import gmap strings.
From S2P Require Import Prelude Timestamp TapTypes Flow FlowNode FlowMerge OverwriteQueue QueueConc QueueSpec ChronoMap.
From S2P Require Import FlowLogSender FlowSampling FlowAggr FlowAggrSpec FlowAggrTraces FlowAggrLogs.

Definition ex_env : AggrEnv :=
  {| clock _ := from_secs 1700000000; nps_threshold _ := 100; gen_range _ _ := 0;
     drain_order m := (map_to_list m).*2; stashs_capacity := 64 |}.

#[export] Instance ex_env_ok : AggrEnvOk ex_env.
Proof. split; [done|done|cbn; lia|done]. Qed.

Definition ex_output (n : nat) : OverwriteQueue TaggedFlow := with_capacity n.

Lemma ex_output_models n : models (ex_output n) [].
Proof. exists (next_power_of_two n), 0%nat, [], []. split; [apply inv_init|done]. Qed.

Definition ex_collector (aggregate : bool) : CollectorConfig := Build_CollectorConfig (replicate 51 false) (replicate 256 true) aggregate.

(** A report in second 30 of a flow that started in second 5. *)
Definition ex_report (id : Z) (c : CloseType) : TaggedFlow :=
  Build_TaggedFlow (Flow_default <| flow_id := id |> <| close_type := c |> <| start_time := from_secs 5 |> <| flow_stat_time := from_secs 30 |>
      <| flow_metrics_src := FlowMetricsPeer_default <| packet_count := 3 |> |>)
    None Client [] [] String.EmptyString false None None.

Lemma ex_scenario n agg fs : Forall (fun f => exists id c, f = ex_report id c) fs -> (length fs < 10)%nat ->
  scenario (E := ex_env) (ex_output n) 0 5 [(ex_collector agg, Ok fs)].
Proof.
  intros Hfs Hl. split; [exists []; apply ex_output_models|done|done| |done|unfold report_count, sumZ; cbn; lia].
  apply Forall_singleton. split; [done|]. cbn. eapply Forall_impl; [exact Hfs|]. intros f (id & c & ->). by split; vm_compute.
Qed.

Ltac ex_reports := repeat (apply Forall_cons; split; [by do 2 eexists|]); apply Forall_nil; exact I.

Definition ex_inputs : list input := [(ex_collector false, Ok [ex_report 7 ForcedReport; ex_report 7 CloseFinish; ex_report 8 ForcedReport])].


Lemma flow_logs_accounted_witness : exists a0 a, FlowAggr_new (E := ex_env) (ex_output 4) 0 = Ret a0
  /\ FlowAggr_run (E := ex_env) (P := community) a0 ex_inputs = Ret a
  /\ out (metrics (sender a)) = wrap 64 (Z.of_nat (length (handed (hist a)))).
Proof.
  destruct (flow_logs_accounted (E := ex_env) (P := community) (ex_output 4) 0 5 ex_inputs) as (a0 & a & H0 & H1 & _ & H2 & _).
  - apply ex_scenario; [ex_reports|cbn; lia].
  - exists a0, a. exact (conj H0 (conj H1 H2)).
Defined.

(** The state of a new thread. *)
Definition ex_start : FlowAggr :=
  Build_FlowAggr 0 (replicate 60 ∅) ChronoMap.new 1024 60 (from_secs 60) 0
    (Build_Sender (Build_ThrottlingQueue 400 1 0 0 0 (ex_output 4) [] [] (Build_History [] [] [] [] [] [])) (Build_FlowAggrCounter 0 0 0 0 0 0 0 0)).

Lemma ex_start_new : (FlowAggr_new (E := ex_env) (ex_output 4) 0 ≫= fun a0 => FlowAggr_run (E := ex_env) (P := community) a0 []) = Ret ex_start.
Proof. vm_compute. reflexivity. Qed.


(** Two sampled flows and a queue for one. *)
Definition ex_full : ThrottlingQueue :=
  Build_ThrottlingQueue 400 0 0 0 2 (ex_output 1) [ex_report 7 CloseFinish; ex_report 8 CloseFinish] []
    (Build_History [ex_report 7 CloseFinish; ex_report 8 CloseFinish] [] [] [] [] []).

Lemma bucket_flush_outcome_witness : exists q', flush_cache_with_throttling (E := ex_env) ex_full (from_secs 4) = Ret q'
  /\ cache_with_throttling q' = [] /\ out_queue q' = ex_output 1 /\ length (rejected (history q')) = 2%nat.
Proof.
  destruct (bucket_flush_outcome (E := ex_env) ex_full [] (from_secs 4)) as (q' & Hq & Hc & _ & Ho).
  - split; [exists []; apply ex_output_models|done|done|done|done].
  - apply ex_output_models.
  - vm_compute. congruence.
  - exists q'. injection Hq as <-. split_and!; [done|done|apply Ho|done].
Defined.

Lemma heartbeat_displaced_witness : exists a a' r,
  rfold (on_report (E := ex_env) (P := community) (ex_collector true)) [ex_report 7 TcpFinClientRst; ex_report 8 TcpFinClientRst] a = Ret a'
  /\ replaced (hist a') = r ++ [ex_report 7 TcpFinClientRst] /\ handed (hist a') = handed (hist a).
Proof.
  destruct (heartbeat_displaced (E := ex_env) (P := community) (ex_output 4) 0 5 [] (ex_collector true) (ex_report 7 TcpFinClientRst) (ex_report 8 TcpFinClientRst) ex_start) as (a' & r & H1 & _ & H2 & H3 & _).
  - apply ex_scenario; [ex_reports|cbn; lia].
  - exact ex_start_new.
  - reflexivity.
  - repeat constructor; vm_compute; congruence.
  - reflexivity.
  - exists ex_start, a', r. exact (conj H1 (conj H2 H3)).
Defined.

Definition ex_period : ThrottlingQueue := Build_ThrottlingQueue 1 0 0 0 0 (ex_output 4) [] [] (Build_History [] [] [] [] [] []).

Lemma throttle_sampling_fair_witness :
  (forall rs, rs ∈ draws 1 2 -> exists q', offer (E := scripted ex_env 0 rs) ex_period [ex_report 7 CloseFinish; ex_report 8 CloseFinish; ex_report 9 CloseFinish] = Ret q'
    /\ length (cache_with_throttling q') = 1%nat)
  /\ (count (kept_in 1 2 1) (draws 1 2) * 3 = 1 * 6)%nat.
Proof.
  destruct (throttle_sampling_fair ex_env ex_period 1 2 [ex_report 7 CloseFinish; ex_report 8 CloseFinish; ex_report 9 CloseFinish]) as (_ & _ & H1 & H2); try done.
  split; [|apply (H2 1%nat); lia]. intros rs Hrs. destruct (H1 rs Hrs) as (q' & Hq & Hs). exists q'. split; [exact Hq|].
  rewrite <- (length_fmap Some), Hs, length_fmap. apply sample_length.
Defined.
