(* ===== verification/Meters.v ===== *)
(** * Meters (metric/meter.rs)

    What the collectors count for a flow, an application or a policy, and how two
    meters of one key are merged.  Each struct is a module.  The conversions to
    the protobuf messages are not modelled. *)

From S2P Require Import Prelude TcpPerf.

Module Traffic.

Record t := {
  packet_tx : Z;
  packet_rx : Z;
  byte_tx : Z;
  byte_rx : Z;
  l3_byte_tx : Z;
  l3_byte_rx : Z;
  l4_byte_tx : Z;
  l4_byte_rx : Z;
  new_flow : Z;
  closed_flow : Z;
  l7_request : Z;
  l7_response : Z;
  syn : Z;
  synack : Z;
  direction_score : Z;
}.

#[global] Instance fields : Fields t := fun x =>
  Build_t (packet_tx x) (packet_rx x) (byte_tx x) (byte_rx x) (l3_byte_tx x) (l3_byte_rx x) (l4_byte_tx x) (l4_byte_rx x)
    (new_flow x) (closed_flow x) (l7_request x) (l7_response x) (syn x) (synack x) (direction_score x).

Definition default : t := Build_t 0 0 0 0 0 0 0 0 0 0 0 0 0 0 0.

Definition sequential_merge (s o : t) : t := {|
  packet_tx := packet_tx s +₆₄ packet_tx o;
  packet_rx := packet_rx s +₆₄ packet_rx o;
  byte_tx := byte_tx s +₆₄ byte_tx o;
  byte_rx := byte_rx s +₆₄ byte_rx o;
  l3_byte_tx := l3_byte_tx s +₆₄ l3_byte_tx o;
  l3_byte_rx := l3_byte_rx s +₆₄ l3_byte_rx o;
  l4_byte_tx := l4_byte_tx s +₆₄ l4_byte_tx o;
  l4_byte_rx := l4_byte_rx s +₆₄ l4_byte_rx o;
  new_flow := new_flow s +₆₄ new_flow o;
  closed_flow := closed_flow s +₆₄ closed_flow o;
  l7_request := l7_request s +₃₂ l7_request o;
  l7_response := l7_response s +₃₂ l7_response o;
  syn := syn s +₃₂ syn o;
  synack := synack s +₃₂ synack o;
  direction_score := Z.max (direction_score s) (direction_score o);
|}.

Definition reverse (s : t) : t :=
  s <| packet_tx := packet_rx s |> <| packet_rx := packet_tx s |> <| byte_tx := byte_rx s |> <| byte_rx := byte_tx s |>
    <| l3_byte_tx := l3_byte_rx s |> <| l3_byte_rx := l3_byte_tx s |> <| l4_byte_tx := l4_byte_rx s |>
    <| l4_byte_rx := l4_byte_tx s |> <| direction_score := 0 |>.

End Traffic.

Module Latency.

Record t := {
  rtt_max : Z;
  rtt_client_max : Z;
  rtt_server_max : Z;
  srt_max : Z;
  art_max : Z;
  rrt_max : Z;
  cit_max : Z;
  tls_rtt_max : Z;
  rtt_sum : Z;
  rtt_client_sum : Z;
  rtt_server_sum : Z;
  srt_sum : Z;
  art_sum : Z;
  rrt_sum : Z;
  cit_sum : Z;
  tls_rtt_sum : Z;
  rtt_count : Z;
  rtt_client_count : Z;
  rtt_server_count : Z;
  srt_count : Z;
  art_count : Z;
  rrt_count : Z;
  cit_count : Z;
  tls_rtt_count : Z;
}.

#[global] Instance fields : Fields t := fun x =>
  Build_t (rtt_max x) (rtt_client_max x) (rtt_server_max x) (srt_max x) (art_max x) (rrt_max x) (cit_max x) (tls_rtt_max x)
    (rtt_sum x) (rtt_client_sum x) (rtt_server_sum x) (srt_sum x) (art_sum x) (rrt_sum x) (cit_sum x) (tls_rtt_sum x)
    (rtt_count x) (rtt_client_count x) (rtt_server_count x) (srt_count x) (art_count x) (rrt_count x) (cit_count x)
    (tls_rtt_count x).

Definition default : t := Build_t 0 0 0 0 0 0 0 0 0 0 0 0 0 0 0 0 0 0 0 0 0 0 0 0.

Definition sequential_merge (s o : t) : t := {|
  rtt_max := keep_max (rtt_max s) (rtt_max o);
  rtt_client_max := keep_max (rtt_client_max s) (rtt_client_max o);
  rtt_server_max := keep_max (rtt_server_max s) (rtt_server_max o);
  srt_max := keep_max (srt_max s) (srt_max o);
  art_max := keep_max (art_max s) (art_max o);
  rrt_max := keep_max (rrt_max s) (rrt_max o);
  cit_max := keep_max (cit_max s) (cit_max o);
  tls_rtt_max := keep_max (tls_rtt_max s) (tls_rtt_max o);
  rtt_sum := rtt_sum s +₆₄ rtt_sum o;
  rtt_client_sum := rtt_client_sum s +₆₄ rtt_client_sum o;
  rtt_server_sum := rtt_server_sum s +₆₄ rtt_server_sum o;
  srt_sum := srt_sum s +₆₄ srt_sum o;
  art_sum := art_sum s +₆₄ art_sum o;
  rrt_sum := rrt_sum s +₆₄ rrt_sum o;
  cit_sum := cit_sum s +₆₄ cit_sum o;
  tls_rtt_sum := tls_rtt_sum s +₆₄ tls_rtt_sum o;
  rtt_count := rtt_count s +₃₂ rtt_count o;
  rtt_client_count := rtt_client_count s +₃₂ rtt_client_count o;
  rtt_server_count := rtt_server_count s +₃₂ rtt_server_count o;
  srt_count := srt_count s +₃₂ srt_count o;
  art_count := art_count s +₃₂ art_count o;
  rrt_count := rrt_count s +₃₂ rrt_count o;
  cit_count := cit_count s +₃₂ cit_count o;
  tls_rtt_count := tls_rtt_count s +₃₂ tls_rtt_count o;
|}.

End Latency.

Module Performance.

Record t := { retrans_tx : Z; retrans_rx : Z; zero_win_tx : Z; zero_win_rx : Z; retrans_syn : Z; retrans_synack : Z }.

Definition default : t := Build_t 0 0 0 0 0 0.

Definition sequential_merge (s o : t) : t := {|
  retrans_tx := retrans_tx s +₆₄ retrans_tx o;
  retrans_rx := retrans_rx s +₆₄ retrans_rx o;
  zero_win_tx := zero_win_tx s +₆₄ zero_win_tx o;
  zero_win_rx := zero_win_rx s +₆₄ zero_win_rx o;
  retrans_syn := retrans_syn s +₃₂ retrans_syn o;
  retrans_synack := retrans_synack s +₃₂ retrans_synack o;
|}.

End Performance.

Module Anomaly.

Record t := {
  client_rst_flow : Z;
  server_rst_flow : Z;
  client_ack_miss : Z;
  server_syn_miss : Z;
  client_half_close_flow : Z;
  server_half_close_flow : Z;
  client_source_port_reuse : Z;
  client_establish_reset : Z;
  server_reset : Z;
  server_queue_lack : Z;
  server_establish_reset : Z;
  tcp_timeout : Z;
  l7_client_error : Z;
  l7_server_error : Z;
  l7_timeout : Z;
}.

#[global] Instance fields : Fields t := fun x =>
  Build_t (client_rst_flow x) (server_rst_flow x) (client_ack_miss x) (server_syn_miss x) (client_half_close_flow x)
    (server_half_close_flow x) (client_source_port_reuse x) (client_establish_reset x) (server_reset x) (server_queue_lack x)
    (server_establish_reset x) (tcp_timeout x) (l7_client_error x) (l7_server_error x) (l7_timeout x).

Definition default : t := Build_t 0 0 0 0 0 0 0 0 0 0 0 0 0 0 0.

Definition sequential_merge (s o : t) : t := {|
  client_rst_flow := client_rst_flow s +₆₄ client_rst_flow o;
  server_rst_flow := server_rst_flow s +₆₄ server_rst_flow o;
  client_ack_miss := client_ack_miss s +₆₄ client_ack_miss o;
  server_syn_miss := server_syn_miss s +₆₄ server_syn_miss o;
  client_half_close_flow := client_half_close_flow s +₆₄ client_half_close_flow o;
  server_half_close_flow := server_half_close_flow s +₆₄ server_half_close_flow o;
  client_source_port_reuse := client_source_port_reuse s +₆₄ client_source_port_reuse o;
  client_establish_reset := client_establish_reset s +₆₄ client_establish_reset o;
  server_reset := server_reset s +₆₄ server_reset o;
  server_queue_lack := server_queue_lack s +₆₄ server_queue_lack o;
  server_establish_reset := server_establish_reset s +₆₄ server_establish_reset o;
  tcp_timeout := tcp_timeout s +₆₄ tcp_timeout o;
  l7_client_error := l7_client_error s +₃₂ l7_client_error o;
  l7_server_error := l7_server_error s +₃₂ l7_server_error o;
  l7_timeout := l7_timeout s +₃₂ l7_timeout o;
|}.

End Anomaly.

Module FlowLoad.

Record t := { load : Z; flow_count : Z }.

Definition default : t := Build_t 0 0.

Definition sequential_merge (s : t) (o : Traffic.t) : t :=
  let load := flow_count s +₆₄ Traffic.new_flow o in
  Build_t load (if Traffic.closed_flow o <? load then load - Traffic.closed_flow o else 0).

End FlowLoad.

Module FlowMeter.

Record t := {
  traffic : Traffic.t;
  latency : Latency.t;
  performance : Performance.t;
  anomaly : Anomaly.t;
  flow_load : FlowLoad.t;
}.

#[global] Instance fields : Fields t := fun x => Build_t (traffic x) (latency x) (performance x) (anomaly x) (flow_load x).

Definition default : t := Build_t Traffic.default Latency.default Performance.default Anomaly.default FlowLoad.default.

Definition sequential_merge (s o : t) : t := {|
  traffic := Traffic.sequential_merge (traffic s) (traffic o);
  latency := Latency.sequential_merge (latency s) (latency o);
  performance := Performance.sequential_merge (performance s) (performance o);
  anomaly := Anomaly.sequential_merge (anomaly s) (anomaly o);
  flow_load := FlowLoad.sequential_merge (flow_load s) (traffic o);
|}.

(** [FlowMeter::reverse], and [to_reversed] of a copy *)
Definition reverse (s : t) : t := s <| traffic := Traffic.reverse (traffic s) |>.

End FlowMeter.

Module AppMeter.

Record AppTraffic := { request : Z; response : Z; direction_score : Z }.
Record AppLatency := { rrt_max : Z; rrt_sum : Z; rrt_count : Z }.
Record AppAnomaly := { client_error : Z; server_error : Z; timeout : Z }.
Record t := { traffic : AppTraffic; latency : AppLatency; anomaly : AppAnomaly }.

Definition AppTraffic_sequential_merge (s o : AppTraffic) : AppTraffic :=
  Build_AppTraffic (request s +₃₂ request o) (response s +₃₂ response o) (Z.max (direction_score s) (direction_score o)).

Definition AppTraffic_reverse (s : AppTraffic) : AppTraffic := Build_AppTraffic (response s) (request s) 0.

Definition AppLatency_sequential_merge (s o : AppLatency) : AppLatency :=
  Build_AppLatency (keep_max (rrt_max s) (rrt_max o)) (rrt_sum s +₆₄ rrt_sum o) (rrt_count s +₃₂ rrt_count o).

Definition AppAnomaly_sequential_merge (s o : AppAnomaly) : AppAnomaly :=
  Build_AppAnomaly (client_error s +₃₂ client_error o) (server_error s +₃₂ server_error o) (timeout s +₃₂ timeout o).

Definition sequential_merge (s o : t) : t :=
  Build_t (AppTraffic_sequential_merge (traffic s) (traffic o)) (AppLatency_sequential_merge (latency s) (latency o))
    (AppAnomaly_sequential_merge (anomaly s) (anomaly o)).

Definition reverse (s : t) : t := Build_t (AppTraffic_reverse (traffic s)) (latency s) (anomaly s).

End AppMeter.

Module UsageMeter.

Record t := {
  packet_tx : Z;
  packet_rx : Z;
  byte_tx : Z;
  byte_rx : Z;
  l3_byte_tx : Z;
  l3_byte_rx : Z;
  l4_byte_tx : Z;
  l4_byte_rx : Z;
}.

Definition sequential_merge (s o : t) : t := {|
  packet_tx := packet_tx s +₆₄ packet_tx o;
  packet_rx := packet_rx s +₆₄ packet_rx o;
  byte_tx := byte_tx s +₆₄ byte_tx o;
  byte_rx := byte_rx s +₆₄ byte_rx o;
  l3_byte_rx := l3_byte_rx s +₆₄ l3_byte_rx o;
  l3_byte_tx := l3_byte_tx s +₆₄ l3_byte_tx o;
  l4_byte_rx := l4_byte_rx s +₆₄ l4_byte_rx o;
  l4_byte_tx := l4_byte_tx s +₆₄ l4_byte_tx o;
|}.

Definition reverse (s : t) : t :=
  Build_t (packet_rx s) (packet_tx s) (byte_rx s) (byte_tx s) (l3_byte_rx s) (l3_byte_tx s) (l4_byte_rx s) (l4_byte_tx s).

End UsageMeter.

Inductive Meter := MFlow (m : FlowMeter.t) | MApp (m : AppMeter.t) | MUsage (m : UsageMeter.t).

(** Meters of different kinds are never merged. *)
Definition Meter_sequential_merge (s o : Meter) : run Meter :=
  match s, o with
  | MFlow m, MFlow n => Ret (MFlow (FlowMeter.sequential_merge m n))
  | MApp m, MApp n => Ret (MApp (AppMeter.sequential_merge m n))
  | MUsage m, MUsage n => Ret (MUsage (UsageMeter.sequential_merge m n))
  | _, _ => Panic
  end.

Definition Meter_reverse (s : Meter) : Meter :=
  match s with
  | MFlow m => MFlow (FlowMeter.reverse m)
  | MApp m => MApp (AppMeter.reverse m)
  | MUsage m => MUsage (UsageMeter.reverse m)
  end.
