(* ===== verification/QuadConn.v ===== *)
(** * Counting concurrent connections (utils/lru.rs, collector/quadruple_generator.rs: ConcurrentConnection)

    The quadruple generator counts the connections of each key in a cache per
    time slot: the connections that existed in the slot ([sum]) and those still
    open at its end ([living]), which are carried over to the next slot.  The
    cache is a [Lru], which grows by doubling up to its maximum before it evicts.
    The IPv4 and the IPv6 tables have keys of different lengths and the same code;
    both are tables over byte lists.  The cache of the [lru] crate is the
    interface [LruMap]. *)

From stdpp Require Import gmap.
From S2P Require Import Prelude Timestamp Bytes FlowMerge.

(** A signed integer of 64 bits; additions wrap. *)
Definition i64 (z : Z) : Z := (z + 2 ^ 63) mod 2 ^ 64 - 2 ^ 63.

(** ** The cache of the [lru] crate *)

Section assoc.
Context {K V : Type} `{!EqDecision K}.

Definition assoc (k : K) (l : list (K * V)) : option V := snd <$> head (filter (fun e => e.1 = k) l).
Definition without (k : K) (l : list (K * V)) : list (K * V) := filter (fun e => e.1 <> k) l.
Definition isSome (o : option V) : bool := match o with Some _ => true | None => false end.

End assoc.

(** [lm_iter] gives the entries, the most recently used first; [lm_get_mut]
    applies a change to the value it finds. *)
Class LruMap (K V : Type) := {
  lm : Type;
  lm_new : Z -> lm;
  lm_cap : lm -> Z;
  lm_iter : lm -> list (K * V);
  lm_put : K -> V -> lm -> lm * option V;
  lm_get_mut : K -> (V -> V) -> lm -> lm * option V;
  lm_resize : Z -> lm -> lm;
  lm_clear : lm -> lm;
}.
Arguments lm K V {_}.

(** What the crate documents.  Entries have different keys and fit the
    capacity; [put] and [get_mut] move the entry to the front and return the
    value that was there; [put] of a new key into a full cache, and [resize],
    drop the least recently used entries. *)
Class LruMapOk {K V} `{!EqDecision K} (L : LruMap K V) : Prop := {
  lm_iter_keys c : NoDup (lm_iter c).*1;
  lm_iter_cap c : Z.of_nat (length (lm_iter c)) <= lm_cap c;
  lm_iter_new n : 0 < n -> lm_iter (lm_new n) = [] /\ lm_cap (lm_new n) = n;
  lm_iter_put k v c : 0 < lm_cap c ->
    lm_iter (lm_put k v c).1 = (k, v) :: take (Z.to_nat (lm_cap c) - 1) (without k (lm_iter c));
  lm_put_old k v c : (lm_put k v c).2 = assoc k (lm_iter c);
  lm_cap_put k v c : lm_cap (lm_put k v c).1 = lm_cap c;
  lm_iter_get_mut k f c :
    lm_iter (lm_get_mut k f c).1 = match assoc k (lm_iter c) with Some v => (k, f v) :: without k (lm_iter c) | None => lm_iter c end;
  lm_get_mut_old k f c : (lm_get_mut k f c).2 = assoc k (lm_iter c);
  lm_cap_get_mut k f c : lm_cap (lm_get_mut k f c).1 = lm_cap c;
  lm_iter_resize n c : 0 < n -> lm_iter (lm_resize n c) = take (Z.to_nat n) (lm_iter c) /\ lm_cap (lm_resize n c) = n;
  lm_iter_clear c : lm_iter (lm_clear c) = [] /\ lm_cap (lm_clear c) = lm_cap c;
}.

(** [usize::next_power_of_two]; release builds give 0 when it does not fit. *)
Definition next_power_of_two (n : Z) : Z := wrap 64 (2 ^ Z.log2_up n).

(** ** The growing cache (utils/lru.rs) *)

Module Lru.
Section lru.
Context {K V : Type} {L : LruMap K V}.

Record t := { cache : lm K V; init_cap : Z; max_cap : Z; cap : Z }.

#[global] Instance fields : Fields t := fun x => Build_t (cache x) (init_cap x) (max_cap x) (cap x).

(** [n.try_into::<NonZeroUsize>().unwrap()] *)
Definition non_zero (n : Z) : run Z := if 0 <? n then Ret n else Panic.

Definition with_capacity (init_cap max_cap : Z) : run t :=
  let init_cap := next_power_of_two init_cap in
  let max_cap := Z.max (next_power_of_two max_cap) init_cap in
  n ← non_zero init_cap;
  Ret (Build_t (lm_new n) init_cap max_cap init_cap).

Definition iter (l : t) : list (K * V) := lm_iter (cache l).

Definition put (l : t) (k : K) (v : V) : run t :=
  let '(c, r) := lm_put k v (cache l) in
  let l := l <| cache := c |> in
  if negb (isSome r) && (cap l <=? Z.of_nat (length (lm_iter c))) && (cap l <? max_cap l) then
    let cap' := wshl 64 (cap l) 1 in
    n ← non_zero cap';
    Ret (l <| cap := cap' |> <| cache := lm_resize n (cache l) |>)
  else Ret l.

Definition get_mut (l : t) (k : K) (f : V -> V) : t * option V :=
  let '(c, r) := lm_get_mut k f (cache l) in (l <| cache := c |>, r).

Definition clear (l : t) : run t :=
  n ← non_zero (init_cap l);
  let l := l <| cache := lm_resize n (cache l) |> <| cap := init_cap l |> in
  Ret (l <| cache := lm_clear (cache l) |>).

Definition is_full (l : t) : bool := max_cap l <=? Z.of_nat (length (lm_iter (cache l))).

End lru.
Arguments t K V {_}.
End Lru.

(** ** The connections of a slot *)

Record QuadrupleConnections := { sum : Z; living : Z; qc_time : Z }.

#[export] Instance QuadrupleConnections_fields : Fields QuadrupleConnections := fun x =>
  Build_QuadrupleConnections (sum x) (living x) (qc_time x).

Inductive QgKey := QgV4 (k : bytes) | QgV6 (k : bytes).

#[export] Instance QgKey_eq_dec : EqDecision QgKey.
Proof. solve_decision. Defined.

#[export] Instance QgKey_countable : Countable QgKey.
Proof.
  apply (inj_countable' (fun k => match k with QgV4 k => inl k | QgV6 k => inr k end)
    (fun x : bytes + bytes => match x with inl k => QgV4 k | inr k => QgV6 k end)). by intros [].
Defined.

(** [CONCURRENT_TIMEOUT], a [Duration], and [LOG_INTERVAL] in seconds *)
Definition CONCURRENT_TIMEOUT : Z := from_secs 300.
Definition LOG_INTERVAL : Z := 60.

Section connections.
Context {L : LruMap bytes QuadrupleConnections}.

Record ConcurrentConnection := {
  v4_connections : Lru.t bytes QuadrupleConnections;
  v6_connections : Lru.t bytes QuadrupleConnections;
  last_log_time : Z;
}.

#[export] Instance ConcurrentConnection_fields : Fields ConcurrentConnection := fun x =>
  Build_ConcurrentConnection (v4_connections x) (v6_connections x) (last_log_time x).

Definition ConcurrentConnection_with_capacity (capacity : Z) : run ConcurrentConnection :=
  v4 ← Lru.with_capacity (Z.shiftr capacity 5) capacity;
  v6 ← Lru.with_capacity (Z.shiftr capacity 5) capacity;
  Ret (Build_ConcurrentConnection v4 v6 0).

(** One entry of the other table: skipped when it is too old or nothing is left
    open, else carried over. *)
Definition merge_connection (time_in_second : Z) (l : Lru.t bytes QuadrupleConnections) (kv : bytes * QuadrupleConnections)
    : run (Lru.t bytes QuadrupleConnections) :=
  let '(k, v) := kv in
  deadline ← duration_add (qc_time v) CONCURRENT_TIMEOUT;
  if deadline <? time_in_second then Ret l
  else if living v <=? 0 then Ret l
  else
    let '(l', found) := Lru.get_mut l k (fun d => d <| living := i64 (living d + living v) |> <| sum := i64 (sum d + living v) |>) in
    match found with
    | Some _ => Ret l'
    | None => Lru.put l' k (Build_QuadrupleConnections (living v) (living v) (qc_time v))
    end.

Definition conn_merge (c : ConcurrentConnection) (time_in_second : Z) (other : ConcurrentConnection) : run ConcurrentConnection :=
  v4 ← rfold (merge_connection time_in_second) (Lru.iter (v4_connections other)) (v4_connections c);
  v6 ← rfold (merge_connection time_in_second) (Lru.iter (v6_connections other)) (v6_connections c);
  Ret (c <| v4_connections := v4 |> <| v6_connections := v6 |>).

(** A full table is logged once a minute at most. *)
Definition log_full (c : ConcurrentConnection) (full : bool) (time_in_second : Z) : ConcurrentConnection :=
  let now := Timestamp.as_secs time_in_second in
  if full && (last_log_time c +₆₄ LOG_INTERVAL <? now) then c <| last_log_time := now |> else c.

Definition connections_put (c : ConcurrentConnection) (key : QgKey) (time_in_second living sum : Z) : run ConcurrentConnection :=
  let v := Build_QuadrupleConnections sum living time_in_second in
  match key with
  | QgV6 k =>
      let c := log_full c (Lru.is_full (v6_connections c)) time_in_second in
      l ← Lru.put (v6_connections c) k v; Ret (c <| v6_connections := l |>)
  | QgV4 k =>
      let c := log_full c (Lru.is_full (v4_connections c)) time_in_second in
      l ← Lru.put (v4_connections c) k v; Ret (c <| v4_connections := l |>)
  end.

(** The entry of the key, changed by [f], and what it was. *)
Definition connections_mut (c : ConcurrentConnection) (key : QgKey) (f : QuadrupleConnections -> QuadrupleConnections)
    : ConcurrentConnection * option QuadrupleConnections :=
  match key with
  | QgV6 k => let '(l, r) := Lru.get_mut (v6_connections c) k f in (c <| v6_connections := l |>, r)
  | QgV4 k => let '(l, r) := Lru.get_mut (v4_connections c) k f in (c <| v4_connections := l |>, r)
  end.

Definition get_concurrent (c : ConcurrentConnection) (time_in_second : Z) (key : QgKey) : ConcurrentConnection * Z :=
  let '(c, result) := connections_mut c key (fun v => v <| qc_time := time_in_second |>) in
  (c, match result with Some v => if sum v <=? 0 then 1 else sum v | None => 1 end).

Definition add_connection (c : ConcurrentConnection) (time_in_second : Z) (key : QgKey) : run ConcurrentConnection :=
  let '(c, result) := connections_mut c key (fun v =>
    v <| living := i64 (living v + 1) |> <| sum := i64 (sum v + 1) |> <| qc_time := time_in_second |>) in
  match result with
  | Some _ => Ret c
  | None => connections_put c key time_in_second 1 1
  end.

Definition delete_connection (c : ConcurrentConnection) (time_in_second : Z) (key : QgKey) (is_new_flow : bool)
    : run ConcurrentConnection :=
  let '(c, result) := connections_mut c key (fun v =>
    let v := v <| qc_time := time_in_second |> in
    if is_new_flow then v <| sum := i64 (sum v + 1) |> else v <| living := i64 (living v - 1) |>) in
  match result with
  | Some _ => Ret c
  | None => connections_put c key time_in_second (if is_new_flow then 0 else -1) (if is_new_flow then 1 else 0)
  end.

Definition ConcurrentConnection_clear (c : ConcurrentConnection) : run ConcurrentConnection :=
  v4 ← Lru.clear (v4_connections c);
  v6 ← Lru.clear (v6_connections c);
  Ret (c <| v4_connections := v4 |> <| v6_connections := v6 |>).

End connections.
