(* ===== verification/QuadTypes.v ===== *)
(** * Keys and accumulated flows of the quadruple generator (collector/types.rs, mod.rs, quadruple_generator.rs, utils/possible_host.rs)

    The quadruple generator groups the reports of flows by a key of 32 or 56
    bytes: the addresses, the server's port, the protocol, the EPCs, the process
    ids and the place of the capture.  What is accumulated for a key is a
    [FlowMeterWithFlow].  Of [MiniFlow] the fields that are copied and never read
    here are left out ([directions], the OpenTelemetry names, [pod_id]).
    [PossibleHost] remembers which addresses of an EPC have sent packets. *)

From stdpp Require Import gmap.
From S2P Require Import Prelude Timestamp Bytes Consts TapTypes TunnelType TapPort Endpoint MetaPacket Flow TcpPerf FlowMerge Meters QuadConn.

(** ** Accumulated flows *)

Record PeerInfo := {
  pi_l3_epc_id : Z;
  pi_is_active_host : bool;
  pi_is_device : bool;
  pi_is_vip_interface : bool;
  pi_has_packets : bool;
  pi_gpid : Z;
  pi_nat_real_ip : IpAddr;
  pi_nat_real_port : Z;
}.

(** [PeerInfo::from] *)
Definition PeerInfo_from (p : FlowMetricsPeer) : PeerInfo := {|
  pi_l3_epc_id := l3_epc_id p;
  pi_is_active_host := is_active_host p;
  pi_is_device := is_device p;
  pi_is_vip_interface := is_vip_interface p;
  pi_has_packets := 0 <? total_packet_count p;
  pi_gpid := gpid p;
  pi_nat_real_ip := nat_real_ip p;
  pi_nat_real_port := nat_real_port p;
|}.

Record MiniFlow := {
  mf_flow_key : FlowKey;
  mf_eth_type : Z;
  mf_peer_0 : PeerInfo;
  mf_peer_1 : PeerInfo;
  mf_signal_source : SignalSource;
  mf_is_active_service : bool;
  mf_close_type : CloseType;
}.

(** [MiniFlow::from] *)
Definition MiniFlow_from (f : Flow) : MiniFlow := {|
  mf_flow_key := flow_key f;
  mf_eth_type := fl_eth_type f;
  mf_peer_0 := PeerInfo_from (flow_metrics_src f);
  mf_peer_1 := PeerInfo_from (flow_metrics_dst f);
  mf_signal_source := fl_signal_source f;
  mf_is_active_service := is_active_service f;
  mf_close_type := close_type f;
|}.

Record FlowMeterWithFlow := {
  fm_flow : MiniFlow;
  fm_l7_protocol : Z;
  is_active_host0 : bool;
  is_active_host1 : bool;
  id_map_0 : gmap Z Z;
  id_map_1 : gmap Z Z;
  flow_meter : FlowMeter.t;
  fm_key : QgKey;
  fm_time : Timestamp.t;
}.

#[export] Instance FlowMeterWithFlow_fields : Fields FlowMeterWithFlow := fun x =>
  Build_FlowMeterWithFlow (fm_flow x) (fm_l7_protocol x) (is_active_host0 x) (is_active_host1 x) (id_map_0 x) (id_map_1 x)
    (flow_meter x) (fm_key x) (fm_time x).

(** Only flows that come from packets or from sFlow and NetFlow are metered. *)
Definition is_metered (f : TaggedFlow) : bool :=
  bool_decide (fl_signal_source (flow f) = Packet) || bool_decide (fl_signal_source (flow f) = XFlow).

(** [FlowMeterWithFlow::merge]; an insertion replaces the entry, so that the new map wins *)
Definition FlowMeterWithFlow_merge (s : FlowMeterWithFlow) (time_in_second : Timestamp.t) (m : FlowMeter.t)
    (id_maps : gmap Z Z * gmap Z Z) (f : TaggedFlow) : FlowMeterWithFlow :=
  let s := s <| fm_time := time_in_second |> in
  if is_metered f
  then s <| flow_meter := FlowMeter.sequential_merge (flow_meter s) m |>
         <| id_map_0 := id_maps.1 ∪ id_map_0 s |> <| id_map_1 := id_maps.2 ∪ id_map_1 s |>
  else s.

(** ** Keys *)

Definition OFFSET_L3_EPC_ID_0 : nat := 0.
Definition OFFSET_L3_EPC_ID_1 : nat := 2.
Definition OFFSET_TAP_PORT : nat := 4.
Definition OFFSET_PROTOCOL : nat := 13.
Definition OFFSET_PORT : nat := 14.
Definition OFFSET_L7_PROTOCOL : nat := OFFSET_PORT.
Definition OFFSET_GPID_0 : nat := 16.
Definition OFFSET_GPID_1 : nat := 20.
Definition OFFSET_IP : nat := 24.
Definition IPV4_LRU_KEY_SIZE : nat := 32.
Definition IPV6_LRU_KEY_SIZE : nat := 56.

(** [key[i] = v as u8] *)
Definition set_u8 (i : nat) (v : Z) (key : bytes) : bytes := <[i := wrap 8 v]> key.

Definition set_be16 (i : nat) (v : Z) (key : bytes) : bytes := set_u8 (i + 1) v (set_u8 i (Z.shiftr v 8) key).

Definition set_be32 (i : nat) (v : Z) (key : bytes) : bytes :=
  set_u8 (i + 3) v (set_u8 (i + 2) (Z.shiftr v 8) (set_u8 (i + 1) (Z.shiftr v 16) (set_u8 i (Z.shiftr v 24) key))).

(** [key[i..i + octets.len()].copy_from_slice(octets)] *)
Fixpoint set_octets (i : nat) (octets : bytes) (key : bytes) : bytes :=
  match octets with
  | [] => key
  | o :: octets => set_octets (S i) octets (<[i := o]> key)
  end.

Definition l7_protocol_of (f : TaggedFlow) : Z := from_option l7_protocol L7_UNKNOWN (flow_perf_stats f).

Section key.
Context {D : DecapEnum}.

Definition set_key (key : bytes) (f : TaggedFlow) : bytes :=
  let src := flow_metrics_src (flow f) in
  let dst := flow_metrics_dst (flow f) in
  let '(tap_port, tap_port_type, tunnel_type) := TapPort.split_fields (fk_tap_port (flow_key (flow f))) in
  let key := set_be16 OFFSET_L3_EPC_ID_0 (l3_epc_id src) key in
  let key := set_be16 OFFSET_L3_EPC_ID_1 (l3_epc_id dst) key in
  let key := set_be32 OFFSET_GPID_0 (gpid src) key in
  let key := set_be32 OFFSET_GPID_1 (gpid dst) key in
  let key := set_be32 OFFSET_TAP_PORT tap_port key in
  let key := set_u8 (OFFSET_TAP_PORT + 4) tap_port_type key in
  let key := set_u8 (OFFSET_TAP_PORT + 5) (CaptureNetworkType.to_u16 (fk_tap_type (flow_key (flow f)))) key in
  let key := set_u8 (OFFSET_TAP_PORT + 6) (as_u16 tunnel_type) key in
  let key := set_u8 (OFFSET_TAP_PORT + 7) (TapSide_u8 (tap_side f)) key in
  let key := set_u8 OFFSET_PROTOCOL (fk_proto (flow_key (flow f))) key in
  if bool_decide (fl_signal_source (flow f) = Packet) || is_active_service (flow f)
  then set_be16 OFFSET_PORT (fk_port_dst (flow_key (flow f))) key
  else if bool_decide (fl_signal_source (flow f) = OTel) then set_u8 OFFSET_L7_PROTOCOL (l7_protocol_of f) key
  else key.

Definition get_key (f : TaggedFlow) : QgKey :=
  if fl_eth_type (flow f) =? EthernetType.IPV6 then
    let key := set_key (replicate IPV6_LRU_KEY_SIZE 0) f in
    match fk_ip_src (flow_key (flow f)), fk_ip_dst (flow_key (flow f)) with
    | V6 src, V6 dst => QgV6 (set_octets (OFFSET_IP + 16) dst (set_octets OFFSET_IP src key))
    | _, _ => QgV6 key
    end
  else
    let key := set_key (replicate IPV4_LRU_KEY_SIZE 0) f in
    match fk_ip_src (flow_key (flow f)), fk_ip_dst (flow_key (flow f)) with
    | V4 src, V4 dst => QgV4 (set_octets (OFFSET_IP + 4) (be32 dst) (set_octets OFFSET_IP (be32 src) key))
    | _, _ => QgV4 key
    end.

End key.

(** ** Active hosts *)

(** [Ipv6Addr::segments] *)
Fixpoint segments (octets : bytes) : list Z :=
  match octets with
  | a :: b :: octets => (a * 256 + b) :: segments octets
  | _ => []
  end.

Fixpoint xor_pairs (segs : list Z) (hash1 hash2 : Z) : Z * Z :=
  match segs with
  | s :: t :: segs => xor_pairs segs (Z.lxor hash1 s) (Z.lxor hash2 t)
  | _ => (hash1, hash2)
  end.

Definition get_ip6_hash (ip6 : bytes) : Z :=
  let '(hash1, hash2) := xor_pairs (segments ip6) 0 0 in Z.lor (Z.shiftl hash1 16) hash2.

(** [u32::from_le_bytes] *)
Definition from_le_bytes (l : bytes) : Z := foldr (fun b acc => b + 256 * acc) 0 l.

Definition gen_key (host : IpAddr) (epc_id : Z) : Z :=
  match host with
  | V4 ip4 => Z.lor (from_le_bytes (be32 ip4)) (Z.shiftl (Z.land epc_id 0xffff) 32)
  | V6 ip6 => Z.lor (Z.lor (Z.shiftl 1 48) (Z.shiftl (Z.land epc_id 0xffff) 32)) (get_ip6_hash ip6)
  end.

Section hosts.
Context {H : LruMap Z bool}.

Record PossibleHost := { ph_cache : lm Z bool; ph_last_log_time : Z }.

#[export] Instance PossibleHost_fields : Fields PossibleHost := fun x => Build_PossibleHost (ph_cache x) (ph_last_log_time x).

Definition PossibleHost_new (capacity : Z) : run PossibleHost :=
  n ← Lru.non_zero capacity; Ret (Build_PossibleHost (lm_new n) 0).

Definition PossibleHost_add (p : PossibleHost) (now : Z) (host : IpAddr) (epc_id : Z) : PossibleHost :=
  let p := if (lm_cap (ph_cache p) <=? Z.of_nat (length (lm_iter (ph_cache p)))) && (ph_last_log_time p +₆₄ LOG_INTERVAL <? now)
    then p <| ph_last_log_time := now |> else p in
  p <| ph_cache := (lm_put (gen_key host epc_id) true (ph_cache p)).1 |>.

Definition PossibleHost_check (p : PossibleHost) (host : IpAddr) (epc_id : Z) : PossibleHost * bool :=
  let '(c, r) := lm_get_mut (gen_key host epc_id) id (ph_cache p) in (p <| ph_cache := c |>, isSome r).

(** The host is active when the platform says so, or when it has sent packets. *)
Definition check_active_host (now : Z) (possible_host : option PossibleHost) (flow_metric : PeerInfo) (ip : IpAddr)
    : option PossibleHost * bool :=
  if pi_is_active_host flow_metric || (pi_l3_epc_id flow_metric =? EPC_INTERNET) then (possible_host, pi_is_active_host flow_metric)
  else if pi_is_device flow_metric then (possible_host, true)
  else
    match possible_host with
    | Some p =>
        if pi_has_packets flow_metric then (Some (PossibleHost_add p now ip (pi_l3_epc_id flow_metric)), true)
        else let '(p, b) := PossibleHost_check p ip (pi_l3_epc_id flow_metric) in (Some p, b)
    | None => (None, false)
    end.

End hosts.
