(* ===== verification/QuadConnSpec.v ===== *)
(** * The tables of concurrent connections as maps (utils/lru.rs, collector/quadruple_generator.rs)

    A [Lru] never panics, and behaves like a finite map as long as its keys
    are no more than its maximum: it doubles its capacity before it would evict.
    The operations on the tables of a slot are then functions on the entry of
    their key, and [conn_merge] carries every entry over on its own. *)

From stdpp Require Import gmap.
From S2P Require Import Prelude Timestamp Bytes FlowMerge QuadConn.

(** ** Association lists *)

Section assoc_lists.
Context {K V : Type} `{Countable K}.
Implicit Types l : list (K * V).

Lemma assoc_list_to_map k l : assoc k l = (list_to_map l : gmap K V) !! k.
Proof.
  unfold assoc. induction l as [|[k' v] l IH]; [done|]. rewrite filter_cons. cbn [list_to_map foldr]. cbn.
  destruct (decide (k' = k)) as [->|Hk]; [by rewrite lookup_insert_eq|]. rewrite lookup_insert_ne by done. exact IH.
Qed.

Lemma without_list_to_map k l : (list_to_map (without k l) : gmap K V) = delete k (list_to_map l).
Proof.
  unfold without. induction l as [|[k' v] l IH]; [symmetry; apply delete_empty|]. rewrite filter_cons. cbn [list_to_map foldr fst snd uncurry].
  destruct (decide (k' = k)) as [->|Hk]; cbn.
  - rewrite decide_False by naive_solver. rewrite delete_insert_eq. exact IH.
  - rewrite decide_True by done. cbn. rewrite delete_insert_ne by done. by rewrite IH.
Qed.

Lemma list_to_map_size l : NoDup l.*1 -> size (list_to_map l : gmap K V) = length l.
Proof. intros Hn. rewrite <- length_map_to_list. by rewrite (map_to_list_to_map l Hn). Qed.

Lemma without_absent k l : (list_to_map l : gmap K V) !! k = None -> without k l = l.
Proof.
  intros Hk. unfold without. induction l as [|[k' v] l IH]; [done|]. cbn in Hk. destruct (decide (k' = k)) as [->|Hne].
  - by rewrite lookup_insert_eq in Hk.
  - rewrite lookup_insert_ne in Hk by done. rewrite filter_cons_True by done. by rewrite IH.
Qed.

Lemma without_length k l : (length (without k l) <= length l)%nat.
Proof. apply length_filter. Qed.

Lemma without_present k l v : (list_to_map l : gmap K V) !! k = Some v -> (length (without k l) < length l)%nat.
Proof.
  intros Hk. unfold without. induction l as [|[k' w] l IH]; [done|]. cbn in Hk. destruct (decide (k' = k)) as [->|Hne].
  - rewrite filter_cons_False by naive_solver. cbn. pose proof (without_length k l). unfold without in *. lia.
  - rewrite lookup_insert_ne in Hk by done. rewrite filter_cons_True by done. cbn. specialize (IH Hk). lia.
Qed.

End assoc_lists.

(** ** The growing cache *)

Section lru_spec.
Context {K V : Type} `{Countable K} {L : LruMap K V} {Lok : LruMapOk L}.
Implicit Types l : Lru.t K V.

Definition view l : gmap K V := list_to_map (Lru.iter l).

(** The capacity is a power of two, and below its maximum only when there is room. *)
Record lru_ok l : Prop := {
  lo_cap : lm_cap (Lru.cache l) = Lru.cap l;
  lo_pow : exists i c m, 0 <= i <= c /\ c <= m < 64 /\ Lru.init_cap l = 2 ^ i /\ Lru.cap l = 2 ^ c /\ Lru.max_cap l = 2 ^ m;
  lo_room : Lru.cap l < Lru.max_cap l -> Z.of_nat (length (Lru.iter l)) < Lru.cap l;
}.

Lemma lru_caps l : lru_ok l -> 0 < Lru.init_cap l /\ 0 < Lru.cap l <= Lru.max_cap l.
Proof.
  intros [_ (i & c & m & Hi & Hc & -> & -> & ->) _]. split; [apply Z.pow_pos_nonneg; lia|]. split; [apply Z.pow_pos_nonneg; lia|].
  apply Z.pow_le_mono_r; lia.
Qed.

Lemma view_size l : size (view l) = length (Lru.iter l).
Proof. apply list_to_map_size, lm_iter_keys. Qed.

Lemma next_power_of_two_pow n : n <= 2 ^ 62 -> exists a, 0 <= a <= 62 /\ next_power_of_two n = 2 ^ a.
Proof.
  intros Hn. exists (Z.log2_up n). pose proof (Z.log2_up_nonneg n). assert (Z.log2_up n <= 62).
  { change 62 with (Z.log2_up (2 ^ 62)). by apply Z.log2_up_le_mono. }
  split; [lia|]. apply wrap_small. split; [apply Z.pow_nonneg; lia|]. apply Z.pow_lt_mono_r; lia.
Qed.

Lemma with_capacity_ok i m : i <= m <= 2 ^ 62 ->
  wp (Lru.with_capacity i m) (fun l => lru_ok l /\ view l = ∅ /\ Lru.max_cap l = next_power_of_two m).
Proof.
  intros Hm. unfold Lru.with_capacity.
  destruct (next_power_of_two_pow i) as (a & Ha & Hi); [lia|]. destruct (next_power_of_two_pow m) as (b & Hb & Hp); [lia|].
  assert (a <= b) as Hab.
  { assert (2 ^ a <= 2 ^ b) as Hle; [|apply (Z.pow_le_mono_r_iff 2) in Hle; lia]. rewrite <- Hi, <- Hp. unfold next_power_of_two in *.
    rewrite !wrap_small; [apply Z.pow_le_mono_r; [lia|]; apply Z.log2_up_le_mono; lia|..];
      (split; [apply Z.pow_nonneg; lia|]; apply Z.pow_lt_mono_r; [lia..|]);
      match goal with |- Z.log2_up ?x < 64 => assert (Z.log2_up x <= Z.log2_up (2 ^ 62)) as Hx by (apply Z.log2_up_le_mono; lia); change (Z.log2_up (2 ^ 62)) with 62 in Hx; lia end. }
  assert (0 < 2 ^ a) as Hpos by (apply Z.pow_pos_nonneg; lia).
  assert (2 ^ a <= 2 ^ b) as Hle by (apply Z.pow_le_mono_r; lia).
  rewrite Hi, Hp, Z.max_l by done. unfold Lru.non_zero. rewrite (proj2 (Z.ltb_lt _ _)) by done. cbn.
  destruct (lm_iter_new (2 ^ a) Hpos) as [Hn Hc]. split_and!.
  - split; cbn; [done|exists a, a, b; split_and!; lia|]. intros _. unfold Lru.iter. cbn. rewrite Hn. cbn. lia.
  - unfold view, Lru.iter. cbn. by rewrite Hn.
  - done.
Qed.

(** The bounds that no operation changes. *)
Definition same_caps l l' : Prop := Lru.max_cap l' = Lru.max_cap l /\ Lru.init_cap l' = Lru.init_cap l.

(** A new entry at the front, with room for the rest or the last one dropped. *)
Lemma put_iter k v l : lru_ok l -> Lru.iter (l <| Lru.cache := (lm_put k v (Lru.cache l)).1 |>)
  = (k, v) :: take (Z.to_nat (Lru.cap l) - 1) (without k (Lru.iter l)).
Proof. intros Hl. unfold Lru.iter. cbn. rewrite lm_iter_put; [by rewrite (lo_cap l Hl)|]. rewrite (lo_cap l Hl). apply lru_caps, Hl. Qed.

Section front.
Variables (k : K) (v : V) (l : Lru.t K V).
Hypothesis Hl : lru_ok l.

(** The cache after [put], before it grows. *)
Definition put_front : Lru.t K V := l <| Lru.cache := (lm_put k v (Lru.cache l)).1 |>.

Lemma iter_cap : Z.of_nat (length (Lru.iter l)) <= Lru.cap l.
Proof using Hl Lok. rewrite <- (lo_cap l Hl). apply lm_iter_cap. Qed.

Lemma put_front_sub : view put_front ⊆ <[k := v]> (view l).
Proof using Hl Lok.
  unfold view at 1, put_front. rewrite put_iter by done. cbn. apply insert_mono, map_subseteq_spec. intros x w Hw.
  apply elem_of_list_to_map_2, subseteq_take in Hw. unfold without in Hw.
  apply list_elem_of_filter in Hw as [_ Hw]. apply elem_of_list_to_map_1; [apply lm_iter_keys|done].
Qed.

Lemma put_front_view : Z.of_nat (size (view l)) < Lru.cap l \/ is_Some (view l !! k) -> view put_front = <[k := v]> (view l).
Proof using Hl Lok.
  intros Hr. unfold view at 1, put_front. rewrite put_iter by done. pose proof iter_cap. rewrite take_ge.
  - cbn. rewrite without_list_to_map. apply insert_delete_eq.
  - destruct Hr as [Hr|[w Hw]]; [rewrite view_size in Hr; pose proof (without_length k (Lru.iter l)); lia|].
    pose proof (without_present k (Lru.iter l) w Hw). lia.
Qed.

Lemma room_below : Lru.cap l < Lru.max_cap l -> Z.of_nat (size (view l)) < Lru.cap l.
Proof using Hl Lok. rewrite view_size. apply Hl. Qed.

(** The capacity is doubled. *)
Lemma grow_ok : Lru.cap l < Lru.max_cap l ->
  exists cap', wshl 64 (Lru.cap l) 1 = cap' /\ 0 < cap' /\ lm_iter (lm_resize cap' (Lru.cache put_front)) = Lru.iter put_front
    /\ lru_ok (put_front <| Lru.cap := cap' |> <| Lru.cache := lm_resize cap' (Lru.cache put_front) |>).
Proof using Hl Lok.
  intros Hlt. destruct (lo_pow l Hl) as (i & c & m & Hi & Hc & Ei & Ec & Em). exists (2 ^ (c + 1)).
  assert (c < m) as Hcm by (apply (Z.pow_lt_mono_r_iff 2); lia). assert (0 < 2 ^ (c + 1)) as Hpos by (apply Z.pow_pos_nonneg; lia).
  assert (2 ^ (c + 1) = 2 * 2 ^ c) as Hdbl by (rewrite Z.pow_add_r by lia; lia).
  destruct (lm_iter_resize (2 ^ (c + 1)) (Lru.cache put_front) Hpos) as [Hit Hcr].
  assert (lm_cap (Lru.cache put_front) = 2 ^ c) as Hpc by (unfold put_front; cbn; by rewrite lm_cap_put, (lo_cap l Hl)).
  pose proof (lm_iter_cap (Lru.cache put_front)) as Hlen. rewrite Hpc in Hlen.
  fold (Lru.iter put_front) in Hlen, Hit.
  assert (lm_iter (lm_resize (2 ^ (c + 1)) (Lru.cache put_front)) = Lru.iter put_front) as Hsame by (rewrite Hit; apply take_ge; lia).
  split_and!; [|done|done|].
  - rewrite Ec. unfold wshl. rewrite Z.shiftl_mul_pow2, <- Z.pow_add_r by lia. apply wrap_small. split; [apply Z.pow_nonneg; lia|].
    apply Z.pow_lt_mono_r; lia.
  - split; [exact Hcr|exists i, (c + 1), m; split_and!; try lia; done|]. intros _.
    change (Z.of_nat (length (lm_iter (lm_resize (2 ^ (c + 1)) (Lru.cache put_front)))) < 2 ^ (c + 1)). rewrite Hsame. lia.
Qed.

Lemma put_ok : wp (Lru.put l k v) (fun l' => lru_ok l' /\ same_caps l l'
  /\ ((Z.of_nat (size (view l)) < Lru.max_cap l \/ is_Some (view l !! k)) -> view l' = <[k := v]> (view l))
  /\ view l' ⊆ <[k := v]> (view l)).
Proof using Hl Lok.
  pose proof put_front_view as Hview. pose proof put_front_sub as Hsub. pose proof room_below as Hroom. pose proof (lru_caps l Hl) as [_ Hc].
  pose proof grow_ok as Hgrow. pose proof (lm_put_old k v (Lru.cache l)) as Ho. pose proof (lm_cap_put k v (Lru.cache l)) as Hcp.
  unfold Lru.put, put_front in *. destruct (lm_put k v (Lru.cache l)) as [c r] eqn:Hput. cbn [fst snd] in *. subst r.
  rewrite assoc_list_to_map. change (list_to_map (lm_iter (Lru.cache l))) with (view l).
  cbn [Lru.cap Lru.max_cap Lru.cache update Lru.fields] in *. case_goal.
  - destruct Hgrow as (cap' & Hw & Hpos & Hsame & Hok); [lia|]. rewrite Hw. unfold Lru.non_zero. rewrite (proj2 (Z.ltb_lt _ _)) by done.
    split_and!; [exact Hok|done|intros _; rewrite <- Hview by lia|]; unfold view, Lru.iter in *; cbn in *; by rewrite Hsame.
  - split_and!; [|done| |done].
    + split; [cbn; rewrite Hcp; apply Hl|apply Hl|]. cbn. intros Hlt. specialize (Hroom Hlt). rewrite <- view_size, Hview by lia.
      destruct (view l !! k) as [w|] eqn:Hk; [rewrite map_size_insert_Some by (by eexists); done|].
      cbn [isSome negb andb] in *. rewrite <- Hview by lia. rewrite view_size. unfold Lru.iter. cbn. lia.
    + intros Hr. apply Hview. destruct Hr as [Hr|Hr]; [left|by right]. destruct (decide (Lru.cap l < Lru.max_cap l)); [auto|lia].
Qed.

End front.

Lemma get_mut_ok k f l : lru_ok l -> let '(l', r) := Lru.get_mut l k f in
  lru_ok l' /\ same_caps l l' /\ r = view l !! k /\ view l' = alter f k (view l).
Proof.
  intros Hl. unfold Lru.get_mut. pose proof (lm_iter_get_mut k f (Lru.cache l)) as Hi. pose proof (lm_get_mut_old k f (Lru.cache l)) as Ho.
  pose proof (lm_cap_get_mut k f (Lru.cache l)) as Hc. destruct (lm_get_mut k f (Lru.cache l)) as [c r]. cbn [fst snd] in *. subst r.
  rewrite assoc_list_to_map in *. change (list_to_map (lm_iter (Lru.cache l))) with (view l) in *.
  assert (view (l <| Lru.cache := c |>) = alter f k (view l)) as Hv.
  { unfold view at 1, Lru.iter. cbn. rewrite Hi. destruct (view l !! k) as [v|] eqn:Hk; [|by rewrite alter_id by naive_solver].
    cbn. rewrite without_list_to_map, insert_delete_eq. change (<[k := f v]> (view l) = alter f k (view l)). apply map_eq. intros j.
    destruct (decide (j = k)) as [->|]; [by rewrite lookup_insert_eq, lookup_alter_eq, Hk|by rewrite lookup_insert_ne, lookup_alter_ne]. }
  split_and!; [|done..]. split; [cbn; rewrite Hc; apply Hl|apply Hl|].
  cbn. intros Hlt. rewrite <- view_size, Hv, <- size_dom, dom_alter_L, size_dom, view_size. by apply Hl.
Qed.

Lemma clear_ok l : lru_ok l -> wp (Lru.clear l) (fun l' => lru_ok l' /\ same_caps l l' /\ view l' = ∅).
Proof.
  intros Hl. unfold Lru.clear, Lru.non_zero. pose proof (lru_caps l Hl) as [Hi _]. rewrite (proj2 (Z.ltb_lt _ _)) by done. cbn.
  destruct (lm_iter_resize (Lru.init_cap l) (Lru.cache l) Hi) as [_ Hc]. destruct (lm_iter_clear (lm_resize (Lru.init_cap l) (Lru.cache l))) as [He Hce].
  split_and!; [|done|unfold view, Lru.iter; cbn; by rewrite He].
  destruct (lo_pow l Hl) as (i & c & m & Hic & Hcm & Ei & Ec & Em).
  split; cbn; [by rewrite Hce|exists i, i, m; split_and!; lia|]. intros _. unfold Lru.iter. cbn. rewrite He. cbn. lia.
Qed.

(** Keys of a set that fits never need an eviction. *)
Lemma room_within (U : gset K) k l : dom (view l) ⊆ U -> k ∈ U -> Z.of_nat (size U) <= Lru.max_cap l ->
  Z.of_nat (size (view l)) < Lru.max_cap l \/ is_Some (view l !! k).
Proof.
  intros Hd Hk Hs. destruct (view l !! k) eqn:Hvk; [right; by eexists|left].
  enough (size (dom (view l)) < size U)%nat as Hlt by (rewrite size_dom in Hlt; lia).
  apply subset_size. split; [done|]. intros Hu. apply Hu, elem_of_dom in Hk as [? ?]. congruence.
Qed.

End lru_spec.

(** ** The tables of a slot *)

Section tables.
Context {L : LruMap bytes QuadrupleConnections} {Lok : LruMapOk L}.
Implicit Types c o : ConcurrentConnection.

Definition table c (key : QgKey) : gmap bytes QuadrupleConnections :=
  match key with QgV4 _ => view (v4_connections c) | QgV6 _ => view (v6_connections c) end.

Definition key_bytes (key : QgKey) : bytes := match key with QgV4 k => k | QgV6 k => k end.

Definition entry c (key : QgKey) : option QuadrupleConnections := table c key !! key_bytes key.

Definition tables_ok c : Prop := lru_ok (v4_connections c) /\ lru_ok (v6_connections c).

(** The keys of both tables lie in [U], which fits both. *)
Definition within (U : gset bytes) c : Prop :=
  (dom (view (v4_connections c)) ⊆ U /\ Z.of_nat (size U) <= Lru.max_cap (v4_connections c))
  /\ dom (view (v6_connections c)) ⊆ U /\ Z.of_nat (size U) <= Lru.max_cap (v6_connections c).

(** An operation on one key, which may evict entries. *)
Definition sets c (key : QgKey) (x : option QuadrupleConnections) c' : Prop :=
  forall key', entry c' key' = if decide (key' = key) then x else entry c key'.

Definition sets_or_drops c (key : QgKey) (x : option QuadrupleConnections) c' : Prop :=
  forall key', entry c' key' = None \/ entry c' key' = if decide (key' = key) then x else entry c key'.

Lemma sets_drops c key x c' : sets c key x c' -> sets_or_drops c key x c'.
Proof. intros Hs key'. right. apply Hs. Qed.

(** The times of the entries. *)
Definition timed c : Prop := forall key v, entry c key = Some v -> fits 64 (qc_time v).

Lemma timed_sets c key x c' : timed c -> (forall v, x = Some v -> fits 64 (qc_time v)) -> sets_or_drops c key x c' -> timed c'.
Proof. intros Hc Hx Hs key' v Hv. destruct (Hs key') as [Hn|Hn]; rewrite Hn in Hv; [done|]. case_decide; eauto. Qed.

Lemma tables_new capacity : 0 <= capacity <= 2 ^ 62 -> wp (ConcurrentConnection_with_capacity capacity) (fun c => tables_ok c
  /\ (forall key, entry c key = None) /\ forall U, Z.of_nat (size U) <= capacity -> within U c).
Proof.
  intros Hc. unfold ConcurrentConnection_with_capacity. assert (Z.shiftr capacity 5 <= capacity) as Hs.
  { rewrite Z.shiftr_div_pow2 by lia. apply Z.div_le_upper_bound; lia. }
  assert (capacity <= next_power_of_two capacity) as Hn.
  { destruct (decide (capacity = 0)) as [->|]; [vm_compute; discriminate|]. unfold next_power_of_two.
    destruct (next_power_of_two_pow capacity) as (a & Ha & E); [lia|]. unfold next_power_of_two in E. rewrite E.
    destruct (decide (capacity = 1)) as [->|]; [pose proof (Z.pow_pos_nonneg 2 a); lia|].
    assert (Z.log2_up capacity <= 62) by (change 62 with (Z.log2_up (2 ^ 62)); apply Z.log2_up_le_mono; lia).
    pose proof (Z.log2_up_nonneg capacity). rewrite wrap_small in E by (split; [apply Z.pow_nonneg; lia|apply Z.pow_lt_mono_r; lia]).
    rewrite <- E. apply Z.log2_up_spec. lia. }
  apply wp_bind. eapply wp_mono; [apply with_capacity_ok; lia|]. intros v4 (H4 & E4 & M4).
  apply wp_bind. eapply wp_mono; [apply with_capacity_ok; lia|]. intros v6 (H6 & E6 & M6). cbn. split_and!; [done| |].
  - intros []; unfold entry; cbn; [by rewrite E4|by rewrite E6].
  - intros U HU. unfold within. cbn. rewrite E4, E6, M4, M6, dom_empty_L. split_and!; set_solver by lia || lia.
Qed.

Lemma connections_mut_ok c key f : tables_ok c -> let '(c', r) := connections_mut c key f in
  tables_ok c' /\ r = entry c key /\ sets c key (f <$> entry c key) c' /\ (forall U, within U c -> within U c').
Proof.
  intros [H4 H6]. unfold connections_mut, entry, sets, within. destruct key as [k|k];
    [pose proof (get_mut_ok k f _ H4) as Hg|pose proof (get_mut_ok k f _ H6) as Hg]; destruct (Lru.get_mut _ _ _) as [l r];
    destruct Hg as (Hl & [Hm Hi] & -> & Hv); cbn; (split_and!; [done|done| |]).
  - intros [k'|k']; unfold entry; cbn; [rewrite Hv|by rewrite decide_False].
    destruct (decide (k' = k)) as [->|]; [rewrite lookup_alter_eq, decide_True by done; done|].
    rewrite lookup_alter_ne, decide_False by naive_solver. done.
  - intros U. by rewrite Hv, Hm, dom_alter_L.
  - intros [k'|k']; unfold entry; cbn; [by rewrite decide_False|rewrite Hv].
    destruct (decide (k' = k)) as [->|]; [rewrite lookup_alter_eq, decide_True by done; done|].
    rewrite lookup_alter_ne, decide_False by naive_solver. done.
  - intros U. by rewrite Hv, Hm, dom_alter_L.
Qed.

Lemma log_full_frame c b t : v4_connections (log_full c b t) = v4_connections c /\ v6_connections (log_full c b t) = v6_connections c.
Proof. unfold log_full. by case_goal. Qed.

Lemma put_table (U : gset bytes) (l l' : Lru.t bytes QuadrupleConnections) k v : same_caps l l' ->
  ((Z.of_nat (size (view l)) < Lru.max_cap l \/ is_Some (view l !! k)) -> view l' = <[k := v]> (view l)) ->
  dom (view l) ⊆ U /\ Z.of_nat (size U) <= Lru.max_cap l -> k ∈ U ->
  (dom (view l') ⊆ U /\ Z.of_nat (size U) <= Lru.max_cap l') /\ view l' = <[k := v]> (view l).
Proof.
  intros [Hm _] Hv [Hd Hs] Hk. rewrite Hm, Hv by by eapply room_within. split; [|done]. split; [|done]. rewrite dom_insert_L. set_solver.
Qed.

Lemma sub_lookup (m m' : gmap bytes QuadrupleConnections) k : m' ⊆ m -> m' !! k = None \/ m' !! k = m !! k.
Proof. intros Hs. destruct (m' !! k) as [v|] eqn:Hk; [right|by left]. symmetry. by eapply lookup_weaken. Qed.

Lemma insert_lookup (m : gmap bytes QuadrupleConnections) k k' v : <[k := v]> m !! k' = if decide (k' = k) then Some v else m !! k'.
Proof. case_decide; [subst; by rewrite lookup_insert_eq|by rewrite lookup_insert_ne]. Qed.

Lemma connections_put_ok c key t living sum : tables_ok c -> wp (connections_put c key t living sum) (fun c' => tables_ok c'
  /\ sets_or_drops c key (Some (Build_QuadrupleConnections sum living t)) c'
  /\ forall U, within U c -> key_bytes key ∈ U -> within U c' /\ sets c key (Some (Build_QuadrupleConnections sum living t)) c').
Proof.
  intros [H4 H6]. unfold connections_put. destruct key as [k|k]; apply wp_bind;
    [destruct (log_full_frame c (Lru.is_full (v4_connections c)) t) as [E4 E6]|destruct (log_full_frame c (Lru.is_full (v6_connections c)) t) as [E4 E6]];
    set (c1 := log_full _ _ _) in *; rewrite ?E4, ?E6; (eapply wp_mono; [by apply put_ok|]); intros l (Hl & Hc & Hv & Hsub); cbn;
    (split; [unfold tables_ok; cbn; by rewrite ?E4, ?E6|split]).
  - intros [k'|k']; unfold entry; cbn; rewrite ?E6; [|right; by rewrite decide_False].
    destruct (sub_lookup _ _ k' Hsub) as [|Hs]; [by left|right]. rewrite Hs, insert_lookup. do 2 case_decide; naive_solver.
  - intros U [W4 W6] Hk. unfold within; cbn; rewrite E6. destruct (put_table U _ l k _ Hc Hv W4 Hk) as [Hd Hw]. split; [done|].
    intros [k'|k']; unfold entry; cbn; rewrite ?E6; [rewrite Hw, insert_lookup; do 2 case_decide; naive_solver|by rewrite decide_False].
  - intros [k'|k']; unfold entry; cbn; rewrite ?E4; [right; by rewrite decide_False|].
    destruct (sub_lookup _ _ k' Hsub) as [|Hs]; [by left|right]. rewrite Hs, insert_lookup. do 2 case_decide; naive_solver.
  - intros U [W4 W6] Hk. unfold within; cbn; rewrite E4. destruct (put_table U _ l k _ Hc Hv W6 Hk) as [Hd Hw]. split; [done|].
    intros [k'|k']; unfold entry; cbn; rewrite ?E4; [by rewrite decide_False|rewrite Hw, insert_lookup; do 2 case_decide; naive_solver].
Qed.

(** A change of the entry of a key, or a new entry. *)
Definition upserts c key (x : QuadrupleConnections) c' : Prop :=
  tables_ok c' /\ sets_or_drops c key (Some x) c' /\ forall U, within U c -> key_bytes key ∈ U -> within U c' /\ sets c key (Some x) c'.

Lemma upsert_ok c key f t living sum : tables_ok c ->
  let '(c1, r) := connections_mut c key f in
  wp (match r with Some _ => Ret c1 | None => connections_put c1 key t living sum end)
    (upserts c key (from_option f (Build_QuadrupleConnections sum living t) (entry c key))).
Proof.
  intros Hc. pose proof (connections_mut_ok c key f Hc) as Hm. destruct (connections_mut c key f) as [c1 r].
  destruct Hm as (Hc1 & -> & Hs & HU). destruct (entry c key) as [v|] eqn:He; cbn.
  - split_and!; [done|by apply sets_drops|auto].
  - assert (forall key', entry c1 key' = if decide (key' = key) then None else entry c key') as Hs1 by exact Hs.
    eapply wp_mono; [by apply connections_put_ok|]. intros c' (Hc' & Hd & Hp). split_and!; [done| |].
    + intros key'. destruct (Hd key') as [|Hn]; [by left|right]. rewrite Hn, Hs1. by case_decide.
    + intros U HW Hk. destruct (Hp U (HU U HW) Hk) as [HW' Hs']. split; [done|]. intros key'. rewrite Hs', Hs1. by case_decide.
Qed.

(** The entry of a key after a report: a connection that opened, one that
    opened and closed, or one that closed. *)
Definition opened (t : Z) (e : option QuadrupleConnections) : QuadrupleConnections :=
  from_option (fun v => Build_QuadrupleConnections (i64 (sum v + 1)) (i64 (living v + 1)) t) (Build_QuadrupleConnections 1 1 t) e.

Definition closed (t : Z) (is_new : bool) (e : option QuadrupleConnections) : QuadrupleConnections :=
  from_option (fun v => if is_new then Build_QuadrupleConnections (i64 (sum v + 1)) (living v) t
                        else Build_QuadrupleConnections (sum v) (i64 (living v - 1)) t)
    (if is_new then Build_QuadrupleConnections 1 0 t else Build_QuadrupleConnections 0 (-1) t) e.

Lemma add_connection_ok c t key : tables_ok c -> wp (add_connection c t key) (upserts c key (opened t (entry c key))).
Proof.
  intros Hc. unfold add_connection. pose proof (upsert_ok c key (fun v =>
    v <| living := i64 (living v + 1) |> <| sum := i64 (sum v + 1) |> <| qc_time := t |>) t 1 1 Hc) as Hu.
  destruct (connections_mut _ _ _) as [c1 r]. exact Hu.
Qed.

Lemma delete_connection_ok c t key is_new : tables_ok c -> wp (delete_connection c t key is_new) (upserts c key (closed t is_new (entry c key))).
Proof.
  intros Hc. unfold delete_connection. pose proof (upsert_ok c key (fun v =>
    let v := v <| qc_time := t |> in if is_new then v <| sum := i64 (sum v + 1) |> else v <| living := i64 (living v - 1) |>) t
    (if is_new then 0 else -1) (if is_new then 1 else 0) Hc) as Hu.
  destruct (connections_mut _ _ _) as [c1 r]. unfold closed. by destruct (entry c key), is_new.
Qed.

(** The number of a key that is not known, or not positive, is 1. *)
Definition load_of (e : option QuadrupleConnections) : Z := Z.max 1 (from_option sum 1 e).

Lemma get_concurrent_ok c t key : tables_ok c -> let '(c', n) := get_concurrent c t key in tables_ok c' /\ n = load_of (entry c key)
  /\ (forall U, within U c -> within U c') /\ sets c key ((fun v => v <| qc_time := t |>) <$> entry c key) c'.
Proof.
  intros Hc. unfold get_concurrent. pose proof (connections_mut_ok c key (fun v => v <| qc_time := t |>) Hc) as Hm.
  destruct (connections_mut _ _ _) as [c1 r]. destruct Hm as (Hc1 & -> & Hs & HU). split_and!; [done| |done|done].
  unfold load_of. destruct (entry c key) as [v|]; cbn; [|done]. case_goal; lia.
Qed.

Lemma tables_clear c : tables_ok c -> wp (ConcurrentConnection_clear c) (fun c' => tables_ok c' /\ (forall key, entry c' key = None)
  /\ forall U, within U c -> within U c').
Proof.
  intros [H4 H6]. unfold ConcurrentConnection_clear.
  apply wp_bind. eapply wp_mono; [by apply clear_ok|]. intros v4 (Hv4 & [M4 _] & E4).
  apply wp_bind. eapply wp_mono; [by apply clear_ok|]. intros v6 (Hv6 & [M6 _] & E6). cbn. split_and!; [done| |].
  - intros []; unfold entry; cbn; [by rewrite E4|by rewrite E6].
  - intros U [[_ S4] [_ S6]]. unfold within. cbn. rewrite E4, E6, M4, M6, dom_empty_L. set_solver.
Qed.

(** ** Carrying connections over *)

(** What is left of an entry when its slot is over. *)
Definition carried (now : Z) (e : option QuadrupleConnections) : option QuadrupleConnections :=
  match e with
  | Some v => if (qc_time v + CONCURRENT_TIMEOUT <? now) || (living v <=? 0) then None else Some v
  | None => None
  end.

Definition joined (d e : option QuadrupleConnections) : option QuadrupleConnections :=
  match d, e with
  | Some d, Some v => Some (Build_QuadrupleConnections (i64 (sum d + living v)) (i64 (living d + living v)) (qc_time d))
  | None, Some v => Some (Build_QuadrupleConnections (living v) (living v) (qc_time v))
  | d, None => d
  end.

Lemma joined_fits now d v w : joined d (carried now (Some v)) = Some w -> qc_time w = qc_time v \/ exists d', d = Some d' /\ qc_time w = qc_time d'.
Proof. cbn [carried]. destruct d, (_ || _); intros; simplify_eq/=; eauto. Qed.

(** One entry of the other table. *)
Lemma merge_connection_ok now l k v : lru_ok l -> fits 64 (qc_time v) -> wp (merge_connection now l (k, v)) (fun l' => lru_ok l' /\ same_caps l l'
  /\ (forall k', view l' !! k' = None \/ view l' !! k' = if decide (k' = k) then joined (view l !! k) (carried now (Some v)) else view l !! k')
  /\ forall U, dom (view l) ⊆ U /\ Z.of_nat (size U) <= Lru.max_cap l -> k ∈ U ->
    dom (view l') ⊆ U /\ (forall k', view l' !! k' = if decide (k' = k) then joined (view l !! k) (carried now (Some v)) else view l !! k')).
Proof.
  intros Hl Ht. unfold merge_connection, duration_add, CONCURRENT_TIMEOUT, fits in *. change (from_secs 300) with 300000000000.
  change (from_secs (2 ^ 64)) with 18446744073709551616000000000. rewrite (proj2 (Z.ltb_lt _ _)) by lia. cbn [mbind run_bind carried].
  unfold CONCURRENT_TIMEOUT. change (from_secs 300) with 300000000000.
  assert (forall k', view l !! k' = if decide (k' = k) then joined (view l !! k) None else view l !! k') as Hid.
  { intros k'. case_decide; [subst; by destruct (view l !! k)|done]. }
  destruct (qc_time v + 300000000000 <? now); cbn [orb wp]; [split_and!; [done..|by right|]; intros U [Hd _] _; done|].
  destruct (living v <=? 0); cbn [orb wp]; [split_and!; [done..|by right|]; intros U [Hd _] _; done|].
  set (f := fun d : QuadrupleConnections => _). pose proof (get_mut_ok k f l Hl) as Hg. destruct (Lru.get_mut l k f) as [l1 r].
  destruct Hg as (Hl1 & Hc1 & -> & Hv1). destruct (view l !! k) as [d|] eqn:Hk; cbn [wp].
  - assert (forall k', view l1 !! k' = if decide (k' = k) then joined (Some d) (Some v) else view l !! k') as Hv'.
    { intros k'. rewrite Hv1. case_decide; [subst|by rewrite lookup_alter_ne]. by rewrite lookup_alter_eq, Hk. }
    split_and!; [done|done|intros k'; right; apply Hv'|]. intros U [Hd Hs] HkU. rewrite Hv1, dom_alter_L. split; [done|]. rewrite <- Hv1. exact Hv'.
  - assert (view l1 = view l) as Hv by (rewrite Hv1; apply alter_id; naive_solver).
    eapply wp_mono; [by apply put_ok|]. intros l' (Hl' & Hc' & Hput & Hsub). destruct Hc1 as [M1 I1]. rewrite Hv in Hsub.
    split_and!; [done|split; destruct Hc'; congruence| |].
    + intros k'. destruct (sub_lookup _ _ k' Hsub) as [|Hs]; [by left|right]. by rewrite Hs, insert_lookup.
    + intros U Hd HkU. rewrite <- Hv, <- M1 in Hd.
      destruct (put_table U l1 l' k _ Hc' Hput Hd HkU) as [[Hd' _] Hw]. split; [done|]. intros k'. by rewrite Hw, Hv, insert_lookup.
Qed.

Definition times_fit (es : list (bytes * QuadrupleConnections)) : Prop := Forall (fun kv => fits 64 (qc_time kv.2)) es.

Lemma merge_table now es : NoDup es.*1 -> times_fit es -> forall l, lru_ok l -> wp (rfold (merge_connection now) es l) (fun l' => lru_ok l' /\ same_caps l l'
  /\ (map_Forall (fun _ v => fits 64 (qc_time v)) (view l) -> map_Forall (fun _ v => fits 64 (qc_time v)) (view l'))
  /\ forall U, dom (view l) ⊆ U /\ Z.of_nat (size U) <= Lru.max_cap l -> Forall (fun kv => kv.1 ∈ U) es ->
    dom (view l') ⊆ U /\ forall k, view l' !! k = joined (view l !! k) (carried now ((list_to_map es : gmap _ _) !! k))).
Proof.
  induction es as [|[k v] es IH]; intros Hn Ht l Hl; cbn [rfold].
  { split_and!; [done|done|done|]. intros U [Hd _] _. split; [done|]. intros k. by destruct (view l !! k). }
  inversion_clear Hn as [|? ? Hk Hn']. inversion_clear Ht as [|? ? Hv Ht']. cbn in Hv.
  pose proof (merge_connection_ok now l k v Hl Hv) as Hm. destruct (merge_connection now l (k, v)) as [l1|]; [|done].
  destruct Hm as (Hl1 & [M1 I1] & Hs1 & HU1). eapply wp_mono; [by apply IH|]. intros l' (Hl' & [M' I'] & Ht1 & HU').
  split_and!; [done|split; congruence| |].
  - intros Hf. apply Ht1. intros k' w Hw. destruct (Hs1 k') as [Hx|Hx]; rewrite Hx in Hw; [done|]. case_decide; [|by eapply Hf].
    apply joined_fits in Hw as [?|[d [Hd ->]]]; [congruence|by eapply Hf].
  - intros U Hd HkU. inversion_clear HkU as [|? ? Hk0 HkU']. destruct (HU1 U Hd Hk0) as [Hd1 Hv1].
    destruct (HU' U) as [Hd' Hv']; [split; [done|rewrite M1; apply Hd]|done|]. split; [done|]. intros k'. rewrite Hv', Hv1. cbn.
    rewrite insert_lookup. case_decide; [subst|done].
    rewrite (not_elem_of_list_to_map_1 (M := gmap _) es k) by done. by destruct (joined (view l !! k) _).
Qed.

Lemma timed_table c : timed c <-> map_Forall (fun _ v => fits 64 (qc_time v)) (view (v4_connections c))
  /\ map_Forall (fun _ v => fits 64 (qc_time v)) (view (v6_connections c)).
Proof.
  split; [intros Ht; split; intros k v Hv; [by apply (Ht (QgV4 k))|by apply (Ht (QgV6 k))]|].
  intros [H4 H6] [k|k] v Hv; [by eapply H4|by eapply H6].
Qed.

Lemma view_iter (l : Lru.t bytes QuadrupleConnections) : NoDup (Lru.iter l).*1 /\ (list_to_map (Lru.iter l) : gmap _ _) = view l
  /\ (map_Forall (fun _ v => fits 64 (qc_time v)) (view l) -> times_fit (Lru.iter l))
  /\ forall U, dom (view l) ⊆ U -> Forall (fun kv => kv.1 ∈ U) (Lru.iter l).
Proof.
  assert (NoDup (Lru.iter l).*1) as Hn by apply lm_iter_keys. split_and!; [done|done| |].
  - intros Hf. apply Forall_forall. intros [k v] Hkv. apply (Hf k). by apply elem_of_list_to_map_1.
  - intros U HU. apply Forall_forall. intros [k v] Hkv. apply HU, elem_of_dom. exists v. by apply elem_of_list_to_map_1.
Qed.

(** Every key is carried over on its own. *)
Lemma conn_merge_ok now c o : tables_ok c -> timed o -> wp (conn_merge c now o) (fun c' => tables_ok c' /\ (timed c -> timed c')
  /\ forall U, within U c -> within U o -> within U c' /\ forall key, entry c' key = joined (entry c key) (carried now (entry o key))).
Proof.
  intros [H4 H6] Ho. apply timed_table in Ho as [O4 O6]. unfold conn_merge.
  destruct (view_iter (v4_connections o)) as (N4 & V4 & T4 & U4). destruct (view_iter (v6_connections o)) as (N6 & V6 & T6 & U6).
  apply wp_bind. eapply wp_mono; [apply merge_table; auto|]. intros l4 (L4 & [M4 _] & F4 & W4).
  apply wp_bind. eapply wp_mono; [apply merge_table; auto|]. intros l6 (L6 & [M6 _] & F6 & W6). cbn. split_and!; [done| |].
  - rewrite !timed_table. cbn. intros [? ?]. auto.
  - intros U [C4 C6] [D4 D6]. destruct (W4 U) as [E4 J4]; [done|apply U4, D4|]. destruct (W6 U) as [E6 J6]; [done|apply U6, D6|].
    unfold within. cbn. rewrite M4, M6. split; [split; split; [done|apply C4|done|apply C6]|]. rewrite V4 in J4. rewrite V6 in J6.
    intros [k|k]; unfold entry; cbn; auto.
Qed.

End tables.
