(* ===== verification/QuadGen.v ===== *)
(** * The quadruple generator (collector/quadruple_generator.rs)

    The thread between the flow map and the collectors.  Every report of a flow
    is turned into a meter, and the meters of one key are merged per time slot,
    a second in one [SubQuadGen] and a minute in another.  The window of slots
    moves with the reports; a slot that leaves it is sent to the collector, with
    the number of concurrent connections of each key.  The reports are passed on
    to the aggregation of flow logs.  [injected] and [emitted] are not in the
    code: they record the reports that were taken and what was handed to the
    output queue.  [batch_buffer], [key] and [id_maps] of the
    code are scratch space and local here; the thread's start and stop are not
    modelled. *)

From stdpp Require Import gmap.
From S2P Require Import Prelude Timestamp Bytes Consts TapTypes TunnelType TapPort Endpoint MetaPacket Flow TcpPerf FlowMerge.
From S2P Require Import OverwriteQueue Meters QuadConn QuadTypes.

Definition QUEUE_BATCH_SIZE : nat := 1024.

(** The order of [HashMap::into_values] and [HashMap::capacity] are the library's;
    [clock n] is the [n]-th reading of [get_timestamp(ntp_diff)]. *)
Class QuadEnv := {
  clock : nat -> Z;
  values_order : gmap bytes FlowMeterWithFlow -> list FlowMeterWithFlow;
  map_capacity : gmap bytes FlowMeterWithFlow -> Z;
}.

Class QuadEnvOk (E : QuadEnv) : Prop := {
  clock_fits n : fits 64 (clock n);
  values_order_perm m : values_order m ≡ₚ (map_to_list m).*2;
}.

(** ** State *)

(** A report as it is injected: the flow, its meter, the ids of its policies, its time and its key. *)
Record Report := {
  rp_flow : TaggedFlow;
  rp_meter : FlowMeter.t;
  rp_ids : gmap Z Z * gmap Z Z;
  rp_time : Z;
  rp_key : QgKey;
}.

Record QgCounter := {
  window_delay : Z;
  flow_delay : Z;
  no_endpoint : Z;
  drop_before_window : Z;
  stash_total_len : Z;
  stash_total_capacity : Z;
}.

#[export] Instance QgCounter_fields : Fields QgCounter := fun x =>
  Build_QgCounter (window_delay x) (flow_delay x) (no_endpoint x) (drop_before_window x) (stash_total_len x) (stash_total_capacity x).

(** [QgCounter::get_counters]: the values, and the counters after it *)
Definition QgCounter_get_counters (c : QgCounter) : QgCounter * list Z :=
  (c <| window_delay := 0 |> <| flow_delay := 0 |> <| no_endpoint := 0 |> <| drop_before_window := 0 |>,
   [window_delay c; flow_delay c; no_endpoint c; drop_before_window c; stash_total_len c; stash_total_capacity c]).

Record QuadrupleStash := { v4_flows : gmap bytes FlowMeterWithFlow; v6_flows : gmap bytes FlowMeterWithFlow }.

#[export] Instance QuadrupleStash_fields : Fields QuadrupleStash := fun x => Build_QuadrupleStash (v4_flows x) (v6_flows x).

Definition QuadrupleStash_new : QuadrupleStash := Build_QuadrupleStash ∅ ∅.

(** [VecDeque::swap_remove_back]: the last element takes the place of the removed one. *)
Definition swap_remove_back {A} (l : list A) (i : nat) : option (list A * A) :=
  match l !! i, l !! (length l - 1)%nat with
  | Some x, Some y => Some (take (length l - 1) (<[i := y]> l), x)
  | _, _ => None
  end.

(** [VecDeque::rotate_left] panics past the length. *)
Definition rotate_left {A} (l : list A) (n : nat) : run (list A) :=
  if (n <=? length l)%nat then Ret (drop n l ++ take n l) else Panic.

Definition is_tcp_or_udp (proto : Z) : bool := (proto =? IpProtocol.TCP) || (proto =? IpProtocol.UDP).

Section generator.
Context {E : QuadEnv} {C : LruMap bytes QuadrupleConnections} {H : LruMap Z bool} {D : DecapEnum}.

(** [slot_interval] is 1 or 60; [window_start] is a [Duration] *)
Record SubQuadGen := {
  output : OverwriteQueue FlowMeterWithFlow;
  counter : QgCounter;
  window_start : Z;
  slot_interval : Z;
  number_of_slots : Z;
  delay_seconds : Z;
  stashs : list QuadrupleStash;
  connections : option (list ConcurrentConnection);
  injected : list Report;
  emitted : list FlowMeterWithFlow;
}.

#[export] Instance SubQuadGen_fields : Fields SubQuadGen := fun x =>
  Build_SubQuadGen (output x) (counter x) (window_start x) (slot_interval x) (number_of_slots x) (delay_seconds x) (stashs x)
    (connections x) (injected x) (emitted x).

(** ** Sending a slot *)

(** The activity of the hosts and the load of one flow. *)
Definition set_connection_flow (st : option ConcurrentConnection * option PossibleHost) (f : FlowMeterWithFlow)
    : (option ConcurrentConnection * option PossibleHost) * FlowMeterWithFlow :=
  let '(connection, possible_host) := st in
  let k := mf_flow_key (fm_flow f) in
  let now := Timestamp.as_secs (fm_time f) in
  let '(possible_host, a0) := check_active_host now possible_host (mf_peer_0 (fm_flow f)) (fk_ip_src k) in
  let '(possible_host, a1) := check_active_host now possible_host (mf_peer_1 (fm_flow f)) (fk_ip_dst k) in
  let f := f <| is_active_host0 := a0 |> <| is_active_host1 := a1 |> in
  if is_tcp_or_udp (fk_proto k) then
    let m := flow_meter f in
    let '(connection, load) := match connection with
      | Some c => let '(c, n) := get_concurrent c (fm_time f) (fm_key f) in (Some c, n)
      | None => (None, FlowLoad.load (FlowMeter.flow_load m))
      end in
    let closed := Traffic.closed_flow (FlowMeter.traffic m) in
    let flow_count := if closed <? load then load - closed else 0 in
    ((connection, possible_host), f <| flow_meter := (m <| FlowMeter.flow_load := FlowLoad.Build_t load flow_count |>) |>)
  else ((connection, possible_host), f).

Fixpoint set_connection_all (st : option ConcurrentConnection * option PossibleHost) (flows : list FlowMeterWithFlow)
    : (option ConcurrentConnection * option PossibleHost) * list FlowMeterWithFlow :=
  match flows with
  | [] => (st, [])
  | f :: flows =>
      let '(st, f) := set_connection_flow st f in
      let '(st, flows) := set_connection_all st flows in
      (st, f :: flows)
  end.

(** A generator has flows of one signal source, so the first one decides. *)
Definition set_connection (st : option ConcurrentConnection * option PossibleHost) (flows : list FlowMeterWithFlow)
    : (option ConcurrentConnection * option PossibleHost) * list FlowMeterWithFlow :=
  match flows with
  | [] => (st, [])
  | f :: _ => if bool_decide (mf_signal_source (fm_flow f) = EBPF) then (st, flows) else set_connection_all st flows
  end.

(** The batch is sent, or dropped when the queue does not take it. *)
Definition send_batch (g : SubQuadGen) (st : option ConcurrentConnection * option PossibleHost) (batch : list FlowMeterWithFlow)
    : run (SubQuadGen * (option ConcurrentConnection * option PossibleHost)) :=
  let '(st, batch) := set_connection st batch in
  '(o, _, _) ← send_all (output g) batch;
  Ret (g <| output := o |> <| emitted := emitted g ++ batch |>, st).

(** The loop over the values of a map, in batches. *)
Fixpoint flush_values (g : SubQuadGen) (st : option ConcurrentConnection * option PossibleHost) (batch values : list FlowMeterWithFlow)
    : run (SubQuadGen * (option ConcurrentConnection * option PossibleHost)) :=
  match values with
  | [] => match batch with [] => Ret (g, st) | _ => send_batch g st batch end
  | f :: values =>
      let batch := batch ++ [f] in
      if (QUEUE_BATCH_SIZE <=? length batch)%nat
      then '(g, st) ← send_batch g st batch; flush_values g st [] values
      else flush_values g st batch values
  end.

Definition flush_flow (g : SubQuadGen) (stash_index : nat) (st : option ConcurrentConnection * option PossibleHost)
    : run (SubQuadGen * (option ConcurrentConnection * option PossibleHost)) :=
  '(rest, stash) ← unwrap (swap_remove_back (stashs g ++ [QuadrupleStash_new]) stash_index);
  let g := g <| stashs := rest |> in
  '(g, st) ← flush_values g st [] (values_order (v4_flows stash));
  flush_values g st [] (values_order (v6_flows stash)).

(** ** The window *)

(** One slot of the loop when connections are counted: it is flushed with the
    first table, whose open connections go to the next one. *)
Definition shift_with (time_in_second : Z) (a : SubQuadGen * list ConcurrentConnection * option PossibleHost) (i : nat)
    : run (SubQuadGen * list ConcurrentConnection * option PossibleHost) :=
  let '(g, current, possible_host) := a in
  '(g, (front, possible_host)) ← flush_flow g i (head current, possible_host);
  front ← unwrap front;
  next ← unwrap (tail current !! 0%nat);
  next ← conn_merge next time_in_second front;
  front ← ConcurrentConnection_clear front;
  Ret (g, <[0%nat := next]> (tail current) ++ [front], possible_host).

Definition shift_without (a : SubQuadGen * option PossibleHost) (i : nat) : run (SubQuadGen * option PossibleHost) :=
  let '(g, possible_host) := a in
  '(g, (_, possible_host)) ← flush_flow g i (None, possible_host);
  Ret (g, possible_host).

(** The loop over the first [n] slots. *)
Definition shift_slots (g : SubQuadGen) (time_in_second : Z) (possible_host : option PossibleHost) (n : nat)
    : run (SubQuadGen * option PossibleHost) :=
  match connections g with
  | Some current =>
      '(g, current, possible_host) ← rfold (shift_with time_in_second) (seq 0 n) (g <| connections := None |>, current, possible_host);
      Ret (g <| connections := Some current |>, possible_host)
  | None => rfold shift_without (seq 0 n) (g, possible_host)
  end.

(** [a as i64 - b as i64] of durations in nanoseconds *)
Definition delay_of (a b : Z) : Z := i64 (i64 a - i64 b).

Definition on_counter (u : QgCounter -> QgCounter) (g : SubQuadGen) : SubQuadGen := g <| counter := u (counter g) |>.

(** One round of the [while] loop. *)
Definition move_round (g : SubQuadGen) (ts time_in_second : Z) (possible_host : option PossibleHost)
    : run (SubQuadGen * option PossibleHost) :=
  let g := on_counter (fun c => c <| window_delay := Z.max (window_delay c) (delay_of ts (window_start g)) |>) g in
  let slots_to_shift :=
    (Timestamp.as_secs time_in_second -₆₄ Timestamp.as_secs (window_start g) -₆₄ delay_seconds g) / slot_interval g +₆₄ 1 in
  '(g, possible_host) ← (if number_of_slots g <=? slots_to_shift then shift_slots g time_in_second possible_host (length (stashs g))
    else
      '(g, possible_host) ← shift_slots g time_in_second possible_host (Z.to_nat slots_to_shift);
      s ← rotate_left (stashs g) (Z.to_nat slots_to_shift);
      Ret (g <| stashs := s |>, possible_host));
  w ← duration_add (window_start g) (from_secs (wrap 64 (slot_interval g * slots_to_shift)));
  Ret (g <| window_start := w |>, possible_host).

(** The [while] loop; the second round is never needed. *)
Fixpoint move_loop (fuel : nat) (g : SubQuadGen) (ts time_in_second : Z) (possible_host : option PossibleHost)
    : run (SubQuadGen * option PossibleHost) :=
  if Timestamp.as_secs (window_start g) +₆₄ delay_seconds g <=? Timestamp.as_secs time_in_second then
    match fuel with
    | O => Panic
    | S fuel => '(g, possible_host) ← move_round g ts time_in_second possible_host; move_loop fuel g ts time_in_second possible_host
    end
  else Ret (g, possible_host).

(** [ts] is the reading of the clock in this call; the result is false when the
    flow is before the window. *)
Definition move_window (g : SubQuadGen) (ts time_in_second : Z) (possible_host : option PossibleHost)
    : run (SubQuadGen * option PossibleHost * bool) :=
  if time_in_second <? window_start g
  then Ret (on_counter (fun c => c <| drop_before_window := drop_before_window c +₆₄ 1 |>) g, possible_host, false)
  else
    '(g, possible_host) ← move_loop 1 g ts time_in_second possible_host;
    Ret (on_counter (fun c => c <| flow_delay := Z.max (flow_delay c) (delay_of ts time_in_second) |>) g, possible_host, true).

Definition flush_all_with (cs : list ConcurrentConnection) (a : SubQuadGen * ConcurrentConnection * option PossibleHost) (i : nat)
    : run (SubQuadGen * ConcurrentConnection * option PossibleHost) :=
  let '(g, tmp, possible_host) := a in
  c ← unwrap (cs !! i);
  tmp ← conn_merge tmp 0 c;
  '(g, (tmp, possible_host)) ← flush_flow g i (Some tmp, possible_host);
  tmp ← unwrap tmp;
  Ret (g, tmp, possible_host).

Definition flush_all_flow (g : SubQuadGen) (possible_host : option PossibleHost) : run (SubQuadGen * option PossibleHost) :=
  match connections g with
  | Some cs =>
      tmp ← ConcurrentConnection_with_capacity (Z.shiftl 1 13);
      '(g, _, possible_host) ← rfold (flush_all_with cs) (seq 0 (length (stashs g))) (g <| connections := None |>, tmp, possible_host);
      Ret (g <| connections := Some cs |>, possible_host)
  | None => rfold shift_without (seq 0 (length (stashs g))) (g, possible_host)
  end.

(** The capacity of the IPv6 map is counted by its length. *)
Definition calc_stash_counters (g : SubQuadGen) : SubQuadGen :=
  let len := sumZ (fun s => Z.of_nat (base.size (v4_flows s)) + Z.of_nat (base.size (v6_flows s))) (stashs g) in
  let cap := sumZ (fun s => map_capacity (v4_flows s) + Z.of_nat (base.size (v6_flows s))) (stashs g) in
  on_counter (fun c => c <| stash_total_len := len |> <| stash_total_capacity := cap |>) g.

(** ** A report *)

Definition stash_get (s : QuadrupleStash) (key : QgKey) : option FlowMeterWithFlow :=
  match key with QgV6 k => v6_flows s !! k | QgV4 k => v4_flows s !! k end.

Definition stash_insert (s : QuadrupleStash) (key : QgKey) (f : FlowMeterWithFlow) : QuadrupleStash :=
  match key with
  | QgV6 k => s <| v6_flows := <[k := f]> (v6_flows s) |>
  | QgV4 k => s <| v4_flows := <[k := f]> (v4_flows s) |>
  end.

(** The connection of a report, counted in the table of its slot. *)
Definition count_connection (f : TaggedFlow) (time_in_second : Z) (key : QgKey) (c : ConcurrentConnection) : run ConcurrentConnection :=
  if is_new_flow (flow f) && bool_decide (close_type (flow f) = ForcedReport) then add_connection c time_in_second key
  else if bool_decide (close_type (flow f) <> ForcedReport) then delete_connection c time_in_second key (is_new_flow (flow f))
  else Ret c.

Definition new_acc_flow (f : TaggedFlow) (m : FlowMeter.t) (id_maps : gmap Z Z * gmap Z Z) (time_in_second : Z) (key : QgKey)
    : FlowMeterWithFlow := {|
  fm_flow := MiniFlow_from (flow f);
  fm_l7_protocol := l7_protocol_of f;
  is_active_host0 := true;
  is_active_host1 := true;
  id_map_0 := id_maps.1;
  id_map_1 := id_maps.2;
  flow_meter := m;
  fm_key := key;
  fm_time := Timestamp.from_duration time_in_second;
|}.

Definition inject_flow (g : SubQuadGen) (f : TaggedFlow) (m : FlowMeter.t) (id_maps : gmap Z Z * gmap Z Z) (time_in_second : Z)
    (key : QgKey) : run SubQuadGen :=
  _ ← rassert (window_start g <=? time_in_second);
  let slot := Z.to_nat (Timestamp.as_secs (time_in_second - window_start g) / slot_interval g) in
  stash ← unwrap (stashs g !! slot);
  g ← (if is_tcp_or_udp (fk_proto (flow_key (flow f))) && bool_decide (fl_signal_source (flow f) = Packet) then
         match connections g with
         | Some current =>
             c ← unwrap (current !! slot);
             c ← count_connection f time_in_second key c;
             Ret (g <| connections := Some (<[slot := c]> current) |>)
         | None => Ret g
         end
       else Ret g);
  let acc := match stash_get stash key with
    | Some acc => FlowMeterWithFlow_merge acc (Timestamp.from_duration time_in_second) m id_maps f
    | None => new_acc_flow f m id_maps time_in_second key
    end in
  Ret (g <| stashs := <[slot := stash_insert stash key acc]> (stashs g) |>
         <| injected := injected g ++ [Build_Report f m id_maps time_in_second key] |>).

(** ** The meter of a report *)

Record CollectorConfig := {
  enabled : bool;
  npm_metrics_concurrent : bool;
  vtap_flow_1s_enabled : bool;
  l7_metrics_enabled : bool;
  inactive_ip_aggregation : bool;
}.

Definition set_anomaly (c : CloseType) : Anomaly.t :=
  let a := Anomaly.default in
  match c with
  | TcpServerRst => a <| Anomaly.server_rst_flow := 1 |>
  | CloseTimeout => a <| Anomaly.tcp_timeout := 1 |>
  | ClientSynRepeat => a <| Anomaly.server_syn_miss := 1 |>
  | ServerHalfClose => a <| Anomaly.server_half_close_flow := 1 |>
  | TcpClientRst => a <| Anomaly.client_rst_flow := 1 |>
  | ServerSynAckRepeat => a <| Anomaly.client_ack_miss := 1 |>
  | ClientHalfClose => a <| Anomaly.client_half_close_flow := 1 |>
  | ClientSourcePortReuse => a <| Anomaly.client_source_port_reuse := 1 |>
  | CloseServerReset => a <| Anomaly.server_reset := 1 |>
  | ServerQueueLack => a <| Anomaly.server_queue_lack := 1 |>
  | ClientEstablishReset => a <| Anomaly.client_establish_reset := 1 |>
  | ServerEstablishReset => a <| Anomaly.server_establish_reset := 1 |>
  | ForcedReport | CloseFinish | CloseUnknown | TcpFinClientRst | CloseMax => a
  end.

Definition b2z (b : bool) : Z := if b then 1 else 0.

Definition meter_traffic (f : TaggedFlow) : Traffic.t :=
  let src := flow_metrics_src (flow f) in
  let dst := flow_metrics_dst (flow f) in {|
  Traffic.packet_tx := packet_count src;
  Traffic.packet_rx := packet_count dst;
  Traffic.byte_tx := byte_count src;
  Traffic.byte_rx := byte_count dst;
  Traffic.l3_byte_tx := l3_byte_count src;
  Traffic.l3_byte_rx := l3_byte_count dst;
  Traffic.l4_byte_tx := l4_byte_count src;
  Traffic.l4_byte_rx := l4_byte_count dst;
  Traffic.new_flow := b2z (is_new_flow (flow f));
  Traffic.closed_flow := b2z (bool_decide (close_type (flow f) <> ForcedReport));
  Traffic.l7_request := 0;
  Traffic.l7_response := 0;
  Traffic.syn := from_option (fun s => st_syn_count (tcp s)) 0 (flow_perf_stats f);
  Traffic.synack := from_option (fun s => st_synack_count (tcp s)) 0 (flow_perf_stats f);
  Traffic.direction_score := direction_score (flow f);
|}.

Definition meter_latency (s : TcpPerfStats) : Latency.t := {|
  Latency.rtt_max := st_rtt s;
  Latency.rtt_client_max := st_rtt_client_max s;
  Latency.rtt_server_max := st_rtt_server_max s;
  Latency.srt_max := st_srt_max s;
  Latency.art_max := st_art_max s;
  Latency.rrt_max := 0;
  Latency.cit_max := st_cit_max s;
  Latency.tls_rtt_max := 0;
  Latency.rtt_sum := st_rtt s;
  Latency.rtt_client_sum := st_rtt_client_sum s;
  Latency.rtt_server_sum := st_rtt_server_sum s;
  Latency.srt_sum := st_srt_sum s;
  Latency.art_sum := st_art_sum s;
  Latency.rrt_sum := 0;
  Latency.cit_sum := st_cit_sum s;
  Latency.tls_rtt_sum := 0;
  Latency.rtt_count := b2z (0 <? st_rtt s);
  Latency.rtt_client_count := st_rtt_client_count s;
  Latency.rtt_server_count := st_rtt_server_count s;
  Latency.srt_count := st_srt_count s;
  Latency.art_count := st_art_count s;
  Latency.rrt_count := 0;
  Latency.cit_count := st_cit_count s;
  Latency.tls_rtt_count := 0;
|}.

Definition meter_performance (s : TcpPerfStats) : Performance.t := {|
  Performance.retrans_tx := retrans_count (st_peer_0 s);
  Performance.retrans_rx := retrans_count (st_peer_1 s);
  Performance.zero_win_tx := zero_win_count (st_peer_0 s);
  Performance.zero_win_rx := zero_win_count (st_peer_1 s);
  Performance.retrans_syn := st_retrans_syn_count s;
  Performance.retrans_synack := st_retrans_synack_count s;
|}.

Definition L7PerfStats_default : L7PerfStats := Build_L7PerfStats 0 0 0 0 0 0 0 0 0.

(** The statistics of all endpoints; the merge does not depend on the order. *)
Definition l7_total (s : FlowPerfStats) : L7PerfStats :=
  foldl L7PerfStats_sequential_merge L7PerfStats_default (map_to_list (l7 s)).*2.

Definition set_l7 (m : FlowMeter.t) (t : L7PerfStats) : FlowMeter.t :=
  m <| FlowMeter.traffic := (FlowMeter.traffic m) <| Traffic.l7_request := request_count t |> <| Traffic.l7_response := response_count t |> |>
    <| FlowMeter.latency := (FlowMeter.latency m) <| Latency.rrt_max := rrt_max t |> <| Latency.rrt_sum := rrt_sum t |>
                              <| Latency.rrt_count := rrt_count t |> |>
    <| FlowMeter.anomaly := (FlowMeter.anomaly m) <| Anomaly.l7_client_error := err_client_count t |>
                              <| Anomaly.l7_server_error := err_server_count t |> <| Anomaly.l7_timeout := err_timeout t |> |>.

(** The part of the meter that is the flow's own, not of its application. *)
Definition l4_meter (f : TaggedFlow) : FlowMeter.t :=
  let proto := fk_proto (flow_key (flow f)) in
  let m := FlowMeter.default <| FlowMeter.traffic := meter_traffic f |> in
  let m := if proto =? IpProtocol.TCP then m <| FlowMeter.anomaly := set_anomaly (close_type (flow f)) |> else m in
  match flow_perf_stats f with
  | None => m
  | Some s =>
      if (proto =? IpProtocol.TCP) || (proto =? IpProtocol.ICMPV4) || (proto =? IpProtocol.ICMPV6)
      then m <| FlowMeter.latency := meter_latency (tcp s) |> <| FlowMeter.performance := meter_performance (tcp s) |>
      else m <| FlowMeter.latency := (FlowMeter.latency m) <| Latency.art_max := st_art_max (tcp s) |>
                  <| Latency.art_sum := st_art_sum (tcp s) |> <| Latency.art_count := st_art_max (tcp s) |> |>
  end.

Definition generate_meter (config : CollectorConfig) (f : TaggedFlow) : FlowMeter.t :=
  let m := if is_metered f then l4_meter f else FlowMeter.default in
  match flow_perf_stats f with
  | None => m
  | Some s =>
      if is_metered f && negb (l7_metrics_enabled config) then m
      else if (l7_protocol s =? L7_UNKNOWN) && bool_decide (fl_signal_source (flow f) <> OTel) then m
      else set_l7 m (l7_total s)
  end.

(** ** The thread *)

Record QuadrupleGenerator := {
  second_quad_gen : option SubQuadGen;
  minute_quad_gen : option SubQuadGen;
  possible_host : option PossibleHost;
  output_flow : option (OverwriteQueue TaggedFlow);
  toa_info_output : OverwriteQueue ((Z * Z) * (Z * Z));
  proc_sync_enable : bool;
  reads : nat;
}.

#[export] Instance QuadrupleGenerator_fields : Fields QuadrupleGenerator := fun x =>
  Build_QuadrupleGenerator (second_quad_gen x) (minute_quad_gen x) (possible_host x) (output_flow x) (toa_info_output x)
    (proc_sync_enable x) (reads x).

Definition reset_delay_seconds (delay_seconds : Z) : Z :=
  if (SECONDS_IN_MINUTE <=? delay_seconds) && (delay_seconds <? SECONDS_IN_MINUTE * 2) then delay_seconds
  else if delay_seconds <? SECONDS_IN_MINUTE then SECONDS_IN_MINUTE
  else SECONDS_IN_MINUTE * 2 - 1.

(** A [Duration] is rounded down to the minute. *)
Definition round_to_minute (t : Z) : Z := from_secs (Timestamp.as_secs t / SECONDS_IN_MINUTE * SECONDS_IN_MINUTE).

(** The tables of a generator that counts connections. *)
Fixpoint new_connections (n : nat) (capacity : Z) : run (list ConcurrentConnection) :=
  match n with
  | O => Ret []
  | S n => c ← ConcurrentConnection_with_capacity capacity; cs ← new_connections n capacity; Ret (c :: cs)
  end.

Definition SubQuadGen_new (output : OverwriteQueue FlowMeterWithFlow) (window_start slot_interval slots delay_seconds : Z)
    (concurrent : bool) (capacity : Z) : run SubQuadGen :=
  cs ← (if concurrent then Some <$> new_connections (Z.to_nat slots) capacity else Ret None);
  Ret (Build_SubQuadGen output (Build_QgCounter 0 0 0 0 0 0) window_start slot_interval slots delay_seconds
         (replicate (Z.to_nat slots) QuadrupleStash_new) cs [] []).

(** [metrics_type] says which of the two generators there are. *)
Definition QuadrupleGenerator_new (conf : CollectorConfig) (second_output minute_output : OverwriteQueue FlowMeterWithFlow)
    (toa_info_output : OverwriteQueue ((Z * Z) * (Z * Z))) (proc_sync_enable : bool) (flow_output : option (OverwriteQueue TaggedFlow))
    (connection_lru_capacity : Z) (second minute : bool) (second_delay_seconds minute_delay_seconds possible_host_size : Z)
    : run QuadrupleGenerator :=
  let minute_delay_seconds := reset_delay_seconds minute_delay_seconds in
  let now := round_to_minute (clock 0) in
  _ ← rassert (from_secs (2 * SECONDS_IN_MINUTE) <=? now);
  let window_start := now - from_secs (2 * SECONDS_IN_MINUTE) in
  let concurrent := npm_metrics_concurrent conf in
  s ← (if second then Some <$> SubQuadGen_new second_output window_start 1 second_delay_seconds second_delay_seconds concurrent connection_lru_capacity
       else Ret None);
  m ← (if minute then Some <$> SubQuadGen_new minute_output window_start 60 2 minute_delay_seconds concurrent connection_lru_capacity
       else Ret None);
  h ← (if negb (inactive_ip_aggregation conf) then Some <$> PossibleHost_new possible_host_size else Ret None);
  Ret (Build_QuadrupleGenerator s m h flow_output toa_info_output proc_sync_enable 1).

(** A side of the flow is known, by the place of the capture or by its EPC. *)
Definition side_known (f : TaggedFlow) (side : FlowMetricsPeer) : bool :=
  let cloud := bool_decide (fk_tap_type (flow_key (flow f)) = CaptureNetworkType.Cloud) in
  (cloud && (is_l3_end side && is_l2_end side)) || (negb cloud && negb (l3_epc_id side =? EPC_INTERNET)).

(** The ids of the policies of one side, with their tunnels; later ones replace earlier ones. *)
Definition id_map_of (p : option PolicyData) : gmap Z Z :=
  match p with
  | None => ∅
  | Some p => foldl (fun m a => foldl (fun m x => <[x.1 := x.2]> m) m (zip (action_acl_gids a) (tunnel_ip_ids a))) ∅ (npb_actions p)
  end.

Definition count_no_endpoint : SubQuadGen -> SubQuadGen := on_counter (fun c => c <| no_endpoint := no_endpoint c +₆₄ 1 |>).

(** Both windows move, the second one only when it is enabled. *)
Definition move_windows (q : QuadrupleGenerator) (config : CollectorConfig) (time_in_second : Z) : run (QuadrupleGenerator * bool * bool) :=
  '(q, second_inject) ← match second_quad_gen q with
    | Some s => if vtap_flow_1s_enabled config then
        '(s, h, b) ← move_window s (clock (reads q)) time_in_second (possible_host q);
        Ret (q <| second_quad_gen := Some s |> <| possible_host := h |> <| reads := S (reads q) |>, b)
      else Ret (q, false)
    | None => Ret (q, false)
    end;
  match minute_quad_gen q with
  | Some m =>
      '(m, h, b) ← move_window m (clock (reads q)) time_in_second (possible_host q);
      Ret (q <| minute_quad_gen := Some m |> <| possible_host := h |> <| reads := S (reads q) |>, second_inject, b)
  | None => Ret (q, second_inject, false)
  end.

Definition handle (q : QuadrupleGenerator) (config : CollectorConfig) (tagged_flow : option TaggedFlow) (time_in_second : Z)
    : run QuadrupleGenerator :=
  '(q, second_inject, minute_inject) ← move_windows q config time_in_second;
  match tagged_flow with
  | None => Ret q
  | Some f =>
      if negb (second_inject || minute_inject) then Ret q
      else
        let q := if side_known f (flow_metrics_src (flow f)) || side_known f (flow_metrics_dst (flow f)) then q
          else q <| second_quad_gen := count_no_endpoint <$> second_quad_gen q |> <| minute_quad_gen := count_no_endpoint <$> minute_quad_gen q |> in
        let key := get_key f in
        let m := generate_meter config f in
        q ← (if second_inject : bool then
               s ← unwrap (second_quad_gen q);
               s ← inject_flow s f m (∅, ∅) time_in_second key;
               Ret (q <| second_quad_gen := Some s |>)
             else Ret q);
        if minute_inject : bool then
          g ← unwrap (minute_quad_gen q);
          g ← inject_flow g f m (id_map_of (policy_src f), id_map_of (policy_dst f)) time_in_second key;
          Ret (q <| minute_quad_gen := Some g |>)
        else Ret q
  end.

(** [TaggedFlow::get_toa_info]: the address of the client and its real one *)
Definition get_toa_info (f : TaggedFlow) : option ((Z * Z) * (Z * Z)) :=
  let k := flow_key (flow f) in
  let src := flow_metrics_src (flow f) in
  if negb (TapPort.get_nat_source (fk_tap_port k) =? TapPort.NAT_SOURCE_TOA) then None
  else match fk_ip_src k, nat_real_ip src with
       | V4 a, V4 r => if r =? 0 then None else Some ((a, fk_port_src k), (r, nat_real_port src))
       | _, _ => None
       end.

Definition on_flow (config : CollectorConfig) (a : QuadrupleGenerator * list TaggedFlow) (f : TaggedFlow)
    : run (QuadrupleGenerator * list TaggedFlow) :=
  let '(q, batch) := a in
  let batch := if isSome (output_flow q) then batch ++ [f] else batch in
  q ← (if enabled config then handle q config (Some f) (flow_stat_time (flow f)) else Ret q);
  match get_toa_info f with
  | Some toa => if proc_sync_enable q then '(o, _) ← send (toa_info_output q) toa; Ret (q <| toa_info_output := o |>, batch) else Ret (q, batch)
  | None => Ret (q, batch)
  end.

(** One round of [handler_routine] with what [recv_all] gave; the flag is false when the loop ends. *)
Definition handler_round (q : QuadrupleGenerator) (config : CollectorConfig) (r : result (list TaggedFlow) (Error TaggedFlow))
    : run (QuadrupleGenerator * bool) :=
  match r with
  | Ok flows =>
      '(q, batch) ← rfold (on_flow config) flows (q, []);
      q ← (match batch, output_flow q with
           | [], _ => Ret q
           | _, Some o => '(o, _, _) ← send_all o batch; Ret (q <| output_flow := Some o |>)
           | _, None => Panic
           end);
      Ret (q <| second_quad_gen := calc_stash_counters <$> second_quad_gen q |>
             <| minute_quad_gen := calc_stash_counters <$> minute_quad_gen q |>, true)
  | Err Timeout =>
      let now := clock (reads q) in
      q ← handle (q <| reads := S (reads q) |>) config None now;
      Ret (q, true)
  | Err (Terminated _ _) =>
      q ← (match second_quad_gen q with
           | Some g => '(g, h) ← flush_all_flow g (possible_host q); Ret (q <| second_quad_gen := Some g |> <| possible_host := h |>)
           | None => Ret q
           end);
      q ← (match minute_quad_gen q with
           | Some g => '(g, h) ← flush_all_flow g (possible_host q); Ret (q <| minute_quad_gen := Some g |> <| possible_host := h |>)
           | None => Ret q
           end);
      Ret (q, false)
  | Err (BatchTooLarge _) => Panic
  end.

(** [handler_routine] on what it receives, with the configuration of each round *)
Fixpoint handler_routine (q : QuadrupleGenerator) (inputs : list (CollectorConfig * result (list TaggedFlow) (Error TaggedFlow)))
    : run QuadrupleGenerator :=
  match inputs with
  | [] => Ret q
  | (config, r) :: inputs =>
      '(q, continues) ← handler_round q config r;
      if continues : bool then handler_routine q inputs else Ret q
  end.

End generator.
