(* ===== verification/QuadGenSpec.v ===== *)
(** * The slots of the quadruple generator (collector/quadruple_generator.rs)

    What a slot holds for a key is the merge of the reports of that key in that
    slot, in the order of their arrival; a slot that leaves the window hands
    exactly these over, once.  [stage] says so while the window moves, with
    lemmas for each operation; [sub_ok] adds what keeps the code from panicking. *)

From stdpp Require Import gmap.
From S2P Require Import Prelude Timestamp Bytes Consts TunnelType MetaPacket Flow FlowMerge OverwriteQueue QueueSpec FlowLogSender.
From S2P Require Import Meters QuadConn QuadConnSpec QuadTypes QuadGen.

(** ** Groups of reports *)

Section groups.
Context (I : Z).

Definition slot_of (t : Z) : Z := Timestamp.as_secs t / I.

Definition merge_report (acc : option FlowMeterWithFlow) (r : Report) : option FlowMeterWithFlow :=
  Some (match acc with
        | Some a => FlowMeterWithFlow_merge a (Timestamp.from_duration (rp_time r)) (rp_meter r) (rp_ids r) (rp_flow r)
        | None => new_acc_flow (rp_flow r) (rp_meter r) (rp_ids r) (rp_time r) (rp_key r)
        end).

(** What is accumulated for a list of reports. *)
Definition merged (rs : list Report) : option FlowMeterWithFlow := foldl merge_report None rs.

(** The reports of a slot and a key. *)
Definition group (σ : Z) (key : QgKey) (rs : list Report) : list Report :=
  filter (fun r => slot_of (rp_time r) = σ /\ rp_key r = key) rs.

(** The accumulated flows of a slot and a key. *)
Definition records (σ : Z) (key : QgKey) (fs : list FlowMeterWithFlow) : list FlowMeterWithFlow :=
  filter (fun f => slot_of (fm_time f) = σ /\ fm_key f = key) fs.

(** A flow without what is filled in when its slot is sent: the load and the activity of the hosts. *)
Definition erase (f : FlowMeterWithFlow) : FlowMeterWithFlow :=
  f <| is_active_host0 := true |> <| is_active_host1 := true |>
    <| flow_meter := (flow_meter f) <| FlowMeter.flow_load := FlowLoad.default |> |>.

Lemma merged_snoc rs r : merged (rs ++ [r]) = merge_report (merged rs) r.
Proof. unfold merged. by rewrite foldl_app. Qed.

Lemma group_app σ key rs rs' : group σ key (rs ++ rs') = group σ key rs ++ group σ key rs'.
Proof. apply filter_app. Qed.

Lemma records_app σ key fs fs' : records σ key (fs ++ fs') = records σ key fs ++ records σ key fs'.
Proof. apply filter_app. Qed.

Lemma records_erase σ key fs : records σ key (erase <$> fs) = erase <$> records σ key fs.
Proof.
  unfold records. induction fs as [|f fs IH]; [done|]. cbn [fmap list_fmap]. rewrite !filter_cons.
  destruct (decide (slot_of (fm_time (erase f)) = σ /\ fm_key (erase f) = key)) as [Hd|Hd]; cbn in Hd.
  - rewrite (decide_True (P := slot_of (fm_time f) = σ /\ fm_key f = key)) by done. cbn [fmap list_fmap]. by f_equal.
  - by rewrite (decide_False (P := slot_of (fm_time f) = σ /\ fm_key f = key)).
Qed.

Lemma merge_time acc t m ids f : fm_key (FlowMeterWithFlow_merge acc t m ids f) = fm_key acc
  /\ fm_time (FlowMeterWithFlow_merge acc t m ids f) = t.
Proof. unfold FlowMeterWithFlow_merge. by case_goal. Qed.

(** The flow of a group has its key, and the time of its last report. *)
Lemma merged_key_time σ key rs f : Forall (fun r => fits 64 (rp_time r)) rs -> merged (group σ key rs) = Some f ->
  fm_key f = key /\ slot_of (fm_time f) = σ /\ fits 64 (fm_time f).
Proof.
  revert f. induction rs as [|r rs IH] using rev_ind; intros f Hf Hm; [done|].
  apply Forall_app in Hf as [Hf Hr]. apply Forall_cons_1 in Hr as [Hr _]. rewrite group_app in Hm. unfold group at 2 in Hm.
  destruct (decide (slot_of (rp_time r) = σ /\ rp_key r = key)) as [[Hs Hk]|Hn].
  2: { rewrite filter_cons_False, filter_nil, app_nil_r in Hm by done. auto. }
  rewrite filter_cons_True, filter_nil, merged_snoc in Hm by done. unfold merge_report in Hm. simplify_eq.
  assert (Timestamp.from_duration (rp_time r) = rp_time r) as Ht by (unfold Timestamp.from_duration; rewrite wrap_small; done).
  destruct (merged _) as [a|] eqn:Ha.
  - destruct (IH a Hf eq_refl) as (Hk & _ & _). destruct (merge_time a (Timestamp.from_duration (rp_time r)) (rp_meter r) (rp_ids r) (rp_flow r)) as [-> ->].
    by rewrite Ht.
  - cbn. by rewrite Ht.
Qed.

End groups.

(** ** The values of a map *)

Section values.
Context {E : QuadEnv} {Eok : QuadEnvOk E} (I : Z).

(** Every flow of the map has its key and its slot. *)
Definition keyed (ctor : bytes -> QgKey) (σ : Z) (m : gmap bytes FlowMeterWithFlow) : Prop :=
  forall k f, m !! k = Some f -> fm_key f = ctor k /\ slot_of I (fm_time f) = σ.

Lemma records_none σ key (fs : list FlowMeterWithFlow) :
  (forall f, f ∈ fs -> fm_key f <> key \/ slot_of I (fm_time f) <> σ) -> records I σ key fs = [].
Proof.
  intros Hf. unfold records. destruct (filter _ fs) as [|f l] eqn:Hl; [done|]. assert (f ∈ f :: l) as Hin by left.
  rewrite <- Hl in Hin. apply list_elem_of_filter in Hin as [[? ?] Hin]. destruct (Hf f Hin); naive_solver.
Qed.

Lemma records_map ctor σ m k : (forall k k', ctor k = ctor k' -> k = k') -> keyed ctor σ m ->
  records I σ (ctor k) (values_order m) = option_list (m !! k).
Proof.
  intros Hinj Hm. unfold records. pose proof (values_order_perm m) as Hp. destruct (m !! k) as [f|] eqn:Hk; cbn.
  - rewrite <- (map_to_list_delete m k f Hk) in Hp. cbn in Hp. symmetry. apply Permutation_singleton_l. symmetry.
    rewrite Hp, filter_cons_True by (destruct (Hm k f Hk); done). apply Permutation_cons; [done|].
    apply Permutation_nil_r. apply (records_none σ (ctor k)). intros g Hg. apply list_elem_of_fmap in Hg as ([k' g'] & -> & Hg). apply elem_of_map_to_list in Hg.
    apply lookup_delete_Some in Hg as [Hne Hg]. left. cbn [snd]. destruct (Hm k' g' Hg) as [-> _]. intros Heq. by apply Hinj in Heq.
  - apply (records_none σ (ctor k)). intros g Hg. rewrite Hp in Hg. apply list_elem_of_fmap in Hg as ([k' g'] & -> & Hg).
    apply elem_of_map_to_list in Hg. left. cbn [snd]. destruct (Hm k' g' Hg) as [-> _]. intros Heq. apply Hinj in Heq. naive_solver.
Qed.

Lemma records_other ctor σ σ' m key : keyed ctor σ m -> σ <> σ' \/ (forall k, ctor k <> key) -> records I σ' key (values_order m) = [].
Proof.
  intros Hm Hne. apply records_none. intros f Hf. rewrite values_order_perm in Hf. apply list_elem_of_fmap in Hf as ([k f'] & -> & Hf).
  apply elem_of_map_to_list in Hf. cbn [snd]. destruct (Hm k f' Hf) as [-> Hs]. destruct Hne as [?|Hne]; [right; congruence|left; apply Hne].
Qed.

(** The flows of a stash. *)
Definition stash_values (s : QuadrupleStash) : list FlowMeterWithFlow := values_order (v4_flows s) ++ values_order (v6_flows s).

Definition stash_keyed (σ : Z) (s : QuadrupleStash) : Prop := forall key f, stash_get s key = Some f -> fm_key f = key /\ slot_of I (fm_time f) = σ.

Lemma records_stash σ σ' s key : stash_keyed σ s ->
  records I σ' key (stash_values s) = if decide (σ' = σ) then option_list (stash_get s key) else [].
Proof.
  intros Hs. unfold stash_values. rewrite records_app.
  assert (keyed QgV4 σ (v4_flows s)) as H4 by (intros k f; apply (Hs (QgV4 k))).
  assert (keyed QgV6 σ (v6_flows s)) as H6 by (intros k f; apply (Hs (QgV6 k))). case_decide as Hd; [|apply not_eq_sym in Hd].
  - subst. destruct key as [k|k]; cbn [stash_get].
    + rewrite (records_map QgV4 σ (v4_flows s) k); [|by intros ? ? [=]|done]. rewrite (records_other QgV6 σ); [by rewrite app_nil_r|done|by right].
    + rewrite (records_map QgV6 σ (v6_flows s) k); [|by intros ? ? [=]|done]. by rewrite (records_other QgV4 σ); [|done|right].
  - by rewrite (records_other QgV4 σ σ' _ key H4 (or_introl Hd)), (records_other QgV6 σ σ' _ key H6 (or_introl Hd)).
Qed.

Lemma stash_values_in s f : f ∈ stash_values s <-> exists key, stash_get s key = Some f.
Proof.
  unfold stash_values. rewrite elem_of_app, !values_order_perm, !list_elem_of_fmap. split.
  - intros [([k g] & -> & Hg)|([k g] & -> & Hg)]; apply elem_of_map_to_list in Hg; [by exists (QgV4 k)|by exists (QgV6 k)].
  - intros [[k|k] Hk]; cbn in Hk; [left|right]; exists (k, f); (split; [done|]); by apply elem_of_map_to_list.
Qed.

End values.

(** ** Sending a slot *)

Section sending.
Context {E : QuadEnv} {Eok : QuadEnvOk E} {C : LruMap bytes QuadrupleConnections} {Cok : LruMapOk C} {H : LruMap Z bool} {D : DecapEnum}.

Abbreviation sending_state := (option ConcurrentConnection * option PossibleHost)%type.

(** The tables stay well-formed while flows look up their loads. *)
Definition table_step (c c' : ConcurrentConnection) : Prop :=
  tables_ok c -> tables_ok c' /\ (timed c -> timed c') /\ forall U, within U c -> within U c'.

Definition st_step (st st' : sending_state) : Prop :=
  match st.1, st'.1 with Some c, Some c' => table_step c c' | None, None => True | _, _ => False end.

Lemma table_step_trans c1 c2 c3 : table_step c1 c2 -> table_step c2 c3 -> table_step c1 c3.
Proof. intros H1 H2 Hc. destruct (H1 Hc) as (Hc2 & Ht & Hw). destruct (H2 Hc2) as (? & ? & ?). split_and!; auto. Qed.

Lemma st_step_refl st h : st_step st (st.1, h).
Proof. unfold st_step. cbn. destruct st.1; [|done]. by intros Hc. Qed.

Lemma st_step_trans s1 s2 s3 : st_step s1 s2 -> st_step s2 s3 -> st_step s1 s3.
Proof. unfold st_step. destruct s1.1, s2.1, s3.1; try done. apply table_step_trans. Qed.

Lemma set_connection_flow_ok st f : fits 64 (fm_time f) -> let '(st', f') := set_connection_flow st f in erase f' = erase f /\ st_step st st'.
Proof.
  intros Ht. unfold set_connection_flow. destruct st as [c h]. destruct (check_active_host _ h _ _) as [h1 a0].
  destruct (check_active_host _ h1 _ _) as [h2 a1]. cbn [fm_time fm_key flow_meter update FlowMeterWithFlow_fields].
  destruct (is_tcp_or_udp _); [|split; [done|apply (st_step_refl (_, _))]]. destruct c as [c|]; [|done].
  pose proof (get_concurrent_ok c (fm_time f) (fm_key f)) as Hg. destruct (get_concurrent c (fm_time f) (fm_key f)) as [c' n].
  split; [done|]. intros Hc. destruct (Hg Hc) as (Hc' & _ & HU & Hs). split_and!; [done| |done]. intros Hd.
  eapply timed_sets; [exact Hd| |by apply sets_drops]. intros v Hv. apply fmap_Some in Hv as (w & _ & ->). done.
Qed.

Lemma set_connection_all_ok fs : Forall (fun f => fits 64 (fm_time f)) fs -> forall st,
  let '(st', fs') := set_connection_all st fs in erase <$> fs' = erase <$> fs /\ st_step st st'.
Proof.
  induction 1 as [|f fs Hf _ IH]; intros st; cbn [set_connection_all]; [split; [done|destruct st; apply (st_step_refl (_, _))]|].
  pose proof (set_connection_flow_ok st f Hf) as H1. destruct (set_connection_flow st f) as [st1 f1]. specialize (IH st1).
  destruct (set_connection_all st1 fs) as [st2 fs2]. destruct H1 as [E1 S1], IH as [E2 S2]. cbn. split; [by f_equal|by eapply st_step_trans].
Qed.

Lemma set_connection_all_app fs fs' st : set_connection_all st (fs ++ fs')
  = let '(st1, out) := set_connection_all st fs in let '(st2, out') := set_connection_all st1 fs' in (st2, out ++ out').
Proof.
  revert st. induction fs as [|f fs IH]; intros st; cbn [app set_connection_all].
  - by destruct (set_connection_all st fs').
  - destruct (set_connection_flow st f) as [st1 f1]. rewrite IH. destruct (set_connection_all st1 fs) as [st2 fs2].
    by destruct (set_connection_all st2 fs').
Qed.

(** Flows that do not come from eBPF *)
Definition no_ebpf (fs : list FlowMeterWithFlow) : Prop := Forall (fun f => mf_signal_source (fm_flow f) <> EBPF) fs.

Lemma set_connection_ok fs st : Forall (fun f => fits 64 (fm_time f)) fs -> let '(st', fs') := set_connection st fs in
  erase <$> fs' = erase <$> fs /\ st_step st st' /\ (no_ebpf fs -> (st', fs') = set_connection_all st fs).
Proof.
  intros Hf. unfold set_connection. destruct fs as [|f fs]; [split_and!; [done|destruct st; apply (st_step_refl (_, _))|done]|]. case_bool_decide as Hs.
  - split_and!; [done|destruct st; apply (st_step_refl (_, _))|]. intros Hn. by inversion_clear Hn.
  - pose proof (set_connection_all_ok (f :: fs) Hf st) as Ha. destruct (set_connection_all st (f :: fs)). naive_solver.
Qed.

(** What is sent: the flows themselves up to what is filled in. *)
Definition sends (g : SubQuadGen) (st : sending_state) (fs : list FlowMeterWithFlow) (a : SubQuadGen * sending_state) : Prop :=
  exists o l out, models o l /\ a.1 = g <| output := o |> <| emitted := emitted g ++ out |> /\ erase <$> out = erase <$> fs
    /\ st_step st a.2 /\ (no_ebpf fs -> (a.2, out) = set_connection_all st fs).

Lemma sends_app g st fs a fs' a' : sends g st fs a -> sends a.1 a.2 fs' a' -> sends g st (fs ++ fs') a'.
Proof.
  destruct a as [g1 st1], a' as [g2 st2]. intros (o & l & out & Hm & Eg & He & Hs & Hx) (o' & l' & out' & Hm' & Eg' & He' & Hs' & Hx').
  cbn [fst snd] in *. subst g1 g2. exists o', l', (out ++ out'). split_and!; [done|cbn; by rewrite app_assoc|by rewrite !fmap_app, He, He'|by eapply st_step_trans|].
  intros Hn. apply Forall_app in Hn as [H1 H2]. rewrite set_connection_all_app, <- (Hx H1), <- (Hx' H2). done.
Qed.

Lemma sends_nil g st l : models (output g) l -> sends g st [] (g, st).
Proof. intros Hm. exists (output g), l, []. destruct g. cbn in *. rewrite app_nil_r. split_and!; [done..|destruct st; apply (st_step_refl (_, _))|done]. Qed.

Lemma send_batch_ok g st fs l : models (output g) l -> Forall (fun f => fits 64 (fm_time f)) fs ->
  wp (send_batch g st fs) (sends g st fs).
Proof.
  intros Hm Hf. unfold send_batch. pose proof (set_connection_ok fs st Hf) as Hs. destruct (set_connection st fs) as [st' out].
  destruct Hs as (He & Hst & Hx). destruct (send_all_outcome (output g) l out Hm) as (o & l' & Hl & [Ho|[e Ho]]); rewrite Ho; cbn;
    exists o, l', out; split_and!; done.
Qed.

Lemma sends_models g st fs a : sends g st fs a -> exists l, models (output a.1) l.
Proof. intros (o & l & out & Hm & -> & _). by exists l. Qed.

Lemma flush_values_ok values : Forall (fun f => fits 64 (fm_time f)) values -> forall g st l batch, models (output g) l ->
  Forall (fun f => fits 64 (fm_time f)) batch -> wp (flush_values g st batch values) (sends g st (batch ++ values)).
Proof.
  induction 1 as [|f values Hf _ IH]; intros g st l batch Hm Hb; cbn [flush_values].
  { rewrite app_nil_r. destruct batch as [|b batch]; [by eapply sends_nil|by eapply send_batch_ok]. }
  assert (Forall (fun f => fits 64 (fm_time f)) (batch ++ [f])) as Hb' by (apply Forall_app; split; [done|by constructor]).
  replace (batch ++ f :: values) with ((batch ++ [f]) ++ values) by by rewrite <- app_assoc. case_goal.
  - apply wp_bind. eapply wp_mono; [by eapply send_batch_ok|]. intros [g1 st1] H1. destruct (sends_models _ _ _ _ H1) as [l1 Hl1].
    eapply wp_mono; [by eapply (IH g1 st1 l1 [])|]. intros a Ha. by eapply sends_app.
  - by eapply IH.
Qed.

(** The slot is replaced by an empty one, and its flows are sent. *)
Lemma swap_remove_back_snoc {A} (xs : list A) y i x : xs !! i = Some x -> swap_remove_back (xs ++ [y]) i = Some (<[i := y]> xs, x).
Proof.
  intros Hi. pose proof (lookup_lt_Some _ _ _ Hi) as Hlt. unfold swap_remove_back. rewrite lookup_app_l, Hi by done. rewrite length_app. cbn [length].
  replace (length xs + 1 - 1)%nat with (length xs) by lia. rewrite lookup_app_r, Nat.sub_diag by lia. cbn. f_equal. f_equal.
  rewrite insert_app_l by done. rewrite take_app_le by (rewrite length_insert; lia). apply take_ge. rewrite length_insert. lia.
Qed.

Lemma flush_flow_ok g i st l s : models (output g) l -> stashs g !! i = Some s -> Forall (fun f => fits 64 (fm_time f)) (stash_values s) ->
  wp (flush_flow g i st) (sends (g <| stashs := <[i := QuadrupleStash_new]> (stashs g) |>) st (stash_values s)).
Proof.
  intros Hm Hs Hf. unfold stash_values in *. apply Forall_app in Hf as [H4 H6]. unfold flush_flow.
  rewrite (swap_remove_back_snoc _ _ _ s Hs). cbn [unwrap mbind run_bind]. apply wp_bind.
  eapply wp_mono; [eapply (flush_values_ok _ H4 _ _ l []); done|]. intros [g1 st1] H1. destruct (sends_models _ _ _ _ H1) as [l1 Hl1].
  eapply wp_mono; [eapply (flush_values_ok _ H6 _ _ l1 []); done|]. intros a Ha. by eapply sends_app.
Qed.

End sending.
