(* ===== verification/QuadWindow.v ===== *)
(** * The window of the quadruple generator (collector/quadruple_generator.rs: move_window, inject_flow)

    A generator has [n] slots of [I] seconds and takes reports up to [d] seconds
    after the start of its window.  The window moves in whole slots: after it
    moved for a report, the slot of the report lies in it, and every slot that
    left it was sent. *)

From stdpp Require Import gmap.
From S2P Require Import Prelude Timestamp Bytes Consts TunnelType MetaPacket Flow FlowMerge OverwriteQueue QueueSpec FlowLogSender.
From S2P Require Import Meters QuadConn QuadConnSpec QuadTypes QuadGen QuadGenSpec.

Section window.
Context {E : QuadEnv} {Eok : QuadEnvOk E} {C : LruMap bytes QuadrupleConnections} {Cok : LruMapOk C} {H : LruMap Z bool} {D : DecapEnum}.
Context (I n d : Z).

(** The parameters of a generator: a slot is not longer than the delay, and the
    slots cover the delay. *)
Definition params_ok : Prop := 0 < I /\ I <= d <= I * n /\ I * n < 2 ^ 32.

(** ** Sending slots one after the other *)

(** The first [i] slots are empty, and the others are the slots from [B] on. *)
Record stage (B : Z) (i : nat) (g : SubQuadGen) : Prop := {
  sg_len : Z.of_nat (length (stashs g)) = n;
  sg_empty j s : (j < i)%nat -> stashs g !! j = Some s -> s = QuadrupleStash_new;
  sg_stash j s key : (i <= j)%nat -> stashs g !! j = Some s ->
    stash_get s key = merged (group I (B + Z.of_nat j - Z.of_nat i) key (injected g));
  sg_after σ key : B + n - Z.of_nat i <= σ -> group I σ key (injected g) = [];
  sg_emitted σ key : records I σ key (erase <$> emitted g)
    = if decide (σ < B) then option_list (erase <$> merged (group I σ key (injected g))) else [];
  sg_times : Forall (fun r => fits 64 (rp_time r)) (injected g);
}.

(** What sending does not touch. *)
Definition frame (g : SubQuadGen) :=
  (counter g, window_start g, slot_interval g, number_of_slots g, delay_seconds g, connections g, injected g).

Lemma stash_new_get key : stash_get QuadrupleStash_new key = None.
Proof. by destruct key. Qed.

Lemma option_list_fmap {A B} (f : A -> B) o : option_list (f <$> o) = f <$> option_list o.
Proof. by destruct o. Qed.

Lemma stage_sent B i g o s out : stage B i g -> stashs g !! i = Some s -> erase <$> out = erase <$> stash_values s ->
  stage (B + 1) (S i) (g <| stashs := <[i := QuadrupleStash_new]> (stashs g) |> <| output := o |> <| emitted := emitted g ++ out |>).
Proof.
  intros [Hl He Hs Ha Hm Ht] Hi Ho. pose proof (lookup_lt_Some _ _ _ Hi) as Hlt. split; cbn [stashs emitted injected update SubQuadGen_fields].
  - by rewrite length_insert.
  - intros j s' Hj Hs'. destruct (decide (j = i)) as [->|].
    + by rewrite list_lookup_insert_eq in Hs' by done; simplify_eq.
    + rewrite list_lookup_insert_ne in Hs' by done. eapply He; [|done]. lia.
  - intros j s' key Hj Hs'. rewrite list_lookup_insert_ne in Hs' by lia. rewrite (Hs j s' key) by (done || lia). do 2 f_equal. lia.
  - intros σ key Hσ. apply Ha. lia.
  - intros σ key. rewrite fmap_app, records_app, Hm, Ho, records_erase.
    assert (stash_keyed I B s) as Hk.
    { intros key' f Hf. rewrite (Hs i s key') in Hf by done. replace (B + Z.of_nat i - Z.of_nat i) with B in Hf by lia.
      destruct (merged_key_time I B key' _ f Ht Hf) as (? & ? & _). done. }
    rewrite (records_stash I B σ s key Hk), (Hs i s key) by done. replace (B + Z.of_nat i - Z.of_nat i) with B by lia.
    destruct (decide (σ < B)), (decide (σ < B + 1)), (decide (σ = B)); try lia; subst; rewrite ?app_nil_r, ?option_list_fmap; done.
  - done.
Qed.

(** The flows of a slot have times that fit. *)
Lemma stage_times B i g s : stage B i g -> stashs g !! i = Some s -> Forall (fun f => fits 64 (fm_time f)) (stash_values s).
Proof.
  intros Hg Hi. apply Forall_forall. intros f Hf. apply stash_values_in in Hf as [key Hf]. rewrite (sg_stash _ _ _ Hg i s key) in Hf by done.
  by eapply merged_key_time; [apply Hg|].
Qed.

Lemma flush_stage B i g st l s : stage B i g -> stashs g !! i = Some s -> models (output g) l -> wp (flush_flow g i st) (fun '(g', st') =>
  stage (B + 1) (S i) g' /\ frame g' = frame g /\ (exists l', models (output g') l') /\ st_step st st'
  /\ exists out, emitted g' = emitted g ++ out /\ (no_ebpf (stash_values s) -> (st', out) = set_connection_all st (stash_values s))).
Proof.
  intros Hg Hi Hm. eapply wp_mono; [eapply flush_flow_ok; [done..|by eapply stage_times]|]. intros [g' st'] (o & l' & out & Hl' & Eg & He & Hst & Hx).
  cbn [fst snd] in *. subst g'. split_and!; [exact (stage_sent B i g o s out Hg Hi He)|done|by exists l'|done|]. by exists out.
Qed.

(** Every table of the ring is well-formed. *)
Definition ring_ok (cs : list ConcurrentConnection) : Prop := Z.of_nat (length cs) = n /\ 2 <= n /\ Forall (fun c => tables_ok c /\ timed c) cs.

(** The first table gives its open connections to the second, is emptied and goes to the end. *)
Definition ring_shift (now : Z) (front : ConcurrentConnection) (cs cs' : list ConcurrentConnection) : Prop :=
  exists c0 c1 rest next cleared, cs = c0 :: c1 :: rest /\ cs' = (next :: rest) ++ [cleared] /\ table_step c0 front
    /\ (forall U, within U c1 -> within U front -> within U next /\ forall key, entry next key = joined (entry c1 key) (carried now (entry front key)))
    /\ (forall key, entry cleared key = None) /\ (forall U, within U front -> within U cleared).

Lemma shift_with_ok now B i g cs h l s : stage B i g -> stashs g !! i = Some s -> models (output g) l -> ring_ok cs ->
  wp (shift_with now (g, cs, h) i) (fun '(g', cs', h') => stage (B + 1) (S i) g' /\ frame g' = frame g /\ (exists l', models (output g') l') /\ ring_ok cs'
    /\ exists front out, ring_shift now front cs cs' /\ emitted g' = emitted g ++ out
      /\ (no_ebpf (stash_values s) -> ((Some front, h'), out) = set_connection_all (head cs, h) (stash_values s))).
Proof.
  intros Hg Hi Hm (Hlen & Hn & Hcs). destruct cs as [|c0 [|c1 rest]]; [cbn in Hlen; lia..|].
  inversion_clear Hcs as [|? ? [H0 T0] Hcs1]. inversion_clear Hcs1 as [|? ? [H1 T1] Hrest]. unfold shift_with. cbn [head tail].
  apply wp_bind. eapply wp_mono; [by eapply flush_stage|]. intros [g' [c' h']] (Hg' & Hf & Hm' & Hst & out & Hout & Hx).
  unfold st_step in Hst. cbn [fst] in Hst. destruct c' as [front|]; [|done]. destruct (Hst H0) as (Hfr & Tfr & _). specialize (Tfr T0). cbn [unwrap mbind run_bind].
  apply wp_bind. cbn [lookup list_lookup unwrap wp]. apply wp_bind. eapply wp_mono; [apply conn_merge_ok; done|]. intros next (Hnx & Tnx & Wnx).
  apply wp_bind. eapply wp_mono; [by apply tables_clear|]. intros cleared (Hcl & Ecl & Wcl). cbn [wp].
  split_and!; [done|done|done| |].
  - split_and!; [|done|]; [cbn in *; rewrite length_app; cbn; lia|]. cbn. constructor; [auto|]. apply Forall_app. split; [done|].
    constructor; [split; [done|]|done]. intros key v Hv. rewrite Ecl in Hv. done.
  - exists front, out. split_and!; [|done|done]. exists c0, c1, rest, next, cleared. split_and!; done.
Qed.

(** ** Moving the window *)

(** [Q B rs out cs] is what the reports, the flows that were sent and the tables
    satisfy when the window is at [B]; the window may move at a time with
    [steady]. *)
Context (Q : Z -> list Report -> list FlowMeterWithFlow -> list ConcurrentConnection -> Prop) (steady : Z -> Z -> Prop).

Definition shift_keeps : Prop := forall now B i g cs h s front cs' h' out, stage B i g -> stashs g !! i = Some s -> steady now B ->
  ring_ok cs -> ring_shift now front cs cs' -> (no_ebpf (stash_values s) -> ((Some front, h'), out) = set_connection_all (head cs, h) (stash_values s)) ->
  Q B (injected g) (emitted g) cs -> Q (B + 1) (injected g) (emitted g ++ out) cs'.

(** Without any reports the window may be anywhere later. *)
Definition jump_keeps : Prop := forall B B' g cs, stage B (Z.to_nat n) g -> ring_ok cs -> B <= B' ->
  Q B (injected g) (emitted g) cs -> Q B' (injected g) (emitted g) cs.

Context (Hshift : shift_keeps) (Hjump : jump_keeps) (Hsteady : forall now B, steady now B -> steady now (B + 1)).

Definition conns_ok (B : Z) (g : SubQuadGen) (cs : list ConcurrentConnection) : Prop := ring_ok cs /\ Q B (injected g) (emitted g) cs.

Lemma shift_loop_with now k : forall B i g cs h l, stage B i g -> (i + k <= Z.to_nat n)%nat -> models (output g) l -> conns_ok B g cs -> steady now B ->
  wp (rfold (shift_with now) (seq i k) (g, cs, h)) (fun '(g', cs', h') => stage (B + Z.of_nat k) (i + k) g' /\ frame g' = frame g
    /\ (exists l', models (output g') l') /\ conns_ok (B + Z.of_nat k) g' cs').
Proof using Hshift Hsteady Cok Eok.
  induction k as [|k IH]; intros B i g cs h l Hg Hk Hm [Hr HQ] Hst; cbn [seq rfold].
  { rewrite Z.add_0_r, Nat.add_0_r. split_and!; [done|done|by exists l|done]. }
  destruct (lookup_lt_is_Some_2 (stashs g) i) as [s Hs]; [pose proof (sg_len _ _ _ Hg); lia|].
  pose proof (shift_with_ok now B i g cs h l s Hg Hs Hm Hr) as Hw. destruct (shift_with now (g, cs, h) i) as [[[g1 cs1] h1]|]; [|done].
  destruct Hw as (Hg1 & Hf1 & [l1 Hm1] & Hr1 & front & out & Hsh & Hout & Hx).
  assert (injected g1 = injected g) as Hinj by (unfold frame in Hf1; congruence).
  eapply wp_mono; [apply (IH (B + 1) (S i) g1 cs1 h1 l1); [done|lia|done| |auto]|].
  - split; [done|]. rewrite Hinj, Hout. eapply (Hshift now B i g cs h s front cs1 h1 out); done.
  - intros [[g' cs'] h'] (Hg' & Hf' & Hm' & Hc'). replace (B + Z.of_nat (S k)) with (B + 1 + Z.of_nat k) by lia.
    replace (i + S k)%nat with (S i + k)%nat by lia. split_and!; [done|congruence|done|done].
Qed.

Lemma shift_loop_without k : forall B i g h l, stage B i g -> (i + k <= Z.to_nat n)%nat -> models (output g) l ->
  wp (rfold shift_without (seq i k) (g, h)) (fun '(g', h') => stage (B + Z.of_nat k) (i + k) g' /\ frame g' = frame g
    /\ exists l', models (output g') l').
Proof using Cok Eok.
  induction k as [|k IH]; intros B i g h l Hg Hk Hm; cbn [seq rfold].
  { rewrite Z.add_0_r, Nat.add_0_r. split_and!; [done|done|by exists l]. }
  destruct (lookup_lt_is_Some_2 (stashs g) i) as [s Hs]; [pose proof (sg_len _ _ _ Hg); lia|].
  assert (wp (shift_without (g, h) i) (fun '(g', h') => stage (B + 1) (S i) g' /\ frame g' = frame g /\ exists l', models (output g') l')) as Hw.
  { unfold shift_without. apply wp_bind. eapply wp_mono; [by eapply flush_stage|]. intros [g' [c' h']] (? & ? & ? & _). done. }
  destruct (shift_without (g, h) i) as [[g1 h1]|]; [|done]. destruct Hw as (Hg1 & Hf1 & [l1 Hm1]).
  eapply wp_mono; [apply (IH (B + 1) (S i) g1 h1 l1); [done|lia|done]|]. intros [g' h'] (Hg' & Hf' & Hm').
  replace (B + Z.of_nat (S k)) with (B + 1 + Z.of_nat k) by lia. replace (i + S k)%nat with (S i + k)%nat by lia.
  split_and!; [done|congruence|done].
Qed.

(** What [shift_slots] keeps besides the tables. *)
Definition frame' (g : SubQuadGen) := (counter g, window_start g, slot_interval g, number_of_slots g, delay_seconds g, injected g).

Definition conns_part (B : Z) (g : SubQuadGen) : Prop := from_option (conns_ok B g) True (connections g).

Lemma shift_slots_ok now k B g h l : stage B 0 g -> (k <= Z.to_nat n)%nat -> models (output g) l -> conns_part B g -> steady now B ->
  wp (shift_slots g now h k) (fun '(g', h') => stage (B + Z.of_nat k) k g' /\ frame' g' = frame' g /\ (exists l', models (output g') l')
    /\ conns_part (B + Z.of_nat k) g' /\ (connections g = None <-> connections g' = None)).
Proof using Hshift Hsteady Cok Eok.
  intros Hg Hk Hm Hc Hst. unfold shift_slots, conns_part in *. destruct (connections g) as [cs|] eqn:Hcs.
  - apply wp_bind. eapply wp_mono; [apply (shift_loop_with now k B 0 (g <| connections := None |>) cs h l); [|done|done|done|done]|].
    { destruct Hg. by split. }
    intros [[g' cs'] h'] ([] & Hf & Hm' & Hc'). cbn [wp]. split_and!; [by split|cbv [frame frame'] in *; cbn in *; congruence|done|done|done].
  - eapply wp_mono; [by apply (shift_loop_without k B 0 g h l)|]. intros [g' h'] (Hg' & Hf & Hm'). cbn [wp].
    assert (connections g' = None) as -> by (cbv [frame] in Hf; congruence). split_and!; [done|cbv [frame frame'] in *; congruence|done|done|done].
Qed.

(** The emptied slots go to the end. *)
Lemma rotate_stage B i g s : stage B i g -> (i <= Z.to_nat n)%nat -> rotate_left (stashs g) i = Ret s -> stage B 0 (g <| stashs := s |>).
Proof.
  intros [Hl He Hs Ha Hm Ht] Hi Hr. unfold rotate_left in Hr. case_hyp Hr; [|done]. injection Hr as <-. split; cbn [stashs injected emitted update SubQuadGen_fields].
  - rewrite length_app, length_drop, length_take. lia.
  - intros. lia.
  - intros j s key _ Hj. replace (B + Z.of_nat j - Z.of_nat 0) with (B + Z.of_nat (i + j) - Z.of_nat i) by lia.
    apply lookup_app_Some in Hj as [Hj|[Hge Hj]]; [rewrite lookup_drop in Hj; by apply Hs; [lia|]|].
    rewrite length_drop in *. pose proof (lookup_lt_Some _ _ _ Hj) as Hlt. rewrite length_take in Hlt. rewrite lookup_take_lt in Hj by lia.
    rewrite (He (j - (length (stashs g) - i))%nat s ltac:(lia) Hj), stash_new_get, Ha by lia. done.
  - intros σ key Hσ. apply Ha. lia.
  - done.
  - done.
Qed.

(** When all slots are empty the window may be anywhere. *)
Lemma stage_jump B B' g : stage B (Z.to_nat n) g -> 0 <= n -> B <= B' -> stage B' 0 g.
Proof.
  intros [Hl He Hs Ha Hm Ht] Hn HB. assert (forall σ key, B <= σ -> group I σ key (injected g) = []) as Hz by (intros; apply Ha; lia). split; [done|..].
  - intros. lia.
  - intros j s key _ Hj. pose proof (lookup_lt_Some _ _ _ Hj). rewrite (He j s ltac:(lia) Hj), stash_new_get, Hz by lia. done.
  - intros. apply Hz. lia.
  - intros σ key. rewrite Hm. destruct (decide (σ < B)), (decide (σ < B')); try lia; [done| |done]. by rewrite Hz by lia.
  - done.
Qed.

Record sub_ok (B : Z) (g : SubQuadGen) : Prop := {
  so_params : params_ok;
  so_fields : slot_interval g = I /\ number_of_slots g = n /\ delay_seconds g = d;
  so_window : window_start g = from_secs (I * B) /\ 0 <= B /\ I * B < 2 ^ 36;
  so_stage : stage B 0 g;
  so_out : exists l, models (output g) l;
  so_conns : conns_part B g;
}.

(** The window for which a report at second [T] is late enough. *)
Definition moved (B T : Z) : Z := if I * B + d <=? T then B + (T - I * B - d) / I + 1 else B.

Lemma secs_bound t : fits 64 t -> 0 <= Timestamp.as_secs t < 2 ^ 35.
Proof.
  unfold fits, Timestamp.as_secs, Timestamp.NANOS_IN_SECOND. intros Ht. split; [apply Z.div_pos; lia|apply Z.div_lt_upper_bound; lia].
Qed.

Lemma as_secs_from_secs x : Timestamp.as_secs (from_secs x) = x.
Proof. unfold Timestamp.as_secs, from_secs. apply Z.div_mul. discriminate. Qed.

(** The window moves past the report's delay and not past the report. *)
Lemma moved_window B T : params_ok -> I * B <= T -> let B' := moved B T in B <= B' /\ I * B' <= T < I * B' + d.
Proof.
  intros (HI & Hd & _) HB. unfold moved. cbv zeta. case_goal; [|lia].
  pose proof (Z.div_mod (T - I * B - d) I ltac:(lia)) as Hdm. pose proof (Z.mod_pos_bound (T - I * B - d) I HI) as Hmb.
  pose proof (Z.div_pos (T - I * B - d) I ltac:(lia) HI). set (q := (T - I * B - d) / I) in *. nia.
Qed.

(** What a move leaves alone. *)
Definition move_frame (g g' : SubQuadGen) : Prop :=
  injected g' = injected g /\ drop_before_window (counter g') = drop_before_window (counter g)
  /\ no_endpoint (counter g') = no_endpoint (counter g) /\ (connections g = None <-> connections g' = None).

(** Slots are sent and the rest goes to the front. *)
Lemma move_slots_ok t k B g h : sub_ok B g -> 0 < k -> steady t B ->
  wp (if number_of_slots g <=? k then shift_slots g t h (length (stashs g))
      else '(g, h) ← shift_slots g t h (Z.to_nat k); s ← rotate_left (stashs g) (Z.to_nat k); Ret (g <| stashs := s |>, h))
    (fun '(g', h') => stage (B + k) 0 g' /\ frame' g' = frame' g /\ (exists l', models (output g') l') /\ conns_part (B + k) g'
      /\ (connections g = None <-> connections g' = None)).
Proof using Hshift Hjump Hsteady Cok Eok.
  intros [Hp (_ & Hn & _) _ Hg [l Hm] Hc] Hk Hst. rewrite Hn. pose proof (sg_len _ _ _ Hg) as Hlen. case_goal.
  - eapply wp_mono; [apply (shift_slots_ok t (length (stashs g)) B g h l); [done|lia|done|done|done]|].
    intros [g' h'] (Hg' & Hf & Hm' & Hc' & Hnn). rewrite Hlen in Hg', Hc'. replace (length (stashs g)) with (Z.to_nat n) in Hg' by lia.
    split_and!; [apply (stage_jump (B + n)); [done|lia|lia]|done|done| |done]. unfold conns_part in *. destruct (connections g') as [cs|]; [|done].
    destruct Hc' as [Hr HQ]. split; [done|]. by apply (Hjump (B + n)); [|done|lia|].
  - apply wp_bind. eapply wp_mono; [apply (shift_slots_ok t (Z.to_nat k) B g h l); [done|lia|done|done|done]|].
    intros [g' h'] (Hg' & Hf & Hm' & Hc' & Hnn). rewrite Z2Nat.id in Hg', Hc' by lia.
    destruct (rotate_left (stashs g') (Z.to_nat k)) as [s|] eqn:Hr.
    + cbn. split_and!; [eapply rotate_stage; [done|lia|done]|done..].
    + unfold rotate_left in Hr. case_hyp Hr; [done|]. pose proof (sg_len _ _ _ Hg'). lia.
Qed.

Lemma sub_ok_counter B g u : sub_ok B g -> sub_ok B (on_counter u g).
Proof. intros [? ? ? [] ? ?]. split; [done..|by split|done|done]. Qed.

Lemma move_round_ok ts t B g h : sub_ok B g -> fits 64 t -> I * B + d <= Timestamp.as_secs t -> steady t B ->
  wp (move_round g ts t h) (fun '(g', h') => sub_ok (moved B (Timestamp.as_secs t)) g' /\ move_frame g g').
Proof using Hshift Hjump Hsteady Cok Eok.
  intros Hg Ht HT Hst. pose proof (secs_bound t Ht) as Hsec. set (T := Timestamp.as_secs t) in *.
  pose proof (so_params _ _ Hg) as (HI & Hd & HIn). pose proof (so_window _ _ Hg) as (HW & HB & HIB). destruct (so_fields _ _ Hg) as (FI & Fn & Fd).
  pose proof (moved_window B T (so_params _ _ Hg) ltac:(lia)) as (HB' & HT' & HT''). unfold moved in *. rewrite (proj2 (Z.leb_le _ _)) in * by lia.
  set (q := (T - I * B - d) / I) in *. assert (0 <= q) as Hq by (apply Z.div_pos; lia). assert (q <= T) as HqT by (apply Z.div_le_upper_bound; nia).
  unfold move_round. set (u := fun c : QgCounter => _). pose proof (sub_ok_counter B g u Hg) as Hg1. set (g1 := on_counter u g) in *.
  change (window_start g1) with (window_start g). change (delay_seconds g1) with (delay_seconds g). change (slot_interval g1) with (slot_interval g).
  rewrite HW, as_secs_from_secs, FI, Fd. change (Timestamp.as_secs t) with T.
  assert ((T -₆₄ I * B -₆₄ d) / I +₆₄ 1 = q + 1) as Hk.
  { rewrite (wsub_small 64 T) by (unfold fits; lia). rewrite wsub_small by (unfold fits; lia). fold q. apply wadd_small. unfold fits. lia. }
  rewrite Hk. apply wp_bind. eapply wp_mono; [apply (move_slots_ok t (q + 1) B g1 h Hg1); [lia|done]|].
  intros [g' h'] (Hg' & Hf & Hm' & Hc' & Hnn). unfold frame' in Hf. injection Hf as Fc Fw FI' Fn' Fd' Finj.
  rewrite Fw, FI', FI, HW. rewrite (wrap_small 64 (I * (q + 1))) by (unfold fits; nia).
  unfold duration_add. rewrite (proj2 (Z.ltb_lt _ _)) by (unfold from_secs, Timestamp.NANOS_IN_SECOND; nia). cbn.
  replace (B + q + 1) with (B + (q + 1)) by lia. split.
  - split; cbn; [done|by rewrite FI', Fn', Fd'|split; [unfold from_secs; lia|nia]|destruct Hg'; by split|done|done].
  - unfold move_frame. cbn. rewrite Fc, Finj. done.
Qed.

Lemma move_window_ok ts t B g h : sub_ok B g -> fits 64 t -> (from_secs (I * B) <= t -> steady t B) ->
  wp (move_window g ts t h) (fun '(g', h', inside) =>
    if inside : bool then from_secs (I * B) <= t /\ sub_ok (moved B (Timestamp.as_secs t)) g' /\ move_frame g g'
    else t < from_secs (I * B) /\ sub_ok B g' /\ injected g' = injected g /\ emitted g' = emitted g /\ connections g' = connections g
      /\ drop_before_window (counter g') = drop_before_window (counter g) +₆₄ 1 /\ no_endpoint (counter g') = no_endpoint (counter g)).
Proof using Hshift Hjump Hsteady Cok Eok.
  intros Hg Ht Hst. pose proof (so_window _ _ Hg) as (HW & HB & HIB). destruct (so_fields _ _ Hg) as (_ & _ & Fd).
  pose proof (so_params _ _ Hg) as (HI & Hd & HIn). pose proof (secs_bound t Ht) as Hsec. unfold move_window. rewrite HW.
  destruct (t <? from_secs (I * B)) eqn:Hlt; [cbn [wp]; split_and!; [lia|by apply sub_ok_counter|done..]|].
  assert (I * B <= Timestamp.as_secs t) as HBt by (unfold Timestamp.as_secs, from_secs in *; apply Z.div_le_lower_bound; [done|lia]).
  assert (forall B1 g1, sub_ok B1 g1 -> Timestamp.as_secs (window_start g1) +₆₄ delay_seconds g1 = I * B1 + d) as Hend.
  { intros B1 g1 [_ (_ & _ & ->) (-> & ? & ?) _ _ _]. rewrite as_secs_from_secs. apply wadd_small. unfold fits. lia. }
  apply wp_bind. eapply (wp_mono _ (fun '(g', h') => sub_ok (moved B (Timestamp.as_secs t)) g' /\ move_frame g g')).
  - cbn [move_loop]. rewrite (Hend B g Hg). case_goal.
    + apply wp_bind. eapply wp_mono; [apply move_round_ok; [done|done|lia|apply Hst; lia]|]. intros [g' h'] [Hg' Hf]. rewrite (Hend _ g' Hg').
      pose proof (moved_window B (Timestamp.as_secs t) (so_params _ _ Hg) HBt) as (_ & _ & Hm). rewrite (proj2 (Z.leb_gt _ _)) by lia. done.
    + unfold moved. rewrite Heqb. cbn. split; [done|]. by split_and!.
  - intros [g' h'] [Hg' Hf]. cbn [wp]. split_and!; [lia|by apply sub_ok_counter|done].
Qed.

(** ** A report in its slot *)

Lemma stash_get_insert s key f key' : stash_get (stash_insert s key f) key' = if decide (key' = key) then Some f else stash_get s key'.
Proof.
  destruct key as [k|k], key' as [k'|k']; cbn; try (by rewrite decide_False); (destruct (decide (k' = k)) as [->|];
    [by rewrite lookup_insert_eq, decide_True|rewrite lookup_insert_ne, decide_False by naive_solver; done]).
Qed.

Lemma group_snoc σ key rs r : group I σ key (rs ++ [r])
  = if decide (slot_of I (rp_time r) = σ /\ rp_key r = key) then group I σ key rs ++ [r] else group I σ key rs.
Proof.
  rewrite group_app. unfold group at 2. case_decide; [by rewrite filter_cons_True, filter_nil|].
  by rewrite filter_cons_False, filter_nil, app_nil_r.
Qed.

Lemma stage_inject B g j s r : stage B 0 g -> stashs g !! j = Some s -> slot_of I (rp_time r) = B + Z.of_nat j -> fits 64 (rp_time r) ->
  stage B 0 (g <| stashs := <[j := stash_insert s (rp_key r) (default (new_acc_flow (rp_flow r) (rp_meter r) (rp_ids r) (rp_time r) (rp_key r))
                                     (merge_report (stash_get s (rp_key r)) r))]> (stashs g) |>
               <| injected := injected g ++ [r] |>).
Proof.
  intros [Hl He Hs Ha Hm Ht] Hj Hσ Hr. pose proof (lookup_lt_Some _ _ _ Hj) as Hlt. split; cbn [stashs injected emitted update SubQuadGen_fields].
  - by rewrite length_insert.
  - intros. lia.
  - intros j' s' key _ Hs'. rewrite group_snoc, Hσ. destruct (decide (j' = j)) as [->|Hne].
    + rewrite list_lookup_insert_eq in Hs' by done. injection Hs' as <-. rewrite stash_get_insert.
      replace (B + Z.of_nat j - Z.of_nat 0) with (B + Z.of_nat j) by lia. pose proof (Hs j s) as Hsj.
      replace (B + Z.of_nat j - Z.of_nat 0) with (B + Z.of_nat j) in Hsj by lia. destruct (decide (key = rp_key r)) as [->|].
      * rewrite decide_True, merged_snoc, <- Hsj by (done || lia). done.
      * rewrite decide_False by naive_solver. apply Hsj; [lia|done].
    + rewrite list_lookup_insert_ne in Hs' by done. rewrite decide_False by lia. apply Hs; [lia|done].
  - intros σ key Hge. rewrite group_snoc, decide_False by lia. by apply Ha.
  - intros σ key. rewrite Hm, group_snoc. case_decide; [|done]. by rewrite decide_False by lia.
  - apply Forall_app. split; [done|by constructor].
Qed.

(** The slot of a report, counted from the start of the window. *)
Lemma slot_index B t : 0 < I -> from_secs (I * B) <= t -> Timestamp.as_secs (t - from_secs (I * B)) / I = slot_of I t - B.
Proof.
  intros HI Ht. unfold slot_of, Timestamp.as_secs, from_secs. replace (t - I * B * Timestamp.NANOS_IN_SECOND)
    with (t + - (I * B) * Timestamp.NANOS_IN_SECOND) by lia.
  rewrite Z.div_add by discriminate. replace (- (I * B)) with (- B * I) by lia. rewrite Z.div_add by lia. lia.
Qed.

(** Reports of packets of TCP and UDP are counted as connections. *)
Definition is_counted (f : TaggedFlow) : bool := is_tcp_or_udp (fk_proto (flow_key (flow f))) && bool_decide (fl_signal_source (flow f) = Packet).

Definition counted (r : Report) (c c' : ConcurrentConnection) : Prop :=
  let f := rp_flow r in
  if is_counted f then
    if is_new_flow (flow f) && bool_decide (close_type (flow f) = ForcedReport) then upserts c (rp_key r) (opened (rp_time r) (entry c (rp_key r))) c'
    else if bool_decide (close_type (flow f) <> ForcedReport) then upserts c (rp_key r) (closed (rp_time r) (is_new_flow (flow f)) (entry c (rp_key r))) c'
    else c' = c
  else c' = c.

Definition inject_keeps : Prop := forall B g cs r j c c', stage B 0 g -> ring_ok cs -> slot_of I (rp_time r) = B + Z.of_nat j ->
  fits 64 (rp_time r) -> cs !! j = Some c -> counted r c c' -> Q B (injected g) (emitted g) cs -> Q B (injected g ++ [r]) (emitted g) (<[j := c']> cs).

Lemma counted_ok r c : tables_ok c -> timed c -> fits 64 (rp_time r) -> is_counted (rp_flow r) = true ->
  wp (count_connection (rp_flow r) (rp_time r) (rp_key r) c) (fun c' => tables_ok c' /\ timed c' /\ counted r c c').
Proof.
  intros Hc Ht Hr Hi. unfold count_connection, counted. rewrite Hi.
  assert (forall x c', fits 64 (qc_time x) -> upserts c (rp_key r) x c' -> tables_ok c' /\ timed c' /\ upserts c (rp_key r) x c') as Hu.
  { intros x c' Hx (H1 & H2 & H3). split_and!; [done| |done]. eapply timed_sets; [done| |done]. naive_solver. }
  destruct (is_new_flow (flow (rp_flow r)) && bool_decide (close_type (flow (rp_flow r)) = ForcedReport)).
  - eapply wp_mono; [by apply add_connection_ok|]. intros c'. apply Hu. unfold opened. by destruct (entry c (rp_key r)).
  - case_bool_decide; [|done]. eapply wp_mono; [by apply delete_connection_ok|]. intros c'. apply Hu.
    unfold closed. by destruct (entry c (rp_key r)), (is_new_flow (flow (rp_flow r))).
Qed.

Lemma inject_flow_ok B g f m ids t key : inject_keeps -> sub_ok B g -> fits 64 t -> from_secs (I * B) <= t -> Timestamp.as_secs t < I * B + d ->
  wp (inject_flow g f m ids t key) (fun g' => sub_ok B g' /\ injected g' = injected g ++ [Build_Report f m ids t key] /\ emitted g' = emitted g
    /\ counter g' = counter g /\ (connections g = None <-> connections g' = None)).
Proof using Cok.
  intros HQ [Hp (FI & Fn & Fd) (HW & HB & HIB) Hg Hm Hc] Ht Hlo Hhi. pose proof Hp as (HI & Hd & HIn). unfold inject_flow. rewrite HW, FI.
  rewrite (proj2 (Z.leb_le _ _)) by done. cbn [rassert mbind run_bind]. rewrite slot_index by done.
  set (r := Build_Report f m ids t key). assert (0 <= slot_of I t - B < n) as Hσ.
  { unfold slot_of. assert (B <= Timestamp.as_secs t / I < B + n); [|lia].
    assert (I * B <= Timestamp.as_secs t) by (unfold Timestamp.as_secs, from_secs in *; apply Z.div_le_lower_bound; [done|lia]).
    split; [by apply Z.div_le_lower_bound|apply Z.div_lt_upper_bound; lia]. }
  set (j := Z.to_nat (slot_of I t - B)). assert (slot_of I (rp_time r) = B + Z.of_nat j) as Hj by (cbn; lia).
  destruct (lookup_lt_is_Some_2 (stashs g) j) as [s Hs]; [pose proof (sg_len _ _ _ Hg); lia|]. rewrite Hs. cbn [unwrap mbind run_bind].
  pose proof (stage_inject B g j s r Hg Hs Hj Ht) as Hstage. fold (is_counted f). apply wp_bind.
  eapply (wp_mono _ (fun g1 => exists cs', g1 = g <| connections := cs' |> /\ (connections g = None <-> cs' = None)
    /\ from_option (fun cs => ring_ok cs /\ Q B (injected g ++ [r]) (emitted g) cs) True cs')).
  - unfold conns_part in Hc. destruct (connections g) as [cs|] eqn:Hcs; [|case_goal; (exists None; split_and!; [destruct g; cbn in *; by subst|done..])].
    destruct Hc as [Hr HQc]. destruct (lookup_lt_is_Some_2 cs j) as [c Hcj]; [destruct Hr; lia|]. destruct Hr as (Hlen & Hn2 & Hall).
    pose proof (proj1 (Forall_lookup _ _) Hall j c Hcj) as [Hct Htt]. destruct (is_counted f) eqn:Hi.
    + rewrite Hcj. cbn [unwrap mbind run_bind]. apply wp_bind. eapply wp_mono; [by apply (counted_ok r c)|]. intros c' (Hc' & Ht' & Hcnt). cbn [wp].
      eexists. split_and!; [done|done|]. cbn. split; [split_and!; [by rewrite length_insert|done|by apply Forall_insert]|].
      by eapply HQ.
    + exists (Some cs). split_and!; [destruct g; cbn in *; by subst|done|]. cbn. split; [done|].
      pose proof (HQ B g cs r j c c Hg ltac:(done) Hj Ht Hcj) as Hq. rewrite list_insert_id in Hq by done. apply Hq; [|done].
      unfold counted. cbn [rp_flow r]. by rewrite Hi.
  - intros g1 (cs' & -> & Hnn & Hcs'). cbn [wp]. split_and!; [|done..]. split; [done|done|done| |done|done].
    assert (stash_insert s key match stash_get s key with
      | Some acc => FlowMeterWithFlow_merge acc (Timestamp.from_duration t) m ids f | None => new_acc_flow f m ids t key end
      = stash_insert s (rp_key r) (default (new_acc_flow (rp_flow r) (rp_meter r) (rp_ids r) (rp_time r) (rp_key r)) (merge_report (stash_get s (rp_key r)) r))) as ->
      by done. destruct Hstage. by split.
Qed.

End window.
