(* ===== verification/QuadTraces.v ===== *)
(** * Runs of the quadruple generator (collector/quadruple_generator.rs: QuadrupleGenerator)

    The thread never panics, and in both of its generators every report is merged
    into the flow of its key and slot, which is handed over once, when the slot
    leaves the window or the thread ends. *)

From stdpp Require Import gmap.
From S2P Require Import Prelude Timestamp Bytes Consts TunnelType MetaPacket Flow FlowMerge OverwriteQueue QueueSpec FlowLogSender.
From S2P Require Import QueueConc Meters QuadConn QuadConnSpec QuadTypes QuadGen QuadGenSpec QuadWindow.

Section runs.
Context {E : QuadEnv} {Eok : QuadEnvOk E} {C : LruMap bytes QuadrupleConnections} {Cok : LruMapOk C} {H : LruMap Z bool} {D : DecapEnum}.

(** ** Ending a generator *)

Section finish.
Context (I n d : Z).

Lemma flush_all_with_ok cs k : Forall (fun c => tables_ok c /\ timed c) cs -> forall B i g tmp h l, stage I n B i g -> (i + k <= Z.to_nat n)%nat ->
  Z.of_nat (length cs) = n -> models (output g) l -> tables_ok tmp /\ timed tmp ->
  wp (rfold (flush_all_with cs) (seq i k) (g, tmp, h)) (fun '(g', _, _) => stage I n (B + Z.of_nat k) (i + k) g' /\ frame g' = frame g).
Proof.
  intros Hcs. induction k as [|k IH]; intros B i g tmp h l Hg Hk Hl Hm [Ht Td]; cbn [seq rfold].
  { by rewrite Z.add_0_r, Nat.add_0_r. }
  destruct (lookup_lt_is_Some_2 (stashs g) i) as [s Hs]; [pose proof (sg_len _ _ _ _ _ Hg); lia|].
  destruct (lookup_lt_is_Some_2 cs i) as [c Hc]; [lia|]. pose proof (proj1 (Forall_lookup _ _) Hcs i c Hc) as [Hct Hcd].
  assert (wp (flush_all_with cs (g, tmp, h) i) (fun '(g', tmp', _) => stage I n (B + 1) (S i) g' /\ frame g' = frame g /\ (exists l', models (output g') l')
    /\ tables_ok tmp' /\ timed tmp')) as Hw.
  { unfold flush_all_with. rewrite Hc. cbn [unwrap mbind run_bind]. apply wp_bind. eapply wp_mono; [by apply conn_merge_ok|].
    intros tmp1 (Ht1 & Td1 & _). apply wp_bind. eapply wp_mono; [by eapply flush_stage|]. intros [g' [c' h']] (Hg' & Hf & Hm' & Hst & _).
    unfold st_step in Hst. cbn [fst] in Hst. destruct c' as [tmp'|]; [|done]. destruct (Hst Ht1) as (? & ? & _). cbn. split_and!; auto. }
  destruct (flush_all_with cs (g, tmp, h) i) as [[[g1 tmp1] h1]|]; [|done]. destruct Hw as (Hg1 & Hf1 & [l1 Hm1] & Ht1).
  eapply wp_mono; [by apply (IH (B + 1) (S i) g1 tmp1 h1 l1); [|lia|..]|]. intros [[g' tmp'] h'] [Hg' Hf'].
  replace (B + Z.of_nat (S k)) with (B + 1 + Z.of_nat k) by lia. replace (i + S k)%nat with (S i + k)%nat by lia. split; [done|congruence].
Qed.

Lemma flush_all_flow_ok Q B g h : sub_ok I n d Q B g -> wp (flush_all_flow g h) (fun '(g', _) => stage I n (B + n) (Z.to_nat n) g' /\ frame g' = frame g).
Proof.
  intros [Hp _ _ Hg [l Hm] Hc]. unfold flush_all_flow, conns_part in *. pose proof (sg_len _ _ _ _ _ Hg) as Hlen.
  replace (length (stashs g)) with (Z.to_nat n) by lia. replace (B + n) with (B + Z.of_nat (Z.to_nat n)) by lia.
  destruct (connections g) as [cs|] eqn:Hcs.
  - destruct Hc as [(Hl & Hn & Hall) _]. apply wp_bind. eapply wp_mono; [apply tables_new; vm_compute; split; discriminate|].
    intros tmp (Ht & He & _). apply wp_bind. eapply wp_mono.
    + apply (flush_all_with_ok cs (Z.to_nat n) Hall B 0 (g <| connections := None |>) tmp h l); [destruct Hg; by split|lia|done|done|].
      split; [done|]. intros key v Hv. rewrite He in Hv. done.
    + intros [[g' tmp'] h'] [[] Hf]. cbn. split; [by split|]. unfold frame in *. cbn in *. congruence.
  - eapply wp_mono; [apply (shift_loop_without I n (Z.to_nat n) B 0 g h l); [done|lia|done]|]. intros [g' h'] (Hg' & Hf & _). done.
Qed.

(** ** A report in one generator *)

(** No condition on the tables. *)
Definition any_tables (B : Z) (rs : list Report) (out : list FlowMeterWithFlow) (cs : list ConcurrentConnection) : Prop := True.

Definition gen_ok (g : SubQuadGen) : Prop := exists B, sub_ok I n d any_tables B g.

Definition dropped (g : SubQuadGen) : Z := drop_before_window (counter g).

(** After the window moved: the report has its slot, or is late. *)
Definition gen_moved (t : Z) (g : SubQuadGen) (inside : bool) (g' : SubQuadGen) : Prop :=
  injected g' = injected g /\
  if inside then dropped g' = dropped g
    /\ exists B, sub_ok I n d any_tables B g' /\ from_secs (I * B) <= t /\ Timestamp.as_secs t < I * B + d
  else gen_ok g' /\ dropped g' = dropped g +₆₄ 1.

Lemma move_window_gen ts t g h : gen_ok g -> fits 64 t -> wp (move_window g ts t h) (fun '(g', _, b) => gen_moved t g b g').
Proof.
  intros [B Hg] Ht. eapply wp_mono; [apply (move_window_ok I n d any_tables (fun _ _ => True) ltac:(done) ltac:(done) ltac:(done) ts t B g h Hg Ht); done|].
  intros [[g' h'] []]; unfold gen_moved, dropped.
  - intros (Hlo & Hg' & Hi & Hd & _ & _). split_and!; [done|done|]. exists (moved I d B (Timestamp.as_secs t)). split; [done|].
    assert (I * B <= Timestamp.as_secs t) as HBt by (unfold Timestamp.as_secs, from_secs in *; apply Z.div_le_lower_bound; [done|lia]).
    destruct (moved_window I n d B (Timestamp.as_secs t) (so_params _ _ _ _ _ _ Hg) HBt) as (_ & Hm1 & Hm2). split; [|done].
    unfold Timestamp.as_secs, from_secs in *. pose proof (Z.mul_div_le t Timestamp.NANOS_IN_SECOND ltac:(done)).
    change Timestamp.NANOS_IN_SECOND with 1000000000 in *. lia.
  - intros (_ & Hg' & Hi & _ & _ & Hd & _). split_and!; [done|by exists B|done].
Qed.

(** The generator took the report, or it counted a late one. *)
Definition took (r : Report) (g g' : SubQuadGen) : Prop :=
  (injected g' = injected g ++ [r] /\ dropped g' = dropped g) \/ (injected g' = injected g /\ dropped g' = dropped g +₆₄ 1).

Lemma inject_gen t g g1 f m ids key : gen_moved t g true g1 -> fits 64 t ->
  wp (inject_flow g1 f m ids t key) (fun g' => gen_ok g' /\ took (Build_Report f m ids t key) g g').
Proof.
  intros (Hi & Hd & B & Hg & Hlo & Hhi) Ht. eapply wp_mono; [by apply (inject_flow_ok I n d any_tables B g1 f m ids t key ltac:(done))|].
  intros g' (Hg' & Hi' & _ & Hc' & _). split; [by exists B|]. left. split; [by rewrite Hi', Hi|unfold dropped in *; by rewrite Hc'].
Qed.

Lemma gen_counter u g : gen_ok g -> gen_ok (on_counter u g).
Proof. intros [B Hg]. exists B. by apply sub_ok_counter. Qed.

Lemma gen_moved_endpoint t g b g1 : gen_moved t g b g1 -> gen_moved t g b (count_no_endpoint g1).
Proof.
  unfold gen_moved, count_no_endpoint, dropped. intros [Hi Hx]. split; [done|]. destruct b; cbn.
  - destruct Hx as (Hd & B & Hg & Hlo). split; [done|]. exists B. split; [by apply sub_ok_counter|done].
  - destruct Hx as [Hg Hd]. split; [by apply gen_counter|done].
Qed.

Lemma gen_late t g g1 r : gen_moved t g false g1 -> gen_ok g1 /\ took r g g1.
Proof. intros (Hi & Hg & Hd). split; [done|]. by right. Qed.

End finish.

(** ** A report in the thread *)

Section thread.
Context (s m : Z).

(** The generator of seconds has [s] slots, that of minutes two. *)
Definition second_ok : SubQuadGen -> Prop := gen_ok 1 s s.
Definition minute_ok : SubQuadGen -> Prop := gen_ok 60 2 m.

Record quad_ok (q : QuadrupleGenerator) : Prop := {
  qk_second : from_option second_ok True (second_quad_gen q);
  qk_minute : from_option minute_ok True (minute_quad_gen q);
  qk_flow : from_option (fun o => exists l, models o l) True (output_flow q);
  qk_toa : exists l, models (toa_info_output q) l;
}.

(** A relation between the generators before and after. *)
Definition lifted (R : SubQuadGen -> SubQuadGen -> Prop) (o o' : option SubQuadGen) : Prop :=
  match o, o' with Some g, Some g' => R g g' | None, None => True | _, _ => False end.

(** What does not belong to the generators. *)
Definition quad_frame (q q' : QuadrupleGenerator) : Prop :=
  output_flow q' = output_flow q /\ toa_info_output q' = toa_info_output q /\ proc_sync_enable q' = proc_sync_enable q.

Section report.
Context (config : CollectorConfig) (t : Z) (Ht : fits 64 t).

(** The generator of seconds is left alone unless it is enabled. *)
Definition sec_moved (b : bool) (g g' : SubQuadGen) : Prop :=
  if vtap_flow_1s_enabled config then gen_moved 1 s s t g b g'
  else b = false /\ second_ok g' /\ injected g' = injected g /\ dropped g' = dropped g.

(** The report of a flow in the generator of seconds and of minutes: only the latter has the ids of the policies. *)
Definition sec_report (f : TaggedFlow) : Report := Build_Report f (generate_meter config f) (∅, ∅) t (get_key f).
Definition min_report (f : TaggedFlow) : Report :=
  Build_Report f (generate_meter config f) (id_map_of (policy_src f), id_map_of (policy_dst f)) t (get_key f).

Definition sec_took (f : TaggedFlow) (g g' : SubQuadGen) : Prop :=
  second_ok g' /\ if vtap_flow_1s_enabled config then took (sec_report f) g g' else injected g' = injected g /\ dropped g' = dropped g.

Definition min_took (f : TaggedFlow) (g g' : SubQuadGen) : Prop := minute_ok g' /\ took (min_report f) g g'.

Lemma sec_late f g g' : sec_moved false g g' -> sec_took f g g'.
Proof. unfold sec_moved, sec_took. destruct (vtap_flow_1s_enabled config); [apply gen_late|naive_solver]. Qed.

Lemma sec_moved_endpoint b g g1 : sec_moved b g g1 -> sec_moved b g (count_no_endpoint g1).
Proof.
  unfold sec_moved. destruct (vtap_flow_1s_enabled config); [apply gen_moved_endpoint|].
  intros (-> & Hg & Hi & Hd). split_and!; [done|by apply gen_counter|done|done].
Qed.

Lemma lifted_impl (R R' : SubQuadGen -> SubQuadGen -> Prop) o o' : (forall g g', R g g' -> R' g g') -> lifted R o o' -> lifted R' o o'.
Proof. destruct o, o'; cbn; auto. Qed.

Lemma lifted_fmap (R R' : SubQuadGen -> SubQuadGen -> Prop) u o o' : (forall g g', R g g' -> R' g (u g')) -> lifted R o o' -> lifted R' o (u <$> o').
Proof. destruct o, o'; cbn; auto. Qed.

Lemma move_windows_ok q : quad_ok q -> wp (move_windows q config t) (fun '(q', b1, b2) => quad_frame q q'
  /\ lifted (sec_moved b1) (second_quad_gen q) (second_quad_gen q') /\ lifted (fun g g' => gen_moved 60 2 m t g b2 g') (minute_quad_gen q) (minute_quad_gen q')
  /\ (second_quad_gen q = None -> b1 = false) /\ (minute_quad_gen q = None -> b2 = false)).
Proof using Ht Cok Eok.
  intros [Hs Hm _ _]. unfold move_windows. apply wp_bind.
  eapply (wp_mono _ (fun '(q1, b1) => quad_frame q q1 /\ minute_quad_gen q1 = minute_quad_gen q
    /\ lifted (sec_moved b1) (second_quad_gen q) (second_quad_gen q1) /\ (second_quad_gen q = None -> b1 = false))).
  - unfold sec_moved. destruct (second_quad_gen q) as [g|] eqn:Hg; [|cbn; by rewrite Hg].
    destruct (vtap_flow_1s_enabled config); [|cbn; by rewrite Hg]. apply wp_bind.
    eapply wp_mono; [by apply move_window_gen|]. intros [[g' h'] b] Hb. cbn. by split_and!.
  - intros [q1 b1] ((F1 & F2 & F3) & Em & Hl & Hn). rewrite Em. destruct (minute_quad_gen q) as [g|] eqn:Hg.
    + apply wp_bind. eapply wp_mono; [by apply move_window_gen|]. intros [[g' h'] b] Hb. cbn. by split_and!.
    + cbn. rewrite Em. by split_and!.
Qed.

(** What [handle] leaves: well-formed generators that took the report. *)
Definition handled (f : TaggedFlow) (q q' : QuadrupleGenerator) : Prop :=
  quad_frame q q' /\ lifted (sec_took f) (second_quad_gen q) (second_quad_gen q') /\ lifted (min_took f) (minute_quad_gen q) (minute_quad_gen q').

Lemma handled_ok f q q' : quad_ok q -> handled f q q' -> quad_ok q'.
Proof.
  intros [Hs Hm Hf Ht'] ((F1 & F2 & F3) & H1 & H2). split; [..|by rewrite F1|by rewrite F2].
  - destruct (second_quad_gen q), (second_quad_gen q'); try done. apply H1.
  - destruct (minute_quad_gen q), (minute_quad_gen q'); try done. apply H2.
Qed.

Lemma inject_second_ok f q q1 b1 : quad_frame q q1 -> lifted (sec_moved b1) (second_quad_gen q) (second_quad_gen q1) -> (second_quad_gen q = None -> b1 = false) ->
  wp (if b1 : bool then g ← unwrap (second_quad_gen q1); g ← inject_flow g f (generate_meter config f) (∅, ∅) t (get_key f); Ret (q1 <| second_quad_gen := Some g |>) else Ret q1)
    (fun q2 => quad_frame q q2 /\ lifted (sec_took f) (second_quad_gen q) (second_quad_gen q2) /\ minute_quad_gen q2 = minute_quad_gen q1).
Proof using Ht Cok.
  intros Hf Hl Hn. destruct b1.
  - destruct (second_quad_gen q) as [g|]; [|by specialize (Hn eq_refl)]. destruct (second_quad_gen q1) as [g1|]; [|done]. cbn in Hl. cbn [unwrap mbind run_bind].
    unfold sec_moved, sec_took in *. destruct (vtap_flow_1s_enabled config); [|by destruct Hl]. apply wp_bind.
    eapply wp_mono; [by apply (inject_gen 1 s s t g)|]. intros g' [Hg' Ht']. cbn. by split_and!.
  - cbn. split_and!; [done| |done]. eapply lifted_impl; [|done]. intros. by apply sec_late.
Qed.

Lemma inject_minute_ok f q q2 b2 : quad_frame q q2 -> lifted (fun g g' => gen_moved 60 2 m t g b2 g') (minute_quad_gen q) (minute_quad_gen q2) ->
  (minute_quad_gen q = None -> b2 = false) -> lifted (sec_took f) (second_quad_gen q) (second_quad_gen q2) ->
  wp (if b2 : bool then g ← unwrap (minute_quad_gen q2); g ← inject_flow g f (generate_meter config f) (id_map_of (policy_src f), id_map_of (policy_dst f)) t (get_key f); Ret (q2 <| minute_quad_gen := Some g |>) else Ret q2)
    (handled f q).
Proof using Ht Cok.
  intros Hf Hl Hn Hs. destruct b2.
  - destruct (minute_quad_gen q) as [g|] eqn:Eg; [|by specialize (Hn eq_refl)]. destruct (minute_quad_gen q2) as [g1|]; [|done]. cbn in Hl. cbn [unwrap mbind run_bind].
    apply wp_bind. eapply wp_mono; [by apply (inject_gen 60 2 m t g)|]. intros g' [Hg' Ht']. cbn. unfold handled. cbn. rewrite Eg. by split_and!.
  - cbn. split_and!; [done|done|]. eapply lifted_impl; [|done]. intros. by apply (gen_late 60 2 m t).
Qed.

Lemma handle_ok f q : quad_ok q -> wp (handle q config (Some f) t) (handled f q).
Proof using Ht Cok Eok.
  intros Hq. unfold handle. apply wp_bind. eapply wp_mono; [by apply move_windows_ok|]. intros [[q1 b1] b2] (F1 & Hs1 & Hm1 & N1 & N2).
  destruct (negb (b1 || b2)) eqn:Hb.
  - destruct b1, b2; try done. cbn. split_and!; [done|eapply lifted_impl; [|done]; intros; by apply sec_late|].
    eapply lifted_impl; [|done]. intros. by apply (gen_late 60 2 m t).
  - match goal with |- context [if ?b then q1 else ?x] => set (q2 := if b then q1 else x) end. assert (quad_frame q q2 /\ lifted (sec_moved b1) (second_quad_gen q) (second_quad_gen q2)
      /\ lifted (fun g g' => gen_moved 60 2 m t g b2 g') (minute_quad_gen q) (minute_quad_gen q2)) as (F2 & Hs2 & Hm2).
    { unfold q2. case_goal; [done|]. cbn. split_and!; [done|..]; (eapply lifted_fmap; [|done]); intros; [by apply sec_moved_endpoint|by apply gen_moved_endpoint]. }
    apply wp_bind. eapply wp_mono; [by eapply (inject_second_ok f q q2 b1)|]. intros q3 (F3 & Hs3 & Em3). rewrite <- Em3 in Hm2.
    by apply inject_minute_ok.
Qed.

(** A timeout moves the windows and takes nothing. *)
Definition ticked (q q' : QuadrupleGenerator) : Prop :=
  quad_frame q q' /\ lifted (fun g g' => second_ok g' /\ injected g' = injected g) (second_quad_gen q) (second_quad_gen q')
  /\ lifted (fun g g' => minute_ok g' /\ injected g' = injected g) (minute_quad_gen q) (minute_quad_gen q').

Lemma gen_moved_ok I n d g b g' : gen_moved I n d t g b g' -> gen_ok I n d g' /\ injected g' = injected g.
Proof. intros [Hi Hx]. split; [|done]. destruct b; [destruct Hx as (_ & B & Hg & _); by exists B|apply Hx]. Qed.

Lemma handle_tick_ok q : quad_ok q -> wp (handle q config None t) (ticked q).
Proof using Ht Cok Eok.
  intros Hq. unfold handle. apply wp_bind. eapply wp_mono; [by apply move_windows_ok|]. intros [[q1 b1] b2] (F1 & Hs1 & Hm1 & _). cbn.
  split_and!; [done|..]; (eapply lifted_impl; [|done]); intros g g'; [|by apply gen_moved_ok].
  unfold sec_moved. destruct (vtap_flow_1s_enabled config); [by apply gen_moved_ok|]. naive_solver.
Qed.

End report.

(** ** Rounds *)

(** The generator took the reports in their order, except for late ones, which
    it counted unless timeouts were counted with them. *)
Definition account (rs : list Report) (ticks : bool) (g : SubQuadGen) : Prop :=
  injected g `sublist_of` rs
  /\ (ticks = false -> dropped g = wrap 64 (Z.of_nat (length rs) - Z.of_nat (length (injected g)))).

Lemma account_took rs tk r g g' : account rs tk g -> took r g g' -> account (rs ++ [r]) tk g'.
Proof.
  intros [Hs Hd] [[Hi Hd']|[Hi Hd']]; unfold account; rewrite Hi.
  - split; [by apply sublist_app|]. intros Htk. rewrite Hd', Hd by done. rewrite !length_app. cbn. f_equal. lia.
  - split; [by apply sublist_inserts_r|]. intros Htk. rewrite Hd', Hd by done. unfold wadd. rewrite length_app. cbn.
    unfold wrap. rewrite Zplus_mod_idemp_l. f_equal. lia.
Qed.

Lemma account_tick rs tk g g' : account rs tk g -> injected g' = injected g -> account rs true g'.
Proof. intros [Hs _] Hi. unfold account; rewrite Hi. done. Qed.

Record run_ok (secs mins : list Report) (tk : bool) (q : QuadrupleGenerator) : Prop := {
  ro_quad : quad_ok q;
  ro_second : from_option (account secs tk) True (second_quad_gen q);
  ro_minute : from_option (account mins tk) True (minute_quad_gen q);
}.

(** The reports of a batch for each generator. *)
Definition sec_reports (config : CollectorConfig) (fs : list TaggedFlow) : list Report :=
  if enabled config && vtap_flow_1s_enabled config then (fun f => sec_report config (flow_stat_time (flow f)) f) <$> fs else [].
Definition min_reports (config : CollectorConfig) (fs : list TaggedFlow) : list Report :=
  if enabled config then (fun f => min_report config (flow_stat_time (flow f)) f) <$> fs else [].

Lemma run_handled secs mins tk config t f q q' : run_ok secs mins tk q -> handled config t f q q' ->
  run_ok (secs ++ if vtap_flow_1s_enabled config then [sec_report config t f] else []) (mins ++ [min_report config t f]) tk q'.
Proof.
  intros [Hq Hs Hm] Hh. split; [by eapply handled_ok|..]; destruct Hh as (_ & H1 & H2).
  - destruct (second_quad_gen q), (second_quad_gen q'); try done. cbn in *. destruct H1 as [_ H1].
    destruct (vtap_flow_1s_enabled config); [by eapply account_took|]. rewrite app_nil_r. destruct H1 as [Hi Hd]. unfold account in *. by rewrite Hi, Hd.
  - destruct (minute_quad_gen q), (minute_quad_gen q'); try done. cbn in *. destruct H2. by eapply account_took.
Qed.

Lemma send_one {T} (o : OverwriteQueue T) l x : models o l -> exists o' r l', send o x = Ret (o', r) /\ models o' l'.
Proof.
  intros Hm. unfold send. destruct (terminated o) eqn:Ht.
  - unfold raw_send. rewrite Ht. cbn. by eexists _, _, _.
  - destruct (raw_send_models o l [x] Hm Ht) as (o' & Hr & _ & _ & Hm'); [|rewrite Hr; cbn; by eexists _, _, _].
    destruct Hm as (N & st & h & rc & Hi & _). pose proof (inv_size _ _ _ Hi) as Hs. destruct (inv_pow _ _ _ Hi) as [k Hk]. cbn in Hs. cbn.
    pose proof (Nat.pow_nonzero 2 k). lia.
Qed.

Lemma on_flow_ok secs mins tk config f q batch : run_ok secs mins tk q -> fits 64 (flow_stat_time (flow f)) ->
  (batch <> [] -> isSome (output_flow q) = true) -> wp (on_flow config (q, batch) f) (fun '(q', batch') =>
    run_ok (secs ++ sec_reports config [f]) (mins ++ min_reports config [f]) tk q' /\ (batch' <> [] -> isSome (output_flow q') = true)).
Proof.
  intros Hq Ht Hb. unfold on_flow. set (batch' := if isSome (output_flow q) then batch ++ [f] else batch). apply wp_bind.
  assert (batch' <> [] -> isSome (output_flow q) = true) as Hb' by (unfold batch'; destruct (isSome (output_flow q)); auto).
  eapply (wp_mono _ (fun q1 => run_ok (secs ++ sec_reports config [f]) (mins ++ min_reports config [f]) tk q1 /\ output_flow q1 = output_flow q)).
  - unfold sec_reports, min_reports. destruct (enabled config) eqn:He; [|cbn; rewrite !app_nil_r; done].
    eapply wp_mono; [by apply handle_ok, Hq|]. intros q1 Hh. split; [|apply Hh]. cbn [andb].
    pose proof (run_handled _ _ _ _ _ _ _ _ Hq Hh) as Hr. by destruct (vtap_flow_1s_enabled config).
  - intros q1 [Hr Ho]. destruct (get_toa_info f) as [toa|]; [|cbn; by rewrite Ho]. case_goal; [|cbn; by rewrite Ho]. apply wp_bind.
    destruct (qk_toa _ (ro_quad _ _ _ _ Hr)) as [l Hl]. destruct (send_one (toa_info_output q1) l toa Hl) as (o' & r & l' & -> & Hl'). cbn.
    rewrite Ho. split; [|done]. destruct Hr as [[] ? ?]. split; [split; [done..|by exists l']|done..].
Qed.

Lemma batch_ok config fs : Forall (fun f => fits 64 (flow_stat_time (flow f))) fs -> forall secs mins tk q batch, run_ok secs mins tk q ->
  (batch <> [] -> isSome (output_flow q) = true) -> wp (rfold (on_flow config) fs (q, batch)) (fun '(q', batch') =>
    run_ok (secs ++ sec_reports config fs) (mins ++ min_reports config fs) tk q' /\ (batch' <> [] -> isSome (output_flow q') = true)).
Proof.
  induction 1 as [|f fs Hf _ IH]; intros secs mins tk q batch Hq Hb; cbn [rfold].
  { unfold sec_reports, min_reports. cbn. destruct (enabled config), (vtap_flow_1s_enabled config); cbn; by rewrite !app_nil_r. }
  pose proof (on_flow_ok secs mins tk config f q batch Hq Hf Hb) as Hw. destruct (on_flow config (q, batch) f) as [[q1 b1]|]; [|done].
  destruct Hw as [Hq1 Hb1]. eapply wp_mono; [by apply IH|]. intros [q' b'] [Hr Hb']. split; [|done].
  unfold sec_reports, min_reports in *. destruct (enabled config), (vtap_flow_1s_enabled config); cbn [andb] in *; rewrite <- ?app_assoc in Hr; done.
Qed.

Lemma calc_run secs mins tk q : run_ok secs mins tk q -> run_ok secs mins tk
  (q <| second_quad_gen := calc_stash_counters <$> second_quad_gen q |> <| minute_quad_gen := calc_stash_counters <$> minute_quad_gen q |>).
Proof.
  intros [[Hs Hm Hf Ht] As Am]. split; [split; cbn; [| |done|done]|..]; cbn;
    destruct (second_quad_gen q), (minute_quad_gen q); cbn in *; try done; by apply gen_counter.
Qed.

(** The two kinds of rounds that continue. *)
Lemma round_flows_ok config fs secs mins tk q : Forall (fun f => fits 64 (flow_stat_time (flow f))) fs -> run_ok secs mins tk q ->
  wp (handler_round q config (Ok fs)) (fun '(q', b) => b = true /\ run_ok (secs ++ sec_reports config fs) (mins ++ min_reports config fs) tk q').
Proof.
  intros Hf Hq. unfold handler_round. apply wp_bind. eapply wp_mono; [by apply (batch_ok config fs Hf secs mins tk q [] Hq)|].
  intros [q1 batch] [Hr Hb]. apply wp_bind. eapply (wp_mono _ (run_ok (secs ++ sec_reports config fs) (mins ++ min_reports config fs) tk)).
  - destruct batch as [|f batch]; [done|]. specialize (Hb ltac:(done)). pose proof (qk_flow _ (ro_quad _ _ _ _ Hr)) as Ho.
    destruct (output_flow q1) as [o|]; [|done]. destruct Ho as [l Hl].
    destruct (send_all_outcome o l (f :: batch) Hl) as (o' & l' & Hl' & [He|[e He]]); rewrite He; cbn; destruct Hr as [[] ? ?];
      (split; [split; [done|done|by exists l'|done]|done..]).
  - intros q2 Hq2. cbn. split; [done|]. by apply calc_run.
Qed.

Lemma round_tick_ok config secs mins tk q : run_ok secs mins tk q ->
  wp (handler_round q config (Err Timeout)) (fun '(q', b) => b = true /\ run_ok secs mins true q').
Proof.
  intros [Hq As Am]. unfold handler_round. apply wp_bind. eapply wp_mono; [apply (handle_tick_ok config (clock (reads q)) (clock_fits _)); by destruct Hq|].
  intros q' ((F1 & F2 & F3) & H1 & H2). cbn. split; [done|]. destruct Hq as [Hs Hm Hf Ht]. cbn in *.
  split; [split; [| |by rewrite F1|by rewrite F2]|..].
  - destruct (second_quad_gen q), (second_quad_gen q'); try done. apply H1.
  - destruct (minute_quad_gen q), (minute_quad_gen q'); try done. apply H2.
  - destruct (second_quad_gen q), (second_quad_gen q'); try done. by eapply account_tick; [|apply H1].
  - destruct (minute_quad_gen q), (minute_quad_gen q'); try done. by eapply account_tick; [|apply H2].
Qed.

(** ** The whole run *)

Abbreviation input := (CollectorConfig * result (list TaggedFlow) (Error TaggedFlow))%type.

(** The reports the thread receives, up to the end of its input. *)
Fixpoint reports_of (batch : CollectorConfig -> list TaggedFlow -> list Report) (inputs : list input) : list Report :=
  match inputs with
  | (c, Ok fs) :: inputs => batch c fs ++ reports_of batch inputs
  | (_, Err Timeout) :: inputs => reports_of batch inputs
  | _ => []
  end.

Fixpoint terminates (inputs : list input) : bool :=
  match inputs with
  | (_, Ok _) :: inputs | (_, Err Timeout) :: inputs => terminates inputs
  | (_, Err (Terminated _ _)) :: _ => true
  | _ => false
  end.

Fixpoint has_timeout (inputs : list input) : bool :=
  match inputs with
  | (_, Ok _) :: inputs => has_timeout inputs
  | (_, Err Timeout) :: _ => true
  | _ => false
  end.

(** Times are [u64], and [recv_all] never says that a batch is too large. *)
Definition inputs_ok (inputs : list input) : Prop :=
  Forall (fun i => match i.2 with Ok fs => Forall (fun f => fits 64 (flow_stat_time (flow f))) fs | Err (BatchTooLarge _) => False | _ => True end) inputs.

(** The flow that waits in the [j]-th slot. *)
Definition pending (g : SubQuadGen) (j : Z) (key : QgKey) : option FlowMeterWithFlow := stashs g !! Z.to_nat j ≫= fun st => stash_get st key.

(** What became of the reports [rs] in a generator: it took them in order except
    for late ones; what it handed over for each slot and key before the window is
    the merge of their reports, once; later ones wait in their slots, or have
    been handed over too when the thread has ended. *)
Definition outcome (I : Z) (rs : list Report) (ticks ended : bool) (g : SubQuadGen) : Prop :=
  account rs ticks g /\ exists B, forall σ key, let r := merged (group I σ key (injected g)) in
    records I σ key (erase <$> emitted g) = (if decide (σ < B) then option_list (erase <$> r) else [])
    /\ (B <= σ -> if ended then r = None else pending g (σ - B) key = r).

Lemma stage_open I n rs tk B g : 0 <= n -> stage I n B 0 g -> account rs tk g -> outcome I rs tk false g.
Proof.
  intros Hn Hg Ha. split; [done|]. exists B. intros σ key. split; [apply Hg|]. intros Hσ. unfold pending.
  pose proof (sg_len _ _ _ _ _ Hg) as Hl. destruct (stashs g !! Z.to_nat (σ - B)) as [st|] eqn:Hst; cbn.
  - rewrite (sg_stash _ _ _ _ _ Hg _ st key ltac:(lia) Hst). do 2 f_equal. lia.
  - apply lookup_ge_None in Hst. by rewrite (sg_after _ _ _ _ _ Hg) by lia.
Qed.

Lemma stage_ended I n rs tk B g : 0 <= n -> stage I n B (Z.to_nat n) g -> account rs tk g -> outcome I rs tk true g.
Proof.
  intros Hn Hg Ha. split; [done|]. exists B. intros σ key. split; [apply Hg|]. intros Hσ. by rewrite (sg_after _ _ _ _ _ Hg) by lia.
Qed.

Lemma gen_flushed I n d rs tk g h : 0 <= n -> gen_ok I n d g -> account rs tk g -> wp (flush_all_flow g h) (fun '(g', _) => outcome I rs tk true g').
Proof.
  intros Hn [B Hg] Ha. eapply wp_mono; [by eapply flush_all_flow_ok|]. intros [g' h'] [Hg' Hf]. eapply stage_ended; [done|done|].
  unfold frame in Hf. unfold account, dropped in *. injection Hf as -> _ _ _ _ _ ->. done.
Qed.

(** Both generators at the end of a run. *)
Definition outcomes (secs mins : list Report) (tk ended : bool) (q : QuadrupleGenerator) : Prop :=
  from_option (outcome 1 secs tk ended) True (second_quad_gen q) /\ from_option (outcome 60 mins tk ended) True (minute_quad_gen q).

Lemma run_outcomes secs mins tk q : 0 <= s -> run_ok secs mins tk q -> outcomes secs mins tk false q.
Proof.
  intros Hs0 [[Hs Hm _ _] As Am]. split; [destruct (second_quad_gen q) as [g|]|destruct (minute_quad_gen q) as [g|]]; try done; cbn in *.
  - destruct Hs as [B []]. by eapply stage_open.
  - destruct Hm as [B []]. by eapply (stage_open 60 2).
Qed.

Lemma round_end_ok config secs mins tk q a b : 0 <= s -> run_ok secs mins tk q ->
  wp (handler_round q config (Err (Terminated a b))) (fun '(q', c) => c = false /\ outcomes secs mins tk true q').
Proof.
  intros Hs0 [[Hs Hm _ _] As Am]. unfold handler_round, outcomes. apply wp_bind.
  eapply (wp_mono _ (fun q1 => from_option (outcome 1 secs tk true) True (second_quad_gen q1) /\ minute_quad_gen q1 = minute_quad_gen q)).
  - destruct (second_quad_gen q) as [g|] eqn:Hg; [|cbn; by rewrite Hg]. apply wp_bind. eapply wp_mono; [by apply (gen_flushed 1 s s secs tk)|].
    intros [g' h'] Ho. done.
  - intros q1 [H1 E1]. rewrite E1. apply wp_bind. eapply (wp_mono _ (fun q2 => outcomes secs mins tk true q2)); [|done]. unfold outcomes.
    destruct (minute_quad_gen q) as [g|]; [|cbn; by rewrite E1]. apply wp_bind. eapply wp_mono; [by apply (gen_flushed 60 2 m mins tk)|].
    intros [g' h'] Ho. done.
Qed.

Lemma routine_ok inputs : 0 <= s -> inputs_ok inputs -> forall secs mins tk q, run_ok secs mins tk q -> wp (handler_routine q inputs)
  (outcomes (secs ++ reports_of sec_reports inputs) (mins ++ reports_of min_reports inputs) (tk || has_timeout inputs) (terminates inputs)).
Proof.
  intros Hs0. induction 1 as [|[c r] inputs Hr Hin IH]; intros secs mins tk q Hq; cbn [handler_routine reports_of terminates].
  { rewrite !app_nil_r. cbn [has_timeout]. rewrite orb_false_r. by apply run_outcomes. }
  apply wp_bind. destruct r as [fs|[|a b|]]; cbn [has_timeout]; [..|done].
  - eapply wp_mono; [by eapply round_flows_ok|]. intros [q1 b] [-> Hq1]. rewrite !app_assoc. by apply IH.
  - eapply wp_mono; [by eapply round_tick_ok|]. intros [q1 b] [-> Hq1]. rewrite orb_true_r. by apply (IH _ _ true).
  - eapply wp_mono; [by eapply round_end_ok|]. intros [q1 c'] [-> Hq1]. rewrite !app_nil_r, orb_false_r. done.
Qed.

End thread.

(** ** A new thread *)

Lemma new_connections_ok n capacity : 0 <= capacity <= 2 ^ 62 -> wp (new_connections n capacity) (fun cs => length cs = n
  /\ Forall (fun c => tables_ok c /\ (forall key, entry c key = None) /\ forall U, Z.of_nat (base.size U) <= capacity -> within U c) cs).
Proof.
  intros Hc. induction n as [|n IH]; cbn [new_connections]; [done|]. apply wp_bind. eapply wp_mono; [by apply tables_new|]. intros c Hcc.
  apply wp_bind. eapply wp_mono; [exact IH|]. intros cs [Hl Hcs]. cbn. split; [lia|by constructor].
Qed.

Lemma stage_new I n B w o k c x : 0 <= n -> stage I n B 0 (Build_SubQuadGen o k w I n x (replicate (Z.to_nat n) QuadrupleStash_new) c [] []).
Proof.
  intros Hn. split; cbn.
  - rewrite length_replicate. lia.
  - intros. lia.
  - intros j st key _ Hj. apply lookup_replicate in Hj as [-> _]. by destruct key.
  - done.
  - intros. by case_decide.
  - constructor.
Qed.

Lemma SubQuadGen_new_ok I n d (Q : Z -> list Report -> list FlowMeterWithFlow -> list ConcurrentConnection -> Prop) B o l concurrent capacity :
  params_ok I n d -> 2 <= n -> 0 <= B -> I * B < 2 ^ 36 -> models o l -> 0 <= capacity <= 2 ^ 62 ->
  (forall cs, Forall (fun c => tables_ok c /\ (forall key, entry c key = None) /\ forall U, Z.of_nat (base.size U) <= capacity -> within U c) cs -> Q B [] [] cs) ->
  wp (SubQuadGen_new o (from_secs (I * B)) I n d concurrent capacity) (fun g => sub_ok I n d Q B g /\ injected g = [] /\ emitted g = [] /\ dropped g = 0
    /\ (connections g = None <-> concurrent = false)).
Proof.
  intros Hp Hn HB HIB Ho Hc HQ. unfold SubQuadGen_new. apply wp_bind.
  eapply (wp_mono _ (fun cs => from_option (fun cs => ring_ok n cs /\ Q B [] [] cs) True cs /\ (cs = None <-> concurrent = false))).
  - destruct concurrent; [|done]. pose proof (new_connections_ok (Z.to_nat n) capacity Hc) as Hw. destruct (new_connections _ _) as [cs|]; [|done].
    destruct Hw as [Hl Hcs]. cbn. split; [|done]. split; [split_and!; [lia|done|]|by apply HQ]. eapply Forall_impl; [exact Hcs|]. intros c (Ht & He & _).
    split; [done|]. intros key v Hv. rewrite He in Hv. done.
  - intros cs [Hcs Hnn]. cbn. split_and!; [|done..]. split; cbn; [done|done|done|apply stage_new; lia|by exists l|done].
Qed.

Lemma account_new g : injected g = [] -> dropped g = 0 -> account [] false g.
Proof. intros Hi Hd. unfold account. rewrite Hi, Hd. done. Qed.

Lemma wp_fmap {A B} (f : A -> B) (x : run A) (P : B -> Prop) : wp x (fun a => P (f a)) -> wp (f <$> x) P.
Proof. by destruct x. Qed.

(** The start of the windows, two minutes back. *)
Lemma window_start_ok t : fits 64 t -> from_secs 120 <= t -> exists k, 0 <= k /\ round_to_minute t - from_secs (2 * SECONDS_IN_MINUTE) = from_secs (60 * k)
  /\ from_secs (2 * SECONDS_IN_MINUTE) <= round_to_minute t /\ 60 * k < 2 ^ 35.
Proof.
  intros Ht Hge. pose proof (secs_bound t Ht) as Hb. assert (120 <= Timestamp.as_secs t) as Hs.
  { unfold Timestamp.as_secs, from_secs in *. apply Z.div_le_lower_bound; [done|lia]. }
  unfold round_to_minute, SECONDS_IN_MINUTE. set (T := Timestamp.as_secs t) in *. pose proof (Z.mul_div_le T 60 ltac:(lia)).
  assert (2 <= T / 60) by (apply Z.div_le_lower_bound; lia). exists (T / 60 - 2). split_and!; [lia|secs|secs|lia].
Qed.

Lemma reset_delay_bounds x : 60 <= reset_delay_seconds x < 120.
Proof. unfold reset_delay_seconds, SECONDS_IN_MINUTE. repeat case_goal; lia. Qed.

Lemma QuadrupleGenerator_new_ok conf so mo toa psync fo capacity second minute s md hs ls lm_ lt : models so ls -> models mo lm_ -> models toa lt ->
  from_option (fun o => exists l, models o l) True fo -> from_secs 120 <= clock 0 -> 0 <= capacity <= 2 ^ 62 -> 2 <= s < 2 ^ 32 -> 0 < hs ->
  wp (QuadrupleGenerator_new conf so mo toa psync fo capacity second minute s md hs) (run_ok s (reset_delay_seconds md) [] [] false).
Proof.
  intros Hso Hmo Htoa Hfo Hck Hcap Hs Hh. destruct (window_start_ok (clock 0) (clock_fits 0) Hck) as (k & Hk & Hw & Hle & Hkb).
  pose proof (reset_delay_bounds md) as Hmd. unfold QuadrupleGenerator_new. rewrite (proj2 (Z.leb_le _ _)) by done. cbn [rassert mbind run_bind]. rewrite Hw.
  apply wp_bind. eapply (wp_mono _ (fun o => from_option (fun g => second_ok s g /\ account [] false g) True o)).
  { destruct second; [|done]. replace (60 * k) with (1 * (60 * k)) by lia.
    apply wp_fmap. eapply wp_mono; [apply (SubQuadGen_new_ok 1 s s any_tables (60 * k) so ls); (unfold params_ok; lia) || done|].
    intros g (Hg & Hi & _ & Hd & _). split; [by exists (60 * k)|by apply account_new]. }
  intros o1 H1. apply wp_bind. eapply (wp_mono _ (fun o => from_option (fun g => minute_ok (reset_delay_seconds md) g /\ account [] false g) True o)).
  { destruct minute; [|done].
    apply wp_fmap. eapply wp_mono; [apply (SubQuadGen_new_ok 60 2 (reset_delay_seconds md) any_tables k mo lm_); (unfold params_ok; lia) || done|].
    intros g (Hg & Hi & _ & Hd & _). split; [by exists k|by apply account_new]. }
  intros o2 H2. apply wp_bind. eapply (wp_mono _ (fun _ => True)).
  { unfold PossibleHost_new, Lru.non_zero. rewrite (proj2 (Z.ltb_lt _ _)) by lia. by destruct (negb _). }
  intros h _. cbn. split; [split; cbn; [destruct o1; naive_solver|destruct o2; naive_solver|done|by exists lt]|..]; cbn; [destruct o1; naive_solver|destruct o2; naive_solver].
Qed.


End runs.
