(* ===== verification/QuadTraffic.v ===== *)
(** * Traffic of the quadruple generator (collector/quadruple_generator.rs)

    What is counted in the flows that are handed over is what the reports of the
    flows say: grouping by slot and key loses nothing and counts nothing twice. *)

From stdpp Require Import gmap.
From S2P Require Import Prelude Timestamp Bytes Consts TunnelType MetaPacket Flow FlowMerge OverwriteQueue QueueSpec FlowLogSender FlowAggrTraces.
From S2P Require Import Meters QuadConn QuadConnSpec QuadTypes QuadGen QuadGenSpec QuadWindow QuadTraces.

(** ** Sums by class *)

Section classes.
Context {A K : Type} `{!EqDecision K} (κ : A -> K) (μ : A -> Z).

Definition of_class (k : K) (l : list A) : list A := filter (fun a => κ a = k) l.

Lemma class_absent k (ks : list K) a l : k ∉ ks -> κ a = k -> sumZ (fun k => sumZ μ (of_class k (a :: l))) ks = sumZ (fun k => sumZ μ (of_class k l)) ks.
Proof.
  intros Hk Ha. induction ks as [|k' ks IH]; [done|]. apply not_elem_of_cons in Hk as [Hk Hks]. rewrite !sumZ_cons, IH by done.
  unfold of_class at 1. by rewrite filter_cons, decide_False by congruence.
Qed.

Lemma sum_classes ks l : NoDup ks -> Forall (fun a => κ a ∈ ks) l -> sumZ μ l = sumZ (fun k => sumZ μ (of_class k l)) ks.
Proof.
  intros Hks. induction 1 as [|a l Ha _ IH]; [by induction ks; [|inversion_clear Hks; rewrite sumZ_cons; auto]|].
  rewrite sumZ_cons, IH. clear IH. induction Hks as [|k ks Hk _ IH]; [by apply elem_of_nil in Ha|].
  rewrite !sumZ_cons. destruct (decide (κ a = k)) as [Hak|Hak].
  - rewrite (class_absent k ks a l Hk Hak). unfold of_class at 3. rewrite filter_cons, decide_True, sumZ_cons by done. unfold of_class. lia.
  - apply elem_of_cons in Ha as [?|Ha]; [done|]. unfold of_class at 3. rewrite filter_cons, decide_False by done. fold (of_class k l). specialize (IH Ha). lia.
Qed.

End classes.

Lemma sum_cong {K} (f g : K -> Z) ks : (forall k, cong64 (f k) (g k)) -> cong64 (sumZ f ks) (sumZ g ks).
Proof. intros Hk. induction ks as [|k ks IH]; [done|]. rewrite !sumZ_cons. by apply cong64_add. Qed.

(** ** What is counted *)

(** The counters of [Traffic] and what they count in a report. *)
Definition volumes : list ((Traffic.t -> Z) * (TaggedFlow -> Z)) := [
  (Traffic.packet_tx, fun f => packet_count (flow_metrics_src (flow f)));
  (Traffic.packet_rx, fun f => packet_count (flow_metrics_dst (flow f)));
  (Traffic.byte_tx, fun f => byte_count (flow_metrics_src (flow f)));
  (Traffic.byte_rx, fun f => byte_count (flow_metrics_dst (flow f)));
  (Traffic.l3_byte_tx, fun f => l3_byte_count (flow_metrics_src (flow f)));
  (Traffic.l3_byte_rx, fun f => l3_byte_count (flow_metrics_dst (flow f)));
  (Traffic.l4_byte_tx, fun f => l4_byte_count (flow_metrics_src (flow f)));
  (Traffic.l4_byte_rx, fun f => l4_byte_count (flow_metrics_dst (flow f)));
  (Traffic.new_flow, fun f => b2z (is_new_flow (flow f)));
  (Traffic.closed_flow, fun f => b2z (bool_decide (close_type (flow f) <> ForcedReport)))].

Section volume.
Context (v : (Traffic.t -> Z) * (TaggedFlow -> Z)) (Hv : v ∈ volumes).

Definition counted_in (f : FlowMeterWithFlow) : Z := v.1 (FlowMeter.traffic (flow_meter f)).

(** Only flows from packets and from sFlow and NetFlow count. *)
Definition reported_in (r : Report) : Z := if is_metered (rp_flow r) then v.2 (rp_flow r) else 0.

Definition has_meter (r : Report) : Prop := exists config, rp_meter r = generate_meter config (rp_flow r).

Ltac each_volume := unfold volumes in Hv; repeat (apply elem_of_cons in Hv as [->|Hv]); [..|by apply elem_of_nil in Hv].

Lemma volume_merge a b : cong64 (v.1 (Traffic.sequential_merge a b)) (v.1 a + v.1 b).
Proof using Hv. each_volume; apply wadd_cong. Qed.

Lemma volume_meter config f : v.1 (FlowMeter.traffic (generate_meter config f)) = if is_metered f then v.2 f else 0.
Proof using Hv.
  assert (v.1 (FlowMeter.traffic (if is_metered f then l4_meter f else FlowMeter.default)) = if is_metered f then v.2 f else 0) as Hm.
  { destruct (is_metered f); [|by each_volume]. unfold l4_meter. destruct (flow_perf_stats f); repeat case_goal; by each_volume. }
  unfold generate_meter. destruct (flow_perf_stats f) as [s|]; [|done]. repeat case_goal; try done; rewrite <- Hm; by each_volume.
Qed.

Lemma volume_merged rs f : Forall has_meter rs -> merged rs = Some f -> cong64 (counted_in f) (sumZ reported_in rs).
Proof using Hv.
  revert f. induction rs as [|r rs IH] using rev_ind; intros f Hr Hm; [done|]. apply Forall_app in Hr as [Hr [[c Hc] _]%Forall_cons_1].
  rewrite merged_snoc in Hm. unfold merge_report in Hm. injection Hm as <-. rewrite sumZ_app. unfold reported_in at 2, sumZ at 2. cbn. rewrite Z.add_0_r.
  pose proof (volume_meter c (rp_flow r)) as Hvm. rewrite <- Hc in Hvm. destruct (merged rs) as [a|] eqn:Ha.
  - unfold FlowMeterWithFlow_merge. destruct (is_metered (rp_flow r)).
    + unfold counted_in. cbn [flow_meter update FlowMeterWithFlow_fields FlowMeter.sequential_merge FlowMeter.traffic]. rewrite volume_merge, Hvm.
      apply cong64_add; [by apply IH|done].
    + rewrite Z.add_0_r. exact (IH a Hr eq_refl).
  - destruct rs as [|r' rs] using rev_ind; [|by rewrite merged_snoc in Ha]. unfold counted_in. cbn [flow_meter new_acc_flow]. by rewrite Hvm.
Qed.

End volume.

(** ** Whole runs *)

Section total.
Context {E : QuadEnv} {Eok : QuadEnvOk E} {C : LruMap bytes QuadrupleConnections} {Cok : LruMapOk C} {H : LruMap Z bool} {D : DecapEnum}.

Lemma reports_have_meters batch inputs : (forall config fs, Forall has_meter (batch config fs)) -> Forall has_meter (reports_of batch inputs).
Proof.
  intros Hb. induction inputs as [|[c r] inputs IH]; [constructor|]. destruct r as [fs|[|a b|]]; cbn [reports_of]; try done. apply Forall_app. by split.
Qed.

Lemma sec_meters config fs : Forall has_meter (sec_reports config fs).
Proof. unfold sec_reports. case_goal; [|constructor]. apply Forall_fmap, Forall_true. intros f. by exists config. Qed.

Lemma min_meters config fs : Forall has_meter (min_reports config fs).
Proof. unfold min_reports. case_goal; [|constructor]. apply Forall_fmap, Forall_true. intros f. by exists config. Qed.

(** The slot and the key of a flow and of a report. *)
Definition class_of (I : Z) (f : FlowMeterWithFlow) : Z * QgKey := (slot_of I (fm_time f), fm_key f).
Definition report_class (I : Z) (r : Report) : Z * QgKey := (slot_of I (rp_time r), rp_key r).

Lemma records_class I c fs : of_class (class_of I) c fs = records I c.1 c.2 fs.
Proof. unfold of_class, records, class_of. apply list_filter_iff. intros f. destruct c. cbn. naive_solver. Qed.

Lemma group_class I c rs : of_class (report_class I) c rs = group I c.1 c.2 rs.
Proof. unfold of_class, group, report_class. apply list_filter_iff. intros r. destruct c. cbn. naive_solver. Qed.

Lemma counted_erase v fs : sumZ (counted_in v) fs = sumZ (counted_in v) (erase <$> fs).
Proof. induction fs as [|f fs IH]; [done|]. cbn [fmap list_fmap]. rewrite !sumZ_cons, IH. done. Qed.

Lemma outcome_total v I rs tk g : v ∈ volumes -> Forall has_meter rs -> outcome I rs tk true g ->
  cong64 (sumZ (counted_in v) (emitted g)) (sumZ (reported_in v) (injected g)).
Proof.
  intros Hv Hrs [[Hsub _] [B Hout]]. assert (Forall has_meter (injected g)) as Hinj by (apply Forall_forall; intros r Hr; rewrite Forall_forall in Hrs; apply Hrs; by eapply elem_of_sublist).
  rewrite (counted_erase v (emitted g)).
  set (ks := remove_dups ((class_of I <$> (erase <$> emitted g)) ++ (report_class I <$> injected g))).
  rewrite (sum_classes (class_of I) _ ks), (sum_classes (report_class I) _ ks (injected g)).
  - apply sum_cong. intros c. rewrite records_class, group_class. destruct (Hout c.1 c.2) as [-> Hlate].
    destruct (merged (group I c.1 c.2 (injected g))) as [f|] eqn:Hm.
    + case_decide; [|discriminate Hlate; lia]. cbn. rewrite sumZ_cons. change (sumZ _ []) with 0. rewrite Z.add_0_r.
      apply (volume_merged v Hv _ f); [|done]. apply Forall_forall. intros r Hr. apply list_elem_of_filter in Hr as [_ Hr]. by eapply (proj1 (Forall_forall _ _) Hinj).
    + destruct (group I c.1 c.2 (injected g)) as [|r rs'] using rev_ind; [by case_decide|]. by rewrite merged_snoc in Hm.
  - apply NoDup_remove_dups.
  - apply Forall_forall. intros r Hr. apply elem_of_remove_dups, elem_of_app. right. by apply list_elem_of_fmap_2.
  - apply NoDup_remove_dups.
  - apply Forall_forall. intros f Hf. apply elem_of_remove_dups, elem_of_app. left. by apply list_elem_of_fmap_2.
Qed.

(** C22: Traffic is conserved.  When the input of the quadruple generator ends, the
    packets, the bytes of each layer, and the new and closed flows in all flows
    that each of its generators handed over are those in the reports it took,
    modulo 2^64; data of eBPF and OpenTelemetry counts for nothing. *)
Theorem quad_traffic_conserved conf so mo toa psync fo capacity second minute s md hs ls lm_ lt inputs :
  models so ls -> models mo lm_ -> models toa lt -> from_option (fun o => exists l, models o l) True fo ->
  from_secs 120 <= clock 0 -> 0 <= capacity <= 2 ^ 62 -> 2 <= s < 2 ^ 32 -> 0 < hs -> inputs_ok inputs -> terminates inputs = true ->
  exists q, QuadrupleGenerator_new conf so mo toa psync fo capacity second minute s md hs = Ret q /\ exists q', handler_routine q inputs = Ret q'
    /\ forall g v, second_quad_gen q' = Some g \/ minute_quad_gen q' = Some g -> v ∈ volumes ->
         cong64 (sumZ (counted_in v) (emitted g)) (sumZ (reported_in v) (injected g)).
Proof.
  intros Hso Hmo Htoa Hfo Hck Hcap Hs Hh Hin Hend.
  destruct (proj1 (wp_exists _ _) (QuadrupleGenerator_new_ok conf so mo toa psync fo capacity second minute s md hs ls lm_ lt Hso Hmo Htoa Hfo Hck Hcap Hs Hh))
    as (q & Hq & Hr). exists q. split; [done|].
  destruct (proj1 (wp_exists _ _) (routine_ok s (reset_delay_seconds md) inputs ltac:(lia) Hin [] [] false q Hr)) as (q' & Hq' & H1 & H2).
  exists q'. split; [done|]. rewrite Hend in H1, H2. intros g v [Hg|Hg] Hv; rewrite Hg in *.
  - eapply outcome_total; [done| |exact H1]. apply reports_have_meters, sec_meters.
  - eapply outcome_total; [done| |exact H2]. apply reports_have_meters, min_meters.
Qed.

End total.
