(* ===== verification/QuadTimely.v ===== *)
(** * Reports in time (collector/quadruple_generator.rs)

    A generator that is fed reports and timeouts keeps every report that is not
    older than its delay, and has sent a slot as soon as the delay is over. *)

From stdpp Require Import gmap.
From S2P Require Import Prelude Timestamp Bytes Consts TunnelType MetaPacket Flow FlowMerge OverwriteQueue QueueSpec FlowLogSender.
From S2P Require Import Meters QuadConn QuadConnSpec QuadTypes QuadGen QuadGenSpec QuadWindow QuadTraces.

Section timely.
Context {E : QuadEnv} {Eok : QuadEnvOk E} {C : LruMap bytes QuadrupleConnections} {Cok : LruMapOk C} {H : LruMap Z bool} {D : DecapEnum}.
Context (I n d : Z).

(** A report, or a timeout; [ts] is the reading of the clock. *)
Inductive event := Tick (ts t : Z) | Rep (ts : Z) (r : Report).

Definition ev_clock (e : event) : Z := match e with Tick ts _ => ts | Rep ts _ => ts end.
Definition ev_time (e : event) : Z := match e with Tick _ t => t | Rep _ r => rp_time r end.
Definition ev_secs (e : event) : Z := Timestamp.as_secs (ev_time e).

Definition reports (events : list event) : list Report := omap (fun e => match e with Tick _ _ => None | Rep _ r => Some r end) events.

(** What [handle] does to one generator. *)
Definition feed (a : SubQuadGen * option PossibleHost) (e : event) : run (SubQuadGen * option PossibleHost) :=
  let '(g, h) := a in
  '(g, h, inside) ← move_window g (ev_clock e) (ev_time e) h;
  match e with
  | Tick _ _ => Ret (g, h)
  | Rep _ r =>
      if inside : bool then g ← inject_flow g (rp_flow r) (rp_meter r) (rp_ids r) (rp_time r) (rp_key r); Ret (g, h) else Ret (g, h)
  end.

(** The latest of the times, in seconds. *)
Definition latest (last : Z) (events : list event) : Z := foldl (fun last e => Z.max last (ev_secs e)) last events.

(** No report is more than [J] seconds older than all events before it, or before second [T]. *)
Fixpoint timely (T J last : Z) (events : list event) : Prop :=
  match events with
  | [] => True
  | e :: events => fits 64 (ev_time e) /\ match e with Tick _ _ => True | Rep _ r => T <= ev_secs e /\ last - J <= ev_secs e end
      /\ timely T J (Z.max last (ev_secs e)) events
  end.

(** The window after events up to second [last]. *)
Definition window_at (B0 last B : Z) : Prop := I * B <= Z.max (I * B0) (last - (d - I)) /\ last < I * B + d.

Lemma moved_at B0 last B T : params_ok I n d -> window_at B0 last B -> I * B <= T -> window_at B0 (Z.max last T) (moved I d B T).
Proof.
  intros Hp [H1 H2] HT. destruct (moved_window I n d B T Hp HT) as (HB & Hlo & Hhi). destruct Hp as (HI & Hd & _). split; [|nia].
  unfold moved in *. case_goal; [|lia]. pose proof (Z.mul_div_le (T - I * B - d) I HI). lia.
Qed.

Lemma secs_before B t : t < from_secs (I * B) -> Timestamp.as_secs t < I * B.
Proof. unfold Timestamp.as_secs, from_secs. intros Ht. apply Z.div_lt_upper_bound; [done|lia]. Qed.

Lemma secs_from B t : from_secs (I * B) <= t -> I * B <= Timestamp.as_secs t.
Proof. unfold Timestamp.as_secs, from_secs. intros Ht. apply Z.div_le_lower_bound; [done|lia]. Qed.

Record fed (B0 last : Z) (rs : list Report) (g : SubQuadGen) (B : Z) : Prop := {
  fd_ok : sub_ok I n d any_tables B g;
  fd_window : window_at B0 last B;
  fd_injected : injected g = rs;
}.

Lemma feed_timely B0 e last rs B g h : fed B0 last rs g B -> fits 64 (ev_time e) ->
  match e with Tick _ _ => True | Rep _ r => I * B0 <= ev_secs e /\ last - (d - I) <= ev_secs e end ->
  wp (feed (g, h) e) (fun '(g', _) => exists B', fed B0 (Z.max last (ev_secs e)) (rs ++ reports [e]) g' B').
Proof using Cok Eok.
  intros [Hg Hw Hi] Ht He. unfold feed. apply wp_bind.
  eapply wp_mono; [by apply (move_window_ok I n d any_tables (fun _ _ => True)) with (B := B)|]. intros [[g1 h1] [|]].
  - intros (Hlo & Hg1 & Hi1 & _). pose proof (secs_from B _ Hlo) as Hs. pose proof (moved_at B0 last B _ (so_params _ _ _ _ _ _ Hg) Hw Hs) as Hw'.
    destruct (moved_window I n d B _ (so_params _ _ _ _ _ _ Hg) Hs) as (_ & Hm1 & Hm2).
    destruct e as [ts t|ts r]; cbn [ev_time] in *; [exists (moved I d B (Timestamp.as_secs t)); split; [done|done|by rewrite Hi1, Hi, app_nil_r]|].
    apply wp_bind. eapply wp_mono; [apply (inject_flow_ok I n d any_tables (moved I d B (Timestamp.as_secs (rp_time r))) g1); [done|done|done| |lia]|].
    + unfold Timestamp.as_secs, from_secs in *. pose proof (Z.mul_div_le (rp_time r) Timestamp.NANOS_IN_SECOND ltac:(done)).
      change Timestamp.NANOS_IN_SECOND with 1000000000 in *. lia.
    + intros g2 (Hg2 & Hi2 & _). exists (moved I d B (Timestamp.as_secs (rp_time r))). split; [done|done|]. rewrite Hi2, Hi1, Hi. by destruct r.
  - intros (Hlo & Hg1 & Hi1 & _). apply secs_before in Hlo. fold (ev_secs e) in Hlo. destruct Hw as [Hw1 Hw2].
    destruct (so_params _ _ _ _ _ _ Hg) as (HI & Hd & _).
    destruct e as [ts t|ts r]; [|lia]. exists B. split; [done|split; lia|by rewrite Hi1, Hi, app_nil_r].
Qed.

Lemma feed_all_timely B0 events : forall last rs B g h, fed B0 last rs g B -> timely (I * B0) (d - I) last events ->
  wp (rfold feed events (g, h)) (fun '(g', _) => exists B', fed B0 (latest last events) (rs ++ reports events) g' B').
Proof using Cok Eok.
  induction events as [|e events IH]; intros last rs B g h Hf Ht; cbn [rfold]; [exists B; by rewrite app_nil_r|].
  destruct Ht as (Hfit & He & Ht). pose proof (feed_timely B0 e last rs B g h Hf Hfit He) as Hw. destruct (feed (g, h) e) as [[g1 h1]|]; [|done].
  destruct Hw as [B1 Hf1]. eapply wp_mono; [by eapply (IH _ _ B1 g1 h1)|]. intros [g' h'] [B' Hf']. exists B'. rewrite <- (assoc_L app) in Hf'.
  by destruct e.
Qed.

(** C23: No report in time is lost, and slots are sent in time.  A generator of [n]
    slots of [I] seconds and a delay of [d] seconds is fed reports and timeouts,
    where no report is more than [d - I] seconds older than what came before.
    It never panics and takes every report.  A slot whose delay is over has been
    sent: for each key exactly the merge of its reports, once. *)
Theorem timely_reports_sent o l B0 concurrent capacity events h :
  models o l -> params_ok I n d -> 2 <= n -> 0 <= B0 -> I * B0 < 2 ^ 36 -> 0 <= capacity <= 2 ^ 62 -> timely (I * B0) (d - I) (I * B0) events ->
  exists g g' h', SubQuadGen_new o (from_secs (I * B0)) I n d concurrent capacity = Ret g /\ rfold feed events (g, h) = Ret (g', h')
    /\ injected g' = reports events
    /\ forall σ key, I * σ + d <= latest (I * B0) events ->
         records I σ key (erase <$> emitted g') = option_list (erase <$> merged (group I σ key (reports events))).
Proof using Cok Eok.
  intros Ho Hp Hn HB HIB Hc Ht. pose proof Hp as (HI & Hd & _).
  destruct (proj1 (wp_exists _ _) (SubQuadGen_new_ok I n d any_tables B0 o l concurrent capacity Hp Hn HB HIB Ho Hc ltac:(done))) as (g & Hg & Hok & Hi & _).
  exists g. destruct (proj1 (wp_exists _ _) (feed_all_timely B0 events (I * B0) [] B0 g h ltac:(split; [done|split; lia|done]) Ht)) as ([g' h'] & Hf & B & [Hok' [_ Hl] Hinj]).
  exists g', h'. split_and!; [done|done|done|]. intros σ key Hσ. rewrite (sg_emitted _ _ _ _ _ (so_stage _ _ _ _ _ _ Hok')), Hinj.
  by rewrite decide_True by nia.
Qed.

End timely.
