(* ===== verification/QuadConcurrent.v ===== *)
(** * Concurrent connections (collector/quadruple_generator.rs)

    The load that is filled in when a slot is sent is the number of connections
    of the key that existed in the slot.  A key is followed through the tables:
    what its entry says in each slot is a function of the reports of the key. *)

From stdpp Require Import gmap.
From S2P Require Import Prelude Timestamp Bytes Consts TunnelType MetaPacket Flow FlowMerge OverwriteQueue QueueSpec FlowLogSender.
From S2P Require Import Meters QuadConn QuadConnSpec QuadTypes QuadGen QuadGenSpec QuadWindow QuadTraces QuadTimely.

Section concurrent.
Context {E : QuadEnv} {Eok : QuadEnvOk E} {C : LruMap bytes QuadrupleConnections} {Cok : LruMapOk C} {H : LruMap Z bool} {D : DecapEnum}.
Context (I n d : Z) (k : QgKey).

(** ** The load of a key *)

Definition with_key (fs : list FlowMeterWithFlow) : list FlowMeterWithFlow := filter (fun f => fm_key f = k) fs.

Definition fm_load (f : FlowMeterWithFlow) : Z := FlowLoad.load (FlowMeter.flow_load (flow_meter f)).

Definition fm_is_tcp_or_udp (f : FlowMeterWithFlow) : bool := is_tcp_or_udp (fk_proto (mf_flow_key (fm_flow f))).

Lemma set_connection_flow_key c h f : tables_ok c -> fits 64 (fm_time f) -> exists c' h' f',
  set_connection_flow (Some c, h) f = ((Some c', h'), f') /\ tables_ok c' /\ (forall U, within U c -> within U c')
  /\ fm_key f' = fm_key f /\ fm_time f' = fm_time f
  /\ (fm_key f <> k -> entry c' k = entry c k)
  /\ (fm_key f = k -> fm_is_tcp_or_udp f = true -> entry c' k = (fun v => v <| qc_time := fm_time f |>) <$> entry c k /\ fm_load f' = load_of (entry c k)).
Proof.
  intros Hc Ht. unfold set_connection_flow, fm_is_tcp_or_udp. destruct (check_active_host _ h _ _) as [h1 a0]. destruct (check_active_host _ h1 _ _) as [h2 a1].
  destruct (is_tcp_or_udp _) eqn:Hp.
  - cbn [fm_time fm_key flow_meter update FlowMeterWithFlow_fields]. pose proof (get_concurrent_ok c (fm_time f) (fm_key f) Hc) as Hg.
    destruct (get_concurrent c (fm_time f) (fm_key f)) as [c' x]. destruct Hg as (Hc' & -> & HU & Hs). eexists _, _, _. split; [done|].
    split_and!; [done|done|done|done| |].
    + intros Hne. rewrite (Hs k). by rewrite decide_False by congruence.
    + intros <- _. rewrite (Hs (fm_key f)). rewrite decide_True by done. done.
  - eexists _, _, _. split; [done|]. by split_and!.
Qed.

Lemma set_connection_all_key fs : Forall (fun f => fits 64 (fm_time f)) fs -> forall c h, tables_ok c ->
  exists c' h' out, set_connection_all (Some c, h) fs = ((Some c', h'), out) /\ tables_ok c' /\ (forall U, within U c -> within U c')
    /\ (with_key fs = [] -> entry c' k = entry c k /\ with_key out = [])
    /\ (forall f, with_key fs = [f] -> fm_is_tcp_or_udp f = true -> entry c' k = (fun v => v <| qc_time := fm_time f |>) <$> entry c k
         /\ exists f', with_key out = [f'] /\ fm_time f' = fm_time f /\ fm_load f' = load_of (entry c k)).
Proof.
  induction 1 as [|f fs Hf _ IH]; intros c h Hc; cbn [set_connection_all].
  { exists c, h, []. by split_and!. }
  destruct (set_connection_flow_key c h f Hc Hf) as (c1 & h1 & f1 & -> & Hc1 & HU1 & Hk1 & Ht1 & Hne & Heq).
  destruct (IH c1 h1 Hc1) as (c2 & h2 & out & -> & Hc2 & HU2 & H0 & H1). exists c2, h2, (f1 :: out).
  split_and!; [done|done|auto|..]; unfold with_key in *; rewrite !filter_cons, Hk1; destruct (decide (fm_key f = k)) as [Hk|Hk].
  - done.
  - intros Hn. rewrite <- (Hne Hk). auto.
  - intros f0 [= <- Hn] Hp. destruct (H0 Hn) as [-> ->]. destruct (Heq Hk Hp) as [-> Hl]. split; [done|]. by exists f1.
  - intros f0 Hn Hp. rewrite <- (Hne Hk). auto.
Qed.

(** ** Counting the reports of the key *)

(** A report of a connection that opened and is still open, that opened and
    closed, and that closed; the others report a connection that goes on. *)
Definition is_open (r : Report) : bool := is_new_flow (flow (rp_flow r)) && bool_decide (close_type (flow (rp_flow r)) = ForcedReport).
Definition is_passing (r : Report) : bool := is_new_flow (flow (rp_flow r)) && bool_decide (close_type (flow (rp_flow r)) <> ForcedReport).
Definition is_end (r : Report) : bool := negb (is_new_flow (flow (rp_flow r))) && bool_decide (close_type (flow (rp_flow r)) <> ForcedReport).

Definition count (p : Report -> bool) (rs : list Report) : Z := Z.of_nat (length (filter (fun r => p r = true) rs)).

Definition opens (σ : Z) (rs : list Report) : Z := count is_open (group I σ k rs).
Definition passes (σ : Z) (rs : list Report) : Z := count is_passing (group I σ k rs).
Definition ends (σ : Z) (rs : list Report) : Z := count is_end (group I σ k rs).

Section history.
Context (B0 : Z).

(** The connections that are carried into the [m]-th slot after [B0]. *)
Fixpoint carry (m : nat) (rs : list Report) : Z :=
  match m with
  | O => 0
  | S m => let σ := B0 + Z.of_nat m in Z.max 0 (carry m rs + opens σ rs - ends σ rs)
  end.

Definition carry_at (σ : Z) (rs : list Report) : Z := carry (Z.to_nat (σ - B0)) rs.

(** The connections of a slot: those carried into it, and the new ones. *)
Definition load_at (σ : Z) (rs : list Report) : Z := Z.max 1 (carry_at σ rs + opens σ rs + passes σ rs).

Lemma carry_at_step σ rs : B0 <= σ -> carry_at (σ + 1) rs = Z.max 0 (carry_at σ rs + opens σ rs - ends σ rs).
Proof.
  intros Hσ. unfold carry_at. replace (Z.to_nat (σ + 1 - B0)) with (S (Z.to_nat (σ - B0))) by lia. cbn [carry].
  by replace (B0 + Z.of_nat (Z.to_nat (σ - B0))) with σ by lia.
Qed.

Lemma carry_nonneg σ rs : 0 <= carry_at σ rs.
Proof. unfold carry_at. destruct (Z.to_nat (σ - B0)); cbn [carry]; lia. Qed.

Lemma count_reports_app p rs rs' : count p (rs ++ rs') = count p rs + count p rs'.
Proof. unfold count. rewrite filter_app, length_app. lia. Qed.

Lemma count_one p r : count p [r] = if p r then 1 else 0.
Proof. unfold count. rewrite filter_cons, filter_nil. destruct (p r); [rewrite decide_True|rewrite decide_False]; done. Qed.

Lemma count_nil p : count p [] = 0.
Proof. done. Qed.

Lemma count_bound p rs : 0 <= count p rs <= Z.of_nat (length rs).
Proof. unfold count. pose proof (length_filter (fun r => p r = true) rs). lia. Qed.

(** A report of another slot or key changes no count. *)
Lemma group_other σ rs r : slot_of I (rp_time r) <> σ \/ rp_key r <> k -> group I σ k (rs ++ [r]) = group I σ k rs.
Proof. intros Hn. rewrite group_snoc, decide_False; [done|]. naive_solver. Qed.

Lemma carry_other m rs r : B0 + Z.of_nat m <= slot_of I (rp_time r) -> carry m (rs ++ [r]) = carry m rs.
Proof.
  induction m as [|m IH]; intros Hr; [done|]. cbn [carry]. unfold opens, ends. rewrite group_other by lia. by rewrite IH by lia.
Qed.

Lemma carry_at_other σ rs r : σ <= slot_of I (rp_time r) -> B0 <= slot_of I (rp_time r) -> carry_at σ (rs ++ [r]) = carry_at σ rs.
Proof. intros Hr Hb. apply carry_other. lia. Qed.

(** No more connections than reports. *)
Lemma group_disjoint σ rs : Z.of_nat (length (filter (fun r => slot_of I (rp_time r) < σ) rs)) + Z.of_nat (length (group I σ k rs))
  <= Z.of_nat (length (filter (fun r => slot_of I (rp_time r) < σ + 1) rs)).
Proof.
  unfold group. induction rs as [|r rs IH]; [done|]. rewrite !filter_cons.
  destruct (decide (slot_of I (rp_time r) < σ)), (decide (slot_of I (rp_time r) < σ + 1)), (decide (slot_of I (rp_time r) = σ /\ rp_key r = k)); cbn; lia.
Qed.

Lemma carry_bound m rs : carry m rs <= Z.of_nat (length (filter (fun r => slot_of I (rp_time r) < B0 + Z.of_nat m) rs)).
Proof.
  induction m as [|m IH]; cbn [carry]; [lia|]. pose proof (group_disjoint (B0 + Z.of_nat m) rs).
  replace (B0 + Z.of_nat (S m)) with (B0 + Z.of_nat m + 1) by lia. pose proof (count_bound is_open (group I (B0 + Z.of_nat m) k rs)).
  pose proof (count_bound is_end (group I (B0 + Z.of_nat m) k rs)). unfold opens, ends. lia.
Qed.

Lemma open_pass_bound rs : count is_open rs + count is_passing rs <= Z.of_nat (length rs).
Proof.
  induction rs as [|r rs IH]; [done|]. change (r :: rs) with ([r] ++ rs). rewrite !count_reports_app, !count_one, length_app. cbn [length].
  unfold is_open, is_passing in *. destruct (is_new_flow _); cbn [andb]; [|lia]. do 2 case_bool_decide; try lia; naive_solver.
Qed.

Lemma slot_bound σ rs : B0 <= σ -> carry_at σ rs + opens σ rs + passes σ rs <= Z.of_nat (length rs).
Proof.
  intros Hσ. pose proof (carry_bound (Z.to_nat (σ - B0)) rs) as Hc. replace (B0 + Z.of_nat (Z.to_nat (σ - B0))) with σ in Hc by lia.
  pose proof (group_disjoint σ rs). pose proof (open_pass_bound (group I σ k rs)). pose proof (length_filter (fun r => slot_of I (rp_time r) < σ + 1) rs).
  unfold carry_at, opens, passes. lia.
Qed.

(** ** The entries of the key follow the counts *)

Context (U : gset bytes).

(** Reports that are no eBPF data, have keys in [U], and count when they are of the key. *)
Definition report_fine (r : Report) : Prop :=
  key_bytes (rp_key r) ∈ U /\ fl_signal_source (flow (rp_flow r)) <> EBPF /\ (rp_key r = k -> is_counted (rp_flow r) = true).

(** While connections are carried into a slot, the key is reported in it. *)
Definition live (B : Z) (rs : list Report) : Prop := forall σ, B0 <= σ < B -> 0 < carry_at σ rs -> group I σ k rs <> [].

Definition fine (B : Z) (rs : list Report) : Prop := live B rs /\ Z.of_nat (length rs) < 2 ^ 62 /\ Forall report_fine rs.

(** The entry of the key in the table of slot [σ], with [x] connections carried into it. *)
Definition shows (rs : list Report) (c : ConcurrentConnection) (σ x : Z) : Prop :=
  from_option sum 0 (entry c k) = x + opens σ rs + passes σ rs /\ from_option living 0 (entry c k) = x + opens σ rs - ends σ rs.

Definition loads_ok (B : Z) (rs : list Report) (out : list FlowMeterWithFlow) : Prop :=
  Forall (fun f => B0 <= slot_of I (fm_time f) < B /\ fm_load f = load_at (slot_of I (fm_time f)) rs) (with_key out).

Definition counting (B : Z) (rs : list Report) (out : list FlowMeterWithFlow) (cs : list ConcurrentConnection) : Prop :=
  B0 <= B /\ (fine B rs -> Forall (within U) cs
    /\ (forall p c, cs !! p = Some c -> shows rs c (B + Z.of_nat p) (if decide (p = 0%nat) then carry_at B rs else 0)) /\ loads_ok B rs out).

Lemma i64_small z : - 2 ^ 63 <= z < 2 ^ 63 -> i64 z = z.
Proof. intros Hz. unfold i64. rewrite Z.mod_small by lia. lia. Qed.

Lemma merged_flow rs f : merged rs = Some f -> exists r, r ∈ rs /\ fm_flow f = MiniFlow_from (flow (rp_flow r)).
Proof.
  revert f. induction rs as [|r rs IH] using rev_ind; intros f Hf; [done|]. rewrite merged_snoc in Hf. injection Hf as <-.
  destruct (merged rs) as [a|] eqn:Ha; [|exists r; split; [apply elem_of_app; right; by left|done]].
  destruct (IH a eq_refl) as (r0 & Hr0 & Ef). exists r0. split; [apply elem_of_app; by left|]. rewrite <- Ef. unfold FlowMeterWithFlow_merge. by case_goal.
Qed.

Lemma fine_lower B rs : fine (B + 1) rs -> fine B rs.
Proof. intros (Hl & Hn & Hf). split_and!; [|done|done]. intros σ Hσ. apply Hl. lia. Qed.

(** The flow of the key in a slot that is sent. *)
Lemma stash_flow B i g st f : stage I n B i g -> stashs g !! i = Some st -> Forall report_fine (injected g) ->
  stash_get st k = Some f -> fm_is_tcp_or_udp f = true /\ slot_of I (fm_time f) = B.
Proof.
  intros Hg Hst Hf Hk. rewrite (sg_stash _ _ _ _ _ Hg i st k (le_n i) Hst) in Hk. replace (B + Z.of_nat i - Z.of_nat i) with B in Hk by lia.
  destruct (merged_key_time I B k _ f (sg_times _ _ _ _ _ Hg) Hk) as (_ & Hs & _). split; [|done].
  destruct (merged_flow _ f Hk) as (r & Hr & Ef). unfold group in Hr. apply list_elem_of_filter in Hr as [[_ Hrk] Hr].
  destruct (proj1 (Forall_forall _ _) Hf r Hr) as (_ & _ & Hc). specialize (Hc Hrk). unfold fm_is_tcp_or_udp. rewrite Ef. unfold is_counted in Hc.
  cbn. by apply andb_prop in Hc as [? _].
Qed.

Lemma stash_no_ebpf B i g st : stage I n B i g -> stashs g !! i = Some st -> Forall report_fine (injected g) -> no_ebpf (stash_values st).
Proof.
  intros Hg Hst Hf. apply Forall_forall. intros f Hv. apply stash_values_in in Hv as [key Hk].
  rewrite (sg_stash _ _ _ _ _ Hg i st key (le_n i) Hst) in Hk. destruct (merged_flow _ f Hk) as (r & Hr & ->). unfold group in Hr.
  apply list_elem_of_filter in Hr as [_ Hr]. by destruct (proj1 (Forall_forall _ _) Hf r Hr) as (_ & Hs & _).
Qed.

Lemma filter_agree {A} (P P' : A -> Prop) `{!forall x, Decision (P x), !forall x, Decision (P' x)} (l : list A) :
  Forall (fun x => P x <-> P' x) l -> filter P l = filter P' l.
Proof. induction 1 as [|x l Hx _ IH]; [done|]. rewrite !filter_cons, IH. do 2 case_decide; naive_solver. Qed.

Lemma stash_with_key B i g st : stage I n B i g -> stashs g !! i = Some st -> with_key (stash_values st) = option_list (stash_get st k).
Proof.
  intros Hg Hst. assert (stash_keyed I B st) as Hk.
  { intros key f Hf. rewrite (sg_stash _ _ _ _ _ Hg i st key (le_n i) Hst) in Hf. replace (B + Z.of_nat i - Z.of_nat i) with B in Hf by lia.
    destruct (merged_key_time I B key _ f (sg_times _ _ _ _ _ Hg) Hf) as (? & ? & _). done. }
  pose proof (records_stash I B B st k Hk) as Hr. rewrite decide_True in Hr by done. rewrite <- Hr. unfold with_key, records.
  apply filter_agree, Forall_forall. intros f Hf. apply stash_values_in in Hf as [key Hf]. destruct (Hk key f Hf). naive_solver.
Qed.

Definition steady (now B : Z) : Prop := now <= from_secs (I * B) + CONCURRENT_TIMEOUT.

(** What of the entry of a slot goes to the next one, when the key was reported
    in it or nothing was carried. *)
Lemma carried_shows now rs front B x v : 0 < I -> steady now B -> shows rs front B x -> entry front k = Some v -> slot_of I (qc_time v) = B ->
  carried now (entry front k) = if decide (0 < x + opens B rs - ends B rs) then Some v else None.
Proof.
  intros HI Hs [_ Hl] Hv Ht. rewrite Hv in *. cbn in Hl. unfold carried. rewrite (proj2 (Z.ltb_ge _ _)).
  - cbn [orb]. case_decide; [rewrite (proj2 (Z.leb_gt _ _)) by lia|rewrite (proj2 (Z.leb_le _ _)) by lia]; done.
  - unfold steady in Hs. assert (from_secs (I * B) <= qc_time v); [|lia]. unfold slot_of in Ht.
    pose proof (Z.mul_div_le (Timestamp.as_secs (qc_time v)) I HI). unfold Timestamp.as_secs in *. rewrite Ht in *.
    pose proof (Z.mul_div_le (qc_time v) Timestamp.NANOS_IN_SECOND ltac:(done)). secs.
Qed.

(** The table of the next slot with the connections carried into it. *)
Lemma joined_shows rs c1 next now front B y : Z.of_nat (length rs) < 2 ^ 62 -> B0 <= B ->
  shows rs c1 (B + 1) 0 -> entry next k = joined (entry c1 k) (carried now (entry front k)) -> y = carry_at (B + 1) rs ->
  (forall v, carried now (entry front k) = Some v -> living v = y) -> (carried now (entry front k) = None -> y = 0) -> shows rs next (B + 1) y.
Proof.
  intros Hn HB [Hs1 Hl1] Hj Hy Hc Hz. pose proof (slot_bound (B + 1) rs ltac:(lia)) as Hb. pose proof (carry_nonneg (B + 1) rs).
  pose proof (count_bound is_open (group I (B + 1) k rs)). pose proof (count_bound is_passing (group I (B + 1) k rs)).
  pose proof (count_bound is_end (group I (B + 1) k rs)) as Hend.
  assert (Z.of_nat (length (group I (B + 1) k rs)) <= Z.of_nat (length rs)) by (unfold group; pose proof (length_filter (fun r => slot_of I (rp_time r) = B + 1 /\ rp_key r = k) rs); lia).
  unfold shows, opens, passes, ends in *. rewrite Hj. destruct (carried now (entry front k)) as [v|].
  - specialize (Hc v eq_refl). destruct (entry c1 k) as [w|]; cbn in *; [rewrite !i64_small by lia|]; lia.
  - specialize (Hz eq_refl). destruct (entry c1 k) as [w|]; cbn in *; lia.
Qed.

Lemma merged_some rs : merged rs = None <-> rs = [].
Proof. split; [|by intros ->]. destruct rs as [|r rs _] using rev_ind; [done|]. by rewrite merged_snoc. Qed.

(** Sending a slot gives the flow of the key its load, and the entry the time of the flow. *)
Lemma sent_key B i g st c0 h front h' out : B0 <= B -> stage I n B i g -> stashs g !! i = Some st -> Forall report_fine (injected g) -> tables_ok c0 ->
  shows (injected g) c0 B (carry_at B (injected g)) -> set_connection_all (Some c0, h) (stash_values st) = ((Some front, h'), out) ->
  (within U c0 -> within U front) /\ shows (injected g) front B (carry_at B (injected g))
  /\ (group I B k (injected g) <> [] -> forall v, entry front k = Some v -> slot_of I (qc_time v) = B)
  /\ Forall (fun f => slot_of I (fm_time f) = B /\ fm_load f = load_at B (injected g)) (with_key out).
Proof.
  intros HB Hg Hst Hrf H0 S0 Hx.
  destruct (set_connection_all_key (stash_values st) (stage_times I n B i g st Hg Hst) c0 h H0) as (c' & h'' & out' & Heq & _ & HU & Hnone & Hsome).
  rewrite Hx in Heq. injection Heq as <- <- <-. rewrite (stash_with_key B i g st Hg Hst) in Hnone, Hsome.
  pose proof (sg_stash _ _ _ _ _ Hg i st k (le_n i) Hst) as Hmk. replace (B + Z.of_nat i - Z.of_nat i) with B in Hmk by lia.
  destruct (stash_get st k) as [f|] eqn:Hf.
  - destruct (stash_flow B i g st f Hg Hst Hrf Hf) as [Hp Hsl]. destruct (Hsome f eq_refl Hp) as (He & f' & Hout & Ht' & Hload).
    split_and!; [auto|unfold shows in *; rewrite He; by destruct (entry c0 k)| |].
    + intros _ v Hv. rewrite He in Hv. apply fmap_Some in Hv as (w & _ & ->). done.
    + rewrite Hout. constructor; [|done]. rewrite Ht', Hload. split; [done|]. unfold load_at, load_of. destruct S0 as [<- _]. by destruct (entry c0 k).
  - destruct (Hnone eq_refl) as [He Hout]. split_and!; [auto|unfold shows in *; by rewrite He| |by rewrite Hout].
    intros Hne. symmetry in Hmk. apply merged_some in Hmk. done.
Qed.

Lemma next_shows now rs front c1 next B : 0 < I -> B0 <= B -> steady now B -> Z.of_nat (length rs) < 2 ^ 62 ->
  (0 < carry_at B rs -> group I B k rs <> []) -> shows rs front B (carry_at B rs) ->
  (group I B k rs <> [] -> forall v, entry front k = Some v -> slot_of I (qc_time v) = B) ->
  shows rs c1 (B + 1) 0 -> entry next k = joined (entry c1 k) (carried now (entry front k)) -> shows rs next (B + 1) (carry_at (B + 1) rs).
Proof.
  intros HI HB Hst Hn Hlive Sf Ht S1 Hj. pose proof (carry_at_step B rs HB) as Hc. pose proof (carry_nonneg B rs) as Hnn.
  assert (match carried now (entry front k) with Some v => living v = carry_at (B + 1) rs | None => carry_at (B + 1) rs = 0 end) as Hcar.
  { destruct (entry front k) as [v|] eqn:Hv; cbn [carried].
    - destruct (decide (group I B k rs = [])) as [He|He].
      + assert (carry_at B rs = 0) by (destruct (decide (0 < carry_at B rs)); [by specialize (Hlive ltac:(done))|lia]).
        destruct Sf as [_ Hl]. rewrite Hv in Hl. unfold opens, ends in *. rewrite He, !count_nil in *. cbn in Hl.
        rewrite (proj2 (Z.leb_le (living v) 0)) by lia. rewrite orb_true_r. lia.
      + pose proof (carried_shows now rs front B (carry_at B rs) v HI Hst Sf Hv (Ht He v eq_refl)) as Hx. rewrite Hv in Hx. cbn [carried] in Hx. rewrite Hx.
        destruct Sf as [_ Hl]. rewrite Hv in Hl. cbn in Hl. case_decide; lia.
    - destruct Sf as [_ Hl]. rewrite Hv in Hl. cbn in Hl. lia. }
  eapply (joined_shows _ c1 next now front); [done|done|exact S1|exact Hj|done|..]; intros; destruct (carried now (entry front k)); naive_solver.
Qed.

Lemma shift_counting : 0 < I -> shift_keeps I n counting steady.
Proof using Cok Eok.
  intros HI now B i g cs h st front cs' h' out Hg Hst Hsteady (Hlen & _ & Hall) Hshift Hexact [HB HQ]. split; [lia|]. intros Hfine.
  destruct (HQ (fine_lower B _ Hfine)) as (Hw & Hsh & Hld). destruct Hfine as (Hlive & Hn & Hrf).
  destruct Hshift as (c0 & c1 & rest & next & cleared & -> & -> & _ & Hnext & Hcl & Hclw).
  inversion_clear Hall as [|? ? [H0 _] _]. inversion_clear Hw as [|? ? W0 Hw1]. inversion_clear Hw1 as [|? ? W1 Wrest].
  pose proof (Hsh 0%nat c0 eq_refl) as S0. pose proof (Hsh 1%nat c1 eq_refl) as S1. cbn in S0, S1. rewrite Z.add_0_r in S0.
  destruct (sent_key B i g st c0 h front h' out HB Hg Hst Hrf H0 S0 (eq_sym (Hexact (stash_no_ebpf B i g st Hg Hst Hrf)))) as (Wf & Sf & Htf & Hout).
  specialize (Wf W0). destruct (Hnext U W1 Wf) as [Wn Hj].
  pose proof (next_shows now _ front c1 next B HI HB Hsteady Hn (Hlive B ltac:(lia)) Sf Htf S1 (Hj k)) as Sn. split_and!.
  - cbn. constructor; [done|]. apply Forall_app. split; [done|]. constructor; [auto|done].
  - intros p c Hp. destruct p as [|p]; [cbn in Hp; injection Hp as <-; by rewrite Z.add_0_r|]. cbn [decide]. rewrite decide_False by done. cbn in Hp.
    apply lookup_app_Some in Hp as [Hp|[Hge Hp]].
    + specialize (Hsh (S (S p)) c Hp). rewrite decide_False in Hsh by done. replace (B + 1 + Z.of_nat (S p)) with (B + Z.of_nat (S (S p))) by lia. done.
    + destruct (p - length rest)%nat eqn:Hpp; [|done]. cbn in Hp. injection Hp as <-. cbn [length] in Hlen. unfold shows, opens, passes, ends.
      rewrite (sg_after _ _ _ _ _ Hg) by lia. by rewrite Hcl.
  - unfold loads_ok, with_key in *. rewrite filter_app. apply Forall_app. split; (eapply Forall_impl; [eassumption|]); intros f [Hs Hl];
      [split; [lia|done]|rewrite Hs; split; [lia|done]].
Qed.

(** Nothing is carried over a gap in which the key is not reported. *)
Lemma carry_zero B rs m : B0 <= B -> carry_at B rs = 0 -> (forall σ, B <= σ -> group I σ k rs = []) -> carry_at (B + Z.of_nat m) rs = 0.
Proof.
  intros HB H0 He. induction m as [|m IH]; [by rewrite Z.add_0_r|]. replace (B + Z.of_nat (S m)) with (B + Z.of_nat m + 1) by lia.
  rewrite carry_at_step by lia. unfold opens, ends. rewrite IH, He by lia. done.
Qed.

Lemma jump_counting : jump_keeps I n counting.
Proof.
  intros B B' g cs Hg (Hlen & _ & _) HBB [HB HQ]. split; [lia|]. intros (Hlive & Hn & Hrf). destruct (decide (B = B')) as [->|Hne]; [by apply HQ|].
  destruct HQ as (Hw & Hsh & Hld); [split_and!; [|done|done]; intros σ Hσ; apply Hlive; lia|].
  assert (forall σ, B <= σ -> group I σ k (injected g) = []) as He by (intros; apply (sg_after _ _ _ _ _ Hg); lia).
  assert (carry_at B (injected g) = 0) as Hz.
  { pose proof (carry_nonneg B (injected g)). destruct (decide (0 < carry_at B (injected g))) as [Hp|]; [|lia]. destruct (Hlive B ltac:(lia) Hp). apply He. lia. }
  assert (carry_at B' (injected g) = 0) as Hz'. { pose proof (carry_zero B (injected g) (Z.to_nat (B' - B)) HB Hz He) as Hc. by replace (B + _) with B' in Hc by lia. }
  split_and!; [done| |eapply Forall_impl; [exact Hld|]; intros f [? ?]; split; [lia|done]].
  intros p c Hp. specialize (Hsh p c Hp). unfold shows, opens, passes, ends in *. rewrite He in * by lia. rewrite Hz in Hsh. rewrite Hz'. by destruct (decide (p = 0%nat)).
Qed.

(** A report of the key in its slot. *)
Lemma counted_shows rs r c c' x : within U c -> report_fine r -> counted r c c' -> rp_key r = k -> Z.of_nat (length (rs ++ [r])) < 2 ^ 62 ->
  0 <= x -> x + opens (slot_of I (rp_time r)) rs + passes (slot_of I (rp_time r)) rs <= Z.of_nat (length rs) ->
  shows rs c (slot_of I (rp_time r)) x -> shows (rs ++ [r]) c' (slot_of I (rp_time r)) x.
Proof.
  intros HW (HU & _ & Hc) Hcnt Hk Hn Hx Hb [Hs Hl]. specialize (Hc Hk). set (σ := slot_of I (rp_time r)) in *.
  unfold shows, opens, passes, ends in *. rewrite group_snoc. rewrite decide_True by done. rewrite !count_reports_app, !count_one.
  pose proof (count_bound is_open (group I σ k rs)). pose proof (count_bound is_passing (group I σ k rs)). pose proof (count_bound is_end (group I σ k rs)).
  assert (length (group I σ k rs) <= length rs)%nat by apply length_filter. rewrite length_app in Hn. cbn [length] in Hn.
  assert (forall y, upserts c (rp_key r) y c' -> entry c' k = Some y) as Hup.
  { intros y (_ & _ & Hy). destruct (Hy U HW HU) as [_ He]. rewrite (He k). by rewrite decide_True. }
  unfold counted in Hcnt. rewrite Hc in Hcnt. rewrite Hk in Hup, Hcnt. set (a := count is_open _) in *. set (b := count is_passing _) in *.
  set (e := count is_end _) in *. clearbody a b e. unfold is_open, is_passing, is_end.
  destruct (is_new_flow (flow (rp_flow r))) eqn:Hnew, (decide (close_type (flow (rp_flow r)) = ForcedReport)) as [Hf|Hf];
    rewrite ?(bool_decide_true _ Hf), ?(bool_decide_false _ Hf) in *; rewrite ?(bool_decide_true (close_type _ <> _)) in * by done;
    rewrite ?(bool_decide_false (close_type _ <> _)) in * by (intros Hz; by apply Hz); cbn [andb negb] in *.
  - rewrite (Hup _ Hcnt). unfold opened. destruct (entry c k) as [v|]; cbn in *; [rewrite !i64_small by lia|]; lia.
  - rewrite (Hup _ Hcnt). unfold closed. destruct (entry c k) as [v|]; cbn in *; [rewrite !i64_small by lia|]; lia.
  - subst c'. lia.
  - rewrite (Hup _ Hcnt). unfold closed. destruct (entry c k) as [v|]; cbn in *; [rewrite !i64_small by lia|]; lia.
Qed.

(** A report of another key or another slot. *)
Lemma other_shows rs r c c' σ x : within U c -> report_fine r -> counted r c c' -> rp_key r <> k -> shows rs c σ x -> shows (rs ++ [r]) c' σ x.
Proof.
  intros HW (HU & _ & _) Hcnt Hk Hs. assert (entry c' k = entry c k) as He.
  { assert (forall y, upserts c (rp_key r) y c' -> entry c' k = entry c k) as Hup.
    { intros y (_ & _ & Hy). destruct (Hy U HW HU) as [_ He]. rewrite (He k). by rewrite decide_False by congruence. }
    unfold counted in Hcnt. repeat case_hyp Hcnt; subst; eauto. }
  unfold shows, opens, passes, ends in *. rewrite group_other by by right. by rewrite He.
Qed.

Lemma counted_within r c c' : within U c -> report_fine r -> counted r c c' -> within U c'.
Proof.
  intros HW (HU & _ & _) Hcnt. assert (forall y, upserts c (rp_key r) y c' -> within U c') as Hup by (intros y (_ & _ & Hy); by destruct (Hy U HW HU)).
  unfold counted in Hcnt. repeat case_hyp Hcnt; subst; eauto.
Qed.

Lemma inject_counting : inject_keeps I n counting.
Proof.
  intros B g cs r j c c' Hg Hring Hσ Ht Hj Hcnt [HB HQ]. split; [done|]. intros (Hlive & Hn & Hrf). set (rs := injected g) in *.
  apply Forall_app in Hrf as [Hrf Hr]. apply Forall_cons_1 in Hr as [Hr _].
  assert (forall σ, σ <= B -> carry_at σ (rs ++ [r]) = carry_at σ rs) as Hca by (intros; apply carry_at_other; lia).
  assert (forall σ, σ <> slot_of I (rp_time r) -> group I σ k (rs ++ [r]) = group I σ k rs) as Hgr by (intros; apply group_other; naive_solver).
  assert (Z.of_nat (length rs) < 2 ^ 62) as Hn' by (rewrite length_app in Hn; lia).
  destruct HQ as (Hw & Hsh & Hld).
  { split_and!; [|done|done]. intros σ Hs. rewrite <- Hca, <- Hgr by lia. by apply Hlive. }
  pose proof (proj1 (Forall_lookup _ _) Hw j c Hj) as HWc. pose proof (lookup_lt_Some _ _ _ Hj) as Hlt. split_and!.
  - apply Forall_insert; [done|]. by eapply counted_within.
  - intros p c1 Hp. rewrite Hca by lia. destruct (decide (p = j)) as [->|Hne].
    + rewrite list_lookup_insert_eq in Hp by done. injection Hp as <-. specialize (Hsh j c Hj). set (x := if decide (j = 0%nat) then carry_at B rs else 0) in *.
      destruct (decide (rp_key r = k)) as [Hk|Hk]; [|by eapply other_shows]. rewrite <- Hσ in *. eapply counted_shows; try done.
      * unfold x. case_decide; [apply carry_nonneg|done].
      * rewrite Hσ. unfold x. case_decide; [subst j; rewrite Z.add_0_r; by apply slot_bound|].
        pose proof (slot_bound (B + Z.of_nat j) rs ltac:(lia)). pose proof (carry_nonneg (B + Z.of_nat j) rs). lia.
    + rewrite list_lookup_insert_ne in Hp by done. specialize (Hsh p c1 Hp). unfold shows, opens, passes, ends in *. by rewrite Hgr by lia.
  - eapply Forall_impl; [exact Hld|]. intros f [Hs Hl]. split; [done|]. rewrite Hl. unfold load_at, opens, passes. rewrite Hca, Hgr by lia. done.
Qed.

(** ** Connections *)

(** A connection by the slot in which it opened and the one in which it closed, if it did. *)
Definition connection : Type := Z * option Z.

Definition closes_in (c : connection) (σ : Z) : bool := match c.2 with Some b => b =? σ | None => false end.
Definition open_at_start (c : connection) (σ : Z) : bool := (c.1 <? σ) && match c.2 with Some b => σ <=? b | None => true end.
Definition exists_in (c : connection) (σ : Z) : bool := (c.1 <=? σ) && match c.2 with Some b => σ <=? b | None => true end.

Definition number (p : connection -> Z -> bool) (conns : list connection) (σ : Z) : Z := sumZ (fun c => b2z (p c σ)) conns.

(** The reports of the key in the slots before [B] are those of the connections,
    and an open connection is reported in every slot. *)
Record follows (conns : list connection) (B : Z) (rs : list Report) : Prop := {
  fo_order : Forall (fun c => B0 <= c.1 /\ forall b, c.2 = Some b -> c.1 <= b) conns;
  fo_opens σ : B0 <= σ < B -> opens σ rs = number (fun c σ => (c.1 =? σ) && negb (closes_in c σ)) conns σ;
  fo_passes σ : B0 <= σ < B -> passes σ rs = number (fun c σ => (c.1 =? σ) && closes_in c σ) conns σ;
  fo_ends σ : B0 <= σ < B -> ends σ rs = number (fun c σ => (c.1 <? σ) && closes_in c σ) conns σ;
  fo_reported σ : B0 <= σ < B -> 0 < number open_at_start conns σ -> group I σ k rs <> [];
}.

Lemma number_nonneg p conns σ : 0 <= number p conns σ.
Proof. unfold number. induction conns as [|c conns IH]; [done|]. rewrite sumZ_cons. destruct (p c σ); cbn [b2z]; lia. Qed.

Definition ordered (conns : list connection) : Prop := Forall (fun c => B0 <= c.1 /\ forall b, c.2 = Some b -> c.1 <= b) conns.

Lemma number_start conns : ordered conns -> number open_at_start conns B0 = 0.
Proof.
  unfold number. induction 1 as [|[a b] conns [Ha _] _ IH]; [done|]. rewrite sumZ_cons, IH. unfold open_at_start. cbn [fst snd] in *.
  by rewrite (proj2 (Z.ltb_ge a B0)) by lia.
Qed.

(** Those open at the end of a slot were open before or opened in it, and did not close. *)
Lemma number_step conns σ : ordered conns -> number open_at_start conns (σ + 1)
  = number open_at_start conns σ + number (fun c σ => (c.1 =? σ) && negb (closes_in c σ)) conns σ - number (fun c σ => (c.1 <? σ) && closes_in c σ) conns σ.
Proof.
  unfold number. induction 1 as [|[a b] conns [_ Hb] _ IH]; [done|]. rewrite !sumZ_cons, IH. unfold open_at_start, closes_in. cbn [fst snd] in *.
  destruct b as [b|]; [specialize (Hb b eq_refl)|]; unfold b2z; repeat case_goal; lia.
Qed.

Lemma number_exists conns σ : ordered conns -> number exists_in conns σ
  = number open_at_start conns σ + number (fun c σ => (c.1 =? σ) && negb (closes_in c σ)) conns σ + number (fun c σ => (c.1 =? σ) && closes_in c σ) conns σ.
Proof.
  unfold number. induction 1 as [|[a b] conns [_ Hb] _ IH]; [done|]. rewrite !sumZ_cons, IH. unfold exists_in, open_at_start, closes_in. cbn [fst snd] in *.
  destruct b as [b|]; [specialize (Hb b eq_refl)|]; unfold b2z; repeat case_goal; lia.
Qed.

Lemma carry_number conns B rs m : follows conns B rs -> B0 + Z.of_nat m <= B -> carry m rs = number open_at_start conns (B0 + Z.of_nat m).
Proof.
  intros Hf. induction m as [|m IH]; intros Hm; cbn [carry].
  - rewrite Z.add_0_r. symmetry. apply number_start, Hf.
  - replace (B0 + Z.of_nat (S m)) with (B0 + Z.of_nat m + 1) by lia. rewrite (number_step conns (B0 + Z.of_nat m) (fo_order _ _ _ Hf)).
    pose proof (number_nonneg open_at_start conns (B0 + Z.of_nat m + 1)) as Hnn. rewrite (number_step conns (B0 + Z.of_nat m) (fo_order _ _ _ Hf)) in Hnn.
    rewrite IH, (fo_opens _ _ _ Hf), (fo_ends _ _ _ Hf) by lia. lia.
Qed.

Lemma carry_at_number conns B rs σ : follows conns B rs -> B0 <= σ <= B -> carry_at σ rs = number open_at_start conns σ.
Proof.
  intros Hf Hσ. unfold carry_at. rewrite (carry_number conns B rs _ Hf) by lia. f_equal. lia.
Qed.

Lemma follows_live conns B rs : follows conns B rs -> live B rs.
Proof. intros Hf σ Hσ Hc. rewrite (carry_at_number conns B rs σ Hf) in Hc by lia. by apply (fo_reported _ _ _ Hf). Qed.

Lemma follows_load conns B rs σ : follows conns B rs -> B0 <= σ < B -> load_at σ rs = Z.max 1 (number exists_in conns σ).
Proof.
  intros Hf Hσ. unfold load_at. rewrite (carry_at_number conns B rs σ Hf), (fo_opens _ _ _ Hf), (fo_passes _ _ _ Hf) by lia.
  by rewrite <- (number_exists conns σ (fo_order _ _ _ Hf)).
Qed.

(** ** Runs *)

Definition event_fine (e : event) : Prop := fits 64 (ev_time e) /\ match e with Tick _ _ => True | Rep _ r => report_fine r end.

(** No event is more than [G] seconds after all earlier ones. *)
Fixpoint paced (G last : Z) (events : list event) : Prop :=
  match events with
  | [] => True
  | e :: events => Timestamp.as_secs (ev_time e) <= last + G /\ paced G (Z.max last (Timestamp.as_secs (ev_time e))) events
  end.

Lemma feed_ok G e B g h last : 0 < I -> d + G <= 300 -> sub_ok I n d counting B g -> Forall report_fine (injected g) -> event_fine e -> last < I * B + d ->
  Timestamp.as_secs (ev_time e) <= last + G -> wp (feed (g, h) e) (fun '(g', h') => exists B', sub_ok I n d counting B' g' /\ Forall report_fine (injected g')
    /\ Z.max last (Timestamp.as_secs (ev_time e)) < I * B' + d /\ (length (injected g') <= length (injected g) + 1)%nat /\ (connections g = None <-> connections g' = None)).
Proof using Cok Eok.
  intros HI HG Hg Hrf [Ht He] Hlast Hpace. unfold feed. apply wp_bind.
  eapply wp_mono; [apply (move_window_ok I n d counting steady (shift_counting HI) jump_counting) with (B := B); [|done|done|]|].
  - unfold steady, from_secs, Timestamp.NANOS_IN_SECOND. intros. nia.
  - intros _. unfold steady, CONCURRENT_TIMEOUT, Timestamp.as_secs, from_secs in *.
    pose proof (Z.mod_pos_bound (ev_time e) Timestamp.NANOS_IN_SECOND ltac:(done)). pose proof (Z.div_mod (ev_time e) Timestamp.NANOS_IN_SECOND ltac:(done)).
    change Timestamp.NANOS_IN_SECOND with 1000000000 in *. lia.
  - intros [[g1 h1] [|]].
    + intros (Hlo & Hg1 & Hi1 & _ & _ & Hn1). assert (I * B <= Timestamp.as_secs (ev_time e)) as HBt by (unfold Timestamp.as_secs, from_secs in *; apply Z.div_le_lower_bound; [done|lia]).
      destruct (moved_window I n d B (Timestamp.as_secs (ev_time e)) (so_params _ _ _ _ _ _ Hg) HBt) as (HBB & Hm1 & Hm2). set (B' := moved I d B _) in *.
      destruct e as [ts t|ts r]; cbn [ev_time] in *; [cbn; exists B'; rewrite Hi1; split_and!; [done|done|nia|lia|done]|].
      apply wp_bind. eapply wp_mono; [apply (inject_flow_ok I n d counting B' g1); [apply inject_counting|done|done| |lia]|].
      * unfold Timestamp.as_secs, from_secs in *. pose proof (Z.mul_div_le (rp_time r) Timestamp.NANOS_IN_SECOND ltac:(done)).
        change Timestamp.NANOS_IN_SECOND with 1000000000 in *. lia.
      * intros g2 (Hg2 & Hi2 & _ & _ & Hn2). cbn. exists B'. rewrite Hi2, Hi1. destruct r. split_and!; [done| |nia|rewrite length_app; cbn; lia|by rewrite Hn1].
        apply Forall_app. split; [done|by constructor].
    + intros (Hlo & Hg1 & Hi1 & _ & Hn1 & _). assert (Timestamp.as_secs (ev_time e) < I * B + d) as Hlt.
      { destruct (so_params _ _ _ _ _ _ Hg) as (_ & Hd & _). unfold Timestamp.as_secs, from_secs in *. apply Z.div_lt_upper_bound; [done|]. secs. }
      destruct e as [ts t|ts r]; cbn; exists B; rewrite Hi1, Hn1; (split_and!; [done|done|cbn [ev_time] in *; lia|lia|done]).
Qed.

Lemma feed_all_ok G : 0 < I -> d + G <= 300 -> forall events B g h last, sub_ok I n d counting B g -> Forall report_fine (injected g) -> Forall event_fine events ->
  last < I * B + d -> paced G last events -> wp (rfold feed events (g, h)) (fun '(g', h') => exists B', sub_ok I n d counting B' g' /\ Forall report_fine (injected g')
    /\ (length (injected g') <= length (injected g) + length events)%nat /\ (connections g = None <-> connections g' = None)).
Proof using Cok Eok.
  intros HI HG. induction events as [|e events IH]; intros B g h last Hg Hrf Hev Hlast Hp; cbn [rfold]; [exists B; split_and!; [done|done|lia|done]|].
  inversion_clear Hev as [|? ? He Hev']. destruct Hp as [Hp1 Hp2].
  pose proof (feed_ok G e B g h last HI HG Hg Hrf He Hlast Hp1) as Hw. destruct (feed (g, h) e) as [[g1 h1]|]; [|done].
  destruct Hw as (B1 & Hg1 & Hrf1 & Hl1 & Hn1 & Hc1). eapply wp_mono; [by eapply (IH B1 g1 h1)|]. intros [g' h'] (B' & Hg' & Hrf' & Hn' & Hc').
  exists B'. split_and!; [done|done|cbn; lia|by rewrite Hc1].
Qed.

(** Before the first report all tables are empty. *)
Lemma counting_new capacity cs : Z.of_nat (base.size U) <= capacity ->
  Forall (fun c => tables_ok c /\ (forall key, entry c key = None) /\ forall U, Z.of_nat (base.size U) <= capacity -> within U c) cs -> counting B0 [] [] cs.
Proof.
  intros HU Hcs. split; [done|]. intros _. split_and!; [eapply Forall_impl; [exact Hcs|]; naive_solver| |constructor].
  intros p c Hp. destruct (Forall_lookup_1 _ _ _ _ Hcs Hp) as (_ & He & _). unfold shows. rewrite He. cbn.
  unfold carry_at. rewrite Z.sub_diag. cbn. by case_decide.
Qed.

(** C10: The number of concurrent connections is right.  A generator with room for
    the keys in use takes reports and timeouts of which none is more than five
    minutes, less its delay, ahead of the earlier ones.  When the reports of a
    key that were taken are those of some connections, each open one being
    reported in every slot, every flow of the key that has been handed over has
    as its load the number of these connections that existed in its slot. *)
Theorem concurrent_connections_counted o l capacity G events h :
  models o l -> params_ok I n d -> 2 <= n -> 0 <= B0 -> I * B0 < 2 ^ 36 -> Z.of_nat (base.size U) <= capacity <= 2 ^ 62 -> d + G <= 300 ->
  Forall event_fine events -> paced G (I * B0) events -> Z.of_nat (length events) < 2 ^ 62 ->
  exists g g' h' B, SubQuadGen_new o (from_secs (I * B0)) I n d true capacity = Ret g /\ rfold feed events (g, h) = Ret (g', h')
    /\ window_start g' = from_secs (I * B)
    /\ forall conns, follows conns B (injected g') -> Forall (fun f => let σ := slot_of I (fm_time f) in
         B0 <= σ < B /\ fm_load f = Z.max 1 (number exists_in conns σ)) (with_key (emitted g')).
Proof using Cok Eok.
  intros Ho Hp Hn HB HIB HU HG Hev Hpace Hlen. pose proof Hp as (HI & Hd & _).
  destruct (proj1 (wp_exists _ _) (SubQuadGen_new_ok I n d counting B0 o l true capacity Hp Hn HB HIB Ho ltac:(lia) (fun cs => counting_new capacity cs (proj1 HU))))
    as (g & Hg & Hok & Hi & _ & _ & Hnn). exists g.
  destruct (proj1 (wp_exists _ _) (feed_all_ok G HI HG events B0 g h (I * B0) Hok ltac:(by rewrite Hi) Hev ltac:(lia) Hpace)) as ([g' h'] & Hf & B & Hok' & Hrf & Hl & Hnn').
  exists g', h', B. split_and!; [done|done|apply (so_window _ _ _ _ _ _ Hok')|]. intros conns Hfo. pose proof (so_conns _ _ _ _ _ _ Hok') as Hc.
  unfold conns_part in Hc. destruct (connections g') as [cs|] eqn:Hcs; [|discriminate (proj1 Hnn (proj2 Hnn' eq_refl))].
  destruct Hc as [_ [_ Hc]]. destruct Hc as (_ & _ & Hld).
  { split_and!; [by eapply follows_live|rewrite Hi in Hl; cbn in Hl; lia|done]. }
  eapply Forall_impl; [exact Hld|]. intros f [Hσ ->]. split; [done|]. by apply follows_load with (B := B).
Qed.

End history.
End concurrent.
