(* ===== verification/QuadKey.v ===== *)
(** * The key of a flow (collector/quadruple_generator.rs: get_key)

    Which reports are grouped: two flows have the same key exactly when they
    agree on the attributes the key stands for. *)

From stdpp Require Import gmap.
From S2P Require Import Prelude Timestamp Bytes Consts TapTypes TunnelType TapPort Endpoint MetaPacket Flow TcpPerf FlowMerge Meters QuadConn QuadTypes.

Section key.
Context {D : DecapEnum} {Dok : DecapEnumOk D}.

(** ** What the key holds *)

Definition is_ipv6 (f : TaggedFlow) : bool := fl_eth_type (flow f) =? EthernetType.IPV6.

(** The port of the service, or for data of OpenTelemetry its protocol, or nothing. *)
Definition service (f : TaggedFlow) : Z :=
  if bool_decide (fl_signal_source (flow f) = Packet) || is_active_service (flow f) then fk_port_dst (flow_key (flow f))
  else if bool_decide (fl_signal_source (flow f) = OTel) then 256 * wrap 8 (l7_protocol_of f)
  else 0.

(** EPC ids count by their low 16 bits, and the network type by its low 8 bits. *)
Record same_quad (f g : TaggedFlow) : Prop := {
  sq_family : is_ipv6 f = is_ipv6 g;
  sq_src : fk_ip_src (flow_key (flow f)) = fk_ip_src (flow_key (flow g));
  sq_dst : fk_ip_dst (flow_key (flow f)) = fk_ip_dst (flow_key (flow g));
  sq_epc_0 : wrap 16 (l3_epc_id (flow_metrics_src (flow f))) = wrap 16 (l3_epc_id (flow_metrics_src (flow g)));
  sq_epc_1 : wrap 16 (l3_epc_id (flow_metrics_dst (flow f))) = wrap 16 (l3_epc_id (flow_metrics_dst (flow g)));
  sq_gpid_0 : gpid (flow_metrics_src (flow f)) = gpid (flow_metrics_src (flow g));
  sq_gpid_1 : gpid (flow_metrics_dst (flow f)) = gpid (flow_metrics_dst (flow g));
  sq_tap_port : TapPort.split_fields (fk_tap_port (flow_key (flow f))) = TapPort.split_fields (fk_tap_port (flow_key (flow g)));
  sq_tap_type : wrap 8 (CaptureNetworkType.to_u16 (fk_tap_type (flow_key (flow f)))) = wrap 8 (CaptureNetworkType.to_u16 (fk_tap_type (flow_key (flow g))));
  sq_tap_side : tap_side f = tap_side g;
  sq_proto : fk_proto (flow_key (flow f)) = fk_proto (flow_key (flow g));
  sq_service : service f = service g;
}.

Definition octets (a : IpAddr) : bytes := match a with V4 x => be32 x | V6 o => o end.

(** An address of the family of the flow. *)
Definition address_ok (v6 : bool) (a : IpAddr) : Prop :=
  match a with V4 x => v6 = false /\ fits 32 x | V6 o => v6 = true /\ length o = 16%nat end.

Record key_ok (f : TaggedFlow) : Prop := {
  ko_src : address_ok (is_ipv6 f) (fk_ip_src (flow_key (flow f)));
  ko_dst : address_ok (is_ipv6 f) (fk_ip_dst (flow_key (flow f)));
  ko_gpid_0 : fits 32 (gpid (flow_metrics_src (flow f)));
  ko_gpid_1 : fits 32 (gpid (flow_metrics_dst (flow f)));
  ko_proto : fits 8 (fk_proto (flow_key (flow f)));
  ko_port : fits 16 (fk_port_dst (flow_key (flow f)));
}.

(** ** The layout *)

Definition header (f : TaggedFlow) : bytes :=
  let '(tap_port, tap_port_type, tunnel_type) := TapPort.split_fields (fk_tap_port (flow_key (flow f))) in
  be16 (l3_epc_id (flow_metrics_src (flow f))) ++ be16 (l3_epc_id (flow_metrics_dst (flow f)))
  ++ be32 tap_port ++ [wrap 8 tap_port_type; wrap 8 (CaptureNetworkType.to_u16 (fk_tap_type (flow_key (flow f)))); wrap 8 (as_u16 tunnel_type); wrap 8 (TapSide_u8 (tap_side f));
     0; wrap 8 (fk_proto (flow_key (flow f)))]
  ++ be16 (service f) ++ be32 (gpid (flow_metrics_src (flow f))) ++ be32 (gpid (flow_metrics_dst (flow f))).

Lemma be16_high x : fits 8 x -> be16 (256 * x) = [x; 0].
Proof.
  intros Hx. unfold be16, fits in *. rewrite Z.shiftr_div_pow2 by lia. change (2 ^ 8) with 256 in *. rewrite Z.mul_comm, Z.div_mul, Z.mod_mul by lia.
  by rewrite Z.mod_small by lia.
Qed.

Lemma set_key_layout n f : set_key (replicate 24 0 ++ replicate n 0) f = header f ++ replicate n 0.
Proof.
  unfold set_key, header. destruct (TapPort.split_fields _) as [[tp ty] tu]. unfold service.
  destruct (bool_decide (fl_signal_source (flow f) = Packet) || is_active_service (flow f)); [done|].
  destruct (bool_decide _); [|done]. rewrite be16_high by (by apply wrap_fits). done.
Qed.

Lemma set_octets_app pre new old post : length old = length new -> set_octets (length pre) new (pre ++ old ++ post) = pre ++ new ++ post.
Proof.
  revert pre old. induction new as [|o new IH]; intros pre old Hl; destruct old as [|x old]; try done. cbn [set_octets].
  rewrite insert_app_r_alt, Nat.sub_diag by lia. cbn. change (pre ++ o :: old ++ post) with (pre ++ [o] ++ old ++ post).
  rewrite (assoc_L app pre). replace (S (length pre)) with (length (pre ++ [o])) by (rewrite length_app; cbn; lia).
  rewrite IH by (cbn in Hl; lia). by rewrite <- (assoc_L app).
Qed.

Lemma header_length f : length (header f) = 24%nat.
Proof. unfold header. by destruct (TapPort.split_fields _) as [[tp ty] tu]. Qed.

Lemma set_two h s d i n : length h = i -> length s = n -> length d = n ->
  set_octets (i + n) d (set_octets i s (h ++ replicate (n + n) 0)) = h ++ s ++ d.
Proof.
  intros <- Hs Hd. rewrite replicate_add, set_octets_app by (by rewrite length_replicate). rewrite (assoc_L app), <- Hs, <- length_app.
  rewrite <- (app_nil_r (replicate _ 0)), set_octets_app by (rewrite length_replicate; congruence). by rewrite app_nil_r, (assoc_L app).
Qed.

Lemma get_key_layout f : key_ok f -> get_key f = (if is_ipv6 f then QgV6 else QgV4)
  (header f ++ octets (fk_ip_src (flow_key (flow f))) ++ octets (fk_ip_dst (flow_key (flow f)))).
Proof.
  intros [Hs Hd _ _ _ _]. unfold get_key. fold (is_ipv6 f). unfold address_ok in *.
  change (replicate IPV6_LRU_KEY_SIZE 0) with (replicate 24 0 ++ replicate (16 + 16) 0). change (replicate IPV4_LRU_KEY_SIZE 0) with (replicate 24 0 ++ replicate (4 + 4) 0).
  rewrite !set_key_layout. destruct (is_ipv6 f), (fk_ip_src _) as [s|s], (fk_ip_dst _) as [d|d]; destruct Hs as [? Hs], Hd as [? Hd]; try done;
    f_equal; apply set_two; (done || apply header_length).
Qed.

(** ** The attributes from the bytes *)

Lemma be16_inj a b : be16 a = be16 b <-> wrap 16 a = wrap 16 b.
Proof.
  unfold wrap. rewrite !(byte_split _ 8 8) by done. unfold be16. change (2 ^ 8) with 256. split; [by intros [= -> ->]|]. intros Heq.
  pose proof (Z.mod_pos_bound a 256 ltac:(lia)). pose proof (Z.mod_pos_bound b 256 ltac:(lia)). f_equal; [|f_equal]; lia.
Qed.

Lemma be32_inj a b : be32 a = be32 b <-> wrap 32 a = wrap 32 b.
Proof.
  unfold wrap. rewrite !(byte_split _ 24 8) by done. rewrite !(byte_split _ 16 8) by done. rewrite !(byte_split _ 8 8) by done. unfold be32. change (2 ^ 8) with 256.
  split; [by intros [= -> -> -> ->]|]. intros Heq.
  pose proof (Z.mod_pos_bound a 256 ltac:(lia)). pose proof (Z.mod_pos_bound b 256 ltac:(lia)).
  pose proof (Z.mod_pos_bound (Z.shiftr a 8) 256 ltac:(lia)). pose proof (Z.mod_pos_bound (Z.shiftr b 8) 256 ltac:(lia)).
  pose proof (Z.mod_pos_bound (Z.shiftr a 16) 256 ltac:(lia)). pose proof (Z.mod_pos_bound (Z.shiftr b 16) 256 ltac:(lia)).
  f_equal; [|f_equal; [|f_equal; [|f_equal]]]; lia.
Qed.

Lemma octets_length v6 a : address_ok v6 a -> length (octets a) = if v6 then 16%nat else 4%nat.
Proof. by destruct a; intros [-> ?]. Qed.

Lemma octets_inj v6 a b : address_ok v6 a -> address_ok v6 b -> octets a = octets b <-> a = b.
Proof.
  destruct a as [a|a], b as [b|b]; intros [-> Ha] [Hv Hb]; try done; cbn; [|naive_solver].
  rewrite be32_inj. unfold wrap, fits in *. rewrite !Z.mod_small by lia. naive_solver.
Qed.

Lemma tap_side_inj a b : wrap 8 (TapSide_u8 a) = wrap 8 (TapSide_u8 b) <-> a = b.
Proof. split; [|by intros ->]. by destruct a, b; vm_compute. Qed.

Lemma tunnel_inj a b : wrap 8 (as_u16 a) = wrap 8 (as_u16 b) <-> a = b.
Proof using Dok.
  split; [|by intros ->]. assert (forall t, 0 <= as_u16 t < 256) as Hb.
  { pose proof decap_nsh_room. intros []; cbn [as_u16]; match goal with |- context [decap_as_u8 ?x] => pose proof (decap_nonneg x); pose proof (decap_below_nsh x) end; lia. }
  unfold wrap. rewrite !Z.mod_small by apply Hb. apply as_u16_inj.
Qed.

Lemma service_fits f : key_ok f -> fits 16 (service f).
Proof.
  intros [_ _ _ _ _ Hp]. unfold service. case_goal; [done|]. case_goal; [|done]. pose proof (wrap_fits 8 (l7_protocol_of f) ltac:(done)). unfold fits in *. lia.
Qed.

Lemma header_inj f g : key_ok f -> key_ok g -> header f = header g <->
  wrap 16 (l3_epc_id (flow_metrics_src (flow f))) = wrap 16 (l3_epc_id (flow_metrics_src (flow g)))
  /\ wrap 16 (l3_epc_id (flow_metrics_dst (flow f))) = wrap 16 (l3_epc_id (flow_metrics_dst (flow g)))
  /\ TapPort.split_fields (fk_tap_port (flow_key (flow f))) = TapPort.split_fields (fk_tap_port (flow_key (flow g)))
  /\ wrap 8 (CaptureNetworkType.to_u16 (fk_tap_type (flow_key (flow f)))) = wrap 8 (CaptureNetworkType.to_u16 (fk_tap_type (flow_key (flow g))))
  /\ tap_side f = tap_side g /\ fk_proto (flow_key (flow f)) = fk_proto (flow_key (flow g)) /\ service f = service g
  /\ gpid (flow_metrics_src (flow f)) = gpid (flow_metrics_src (flow g)) /\ gpid (flow_metrics_dst (flow f)) = gpid (flow_metrics_dst (flow g)).
Proof using Dok.
  intros Hf Hg. pose proof (service_fits f Hf) as Sf. pose proof (service_fits g Hg) as Sg.
  destruct Hf as [_ _ F1 F2 F3 _], Hg as [_ _ G1 G2 G3 _]. unfold header, TapPort.split_fields.
  assert (forall w x y, fits w x -> fits w y -> wrap w x = wrap w y <-> x = y) as Hfit by (intros; by rewrite !wrap_small by done).
  rewrite <- (Hfit 32 _ _ F1 G1), <- (Hfit 32 _ _ F2 G2), <- (Hfit 8 _ _ F3 G3), <- (Hfit 16 _ _ Sf Sg), <- tap_side_inj, <- !be16_inj, <- !be32_inj.
  rewrite !pair_equal_spec, <- tunnel_inj. rewrite <- (Hfit 32 (wrap 32 _) (wrap 32 _)), <- be32_inj by (by apply wrap_fits).
  rewrite <- (Hfit 8 (wrap 8 (Z.shiftr _ _)) (wrap 8 (Z.shiftr _ _))) by (by apply wrap_fits).
  unfold be16, be32. cbn [app]. split; [intros [=]; by split_and!; congruence|].
  intros (A1 & A2 & ((A3 & A4) & A5) & A6 & A7 & A8 & A9 & A10 & A11). simplify_eq. congruence.
Qed.

(** C24: The key identifies the quadruple.  Two flows with addresses of their
    families have the same key exactly when they agree on the family, both
    addresses, the EPCs of both sides (by their low 16 bits), the processes of
    both sides, the place of the capture and its kind, the side, the protocol,
    and the port of the service. *)
Theorem quad_key_identifies f g : key_ok f -> key_ok g -> get_key f = get_key g <-> same_quad f g.
Proof using Dok.
  intros Hf Hg. rewrite !get_key_layout by done. pose proof (header_inj f g Hf Hg) as Hh. destruct Hf as [Fs Fd _ _ _ _], Hg as [Gs Gd _ _ _ _].
  assert (is_ipv6 f = is_ipv6 g -> header f ++ octets (fk_ip_src (flow_key (flow f))) ++ octets (fk_ip_dst (flow_key (flow f)))
    = header g ++ octets (fk_ip_src (flow_key (flow g))) ++ octets (fk_ip_dst (flow_key (flow g))) <-> header f = header g
      /\ fk_ip_src (flow_key (flow f)) = fk_ip_src (flow_key (flow g)) /\ fk_ip_dst (flow_key (flow f)) = fk_ip_dst (flow_key (flow g))) as Heq.
  { intros Hv. rewrite <- Hv in *. rewrite <- (octets_inj _ _ _ Fs Gs), <- (octets_inj _ _ _ Fd Gd). split; [|by intros (-> & -> & ->)].
    intros [? H2]%app_inj_1; [|by rewrite !header_length]. apply app_inj_1 in H2 as [? ?]; [done|]. by rewrite !(octets_length (is_ipv6 f)). }
  split.
  - intros Hk. assert (is_ipv6 f = is_ipv6 g) as Hv by (by destruct (is_ipv6 f), (is_ipv6 g)).
    rewrite <- Hv in Hk. assert (forall a b, (if is_ipv6 f then QgV6 else QgV4) a = (if is_ipv6 f then QgV6 else QgV4) b -> a = b) as Hi by (destruct (is_ipv6 f); naive_solver).
    apply Hi, (Heq Hv) in Hk as ((? & ? & ? & ? & ? & ? & ? & ? & ?)%Hh & ? & ?). by split.
  - intros [Hv ? ? ? ? ? ? ? ? ? ? ?]. rewrite <- Hv. f_equal. apply (Heq Hv). rewrite Hh. by split_and!.
Qed.

End key.
