(* ===== verification/QuadExamples.v ===== *)
(** * Example runs of the quadruple generator

    A cache, a clock and maps that meet their interfaces, and reports on which the
    properties of the quadruple generator apply. *)

From stdpp Require Import gmap strings.
From S2P Require Import Prelude Timestamp Bytes Consts TapTypes TunnelType TapPort Endpoint MetaPacket Flow FlowNode TcpPerf FlowMerge OverwriteQueue QueueConc QueueSpec FlowLogSender FlowAggrTraces.
From S2P Require Import Meters QuadConn QuadConnSpec QuadTypes QuadGen QuadGenSpec QuadWindow QuadTraces QuadTraffic QuadTimely QuadConcurrent QuadKey.

(** ** A cache as a list *)

Section cache.
Context {K V : Type} `{Countable K}.

(** The entries with the first occurrence of each key. *)
Fixpoint dedup (l : list (K * V)) : list (K * V) :=
  match l with
  | [] => []
  | e :: l => e :: without e.1 (dedup l)
  end.

Definition entries (c : nat * list (K * V)) : list (K * V) := take c.1 (dedup c.2).

#[local] Instance list_lru : LruMap K V := {|
  lm := nat * list (K * V);
  lm_new n := (Z.to_nat n, []);
  lm_cap c := Z.of_nat c.1;
  lm_iter := entries;
  lm_put k v c := ((c.1, (k, v) :: without k (entries c)), assoc k (entries c));
  lm_get_mut k f c := match assoc k (entries c) with Some v => ((c.1, (k, f v) :: without k (entries c)), Some v) | None => (c, None) end;
  lm_resize n c := (Z.to_nat n, entries c);
  lm_clear c := (c.1, []);
|}.

Lemma elem_without k (l : list (K * V)) x : x ∈ (without k l).*1 <-> x ∈ l.*1 /\ x <> k.
Proof.
  rewrite !list_elem_of_fmap. unfold without. setoid_rewrite list_elem_of_filter. naive_solver.
Qed.

Lemma nodup_without k (l : list (K * V)) : NoDup l.*1 -> NoDup (without k l).*1.
Proof.
  induction l as [|e l IH]; [done|]. cbn [fmap list_fmap]. intros [Hn Hl]%NoDup_cons. unfold without. rewrite filter_cons. fold (without k l).
  case_decide; [|by apply IH]. cbn [fmap list_fmap]. apply NoDup_cons. split; [|by apply IH]. rewrite elem_without. naive_solver.
Qed.

Lemma dedup_nodup l : NoDup (dedup l).*1.
Proof.
  induction l as [|e l IH]; [constructor|]. cbn. apply NoDup_cons. split; [rewrite elem_without; naive_solver|by apply nodup_without].
Qed.

Lemma without_id k (l : list (K * V)) : k ∉ l.*1 -> without k l = l.
Proof.
  unfold without. induction l as [|e l IH]; [done|]. cbn [fmap list_fmap]. intros [Hn Hl]%not_elem_of_cons. rewrite filter_cons, decide_True, IH by done. done.
Qed.

Lemma dedup_id l : NoDup l.*1 -> dedup l = l.
Proof. induction l as [|e l IH]; [done|]. cbn [fmap list_fmap dedup]. intros [Hn Hl]%NoDup_cons. rewrite IH by done. by rewrite without_id. Qed.

Lemma entries_nodup c : NoDup (entries c).*1.
Proof. unfold entries. rewrite fmap_take. eapply sublist_NoDup; [apply dedup_nodup|apply sublist_take]. Qed.

Lemma entries_length c : (length (entries c) <= c.1)%nat.
Proof. unfold entries. rewrite length_take. lia. Qed.

Lemma entries_put n k v l : NoDup l.*1 -> entries (S n, (k, v) :: without k l) = (k, v) :: take n (without k l).
Proof.
  intros Hl. unfold entries. cbn [fst snd]. rewrite dedup_id; [done|]. cbn. apply NoDup_cons. split; [rewrite elem_without; naive_solver|by apply nodup_without].
Qed.

Lemma list_lru_ok : LruMapOk list_lru.
Proof.
  split; cbn [lm_iter lm_cap lm_new lm_put lm_get_mut lm_resize lm_clear list_lru].
  - apply entries_nodup.
  - intros c. pose proof (entries_length c). lia.
  - intros n Hn. split; [by destruct (Z.to_nat n)|cbn; lia].
  - intros k v [[|m] l] Hc; cbn [fst snd] in *; [lia|]. rewrite entries_put by apply entries_nodup. do 2 f_equal. lia.
  - done.
  - done.
  - intros k f c. destruct (assoc k (entries c)) as [v|] eqn:Ha; [|done]. cbn [fst]. pose proof (entries_length c) as Hl.
    rewrite assoc_list_to_map in Ha. pose proof (without_present k (entries c) v Ha) as Hw. destruct c as [[|m] l]; cbn [fst] in *; [lia|].
    rewrite entries_put by apply entries_nodup. f_equal. apply take_ge. lia.
  - intros k f c. by destruct (assoc k (entries c)).
  - intros k f c. by destruct (assoc k (entries c)).
  - intros n c Hn. split; [|cbn; lia]. unfold entries at 1. cbn [fst snd]. by rewrite dedup_id by apply entries_nodup.
  - intros c. split; [|done]. unfold entries. cbn. by destruct c.1.
Qed.

End cache.

#[local] Existing Instance list_lru.
#[local] Existing Instance list_lru_ok.
#[local] Existing Instance sample_enum.

(** The clock stands at three minutes. *)
#[local] Instance quad_env : QuadEnv := {| clock _ := from_secs 180; values_order m := (map_to_list m).*2; map_capacity _ := 0 |}.

#[local] Instance quad_env_ok : QuadEnvOk quad_env.
Proof. by split. Qed.

Definition quad_output {T} (n : nat) : OverwriteQueue T := with_capacity n.

Lemma quad_output_models {T} n : models (quad_output (T := T) n) [].
Proof. exists (OverwriteQueue.next_power_of_two n), 0%nat, [], []. split; [apply inv_init|done]. Qed.

(** A report on a TCP connection at second [t]: 3 packets to the server's port 80. *)
Definition quad_flow (t : Z) (new : bool) (c : CloseType) : TaggedFlow :=
  Build_TaggedFlow (Flow_default <| flow_stat_time := from_secs t |> <| is_new_flow := new |> <| close_type := c |> <| fl_eth_type := EthernetType.IPV4 |>
      <| flow_key := (flow_key Flow_default) <| fk_proto := IpProtocol.TCP |> <| fk_port_dst := 80 |> <| fk_ip_src := V4 1 |> <| fk_ip_dst := V4 2 |> |>
      <| flow_metrics_src := FlowMetricsPeer_default <| packet_count := 3 |> |>)
    None Client [] [] String.EmptyString false None None.

Definition quad_config : CollectorConfig := Build_CollectorConfig true true true true false.

(** ** Whole runs *)

Definition quad_inputs : list (CollectorConfig * result (list TaggedFlow) (Error TaggedFlow)) :=
  [(quad_config, Ok [quad_flow 61 true ForcedReport; quad_flow 62 false ForcedReport]); (quad_config, Err Timeout);
   (quad_config, Ok [quad_flow 100 false CloseFinish]); (quad_config, Err (Terminated None None))].

Lemma quad_inputs_ok : inputs_ok quad_inputs.
Proof. repeat constructor; vm_compute; congruence. Qed.


Lemma quad_traffic_conserved_witness : exists q q',
  QuadrupleGenerator_new quad_config (quad_output 4) (quad_output 4) (quad_output 4) true None 8 true true 2 60 8 = Ret q
  /\ handler_routine q quad_inputs = Ret q'
  /\ forall g, minute_quad_gen q' = Some g -> let v := (Traffic.packet_tx, fun f => packet_count (flow_metrics_src (flow f))) in
       cong64 (sumZ (counted_in v) (emitted g)) (sumZ (reported_in v) (injected g)).
Proof.
  destruct (quad_traffic_conserved quad_config (quad_output 4) (quad_output 4) (quad_output 4) true None 8 true true 2 60 8 [] [] [] quad_inputs)
    as (q & Hq & q' & Hq' & H1).
  - apply quad_output_models.
  - apply quad_output_models.
  - apply quad_output_models.
  - exact Logic.I.
  - vm_compute. congruence.
  - lia.
  - lia.
  - lia.
  - exact quad_inputs_ok.
  - reflexivity.
  - exists q, q'. split; [exact Hq|]. split; [exact Hq'|]. intros g Hg. apply H1; [by right|by left].
Defined.

(** ** One generator *)

Definition quad_report (t : Z) (new : bool) (c : CloseType) : Report :=
  Build_Report (quad_flow t new c) (generate_meter quad_config (quad_flow t new c)) (∅, ∅) (from_secs t) (get_key (quad_flow t new c)).

(** One connection from second 100 to 101, and one from second 101 on. *)
Definition quad_events : list event :=
  [Rep (from_secs 100) (quad_report 100 true ForcedReport); Rep (from_secs 101) (quad_report 101 true ForcedReport);
   Rep (from_secs 101) (quad_report 101 false CloseFinish); Rep (from_secs 102) (quad_report 102 false ForcedReport);
   Tick (from_secs 105) (from_secs 105)].

Definition quad_connections : list connection := [(100, Some 101); (101, None)].

Definition quad_key : QgKey := get_key (quad_flow 100 true ForcedReport).

Definition quad_run : run (SubQuadGen * option PossibleHost) :=
  g ← SubQuadGen_new (quad_output 4) (from_secs 100) 1 3 3 true 4; rfold feed quad_events (g, None).

Lemma quad_run_loads : ('(g, _) ← quad_run; Ret (injected g, window_start g, fm_load <$> with_key quad_key (emitted g)))
  = Ret (reports quad_events, from_secs 103, [1; 2; 1]).
Proof. vm_compute. reflexivity. Qed.

Lemma quad_follows : follows 1 quad_key 100 quad_connections 103 (reports quad_events).
Proof.
  split; [repeat constructor; cbn; try lia; intros b [= <-]; lia|..];
    intros σ Hσ; assert (σ = 100 \/ σ = 101 \/ σ = 102) as [-> | [-> | ->]] by lia; by vm_compute.
Qed.

Lemma timely_reports_sent_witness : exists g' h', quad_run = Ret (g', h') /\ injected g' = reports quad_events
  /\ records 1 101 quad_key (erase <$> emitted g') = option_list (erase <$> merged (group 1 101 quad_key (reports quad_events))).
Proof.
  destruct (timely_reports_sent 1 3 3 (quad_output 4) [] 100 true 4 quad_events None) as (g & g' & h' & Hg & Hf & Hi & Hs).
  - apply quad_output_models.
  - unfold params_ok. lia.
  - lia.
  - lia.
  - lia.
  - lia.
  - cbn. unfold ev_secs. by vm_compute.
  - exists g', h'. unfold quad_run. change (from_secs 100) with (from_secs (1 * 100)). rewrite Hg. split; [exact Hf|]. split; [exact Hi|].
    apply Hs. by vm_compute.
Defined.

Lemma concurrent_connections_counted_witness : exists g' h', quad_run = Ret (g', h')
  /\ Forall (fun f => fm_load f = Z.max 1 (number exists_in quad_connections (slot_of 1 (fm_time f)))) (with_key quad_key (emitted g'))
  /\ length (with_key quad_key (emitted g')) = 3%nat.
Proof.
  destruct (concurrent_connections_counted 1 3 3 quad_key 100 {[key_bytes quad_key]} (quad_output 4) [] 4 250 quad_events None) as (g & g' & h' & B & Hg & Hf & Hw & Hl).
  - apply quad_output_models.
  - unfold params_ok. lia.
  - lia.
  - lia.
  - lia.
  - split; [by vm_compute|lia].
  - lia.
  - repeat constructor; try (by vm_compute); intros; by vm_compute.
  - by vm_compute.
  - by vm_compute.
  - pose proof quad_run_loads as Hr. assert (quad_run = Ret (g', h')) as Hrun.
    { unfold quad_run. change (from_secs 100) with (from_secs (1 * 100)). rewrite Hg. exact Hf. }
    rewrite Hrun in Hr. cbn [mbind run_bind] in Hr. injection Hr as Hi Hw' Hlen. exists g', h'. split; [exact Hrun|]. rewrite Hw in Hw'.
    assert (B = 103) as -> by (unfold from_secs, Timestamp.NANOS_IN_SECOND in Hw'; lia). rewrite Hi in Hl. split; [|by rewrite <- (length_fmap fm_load), Hlen].
    eapply Forall_impl; [exact (Hl quad_connections quad_follows)|]. intros f [_ Hx]. exact Hx.
Defined.

(** ** Keys *)

Lemma quad_flow_key_ok t new c : key_ok (quad_flow t new c).
Proof. by split; vm_compute. Qed.

Lemma quad_key_identifies_witness :
  get_key (quad_flow 100 true ForcedReport) = get_key (quad_flow 101 false CloseFinish)
  <-> same_quad (quad_flow 100 true ForcedReport) (quad_flow 101 false CloseFinish).
Proof.
  apply (quad_key_identifies (Dok := sample_enum_ok)); apply quad_flow_key_ok.
Defined.
