(* ===== verification/Documents.v ===== *)
(** * Documents and their keys (metric/document.rs, collector/collector.rs: StashKey)

    A document is a meter with the tags it is counted under.  The collectors
    find the document of a meter by a [StashKey], which packs most of the tags
    into [fast_id], a [u128].  The conversion to protobuf messages is not
    modelled. *)

From stdpp Require Import gmap strings.
From S2P Require Import Prelude Bytes TapTypes TunnelType TapPort MetaPacket Flow TcpPerf FlowMerge Meters.

(** ** Tags *)

(** [Code]: which tags a document has *)
Module Code.

Definition IP : Z := Z.shiftl 1 0.
Definition L3_EPC_ID : Z := Z.shiftl 1 1.
Definition MAC : Z := Z.shiftl 1 11.
Definition GPID : Z := Z.shiftl 1 15.
Definition IP_PATH : Z := Z.shiftl 1 20.
Definition L3_EPC_PATH : Z := Z.shiftl 1 21.
Definition MAC_PATH : Z := Z.shiftl 1 31.
Definition GPID_PATH : Z := Z.shiftl 1 35.
Definition DIRECTION : Z := Z.shiftl 1 40.
Definition ACL_GID : Z := Z.shiftl 1 41.
Definition PROTOCOL : Z := Z.shiftl 1 42.
Definition SERVER_PORT : Z := Z.shiftl 1 43.
Definition TAP_TYPE : Z := Z.shiftl 1 45.
Definition VTAP_ID : Z := Z.shiftl 1 47.
Definition TAP_PORT : Z := Z.shiftl 1 49.
Definition L7_PROTOCOL : Z := Z.shiftl 1 51.
Definition TUNNEL_IP_ID : Z := Z.shiftl 1 62.

(** [Code::union] *)
Definition union (cs : list Z) : Z := foldl Z.lor 0 cs.

End Code.

Module Direction.

Inductive t :=
| None | ClientToServer | ServerToClient | LocalToLocal | ClientNodeToServer | ServerNodeToClient | ClientHypervisorToServer
| ServerHypervisorToClient | ClientGatewayHypervisorToServer | ServerGatewayHypervisorToClient | ClientGatewayToServer
| ServerGatewayToClient | ClientProcessToServer | ServerProcessToClient | ClientAppToServer | ServerAppToClient | App.

#[global] Instance t_eq_dec : EqDecision t.
Proof. solve_decision. Defined.

(** [direction as u8] *)
Definition u8 (d : t) : Z :=
  match d with
  | None => 0
  | ClientToServer => 1
  | ServerToClient => 2
  | LocalToLocal => 4
  | ClientNodeToServer => Z.lor 1 SIDE_NODE
  | ServerNodeToClient => Z.lor 2 SIDE_NODE
  | ClientHypervisorToServer => Z.lor 1 SIDE_HYPERVISOR
  | ServerHypervisorToClient => Z.lor 2 SIDE_HYPERVISOR
  | ClientGatewayHypervisorToServer => Z.lor 1 SIDE_GATEWAY_HYPERVISOR
  | ServerGatewayHypervisorToClient => Z.lor 2 SIDE_GATEWAY_HYPERVISOR
  | ClientGatewayToServer => Z.lor 1 SIDE_GATEWAY
  | ServerGatewayToClient => Z.lor 2 SIDE_GATEWAY
  | ClientProcessToServer => Z.lor 1 SIDE_PROCESS
  | ServerProcessToClient => Z.lor 2 SIDE_PROCESS
  | ClientAppToServer => Z.lor 1 SIDE_APP
  | ServerAppToClient => Z.lor 2 SIDE_APP
  | App => SIDE_APP
  end.

End Direction.

(** [TapSide::from(direction)] *)
Definition TapSide_from (d : Direction.t) : TapSide :=
  match d with
  | Direction.ClientToServer => Client
  | Direction.ServerToClient => Server
  | Direction.LocalToLocal => Local
  | Direction.ClientNodeToServer => ClientNode
  | Direction.ServerNodeToClient => ServerNode
  | Direction.ClientHypervisorToServer => ClientHypervisor
  | Direction.ServerHypervisorToClient => ServerHypervisor
  | Direction.ClientGatewayHypervisorToServer => ClientGatewayHypervisor
  | Direction.ServerGatewayHypervisorToClient => ServerGatewayHypervisor
  | Direction.ClientGatewayToServer => ClientGateway
  | Direction.ServerGatewayToClient => ServerGateway
  | Direction.ClientProcessToServer => ClientProcess
  | Direction.ServerProcessToClient => ServerProcess
  | Direction.ClientAppToServer => ClientApp
  | Direction.ServerAppToClient => ServerApp
  | Direction.App => App
  | Direction.None => Rest
  end.

Definition MAC_ZERO : bytes := [0; 0; 0; 0; 0; 0].

Record Tagger := {
  tg_code : Z;
  tg_ip : IpAddr;
  tg_ip1 : IpAddr;
  tg_global_thread_id : Z;
  tg_is_ipv6 : bool;
  tg_l3_epc_id : Z;
  tg_l3_epc_id1 : Z;
  tg_mac : bytes;
  tg_mac1 : bytes;
  tg_direction : Direction.t;
  tg_tap_side : TapSide;
  tg_protocol : Z;
  tg_acl_gid : Z;
  tg_server_port : Z;
  tg_agent_id : Z;
  tg_tap_port : TapPort.t;
  tg_tap_type : CaptureNetworkType.t;
  tg_l7_protocol : Z;
  tg_gpid : Z;
  tg_gpid_1 : Z;
  tg_otel_service : option string;
  tg_otel_instance : option string;
  tg_endpoint : option string;
  tg_biz_type : Z;
  tg_signal_source : SignalSource;
  tg_pod_id : Z;
  tg_time_span : Z;
}.

#[export] Instance Tagger_fields : Fields Tagger := fun x =>
  Build_Tagger (tg_code x) (tg_ip x) (tg_ip1 x) (tg_global_thread_id x) (tg_is_ipv6 x) (tg_l3_epc_id x) (tg_l3_epc_id1 x) (tg_mac x)
    (tg_mac1 x) (tg_direction x) (tg_tap_side x) (tg_protocol x) (tg_acl_gid x) (tg_server_port x) (tg_agent_id x) (tg_tap_port x)
    (tg_tap_type x) (tg_l7_protocol x) (tg_gpid x) (tg_gpid_1 x) (tg_otel_service x) (tg_otel_instance x) (tg_endpoint x)
    (tg_biz_type x) (tg_signal_source x) (tg_pod_id x) (tg_time_span x).

Definition Tagger_default : Tagger :=
  Build_Tagger 0 (V4 0) (V4 0) 0 false (-2) (-2) MAC_ZERO MAC_ZERO Direction.ClientToServer Rest 0 0 0 0 0 CaptureNetworkType.Any L7_UNKNOWN
    0 0 None None None 0 Packet 0 0.

(** [DocumentFlag] *)
Definition FLAG_NONE : Z := 0.
Definition PER_SECOND_METRICS : Z := 1.

Record Document := { doc_timestamp : Z; doc_tagger : Tagger; doc_meter : Meter; doc_flags : Z }.

#[export] Instance Document_fields : Fields Document := fun x =>
  Build_Document (doc_timestamp x) (doc_tagger x) (doc_meter x) (doc_flags x).

Definition Document_new (m : Meter) : Document := Build_Document 0 Tagger_default m FLAG_NONE.

(** ** Keys *)

Record StashKey := {
  sk_fast_id : Z;
  sk_src_ip : IpAddr;
  sk_dst_ip : IpAddr;
  sk_src_gpid : Z;
  sk_dst_gpid : Z;
  sk_endpoint_hash : Z;
  sk_time_span : Z;
  sk_biz_type : Z;
}.

#[export] Instance StashKey_eq_dec : EqDecision StashKey.
Proof. solve_decision. Defined.

#[export] Instance StashKey_countable : Countable StashKey.
Proof.
  refine (inj_countable' (fun k => (sk_fast_id k, sk_src_ip k, sk_dst_ip k, sk_src_gpid k, sk_dst_gpid k, sk_endpoint_hash k, sk_time_span k, sk_biz_type k))
    (fun '(a, b, c, d, e, f, g, h) => Build_StashKey a b c d e f g h) _). by intros [].
Defined.

Definition SINGLE_IP : Z := Code.union [Code.IP; Code.L3_EPC_ID; Code.GPID; Code.VTAP_ID; Code.PROTOCOL; Code.DIRECTION; Code.TAP_TYPE].
Definition SINGLE_IP_PORT : Z := Code.union [SINGLE_IP; Code.SERVER_PORT].
Definition SINGLE_MAC_IP_PORT : Z := Code.union [SINGLE_IP; Code.MAC; Code.SERVER_PORT].
Definition SINGLE_IP_PORT_APP : Z := Code.union [SINGLE_IP; Code.SERVER_PORT; Code.L7_PROTOCOL].
Definition SINGLE_MAC_IP_PORT_APP : Z := Code.union [SINGLE_IP; Code.SERVER_PORT; Code.MAC; Code.L7_PROTOCOL].
Definition EDGE_IP : Z :=
  Code.union [Code.IP_PATH; Code.L3_EPC_PATH; Code.GPID_PATH; Code.VTAP_ID; Code.PROTOCOL; Code.DIRECTION; Code.TAP_TYPE; Code.TAP_PORT].
Definition EDGE_IP_PORT : Z := Code.union [EDGE_IP; Code.SERVER_PORT].
Definition EDGE_MAC_IP_PORT : Z := Code.union [EDGE_IP; Code.MAC_PATH; Code.SERVER_PORT].
Definition EDGE_IP_PORT_APP : Z := Code.union [EDGE_IP; Code.SERVER_PORT; Code.L7_PROTOCOL].
Definition EDGE_MAC_IP_PORT_APP : Z := Code.union [EDGE_IP; Code.MAC_PATH; Code.SERVER_PORT; Code.L7_PROTOCOL].
Definition ACL : Z := Code.union [Code.ACL_GID; Code.TUNNEL_IP_ID; Code.VTAP_ID].

(** The fields of a single point with the number of its code, which each arm writes out. *)
Definition single_bits (t : Tagger) (code : Z) : Z :=
  Z.lor (Z.lor (Z.lor (Z.lor (Z.lor (wrap 16 (tg_l3_epc_id t)) (Z.shiftl (tg_protocol t) 16)) (Z.shiftl (Direction.u8 (tg_direction t)) 24))
    (Z.shiftl (tg_server_port t) 32)) (Z.shiftl (CaptureNetworkType.to_u16 (tg_tap_type t)) 48)) (Z.shiftl code 56).

(** The fields of an edge. *)
Definition edge_bits (t : Tagger) (tap_port_reserve : Z) : Z :=
  Z.lor
    (Z.lor (Z.lor (Z.lor (Z.lor (wrap 16 (tg_l3_epc_id t)) (Z.shiftl (wrap 16 (tg_l3_epc_id1 t)) 16)) (Z.shiftl (tg_protocol t) 32))
      (Z.shiftl (tg_server_port t) 40)) (Z.shiftl (Direction.u8 (tg_direction t)) 56))
    (Z.shiftl (TapPort.set_reserved_bytes (tg_tap_port t) (Z.lor (CaptureNetworkType.to_u16 (tg_tap_type t)) tap_port_reserve)) 64).

(** [fast_id] of [StashKey::new]; a code without an arm panics *)
Definition fast_id (t : Tagger) : run Z :=
  let code := tg_code t in
  if code =? SINGLE_MAC_IP_PORT_APP then Ret (Z.lor (Z.lor (Z.shiftl (tg_l7_protocol t) 64) (Z.shiftl 1 59)) (single_bits t 3))
  else if code =? SINGLE_MAC_IP_PORT then Ret (Z.lor (Z.shiftl 1 59) (single_bits t 2))
  else if code =? SINGLE_IP_PORT then Ret (single_bits t 1)
  else if code =? SINGLE_IP_PORT_APP then Ret (Z.lor (single_bits t 4) (Z.shiftl (tg_l7_protocol t) 64))
  else if code =? EDGE_MAC_IP_PORT_APP
    then Ret (edge_bits t (Z.lor (Z.lor (wshl 32 (tg_l7_protocol t) 8) (Z.shiftl 3 16)) (Z.shiftl 1 19)))
  else if code =? EDGE_MAC_IP_PORT then Ret (edge_bits t (Z.lor (Z.shiftl 2 16) (Z.shiftl 1 19)))
  else if code =? EDGE_IP_PORT then Ret (edge_bits t (Z.shiftl 1 16))
  else if code =? EDGE_IP_PORT_APP then Ret (edge_bits t (Z.shiftl 4 16))
  else if code =? ACL then Ret (Z.lor (tg_acl_gid t) (Z.shiftl (tg_server_port t) 16))
  else Panic.

(** [StashKey::new] *)
Definition StashKey_new (t : Tagger) (src_ip : IpAddr) (dst_ip : option IpAddr) (endpoint_hash : Z) : run StashKey :=
  id ← fast_id t;
  Ret (Build_StashKey id src_ip (default (V4 0) dst_ip) (tg_gpid t) (tg_gpid_1 t) endpoint_hash (tg_time_span t) (tg_biz_type t)).
