(* ===== verification/DocumentKey.v ===== *)
(** * Which meters share a document (collector/collector.rs: StashKey::new)

    The packed [fast_id] is read back as a number in mixed radix: two keys are
    equal exactly when the tags they were made from agree. *)

From stdpp Require Import gmap strings.
From S2P Require Import Prelude Bytes TapTypes TunnelType TapPort MetaPacket Flow TcpPerf FlowMerge Meters Documents.

(** ** Fields of the tags *)

(** The tags have their widths: a network type in use has 8 bits, and the
    reserved bits of a port are empty. *)
Record tag_ok (t : Tagger) : Prop := {
  to_protocol : fits 8 (tg_protocol t);
  to_port : fits 16 (tg_server_port t);
  to_tap_type : fits 8 (CaptureNetworkType.to_u16 (tg_tap_type t));
  to_l7_protocol : fits 8 (tg_l7_protocol t);
  to_acl_gid : fits 16 (tg_acl_gid t);
  to_tap_port : fits 64 (tg_tap_port t) /\ Z.land (Z.shiftr (tg_tap_port t) TapPort.RESERVED_OFFSET) TapPort.RESERVED_MASK = 0;
}.

(** What the arms of [StashKey::new] pack. *)
Inductive layout := LAcl | LSingle (number : Z) (l7 : bool) | LEdge (number : Z) (l7 : bool).

Definition layout_of (code : Z) : option layout :=
  if code =? SINGLE_MAC_IP_PORT_APP then Some (LSingle 11 true)
  else if code =? SINGLE_MAC_IP_PORT then Some (LSingle 10 false)
  else if code =? SINGLE_IP_PORT then Some (LSingle 1 false)
  else if code =? SINGLE_IP_PORT_APP then Some (LSingle 4 true)
  else if code =? EDGE_MAC_IP_PORT_APP then Some (LEdge 11 true)
  else if code =? EDGE_MAC_IP_PORT then Some (LEdge 10 false)
  else if code =? EDGE_IP_PORT then Some (LEdge 1 false)
  else if code =? EDGE_IP_PORT_APP then Some (LEdge 4 false)
  else if code =? ACL then Some LAcl
  else None.

Definition epc_0 (t : Tagger) : Z := wrap 16 (tg_l3_epc_id t).
Definition epc_1 (t : Tagger) : Z := wrap 16 (tg_l3_epc_id1 t).
Definition dir (t : Tagger) : Z := Direction.u8 (tg_direction t).
Definition net (t : Tagger) : Z := CaptureNetworkType.to_u16 (tg_tap_type t).
Definition port_low (t : Tagger) : Z := tg_tap_port t mod 2 ^ 40.
Definition port_high (t : Tagger) : Z := tg_tap_port t / 2 ^ 60.
Definition app_id (t : Tagger) (l7 : bool) : Z := if l7 then tg_l7_protocol t else 0.

Definition value (t : Tagger) (l : layout) : Z :=
  match l with
  | LAcl => tg_acl_gid t + tg_server_port t * 2 ^ 16
  | LSingle c l7 => epc_0 t + tg_protocol t * 2 ^ 16 + dir t * 2 ^ 24 + tg_server_port t * 2 ^ 32 + net t * 2 ^ 48 + c * 2 ^ 56 + app_id t l7 * 2 ^ 64
  | LEdge c l7 => epc_0 t + epc_1 t * 2 ^ 16 + tg_protocol t * 2 ^ 32 + tg_server_port t * 2 ^ 40 + dir t * 2 ^ 56
      + (port_low t + (net t + app_id t l7 * 2 ^ 8 + c * 2 ^ 16) * 2 ^ 40 + port_high t * 2 ^ 60) * 2 ^ 64
  end.

Lemma dir_fits t : fits 8 (dir t).
Proof. unfold dir. by destruct (tg_direction t). Qed.

Lemma dir_inj t u : dir t = dir u <-> tg_direction t = tg_direction u.
Proof. unfold dir. split; [|by intros ->]. by destruct (tg_direction t), (tg_direction u). Qed.

Lemma app_fits t l7 : tag_ok t -> fits 8 (app_id t l7).
Proof. intros []. by destruct l7. Qed.

Lemma port_split t : tag_ok t -> tg_tap_port t = port_low t + port_high t * 2 ^ 60 /\ fits 40 (port_low t) /\ fits 4 (port_high t).
Proof.
  intros [_ _ _ _ _ [Hf Hr]]. unfold port_low, port_high, TapPort.RESERVED_OFFSET, TapPort.RESERVED_MASK in *. change 0xfffff with (Z.ones 20) in Hr.
  rewrite Z.land_ones, Z.shiftr_div_pow2 in Hr by lia. unfold fits in *.
  pose proof (Z.div_mod (tg_tap_port t) (2 ^ 40) ltac:(lia)). pose proof (Z.div_mod (tg_tap_port t / 2 ^ 40) (2 ^ 20) ltac:(lia)) as H2.
  rewrite Z.div_div in H2 by lia. change (2 ^ 40 * 2 ^ 20) with (2 ^ 60) in H2. rewrite Hr in H2. split; [lia|].
  split; [apply Z.mod_pos_bound; lia|]. split; [apply Z.div_pos; lia|apply Z.div_lt_upper_bound; lia].
Qed.

(** ** The packing *)

Lemma pack a v k : 0 <= k -> fits k a -> Z.lor a (Z.shiftl v k) = a + v * 2 ^ k.
Proof. intros Hk Ha. rewrite lor_shiftl_add by done. lia. Qed.

Lemma single_value t c : tag_ok t -> fits 4 c -> single_bits t c = value t (LSingle c false) /\ fits 60 (value t (LSingle c false)).
Proof.
  intros [Hp Hs Ht _ _ _] Hc. pose proof (dir_fits t) as Hd. pose proof (wrap_fits 16 (tg_l3_epc_id t) ltac:(done)) as He.
  unfold single_bits, value, app_id. fold (epc_0 t) (net t) (dir t) in *. unfold fits in *.
  rewrite (pack (epc_0 t)) by (unfold fits; lia). do 4 rewrite (pack (_ + _)) by (unfold fits; lia). lia.
Qed.

Lemma reserve_value t x : tag_ok t -> fits 20 x ->
  TapPort.set_reserved_bytes (tg_tap_port t) x = port_low t + x * 2 ^ 40 + port_high t * 2 ^ 60.
Proof.
  intros Ht Hx. destruct (port_split t Ht) as (Hp & Hl & Hh). unfold TapPort.set_reserved_bytes, TapPort.RESERVED_OFFSET, TapPort.RESERVED_MASK, wshl, wrap.
  change 0xfffff with (Z.ones 20). rewrite Z.land_ones by lia. rewrite (Z.mod_small x) by (unfold fits in Hx; lia).
  rewrite (Z.mod_small (Z.shiftl x 40)) by (rewrite Z.shiftl_mul_pow2; unfold fits in Hx; lia).
  rewrite Hp, <- (pack _ _ 60) by (unfold fits in *; lia). rewrite <- Z.lor_assoc, (Z.lor_comm (Z.shiftl _ 60)), Z.lor_assoc.
  rewrite (pack (port_low t)) by (unfold fits in *; lia). rewrite (pack (_ + _)) by (unfold fits in *; lia). done.
Qed.

Lemma edge_value t r c l7 : tag_ok t -> fits 4 c -> r = app_id t l7 * 2 ^ 8 + c * 2 ^ 16 -> edge_bits t r = value t (LEdge c l7).
Proof.
  intros Hok Hc ->. pose proof (app_fits t l7 Hok) as Ha. pose proof (reserve_value t (net t + app_id t l7 * 2 ^ 8 + c * 2 ^ 16) Hok) as Hr.
  pose proof Hok as [Hp Hs Ht _ _ _]. pose proof (dir_fits t) as Hd. pose proof (wrap_fits 16 (tg_l3_epc_id t) ltac:(done)) as He.
  pose proof (wrap_fits 16 (tg_l3_epc_id1 t) ltac:(done)) as He1. unfold edge_bits. fold (epc_0 t) (epc_1 t) (net t) (dir t) in *.
  assert (Z.lor (net t) (app_id t l7 * 2 ^ 8 + c * 2 ^ 16) = net t + app_id t l7 * 2 ^ 8 + c * 2 ^ 16) as ->.
  { replace (app_id t l7 * 2 ^ 8 + c * 2 ^ 16) with (Z.shiftl (app_id t l7 + c * 2 ^ 8) 8) by (rewrite Z.shiftl_mul_pow2 by lia; lia). rewrite pack by (done || lia). lia. }
  rewrite Hr by (unfold fits in *; lia). unfold fits in *. rewrite (pack (epc_0 t)) by (unfold fits; lia). do 4 rewrite (pack (_ + _)) by (unfold fits; lia). done.
Qed.

Lemma single_app_value t c : tag_ok t -> fits 4 c -> Z.lor (Z.shiftl (tg_l7_protocol t) 64) (single_bits t c) = value t (LSingle c true).
Proof.
  intros Ht Hc. destruct (single_value t c Ht Hc) as [-> Hf]. rewrite Z.lor_comm, pack by (unfold fits in *; lia). unfold value, app_id. lia.
Qed.

(** The bit for MAC addresses is part of the number. *)
Lemma single_mac t c : tag_ok t -> fits 3 c -> Z.lor (Z.shiftl 1 59) (single_bits t c) = single_bits t (c + 8).
Proof.
  intros Ht Hc. unfold single_bits. rewrite Z.lor_comm, <- !Z.lor_assoc. do 5 f_equal. change (c + 8) with (c + 1 * 2 ^ 3). rewrite <- (pack c 1 3) by done.
  by rewrite Z.shiftl_lor, Z.shiftl_shiftl.
Qed.

Lemma fast_id_value t : tag_ok t -> fast_id t = match layout_of (tg_code t) with Some l => Ret (value t l) | None => Panic end.
Proof.
  intros Ht. pose proof (to_l7_protocol t Ht) as H7. unfold fast_id, layout_of. cbv zeta. repeat case_goal; f_equal.
  - rewrite <- Z.lor_assoc, single_mac by done. by apply single_app_value.
  - rewrite single_mac by done. by apply single_value.
  - by apply single_value.
  - rewrite Z.lor_comm. by apply single_app_value.
  - apply edge_value; [done|done|]. unfold wshl, wrap. rewrite Z.mod_small by (rewrite Z.shiftl_mul_pow2 by lia; unfold fits in *; lia).
    rewrite Z.shiftl_mul_pow2 by lia. rewrite (pack (_ * _)) by (unfold fits in *; lia). rewrite (pack (_ + _)) by (unfold fits in *; lia). unfold app_id. lia.
  - by apply edge_value.
  - by apply edge_value.
  - by apply edge_value.
  - apply pack; [done|apply Ht].
Qed.

(** ** Reading it back *)

Definition same_fields (t u : Tagger) (l l' : layout) : Prop :=
  match l, l' with
  | LAcl, LAcl => tg_acl_gid t = tg_acl_gid u /\ tg_server_port t = tg_server_port u
  | LSingle c a, LSingle c' b => c = c' /\ epc_0 t = epc_0 u /\ tg_protocol t = tg_protocol u /\ dir t = dir u
      /\ tg_server_port t = tg_server_port u /\ net t = net u /\ app_id t a = app_id u b
  | LEdge c a, LEdge c' b => c = c' /\ epc_0 t = epc_0 u /\ tg_protocol t = tg_protocol u /\ dir t = dir u
      /\ tg_server_port t = tg_server_port u /\ net t = net u /\ app_id t a = app_id u b /\ epc_1 t = epc_1 u /\ tg_tap_port t = tg_tap_port u
  | _, _ => False
  end.

Definition good (l : layout) : Prop := match l with LAcl => True | LSingle c _ | LEdge c _ => 0 < c < 16 end.

(** Numbers in mixed radix, as digits with their widths in bits. *)
Fixpoint radix (ds : list (Z * Z)) : Z :=
  match ds with
  | [] => 0
  | (d, w) :: ds => d + 2 ^ w * radix ds
  end.

Definition digits_ok (ds : list (Z * Z)) : Prop := Forall (fun d => 0 <= d.2 /\ fits d.2 d.1) ds.

Lemma digit a b x y B : 0 <= a < B -> 0 <= b < B -> a + B * x = b + B * y -> a = b /\ x = y.
Proof. intros Ha Hb He. assert (x = y) by nia. nia. Qed.

Lemma radix_inj ds : digits_ok ds -> forall es, digits_ok es -> ds.*2 = es.*2 -> radix ds = radix es -> ds = es.
Proof.
  induction 1 as [|[d w] ds [Hw Hd] _ IH]; intros es Hes Hws He; destruct es as [|[e v] es]; try done.
  injection Hws as -> Hws. apply Forall_cons_1 in Hes as [[_ Hf] Hes]. cbn in *. apply digit in He as [-> He]; [|done|done]. by rewrite (IH es).
Qed.

Definition digits (t : Tagger) (l : layout) : list (Z * Z) :=
  match l with
  | LAcl => [(tg_acl_gid t, 16); (tg_server_port t, 16)]
  | LSingle c l7 => [(epc_0 t, 16); (tg_protocol t, 8); (dir t, 8); (tg_server_port t, 16); (net t, 8); (c, 8); (app_id t l7, 8)]
  | LEdge c l7 => [(epc_0 t, 16); (epc_1 t, 16); (tg_protocol t, 8); (tg_server_port t, 16); (dir t, 8); (port_low t, 40); (net t, 8); (app_id t l7, 8); (c, 4);
      (port_high t, 4)]
  end.

Lemma value_radix t l : value t l = radix (digits t l).
Proof. destruct l; cbn [value digits radix]; lia. Qed.

Lemma digits_fit t l : tag_ok t -> good l -> digits_ok (digits t l).
Proof.
  intros Ht Hl. destruct (port_split t Ht) as (_ & Hlo & Hhi). pose proof Ht as [H1 H2 H3 H4 H5 _].
  destruct l as [|c a|c a]; cbn [digits good] in *; repeat apply Forall_cons_2; try apply Forall_nil_2; (split; [done|]); cbn;
    (done || apply dir_fits || by apply app_fits) || (unfold fits; lia) || by apply wrap_fits.
Qed.

Lemma value_range t l : tag_ok t -> good l ->
  match l with LAcl => value t l < 2 ^ 32 | LSingle _ _ => 2 ^ 56 <= value t l < 2 ^ 72 | LEdge _ _ => 2 ^ 120 <= value t l end.
Proof.
  intros Ht Hl. rewrite value_radix. pose proof (digits_fit t l Ht Hl) as Hd. unfold digits_ok in Hd.
  destruct l as [|c a|c a]; cbn [digits radix good] in *; rewrite !Forall_cons in Hd; cbn [fst snd] in Hd; unfold fits in Hd; lia.
Qed.

Lemma value_inj t u l l' : tag_ok t -> tag_ok u -> good l -> good l' -> value t l = value u l' <-> same_fields t u l l'.
Proof.
  intros Ht Hu Hl Hl'. split.
  - intros He. pose proof (value_range t l Ht Hl) as Hr. pose proof (value_range u l' Hu Hl') as Hr'. rewrite He in Hr.
    assert ((digits t l).*2 = (digits u l').*2) as Hw by (destruct l, l'; done || lia).
    rewrite !value_radix in He. apply radix_inj in He; [|by apply digits_fit..|done].
    destruct (port_split t Ht) as (Pt & _), (port_split u Hu) as (Pu & _).
    destruct l, l'; try done; cbn [digits same_fields] in *; injection He; intros; split_and!; congruence.
  - destruct l as [|c a|c a], l' as [|c' b|c' b]; cbn [value same_fields]; try done.
    + by intros (-> & ->).
    + by intros (-> & -> & -> & -> & -> & -> & ->).
    + intros (-> & -> & -> & -> & -> & -> & -> & -> & Hp). unfold port_low, port_high. by rewrite Hp.
Qed.

(** ** Keys *)

Definition is_edge (code : Z) : bool := bool_decide (code ∈ [EDGE_MAC_IP_PORT_APP; EDGE_MAC_IP_PORT; EDGE_IP_PORT; EDGE_IP_PORT_APP]).

(** The codes whose key has the protocol of the application; [EDGE_IP_PORT_APP] is not one of them. *)
Definition names_protocol (code : Z) : bool := bool_decide (code ∈ [SINGLE_MAC_IP_PORT_APP; SINGLE_IP_PORT_APP; EDGE_MAC_IP_PORT_APP]).

(** The tags that count: the kind of the document, and what it is a document of. *)
Definition same_tags (t u : Tagger) : Prop :=
  tg_code t = tg_code u /\ tg_server_port t = tg_server_port u /\ tg_gpid t = tg_gpid u /\ tg_gpid_1 t = tg_gpid_1 u
  /\ tg_time_span t = tg_time_span u /\ tg_biz_type t = tg_biz_type u
  /\ if tg_code t =? ACL then tg_acl_gid t = tg_acl_gid u
     else wrap 16 (tg_l3_epc_id t) = wrap 16 (tg_l3_epc_id u) /\ tg_protocol t = tg_protocol u /\ tg_direction t = tg_direction u
       /\ CaptureNetworkType.to_u16 (tg_tap_type t) = CaptureNetworkType.to_u16 (tg_tap_type u)
       /\ (is_edge (tg_code t) = true -> wrap 16 (tg_l3_epc_id1 t) = wrap 16 (tg_l3_epc_id1 u) /\ tg_tap_port t = tg_tap_port u)
       /\ (names_protocol (tg_code t) = true -> tg_l7_protocol t = tg_l7_protocol u).

Definition layouts : list (Z * layout) :=
  [(SINGLE_MAC_IP_PORT_APP, LSingle 11 true); (SINGLE_MAC_IP_PORT, LSingle 10 false); (SINGLE_IP_PORT, LSingle 1 false); (SINGLE_IP_PORT_APP, LSingle 4 true);
   (EDGE_MAC_IP_PORT_APP, LEdge 11 true); (EDGE_MAC_IP_PORT, LEdge 10 false); (EDGE_IP_PORT, LEdge 1 false); (EDGE_IP_PORT_APP, LEdge 4 false); (ACL, LAcl)].

Lemma layout_in c l : layout_of c = Some l -> (c, l) ∈ layouts.
Proof.
  unfold layout_of, layouts. intros Hl. repeat case_match; simplify_eq; repeat match goal with H : (_ =? _) = true |- _ => apply Z.eqb_eq in H as -> end;
    repeat (apply elem_of_cons; (by left) || right).
Qed.

(** What the layout of a code says of it. *)
Definition tells (l : layout) (c : Z) : Prop :=
  good l /\ match l with
  | LAcl => c = ACL
  | LSingle _ b => (c =? ACL) = false /\ is_edge c = false /\ names_protocol c = b
  | LEdge _ b => (c =? ACL) = false /\ is_edge c = true /\ names_protocol c = b
  end.

Lemma layout_tells c l : layout_of c = Some l -> tells l c.
Proof.
  intros Hl%layout_in.
  assert (Forall (fun p => tells p.2 p.1) layouts) as Hall by (repeat constructor).
  apply (proj1 (Forall_forall _ _) Hall (c, l) Hl).
Qed.

(** The number of a code names it. *)
Definition number (l : layout) : Z := match l with LAcl => 0 | LSingle c _ => c | LEdge c _ => 16 + c end.

Lemma layout_inj c c' l l' : layout_of c = Some l -> layout_of c' = Some l' -> number l = number l' -> c = c' /\ l = l'.
Proof.
  intros H1%layout_in H2%layout_in. assert (Forall (fun p => Forall (fun q => number p.2 = number q.2 -> p = q) layouts) layouts) as Hall.
  { repeat constructor; intros [=]. }
  pose proof (proj1 (Forall_forall _ _) (proj1 (Forall_forall _ _) Hall _ H1) _ H2) as Hpq. cbn in Hpq. intros Hn. by specialize (Hpq Hn) as [= -> ->].
Qed.

Lemma same_fields_tags t u l l' : layout_of (tg_code t) = Some l -> layout_of (tg_code u) = Some l' -> same_fields t u l l' <->
  tg_code t = tg_code u /\ tg_server_port t = tg_server_port u
  /\ if tg_code t =? ACL then tg_acl_gid t = tg_acl_gid u
     else epc_0 t = epc_0 u /\ tg_protocol t = tg_protocol u /\ tg_direction t = tg_direction u /\ net t = net u
       /\ (is_edge (tg_code t) = true -> epc_1 t = epc_1 u /\ tg_tap_port t = tg_tap_port u)
       /\ (names_protocol (tg_code t) = true -> tg_l7_protocol t = tg_l7_protocol u).
Proof.
  intros Hl Hl'. destruct (layout_tells _ _ Hl) as [_ Ht]. split.
  - intros Hs. assert (number l = number l') as Hn by (destruct l, l'; cbn in *; naive_solver).
    destruct (layout_inj _ _ _ _ Hl Hl' Hn) as [Hc <-]. split; [done|].
    destruct l as [|c b|c b]; cbn [same_fields] in Hs; cbv iota in Ht.
    + rewrite Ht. naive_solver.
    + destruct Ht as (-> & -> & <-), Hs as (_ & ? & ? & Hd%dir_inj & ? & ? & Ha). split_and!; [done..|]. intros Hb. rewrite Hb in Ha. done.
    + destruct Ht as (-> & -> & <-), Hs as (_ & ? & ? & Hd%dir_inj & ? & ? & Ha & ? & ?). split_and!; [done..|]. intros Hb. rewrite Hb in Ha. done.
  - intros (Hc & Hp & Hr). rewrite <- Hc, Hl in Hl'. injection Hl' as <-. destruct l as [|c b|c b]; cbn [same_fields app_id]; cbv iota in Ht.
    + rewrite Ht in Hr. done.
    + destruct Ht as (Ht & He & Hb). rewrite Ht, Hb in Hr. destruct Hr as (? & ? & Hd%dir_inj & ? & _ & Ha). split_and!; [done..|]. destruct b; [by apply Ha|done].
    + destruct Ht as (Ht & He & Hb). rewrite Ht, He, Hb in Hr. destruct Hr as (? & ? & Hd%dir_inj & ? & [? ?] & Ha); [done|].
      split_and!; [done..| |done|done]. destruct b; [by apply Ha|done].
Qed.

(** C26: A document collects what belongs together.  For tags of their widths,
    keys that are made for two taggers are equal exactly when the kinds of the
    documents, the addresses, processes, service port, business type, time span
    and endpoint agree, and, according to the kind, the id of the policy or the
    EPCs, protocol, direction, network type, port of the capture and protocol of
    the application.  The last one counts for all kinds with an application but
    edges without MAC addresses. *)
Theorem document_key_identifies t u ip0 ip1 ip0' ip1' e e' k k' : tag_ok t -> tag_ok u ->
  StashKey_new t ip0 ip1 e = Ret k -> StashKey_new u ip0' ip1' e' = Ret k' ->
  k = k' <-> same_tags t u /\ ip0 = ip0' /\ default (V4 0) ip1 = default (V4 0) ip1' /\ e = e'.
Proof.
  intros Ht Hu. unfold StashKey_new. rewrite !fast_id_value by done.
  destruct (layout_of (tg_code t)) as [l|] eqn:Hl; [|done]. destruct (layout_of (tg_code u)) as [l'|] eqn:Hl'; [|done]. cbn. intros [= <-] [= <-].
  destruct (layout_tells _ _ Hl) as [Hg _], (layout_tells _ _ Hl') as [Hg' _].
  pose proof (value_inj t u l l' Ht Hu Hg Hg') as Hv. rewrite (same_fields_tags t u l l' Hl Hl') in Hv.
  unfold same_tags, epc_0, epc_1, net in *. split.
  - intros [= Hv' -> Hip -> -> -> -> ->]. apply Hv in Hv' as (? & ? & ?). by split_and!.
  - intros ((? & ? & Hg0 & Hg1 & Hts & Hb & ?) & -> & -> & ->). rewrite Hg0, Hg1, Hts, Hb. f_equal. by apply Hv.
Qed.
