(* ===== verification/Collector.v ===== *)
(** * The collectors (collector/collector.rs)

    A collector takes the metered flows of the quadruple generator, or the
    application meters of the generator for L7, and counts them in the documents
    of the current second or minute: up to two single points and up to two edges
    per flow, and one document per policy.  When a flow of a later time arrives
    the documents are sent and the window moves.  Of [MiniFlow] the fields that
    the quadruple generator only copies stand beside it in [FlowTags].  The
    clock, the capacity of the map and the orders of its entries are an
    environment. *)

From stdpp Require Import gmap strings.
From S2P Require Import Prelude Timestamp Bytes Consts TapTypes TunnelType TapPort Endpoint MetaPacket Flow TcpPerf FlowMerge OverwriteQueue.
From S2P Require Import Meters QuadConn QuadTypes QuadGen Documents.

(** Readings of the clock and of the capacity of the map, in their order, and
    the orders in which hash maps give their entries. *)
Class CollEnv := {
  coll_clock : nat -> Z;
  coll_capacity : nat -> Z;
  drain_order : gmap StashKey Document -> list (StashKey * Document);
  ids_order : gmap Z Z -> list (Z * Z);
}.

Class CollEnvOk (E : CollEnv) : Prop := {
  coll_clock_fits n : fits 64 (coll_clock n);
  drain_order_perm m : drain_order m ≡ₚ map_to_list m;
  ids_order_perm m : ids_order m ≡ₚ map_to_list m;
}.

(** ** State *)

(** The tags of a [MiniFlow] *)
Record FlowTags := {
  directions : Direction.t * Direction.t;
  otel_service : option string;
  otel_instance : option string;
  pod_id : Z;
}.

Record AppMeterWithFlow := {
  am_flow : MiniFlow;
  am_tags : FlowTags;
  am_l7_protocol : Z;
  am_endpoint_hash : Z;
  am_endpoint : option string;
  am_biz_type : Z;
  am_is_active_host0 : bool;
  am_is_active_host1 : bool;
  am_app_meter : AppMeter.t;
  am_time : Timestamp.t;
  am_time_span : Z;
}.

(** The parts of [CollectorConfig] that are read here; the kind of the agent
    counts only as far as it is a dedicated physical machine. *)
Record CollectorConfig := {
  agent_id : Z;
  is_tt_dedicated : bool;
  inactive_ip_aggregation : bool;
  inactive_server_port_aggregation : bool;
}.

Inductive MetricsType := SECOND | MINUTE.
Inductive RunningMode := Managed | Standalone.

#[export] Instance MetricsType_eq_dec : EqDecision MetricsType.
Proof. solve_decision. Defined.

Record Context := { ctx_id : Z; ctx_delay_seconds : Z; ctx_metric_type : MetricsType; ctx_agent_mode : RunningMode }.

Record CollectorCounter := {
  cc_window_delay : Z;
  cc_flow_delay : Z;
  cc_out : Z;
  cc_drop_before_window : Z;
  cc_drop_inactive : Z;
  cc_no_endpoint : Z;
  cc_stash_len : Z;
  cc_stash_capacity : Z;
  cc_stash_shrinks : Z;
}.

#[export] Instance CollectorCounter_fields : Fields CollectorCounter := fun x =>
  Build_CollectorCounter (cc_window_delay x) (cc_flow_delay x) (cc_out x) (cc_drop_before_window x) (cc_drop_inactive x) (cc_no_endpoint x)
    (cc_stash_len x) (cc_stash_capacity x) (cc_stash_shrinks x).

(** [get_counters] gives the values and resets all but the last sizes *)
Definition CollectorCounter_get_counters (c : CollectorCounter) : CollectorCounter * CollectorCounter :=
  (c, Build_CollectorCounter 0 0 0 0 0 0 (cc_stash_len c) (cc_stash_capacity c) 0).

(** What is counted under a key. *)
Abbreviation item := (StashKey * Tagger * Meter)%type.

(** [added] and [handed] record, with the second of the window, what was counted
    and which documents the queue took; [coll_reads] counts the readings. *)
Record Stash := {
  doc_sender : OverwriteQueue Document;
  closed_docs : list Document;
  coll_counter : CollectorCounter;
  start_time : Z;
  coll_interval : Z;
  inner : gmap StashKey Document;
  history_length : list Z;
  coll_init_capacity : Z;
  global_thread_id : Z;
  doc_flag : Z;
  context : Context;
  coll_reads : nat;
  added : list (Z * item);
  handed : list (Z * (StashKey * Document));
}.

#[export] Instance Stash_fields : Fields Stash := fun x =>
  Build_Stash (doc_sender x) (closed_docs x) (coll_counter x) (start_time x) (coll_interval x) (inner x) (history_length x)
    (coll_init_capacity x) (global_thread_id x) (doc_flag x) (context x) (coll_reads x) (added x) (handed x).

Definition HISTORY_RECORD_COUNT : nat := 10.

Definition on_coll_counter (u : CollectorCounter -> CollectorCounter) (s : Stash) : Stash := s <| coll_counter := u (coll_counter s) |>.

Definition window_secs (s : Stash) : Z := Timestamp.as_secs (start_time s).

Section collector.
Context {E : CollEnv}.

Definition Stash_new (ctx : Context) (sender : OverwriteQueue Document) : Stash :=
  let second := bool_decide (ctx_metric_type ctx = SECOND) in
  let start_time := from_secs ((Timestamp.as_secs (coll_clock 0) / SECONDS_IN_MINUTE * SECONDS_IN_MINUTE) -₆₄ (2 * SECONDS_IN_MINUTE)) in
  Build_Stash sender [] (Build_CollectorCounter 0 0 0 0 0 0 0 0 0) start_time (if second then 1 else 60) ∅ (replicate HISTORY_RECORD_COUNT 0)
    (coll_capacity 0) (wadd 8 (wrap 8 (ctx_id ctx)) 1) (if second then PER_SECOND_METRICS else FLAG_NONE) ctx 1 [] [].

(** ** Documents *)

Definition add (s : Stash) (i : item) : run Stash :=
  let '(key, tagger, meter) := i in
  doc ← (match inner s !! key with
         | Some doc => m ← Meter_sequential_merge (doc_meter doc) meter; Ret (doc <| doc_meter := m |>)
         | None => Ret ((Document_new meter) <| doc_tagger := tagger |>)
         end);
  Ret (s <| inner := <[key := doc]> (inner s) |> <| added := added s ++ [(window_secs s, i)] |>).

(** A batch is sent; the flag is false when the queue does not take it. *)
Definition send_docs (s : Stash) (batch : list (StashKey * Document)) : run (Stash * bool) :=
  '(o, _, r) ← send_all (doc_sender s) batch.*2;
  Ret (match r with
       | Ok _ => (s <| doc_sender := o |> <| handed := handed s ++ (pair (window_secs s) <$> batch) |>, true)
       | Err _ => (s <| doc_sender := o |>, false)
       end).

(** [push_closed_doc]: a full batch is sent, or given up *)
Definition push_closed_doc (s : Stash) (closed_doc : Document) : run Stash :=
  let docs := closed_docs s ++ [closed_doc] in
  if (QUEUE_BATCH_SIZE <=? length docs)%nat then
    '(o, _, _) ← send_all (doc_sender s) docs;
    Ret (s <| doc_sender := o |> <| closed_docs := [] |>)
  else Ret (s <| closed_docs := docs |>).

(** The loop over the drained documents; the flag is false when it returns early. *)
Fixpoint flush_docs (s : Stash) (batch docs : list (StashKey * Document)) : run (Stash * bool) :=
  match docs with
  | [] => match batch with [] => Ret (s, true) | _ => '(s, _) ← send_docs s batch; Ret (s, true) end
  | (key, doc) :: docs =>
      '(s, batch, go) ← (if (QUEUE_BATCH_SIZE <=? length batch)%nat then '(s, ok) ← send_docs s batch; Ret (s, [], ok) else Ret (s, batch, true));
      if go : bool then
        let doc := doc <| doc_timestamp := wrap 32 (window_secs s) |> <| doc_flags := Z.lor (doc_flags doc) (doc_flag s) |> in
        flush_docs s (batch ++ [(key, doc)]) docs
      else Ret (s, false)
  end.

Definition flush_stats (s : Stash) : run Stash :=
  let s := s <| history_length := Z.of_nat (base.size (inner s)) :: removelast (history_length s) |> in
  '(s, go) ← flush_docs (s <| inner := ∅ |>) [] (drain_order (inner s));
  if go : bool then
    let stash_cap := coll_capacity (coll_reads s) in
    let s := s <| coll_reads := S (coll_reads s) |> in
    if coll_init_capacity s <? stash_cap then
      let max_history := foldl Z.max 0 (history_length s) in
      if 2 * max_history <? stash_cap then Ret (on_coll_counter (fun c => c <| cc_stash_shrinks := cc_stash_shrinks c +₆₄ 1 |>) s)
      else Ret s
    else Ret s
  else Ret s.

Definition coll_stash_counters (s : Stash) : run Stash :=
  len ← unwrap (head (history_length s));
  Ret ((on_coll_counter (fun c => c <| cc_stash_len := len |> <| cc_stash_capacity := coll_capacity (coll_reads s) |>) s) <| coll_reads := S (coll_reads s) |>).

(** ** Taggers *)

Definition unspecified_ip (is_ipv6 : bool) : IpAddr := if is_ipv6 then V6 (replicate 16 0) else V4 0.

Definition ignore_server_port (flow : MiniFlow) (inactive_server_port_aggregation : bool) : bool :=
  (negb (mf_is_active_service flow) && inactive_server_port_aggregation) || negb (is_tcp_or_udp (fk_proto (mf_flow_key flow))).

(** [l3_epc_id as i16] *)
Definition i16 (z : Z) : Z := (z + 2 ^ 15) mod 2 ^ 16 - 2 ^ 15.

Definition get_l3_epc_id (l3_epc_id : Z) (signal_source : SignalSource) : Z :=
  if (l3_epc_id <? 0) && bool_decide (signal_source = OTel) then 0 else i16 l3_epc_id.

(** The address of one end, [dst] of the second one. *)
Definition single_ip (flow : MiniFlow) (dst is_active_host : bool) (config : CollectorConfig) (agent_mode : RunningMode) : IpAddr :=
  let side := if dst then mf_peer_1 flow else mf_peer_0 flow in
  let is_ipv6 := mf_eth_type flow =? EthernetType.IPV6 in
  match agent_mode with
  | Standalone => pi_nat_real_ip side
  | Managed =>
      if inactive_ip_aggregation config then if negb is_active_host then unspecified_ip is_ipv6 else pi_nat_real_ip side
      else if negb dst then
        if negb (pi_l3_epc_id (mf_peer_0 flow) =? EPC_INTERNET) || bool_decide (mf_signal_source flow = OTel)
        then pi_nat_real_ip (mf_peer_0 flow) else unspecified_ip is_ipv6
      else pi_nat_real_ip (mf_peer_1 flow)
  end.

Definition get_single_tagger (global_thread_id : Z) (flow : MiniFlow) (tags : FlowTags) (dst : bool) (direction : Direction.t) (is_active_host : bool)
    (config : CollectorConfig) (endpoint : option string) (biz_type time_span l7_protocol : Z) (agent_mode : RunningMode) : Tagger :=
  let flow_key := mf_flow_key flow in
  let side := if dst then mf_peer_1 flow else mf_peer_0 flow in
  let has_mac := pi_is_vip_interface side || bool_decide (direction = Direction.LocalToLocal) in
  let is_ipv6 := mf_eth_type flow =? EthernetType.IPV6 in
  let code := Code.union [Code.IP; Code.L3_EPC_ID; Code.GPID; Code.VTAP_ID; Code.PROTOCOL; Code.SERVER_PORT; Code.DIRECTION; Code.TAP_TYPE] in
  Tagger_default <| tg_global_thread_id := global_thread_id |> <| tg_agent_id := agent_id config |>
    <| tg_mac := if negb has_mac then MAC_ZERO else if negb dst then fk_mac_src flow_key else fk_mac_dst flow_key |>
    <| tg_ip := single_ip flow dst is_active_host config agent_mode |>
    <| tg_l3_epc_id := get_l3_epc_id (pi_l3_epc_id side) (mf_signal_source flow) |>
    <| tg_gpid := pi_gpid side |> <| tg_protocol := fk_proto flow_key |> <| tg_direction := direction |>
    <| tg_tap_side := TapSide_from direction |> <| tg_tap_port := fk_tap_port flow_key |> <| tg_tap_type := fk_tap_type flow_key |>
    <| tg_server_port := if negb dst || ignore_server_port flow (inactive_server_port_aggregation config) then 0 else pi_nat_real_port (mf_peer_1 flow) |>
    <| tg_is_ipv6 := is_ipv6 |> <| tg_code := if has_mac then Z.lor code Code.MAC else code |>
    <| tg_l7_protocol := l7_protocol |> <| tg_signal_source := mf_signal_source flow |>
    <| tg_otel_service := otel_service tags |> <| tg_otel_instance := otel_instance tags |> <| tg_endpoint := endpoint |>
    <| tg_biz_type := biz_type |> <| tg_pod_id := pod_id tags |> <| tg_time_span := time_span |>.

(** The addresses of both ends. *)
Definition edge_ips (flow : MiniFlow) (is_active_host0 is_active_host1 : bool) (config : CollectorConfig) (agent_mode : RunningMode) : IpAddr * IpAddr :=
  let is_ipv6 := mf_eth_type flow =? EthernetType.IPV6 in
  let src_ip := pi_nat_real_ip (mf_peer_0 flow) in
  let dst_ip := pi_nat_real_ip (mf_peer_1 flow) in
  match agent_mode with
  | Standalone => (src_ip, dst_ip)
  | Managed =>
      if inactive_ip_aggregation config
      then (if negb is_active_host0 then unspecified_ip is_ipv6 else src_ip, if negb is_active_host1 then unspecified_ip is_ipv6 else dst_ip)
      else (if (pi_l3_epc_id (mf_peer_0 flow) =? EPC_INTERNET) && bool_decide (mf_signal_source flow <> OTel) then unspecified_ip is_ipv6 else src_ip,
            dst_ip)
  end.

(** Their MAC addresses; only those of VIP interfaces are sent. *)
Definition edge_macs (flow : MiniFlow) (direction : Direction.t) : bytes * bytes :=
  let '(src_mac, dst_mac) := (fk_mac_src (mf_flow_key flow), fk_mac_dst (mf_flow_key flow)) in
  if bool_decide (direction <> Direction.LocalToLocal)
  then (if negb (pi_is_vip_interface (mf_peer_0 flow)) then MAC_ZERO else src_mac, if negb (pi_is_vip_interface (mf_peer_1 flow)) then MAC_ZERO else dst_mac)
  else (src_mac, dst_mac).

Definition get_edge_tagger (global_thread_id : Z) (flow : MiniFlow) (tags : FlowTags) (direction : Direction.t) (is_active_host0 is_active_host1 : bool)
    (config : CollectorConfig) (endpoint : option string) (biz_type time_span l7_protocol : Z) (agent_mode : RunningMode) : Tagger :=
  let flow_key := mf_flow_key flow in
  let src_ep := mf_peer_0 flow in
  let dst_ep := mf_peer_1 flow in
  let '(src_ip, dst_ip) := edge_ips flow is_active_host0 is_active_host1 config agent_mode in
  let '(src_mac, dst_mac) := edge_macs flow direction in
  let code := Code.union [Code.IP_PATH; Code.L3_EPC_PATH; Code.GPID_PATH; Code.VTAP_ID; Code.PROTOCOL; Code.SERVER_PORT; Code.DIRECTION; Code.TAP_TYPE;
    Code.TAP_PORT] in
  Tagger_default <| tg_global_thread_id := global_thread_id |> <| tg_agent_id := agent_id config |>
    <| tg_mac := src_mac |> <| tg_mac1 := dst_mac |> <| tg_ip := src_ip |> <| tg_ip1 := dst_ip |>
    <| tg_l3_epc_id := get_l3_epc_id (pi_l3_epc_id src_ep) (mf_signal_source flow) |>
    <| tg_l3_epc_id1 := get_l3_epc_id (pi_l3_epc_id dst_ep) (mf_signal_source flow) |>
    <| tg_gpid := pi_gpid src_ep |> <| tg_gpid_1 := pi_gpid dst_ep |> <| tg_protocol := fk_proto flow_key |> <| tg_direction := direction |>
    <| tg_tap_side := TapSide_from direction |> <| tg_tap_port := fk_tap_port flow_key |> <| tg_tap_type := fk_tap_type flow_key |>
    <| tg_server_port := if ignore_server_port flow (inactive_server_port_aggregation config) then 0 else pi_nat_real_port dst_ep |>
    <| tg_code := if bool_decide (src_mac <> MAC_ZERO) || bool_decide (dst_mac <> MAC_ZERO) then Z.lor code Code.MAC_PATH else code |>
    <| tg_l7_protocol := l7_protocol |> <| tg_is_ipv6 := mf_eth_type flow =? EthernetType.IPV6 |> <| tg_signal_source := mf_signal_source flow |>
    <| tg_otel_service := otel_service tags |> <| tg_otel_instance := otel_instance tags |> <| tg_endpoint := endpoint |>
    <| tg_pod_id := pod_id tags |> <| tg_biz_type := biz_type |> <| tg_time_span := time_span |>.

(** ** Layer 4 *)

(** [StashKey::new] and [add] *)
Definition add_tagged (s : Stash) (tagger : Tagger) (src_ip : IpAddr) (dst_ip : option IpAddr) (endpoint_hash : Z) (meter : Meter) : run Stash :=
  key ← StashKey_new tagger src_ip dst_ip endpoint_hash;
  add s (key, tagger, meter).

Definition fill_single_l4_stats (s : Stash) (tagger : Tagger) (flow_meter : FlowMeter.t) : run Stash :=
  match tg_direction tagger with
  | Direction.ServerToClient | Direction.ClientToServer | Direction.LocalToLocal | Direction.None =>
      add_tagged s tagger (tg_ip tagger) None 0 (MFlow flow_meter)
  | _ => Ret s
  end.

Definition fill_edge_l4_stats (s : Stash) (tagger : Tagger) (flow_meter : FlowMeter.t) : run Stash :=
  match tg_signal_source tagger with
  | Packet | XFlow => add_tagged s tagger (tg_ip tagger) (Some (tg_ip1 tagger)) 0 (MFlow flow_meter)
  | _ => Ret s
  end.

Definition dir_of (tags : FlowTags) (dst : bool) : Direction.t := if dst then (directions tags).2 else (directions tags).1.

(** The direction an end is counted with, [None] when it is skipped. *)
Definition l4_direction (flow : MiniFlow) (tags : FlowTags) (dst : bool) (config : CollectorConfig) : option Direction.t :=
  if is_tt_dedicated config && bool_decide (fk_tap_type (mf_flow_key flow) <> CaptureNetworkType.Cloud)
     && bool_decide ((directions tags).1 <> Direction.None) && bool_decide ((directions tags).2 <> Direction.None)
  then Some Direction.None
  else if bool_decide (dir_of tags dst = Direction.None) then None
  else Some (dir_of tags dst).

(** One round of the loop over the two ends. *)
Definition fill_l4_end (config : CollectorConfig) (acc_flow : FlowMeterWithFlow) (tags : FlowTags) (s : Stash) (dst : bool) : run Stash :=
  match l4_direction (fm_flow acc_flow) tags dst config with
  | None => Ret s
  | Some direction =>
      let is_active_host := if dst then is_active_host1 acc_flow else is_active_host0 acc_flow in
      s ← (if negb (inactive_ip_aggregation config) || is_active_host then
             let flow_meter := if dst then FlowMeter.reverse (flow_meter acc_flow) else flow_meter acc_flow in
             let tagger := get_single_tagger (global_thread_id s) (fm_flow acc_flow) tags dst direction is_active_host config None 0 0 L7_UNKNOWN
               (ctx_agent_mode (context s)) in
             fill_single_l4_stats s tagger flow_meter
           else Ret s);
      let tagger := get_edge_tagger (global_thread_id s) (fm_flow acc_flow) tags direction (is_active_host0 acc_flow) (is_active_host1 acc_flow) config
        None 0 0 L7_UNKNOWN (ctx_agent_mode (context s)) in
      fill_edge_l4_stats s tagger (flow_meter acc_flow)
  end.

(** The direction of an edge when both are unknown. *)
Definition unknown_direction (signal_source : SignalSource) : Direction.t :=
  if bool_decide (signal_source = OTel) then Direction.App else Direction.None.

Definition both_unknown (tags : FlowTags) : bool :=
  bool_decide ((directions tags).1 = Direction.None) && bool_decide ((directions tags).2 = Direction.None).

Definition fill_l4_stats (s : Stash) (acc_flow : FlowMeterWithFlow) (tags : FlowTags) (config : CollectorConfig) : run Stash :=
  s ← rfold (fill_l4_end config acc_flow tags) [false; true] s;
  if both_unknown tags then
    let tagger := get_edge_tagger (global_thread_id s) (fm_flow acc_flow) tags (unknown_direction (mf_signal_source (fm_flow acc_flow)))
      (is_active_host0 acc_flow) (is_active_host1 acc_flow) config None 0 0 L7_UNKNOWN (ctx_agent_mode (context s)) in
    fill_edge_l4_stats s tagger (flow_meter acc_flow)
  else Ret s.

(** The traffic in one direction, of a policy. *)
Definition usage_of (m : FlowMeter.t) (dst : bool) : UsageMeter.t :=
  let t := FlowMeter.traffic m in
  if dst then UsageMeter.Build_t 0 (Traffic.packet_rx t) 0 (Traffic.byte_rx t) 0 (Traffic.l3_byte_rx t) 0 (Traffic.l4_byte_rx t)
  else UsageMeter.Build_t (Traffic.packet_tx t) 0 (Traffic.byte_tx t) 0 (Traffic.l3_byte_tx t) 0 (Traffic.l4_byte_tx t) 0.

Definition add_policy (config : CollectorConfig) (acc_flow : FlowMeterWithFlow) (dst : bool) (s : Stash) (id : Z * Z) : run Stash :=
  let tagger := Tagger_default <| tg_code := ACL |> <| tg_acl_gid := id.1 |> <| tg_server_port := id.2 |>
    <| tg_signal_source := mf_signal_source (fm_flow acc_flow) |> <| tg_agent_id := agent_id config |> in
  add_tagged s tagger (V4 0) None 0 (MUsage (usage_of (flow_meter acc_flow) dst)).

Definition fill_policies (s : Stash) (acc_flow : FlowMeterWithFlow) (config : CollectorConfig) : run Stash :=
  if bool_decide (ctx_metric_type (context s) = MINUTE) && bool_decide (mf_signal_source (fm_flow acc_flow) = Packet) then
    s ← rfold (add_policy config acc_flow false) (ids_order (id_map_0 acc_flow)) s;
    rfold (add_policy config acc_flow true) (ids_order (id_map_1 acc_flow)) s
  else Ret s.

(** ** The window *)

(** The time of a tick is moved back by the delay. *)
Definition corrected (context : Context) (tick : bool) (time_in_second : Z) : Z :=
  if tick && (ctx_delay_seconds context <=? time_in_second) then
    match ctx_metric_type context with
    | SECOND => time_in_second -₆₄ ctx_delay_seconds context
    | MINUTE => time_in_second -₆₄ (ctx_delay_seconds context -₆₄ SECONDS_IN_MINUTE)
    end
  else time_in_second.

(** The part of [collect_l4] and [collect_l7] that moves the window. *)
Definition advance (s : Stash) (tick : bool) (time_in_second : Z) : run Stash :=
  let time_in_second := corrected (context s) tick time_in_second / coll_interval s * coll_interval s in
  let timestamp := coll_clock (coll_reads s) in
  let s := s <| coll_reads := S (coll_reads s) |> in
  s ← (if window_secs s <? time_in_second then
         let s := on_coll_counter (fun c => c <| cc_window_delay := Z.max (cc_window_delay c) (i64 (timestamp - start_time s)) |>) s in
         s ← flush_stats s;
         Ret (s <| start_time := from_secs time_in_second |>)
       else Ret s);
  Ret (on_coll_counter (fun c => c <| cc_flow_delay := Z.max (cc_flow_delay c) (i64 (timestamp - from_secs time_in_second)) |>) s).

Definition drop_late (s : Stash) : Stash := on_coll_counter (fun c => c <| cc_drop_before_window := cc_drop_before_window c +₆₄ 1 |>) s.
Definition count_inactive (s : Stash) : Stash := on_coll_counter (fun c => c <| cc_drop_inactive := cc_drop_inactive c +₆₄ 1 |>) s.

Definition collect_l4 (s : Stash) (acc_flow : option (FlowMeterWithFlow * FlowTags)) (time_in_second : Z) (config : CollectorConfig) : run Stash :=
  if time_in_second <? window_secs s then Ret (drop_late s)
  else
    s ← advance s (negb (isSome acc_flow)) time_in_second;
    match acc_flow with
    | None => Ret s
    | Some (acc_flow, tags) =>
        s ← fill_policies s acc_flow config;
        if negb (is_active_host0 acc_flow) && negb (is_active_host1 acc_flow) && inactive_ip_aggregation config then Ret (count_inactive s)
        else fill_l4_stats s acc_flow tags config
    end.

(** ** Layer 7 *)

Definition fill_single_l7_stats (s : Stash) (tagger : Tagger) (endpoint_hash : Z) (app_meter : AppMeter.t) : run Stash :=
  if negb (tg_l7_protocol tagger =? L7_UNKNOWN) || bool_decide (tg_signal_source tagger = OTel) then
    if bool_decide (tg_direction tagger = Direction.ClientToServer) || bool_decide (tg_direction tagger = Direction.ServerToClient)
       || bool_decide (tg_direction tagger = Direction.LocalToLocal) || bool_decide (tg_signal_source tagger <> Packet)
    then add_tagged s tagger (tg_ip tagger) None endpoint_hash (MApp app_meter)
    else Ret s
  else Ret s.

Definition fill_edge_l7_stats (s : Stash) (tagger : Tagger) (endpoint_hash : Z) (app_meter : AppMeter.t) : run Stash :=
  if negb (tg_l7_protocol tagger =? L7_UNKNOWN) || bool_decide (tg_signal_source tagger = OTel)
  then add_tagged s tagger (tg_ip tagger) (Some (tg_ip1 tagger)) endpoint_hash (MApp app_meter)
  else Ret s.

Definition with_app (t : Tagger) : Tagger := t <| tg_code := Z.lor (tg_code t) Code.L7_PROTOCOL |>.

Definition app_edge (config : CollectorConfig) (m : AppMeterWithFlow) (direction : Direction.t) (s : Stash) : run Stash :=
  let tagger := get_edge_tagger (global_thread_id s) (am_flow m) (am_tags m) direction (am_is_active_host0 m) (am_is_active_host1 m) config
    (am_endpoint m) (am_biz_type m) (am_time_span m) (am_l7_protocol m) (ctx_agent_mode (context s)) in
  fill_edge_l7_stats s (with_app tagger) (am_endpoint_hash m) (am_app_meter m).

Definition fill_l7_end (config : CollectorConfig) (m : AppMeterWithFlow) (s : Stash) (dst : bool) : run Stash :=
  let direction := dir_of (am_tags m) dst in
  if bool_decide (direction = Direction.None) then Ret s
  else
    let is_active_host := if dst then am_is_active_host1 m else am_is_active_host0 m in
    s ← (if negb (inactive_ip_aggregation config) || is_active_host then
           let tagger := get_single_tagger (global_thread_id s) (am_flow m) (am_tags m) dst direction is_active_host config (am_endpoint m) (am_biz_type m)
             (am_time_span m) (am_l7_protocol m) (ctx_agent_mode (context s)) in
           fill_single_l7_stats s (with_app tagger) (am_endpoint_hash m) (am_app_meter m)
         else Ret s);
    app_edge config m direction s.

Definition fill_l7_stats (s : Stash) (m : AppMeterWithFlow) (config : CollectorConfig) : run Stash :=
  s ← rfold (fill_l7_end config m) [false; true] s;
  if both_unknown (am_tags m) then app_edge config m (unknown_direction (mf_signal_source (am_flow m))) s else Ret s.

(** The end of [collect_l7], for meters of closed flows without moving the window. *)
Definition fill_l7 (s : Stash) (m : AppMeterWithFlow) (config : CollectorConfig) : run Stash :=
  if negb (am_is_active_host0 m) && negb (am_is_active_host1 m) && inactive_ip_aggregation config then Ret (count_inactive s)
  else fill_l7_stats s m config.

Definition is_closed (m : AppMeterWithFlow) : bool :=
  bool_decide (mf_close_type (am_flow m) <> CloseUnknown) && bool_decide (mf_close_type (am_flow m) <> ForcedReport).

Definition collect_l7 (s : Stash) (meter : option AppMeterWithFlow) (time_in_second : Z) (config : CollectorConfig) : run Stash :=
  if time_in_second <? window_secs s then Ret (drop_late s)
  else
    match meter with
    | Some m => if is_closed m then fill_l7 s m config else s ← advance s false time_in_second; fill_l7 s m config
    | None => advance s true time_in_second
    end.

(** ** The threads *)

(** [if let Err(e) = stash.sender.send_all(&mut stash.closed_docs) { ... clear() }] *)
Definition send_closed (s : Stash) : run Stash :=
  '(o, _, _) ← send_all (doc_sender s) (closed_docs s);
  Ret (s <| doc_sender := o |> <| closed_docs := [] |>).

Section thread.
Context {F : Type} (collect : Stash -> option F -> Z -> CollectorConfig -> run Stash) (time_of : F -> Timestamp.t).

Definition collect_one (config : CollectorConfig) (s : Stash) (f : F) : run Stash := collect s (Some f) (Timestamp.as_secs (time_of f)) config.

(** One round of the loop; the flag is false when it ends. *)
Definition coll_round (s : Stash) (config : CollectorConfig) (r : result (list F) (Error F)) : run (Stash * bool) :=
  match r with
  | Ok batch =>
      s ← rfold (collect_one config) batch s;
      s ← send_closed s;
      s ← coll_stash_counters s;
      Ret (s, true)
  | Err Timeout =>
      let now := coll_clock (coll_reads s) in
      s ← collect (s <| coll_reads := S (coll_reads s) |>) None (Timestamp.as_secs now) config;
      s ← send_closed s;
      Ret (s, true)
  | Err (Terminated _ _) => Ret (s, false)
  | Err (BatchTooLarge _) => Panic
  end.

Fixpoint coll_loop (s : Stash) (inputs : list (CollectorConfig * result (list F) (Error F))) : run Stash :=
  match inputs with
  | [] => Ret s
  | (config, r) :: inputs => '(s, continues) ← coll_round s config r; if continues : bool then coll_loop s inputs else Ret s
  end.

(** The thread of [start], on what it receives until it ends or is stopped. *)
Definition coll_thread (ctx : Context) (sender : OverwriteQueue Document) (inputs : list (CollectorConfig * result (list F) (Error F))) : run Stash :=
  s ← coll_loop (Stash_new ctx sender) inputs;
  flush_stats s.

End thread.

(** [Collector::new] and [L7Collector::new]: the delay of a minute is between one and two *)
Definition collector_delay (metric_type : MetricsType) (delay_seconds : Z) : Z :=
  match metric_type with MINUTE => reset_delay_seconds delay_seconds | SECOND => delay_seconds end.

Definition Collector_run (id delay_seconds : Z) (metric_type : MetricsType) (agent_mode : RunningMode) :=
  coll_thread collect_l4 (fun f => fm_time f.1) (Build_Context id (collector_delay metric_type delay_seconds) metric_type agent_mode).

Definition L7Collector_run (id delay_seconds : Z) (metric_type : MetricsType) (agent_mode : RunningMode) :=
  coll_thread collect_l7 am_time (Build_Context id (collector_delay metric_type delay_seconds) metric_type agent_mode).

End collector.
