(* ===== verification/CollectorSpec.v ===== *)
(** * Documents of the collectors (collector/collector.rs)

    What is counted under a key in a window becomes one document, and sending
    hands over every document of the window once.  The windows follow the times
    of what a collector receives and the ticks of the clock: [plan] says in which
    window each thing is counted, and a run hands over, for every window and key,
    the document of what the plan counts there.  The L4 and the L7 collector are
    instances. *)

From stdpp Require Import gmap strings.
From S2P Require Import Prelude Timestamp Bytes Consts TapTypes TunnelType TapPort Endpoint MetaPacket Flow TcpPerf FlowMerge OverwriteQueue QueueSpec.
From S2P Require Import Meters QuadConn QuadTypes QuadGen Documents DocumentKey Collector.

(** ** What belongs together *)

Inductive MeterKind := KFlow | KApp | KUsage.

Definition kind_of (m : Meter) : MeterKind := match m with MFlow _ => KFlow | MApp _ => KApp | MUsage _ => KUsage end.

(** The merge of meters of one kind. *)
Definition meter_merge (m n : Meter) : Meter := match Meter_sequential_merge m n with Ret x => x | Panic => m end.

Lemma meter_merge_ok m n : kind_of m = kind_of n -> Meter_sequential_merge m n = Ret (meter_merge m n) /\ kind_of (meter_merge m n) = kind_of m.
Proof. by destruct m, n. Qed.

Definition merge_item (acc : option Document) (i : Tagger * Meter) : option Document :=
  Some (match acc with
        | Some d => d <| doc_meter := meter_merge (doc_meter d) i.2 |>
        | None => (Document_new i.2) <| doc_tagger := i.1 |>
        end).

(** The document of what was counted under a key. *)
Definition doc_of (l : list (Tagger * Meter)) : option Document := foldl merge_item None l.

Definition items_of (w : Z) (key : StashKey) (l : list (Z * item)) : list (Tagger * Meter) :=
  omap (fun '(w', (k, t, m)) => if decide (w' = w /\ k = key) then Some (t, m) else None) l.

Definition docs_of (w : Z) (key : StashKey) (l : list (Z * (StashKey * Document))) : list Document :=
  omap (fun '(w', (k, d)) => if decide (w' = w /\ k = key) then Some d else None) l.

Definition stamp (flag w : Z) (d : Document) : Document := d <| doc_timestamp := wrap 32 w |> <| doc_flags := Z.lor (doc_flags d) flag |>.

Arguments doc_of : simpl never.
Arguments items_of : simpl never.
Arguments docs_of : simpl never.
Arguments stamp : simpl never.

Lemma doc_of_snoc l i : doc_of (l ++ [i]) = merge_item (doc_of l) i.
Proof. unfold doc_of. by rewrite foldl_app. Qed.

Lemma items_of_snoc w key l w' k t m : items_of w key (l ++ [(w', (k, t, m))]) = items_of w key l ++ (if decide (w' = w /\ k = key) then [(t, m)] else []).
Proof. unfold items_of. rewrite omap_app. cbn. by destruct (decide _). Qed.

Lemma docs_of_app w key l l' : docs_of w key (l ++ l') = docs_of w key l ++ docs_of w key l'.
Proof. apply omap_app. Qed.

(** ** The invariant *)

Section spec.
Context {E : CollEnv} {Eok : CollEnvOk E} (expect : StashKey -> MeterKind).

Definition item_ok (i : item) : Prop := kind_of i.2 = expect i.1.1.

Definition queue_open (o : OverwriteQueue Document) : Prop := (exists l, models o l) /\ terminated o = false /\ (QUEUE_BATCH_SIZE <= size o)%nat.

(** The window starts at second [w], and the documents of all windows before [b] are handed over. *)
Record coll_ok (w b : Z) (s : Stash) : Prop := {
  co_window : window_secs s = w;
  co_inner key : inner s !! key = if decide (w < b) then None else doc_of (items_of w key (added s));
  co_items : Forall (fun i => i.1 <= w /\ item_ok i.2) (added s);
  co_handed σ key : docs_of σ key (handed s) = if decide (σ < b) then option_list (stamp (doc_flag s) σ <$> doc_of (items_of σ key (added s))) else [];
  co_queue : queue_open (doc_sender s);
  co_closed : closed_docs s = [];
  co_history : history_length s <> [];
}.

(** What the operations on documents leave alone. *)
Definition coll_frame (s : Stash) :=
  (cc_drop_before_window (coll_counter s), coll_interval s, global_thread_id s, doc_flag s, context s).

Lemma doc_kind key l d : Forall (fun i => kind_of i.2 = expect key) l -> doc_of l = Some d -> kind_of (doc_meter d) = expect key.
Proof.
  revert d. induction l as [|i l IH] using rev_ind; intros d Hl Hd; [done|]. apply Forall_app in Hl as [Hl [Hi _]%Forall_cons_1].
  rewrite doc_of_snoc in Hd. unfold merge_item in Hd. injection Hd as <-. destruct (doc_of l) as [d|] eqn:Hdl; [|done].
  specialize (IH d Hl eq_refl). cbn. by rewrite (proj2 (meter_merge_ok _ _ (eq_trans IH (eq_sym Hi)))).
Qed.

Lemma items_kind w key l : Forall (fun i => i.1 <= w /\ item_ok i.2) l -> forall σ, Forall (fun i => kind_of i.2 = expect key) (items_of σ key l).
Proof.
  intros Hl σ. induction Hl as [|[w' [[k t] m]] l [_ Hi] _ IH]; [constructor|]. unfold items_of in *. cbn.
  destruct (decide (w' = σ /\ k = key)) as [[-> ->]|]; [by constructor|done].
Qed.

Lemma add_ok w s i : coll_ok w w s -> item_ok i -> wp (add s i) (fun s' => coll_ok w w s' /\ coll_frame s' = coll_frame s /\ added s' = added s ++ [(w, i)]).
Proof.
  intros [Hw Hin Hit Hh Hq Hc Hy] Hi. destruct i as [[key t] m]. unfold add. specialize (Hin key) as Hk. rewrite decide_False in Hk by lia.
  apply wp_bind. eapply (wp_mono _ (fun d => Some d = merge_item (doc_of (items_of w key (added s))) (t, m))).
  - rewrite Hk. destruct (doc_of (items_of w key (added s))) as [d|] eqn:Hd; [|done].
    assert (kind_of (doc_meter d) = kind_of m) as Hkd.
    { rewrite (doc_kind key _ d (items_kind w key _ Hit w) Hd). by rewrite Hi. }
    by rewrite (proj1 (meter_merge_ok _ _ Hkd)).
  - intros d Hd. cbn [wp]. split_and!; [|done|cbn; by rewrite Hw]. split; cbn.
    + done.
    + intros key'. rewrite decide_False by lia. rewrite Hw, items_of_snoc. destruct (decide (key' = key)) as [->|Hne].
      * rewrite lookup_insert_eq, decide_True by done. by rewrite doc_of_snoc, Hd.
      * rewrite lookup_insert_ne, decide_False, app_nil_r by naive_solver. by rewrite Hin, decide_False by lia.
    + apply Forall_app. split; [done|]. constructor; [|constructor]. cbn. by rewrite Hw.
    + intros σ key'. rewrite Hh. destruct (decide (σ < w)) as [Hσ|Hσ]; [|done]. rewrite Hw, items_of_snoc, decide_False, app_nil_r by lia. done.
    + done.
    + done.
    + done.
Qed.

Lemma add_all_ok items : Forall item_ok items -> forall w s, coll_ok w w s ->
  wp (rfold add items s) (fun s' => coll_ok w w s' /\ coll_frame s' = coll_frame s /\ added s' = added s ++ (pair w <$> items)).
Proof using.
  induction 1 as [|i items Hi _ IH]; intros w s Hs; cbn [rfold]; [cbn; by rewrite app_nil_r|].
  pose proof (add_ok w s i Hs Hi) as Hw. destruct (add s i) as [s1|]; [|done]. destruct Hw as (Hs1 & Hf1 & Ha1).
  eapply wp_mono; [by apply IH|]. intros s' (Hs' & Hf' & Ha'). split_and!; [done|by rewrite Hf'|]. rewrite Ha', Ha1. cbn. by rewrite <- (assoc_L app).
Qed.

(** ** Sending *)

Definition stamped (s : Stash) (kd : StashKey * Document) : StashKey * Document := (kd.1, stamp (doc_flag s) (window_secs s) kd.2).

Lemma send_docs_ok s batch : queue_open (doc_sender s) -> (length batch <= QUEUE_BATCH_SIZE)%nat ->
  exists o, queue_open o /\ send_docs s batch = Ret (s <| doc_sender := o |> <| handed := handed s ++ (pair (window_secs s) <$> batch) |>, true).
Proof.
  intros ([l Hm] & Ht & Hs) Hb. unfold send_docs, send_all.
  destruct (raw_send_models (doc_sender s) l batch.*2 Hm Ht) as (o & -> & Hs' & Ht' & Hm'); [rewrite length_fmap; lia|].
  exists o. split; [|done]. split_and!; [by eexists|done|lia].
Qed.

Lemma flush_docs_ok docs : forall s batch, queue_open (doc_sender s) -> (length batch <= QUEUE_BATCH_SIZE)%nat ->
  exists o, queue_open o /\ flush_docs s batch docs
    = Ret (s <| doc_sender := o |> <| handed := handed s ++ (pair (window_secs s) <$> batch ++ (stamped s <$> docs)) |>, true).
Proof.
  induction docs as [|[key d] docs IH]; intros s batch Hq Hb; cbn [flush_docs].
  - destruct batch as [|b batch]; [exists (doc_sender s); split; [done|]; cbn; rewrite app_nil_r; by destruct s|].
    destruct (send_docs_ok s (b :: batch) Hq Hb) as (o & Ho & ->). exists o. split; [done|]. cbn [mbind run_bind fmap list_fmap]. by rewrite app_nil_r.
  - destruct (QUEUE_BATCH_SIZE <=? length batch)%nat eqn:Hfull.
    + destruct (send_docs_ok s batch Hq Hb) as (o & Ho & ->). cbn [mbind run_bind]. cbv beta iota zeta.
      set (s1 := s <| doc_sender := o |> <| handed := handed s ++ (pair (window_secs s) <$> batch) |>).
      destruct (IH s1 ([] ++ [stamped s1 (key, d)]) Ho) as (o' & Ho' & IHs); [cbn; unfold QUEUE_BATCH_SIZE; lia|].
      exists o'. split; [done|]. unfold stamped, stamp in IHs |- *. cbn in IHs |- *. rewrite IHs. by rewrite (fmap_app (pair _) batch), (assoc_L app).
    + cbn [mbind run_bind]. cbv beta iota zeta. destruct (IH s (batch ++ [stamped s (key, d)]) Hq) as (o & Ho & IHs).
      { apply Nat.leb_gt in Hfull. rewrite length_app. cbn. lia. }
      exists o. split; [done|]. unfold stamped, stamp in IHs |- *. cbn in IHs |- *. rewrite IHs. by rewrite <- (assoc_L app).
Qed.

Lemma docs_of_window σ w key (l : list (StashKey * Document)) : NoDup l.*1 ->
  docs_of σ key (pair w <$> l) = if decide (σ = w) then option_list ((list_to_map l : gmap _ _) !! key) else [].
Proof.
  unfold docs_of. induction l as [|[k d] l IH]; intros Hn; [by destruct (decide _)|]. cbn in Hn |- *. apply NoDup_cons in Hn as [Hk Hn].
  specialize (IH Hn). destruct (decide (σ = w)) as [->|Hne].
  - destruct (decide (w = w /\ k = key)) as [[_ ->]|Hne].
    + rewrite lookup_insert_eq. cbn. f_equal. rewrite IH. by rewrite not_elem_of_list_to_map_1.
    + rewrite lookup_insert_ne by naive_solver. exact IH.
  - rewrite decide_False by naive_solver. exact IH.
Qed.

Lemma drained s : NoDup (stamped s <$> drain_order (inner s)).*1
  /\ forall key, (list_to_map (stamped s <$> drain_order (inner s)) : gmap _ _) !! key = stamp (doc_flag s) (window_secs s) <$> inner s !! key.
Proof using Eok.
  assert ((stamped s <$> drain_order (inner s)).*1 = (drain_order (inner s)).*1) as Hk by (rewrite <- list_fmap_compose; by apply list_fmap_ext).
  assert (NoDup (drain_order (inner s)).*1) as Hn by (rewrite drain_order_perm; apply NoDup_fst_map_to_list).
  rewrite Hk. split; [done|]. intros key. apply option_eq. intros d. rewrite <- elem_of_list_to_map by (by rewrite Hk).
  rewrite list_elem_of_fmap. setoid_rewrite drain_order_perm. split.
  - intros ([k d'] & [= -> ->] & Hd). apply elem_of_map_to_list in Hd. by rewrite Hd.
  - intros Hd. apply fmap_Some in Hd as (d' & Hd & ->). exists (key, d'). split; [done|]. by apply elem_of_map_to_list.
Qed.

Lemma flush_stats_ok w s : coll_ok w w s ->
  wp (flush_stats s) (fun s' => coll_ok w (w + 1) s' /\ coll_frame s' = coll_frame s /\ added s' = added s).
Proof using Eok.
  intros [Hw Hin Hit Hh Hq Hc Hy]. unfold flush_stats. apply wp_bind.
  set (s1 := s <| history_length := _ |>). match goal with |- wp (flush_docs ?a ?b ?c) _ => destruct (flush_docs_ok c a b Hq) as (o & Ho & Hf); [cbn; unfold QUEUE_BATCH_SIZE; lia|] end.
  rewrite Hf. cbn [wp]. cbv beta iota zeta. set (s2 := _ <| handed := _ |>).
  assert (coll_ok w (w + 1) s2) as Hs2.
  { split; cbn; [done| |done| |done|done|done].
    - intros key. rewrite decide_True by lia. apply lookup_empty.
    - intros σ key. rewrite docs_of_app, Hh. destruct (drained s) as [Hn Hl]. change (window_secs (s1 <| inner := ∅ |>)) with (window_secs s).
      change (stamped (s1 <| inner := ∅ |>)) with (stamped s). rewrite docs_of_window, Hl, Hw, Hin by done.
      destruct (decide (σ < w)), (decide (σ = w)), (decide (σ < w + 1)); try lia; subst; rewrite ?app_nil_r; [done| |done].
      by rewrite decide_False by lia. }
  assert (forall s3, s3 = s2 <| coll_reads := S (coll_reads s2) |> \/ s3 = on_coll_counter (fun c => c <| cc_stash_shrinks := cc_stash_shrinks c +₆₄ 1 |>) (s2 <| coll_reads := S (coll_reads s2) |>)
    -> coll_ok w (w + 1) s3 /\ coll_frame s3 = coll_frame s /\ added s3 = added s) as Hend.
  { intros s3 [-> | ->]; (split; [by destruct Hs2|done]). }
  repeat case_goal; cbn [wp]; apply Hend; auto.
Qed.

(** ** Moving the window *)

Definition slot_start (I t : Z) : Z := t / I * I.

Lemma as_secs_of_secs x : Timestamp.as_secs (from_secs x) = x.
Proof. unfold Timestamp.as_secs, from_secs. apply Z.div_mul. discriminate. Qed.

Lemma items_of_later w σ key l : Forall (fun i => i.1 <= w /\ item_ok i.2) l -> w < σ -> items_of σ key l = [].
Proof.
  intros Hl Hσ. unfold items_of. induction Hl as [|[w' [[k t] m]] l [Hw _] _ IH]; [done|]. cbn. rewrite decide_False; [done|]. cbn in Hw. lia.
Qed.

(** The next window begins empty. *)
Lemma coll_ok_move w w' s : coll_ok w (w + 1) s -> w < w' -> coll_ok w' w' (s <| start_time := from_secs w' |>).
Proof.
  intros [Hw Hin Hit Hh Hq Hc Hy] Hlt. split; cbn.
  - apply as_secs_of_secs.
  - intros key. rewrite decide_False by lia. rewrite Hin, decide_True by lia. by rewrite (items_of_later w w' key).
  - eapply Forall_impl; [exact Hit|]. intros i [? ?]. split; [lia|done].
  - intros σ key. rewrite Hh. destruct (decide (σ < w + 1)), (decide (σ < w')); try lia; try done. by rewrite (items_of_later w σ key) by (done || lia).
  - done.
  - done.
  - done.
Qed.

(** Counters and readings are not part of the invariant. *)
Lemma coll_ok_counter w b u s n : coll_ok w b s -> coll_ok w b ((on_coll_counter u s) <| coll_reads := n |>).
Proof. by intros []. Qed.

Lemma advance_ok w s tick t : coll_ok w w s -> wp (advance s tick t) (fun s' =>
  let w' := Z.max w (slot_start (coll_interval s) (corrected (context s) tick t)) in coll_ok w' w' s' /\ coll_frame s' = coll_frame s /\ added s' = added s).
Proof using Eok.
  intros Hs. unfold advance. cbv zeta. fold (slot_start (coll_interval s) (corrected (context s) tick t)). set (t' := slot_start _ _).
  pose proof (co_window _ _ _ Hs) as Hw. change (window_secs (s <| coll_reads := S (coll_reads s) |>)) with (window_secs s). rewrite Hw.
  apply wp_bind. eapply (wp_mono _ (fun s' => coll_ok (Z.max w t') (Z.max w t') s' /\ coll_frame s' = coll_frame s /\ added s' = added s)).
  - case_goal.
    + apply wp_bind. eapply wp_mono; [apply (flush_stats_ok w); by destruct Hs|]. intros s' (Hs' & Hf & Ha). cbn [wp].
      rewrite Z.max_r by lia. split; [by apply (coll_ok_move w); [|lia]|]. split; [exact Hf|exact Ha].
    + cbn [wp]. rewrite Z.max_l by lia. split; [by destruct Hs|done].
  - intros s' (Hs' & Hf & Ha). cbn [wp]. split; [by destruct Hs'|]. split; [exact Hf|exact Ha].
Qed.

(** ** Counting *)

(** [items] were counted in the window. *)
Definition counts (w : Z) (items : list item) (s s' : Stash) : Prop :=
  coll_ok w w s' /\ coll_frame s' = coll_frame s /\ added s' = added s ++ (pair w <$> items).

Lemma counts_nil w s : coll_ok w w s -> counts w [] s s.
Proof. intros Hs. split_and!; [done|done|cbn; by rewrite app_nil_r]. Qed.

Lemma counts_inactive w s : coll_ok w w s -> counts w [] s (count_inactive s).
Proof. intros Hs. split_and!; [by destruct Hs|done|cbn; by rewrite app_nil_r]. Qed.

Lemma counts_app w i1 i2 s s1 s2 : counts w i1 s s1 -> counts w i2 s1 s2 -> counts w (i1 ++ i2) s s2.
Proof. intros (_ & F1 & A1) (H2 & F2 & A2). split_and!; [done|by rewrite F2|]. by rewrite A2, A1, fmap_app, (assoc_L app). Qed.

Lemma counts_seq w i1 i2 s r k : wp r (counts w i1 s) -> (forall s1, counts w i1 s s1 -> wp (k s1) (counts w i2 s1)) -> wp (r ≫= k) (counts w (i1 ++ i2) s).
Proof. intros Hr Hk. apply wp_bind. eapply wp_mono; [exact Hr|]. intros s1 H1. eapply wp_mono; [by apply Hk|]. intros s2 H2. exact (counts_app _ _ _ _ _ _ H1 H2). Qed.

(** What [add_tagged] counts. *)
Definition tagged (t : Tagger) (src_ip : IpAddr) (dst_ip : option IpAddr) (endpoint_hash : Z) (m : Meter) : list item :=
  match StashKey_new t src_ip dst_ip endpoint_hash with Ret key => [(key, t, m)] | Panic => [] end.

(** The code of the tagger is one of those with a key. *)
Definition has_key (t : Tagger) : Prop := is_Some (layout_of (tg_code t)).

Lemma has_key_new t a b h : has_key t -> exists key, StashKey_new t a b h = Ret key.
Proof.
  intros [l Hl]. unfold StashKey_new, fast_id, layout_of in *. repeat case_match; simplify_eq; cbn; by eexists.
Qed.

Lemma add_tagged_ok w s t a b h m : coll_ok w w s -> has_key t -> Forall item_ok (tagged t a b h m) -> wp (add_tagged s t a b h m) (counts w (tagged t a b h m) s).
Proof using.
  intros Hs Hk Hi. unfold add_tagged, tagged in *. destruct (has_key_new t a b h Hk) as [key Hkey]. rewrite Hkey in *. cbn [mbind run_bind].
  apply Forall_cons_1 in Hi as [Hi _]. eapply wp_mono; [by apply (add_ok w)|]. intros s' (? & ? & ?). by split_and!.
Qed.

(** A loop counts what its rounds count. *)
Lemma counts_fold {A} (f : Stash -> A -> run Stash) (items : A -> list item) w fr l :
  (forall s x, x ∈ l -> coll_ok w w s -> coll_frame s = fr -> wp (f s x) (counts w (items x) s)) ->
  forall s, coll_ok w w s -> coll_frame s = fr -> wp (rfold f l s) (counts w (l ≫= items) s).
Proof.
  induction l as [|x l IH]; intros Hf s Hs Hfr; cbn [rfold]; [by apply counts_nil|].
  pose proof (Hf s x ltac:(left) Hs Hfr) as Hx. destruct (f s x) as [s1|]; [|done]. destruct Hx as (H1 & F1 & A1).
  eapply wp_mono; [apply IH; [|exact H1|by rewrite F1]|].
  - intros. apply Hf; [by right|done|done].
  - intros s' Hs'. by eapply counts_app.
Qed.

End spec.

(** ** Plans *)

(** What a collector sees: things it receives, with the configuration of that
    time, and readings of the clock, in seconds. *)
Inductive coll_event (F : Type) :=
  | Received (config : CollectorConfig) (f : F)
  | Tick (time_in_second : Z).
Arguments Received {F} _ _.
Arguments Tick {F} _.

Section plan.
Context {F : Type} (secs_of : F -> Z) (moves : F -> bool) (I : Z) (back : Z -> Z).

(** The window, what was counted in which window, and how many came late. *)
Definition plan_step (p : Z * list (Z * (CollectorConfig * F)) * Z) (e : coll_event F) : Z * list (Z * (CollectorConfig * F)) * Z :=
  let '(w, taken, late) := p in
  match e with
  | Received config f =>
      if secs_of f <? w then (w, taken, late + 1)
      else let w := if moves f then Z.max w (slot_start I (secs_of f)) else w in (w, taken ++ [(w, (config, f))], late)
  | Tick t => if t <? w then (w, taken, late + 1) else (Z.max w (slot_start I (back t)), taken, late)
  end.

Definition plan (w : Z) (evs : list (coll_event F)) : Z * list (Z * (CollectorConfig * F)) * Z := foldl plan_step (w, [], 0) evs.

(** What moves the window is counted in the window of its own time, the rest no later. *)
Definition in_window (x : Z * (CollectorConfig * F)) : Prop :=
  if moves x.2.2 then x.1 = slot_start I (secs_of x.2.2) else x.1 <= secs_of x.2.2.

Lemma slot_start_ge w t : 0 < I -> (I | w) -> w <= t -> w <= slot_start I t.
Proof. intros HI [k ->] Ht. unfold slot_start. apply Z.mul_le_mono_nonneg_r; [lia|]. apply Z.div_le_lower_bound; lia. Qed.

Lemma slot_start_divide t : (I | slot_start I t).
Proof. apply Z.divide_factor_r. Qed.

Lemma plan_windows w evs : 0 < I -> (I | w) -> let '(w', taken, _) := plan w evs in (I | w') /\ Forall in_window taken.
Proof.
  intros HI Hw. unfold plan. induction evs as [|e evs IH] using rev_ind; [cbn; by split|]. rewrite foldl_app. cbn [foldl].
  destruct (foldl plan_step (w, [], 0) evs) as [[w' taken] late]. destruct IH as [Hd Ht]. destruct e as [c f|t]; cbn [plan_step].
  - destruct (secs_of f <? w') eqn:Hl; [done|]. cbv zeta. rewrite Forall_app, Forall_singleton. unfold in_window at 2. cbn [fst snd].
    destruct (moves f); [|split; [done|split; [done|lia]]].
    rewrite Z.max_r by (apply slot_start_ge; [done..|lia]). split; [apply slot_start_divide|done].
  - destruct (t <? w'); [done|]. split; [|done].
    destruct (Z.max_spec w' (slot_start I (back t))) as [[_ ->]|[_ ->]]; [apply slot_start_divide|done].
Qed.

End plan.

(** What the thread sees of its input; the clock is read at every timeout. *)
Inductive events_of {E : CollEnv} {F} : list (CollectorConfig * result (list F) (Error F)) -> list (coll_event F) -> Prop :=
  | ev_nil : events_of [] []
  | ev_batch config fs inputs evs : events_of inputs evs -> events_of ((config, Ok fs) :: inputs) ((Received config <$> fs) ++ evs)
  | ev_tick config n inputs evs : events_of inputs evs -> events_of ((config, Err Timeout) :: inputs) (Tick (Timestamp.as_secs (coll_clock n)) :: evs)
  | ev_end config a b inputs : events_of ((config, Err (Terminated a b)) :: inputs) [].

(** Queues do not give [BatchTooLarge] to receivers. *)
Definition coll_inputs_ok {F} (ok : F -> Prop) (inputs : list (CollectorConfig * result (list F) (Error F))) : Prop :=
  Forall (fun i => match i.2 with Ok fs => Forall ok fs | Err (BatchTooLarge _) => False | _ => True end) inputs.

(** ** Threads *)

Definition interval_of (ctx : Context) : Z := if bool_decide (ctx_metric_type ctx = SECOND) then 1 else 60.
Definition flag_of (ctx : Context) : Z := if bool_decide (ctx_metric_type ctx = SECOND) then PER_SECOND_METRICS else FLAG_NONE.
Definition thread_of (ctx : Context) : Z := wadd 8 (wrap 8 (ctx_id ctx)) 1.

(** The first window is two minutes before the minute in which the thread starts. *)
Definition first_window {E : CollEnv} : Z := slot_start 60 (Timestamp.as_secs (coll_clock 0)) - 120.

Definition counted_items {F} (items : CollectorConfig -> F -> list item) (taken : list (Z * (CollectorConfig * F))) : list (Z * item) :=
  taken ≫= fun x => pair x.1 <$> items x.2.1 x.2.2.

(** The outcome of a run: the late ones were counted, what was taken is in its
    window, and for each window and key there is one document, with the time
    and flag of the window, of all that was counted there, or none where there was nothing. *)
Definition documents_grouped {E : CollEnv} {F} (secs_of : F -> Z) (moves : F -> bool) (items : CollectorConfig -> F -> list item) (ctx : Context)
    (inputs : list (CollectorConfig * result (list F) (Error F))) (s : Stash) : Prop :=
  exists evs, events_of inputs evs
  /\ (let '(_, taken, late) := plan secs_of moves (interval_of ctx) (corrected ctx true) first_window evs in
    cc_drop_before_window (coll_counter s) = wrap 64 late /\ Forall (in_window secs_of moves (interval_of ctx)) taken
    /\ forall σ key, docs_of σ key (handed s) = option_list (stamp (flag_of ctx) σ <$> doc_of (items_of σ key (counted_items items taken)))).

Section thread.
Context {E : CollEnv} {Eok : CollEnvOk E} (expect : StashKey -> MeterKind).
Context {F : Type} (collect : Stash -> option F -> Z -> CollectorConfig -> run Stash) (time_of : F -> Timestamp.t) (moves : F -> bool).
Context (ok : F -> Prop) (items : CollectorConfig -> F -> list item) (ctx : Context).

Let secs_of (f : F) : Z := Timestamp.as_secs (time_of f).
Let step := plan_step secs_of moves (interval_of ctx) (corrected ctx true).

(** The stash is the one of the thread. *)
Definition of_context (s : Stash) : Prop := coll_interval s = interval_of ctx /\ global_thread_id s = thread_of ctx /\ doc_flag s = flag_of ctx /\ context s = ctx.

Hypothesis collect_late : forall s a t c, t < window_secs s -> collect s a t c = Ret (drop_late s).
Hypothesis collect_tick : forall s t c, window_secs s <= t -> collect s None t c = advance s true t.
Hypothesis collect_counts : forall w s c f, coll_ok expect w w s -> of_context s -> ok f -> w <= secs_of f ->
  wp (collect s (Some f) (secs_of f) c) (fun s' => let w' := if moves f then Z.max w (slot_start (interval_of ctx) (secs_of f)) else w in
    coll_ok expect w' w' s' /\ coll_frame s' = coll_frame s /\ added s' = added s ++ (pair w' <$> items c f)).

(** The stash is where the plan is. *)
Definition follows (p : Z * list (Z * (CollectorConfig * F)) * Z) (s : Stash) : Prop :=
  let '(w, taken, late) := p in
  coll_ok expect w w s /\ of_context s /\ cc_drop_before_window (coll_counter s) = wrap 64 late /\ added s = counted_items items taken.

Lemma of_context_frame s s' : coll_frame s' = coll_frame s -> of_context s -> of_context s'.
Proof. unfold of_context. intros [= _ -> -> -> ->]. done. Qed.

Lemma drop_late_follows w taken late s : follows (w, taken, late) s -> follows (w, taken, late + 1) (drop_late s).
Proof.
  intros (Hs & Hc & Hl & Ha). split; [by destruct Hs|]. split; [done|]. split; [|done]. cbn. rewrite Hl. unfold wadd, wrap. apply Zplus_mod_idemp_l.
Qed.

Lemma receive_follows p s c f : follows p s -> ok f -> wp (collect_one collect time_of c s f) (follows (step p (Received c f))).
Proof.
  destruct p as [[w taken] late]. intros Hp Hf. pose proof Hp as (Hs & Hc & Hl & Ha). unfold collect_one, step, plan_step. fold (secs_of f).
  destruct (secs_of f <? w) eqn:Hlt.
  - rewrite collect_late by (rewrite (co_window _ _ _ _ Hs); lia). by apply drop_late_follows.
  - cbv zeta. eapply wp_mono; [apply collect_counts; [exact Hs|done|done|lia]|]. intros s' (Hs' & Hfr & Ha'). cbv zeta in Hs', Ha'.
    split; [done|]. split; [by eapply of_context_frame|]. split; [injection Hfr as -> _ _ _ _; done|].
    rewrite Ha', Ha. unfold counted_items. rewrite bind_app. cbn. by rewrite app_nil_r.
Qed.

Lemma tick_follows p s c t : follows p s -> wp (collect s None t c) (follows (step p (Tick t))).
Proof using Eok collect_late collect_tick.
  destruct p as [[w taken] late]. intros Hp. pose proof Hp as (Hs & (HI & Hg & Hfl & Hctx) & Hl & Ha). pose proof (co_window _ _ _ _ Hs) as Hw.
  unfold step, plan_step. destruct (t <? w) eqn:Hlt.
  - rewrite collect_late by lia. by apply drop_late_follows.
  - rewrite collect_tick by lia. eapply wp_mono; [by apply (advance_ok expect w)|]. rewrite HI, Hctx. intros s' (Hs' & Hfr & Ha').
    split; [done|]. split; [by apply (of_context_frame s)|]. split; [injection Hfr as -> _ _ _ _; done|]. by rewrite Ha', Ha.
Qed.

Lemma batch_follows c fs : forall p s, follows p s -> Forall ok fs -> wp (rfold (collect_one collect time_of c) fs s) (follows (foldl step p (Received c <$> fs))).
Proof using collect_counts collect_late.
  induction fs as [|f fs IH]; intros p s Hp Hfs; [done|]. apply Forall_cons in Hfs as [Hf Hfs]. cbn [rfold].
  pose proof (receive_follows p s c f Hp Hf) as Hr. destruct (collect_one _ _ _ _ _) as [s1|]; [|done]. by apply IH.
Qed.

Lemma send_closed_follows p s : follows p s -> wp (send_closed s) (follows p).
Proof.
  destruct p as [[w taken] late]. intros (Hs & Hc & Hl & Ha). pose proof Hs as [? ? ? ? ([l Hm] & Ht & Hz) Hcl ?]. unfold send_closed, send_all. rewrite Hcl.
  destruct (raw_send_models (doc_sender s) l [] Hm Ht) as (o & -> & Hs' & Ht' & Hm'); [cbn; lia|]. cbn.
  split; [|done]. split; try done. split; [by eexists|]. split; [done|]. cbn. lia.
Qed.

Lemma stash_counters_follows p s : follows p s -> wp (coll_stash_counters s) (follows p).
Proof.
  destruct p as [[w taken] late]. intros (Hs & Hc & Hl & Ha). unfold coll_stash_counters.
  destruct (history_length s) as [|n h] eqn:Hh; [by destruct (co_history _ _ _ _ Hs)|]. cbn. split; [|done]. destruct Hs. split; try done; cbn; congruence.
Qed.

Lemma reading_follows p s n : follows p s -> follows p (s <| coll_reads := n |>).
Proof. destruct p as [[w taken] late]. intros (Hs & Hc & Hl & Ha). split; [by destruct Hs|done]. Qed.

Lemma loop_follows inputs : coll_inputs_ok ok inputs -> forall p s, follows p s ->
  wp (coll_loop collect time_of s inputs) (fun s' => exists evs, events_of inputs evs /\ follows (foldl step p evs) s').
Proof using All.
  induction 1 as [|[c r] inputs Hi _ IH]; intros p s Hp; cbn [coll_loop coll_round]; [exists []; split; [constructor|done]|].
  destruct r as [fs|[ |a b|b]]; cbn [snd] in Hi.
  - apply wp_bind, wp_bind. eapply wp_mono; [by apply (batch_follows c fs p)|]. intros s1 H1.
    apply wp_bind. eapply wp_mono; [by apply (send_closed_follows _ s1 H1)|]. intros s2 H2.
    apply wp_bind. eapply wp_mono; [by apply (stash_counters_follows _ s2 H2)|]. intros s3 H3.
    cbn [wp]. cbv beta iota. eapply wp_mono; [by apply (IH _ s3 H3)|]. intros s' (evs & He & Hs'). exists ((Received c <$> fs) ++ evs).
    split; [by constructor|]. by rewrite foldl_app.
  - apply wp_bind, wp_bind. eapply wp_mono; [apply (tick_follows p); by apply reading_follows|]. intros s1 H1.
    apply wp_bind. eapply wp_mono; [by apply (send_closed_follows _ s1 H1)|]. intros s2 H2.
    cbn [wp]. cbv beta iota. eapply wp_mono; [by apply (IH _ s2 H2)|]. intros s' (evs & He & Hs'). eexists. split; [by apply ev_tick|done].
  - exists []. split; [constructor|done].
  - done.
Qed.

Lemma new_follows sender : queue_open sender -> from_secs 120 <= coll_clock 0 -> follows (first_window, [], 0) (Stash_new ctx sender).
Proof using Eok.
  intros Hq Hck. assert (Timestamp.as_secs (start_time (Stash_new ctx sender)) = first_window) as Hw.
  { cbn [start_time Stash_new]. rewrite as_secs_of_secs. unfold first_window, slot_start. apply wsub_small. pose proof (coll_clock_fits 0) as Hf.
    assert (120 <= Timestamp.as_secs (coll_clock 0) < 2 ^ 64) as Hn by (unfold fits, Timestamp.as_secs, from_secs, Timestamp.NANOS_IN_SECOND in *; Z.to_euclidean_division_equations; lia).
    unfold fits, SECONDS_IN_MINUTE. generalize dependent (Timestamp.as_secs (coll_clock 0)). intros n Hn. Z.to_euclidean_division_equations. lia. }
  split; [|by split_and!]. split; cbn; [exact Hw| |constructor| |done|done|done].
  - intros key. by rewrite decide_False by lia.
  - intros σ key. by destruct (decide _).
Qed.

(** After the last window is sent nothing is left. *)
Lemma sent_grouped w s σ key : coll_ok expect w (w + 1) s -> docs_of σ key (handed s) = option_list (stamp (doc_flag s) σ <$> doc_of (items_of σ key (added s))).
Proof.
  intros Hs. rewrite (co_handed _ _ _ _ Hs). destruct (decide (σ < w + 1)); [done|].
  by rewrite (items_of_later expect w σ key _ (co_items _ _ _ _ Hs)) by lia.
Qed.

Lemma first_window_divide : (interval_of ctx | first_window).
Proof.
  unfold interval_of, first_window. destruct (bool_decide _); [apply Z.divide_1_l|]. apply Z.divide_sub_r; [apply slot_start_divide|by exists 2].
Qed.

Lemma thread_grouped sender inputs : queue_open sender -> from_secs 120 <= coll_clock 0 -> coll_inputs_ok ok inputs ->
  wp (coll_thread collect time_of ctx sender inputs) (documents_grouped secs_of moves items ctx inputs).
Proof using All.
  intros Hq Hck Hin. unfold coll_thread. apply wp_bind.
  eapply wp_mono; [by apply (loop_follows inputs Hin (first_window, [], 0)), new_follows|]. intros s (evs & He & Hf). cbv beta.
  pose proof (plan_windows secs_of moves (interval_of ctx) (corrected ctx true) first_window evs ltac:(unfold interval_of; by case_goal) first_window_divide) as Hp.
  unfold documents_grouped. fold step in Hf |- *. unfold plan in *. fold step in Hp.
  destruct (foldl step (first_window, [], 0) evs) as [[w taken] late] eqn:Hst. destruct Hf as (Hs & Hc & Hl & Ha).
  eapply wp_mono; [by apply (flush_stats_ok expect w)|]. intros s' (Hs' & Hfr & Ha'). cbv beta. exists evs. split; [done|].
  unfold step in Hst. rewrite Hst. injection Hfr as Hd _ _ Hfl _. rewrite Hd. destruct Hp as [_ Hp]. split_and!; [done|done|].
  intros σ key. rewrite (sent_grouped w s' σ key Hs'), Ha', Ha, Hfl. by destruct Hc as (_ & _ & -> & _).
Qed.

End thread.
