(* ===== verification/CollectorRuns.v ===== *)
(** * Runs of the collectors (collector/collector.rs)

    What a flow or a meter is counted in, and what the documents of a whole run
    hold. *)

From stdpp Require Import gmap strings.
From S2P Require Import Prelude Timestamp Bytes Consts TapTypes TunnelType TapPort Endpoint MetaPacket Flow TcpPerf FlowMerge OverwriteQueue QueueSpec.
From S2P Require Import Meters QuadConn QuadTypes QuadGen Documents DocumentKey Collector CollectorSpec.

(** ** What is counted *)

Section items.
Context {E : CollEnv} (gid : Z) (mode : RunningMode) (mt : MetricsType).

Definition single_l4 (t : Tagger) (m : FlowMeter.t) : list item :=
  match tg_direction t with
  | Direction.ServerToClient | Direction.ClientToServer | Direction.LocalToLocal | Direction.None => tagged t (tg_ip t) None 0 (MFlow m)
  | _ => []
  end.

Definition edge_l4 (t : Tagger) (m : FlowMeter.t) : list item :=
  match tg_signal_source t with
  | Packet | XFlow => tagged t (tg_ip t) (Some (tg_ip1 t)) 0 (MFlow m)
  | _ => []
  end.

(** The taggers of a flow. *)
Definition l4_single (config : CollectorConfig) (f : FlowMeterWithFlow) (tags : FlowTags) (d : Direction.t) (dst : bool) : Tagger :=
  get_single_tagger gid (fm_flow f) tags dst d (if dst then is_active_host1 f else is_active_host0 f) config None 0 0 L7_UNKNOWN mode.
Definition l4_edge (config : CollectorConfig) (f : FlowMeterWithFlow) (tags : FlowTags) (d : Direction.t) : Tagger :=
  get_edge_tagger gid (fm_flow f) tags d (is_active_host0 f) (is_active_host1 f) config None 0 0 L7_UNKNOWN mode.

(** An end with a direction is a single point, unless it is inactive, and an edge. *)
Definition end_items (config : CollectorConfig) (f : FlowMeterWithFlow) (tags : FlowTags) (dst : bool) : list item :=
  match l4_direction (fm_flow f) tags dst config with
  | None => []
  | Some d =>
      (if negb (inactive_ip_aggregation config) || (if dst then is_active_host1 f else is_active_host0 f)
       then single_l4 (l4_single config f tags d dst) (if dst then FlowMeter.reverse (flow_meter f) else flow_meter f) else [])
      ++ edge_l4 (l4_edge config f tags d) (flow_meter f)
  end.

Definition acl_tagger (config : CollectorConfig) (f : FlowMeterWithFlow) (id : Z * Z) : Tagger :=
  Tagger_default <| tg_code := ACL |> <| tg_acl_gid := id.1 |> <| tg_server_port := id.2 |>
    <| tg_signal_source := mf_signal_source (fm_flow f) |> <| tg_agent_id := agent_id config |>.

Definition policy_items (config : CollectorConfig) (f : FlowMeterWithFlow) (dst : bool) : list item :=
  ids_order (if dst then id_map_1 f else id_map_0 f) ≫= fun id => tagged (acl_tagger config f id) (V4 0) None 0 (MUsage (usage_of (flow_meter f) dst)).

(** Everything a metered flow is counted in. *)
Definition l4_items (config : CollectorConfig) (ft : FlowMeterWithFlow * FlowTags) : list item :=
  let '(f, tags) := ft in
  (if bool_decide (mt = MINUTE) && bool_decide (mf_signal_source (fm_flow f) = Packet) then policy_items config f false ++ policy_items config f true else [])
  ++ (if negb (is_active_host0 f) && negb (is_active_host1 f) && inactive_ip_aggregation config then []
      else ([false; true] ≫= end_items config f tags)
        ++ (if both_unknown tags then edge_l4 (l4_edge config f tags (unknown_direction (mf_signal_source (fm_flow f)))) (flow_meter f) else [])).

End items.

(** ** Taggers have keys *)

Lemma single_has_key gid f tags dst d a c e b t p m : has_key (get_single_tagger gid f tags dst d a c e b t p m).
Proof. unfold has_key, get_single_tagger. cbv zeta. cbn [tg_code update Tagger_fields]. case_goal; by eexists. Qed.

Lemma edge_has_key gid f tags d a0 a1 c e b t p m : has_key (get_edge_tagger gid f tags d a0 a1 c e b t p m).
Proof.
  unfold has_key, get_edge_tagger. destruct (edge_ips f a0 a1 c m), (edge_macs f d). cbn [tg_code update Tagger_fields]. case_goal; by eexists.
Qed.

Lemma with_app_has_key t : (exists gid f tags dst d a c e b ts p m, t = get_single_tagger gid f tags dst d a c e b ts p m)
  \/ (exists gid f tags d a0 a1 c e b ts p m, t = get_edge_tagger gid f tags d a0 a1 c e b ts p m) -> has_key (with_app t).
Proof.
  intros [(gid & f & tags & dst & d & a & c & e & b & ts & p & m & ->) | (gid & f & tags & d & a0 & a1 & c & e & b & ts & p & m & ->)];
    unfold has_key, with_app.
  - unfold get_single_tagger. cbv zeta. cbn [tg_code update Tagger_fields]. case_goal; by eexists.
  - unfold get_edge_tagger. destruct (edge_ips f a0 a1 c m), (edge_macs f d). cbn [tg_code update Tagger_fields]. case_goal; by eexists.
Qed.

(** ** Flows and policies have documents of their own *)

(** Keys of policies are the small ones. *)
Definition l4_kind (key : StashKey) : MeterKind := if sk_fast_id key <? 2 ^ 32 then KUsage else KFlow.

Lemma tagged_kind t a b h m : tag_ok t -> kind_of m = (if tg_code t =? ACL then KUsage else KFlow) -> Forall (item_ok l4_kind) (tagged t a b h m).
Proof.
  intros Ht Hm. unfold tagged, StashKey_new. rewrite fast_id_value by done. destruct (layout_of (tg_code t)) as [l|] eqn:Hl; [|constructor].
  destruct (layout_tells _ _ Hl) as [Hg Hc]. pose proof (value_range t l Ht Hg) as Hr. cbn [mbind run_bind].
  constructor; [|constructor]. unfold item_ok, l4_kind. cbn [fst snd sk_fast_id]. rewrite Hm.
  destruct l as [|c b'|c b']; cbv iota in Hc.
  - rewrite Hc, Z.eqb_refl. by rewrite (proj2 (Z.ltb_lt _ _)) by lia.
  - destruct Hc as (-> & _). by rewrite (proj2 (Z.ltb_ge _ _)) by lia.
  - destruct Hc as (-> & _). by rewrite (proj2 (Z.ltb_ge _ _)) by lia.
Qed.

(** The widths of a metered flow; the ids of policies and tunnels have 16 bits. *)
Record flow_ok (f : FlowMeterWithFlow) : Prop := {
  wo_protocol : fits 8 (fk_proto (mf_flow_key (fm_flow f)));
  wo_port : fits 16 (pi_nat_real_port (mf_peer_1 (fm_flow f)));
  wo_tap_type : fits 8 (CaptureNetworkType.to_u16 (fk_tap_type (mf_flow_key (fm_flow f))));
  wo_tap_port : fits 64 (fk_tap_port (mf_flow_key (fm_flow f)))
    /\ Z.land (Z.shiftr (fk_tap_port (mf_flow_key (fm_flow f))) TapPort.RESERVED_OFFSET) TapPort.RESERVED_MASK = 0;
  wo_ids : map_Forall (fun k v => fits 16 k /\ fits 16 v) (id_map_0 f) /\ map_Forall (fun k v => fits 16 k /\ fits 16 v) (id_map_1 f);
}.

Section kinds.
Context {E : CollEnv} {Eok : CollEnvOk E} (gid : Z) (mode : RunningMode) (mt : MetricsType) (config : CollectorConfig).

Lemma single_tag_ok f tags d dst : flow_ok f -> tag_ok (l4_single gid mode config f tags d dst).
Proof.
  intros [Hp Hn Ht Htp _]. unfold l4_single, get_single_tagger. cbv zeta. split; cbn [tg_protocol tg_server_port tg_tap_type tg_l7_protocol tg_acl_gid tg_tap_port update Tagger_fields]; try done.
  by case_goal.
Qed.

Lemma edge_tag_ok f tags d : flow_ok f -> tag_ok (l4_edge gid mode config f tags d).
Proof.
  intros [Hp Hn Ht Htp _]. unfold l4_edge, get_edge_tagger. destruct (edge_ips _ _ _ _ _), (edge_macs _ _). cbv zeta.
  split; cbn [tg_protocol tg_server_port tg_tap_type tg_l7_protocol tg_acl_gid tg_tap_port update Tagger_fields]; try done. by case_goal.
Qed.

Lemma single_not_acl f tags d dst : (tg_code (l4_single gid mode config f tags d dst) =? ACL) = false.
Proof. unfold l4_single, get_single_tagger. cbv zeta. cbn [tg_code update Tagger_fields]. by case_goal. Qed.

Lemma edge_not_acl f tags d : (tg_code (l4_edge gid mode config f tags d) =? ACL) = false.
Proof. unfold l4_edge, get_edge_tagger. destruct (edge_ips _ _ _ _ _), (edge_macs _ _). cbn [tg_code update Tagger_fields]. by case_goal. Qed.

Lemma single_kind f tags d dst m : flow_ok f -> Forall (item_ok l4_kind) (single_l4 (l4_single gid mode config f tags d dst) m).
Proof.
  intros Hf. unfold single_l4. destruct (tg_direction _); try constructor; (apply tagged_kind; [by apply single_tag_ok|by rewrite single_not_acl]).
Qed.

Lemma edge_kind f tags d m : flow_ok f -> Forall (item_ok l4_kind) (edge_l4 (l4_edge gid mode config f tags d) m).
Proof.
  intros Hf. unfold edge_l4. destruct (tg_signal_source _); try constructor; (apply tagged_kind; [by apply edge_tag_ok|by rewrite edge_not_acl]).
Qed.

Lemma policy_kind f id m : fits 16 id.1 /\ fits 16 id.2 -> Forall (item_ok l4_kind) (tagged (acl_tagger config f id) (V4 0) None 0 (MUsage m)).
Proof. intros [H1 H2]. apply tagged_kind; [|reflexivity]. split; [done|exact H2|done|done|exact H1|done]. Qed.

(** ** The operations count the items *)

Lemma single_counts w s t m : coll_ok l4_kind w w s -> has_key t -> Forall (item_ok l4_kind) (single_l4 t m) ->
  wp (fill_single_l4_stats s t m) (counts l4_kind w (single_l4 t m) s).
Proof.
  intros Hs Ht Hk. unfold fill_single_l4_stats, single_l4 in *.
  destruct (tg_direction t); (exact (add_tagged_ok _ _ _ _ _ _ _ _ Hs Ht Hk) || exact (counts_nil _ _ _ Hs)).
Qed.

Lemma edge_counts w s t m : coll_ok l4_kind w w s -> has_key t -> Forall (item_ok l4_kind) (edge_l4 t m) ->
  wp (fill_edge_l4_stats s t m) (counts l4_kind w (edge_l4 t m) s).
Proof.
  intros Hs Ht Hk. unfold fill_edge_l4_stats, edge_l4 in *.
  destruct (tg_signal_source t); (exact (add_tagged_ok _ _ _ _ _ _ _ _ Hs Ht Hk) || exact (counts_nil _ _ _ Hs)).
Qed.

Lemma single_l4_ok w s f tags d dst m : coll_ok l4_kind w w s -> flow_ok f ->
  wp (fill_single_l4_stats s (l4_single gid mode config f tags d dst) m) (counts l4_kind w (single_l4 (l4_single gid mode config f tags d dst) m) s).
Proof. intros Hs Hf. apply single_counts; [exact Hs|unfold l4_single; apply single_has_key|by apply single_kind]. Qed.

Lemma edge_l4_ok w s f tags d m : coll_ok l4_kind w w s -> flow_ok f ->
  wp (fill_edge_l4_stats s (l4_edge gid mode config f tags d) m) (counts l4_kind w (edge_l4 (l4_edge gid mode config f tags d) m) s).
Proof. intros Hs Hf. apply edge_counts; [exact Hs|unfold l4_edge; apply edge_has_key|by apply edge_kind]. Qed.

(** The stash belongs to the thread and the mode. *)
Definition of_thread (s : Stash) : Prop := global_thread_id s = gid /\ ctx_agent_mode (context s) = mode /\ ctx_metric_type (context s) = mt.

Lemma of_thread_frame s s' : coll_frame s' = coll_frame s -> of_thread s -> of_thread s'.
Proof. unfold of_thread. intros [= _ _ -> _ ->]. done. Qed.

Lemma end_ok w s f tags dst : coll_ok l4_kind w w s -> of_thread s -> flow_ok f ->
  wp (fill_l4_end config f tags s dst) (counts l4_kind w (end_items gid mode config f tags dst) s).
Proof.
  intros Hs Hth Hf. unfold fill_l4_end, end_items. destruct (l4_direction _ _ _ _) as [d|]; [|exact (counts_nil _ _ _ Hs)].
  apply counts_seq.
  - destruct Hth as (Hg & Hm & _). rewrite Hg, Hm. destruct (negb _ || _); [by apply single_l4_ok|exact (counts_nil _ _ _ Hs)].
  - intros s1 H1. destruct (of_thread_frame s s1 (proj1 (proj2 H1)) Hth) as (-> & -> & _). apply edge_l4_ok; [apply H1|done].
Qed.

Lemma policies_ok w s f dst : coll_ok l4_kind w w s -> flow_ok f ->
  wp (rfold (add_policy config f dst) (ids_order (if dst then id_map_1 f else id_map_0 f)) s) (counts l4_kind w (policy_items config f dst) s).
Proof using Eok.
  intros Hs Hf. apply (counts_fold l4_kind (add_policy config f dst) (fun id => tagged (acl_tagger config f id) (V4 0) None 0 (MUsage (usage_of (flow_meter f) dst))) w (coll_frame s)); [|done|done].
  intros s1 id Hid H1 _. unfold add_policy. apply add_tagged_ok; [done|by eexists|]. apply policy_kind. destruct (wo_ids f Hf) as [Hm0 Hm1].
  rewrite ids_order_perm in Hid. destruct id as [k v]. apply elem_of_map_to_list in Hid. destruct dst; [by apply (Hm1 k v)|by apply (Hm0 k v)].
Qed.

Lemma fill_policies_ok w s f : coll_ok l4_kind w w s -> of_thread s -> flow_ok f -> wp (fill_policies s f config) (counts l4_kind w
  (if bool_decide (mt = MINUTE) && bool_decide (mf_signal_source (fm_flow f) = Packet) then policy_items config f false ++ policy_items config f true else []) s).
Proof using Eok.
  intros Hs (_ & _ & Hm) Hf. unfold fill_policies. rewrite Hm. destruct (_ && _); [|exact (counts_nil _ _ _ Hs)].
  apply counts_seq; [by apply (policies_ok w s f false)|]. intros s1 H1. apply (policies_ok w s1 f true); [apply H1|done].
Qed.

Lemma fill_l4_ok w s f tags : coll_ok l4_kind w w s -> of_thread s -> flow_ok f -> wp (fill_l4_stats s f tags config) (counts l4_kind w
  (([false; true] ≫= end_items gid mode config f tags)
   ++ (if both_unknown tags then edge_l4 (l4_edge gid mode config f tags (unknown_direction (mf_signal_source (fm_flow f)))) (flow_meter f) else [])) s).
Proof.
  intros Hs Hth Hf. unfold fill_l4_stats. apply counts_seq.
  - apply (counts_fold l4_kind (fill_l4_end config f tags) (end_items gid mode config f tags) w (coll_frame s)); [|done|done].
    intros s1 dst _ H1 Hf1. apply end_ok; [done|by eapply of_thread_frame|done].
  - intros s1 H1. destruct (of_thread_frame s s1 (proj1 (proj2 H1)) Hth) as (Hg & Hm & _). destruct (both_unknown tags).
    + rewrite Hg, Hm. apply edge_l4_ok; [apply H1|done].
    + exact (counts_nil _ _ _ (proj1 H1)).
Qed.

End kinds.

(** ** Runs of the L4 collector *)

Section runs.
Context {E : CollEnv} {Eok : CollEnvOk E}.

Lemma of_context_thread ctx s : of_context ctx s -> of_thread (thread_of ctx) (ctx_agent_mode ctx) (ctx_metric_type ctx) s.
Proof. intros (_ & Hg & _ & Hc). unfold of_thread. by rewrite Hc. Qed.

(** After the window has moved, a flow is counted in it. *)
Lemma fill_ok ctx c w s f tags : coll_ok l4_kind w w s -> of_context ctx s -> flow_ok f ->
  wp (s ← fill_policies s f c; if negb (is_active_host0 f) && negb (is_active_host1 f) && inactive_ip_aggregation c then Ret (count_inactive s) else fill_l4_stats s f tags c)
    (counts l4_kind w (l4_items (thread_of ctx) (ctx_agent_mode ctx) (ctx_metric_type ctx) c (f, tags)) s).
Proof using Eok.
  intros Hs Hc Hf. pose proof (of_context_thread ctx s Hc) as Hth. unfold l4_items. apply counts_seq.
  - exact (fill_policies_ok _ _ _ c w s f Hs Hth Hf).
  - intros s1 H1. destruct (_ && inactive_ip_aggregation c); [exact (counts_inactive _ _ _ (proj1 H1))|].
    exact (fill_l4_ok _ _ _ c w s1 f tags (proj1 H1) (of_thread_frame _ _ _ s s1 (proj1 (proj2 H1)) Hth) Hf).
Qed.

Lemma collect_l4_counts ctx w s c ft : coll_ok l4_kind w w s -> of_context ctx s -> flow_ok ft.1 -> w <= Timestamp.as_secs (fm_time ft.1) ->
  wp (collect_l4 s (Some ft) (Timestamp.as_secs (fm_time ft.1)) c) (fun s' =>
    let w' := Z.max w (slot_start (interval_of ctx) (Timestamp.as_secs (fm_time ft.1))) in
    coll_ok l4_kind w' w' s' /\ coll_frame s' = coll_frame s
    /\ added s' = added s ++ (pair w' <$> l4_items (thread_of ctx) (ctx_agent_mode ctx) (ctx_metric_type ctx) c ft)).
Proof using Eok.
  intros Hs Hc Hf Ht. destruct ft as [f tags]. cbn [fst] in *. unfold collect_l4. rewrite (co_window _ _ _ _ Hs), (proj2 (Z.ltb_ge _ _)) by done.
  apply wp_bind. eapply wp_mono; [by apply (advance_ok l4_kind w)|]. cbn [isSome negb]. intros s1 (H1 & F1 & A1). cbv zeta in *.
  change (corrected (context s) false (Timestamp.as_secs (fm_time f))) with (Timestamp.as_secs (fm_time f)) in H1. rewrite (proj1 Hc) in H1.
  eapply wp_mono; [exact (fill_ok ctx c _ s1 f tags H1 (of_context_frame ctx s s1 F1 Hc) Hf)|].
  intros s2 (H2 & F2 & A2). split; [done|]. by rewrite F2, A2, A1.
Qed.

(** C9: The L4 collector never panics and turns metered flows into documents.
    For any batches and timeouts, with a clock past its second minute and an
    open queue: each flow is counted in the window of its own second or minute,
    except for flows before the current window, whose number is counted; and for
    each window and key the collector hands over exactly one document, the merge
    of all that the flows of that window count under that key, with the time
    and flag of the window, and none where nothing is counted.  A flow counts in
    the single points of its ends, in its edges and, per minute, in its policies. *)
Theorem collector_documents_grouped id delay_seconds mt mode sender inputs :
  queue_open sender -> from_secs 120 <= coll_clock 0 -> coll_inputs_ok (fun ft => flow_ok ft.1) inputs ->
  exists s, Collector_run id delay_seconds mt mode sender inputs = Ret s
    /\ documents_grouped (fun ft => Timestamp.as_secs (fm_time ft.1)) (fun _ => true) (l4_items (wadd 8 (wrap 8 id) 1) mode mt)
         (Build_Context id (collector_delay mt delay_seconds) mt mode) inputs s.
Proof using Eok.
  intros Hq Hck Hin. apply wp_exists.
  apply (thread_grouped l4_kind collect_l4 (fun ft => fm_time ft.1) (fun _ => true) (fun ft => flow_ok ft.1)
    (l4_items (wadd 8 (wrap 8 id) 1) mode mt) (Build_Context id (collector_delay mt delay_seconds) mt mode)); [..|done|done|done].
  - intros s a t c Ht. unfold collect_l4. by rewrite (proj2 (Z.ltb_lt _ _)) by done.
  - intros s t c Ht. unfold collect_l4. rewrite (proj2 (Z.ltb_ge _ _)) by done. cbn [isSome negb]. by destruct (advance s true t).
  - intros w s c f Hs Hc Hf Ht. exact (collect_l4_counts _ w s c f Hs Hc Hf Ht).
Qed.

End runs.
