(* ===== verification/CollectorL7.v ===== *)
(** * Runs of the L7 collector (collector/collector.rs)

    What an application meter is counted in, and the documents of a whole run.
    Meters of closed flows stay in the current window. *)

From stdpp Require Import gmap strings.
From S2P Require Import Prelude Timestamp Bytes Consts TapTypes TunnelType TapPort Endpoint MetaPacket Flow TcpPerf FlowMerge OverwriteQueue QueueSpec.
From S2P Require Import Meters QuadConn QuadTypes QuadGen Documents DocumentKey Collector CollectorSpec CollectorRuns.

(** ** What is counted *)

Section items.
Context (gid : Z) (mode : RunningMode).

(** Only known protocols are counted, and those of OTel. *)
Definition known_app (t : Tagger) : bool := negb (tg_l7_protocol t =? L7_UNKNOWN) || bool_decide (tg_signal_source t = OTel).

Definition single_l7 (t : Tagger) (endpoint_hash : Z) (m : AppMeter.t) : list item :=
  if known_app t && (bool_decide (tg_direction t ∈ [Direction.ClientToServer; Direction.ServerToClient; Direction.LocalToLocal])
      || bool_decide (tg_signal_source t <> Packet))
  then tagged t (tg_ip t) None endpoint_hash (MApp m) else [].

Definition edge_l7 (t : Tagger) (endpoint_hash : Z) (m : AppMeter.t) : list item :=
  if known_app t then tagged t (tg_ip t) (Some (tg_ip1 t)) endpoint_hash (MApp m) else [].

(** The taggers of a meter. *)
Definition l7_single (config : CollectorConfig) (m : AppMeterWithFlow) (d : Direction.t) (dst : bool) : Tagger :=
  with_app (get_single_tagger gid (am_flow m) (am_tags m) dst d (if dst then am_is_active_host1 m else am_is_active_host0 m) config
    (am_endpoint m) (am_biz_type m) (am_time_span m) (am_l7_protocol m) mode).
Definition l7_edge (config : CollectorConfig) (m : AppMeterWithFlow) (d : Direction.t) : Tagger :=
  with_app (get_edge_tagger gid (am_flow m) (am_tags m) d (am_is_active_host0 m) (am_is_active_host1 m) config
    (am_endpoint m) (am_biz_type m) (am_time_span m) (am_l7_protocol m) mode).

Definition l7_edge_items (config : CollectorConfig) (m : AppMeterWithFlow) (d : Direction.t) : list item :=
  edge_l7 (l7_edge config m d) (am_endpoint_hash m) (am_app_meter m).

Definition l7_end_items (config : CollectorConfig) (m : AppMeterWithFlow) (dst : bool) : list item :=
  let d := dir_of (am_tags m) dst in
  if bool_decide (d = Direction.None) then []
  else (if negb (inactive_ip_aggregation config) || (if dst then am_is_active_host1 m else am_is_active_host0 m)
        then single_l7 (l7_single config m d dst) (am_endpoint_hash m) (am_app_meter m) else [])
       ++ l7_edge_items config m d.

(** Everything an application meter is counted in. *)
Definition l7_items (config : CollectorConfig) (m : AppMeterWithFlow) : list item :=
  if negb (am_is_active_host0 m) && negb (am_is_active_host1 m) && inactive_ip_aggregation config then []
  else ([false; true] ≫= l7_end_items config m)
    ++ (if both_unknown (am_tags m) then l7_edge_items config m (unknown_direction (mf_signal_source (am_flow m))) else []).

End items.

(** ** The operations count the items *)

(** Every document is one of application meters. *)
Definition l7_kind (key : StashKey) : MeterKind := KApp.

Lemma app_kind t a b h m : Forall (item_ok l7_kind) (tagged t a b h (MApp m)).
Proof. unfold tagged. destruct (StashKey_new t a b h); by repeat constructor. Qed.

Section counts.
Context {E : CollEnv} (gid : Z) (mode : RunningMode) (config : CollectorConfig).

Lemma single_l7_counts w s t h m : coll_ok l7_kind w w s -> has_key t -> wp (fill_single_l7_stats s t h m) (counts l7_kind w (single_l7 t h m) s).
Proof.
  intros Hs Ht. unfold fill_single_l7_stats, single_l7. fold (known_app t). destruct (known_app t); [|exact (counts_nil _ _ _ Hs)]. cbn [andb].
  assert ((bool_decide (tg_direction t = Direction.ClientToServer) || bool_decide (tg_direction t = Direction.ServerToClient)
    || bool_decide (tg_direction t = Direction.LocalToLocal))
    = bool_decide (tg_direction t ∈ [Direction.ClientToServer; Direction.ServerToClient; Direction.LocalToLocal])) as -> by by destruct (tg_direction t).
  destruct (_ || _); [exact (add_tagged_ok _ _ _ _ _ _ _ _ Hs Ht (app_kind _ _ _ _ _))|exact (counts_nil _ _ _ Hs)].
Qed.

Lemma edge_l7_counts w s t h m : coll_ok l7_kind w w s -> has_key t -> wp (fill_edge_l7_stats s t h m) (counts l7_kind w (edge_l7 t h m) s).
Proof.
  intros Hs Ht. unfold fill_edge_l7_stats, edge_l7. fold (known_app t).
  destruct (known_app t); [exact (add_tagged_ok _ _ _ _ _ _ _ _ Hs Ht (app_kind _ _ _ _ _))|exact (counts_nil _ _ _ Hs)].
Qed.

(** The stash belongs to the thread and the mode. *)
Definition of_l7 (s : Stash) : Prop := global_thread_id s = gid /\ ctx_agent_mode (context s) = mode.

Lemma of_l7_frame s s' : coll_frame s' = coll_frame s -> of_l7 s -> of_l7 s'.
Proof. unfold of_l7. intros [= _ _ -> _ ->]. done. Qed.

Lemma app_edge_ok w s m d : coll_ok l7_kind w w s -> of_l7 s -> wp (app_edge config m d s) (counts l7_kind w (l7_edge_items gid mode config m d) s).
Proof.
  intros Hs (Hg & Hm). unfold app_edge, l7_edge_items. cbv zeta. rewrite Hg, Hm. apply edge_l7_counts; [exact Hs|].
  apply with_app_has_key. right. by repeat eexists.
Qed.

Lemma l7_end_ok w s m dst : coll_ok l7_kind w w s -> of_l7 s -> wp (fill_l7_end config m s dst) (counts l7_kind w (l7_end_items gid mode config m dst) s).
Proof.
  intros Hs Hth. unfold fill_l7_end, l7_end_items. cbv zeta. destruct (bool_decide _); [exact (counts_nil _ _ _ Hs)|]. apply counts_seq.
  - destruct Hth as (Hg & Hm). rewrite Hg, Hm. destruct (negb _ || _); [|exact (counts_nil _ _ _ Hs)].
    apply single_l7_counts; [exact Hs|]. apply with_app_has_key. left. by repeat eexists.
  - intros s1 H1. exact (app_edge_ok w s1 m _ (proj1 H1) (of_l7_frame s s1 (proj1 (proj2 H1)) Hth)).
Qed.

Lemma fill_l7_ok w s m : coll_ok l7_kind w w s -> of_l7 s -> wp (fill_l7 s m config) (counts l7_kind w (l7_items gid mode config m) s).
Proof.
  intros Hs Hth. unfold fill_l7, l7_items, fill_l7_stats. destruct (_ && inactive_ip_aggregation config); [exact (counts_inactive _ _ _ Hs)|]. apply counts_seq.
  - apply (counts_fold l7_kind (fill_l7_end config m) (l7_end_items gid mode config m) w (coll_frame s)); [|done|done].
    intros s1 dst _ H1 Hf1. exact (l7_end_ok w s1 m dst H1 (of_l7_frame s s1 Hf1 Hth)).
  - intros s1 H1. destruct (both_unknown _); [|exact (counts_nil _ _ _ (proj1 H1))].
    exact (app_edge_ok w s1 m _ (proj1 H1) (of_l7_frame s s1 (proj1 (proj2 H1)) Hth)).
Qed.

End counts.

(** ** Runs of the L7 collector *)

Section runs.
Context {E : CollEnv} {Eok : CollEnvOk E}.

Lemma collect_l7_counts ctx w s c m : coll_ok l7_kind w w s -> of_context ctx s -> w <= Timestamp.as_secs (am_time m) ->
  wp (collect_l7 s (Some m) (Timestamp.as_secs (am_time m)) c) (fun s' =>
    let w' := if negb (is_closed m) then Z.max w (slot_start (interval_of ctx) (Timestamp.as_secs (am_time m))) else w in
    coll_ok l7_kind w' w' s' /\ coll_frame s' = coll_frame s /\ added s' = added s ++ (pair w' <$> l7_items (thread_of ctx) (ctx_agent_mode ctx) c m)).
Proof using Eok.
  intros Hs Hc Ht. unfold collect_l7. rewrite (co_window _ _ _ _ Hs), (proj2 (Z.ltb_ge _ _)) by done.
  assert (of_l7 (thread_of ctx) (ctx_agent_mode ctx) s) as Hth by (destruct Hc as (_ & Hg & _ & Hcx); split; by rewrite ?Hcx).
  destruct (is_closed m); cbn [negb]; [exact (fill_l7_ok _ _ c w s m Hs Hth)|].
  apply wp_bind. eapply wp_mono; [by apply (advance_ok l7_kind w)|]. intros s1 (H1 & F1 & A1). cbv zeta in *.
  change (corrected (context s) false (Timestamp.as_secs (am_time m))) with (Timestamp.as_secs (am_time m)) in H1. rewrite (proj1 Hc) in H1.
  eapply wp_mono; [exact (fill_l7_ok _ _ c _ s1 m H1 (of_l7_frame _ _ s s1 F1 Hth))|]. intros s2 (H2 & F2 & A2). split; [done|]. by rewrite F2, A2, A1.
Qed.

(** C25: The L7 collector never panics and turns application meters into
    documents.  Each meter is counted in the window of its own second or minute,
    that of a closed flow in the current window, which is no later; meters before the
    current window are only numbered.  For each window and key the collector
    hands over exactly one document, the merge of all that the meters of the
    window count under the key, and none where nothing is counted. *)
Theorem l7_documents_grouped id delay_seconds mt mode sender inputs :
  queue_open sender -> from_secs 120 <= coll_clock 0 -> coll_inputs_ok (fun _ => True) inputs ->
  exists s, L7Collector_run id delay_seconds mt mode sender inputs = Ret s
    /\ documents_grouped (fun m => Timestamp.as_secs (am_time m)) (fun m => negb (is_closed m)) (l7_items (wadd 8 (wrap 8 id) 1) mode)
         (Build_Context id (collector_delay mt delay_seconds) mt mode) inputs s.
Proof using Eok.
  intros Hq Hck Hin. apply wp_exists.
  apply (thread_grouped l7_kind collect_l7 am_time (fun m => negb (is_closed m)) (fun _ => True)
    (l7_items (wadd 8 (wrap 8 id) 1) mode) (Build_Context id (collector_delay mt delay_seconds) mt mode)); [..|done|done|done].
  - intros s a t c Ht. unfold collect_l7. by rewrite (proj2 (Z.ltb_lt _ _)) by done.
  - intros s t c Ht. unfold collect_l7. by rewrite (proj2 (Z.ltb_ge _ _)) by done.
  - intros w s c f Hs Hc _ Ht. exact (collect_l7_counts _ w s c f Hs Hc Ht).
Qed.

End runs.
