(* ===== verification/CollectorExamples.v ===== *)
(** * Example runs of the collectors

    A clock and orders of maps that meet their interface, and flows, meters and
    tags on which the properties of the collectors apply. *)

From stdpp Require Import gmap strings.
From S2P Require Import Prelude Timestamp Bytes Consts TapTypes TunnelType TapPort Endpoint MetaPacket Flow FlowNode TcpPerf FlowMerge OverwriteQueue QueueConc QueueSpec.
From S2P Require Import Meters QuadConn QuadTypes QuadGen QuadExamples Documents DocumentKey Collector CollectorSpec CollectorRuns CollectorL7.

(** The clock stands at three minutes. *)
#[local] Instance coll_env : CollEnv := {| coll_clock _ := from_secs 180; coll_capacity _ := 1024; drain_order := map_to_list; ids_order := map_to_list |}.

#[local] Instance coll_env_ok : CollEnvOk coll_env.
Proof. by split. Qed.

Definition doc_queue : OverwriteQueue Document := quad_output QUEUE_BATCH_SIZE.

Lemma doc_queue_open : queue_open doc_queue.
Proof. split; [exists []; apply quad_output_models|]. split; [done|]. unfold doc_queue, QUEUE_BATCH_SIZE. apply Nat.leb_le. vm_compute. reflexivity. Qed.

(** A flow at second [t] from a client on this host, which matches a policy. *)
Definition coll_flow (t : Z) : FlowMeterWithFlow * FlowTags :=
  (Build_FlowMeterWithFlow (MiniFlow_from (flow (quad_flow t true ForcedReport))) 0 true true {[ 7 := 1 ]} ∅ FlowMeter.default
     (QgV4 []) (from_secs t),
   Build_FlowTags (Direction.ClientToServer, Direction.None) None None 0).

Lemma coll_flow_ok t : flow_ok (coll_flow t).1.
Proof.
  split; [by vm_compute..|]. unfold coll_flow. cbn [fst id_map_0 id_map_1]. split; [|apply map_Forall_empty]. by apply map_Forall_singleton.
Qed.

Definition coll_config : Collector.CollectorConfig := Collector.Build_CollectorConfig 1 false false false.

Definition coll_inputs : list (Collector.CollectorConfig * result (list (FlowMeterWithFlow * FlowTags)) (Error (FlowMeterWithFlow * FlowTags))) :=
  [(coll_config, Ok [coll_flow 61; coll_flow 62]); (coll_config, Err Timeout); (coll_config, Ok [coll_flow 125; coll_flow 61]);
   (coll_config, Err (Terminated None None))].

Lemma coll_inputs_fine : coll_inputs_ok (fun ft => flow_ok ft.1) coll_inputs.
Proof. unfold coll_inputs_ok, coll_inputs. rewrite !Forall_cons, Forall_nil. cbn [snd]. rewrite !Forall_cons, Forall_nil. pose proof coll_flow_ok. by split_and!. Qed.

Lemma collector_documents_grouped_witness : exists s, Collector_run 0 60 MINUTE Managed doc_queue coll_inputs = Ret s
  /\ documents_grouped (fun ft => Timestamp.as_secs (fm_time ft.1)) (fun _ => true) (l4_items 1 Managed MINUTE)
       (Build_Context 0 60 MINUTE Managed) coll_inputs s.
Proof.
  apply (collector_documents_grouped 0 60 MINUTE Managed doc_queue coll_inputs).
  - exact doc_queue_open.
  - vm_compute. congruence.
  - exact coll_inputs_fine.
Defined.

(** ** Application meters *)

Definition coll_meter (t : Z) (c : CloseType) : AppMeterWithFlow :=
  Build_AppMeterWithFlow (MiniFlow_from (flow (quad_flow t true c))) (Build_FlowTags (Direction.ClientToServer, Direction.None) None None 0)
    20 0 None 0 true true (AppMeter.Build_t (AppMeter.Build_AppTraffic 1 1 0) (AppMeter.Build_AppLatency 5 5 1) (AppMeter.Build_AppAnomaly 0 0 0)) (from_secs t) 0.

Definition l7_inputs : list (Collector.CollectorConfig * result (list AppMeterWithFlow) (Error AppMeterWithFlow)) :=
  [(coll_config, Ok [coll_meter 100 ForcedReport; coll_meter 103 CloseFinish]); (coll_config, Err Timeout); (coll_config, Err (Terminated None None))].

Lemma l7_documents_grouped_witness : exists s, L7Collector_run 0 10 SECOND Managed doc_queue l7_inputs = Ret s
  /\ documents_grouped (fun m => Timestamp.as_secs (am_time m)) (fun m => negb (is_closed m)) (l7_items 1 Managed)
       (Build_Context 0 10 SECOND Managed) l7_inputs s.
Proof.
  apply (l7_documents_grouped 0 10 SECOND Managed doc_queue l7_inputs).
  - exact doc_queue_open.
  - vm_compute. congruence.
  - repeat constructor.
Defined.

(** ** Keys *)

(** Two edges without MAC addresses that differ in the protocol of the application. *)
Definition app_edge_tag (l7_protocol : Z) : Tagger := Tagger_default <| tg_code := EDGE_IP_PORT_APP |> <| tg_server_port := 80 |> <| tg_l7_protocol := l7_protocol |>.

Lemma app_edge_tag_ok p : fits 8 p -> tag_ok (app_edge_tag p).
Proof. intros Hp. split; [done|done|done|exact Hp|done|done]. Qed.

Definition app_edge_key : StashKey := Build_StashKey (match fast_id (app_edge_tag 20) with Ret id => id | Panic => 0 end) (V4 1) (V4 2) 0 0 0 0 0.

Lemma document_key_identifies_witness : app_edge_key = app_edge_key
  <-> same_tags (app_edge_tag 20) (app_edge_tag 60) /\ V4 1 = V4 1 /\ default (V4 0) (Some (V4 2)) = default (V4 0) (Some (V4 2)) /\ 0 = 0.
Proof.
  apply (document_key_identifies (app_edge_tag 20) (app_edge_tag 60) (V4 1) (Some (V4 2)) (V4 1) (Some (V4 2)) 0 0).
  - by apply app_edge_tag_ok.
  - by apply app_edge_tag_ok.
  - by vm_compute.
  - by vm_compute.
Defined.
