(* ===== verification/ProbeData.v ===== *)
(** * The decoders of the L7 probe (l7probe/protocol/utils, l7probe/protocol/common)

    [l7probe] is a C program: it reads the bytes of socket calls from the kernel
    and parses them into frames of L7 protocols.  A buffer of captured bytes is
    a [raw_data_s] with a position; the decoders take values from that position
    on.  Sizes are 64-bit [size_t]; an access outside of a buffer is undefined
    behaviour, here [Panic]; whether an allocation succeeds is the parameter
    [Malloc]. *)

From S2P Require Import Prelude Bytes.

(** ** Buffers (include/data_stream.h) *)

Inductive parse_state_t :=
| STATE_SUCCESS
| STATE_INVALID
| STATE_NEEDS_MORE_DATA
| STATE_IGNORE
| STATE_EOS
| STATE_NOT_FOUND
| STATE_UNKNOWN.

Inductive message_type_t := MESSAGE_UNKNOW | MESSAGE_REQUEST | MESSAGE_RESPONSE.

#[export] Instance parse_state_eq_dec : EqDecision parse_state_t.
Proof. solve_decision. Defined.

#[export] Instance message_type_eq_dec : EqDecision message_type_t.
Proof. solve_decision. Defined.

(** [data] holds exactly [data_len] bytes. *)
Record raw_data_s := {
  flags : Z;
  timestamp_ns : Z;
  rd_index : Z;
  isBrokeData : Z;
  current_pos : Z;
  data : bytes;
}.

#[export] Instance raw_data_fields : Fields raw_data_s := fun x =>
  Build_raw_data_s (flags x) (timestamp_ns x) (rd_index x) (isBrokeData x) (current_pos x) (data x).

Definition data_len (r : raw_data_s) : Z := len (data r).

Definition SIZE_MAX : Z := 2 ^ 64 - 1.
Definition PARSER_INVALID_BOUNDARY_INDEX : Z := SIZE_MAX.

(** [malloc(n)] returns memory. *)
Class Malloc := malloc : Z -> bool.

(** Memory is always available. *)
Definition plenty : Malloc := fun _ => true.

Definition sizeof_raw_data_s : Z := 40.

(** [memcpy] of [n] bytes from [&raw_data->data[i]] *)
Definition read_bytes (r : raw_data_s) (i n : Z) : run bytes :=
  if (0 <=? i) && (0 <=? n) && (i + n <=? data_len r) then Ret (take (Z.to_nat n) (drop (Z.to_nat i) (data r))) else Panic.

(** [raw_data->data_len - raw_data->current_pos] *)
Definition unconsumed (r : raw_data_s) : Z := wsub 64 (data_len r) (current_pos r).

(** ** Moving the position (protocol/common/protocol_common.c) *)

Definition parser_raw_data_offset (r : raw_data_s) (offset : Z) : raw_data_s :=
  let real_offset := if unconsumed r <? offset then unconsumed r else offset in
  r <| current_pos := wadd 64 (current_pos r) real_offset |>.

(** ** Values (protocol/utils/binary_decoder.c) *)

(** A decoder moves the position and gives a value, or a state other than
    [STATE_SUCCESS]. *)
Abbreviation decoded A := (run (raw_data_s * result A parse_state_t)).

Definition decoder_extract_char (r : raw_data_s) : decoded Z :=
  if unconsumed r <? 1 then Ret (r, Err STATE_NEEDS_MORE_DATA)
  else
    c ← index (data r) (current_pos r);
    Ret (parser_raw_data_offset r 1, Ok c).

Definition decoder_extract_char_array (r : raw_data_s) (decode_len : Z) : decoded bytes :=
  if unconsumed r <? decode_len then Ret (r, Err STATE_NEEDS_MORE_DATA)
  else
    bs ← read_bytes r (current_pos r) decode_len;
    Ret (parser_raw_data_offset r decode_len, Ok bs).

Definition decoder_extract_bool (r : raw_data_s) : decoded bool :=
  '(r, res) ← decoder_extract_char r;
  Ret (r, match res with Ok c => Ok (negb (c =? 0)) | Err _ => Err STATE_INVALID end).

(** The bits of a [w]-bit integer as a signed one *)
Definition to_signed (w z : Z) : Z := if z <? 2 ^ (w - 1) then z else z - 2 ^ w.

(** [big_endian_bytes_to_u_int<w>_t] *)
Definition big_endian_bytes_to_int (w : Z) (bs : bytes) : Z :=
  foldl (fun res b => wrap w (Z.lor b (Z.shiftl res 8))) 0 bs.

(** [decoder_extract_u_int<w>_t] *)
Definition decoder_extract_uint (w : Z) (r : raw_data_s) : decoded Z :=
  if unconsumed r <? w / 8 then Ret (r, Err STATE_NEEDS_MORE_DATA)
  else
    bs ← read_bytes r (current_pos r) (w / 8);
    Ret (parser_raw_data_offset r (w / 8), Ok (big_endian_bytes_to_int w bs)).

(** [decoder_extract_int<w>_t] *)
Definition decoder_extract_int (w : Z) (r : raw_data_s) : decoded Z :=
  '(r, res) ← decoder_extract_uint w r;
  Ret (r, match res with Ok z => Ok (to_signed w z) | Err s => Err s end).

Section decoders.
Context {M : Malloc}.

(** A copy of the next [decode_len] bytes, or [None] without memory *)
Definition extract_prefix_bytes_string (r : raw_data_s) (decode_len data_stream_offset : Z) : run (raw_data_s * option bytes) :=
  if malloc (wadd 64 decode_len 1) then
    bs ← read_bytes r (current_pos r) decode_len;
    Ret (parser_raw_data_offset r data_stream_offset, Some bs)
  else Ret (r, None).

(** The bytes of the new buffer; its position is 0, and its other fields are not
    set. *)
Definition decoder_extract_raw_data_with_len (r : raw_data_s) (decode_len : Z) : decoded bytes :=
  if unconsumed r <? decode_len then Ret (r, Err STATE_NEEDS_MORE_DATA)
  else if malloc (wadd 64 sizeof_raw_data_s decode_len) then
    bs ← read_bytes r (current_pos r) decode_len;
    Ret (parser_raw_data_offset r decode_len, Ok bs)
  else Ret (r, Err STATE_INVALID).

Definition decoder_extract_string (r : raw_data_s) (decode_len : Z) : decoded bytes :=
  if unconsumed r <? decode_len then Ret (r, Err STATE_NEEDS_MORE_DATA)
  else
    '(r, o) ← extract_prefix_bytes_string r decode_len decode_len;
    Ret (r, match o with Some bs => Ok bs | None => Err STATE_INVALID end).

(** The position of the first [c] from [i] on *)
Fixpoint find_char (c : Z) (bs : bytes) (i : Z) : option Z :=
  match bs with
  | [] => None
  | b :: bs => if b =? c then Some i else find_char c bs (i + 1)
  end.

Definition decoder_extract_str_until_char (r : raw_data_s) (search_char : Z) : decoded bytes :=
  match find_char search_char (drop (Z.to_nat (current_pos r)) (data r)) (current_pos r) with
  | None => Ret (r, Err STATE_NOT_FOUND)
  | Some search_char_pos =>
      let decode_len := wsub 64 search_char_pos (current_pos r) in
      '(r, o) ← extract_prefix_bytes_string r decode_len (wadd 64 decode_len 1);
      Ret (r, match o with Some bs => Ok bs | None => Err STATE_INVALID end)
  end.

(** The loop of [memmem_custom] on [&raw_data->data[base]]: [i] runs up to
    [haystack_len - needle_len], as a [size_t]. *)
Fixpoint memmem_loop (fuel : nat) (r : raw_data_s) (base last : Z) (needle : bytes) (i : Z) : run (option Z) :=
  match fuel with
  | O => Panic
  | S fuel =>
      if last <? i then Ret None
      else
        bs ← read_bytes r (base + i) (len needle);
        if decide (bs = needle) then Ret (Some i) else memmem_loop fuel r base last needle (i + 1)
  end.

(** A match or the end of the buffer is reached in as many rounds as there are bytes. *)
Definition memmem_custom (r : raw_data_s) (base haystack_len : Z) (needle : bytes) : run (option Z) :=
  if len needle =? 0 then Ret (Some 0)
  else memmem_loop (length (data r) + 2) r base (wsub 64 haystack_len (len needle)) needle 0.

Definition decoder_extract_str_until_str (r : raw_data_s) (search_str : bytes) : decoded bytes :=
  o ← memmem_custom r (current_pos r) (unconsumed r) search_str;
  match o with
  | None => Ret (r, Err STATE_NOT_FOUND)
  | Some str_pos =>
      '(r, o) ← extract_prefix_bytes_string r str_pos (wadd 64 str_pos (len search_str));
      Ret (r, match o with Some bs => Ok bs | None => Err STATE_INVALID end)
  end.

Definition decoder_extract_prefix_ignore (r : raw_data_s) (prefix_len : Z) : decoded unit :=
  if unconsumed r <? prefix_len then Ret (r, Err STATE_NEEDS_MORE_DATA)
  else Ret (parser_raw_data_offset r prefix_len, Ok tt).

(** ** Varints (protocol/utils/frame_decoder.c) *)

(** A [char] is signed: [(u_int64_t) char_res]. *)
Definition char_to_u64 (c : Z) : Z := wrap 64 (to_signed 8 c).

(** The loop for the bits from [i] on; [i] counts in steps of 7 up to [max_length]. *)
Fixpoint varint_loop (fuel : nat) (r : raw_data_s) (max_length i value : Z) : decoded Z :=
  match fuel with
  | O => Panic
  | S fuel =>
      if max_length <=? i then Ret (r, Err STATE_INVALID)
      else
        '(r, res) ← decoder_extract_char r;
        match res with
        | Ok c =>
            let b := char_to_u64 c in
            if Z.land b 0x80 =? 0 then Ret (r, Ok (to_signed 64 (Z.lor value (wshl 64 b i))))
            else varint_loop fuel r max_length (wadd 8 i 7) (Z.lor value (wshl 64 (Z.land b 0x7f) i))
        | Err _ => varint_loop fuel r max_length (wadd 8 i 7) value
        end
  end.

(** The only caller passes 35: [i] does not wrap, and no shift reaches 64. *)
Definition decode_unsigned_int_core (r : raw_data_s) (max_length : Z) : decoded Z := varint_loop 6 r max_length 0 0.

Definition decode_unsigned_int (r : raw_data_s) : decoded Z :=
  '(r, res) ← decode_unsigned_int_core r 35;
  Ret (r, match res with Ok z => Ok (to_signed 32 (wrap 32 z)) | Err _ => Err STATE_INVALID end).

(** [decode_bytes_core]: the length is an [int32_t]. *)
Definition decode_bytes_core (r : raw_data_s) (n : Z) : decoded bytes := decoder_extract_string r (wrap 64 n).

Definition decode_string_int16 (r : raw_data_s) : decoded bytes :=
  '(r, res) ← decoder_extract_int 16 r;
  match res with
  | Ok n => decode_bytes_core r n
  | Err _ => Ret (r, Err STATE_INVALID)
  end.

End decoders.

(** ** The bytes from the position on *)

(** [suf] is what is left to read, after [pre]. *)
Definition at_pos (r : raw_data_s) (pre suf : bytes) : Prop :=
  data r = pre ++ suf /\ current_pos r = len pre /\ data_len r < 2 ^ 64.

Definition advance (r : raw_data_s) (n : Z) : raw_data_s := r <| current_pos := current_pos r + n |>.

Lemma at_pos_advance r pre xs suf : at_pos r pre (xs ++ suf) -> at_pos (advance r (len xs)) (pre ++ xs) suf.
Proof. intros (Hd & Hp & Hl). repeat split; cbn; [by rewrite Hd, app_assoc|rewrite len_app; lia|done]. Qed.

Lemma advance_0 r : advance r 0 = r.
Proof. destruct r. unfold advance. cbn. by rewrite Z.add_0_r. Qed.

Lemma advance_advance r n m : advance (advance r n) m = advance r (n + m).
Proof. unfold advance. cbn. by rewrite Z.add_assoc. Qed.

Lemma restore_advance r n : (advance r n) <| current_pos := current_pos r |> = r.
Proof. by destruct r. Qed.

Lemma set_same r : r <| current_pos := current_pos r |> = r.
Proof. by destruct r. Qed.

Lemma at_pos_data_len r pre suf : at_pos r pre suf -> data_len r = len pre + len suf.
Proof. intros (Hd & _ & _). unfold data_len. by rewrite Hd, len_app. Qed.

Lemma at_pos_unconsumed r pre suf : at_pos r pre suf -> unconsumed r = len suf.
Proof.
  intros H. pose proof (at_pos_data_len _ _ _ H) as Hl. destruct H as (_ & Hp & Hlt). unfold unconsumed.
  pose proof (len_nonneg pre). pose proof (len_nonneg suf). rewrite wsub_small; unfold fits; lia.
Qed.

Lemma offset_advance r pre suf n : at_pos r pre suf -> 0 <= n <= len suf -> parser_raw_data_offset r n = advance r n.
Proof.
  intros H Hn. unfold parser_raw_data_offset, advance. rewrite (at_pos_unconsumed _ _ _ H).
  rewrite (proj2 (Z.ltb_ge _ _)) by lia. pose proof (at_pos_data_len _ _ _ H) as Hl. destruct H as (_ & Hp & Hlt).
  pose proof (len_nonneg pre). by rewrite wadd_small by (unfold fits; lia).
Qed.

Lemma read_bytes_at r pre xs suf : at_pos r pre (xs ++ suf) -> read_bytes r (current_pos r) (len xs) = Ret xs.
Proof.
  intros H. pose proof (at_pos_data_len _ _ _ H) as Hl. rewrite len_app in Hl. destruct H as (Hd & Hp & _).
  pose proof (len_nonneg pre). pose proof (len_nonneg xs). pose proof (len_nonneg suf).
  unfold read_bytes. rewrite (proj2 (andb_true_iff _ _)) by lia.
  rewrite Hp, Hd. unfold len. by rewrite !Nat2Z.id, drop_app_length, take_app_length.
Qed.

Lemma index_at r pre b suf : at_pos r pre (b :: suf) -> index (data r) (current_pos r) = Ret b.
Proof.
  intros (Hd & Hp & _). unfold index. rewrite Hp, Hd. unfold len. rewrite (proj2 (Z.leb_le _ _)) by lia.
  by rewrite Nat2Z.id, list_lookup_middle.
Qed.

(** ** What the decoders return *)

Lemma extract_char_at r pre b suf :
  at_pos r pre (b :: suf) -> decoder_extract_char r = Ret (advance r 1, Ok b).
Proof.
  intros H. unfold decoder_extract_char. rewrite (at_pos_unconsumed _ _ _ H), len_cons.
  pose proof (len_nonneg suf). rewrite (proj2 (Z.ltb_ge _ _)) by lia. rewrite (index_at _ _ _ _ H). cbn [mbind run_bind].
  rewrite (offset_advance _ _ _ _ H); [done|]. rewrite len_cons. lia.
Qed.

Lemma extract_uint_at w r pre xs suf :
  at_pos r pre (xs ++ suf) -> len xs = w / 8 ->
  decoder_extract_uint w r = Ret (advance r (w / 8), Ok (big_endian_bytes_to_int w xs)).
Proof.
  intros H Hw. unfold decoder_extract_uint. rewrite (at_pos_unconsumed _ _ _ H), len_app.
  pose proof (len_nonneg suf). pose proof (len_nonneg xs). rewrite (proj2 (Z.ltb_ge _ _)) by lia. rewrite <- Hw.
  rewrite (read_bytes_at _ _ _ _ H). cbn [mbind run_bind].
  rewrite (offset_advance _ _ _ _ H); [done|]. rewrite len_app. lia.
Qed.

Lemma extract_uint_short w r pre suf :
  at_pos r pre suf -> len suf < w / 8 -> decoder_extract_uint w r = Ret (r, Err STATE_NEEDS_MORE_DATA).
Proof.
  intros H Hw. unfold decoder_extract_uint. rewrite (at_pos_unconsumed _ _ _ H).
  by rewrite (proj2 (Z.ltb_lt _ _)) by lia.
Qed.

(** ** Big-endian values *)

Definition be_val (xs : bytes) : Z := foldl (fun v b => v * 256 + b) 0 xs.

Lemma be_int_val w xs : 0 <= w -> bytes_ok xs -> big_endian_bytes_to_int w xs = wrap w (be_val xs).
Proof.
  intros Hw Hok. unfold big_endian_bytes_to_int, be_val.
  assert (forall v, foldl (fun res b => wrap w (Z.lor b (Z.shiftl res 8))) (wrap w v) xs
    = wrap w (foldl (fun v b => v * 256 + b) v xs)) as Hf; [|exact (Hf 0)].
  induction Hok as [|b xs Hb Hok IH]; intros v; cbn [foldl]; [done|].
  rewrite <- IH. f_equal. rewrite (lor_shiftl_add b _ 8) by done. change (2 ^ 8) with 256. unfold wrap.
  assert (0 < 2 ^ w) by (apply Z.pow_pos_nonneg; lia).
  by rewrite <- Zplus_mod_idemp_l, Zmult_mod_idemp_l, Zplus_mod_idemp_l.
Qed.

Lemma be32_ok v : bytes_ok (be32 v).
Proof. unfold be32, bytes_ok, byte_ok, fits. change (2 ^ 8) with 256. repeat constructor; apply Z.mod_pos_bound; lia. Qed.

Lemma be_int_be32 v : fits 32 v -> big_endian_bytes_to_int 32 (be32 v) = v.
Proof.
  intros Hv. rewrite be_int_val by (done || apply be32_ok). rewrite wrap_small.
  - pose proof (read_be32 v [] Hv) as H. cbn -[Z.modulo Z.shiftr Z.pow Z.mul Z.add] in H.
    injection H as H. unfold be_val, be32. cbn [foldl]. lia.
  - pose proof (be32_ok v) as Hok. unfold be_val, be32, fits in *. cbn [foldl].
    unfold bytes_ok, byte_ok, fits in Hok. rewrite !Forall_cons in Hok. lia.
Qed.

Lemma be_int_be16 v : fits 16 v -> big_endian_bytes_to_int 16 (be16 v) = v.
Proof.
  intros Hv. assert (be_val (be16 v) = v) as Hb.
  { pose proof (be16_val v Hv) as H. unfold be_val, be16. cbn [foldl]. change (2 ^ 8) with 256 in H. lia. }
  rewrite be_int_val, Hb by (done || (unfold be16, bytes_ok, byte_ok, fits; change (2 ^ 8) with 256; repeat constructor; apply Z.mod_pos_bound; lia)).
  by apply wrap_small.
Qed.

Lemma extract_char_array_at r pre xs suf :
  at_pos r pre (xs ++ suf) -> decoder_extract_char_array r (len xs) = Ret (advance r (len xs), Ok xs).
Proof.
  intros H. unfold decoder_extract_char_array. rewrite (at_pos_unconsumed _ _ _ H), len_app.
  pose proof (len_nonneg suf). pose proof (len_nonneg xs). rewrite (proj2 (Z.ltb_ge _ _)) by lia.
  rewrite (read_bytes_at _ _ _ _ H). cbn [mbind run_bind].
  rewrite (offset_advance _ _ _ _ H); [done|]. rewrite len_app. lia.
Qed.

Lemma extract_prefix_ignore_at r pre xs suf :
  at_pos r pre (xs ++ suf) -> decoder_extract_prefix_ignore r (len xs) = Ret (advance r (len xs), Ok tt).
Proof.
  intros H. unfold decoder_extract_prefix_ignore. rewrite (at_pos_unconsumed _ _ _ H), len_app.
  pose proof (len_nonneg suf). pose proof (len_nonneg xs). rewrite (proj2 (Z.ltb_ge _ _)) by lia.
  rewrite (offset_advance _ _ _ _ H); [done|]. rewrite len_app. lia.
Qed.

Section allocated.
Context {M : Malloc} (Hmalloc : forall n, malloc n = true).

Lemma extract_raw_data_at r pre xs suf :
  at_pos r pre (xs ++ suf) -> decoder_extract_raw_data_with_len r (len xs) = Ret (advance r (len xs), Ok xs).
Proof using Hmalloc.
  intros H. unfold decoder_extract_raw_data_with_len. rewrite (at_pos_unconsumed _ _ _ H), len_app, Hmalloc.
  pose proof (len_nonneg suf). pose proof (len_nonneg xs). rewrite (proj2 (Z.ltb_ge _ _)) by lia.
  rewrite (read_bytes_at _ _ _ _ H). cbn [mbind run_bind].
  rewrite (offset_advance _ _ _ _ H); [done|]. rewrite len_app. lia.
Qed.

Lemma extract_raw_data_short r pre suf n :
  at_pos r pre suf -> len suf < n -> decoder_extract_raw_data_with_len r n = Ret (r, Err STATE_NEEDS_MORE_DATA).
Proof using.
  intros H Hn. unfold decoder_extract_raw_data_with_len. rewrite (at_pos_unconsumed _ _ _ H).
  by rewrite (proj2 (Z.ltb_lt _ _)) by lia.
Qed.

End allocated.
