(* ===== verification/ProbeStream.v ===== *)
(** * The data streams of the L7 probe (l7probe/data_stream.c)

    A stream holds the captured chunks of one direction of a connection and the
    frames parsed from them.  The parser of the connection's protocol is the
    interface [Protocol]; [data_stream_parse_frames] calls it on the first chunk,
    joins chunks when a frame needs more data, and drops chunks it cannot read. *)

From S2P Require Import Prelude Bytes ProbeData.

Definition __FRAME_BUF_SIZE : Z := 10240.
Definition __RAW_BUF_SIZE : Z := 2500.
Definition RAW_DATA_FLAGS_INVALID : Z := 1.

(** What the stream asks of a protocol (protocol/expose/protocol_parser.c):
    where the next frame starts, and the frame there.  A frame parsed with
    success may be missing. *)
Class Protocol (F : Type) := {
  proto_find_frame_boundary : message_type_t -> raw_data_s -> run Z;
  proto_parse_frame : message_type_t -> raw_data_s -> run (raw_data_s * parse_state_t * option F);
}.

(** The first [frame_buf_size] frames and the first [raw_buf_size] chunks *)
Record data_stream_s (F : Type) := {
  raw_datas : list raw_data_s;
  frames : list F;
  frame_pos : Z;
}.
Arguments Build_data_stream_s {F}.
Arguments raw_datas {F}.
Arguments frames {F}.
Arguments frame_pos {F}.

#[export] Instance data_stream_fields F : Fields (data_stream_s F) := fun x =>
  Build_data_stream_s (raw_datas x) (frames x) (frame_pos x).

Inductive parse_rslt_e :=
| PARSE_NEXT
| PARSE_REBOUND
| PARSE_REPEAT
| PARSE_OVERLAY
| PARSE_STOP
| PARSE_ERROR.

(** The labels of the loop of [data_stream_parse_frames] *)
Inductive label := Next | Rebound | Repeat.

Section stream.
Context {M : Malloc} {F : Type} {P : Protocol F}.
Implicit Types st : data_stream_s F.

Definition init_data_stream : data_stream_s F :=
  {| raw_datas := []; frames := []; frame_pos := 0 |}.

(** ** Chunks and frames *)

Definition push_frame_data st (f : F) : option (data_stream_s F) :=
  if __FRAME_BUF_SIZE <=? Z.of_nat (length (frames st)) then None
  else Some (st <| frames := frames st ++ [f] |>).

Definition push_raw_data st (r : raw_data_s) : option (data_stream_s F) :=
  if __RAW_BUF_SIZE <=? Z.of_nat (length (raw_datas st)) then None
  else Some (st <| raw_datas := raw_datas st ++ [r] |>).

Definition pop_raw_data st : data_stream_s F := st <| raw_datas := tail (raw_datas st) |>.

(** The first chunk with the changes of its parser *)
Definition set_top st (r : raw_data_s) : data_stream_s F := st <| raw_datas := r :: tail (raw_datas st) |>.

(** The new chunk; [None] without memory.  [src] does not precede [dst]. *)
Definition join_raw_data (dst src : raw_data_s) : option raw_data_s :=
  if malloc (wadd 64 (wadd 64 (data_len dst) (data_len src)) sizeof_raw_data_s) then
    Some {| flags := 0; timestamp_ns := timestamp_ns dst; rd_index := rd_index src; isBrokeData := 0;
            current_pos := current_pos dst; data := data dst ++ data src |}
  else None.

(** Joins the first two chunks.  A chunk that precedes the first is not joined:
    [__do_overlay_raw_data] returns the first chunk itself, which is marked and
    stays; with an [index] of 0 it would be freed and put back.  Chunks of the
    same positive [index] stay too, and the new chunk is lost. *)
Definition overlay_raw_data st : run (option (data_stream_s F)) :=
  match raw_datas st with
  | dst :: src :: rest =>
      if rd_index src <? rd_index dst then
        if 0 <? rd_index dst then Ret (Some (set_top st (dst <| isBrokeData := 1 |>))) else Panic
      else
        match join_raw_data dst src with
        | None => Ret None
        | Some new =>
            if (rd_index new =? rd_index dst) && (0 <? rd_index new) then Ret (Some st)
            else Ret (Some (st <| raw_datas := new :: rest |>))
        end
  | _ => Ret None
  end.

(** [data_stream_pop_frames]: the frames the matcher has passed leave the buffer. *)
Definition data_stream_pop_frames st : run (data_stream_s F) :=
  if frame_pos st =? 0 then Ret st
  else if frame_pos st <=? Z.of_nat (length (frames st))
  then Ret (st <| frames := drop (Z.to_nat (frame_pos st)) (frames st) |> <| frame_pos := 0 |>)
  else Panic.

(** ** Parsing *)

(** [r] is the first chunk of [st]. *)
Definition __do_parse_frames (msg_type : message_type_t) st (r : raw_data_s) : run (data_stream_s F * parse_rslt_e) :=
  '(r, parse_state, frame_data) ← proto_parse_frame msg_type r;
  let st := set_top st r in
  match parse_state with
  | STATE_SUCCESS =>
      match frame_data with
      | None => Ret (st, PARSE_ERROR)
      | Some f =>
          match push_frame_data st f with
          | None => Ret (st, PARSE_STOP)
          | Some st => Ret (st, if current_pos r =? data_len r then PARSE_NEXT else PARSE_REPEAT)
          end
      end
  | STATE_IGNORE => Ret (st, PARSE_NEXT)
  | STATE_INVALID =>
      if negb (Z.land (flags r) RAW_DATA_FLAGS_INVALID =? 0) then Ret (st, PARSE_NEXT)
      else Ret (set_top st (r <| flags := Z.lor (flags r) RAW_DATA_FLAGS_INVALID |>), PARSE_REBOUND)
  | STATE_NEEDS_MORE_DATA =>
      o ← overlay_raw_data st;
      match o with
      | None => Ret (st, PARSE_STOP)
      | Some st => Ret (st, PARSE_OVERLAY)
      end
  | _ => Ret (st, PARSE_ERROR)
  end.

(** The first chunk with its position put back *)
Definition restore_pos st (old_pos : Z) : data_stream_s F :=
  match raw_datas st with
  | r :: rest => st <| raw_datas := (r <| current_pos := old_pos |>) :: rest |>
  | [] => st
  end.

(** From a label on; [None] when the loop takes more than [fuel] jumps *)
Fixpoint parse_loop (fuel : nat) (msg_type : message_type_t) (l : label) st : run (option (data_stream_s F)) :=
  match fuel with
  | O => Ret None
  | S fuel =>
      match raw_datas st with
      | [] => Ret (Some st)
      | r :: _ =>
          match l with
          | Next => parse_loop fuel msg_type Rebound st
          | Rebound =>
              new_pos ← proto_find_frame_boundary msg_type r;
              if new_pos =? PARSER_INVALID_BOUNDARY_INDEX then parse_loop fuel msg_type Next (pop_raw_data st)
              else parse_loop fuel msg_type Repeat (set_top st (r <| current_pos := new_pos |>))
          | Repeat =>
              let old_pos := current_pos r in
              '(st, rslt) ← __do_parse_frames msg_type st r;
              match rslt with
              | PARSE_NEXT => parse_loop fuel msg_type Next (pop_raw_data st)
              | PARSE_OVERLAY => parse_loop fuel msg_type Next st
              | PARSE_REBOUND => parse_loop fuel msg_type Rebound st
              | PARSE_REPEAT => parse_loop fuel msg_type Repeat st
              | PARSE_STOP => Ret (Some (restore_pos st old_pos))
              | PARSE_ERROR => Ret (Some (pop_raw_data st))
              end
          end
      end
  end.

Definition data_stream_parse_frames (fuel : nat) (msg_type : message_type_t) st : run (option (data_stream_s F)) :=
  parse_loop fuel msg_type Next st.

(** The stream, and whether the chunk was added *)
Definition data_stream_add_raw_data st (bs : bytes) (ts idx : Z) : data_stream_s F * bool :=
  if malloc (wadd 64 (len bs) sizeof_raw_data_s) then
    match push_raw_data st {| flags := 0; timestamp_ns := ts; rd_index := idx; isBrokeData := 0;
                              current_pos := 0; data := bs |} with
    | Some st => (st, true)
    | None => (st, false)
    end
  else (st, false).

End stream.

(** ** Rounds of the loop *)

Abbreviation stream Q fs p := {| raw_datas := Q; frames := fs; frame_pos := p |}.

(** Chunks of the same system call have the indices 0, 1, 2, ... *)
Definition joinable (i j : Z) : bool := (i <? j) || ((i =? 0) && (j =? 0)).

Definition joined (dst src : raw_data_s) : raw_data_s :=
  {| flags := 0; timestamp_ns := timestamp_ns dst; rd_index := rd_index src; isBrokeData := 0;
     current_pos := current_pos dst; data := data dst ++ data src |}.

Section rounds.
Context {M : Malloc} {F : Type} {P : Protocol F}.
Implicit Types (r c : raw_data_s) (Q : list raw_data_s) (fs : list F).

Lemma next_round n mt r Q fs p :
  parse_loop (S n) mt Next (stream (r :: Q) fs p) = parse_loop n mt Rebound (stream (r :: Q) fs p).
Proof. done. Qed.

Lemma rebound_found n mt r i Q fs p : proto_find_frame_boundary mt r = Ret i -> i < SIZE_MAX ->
  parse_loop (S n) mt Rebound (stream (r :: Q) fs p) = parse_loop n mt Repeat (stream (r <| current_pos := i |> :: Q) fs p).
Proof.
  intros H Hi. cbn [parse_loop raw_datas]. rewrite H. cbn [mbind run_bind].
  by rewrite (proj2 (Z.eqb_neq _ _)) by (unfold PARSER_INVALID_BOUNDARY_INDEX; lia).
Qed.

Lemma rebound_none n mt r Q fs p : proto_find_frame_boundary mt r = Ret PARSER_INVALID_BOUNDARY_INDEX ->
  parse_loop (S n) mt Rebound (stream (r :: Q) fs p) = parse_loop n mt Next (stream Q fs p).
Proof. intros H. cbn [parse_loop raw_datas]. rewrite H. cbn [mbind run_bind]. by rewrite Z.eqb_refl. Qed.

Lemma repeat_success n mt r r' Q f fs p :
  proto_parse_frame mt r = Ret (r', STATE_SUCCESS, Some f) -> Z.of_nat (length fs) < __FRAME_BUF_SIZE ->
  parse_loop (S n) mt Repeat (stream (r :: Q) fs p)
  = if current_pos r' =? data_len r' then parse_loop n mt Next (stream Q (fs ++ [f]) p)
    else parse_loop n mt Repeat (stream (r' :: Q) (fs ++ [f]) p).
Proof.
  intros H Hn. cbn [parse_loop raw_datas]. unfold __do_parse_frames, push_frame_data. rewrite H. cbn [mbind run_bind].
  cbn [frames set_top raw_datas update]. rewrite (proj2 (Z.leb_gt _ _)) by done. cbn [mbind run_bind]. by destruct (current_pos r' =? _).
Qed.

Lemma repeat_stop n mt r r' o fs p :
  proto_parse_frame mt r = Ret (r', STATE_NEEDS_MORE_DATA, o) ->
  parse_loop (S n) mt Repeat (stream [r] fs p) = Ret (Some (stream [r' <| current_pos := current_pos r |>] fs p)).
Proof. intros H. cbn [parse_loop raw_datas]. unfold __do_parse_frames. by rewrite H. Qed.

Lemma repeat_join n mt r r' o c Q fs p :
  (forall n, malloc n = true) ->
  proto_parse_frame mt r = Ret (r', STATE_NEEDS_MORE_DATA, o) -> joinable (rd_index r') (rd_index c) = true ->
  parse_loop (S n) mt Repeat (stream (r :: c :: Q) fs p) = parse_loop n mt Next (stream (joined r' c :: Q) fs p).
Proof.
  intros Hmalloc H Hj. cbn [parse_loop raw_datas]. unfold __do_parse_frames. rewrite H. cbn [mbind run_bind].
  unfold overlay_raw_data, set_top, joinable in *. cbn [raw_datas tail update].
  rewrite (proj2 (Z.ltb_ge _ _)) by lia. unfold join_raw_data. rewrite Hmalloc. cbn [rd_index].
  rewrite (proj2 (andb_false_iff _ _)) by lia. done.
Qed.

(** A chunk that is invalid is searched again once, and then dropped. *)
Lemma repeat_rebound n mt r r' o Q fs p :
  proto_parse_frame mt r = Ret (r', STATE_INVALID, o) -> Z.land (flags r') RAW_DATA_FLAGS_INVALID = 0 ->
  parse_loop (S n) mt Repeat (stream (r :: Q) fs p)
  = parse_loop n mt Rebound (stream (r' <| flags := Z.lor (flags r') RAW_DATA_FLAGS_INVALID |> :: Q) fs p).
Proof. intros H Hf. cbn [parse_loop raw_datas]. unfold __do_parse_frames. rewrite H. cbn [mbind run_bind]. by rewrite Hf. Qed.

Lemma repeat_drop n mt r r' o Q fs p :
  proto_parse_frame mt r = Ret (r', STATE_INVALID, o) -> Z.land (flags r') RAW_DATA_FLAGS_INVALID <> 0 ->
  parse_loop (S n) mt Repeat (stream (r :: Q) fs p) = parse_loop n mt Next (stream Q fs p).
Proof.
  intros H Hf. cbn [parse_loop raw_datas]. unfold __do_parse_frames. rewrite H. cbn [mbind run_bind].
  by rewrite (proj2 (Z.eqb_neq _ _)) by done.
Qed.

(** A chunk that cannot be joined *)
Definition broken r c : raw_data_s := if rd_index c <? rd_index r then r <| isBrokeData := 1 |> else r.

Lemma repeat_broken n mt r r' o c Q fs p :
  (forall n, malloc n = true) ->
  proto_parse_frame mt r = Ret (r', STATE_NEEDS_MORE_DATA, o) -> 0 < rd_index r' -> rd_index c <= rd_index r' ->
  parse_loop (S n) mt Repeat (stream (r :: c :: Q) fs p) = parse_loop n mt Next (stream (broken r' c :: c :: Q) fs p).
Proof.
  intros Hmalloc H Hi Hc. cbn [parse_loop raw_datas]. unfold __do_parse_frames. rewrite H. cbn [mbind run_bind].
  unfold overlay_raw_data, set_top, broken. cbn [raw_datas tail update].
  case_match; [by rewrite (proj2 (Z.ltb_lt _ _)) by done|].
  unfold join_raw_data. rewrite Hmalloc. cbn [rd_index]. by rewrite (proj2 (andb_true_iff _ _)) by lia.
Qed.

End rounds.
