(* ===== verification/ProbePgsql.v ===== *)
(** * PostgreSQL frames in the L7 probe (l7probe/protocol/pgsql)

    Where a regular message starts and what it holds: the operations of the
    [Protocol] interface for PostgreSQL.  A regular message is a tag, a 32-bit
    length that counts itself, and the payload. *)

From Stdlib Require Import Ascii.
From S2P Require Import Prelude Bytes ProbeData ProbeStream.

Definition chr (c : ascii) : Z := Z.of_N (N_of_ascii c).

(** The values of [pgsql_tag_enum_values] (pgsql_msg_format.c), client and server *)
Definition pgsql_tag_enum_values : list Z :=
  map chr (["d"; "c"; "Q"; "P"; "B"; "E"; "F"; "C"; "D"; "S"; "H"; "X"; "f";
            "d"; "c"; "C"; "E"; "Z"; "I"; "1"; "2"; "3"; "S"; "K"; "T"; "n"; "t"; "D"; "G"; "H"; "W"; "R"]%char).

Definition contains_pgsql_tag (tag : Z) : bool := existsb (Z.eqb tag) pgsql_tag_enum_values.

Definition PGSQL_REGULAR_MSG_MIN_LEN : Z := 4.
Definition PGSQL_REGULAR_PACKET_MIN_LEN : Z := 5.

Record pgsql_regular_msg_s := {
  msg_timestamp_ns : Z;
  tag : Z;
  msg_len : Z;
  payload_data : bytes;
  consumed : bool;
}.

Definition sizeof_frame_data_s : Z := 24.
Definition sizeof_pgsql_regular_msg_s : Z := 32.

Section parser.
Context {M : Malloc}.

(** The message, or the state it fails with; [more_data] puts the position back. *)
Definition pgsql_parse_regular_msg (r : raw_data_s) : decoded pgsql_regular_msg_s :=
  let old_pos := current_pos r in
  let more_data r := (r <| current_pos := old_pos |>, Err STATE_NEEDS_MORE_DATA) in
  if (data_len r =? 0) || (current_pos r =? data_len r) then Ret (more_data r)
  else
    '(r, tag_res) ← decoder_extract_char r;
    match tag_res with
    | Err _ => Ret (more_data r)
    | Ok tag =>
        '(r, len_res) ← decoder_extract_int 32 r;
        match len_res with
        | Err _ => Ret (more_data r)
        | Ok l =>
            if l <? PGSQL_REGULAR_MSG_MIN_LEN then Ret (r, Err STATE_INVALID)
            else
              '(r, payload_res) ← decoder_extract_raw_data_with_len r (l - PGSQL_REGULAR_MSG_MIN_LEN);
              match payload_res with
              | Err _ => Ret (more_data r)
              | Ok payload =>
                  Ret (r, Ok {| msg_timestamp_ns := timestamp_ns r; tag := tag; msg_len := l;
                                payload_data := payload; consumed := false |})
              end
        end
    end.

Definition pgsql_parse_frame (r : raw_data_s) : run (raw_data_s * parse_state_t * option pgsql_regular_msg_s) :=
  if (data_len r =? 0) || (current_pos r =? data_len r) then Ret (r, STATE_NEEDS_MORE_DATA, None)
  else if negb (malloc sizeof_frame_data_s) then Ret (r, STATE_INVALID, None)
  else if negb (malloc sizeof_pgsql_regular_msg_s) then Ret (r, STATE_INVALID, None)
  else
    '(r, res) ← pgsql_parse_regular_msg r;
    match res with
    | Ok m => Ret (r, STATE_SUCCESS, Some m)
    | Err s => Ret (r, s, None)
    end.

End parser.

(** The loop of [pgsql_find_frame_boundary]: a tag followed by a 0, and after a 0
    unless it is the first byte looked at *)
Fixpoint boundary_loop (fuel : nat) (r : raw_data_s) (i : Z) : run Z :=
  match fuel with
  | O => Ret PARSER_INVALID_BOUNDARY_INDEX
  | S fuel =>
      if data_len r <=? i then Ret PARSER_INVALID_BOUNDARY_INDEX
      else
        c ← index (data r) i;
        if contains_pgsql_tag c then
          if i =? current_pos r then
            next ← index (data r) (i + 1);
            if next =? 0 then Ret i else boundary_loop fuel r (i + 1)
          else if i =? data_len r - 1 then boundary_loop fuel r (i + 1)
          else
            prev ← index (data r) (i - 1);
            if prev =? 0 then
              next ← index (data r) (i + 1);
              if next =? 0 then Ret i else boundary_loop fuel r (i + 1)
            else boundary_loop fuel r (i + 1)
        else boundary_loop fuel r (i + 1)
  end.

(** The loop runs at most once for each byte. *)
Definition pgsql_find_frame_boundary (r : raw_data_s) : run Z :=
  if data_len r <? PGSQL_REGULAR_PACKET_MIN_LEN then Ret PARSER_INVALID_BOUNDARY_INDEX
  else boundary_loop (length (data r)) r (current_pos r).

#[export] Instance pgsql `{Malloc} : Protocol pgsql_regular_msg_s := {|
  proto_find_frame_boundary _ := pgsql_find_frame_boundary;
  proto_parse_frame _ := pgsql_parse_frame;
|}.
