(* ===== verification/ProbePgsqlSpec.v ===== *)
(** * PostgreSQL messages through a data stream of the L7 probe

    The messages of a connection come out of the stream as they were sent, for
    every way to cut their bytes into chunks that keeps [well_cut].  The rest of
    the file shows that its conditions are needed: a chunk with a short start of
    a message, a tag left alone at the end of the buffer, and chunks that
    cannot be joined. *)

From S2P Require Import Prelude Bytes ProbeData ProbeStream ProbePgsql.

(** ** Messages on the wire *)

(** A message is its tag and its payload. *)
Abbreviation message := (Z * bytes)%type.

Definition encode (m : message) : bytes := m.1 :: be32 (len m.2 + 4) ++ m.2.

(** A tag the probe knows, and a length below 2^24: a tag is only found before a
    byte 0. *)
Definition wf_message (m : message) : Prop := contains_pgsql_tag m.1 = true /\ len m.2 + 4 < 2 ^ 24.

(** What a frame keeps of its message *)
Definition bare (f : pgsql_regular_msg_s) : message := (tag f, payload_data f).

(** The start of a message *)
Definition partial (bs : bytes) : Prop := exists m ext, wf_message m /\ ext <> [] /\ encode m = bs ++ ext.

Lemma len_encode m : len (encode m) = 5 + len m.2.
Proof. unfold encode. rewrite len_cons, len_app. change (len (be32 _)) with 4. lia. Qed.

Lemma encode_head m : wf_message m -> exists xs, encode m = m.1 :: 0 :: xs.
Proof.
  intros [_ Hl]. pose proof (len_nonneg m.2). unfold encode, be32. cbn [app].
  assert (Z.shiftr (len m.2 + 4) 24 = 0) as ->; [|by eexists].
  rewrite Z.shiftr_div_pow2 by lia. apply Z.div_small. lia.
Qed.

(** ** One frame *)

Section frame.
Context {M : Malloc} (Hmalloc : forall n, malloc n = true) (mt : message_type_t).

Lemma frame_not_empty r pre suf : at_pos r pre suf -> suf <> [] ->
  (data_len r =? 0) || (current_pos r =? data_len r) = false.
Proof.
  intros H Hs. pose proof (at_pos_data_len _ _ _ H) as Hl. destruct H as (_ & Hp & _).
  pose proof (len_nonneg pre). destruct suf as [|b suf]; [done|]. rewrite len_cons in Hl. pose proof (len_nonneg suf). lia.
Qed.

Lemma extract_int32_len r pre m suf : at_pos r pre (be32 (len m + 4) ++ suf) -> len m + 4 < 2 ^ 24 ->
  decoder_extract_int 32 r = Ret (advance r 4, Ok (len m + 4)).
Proof.
  intros H Hm. pose proof (len_nonneg m). unfold decoder_extract_int.
  rewrite (extract_uint_at 32 _ _ _ _ H) by done. cbn [mbind run_bind].
  rewrite be_int_be32 by (unfold fits; lia). unfold to_signed. by rewrite (proj2 (Z.ltb_lt _ _)) by lia.
Qed.

Lemma parse_frame_whole r pre m suf : at_pos r pre (encode m ++ suf) -> wf_message m ->
  exists f, proto_parse_frame mt r = Ret (advance r (len (encode m)), STATE_SUCCESS, Some f) /\ bare f = m.
Proof using Hmalloc.
  intros H [Ht Hl]. cbn [proto_parse_frame pgsql]. unfold pgsql_parse_frame, pgsql_parse_regular_msg.
  rewrite (frame_not_empty _ _ _ H) by done. rewrite !Hmalloc. cbn [negb].
  unfold encode in H. cbn [app] in H. rewrite <- app_assoc in H.
  rewrite (extract_char_at _ _ _ _ H). cbn [mbind run_bind].
  pose proof (at_pos_advance _ _ [m.1] _ H) as H1. change (len [m.1]) with 1 in H1.
  rewrite (extract_int32_len _ _ _ _ H1) by done. cbn [mbind run_bind].
  pose proof (at_pos_advance _ _ (be32 _) _ H1) as H2. change (len (be32 _)) with 4 in H2.
  pose proof (len_nonneg m.2). unfold PGSQL_REGULAR_MSG_MIN_LEN. rewrite (proj2 (Z.ltb_ge _ _)) by lia.
  rewrite Z.add_simpl_r, (extract_raw_data_at Hmalloc _ _ _ _ H2). cbn [mbind run_bind].
  rewrite len_encode, !advance_advance. replace (1 + (4 + len m.2)) with (5 + len m.2) by lia.
  eexists. split; [done|]. by destruct m.
Qed.

Lemma parse_frame_partial r pre suf : at_pos r pre suf -> partial suf -> suf <> [] ->
  proto_parse_frame mt r = Ret (r, STATE_NEEDS_MORE_DATA, None).
Proof using Hmalloc.
  intros H (m & ext & [Ht Hl] & Hext & Hm) Hs. cbn [proto_parse_frame pgsql]. unfold pgsql_parse_frame, pgsql_parse_regular_msg.
  rewrite (frame_not_empty _ _ _ H) by done. rewrite !Hmalloc. cbn [negb].
  destruct suf as [|t suf]; [done|]. apply (f_equal tail) in Hm.
  change (be32 (len m.2 + 4) ++ m.2 = suf ++ ext) in Hm.
  rewrite (extract_char_at _ _ _ _ H). cbn [mbind run_bind].
  pose proof (at_pos_advance _ _ [t] _ H) as H1. change (len [t]) with 1 in H1.
  assert (len m.2 + 4 = len suf + len ext) as Hlen.
  { pose proof (f_equal len Hm) as E. rewrite !len_app in E. change (len (be32 _)) with 4 in E. lia. }
  assert (0 < len ext). { destruct ext; [done|]. rewrite len_cons. pose proof (len_nonneg ext). lia. }
  destruct (decide (len suf < 4)) as [Hlt|Hge].
  - unfold decoder_extract_int. rewrite (extract_uint_short 32 _ _ _ H1) by done. cbn [mbind run_bind].
    by rewrite restore_advance.
  - assert (exists p, suf = be32 (len m.2 + 4) ++ p /\ m.2 = p ++ ext) as (p & -> & Hp).
    { destruct (app_eq_app _ _ _ _ Hm) as [p [(Hb & ->)|(-> & Hp)]]; [|by exists p].
      pose proof (f_equal len Hb) as E. rewrite len_app in E. change (len (be32 _)) with 4 in E.
      destruct p as [|b p]; [|rewrite len_cons in E; pose proof (len_nonneg p); lia].
      exists []. rewrite app_nil_r in *. by split. }
    rewrite (extract_int32_len _ _ _ _ H1) by done. cbn [mbind run_bind].
    pose proof (at_pos_advance _ _ (be32 _) _ H1) as H2. change (len (be32 _)) with 4 in H2.
    pose proof (len_nonneg m.2). unfold PGSQL_REGULAR_MSG_MIN_LEN. rewrite (proj2 (Z.ltb_ge _ _)) by lia.
    rewrite Z.add_simpl_r, (extract_raw_data_short _ _ _ _ H2).
    + cbn [mbind run_bind]. rewrite advance_advance. by rewrite restore_advance.
    + rewrite Hp, len_app. lia.
Qed.

Lemma boundary_here r pre t suf : at_pos r pre (t :: 0 :: suf) -> contains_pgsql_tag t = true -> 5 <= data_len r ->
  proto_find_frame_boundary mt r = Ret (current_pos r).
Proof using.
  intros H Ht Hl. cbn [proto_find_frame_boundary pgsql]. unfold pgsql_find_frame_boundary, PGSQL_REGULAR_PACKET_MIN_LEN.
  rewrite (proj2 (Z.ltb_ge _ _)) by lia.
  destruct (length (data r)) as [|n] eqn:En; [unfold data_len, len in Hl; lia|].
  cbn [boundary_loop]. pose proof (at_pos_data_len _ _ _ H) as Hd. rewrite !len_cons in Hd.
  pose proof (len_nonneg suf). assert (current_pos r = len pre) as Hp by apply H.
  rewrite (proj2 (Z.leb_gt _ _)) by lia. rewrite (index_at _ _ _ _ H). cbn [mbind run_bind].
  rewrite Ht, Z.eqb_refl.
  pose proof (at_pos_advance _ _ [t] _ H) as H1. change (len [t]) with 1 in H1. pose proof (index_at _ _ _ _ H1) as Hi.
  cbn in Hi. rewrite Hi. done.
Qed.

End frame.

(** ** The loop *)

Definition encodes (ms : list message) : bytes := mjoin (map encode ms).

Lemma encodes_cons m ms : encodes (m :: ms) = encode m ++ encodes ms.
Proof. done. Qed.

Lemma encodes_app ms1 ms2 : encodes (ms1 ++ ms2) = encodes ms1 ++ encodes ms2.
Proof. induction ms1 as [|m ms1 IH]; [done|]. cbn [app]. by rewrite !encodes_cons, IH, app_assoc. Qed.

Section loop.
Context {M : Malloc} (Hmalloc : forall n, malloc n = true) (mt : message_type_t).
Implicit Types (r c : raw_data_s) (fs : list pgsql_regular_msg_s).

(** All whole messages of the first chunk become frames. *)
Lemma drain n r pre ms part Q fs p :
  at_pos r pre (encodes ms ++ part) -> Forall wf_message ms -> encodes ms ++ part <> [] ->
  Z.of_nat (length fs + length ms) <= __FRAME_BUF_SIZE ->
  exists fs', map bare fs' = ms /\
    parse_loop (length ms + n) mt Repeat (stream (r :: Q) fs p)
    = if decide (part = []) then parse_loop n mt Next (stream Q (fs ++ fs') p)
      else parse_loop n mt Repeat (stream (advance r (len (encodes ms)) :: Q) (fs ++ fs') p).
Proof using Hmalloc.
  intros H Hwf. revert r pre fs H. induction Hwf as [|m ms Hm Hwf IH]; intros r pre fs H Hne Hcap.
  - exists []. split; [done|]. cbn in Hne. rewrite decide_False by done.
    change (len (encodes [])) with 0. by rewrite advance_0, app_nil_r.
  - rewrite encodes_cons, <- app_assoc in H. destruct (parse_frame_whole Hmalloc mt _ _ _ _ H Hm) as (f & Hf & Hb).
    cbn [length] in *. cbn [Nat.add]. rewrite (repeat_success _ _ _ _ _ f _ _ Hf) by lia.
    apply at_pos_advance in H. pose proof (at_pos_data_len _ _ _ H) as Hl.
    assert (current_pos (advance r (len (encode m))) = len (pre ++ encode m)) as Hp by apply H.
    rewrite Hl, Hp. destruct (decide (encodes ms ++ part = [])) as [He|He].
    + rewrite He. change (len []) with 0. rewrite Z.add_0_r, Z.eqb_refl.
      apply app_nil in He as [He ->]. destruct ms; [|done]. exists [f]. rewrite decide_True by done. split; [|done].
      cbn. by rewrite Hb.
    + assert (0 < len (encodes ms ++ part)). { destruct (encodes ms ++ part); [done|]. rewrite len_cons. pose proof (len_nonneg l). lia. }
      rewrite (proj2 (Z.eqb_neq _ _)) by lia.
      destruct (IH _ _ (fs ++ [f]) H He) as (fs' & Hfs & IH'); [rewrite length_app; cbn; lia|].
      exists (f :: fs'). split; [cbn; by rewrite Hb, Hfs|]. rewrite IH', <- app_assoc, encodes_cons, len_app, advance_advance.
      done.
Qed.

(** The search for the next message stays where it is. *)
Lemma start n r pre t suf Q fs p :
  at_pos r pre (t :: 0 :: suf) -> contains_pgsql_tag t = true -> 5 <= data_len r ->
  parse_loop (S (S n)) mt Next (stream (r :: Q) fs p) = parse_loop n mt Repeat (stream (r :: Q) fs p).
Proof using.
  intros H Ht Hl. rewrite next_round, (rebound_found _ _ _ (current_pos r)).
  - by rewrite set_same.
  - by eapply boundary_here.
  - pose proof (at_pos_data_len _ _ _ H) as Hd. rewrite !len_cons in Hd. pose proof (len_nonneg suf).
    destruct H as (_ & -> & Hlt). unfold SIZE_MAX. lia.
Qed.

End loop.

(** ** Cuts of the messages into chunks *)

Record chunk := { c_bytes : bytes; c_time : Z; c_index : Z }.

Definition raw_of (c : chunk) : raw_data_s :=
  {| flags := 0; timestamp_ns := c_time c; rd_index := c_index c; isBrokeData := 0; current_pos := 0; data := c_bytes c |}.

(** A chunk that comes after [l], the start of a message: at a message of its own
    it has at least 5 bytes; in a message it can be joined. *)
Definition chunk_ok (l : Z) (prev : Z) (c : chunk) : bool :=
  if l =? 0 then 5 <=? len (c_bytes c) else (1 <=? len (c_bytes c)) && joinable prev (c_index c).

(** The chunks [cs] complete [l] to the messages [ms] and leave [l'], where [i]
    and [i'] are the indices of the chunks that end with [l] and [l']. *)
Inductive cuts : bytes -> Z -> list chunk -> list message -> bytes -> Z -> Prop :=
| cuts_nil l i : partial l -> cuts l i [] [] l i
| cuts_cons l i c cs ms1 l1 ms2 l2 i2 :
    partial l -> chunk_ok (len l) i c = true -> Forall wf_message ms1 -> l ++ c_bytes c = encodes ms1 ++ l1 ->
    cuts l1 (c_index c) cs ms2 l2 i2 -> cuts l i (c :: cs) (ms1 ++ ms2) l2 i2.

Definition total (cs : list chunk) : Z := sumZ (fun c => len (c_bytes c)) cs.

(** The chunks a stream keeps when it has parsed all it can: the one with the
    start [l] of a message *)
Definition settled (l : bytes) (i : Z) (Q : list raw_data_s) (size : Z) : Prop :=
  (l = [] /\ Q = [])
  \/ (l <> [] /\ exists r pre, Q = [r] /\ at_pos r pre l /\ 5 <= data_len r <= size /\ rd_index r = i).

Lemma cuts_partial l i cs ms l' i' : cuts l i cs ms l' i' -> partial l.
Proof. by destruct 1. Qed.

Lemma total_cons c cs : total (c :: cs) = len (c_bytes c) + total cs.
Proof. exact (sumZ_cons _ c cs). Qed.

Lemma total_nonneg cs : 0 <= total cs.
Proof. apply sumZ_nonneg, Forall_forall. intros c _. apply len_nonneg. Qed.

Lemma settled_mono l i Q s s' : settled l i Q s -> s <= s' -> settled l i Q s'.
Proof. intros [H|(Hl & r & pre & ? & ? & ? & ?)] Hs; [by left|]. right. split; [done|]. exists r, pre. repeat split; try done; try lia; apply H0. Qed.

Lemma head_form ms part : Forall wf_message ms -> partial part -> 2 <= len (encodes ms ++ part) ->
  exists t xs, encodes ms ++ part = t :: 0 :: xs /\ contains_pgsql_tag t = true.
Proof.
  intros Hwf Hp Hl. destruct Hwf as [|m ms Hm Hwf].
  - destruct Hp as (m & ext & Hm & _ & He). destruct (encode_head m Hm) as [xs Hx]. rewrite Hx in He.
    change (encodes [] ++ part) with part in *.
    destruct part as [|a [|b part]]; [rewrite ?len_cons in Hl; change (len []) with 0 in Hl; lia..|]. injection He as <- <- _.
    exists m.1, part. split; [done|]. apply Hm.
  - destruct (encode_head m Hm) as [xs Hx]. exists m.1, (xs ++ encodes ms ++ part). split; [|apply Hm].
    by rewrite encodes_cons, <- app_assoc, Hx.
Qed.

Lemma len_pos (bs : bytes) : bs <> [] -> 0 < len bs.
Proof. destruct bs; [done|]. rewrite len_cons. pose proof (len_nonneg bs). lia. Qed.

Lemma bare_length fs ms : map bare fs = ms -> length fs = length ms.
Proof. intros <-. by rewrite length_map. Qed.

Section queue.
Context {M : Malloc} (Hmalloc : forall n, malloc n = true) (mt : message_type_t).

(** What the loop leaves of [st] after the messages [ms] *)
Definition parsed_to (st : data_stream_s pgsql_regular_msg_s) (fuel : nat) (lb : label)
    (ms : list message) (l : bytes) (i size : Z) : Prop :=
  exists fs' Q, map bare fs' = ms /\ settled l i Q size
    /\ parse_loop fuel mt lb st = Ret (Some (stream Q (frames st ++ fs') (frame_pos st))).

(** From a chunk that starts with whole messages, when the chunks after it do what they should *)
Lemma parse_top r pre cs ms1 l1 ms2 l2 i2 fuel fs p :
  at_pos r pre (encodes ms1 ++ l1) -> 2 <= len (encodes ms1 ++ l1) -> 5 <= data_len r ->
  Forall wf_message ms1 -> partial l1 -> (length ms1 + 2 <= fuel)%nat ->
  Z.of_nat (length fs + length ms1) <= __FRAME_BUF_SIZE ->
  (forall fs', map bare fs' = ms1 -> l1 = [] -> parsed_to (stream (map raw_of cs) (fs ++ fs') p) (fuel - (length ms1 + 2)) Next ms2 l2 i2 (total cs)) ->
  (forall r' pre' fs', map bare fs' = ms1 -> l1 <> [] -> at_pos r' pre' l1 -> data_len r' = data_len r -> rd_index r' = rd_index r ->
    parsed_to (stream (r' :: map raw_of cs) (fs ++ fs') p) (fuel - (length ms1 + 2)) Repeat ms2 l2 i2 (data_len r + total cs)) ->
  parsed_to (stream (r :: map raw_of cs) fs p) fuel Next (ms1 ++ ms2) l2 i2 (data_len r + total cs).
Proof using Hmalloc.
  intros H H2 H5 Hwf Hp Hfuel Hcap Hnext Hrepeat. destruct (head_form _ _ Hwf Hp H2) as (t & xs & He & Ht).
  destruct (drain Hmalloc mt (fuel - (length ms1 + 2)) r pre ms1 l1 (map raw_of cs) fs p H Hwf) as (fs' & Hfs & Hd);
    [intros E; rewrite E in H2; change (len []) with 0 in H2; lia|done|].
  assert (parse_loop fuel mt Next (stream (r :: map raw_of cs) fs p)
    = parse_loop (length ms1 + (fuel - (length ms1 + 2))) mt Repeat (stream (r :: map raw_of cs) fs p)) as Hs.
  { replace fuel with (S (S (length ms1 + (fuel - (length ms1 + 2))))) at 1 by lia.
    rewrite He in H. by apply (start mt _ _ _ _ _ _ _ _ H). }
  destruct (decide (l1 = [])) as [E|E].
  - destruct (Hnext fs' Hfs E) as (fs2 & Q & Hfs2 & HQ & Hl). exists (fs' ++ fs2), Q. split; [by rewrite map_app, Hfs, Hfs2|].
    split; [eapply settled_mono; [done|lia]|]. cbn [frames frame_pos] in *. by rewrite Hs, Hd, Hl, app_assoc.
  - destruct (Hrepeat (advance r (len (encodes ms1))) (pre ++ encodes ms1) fs' Hfs E) as (fs2 & Q & Hfs2 & HQ & Hl);
      [by apply at_pos_advance|done..|].
    exists (fs' ++ fs2), Q. split; [by rewrite map_app, Hfs, Hfs2|]. split; [done|].
    cbn [frames frame_pos] in *. by rewrite Hs, Hd, Hl, app_assoc.
Qed.

Lemma at_pos_joined r c pre suf : at_pos r pre suf -> data_len r + len (c_bytes c) < 2 ^ 64 ->
  at_pos (joined r (raw_of c)) pre (suf ++ c_bytes c) /\ data_len (joined r (raw_of c)) = data_len r + len (c_bytes c).
Proof using.
  intros (Hd & Hp & _) Hl. unfold at_pos, data_len in *. cbn [joined raw_of data current_pos].
  rewrite len_app, Hd, <- app_assoc. by rewrite Hd in Hl.
Qed.

Lemma chunk_ok_fresh i c : chunk_ok 0 i c = true -> 5 <= len (c_bytes c).
Proof using. unfold chunk_ok. cbn. lia. Qed.

Lemma chunk_ok_joins l i c : l <> [] -> chunk_ok (len l) i c = true -> 1 <= len (c_bytes c) /\ joinable i (c_index c) = true.
Proof using. intros Hl%len_pos. unfold chunk_ok. rewrite (proj2 (Z.eqb_neq _ _)) by lia. lia. Qed.

(** The chunks of a queue become the frames of their messages, from a queue of
    fresh chunks and from a chunk with the start of a message. *)
Lemma parse_chunks l i cs ms l' i' : cuts l i cs ms l' i' -> forall fuel fs p,
  (3 * length cs + length ms + 1 <= fuel)%nat -> Z.of_nat (length fs + length ms) <= __FRAME_BUF_SIZE ->
  (l = [] -> total cs < 2 ^ 64 -> parsed_to (stream (map raw_of cs) fs p) fuel Next ms l' i' (total cs))
  /\ (forall r pre, l <> [] -> at_pos r pre l -> 5 <= data_len r -> rd_index r = i -> data_len r + total cs < 2 ^ 64 ->
      parsed_to (stream (r :: map raw_of cs) fs p) fuel Repeat ms l' i' (data_len r + total cs)).
Proof using Hmalloc.
  induction 1 as [l i Hp|l i c cs ms1 l1 ms2 l2 i2 Hp Hc Hwf He Hcuts IH]; intros fuel fs p Hfuel Hcap.
  - destruct fuel as [|fuel]; [lia|]. split.
    + intros -> _. exists [], []. rewrite app_nil_r. split; [done|]. split; [by left|done].
    + intros r pre Hl H H5 Hi Ht. exists [], [r]. rewrite app_nil_r. change (total []) with 0. split; [done|].
      split; [right; split; [done|]; exists r, pre; repeat split; (done || lia || apply H)|].
      cbn [map]. rewrite (repeat_stop _ _ _ _ _ _ _ (parse_frame_partial Hmalloc mt _ _ _ H Hp Hl)). by rewrite set_same.
  - pose proof (cuts_partial _ _ _ _ _ _ Hcuts) as Hp1. pose proof (total_nonneg cs) as Hcs. rewrite total_cons.
    rewrite length_app in Hfuel, Hcap. cbn [length] in Hfuel. split.
    + intros -> Ht. cbn [app] in He. apply chunk_ok_fresh in Hc. cbn [map].
      change (len (c_bytes c)) with (data_len (raw_of c)) in *.
      apply (parse_top (raw_of c) [] cs ms1 l1); try done; try lia.
      * split; [done|]. split; [done|]. lia.
      * rewrite <- He. change (len (c_bytes c)) with (data_len (raw_of c)). lia.
      * intros fs' Hfs ->. apply IH; [lia| |done|lia]. rewrite length_app, (bare_length _ _ Hfs). lia.
      * intros r' pre' fs' Hfs Hl1 Hr Hd Hi. rewrite <- Hd. 
        destruct (IH (fuel - (length ms1 + 2))%nat (fs ++ fs') p) as [_ IH2]; [lia| |eapply IH2; (done || lia)].
        rewrite length_app, (bare_length _ _ Hfs). lia.
    + intros r pre Hl H H5 Hi Ht. destruct fuel as [|fuel]; [lia|]. destruct (chunk_ok_joins _ _ _ Hl Hc) as [Hc1 Hj].
      destruct (at_pos_joined r c pre l H) as [H' Hd']; [lia|].
      cut (parsed_to (stream (joined r (raw_of c) :: map raw_of cs) fs p) fuel Next (ms1 ++ ms2) l2 i2 (data_len (joined r (raw_of c)) + total cs)).
      { intros (fs' & Q & Hfs & HQ & Hl'). exists fs', Q. split; [done|]. split; [by rewrite Z.add_assoc, <- Hd'|].
        cbn [map]. rewrite (repeat_join _ _ _ _ _ _ _ _ _ Hmalloc (parse_frame_partial Hmalloc mt _ _ _ H Hp Hl)); [done|by rewrite Hi]. }
      rewrite He in H'. pose proof (len_pos l Hl).
      apply (parse_top _ _ cs ms1 l1 ms2 l2 i2 _ _ _ H'); try done; try lia.
      * rewrite <- He, len_app. lia.
      * intros fs' Hfs ->. apply IH; [lia| |done|]; [rewrite length_app, (bare_length _ _ Hfs); lia|]. pose proof (len_nonneg (data r)). unfold data_len in Ht. lia.
      * intros r' pre' fs' Hfs Hl1 Hr Hd Hi'. rewrite <- Hd. 
        destruct (IH (fuel - (length ms1 + 2))%nat (fs ++ fs') p) as [_ IH2]; [lia| |eapply IH2; (done || lia)].
        rewrite length_app, (bare_length _ _ Hfs). lia.
Qed.

End queue.

(** ** A connection *)

(** Chunks arrive and are parsed in any order. *)
Inductive event := Captured (c : chunk) | Parse.

Definition captured (e : event) : bytes := match e with Captured c => c_bytes c | Parse => [] end.

(** The bytes since the start of the message that goes on after [o] bytes *)
Fixpoint into (ms : list message) (o : Z) : Z :=
  match ms with
  | [] => o
  | m :: ms' => if o <? len (encode m) then o else into ms' (o - len (encode m))
  end.

(** From [o] bytes and the index [prev] on: every chunk is [chunk_ok], and no
    parse leaves one byte of a message. *)
Fixpoint well_cut (ms : list message) (o prev : Z) (es : list event) : bool :=
  match es with
  | [] => true
  | Captured c :: es => chunk_ok (into ms o) prev c && well_cut ms (o + len (c_bytes c)) (c_index c) es
  | Parse :: es => negb (into ms o =? 1) && well_cut ms o prev es
  end.

Section connection.
Context {M : Malloc}.

Definition event_step (fuel : nat) (mt : message_type_t) (st : data_stream_s pgsql_regular_msg_s) (e : event) :
    run (option (data_stream_s pgsql_regular_msg_s)) :=
  match e with
  | Captured c => Ret (Some (data_stream_add_raw_data st (c_bytes c) (c_time c) (c_index c)).1)
  | Parse => data_stream_parse_frames fuel mt st
  end.

Fixpoint event_steps (fuel : nat) (mt : message_type_t) (st : data_stream_s pgsql_regular_msg_s) (es : list event) :
    run (option (data_stream_s pgsql_regular_msg_s)) :=
  match es with
  | [] => Ret (Some st)
  | e :: es =>
      o ← event_step fuel mt st e;
      match o with Some st => event_steps fuel mt st es | None => Ret None end
  end.

Lemma event_steps_app fuel mt st es1 es2 :
  event_steps fuel mt st (es1 ++ es2)
  = (o ← event_steps fuel mt st es1; match o with Some st => event_steps fuel mt st es2 | None => Ret None end).
Proof.
  revert st. induction es1 as [|e es1 IH]; intros st; [done|]. cbn [app event_steps].
  destruct (event_step fuel mt st e) as [[st'|]|]; cbn [mbind run_bind]; [apply IH|done..].
Qed.

End connection.

(** [l] is less than the first of the messages [rest] *)
Definition short (l : bytes) (rest : list message) : Prop :=
  match rest with [] => l = [] | m :: _ => len l < len (encode m) end.

Lemma split_messages bs tl rest : bs ++ tl = encodes rest ->
  exists ms l rest', rest = ms ++ rest' /\ bs = encodes ms ++ l /\ l ++ tl = encodes rest' /\ short l rest'.
Proof.
  revert bs. induction rest as [|m rest IH]; intros bs H.
  - apply app_nil in H as [-> ->]. by exists [], [], [].
  - destruct (decide (len bs < len (encode m))) as [Hlt|Hge]; [by exists [], bs, (m :: rest)|].
    rewrite encodes_cons in H. destruct (app_eq_app _ _ _ _ H) as [k [(-> & Hk)|(Hk & ->)]].
    + symmetry in Hk. destruct (IH _ Hk) as (ms & l & rest' & -> & -> & Hl & Hs). exists (m :: ms), l, rest'.
      by rewrite encodes_cons, <- app_assoc.
    + rewrite Hk, len_app in Hge. destruct k as [|b k]; [|rewrite len_cons in Hge; pose proof (len_nonneg k); lia].
      rewrite app_nil_r in Hk. exists [m], [], rest. rewrite encodes_cons, Hk, !app_nil_r. repeat split.
      destruct rest as [|m' rest]; [done|]. cbn [short]. rewrite len_encode. change (len []) with 0. pose proof (len_nonneg m'.2). lia.
Qed.

Lemma short_partial l tl rest : l ++ tl = encodes rest -> short l rest -> Forall wf_message rest -> partial l.
Proof.
  intros H Hs Hwf. destruct Hwf as [|m rest Hm Hwf].
  - cbn in Hs. subst. exists (81, []), (encode (81, [])). repeat split; done.
  - cbn in Hs. rewrite encodes_cons in H. destruct (app_eq_app _ _ _ _ H) as [k [(-> & Hk)|(Hk & Hm')]].
    + rewrite len_app in Hs. pose proof (len_nonneg k). lia.
    + exists m, k. repeat split; try apply Hm; [|done]. intros ->. rewrite app_nil_r in Hk. subst. lia.
Qed.

Lemma into_short ms l rest : short l rest -> into (ms ++ rest) (len (encodes ms) + len l) = len l.
Proof.
  intros Hs. pose proof (len_nonneg l). induction ms as [|m ms IH]; cbn [app].
  - change (len (encodes [])) with 0. destruct rest as [|m rest]; [done|]. cbn [into].
    cbn in Hs. by rewrite (proj2 (Z.ltb_lt _ _)) by lia.
  - cbn [into]. rewrite encodes_cons, len_app. pose proof (len_nonneg (encodes ms)).
    rewrite (proj2 (Z.ltb_ge _ _)) by lia. rewrite <- IH. f_equal. lia.
Qed.

Lemma short_end l rest : l ++ [] = encodes rest -> short l rest -> l = [] /\ rest = [].
Proof.
  rewrite app_nil_r. intros -> Hs. destruct rest as [|m rest]; [done|]. cbn [short] in Hs.
  rewrite encodes_cons, len_app in Hs. pose proof (len_nonneg (encodes rest)). lia.
Qed.

Lemma len_encodes ms : Forall wf_message ms -> len (encodes ms) <= (2 ^ 24 + 1) * Z.of_nat (length ms).
Proof.
  induction 1 as [|m ms Hm Hwf IH]; [done|]. rewrite encodes_cons, len_app, len_encode. cbn [length].
  destruct Hm. lia.
Qed.

Lemma cuts_snoc l i cs ms l1 i1 c ms2 l2 : cuts l i cs ms l1 i1 -> chunk_ok (len l1) i1 c = true ->
  Forall wf_message ms2 -> l1 ++ c_bytes c = encodes ms2 ++ l2 -> partial l2 ->
  cuts l i (cs ++ [c]) (ms ++ ms2) l2 (c_index c).
Proof.
  induction 1 as [l i Hp|l i c' cs ms1 l1' ms' l1 i1 Hp Hc Hwf He Hcuts IH]; intros.
  - cbn [app]. rewrite <- (app_nil_r ms2). econstructor; [done..|]. by constructor.
  - cbn [app]. rewrite <- app_assoc. econstructor; [done..|]. by apply IH.
Qed.

Section messages.
Context {M : Malloc} (Hmalloc : forall n, malloc n = true) (mt : message_type_t) (ms : list message).
Hypothesis Hwf : Forall wf_message ms.
Hypothesis Hcap : Z.of_nat (length ms) <= __FRAME_BUF_SIZE.

(** After [o] bytes, the last of them in a chunk with index [prev], with [tl]
    still to come *)
Definition connected (o prev : Z) (tl : bytes) (st : data_stream_s pgsql_regular_msg_s) : Prop :=
  exists l0 i0 Q0 size cs ms1 rest l1 i1,
    ms = map bare (frames st) ++ ms1 ++ rest /\ raw_datas st = Q0 ++ map raw_of cs
    /\ settled l0 i0 Q0 size /\ len l0 <> 1 /\ cuts l0 i0 cs ms1 l1 i1 /\ (l1 <> [] -> i1 = prev)
    /\ o = len (encodes (map bare (frames st) ++ ms1)) + len l1
    /\ l1 ++ tl = encodes rest /\ short l1 rest /\ 0 <= size /\ size + total cs <= o.

Lemma connected_size o prev tl st : connected o prev tl st -> o < 2 ^ 64.
Proof using Hwf Hcap.
  intros (l0 & i0 & Q0 & size & cs & ms1 & rest & l1 & i1 & Hms & HQ & Hset & Hl0 & Hcuts & Hi & -> & Htl & Hs & Hsize).
  pose proof (len_encodes ms Hwf) as H. rewrite Hms, app_assoc, encodes_app, len_app, <- Htl, len_app in H.
  rewrite <- app_assoc, <- Hms in H. pose proof (len_nonneg tl). unfold __FRAME_BUF_SIZE in Hcap. lia.
Qed.

Lemma connected_into o prev tl st : connected o prev tl st ->
  exists l, into ms o = len l.
Proof using.
  intros (l0 & i0 & Q0 & size & cs & ms1 & rest & l1 & i1 & Hms & HQ & Hset & Hl0 & Hcuts & Hi & -> & Htl & Hs & Hsize).
  exists l1. rewrite Hms, app_assoc. by apply into_short.
Qed.

Lemma connected_captured o prev tl st c : connected o prev (c_bytes c ++ tl) st -> chunk_ok (into ms o) prev c = true ->
  Z.of_nat (length (raw_datas st)) < __RAW_BUF_SIZE ->
  connected (o + len (c_bytes c)) (c_index c) tl (st <| raw_datas := raw_datas st ++ [raw_of c] |>).
Proof using Hwf.
  intros (l0 & i0 & Q0 & size & cs & ms1 & rest & l1 & i1 & Hms & HQ & Hset & Hl0 & Hcuts & Hi & -> & Htl & Hs & Hsize) Hc Hroom.
  rewrite Hms, app_assoc, into_short in Hc by done. rewrite app_assoc in Htl.
  destruct (split_messages _ _ _ Htl) as (ms2 & l2 & rest' & -> & He & Htl' & Hs').
  assert (Forall wf_message ms2 /\ Forall wf_message rest') as [Hwf2 Hwf'].
  { pose proof Hwf as Hw. rewrite Hms, !Forall_app in Hw. naive_solver. }
  exists l0, i0, Q0, size, (cs ++ [c]), (ms1 ++ ms2), rest', l2, (c_index c). cbn [frames raw_datas update].
  repeat split; try done.
  - by rewrite <- app_assoc.
  - by rewrite HQ, <- app_assoc, map_app.
  - eapply cuts_snoc; [done| |done..|by eapply short_partial].
    destruct (decide (l1 = [])) as [->|Hne]; [done|]. by rewrite (Hi Hne).
  - rewrite app_assoc, (encodes_app _ ms2), len_app. pose proof (f_equal len He) as El. rewrite !len_app in El. lia.
  - apply Hsize.
  - unfold total in *. rewrite sumZ_app, sumZ_cons. change (sumZ _ []) with 0. lia.
Qed.

Lemma connected_parse fuel o prev tl st : connected o prev tl st ->
  (3 * length (raw_datas st) + length ms + 3 <= fuel)%nat -> into ms o <> 1 ->
  exists st', data_stream_parse_frames fuel mt st = Ret (Some st') /\ connected o prev tl st'
    /\ (length (raw_datas st') <= 1)%nat /\ (into ms o = 0 -> raw_datas st' = []).
Proof using Hmalloc Hwf Hcap.
  intros Hcon. pose proof (connected_size _ _ _ _ Hcon) as Hlt.
  destruct Hcon as (l0 & i0 & Q0 & size & cs & ms1 & rest & l1 & i1 & Hms & HQ & Hset & Hl0 & Hcuts & Hi & Ho & Htl & Hs & Hsize & Hle).
  intros Hfuel. rewrite Hms, app_assoc, Ho, into_short by done. intros Hone.
  pose proof (cuts_partial _ _ _ _ _ _ Hcuts) as Hp0.
  assert (length ms = length (frames st) + length ms1 + length rest)%nat as Hlen by (rewrite Hms, !length_app, length_map; lia).
  assert (parsed_to mt st fuel Next ms1 l1 i1 (size + total cs)) as (fs' & Q & Hfs & HQ' & Hl).
  { destruct st as [Q' fs p]. cbn [raw_datas frames] in *. subst Q'. rewrite length_app, length_map in Hfuel.
    destruct Hset as [[-> ->]|(Hne & r & pre & -> & Hr & H5 & Hri)].
    - cbn [app]. destruct (parse_chunks Hmalloc mt _ _ _ _ _ _ Hcuts fuel fs p) as [H1 _]; [lia..|].
      destruct (H1 eq_refl) as (fs' & Q & ? & ? & ?); [lia|]. exists fs', Q. split; [done|]. split; [|done].
      eapply settled_mono; [done|lia].
    - cbn [app length] in *. destruct fuel as [|[|fuel]]; [lia..|].
      destruct (parse_chunks Hmalloc mt _ _ _ _ _ _ Hcuts fuel fs p) as [_ H2]; [lia..|].
      destruct (H2 r pre) as (fs' & Q & ? & ? & Hl); [done..|lia|done|lia|]. exists fs', Q. split; [done|].
      split; [eapply settled_mono; [done|lia]|]. cbn [frames frame_pos] in *. rewrite <- Hl.
      destruct (head_form [] l0) as (t & xs & Hh & Ht); [done..|change (encodes [] ++ l0) with l0; pose proof (len_pos _ Hne); lia|].
      cbn [encodes map mjoin list_join app] in Hh. rewrite Hh in Hr.
      apply (start mt _ _ _ _ _ _ _ _ Hr); [done|lia]. }
  exists (stream Q (frames st ++ fs') (frame_pos st)). split; [done|]. cbn [raw_datas]. split.
  - exists l1, i1, Q, (size + total cs), [], [], rest, l1, i1. cbn [frames raw_datas]. rewrite map_app, Hfs, app_nil_r.
    repeat split; try done.
    + by rewrite <- app_assoc.
    + constructor. eapply short_partial; [done..|]. pose proof Hwf as Hw. rewrite Hms, !Forall_app in Hw. naive_solver.
    + by rewrite app_nil_r.
    + pose proof (total_nonneg cs). lia.
    + change (total []) with 0. lia.
  - split.
    + destruct HQ' as [[_ ->]|(_ & r & pre & -> & _)]; cbn; lia.
    + intros Hz. destruct HQ' as [[_ ->]|(Hne & _)]; [done|]. pose proof (len_pos _ Hne). lia.
Qed.

Lemma connected_events fuel o prev st es1 es2 :
  connected o prev (mjoin (map captured (es1 ++ es2))) st -> well_cut ms o prev (es1 ++ es2) = true ->
  Z.of_nat (length (raw_datas st) + length es1) <= __RAW_BUF_SIZE ->
  (3 * (length (raw_datas st) + length es1) + length ms + 3 <= fuel)%nat ->
  exists o' prev' st', event_steps fuel mt st es1 = Ret (Some st') /\ connected o' prev' (mjoin (map captured es2)) st'
    /\ well_cut ms o' prev' es2 = true /\ (length (raw_datas st') <= length (raw_datas st) + length es1)%nat.
Proof using Hmalloc Hwf Hcap.
  revert o prev st. induction es1 as [|e es1 IH]; intros o prev st Hcon Hcut Hroom Hfuel.
  - exists o, prev, st. repeat split; try done. lia.
  - cbn [app map] in *. rewrite join_cons in Hcon. cbn [length event_steps] in *. destruct e as [c|]; cbn [captured well_cut] in *.
    + apply andb_true_iff in Hcut as [Hc Hcut]. cbn [event_step mbind run_bind]. unfold data_stream_add_raw_data.
      rewrite Hmalloc. unfold push_raw_data. rewrite (proj2 (Z.leb_gt _ _)) by lia. cbn [fst].
      apply connected_captured in Hcon; [|done|lia].
      destruct (IH _ _ _ Hcon Hcut) as (o' & prev' & st' & ? & ? & ? & Hlen);
        [cbn [raw_datas update]; rewrite length_app; cbn; lia..|].
      exists o', prev', st'. cbn [raw_datas update] in Hlen. rewrite length_app in Hlen. cbn in Hlen. repeat split; try done. lia.
    + apply andb_true_iff in Hcut as [Hc Hcut]. cbn [app] in Hcon.
      destruct (connected_parse fuel _ _ _ _ Hcon) as (st1 & Hst & Hcon' & Hl & _); [lia..|].
      cbn [event_step]. rewrite Hst. cbn [mbind run_bind].
      destruct (IH _ _ _ Hcon' Hcut) as (o' & prev' & st' & ? & ? & ? & Hlen); [lia..|].
      exists o', prev', st'. repeat split; try done. lia.
Qed.

Lemma connected_init tl : tl = encodes ms -> connected 0 0 tl init_data_stream.
Proof using Hwf.
  clear Hcap. intros ->. exists [], 0, [], 0, [], [], ms, [], 0. repeat split; try done.
  - by left.
  - constructor. by apply (short_partial [] [] []).
  - destruct ms as [|m ms']; [done|]. cbn [short]. rewrite len_encode. change (len []) with 0. pose proof (len_nonneg m.2). lia.
Qed.

Lemma connected_end o prev st : connected o prev [] st ->
  into ms o = 0 /\ (raw_datas st = [] -> map bare (frames st) = ms).
Proof using.
  clear Hwf Hcap.
  intros (l0 & i0 & Q0 & size & cs & ms1 & rest & l1 & i1 & Hms & HQ & Hset & Hl0 & Hcuts & Hi & Ho & Htl & Hs & _).
  rewrite Ho, Hms, app_assoc, into_short by done. destruct (short_end _ _ Htl Hs) as [-> ->]. split; [done|].
  intros Hnil. rewrite Hnil in HQ. symmetry in HQ. apply app_nil in HQ as [_ Hcs]. destruct cs as [|c cs]; [|done].
  inversion Hcuts. by rewrite !app_nil_r.
Qed.

End messages.

(** C4: PostgreSQL messages come out of a stream of the probe as they were sent.
    For every list [ms] of messages with known tags and lengths below 2^24, at
    most 10240 of them, every sequence of captures whose chunks are the bytes of
    [ms] in order, with parses at any point of it and one at the end, and chunks
    that are [well_cut]: the parses end, without reading out of a buffer, the
    frames are exactly [ms], and no chunk is left.  At most 2499 chunks and
    parses fit the buffer of chunks; memory is available. *)
Theorem pgsql_messages_delivered (M : Malloc) (mt : message_type_t) (ms : list message) (es : list event) (fuel : nat) :
  (forall n, malloc n = true) -> Forall wf_message ms -> Z.of_nat (length ms) <= __FRAME_BUF_SIZE ->
  mjoin (map captured es) = encodes ms -> well_cut ms 0 0 (es ++ [Parse]) = true ->
  Z.of_nat (length es) < __RAW_BUF_SIZE -> (3 * S (length es) + length ms + 3 <= fuel)%nat ->
  exists st, event_steps fuel mt init_data_stream (es ++ [Parse]) = Ret (Some st)
    /\ map bare (frames st) = ms /\ raw_datas st = [].
Proof.
  intros Hmalloc Hwf Hcap Hes Hcut Hroom Hfuel.
  assert (connected ms 0 0 (mjoin (map captured (es ++ [Parse]))) init_data_stream) as Hinit.
  { apply connected_init; [done|]. by rewrite map_app, join_app, Hes, app_nil_r. }
  destruct (connected_events Hmalloc mt ms Hwf Hcap fuel _ _ _ es [Parse] Hinit Hcut) as (o & prev & st & Hst & Hcon & Hcut' & Hlen);
    [cbn; lia..|].
  cbn in Hlen. destruct (connected_end _ _ _ _ Hcon) as [Hz _].
  destruct (connected_parse Hmalloc mt ms Hwf Hcap fuel _ _ _ _ Hcon) as (st' & Hst' & Hcon' & _ & Hnil); [lia..|].
  exists st'. specialize (Hnil Hz). split; [|split; [by apply (connected_end _ _ _ _ Hcon')|done]].
  rewrite event_steps_app, Hst. cbn [mbind run_bind event_steps event_step]. by rewrite Hst'.
Qed.

(** A query and a sync, the query cut in two and parsed in between *)
Definition ex_messages : list message := [(81, [97; 98; 99; 0]); (83, [])].

Definition ex_events : list event :=
  [Captured {| c_bytes := [81; 0; 0; 0; 8; 97]; c_time := 5; c_index := 0 |}; Parse;
   Captured {| c_bytes := [98; 99; 0; 83; 0; 0; 0; 4]; c_time := 9; c_index := 0 |}].

Lemma pgsql_messages_delivered_witness :
  well_cut ex_messages 0 0 (ex_events ++ [Parse]) = true
  /\ exists st, event_steps (M := plenty) 17 MESSAGE_REQUEST init_data_stream (ex_events ++ [Parse]) = Ret (Some st)
    /\ map bare (frames st) = ex_messages /\ raw_datas st = [].
Proof.
  split; [by vm_compute|].
  apply (pgsql_messages_delivered plenty MESSAGE_REQUEST ex_messages ex_events 17);
    [done| |by vm_compute..|cbn; lia].
  repeat constructor.
Defined.

(** ** What [well_cut] excludes *)

(** The parse of a PostgreSQL stream never ends when the message at the
    position goes on in a chunk that cannot be joined.  The first chunk has a
    positive index, because it came late in a system call or was joined with
    such a chunk, and the next one an index that is not greater, as the first
    chunk of the next call has: the chunks stay as they are, and every number
    of jumps is too small. *)
Theorem pgsql_unjoinable_chunk_hangs (M : Malloc) (mt : message_type_t) (r c : raw_data_s) (Q : list raw_data_s)
    (fs : list pgsql_regular_msg_s) (p : Z) (pre l : bytes) :
  (forall n, malloc n = true) -> at_pos r pre l -> partial l -> 2 <= len l -> 5 <= data_len r ->
  0 < rd_index r -> rd_index c <= rd_index r ->
  forall fuel, data_stream_parse_frames fuel mt (stream (r :: c :: Q) fs p) = Ret None.
Proof.
  intros Hmalloc Hr Hp Hl H5 Hi Hc fuel. unfold data_stream_parse_frames.
  cut (forall lb, parse_loop fuel mt lb (stream (r :: c :: Q) fs p) = Ret None); [intros H; apply H|].
  revert r Hr H5 Hi Hc. induction fuel as [|fuel IH]; intros r Hr H5 Hi Hc lb; [done|]. destruct lb.
  - rewrite next_round. by apply IH.
  - destruct (head_form [] l) as (t & xs & Hh & Ht); [done..|]. change (l = t :: 0 :: xs) in Hh.
    rewrite (rebound_found _ _ _ (current_pos r)).
    + rewrite set_same. by apply IH.
    + rewrite Hh in Hr. by eapply boundary_here.
    + destruct Hr as (Hd & -> & Hlt). unfold data_len in Hlt. rewrite Hd, len_app in Hlt. unfold SIZE_MAX. lia.
  - assert (l <> []) as Hne by (intros ->; change (len []) with 0 in Hl; lia).
    rewrite (repeat_broken _ _ _ _ _ _ _ _ _ Hmalloc (parse_frame_partial Hmalloc mt _ _ _ Hr Hp Hne)) by done.
    unfold broken. case_match; by apply IH.
Qed.

(** A query of two chunks of a call, whose end comes with the next call *)
Definition ex_first : raw_data_s := raw_of {| c_bytes := [81; 0; 0; 0; 9; 97]; c_time := 5; c_index := 1 |}.
Definition ex_second : raw_data_s := raw_of {| c_bytes := [98; 99; 100; 0]; c_time := 9; c_index := 0 |}.

Lemma pgsql_unjoinable_chunk_hangs_witness :
  joinable (rd_index ex_first) (rd_index ex_second) = false
  /\ forall fuel, data_stream_parse_frames (M := plenty) (P := @pgsql plenty) fuel MESSAGE_REQUEST (stream [ex_first; ex_second] [] 0) = Ret None.
Proof.
  split; [done|].
  apply (pgsql_unjoinable_chunk_hangs plenty MESSAGE_REQUEST ex_first ex_second [] [] 0 [] [81; 0; 0; 0; 9; 97]);
    [done| | |by vm_compute..].
  - by repeat split.
  - exists (81, [97; 98; 99; 100; 0]), [98; 99; 100; 0]. by repeat split.
Defined.

(** When one byte of a PostgreSQL message is left in the buffer, its tag, the
    next parse reads the byte behind the buffer. *)
Theorem pgsql_lone_tag_out_of_bounds (M : Malloc) (mt : message_type_t) (r : raw_data_s) (Q : list raw_data_s)
    (fs : list pgsql_regular_msg_s) (p : Z) (pre : bytes) (t : Z) (fuel : nat) :
  at_pos r pre [t] -> contains_pgsql_tag t = true -> 5 <= data_len r -> (2 <= fuel)%nat ->
  data_stream_parse_frames fuel mt (stream (r :: Q) fs p) = Panic.
Proof.
  intros H Ht H5 Hf. destruct fuel as [|[|fuel]]; [lia..|]. unfold data_stream_parse_frames. rewrite next_round.
  cbn [parse_loop raw_datas proto_find_frame_boundary pgsql]. unfold pgsql_find_frame_boundary, PGSQL_REGULAR_PACKET_MIN_LEN.
  rewrite (proj2 (Z.ltb_ge _ _)) by lia. pose proof (at_pos_data_len _ _ _ H) as Hd. change (len [t]) with 1 in Hd.
  assert (current_pos r = len pre) as Hpos by apply H. pose proof (index_at _ _ _ _ H) as Hi.
  destruct (length (data r)) as [|n] eqn:En; [unfold data_len, len in H5; lia|]. cbn [boundary_loop].
  rewrite (proj2 (Z.leb_gt _ _)) by lia. rewrite Hi. cbn [mbind run_bind]. rewrite Ht, Z.eqb_refl.
  unfold index. pose proof (len_nonneg pre). rewrite (proj2 (Z.leb_le _ _)) by lia.
  by rewrite lookup_ge_None_2 by (unfold data_len, len in *; lia).
Qed.

(** A sync and the tag of a query, before and after the sync is parsed *)
Definition ex_tail : chunk := {| c_bytes := [83; 0; 0; 0; 4; 81]; c_time := 5; c_index := 0 |}.

Definition ex_left : data_stream_s pgsql_regular_msg_s :=
  stream [advance (raw_of ex_tail) 5]
    [{| msg_timestamp_ns := 5; tag := 83; msg_len := 4; payload_data := []; consumed := false |}] 0.

Lemma pgsql_lone_tag_out_of_bounds_witness :
  event_steps (M := plenty) 9 MESSAGE_REQUEST init_data_stream [Captured ex_tail; Parse] = Ret (Some ex_left)
  /\ data_stream_parse_frames (M := plenty) (P := @pgsql plenty) 9 MESSAGE_REQUEST ex_left = Panic.
Proof.
  split; [by vm_compute|]. apply (pgsql_lone_tag_out_of_bounds plenty _ _ _ _ _ [83; 0; 0; 0; 4] 81).
  - by repeat split.
  - done.
  - by vm_compute.
  - lia.
Defined.

(** A chunk of less than 5 bytes at the start of a message is dropped. *)
Lemma pgsql_short_chunk_dropped `{Malloc} mt c Q fs p n : len (data c) < 5 ->
  parse_loop (S (S n)) mt Next (stream (c :: Q) fs p) = parse_loop n mt Next (stream Q fs p).
Proof.
  intros Hl. rewrite next_round, rebound_none; [done|]. cbn [proto_find_frame_boundary pgsql].
  unfold pgsql_find_frame_boundary, PGSQL_REGULAR_PACKET_MIN_LEN, data_len. by rewrite (proj2 (Z.ltb_lt _ _)) by lia.
Qed.
