(* ===== verification/ProbeCrpc.v ===== *)
(** * cRPC in the L7 probe (l7probe/protocol/crpc/crpc_parser.c)

    The parser takes a chunk, or the chunks joined to it, for one message: the
    operations of the [Protocol] interface for cRPC.  The matcher pairs requests
    and responses of a connection by their ids. *)

From S2P Require Import Prelude Bytes ProbeData ProbeStream.

Definition CRPC_REQUEST_HEADER_MIN_LEN : Z := 103.
Definition CRPC_HEADER_BEGIN_FLAG1 : Z := 0x1A.
Definition CRPC_HEADER_BEGIN_FLAG2 : Z := 0x19.
Definition CRPC_HEADER_BEGIN_FLAG_LEN : Z := 2.
Definition CRPC_HEADER_MSGLEN_OFFSET : Z := 6.
Definition CRPC_HEADER_HEADLEN_OFFSET : Z := 8.
Definition CRPC_HEADER_HEADVER_LEN : Z := 1.
Definition CRPC_HEADER_PROPERTY_LEN : Z := 3.
Definition CRPC_HEADER_REQUEST_ID_LEN : Z := 16.

(** The fields the probe sets *)
Record crpc_message_s := {
  request_id : bytes;
  head_len : Z;
  matched : bool;
  message_len : Z;
  crpc_timestamp_ns : Z;
}.

#[export] Instance crpc_message_fields : Fields crpc_message_s := fun x =>
  Build_crpc_message_s (request_id x) (head_len x) (matched x) (message_len x) (crpc_timestamp_ns x).

Definition sizeof_crpc_message_s : Z := 48.
Definition sizeof_crpc_frame_data_s : Z := 24.

(** ** Frames *)

Definition crpc_validate_tech_header (r : raw_data_s) (head_len message_len : Z) : parse_state_t :=
  if (message_len <=? head_len) || (message_len <? data_len r) then STATE_INVALID
  else if data_len r <? message_len then STATE_NEEDS_MORE_DATA
  else STATE_SUCCESS.

Definition crpc_parse_tech_header (r : raw_data_s) : decoded crpc_message_s :=
  let r := r <| current_pos := wadd 64 (current_pos r) CRPC_HEADER_BEGIN_FLAG_LEN |> in
  '(r, len_res) ← decoder_extract_uint 32 r;
  match len_res with
  | Err _ => Ret (r, Err STATE_NEEDS_MORE_DATA)
  | Ok message_len =>
      let message_len := wadd 32 message_len CRPC_HEADER_MSGLEN_OFFSET in
      '(r, head_res) ← decoder_extract_uint 16 r;
      match head_res with
      | Err _ => Ret (r, Err STATE_NEEDS_MORE_DATA)
      | Ok head_len =>
          let head_len := wadd 16 head_len CRPC_HEADER_HEADLEN_OFFSET in
          '(r, skip_res) ← decoder_extract_prefix_ignore r (CRPC_HEADER_HEADVER_LEN + CRPC_HEADER_PROPERTY_LEN);
          match skip_res with
          | Err _ => Ret (r, Err STATE_NEEDS_MORE_DATA)
          | Ok _ =>
              '(r, id_res) ← decoder_extract_char_array r CRPC_HEADER_REQUEST_ID_LEN;
              match id_res with
              | Err _ => Ret (r, Err STATE_NEEDS_MORE_DATA)
              | Ok id =>
                  match crpc_validate_tech_header r head_len message_len with
                  | STATE_SUCCESS =>
                      Ret (r, Ok {| request_id := id; head_len := head_len; matched := false;
                                    message_len := message_len; crpc_timestamp_ns := 0 |})
                  | state => Ret (r, Err state)
                  end
              end
          end
      end
  end.

(** [crpc_parse_response_code] always succeeds. *)
Definition __do_crpc_parse_frame (r : raw_data_s) : decoded crpc_message_s :=
  let pos := current_pos r in
  '(r, res) ← crpc_parse_tech_header r;
  match res with
  | Ok m => Ret (r <| current_pos := data_len r |>, Ok (m <| crpc_timestamp_ns := timestamp_ns r |>))
  | Err state => Ret (r <| current_pos := pos |>, Err state)
  end.

Definition crpc_parse_frame `{Malloc} (r : raw_data_s) : run (raw_data_s * parse_state_t * option crpc_message_s) :=
  if negb (malloc sizeof_crpc_message_s) then Ret (r, STATE_INVALID, None)
  else
    '(r, res) ← __do_crpc_parse_frame r;
    match res with
    | Err state => Ret (r, state, None)
    | Ok m => if malloc sizeof_crpc_frame_data_s then Ret (r, STATE_SUCCESS, Some m) else Ret (r, STATE_INVALID, None)
    end.

(** The loop of [crpc_find_frame_boundary] *)
Fixpoint crpc_boundary_loop (fuel : nat) (r : raw_data_s) (i : Z) : run Z :=
  match fuel with
  | O => Ret PARSER_INVALID_BOUNDARY_INDEX
  | S fuel =>
      if data_len r - 1 <=? i then Ret PARSER_INVALID_BOUNDARY_INDEX
      else
        a ← index (data r) i;
        if a =? CRPC_HEADER_BEGIN_FLAG1 then
          b ← index (data r) (i + 1);
          if b =? CRPC_HEADER_BEGIN_FLAG2 then Ret i else crpc_boundary_loop fuel r (i + 1)
        else crpc_boundary_loop fuel r (i + 1)
  end.

(** The loop runs at most once for each byte. *)
Definition crpc_find_frame_boundary (r : raw_data_s) : run Z :=
  if data_len r <? CRPC_REQUEST_HEADER_MIN_LEN then Ret PARSER_INVALID_BOUNDARY_INDEX
  else crpc_boundary_loop (length (data r)) r (current_pos r).

#[export] Instance crpc `{Malloc} : Protocol crpc_message_s := {|
  proto_find_frame_boundary _ := crpc_find_frame_boundary;
  proto_parse_frame _ := crpc_parse_frame;
|}.

(** ** Matching *)

(** The buffer of frames a matcher works on ([struct frame_buf_s]) *)
Record frame_buf_s (F : Type) := { fb_frames : list F; fb_pos : Z }.
Arguments Build_frame_buf_s {F}.
Arguments fb_frames {F}.
Arguments fb_pos {F}.

(** A pair of messages with its latency, and the counters of [struct record_buf_s]
    the matcher sets *)
Record crpc_record_s := { rec_req : crpc_message_s; rec_resp : crpc_message_s; latency : Z }.
Record crpc_record_buf := { records : list crpc_record_s; req_count : Z; resp_count : Z }.

Definition RECORD_BUF_SIZE : Z := 1024.
Definition sizeof_crpc_record_s : Z := 16.
Definition sizeof_record_data_s : Z := 16.

(** [strncpy(dest, src, n)]: the bytes up to the first 0, filled with 0 *)
Fixpoint strncpy (src : bytes) (n : nat) : bytes :=
  match n, src with
  | O, _ => []
  | S n, [] => 0 :: strncpy [] n
  | S n, b :: src => if b =? 0 then 0 :: strncpy [] n else b :: strncpy src n
  end.

(** The condition on a request, with its effect: [strncpy] returns its
    destination, which is not the null pointer. *)
Definition crpc_is_match (req resp : crpc_message_s) : crpc_message_s * bool :=
  if matched req then (req, false)
  else
    let req := req <| request_id := strncpy (request_id resp) (Z.to_nat CRPC_HEADER_REQUEST_ID_LEN) |> in
    let returned_null := false in
    (req, returned_null && (crpc_timestamp_ns req <? crpc_timestamp_ns resp)).

(** The requests after the search for one response, and the request found *)
Fixpoint crpc_find_request (reqs : list crpc_message_s) (resp : crpc_message_s) : list crpc_message_s * option crpc_message_s :=
  match reqs with
  | [] => ([], None)
  | req :: reqs =>
      let '(req, found) := crpc_is_match req resp in
      if found then let req := req <| matched := true |> in (req :: reqs, Some req)
      else let '(reqs, o) := crpc_find_request reqs resp in (req :: reqs, o)
  end.

Definition crpc_matcher_add_record `{Malloc} (req : option crpc_message_s) (resp : crpc_message_s) (recs : list crpc_record_s) :
    list crpc_record_s :=
  match req with
  | None => recs
  | Some req =>
      if RECORD_BUF_SIZE <=? Z.of_nat (length recs) then recs
      else if malloc sizeof_crpc_record_s && malloc sizeof_record_data_s
      then recs ++ [{| rec_req := req; rec_resp := resp; latency := wsub 64 (crpc_timestamp_ns resp) (crpc_timestamp_ns req) |}]
      else recs
  end.

(** The loop over the responses *)
Fixpoint crpc_match_responses `{Malloc} (reqs resps : list crpc_message_s) (resp_pos : Z) (recs : list crpc_record_s) :
    list crpc_message_s * Z * list crpc_record_s :=
  match resps with
  | [] => (reqs, resp_pos, recs)
  | resp :: resps =>
      let '(reqs, o) := crpc_find_request reqs resp in
      crpc_match_responses reqs resps (wadd 64 resp_pos 1) (crpc_matcher_add_record o resp recs)
  end.

(** The position of the last matched request, or [pos] *)
Fixpoint last_matched (reqs : list crpc_message_s) (i pos : Z) : Z :=
  match reqs with
  | [] => pos
  | req :: reqs => last_matched reqs (i + 1) (if matched req then i else pos)
  end.

Definition crpc_match_frames `{Malloc} (req_frames resp_frames : frame_buf_s crpc_message_s) (rb : crpc_record_buf) :
    frame_buf_s crpc_message_s * frame_buf_s crpc_message_s * crpc_record_buf :=
  let '(reqs, resp_pos, recs) :=
    crpc_match_responses (fb_frames req_frames) (fb_frames resp_frames) (fb_pos resp_frames) (records rb) in
  let req_pos := last_matched reqs 0 (fb_pos req_frames) in
  ({| fb_frames := reqs; fb_pos := req_pos |}, {| fb_frames := fb_frames resp_frames; fb_pos := resp_pos |},
   {| records := recs; req_count := req_pos; resp_count := resp_pos |}).

(** ** What becomes of a chunk *)

(** A message: the length and head length of its header, the version and
    properties, the id, and the rest *)
Definition crpc_bytes (mlen hlen : Z) (props id body : bytes) : bytes :=
  CRPC_HEADER_BEGIN_FLAG1 :: CRPC_HEADER_BEGIN_FLAG2 :: be32 mlen ++ be16 hlen ++ props ++ id ++ body.

Section chunks.
Context {M : Malloc} (Hmalloc : forall n, malloc n = true) (mt : message_type_t).
Context (mlen hlen : Z) (props id body : bytes).
Hypothesis Hprops : len props = 4.
Hypothesis Hid : len id = 16.
Hypothesis Hhead : 0 <= hlen /\ hlen + 8 < 2 ^ 16 /\ hlen + 8 < mlen + 6 < 2 ^ 32.

(** A chunk that starts with the header *)
Definition headed (r : raw_data_s) : Prop :=
  at_pos r [] (crpc_bytes mlen hlen props id body) /\ CRPC_REQUEST_HEADER_MIN_LEN <= data_len r.

Lemma crpc_header r : headed r ->
  crpc_parse_tech_header r
  = Ret (advance r 28,
      match crpc_validate_tech_header r (hlen + 8) (mlen + 6) with
      | STATE_SUCCESS => Ok {| request_id := id; head_len := hlen + 8; matched := false; message_len := mlen + 6; crpc_timestamp_ns := 0 |}
      | state => Err state
      end).
Proof using Hprops Hid Hhead.
  intros [H _]. unfold crpc_parse_tech_header, crpc_bytes in *.
  assert (r <| current_pos := wadd 64 (current_pos r) CRPC_HEADER_BEGIN_FLAG_LEN |> = advance r 2) as ->.
  { unfold advance. f_equal. destruct H as (_ & -> & _). done. }
  apply (at_pos_advance _ _ [_; _]) in H. change (len [_; _]) with 2 in H.
  rewrite (extract_uint_at 32 _ _ _ _ H) by done. cbn [mbind run_bind].
  rewrite be_int_be32 by (unfold fits; lia). apply at_pos_advance in H. change (len (be32 mlen)) with (32 / 8) in H.
  rewrite (extract_uint_at 16 _ _ _ _ H) by done. cbn [mbind run_bind].
  rewrite be_int_be16 by (unfold fits; lia). apply at_pos_advance in H. change (len (be16 hlen)) with (16 / 8) in H.
  unfold CRPC_HEADER_HEADVER_LEN, CRPC_HEADER_PROPERTY_LEN. replace (1 + 3) with (len props) by lia.
  rewrite (extract_prefix_ignore_at _ _ _ _ H). cbn [mbind run_bind]. apply at_pos_advance in H.
  pose proof (extract_char_array_at _ _ _ _ H) as Harr. rewrite Hid in Harr.
  change CRPC_HEADER_REQUEST_ID_LEN with 16. rewrite Harr. cbn [mbind run_bind].
  rewrite !advance_advance, Hprops. change (2 + (32 / 8 + (16 / 8 + (4 + 16)))) with 28.
  rewrite !wadd_small by (unfold fits, CRPC_HEADER_HEADLEN_OFFSET, CRPC_HEADER_MSGLEN_OFFSET; lia).
  unfold CRPC_HEADER_HEADLEN_OFFSET, CRPC_HEADER_MSGLEN_OFFSET.
  change (crpc_validate_tech_header (advance r 28)) with (crpc_validate_tech_header r). by case_match.
Qed.

Lemma crpc_start n r Q fs p : headed r ->
  parse_loop (S (S n)) mt Next (stream (r :: Q) fs p) = parse_loop n mt Repeat (stream (r :: Q) fs p).
Proof using.
  intros [H Hl]. rewrite next_round, (rebound_found _ _ _ (current_pos r)).
  - by rewrite set_same.
  - cbn [proto_find_frame_boundary crpc]. unfold crpc_find_frame_boundary. rewrite (proj2 (Z.ltb_ge _ _)) by lia.
    unfold CRPC_REQUEST_HEADER_MIN_LEN in Hl.
    destruct (length (data r)) as [|k] eqn:Ek; [unfold data_len, len in Hl; lia|]. cbn [crpc_boundary_loop].
    assert (current_pos r = 0) as H0 by apply H. rewrite (proj2 (Z.leb_gt _ _)) by lia.
    rewrite (index_at _ _ _ _ H). cbn [mbind run_bind]. rewrite Z.eqb_refl.
    apply (at_pos_advance _ _ [_]) in H. pose proof (index_at _ _ _ _ H) as Hi. cbn [data current_pos advance update] in Hi.
    change (len [CRPC_HEADER_BEGIN_FLAG1]) with 1 in Hi. rewrite Hi. cbn [mbind run_bind]. by rewrite Z.eqb_refl.
  - destruct H as (_ & -> & _). done.
Qed.

Lemma crpc_frame r : headed r ->
  proto_parse_frame mt r
  = match crpc_validate_tech_header r (hlen + 8) (mlen + 6) with
    | STATE_SUCCESS =>
        Ret (r <| current_pos := data_len r |>, STATE_SUCCESS,
             Some {| request_id := id; head_len := hlen + 8; matched := false; message_len := mlen + 6; crpc_timestamp_ns := timestamp_ns r |})
    | state => Ret (r, state, None)
    end.
Proof using Hmalloc Hprops Hid Hhead.
  intros H. cbn [proto_parse_frame crpc]. unfold crpc_parse_frame, __do_crpc_parse_frame. rewrite !Hmalloc, (crpc_header r H). cbn [negb mbind run_bind].
  destruct (crpc_validate_tech_header r _ _); cbn [mbind run_bind]; rewrite ?restore_advance; done.
Qed.

Lemma crpc_validate_cases r :
  crpc_validate_tech_header r (hlen + 8) (mlen + 6)
  = if mlen + 6 <? data_len r then STATE_INVALID else if data_len r <? mlen + 6 then STATE_NEEDS_MORE_DATA else STATE_SUCCESS.
Proof using Hhead. unfold crpc_validate_tech_header. by rewrite (proj2 (Z.leb_gt _ _)) by lia. Qed.

End chunks.

(** The probe takes a cRPC message only when it is alone.  A chunk that starts
    with the header of a message, whose size is [mlen + 6], and has the 103 bytes
    the probe asks for, becomes one frame when the chunk has exactly this size.
    It is joined with the next chunk when it is smaller.  When it is larger, as
    with two messages in one read, the whole chunk is dropped and none of its
    messages becomes a frame. *)
Theorem crpc_chunk_outcome (M : Malloc) (mt : message_type_t) (mlen hlen : Z) (props id body : bytes)
    (r c : raw_data_s) (Q : list raw_data_s) (fs : list crpc_message_s) (p : Z) (n : nat) :
  (forall k, malloc k = true) -> len props = 4 -> len id = 16 ->
  0 <= hlen /\ hlen + 8 < 2 ^ 16 /\ hlen + 8 < mlen + 6 < 2 ^ 32 -> headed mlen hlen props id body r ->
  Z.of_nat (length fs) < __FRAME_BUF_SIZE -> flags r = 0 -> joinable (rd_index r) (rd_index c) = true ->
  parse_loop (S (S (S (S (S n))))) mt Next (stream (r :: c :: Q) fs p)
  = match Z.compare (data_len r) (mlen + 6) with
    | Eq => parse_loop (S (S n)) mt Next (stream (c :: Q) (fs ++
              [{| request_id := id; head_len := hlen + 8; matched := false; message_len := mlen + 6;
                  crpc_timestamp_ns := timestamp_ns r |}]) p)
    | Lt => parse_loop (S (S n)) mt Next (stream (joined r c :: Q) fs p)
    | Gt => parse_loop n mt Next (stream (c :: Q) fs p)
    end.
Proof.
  intros Hmalloc Hprops Hid Hh H Hroom Hflags Hj. rewrite (crpc_start mt _ _ _ _ _ _ _ _ _ _ H).
  pose proof (crpc_frame Hmalloc mt mlen hlen props id body Hprops Hid Hh) as Hframe.
  pose proof (Hframe r H) as Hr. rewrite crpc_validate_cases in Hr by done.
  destruct (Z.compare_spec (data_len r) (mlen + 6)) as [E|E|E].
  - rewrite (proj2 (Z.ltb_ge _ _)), (proj2 (Z.ltb_ge _ _)) in Hr by lia.
    rewrite (repeat_success _ mt _ _ _ _ _ _ Hr) by done. cbn [current_pos update]. by rewrite Z.eqb_refl.
  - rewrite (proj2 (Z.ltb_ge _ _)), (proj2 (Z.ltb_lt _ _)) in Hr by lia.
    by rewrite (repeat_join _ mt _ _ _ _ _ _ _ Hmalloc Hr).
  - rewrite (proj2 (Z.ltb_lt _ _)) in Hr by lia. rewrite (repeat_rebound _ mt _ _ _ _ _ _ Hr) by (by rewrite Hflags).
    rewrite Hflags. set (r' := r <| flags := Z.lor 0 RAW_DATA_FLAGS_INVALID |>).
    assert (headed mlen hlen props id body r') as H' by exact H.
    rewrite <- next_round, (crpc_start mt _ _ _ _ _ _ _ _ _ _ H').
    pose proof (Hframe r' H') as Hr'. rewrite crpc_validate_cases in Hr' by done.
    change (data_len r') with (data_len r) in Hr'. rewrite (proj2 (Z.ltb_lt _ _)) in Hr' by lia.
    by rewrite (repeat_drop _ mt _ _ _ _ _ _ Hr').
Qed.

(** A message of 110 bytes, alone and with a second one behind it *)
Definition ex_message (extra : nat) : bytes :=
  crpc_bytes 104 95 [1; 0; 0; 0] (replicate 16 7) (replicate (82 + extra) 0).

Definition ex_chunk (extra : nat) : raw_data_s :=
  {| flags := 0; timestamp_ns := 5; rd_index := 0; isBrokeData := 0; current_pos := 0; data := ex_message extra |}.

Lemma crpc_chunk_outcome_witness :
  parse_loop (M := plenty) (P := @crpc plenty) 9 MESSAGE_REQUEST Next (stream [ex_chunk 110; ex_chunk 0] [] 0)
  = parse_loop (M := plenty) (P := @crpc plenty) 4 MESSAGE_REQUEST Next (stream [ex_chunk 0] [] 0).
Proof.
  exact (crpc_chunk_outcome plenty MESSAGE_REQUEST 104 95 [1; 0; 0; 0] (replicate 16 7) (replicate 192 0) (ex_chunk 110) (ex_chunk 0)
    [] [] 0 4 (fun _ => eq_refl) eq_refl eq_refl ltac:(lia) ltac:(by vm_compute) ltac:(by vm_compute) eq_refl eq_refl).
Defined.

(** ** Requests and responses *)

Lemma crpc_find_request_none reqs resp : Forall (fun m => matched m = false) reqs ->
  crpc_find_request reqs resp = (map (fun m => m <| request_id := strncpy (request_id resp) 16 |>) reqs, None).
Proof.
  induction 1 as [|req reqs Hreq Hreqs IH]; [done|]. cbn [crpc_find_request map]. unfold crpc_is_match.
  rewrite Hreq. cbn [andb]. by rewrite IH.
Qed.

Lemma crpc_match_responses_none `{Malloc} reqs resps resp rpos recs : Forall (fun m => matched m = false) reqs ->
  crpc_match_responses reqs (resps ++ [resp]) rpos recs
  = (map (fun m => m <| request_id := strncpy (request_id resp) 16 |>) reqs, wrap 64 (rpos + Z.of_nat (length resps) + 1), recs).
Proof.
  revert reqs rpos. induction resps as [|x xs IH]; intros reqs rpos Hreqs; cbn [app crpc_match_responses].
  - rewrite crpc_find_request_none by done. unfold wadd. cbn. by rewrite Z.add_0_r.
  - rewrite crpc_find_request_none by done. cbn [crpc_matcher_add_record]. rewrite IH by (by apply Forall_map).
    rewrite map_map. cbn [length]. unfold wadd, wrap.
    replace ((rpos + 1) mod 2 ^ 64 + Z.of_nat (length xs) + 1) with ((rpos + 1) mod 2 ^ 64 + (Z.of_nat (length xs) + 1)) by lia.
    rewrite Zplus_mod_idemp_l. f_equal. f_equal. f_equal. lia.
Qed.

Lemma last_matched_none reqs i pos : Forall (fun m => matched m = false) reqs -> last_matched reqs i pos = pos.
Proof. intros H. revert i. induction H as [|req reqs Hreq Hreqs IH]; intros i; [done|]. cbn. rewrite Hreq. apply IH. Qed.

(** The cRPC matcher never finds the request of a response: for requests as
    the parser makes them and any responses it adds no record and leaves the
    position of the requests, and all responses count as passed.  It compares
    with the result of [strncpy], and so gives every waiting request the id of
    the last response. *)
Theorem crpc_requests_never_matched (M : Malloc) (req_frames resp_frames : frame_buf_s crpc_message_s) (rb : crpc_record_buf)
    (resp : crpc_message_s) (resps : list crpc_message_s) :
  Forall (fun m => matched m = false) (fb_frames req_frames) -> fb_frames resp_frames = resps ++ [resp] ->
  let '(req_frames', resp_frames', rb') := crpc_match_frames req_frames resp_frames rb in
  records rb' = records rb /\ fb_pos req_frames' = fb_pos req_frames
  /\ fb_pos resp_frames' = wrap 64 (fb_pos resp_frames + Z.of_nat (length resps) + 1)
  /\ fb_frames req_frames' = map (fun m => m <| request_id := strncpy (request_id resp) 16 |>) (fb_frames req_frames).
Proof.
  intros Hreq Hresp. unfold crpc_match_frames. rewrite Hresp, crpc_match_responses_none by done.
  repeat split. cbn [fb_pos]. apply last_matched_none. by apply Forall_map.
Qed.

(** A request and its response, with the same id *)
Definition ex_call (id ts : Z) : crpc_message_s :=
  {| request_id := replicate 16 id; head_len := 103; matched := false; message_len := 110; crpc_timestamp_ns := ts |}.

Lemma crpc_requests_never_matched_witness :
  let '(reqs, resps, rb) := crpc_match_frames (H := plenty)
      {| fb_frames := [ex_call 7 5]; fb_pos := 0 |} {| fb_frames := [ex_call 7 9]; fb_pos := 0 |}
      {| records := []; req_count := 0; resp_count := 0 |} in
  records rb = [] /\ fb_pos reqs = 0 /\ fb_pos resps = 1 /\ fb_frames reqs = [ex_call 7 5].
Proof.
  exact (crpc_requests_never_matched plenty {| fb_frames := [ex_call 7 5]; fb_pos := 0 |} {| fb_frames := [ex_call 7 9]; fb_pos := 0 |}
    {| records := []; req_count := 0; resp_count := 0 |} (ex_call 7 9) [] ltac:(by repeat constructor) eq_refl).
Defined.
