(* ===== verification/ProbeAmqp.v ===== *)
(** * AMQP in the L7 probe (l7probe/protocol/amqp)

    The parser of AMQP 0-9-1 frames, as the operations of the [Protocol]
    interface, and the matcher of connection and channel methods. *)

From S2P Require Import Prelude Bytes ProbeData ProbeStream.

Definition AMQP_HEADER_SIZE : Z := 8.
Definition AMQP_FRAME_END : Z := 0xCE.
Definition AMQP_PROTOCOL_HEADER : bytes := [65; 77; 81; 80; 0; 0; 9; 1].

Definition AMQP_FRAME_METHOD : Z := 1.
Definition AMQP_FRAME_HEADER : Z := 2.
Definition AMQP_FRAME_BODY : Z := 3.
Definition AMQP_FRAME_HEARTBEAT : Z := 8.

Definition AMQP_CLASS_CONNECTION : Z := 10.
Definition AMQP_CLASS_CHANNEL : Z := 20.
Definition AMQP_CLASS_EXCHANGE : Z := 40.
Definition AMQP_CLASS_QUEUE : Z := 50.
Definition AMQP_CLASS_BASIC : Z := 60.

Definition METHOD_BASIC_PUBLISH : Z := 40.

(** The methods that ask and the methods that answer, which are 1 above:
    START, SECURE, TUNE, OPEN and CLOSE of a connection, OPEN, FLOW and CLOSE of a
    channel *)
Definition connection_methods : list Z := [10; 20; 30; 40; 50].
Definition channel_methods : list Z := [10; 20; 40].

(** The fields the parser sets *)
Record amqp_message_s := {
  msg_type : message_type_t;
  amqp_timestamp_ns : Z;
  is_protocol_header : bool;
  frame_type : Z;
  channel_id : Z;
  payload_size : Z;
  class_id : Z;
  raw_method_id : Z;
  exchange : option bytes;
  routing_key : option bytes;
  queue : option bytes;
}.

#[export] Instance amqp_message_fields : Fields amqp_message_s := fun x =>
  Build_amqp_message_s (msg_type x) (amqp_timestamp_ns x) (is_protocol_header x) (frame_type x) (channel_id x)
    (payload_size x) (class_id x) (raw_method_id x) (exchange x) (routing_key x) (queue x).

#[export] Instance amqp_message_eq_dec : EqDecision amqp_message_s.
Proof. solve_decision. Defined.

Definition sizeof_amqp_message_s : Z := 112.
Definition sizeof_amqp_frame_data_s : Z := 24.

(** [init_amqp_msg]: all zero *)
Definition init_amqp_msg : amqp_message_s :=
  {| msg_type := MESSAGE_UNKNOW; amqp_timestamp_ns := 0; is_protocol_header := false; frame_type := 0; channel_id := 0;
     payload_size := 0; class_id := 0; raw_method_id := 0; exchange := None; routing_key := None; queue := None |}.

(** ** Frames *)

Section parser.
Context {M : Malloc}.

(** [data[i]], with [data] the bytes from the position on *)
Definition byte_at (r : raw_data_s) (i : Z) : run Z := index (data r) (current_pos r + i).

(** [read_u16_be(data + i)] *)
Definition amqp_read_u16_be (r : raw_data_s) (i : Z) : run Z :=
  a ← byte_at r i;
  b ← byte_at r (i + 1);
  Ret (wrap 16 (Z.lor (Z.shiftl a 8) b)).

(** [read_u32_be(data + i)] *)
Definition amqp_read_u32_be (r : raw_data_s) (i : Z) : run Z :=
  a ← byte_at r i;
  b ← byte_at r (i + 1);
  c ← byte_at r (i + 2);
  d ← byte_at r (i + 3);
  Ret (Z.lor (Z.lor (Z.lor (wshl 32 a 24) (wshl 32 b 16)) (wshl 32 c 8)) d).

(** [read_short_str(data + i, &consumed)]: the string and the new value of
    [consumed], which stays without memory *)
Definition read_short_str (r : raw_data_s) (i consumed : Z) : run (option bytes * Z) :=
  n ← byte_at r i;
  if n =? 0 then Ret (None, 1)
  else if malloc (n + 1) then
    bs ← read_bytes r (current_pos r + (i + 1)) n;
    Ret (Some bs, n + 1)
  else Ret (None, consumed).

(** [parse_exchange(data + base, &offset)] and [parse_queue]: past 2 reserved bytes *)
Definition parse_exchange (r : raw_data_s) (base offset : Z) : run (option bytes * Z) :=
  let offset := offset + 2 in
  read_short_str r (base + offset) offset.

Definition parse_queue (r : raw_data_s) (base offset : Z) : run (option bytes * Z) :=
  let offset := offset + 2 in
  read_short_str r (base + offset) offset.

(** [parse_routing_key(data + base, &offset)] *)
Definition parse_routing_key (r : raw_data_s) (base offset : Z) : run (option bytes * Z) :=
  read_short_str r (base + offset) offset.

Definition is_protocol_header_at (r : raw_data_s) : run bool :=
  if AMQP_HEADER_SIZE <=? unconsumed r then
    bs ← read_bytes r (current_pos r) AMQP_HEADER_SIZE;
    Ret (bool_decide (bs = AMQP_PROTOCOL_HEADER))
  else Ret false.

Definition amqp_find_frame_boundary (r : raw_data_s) : run Z :=
  if data_len r <=? current_pos r then Ret PARSER_INVALID_BOUNDARY_INDEX
  else
    header ← is_protocol_header_at r;
    if header : bool then Ret (current_pos r)
    else if 7 <=? unconsumed r then
      t ← byte_at r 0;
      if (t =? AMQP_FRAME_METHOD) || (t =? AMQP_FRAME_HEADER) || (t =? AMQP_FRAME_BODY) || (t =? AMQP_FRAME_HEARTBEAT) then
        size ← amqp_read_u32_be r 3;
        if wadd 32 8 size <=? unconsumed r then
          e ← byte_at r (wadd 32 7 size);
          if e =? AMQP_FRAME_END then Ret (current_pos r) else Ret PARSER_INVALID_BOUNDARY_INDEX
        else Ret PARSER_INVALID_BOUNDARY_INDEX
      else Ret PARSER_INVALID_BOUNDARY_INDEX
    else Ret PARSER_INVALID_BOUNDARY_INDEX.

Definition get_message_type (class_id method_id : Z) : message_type_t :=
  if ((class_id =? AMQP_CLASS_CONNECTION) && existsb (fun m => method_id =? m) connection_methods)
     || ((class_id =? AMQP_CLASS_CHANNEL) && existsb (fun m => method_id =? m) channel_methods) then MESSAGE_REQUEST
  else if ((class_id =? AMQP_CLASS_CONNECTION) && existsb (fun m => method_id =? m + 1) connection_methods)
     || ((class_id =? AMQP_CLASS_CHANNEL) && existsb (fun m => method_id =? m + 1) channel_methods) then MESSAGE_RESPONSE
  else MESSAGE_REQUEST.

(** The names in a method frame; [offset] is that of its arguments. *)
Definition parse_names (r : raw_data_s) (m : amqp_message_s) (offset : Z) : run amqp_message_s :=
  if class_id m =? AMQP_CLASS_EXCHANGE then
    '(e, _) ← parse_exchange r offset offset;
    Ret (m <| exchange := e |>)
  else if class_id m =? AMQP_CLASS_QUEUE then
    '(q, _) ← parse_queue r offset offset;
    Ret (m <| queue := q |>)
  else if (class_id m =? AMQP_CLASS_BASIC) && (raw_method_id m =? METHOD_BASIC_PUBLISH) then
    '(e, temp_offset) ← parse_exchange r offset 0;
    let offset := offset + temp_offset in
    '(k, _) ← parse_routing_key r offset temp_offset;
    Ret (m <| exchange := e |> <| routing_key := k |>)
  else Ret m.

(** The cases of the frame type; a content header shifts a 32-bit integer by 32,
    which is undefined. *)
Definition parse_payload (r : raw_data_s) (m : amqp_message_s) : run (result amqp_message_s parse_state_t) :=
  if frame_type m =? AMQP_FRAME_METHOD then
    if payload_size m <? 4 then Ret (Err STATE_INVALID)
    else
      c ← amqp_read_u16_be r 7;
      meth ← amqp_read_u16_be r 9;
      let m := m <| class_id := c |> <| raw_method_id := meth |> <| msg_type := get_message_type c meth |> in
      m ← parse_names r m 11;
      Ret (Ok m)
  else if frame_type m =? AMQP_FRAME_HEADER then
    if payload_size m <? 14 then Ret (Err STATE_INVALID) else Panic
  else if (frame_type m =? AMQP_FRAME_BODY) || (frame_type m =? AMQP_FRAME_HEARTBEAT)
  then Ret (Ok (m <| msg_type := MESSAGE_REQUEST |>))
  else Ret (Err STATE_INVALID).

Definition amqp_parse_frame (r : raw_data_s) : run (raw_data_s * parse_state_t * option amqp_message_s) :=
  if data_len r <=? current_pos r then Ret (r, STATE_NEEDS_MORE_DATA, None)
  else if negb (malloc sizeof_amqp_message_s) then Ret (r, STATE_INVALID, None)
  else
    let m := init_amqp_msg <| amqp_timestamp_ns := timestamp_ns r |> in
    header ← is_protocol_header_at r;
    if header : bool then
      let m := m <| is_protocol_header := true |> <| msg_type := MESSAGE_REQUEST |> in
      let r := r <| current_pos := wadd 64 (current_pos r) AMQP_HEADER_SIZE |> in
      if malloc sizeof_amqp_frame_data_s then Ret (r, STATE_SUCCESS, Some m) else Ret (r, STATE_INVALID, None)
    else if 7 <=? unconsumed r then
      t ← byte_at r 0;
      ch ← amqp_read_u16_be r 1;
      size ← amqp_read_u32_be r 3;
      if unconsumed r <? wadd 32 size 8 then Ret (r, STATE_NEEDS_MORE_DATA, None)
      else
        e ← byte_at r (wadd 32 7 size);
        if negb (e =? AMQP_FRAME_END) then Ret (r, STATE_INVALID, None)
        else
          res ← parse_payload r (m <| frame_type := t |> <| channel_id := ch |> <| payload_size := size |>);
          match res with
          | Err state => Ret (r, state, None)
          | Ok m =>
              let r := r <| current_pos := wadd 64 (current_pos r) (wadd 32 8 size) |> in
              if malloc sizeof_amqp_frame_data_s then Ret (r, STATE_SUCCESS, Some m) else Ret (r, STATE_INVALID, None)
          end
    else Ret (r, STATE_NEEDS_MORE_DATA, None).

End parser.

#[export] Instance amqp `{Malloc} : Protocol amqp_message_s := {|
  proto_find_frame_boundary _ := amqp_find_frame_boundary;
  proto_parse_frame _ := amqp_parse_frame;
|}.

(** ** Matching *)

(** The buffer of frames a matcher works on; a matched frame is [None]. *)
Record amqp_frame_buf := { fb_frames : list (option amqp_message_s); fb_pos : nat }.

Record amqp_record_s := { req_msg : amqp_message_s; resp_msg : amqp_message_s; latency : Z }.

Definition RECORD_BUF_SIZE : Z := 1024.
Definition sizeof_amqp_record_s : Z := 16.
Definition sizeof_record_data_s : Z := 16.

Definition add_match_record `{Malloc} (req resp : amqp_message_s) (recs : list amqp_record_s) : list amqp_record_s :=
  if malloc sizeof_amqp_record_s && malloc sizeof_record_data_s then
    if Z.of_nat (length recs) <? RECORD_BUF_SIZE
    then recs ++ [{| req_msg := req; resp_msg := resp; latency := wsub 64 (amqp_timestamp_ns resp) (amqp_timestamp_ns req) |}]
    else recs
  else recs.

(** [resp] answers [req]: a method frame of the channel, of the same class *)
Definition answers (req resp : amqp_message_s) : bool :=
  (frame_type resp =? AMQP_FRAME_METHOD) && (channel_id resp =? channel_id req)
  && (if (class_id req =? AMQP_CLASS_CONNECTION) && (class_id resp =? AMQP_CLASS_CONNECTION)
      then existsb (fun m => (raw_method_id req =? m) && (raw_method_id resp =? m + 1)) connection_methods
      else if (class_id req =? AMQP_CLASS_CHANNEL) && (class_id resp =? AMQP_CLASS_CHANNEL)
      then existsb (fun m => (raw_method_id req =? m) && (raw_method_id resp =? m + 1)) channel_methods
      else false).

(** The loop over the responses for one request: the frames with the first
    answer taken out, and the answer *)
Fixpoint take_answer (req : amqp_message_s) (resps : list (option amqp_message_s)) :
    option (amqp_message_s * list (option amqp_message_s)) :=
  match resps with
  | [] => None
  | None :: resps => '(a, resps) ← take_answer req resps; Some (a, None :: resps)
  | Some resp :: resps =>
      if answers req resp then Some (resp, None :: resps)
      else '(a, resps) ← take_answer req resps; Some (a, Some resp :: resps)
  end.

(** A request the matcher looks at *)
Definition may_match (req : amqp_message_s) : bool :=
  negb (is_protocol_header req) && (frame_type req =? AMQP_FRAME_METHOD).

(** The loop over the requests *)
Fixpoint match_requests `{Malloc} (reqs resps : list (option amqp_message_s)) (recs : list amqp_record_s) :
    list (option amqp_message_s) * list (option amqp_message_s) * list amqp_record_s :=
  match reqs with
  | [] => ([], resps, recs)
  | o :: reqs =>
      match (req ← o; if may_match req then '(a, resps') ← take_answer req resps; Some (req, a, resps') else None) with
      | Some (req, a, resps') =>
          let '(reqs, resps, recs) := match_requests reqs resps' (add_match_record req a recs) in (None :: reqs, resps, recs)
      | None => let '(reqs, resps, recs) := match_requests reqs resps recs in (o :: reqs, resps, recs)
      end
  end.

(** The frames from the positions on; the ones before stay as they are. *)
Definition amqp_match_frames `{Malloc} (req_frames resp_frames : amqp_frame_buf) (recs : list amqp_record_s) :
    amqp_frame_buf * amqp_frame_buf * list amqp_record_s :=
  let '(reqs, resps, recs) :=
    match_requests (drop (fb_pos req_frames) (fb_frames req_frames)) (drop (fb_pos resp_frames) (fb_frames resp_frames)) recs in
  ({| fb_frames := take (fb_pos req_frames) (fb_frames req_frames) ++ reqs; fb_pos := length (fb_frames req_frames) |},
   {| fb_frames := take (fb_pos resp_frames) (fb_frames resp_frames) ++ resps; fb_pos := length (fb_frames resp_frames) |},
   recs).
