(* ===== verification/ProbeAmqpSpec.v ===== *)
(** * AMQP frames and matches of the L7 probe

    Whole frames come out of a chunk as they were sent, and a matcher run pairs
    all the requests and answers it can. *)

From S2P Require Import Prelude Bytes ProbeData ProbeStream ProbeAmqp.

(** ** Reads *)

Lemma byte_at_here r pre xs b suf : at_pos r pre (xs ++ b :: suf) -> byte_at r (len xs) = Ret b.
Proof.
  intros (Hd & Hp & _). unfold byte_at, index. rewrite Hd, Hp. unfold len. rewrite (proj2 (Z.leb_le _ _)) by lia.
  replace (Z.to_nat _) with (length (pre ++ xs)) by (rewrite length_app; lia).
  by rewrite app_assoc, list_lookup_middle.
Qed.

Lemma byte_at_off r pre xs ys b suf : at_pos r pre (xs ++ ys ++ b :: suf) -> byte_at r (len xs + len ys) = Ret b.
Proof. rewrite app_assoc, <- len_app. apply byte_at_here. Qed.

Lemma lor_mul_add v b k : 0 <= k -> fits k b -> Z.lor (v * 2 ^ k) b = v * 2 ^ k + b.
Proof. intros Hk Hb. rewrite Z.lor_comm, <- Z.shiftl_mul_pow2 by done. rewrite lor_shiftl_add by done. by rewrite Z.shiftl_mul_pow2. Qed.

Lemma read_u16_here r pre xs v suf : at_pos r pre (xs ++ be16 v ++ suf) -> fits 16 v ->
  amqp_read_u16_be r (len xs) = Ret v.
Proof.
  intros H Hv. unfold be16 in H. cbn [app] in H. unfold amqp_read_u16_be. rewrite (byte_at_here _ _ _ _ _ H). cbn [mbind run_bind].
  apply (byte_at_off _ _ _ [_]) in H. change (len [_]) with 1 in H. rewrite H. cbn [mbind run_bind]. rewrite Z.shiftl_mul_pow2, lor_mul_add; [|lia|unfold fits; change (2 ^ 8) with 256; apply Z.mod_pos_bound; lia|lia].
  rewrite be16_val by done. by rewrite wrap_small.
Qed.

Lemma be32_bytes a b c d : byte_ok a -> byte_ok b -> byte_ok c -> byte_ok d ->
  Z.lor (Z.lor (Z.lor (wshl 32 a 24) (wshl 32 b 16)) (wshl 32 c 8)) d = a * 2 ^ 24 + b * 2 ^ 16 + c * 2 ^ 8 + d.
Proof.
  unfold byte_ok, fits. change (2 ^ 8) with 256. intros Ha Hb Hc Hd. unfold wshl. rewrite !Z.shiftl_mul_pow2 by lia.
  rewrite !wrap_small by (unfold fits; lia). rewrite lor_mul_add by (unfold fits; lia).
  replace (a * 2 ^ 24 + b * 2 ^ 16) with ((a * 2 ^ 8 + b) * 2 ^ 16) by lia. rewrite lor_mul_add by (unfold fits; lia).
  replace ((a * 2 ^ 8 + b) * 2 ^ 16 + c * 2 ^ 8) with (((a * 2 ^ 8 + b) * 2 ^ 8 + c) * 2 ^ 8) by lia.
  rewrite lor_mul_add by (unfold fits; lia). lia.
Qed.

Lemma read_u32_here r pre xs v suf : at_pos r pre (xs ++ be32 v ++ suf) -> fits 32 v ->
  amqp_read_u32_be r (len xs) = Ret v.
Proof.
  intros H Hv. pose proof (be32_ok v) as Hok. pose proof (read_be32 v [] Hv) as Hr.
  unfold be32 in *. cbn [app] in *. cbn -[Z.modulo Z.shiftr Z.pow Z.mul Z.add] in Hr. injection Hr as Hr.
  unfold amqp_read_u32_be. unfold bytes_ok in Hok. rewrite !Forall_cons in Hok. destruct Hok as (Ha & Hb & Hc & Hd & _).
  revert H Ha Hb Hc Hd Hr. generalize (Z.shiftr v 24 mod 256), (Z.shiftr v 16 mod 256), (Z.shiftr v 8 mod 256), (v mod 256).
  intros a b c d H Ha Hb Hc Hd Hr. rewrite (byte_at_here _ _ _ _ _ H). cbn [mbind run_bind].
  pose proof (byte_at_off _ _ _ [a] _ _ H) as H1. pose proof (byte_at_off _ _ _ [a; b] _ _ H) as H2.
  pose proof (byte_at_off _ _ _ [a; b; c] _ _ H) as H3. change (len [a]) with 1 in H1. change (len [a; b]) with 2 in H2.
  change (len [a; b; c]) with 3 in H3. rewrite H1, H2, H3. cbn [mbind run_bind]. by rewrite be32_bytes, Hr.
Qed.

(** ** Frames on the wire *)

(** The protocol header, and frames of a channel: a method of a class with its
    arguments, a body, a heartbeat *)
Inductive wire :=
| Protocol_header
| Method (ch c m : Z) (args : bytes)
| Body (ch : Z) (payload : bytes)
| Heartbeat (ch : Z) (payload : bytes).

Definition frame_bytes (t ch : Z) (payload : bytes) : bytes :=
  t :: be16 ch ++ be32 (len payload) ++ payload ++ [AMQP_FRAME_END].

Definition wire_bytes (w : wire) : bytes :=
  match w with
  | Protocol_header => AMQP_PROTOCOL_HEADER
  | Method ch c m args => frame_bytes AMQP_FRAME_METHOD ch (be16 c ++ be16 m ++ args)
  | Body ch payload => frame_bytes AMQP_FRAME_BODY ch payload
  | Heartbeat ch payload => frame_bytes AMQP_FRAME_HEARTBEAT ch payload
  end.

(** Fields of their size, and no method whose names the parser reads *)
Definition plain (w : wire) : Prop :=
  match w with
  | Protocol_header => True
  | Method ch c m args =>
      fits 16 ch /\ fits 16 c /\ fits 16 m /\ len args + 12 < 2 ^ 32
      /\ c <> AMQP_CLASS_EXCHANGE /\ c <> AMQP_CLASS_QUEUE /\ ~ (c = AMQP_CLASS_BASIC /\ m = METHOD_BASIC_PUBLISH)
  | Body ch payload | Heartbeat ch payload => fits 16 ch /\ len payload + 8 < 2 ^ 32
  end.

Definition wire_message (ts : Z) (w : wire) : amqp_message_s :=
  let m0 := init_amqp_msg <| amqp_timestamp_ns := ts |> <| msg_type := MESSAGE_REQUEST |> in
  match w with
  | Protocol_header => m0 <| is_protocol_header := true |>
  | Method ch c m args =>
      m0 <| msg_type := get_message_type c m |> <| frame_type := AMQP_FRAME_METHOD |> <| channel_id := ch |>
         <| payload_size := len args + 4 |> <| class_id := c |> <| raw_method_id := m |>
  | Body ch payload => m0 <| frame_type := AMQP_FRAME_BODY |> <| channel_id := ch |> <| payload_size := len payload |>
  | Heartbeat ch payload => m0 <| frame_type := AMQP_FRAME_HEARTBEAT |> <| channel_id := ch |> <| payload_size := len payload |>
  end.

Lemma len_frame t ch payload : len (frame_bytes t ch payload) = len payload + 8.
Proof. unfold frame_bytes. rewrite len_cons, !len_app. change (len (be16 ch)) with 2. change (len (be32 _)) with 4. change (len [_]) with 1. lia. Qed.

Lemma not_header r pre t suf : at_pos r pre (t :: suf) -> t <> 65 -> is_protocol_header_at r = Ret false.
Proof.
  intros H Ht. pose proof (at_pos_unconsumed _ _ _ H) as Hu. pose proof (at_pos_data_len _ _ _ H) as Hd.
  unfold is_protocol_header_at. case_match; [|done]. destruct H as (H & Hp & _).
  unfold read_bytes. rewrite (proj2 (andb_true_iff _ _)) by (unfold AMQP_HEADER_SIZE in *; pose proof (len_nonneg pre); lia).
  cbn [mbind run_bind]. rewrite bool_decide_eq_false_2; [done|]. rewrite H, Hp.
  unfold len. rewrite Nat2Z.id, drop_app_length. change (Z.to_nat AMQP_HEADER_SIZE) with 8%nat. cbn [take]. by intros [= -> _].
Qed.

(** What the parser reads of a frame *)
Lemma frame_reads r pre t ch payload suf : at_pos r pre (frame_bytes t ch payload ++ suf) ->
  fits 16 ch -> len payload + 8 < 2 ^ 32 -> t <> 65 ->
  data_len r <=? current_pos r = false /\ unconsumed r = len payload + 8 + len suf
  /\ is_protocol_header_at r = Ret false /\ byte_at r 0 = Ret t /\ amqp_read_u16_be r 1 = Ret ch
  /\ amqp_read_u32_be r 3 = Ret (len payload) /\ byte_at r (wadd 32 7 (len payload)) = Ret AMQP_FRAME_END.
Proof.
  intros H Hch Hl Ht. pose proof (at_pos_unconsumed _ _ _ H) as Hu. rewrite len_app, len_frame in Hu.
  pose proof (at_pos_data_len _ _ _ H) as Hd. rewrite len_app, len_frame in Hd. pose proof (len_nonneg suf). pose proof (len_nonneg payload).
  assert (current_pos r = len pre) as Hp by apply H.
  unfold frame_bytes in H. cbn [app] in H. rewrite <- !app_assoc in H.
  split; [lia|]. split; [done|]. split.
  { by eapply not_header. }
  split; [exact (byte_at_here _ _ [] _ _ H)|].
  split; [exact (read_u16_here _ _ [t] _ _ H Hch)|].
  split; [exact (read_u32_here _ _ (t :: be16 ch) _ _ H ltac:(unfold fits; lia))|].
  rewrite wadd_small by (unfold fits; lia).
  pose proof (byte_at_off r pre (t :: be16 ch ++ be32 (len payload)) payload AMQP_FRAME_END suf) as He.
  rewrite len_cons, len_app in He. change (len (be16 ch)) with 2 in He. change (len (be32 _)) with 4 in He. apply He.
  cbn [app]. by rewrite <- !app_assoc.
Qed.

Section delivery.
Context {M : Malloc} (Hmalloc : forall n, malloc n = true) (mt : message_type_t).
Implicit Types (r : raw_data_s) (fs : list amqp_message_s).

(** A frame with a payload the parser accepts *)
Lemma parse_frame_ok r pre t ch payload suf m : at_pos r pre (frame_bytes t ch payload ++ suf) ->
  fits 16 ch -> len payload + 8 < 2 ^ 32 -> t <> 65 ->
  parse_payload r (init_amqp_msg <| amqp_timestamp_ns := timestamp_ns r |> <| frame_type := t |>
    <| channel_id := ch |> <| payload_size := len payload |>) = Ret (Ok m) ->
  proto_parse_frame mt r = Ret (advance r (len (frame_bytes t ch payload)), STATE_SUCCESS, Some m).
Proof using Hmalloc.
  intros H Hch Hl Ht Hpay. destruct (frame_reads _ _ _ _ _ _ H Hch Hl Ht) as (H1 & H2 & H3 & H4 & H5 & H6 & H7).
  pose proof (len_nonneg suf). pose proof (len_nonneg payload). pose proof (len_nonneg pre).
  cbn [proto_parse_frame amqp]. unfold amqp_parse_frame. rewrite H1, Hmalloc, H3. cbn [negb mbind run_bind].
  rewrite (proj2 (Z.leb_le _ _)) by lia. rewrite H4. cbn [mbind run_bind]. rewrite H5. cbn [mbind run_bind].
  rewrite H6. cbn [mbind run_bind]. rewrite (wadd_small 32 _ 8) by (unfold fits; lia).
  rewrite (proj2 (Z.ltb_ge _ _)) by lia. rewrite H7. cbn [mbind run_bind]. rewrite Z.eqb_refl. cbn [negb].
  rewrite Hpay. cbn [mbind run_bind]. rewrite Hmalloc. unfold advance. rewrite len_frame.
  rewrite (wadd_small 32) by (unfold fits; lia). pose proof (at_pos_data_len _ _ _ H) as Hd. rewrite len_app, len_frame in Hd.
  destruct H as (_ & Hp & Hlt). rewrite wadd_small by (unfold fits; lia). by rewrite (Z.add_comm 8).
Qed.

Lemma boundary_ok r pre t ch payload suf : at_pos r pre (frame_bytes t ch payload ++ suf) ->
  fits 16 ch -> len payload + 8 < 2 ^ 32 -> t = AMQP_FRAME_METHOD \/ t = AMQP_FRAME_BODY \/ t = AMQP_FRAME_HEARTBEAT ->
  proto_find_frame_boundary mt r = Ret (current_pos r).
Proof using.
  intros H Hch Hl Ht. assert (t <> 65) as Ht' by (unfold AMQP_FRAME_METHOD, AMQP_FRAME_BODY, AMQP_FRAME_HEARTBEAT in Ht; lia).
  destruct (frame_reads _ _ _ _ _ _ H Hch Hl Ht') as (H1 & H2 & H3 & H4 & H5 & H6 & H7).
  pose proof (len_nonneg suf). pose proof (len_nonneg payload).
  cbn [proto_find_frame_boundary amqp]. unfold amqp_find_frame_boundary. rewrite H1, H3. cbn [mbind run_bind].
  rewrite (proj2 (Z.leb_le _ _)) by lia. rewrite H4. cbn [mbind run_bind].
  replace ((t =? AMQP_FRAME_METHOD) || (t =? AMQP_FRAME_HEADER) || (t =? AMQP_FRAME_BODY) || (t =? AMQP_FRAME_HEARTBEAT))
    with true by (destruct Ht as [E|[E|E]]; by rewrite E).
  rewrite H6. cbn [mbind run_bind]. rewrite (wadd_small 32 8) by (unfold fits; lia). rewrite (proj2 (Z.leb_le _ _)) by lia.
  rewrite H7. cbn [mbind run_bind]. by rewrite Z.eqb_refl.
Qed.

Lemma protocol_header_at r pre suf : at_pos r pre (AMQP_PROTOCOL_HEADER ++ suf) ->
  data_len r <=? current_pos r = false /\ is_protocol_header_at r = Ret true.
Proof using.
  intros H. pose proof (at_pos_unconsumed _ _ _ H) as Hu. pose proof (at_pos_data_len _ _ _ H) as Hd.
  rewrite len_app in Hu, Hd. change (len AMQP_PROTOCOL_HEADER) with 8 in *. pose proof (len_nonneg suf).
  pose proof (read_bytes_at _ _ _ _ H) as Hr. change (len AMQP_PROTOCOL_HEADER) with AMQP_HEADER_SIZE in Hr.
  assert (current_pos r = len pre) as Hp by apply H. split; [lia|].
  unfold is_protocol_header_at. rewrite (proj2 (Z.leb_le _ _)) by (unfold AMQP_HEADER_SIZE; lia). rewrite Hr. cbn [mbind run_bind].
  by rewrite bool_decide_eq_true_2.
Qed.

(** A plain frame is found where it is and becomes its message. *)
Lemma wire_frame r pre w suf : at_pos r pre (wire_bytes w ++ suf) -> plain w ->
  proto_find_frame_boundary mt r = Ret (current_pos r)
  /\ proto_parse_frame mt r = Ret (advance r (len (wire_bytes w)), STATE_SUCCESS, Some (wire_message (timestamp_ns r) w)).
Proof using Hmalloc.
  intros H Hw. destruct w as [|ch c m args|ch payload|ch payload]; cbn [wire_bytes plain] in *.
  - destruct (protocol_header_at _ _ _ H) as [H1 H2]. cbn [proto_find_frame_boundary proto_parse_frame amqp].
    unfold amqp_find_frame_boundary, amqp_parse_frame. rewrite H1, H2, !Hmalloc. cbn [negb mbind run_bind]. split; [done|].
    pose proof (at_pos_data_len _ _ _ H) as Hd. rewrite len_app in Hd. pose proof (len_nonneg suf). pose proof (len_nonneg pre).
    change (len AMQP_PROTOCOL_HEADER) with 8 in *. destruct H as (_ & Hp & Hlt). unfold AMQP_HEADER_SIZE.
    by rewrite wadd_small by (unfold fits; lia).
  - destruct Hw as (Hch & Hc & Hm & Hl & Hex & Hq & Hpub).
    assert (len (be16 c ++ be16 m ++ args) = len args + 4) as Hlen.
    { rewrite !len_app. change (len (be16 c)) with 2. change (len (be16 m)) with 2. lia. }
    split; [eapply boundary_ok; [done..| |by left]; lia|].
    apply (parse_frame_ok _ _ _ _ _ _ _ H); [done|lia|done|]. rewrite Hlen.
    unfold parse_payload. cbn [frame_type update payload_size]. pose proof (len_nonneg args).
    change (AMQP_FRAME_METHOD =? AMQP_FRAME_METHOD) with true. cbn match. rewrite (proj2 (Z.ltb_ge _ _)) by lia.
    unfold frame_bytes in H. cbn [app] in H. rewrite <- !app_assoc in H.
    assert (amqp_read_u16_be r 7 = Ret c) as ->.
    { apply (read_u16_here _ _ (AMQP_FRAME_METHOD :: be16 ch ++ be32 _) _ _ ltac:(cbn [app]; rewrite <- !app_assoc; exact H) Hc). }
    assert (amqp_read_u16_be r 9 = Ret m) as ->.
    { apply (read_u16_here _ _ (AMQP_FRAME_METHOD :: be16 ch ++ be32 _ ++ be16 c) _ _ ltac:(cbn [app]; rewrite <- !app_assoc; exact H) Hm). }
    cbn [mbind run_bind]. unfold parse_names. cbn [class_id raw_method_id update].
    rewrite (proj2 (Z.eqb_neq _ _)) by done. rewrite (proj2 (Z.eqb_neq _ _)) by done.
    by rewrite (proj2 (andb_false_iff _ _)) by lia.
  - destruct Hw as [Hch Hl]. split; [eapply boundary_ok; [done..|by right; left]|].
    by apply (parse_frame_ok _ _ _ _ _ _ _ H).
  - destruct Hw as [Hch Hl]. split; [eapply boundary_ok; [done..|by right; right]|].
    by apply (parse_frame_ok _ _ _ _ _ _ _ H).
Qed.

Lemma wire_not_empty w : plain w -> 7 <= len (wire_bytes w).
Proof using.
  destruct w; cbn [wire_bytes]; [done|..]; intros _; rewrite len_frame; first [pose proof (len_nonneg (be16 c ++ be16 m ++ args))|pose proof (len_nonneg payload)]; lia.
Qed.

(** All the frames of a chunk *)
Lemma drain_frames n r pre ws Q fs p : at_pos r pre (mjoin (map wire_bytes ws)) -> Forall plain ws -> ws <> [] ->
  Z.of_nat (length fs + length ws) <= __FRAME_BUF_SIZE ->
  parse_loop (length ws + n) mt Repeat (stream (r :: Q) fs p)
  = parse_loop n mt Next (stream Q (fs ++ map (wire_message (timestamp_ns r)) ws) p).
Proof using Hmalloc.
  intros H Hws. revert r pre fs H. induction Hws as [|w ws Hw Hws IH]; intros r pre fs H Hne Hcap; [done|].
  cbn [map length] in *. rewrite join_cons in H. destruct (wire_frame _ _ _ _ H Hw) as [_ Hf].
  cbn [Nat.add]. rewrite (repeat_success _ _ _ _ _ _ _ _ Hf) by lia.
  apply at_pos_advance in H. pose proof (at_pos_data_len _ _ _ H) as Hd.
  assert (current_pos (advance r (len (wire_bytes w))) = len (pre ++ wire_bytes w)) as Hp by apply H. rewrite Hd, Hp.
  destruct Hws as [|w' ws Hw' Hws].
  - cbn [map mjoin list_join]. change (len []) with 0. rewrite Z.add_0_r, Z.eqb_refl. done.
  - rewrite (proj2 (Z.eqb_neq _ _)).
    + rewrite (IH _ _ (fs ++ [_]) H); [by rewrite <- app_assoc|done|]. rewrite length_app. cbn [length] in *. lia.
    + cbn [map]. rewrite join_cons, (len_app (wire_bytes w')). pose proof (wire_not_empty _ Hw'). pose proof (len_nonneg (mjoin (map wire_bytes ws))). lia.
Qed.

Lemma chunk_frames n r ws Q fs p : at_pos r [] (mjoin (map wire_bytes ws)) -> Forall plain ws -> ws <> [] ->
  Z.of_nat (length fs + length ws) <= __FRAME_BUF_SIZE ->
  parse_loop (2 + length ws + n) mt Next (stream (r :: Q) fs p)
  = parse_loop n mt Next (stream Q (fs ++ map (wire_message (timestamp_ns r)) ws) p).
Proof using Hmalloc.
  intros H Hws Hne Hcap. destruct Hws as [|w ws Hw Hws]; [done|].
  pose proof H as H'. cbn [map] in H'. rewrite join_cons in H'. destruct (wire_frame _ _ _ _ H' Hw) as [Hb _].
  cbn [Nat.add]. rewrite next_round, (rebound_found _ _ _ _ _ _ _ Hb), set_same.
  - by apply (drain_frames n r []); [|constructor| |].
  - destruct H as (_ & -> & _). done.
Qed.

End delivery.

(** A captured chunk of whole frames *)
Record frames_chunk := { fc_time : Z; fc_index : Z; fc_wires : list wire }.

Definition chunk_raw (c : frames_chunk) : raw_data_s :=
  {| flags := 0; timestamp_ns := fc_time c; rd_index := fc_index c; isBrokeData := 0; current_pos := 0;
     data := mjoin (map wire_bytes (fc_wires c)) |}.

Definition chunk_messages (c : frames_chunk) : list amqp_message_s := map (wire_message (fc_time c)) (fc_wires c).


(** Opening a channel, and a heartbeat *)
Definition ex_chunks : list frames_chunk :=
  [{| fc_time := 5; fc_index := 0; fc_wires := [Protocol_header; Method 1 AMQP_CLASS_CHANNEL 10 [0]] |};
   {| fc_time := 9; fc_index := 0; fc_wires := [Heartbeat 0 []] |}].


(** ** Frames that are lost or misread *)

(** A parse that starts with a part of a frame drops its chunk: only a whole frame is found. *)
Lemma amqp_partial_frame_dropped {M : Malloc} mt n r pre l ext t ch payload Q fs p :
  at_pos r pre l -> l <> [] -> ext <> [] -> frame_bytes t ch payload = l ++ ext -> fits 16 ch -> len payload + 8 < 2 ^ 32 ->
  t = AMQP_FRAME_METHOD \/ t = AMQP_FRAME_BODY \/ t = AMQP_FRAME_HEARTBEAT ->
  parse_loop (S (S n)) mt Next (stream (r :: Q) fs p) = parse_loop n mt Next (stream Q fs p).
Proof.
  intros Hr Hl Hext Hf Hch Hs Ht. rewrite next_round, rebound_none; [done|].
  assert (t <> 65) as Ht' by (unfold AMQP_FRAME_METHOD, AMQP_FRAME_BODY, AMQP_FRAME_HEARTBEAT in Ht; lia).
  pose proof (f_equal len Hf) as Hlen. rewrite len_frame, len_app in Hlen.
  assert (0 < len ext) as Hpos by (destruct ext; [done|]; rewrite len_cons; pose proof (len_nonneg ext); lia).
  cbn [proto_find_frame_boundary amqp]. unfold amqp_find_frame_boundary. case_match; [done|].
  assert (exists l', l = t :: l') as [l' ->].
  { destruct l as [|b l']; [done|]. exists l'. by injection Hf as ->. }
  rewrite (not_header _ _ _ _ Hr Ht'), (at_pos_unconsumed _ _ _ Hr). cbn [mbind run_bind].
  destruct (7 <=? len (t :: l')) eqn:H7; [|done].
  pose proof (byte_at_here _ _ [] _ _ Hr) as Hb0. change (len []) with 0 in Hb0. rewrite Hb0. cbn [mbind run_bind].
  replace ((t =? AMQP_FRAME_METHOD) || (t =? AMQP_FRAME_HEADER) || (t =? AMQP_FRAME_BODY) || (t =? AMQP_FRAME_HEARTBEAT))
    with true by (destruct Ht as [E|[E|E]]; by rewrite E).
  assert (exists rest, t :: l' = (t :: be16 ch ++ be32 (len payload)) ++ rest) as [rest Hrest].
  { unfold frame_bytes in Hf. rewrite app_assoc in Hf. change (t :: (be16 ch ++ be32 (len payload)) ++ payload ++ [AMQP_FRAME_END])
      with ((t :: be16 ch ++ be32 (len payload)) ++ payload ++ [AMQP_FRAME_END]) in Hf.
    destruct (app_eq_app _ _ _ _ Hf) as [k [(Hk & _)|(Hk & _)]]; [|by exists k].
    pose proof (f_equal len Hk) as El. rewrite !len_app, !len_cons, !len_app in El. change (len (be16 ch)) with 2 in El.
    change (len (be32 _)) with 4 in El. destruct k as [|b k]; [exists []; by rewrite app_nil_r in *|].
    rewrite len_cons in El, H7. pose proof (len_nonneg k). lia. }
  rewrite Hrest in Hr. cbn [app] in Hr. rewrite <- app_assoc in Hr. pose proof (len_nonneg payload).
  pose proof (read_u32_here _ _ (t :: be16 ch) _ _ Hr ltac:(unfold fits; lia)) as H3. change (len (t :: be16 ch)) with 3 in H3.
  rewrite H3. cbn [mbind run_bind].
  rewrite wadd_small by (unfold fits; lia). by rewrite (proj2 (Z.leb_gt _ _)) by lia.
Qed.

(** Publishing to the default exchange hides the routing key: the exchange of
    such a message is the empty name, and whatever the routing key, the parser
    reads the empty name again and takes no key. *)
Theorem amqp_default_exchange_hides_key (M : Malloc) (mt : message_type_t) (r : raw_data_s) (pre suf : bytes) (ch : Z) (reserved key rest : bytes) :
  (forall n, malloc n = true) -> len reserved = 2 -> fits 16 ch -> len key + len rest + 16 < 2 ^ 32 ->
  at_pos r pre (frame_bytes AMQP_FRAME_METHOD ch
    (be16 AMQP_CLASS_BASIC ++ be16 METHOD_BASIC_PUBLISH ++ reserved ++ [0] ++ (len key :: key) ++ rest) ++ suf) ->
  exists r' m, proto_parse_frame mt r = Ret (r', STATE_SUCCESS, Some m) /\ class_id m = AMQP_CLASS_BASIC
    /\ raw_method_id m = METHOD_BASIC_PUBLISH /\ exchange m = None /\ routing_key m = None.
Proof.
  intros Hmalloc Hres Hch Hl H. set (payload := be16 _ ++ _) in H.
  assert (len payload = len key + len rest + 8) as Hlen.
  { unfold payload. rewrite !len_app, !len_cons. change (len (be16 AMQP_CLASS_BASIC)) with 2.
    change (len (be16 METHOD_BASIC_PUBLISH)) with 2. change (len []) with 0. lia. }
  pose proof (len_nonneg key). pose proof (len_nonneg rest). eexists _, _. split.
  - eapply (parse_frame_ok Hmalloc mt _ _ _ _ _ _ _ H); [done|lia|done|]. unfold parse_payload. cbn [frame_type update payload_size].
    change (AMQP_FRAME_METHOD =? AMQP_FRAME_METHOD) with true. cbn match. rewrite (proj2 (Z.ltb_ge _ _)) by lia.
    unfold frame_bytes in H. cbn [app] in H. set (l32 := be32 (len payload)) in H. unfold payload in H. rewrite <- !app_assoc in H.
    assert (amqp_read_u16_be r 7 = Ret AMQP_CLASS_BASIC) as ->.
    { apply (read_u16_here _ _ (AMQP_FRAME_METHOD :: be16 ch ++ l32) _ _ ltac:(cbn [app]; rewrite <- !app_assoc; exact H)). done. }
    assert (amqp_read_u16_be r 9 = Ret METHOD_BASIC_PUBLISH) as ->.
    { apply (read_u16_here _ _ (AMQP_FRAME_METHOD :: be16 ch ++ l32 ++ be16 AMQP_CLASS_BASIC) _ _ ltac:(cbn [app]; rewrite <- !app_assoc; exact H)). done. }
    assert (byte_at r 13 = Ret 0) as Hz.
    { pose proof (byte_at_off r pre (AMQP_FRAME_METHOD :: be16 ch ++ l32 ++ be16 AMQP_CLASS_BASIC ++ be16 METHOD_BASIC_PUBLISH) reserved 0) as Hb.
      rewrite Hres in Hb. eapply Hb. cbn [app]. rewrite <- !app_assoc. exact H. }
    cbn [mbind run_bind]. unfold parse_names, parse_exchange, parse_routing_key, read_short_str. cbn [class_id raw_method_id update].
    change (AMQP_CLASS_BASIC =? AMQP_CLASS_EXCHANGE) with false. change (AMQP_CLASS_BASIC =? AMQP_CLASS_QUEUE) with false.
    change ((AMQP_CLASS_BASIC =? AMQP_CLASS_BASIC) && (METHOD_BASIC_PUBLISH =? METHOD_BASIC_PUBLISH)) with true. cbn match.
    change (11 + (0 + 2)) with 13. rewrite Hz. cbn [mbind run_bind]. change (0 =? 0) with true. cbn match. cbn [mbind run_bind].
    change (11 + 1 + 1) with 13. rewrite Hz. cbn [mbind run_bind]. change (0 =? 0) with true. cbn match. reflexivity.
  - done.
Qed.

(** ** Matching *)

Definition present (l : list (option amqp_message_s)) : list amqp_message_s := omap (fun o => o) l.

Lemma take_answer_some req resps a resps' : take_answer req resps = Some (a, resps') ->
  answers req a = true /\ present resps ≡ₚ a :: present resps' /\ length resps' = length resps.
Proof.
  revert resps'. induction resps as [|[resp|] resps IH]; intros resps' H; cbn [take_answer] in H; [done|..].
  - destruct (answers req resp) eqn:Ha; [by simplify_eq|].
    destruct (take_answer req resps) as [[a' rs]|]; [|done]. cbn in H. simplify_eq. destruct (IH _ eq_refl) as (? & Hp & ?).
    split; [done|]. split; [|cbn; lia]. cbn. change (omap _ resps) with (present resps). rewrite Hp. constructor.
  - destruct (take_answer req resps) as [[a' rs]|]; [|done]. cbn in H. simplify_eq. destruct (IH _ eq_refl) as (? & Hp & ?).
    split; [done|]. split; [done|]. cbn. lia.
Qed.

Lemma take_answer_none req resps : take_answer req resps = None -> Forall (fun resp => answers req resp = false) (present resps).
Proof.
  induction resps as [|[resp|] resps IH]; intros H; cbn [take_answer] in H; [constructor|..].
  - destruct (answers req resp) eqn:Ha; [done|]. destruct (take_answer req resps) as [[a' rs]|]; [done|].
    constructor; [done|]. by apply IH.
  - destruct (take_answer req resps) as [[a' rs]|]; [done|]. by apply IH.
Qed.

(** The call of AMQP 0-9-1: on one channel a method that has an answer, and its answer *)
Definition call (req resp : amqp_message_s) : Prop :=
  frame_type req = AMQP_FRAME_METHOD /\ frame_type resp = AMQP_FRAME_METHOD /\ channel_id resp = channel_id req
  /\ class_id resp = class_id req /\ raw_method_id resp = raw_method_id req + 1
  /\ ((class_id req = AMQP_CLASS_CONNECTION /\ raw_method_id req ∈ [10; 20; 30; 40; 50])
      \/ (class_id req = AMQP_CLASS_CHANNEL /\ raw_method_id req ∈ [10; 20; 40])).

Lemma existsb_answer ms req resp :
  existsb (fun m => (req =? m) && (resp =? m + 1)) ms = true <-> req ∈ ms /\ resp = req + 1.
Proof.
  rewrite existsb_exists. setoid_rewrite <- list_elem_of_In. split.
  - intros (m & Hm & E). assert (req = m /\ resp = m + 1) as [-> ->] by lia. done.
  - intros [Hm ->]. exists req. split; [done|]. lia.
Qed.

Lemma answers_call req resp : frame_type req = AMQP_FRAME_METHOD -> answers req resp = true <-> call req resp.
Proof.
  intros Hreq. unfold answers, call. rewrite !andb_true_iff, !Z.eqb_eq.
  destruct ((class_id req =? AMQP_CLASS_CONNECTION) && (class_id resp =? AMQP_CLASS_CONNECTION)) eqn:E1.
  - rewrite existsb_answer. apply andb_true_iff in E1 as [->%Z.eqb_eq ->%Z.eqb_eq]. naive_solver.
  - destruct ((class_id req =? AMQP_CLASS_CHANNEL) && (class_id resp =? AMQP_CLASS_CHANNEL)) eqn:E2.
    + rewrite existsb_answer. apply andb_true_iff in E2 as [->%Z.eqb_eq ->%Z.eqb_eq]. naive_solver.
    + split; [naive_solver|]. intros (_ & _ & _ & Hc & _ & [[Hk _]|[Hk _]]); rewrite Hk in Hc; rewrite Hk, Hc in *; done.
Qed.

(** What a run adds and leaves: the calls with the time they took, nothing lost
    or doubled, and no answer left for a request that is left *)
Definition matching (reqs resps reqs' resps' : list (option amqp_message_s)) (new : list amqp_record_s) : Prop :=
  present reqs ≡ₚ present reqs' ++ map req_msg new /\ present resps ≡ₚ present resps' ++ map resp_msg new
  /\ Forall (fun x => call (req_msg x) (resp_msg x)
       /\ latency x = wsub 64 (amqp_timestamp_ns (resp_msg x)) (amqp_timestamp_ns (req_msg x))) new
  /\ Forall (fun req => is_protocol_header req = false -> Forall (fun resp => ~ call req resp) (present resps')) (present reqs')
  /\ length reqs' = length reqs /\ length resps' = length resps.

Lemma match_requests_ok `{Malloc} reqs resps recs :
  (forall n, malloc n = true) -> Z.of_nat (length recs + length reqs) <= RECORD_BUF_SIZE ->
  exists reqs' resps' new, match_requests reqs resps recs = (reqs', resps', recs ++ new) /\ matching reqs resps reqs' resps' new.
Proof.
  intros Hmalloc. revert resps recs. induction reqs as [|o reqs IH]; intros resps recs Hcap.
  - exists [], resps, []. rewrite app_nil_r. split; [done|]. unfold matching. cbn [map]. rewrite !app_nil_r.
    repeat split; try done; constructor.
  - cbn [length] in Hcap. cbn [match_requests].
    destruct (req ← o; if may_match req then '(a, resps') ← take_answer req resps; Some (req, a, resps') else None)
      as [[[req a] resps1]|] eqn:E.
    + destruct o as [req'|]; [|done]. cbn in E. destruct (may_match req') eqn:Hm; [|done].
      destruct (take_answer req' resps) as [[a' rs]|] eqn:Ht; [|done]. cbn in E. simplify_eq.
      destruct (take_answer_some _ _ _ _ Ht) as (Ha & Hp & Hlr).
      unfold add_match_record. rewrite !Hmalloc. cbn [andb]. rewrite (proj2 (Z.ltb_lt _ _)) by lia.
      set (x := {| req_msg := req; resp_msg := a; latency := _ |}).
      destruct (IH resps1 (recs ++ [x])) as (reqs' & resps' & new & -> & Hq & Hr & Hnew & Hc & Hl1 & Hl2); [rewrite length_app; cbn; lia|].
      exists (None :: reqs'), resps', (x :: new). rewrite <- app_assoc. split; [done|]. split.
      { cbn. change (omap _ reqs) with (present reqs). change (omap _ reqs') with (present reqs').
        rewrite Hq. apply Permutation_middle. }
      split; [rewrite Hp, Hr; apply Permutation_middle|]. split.
      { constructor; [|done]. split; [|done]. apply answers_call; [|done]. unfold may_match in Hm. cbn. lia. }
      split; [done|]. cbn. lia.
    + destruct (IH resps recs) as (reqs' & resps' & new & -> & Hq & Hr & Hnew & Hc & Hl1 & Hl2); [lia|].
      exists (o :: reqs'), resps', new. split; [done|]. destruct o as [req|]; [|by repeat split; try done; cbn; lia].
      split; [cbn; change (omap _ reqs) with (present reqs); rewrite Hq; done|]. split; [done|]. split; [done|].
      split; [|cbn; lia]. cbn. constructor; [|done]. intros Hh. cbn in E. unfold may_match in E. rewrite Hh in E. cbn [negb andb] in E.
      apply Forall_forall. intros resp Hresp Hcall. pose proof Hcall as [Hft _]. rewrite Hft in E. cbn in E.
      destruct (take_answer req resps) as [[??]|] eqn:Ht; [done|]. apply take_answer_none in Ht.
      rewrite Hr, Forall_app in Ht. destruct Ht as [Ht _]. pose proof (proj1 (Forall_forall _ _) Ht resp Hresp) as Hn.
      apply answers_call in Hcall; [|done]. congruence.
Qed.

(** C34: The AMQP matcher pairs connection and channel methods with their answers.
    With room for the records and memory, one run over the frames from the
    positions on adds a record only for a [call], a method and its answer on one
    channel, with the time between them as latency.  Each frame is in one record at most, and a frame in no record
    stays; of the frames that stay, no two are a call.  The frames before
    the positions are not touched, and the positions move to the ends. *)
Theorem amqp_matching_complete (M : Malloc) (req_frames resp_frames : amqp_frame_buf) (recs : list amqp_record_s) :
  (forall n, malloc n = true) -> Z.of_nat (length recs + length (fb_frames req_frames)) <= RECORD_BUF_SIZE ->
  (fb_pos req_frames <= length (fb_frames req_frames))%nat -> (fb_pos resp_frames <= length (fb_frames resp_frames))%nat ->
  let '(req_frames', resp_frames', recs') := amqp_match_frames req_frames resp_frames recs in
  exists reqs resps new,
    fb_frames req_frames' = take (fb_pos req_frames) (fb_frames req_frames) ++ reqs
    /\ fb_frames resp_frames' = take (fb_pos resp_frames) (fb_frames resp_frames) ++ resps
    /\ recs' = recs ++ new
    /\ matching (drop (fb_pos req_frames) (fb_frames req_frames)) (drop (fb_pos resp_frames) (fb_frames resp_frames)) reqs resps new
    /\ fb_pos req_frames' = length (fb_frames req_frames') /\ fb_pos resp_frames' = length (fb_frames resp_frames').
Proof.
  intros Hmalloc Hcap Hq Hr. unfold amqp_match_frames.
  destruct (match_requests_ok (drop (fb_pos req_frames) (fb_frames req_frames)) (drop (fb_pos resp_frames) (fb_frames resp_frames)) recs
    Hmalloc) as (reqs & resps & new & -> & Hm); [rewrite length_drop; lia|].
  exists reqs, resps, new. cbn [fb_frames fb_pos]. destruct Hm as (? & ? & ? & ? & Hl1 & Hl2).
  rewrite !length_app, Hl1, Hl2, !length_take, !length_drop. repeat split; try done; lia.
Qed.

(** Two opened channels, one of them answered *)
Definition ex_open (ch : Z) : amqp_message_s := wire_message 5 (Method ch AMQP_CLASS_CHANNEL 10 [0]).
Definition ex_open_ok (ch : Z) : amqp_message_s := wire_message 9 (Method ch AMQP_CLASS_CHANNEL 11 []).

Lemma amqp_matching_complete_witness :
  amqp_match_frames (H := plenty) {| fb_frames := [Some (ex_open 1); Some (ex_open 2)]; fb_pos := 0 |}
    {| fb_frames := [Some (ex_open_ok 2)]; fb_pos := 0 |} []
  = ({| fb_frames := [Some (ex_open 1); None]; fb_pos := 2 |}, {| fb_frames := [None]; fb_pos := 1 |},
     [{| req_msg := ex_open 2; resp_msg := ex_open_ok 2; latency := 4 |}])
  /\ exists reqs resps new,
    [Some (ex_open 1); None] = [] ++ reqs /\ [None] = [] ++ resps
    /\ [{| req_msg := ex_open 2; resp_msg := ex_open_ok 2; latency := 4 |}] = [] ++ new
    /\ matching [Some (ex_open 1); Some (ex_open 2)] [Some (ex_open_ok 2)] reqs resps new
    /\ 2%nat = 2%nat /\ 1%nat = 1%nat.
Proof.
  split; [by vm_compute|].
  exact (amqp_matching_complete plenty {| fb_frames := [Some (ex_open 1); Some (ex_open 2)]; fb_pos := 0 |}
    {| fb_frames := [Some (ex_open_ok 2)]; fb_pos := 0 |} [] (fun _ => eq_refl) ltac:(by vm_compute) ltac:(cbn; lia) ltac:(cbn; lia)).
Defined.

(** The 7 bytes of a frame with the size 2^32 - 8 make the parser read 4 GiB
    behind them. *)
Lemma amqp_size_out_of_bounds {M : Malloc} mt n r pre ch suf Q fs p :
  at_pos r pre (AMQP_FRAME_METHOD :: be16 ch ++ be32 (2 ^ 32 - 8) ++ suf) -> len suf < 2 ^ 31 ->
  parse_loop (S (S n)) mt Next (stream (r :: Q) fs p) = Panic.
Proof.
  intros H Hl. rewrite next_round. cbn [parse_loop raw_datas proto_find_frame_boundary amqp]. unfold amqp_find_frame_boundary.
  pose proof (at_pos_data_len _ _ _ H) as Hd. pose proof (at_pos_unconsumed _ _ _ H) as Hu. rewrite len_cons, !len_app in Hu, Hd.
  change (len (be16 ch)) with 2 in *. change (len (be32 _)) with 4 in *. pose proof (len_nonneg suf).
  assert (current_pos r = len pre) as Hp by apply H. rewrite (proj2 (Z.leb_gt _ _)) by lia.
  rewrite (not_header _ _ _ _ H) by done. cbn [mbind run_bind]. rewrite (proj2 (Z.leb_le _ _)) by lia.
  pose proof (byte_at_here _ _ [] _ _ H) as H1. change (len []) with 0 in H1. rewrite H1. cbn [mbind run_bind].
  change (_ || _) with true. cbn match.
  pose proof (read_u32_here _ _ (AMQP_FRAME_METHOD :: be16 ch) _ _ H ltac:(done)) as H3.
  change (len (AMQP_FRAME_METHOD :: be16 ch)) with 3 in H3. rewrite H3. cbn [mbind run_bind].
  change (wadd 32 8 (2 ^ 32 - 8)) with 0. change (wadd 32 7 (2 ^ 32 - 8)) with (2 ^ 32 - 1). rewrite (proj2 (Z.leb_le _ _)) by lia.
  unfold byte_at, index. pose proof (len_nonneg pre). rewrite (proj2 (Z.leb_le _ _)) by lia.
  by rewrite lookup_ge_None_2 by (unfold data_len, len in *; lia).
Qed.
