(* ===== verification/ProbeRedis.v ===== *)
(** * Matching of Redis messages in the L7 probe (l7probe/protocol/redis/redis_matcher.c)

    Requests and responses of a connection are taken in the order of their
    times: a response is matched with the last request before it.  Pushed
    messages and replication commands get a made-up other side.  The messages
    themselves come from the Redis parser, which is not modelled. *)

From Stdlib Require Import Ascii.
From S2P Require Import Prelude Bytes ProbeData.

Record redis_msg_s := {
  is_fake_msg : bool;
  redis_timestamp_ns : Z;
  command : option bytes;
  is_pub_msg : bool;
  single_reply_msg_count : Z;
  single_reply_error_msg_count : Z;
}.

#[export] Instance redis_msg_fields : Fields redis_msg_s := fun x =>
  Build_redis_msg_s (is_fake_msg x) (redis_timestamp_ns x) (command x) (is_pub_msg x) (single_reply_msg_count x)
    (single_reply_error_msg_count x).

(** [init_redis_msg]: all zero *)
Definition init_redis_msg : redis_msg_s :=
  {| is_fake_msg := false; redis_timestamp_ns := 0; command := None; is_pub_msg := false;
     single_reply_msg_count := 0; single_reply_error_msg_count := 0 |}.

(** A record with both sides, as it goes to the buffer *)
Record redis_record_s := { redis_req : redis_msg_s; redis_resp : redis_msg_s; role_swapped : bool; redis_latency : Z }.

Record redis_record_buf := {
  redis_records : list redis_record_s;
  err_count : Z;
  msg_total_count : Z;
  req_count : Z;
  resp_count : Z;
}.

#[export] Instance redis_record_buf_fields : Fields redis_record_buf := fun x =>
  Build_redis_record_buf (redis_records x) (err_count x) (msg_total_count x) (req_count x) (resp_count x).

Definition RECORD_BUF_SIZE : Z := 1024.
Definition UINT64_MAX : Z := 2 ^ 64 - 1.
Definition sizeof_redis_record_s : Z := 24.
Definition sizeof_redis_msg_s : Z := 56.
Definition sizeof_record_data_s : Z := 16.

(** "REPLCONF ACK" *)
Definition REPLCONF_ACK : bytes := [82; 69; 80; 76; 67; 79; 78; 70; 32; 65; 67; 75].
(** "PUSH PUB" *)
Definition PUSH_PUB_CMD : bytes := [80; 85; 83; 72; 32; 80; 85; 66].

Section matcher.
Context {M : Malloc}.

Definition made_up : bool := malloc sizeof_redis_record_s && malloc sizeof_redis_msg_s.

(** The two sides and [role_swapped] *)
Abbreviation sides := (redis_msg_s * redis_msg_s * bool)%type.

Definition handle_pub_resp_msg (resp : redis_msg_s) : option sides :=
  if made_up then
    Some (init_redis_msg <| redis_timestamp_ns := redis_timestamp_ns resp |> <| command := Some PUSH_PUB_CMD |>
            <| is_fake_msg := true |>, resp, false)
  else None.

Definition fake_reply (m : redis_msg_s) : redis_msg_s :=
  init_redis_msg <| redis_timestamp_ns := redis_timestamp_ns m |> <| single_reply_msg_count := 1 |> <| is_fake_msg := true |>.

Definition handle_follower_to_leader_ack_msg (req : redis_msg_s) : option sides :=
  if made_up then Some (req, fake_reply req, false) else None.

Definition handle_leader_to_follower_msg (resp : redis_msg_s) : option sides :=
  if made_up then Some (resp, fake_reply resp, true) else None.

(** The buffer has room for [RECORD_BUF_SIZE] records; its size is not checked. *)
Definition add_redis_record_to_buf (rb : redis_record_buf) (o : option sides) : run redis_record_buf :=
  match o with
  | None => Ret rb
  | Some (req, resp, swapped) =>
      if malloc sizeof_record_data_s then
        if Z.of_nat (length (redis_records rb)) <? RECORD_BUF_SIZE then
          Ret (rb <| redis_records := redis_records rb ++
                      [{| redis_req := req; redis_resp := resp; role_swapped := swapped;
                          redis_latency := wsub 64 (redis_timestamp_ns resp) (redis_timestamp_ns req) |}] |>
                  <| err_count := wadd 64 (err_count rb) (single_reply_error_msg_count resp) |>
                  <| msg_total_count := wadd 64 (msg_total_count rb) (single_reply_msg_count resp) |>)
        else Panic
      else Ret rb
  end.

(** The message at the position; past the end, one that is later than all *)
Definition placeholder_msg : redis_msg_s := init_redis_msg <| redis_timestamp_ns := UINT64_MAX |>.
Definition get_redis_msg (ms : list redis_msg_s) : redis_msg_s :=
  match ms with m :: _ => m | [] => placeholder_msg end.

Definition not_empty (ms : list redis_msg_s) : bool := match ms with [] => false | _ => true end.

Definition is_replconf_ack (m : redis_msg_s) : bool :=
  match command m with Some c => bool_decide (c = REPLCONF_ACK) | None => false end.

Definition has_command (m : redis_msg_s) : bool :=
  match command m with Some c => negb (len c =? 0) | None => false end.

(** The loop of [match_frames_with_timestamp_order] on the messages from the
    positions on: the ones left, the last request without a response, and the
    buffer.  Every round passes one message.  A request as late as the
    placeholder would take the placeholder for its response and pass the end of
    the responses. *)
Fixpoint match_loop (fuel : nat) (reqs resps : list redis_msg_s) (record : option redis_msg_s) (rb : redis_record_buf) :
    run (list redis_msg_s * list redis_msg_s * redis_record_buf) :=
  match fuel with
  | O => Panic
  | S fuel =>
      if negb (not_empty reqs || not_empty resps) then Ret (reqs, resps, rb)
      else
        let req := get_redis_msg reqs in
        let resp := get_redis_msg resps in
        if not_empty resps && is_pub_msg resp then
          rb ← add_redis_record_to_buf rb (handle_pub_resp_msg resp);
          match_loop fuel reqs (tail resps) record rb
        else if not_empty reqs && is_replconf_ack req
                && (negb (not_empty resps) || (redis_timestamp_ns req <? redis_timestamp_ns resp)) then
          rb ← add_redis_record_to_buf rb (handle_follower_to_leader_ack_msg req);
          match_loop fuel (tail reqs) resps record rb
        else if not_empty resps && has_command resp then
          rb ← add_redis_record_to_buf rb (handle_leader_to_follower_msg resp);
          match_loop fuel reqs (tail resps) record rb
        else if redis_timestamp_ns req <? redis_timestamp_ns resp then match_loop fuel (tail reqs) resps (Some req) rb
        else if negb (not_empty resps) then Panic
        else
          match record with
          | Some q =>
              if negb (redis_timestamp_ns q =? 0) then
                rb ← add_redis_record_to_buf rb (Some (q, resp, false));
                if malloc sizeof_redis_record_s then match_loop fuel reqs (tail resps) None rb else Ret (reqs, resps, rb)
              else match_loop fuel reqs (tail resps) record rb
          | None => match_loop fuel reqs (tail resps) record rb
          end
  end.

(** The positions count the messages passed. *)
Definition redis_match_frames (reqs resps : list redis_msg_s) (req_pos resp_pos : nat) (rb : redis_record_buf) :
    run (nat * nat * redis_record_buf) :=
  if malloc sizeof_redis_record_s then
    '(reqs', resps', rb) ← match_loop (S (length reqs + length resps)) (drop req_pos reqs) (drop resp_pos resps) None rb;
    let req_pos := (length reqs - length reqs')%nat in
    let resp_pos := (length resps - length resps')%nat in
    Ret (req_pos, resp_pos, rb <| req_count := Z.of_nat req_pos |> <| resp_count := Z.of_nat resp_pos |>)
  else Ret (req_pos, resp_pos, rb).

End matcher.

(** ** Requests with their responses *)

(** A message that is no push, and has no command of its own *)
Definition plain_reply (m : redis_msg_s) : Prop := is_pub_msg m = false /\ has_command m = false.

(** Each request is answered before the next one: the times from [t] on go up,
    except that a response may have the time of the next request. *)
Fixpoint alternating (t : Z) (calls : list (redis_msg_s * redis_msg_s)) : Prop :=
  match calls with
  | [] => True
  | (q, r) :: calls =>
      t <= redis_timestamp_ns q < redis_timestamp_ns r /\ redis_timestamp_ns r < UINT64_MAX
      /\ is_replconf_ack q = false /\ plain_reply r /\ alternating (redis_timestamp_ns r) calls
  end.

Definition call_record (c : redis_msg_s * redis_msg_s) : redis_record_s :=
  {| redis_req := c.1; redis_resp := c.2; role_swapped := false;
     redis_latency := redis_timestamp_ns c.2 - redis_timestamp_ns c.1 |}.

Lemma alternating_next t calls : alternating t calls -> t < UINT64_MAX -> t <= redis_timestamp_ns (get_redis_msg (map fst calls)).
Proof. destruct calls as [|[q r] calls]; cbn; lia. Qed.

Lemma alternating_ack t calls : alternating t calls -> is_replconf_ack (get_redis_msg (map fst calls)) = false.
Proof. destruct calls as [|[q r] calls]; cbn; [done|]. by intros (_ & _ & ? & _). Qed.

Lemma match_loop_alternating {M : Malloc} t calls fuel rb : (forall n, malloc n = true) -> 0 < t -> alternating t calls ->
  Z.of_nat (length (redis_records rb) + length calls) <= RECORD_BUF_SIZE -> (2 * length calls < fuel)%nat ->
  exists rb', match_loop fuel (map fst calls) (map snd calls) None rb = Ret ([], [], rb')
    /\ redis_records rb' = redis_records rb ++ map call_record calls.
Proof.
  intros Hmalloc. revert t fuel rb. induction calls as [|[q r] calls IH]; intros t fuel rb Ht Halt Hcap Hfuel.
  - destruct fuel; [lia|]. exists rb. by rewrite app_nil_r.
  - cbn [alternating length] in *. destruct Halt as (Hqr & Hr & Hq & [Hpub Hcmd] & Halt).
    destruct fuel as [|[|fuel]]; [lia..|]. cbn [map fst snd]. cbn [match_loop not_empty negb orb andb get_redis_msg].
    rewrite Hpub, Hq, Hcmd. cbn [andb]. rewrite (proj2 (Z.ltb_lt _ _)) by lia. cbn [tail].
    rewrite orb_true_r. cbn [negb]. rewrite (alternating_ack _ _ Halt), andb_false_r. cbn [andb].
    pose proof (alternating_next _ _ Halt Hr) as Hnext. rewrite (proj2 (Z.ltb_ge _ _)) by lia.
    rewrite (proj2 (Z.eqb_neq _ _)) by lia. cbn [negb]. unfold add_redis_record_to_buf. rewrite !Hmalloc.
    rewrite (proj2 (Z.ltb_lt _ _)) by lia. cbn [mbind run_bind].
    edestruct (IH (redis_timestamp_ns r) fuel) as (rb' & Hl & Hrb); [lia|done| |lia|].
    2: { exists rb'. split; [exact Hl|]. rewrite Hrb. cbn [redis_records update map]. rewrite <- app_assoc.
         unfold call_record at 2. cbn [fst snd]. rewrite wsub_small; [done|]. unfold fits, UINT64_MAX in *. lia. }
    cbn [redis_records update]. rewrite length_app. cbn. lia.
Qed.


(** Two calls *)
Definition ex_redis (ts : Z) : redis_msg_s := init_redis_msg <| redis_timestamp_ns := ts |>.
Definition ex_calls : list (redis_msg_s * redis_msg_s) := [(ex_redis 5, ex_redis 9); (ex_redis 12, ex_redis 20)].
Definition ex_buf : redis_record_buf :=
  {| redis_records := []; err_count := 0; msg_total_count := 0; req_count := 0; resp_count := 0 |}.


(** Of two requests sent before the first response, the first is forgotten, and the
    response is taken for the second one's. *)
Lemma redis_pipelined_calls :
  redis_match_frames (M := plenty) [ex_redis 5; ex_redis 6] [ex_redis 9; ex_redis 10] 0 0 ex_buf
  = Ret (2%nat, 2%nat, ex_buf <| redis_records := [call_record (ex_redis 6, ex_redis 9)] |> <| req_count := 2 |> <| resp_count := 2 |>).
Proof. by vm_compute. Qed.

(** The record after the last one is written behind the buffer. *)
Lemma redis_records_overflow {M : Malloc} rb sides : (forall n, malloc n = true) ->
  RECORD_BUF_SIZE <= Z.of_nat (length (redis_records rb)) -> add_redis_record_to_buf rb (Some sides) = Panic.
Proof.
  intros Hmalloc H. destruct sides as [[req resp] swapped]. unfold add_redis_record_to_buf. rewrite Hmalloc.
  by rewrite (proj2 (Z.ltb_ge _ _)) by lia.
Qed.
