(* ===== verification/ProbeDecode.v ===== *)
(** * The decoders of the L7 probe stay in their buffers

    Every decoder, from a position in the buffer, reads only the buffer, keeps its
    bytes and leaves a position in it; only the search for a string can read
    behind the buffer.  The varints are decoded to what was encoded. *)

From S2P Require Import Prelude Bytes ProbeData.

(** ** Positions *)

Definition in_buffer (r : raw_data_s) : Prop := 0 <= current_pos r <= data_len r /\ data_len r < 2 ^ 64.

(** [r'] is [r] with a later position in the buffer. *)
Definition moved (r r' : raw_data_s) : Prop :=
  exists n, r' = advance r n /\ 0 <= n /\ current_pos r + n <= data_len r.

Lemma in_buffer_at r : in_buffer r -> at_pos r (take (Z.to_nat (current_pos r)) (data r)) (drop (Z.to_nat (current_pos r)) (data r)).
Proof.
  intros [Hp Hl]. unfold at_pos. rewrite take_drop. repeat split; [|done].
  unfold len, data_len in *. rewrite length_take. unfold len in Hp. lia.
Qed.

Lemma unconsumed_in r : in_buffer r -> unconsumed r = data_len r - current_pos r.
Proof. intros [Hp Hl]. unfold unconsumed. rewrite wsub_small; [done|]. unfold fits. lia. Qed.

Lemma offset_in r n : in_buffer r -> 0 <= n <= data_len r - current_pos r -> parser_raw_data_offset r n = advance r n.
Proof.
  intros Hr Hn. unfold parser_raw_data_offset. rewrite unconsumed_in by done. rewrite (proj2 (Z.ltb_ge _ _)) by lia.
  destruct Hr. unfold advance. rewrite wadd_small; [done|]. unfold fits. lia.
Qed.

Lemma offset_moved r n : in_buffer r -> 0 <= n -> moved r (parser_raw_data_offset r n).
Proof.
  intros Hr Hn. unfold parser_raw_data_offset. rewrite unconsumed_in by done.
  set (k := if _ <? n then _ else n). assert (0 <= k <= data_len r - current_pos r) as Hk.
  { unfold k. destruct Hr. case_match; lia. }
  exists k. split; [|lia]. destruct Hr. unfold advance. rewrite wadd_small; [done|]. unfold fits. lia.
Qed.

Lemma moved_none r : in_buffer r -> moved r r.
Proof. intros [Hp _]. exists 0. rewrite advance_0. split; [done|lia]. Qed.

Lemma moved_twice r r1 r2 : moved r r1 -> moved r1 r2 -> moved r r2.
Proof.
  intros (n & -> & Hn & Hl) (m & -> & Hm & Hl'). exists (n + m). rewrite advance_advance. cbn in *.
  change (data_len (advance r n)) with (data_len r) in Hl'. split; [done|lia].
Qed.

Lemma moved_in_buffer r r' : in_buffer r -> moved r r' -> in_buffer r'.
Proof. intros [Hp Hl] (n & -> & Hn & Hm). unfold in_buffer. change (data_len (advance r n)) with (data_len r). cbn. lia. Qed.

Lemma read_in r n : in_buffer r -> 0 <= n <= data_len r - current_pos r -> returns (read_bytes r (current_pos r) n).
Proof. intros [Hp _] Hn. unfold read_bytes. rewrite (proj2 (andb_true_iff _ _)) by lia. by eexists. Qed.

(** A decoder that returns, and only moves the position *)
Definition safe {A} (d : raw_data_s -> decoded A) : Prop :=
  forall r, in_buffer r -> wp (d r) (fun '(r', _) => moved r r').

Lemma safe_char : safe decoder_extract_char.
Proof.
  intros r Hr. unfold decoder_extract_char. rewrite unconsumed_in by done. case_match; [by apply moved_none|].
  destruct (index_ret (data r) (current_pos r)) as (b & -> & _); [destruct Hr; unfold data_len in *; lia|].
  cbn. by apply offset_moved.
Qed.

Lemma safe_char_array n : 0 <= n -> safe (fun r => decoder_extract_char_array r n).
Proof.
  intros Hn r Hr. unfold decoder_extract_char_array. rewrite unconsumed_in by done. case_match; [by apply moved_none|].
  destruct (read_in r n Hr) as [bs ->]; [lia|]. cbn. by apply offset_moved.
Qed.

Lemma safe_bool : safe decoder_extract_bool.
Proof.
  intros r Hr. unfold decoder_extract_bool. apply wp_bind. eapply wp_mono; [by apply safe_char|]. by intros [r' res] Hm.
Qed.

Lemma safe_uint w : 0 <= w -> safe (decoder_extract_uint w).
Proof.
  intros Hw r Hr. unfold decoder_extract_uint. rewrite unconsumed_in by done. case_match; [by apply moved_none|].
  assert (0 <= w / 8) by (apply Z.div_pos; lia). destruct (read_in r (w / 8) Hr) as [bs ->]; [lia|]. cbn. by apply offset_moved.
Qed.

Lemma safe_int w : 0 <= w -> safe (decoder_extract_int w).
Proof.
  intros Hw r Hr. unfold decoder_extract_int. apply wp_bind. eapply wp_mono; [by apply safe_uint|]. by intros [r' res] Hm.
Qed.

Lemma safe_prefix_ignore n : 0 <= n -> safe (fun r => decoder_extract_prefix_ignore r n).
Proof. intros Hn r Hr. unfold decoder_extract_prefix_ignore. case_match; [by apply moved_none|]. by apply offset_moved. Qed.

Section strings.
Context {M : Malloc}.

Lemma prefix_string_moved r n k : in_buffer r -> 0 <= n <= data_len r - current_pos r -> 0 <= k ->
  wp (extract_prefix_bytes_string r n k) (fun '(r', _) => moved r r').
Proof.
  intros Hr Hn Hk. unfold extract_prefix_bytes_string. case_match; [|by apply moved_none].
  destruct (read_in r n Hr Hn) as [bs ->]. cbn. by apply offset_moved.
Qed.

Lemma safe_raw_data n : 0 <= n -> safe (fun r => decoder_extract_raw_data_with_len r n).
Proof.
  intros Hn r Hr. unfold decoder_extract_raw_data_with_len. rewrite unconsumed_in by done. case_match; [by apply moved_none|].
  case_match; [|by apply moved_none]. destruct (read_in r n Hr) as [bs ->]; [lia|]. cbn. by apply offset_moved.
Qed.

Lemma safe_string n : 0 <= n -> safe (fun r => decoder_extract_string r n).
Proof.
  intros Hn r Hr. unfold decoder_extract_string. rewrite unconsumed_in by done. case_match; [by apply moved_none|].
  apply wp_bind. eapply wp_mono; [apply prefix_string_moved; [done|lia|done]|]. by intros [r' o] Hm.
Qed.

Lemma find_char_bounds c bs i j : find_char c bs i = Some j -> i <= j < i + len bs.
Proof.
  revert i. induction bs as [|b bs IH]; intros i H; cbn in H; [done|]. rewrite len_cons. case_match.
  - simplify_eq. pose proof (len_nonneg bs). lia.
  - apply IH in H. lia.
Qed.

Lemma safe_until_char c : safe (fun r => decoder_extract_str_until_char r c).
Proof.
  intros r Hr. unfold decoder_extract_str_until_char. destruct (find_char _ _ _) as [j|] eqn:E; [|by apply moved_none].
  apply find_char_bounds in E. rewrite len_drop in E by (destruct Hr; unfold data_len in *; lia).
  destruct Hr as [Hp Hl]. unfold data_len in *. rewrite wsub_small, wadd_small by (unfold fits; lia).
  apply wp_bind. eapply wp_mono; [apply prefix_string_moved; [done|unfold data_len; lia|lia]|]. by intros [r' o] Hm.
Qed.

Lemma varint_loop_moved fuel r i value : in_buffer r -> 0 <= i <= 42 -> 42 <= i + 7 * Z.of_nat fuel -> (0 < fuel)%nat ->
  wp (varint_loop fuel r 35 i value) (fun '(r', _) => moved r r').
Proof.
  revert r i value. induction fuel as [|fuel IH]; intros r i value Hr Hi Hf Hpos; [lia|]. cbn [varint_loop].
  case_match; [by apply moved_none|]. apply wp_bind. eapply wp_mono; [by apply safe_char|]. intros [r1 res] Hm. cbn beta iota in Hm.
  assert (in_buffer r1) as Hr1 by (by eapply moved_in_buffer). rewrite (wadd_small 8) by (unfold fits; lia).
  assert (forall v, wp (varint_loop fuel r1 35 (i + 7) v) (fun '(r', _) => moved r r')) as Hgo.
  { intros v. eapply wp_mono; [apply IH; [done|lia..]|]. intros [r2 res2] Hm2. by eapply moved_twice. }
  destruct res as [c|]; [|apply Hgo]. case_match; [done|apply Hgo].
Qed.

Lemma safe_unsigned_int : safe decode_unsigned_int.
Proof.
  intros r Hr. unfold decode_unsigned_int, decode_unsigned_int_core. apply wp_bind.
  eapply wp_mono; [apply varint_loop_moved; [done|lia..]|]. by intros [r' res] Hm.
Qed.

Lemma safe_string_int16 : safe decode_string_int16.
Proof.
  intros r Hr. unfold decode_string_int16. apply wp_bind. eapply wp_mono; [by apply safe_int|]. intros [r1 res] Hm.
  destruct res as [n|]; [|done]. eapply wp_mono; [apply safe_string; [apply wrap_fits; lia|by eapply moved_in_buffer]|].
  intros [r2 res2] Hm2. by eapply moved_twice.
Qed.

(** ** The search for a string *)

(** [needle] is at [i] behind the position. *)
Definition occurs (r : raw_data_s) (needle : bytes) (i : Z) : Prop :=
  take (length needle) (drop (Z.to_nat (current_pos r + i)) (data r)) = needle.

Lemma memmem_loop_first fuel r needle last i : in_buffer r -> 0 <= i -> current_pos r + last + len needle <= data_len r ->
  last < i + Z.of_nat fuel - 1 -> (0 < fuel)%nat ->
  wp (memmem_loop fuel r (current_pos r) last needle i) (fun o =>
    match o with
    | Some j => i <= j <= last /\ occurs r needle j /\ forall k, i <= k < j -> ~ occurs r needle k
    | None => forall k, i <= k <= last -> ~ occurs r needle k
    end).
Proof.
  intros [Hp Hlt] Hi Hl. revert i Hi. induction fuel as [|fuel IH]; intros i Hi Hf Hpos; [lia|]. cbn [memmem_loop].
  case_match; [cbn; lia|]. unfold read_bytes. pose proof (len_nonneg needle). rewrite (proj2 (andb_true_iff _ _)) by lia.
  cbn [mbind run_bind]. replace (Z.to_nat (len needle)) with (length needle) by (unfold len; lia). case_match.
  - cbn. split; [lia|]. split; [done|]. lia.
  - eapply wp_mono; [apply IH; lia|]. intros [j|].
    + intros (Hj & Ho & Hn). split; [lia|]. split; [done|]. intros k Hk. destruct (decide (k = i)) as [->|]; [done|]. apply Hn. lia.
    + intros Hn k Hk. destruct (decide (k = i)) as [->|]; [done|]. apply Hn. lia.
Qed.

Lemma memmem_first r needle : in_buffer r -> needle <> [] -> len needle <= unconsumed r ->
  wp (memmem_custom r (current_pos r) (unconsumed r) needle) (fun o =>
    match o with
    | Some j => 0 <= j <= unconsumed r - len needle /\ occurs r needle j /\ forall k, 0 <= k < j -> ~ occurs r needle k
    | None => forall k, 0 <= k <= unconsumed r - len needle -> ~ occurs r needle k
    end).
Proof.
  intros Hr Hn Hl. unfold memmem_custom. assert (0 < len needle) by (destruct needle; [done|]; rewrite len_cons; pose proof (len_nonneg needle); lia).
  rewrite (proj2 (Z.eqb_neq _ _)) by lia. rewrite unconsumed_in in * by done. destruct Hr as [Hp Hlt].
  rewrite wsub_small by (unfold fits; lia). apply memmem_loop_first; [done|lia..| |lia]. unfold data_len, len in *. lia.
Qed.

Lemma memmem_behind r needle : in_buffer r -> unconsumed r < len needle ->
  memmem_custom r (current_pos r) (unconsumed r) needle = Panic.
Proof.
  intros Hr Hl. unfold memmem_custom. rewrite unconsumed_in in * by done. destruct Hr as [Hp Hlt].
  rewrite (proj2 (Z.eqb_neq _ _)) by lia. rewrite Nat.add_comm. cbn [Nat.add memmem_loop].
  rewrite (proj2 (Z.ltb_ge _ _)) by (apply wrap_fits; lia). 
  assert (read_bytes r (current_pos r + 0) (len needle) = Panic) as ->; [|done].
  unfold read_bytes. rewrite (proj2 (andb_false_iff _ _)); [done|]. right. lia.
Qed.

End strings.

(** C35: The decoders of the probe keep to their buffers: from a position in the
    buffer, each of them returns, without a read outside of the buffer and for
    any outcome of its allocations, and leaves the buffer as it is except for a
    position that is not smaller and still in the buffer. *)
Theorem decoders_keep_to_buffer (M : Malloc) :
  safe decoder_extract_char /\ safe decoder_extract_bool /\ safe decode_unsigned_int /\ safe decode_string_int16
  /\ (forall w, 0 <= w -> safe (decoder_extract_uint w) /\ safe (decoder_extract_int w))
  /\ (forall n, 0 <= n -> safe (fun r => decoder_extract_char_array r n) /\ safe (fun r => decoder_extract_prefix_ignore r n)
        /\ safe (fun r => decoder_extract_raw_data_with_len r n) /\ safe (fun r => decoder_extract_string r n))
  /\ (forall c, safe (fun r => decoder_extract_str_until_char r c)).
Proof.
  split; [apply safe_char|]. split; [apply safe_bool|]. split; [apply safe_unsigned_int|]. split; [apply safe_string_int16|].
  split; [intros w Hw; split; [by apply safe_uint|by apply safe_int]|]. split; [|apply safe_until_char].
  intros n Hn. split; [by apply safe_char_array|]. split; [by apply safe_prefix_ignore|].
  split; [by apply safe_raw_data|by apply safe_string].
Qed.

(** The search for a string gives the bytes before its first occurrence and
    moves behind it, and finds it when it is there; it reads outside of the
    buffer exactly when fewer bytes are left than the string has. *)
Theorem until_str_first (M : Malloc) (r : raw_data_s) (s : bytes) :
  (forall n, malloc n = true) -> in_buffer r -> s <> [] ->
  (unconsumed r < len s -> decoder_extract_str_until_str r s = Panic)
  /\ (len s <= unconsumed r ->
      (exists j, decoder_extract_str_until_str r s
          = Ret (advance r (j + len s), Ok (take (Z.to_nat j) (drop (Z.to_nat (current_pos r)) (data r))))
         /\ 0 <= j <= unconsumed r - len s /\ occurs r s j /\ forall k, 0 <= k < j -> ~ occurs r s k)
      \/ (decoder_extract_str_until_str r s = Ret (r, Err STATE_NOT_FOUND)
         /\ forall k, 0 <= k <= unconsumed r - len s -> ~ occurs r s k)).
Proof.
  intros Hmalloc Hr Hs. unfold decoder_extract_str_until_str. split.
  - intros Hl. by rewrite memmem_behind.
  - intros Hl. pose proof (memmem_first r s Hr Hs Hl) as H. apply wp_exists in H as ([j|] & -> & H); cbn [mbind run_bind]; [left|by right].
    destruct H as (Hj & Ho & Hk). exists j. split; [|by repeat split; try lia].
    unfold extract_prefix_bytes_string. rewrite Hmalloc. pose proof (len_nonneg s). pose proof Hr as [Hp Hlt].
    rewrite unconsumed_in in * by done. unfold read_bytes. rewrite (proj2 (andb_true_iff _ _)) by lia. cbn [mbind run_bind].
    rewrite wadd_small by (unfold fits; lia). by rewrite offset_in by (done || lia).
Qed.

(** "+OK" of Redis, up to the end of the line, and after it *)
Definition ex_line : raw_data_s :=
  {| flags := 0; timestamp_ns := 0; rd_index := 0; isBrokeData := 0; current_pos := 1; data := [43; 79; 75; 13; 10] |}.

Lemma until_str_first_witness :
  decoder_extract_str_until_str (M := plenty) ex_line [13; 10] = Ret (advance ex_line 4, Ok [79; 75])
  /\ decoder_extract_str_until_str (M := plenty) (advance ex_line 3) [13; 10] = Panic.
Proof.
  split; [by vm_compute|].
  apply (until_str_first plenty (advance ex_line 3) [13; 10]); [done|by vm_compute|done|by vm_compute].
Defined.

(** ** Varints *)

(** The unsigned varint of [v] in at most [n] bytes: seven bits a byte, the lowest first *)
Fixpoint varint (n : nat) (v : Z) : bytes :=
  match n with
  | O => []
  | S n => if v <? 128 then [v] else (v mod 128 + 128) :: varint n (v / 128)
  end.

Lemma varint_low c : 0 <= c < 128 -> char_to_u64 c = c /\ Z.land c 0x80 = 0.
Proof.
  intros Hc. unfold char_to_u64, to_signed. rewrite (proj2 (Z.ltb_lt _ _)) by lia. rewrite wrap_small by (unfold fits; lia).
  split; [done|]. apply Z.bits_inj_0. intros n. rewrite Z.land_spec. change 0x80 with (2 ^ 7).
  rewrite Z.pow2_bits_eqb by lia. destruct (decide (n = 7)) as [->|Hn]; [|rewrite (proj2 (Z.eqb_neq _ _)) by lia; apply andb_false_r].
  rewrite andb_true_r. rewrite Z.testbit_eqb by lia. rewrite Z.div_small by lia. done.
Qed.

Lemma varint_high m : 0 <= m < 128 -> Z.land (char_to_u64 (m + 128)) 0x80 <> 0 /\ Z.land (char_to_u64 (m + 128)) 0x7f = m.
Proof.
  intros Hm. unfold char_to_u64, to_signed. rewrite (proj2 (Z.ltb_ge _ _)) by (change (2 ^ (8 - 1)) with 128; lia).
  assert (wrap 64 (m + 128 - 2 ^ 8) = m + 128 + (2 ^ 56 - 1) * 2 ^ 8) as ->.
  { unfold wrap. symmetry. apply Z.mod_unique with (-1); lia. }
  split.
  - intros H. assert (Z.testbit (Z.land (m + 128 + (2 ^ 56 - 1) * 2 ^ 8) (2 ^ 7)) 7 = false) as E by (change (2 ^ 7) with 0x80; rewrite H; done).
    rewrite Z.land_spec, Z.pow2_bits_true, andb_true_r in E by lia. rewrite Z.testbit_eqb in E by lia.
    replace (m + 128 + (2 ^ 56 - 1) * 2 ^ 8) with (m + (1 + (2 ^ 56 - 1) * 2) * 2 ^ 7) in E by lia.
    rewrite Z.div_add, Z.div_small in E by lia. done.
  - change 0x7f with (Z.ones 7). rewrite Z.land_ones by lia.
    replace (m + 128 + (2 ^ 56 - 1) * 2 ^ 8) with (m + (1 + (2 ^ 56 - 1) * 2) * 2 ^ 7) by lia.
    rewrite Z.mod_add by lia. apply Z.mod_small. lia.
Qed.

Lemma shift_fits v i : 0 <= i -> 0 <= v -> v * 2 ^ i < 2 ^ 64 -> wshl 64 v i = Z.shiftl v i.
Proof.
  intros Hi Hv Hl. unfold wshl. apply wrap_small. rewrite Z.shiftl_mul_pow2 by done. unfold fits.
  assert (0 < 2 ^ i) by (apply Z.pow_pos_nonneg; lia). lia.
Qed.

Lemma varint_loop_ok n fuel r pre v suf i acc :
  at_pos r pre (varint n v ++ suf) -> 0 <= v < 2 ^ (7 * Z.of_nat n) -> (0 < n < fuel)%nat ->
  0 <= i -> i + 7 * Z.of_nat n = 35 -> fits i acc ->
  varint_loop fuel r 35 i acc = Ret (advance r (len (varint n v)), Ok (to_signed 64 (v * 2 ^ i + acc))).
Proof.
  revert fuel r pre v i acc. induction n as [|n IH]; intros fuel r pre v i acc H Hv Hn Hi Hin Hacc; [lia|].
  destruct fuel as [|fuel]; [lia|]. cbn [varint_loop]. rewrite (proj2 (Z.leb_gt _ _)) by lia.
  assert (forall u, 0 <= u < 128 -> wshl 64 u i = Z.shiftl u i) as Hshift.
  { intros u Hu. apply shift_fits; [lia..|]. apply Z.lt_le_trans with (2 ^ 7 * 2 ^ i); [apply Z.mul_lt_mono_pos_r; [apply Z.pow_pos_nonneg|]; lia|].
    rewrite <- Z.pow_add_r by lia. apply Z.pow_le_mono_r; lia. }
  cbn [varint] in *. destruct (v <? 128) eqn:E.
  - cbn [app] in H. rewrite (extract_char_at _ _ _ _ H). cbn [mbind run_bind]. destruct (varint_low v) as [-> ->]; [lia|].
    rewrite Z.eqb_refl, Hshift, lor_shiftl_add by (done || lia). done.
  - cbn [app] in H. rewrite (extract_char_at _ _ _ _ H). cbn [mbind run_bind].
    pose proof (Z.mod_pos_bound v 128 ltac:(lia)) as Hm. pose proof (Z.div_mod v 128 ltac:(lia)) as Hdm.
    destruct (varint_high (v mod 128) Hm) as [Hne Heq]. rewrite (proj2 (Z.eqb_neq _ _)) by done. rewrite Heq.
    rewrite Hshift, lor_shiftl_add by (done || lia). rewrite (wadd_small 8) by (unfold fits; lia).
    assert (2 ^ (7 * Z.of_nat (S n)) = 128 * 2 ^ (7 * Z.of_nat n)) as Hpow.
    { replace (7 * Z.of_nat (S n)) with (7 + 7 * Z.of_nat n) by lia. by rewrite Z.pow_add_r by lia. }
    apply (at_pos_advance _ _ [_]) in H. change (len [_]) with 1 in H.
    rewrite (IH fuel _ _ (v / 128) (i + 7) _ H).
    + rewrite advance_advance, len_cons. do 4 f_equal. rewrite Z.pow_add_r by lia. lia.
    + lia.
    + destruct n; [|lia]. cbn in Hpow. lia.
    + lia.
    + lia.
    + unfold fits in *. rewrite Z.pow_add_r by lia. assert (0 < 2 ^ i) by (apply Z.pow_pos_nonneg; lia). nia.
Qed.

(** An unsigned varint of at most 32 bits is decoded to the [int32_t] with its
    bits, and the position moves behind it. *)
Theorem varint_roundtrip (r : raw_data_s) (pre suf : bytes) (v : Z) :
  fits 32 v -> at_pos r pre (varint 5 v ++ suf) ->
  decode_unsigned_int r = Ret (advance r (len (varint 5 v)), Ok (to_signed 32 v)).
Proof.
  intros Hv H. unfold decode_unsigned_int, decode_unsigned_int_core.
  rewrite (varint_loop_ok 5 6 r pre v suf 0 0 H) by (unfold fits in *; lia). cbn [mbind run_bind]. rewrite Z.mul_1_r, Z.add_0_r.
  unfold to_signed at 2. rewrite (proj2 (Z.ltb_lt _ _)) by (unfold fits in Hv; lia). by rewrite wrap_small.
Qed.

Lemma varint_roundtrip_witness :
  varint 5 4294967295 = [255; 255; 255; 255; 15]
  /\ decode_unsigned_int {| flags := 0; timestamp_ns := 0; rd_index := 0; isBrokeData := 0; current_pos := 0; data := [255; 255; 255; 255; 15] |}
     = Ret (advance {| flags := 0; timestamp_ns := 0; rd_index := 0; isBrokeData := 0; current_pos := 0; data := [255; 255; 255; 255; 15] |} 5, Ok (-1)).
Proof.
  split; [by vm_compute|].
  apply (varint_roundtrip {| flags := 0; timestamp_ns := 0; rd_index := 0; isBrokeData := 0; current_pos := 0; data := [255; 255; 255; 255; 15] |} [] [] 4294967295);
    [by vm_compute|]. split; [by vm_compute|]. by split.
Defined.
